(* ===== verification/_CoqProject ===== *)
-Q . S2P
Prelude.v
CString.v
CLib.v
NioProtocol.v
NioDiskProtocol.v
NioTransaction.v
Slip.v
NioDriver.v
DosCommands.v
DosDisk.v
DosWrite.v
DosProps.v
DosControl.v
DosConfig.v
DosInit.v
DosConsole.v
DosConsoleProps.v
FnLib.v
DiskRetry.v
PacketBackend.v
PaulaUart.v
SerialLifecycle.v
SerialConfig.v
DiskMedia.v
DiskDriver.v
ExecIO.v
Effects.v
IoQueue.v
DiskDevice.v
DiskDeviceProps.v
DiskDeviceSystem.v
DiskCatalog.v
DiskDeviceExample.v
NioBackend.v
SerialBackend.v
SerialBackendProps.v
SerialBackendSystem.v
SerialBackendLine.v
SerialBackendShape.v
SerialBackendExample.v
SerialDevice.v
SerialDeviceProps.v
SerialDeviceOpen.v
SerialDeviceCommands.v
SerialDeviceClose.v
SerialDeviceSystem.v
SerialDeviceTransfers.v
SerialDeviceExample.v
NioDevice.v
NioSerial.v
ExchangeOpts.v
ExchangeOptsProps.v
ExchangePackets.v
ExchangeDisk.v
ExchangeDiskProps.v
ExchangeAdapter.v
ExchangeAdapterProps.v
ExchangeSystem.v
ExchangeExample.v
ExchangeMatrix.v
ExchangeMatrixProps.v
Mount.v
MountProps.v
DirectoryBackend.v
DirectoryProps.v
DirectoryTrail.v
DirectorySystem.v
DirectoryBackendExample.v
