(* ===== verification/Prelude.v ===== *)
(** * FujiNet NIO drivers: a verification development

    The repository holds the drivers that connect two machines to a FujiNet
    device: an MS-DOS block device driver (src/msdos) and a family of Amiga
    exec devices (src/amiga), with a retry policy they could share
    (src/common).  Every request travels as a FujiBus packet: a six-byte
    header with length and checksum, then field descriptors and a payload.

    ** MS-DOS, bottom up

    - NioProtocol (src/msdos/src/nio/nio_protocol.c): header, checksum and the
      validation of a response.  The validation accepts exactly the encoder's
      frames and detects single-byte damage.
    - NioDiskProtocol (nio_disk_protocol.c): DiskService request builders and
      response parsers with their 16-bit arithmetic.
    - NioTransaction (nio_transaction.c): one request with stale-response
      skipping and retries, over any port.  What a successful call delivers,
      how many requests it sends, that it returns.
    - Slip (serial/*.asm): the SLIP encoder and decoder and the port
      operations, on a UART that is a list of received events and the list of
      bytes sent.  What the encoder puts on the line the decoder receives, and
      an answered call completes.
    - NioDriver (nio.c): the module's statics and every operation on them;
      memory safety of its buffers, reads and writes end to end.
    - DosCommands (driver/commands.c): every device command, the sector cache,
      the disk-info cache and the control channel, written against the class
      of client operations [NioClient].  DosDisk and DosWrite hold the facts
      about the cache and the loops; DosProps states that reads and writes
      refine a disk, and that they return; DosControl the control channel
      (also driver/intf5.c).
    - DosConfig (driver/init.c, serial/port_config.c, serial/id8250.c): the
      CONFIG.SYS line, the settings, the divisor and the UART probe.
    - DosInit (driver/init.c, driver/dispatch.c): initialisation, the dispatch
      table and [Interrupt]; it also gives the [NioClient] instance that
      NioDriver provides.
    - DosConsole (util/print.c): numbers, texts, hex dumps and [consolef], as
      the characters they send to the BIOS.  DosConsoleProps: the console
      shows its arguments, its numbers are read back by strtoul, a dump has a
      line for every 16 bytes; and where output goes wrong.

    ** Amiga

    - FnLib: what the drivers use of fujinet-nio-lib, which is not in the
      repository, as a class of operations with laws and one concrete
      instance.
    - DiskRetry (src/common/fujinet_disk_retry.c,
      channels/rs232/fujinet_nio_client.c): attempts, results and diagnostics
      of a disk exchange.
    - PacketBackend (nio.device/fujinet_nio_packet_backend.c): the guard that
      quarantines a transport after an uncertain exchange, with callbacks
      that may re-enter it; nothing is sent while an earlier packet may still
      execute.
    - PaulaUart (serial.device/fujinet_paula_uart.c): the receive ring, as a
      bounded FIFO.
    - SerialLifecycle (serial.device/fujinet_serial_lifecycle.c): the
      lifecycle that the host tests drive, twin of the device's own: open,
      close, reads, writes, interrupts and soft interrupts as steps, with an
      invariant over every order of steps and completion of both transfers.
    - SerialDevice (serial.device/fujinet_serial_device.c, _rbf.S): the exec
      device on Paula, over the chip and exec as a parameter; [preempt] marks
      every point where an interrupt may come in.  SerialDeviceProps: what an
      interrupt may change, and what the chip has gone through.
      SerialDeviceOpen: [live], the invariant of an open device, and the soft
      interrupts.  SerialDeviceCommands: each command leads from rest to rest
      and answers or keeps its request.  SerialDeviceClose: open, close and
      expunge.  SerialDeviceSystem: any history of calls and interrupts
      accounts for every request, loses no wake-up (what a pending request
      waits for has been asked of the chip) and returns.
      SerialDeviceTransfers: pending reads get the words heard since, in
      order, and pending writes send their bytes; the receive loops are the
      ring's ingest; what is refused.  SerialDeviceExample: a chip in memory.
    - DiskMedia (common/fujinet_disk_filesystem.c, _media_profile.c,
      _dos_envec.c): from a disk's geometry and boot block to its DosEnvec.
    - DiskDriver (common/fujinet_disk_driver.c): the drive's state, mounting,
      and block transfers refined to the block store behind the client.
    - IoQueue (common/fujinet_io_queue.c): the intrusive queue, on a heap of
      nodes, refined to a list.
    - DiskDevice (disk.device/fujinet_disk_device.c): the trackdisk-compatible
      exec device over eight drivers: every vector, every command, the request
      FIFO and its worker, change notification, the stored mappings and the
      trace; [sys_step] interleaves the calls of clients with the worker, which
      takes, prepares, executes and concludes a request in separate steps.
      DiskDeviceProps: what processing a request does, reads
      and writes down to the blocks of the server, change notification, the
      status fast path.  DiskDeviceSystem: the invariant of every reachable
      state, that nothing is lost or answered twice (by clients that remove a
      change interrupt only once it is registered), that the worker neither
      sleeps on work nor runs forever, when an expunge removes the device.
      DiskCatalog: media and stored mappings change together.
      DiskDeviceExample: an instance on a server in memory, on which the
      theorems are applied.
    - NioDevice (nio.device/fujinet_nio_device.c): the exec device through
      which exchanges reach the backend, as clients, worker and expunge
      interleaved; a request is answered as often as it was submitted, once
      less while it is pending, and what a completed exchange tells its
      caller.
    - SerialConfig (include/fujinet_nio_serial_config.h,
      fujinet_nio_serial_channel.h, fujinet_nio_session_diag.h): the serial
      settings' payload, the channel's result codes and drain policy, the
      session diagnostics block.
    - NioBackend (include/fujinet_nio_backend.h): the operations a backend of
      nio.device offers, as a record.
    - SerialBackend (nio.device/fujinet_nio_serial_backend.c): the backend over
      serial.device and timer.device, as computations of the Effects monad on
      exec requests with their owners.  SerialBackendProps: each function
      keeps exec's rules; SerialBackendSystem: from boot, any calls keep
      them and return once the line is quiet, opening is all or nothing, what
      an exchange reports; SerialBackendLine: the session of an exchange runs
      over an ideal line, each byte in order and once; SerialBackendShape:
      the arrays keep their sizes and counters stay within them;
      SerialBackendExample: a wire in memory.  NioSerial: the serial backend
      below NioDevice.
    - DirectoryBackend (nio.device/fujinet_nio_directory_backend.c): packets as
      files of a directory shared with a peer, over dos.library as a
      parameter, with a log of what happens to the directory.
      DirectoryProps: most functions are [gentle], they hold nothing, open
      the library before they use it, and leave the records of an uncertain
      exchange as they were; DirectoryTrail: the others, which write and
      remove those records; DirectorySystem: from boot, across calls, crashes
      and restarts, a request that may still execute has its AMBIGUOUS
      record; DirectoryBackendExample: a volume and a peer in memory, and
      what is different under V34.
    - ExchangeOpts (tools/fujinet_nio_exchange_opts.c): the command line of
      fujinet-nio-exchange, the plan of a trial, its log line and its packets.
      ExchangeOptsProps: the parser accepts exactly the command lines that its
      grammar gives to valid options.  ExchangePackets: each builder leaves one sealed packet.
    - ExchangeDisk (tools/fujinet_nio_exchange_disk.c): the disk trials over
      any adapter; ExchangeDiskProps: the protocol they keep.
      ExchangeAdapter (_exchange_disk_adapter.c): the adapter to disk.device
      and nio.device; ExchangeAdapterProps: the trials over the class
      [TrackDisk] of what behaves like a disk.  ExchangeSystem: DiskDevice,
      with its queue and worker, is one; ExchangeExample: a run of 25 trials.
    - ExchangeMatrix (tools/fujinet-nio-exchange.c): the packet trials and
      their steps, for the packet types other than disk; ExchangeMatrixProps:
      the requests of a run byte for byte, what its success means, and the
      times it shows.
    - Mount (tools/fujinet-mount.c): the mount tool's command line and its
      requests, in the build for Workbench 1.3; MountProps: what each form of
      the usage text does, and which command lines of all it misses.
    - ExecIO: the constants of exec, trackdisk and the new-style device
      interface that the devices use.
    - Effects: the state monad of the backends, with loops that may run out of
      fuel, and its weakest precondition.  CString: string literals.  CLib:
      strtoul, strcmp and the snprintf conversions the tools use.

    ** Conventions

    A machine integer is a [Z] and each C conversion is written out ([u8],
    [u16], [u32]).  A buffer is a list of bytes; reading outside it gives 0
    and writing outside it does nothing, and the memory-safety theorems are
    what shows that it does not happen.  Structures are records, an update of
    a field is a setter ([x |> set_f v]).  Code outside the repository is a
    parameter with its documented laws as hypotheses or a class, and every
    theorem with such a hypothesis has a closed witness.

    ** Fuel

    Loops whose bound is not an argument carry fuel: [nio_fuel] (stale limit
    plus one receptions), [input_fuel] and [output_fuel] (one iteration per
    sector of the request), [packet_fuel] (one descriptor per packet byte),
    [sample_fuel] (Paula's depth), the queue's walk (the size of the heap),
    [worker_pump] and [worker_drain] (the queued requests and one turn more),
    [abort_unit_loop] (the nodes in memory), [remove_all_loop] (the
    registrations of the unit).  In the serial backend a poll lasts at most its
    milliseconds and one turn more, a drain [drain_fuel] turns, and a flush as
    long as the line keeps talking, which its theorems bound by the line's
    remaining reads.  The directory backend polls [poll_fuel] times at most
    (5000 ms in steps of 20), and its file loops move on by a byte a turn.  In
    serial.device the wait for the shift register has the source's bound
    ([TSRE_WAIT_SPINS]), the receive loops have [rx_fuel] turns, enough for a
    receiver whose bursts end ([Steady]), and three turns are enough for the
    soft interrupts ([soft_fuel]), as each of the two runs once.
    An idle disk.device answers one request within four turns of its worker
    ([ExchangeSystem.DoIO]).
    Theorems state that this is enough; none is conditional on it.

    ** Not modelled

    What the Amiga tools print, the DOS_SAFE build of util/print.c, register
    access and the entry glue in assembly, the POSIX build of the directory
    backend (for host tests), and the tests.  The segment registers of the SLIP
    decoder, which writes its line status through a DS that may have moved.  In
    disk.device, walks of the worker or of CloseDevice over a list of change
    interrupts, or CloseDevice's over the queue, that another call changes
    meanwhile (the code runs them without Disable).  Of fujinet-nio-exchange the disk
    provocation and the isolation suite, which print what the devices answer;
    of fujinet-mount the --boundary self test, which runs the device's vectors
    from two processes.  The other tools load, unload and probe devices by
    fixed sequences of library calls. *)

From stdpp Require Export prelude list.
From Stdlib Require Export ZArith Lia.

#[global] Open Scope Z_scope.

(** ** Machine-width integers

    A [uint8_t], [uint16_t] or [uint32_t] of the source is a [Z]; the
    conversion the C compiler inserts at an assignment or a cast is written
    out as one of the three wraps below. *)

Definition u8 (x : Z) : Z := x mod 256.
Definition u16 (x : Z) : Z := x mod 65536.
Definition u32 (x : Z) : Z := x mod 4294967296.

Definition is_u8 (x : Z) : Prop := 0 <= x < 256.
Definition is_u16 (x : Z) : Prop := 0 <= x < 65536.
Definition is_u32 (x : Z) : Prop := 0 <= x < 4294967296.

(** A C condition used as a 0/1 value. *)
Definition c_bool (b : bool) : Z := if b then 1 else 0.

(** ** Buffers

    A C buffer is the list of the bytes it holds.  [b .[ i ]] reads one byte,
    [put_at] writes one, [overwrite] is [memcpy] of a whole source list at an
    offset and [slice] the bytes a [memcpy] reads. *)

Definition byte_at (b : list Z) (i : nat) : Z := nth i b 0.
Definition put_at (b : list Z) (i : nat) (v : Z) : list Z := <[i:=v]> b.
Definition slice (b : list Z) (off len : nat) : list Z := take len (drop off b).
Definition overwrite (dst : list Z) (off : nat) (src : list Z) : list Z :=
  take off dst ++ src ++ drop (off + length src) dst.
Definition bytes_ok (b : list Z) : Prop := Forall is_u8 b.
Definition zeros (n : nat) : list Z := replicate n 0.

(** The C string that starts a buffer: its bytes up to the first NUL. *)
Fixpoint c_string (mem : list Z) : list Z :=
  match mem with
  | [] => []
  | c :: mem' => if c =? 0 then [] else c :: c_string mem'
  end.

Declare Scope buffer_scope.
Delimit Scope buffer_scope with buffer.
Notation "b .[ i ]" := (byte_at b i)
  (at level 1, left associativity, format "b .[ i ]") : buffer_scope.
#[global] Open Scope buffer_scope.

(** State threading: [s |> f |> g] applies [f], then [g]. *)
Declare Scope state_scope.
Notation "s |> f" := (f s)
  (at level 50, f at level 49, left associativity, only parsing) : state_scope.
#[global] Open Scope state_scope.

(** ** Record update

    A state record gives its eta expansion as an instance of [Eta];
    [derive_setter p] is then the function that replaces field [p]. *)
Class Eta (R : Type) := eta : R -> R.

Ltac derive_setter p :=
  let v := fresh "v" in
  let x := fresh "x" in
  intros v x;
  let T := type of x in
  let t := eval hnf in (@eta T _ x) in
  let q := eval pattern (p x) in t in
  match q with
  | ?f _ => let b := eval cbv beta in (f v) in exact b
  end.

(** ** Tactics *)

(** Unfold the widths everywhere and let [lia] work on the divisions. *)
Ltac unfold_widths :=
  unfold is_u8, is_u16, is_u32, u8, u16, u32 in *.
Ltac width_lia :=
  unfold_widths; Z.to_euclidean_division_equations; lia.

(** Case analysis on the innermost boolean test or match of the goal. *)
Ltac case_test :=
  match goal with
  | |- context [if ?b then _ else _] =>
      lazymatch b with
      | context [if _ then _ else _] => fail
      | _ => let E := fresh "Htest" in destruct b eqn:E
      end
  end.

(** The same for a test in a hypothesis. *)
Ltac case_test_in H :=
  match type of H with
  | context [if ?b then _ else _] =>
      lazymatch b with
      | context [if _ then _ else _] => fail
      | _ => let E := fresh "Htest" in destruct b eqn:E
      end
  end.

Create HintDb fuji.

(** ** Lemmas on widths *)

Lemma u8_range x : is_u8 (u8 x).
Proof. width_lia. Qed.
Lemma u16_range x : is_u16 (u16 x).
Proof. width_lia. Qed.
Lemma u32_range x : is_u32 (u32 x).
Proof. width_lia. Qed.

Lemma u8_id x : is_u8 x -> u8 x = x.
Proof. intros; apply Z.mod_small; exact H. Qed.
Lemma u16_id x : is_u16 x -> u16 x = x.
Proof. intros; apply Z.mod_small; exact H. Qed.
Lemma u32_id x : is_u32 x -> u32 x = x.
Proof. intros; apply Z.mod_small; exact H. Qed.

#[export] Hint Resolve u8_range u16_range u32_range : fuji.

(** Disjoint bits: the [|] of a low part and a shifted high part is a sum. *)
Lemma lor_shiftl_add lo hi n :
  0 <= n -> 0 <= lo < 2 ^ n -> Z.lor lo (Z.shiftl hi n) = lo + hi * 2 ^ n.
Proof.
  intros Hn Hlo. rewrite <- Z.shiftl_mul_pow2 by done. symmetry.
  apply Z.add_nocarry_lor, Z.bits_inj'. intros i Hi.
  rewrite Z.land_spec, Z.bits_0. destruct (Z.lt_ge_cases i n).
  - rewrite Z.shiftl_spec_low by lia. apply andb_false_r.
  - rewrite <- (Z.mod_small lo (2 ^ n)) by done.
    by rewrite Z.mod_pow2_bits_high by lia.
Qed.

Lemma land_255 x : Z.land x 255 = x mod 256.
Proof. by change 255 with (Z.ones 8); rewrite Z.land_ones. Qed.

Lemma shiftr_8 x : Z.shiftr x 8 = x / 256.
Proof. by rewrite Z.shiftr_div_pow2. Qed.
Lemma shiftr_16 x : Z.shiftr x 16 = x / 65536.
Proof. by rewrite Z.shiftr_div_pow2. Qed.
Lemma shiftr_24 x : Z.shiftr x 24 = x / 16777216.
Proof. by rewrite Z.shiftr_div_pow2. Qed.

(** ** Lemmas on buffers *)

Lemma byte_at_lookup b i v : b !! i = Some v -> b.[i] = v.
Proof. intros H. unfold byte_at. by rewrite nth_lookup, H. Qed.

Lemma byte_at_u8 b i : bytes_ok b -> is_u8 b.[i].
Proof.
  intros Hb. unfold byte_at. rewrite nth_lookup.
  destruct (b !! i) eqn:E; simpl; [|done].
  by apply (Forall_lookup_1 _ _ _ _ Hb E).
Qed.
#[export] Hint Resolve byte_at_u8 : fuji.

Lemma length_put_at b i v : length (put_at b i v) = length b.
Proof. apply length_insert. Qed.

Lemma byte_at_put_eq b i v : (i < length b)%nat -> (put_at b i v).[i] = v.
Proof. intros. by apply byte_at_lookup, list_lookup_insert_eq. Qed.

Lemma byte_at_put_ne b i j v : i <> j -> (put_at b i v).[j] = b.[j].
Proof.
  intros. unfold byte_at, put_at. by rewrite !nth_lookup, list_lookup_insert_ne.
Qed.

Lemma byte_at_take b n i : (i < n)%nat -> (take n b).[i] = b.[i].
Proof. intros. unfold byte_at. by rewrite !nth_lookup, lookup_take_lt. Qed.

Lemma put_at_bytes_ok b i v : bytes_ok b -> is_u8 v -> bytes_ok (put_at b i v).
Proof. intros. by apply Forall_insert. Qed.
#[export] Hint Resolve put_at_bytes_ok : fuji.

Lemma length_slice b off len :
  (off + len <= length b)%nat -> length (slice b off len) = len.
Proof. intros. unfold slice. rewrite length_take, length_drop. lia. Qed.

Lemma slice_all b : slice b 0 (length b) = b.
Proof. unfold slice. rewrite drop_0. by apply take_ge. Qed.

Lemma slice_bytes_ok b off len : bytes_ok b -> bytes_ok (slice b off len).
Proof. intros. by apply Forall_take, Forall_drop. Qed.
#[export] Hint Resolve slice_bytes_ok : fuji.

Lemma length_overwrite dst off src :
  (off + length src <= length dst)%nat -> length (overwrite dst off src) = length dst.
Proof.
  intros. unfold overwrite.
  rewrite !length_app, length_take, length_drop. lia.
Qed.

Lemma slice_overwrite_same dst off src :
  (off + length src <= length dst)%nat ->
  slice (overwrite dst off src) off (length src) = src.
Proof.
  intros. unfold slice, overwrite.
  rewrite drop_app_length' by (rewrite length_take; lia).
  by rewrite take_app_length.
Qed.

(** A write of one byte is a one-byte copy; adjacent copies are one copy. *)
Lemma put_at_as_overwrite b i v : (i < length b)%nat -> put_at b i v = overwrite b i [v].
Proof.
  intros. unfold put_at, overwrite. rewrite insert_take_drop by done. simpl.
  by rewrite Nat.add_1_r.
Qed.

Lemma overwrite_adjacent b off s1 s2 :
  (off + length s1 + length s2 <= length b)%nat ->
  overwrite (overwrite b off s1) (off + length s1) s2 = overwrite b off (s1 ++ s2).
Proof.
  intros. unfold overwrite at 1 3.
  replace (take (off + length s1) (overwrite b off s1)) with (take off b ++ s1).
  2:{ unfold overwrite. rewrite app_assoc, take_app_le by (rewrite length_app, length_take; lia).
      rewrite (take_ge (take off b ++ s1)); [done|]. rewrite length_app, length_take. lia. }
  replace (drop (off + length s1 + length s2) (overwrite b off s1))
    with (drop (off + length s1 + length s2) b).
  2:{ unfold overwrite. rewrite app_assoc, drop_app_ge by (rewrite length_app, length_take; lia).
      rewrite drop_drop, length_app, length_take. f_equal. lia. }
  rewrite length_app, <- !app_assoc. do 4 f_equal. lia.
Qed.

Lemma overwrite_zeros n src :
  (length src <= n)%nat -> overwrite (zeros n) 0 src = src ++ zeros (n - length src).
Proof. intros. unfold overwrite, zeros. simpl. by rewrite drop_replicate. Qed.

Lemma overwrite_lookup_out dst off src i :
  (off + length src <= length dst)%nat ->
  (i < off \/ off + length src <= i)%nat ->
  overwrite dst off src !! i = dst !! i.
Proof.
  intros Hlen Hi. unfold overwrite. destruct Hi.
  - rewrite lookup_app_l by (rewrite length_take; lia).
    by rewrite lookup_take_lt by lia.
  - rewrite lookup_app_r by (rewrite length_take; lia).
    rewrite lookup_app_r by (rewrite length_take; lia).
    rewrite length_take, lookup_drop. f_equal. lia.
Qed.

Lemma take_overwrite (b : list Z) off src n :
  (n <= off)%nat -> (off <= length b)%nat -> take n (overwrite b off src) = take n b.
Proof.
  intros. unfold overwrite. rewrite take_app_le by (rewrite length_take; lia).
  rewrite take_take. f_equal. lia.
Qed.

Lemma overwrite_bytes_ok dst off src :
  bytes_ok dst -> bytes_ok src -> bytes_ok (overwrite dst off src).
Proof.
  intros. unfold overwrite, bytes_ok.
  by repeat first [apply Forall_app_2 | apply Forall_take | apply Forall_drop].
Qed.
#[export] Hint Resolve overwrite_bytes_ok : fuji.

Lemma zeros_bytes_ok n : bytes_ok (zeros n).
Proof. apply Forall_replicate. done. Qed.
#[export] Hint Resolve zeros_bytes_ok : fuji.

(** Only whether the option is [None] matters to a constant map. *)
Lemma option_map_const {A B} (c : B) (o1 o2 : option A) :
  (o1 = None <-> o2 = None) -> option_map (fun _ => c) o1 = option_map (fun _ => c) o2.
Proof. intros [H1 H2]. destruct o1, o2; try done; [by discriminate H2|by discriminate H1]. Qed.

(** ** How often a value is in a log *)

Definition occurrences (r : Z) (l : list Z) : nat := length (filter (fun x => x = r) l).

Lemma occurrences_perm r l l' : l ≡ₚ l' -> occurrences r l = occurrences r l'.
Proof. intros H. unfold occurrences. by rewrite H. Qed.

Lemma occurrences_app r l l' : occurrences r (l ++ l') = (occurrences r l + occurrences r l')%nat.
Proof. unfold occurrences. by rewrite filter_app, length_app. Qed.

Lemma occurrences_zero r l : occurrences r l = 0%nat <-> r ∉ l.
Proof.
  unfold occurrences. rewrite length_zero_iff_nil. split.
  - intros H Hin. apply (elem_of_nil (A := Z) r). rewrite <- H. by apply list_elem_of_filter.
  - intros H. induction l as [|x l IH]; [done|]. apply not_elem_of_cons in H as [Hx H].
    rewrite filter_cons_False by congruence. by apply IH.
Qed.

Lemma occurrences_nodup r l :
  NoDup l -> occurrences r l = (if decide (r ∈ l) then 1 else 0)%nat.
Proof.
  intros Hl. case_decide as Hr; [|by apply occurrences_zero].
  apply list_elem_of_split in Hr as (a & b & ->).
  apply NoDup_app in Hl as (_ & Ha & [Hb _]%NoDup_cons).
  change (r :: b) with ([r] ++ b). rewrite !occurrences_app.
  rewrite (proj2 (occurrences_zero r b)) by done.
  rewrite (proj2 (occurrences_zero r a)) by (intros Hi; apply (Ha r Hi); left).
  unfold occurrences. by rewrite filter_cons_True.
Qed.

(** ** Little-endian values *)

(** The value of two and of four little-endian bytes, as a sum. *)
Definition le16 (b0 b1 : Z) : Z := b0 + 256 * b1.
Definition le32 (b0 b1 b2 b3 : Z) : Z :=
  b0 + 256 * b1 + 65536 * b2 + 16777216 * b3.

Lemma lor_le16 b0 b1 : is_u8 b0 -> Z.lor b0 (Z.shiftl b1 8) = le16 b0 b1.
Proof. intros. rewrite lor_shiftl_add by (unfold is_u8 in *; lia). unfold le16. lia. Qed.

Lemma lor_le32 b0 b1 b2 b3 :
  is_u8 b0 -> is_u8 b1 -> is_u8 b2 ->
  Z.lor (Z.lor (Z.lor b0 (Z.shiftl b1 8)) (Z.shiftl b2 16)) (Z.shiftl b3 24)
  = le32 b0 b1 b2 b3.
Proof.
  intros. rewrite lor_le16 by done. unfold is_u8, le16 in *.
  rewrite (lor_shiftl_add _ b2) by lia.
  rewrite (lor_shiftl_add _ b3) by lia. unfold le32. lia.
Qed.

Lemma le16_range b0 b1 : is_u8 b0 -> is_u8 b1 -> is_u16 (le16 b0 b1).
Proof. unfold is_u8, is_u16, le16. lia. Qed.
Lemma le32_range b0 b1 b2 b3 :
  is_u8 b0 -> is_u8 b1 -> is_u8 b2 -> is_u8 b3 -> is_u32 (le32 b0 b1 b2 b3).
Proof. unfold is_u8, is_u32, le32. lia. Qed.

Lemma le16_split v : is_u16 v -> le16 (v mod 256) (v / 256 mod 256) = v.
Proof. unfold le16. width_lia. Qed.
Lemma le32_split v :
  is_u32 v ->
  le32 (v mod 256) (v / 256 mod 256) (v / 65536 mod 256) (v / 16777216 mod 256) = v.
Proof. unfold le32. width_lia. Qed.

(** ** C strings *)

Lemma c_string_app a rest : Forall (fun c => c <> 0) a -> c_string (a ++ 0 :: rest) = a.
Proof. induction 1 as [|c a Hc _ IH]; simpl; [done|]. destruct (Z.eqb_spec c 0); [done|]. by rewrite IH. Qed.

Lemma c_string_nonzero b : Forall (fun c => c <> 0) (c_string b).
Proof.
  induction b as [|c b IH]; simpl; [done|]. destruct (Z.eqb_spec c 0); [done|]. by constructor.
Qed.

(** A terminated buffer is its string, the NUL and the rest. *)
Lemma c_string_split b :
  (length (c_string b) < length b)%nat ->
  b = c_string b ++ 0 :: drop (S (length (c_string b))) b.
Proof.
  induction b as [|c b IH]; simpl; [lia|]. destruct (Z.eqb_spec c 0) as [->|]; simpl; [done|].
  intros H. rewrite <- IH by lia. done.
Qed.

Lemma length_c_string b : (length (c_string b) <= length b)%nat.
Proof. induction b as [|c b IH]; simpl; [done|]. destruct (c =? 0); simpl; lia. Qed.
