(* ===== verification/CString.v ===== *)
(** * C string literals

    A literal of the source as the bytes it stands for, without its NUL. *)

From S2P Require Import Prelude.
From stdpp Require Export strings.

#[local] Open Scope string_scope.
#[local] Open Scope list_scope.
#[local] Open Scope Z_scope.

(** A C string literal as bytes. *)
Fixpoint bytes_of_string (s : string) : list Z :=
  match s with
  | EmptyString => []
  | String c s' => Z.of_nat (Ascii.nat_of_ascii c) :: bytes_of_string s'
  end.

