(* ===== verification/CLib.v ===== *)
(** * The C library the tools are written against

    [isspace], [strtoul], [strcmp] and the decimal conversions of [snprintf],
    as the C standard has them for ASCII and a 32-bit [unsigned long].  Text
    is the memory at a pointer, read as 0 beyond the end of the list, so that
    a list of characters is a terminated string. *)

From S2P Require Import Prelude CString.
#[local] Open Scope Z_scope.

Definition ULONG_MAX : Z := 4294967295.

Definition is_space (c : Z) : bool := ((9 <=? c) && (c <=? 13)) || (c =? 32).
Definition is_digit (c : Z) : bool := (48 <=? c) && (c <=? 57).

(** The memory from the first character that is not white space. *)
Fixpoint skip_space (text : list Z) : list Z :=
  match text with
  | [] => []
  | c :: text' => if is_space c then skip_space text' else text
  end.

(** A character as a digit of some base, 36 or more when it is none. *)
Definition digit_value (c : Z) : Z :=
  if is_digit c then c - 48
  else if (97 <=? c) && (c <=? 122) then c - 97 + 10
  else if (65 <=? c) && (c <=? 90) then c - 65 + 10
  else 36.

(** The longest run of digits of [base], its value after [acc], and the
    rest. *)
Fixpoint digits (base : Z) (text : list Z) (acc : Z) : Z * list Z :=
  match text with
  | [] => (acc, [])
  | c :: text' =>
      if digit_value c <? base then digits base text' (acc * base + digit_value c)
      else (acc, text)
  end.

(** [strtoul]'s base 0: a prefix decides, and [0x] is one only before a
    hexadecimal digit. *)
Definition resolve_base (base : Z) (text : list Z) : Z * list Z :=
  let hex := (text.[0] =? 48) && ((text.[1] =? 120) || (text.[1] =? 88))
             && (digit_value text.[2] <? 16) in
  if (base =? 0) && hex || (base =? 16) && hex then (16, drop 2 text)
  else if base =? 0 then (if text.[0] =? 48 then 8 else 10, text)
  else (base, text).

(** The value, the memory at [*endptr], and whether [errno] is ERANGE. *)
Definition strtoul (text : list Z) (base : Z) : Z * list Z * bool :=
  let t := skip_space text in
  let negative := t.[0] =? 45 in
  let t := if negative || (t.[0] =? 43) then drop 1 t else t in
  let '(base, t) := resolve_base base t in
  if negb (digit_value t.[0] <? base) then (0, text, false)
  else
  let '(v, rest) := digits base t 0 in
  if v >? ULONG_MAX then (ULONG_MAX, rest, true)
  else (if negative then u32 (- v) else v, rest, false).

(** [strcmp(a, b) == 0]. *)
Definition str_eq (a b : list Z) : bool := bool_decide (c_string a = c_string b).
(** The same against a literal. *)
Definition str_is (a : list Z) (b : string) : bool := bool_decide (c_string a = bytes_of_string b).

(** [%u] and [%lu]: the decimal digits, most significant first. *)
Fixpoint decimal_digits (fuel : nat) (v : Z) (tail : list Z) : list Z :=
  match fuel with
  | O => tail
  | S fuel =>
      let tail := 48 + v mod 10 :: tail in
      if v <? 10 then tail else decimal_digits fuel (v / 10) tail
  end.
(** Ten digits are enough for 32 bits. *)
Definition decimal (v : Z) : list Z := decimal_digits 10 v [].

(** [snprintf] of a text into [cap] bytes at [buf]: how long the text is, and
    the buffer with as much of it as fits and the terminator. *)
Definition snprintf (buf : list Z) (cap : Z) (text : list Z) : Z * list Z :=
  (Z.of_nat (length text),
   if cap =? 0 then buf else overwrite buf 0 (take (Z.to_nat (cap - 1)) text ++ [0])).

(** ** Decimal text is read back *)

Lemma digit_value_decimal d : 0 <= d < 10 -> digit_value (48 + d) = d.
Proof.
  intros H. unfold digit_value, is_digit. repeat case_match; lia.
Qed.

Lemma digits_step base c text acc :
  digit_value c < base -> digits base (c :: text) acc = digits base text (acc * base + digit_value c).
Proof. intros H. cbn [digits]. by rewrite (proj2 (Z.ltb_lt _ _) H). Qed.

(** What [decimal_digits] puts before [tail]. *)
Lemma decimal_digits_app fuel v tail :
  decimal_digits fuel v tail = decimal_digits fuel v [] ++ tail.
Proof.
  revert v tail. induction fuel as [|fuel IH]; intros v tail; [done|]. cbn [decimal_digits].
  case_match; [done|]. rewrite (IH _ (_ :: tail)), (IH _ [_]). by rewrite <- app_assoc.
Qed.

Lemma decimal_digits_all fuel v :
  0 <= v -> Forall (fun c => 48 <= c <= 57) (decimal_digits fuel v []).
Proof.
  revert v. induction fuel as [|fuel IH]; intros v Hv; cbn [decimal_digits]; [constructor|].
  case_match; [repeat constructor; width_lia|]. rewrite decimal_digits_app.
  apply Forall_app. split; [apply IH; width_lia|repeat constructor; width_lia].
Qed.

Lemma digits_decimal fuel v rest acc :
  0 <= v < 10 ^ Z.of_nat fuel ->
  exists n, digits 10 (decimal_digits fuel v [] ++ rest) acc = digits 10 rest (acc * 10 ^ n + v) /\ 0 <= n.
Proof.
  revert v rest. induction fuel as [|fuel IH]; intros v rest Hv.
  { exists 0. change (10 ^ Z.of_nat 0) with 1 in Hv. cbn. split; [f_equal; lia|lia]. }
  cbn [decimal_digits]. rewrite Nat2Z.inj_succ, Z.pow_succ_r in Hv by lia.
  destruct (Z.ltb_spec v 10) as [H|H].
  - exists 1. cbn [app]. rewrite digits_step, digit_value_decimal by (rewrite ?digit_value_decimal; width_lia).
    split; [f_equal; rewrite (Z.mod_small v) by lia; lia|lia].
  - rewrite decimal_digits_app, <- app_assoc. destruct (IH (v / 10) ([48 + v mod 10] ++ rest)) as (n & -> & Hn).
    { split; [width_lia|]. apply Z.div_lt_upper_bound; lia. }
    exists (n + 1). cbn [app].
    rewrite digits_step, digit_value_decimal by (rewrite ?digit_value_decimal; width_lia).
    split; [|lia]. f_equal. rewrite Z.pow_add_r by lia. width_lia.
Qed.

Lemma length_decimal_digits fuel v tail :
  (length tail + 1 <= length (decimal_digits (S fuel) v tail) <= length tail + S fuel)%nat.
Proof.
  revert v tail. induction fuel as [|fuel IH]; intros v tail.
  - cbn. case_match; cbn; lia.
  - pose proof (IH (v / 10) (48 + v mod 10 :: tail)) as H. cbn [length] in H.
    change (decimal_digits (S (S fuel)) v tail) with
      (if v <? 10 then 48 + v mod 10 :: tail else decimal_digits (S fuel) (v / 10) (48 + v mod 10 :: tail)).
    case_match; cbn [length]; lia.
Qed.

Lemma length_decimal v : (1 <= length (decimal v) <= 10)%nat.
Proof. apply (length_decimal_digits 9 v []). Qed.

(** A nonempty decimal, of digits only. *)
Lemma decimal_cons v : 0 <= v -> exists c t, decimal v = c :: t /\ 48 <= c <= 57.
Proof.
  intros Hv. pose proof (decimal_digits_all 10 v Hv) as H. pose proof (length_decimal v) as L.
  unfold decimal in *. destruct (decimal_digits 10 v []) as [|c t]; [cbn in L; lia|].
  inversion H. eauto.
Qed.

Lemma digits_of_decimal v : is_u32 v -> digits 10 (decimal v) 0 = (v, []).
Proof.
  intros Hv. rewrite <- (app_nil_r (decimal v)). destruct (digits_decimal 10 v [] 0) as (n & E & _).
  { unfold is_u32 in Hv. lia. }
  unfold decimal. rewrite E. cbn [digits]. done.
Qed.

Lemma strtoul_decimal v : is_u32 v -> strtoul (decimal v) 10 = (v, [], false).
Proof.
  intros Hv. pose proof (digits_of_decimal v Hv) as E.
  destruct (decimal_cons v) as (c & t & Ec & Hc); [unfold is_u32 in Hv; lia|].
  unfold strtoul. rewrite Ec in *. cbn [skip_space].
  replace (is_space c) with false by (unfold is_space; lia).
  change ((c :: t).[0]) with c. replace (c =? 45) with false by lia.
  replace (c =? 43) with false by lia. cbn [orb]. unfold resolve_base.
  change (10 =? 0) with false. change (10 =? 16) with false. cbn [andb orb].
  change ((c :: t).[0]) with c.
  replace (digit_value c <? 10) with true by (unfold digit_value, is_digit; repeat case_match; lia).
  cbn [negb]. rewrite E. unfold ULONG_MAX. by replace (v >? 4294967295) with false by (unfold is_u32 in Hv; lia).
Qed.
