(* ===== verification/NioProtocol.v ===== *)
(** * FujiBus responses (msdos/src/nio/nio_protocol.c)

    The frame header, the end-around-carry checksum and the validation of a
    received response.  The checksum is shown to be the one's-complement sum
    of the bytes, so that the validation refuses every frame in which one
    byte was damaged in a way a modulo-255 sum can see; the validation itself
    is characterised branch by branch. *)

From S2P Require Import Prelude.

Definition NIO_FRAME_HEADER_SIZE : Z := 6.

Definition NIO_PROTO_FIELD_NONE : Z := 0.
Definition NIO_PROTO_FIELD_A1 : Z := 1.

Definition NIO_PROTO_OK : Z := 0.
Definition NIO_PROTO_ERR_SHORT_FRAME : Z := 1.
Definition NIO_PROTO_ERR_LENGTH_MISMATCH : Z := 2.
Definition NIO_PROTO_ERR_CHECKSUM : Z := 3.
Definition NIO_PROTO_ERR_DEVICE_COMMAND : Z := 4.
Definition NIO_PROTO_ERR_FIELDS : Z := 5.
Definition NIO_PROTO_ERR_EMPTY_STATUS : Z := 6.
Definition NIO_PROTO_ERR_REPLY_TOO_LARGE : Z := 7.

(** [nio_frame_header_t]: six bytes, [length] little-endian as the 8086
    stores it. *)
Record nio_frame_header_t := mkHeader {
  h_device : Z;
  h_command : Z;
  h_length : Z;
  h_checksum : Z;
  h_fields : Z
}.

Definition header_bytes (h : nio_frame_header_t) : list Z :=
  [h_device h; h_command h; h_length h mod 256; h_length h / 256;
   h_checksum h; h_fields h].

Definition header_of_bytes (b : list Z) : nio_frame_header_t :=
  mkHeader b.[0] b.[1] (le16 b.[2] b.[3]) b.[4] b.[5].

Definition set_checksum (c : Z) (h : nio_frame_header_t) : nio_frame_header_t :=
  mkHeader (h_device h) (h_command h) (h_length h) c (h_fields h).

Definition header_ok (h : nio_frame_header_t) : Prop :=
  is_u8 (h_device h) /\ is_u8 (h_command h) /\ is_u16 (h_length h) /\
  is_u8 (h_checksum h) /\ is_u8 (h_fields h).

Record nio_parsed_response_t := mkParsed {
  p_status : Z;
  p_expected_len : Z;
  p_payload_offset : Z;
  p_payload_length : Z
}.

(** One iteration of the loop body; [chk] and the sums are 16-bit. *)
Definition checksum_step (chk b : Z) : Z :=
  u16 (Z.shiftr (u16 (chk + b)) 8 + Z.land (u16 (chk + b)) 255).

(** [for (idx = 0, chk = seed; idx < len; idx++)]: [n] iterations remain. *)
Fixpoint checksum_loop (buf : list Z) (idx n : nat) (chk : Z) : Z :=
  match n with
  | O => chk
  | S n' => checksum_loop buf (S idx) n' (checksum_step chk buf.[idx])
  end.

Definition nio_protocol_checksum (buf : list Z) (len seed : Z) : Z :=
  checksum_loop buf 0 (Z.to_nat len) seed.

(** The response is [header] and [payload]; the result is the returned code
    and the contents of [*parsed], which every caller of the source passes. *)
Definition nio_protocol_validate_response (header : nio_frame_header_t)
    (payload : list Z) (rx_len expected_device expected_command reply_capacity : Z)
    : Z * nio_parsed_response_t :=
  let parsed0 := mkParsed 0 NIO_FRAME_HEADER_SIZE 0 0 in
  if rx_len <? NIO_FRAME_HEADER_SIZE then (NIO_PROTO_ERR_SHORT_FRAME, parsed0)
  else
  let parsed1 := mkParsed 0 (h_length header) 0 0 in
  if negb (rx_len =? h_length header) then (NIO_PROTO_ERR_LENGTH_MISMATCH, parsed1)
  else
  let payload_len := u16 (rx_len - NIO_FRAME_HEADER_SIZE) in
  let checksum_header := set_checksum 0 header in
  if negb (u8 (nio_protocol_checksum payload payload_len
                 (nio_protocol_checksum (header_bytes checksum_header) 6 0))
           =? h_checksum header)
  then (NIO_PROTO_ERR_CHECKSUM, parsed1)
  else if negb (h_device header =? expected_device)
          || negb (h_command header =? expected_command)
  then (NIO_PROTO_ERR_DEVICE_COMMAND, parsed1)
  else if negb (Z.land (h_fields header) 128 =? 0)
          || negb (Z.land (h_fields header) 7 =? NIO_PROTO_FIELD_A1)
  then (NIO_PROTO_ERR_FIELDS, parsed1)
  else if payload_len <? 1 then (NIO_PROTO_ERR_EMPTY_STATUS, parsed1)
  else if payload_len - 1 >? reply_capacity
  then (NIO_PROTO_ERR_REPLY_TOO_LARGE, parsed1)
  else (NIO_PROTO_OK,
        mkParsed payload.[0] (h_length header) 1 (u16 (payload_len - 1))).

(** ** The checksum as a one's-complement sum *)

(** The reference: the sum of the bytes, reduced modulo 255 with 255 kept as
    the representative of a nonzero multiple. *)
Definition ones_complement (s : Z) : Z := if s =? 0 then 0 else (s - 1) mod 255 + 1.

Definition sum_bytes (b : list Z) : Z := foldr Z.add 0 b.

Lemma sum_bytes_app a b : sum_bytes (a ++ b) = sum_bytes a + sum_bytes b.
Proof. induction a as [|x a IH]; simpl; [done|]. fold (sum_bytes (a ++ b)). unfold sum_bytes in *. simpl. lia. Qed.

Lemma sum_bytes_nonneg b : bytes_ok b -> 0 <= sum_bytes b.
Proof. induction 1; simpl; [lia|]. unfold is_u8, sum_bytes in *. simpl. lia. Qed.

Lemma checksum_step_eq chk b :
  is_u8 chk -> is_u8 b -> checksum_step chk b = ones_complement (chk + b).
Proof.
  intros. unfold checksum_step. rewrite shiftr_8, land_255.
  unfold ones_complement. destruct (Z.eqb_spec (chk + b) 0); width_lia.
Qed.

Lemma ones_complement_range s : 0 <= s -> is_u8 (ones_complement s).
Proof. unfold ones_complement. intros. case_test; width_lia. Qed.

Lemma ones_complement_add s b :
  0 <= s -> 0 <= b -> ones_complement (ones_complement s + b) = ones_complement (s + b).
Proof.
  intros. unfold ones_complement.
  destruct (Z.eqb_spec s 0); [subst; done|].
  destruct (Z.eqb_spec (s + b) 0); [lia|].
  case_test; [width_lia|]. f_equal.
  replace ((s - 1) mod 255 + 1 + b - 1) with ((s - 1) mod 255 + b) by lia.
  rewrite Zplus_mod_idemp_l. f_equal. lia.
Qed.

Lemma ones_complement_mod s t :
  ones_complement s = ones_complement t -> s mod 255 = t mod 255.
Proof. unfold ones_complement. repeat case_test; width_lia. Qed.

Lemma checksum_loop_eq buf idx n chk :
  bytes_ok buf -> 0 <= chk -> (idx + n <= length buf)%nat ->
  checksum_loop buf idx n (ones_complement chk)
  = ones_complement (chk + sum_bytes (slice buf idx n)).
Proof.
  intros Hbuf. revert idx chk. induction n as [|n IH]; intros idx chk Hc Hlen; simpl.
  - f_equal. unfold slice. simpl. unfold sum_bytes. simpl. lia.
  - assert (is_u8 buf.[idx]) as Hb by auto with fuji.
    assert (is_Some (buf !! idx)) as [v Hv] by (apply lookup_lt_is_Some; lia).
    rewrite checksum_step_eq; auto using ones_complement_range.
    unfold is_u8 in Hb. rewrite ones_complement_add by lia.
    rewrite IH by lia. f_equal. unfold slice.
    rewrite (drop_S buf v idx Hv). simpl.
    rewrite (byte_at_lookup _ _ _ Hv). unfold sum_bytes. simpl. lia.
Qed.

(** Over a whole buffer of bytes. *)
Lemma checksum_whole buf s :
  bytes_ok buf -> 0 <= s ->
  nio_protocol_checksum buf (Z.of_nat (length buf)) (ones_complement s)
  = ones_complement (s + sum_bytes buf).
Proof.
  intros. unfold nio_protocol_checksum. rewrite Nat2Z.id.
  rewrite checksum_loop_eq by (done || lia). by rewrite slice_all.
Qed.

Lemma header_bytes_ok h : header_ok h -> bytes_ok (header_bytes h).
Proof.
  intros (?&?&?&?&?). unfold header_bytes.
  repeat constructor; try width_lia; unfold_widths; lia.
Qed.
#[export] Hint Resolve header_bytes_ok : fuji.

Lemma header_bytes_of_bytes h : header_ok h -> header_of_bytes (header_bytes h) = h.
Proof.
  intros (?&?&?&?&?). destruct h as [d c l k f]. simpl in *.
  unfold header_of_bytes, byte_at. simpl. f_equal. unfold le16. width_lia.
Qed.

Lemma header_of_bytes_bytes b :
  bytes_ok b -> length b = 6%nat -> header_bytes (header_of_bytes b) = b.
Proof.
  intros Hb Hl. do 7 (destruct b as [|? b]; try done).
  unfold bytes_ok in Hb. rewrite !Forall_cons in Hb.
  destruct_and!. unfold header_bytes, header_of_bytes, byte_at, le16. simpl.
  repeat f_equal; width_lia.
Qed.

(** The sum a sender and a receiver agree on: all bytes but the checksum. *)
Definition frame_sum (h : nio_frame_header_t) (payload : list Z) : Z :=
  sum_bytes (header_bytes (set_checksum 0 h)) + sum_bytes payload.

Lemma set_checksum_ok h c : header_ok h -> is_u8 c -> header_ok (set_checksum c h).
Proof. intros (?&?&?&?&?) ?. unfold header_ok. simpl. tauto. Qed.

Lemma frame_checksum_eq h payload n :
  header_ok h -> bytes_ok payload -> (Z.to_nat n <= length payload)%nat -> 0 <= n ->
  nio_protocol_checksum payload n
    (nio_protocol_checksum (header_bytes (set_checksum 0 h)) 6 0)
  = ones_complement (frame_sum h (take (Z.to_nat n) payload)).
Proof.
  intros Hh Hp Hlen Hn.
  assert (bytes_ok (header_bytes (set_checksum 0 h))) as Hb
    by (apply header_bytes_ok, set_checksum_ok; done).
  change 0 with (ones_complement 0) at 2.
  change 6 with (Z.of_nat (length (header_bytes (set_checksum 0 h)))).
  rewrite checksum_whole by (done || lia). unfold nio_protocol_checksum.
  pose proof (sum_bytes_nonneg _ Hb).
  rewrite checksum_loop_eq by (done || lia).
  unfold frame_sum, slice. rewrite drop_0. f_equal; lia.
Qed.

(** ** The reference encoder

    What a FujiBus peer puts in front of a payload: the total length and the
    one's-complement sum of everything but the checksum byte.  The driver's
    own requests are [frame_header _ _ NIO_PROTO_FIELD_NONE _]. *)
Definition frame_header (device command fields : Z) (payload : list Z)
    : nio_frame_header_t :=
  let h := mkHeader device command (6 + Z.of_nat (length payload)) 0 fields in
  set_checksum (ones_complement (frame_sum h payload)) h.

Definition fields_accepted (f : Z) : Prop :=
  Z.land f 128 = 0 /\ Z.land f 7 = NIO_PROTO_FIELD_A1.

Lemma frame_sum_set_checksum c h p : frame_sum (set_checksum c h) p = frame_sum h p.
Proof. done. Qed.

Lemma frame_sum_nonneg h p : header_ok h -> bytes_ok p -> 0 <= frame_sum h p.
Proof.
  intros. unfold frame_sum.
  assert (bytes_ok (header_bytes (set_checksum 0 h)))
    by (apply header_bytes_ok, set_checksum_ok; done).
  pose proof (sum_bytes_nonneg (header_bytes (set_checksum 0 h)) ltac:(done)).
  pose proof (sum_bytes_nonneg p ltac:(done)). lia.
Qed.

Lemma u8_ones_complement s : 0 <= s -> u8 (ones_complement s) = ones_complement s.
Proof. intros. by apply u8_id, ones_complement_range. Qed.

Lemma frame_header_ok device command fields payload :
  is_u8 device -> is_u8 command -> is_u8 fields -> bytes_ok payload ->
  Z.of_nat (length payload) < 65530 ->
  header_ok (frame_header device command fields payload).
Proof.
  intros. assert (header_ok (mkHeader device command
    (6 + Z.of_nat (length payload)) 0 fields)) as Hh.
  { unfold header_ok; simpl. unfold is_u16, is_u8 in *. lia. }
  apply set_checksum_ok; [done|]. by apply ones_complement_range, frame_sum_nonneg.
Qed.

(** The checksum test of the validation, in terms of the reference sum. *)
Lemma validate_checksum_test h payload rx_len :
  header_ok h -> bytes_ok payload -> NIO_FRAME_HEADER_SIZE <= rx_len < 65536 ->
  (Z.to_nat (rx_len - 6) <= length payload)%nat ->
  u8 (nio_protocol_checksum payload (u16 (rx_len - NIO_FRAME_HEADER_SIZE))
        (nio_protocol_checksum (header_bytes (set_checksum 0 h)) 6 0))
  = ones_complement (frame_sum h (take (Z.to_nat (rx_len - 6)) payload)).
Proof.
  unfold NIO_FRAME_HEADER_SIZE. intros Hh Hp Hrx Hlen.
  rewrite u16_id by (unfold is_u16; lia). rewrite frame_checksum_eq by (done || lia).
  apply u8_ones_complement, frame_sum_nonneg; [done|]. by apply Forall_take.
Qed.

(** The result of the validation once its five header tests are decided. *)
Lemma validate_ok_inv h payload rx_len device command cap parsed :
  nio_protocol_validate_response h payload rx_len device command cap
  = (NIO_PROTO_OK, parsed) ->
  6 <= rx_len /\ rx_len = h_length h /\
  u8 (nio_protocol_checksum payload (u16 (rx_len - NIO_FRAME_HEADER_SIZE))
        (nio_protocol_checksum (header_bytes (set_checksum 0 h)) 6 0)) = h_checksum h /\
  h_device h = device /\ h_command h = command /\ fields_accepted (h_fields h) /\
  1 <= u16 (rx_len - 6) <= cap + 1 /\
  parsed = mkParsed payload.[0] (h_length h) 1 (u16 (u16 (rx_len - 6) - 1)).
Proof.
  unfold nio_protocol_validate_response, fields_accepted, NIO_FRAME_HEADER_SIZE.
  intros H. repeat (case_test_in H; [discriminate H|]). injection H as <-.
  rewrite ?negb_false_iff, ?orb_false_iff, ?negb_false_iff, ?Z.eqb_eq in *.
  split_and!; first [done | lia].
Qed.

Lemma validate_ok_intro h payload rx_len device command cap :
  6 <= rx_len -> rx_len = h_length h ->
  u8 (nio_protocol_checksum payload (u16 (rx_len - NIO_FRAME_HEADER_SIZE))
        (nio_protocol_checksum (header_bytes (set_checksum 0 h)) 6 0)) = h_checksum h ->
  h_device h = device -> h_command h = command -> fields_accepted (h_fields h) ->
  1 <= u16 (rx_len - 6) <= cap + 1 ->
  nio_protocol_validate_response h payload rx_len device command cap
  = (NIO_PROTO_OK,
     mkParsed payload.[0] (h_length h) 1 (u16 (u16 (rx_len - 6) - 1))).
Proof.
  unfold nio_protocol_validate_response, fields_accepted, NIO_FRAME_HEADER_SIZE.
  intros Hrx Hlen Hck <- <- [Hf1 Hf2] Hcap.
  repeat (case_test; [exfalso;
    rewrite ?negb_true_iff, ?orb_true_iff, ?negb_true_iff, ?Z.eqb_neq in *; lia|]).
  done.
Qed.

(** ** Properties *)

Lemma header_eta h : h = set_checksum (h_checksum h)
  (mkHeader (h_device h) (h_command h) (h_length h) 0 (h_fields h)).
Proof. by destruct h. Qed.

(** An accepted frame is an encoder's frame ... *)
Lemma validate_ok_frame h payload rx_len device command cap parsed :
  header_ok h -> bytes_ok payload -> 0 <= rx_len < 65536 ->
  (Z.to_nat (rx_len - 6) <= length payload)%nat ->
  nio_protocol_validate_response h payload rx_len device command cap
    = (NIO_PROTO_OK, parsed) ->
  exists fields status data,
    fields_accepted fields /\
    take (Z.to_nat (rx_len - 6)) payload = status :: data /\
    rx_len = 7 + Z.of_nat (length data) /\
    h = frame_header device command fields (status :: data) /\
    Z.of_nat (length data) <= cap /\
    parsed = mkParsed status rx_len 1 (Z.of_nat (length data)).
Proof.
  intros Hh Hp Hrx Hlen.
  intros (H6&Hl&Hck&Hd&Hc&Hf&Hcap&->)%validate_ok_inv.
  assert (u16 (rx_len - 6) = rx_len - 6) as Hu by (apply u16_id; unfold is_u16; lia).
  rewrite Hu in Hcap |- *. rewrite (u16_id (rx_len - 6 - 1)) by (unfold is_u16; lia).
  rewrite validate_checksum_test in Hck by (done || (unfold NIO_FRAME_HEADER_SIZE; lia)).
  destruct (take (Z.to_nat (rx_len - 6)) payload) as [|status data] eqn:Et.
  { apply (f_equal length) in Et. rewrite length_take in Et. simpl in Et. lia. }
  assert (length (status :: data) = Z.to_nat (rx_len - 6)) as El
    by (rewrite <- Et, length_take; lia). simpl in El.
  exists (h_fields h), status, data.
  split_and!; try done; try lia.
  + rewrite (header_eta h) at 1. unfold frame_header. simpl.
    replace (6 + Z.of_nat (S (length data))) with (h_length h) by lia.
    rewrite Hd, Hc, <- Hck, (header_eta h), frame_sum_set_checksum, Hd, Hc. done.
  + f_equal; try lia.
    rewrite <- (byte_at_take payload (Z.to_nat (rx_len - 6)) 0) by lia.
    by rewrite Et.
Qed.

(** ... and an encoder's frame is accepted. *)
Lemma frame_validate_ok h payload rx_len device command cap fields status data :
  header_ok h -> bytes_ok payload -> 0 <= rx_len < 65536 ->
  (Z.to_nat (rx_len - 6) <= length payload)%nat ->
  fields_accepted fields ->
  take (Z.to_nat (rx_len - 6)) payload = status :: data ->
  rx_len = 7 + Z.of_nat (length data) ->
  h = frame_header device command fields (status :: data) ->
  Z.of_nat (length data) <= cap ->
  nio_protocol_validate_response h payload rx_len device command cap
    = (NIO_PROTO_OK, mkParsed status rx_len 1 (Z.of_nat (length data))).
Proof.
  intros Hh Hp Hrx Hlen Hf Et Hrl Hfr Hcap.
  assert (h_length h = rx_len) as Hhl by (rewrite Hfr; simpl; lia).
  assert (u16 (rx_len - 6) = rx_len - 6) as Hu by (apply u16_id; unfold is_u16; lia).
  rewrite validate_ok_intro; try (by rewrite Hfr); try lia.
  + rewrite Hhl, Hu, u16_id by (unfold is_u16; lia).
    rewrite <- (byte_at_take payload (Z.to_nat (rx_len - 6)) 0) by lia.
    rewrite Et. do 2 f_equal. lia.
  + rewrite validate_checksum_test by (done || (unfold NIO_FRAME_HEADER_SIZE; lia)).
    rewrite Et, Hfr. done.
Qed.

(** C10: the validation accepts exactly the frames the FujiBus encoder builds:
    a received header and payload of [rx_len] bytes are accepted if and only
    if the header is the encoder's header for the expected device and command
    over the payload [status :: data], with an accepted field descriptor and
    data that fits the caller's reply, and the parsed result is then that
    status, offset 1 and the length of that data. *)
Theorem validate_accepts_encoding h payload rx_len device command cap parsed :
  header_ok h -> bytes_ok payload -> 0 <= rx_len < 65536 ->
  (Z.to_nat (rx_len - 6) <= length payload)%nat ->
  nio_protocol_validate_response h payload rx_len device command cap
    = (NIO_PROTO_OK, parsed)
  <-> exists fields status data,
        fields_accepted fields /\
        take (Z.to_nat (rx_len - 6)) payload = status :: data /\
        rx_len = 7 + Z.of_nat (length data) /\
        h = frame_header device command fields (status :: data) /\
        Z.of_nat (length data) <= cap /\
        parsed = mkParsed status rx_len 1 (Z.of_nat (length data)).
Proof.
  intros Hh Hp Hrx Hlen. split; [by apply validate_ok_frame|].
  intros (fields&status&data&Hf&Et&Hrl&Hfr&Hcap&->). by eapply frame_validate_ok.
Qed.

(** A frame with one data byte and status 0, as a peer sends it. *)
Lemma validate_accepts_encoding_witness :
  nio_protocol_validate_response (frame_header 253 2 1 [0; 119]) [0; 119] 8 253 2 64
  = (NIO_PROTO_OK, mkParsed 0 8 1 1).
Proof.
  apply (validate_accepts_encoding (frame_header 253 2 1 [0; 119]) [0; 119] 8 253 2 64).
  - apply frame_header_ok; try done. repeat constructor; done.
  - repeat constructor; done.
  - lia.
  - simpl. lia.
  - exists 1, 0, [119]. split_and!; done.
Defined.

(** The checksum is the one's-complement sum of the bytes: 0 for an all
    zero buffer, and otherwise the residue modulo 255 in 1..255. *)
Theorem checksum_is_ones_complement buf len :
  bytes_ok buf -> 0 <= len <= Z.of_nat (length buf) ->
  nio_protocol_checksum buf len 0
  = ones_complement (sum_bytes (take (Z.to_nat len) buf)).
Proof.
  intros. unfold nio_protocol_checksum. change 0 with (ones_complement 0).
  rewrite checksum_loop_eq by (done || lia). unfold slice. by rewrite drop_0.
Qed.

Lemma checksum_is_ones_complement_witness :
  nio_protocol_checksum [200; 100; 1; 0] 4 0 = 46.
Proof.
  rewrite (checksum_is_ones_complement [200; 100; 1; 0] 4);
    [reflexivity | repeat constructor; done | simpl; lia].
Defined.

(** Single-byte damage: when the validation accepts a frame and one byte
    of its payload is replaced by a byte that is not congruent to it modulo
    255, the damaged frame is refused with the checksum error. *)
Theorem validate_detects_damage h payload rx_len device command cap parsed i b :
  header_ok h -> bytes_ok payload -> is_u8 b -> 0 <= rx_len < 65536 ->
  (Z.to_nat (rx_len - 6) <= length payload)%nat -> (i < Z.to_nat (rx_len - 6))%nat ->
  b mod 255 <> payload.[i] mod 255 ->
  nio_protocol_validate_response h payload rx_len device command cap
    = (NIO_PROTO_OK, parsed) ->
  fst (nio_protocol_validate_response h (put_at payload i b) rx_len device command cap)
    = NIO_PROTO_ERR_CHECKSUM.
Proof.
  intros Hh Hp Hb Hrx Hlen Hi Hne (H6&Hl&Hck&Hd&Hc&Hf&Hcap&->)%validate_ok_inv.
  rewrite validate_checksum_test in Hck by (done || (unfold NIO_FRAME_HEADER_SIZE; lia)).
  unfold nio_protocol_validate_response. rewrite <- Hl.
  destruct (Z.ltb_spec rx_len NIO_FRAME_HEADER_SIZE);
    [unfold NIO_FRAME_HEADER_SIZE in *; lia|].
  rewrite Z.eqb_refl. simpl negb.
  rewrite validate_checksum_test by
    (auto with fuji || (unfold NIO_FRAME_HEADER_SIZE; lia) || (rewrite length_put_at; lia)).
  case_test; [done|]. exfalso.
  apply negb_false_iff, Z.eqb_eq in Htest. rewrite <- Hck in Htest.
  apply ones_complement_mod in Htest. apply Hne.
  set (n := Z.to_nat (rx_len - 6)) in *.
  assert (is_Some (payload !! i)) as [v Hv] by (apply lookup_lt_is_Some; lia).
  rewrite (byte_at_lookup _ _ _ Hv). unfold frame_sum, put_at in Htest.
  rewrite take_insert_lt in Htest by lia.
  assert (take n payload !! i = Some v) as Hv' by (by rewrite lookup_take_lt by lia).
  rewrite <- (take_drop_middle _ _ _ Hv') in Htest.
  rewrite insert_app_r_alt in Htest by (rewrite length_take; lia).
  rewrite length_take, !sum_bytes_app in Htest.
  replace (i - i `min` length (take n payload))%nat with 0%nat in Htest
    by (rewrite length_take; lia).
  unfold sum_bytes in Htest. simpl in Htest. width_lia.
Qed.

Lemma validate_detects_damage_witness :
  fst (nio_protocol_validate_response (frame_header 253 2 1 [0; 119])
         (put_at [0; 119] 1 120) 8 253 2 64) = NIO_PROTO_ERR_CHECKSUM.
Proof.
  apply (validate_detects_damage (frame_header 253 2 1 [0; 119]) [0; 119] 8 253 2 64
           (mkParsed 0 8 1 1) 1 120); try done; try (simpl; lia).
  repeat constructor; done.
Defined.
