(* ===== verification/NioDiskProtocol.v ===== *)
(** * DiskService payloads (msdos/src/nio/nio_disk_protocol.c)

    The little-endian accessors, the request builders and the response
    parsers.  A pointer argument that the code tests against NULL is an
    [option]; a builder returns the length it returned and the buffer it left
    behind. *)

From S2P Require Import Prelude.

Definition NIO_DISK_VERSION : Z := 1.

Definition NIO_DISK_SLOT_REQUEST_SIZE : Z := 2.
Definition NIO_DISK_READ_SECTOR_REQUEST_SIZE : Z := 8.
Definition NIO_DISK_READ_SECTORS_REQUEST_SIZE : Z := 10.
Definition NIO_DISK_INFO_RESPONSE_MIN_SIZE : Z := 12.
Definition NIO_DISK_CLEAR_CHANGED_RESPONSE_MIN_SIZE : Z := 5.
Definition NIO_DISK_READ_SECTOR_RESPONSE_MIN_SIZE : Z := 11.
Definition NIO_DISK_READ_SECTORS_RESPONSE_MIN_SIZE : Z := 13.

(** [nio_disk_info_t] (msdos/include/nio.h). *)
Record nio_disk_info_t := mkDiskInfo {
  i_flags : Z;
  i_slot : Z;
  i_image_type : Z;
  i_sector_size : Z;
  i_sector_count : Z;
  i_last_error : Z
}.

(** The accessors read and write at [p], that is at [&buf[off]]. *)
Definition nio_disk_get_u16le (buf : list Z) (off : nat) : Z :=
  Z.lor buf.[off] (Z.shiftl buf.[off + 1] 8).

Definition nio_disk_get_u32le (buf : list Z) (off : nat) : Z :=
  Z.lor (Z.lor (Z.lor buf.[off] (Z.shiftl buf.[off + 1] 8))
               (Z.shiftl buf.[off + 2] 16))
        (Z.shiftl buf.[off + 3] 24).

Definition nio_disk_put_u16le (buf : list Z) (off : nat) (v : Z) : list Z :=
  let buf := put_at buf off (Z.land v 255) in
  put_at buf (off + 1) (Z.land (Z.shiftr v 8) 255).

Definition nio_disk_put_u32le (buf : list Z) (off : nat) (v : Z) : list Z :=
  let buf := put_at buf off (Z.land v 255) in
  let buf := put_at buf (off + 1) (Z.land (Z.shiftr v 8) 255) in
  let buf := put_at buf (off + 2) (Z.land (Z.shiftr v 16) 255) in
  put_at buf (off + 3) (Z.land (Z.shiftr v 24) 255).

Definition nio_disk_build_slot_request (slot : Z) (req : option (list Z))
    (req_capacity : Z) : Z * option (list Z) :=
  match req with
  | None => (0, None)
  | Some b =>
      if req_capacity <? NIO_DISK_SLOT_REQUEST_SIZE then (0, req) else
      let b := put_at b 0 NIO_DISK_VERSION in
      let b := put_at b 1 slot in
      (NIO_DISK_SLOT_REQUEST_SIZE, Some b)
  end.

Definition nio_disk_build_read_sector_request (slot lba buffer_length : Z)
    (req : option (list Z)) (req_capacity : Z) : Z * option (list Z) :=
  match req with
  | None => (0, None)
  | Some b =>
      if req_capacity <? NIO_DISK_READ_SECTOR_REQUEST_SIZE then (0, req) else
      let b := put_at b 0 NIO_DISK_VERSION in
      let b := put_at b 1 slot in
      let b := nio_disk_put_u32le b 2 lba in
      let b := nio_disk_put_u16le b 6 buffer_length in
      (NIO_DISK_READ_SECTOR_REQUEST_SIZE, Some b)
  end.

Definition nio_disk_build_read_sectors_request (slot lba count buffer_length : Z)
    (req : option (list Z)) (req_capacity : Z) : Z * option (list Z) :=
  match req with
  | None => (0, None)
  | Some b =>
      if req_capacity <? NIO_DISK_READ_SECTORS_REQUEST_SIZE then (0, req) else
      let b := put_at b 0 NIO_DISK_VERSION in
      let b := put_at b 1 slot in
      let b := nio_disk_put_u32le b 2 lba in
      let b := nio_disk_put_u16le b 6 count in
      let b := nio_disk_put_u16le b 8 buffer_length in
      (NIO_DISK_READ_SECTORS_REQUEST_SIZE, Some b)
  end.

Definition nio_disk_validate_response (resp : option (list Z))
    (payload_length min_length : Z) : bool :=
  match resp with
  | None => false
  | Some r => (payload_length >=? min_length) && (r.[0] =? NIO_DISK_VERSION)
  end.

(** [info] is the destination: [None] is the NULL pointer, and on success the
    whole structure is written. *)
Definition nio_disk_parse_info_response (resp : option (list Z))
    (payload_length : Z) (info : option nio_disk_info_t)
    : bool * option nio_disk_info_t :=
  match resp, info with
  | Some r, Some _ =>
      if negb (nio_disk_validate_response resp payload_length
                 NIO_DISK_INFO_RESPONSE_MIN_SIZE)
      then (false, info)
      else (true, Some (mkDiskInfo r.[1] r.[4] r.[5]
              (nio_disk_get_u16le r 6) (nio_disk_get_u32le r 8)
              (if payload_length >? 12 then r.[12] else 0)))
  | _, _ => (false, info)
  end.

(** [data_len] is the destination ([None]: NULL). *)
Definition parse_read_response (resp : option (list Z))
    (payload_length min_length : Z) (length_offset : nat) (data_offset : Z)
    (buffer_length : Z) (data_len : option Z) : bool * option Z :=
  match resp, data_len with
  | Some r, Some _ =>
      if negb (nio_disk_validate_response resp payload_length min_length)
      then (false, data_len)
      else
      let len := nio_disk_get_u16le r length_offset in
      if (len >? buffer_length) || (payload_length <? u16 (data_offset + len))
      then (false, data_len)
      else (true, Some len)
  | _, _ => (false, data_len)
  end.

Definition nio_disk_parse_read_sector_response (resp : option (list Z))
    (payload_length buffer_length : Z) (data_len : option Z) : bool * option Z :=
  parse_read_response resp payload_length NIO_DISK_READ_SECTOR_RESPONSE_MIN_SIZE
    9 11 buffer_length data_len.

Definition nio_disk_parse_read_sectors_response (resp : option (list Z))
    (payload_length buffer_length : Z) (data_len : option Z) : bool * option Z :=
  parse_read_response resp payload_length NIO_DISK_READ_SECTORS_RESPONSE_MIN_SIZE
    11 13 buffer_length data_len.

(** ** Lemmas *)

Lemma get_u16le_le16 buf off :
  bytes_ok buf -> nio_disk_get_u16le buf off = le16 buf.[off] buf.[off + 1].
Proof. intros. apply lor_le16. auto with fuji. Qed.

Lemma get_u32le_le32 buf off :
  bytes_ok buf ->
  nio_disk_get_u32le buf off
  = le32 buf.[off] buf.[off + 1] buf.[off + 2] buf.[off + 3].
Proof. intros. apply lor_le32; auto with fuji. Qed.

Lemma land_255_u8 x : is_u8 (Z.land x 255).
Proof. rewrite land_255. apply u8_range. Qed.
#[export] Hint Resolve land_255_u8 : fuji.

Lemma put_u16le_bytes_ok buf off v : bytes_ok buf -> bytes_ok (nio_disk_put_u16le buf off v).
Proof. intros. unfold nio_disk_put_u16le. auto with fuji. Qed.
Lemma put_u32le_bytes_ok buf off v : bytes_ok buf -> bytes_ok (nio_disk_put_u32le buf off v).
Proof. intros. unfold nio_disk_put_u32le. auto 6 with fuji. Qed.
#[export] Hint Resolve put_u16le_bytes_ok put_u32le_bytes_ok : fuji.

Lemma length_put_u16le buf off v : length (nio_disk_put_u16le buf off v) = length buf.
Proof. unfold nio_disk_put_u16le. by rewrite !length_put_at. Qed.
Lemma length_put_u32le buf off v : length (nio_disk_put_u32le buf off v) = length buf.
Proof. unfold nio_disk_put_u32le. by rewrite !length_put_at. Qed.

Lemma put_u16le_as_overwrite buf off v :
  (off + 2 <= length buf)%nat ->
  nio_disk_put_u16le buf off v = overwrite buf off [v mod 256; v / 256 mod 256].
Proof.
  intros. unfold nio_disk_put_u16le. rewrite !land_255, shiftr_8.
  rewrite (put_at_as_overwrite buf), put_at_as_overwrite
    by (rewrite ?length_overwrite; simpl; lia).
  apply (overwrite_adjacent buf off [_] [_]). simpl. lia.
Qed.

(** Reading through writes at other or equal constant offsets. *)
Ltac byte_at_solve :=
  repeat first
    [ rewrite byte_at_put_eq by (rewrite ?length_put_at, ?length_put_u16le, ?length_put_u32le; lia)
    | rewrite byte_at_put_ne by lia ].

(** The 16-bit and 32-bit little-endian writers and readers are inverse:
    what is written at an offset is read back, for every value of the width. *)
Theorem le_accessors_roundtrip buf off v16 v32 :
  bytes_ok buf -> is_u16 v16 -> is_u32 v32 -> (off + 4 <= length buf)%nat ->
  nio_disk_get_u16le (nio_disk_put_u16le buf off v16) off = v16 /\
  nio_disk_get_u32le (nio_disk_put_u32le buf off v32) off = v32.
Proof.
  intros Hb H16 H32 Hl.
  rewrite get_u16le_le16, get_u32le_le32 by auto with fuji.
  unfold nio_disk_put_u16le, nio_disk_put_u32le. byte_at_solve.
  rewrite !land_255, shiftr_8, shiftr_16, shiftr_24. rewrite shiftr_8.
  by rewrite le16_split, le32_split.
Qed.

Lemma le_accessors_roundtrip_witness :
  nio_disk_get_u16le (nio_disk_put_u16le [1; 2; 3; 4] 0 51966) 0 = 51966 /\
  nio_disk_get_u32le (nio_disk_put_u32le [1; 2; 3; 4] 0 3735928559) 0 = 3735928559.
Proof.
  apply (le_accessors_roundtrip [1; 2; 3; 4] 0); try done.
  repeat constructor; done.
Defined.

(** The bytes a read request carries, field by field. *)
Definition read_sectors_request_bytes (slot lba count len : Z) : list Z :=
  [1; slot; lba mod 256; lba / 256 mod 256; lba / 65536 mod 256; lba / 16777216 mod 256;
   count mod 256; count / 256 mod 256; len mod 256; len / 256 mod 256].

(** The read-sectors builder fills a request buffer of its ten bytes with
    the version, the slot, and the LBA, the count and the buffer length in
    little-endian, and returns 10; with no buffer or a smaller capacity it
    writes nothing and returns 0. *)
Theorem build_read_sectors_correct slot lba count len b cap :
  length b = 10%nat ->
  nio_disk_build_read_sectors_request slot lba count len (Some b) cap
  = (if cap <? 10 then (0, Some b)
     else (10, Some (read_sectors_request_bytes slot lba count len))) /\
  nio_disk_build_read_sectors_request slot lba count len None cap = (0, None).
Proof.
  intros Hl. do 11 (destruct b as [|? b]; try done). split; [|done].
  unfold nio_disk_build_read_sectors_request, NIO_DISK_READ_SECTORS_REQUEST_SIZE.
  case_test; [done|]. unfold nio_disk_put_u32le, nio_disk_put_u16le, put_at. cbn -[Z.shiftr Z.land].
  by rewrite !land_255, !shiftr_8, shiftr_16, shiftr_24.
Qed.

Lemma build_read_sectors_correct_witness :
  nio_disk_build_read_sectors_request 1 4660 16 8192 (Some (zeros 10)) 10
  = (10, Some [1; 1; 52; 18; 0; 0; 16; 0; 0; 32]) /\
  nio_disk_build_read_sectors_request 1 4660 16 8192 None 10 = (0, None).
Proof. apply (build_read_sectors_correct 1 4660 16 8192 (zeros 10) 10). reflexivity. Defined.

(** The shared part of the two read-response parsers. *)
Lemma parse_read_response_ok resp plen minl loff doff blen dl n :
  parse_read_response (Some resp) plen minl loff doff blen dl = (true, Some n) ->
  minl <= plen /\ resp.[0] = NIO_DISK_VERSION /\ n = nio_disk_get_u16le resp loff /\
  n <= blen /\ u16 (doff + n) <= plen.
Proof.
  unfold parse_read_response, nio_disk_validate_response.
  destruct dl; [|done]. intros H. repeat (case_test_in H; [done|]).
  injection H as <-.
  rewrite negb_false_iff, andb_true_iff, Z.eqb_eq, orb_false_iff in *. lia.
Qed.

(** Memory safety of the multi-sector read: when the parser accepts a
    response for a caller buffer of at most 65,522 bytes, the data it
    announces fits the caller's buffer and lies inside the received payload. *)
Theorem parse_read_sectors_in_bounds resp plen blen n :
  bytes_ok resp -> blen <= 65522 ->
  nio_disk_parse_read_sectors_response (Some resp) plen blen (Some 0) = (true, Some n) ->
  0 <= n <= blen /\ 13 + n <= plen.
Proof.
  intros Hr Hb H. unfold nio_disk_parse_read_sectors_response in H.
  apply parse_read_response_ok in H as (Hmin&_&Hn&Hfit&Hin).
  unfold NIO_DISK_READ_SECTORS_RESPONSE_MIN_SIZE in Hmin.
  pose proof (le16_range _ _ (byte_at_u8 resp 11 Hr) (byte_at_u8 resp (11 + 1) Hr)) as H16.
  rewrite get_u16le_le16 in Hn by done. rewrite <- Hn in H16.
  rewrite u16_id in Hin by (unfold is_u16 in *; lia). unfold is_u16 in *. lia.
Qed.

Lemma parse_read_sectors_in_bounds_witness :
  0 <= 2 <= 512 /\ 13 + 2 <= 15.
Proof.
  apply (parse_read_sectors_in_bounds
           [1; 0; 0; 0; 0; 0; 0; 0; 0; 0; 0; 2; 0; 7; 8] 15 512 2);
    [repeat constructor; done | done | reflexivity].
Defined.

(** Without that bound the check is not enough: the sum
    [data_offset + len] is converted to 16 bits, so for a caller buffer of
    65,535 bytes a thirteen-byte response that announces 65,535 data bytes is
    accepted. *)
Theorem parse_read_sectors_wraps :
  exists resp plen n,
    bytes_ok resp /\ plen = Z.of_nat (length resp) /\
    nio_disk_parse_read_sectors_response (Some resp) plen 65535 (Some 0) = (true, Some n) /\
    plen < 13 + n.
Proof.
  exists [1; 0; 0; 0; 0; 0; 0; 0; 0; 0; 0; 255; 255], 13, 65535.
  split_and!; try done. repeat constructor; done.
Qed.
