(* ===== verification/NioTransaction.v ===== *)
(** * One request, one response (msdos/src/nio/nio_transaction.c)

    [nio_transaction_once] sends a request through the port callbacks and
    waits for its response, skipping the stale responses of other commands;
    [nio_transaction_call] builds the frame and repeats the exchange after the
    errors a retry can cure.  The port is a record of callbacks over a world
    [W]; what the callbacks promise is the class [PortOk], and a client that
    counts requests uses [RequestCount]. *)

From S2P Require Import Prelude NioProtocol.

Definition NIO_STATUS_OK : Z := 0.
Definition NIO_STATUS_INTERNAL_ERROR : Z := 7.

Definition NIO_ERR_NONE : Z := 0.
Definition NIO_ERR_SHORT_FRAME : Z := 1.
Definition NIO_ERR_LENGTH_MISMATCH : Z := 2.
Definition NIO_ERR_CHECKSUM : Z := 3.
Definition NIO_ERR_STATUS : Z := 8.
Definition NIO_ERR_PAYLOAD : Z := 9.
Definition NIO_ERR_TIMEOUT : Z := 10.
Definition NIO_ERR_BUFFER_FULL : Z := 11.
Definition NIO_ERR_UART : Z := 12.

Definition NIO_DEVICEID_DISK : Z := 252.
Definition NIO_DEVICEID_NETWORK : Z := 253.

Definition NIO_TRANSACTION_SLIP_END : Z := 192.
Definition NIO_TRANSACTION_PORT_REASON_NONE : Z := 0.
Definition NIO_TRANSACTION_PORT_REASON_TIMEOUT : Z := 1.
Definition NIO_TRANSACTION_PORT_REASON_BUFFER_FULL : Z := 2.
Definition NIO_TRANSACTION_PORT_REASON_LINE_STATUS : Z := 3.

(** [nio_response_t] (msdos/include/nio.h). *)
Record nio_response_t := mkResponse {
  r_status : Z;
  r_payload_length : Z
}.

Record nio_transaction_diag_t := mkDiag {
  d_error : Z;
  d_status : Z;
  d_rx_len : Z;
  d_expected_len : Z;
  d_lsr : Z
}.
#[export] Instance eta_diag : Eta nio_transaction_diag_t :=
  fun d => mkDiag (d_error d) (d_status d) (d_rx_len d) (d_expected_len d) (d_lsr d).
Definition set_d_error : Z -> nio_transaction_diag_t -> nio_transaction_diag_t :=
  ltac:(derive_setter d_error).
Definition set_d_status : Z -> nio_transaction_diag_t -> nio_transaction_diag_t :=
  ltac:(derive_setter d_status).
Definition set_d_rx_len : Z -> nio_transaction_diag_t -> nio_transaction_diag_t :=
  ltac:(derive_setter d_rx_len).
Definition set_d_expected_len : Z -> nio_transaction_diag_t -> nio_transaction_diag_t :=
  ltac:(derive_setter d_expected_len).
Definition set_d_lsr : Z -> nio_transaction_diag_t -> nio_transaction_diag_t :=
  ltac:(derive_setter d_lsr).

(** The callbacks.  [None] is a NULL function pointer; [ctx] is part of the
    world.  [getbuf_slip_dual] is given the two buffers with their lengths and
    the timeout, and returns the number of bytes and the buffers it left. *)
Record nio_transaction_port_t (W : Type) := mkPort {
  flush_rx : option (W -> W);
  putc : option (Z -> W -> Z * W);
  putbuf_slip : option (list Z -> Z -> W -> Z * W);
  wait_tx_empty : option (W -> W);
  getbuf_slip_dual :
    option (list Z -> Z -> list Z -> Z -> Z -> W -> Z * list Z * list Z * W);
  last_slip_reason : option (W -> Z);
  last_lsr : option (W -> Z)
}.
Arguments mkPort {W}.
Arguments flush_rx {W}.
Arguments putc {W}.
Arguments putbuf_slip {W}.
Arguments wait_tx_empty {W}.
Arguments getbuf_slip_dual {W}.
Arguments last_slip_reason {W}.
Arguments last_lsr {W}.

Record nio_transaction_buffers_t := mkBuffers {
  b_tx_prefix : option (list Z);
  b_tx_prefix_capacity : Z;
  b_rx_header : option (list Z);
  b_rx_payload : option (list Z);
  b_rx_payload_capacity : Z
}.

(** Where the caller wants the reply: nowhere, in a buffer of its own, or at
    [buffers->rx_payload] itself, as the sector reads of nio.c ask. *)
Inductive reply_t :=
| ReplyNull
| ReplyBuffer (b : list Z)
| ReplyRxPayload.

(** The memory the transaction changes, once its pointers are known good. *)
Record txn (W : Type) := mkTxn {
  t_world : W;
  t_tx_prefix : list Z;
  t_rx_header : list Z;
  t_rx_payload : list Z;
  t_reply : reply_t;
  t_response : option nio_response_t;
  t_diag : option nio_transaction_diag_t
}.
Arguments mkTxn {W}.
Arguments t_world {W}.
Arguments t_tx_prefix {W}.
Arguments t_rx_header {W}.
Arguments t_rx_payload {W}.
Arguments t_reply {W}.
Arguments t_response {W}.
Arguments t_diag {W}.
#[export] Instance eta_txn W : Eta (txn W) :=
  fun t => mkTxn (t_world t) (t_tx_prefix t) (t_rx_header t) (t_rx_payload t)
                 (t_reply t) (t_response t) (t_diag t).

Section Setters.
Context {W : Type}.
Definition set_world : W -> txn W -> txn W := ltac:(derive_setter (@t_world W)).
Definition set_rx_header : list Z -> txn W -> txn W := ltac:(derive_setter (@t_rx_header W)).
Definition set_rx_payload : list Z -> txn W -> txn W := ltac:(derive_setter (@t_rx_payload W)).
Definition set_reply : reply_t -> txn W -> txn W := ltac:(derive_setter (@t_reply W)).
Definition set_response : option nio_response_t -> txn W -> txn W :=
  ltac:(derive_setter (@t_response W)).
Definition set_diag : option nio_transaction_diag_t -> txn W -> txn W :=
  ltac:(derive_setter (@t_diag W)).
End Setters.

Definition diag_reset (diag : option nio_transaction_diag_t)
    : option nio_transaction_diag_t :=
  match diag with
  | None => None
  | Some _ => Some (mkDiag NIO_ERR_NONE NIO_STATUS_INTERNAL_ERROR 0 0 0)
  end.

Definition diag_fail (diag : option nio_transaction_diag_t)
    (error rx_len expected_len : Z) : bool * option nio_transaction_diag_t :=
  (false,
   match diag with
   | None => None
   | Some d => Some (d |> set_d_error error |> set_d_rx_len rx_len
                       |> set_d_expected_len expected_len)
   end).

Definition nio_should_retry_error (error : Z) : bool :=
  (error =? NIO_ERR_UART) || (error =? NIO_ERR_TIMEOUT) ||
  (error =? NIO_ERR_SHORT_FRAME) || (error =? NIO_ERR_LENGTH_MISMATCH) ||
  (error =? NIO_ERR_CHECKSUM).

(** The callbacks the entry point has found non-NULL. *)
Record port_ops (W : Type) := mkOps {
  op_flush_rx : W -> W;
  op_putc : Z -> W -> Z * W;
  op_putbuf_slip : list Z -> Z -> W -> Z * W;
  op_wait_tx_empty : W -> W;
  op_getbuf_slip_dual :
    list Z -> Z -> list Z -> Z -> Z -> W -> Z * list Z * list Z * W;
  op_last_slip_reason : option (W -> Z);
  op_last_lsr : option (W -> Z)
}.
Arguments mkOps {W}.
Arguments op_flush_rx {W}.
Arguments op_putc {W}.
Arguments op_putbuf_slip {W}.
Arguments op_wait_tx_empty {W}.
Arguments op_getbuf_slip_dual {W}.
Arguments op_last_slip_reason {W}.
Arguments op_last_lsr {W}.

Definition port_of_ops {W} (ops : port_ops W) : nio_transaction_port_t W :=
  mkPort (Some (op_flush_rx ops)) (Some (op_putc ops)) (Some (op_putbuf_slip ops))
         (Some (op_wait_tx_empty ops)) (Some (op_getbuf_slip_dual ops))
         (op_last_slip_reason ops) (op_last_lsr ops).

Section Transaction.
Context {W : Type} (ops : port_ops W).

Definition nio_port_error (w : W) (fallback : Z) : Z :=
  if match op_last_lsr ops with
     | Some lsr => negb (lsr w =? 0)
     | None => false
     end
  then NIO_ERR_UART
  else match op_last_slip_reason ops with
       | None => fallback
       | Some reason =>
           if reason w =? NIO_TRANSACTION_PORT_REASON_TIMEOUT then NIO_ERR_TIMEOUT
           else if reason w =? NIO_TRANSACTION_PORT_REASON_BUFFER_FULL
           then NIO_ERR_BUFFER_FULL
           else if reason w =? NIO_TRANSACTION_PORT_REASON_LINE_STATUS
           then NIO_ERR_UART
           else fallback
       end.

(** [flush_rx] ... [wait_tx_empty]: the request goes out.  The results of
    [putc] and [putbuf_slip] are ignored. *)
Definition send_request (tx_prefix : list Z) (payload : option (list Z))
    (payload_length : Z) (w : W) : W :=
  let w := op_flush_rx ops w in
  let w := snd (op_putc ops NIO_TRANSACTION_SLIP_END w) in
  let w := snd (op_putbuf_slip ops tx_prefix NIO_FRAME_HEADER_SIZE w) in
  let w := match payload with
           | Some p => if payload_length =? 0 then w
                       else snd (op_putbuf_slip ops p payload_length w)
           | None => w
           end in
  let w := snd (op_putc ops NIO_TRANSACTION_SLIP_END w) in
  op_wait_tx_empty ops w.

(** [NIO_TX_MEMMOVE(reply, rx_payload + off, n)] under [if (reply && n)]. *)
Definition store_reply (off n : Z) (t : txn W) : txn W :=
  if n =? 0 then t else
  let data := slice (t_rx_payload t) (Z.to_nat off) (Z.to_nat n) in
  match t_reply t with
  | ReplyNull => t
  | ReplyBuffer b => set_reply (ReplyBuffer (overwrite b 0 data)) t
  | ReplyRxPayload => set_rx_payload (overwrite (t_rx_payload t) 0 data) t
  end.

Section Once.
Variables device command reply_capacity timeout max_stale_responses : Z.
Variable rx_payload_capacity : Z.

(** From the label [read_response] on; [None] is fuel running out. *)
Fixpoint read_response (fuel : nat) (stale_count : Z) (t : txn W)
    : option (bool * txn W) :=
  match fuel with
  | O => None
  | S fuel' =>
      let '(rx_len, hdr, pl, w) :=
        op_getbuf_slip_dual ops (t_rx_header t) NIO_FRAME_HEADER_SIZE
          (t_rx_payload t) rx_payload_capacity timeout (t_world t) in
      let t := t |> set_rx_header hdr |> set_rx_payload pl |> set_world w in
      let lsr := match op_last_lsr ops with Some f => f w | None => 0 end in
      let t := set_diag (option_map
                 (fun d => d |> set_d_rx_len rx_len |> set_d_lsr lsr) (t_diag t)) t in
      let '(parse_error, parsed) :=
        nio_protocol_validate_response (header_of_bytes hdr) pl rx_len
          device command reply_capacity in
      let t := set_diag (option_map (set_d_expected_len (p_expected_len parsed))
                 (t_diag t)) t in
      if parse_error =? NIO_PROTO_ERR_DEVICE_COMMAND then
        let stale_count := u8 (stale_count + 1) in
        if stale_count <=? max_stale_responses
        then read_response fuel' stale_count t
        else let '(r, d) := diag_fail (t_diag t) parse_error rx_len
                              (p_expected_len parsed) in
             Some (r, set_diag d t)
      else if negb (parse_error =? NIO_PROTO_OK) then
        let '(r, d) := diag_fail (t_diag t) (nio_port_error w parse_error)
                         rx_len (p_expected_len parsed) in
        Some (r, set_diag d t)
      else
        let t := set_diag (option_map
                   (fun d => d |> set_d_error NIO_ERR_NONE
                               |> set_d_status (p_status parsed)) (t_diag t)) t in
        let t := store_reply (p_payload_offset parsed) (p_payload_length parsed) t in
        let t := set_response (option_map
                   (fun _ => mkResponse (p_status parsed) (p_payload_length parsed))
                   (t_response t)) t in
        Some (true, t)
  end.

Definition nio_transaction_once (fuel : nat) (payload : option (list Z))
    (payload_length : Z) (t : txn W) : option (bool * txn W) :=
  let t := set_response (option_map
             (fun _ => mkResponse NIO_STATUS_INTERNAL_ERROR 0) (t_response t)) t in
  let t := set_world (send_request (t_tx_prefix t) payload payload_length
                        (t_world t)) t in
  read_response fuel 0 t.

(** The retry loop of [nio_transaction_call]; [n] is [max_attempts - attempt]. *)
Fixpoint attempt_loop (fuel n : nat) (payload : option (list Z))
    (payload_length : Z) (t : txn W) : option (bool * txn W) :=
  match n with
  | O => Some (false, t)
  | S n' =>
      let t := set_diag (diag_reset (t_diag t)) t in
      match nio_transaction_once fuel payload payload_length t with
      | None => None
      | Some (true, t) => Some (true, t)
      | Some (false, t) =>
          match t_diag t with
          | None => Some (false, t)
          | Some d =>
              if negb (nio_should_retry_error (d_error d)) then Some (false, t)
              else attempt_loop fuel n' payload payload_length t
          end
      end
  end.
End Once.
End Transaction.

(** The frame header written at [buffers->tx_prefix], checksum included. *)
Definition request_header (device command : Z) (payload : option (list Z))
    (payload_length : Z) : nio_frame_header_t :=
  let tx := mkHeader device command (u16 (NIO_FRAME_HEADER_SIZE + payload_length)) 0
                     NIO_PROTO_FIELD_NONE in
  let checksum := nio_protocol_checksum (header_bytes tx) NIO_FRAME_HEADER_SIZE 0 in
  let checksum := match payload with
                  | Some p => nio_protocol_checksum p payload_length checksum
                  | None => checksum
                  end in
  set_checksum (u8 checksum) tx.

Definition max_attempts_of (transport_retries : Z) : Z :=
  let max_attempts := u8 (transport_retries + 1) in
  if max_attempts =? 0 then 1 else max_attempts.

(** The caller's memory: the buffers, the reply, the response and the
    diagnostics, and the world of the port. *)
Record call_state (W : Type) := mkCall {
  c_world : W;
  c_buffers : option nio_transaction_buffers_t;
  c_reply : reply_t;
  c_response : option nio_response_t;
  c_diag : option nio_transaction_diag_t
}.
Arguments mkCall {W}.
Arguments c_world {W}.
Arguments c_buffers {W}.
Arguments c_reply {W}.
Arguments c_response {W}.
Arguments c_diag {W}.

Definition nio_transaction_call {W} (fuel : nat) (port : option (nio_transaction_port_t W))
    (device command : Z) (payload : option (list Z)) (payload_length : Z)
    (reply_capacity transport_retries network_timeout_ms default_timeout_ms
     max_stale_responses : Z) (s : call_state W) : option (bool * call_state W) :=
  let refuse :=
    let '(r, d) := diag_fail (c_diag s) NIO_ERR_PAYLOAD 0 0 in
    Some (r, mkCall (c_world s) (c_buffers s) (c_reply s) (c_response s) d) in
  match port, c_buffers s with
  | Some (mkPort (Some fl) (Some pc) (Some pb) (Some wt) (Some gb) rs ls),
    Some (mkBuffers (Some txp) txcap (Some rxh) (Some rxp) rxcap) =>
      if txcap <? NIO_FRAME_HEADER_SIZE then refuse else
      let ops := mkOps fl pc pb wt gb rs ls in
      let tx := request_header device command payload payload_length in
      let timeout := if device =? NIO_DEVICEID_NETWORK then network_timeout_ms
                     else default_timeout_ms in
      let t := mkTxn (c_world s) (overwrite txp 0 (header_bytes tx)) rxh rxp
                     (c_reply s) (c_response s) (c_diag s) in
      match attempt_loop ops device command reply_capacity timeout max_stale_responses
              rxcap fuel (Z.to_nat (max_attempts_of transport_retries))
              payload payload_length t with
      | None => None
      | Some (r, t) =>
          Some (r, mkCall (t_world t)
                     (Some (mkBuffers (Some (t_tx_prefix t)) txcap
                              (Some (t_rx_header t)) (Some (t_rx_payload t)) rxcap))
                     (t_reply t) (t_response t) (t_diag t))
      end
  | _, _ => refuse
  end.

(** ** What a port promises *)

(** A reception leaves the two buffers with their sizes, reports at most what
    they hold, and yields bytes. *)
Class PortOk {W} (ops : port_ops W) := getbuf_ok :
  forall hdr pl cap timeout w rx_len hdr' pl' w',
    op_getbuf_slip_dual ops hdr NIO_FRAME_HEADER_SIZE pl cap timeout w
      = (rx_len, hdr', pl', w') ->
    bytes_ok hdr -> length hdr = 6%nat ->
    bytes_ok pl -> length pl = Z.to_nat cap -> 0 <= cap < 65530 ->
    0 <= rx_len <= 6 + cap /\ bytes_ok hdr' /\ length hdr' = 6%nat /\
    bytes_ok pl' /\ length pl' = length pl.

(** [cnt] counts the requests: one per [flush_rx], which starts each of them;
    the other callbacks start none. *)
Class RequestCount {W} (ops : port_ops W) (cnt : W -> Z) := {
  cnt_flush w : cnt (op_flush_rx ops w) = cnt w + 1;
  cnt_putc c w : cnt (snd (op_putc ops c w)) = cnt w;
  cnt_putbuf b n w : cnt (snd (op_putbuf_slip ops b n w)) = cnt w;
  cnt_wait w : cnt (op_wait_tx_empty ops w) = cnt w;
  cnt_getbuf hdr n pl m timeout w :
    cnt (snd (op_getbuf_slip_dual ops hdr n pl m timeout w)) = cnt w
}.

Definition buffers_ok {W} (cap : Z) (t : txn W) : Prop :=
  bytes_ok (t_rx_header t) /\ length (t_rx_header t) = 6%nat /\
  bytes_ok (t_rx_payload t) /\ length (t_rx_payload t) = Z.to_nat cap.

(** The state after a delivered response with this status and this data. *)
Record delivered {W} (device command reply_capacity cap : Z) (t t' : txn W)
    (status : Z) (data : list Z) : Prop := {
  dl_header : exists fields, fields_accepted fields /\
    t_rx_header t' = header_bytes (frame_header device command fields (status :: data));
  dl_bytes : bytes_ok (status :: data);
  dl_fits : Z.of_nat (length data) <= reply_capacity;
  dl_cap : 1 + Z.of_nat (length data) <= cap;
  dl_tx : t_tx_prefix t' = t_tx_prefix t;
  dl_response : t_response t' =
    option_map (fun _ => mkResponse status (Z.of_nat (length data))) (t_response t);
  dl_diag : option_map (fun d => (d_error d, d_status d)) (t_diag t')
            = option_map (fun _ => (NIO_ERR_NONE, status)) (t_diag t);
  dl_reply : exists rx,
    take (S (length data)) rx = status :: data /\ length rx = Z.to_nat cap /\ bytes_ok rx /\
    match t_reply t with
    | ReplyNull => t_reply t' = ReplyNull /\ t_rx_payload t' = rx
    | ReplyBuffer b => t_reply t' = ReplyBuffer (overwrite b 0 data) /\ t_rx_payload t' = rx
    | ReplyRxPayload => t_reply t' = ReplyRxPayload /\ t_rx_payload t' = overwrite rx 0 data
    end
}.

Lemma overwrite_nil b : overwrite b 0 [] = b.
Proof. unfold overwrite. simpl. by rewrite drop_0. Qed.

Lemma store_reply_spec {W} (t : txn W) data status :
  take (S (length data)) (t_rx_payload t) = status :: data ->
  store_reply 1 (Z.of_nat (length data)) t =
  match t_reply t with
  | ReplyNull => t
  | ReplyBuffer b => set_reply (ReplyBuffer (overwrite b 0 data)) t
  | ReplyRxPayload => set_rx_payload (overwrite (t_rx_payload t) 0 data) t
  end.
Proof.
  intros Ht. unfold store_reply.
  destruct (Z.eqb_spec (Z.of_nat (length data)) 0) as [E|E].
  - destruct data; [|simpl in E; lia]. rewrite !overwrite_nil.
    destruct t as [????[]??]; simpl; rewrite ?overwrite_nil; done.
  - rewrite Nat2Z.id. replace (slice _ _ _) with data; [done|].
    unfold slice. change (Z.to_nat 1) with 1%nat.
    rewrite take_drop_commute. cbn [Nat.add]. by rewrite Ht.
Qed.

Section Facts.
Context {W : Type} (ops : port_ops W).
Context (device command reply_capacity timeout max_stale cap : Z).

#[local] Abbreviation read := (read_response ops device command reply_capacity timeout max_stale cap).
#[local] Abbreviation once := (nio_transaction_once ops device command reply_capacity timeout max_stale cap).
#[local] Abbreviation attempts := (attempt_loop ops device command reply_capacity timeout max_stale cap).

(** [max_stale + 1] receptions decide an exchange. *)
Lemma read_response_total fuel stale t :
  0 <= stale <= max_stale -> max_stale < 255 ->
  (Z.to_nat (max_stale - stale) < fuel)%nat -> is_Some (read fuel stale t).
Proof.
  revert stale t. induction fuel as [|fuel IH]; intros stale t Hs Hm Hf; [lia|]. simpl.
  destruct (op_getbuf_slip_dual _ _ _ _ _ _ _) as [[[rx_len hdr] pl] w].
  destruct (nio_protocol_validate_response _ _ _ _ _ _) as [err parsed].
  case_test; [|case_test; by eexists]. simpl.
  case_test; [|by eexists]. rewrite u8_id in Htest0 |- * by width_lia. apply IH; lia.
Qed.

Lemma once_total fuel payload plen t :
  0 <= max_stale < 255 -> (Z.to_nat max_stale < fuel)%nat ->
  is_Some (once fuel payload plen t).
Proof.
  intros. unfold nio_transaction_once. apply read_response_total; [lia..|].
  by rewrite Z.sub_0_r.
Qed.

Lemma attempts_total fuel n payload plen t :
  0 <= max_stale < 255 -> (Z.to_nat max_stale < fuel)%nat ->
  is_Some (attempts fuel n payload plen t).
Proof.
  intros Hm Hf. revert t. induction n as [|n IH]; intros t; simpl; [by eexists|].
  destruct (once_total fuel payload plen (set_diag (diag_reset (t_diag t)) t) Hm Hf)
    as [[[] t'] ->]; [by eexists|].
  destruct (t_diag t') as [d|]; [|by eexists]. case_test; [by eexists|]. apply IH.
Qed.

(** What an exchange leaves alone, whatever its result. *)
Definition same_shape (r : bool) (t t' : txn W) : Prop :=
  t_tx_prefix t' = t_tx_prefix t /\ buffers_ok cap t' /\
  (t_diag t' = None <-> t_diag t = None) /\
  (t_response t' = None <-> t_response t = None) /\
  (r = false -> t_reply t' = t_reply t).

Lemma same_shape_trans r t1 t2 t3 :
  same_shape false t1 t2 -> same_shape r t2 t3 -> same_shape r t1 t3.
Proof.
  intros (?&?&?&?&E1) (?&?&?&?&E2). unfold same_shape.
  split_and!; [congruence|done|tauto..|intros ->]. rewrite E2, E1; done.
Qed.

(** The state in which a frame has just been received. *)
Definition received (hdr pl : list Z) (w : W) (rx_len : Z) (t : txn W) : txn W :=
  let t := t |> set_rx_header hdr |> set_rx_payload pl |> set_world w in
  set_diag (option_map (fun d => d |> set_d_rx_len rx_len
    |> set_d_lsr (match op_last_lsr ops with Some f => f w | None => 0 end))
    (t_diag t)) t.

Lemma header_of_bytes_ok b : bytes_ok b -> length b = 6%nat -> header_ok (header_of_bytes b).
Proof.
  intros Hb _. unfold header_ok, header_of_bytes. simpl.
  split_and!; auto using le16_range with fuji.
Qed.

Lemma overwrite_prefix_ok (b data : list Z) n :
  bytes_ok b -> bytes_ok data -> length b = n -> (length data <= n)%nat ->
  bytes_ok (overwrite b 0 data) /\ length (overwrite b 0 data) = n.
Proof. intros. split; [auto with fuji|]. rewrite length_overwrite; lia. Qed.

(** One reception, successful or not: the invariant of [read_response]. *)
Lemma read_response_shape `{!PortOk ops} fuel stale t r t' :
  0 <= cap < 65530 -> buffers_ok cap t ->
  read fuel stale t = Some (r, t') ->
  same_shape r t t' /\
  (r = true -> exists status data,
     delivered device command reply_capacity cap t t' status data).
Proof.
  intros Hcap. revert stale t. induction fuel as [|fuel IH]; intros stale t Hb H; [done|].
  simpl in H.
  destruct (op_getbuf_slip_dual _ _ _ _ _ _ _) as [[[rx_len hdr] pl] w] eqn:Eg.
  destruct Hb as (Hb1&Hb2&Hb3&Hb4).
  destruct (getbuf_ok _ _ _ _ _ _ _ _ _ Eg) as (Hr&Hh&Hhl&Hp&Hpl); try done.
  destruct (nio_protocol_validate_response _ _ _ _ _ _) as [err parsed] eqn:Ev.
  case_test_in H; [case_test_in H|case_test_in H].
  - apply IH in H; [|by unfold buffers_ok; simpl; rewrite Hpl].
    destruct H as [Hs Hd]. split.
    + eapply same_shape_trans; [|exact Hs]. unfold same_shape, buffers_ok; simpl.
      rewrite Hpl. split_and!; try done; destruct (t_diag t); done.
    + intros Hr'. destruct (Hd Hr') as (status&data&[]). exists status, data.
      split; try done. simpl in *. by destruct (t_diag t).
  - injection H as <- <-. split; [|done]. unfold same_shape, buffers_ok; simpl.
    rewrite Hpl. split_and!; try done; destruct (t_diag t); done.
  - injection H as <- <-. split; [|done]. unfold same_shape, buffers_ok; simpl.
    rewrite Hpl. split_and!; try done; destruct (t_diag t); done.
  - apply negb_false_iff, Z.eqb_eq in Htest0 as ->. injection H as <- <-.
    apply validate_ok_frame in Ev as (fields&status&data&Hf&Et&Hrl&Hfr&Hfit&->);
      [|by apply header_of_bytes_ok|done|lia|lia].
    replace (Z.to_nat (rx_len - 6)) with (S (length data)) in Et by lia.
    assert (bytes_ok (status :: data)) as Hsd
      by (rewrite <- Et; by apply Forall_take).
    assert (bytes_ok data) as Hda by by inversion Hsd.
    cbn [p_payload_offset p_payload_length p_status p_expected_len].
    rewrite store_reply_spec with (status := status) by done.
    destruct (overwrite_prefix_ok pl data (Z.to_nat cap)) as [Ho1 Ho2]; try done;
      [congruence|lia|].
    assert (header_bytes (frame_header device command fields (status :: data)) = hdr)
      as Hhb by (rewrite <- Hfr; by apply header_of_bytes_bytes).
    destruct t as [w0 tx h0 p0 rp resp dg]; simpl in *.
    split; [|intros _; exists status, data].
    + unfold same_shape, buffers_ok.
      destruct rp, dg, resp; simpl; split_and!; try done; congruence.
    + split; destruct rp, dg, resp; simpl in *; try done; try lia.
      all: first [by exists fields | exists pl; split_and!; try done; congruence].
Qed.

Lemma delivered_from (t1 t2 t' : txn W) status data :
  t_tx_prefix t1 = t_tx_prefix t2 -> t_reply t1 = t_reply t2 ->
  (t_response t1 = None <-> t_response t2 = None) ->
  (t_diag t1 = None <-> t_diag t2 = None) ->
  delivered device command reply_capacity cap t1 t' status data ->
  delivered device command reply_capacity cap t2 t' status data.
Proof.
  intros Htx Hrp Hre Hdi [? ? ? ? Etx Ere Edi Erp].
  rewrite Htx in Etx. rewrite Hrp in Erp. split; try done.
  - rewrite Ere. by apply option_map_const.
  - rewrite Edi. by apply option_map_const.
Qed.

Lemma send_request_count `{!RequestCount ops cnt} tx payload plen w :
  cnt (send_request ops tx payload plen w) = cnt w + 1.
Proof.
  unfold send_request. rewrite cnt_wait, cnt_putc.
  destruct payload; [case_test|]; rewrite ?cnt_putbuf, cnt_putc, cnt_flush; done.
Qed.

Lemma read_response_count `{!RequestCount ops cnt} fuel stale t r t' :
  read fuel stale t = Some (r, t') -> cnt (t_world t') = cnt (t_world t).
Proof.
  revert stale t. induction fuel as [|fuel IH]; intros stale t H; [done|].
  simpl in H.
  pose proof (cnt_getbuf (t_rx_header t) NIO_FRAME_HEADER_SIZE (t_rx_payload t) cap
                timeout (t_world t)) as Hc.
  destruct (op_getbuf_slip_dual _ _ _ _ _ _ _) as [[[rx_len hdr] pl] w].
  destruct (nio_protocol_validate_response _ _ _ _ _ _) as [err parsed].
  case_test_in H; [case_test_in H; [by apply IH in H as ->|]|case_test_in H];
    injection H as <- <-; try done.
  simpl. unfold store_reply. case_test; [done|]. by destruct (t_reply _).
Qed.

Lemma once_shape `{!PortOk ops} fuel payload plen t r t' :
  0 <= cap < 65530 -> buffers_ok cap t ->
  once fuel payload plen t = Some (r, t') ->
  same_shape r t t' /\
  (r = true -> exists status data,
     delivered device command reply_capacity cap t t' status data).
Proof.
  intros Hcap Hb H. unfold nio_transaction_once in H.
  apply read_response_shape in H as [Hs Hd]; [|done|by destruct t].
  split.
  - eapply same_shape_trans; [|exact Hs]. destruct t as [??????[]]; simpl;
    unfold same_shape; simpl; split_and!; try done; by destruct t_response0.
  - intros Hr. destruct (Hd Hr) as (status&data&Hdel). exists status, data.
    eapply delivered_from, Hdel; destruct t as [?????[]?]; done.
Qed.

Lemma attempts_shape `{!PortOk ops} fuel n payload plen t r t' :
  0 <= cap < 65530 -> buffers_ok cap t ->
  attempts fuel n payload plen t = Some (r, t') ->
  same_shape r t t' /\
  (r = true -> exists status data,
     delivered device command reply_capacity cap t t' status data).
Proof.
  intros Hcap. revert t. induction n as [|n IH]; intros t Hb H; simpl in H.
  { injection H as <- <-. by unfold same_shape. }
  destruct (once _ _ _ _) as [[r1 t1]|] eqn:Eo; [|done].
  apply once_shape in Eo as [Hs Hd]; [|done|by destruct t].
  assert (forall r t', same_shape r (set_diag (diag_reset (t_diag t)) t) t' ->
            same_shape r t t') as Hsh.
  { intros r0 t0. unfold same_shape.
    destruct t as [??????[]]; simpl; intuition congruence. }
  assert (forall t' st da, delivered device command reply_capacity cap
            (set_diag (diag_reset (t_diag t)) t) t' st da ->
            delivered device command reply_capacity cap t t' st da) as Hdh.
  { intros t0 st da. apply delivered_from; by destruct t as [??????[]]. }
  destruct r1; [|destruct (t_diag t1) as [d|]; [case_test_in H|]].
  - injection H as <- <-. split; [by apply Hsh|]. intros Hr.
    destruct (Hd Hr) as (st&da&Hdel). eauto.
  - injection H as <- <-. split; [by apply Hsh|done].
  - pose proof Hs as Hs'. apply Hsh in Hs'. apply IH in H as [Hs2 Hd2]; [|by destruct Hs as (_&?&_)].
    split; [by eapply same_shape_trans|]. intros Hr.
    destruct (Hd2 Hr) as (st&da&Hdel). exists st, da.
    destruct Hs' as (?&?&?&?&?). eapply delivered_from; [..|exact Hdel]; auto.
  - injection H as <- <-. split; [by apply Hsh|done].
Qed.

(** The number of requests a call sends, and why it stopped. *)
Lemma attempts_count `{!RequestCount ops cnt} fuel n payload plen t r t' :
  (0 < n)%nat -> attempts fuel n payload plen t = Some (r, t') ->
  cnt (t_world t) + 1 <= cnt (t_world t') <= cnt (t_world t) + Z.of_nat n /\
  (r = false -> cnt (t_world t') < cnt (t_world t) + Z.of_nat n ->
   match t_diag t' with
   | None => True
   | Some d => nio_should_retry_error (d_error d) = false
   end).
Proof.
  revert t. induction n as [|n IH]; intros t Hn H; simpl in H; [lia|].
  destruct (once _ _ _ _) as [[r1 t1]|] eqn:Eo; [|done].
  unfold nio_transaction_once in Eo. apply read_response_count in Eo.
  simpl in Eo. rewrite send_request_count in Eo.
  destruct r1; [|destruct (t_diag t1) as [d|] eqn:Ed; [case_test_in H|]].
  - injection H as <- <-. split; [lia|done].
  - injection H as <- <-. split; [lia|]. rewrite Ed. intros _ _.
    by apply negb_true_iff.
  - destruct n as [|n]; [simpl in H; injection H as <- <-; split; lia|].
    apply IH in H as [H1 H2]; [|lia]. split; [lia|]. intros Hr Hc. apply H2; [done|lia].
  - injection H as <- <-. rewrite Ed. split; [lia|done].
Qed.

(** The first reception of an attempt is an acceptable frame. *)
Lemma attempts_accept fuel n payload plen t rx_len hdr pl w status data :
  op_getbuf_slip_dual ops (t_rx_header t) NIO_FRAME_HEADER_SIZE (t_rx_payload t) cap timeout
    (send_request ops (t_tx_prefix t) payload plen (t_world t)) = (rx_len, hdr, pl, w) ->
  nio_protocol_validate_response (header_of_bytes hdr) pl rx_len device command reply_capacity
    = (NIO_PROTO_OK, mkParsed status rx_len 1 (Z.of_nat (length data))) ->
  take (S (length data)) pl = status :: data ->
  exists t', attempts (S fuel) (S n) payload plen t = Some (true, t') /\
    t_world t' = w /\
    t_response t' =
      option_map (fun _ => mkResponse status (Z.of_nat (length data))) (t_response t) /\
    match t_reply t with
    | ReplyNull => t_reply t' = ReplyNull /\ t_rx_payload t' = pl
    | ReplyBuffer b => t_reply t' = ReplyBuffer (overwrite b 0 data) /\ t_rx_payload t' = pl
    | ReplyRxPayload =>
        t_reply t' = ReplyRxPayload /\ t_rx_payload t' = overwrite pl 0 data
    end.
Proof.
  destruct t as [w0 tx h0 p0 rp resp dg]. simpl. intros Eg Ev Et.
  unfold nio_transaction_once. simpl. rewrite Eg, Ev. simpl.
  rewrite store_reply_spec with (status := status) by done.
  destruct rp; simpl; eexists; split_and!; try reflexivity; by destruct resp.
Qed.

Lemma read_response_mono fuel fuel' stale t x :
  (fuel <= fuel')%nat -> read fuel stale t = Some x -> read fuel' stale t = Some x.
Proof.
  revert fuel' stale t. induction fuel as [|fuel IH]; intros [|fuel'] stale t Hf H;
    try done; [lia|]. simpl in *.
  destruct (op_getbuf_slip_dual _ _ _ _ _ _ _) as [[[rx_len hdr] pl] w].
  destruct (nio_protocol_validate_response _ _ _ _ _ _) as [err parsed].
  case_test_in H; [|done]. case_test_in H; [|done]. apply IH; [lia|done].
Qed.

Lemma attempts_mono fuel fuel' n payload plen t x :
  (fuel <= fuel')%nat -> attempts fuel n payload plen t = Some x ->
  attempts fuel' n payload plen t = Some x.
Proof.
  intros Hf. revert t. induction n as [|n IH]; intros t H; [done|]. simpl in *.
  unfold nio_transaction_once in *.
  destruct (read fuel 0 _) as [[r t1]|] eqn:E; [|done].
  rewrite (read_response_mono _ _ _ _ _ Hf E).
  destruct r; [done|]. destruct (t_diag t1); [|done]. case_test_in H; [done|]. by apply IH.
Qed.
End Facts.

(** The header of a request is the encoder's header, with no fields. *)
Lemma request_header_eq device command p :
  is_u8 device -> is_u8 command -> bytes_ok p -> Z.of_nat (length p) < 65530 ->
  request_header device command (Some p) (Z.of_nat (length p))
  = frame_header device command NIO_PROTO_FIELD_NONE p.
Proof.
  intros Hd Hc Hp Hl. unfold request_header, NIO_FRAME_HEADER_SIZE.
  rewrite u16_id by (unfold is_u16; lia).
  set (h := mkHeader device command (6 + Z.of_nat (length p)) 0 NIO_PROTO_FIELD_NONE).
  assert (header_ok h) as Hh
    by (unfold header_ok, h; simpl; unfold is_u16, is_u8 in *; split_and!; try done; lia).
  assert (Z.to_nat (Z.of_nat (length p)) <= length p)%nat as Hn by lia.
  pose proof (frame_checksum_eq h p (Z.of_nat (length p)) Hh Hp Hn (Nat2Z.is_nonneg _)) as E.
  change (set_checksum 0 h) with h in E. rewrite E, Nat2Z.id, take_ge by done.
  by rewrite u8_ones_complement by (by apply frame_sum_nonneg).
Qed.

(** A call on a usable port and usable buffers is its retry loop. *)
Lemma call_inv {W} fuel (ops : port_ops W) device command payload plen rcap retries
    nt dt stale w txp txcap rxh rxp cap reply response diag r s' :
  6 <= txcap ->
  nio_transaction_call fuel (Some (port_of_ops ops)) device command payload plen rcap
    retries nt dt stale
    (mkCall w (Some (mkBuffers (Some txp) txcap (Some rxh) (Some rxp) cap))
       reply response diag) = Some (r, s') ->
  exists t', attempt_loop ops device command rcap
      (if device =? NIO_DEVICEID_NETWORK then nt else dt) stale cap fuel
      (Z.to_nat (max_attempts_of retries)) payload plen
      (mkTxn w (overwrite txp 0 (header_bytes (request_header device command payload plen)))
         rxh rxp reply response diag) = Some (r, t') /\
    s' = mkCall (t_world t')
           (Some (mkBuffers (Some (t_tx_prefix t')) txcap (Some (t_rx_header t'))
                    (Some (t_rx_payload t')) cap))
           (t_reply t') (t_response t') (t_diag t').
Proof.
  intros Hcap. unfold nio_transaction_call, port_of_ops, NIO_FRAME_HEADER_SIZE. simpl.
  destruct (Z.ltb_spec txcap 6); [lia|]. destruct ops; simpl.
  destruct (attempt_loop _ _ _ _ _ _ _ _ _ _ _) as [[r0 t0]|]; [|done].
  intros [= <- <-]. by exists t0.
Qed.

Lemma max_attempts_range retries : 1 <= max_attempts_of retries <= 255.
Proof. unfold max_attempts_of. case_test; width_lia. Qed.

(** ** A port that plays back frames

    Each reception takes the next frame of a script; a frame that does not fit
    or is not made of bytes is an empty reception. *)
Record playback := mkPlayback { pb_script : list (list Z); pb_requests : Z }.

Definition is_frame (cap : Z) (f : list Z) : bool :=
  forallb (fun b => (0 <=? b) && (b <? 256)) f &&
  (6 <=? length f)%nat && (length f <=? 6 + Z.to_nat cap)%nat.

Definition playback_receive (hdr : list Z) (hdr_len : Z) (pl : list Z) (cap timeout : Z)
    (w : playback) : Z * list Z * list Z * playback :=
  match pb_script w with
  | [] => (0, hdr, pl, w)
  | f :: rest =>
      let w := mkPlayback rest (pb_requests w) in
      if is_frame cap f
      then (Z.of_nat (length f), take 6 f, overwrite pl 0 (drop 6 f), w)
      else (0, hdr, pl, w)
  end.

Definition playback_ops : port_ops playback :=
  mkOps (fun w => mkPlayback (pb_script w) (pb_requests w + 1))
        (fun c w => (c, w)) (fun _ n w => (n, w)) (fun w => w)
        playback_receive (Some (fun _ => 0)) (Some (fun _ => 0)).

Lemma is_frame_bytes cap f :
  is_frame cap f = true ->
  bytes_ok f /\ (6 <= length f)%nat /\ (length f <= 6 + Z.to_nat cap)%nat.
Proof.
  unfold is_frame. intros [[H1 H2]%andb_true_iff H3]%andb_true_iff.
  apply Nat.leb_le in H2, H3. split_and!; [|lia..].
  apply Forall_forall. intros x Hx.
  rewrite forallb_forall in H1. apply list_elem_of_In in Hx. apply H1 in Hx.
  unfold is_u8. lia.
Qed.

#[export] Instance playback_ok : PortOk playback_ops.
Proof.
  intros hdr pl cap timeout [[|f rest] n] rx_len hdr' pl' w'; simpl;
    unfold playback_receive; simpl.
  { intros [= <- <- <- <-] ?????. split_and!; done || lia. }
  destruct (is_frame cap f) eqn:Ef; intros [= <- <- <- <-] Hh Hhl Hp Hpl Hcap.
  - apply is_frame_bytes in Ef as (Hf&Hf1&Hf2).
    split_and!; [lia|lia|by apply Forall_take|rewrite length_take; lia| |].
    + apply overwrite_bytes_ok; [done|by apply Forall_drop].
    + apply length_overwrite. rewrite length_drop. lia.
  - split_and!; done || lia.
Qed.

#[export] Instance playback_count : RequestCount playback_ops pb_requests.
Proof.
  split; try done. intros hdr n pl m timeout [[|f rest] k]; [done|].
  cbn [op_getbuf_slip_dual playback_ops]. unfold playback_receive. simpl.
  by destruct (is_frame m f).
Qed.

Lemma call_total {W} fuel (port : option (nio_transaction_port_t W)) device command
    payload plen rcap retries nt dt stale s :
  0 <= stale < 255 -> (Z.to_nat stale < fuel)%nat ->
  is_Some (nio_transaction_call fuel port device command payload plen rcap
             retries nt dt stale s).
Proof.
  intros Hs Hf. unfold nio_transaction_call.
  assert (forall p : bool * option nio_transaction_diag_t,
    is_Some (let '(r, d) := p in
      Some (r, mkCall (c_world s) (c_buffers s) (c_reply s) (c_response s) d))) as Href
    by (intros []; by eexists).
  destruct port as [[[] [] [] [] [] ? ?]|]; try apply Href.
  destruct (c_buffers s) as [[[] ? [] [] ?]|]; try apply Href.
  case_test; [apply Href|].
  match goal with |- is_Some match attempt_loop ?o ?d ?c ?rc ?t ?st ?cp ?fl ?n ?p ?pl ?x with _ => _ end =>
    destruct (attempts_total o d c rc t st cp fl n p pl x Hs Hf) as [[r t'] ->] end.
  by eexists.
Qed.

Lemma call_fuel_mono {W} fuel fuel' (port : option (nio_transaction_port_t W)) device command
    payload plen rcap retries nt dt stale s r :
  (fuel <= fuel')%nat ->
  nio_transaction_call fuel port device command payload plen rcap retries nt dt stale s = Some r ->
  nio_transaction_call fuel' port device command payload plen rcap retries nt dt stale s = Some r.
Proof.
  intros Hf. unfold nio_transaction_call.
  destruct port as [[[] [] [] [] [] ? ?]|]; try done.
  destruct (c_buffers s) as [[[] ? [] [] ?]|]; try done. case_test; [done|].
  destruct (attempt_loop _ _ _ _ _ _ _ fuel _ _ _ _) as [x|] eqn:E; [|done].
  by rewrite (attempts_mono _ _ _ _ _ _ _ _ _ _ _ _ _ _ Hf E).
Qed.

(** ** Properties *)

(** C5: what a successful call delivers: the last frame received is the
    encoder's frame for this device and command over a payload [status ::
    data], with an accepted field descriptor; the caller's response holds that
    status and the length of the data, the caller's own buffer starts with the
    data and is otherwise unchanged, the data fits the capacity the caller
    declared, and the diagnostics report no error. *)
Theorem call_delivers {W} `{!PortOk ops} fuel device command payload plen rcap retries
    nt dt stale (w : W) txp txcap rxh rxp cap b response diag s' :
  6 <= txcap -> 0 <= cap < 65530 -> bytes_ok rxh -> length rxh = 6%nat ->
  bytes_ok rxp -> length rxp = Z.to_nat cap ->
  nio_transaction_call fuel (Some (port_of_ops ops)) device command payload plen rcap
    retries nt dt stale
    (mkCall w (Some (mkBuffers (Some txp) txcap (Some rxh) (Some rxp) cap))
       (ReplyBuffer b) (Some response) (Some diag)) = Some (true, s') ->
  exists fields status data txp' rx diag',
    fields_accepted fields /\ take (S (length data)) rx = status :: data /\
    s' = mkCall (c_world s')
           (Some (mkBuffers (Some txp') txcap
              (Some (header_bytes (frame_header device command fields (status :: data))))
              (Some rx) cap))
           (ReplyBuffer (overwrite b 0 data))
           (Some (mkResponse status (Z.of_nat (length data)))) (Some diag') /\
    Z.of_nat (length data) <= rcap /\
    d_error diag' = NIO_ERR_NONE /\ d_status diag' = status.
Proof.
  intros Htx Hcap Hh Hhl Hp Hpl H. apply call_inv in H as (t'&H&->); [|done].
  apply attempts_shape in H as [_ Hd]; try done.
  destruct (Hd eq_refl) as (status&data&[(fields&Hf&Eh) _ Hfit _ _ Ere Edi (rx&Hrx&_&_&Er1&Er2)]).
  simpl in *. destruct (t_diag t') as [diag'|]; [|done]. injection Edi as Ed1 Ed2.
  exists fields, status, data, (t_tx_prefix t'), rx, diag'.
  split_and!; try done. by rewrite Eh, Er1, Er2, Ere.
Qed.

(** A clock-like exchange: a stale frame of another command, then the answer. *)
Definition demo_frame (device command : Z) (payload : list Z) : list Z :=
  header_bytes (frame_header device command NIO_PROTO_FIELD_A1 payload) ++ payload.

Definition demo_state (script : list (list Z)) : call_state playback :=
  mkCall (mkPlayback script 0)
    (Some (mkBuffers (Some (zeros 32)) 32 (Some (zeros 6)) (Some (zeros 8)) 8))
    (ReplyBuffer (zeros 4)) (Some (mkResponse 0 0)) (Some (mkDiag 0 0 0 0 0)).

Lemma call_delivers_witness :
  exists s',
    nio_transaction_call 3 (Some (port_of_ops playback_ops)) 253 2 (Some [1; 2]) 2 4
      2 100 200 2 (demo_state [demo_frame 252 2 [0; 1]; demo_frame 253 2 [0; 119; 120]])
    = Some (true, s') /\ c_reply s' = ReplyBuffer [119; 120; 0; 0] /\
  exists fields status data txp' rx diag',
    fields_accepted fields /\ take (S (length data)) rx = status :: data /\
    s' = mkCall (c_world s')
           (Some (mkBuffers (Some txp') 32
              (Some (header_bytes (frame_header 253 2 fields (status :: data))))
              (Some rx) 8))
           (ReplyBuffer (overwrite (zeros 4) 0 data))
           (Some (mkResponse status (Z.of_nat (length data)))) (Some diag') /\
    Z.of_nat (length data) <= 4 /\
    d_error diag' = NIO_ERR_NONE /\ d_status diag' = status.
Proof.
  eexists. split; [vm_compute; reflexivity|]. split; [reflexivity|].
  apply (call_delivers (ops := playback_ops) 3 253 2 (Some [1; 2]) 2 4 2 100 200 2
           (mkPlayback [demo_frame 252 2 [0; 1]; demo_frame 253 2 [0; 119; 120]] 0)
           (zeros 32) 32 (zeros 6) (zeros 8) 8 (zeros 4) (mkResponse 0 0) (mkDiag 0 0 0 0 0));
    [done|done|repeat constructor; done|done|repeat constructor; done|done|].
  vm_compute; reflexivity.
Defined.

(** Termination: with a stale limit below 255 a call always returns, with
    any port and any memory: [stale + 1] receptions per attempt are enough; and
    more fuel never changes the result. *)
Theorem call_terminates {W} fuel (port : option (nio_transaction_port_t W)) device command
    payload plen rcap retries nt dt stale s :
  0 <= stale < 255 -> (Z.to_nat stale < fuel)%nat ->
  exists r, nio_transaction_call (S (Z.to_nat stale)) port device command payload plen rcap
              retries nt dt stale s = Some r /\
            nio_transaction_call fuel port device command payload plen rcap
              retries nt dt stale s = Some r.
Proof.
  intros Hs Hf. destruct (call_total (S (Z.to_nat stale)) port device command payload plen
    rcap retries nt dt stale s Hs ltac:(lia)) as [r Hr].
  exists r. split; [done|]. eapply call_fuel_mono, Hr. lia.
Qed.

Lemma call_terminates_witness :
  exists r,
    nio_transaction_call 3 (Some (port_of_ops playback_ops)) 253 2 (Some [1; 2]) 2 4
      2 100 200 2 (demo_state []) = Some r /\
    nio_transaction_call 9 (Some (port_of_ops playback_ops)) 253 2 (Some [1; 2]) 2 4
      2 100 200 2 (demo_state []) = Some r.
Proof.
  apply (call_terminates 9 (Some (port_of_ops playback_ops)) 253 2 (Some [1; 2]) 2 4
           2 100 200 2); [lia|simpl; lia].
Defined.


