(* ===== verification/Slip.v ===== *)
(** * The serial port (msdos/src/serial/port_*.asm)

    SLIP framing over the 8250: the encoder [port_putbuf_slip], the decoder
    [port_getbuf_slip_dual] that splits a frame over a header and a data
    buffer, and the rest of the port callbacks of nio.c, as operations on a
    [uart].  The line is a stream of events: a character with the line-status
    error bits seen while waiting for it, or a timeout; how long a timeout
    takes is the environment's affair, so the tick counter is not modelled.
    [slip_ops] is the port the transaction layer uses on MS-DOS; it satisfies
    the interface [PortOk]. *)

From S2P Require Import Prelude NioProtocol NioTransaction.

Definition SLIP_END : Z := 192.
Definition SLIP_ESC : Z := 219.
Definition SLIP_ESC_END : Z := 220.
Definition SLIP_ESC_ESC : Z := 221.
Definition LSR_ERRORS : Z := 30.

Inductive rx_event :=
| RxByte (lsr c : Z)
| RxTimeout (lsr : Z).

(** [u_rx]: what the receiver will see; [u_peer]: what the peer sends after
    each request has left the UART; [u_tx]: what was transmitted;
    [u_bx]: the register BX a caller left behind. *)
Record uart := mkUart {
  u_rx : list rx_event;
  u_peer : list (list rx_event);
  u_tx : list Z;
  u_reason : Z;
  u_lsr : Z;
  u_bx : Z
}.
#[export] Instance eta_uart : Eta uart :=
  fun u => mkUart (u_rx u) (u_peer u) (u_tx u) (u_reason u) (u_lsr u) (u_bx u).
Definition set_u_rx : list rx_event -> uart -> uart := ltac:(derive_setter u_rx).
Definition set_u_tx : list Z -> uart -> uart := ltac:(derive_setter u_tx).

Definition send_byte (c : Z) (u : uart) : uart := set_u_tx (u_tx u ++ [c]) u.

Definition port_putc (c : Z) (u : uart) : Z * uart := (c, send_byte c u).

Definition port_flush_rx (u : uart) : uart := set_u_rx [] u.

Definition port_wait_tx_empty (u : uart) : uart :=
  match u_peer u with
  | [] => u
  | batch :: rest =>
      mkUart (u_rx u ++ batch) rest (u_tx u) (u_reason u) (u_lsr u) (u_bx u)
  end.

(** [slip_put_loop]: [cx] bytes remain to be encoded, [bx] were sent. *)
Fixpoint slip_put_loop (buf : list Z) (si cx : nat) (bx : Z) (u : uart) : Z * uart :=
  match cx with
  | O => (bx, u)
  | S cx' =>
      let al := buf.[si] in
      if al =? SLIP_END then
        slip_put_loop buf (S si) cx' (u16 (bx + 2))
          (send_byte SLIP_ESC_END (send_byte SLIP_ESC u))
      else if al =? SLIP_ESC then
        slip_put_loop buf (S si) cx' (u16 (bx + 2))
          (send_byte SLIP_ESC_ESC (send_byte SLIP_ESC u))
      else slip_put_loop buf (S si) cx' (u16 (bx + 1)) (send_byte al u)
  end.

Definition port_putbuf_slip (buf : list Z) (len : Z) (u : uart) : Z * uart :=
  slip_put_loop buf 0 (Z.to_nat len) 0 u.

(** The decoder's registers: [g_cx] bytes are left in the current buffer, the
    data buffer when [g_in_data], at index [g_di]; [g_bx] counts the bytes. *)
Record slip_rx := mkRx {
  g_hdr : list Z;
  g_data : list Z;
  g_in_data : bool;
  g_di : nat;
  g_bx : Z;
  g_cx : Z;
  g_data_len : Z;
  g_reason : Z;
  g_lsr : Z
}.
#[export] Instance eta_slip_rx : Eta slip_rx :=
  fun g => mkRx (g_hdr g) (g_data g) (g_in_data g) (g_di g) (g_bx g) (g_cx g)
                (g_data_len g) (g_reason g) (g_lsr g).
Definition set_g_reason : Z -> slip_rx -> slip_rx := ltac:(derive_setter g_reason).

(** The line-status bits of the wait loop. *)
Definition note_lsr (lsr : Z) (g : slip_rx) : slip_rx :=
  let al := Z.land lsr LSR_ERRORS in
  if al =? 0 then g else
  mkRx (g_hdr g) (g_data g) (g_in_data g) (g_di g) (g_bx g) (g_cx g) (g_data_len g)
       NIO_TRANSACTION_PORT_REASON_LINE_STATUS (Z.lor (g_lsr g) al).

(** [slipd_store_byte]; the boolean is false when decoding is over. *)
Definition slip_store (al : Z) (g : slip_rx) : slip_rx * bool :=
  let hdr := if g_in_data g then g_hdr g else put_at (g_hdr g) (g_di g) al in
  let data := if g_in_data g then put_at (g_data g) (g_di g) al else g_data g in
  let bx := u16 (g_bx g + 1) in
  let cx := u16 (g_cx g - 1) in
  if negb (cx =? 0) then
    (mkRx hdr data (g_in_data g) (S (g_di g)) bx cx (g_data_len g) (g_reason g) (g_lsr g),
     true)
  else if negb (g_data_len g =? 0) then
    (mkRx hdr data true 0 bx (g_data_len g) 0 (g_reason g) (g_lsr g), true)
  else
    (mkRx hdr data (g_in_data g) (S (g_di g)) bx 0 0
          NIO_TRANSACTION_PORT_REASON_BUFFER_FULL (g_lsr g), false).

Inductive slip_phase := Sync | SkipEnd | Decode | Escape.

(** The receive loop, from the wait for a character on. *)
Fixpoint slip_run (evs : list rx_event) (ph : slip_phase) (g : slip_rx)
    : slip_rx * list rx_event :=
  match evs with
  | [] => (set_g_reason NIO_TRANSACTION_PORT_REASON_TIMEOUT g, [])
  | RxTimeout lsr :: evs' =>
      (set_g_reason NIO_TRANSACTION_PORT_REASON_TIMEOUT (note_lsr lsr g), evs')
  | RxByte lsr c :: evs' =>
      let al := u8 c in
      let g := note_lsr lsr g in
      let store v :=
        match slip_store v g with
        | (g', true) => slip_run evs' Decode g'
        | (g', false) => (g', evs')
        end in
      let decode :=
        if al =? SLIP_END then (g, evs')
        else if al =? SLIP_ESC then slip_run evs' Escape g
        else store al in
      match ph with
      | Sync => if al =? SLIP_END then slip_run evs' SkipEnd g else slip_run evs' Sync g
      | SkipEnd => if al =? SLIP_END then slip_run evs' SkipEnd g else decode
      | Decode => decode
      | Escape =>
          store (if al =? SLIP_ESC_END then SLIP_END
                 else if al =? SLIP_ESC_ESC then SLIP_ESC else al)
      end
  end.

Definition port_getbuf_slip_dual (hdr_buf : list Z) (hdr_len : Z) (data_buf : list Z)
    (data_len timeout : Z) (u : uart) : Z * list Z * list Z * uart :=
  if u16 (hdr_len + data_len) =? 0 then
    (u_bx u, hdr_buf, data_buf,
     mkUart (u_rx u) (u_peer u) (u_tx u) NIO_TRANSACTION_PORT_REASON_NONE 0 (u_bx u))
  else
  let '(g, rest) := slip_run (u_rx u) Sync
    (mkRx hdr_buf data_buf false 0 0 hdr_len data_len
          NIO_TRANSACTION_PORT_REASON_NONE 0) in
  (g_bx g, g_hdr g, g_data g,
   mkUart rest (u_peer u) (u_tx u) (g_reason g) (g_lsr g) (u_bx u)).

(** The callbacks nio.c installs. *)
Definition slip_ops : port_ops uart :=
  mkOps port_flush_rx port_putc port_putbuf_slip port_wait_tx_empty
        port_getbuf_slip_dual (Some u_reason) (Some u_lsr).

(** ** The reference encoding *)

Definition slip_escape (c : Z) : list Z :=
  if c =? SLIP_END then [SLIP_ESC; SLIP_ESC_END]
  else if c =? SLIP_ESC then [SLIP_ESC; SLIP_ESC_ESC]
  else [c].

Definition slip_encode (b : list Z) : list Z := b ≫= slip_escape.

Definition slip_frame (b : list Z) : list Z := [SLIP_END] ++ slip_encode b ++ [SLIP_END].

(** The line that carries these characters without line-status errors. *)
Definition clean (b : list Z) : list rx_event := RxByte 0 <$> b.

Lemma slip_encode_app a b : slip_encode (a ++ b) = slip_encode a ++ slip_encode b.
Proof. apply bind_app. Qed.

Lemma slip_encode_cons c b : slip_encode (c :: b) = slip_escape c ++ slip_encode b.
Proof. apply bind_cons. Qed.

Lemma slip_encode_no_end b : Forall (fun c => c <> SLIP_END) (slip_encode b).
Proof.
  induction b as [|c b IH]; [constructor|].
  rewrite slip_encode_cons. apply Forall_app. split; [|exact IH].
  unfold slip_escape. repeat case_test; repeat constructor; try done.
  by apply Z.eqb_neq.
Qed.

Lemma slip_put_loop_tx buf si cx bx u :
  (si + cx <= length buf)%nat ->
  snd (slip_put_loop buf si cx bx u)
  = set_u_tx (u_tx u ++ slip_encode (slice buf si cx)) u.
Proof.
  revert si bx u. induction cx as [|cx IH]; intros si bx u Hl; simpl.
  - unfold slice. simpl. rewrite app_nil_r. by destruct u.
  - assert (is_Some (buf !! si)) as [v Hv] by (apply lookup_lt_is_Some; lia).
    rewrite (byte_at_lookup _ _ _ Hv). unfold slice. rewrite (drop_S buf v si Hv).
    cbn [take]. rewrite slip_encode_cons. unfold slip_escape.
    repeat case_test; rewrite IH by lia; unfold send_byte, slice; simpl;
      rewrite <- ?app_assoc; reflexivity.
Qed.

Lemma putbuf_slip_tx buf u n :
  n = Z.of_nat (length buf) ->
  snd (port_putbuf_slip buf n u) = set_u_tx (u_tx u ++ slip_encode buf) u.
Proof.
  intros ->. unfold port_putbuf_slip. rewrite Nat2Z.id, slip_put_loop_tx by lia.
  by rewrite slice_all.
Qed.

(** ** The decoder *)

(** What has been stored: the bytes [done] of the frame. *)
Record rx_stored (hdr0 data0 : list Z) (done : list Z) (g : slip_rx) : Prop := {
  rs_bx : g_bx g = Z.of_nat (length done);
  rs_hdr : g_hdr g = overwrite hdr0 0 (take 6 done);
  rs_data : g_data g = overwrite data0 0 (drop 6 done)
}.

(** ... and where the next byte goes. *)
Record rx_inv (hdr0 data0 : list Z) (cap : Z) (done : list Z) (g : slip_rx) : Prop := {
  ri_stored : rx_stored hdr0 data0 done g;
  ri_room : Z.of_nat (length done) < 6 + cap;
  ri_target :
    if decide (length done < 6)%nat
    then g_in_data g = false /\ g_di g = length done /\
         g_cx g = 6 - Z.of_nat (length done) /\ g_data_len g = cap
    else g_in_data g = true /\ g_di g = (length done - 6)%nat /\
         g_cx g = cap + 6 - Z.of_nat (length done) /\ g_data_len g = 0
}.

Lemma put_at_overwrite b done c n :
  length done = n -> (n < length b)%nat ->
  put_at (overwrite b 0 done) n c = overwrite b 0 (done ++ [c]).
Proof.
  intros <- Hl. unfold put_at, overwrite. simpl.
  rewrite insert_app_r_alt by lia. rewrite Nat.sub_diag.
  rewrite <- app_assoc. f_equal. rewrite length_app. simpl.
  assert (is_Some (b !! length done)) as [v Hv] by (apply lookup_lt_is_Some; lia).
  rewrite (drop_S b v (length done) Hv). simpl. f_equal. f_equal. lia.
Qed.

Section Decoder.
Context (hdr0 data0 : list Z) (cap : Z).
Context (Hhdr : length hdr0 = 6%nat) (Hdata : length data0 = Z.to_nat cap).
Context (Hcap : 0 <= cap < 65530).

#[local] Abbreviation stored := (rx_stored hdr0 data0).
#[local] Abbreviation inv := (rx_inv hdr0 data0 cap).

Lemma slip_store_spec done g c :
  inv done g ->
  let '(g', more) := slip_store c g in
  stored (done ++ [c]) g' /\ g_lsr g' = g_lsr g /\
  if Z.of_nat (length done) + 1 <? 6 + cap
  then more = true /\ inv (done ++ [c]) g' /\ g_reason g' = g_reason g
  else more = false /\ g_reason g' = NIO_TRANSACTION_PORT_REASON_BUFFER_FULL.
Proof.
  intros [[Hbx Hh Hd] Hroom Htgt].
  assert (forall g', g_bx g' = u16 (g_bx g + 1) ->
    g_hdr g' = (if g_in_data g then g_hdr g else put_at (g_hdr g) (g_di g) c) ->
    g_data g' = (if g_in_data g then put_at (g_data g) (g_di g) c else g_data g) ->
    stored (done ++ [c]) g') as Hst.
  { intros g' E1 E2 E3.
    assert (length (done ++ [c]) = S (length done)) as El by (rewrite length_app; simpl; lia).
    case_decide; destruct Htgt as (Ei&Edi&_); rewrite Ei, Edi in *; split.
    all: rewrite ?El, ?E1, ?E2, ?E3, ?Hh, ?Hd, ?Hbx.
    1,4: rewrite u16_id by (unfold is_u16; lia); lia.
    - rewrite !take_ge by (rewrite ?length_app; simpl; lia). by apply put_at_overwrite; lia.
    - by rewrite !drop_ge by (rewrite ?length_app; simpl; lia).
    - by rewrite take_app_le by lia.
    - rewrite drop_app_le by lia. apply put_at_overwrite; rewrite ?length_drop; lia. }
  assert (length (done ++ [c]) = S (length done)) as El by (rewrite length_app; simpl; lia).
  unfold slip_store. case_decide as Hn; destruct Htgt as (Ei&Edi&Ecx&Edl).
  - rewrite Ecx, Edl. rewrite (u16_id (_ - _ - 1)) by (unfold is_u16; lia).
    destruct (Z.eqb_spec (6 - Z.of_nat (length done) - 1) 0) as [E|E]; simpl;
      [destruct (Z.eqb_spec cap 0); simpl|].
    + split_and!; [by apply Hst|done|]. case_test; [lia|done].
    + split_and!; [by apply Hst|done|]. case_test; [|lia].
      split_and!; try done. split; [by apply Hst|lia|].
      rewrite decide_False by lia. simpl. split_and!; try done; lia.
    + split_and!; [by apply Hst|done|]. case_test; [|lia].
      split_and!; try done. split; [by apply Hst|lia|].
      rewrite decide_True by lia. simpl. rewrite Ei, Edi, El. split_and!; try done; lia.
  - rewrite Ecx, Edl. rewrite (u16_id (_ - _ - 1)) by (unfold is_u16; lia).
    destruct (Z.eqb_spec (cap + 6 - Z.of_nat (length done) - 1) 0) as [E|E]; simpl.
    + split_and!; [by apply Hst|done|]. case_test; [lia|done].
    + split_and!; [by apply Hst|done|]. case_test; [|lia].
      split_and!; try done. split; [by apply Hst|lia|].
      rewrite decide_False by lia. simpl. rewrite Ei, Edi, El. split_and!; try done; lia.
Qed.

Lemma note_lsr_inv done lsr g : inv done g -> inv done (note_lsr lsr g).
Proof.
  intros [[? ? ?] ? ?]. unfold note_lsr. case_test; done.
Qed.

Lemma unescape_u8 al :
  is_u8 al ->
  is_u8 (if al =? SLIP_ESC_END then SLIP_END
         else if al =? SLIP_ESC_ESC then SLIP_ESC else al).
Proof. intros. by repeat case_test. Qed.

(** Whatever arrives, the receiver stays inside the two buffers. *)
Lemma slip_run_stored evs ph done g :
  bytes_ok done -> inv done g ->
  exists done', bytes_ok done' /\ stored done' (fst (slip_run evs ph g)) /\
    Z.of_nat (length done') <= 6 + cap.
Proof.
  revert ph done g. induction evs as [|[lsr c|lsr] evs IH]; intros ph done g Hdone Hinv; simpl.
  - exists done. destruct Hinv as [[]]. split_and!; try done. lia.
  - pose proof (note_lsr_inv _ lsr _ Hinv) as Hn.
    assert (forall v, is_u8 v -> exists done', bytes_ok done' /\
      stored done' (fst match slip_store v (note_lsr lsr g) with
        | (g', true) => slip_run evs Decode g' | (g', false) => (g', evs) end) /\
      Z.of_nat (length done') <= 6 + cap) as Hstore.
    { intros v Hv. pose proof (slip_store_spec _ _ v Hn) as Hs.
      assert (bytes_ok (done ++ [v])) as Hb by (apply Forall_app_2; [done|by constructor]).
      destruct (slip_store v (note_lsr lsr g)) as [g' more]. destruct Hs as (Hs&_&Hm).
      case_test_in Hm; destruct Hm as (->&Hm); [by apply (IH _ (done ++ [v])); try apply Hm|].
      exists (done ++ [v]). rewrite length_app; simpl.
      pose proof (ri_room _ _ _ _ _ Hn). split_and!; try done. lia. }
    pose proof (u8_range c). pose proof (unescape_u8 (u8 c) ltac:(done)).
    destruct ph; repeat case_test; eauto; simpl; exists done;
      destruct Hn as [[]]; split_and!; try done; lia.
  - pose proof (note_lsr_inv _ lsr _ Hinv) as [[] ? ?].
    exists done. split_and!; try done. lia.
Qed.

Lemma start_inv :
  inv [] (mkRx hdr0 data0 false 0 0 6 cap NIO_TRANSACTION_PORT_REASON_NONE 0).
Proof.
  split; [|simpl; lia|by rewrite decide_True by (simpl; lia)].
  split; simpl; [done|by rewrite overwrite_nil..].
Qed.

(** Decoding an encoded run of bytes from a state that has room for it. *)
Lemma slip_run_encoded b rest done g :
  bytes_ok b -> inv done g -> Z.of_nat (length done + length b) <= 6 + cap ->
  exists g', slip_run (clean (slip_encode b ++ [SLIP_END]) ++ rest) Decode g
             = (g', if Z.of_nat (length done + length b) <? 6 + cap then rest
                    else clean [SLIP_END] ++ rest) /\
    stored (done ++ b) g' /\ g_lsr g' = g_lsr g /\
    g_reason g' = if Z.of_nat (length done + length b) <? 6 + cap then g_reason g
                  else NIO_TRANSACTION_PORT_REASON_BUFFER_FULL.
Proof.
  revert done g. induction b as [|c b IH]; intros done g Hb Hinv Hlen.
  - exists g. simpl in *. rewrite app_nil_r. pose proof (ri_room _ _ _ _ _ Hinv).
    destruct (Z.ltb_spec (Z.of_nat (length done + 0)) (6 + cap)); [|lia].
    split_and!; try done. by destruct Hinv.
  - apply Forall_cons in Hb as [Hc Hb].
    assert (slip_run (clean (slip_encode (c :: b) ++ [SLIP_END]) ++ rest) Decode g
      = match slip_store c g with
        | (g', true) => slip_run (clean (slip_encode b ++ [SLIP_END]) ++ rest) Decode g'
        | (g', false) => (g', clean (slip_encode b ++ [SLIP_END]) ++ rest) end) as ->.
    { rewrite slip_encode_cons. unfold slip_escape.
      destruct (Z.eqb_spec c SLIP_END) as [->|]; [done|].
      destruct (Z.eqb_spec c SLIP_ESC) as [->|]; [done|]. simpl.
      rewrite u8_id by done.
      destruct (Z.eqb_spec c SLIP_END); [done|]. by destruct (Z.eqb_spec c SLIP_ESC). }
    pose proof (slip_store_spec _ _ c Hinv) as Hs.
    destruct (slip_store c g) as [g' more]. destruct Hs as (Hst&El&Hm).
    simpl in Hlen. case_test_in Hm; destruct Hm as [-> Hm].
    + destruct Hm as [Hi Er].
      destruct (IH (done ++ [c]) g' Hb Hi) as (g2&->&?&?&?);
        [rewrite length_app; simpl; lia|].
      exists g2. rewrite <- app_assoc in *. rewrite length_app in *. simpl in *.
      replace (length done + 1 + length b)%nat with (length done + S (length b))%nat in * by lia.
      rewrite <- Er, <- El. done.
    + destruct b; simpl in *; [|lia]. exists g'.
      destruct (Z.ltb_spec (Z.of_nat (length done + 1)) (6 + cap)); [lia|].
      split_and!; done.
Qed.
End Decoder.

#[export] Instance slip_port_ok : PortOk slip_ops.
Proof.
  intros hdr pl cap timeout u rx_len hdr' pl' u' H Hh Hhl Hp Hpl Hcap.
  cbn [op_getbuf_slip_dual slip_ops] in H. unfold port_getbuf_slip_dual in H.
  unfold NIO_FRAME_HEADER_SIZE in H. rewrite u16_id in H by (unfold is_u16; lia).
  destruct (Z.eqb_spec (6 + cap) 0); [lia|].
  pose proof (slip_run_stored hdr pl cap Hhl Hpl Hcap (u_rx u) Sync [] _
    (Forall_nil_2 _) (start_inv hdr pl cap Hhl Hpl Hcap)) as (done&Hd&Hst&Hl).
  destruct (slip_run _ _ _) as [g rest]. injection H as <- <- <- <-.
  simpl in Hst. destruct Hst as [-> -> ->].
  destruct (overwrite_prefix_ok hdr (take 6 done) 6) as [? ?]; try done;
    [by apply Forall_take|rewrite length_take; lia|].
  destruct (overwrite_prefix_ok pl (drop 6 done) (length pl)) as [? ?]; try done;
    [by apply Forall_drop|rewrite length_drop; lia|].
  split_and!; try done; lia.
Qed.

(** ** Properties *)

(** The prefix of a frame: line noise without END, then at least one END. *)
Lemma slip_run_sync noise rest g :
  Forall (fun c => is_u8 c /\ c <> SLIP_END) noise ->
  slip_run (clean (noise ++ [SLIP_END]) ++ rest) Sync g = slip_run rest SkipEnd g.
Proof.
  induction 1 as [|c noise [Hc Hne] _ IH]; simpl; [done|].
  rewrite u8_id by done. by destruct (Z.eqb_spec c SLIP_END).
Qed.

(** After the first byte of a frame, skipping ENDs and decoding agree. *)
Lemma slip_run_skip_decode b rest g :
  bytes_ok b -> b <> [] ->
  slip_run (clean (slip_encode b ++ [SLIP_END]) ++ rest) SkipEnd g
  = slip_run (clean (slip_encode b ++ [SLIP_END]) ++ rest) Decode g.
Proof.
  intros Hb Hne. destruct b as [|c b]; [done|]. apply Forall_cons in Hb as [Hc _].
  rewrite slip_encode_cons. unfold slip_escape.
  destruct (Z.eqb_spec c SLIP_END) as [->|]; [done|].
  destruct (Z.eqb_spec c SLIP_ESC) as [->|]; [done|]. simpl.
  rewrite u8_id by done. by destruct (Z.eqb_spec c SLIP_END).
Qed.

(** Receiving a whole frame. *)
Lemma getbuf_frame hdr pl cap timeout noise header data rest u :
  length hdr = 6%nat -> length pl = Z.to_nat cap -> 0 <= cap < 65530 ->
  length header = 6%nat -> bytes_ok header -> bytes_ok data ->
  Z.of_nat (length data) <= cap ->
  Forall (fun c => is_u8 c /\ c <> SLIP_END) noise ->
  u_rx u = clean (noise ++ slip_frame (header ++ data)) ++ rest ->
  exists rest' reason,
    port_getbuf_slip_dual hdr 6 pl cap timeout u
    = (6 + Z.of_nat (length data), header, overwrite pl 0 data,
       mkUart rest' (u_peer u) (u_tx u) reason 0 (u_bx u)) /\
    (Z.of_nat (length data) < cap ->
     rest' = rest /\ reason = NIO_TRANSACTION_PORT_REASON_NONE).
Proof.
  intros Hhl Hpl Hcap Hh6 Hh Hd Hlen Hn Hrx. unfold port_getbuf_slip_dual.
  rewrite u16_id by (unfold is_u16; lia).
  destruct (Z.eqb_spec (6 + cap) 0); [lia|]. rewrite Hrx. unfold slip_frame.
  rewrite (app_assoc noise). unfold clean at 1. rewrite fmap_app, <- app_assoc.
  fold (clean (noise ++ [SLIP_END])) (clean (slip_encode (header ++ data) ++ [SLIP_END])).
  rewrite slip_run_sync by done.
  assert (bytes_ok (header ++ data)) as Hb by (by apply Forall_app_2).
  rewrite slip_run_skip_decode by (done || (destruct header; done)).
  destruct (slip_run_encoded hdr pl cap Hhl Hpl Hcap (header ++ data) rest [] _ Hb
              (start_inv hdr pl cap Hhl Hpl Hcap)) as (g&->&[-> -> ->]&El&Er);
    [simpl; rewrite length_app; lia|].
  simpl in *. rewrite length_app, Hh6 in *.
  rewrite take_app_le, drop_app_ge, (take_ge header), Hh6, drop_0 by lia.
  replace (overwrite hdr 0 header) with header.
  2:{ unfold overwrite. simpl. rewrite drop_ge by lia. by rewrite app_nil_r. }
  rewrite El. eexists _, _. split; [do 3 f_equal; lia|]. rewrite Er.
  intros. destruct (Z.ltb_spec (Z.of_nat (6 + length data)) (6 + cap)); [done|lia].
Qed.

(** The count the encoder returns, in its sixteen-bit register. *)
Lemma slip_put_loop_count buf si cx bx u :
  (si + cx <= length buf)%nat -> is_u16 bx ->
  fst (slip_put_loop buf si cx bx u)
  = u16 (bx + Z.of_nat (length (slip_encode (slice buf si cx)))).
Proof.
  revert si bx u. induction cx as [|cx IH]; intros si bx u Hl Hbx; simpl.
  - unfold slice. simpl. by rewrite Z.add_0_r, u16_id.
  - assert (is_Some (buf !! si)) as [v Hv] by (apply lookup_lt_is_Some; lia).
    rewrite (byte_at_lookup _ _ _ Hv). unfold slice. rewrite (drop_S buf v si Hv).
    cbn [take]. rewrite slip_encode_cons, length_app. unfold slip_escape.
    repeat case_test; rewrite IH by (lia || apply u16_range);
      unfold slice, u16; simpl length; rewrite Zplus_mod_idemp_l; f_equal; lia.
Qed.

Lemma send_request_tx header payload u plen :
  length header = 6%nat -> plen = Z.of_nat (length payload) ->
  send_request slip_ops header (Some payload) plen u
  = port_wait_tx_empty
      (set_u_tx (u_tx u ++ slip_frame (header ++ payload)) (port_flush_rx u)).
Proof.
  intros Hh ->. unfold send_request. cbn [op_flush_rx op_putc op_putbuf_slip
    op_wait_tx_empty slip_ops port_putc snd]. unfold NIO_FRAME_HEADER_SIZE.
  rewrite putbuf_slip_tx by lia. f_equal. unfold slip_frame. rewrite slip_encode_app.
  case_test.
  - destruct payload; [|simpl in *; lia]. unfold send_byte, set_u_tx; simpl.
    by rewrite app_nil_r, <- !app_assoc.
  - rewrite putbuf_slip_tx by done. unfold send_byte, set_u_tx; simpl.
    by rewrite <- !app_assoc.
Qed.

(** C4: wire round trip, from the encoder to the decoder: sending a six-byte
    header and any data as nio_transaction.c does ([send_request]: END, the
    header and the data through [port_putbuf_slip], END) appends one frame to
    what the sender transmits, [port_putbuf_slip] answering the number of
    bytes it sent for the data; and a receiver whose line carries the bytes of
    that frame behind any noise free of END, into a data buffer the data fits,
    gets exactly that header, that data and their total length, without a line
    error, and stops right behind the closing END when the data buffer is
    larger than the data. *)
Theorem slip_roundtrip header data dlen us :
  length header = 6%nat -> bytes_ok header -> bytes_ok data ->
  dlen = Z.of_nat (length data) -> dlen < 65530 ->
  exists frame body,
    u_tx (send_request slip_ops header (Some data) dlen us) = u_tx us ++ frame /\
    u_tx (snd (port_putbuf_slip data dlen us)) = u_tx us ++ body /\
    fst (port_putbuf_slip data dlen us) = u16 (Z.of_nat (length body)) /\
    forall hdr pl cap timeout noise rest ur,
      length hdr = 6%nat -> length pl = Z.to_nat cap -> dlen <= cap < 65530 ->
      Forall (fun c => is_u8 c /\ c <> SLIP_END) noise ->
      u_rx ur = clean (noise ++ frame) ++ rest ->
      exists ur',
        port_getbuf_slip_dual hdr 6 pl cap timeout ur
        = (6 + dlen, header, overwrite pl 0 data, ur') /\
        u_lsr ur' = 0 /\
        (dlen < cap ->
         u_rx ur' = rest /\ u_reason ur' = NIO_TRANSACTION_PORT_REASON_NONE).
Proof.
  intros Hh6 Hh Hd -> Hlt. exists (slip_frame (header ++ data)), (slip_encode data).
  split_and!.
  - rewrite send_request_tx by done. unfold port_wait_tx_empty. by destruct (u_peer _).
  - by rewrite putbuf_slip_tx.
  - unfold port_putbuf_slip. rewrite Nat2Z.id, slip_put_loop_count by (done || lia).
    by rewrite slice_all.
  - intros hdr pl cap timeout noise rest ur Hhl Hpl Hcap Hn Hrx.
    destruct (getbuf_frame hdr pl cap timeout noise header data rest ur)
      as (rest'&reason&->&Hr); try done; try lia. by eexists.
Qed.

Lemma slip_roundtrip_witness :
  exists frame body,
    u_tx (send_request slip_ops [252; 1; 9; 0; 0; 1] (Some [192; 219; 5]) 3
      (mkUart [] [] [] 0 0 0)) = [] ++ frame /\
    u_tx (snd (port_putbuf_slip [192; 219; 5] 3 (mkUart [] [] [] 0 0 0))) = [] ++ body /\
    fst (port_putbuf_slip [192; 219; 5] 3 (mkUart [] [] [] 0 0 0))
    = u16 (Z.of_nat (length body)) /\
    forall hdr pl cap timeout noise rest ur,
      length hdr = 6%nat -> length pl = Z.to_nat cap -> 3 <= cap < 65530 ->
      Forall (fun c => is_u8 c /\ c <> SLIP_END) noise ->
      u_rx ur = clean (noise ++ frame) ++ rest ->
      exists ur',
        port_getbuf_slip_dual hdr 6 pl cap timeout ur
        = (6 + 3, [252; 1; 9; 0; 0; 1], overwrite pl 0 [192; 219; 5], ur') /\
        u_lsr ur' = 0 /\
        (3 < cap -> u_rx ur' = rest /\ u_reason ur' = NIO_TRANSACTION_PORT_REASON_NONE).
Proof.
  apply (slip_roundtrip [252; 1; 9; 0; 0; 1] [192; 219; 5] 3 (mkUart [] [] [] 0 0 0));
    try done; repeat constructor; done.
Defined.

(** C3: liveness of an exchange over the wire: when the peer answers the
    request with a response frame behind the request's END, the call sends
    exactly one frame, whose bytes are the escaped header and payload of the
    request, and returns the peer's status and data in the caller's reply. *)
Theorem exchange_completes device command payload rcap retries nt dt stale u txp rxh rxp cap b
    response diag status data peer fuel :
  is_u8 device -> is_u8 command -> bytes_ok payload -> Z.of_nat (length payload) < 65530 ->
  length txp = 6%nat -> bytes_ok rxh -> length rxh = 6%nat -> bytes_ok rxp ->
  length rxp = Z.to_nat cap -> 0 <= cap < 65530 ->
  bytes_ok (status :: data) -> Z.of_nat (length data) < cap ->
  Z.of_nat (length data) <= rcap -> (0 < fuel)%nat ->
  u_peer u = clean (slip_frame (header_bytes (frame_header device command
    NIO_PROTO_FIELD_A1 (status :: data)) ++ status :: data)) :: peer ->
  exists s',
    nio_transaction_call fuel (Some (port_of_ops slip_ops)) device command (Some payload)
      (Z.of_nat (length payload)) rcap retries nt dt stale
      (mkCall u (Some (mkBuffers (Some txp) 6 (Some rxh) (Some rxp) cap))
         (ReplyBuffer b) (Some response) (Some diag)) = Some (true, s') /\
    u_tx (c_world s') = u_tx u ++ slip_frame
      (header_bytes (frame_header device command NIO_PROTO_FIELD_NONE payload) ++ payload) /\
    c_reply s' = ReplyBuffer (overwrite b 0 data) /\
    c_response s' = Some (mkResponse status (Z.of_nat (length data))).
Proof.
  intros Hd Hc Hp Hpl Htl Hrh Hrhl Hrp Hrpl Hcap Hsd Hfit Hrcap Hf Hpeer.
  set (req := header_bytes (frame_header device command NIO_PROTO_FIELD_NONE payload)).
  set (hd := frame_header device command NIO_PROTO_FIELD_A1 (status :: data)) in *.
  assert (header_ok hd) as Hhd by (apply frame_header_ok; try done; simpl; lia).
  set (u1 := send_request slip_ops req (Some payload) (Z.of_nat (length payload)) u).
  assert (u1 = port_wait_tx_empty
    (set_u_tx (u_tx u ++ slip_frame (req ++ payload)) (port_flush_rx u))) as Hu1
    by (by apply send_request_tx).
  destruct (getbuf_frame rxh rxp cap (if device =? NIO_DEVICEID_NETWORK then nt else dt)
    [] (header_bytes hd) (status :: data) [] u1) as (rest'&reason&Eg&_);
    try done; auto with fuji; [simpl; lia| |].
  { rewrite Hu1. unfold port_wait_tx_empty. simpl. rewrite Hpeer. simpl. by rewrite app_nil_r. }
  destruct (overwrite_prefix_ok rxp (status :: data) (Z.to_nat cap)) as [Hob Hol]; try done;
    [simpl; lia|].
  assert (take (S (length data)) (overwrite rxp 0 (status :: data)) = status :: data) as Htk
    by (by apply (take_app_length (status :: data))).
  destruct fuel as [|fuel]; [lia|].
  assert (exists n, Z.to_nat (max_attempts_of retries) = S n) as [n En]
    by (pose proof (max_attempts_range retries);
        exists (Z.to_nat (max_attempts_of retries) - 1)%nat; lia).
  destruct (attempts_accept slip_ops device command rcap
    (if device =? NIO_DEVICEID_NETWORK then nt else dt) stale cap fuel n (Some payload)
    (Z.of_nat (length payload)) (mkTxn u req rxh rxp (ReplyBuffer b) (Some response) (Some diag))
    _ _ _ _ status data Eg) as (t'&Ht&Hw&Hre&Hrep&_); [|done|].
  { rewrite header_bytes_of_bytes by done.
    replace (6 + Z.of_nat (length (status :: data))) with (7 + Z.of_nat (length data))
      by (simpl; lia).
    apply frame_validate_ok with (fields := NIO_PROTO_FIELD_A1); try done; try lia.
    by replace (Z.to_nat (7 + Z.of_nat (length data) - 6)) with (S (length data)) by lia. }
  unfold nio_transaction_call, port_of_ops. cbn [c_buffers c_world c_reply c_response c_diag].
  change (6 <? NIO_FRAME_HEADER_SIZE) with false. cbv iota.
  rewrite request_header_eq by done. fold req.
  replace (overwrite txp 0 req) with req
    by (unfold overwrite; simpl; by rewrite drop_ge by (rewrite Htl; done)).
  change (mkOps _ _ _ _ _ _ _) with slip_ops. rewrite En, Ht.
  eexists. split; [reflexivity|]. simpl. rewrite Hw, Hre, Hrep, Hu1. split_and!; try done.
  simpl. unfold port_wait_tx_empty. simpl. by rewrite Hpeer.
Qed.

Lemma exchange_completes_witness :
  exists s',
    nio_transaction_call 1 (Some (port_of_ops slip_ops)) 253 2 (Some [192; 5])
      (Z.of_nat (length [192; 5])) 8 2 100 200 2
      (mkCall (mkUart [] [clean (slip_frame (header_bytes (frame_header 253 2
                 NIO_PROTO_FIELD_A1 [0; 219; 7]) ++ [0; 219; 7]))] [] 0 0 0)
         (Some (mkBuffers (Some (zeros 6)) 6 (Some (zeros 6)) (Some (zeros 8)) 8))
         (ReplyBuffer (zeros 4)) (Some (mkResponse 0 0)) (Some (mkDiag 0 0 0 0 0)))
    = Some (true, s') /\
    u_tx (c_world s') = [] ++ slip_frame
      (header_bytes (frame_header 253 2 NIO_PROTO_FIELD_NONE [192; 5]) ++ [192; 5]) /\
    c_reply s' = ReplyBuffer (overwrite (zeros 4) 0 [219; 7]) /\
    c_response s' = Some (mkResponse 0 (Z.of_nat (length [219; 7]))).
Proof.
  apply (exchange_completes 253 2 [192; 5] 8 2 100 200 2
    (mkUart [] [clean (slip_frame (header_bytes (frame_header 253 2
                 NIO_PROTO_FIELD_A1 [0; 219; 7]) ++ [0; 219; 7]))] [] 0 0 0)
    (zeros 6) (zeros 6) (zeros 8) 8 (zeros 4) (mkResponse 0 0) (mkDiag 0 0 0 0 0)
    0 [219; 7] [] 1); try done; try lia; repeat constructor; done.
Defined.
