(* ===== verification/NioDriver.v ===== *)
(** * The NIO client (msdos/src/nio/nio.c)

    The module's statics and globals as a record, [nio_call], and the disk
    operations on top of it.  The port functions are the parameter [ops]
    ([slip_ops] on MS-DOS).  A call through the transaction layer runs with
    [NIO_MAX_STALE_RESPONSES + 1] receptions of fuel per attempt, which
    [nio_call_returns] shows to be enough, so the operations are total. *)

From S2P Require Import Prelude NioProtocol NioDiskProtocol NioTransaction Slip.

Definition NIO_DISK_CMD_READ_SECTOR : Z := 3.
Definition NIO_DISK_CMD_WRITE_SECTOR : Z := 4.
Definition NIO_DISK_CMD_INFO : Z := 5.
Definition NIO_DISK_CMD_CLEAR_CHANGED : Z := 6.
Definition NIO_DISK_CMD_READ_SECTORS : Z := 8.
Definition NIO_DISK_CMD_WRITE_SECTORS : Z := 9.
Definition NIO_DISK_CMD_BEGIN_HOST_SESSION : Z := 11.

Definition NIO_TIMEOUT_SLOW : Z := 15000.
Definition NIO_MAX_RX : Z := 9216.
Definition NIO_MAX_TX_PREFIX : Z := 32.
Definition NIO_MAX_STALE_RESPONSES : Z := 2.

(** The statics and globals of nio.c; [n_port], [n_tx_capacity] and
    [n_rx_capacity] are what [nio_bind_transaction] fills in, the buffer
    pointers of [nio_buffers] being the statics themselves. *)
Record nio_state (W : Type) := mkNio {
  n_world : W;
  tx_prefix : list Z;
  rx_payload : list Z;
  rx_header : list Z;
  nio_last_error : Z;
  nio_last_status : Z;
  nio_last_rx_len : Z;
  nio_last_expected_len : Z;
  nio_last_lsr : Z;
  nio_network_timeout_ms : Z;
  nio_transport_retries : Z;
  n_port : option (nio_transaction_port_t W);
  n_tx_capacity : Z;
  n_rx_capacity : Z;
  nio_diag : nio_transaction_diag_t;
  nio_transaction_bound : Z
}.
Arguments mkNio {W}.
Arguments n_world {W}.
Arguments tx_prefix {W}.
Arguments rx_payload {W}.
Arguments rx_header {W}.
Arguments nio_last_error {W}.
Arguments nio_last_status {W}.
Arguments nio_last_rx_len {W}.
Arguments nio_last_expected_len {W}.
Arguments nio_last_lsr {W}.
Arguments nio_network_timeout_ms {W}.
Arguments nio_transport_retries {W}.
Arguments n_port {W}.
Arguments n_tx_capacity {W}.
Arguments n_rx_capacity {W}.
Arguments nio_diag {W}.
Arguments nio_transaction_bound {W}.
#[export] Instance eta_nio W : Eta (nio_state W) :=
  fun g => mkNio (n_world g) (tx_prefix g) (rx_payload g) (rx_header g)
    (nio_last_error g) (nio_last_status g) (nio_last_rx_len g) (nio_last_expected_len g)
    (nio_last_lsr g) (nio_network_timeout_ms g) (nio_transport_retries g) (n_port g)
    (n_tx_capacity g) (n_rx_capacity g) (nio_diag g) (nio_transaction_bound g).

Section NioSetters.
Context {W : Type}.
Definition set_n_world : W -> nio_state W -> nio_state W :=
  ltac:(derive_setter (@n_world W)).
Definition set_n_tx_prefix : list Z -> nio_state W -> nio_state W :=
  ltac:(derive_setter (@tx_prefix W)).
Definition set_n_rx_payload : list Z -> nio_state W -> nio_state W :=
  ltac:(derive_setter (@rx_payload W)).
Definition set_n_rx_header : list Z -> nio_state W -> nio_state W :=
  ltac:(derive_setter (@rx_header W)).
Definition set_last_error : Z -> nio_state W -> nio_state W :=
  ltac:(derive_setter (@nio_last_error W)).
Definition set_last_status : Z -> nio_state W -> nio_state W :=
  ltac:(derive_setter (@nio_last_status W)).
Definition set_last_rx_len : Z -> nio_state W -> nio_state W :=
  ltac:(derive_setter (@nio_last_rx_len W)).
Definition set_last_expected_len : Z -> nio_state W -> nio_state W :=
  ltac:(derive_setter (@nio_last_expected_len W)).
Definition set_last_lsr : Z -> nio_state W -> nio_state W :=
  ltac:(derive_setter (@nio_last_lsr W)).
Definition set_n_port : option (nio_transaction_port_t W) -> nio_state W -> nio_state W :=
  ltac:(derive_setter (@n_port W)).
Definition set_n_tx_capacity : Z -> nio_state W -> nio_state W :=
  ltac:(derive_setter (@n_tx_capacity W)).
Definition set_n_rx_capacity : Z -> nio_state W -> nio_state W :=
  ltac:(derive_setter (@n_rx_capacity W)).
Definition set_n_diag : nio_transaction_diag_t -> nio_state W -> nio_state W :=
  ltac:(derive_setter (@nio_diag W)).
Definition set_n_bound : Z -> nio_state W -> nio_state W :=
  ltac:(derive_setter (@nio_transaction_bound W)).
Definition set_network_timeout : Z -> nio_state W -> nio_state W :=
  ltac:(derive_setter (@nio_network_timeout_ms W)).
Definition set_transport_retries : Z -> nio_state W -> nio_state W :=
  ltac:(derive_setter (@nio_transport_retries W)).
End NioSetters.

(** The statics at load time. *)
Definition nio_initial {W} (w : W) : nio_state W :=
  mkNio w (zeros (Z.to_nat NIO_MAX_TX_PREFIX)) (zeros (Z.to_nat NIO_MAX_RX)) (zeros 6)
        0 0 0 0 0 NIO_TIMEOUT_SLOW 2 None 0 0 (mkDiag 0 0 0 0 0) 0.

Definition nio_status_ok (status : Z) : bool := status =? NIO_STATUS_OK.

Section Driver.
Context {W : Type} (ops : port_ops W).

Definition nio_fail (error rx_len expected_len : Z) (g : nio_state W)
    : bool * nio_state W :=
  (false, g |> set_last_error error |> set_last_rx_len rx_len
            |> set_last_expected_len expected_len).

Definition nio_bind_transaction (g : nio_state W) : nio_state W :=
  if negb (nio_transaction_bound g =? 0) then g else
  g |> set_n_port (Some (port_of_ops ops))
    |> set_n_tx_capacity NIO_MAX_TX_PREFIX
    |> set_n_rx_capacity NIO_MAX_RX
    |> set_n_bound 1.

Definition nio_fuel : nat := S (Z.to_nat NIO_MAX_STALE_RESPONSES).

(** The call state [nio_call] hands to the transaction layer. *)
Definition nio_call_state (reply : reply_t) (response : option nio_response_t)
    (g : nio_state W) : call_state W :=
  mkCall (n_world g)
    (Some (mkBuffers (Some (tx_prefix g)) (n_tx_capacity g) (Some (rx_header g))
             (Some (rx_payload g)) (n_rx_capacity g)))
    reply response (Some (nio_diag g)).

(** The statics the transaction layer wrote through its pointers. *)
Definition after_call (s : call_state W) (g : nio_state W) : nio_state W :=
  let g := set_n_world (c_world s) g in
  let g := match c_buffers s with
           | Some (mkBuffers (Some tx) _ (Some rh) (Some rp) _) =>
               g |> set_n_tx_prefix tx |> set_n_rx_header rh |> set_n_rx_payload rp
           | _ => g
           end in
  match c_diag s with Some d => set_n_diag d g | None => g end.

(** Returns the result, the caller's reply and response, and the state. *)
Definition nio_call (device command : Z) (payload : option (list Z))
    (payload_length : Z) (reply : reply_t) (reply_capacity : Z)
    (response : option nio_response_t) (g : nio_state W)
    : bool * reply_t * option nio_response_t * nio_state W :=
  let g := nio_bind_transaction g in
  match nio_transaction_call nio_fuel (n_port g) device command payload payload_length
          reply_capacity (nio_transport_retries g) (nio_network_timeout_ms g)
          NIO_TIMEOUT_SLOW NIO_MAX_STALE_RESPONSES (nio_call_state reply response g) with
  | None => (false, reply, response, g)
  | Some (ok, s) =>
      let g := after_call s g in
      let d := nio_diag g in
      let g := g |> set_last_error (d_error d)
                 |> set_last_status (d_status d)
                 |> set_last_rx_len (d_rx_len d)
                 |> set_last_expected_len (d_expected_len d)
                 |> set_last_lsr (d_lsr d) in
      (ok, c_reply s, c_response s, g)
  end.

(** The bytes and the status a call left in a local buffer and response. *)
Definition reply_bytes (r : reply_t) : list Z :=
  match r with ReplyBuffer b => b | _ => [] end.
Definition response_or_zero (r : option nio_response_t) : nio_response_t :=
  default (mkResponse 0 0) r.

Definition fail_status (nr : nio_response_t) (g : nio_state W) : bool * nio_state W :=
  nio_fail (if nio_status_ok (r_status nr) then NIO_ERR_PAYLOAD else NIO_ERR_STATUS)
           (nio_last_rx_len g) (nio_last_expected_len g) g.

(** The request buffer of a two-byte slot request. *)
Definition slot_request (slot : Z) : option (list Z) :=
  snd (nio_disk_build_slot_request slot (Some (zeros 2)) 2).

Definition nio_disk_info (slot : Z) (info : option nio_disk_info_t) (g : nio_state W)
    : bool * option nio_disk_info_t * nio_state W :=
  let req := slot_request slot in
  let '(ok, reply, response, g) :=
    nio_call NIO_DEVICEID_DISK NIO_DISK_CMD_INFO req NIO_DISK_SLOT_REQUEST_SIZE
      (ReplyBuffer (zeros 16)) 16 (Some (mkResponse 0 0)) g in
  if negb ok then (false, info, g) else
  let nr := response_or_zero response in
  let resp := reply_bytes reply in
  if negb (nio_status_ok (r_status nr)) then
    let '(r, g) := fail_status nr g in (r, info, g)
  else
    match nio_disk_parse_info_response (Some resp) (r_payload_length nr) info with
    | (false, info) => let '(r, g) := fail_status nr g in (r, info, g)
    | (true, info) => (true, info, g)
    end.

(** The shared shape of the two slot commands that only need a version. *)
Definition slot_command (command min_size : Z) (resp_size : nat) (slot : Z)
    (g : nio_state W) : bool * nio_state W :=
  let '(ok, reply, response, g) :=
    nio_call NIO_DEVICEID_DISK command (slot_request slot) NIO_DISK_SLOT_REQUEST_SIZE
      (ReplyBuffer (zeros resp_size)) (Z.of_nat resp_size) (Some (mkResponse 0 0)) g in
  if negb ok then (false, g) else
  let nr := response_or_zero response in
  if negb (nio_status_ok (r_status nr)) ||
     negb (nio_disk_validate_response (Some (reply_bytes reply))
             (r_payload_length nr) min_size)
  then fail_status nr g
  else (true, g).

Definition nio_disk_begin_host_session (slot : Z) (g : nio_state W) : bool * nio_state W :=
  slot_command NIO_DISK_CMD_BEGIN_HOST_SESSION 4 16 slot g.

Definition nio_disk_clear_changed (slot : Z) (g : nio_state W) : bool * nio_state W :=
  slot_command NIO_DISK_CMD_CLEAR_CHANGED NIO_DISK_CLEAR_CHANGED_RESPONSE_MIN_SIZE 8 slot g.

(** The tail of the two read operations, behind [nio_call]: [parse] is the
    response parser and [data_offset] where the sector data starts. *)
Definition finish_read (parse : option (list Z) -> Z -> Z -> option Z -> bool * option Z)
    (data_offset : nat) (buffer : option (list Z)) (buffer_length : Z)
    (bytes_read : option Z) (ok : bool) (response : option nio_response_t)
    (g : nio_state W) : bool * option (list Z) * option Z * nio_state W :=
  if negb ok then (false, buffer, bytes_read, g) else
  let nr := response_or_zero response in
  if negb (nio_status_ok (r_status nr)) then
    let '(r, g) := fail_status nr g in (r, buffer, bytes_read, g)
  else
    match parse (Some (rx_payload g)) (r_payload_length nr) buffer_length (Some 0) with
    | (true, Some data_len) =>
        (true,
         match buffer with
         | Some b => if data_len =? 0 then buffer else
             Some (overwrite b 0 (slice (rx_payload g) data_offset (Z.to_nat data_len)))
         | None => None
         end,
         option_map (fun _ => data_len) bytes_read, g)
    | _ => let '(r, g) := fail_status nr g in (r, buffer, bytes_read, g)
    end.

(** [buffer] is what the caller's pointer points to ([None]: NULL) and
    [bytes_read] the out-parameter. *)
Definition nio_disk_read_sector (slot lba : Z) (buffer : option (list Z))
    (buffer_length : Z) (bytes_read : option Z) (g : nio_state W)
    : bool * option (list Z) * option Z * nio_state W :=
  let req := snd (nio_disk_build_read_sector_request slot lba buffer_length
                    (Some (zeros 8)) 8) in
  let '(ok, _, response, g) :=
    nio_call NIO_DEVICEID_DISK NIO_DISK_CMD_READ_SECTOR req
      NIO_DISK_READ_SECTOR_REQUEST_SIZE ReplyRxPayload NIO_MAX_RX
      (Some (mkResponse 0 0)) g in
  finish_read nio_disk_parse_read_sector_response 11 buffer buffer_length bytes_read
    ok response g.

Definition nio_disk_read_sectors (slot lba count : Z) (buffer : option (list Z))
    (buffer_length : Z) (bytes_read : option Z) (g : nio_state W)
    : bool * option (list Z) * option Z * nio_state W :=
  let req := snd (nio_disk_build_read_sectors_request slot lba count buffer_length
                    (Some (zeros 10)) 10) in
  let '(ok, _, response, g) :=
    nio_call NIO_DEVICEID_DISK NIO_DISK_CMD_READ_SECTORS req
      NIO_DISK_READ_SECTORS_REQUEST_SIZE ReplyRxPayload NIO_MAX_RX
      (Some (mkResponse 0 0)) g in
  finish_read nio_disk_parse_read_sectors_response 13 buffer buffer_length bytes_read
    ok response g.

(** The block the two write operations share: build the frame over
    [req_prefix] and the caller's buffer, send it once, and check the answer.
    [min_len] and [len_off] are where the written length is. *)
Definition write_exchange (command : Z) (req_prefix : list Z) (min_len : Z) (len_off : nat)
    (buffer : option (list Z)) (buffer_length : Z) (bytes_written : option Z)
    (g : nio_state W) : bool * option Z * nio_state W :=
  let prefix_size := Z.of_nat (length req_prefix) in
  let tx := mkHeader NIO_DEVICEID_DISK command
              (u16 (NIO_FRAME_HEADER_SIZE + prefix_size + buffer_length)) 0
              NIO_PROTO_FIELD_NONE in
  let checksum := nio_protocol_checksum (header_bytes tx) NIO_FRAME_HEADER_SIZE 0 in
  let checksum := nio_protocol_checksum req_prefix prefix_size checksum in
  let checksum := nio_protocol_checksum (default [] buffer) buffer_length checksum in
  let tx := set_checksum (u8 checksum) tx in
  let g := set_n_tx_prefix (overwrite (tx_prefix g) 0 (header_bytes tx)) g in
  let w := op_flush_rx ops (n_world g) in
  let w := snd (op_putc ops NIO_TRANSACTION_SLIP_END w) in
  let w := snd (op_putbuf_slip ops (tx_prefix g) NIO_FRAME_HEADER_SIZE w) in
  let w := snd (op_putbuf_slip ops req_prefix prefix_size w) in
  let w := match buffer with
           | Some b => if buffer_length =? 0 then w
                       else snd (op_putbuf_slip ops b buffer_length w)
           | None => w
           end in
  let w := snd (op_putc ops NIO_TRANSACTION_SLIP_END w) in
  let w := op_wait_tx_empty ops w in
  let '(rx_len, hdr, resp, w) :=
    op_getbuf_slip_dual ops (rx_header g) NIO_FRAME_HEADER_SIZE (zeros 16) 16
      NIO_TIMEOUT_SLOW w in
  let g := g |> set_n_world w |> set_n_rx_header hdr in
  let '(parse_error, parsed) :=
    nio_protocol_validate_response (header_of_bytes hdr) resp rx_len
      NIO_DEVICEID_DISK command 16 in
  if negb (parse_error =? NIO_PROTO_OK) then (false, bytes_written, g) else
  if negb (nio_status_ok (p_status parsed)) || (p_payload_length parsed <? min_len)
     || negb (resp.[1] =? NIO_DISK_VERSION)
  then (false, bytes_written, g)
  else (true, option_map (fun _ => nio_disk_get_u16le resp len_off) bytes_written, g).

Definition nio_disk_write_sector (slot lba : Z) (buffer : option (list Z))
    (buffer_length : Z) (bytes_written : option Z) (g : nio_state W)
    : bool * option Z * nio_state W :=
  let req_prefix := put_at (put_at (zeros 8) 0 NIO_DISK_VERSION) 1 slot in
  let req_prefix := nio_disk_put_u32le req_prefix 2 lba in
  let req_prefix := nio_disk_put_u16le req_prefix 6 buffer_length in
  write_exchange NIO_DISK_CMD_WRITE_SECTOR req_prefix 11 10 buffer buffer_length
    bytes_written g.

Definition nio_disk_write_sectors (slot lba count : Z) (buffer : option (list Z))
    (buffer_length : Z) (bytes_written : option Z) (g : nio_state W)
    : bool * option Z * nio_state W :=
  let req_prefix := put_at (put_at (zeros 10) 0 NIO_DISK_VERSION) 1 slot in
  let req_prefix := nio_disk_put_u32le req_prefix 2 lba in
  let req_prefix := nio_disk_put_u16le req_prefix 6 count in
  let req_prefix := nio_disk_put_u16le req_prefix 8 buffer_length in
  write_exchange NIO_DISK_CMD_WRITE_SECTORS req_prefix 13 12 buffer buffer_length
    bytes_written g.
End Driver.

(** ** The module invariant *)

(** The statics keep their sizes and hold bytes, and once the transaction is
    bound the port and the capacities are those of nio.c. *)
Record nio_ok {W} (ops : port_ops W) (g : nio_state W) : Prop := {
  ok_tx : length (tx_prefix g) = Z.to_nat NIO_MAX_TX_PREFIX;
  ok_rx : length (rx_payload g) = Z.to_nat NIO_MAX_RX;
  ok_rx_bytes : bytes_ok (rx_payload g);
  ok_hdr : length (rx_header g) = 6%nat;
  ok_hdr_bytes : bytes_ok (rx_header g);
  ok_bound : nio_transaction_bound g <> 0 ->
    n_port g = Some (port_of_ops ops) /\ n_tx_capacity g = NIO_MAX_TX_PREFIX /\
    n_rx_capacity g = NIO_MAX_RX
}.

Lemma nio_initial_ok {W} (ops : port_ops W) w : nio_ok ops (nio_initial w).
Proof.
  split; cbn [nio_initial tx_prefix rx_payload rx_header nio_transaction_bound].
  - apply length_replicate.
  - apply length_replicate.
  - apply zeros_bytes_ok.
  - done.
  - apply zeros_bytes_ok.
  - intros []. done.
Qed.

(** The invariant is about the statics, not about the globals for callers. *)
Lemma nio_ok_same {W} (ops : port_ops W) g g' :
  tx_prefix g' = tx_prefix g -> rx_payload g' = rx_payload g ->
  rx_header g' = rx_header g -> nio_transaction_bound g' = nio_transaction_bound g ->
  n_port g' = n_port g -> n_tx_capacity g' = n_tx_capacity g ->
  n_rx_capacity g' = n_rx_capacity g -> nio_ok ops g -> nio_ok ops g'.
Proof.
  intros E1 E2 E3 E4 E5 E6 E7 [H1 H2 H3 H4 H5 H6].
  constructor; rewrite ?E1, ?E2, ?E3, ?E4, ?E5, ?E6, ?E7; assumption.
Qed.

Section DriverFacts.
Context {W : Type} (ops : port_ops W).

Lemma bind_ok g :
  nio_ok ops g ->
  let g' := nio_bind_transaction ops g in
  nio_ok ops g' /\ n_port g' = Some (port_of_ops ops) /\
  n_tx_capacity g' = NIO_MAX_TX_PREFIX /\ n_rx_capacity g' = NIO_MAX_RX /\
  n_world g' = n_world g.
Proof.
  intros [? ? ? ? ? Hb]. unfold nio_bind_transaction. simpl.
  destruct (Z.eqb_spec (nio_transaction_bound g) 0); simpl.
  - split_and!; try done.
  - destruct (Hb n) as (?&?&?). split_and!; try done.
Qed.

(** [nio_call] in terms of the transaction: it returns, keeps the invariant,
    and a success is a delivery at the statics. *)
Lemma nio_call_spec `{!PortOk ops} device command payload plen reply rcap response g ok
    reply' response' g' :
  nio_ok ops g ->
  nio_call ops device command payload plen reply rcap response g
    = (ok, reply', response', g') ->
  nio_ok ops g' /\
  (ok = true -> exists (t t' : txn W) status data,
    delivered device command rcap NIO_MAX_RX t t' status data /\
    t_reply t = reply /\ t_response t = response /\
    t_reply t' = reply' /\ t_response t' = response' /\
    t_rx_payload t' = rx_payload g' /\ t_rx_header t' = rx_header g') /\
  (ok = false -> reply' = reply).
Proof.
  intros Hg. unfold nio_call.
  destruct (bind_ok g Hg) as (Hg1&Hport&Htxc&Hrxc&Hw).
  set (g1 := nio_bind_transaction ops g) in *.
  destruct (nio_transaction_call _ _ _ _ _ _ _ _ _ _ _ _) as [[r s]|] eqn:Ec;
    [|intros [= <- <- <- <-]; split_and!; done].
  rewrite Hport in Ec. unfold nio_call_state in Ec. rewrite Htxc, Hrxc in Ec.
  apply call_inv in Ec as (t'&Ht&->); [|done].
  destruct Hg1 as [Htl Hrl Hrb Hhl Hhb Hbd].
  apply attempts_shape in Ht as [Hs Hd]; [|done|done|by unfold buffers_ok].
  destruct Hs as (Htx&(Hb1&Hb2&Hb3&Hb4)&Hdg&Hrs&Hrep). simpl in Htx.
  intros [= <- <- <- <-]. split_and!.
  - unfold after_call. simpl.
    assert (nio_ok ops (set_n_rx_payload (t_rx_payload t')
      (set_n_rx_header (t_rx_header t') (set_n_tx_prefix (t_tx_prefix t')
        (set_n_world (t_world t') g1))))) as Hd1.
    { constructor; cbn; try assumption. rewrite Htx, length_overwrite; [assumption|].
      rewrite Htl. vm_compute. lia. }
    destruct (t_diag t') as [d|]; (eapply nio_ok_same; [..|exact Hd1]); reflexivity.
  - intros ->. destruct (Hd eq_refl) as (st&da&Hdel).
    eexists _, t', st, da. split; [exact Hdel|]. simpl. unfold after_call. simpl.
    split_and!; try done; by destruct (t_diag t').
  - intros ->. by apply Hrep.
Qed.

(** The fuel of [nio_call] is never used up. *)
Lemma nio_call_returns device command payload plen reply rcap response g :
  is_Some (nio_transaction_call nio_fuel (n_port (nio_bind_transaction ops g)) device
    command payload plen rcap (nio_transport_retries g) (nio_network_timeout_ms g)
    NIO_TIMEOUT_SLOW NIO_MAX_STALE_RESPONSES
    (nio_call_state reply response (nio_bind_transaction ops g))).
Proof. apply call_total; unfold nio_fuel, NIO_MAX_STALE_RESPONSES; simpl; lia. Qed.

Lemma fail_status_ok nr g r g' :
  fail_status nr g = (r, g') -> nio_ok ops g -> nio_ok ops g' /\ r = false.
Proof. unfold fail_status, nio_fail. intros [= <- <-] Hg. split; [|done].
  eapply nio_ok_same; [..|exact Hg]; reflexivity. Qed.
End DriverFacts.

Lemma byte_at_overwrite_head b data i :
  (i < length data)%nat -> (overwrite b 0 data).[i] = data.[i].
Proof.
  intros. unfold byte_at, overwrite. simpl. by rewrite app_nth1.
Qed.

Lemma slice_overwrite_head b data off n :
  (off + n <= length data)%nat -> slice (overwrite b 0 data) off n = slice data off n.
Proof.
  intros. unfold slice, overwrite. simpl. rewrite drop_app_le by lia.
  by rewrite take_app_le by (rewrite length_drop; lia).
Qed.

Section ReadFacts.
Context {W : Type} (ops : port_ops W) `{!PortOk ops}.

(** The tail of a read is a parse of the delivered payload. *)
Lemma finish_read_ok g parse minl loff doff buffer blen br ok response g1 buffer' br' g2 :
  nio_ok ops g1 ->
  (ok = true -> exists (t t' : txn W) status data,
    delivered NIO_DEVICEID_DISK g NIO_MAX_RX NIO_MAX_RX t t' status data /\
    t_reply t = ReplyRxPayload /\ t_response t = Some (mkResponse 0 0) /\
    t_response t' = response /\ t_rx_payload t' = rx_payload g1 /\
    t_rx_header t' = rx_header g1) ->
  (forall resp plen bl dl, parse resp plen bl dl
     = parse_read_response resp plen minl loff (Z.of_nat doff) bl dl) ->
  1 <= minl -> (loff + 1 < Z.to_nat minl)%nat -> (doff <= 13)%nat -> 0 <= blen <= 65522 ->
  finish_read parse doff buffer blen br ok response g1 = (true, buffer', br', g2) ->
  g2 = g1 /\ exists fields payload n,
    fields_accepted fields /\ bytes_ok payload /\
    rx_header g1 = header_bytes (frame_header NIO_DEVICEID_DISK g fields (0 :: payload)) /\
    payload.[0] = NIO_DISK_VERSION /\ n = le16 payload.[loff] payload.[loff + 1] /\
    0 <= n <= blen /\ Z.of_nat doff + n <= Z.of_nat (length payload) /\
    buffer' = option_map (fun b => overwrite b 0 (slice payload doff (Z.to_nat n))) buffer /\
    br' = option_map (fun _ => n) br.
Proof.
  intros Hg Hd Hparse Hmin Hloff Hdoff Hbl. unfold finish_read.
  destruct ok; simpl; [|done].
  destruct (Hd eq_refl) as (t&t'&status&data&[(fields&Hf&Eh) Hby Hfit Hcap _ Ere _
    (rx&_&Hrxl&Hrxb&Er)]&Hrep&Hresp&Hresp'&Hrp&Hrh).
  rewrite Hrep in Er. destruct Er as [_ Er].
  rewrite Hresp in Ere. rewrite Ere in Hresp'. simpl in Hresp'. subst response. simpl.
  unfold nio_status_ok. destruct (Z.eqb_spec status NIO_STATUS_OK) as [->|]; simpl; [|done].
  rewrite Hparse. destruct (parse_read_response _ _ _ _ _ _ _) as [[] [n|]] eqn:Ep;
    try (intros Hx; discriminate Hx).
  intros [= <- <- <-]. split; [done|].
  apply parse_read_response_ok in Ep as (Hm&Hv&Hn&Hnb&Hu).
  apply Forall_cons in Hby as [_ Hby].
  rewrite <- Hrp, Er in *.
  assert (bytes_ok (overwrite rx 0 data)) as Hob by auto with fuji.
  rewrite get_u16le_le16 in Hn by done.
  rewrite !byte_at_overwrite_head in * by lia.
  pose proof (le16_range _ _ (byte_at_u8 data loff Hby) (byte_at_u8 data (loff + 1) Hby)) as H16.
  rewrite <- Hn in H16. rewrite u16_id in Hu by (unfold is_u16 in *; lia).
  unfold is_u16 in H16.
  exists fields, data, n. split_and!; try done; try lia.
  { by rewrite <- Hrh. }
  destruct buffer as [b|]; [|done]. simpl. f_equal.
  rewrite slice_overwrite_head by lia.
  destruct (Z.eqb_spec n 0) as [->|]; [|done]. by rewrite overwrite_nil.
Qed.

(** A read that fails leaves the caller's memory alone. *)
Lemma finish_read_failed parse doff (buffer : option (list Z)) blen br ok response
    (g : nio_state W) buffer' br' g' :
  finish_read parse doff buffer blen br ok response g = (false, buffer', br', g') ->
  buffer' = buffer.
Proof.
  unfold finish_read. destruct (negb ok); [by intros [= <- <- <-]|].
  destruct (negb _); [by intros [= <- <- <-]|].
  destruct (parse _ _ _ _) as [[] [n|]]; intros H; try discriminate H;
    by injection H as <- <- <-.
Qed.
End ReadFacts.

(** ** Properties *)

(** Soundness of the multi-sector read: when it succeeds, the last frame
    received was a DiskService answer to READ_SECTORS with status 0 and the
    protocol version, the number of bytes reported is the length that answer
    announces, it fits the caller's buffer and the answer, and the caller's
    buffer starts with exactly those bytes of the answer and is unchanged
    behind them; with any port that respects its buffers. *)
Theorem read_sectors_sound {W} `{!PortOk ops} slot lba count b blen br (g : nio_state W)
    buffer' br' g' :
  nio_ok ops g -> 0 <= blen <= 65522 ->
  nio_disk_read_sectors ops slot lba count (Some b) blen (Some br) g
    = (true, buffer', br', g') ->
  exists fields payload n,
    rx_header g' = header_bytes (frame_header NIO_DEVICEID_DISK NIO_DISK_CMD_READ_SECTORS
                                   fields (0 :: payload)) /\
    payload.[0] = NIO_DISK_VERSION /\ n = le16 payload.[11] payload.[12] /\
    0 <= n <= blen /\ 13 + n <= Z.of_nat (length payload) /\
    buffer' = Some (overwrite b 0 (slice payload 13 (Z.to_nat n))) /\ br' = Some n.
Proof.
  intros Hg Hbl. unfold nio_disk_read_sectors.
  destruct (nio_call _ _ _ _ _ _ _ _ _) as [[[ok reply] response] g1] eqn:Ec.
  apply nio_call_spec in Ec as (Hg1&Hd&_); try done. intros Hf.
  eapply (finish_read_ok ops NIO_DISK_CMD_READ_SECTORS _ 13 11 13) in Hf
    as (->&fields&payload&n&_&_&Hh&Hv&Hn&Hb1&Hb2&->&->); try done; try (simpl; lia).
  - exists fields, payload, n. done.
  - intros Hok. destruct (Hd Hok) as (t&t'&st&da&Hdel&?&?&?&?&?&?).
    by exists t, t', st, da.
Qed.

(** A disk that answers with three bytes. *)
Definition demo_read_answer : list Z :=
  demo_frame 252 8 ([0; 1; 0; 0; 0; 0; 0; 0; 0; 0; 0; 0; 3; 0] ++ [7; 8; 9]).

Lemma read_sectors_sound_witness :
  let r := nio_disk_read_sectors playback_ops 1 0 1 (Some (zeros 4)) 4 (Some 0)
             (nio_initial (mkPlayback [demo_read_answer] 0)) in
  fst r = (true, Some [7; 8; 9; 0], Some 3) /\
  exists fields payload n,
    rx_header (snd r) = header_bytes (frame_header NIO_DEVICEID_DISK NIO_DISK_CMD_READ_SECTORS
                                   fields (0 :: payload)) /\
    payload.[0] = NIO_DISK_VERSION /\ n = le16 payload.[11] payload.[12] /\
    0 <= n <= 4 /\ 13 + n <= Z.of_nat (length payload) /\
    Some [7; 8; 9; 0] = Some (overwrite (zeros 4) 0 (slice payload 13 (Z.to_nat n))) /\
    Some 3 = Some n.
Proof.
  cbv zeta. split; [vm_compute; reflexivity|].
  apply (read_sectors_sound 1 0 1 (zeros 4) 4 0
    (nio_initial (mkPlayback [demo_read_answer] 0)) (Some [7; 8; 9; 0]) (Some 3)).
  - apply nio_initial_ok.
  - lia.
  - vm_compute; reflexivity.
Defined.

(** The invariant through each operation. *)
Section Preservation.
Context {W : Type} (ops : port_ops W) `{!PortOk ops}.

Lemma finish_read_preserves parse doff buffer blen br ok response g r buffer' br' g' :
  nio_ok ops g ->
  finish_read parse doff buffer blen br ok response g = (r, buffer', br', g') ->
  nio_ok ops g'.
Proof.
  intros Hg. unfold finish_read. destruct (negb ok); [by intros [= <- <- <- <-]|].
  destruct (negb _).
  { destruct (fail_status _ _) as [? ?] eqn:E. intros [= <- <- <- <-].
    by apply (fail_status_ok ops _ _ _ _ E). }
  destruct (parse _ _ _ _) as [[] [n|]];
    try (by intros [= <- <- <- <-]);
    (destruct (fail_status _ _) as [? ?] eqn:E; intros [= <- <- <- <-];
     by apply (fail_status_ok ops _ _ _ _ E)).
Qed.

Lemma slot_command_preserves command min_size resp_size slot g r g' :
  nio_ok ops g -> slot_command ops command min_size resp_size slot g = (r, g') ->
  nio_ok ops g'.
Proof.
  intros Hg. unfold slot_command.
  destruct (nio_call _ _ _ _ _ _ _ _ _) as [[[ok reply] response] g1] eqn:Ec.
  apply nio_call_spec in Ec as (Hg1&_&_); try done.
  destruct (negb ok); [by intros [= <- <-]|]. case_test; [|by intros [= <- <-]].
  intros E. by apply (fail_status_ok ops _ _ _ _ E).
Qed.

Lemma write_exchange_preserves command prefix min_len len_off buffer blen bw g r bw' g' :
  nio_ok ops g ->
  write_exchange ops command prefix min_len len_off buffer blen bw g = (r, bw', g') ->
  nio_ok ops g'.
Proof.
  intros Hg. unfold write_exchange. destruct Hg as [Htl Hrl Hrb Hhl Hhb Hbd].
  destruct (op_getbuf_slip_dual _ _ _ _ _ _ _) as [[[rx_len hdr] resp] w] eqn:Eg.
  apply getbuf_ok in Eg as (_&Hb&Hl&_); try done; try apply zeros_bytes_ok.
  intros H.
  assert (exists g1, g' = g1 /\ nio_ok ops g1) as (?&->&?); [|done].
  eexists. split; [|shelve].
  destruct (nio_protocol_validate_response _ _ _ _ _ _) as [err parsed].
  repeat case_test_in H; injection H as <- <- <-; reflexivity.
  Unshelve. constructor; cbn; try assumption.
  rewrite length_overwrite; [assumption|]. rewrite Htl. vm_compute. lia.
Qed.
End Preservation.

(** The module invariant: after loading, the statics of nio.c have their
    declared sizes and hold bytes, and every operation keeps it so, whatever
    its arguments and whatever arrives; together with the two bounds of a
    reception this is the memory safety of the module's buffers. *)
Theorem driver_invariant {W} `{!PortOk ops} (w : W) :
  nio_ok ops (nio_initial w) /\
  forall g : nio_state W, nio_ok ops g ->
    (forall device command payload plen reply rcap response,
       nio_ok ops (snd (nio_call ops device command payload plen reply rcap response g))) /\
    (forall slot info, nio_ok ops (snd (nio_disk_info ops slot info g))) /\
    (forall slot, nio_ok ops (snd (nio_disk_begin_host_session ops slot g))) /\
    (forall slot, nio_ok ops (snd (nio_disk_clear_changed ops slot g))) /\
    (forall slot lba buffer blen br,
       nio_ok ops (snd (nio_disk_read_sector ops slot lba buffer blen br g))) /\
    (forall slot lba count buffer blen br,
       nio_ok ops (snd (nio_disk_read_sectors ops slot lba count buffer blen br g))) /\
    (forall slot lba buffer blen bw,
       nio_ok ops (snd (nio_disk_write_sector ops slot lba buffer blen bw g))) /\
    (forall slot lba count buffer blen bw,
       nio_ok ops (snd (nio_disk_write_sectors ops slot lba count buffer blen bw g))).
Proof.
  split; [apply nio_initial_ok|]. intros g Hg.
  assert (forall device command payload plen reply rcap response,
    nio_ok ops (snd (nio_call ops device command payload plen reply rcap response g))) as Hcall.
  { intros. destruct (nio_call _ _ _ _ _ _ _ _ _) as [[[ok re] rs] g1] eqn:E.
    by apply nio_call_spec in E as (?&_&_). }
  split_and!; intros; [apply Hcall|..].
  - unfold nio_disk_info.
    match goal with |- context [nio_call ops ?d ?c ?p ?l ?r ?k ?s g] =>
      pose proof (Hcall d c p l r k s) end.
    destruct (nio_call _ _ _ _ _ _ _ _ _) as [[[ok re] rs] g1]. cbn [fst snd] in *.
    destruct (negb ok); [done|]. case_test; [eapply nio_ok_same; [..|exact H]; reflexivity|].
    cbv zeta.
    destruct (nio_disk_parse_info_response _ _ _) as [[] ?]; [done|].
    eapply nio_ok_same; [..|exact H]; reflexivity.
  - unfold nio_disk_begin_host_session.
    destruct (slot_command _ _ _ _ _ _) as [r g1] eqn:E.
    by apply slot_command_preserves in E.
  - unfold nio_disk_clear_changed.
    destruct (slot_command _ _ _ _ _ _) as [r g1] eqn:E.
    by apply slot_command_preserves in E.
  - unfold nio_disk_read_sector.
    match goal with |- context [nio_call ops ?d ?c ?p ?l ?r ?k ?s g] =>
      pose proof (Hcall d c p l r k s) end.
    destruct (nio_call _ _ _ _ _ _ _ _ _) as [[[ok re] rs] g1].
    destruct (finish_read _ _ _ _ _ _ _ _) as [[[? ?] ?] g2] eqn:E.
    by apply (finish_read_preserves ops) in E.
  - unfold nio_disk_read_sectors.
    match goal with |- context [nio_call ops ?d ?c ?p ?l ?r ?k ?s g] =>
      pose proof (Hcall d c p l r k s) end.
    destruct (nio_call _ _ _ _ _ _ _ _ _) as [[[ok re] rs] g1].
    destruct (finish_read _ _ _ _ _ _ _ _) as [[[? ?] ?] g2] eqn:E.
    by apply (finish_read_preserves ops) in E.
  - unfold nio_disk_write_sector.
    destruct (write_exchange _ _ _ _ _ _ _ _ _) as [[r n] g1] eqn:E.
    by apply write_exchange_preserves in E.
  - unfold nio_disk_write_sectors.
    destruct (write_exchange _ _ _ _ _ _ _ _ _) as [[r n] g1] eqn:E.
    by apply write_exchange_preserves in E.
Qed.

Lemma driver_invariant_witness :
  nio_ok slip_ops (snd (nio_disk_read_sectors slip_ops 1 0 1 (Some (zeros 512)) 512 (Some 0)
    (nio_initial (mkUart [] [[RxByte 0 192; RxByte 2 7; RxTimeout 0]] [] 0 0 0)))).
Proof.
  destruct (driver_invariant (ops := slip_ops)
    (mkUart [] [[RxByte 0 192; RxByte 2 7; RxTimeout 0]] [] 0 0 0)) as [H0 H].
  destruct (H _ H0) as (_&_&_&_&_&Hr&_). apply Hr.
Defined.

(** The header of a write: its checksum runs over two pieces of payload. *)
Lemma write_header_eq command prefix data :
  is_u8 command -> bytes_ok prefix -> bytes_ok data ->
  Z.of_nat (length prefix + length data) < 65530 ->
  let tx := mkHeader NIO_DEVICEID_DISK command
    (u16 (NIO_FRAME_HEADER_SIZE + Z.of_nat (length prefix) + Z.of_nat (length data))) 0
    NIO_PROTO_FIELD_NONE in
  set_checksum (u8 (nio_protocol_checksum data (Z.of_nat (length data))
    (nio_protocol_checksum prefix (Z.of_nat (length prefix))
      (nio_protocol_checksum (header_bytes tx) NIO_FRAME_HEADER_SIZE 0)))) tx
  = frame_header NIO_DEVICEID_DISK command NIO_PROTO_FIELD_NONE (prefix ++ data).
Proof.
  intros Hc Hp Hd Hl. cbv zeta. unfold NIO_FRAME_HEADER_SIZE.
  rewrite u16_id by (unfold is_u16; lia). unfold frame_header.
  replace (6 + Z.of_nat (length (prefix ++ data)))
    with (6 + Z.of_nat (length prefix) + Z.of_nat (length data)) by (rewrite length_app; lia).
  set (h := mkHeader _ _ _ _ _).
  assert (header_ok h) as Hh
    by (unfold header_ok, h; simpl; unfold is_u16, is_u8 in *; split_and!; try done; lia).
  pose proof (header_bytes_ok _ Hh) as Hhb.
  change 6 with (Z.of_nat (length (header_bytes h))).
  change 0 with (ones_complement 0) at 1.
  pose proof (sum_bytes_nonneg _ Hhb). pose proof (sum_bytes_nonneg _ Hp).
  rewrite !checksum_whole by (done || lia).
  rewrite u8_ones_complement by (pose proof (sum_bytes_nonneg _ Hd); lia).
  f_equal. f_equal. unfold frame_sum. rewrite sum_bytes_app.
  change (set_checksum 0 h) with h. lia.
Qed.

Lemma getbuf_tx hdr n pl m timeout u :
  u_tx (snd (port_getbuf_slip_dual hdr n pl m timeout u)) = u_tx u.
Proof.
  unfold port_getbuf_slip_dual. case_test; [done|]. by destruct (slip_run _ _ _).
Qed.

(** The ten-byte prefix, built by the accessors. *)
Lemma write_prefix_eq slot lba count n :
  nio_disk_put_u16le (nio_disk_put_u16le (nio_disk_put_u32le
    (put_at (put_at (zeros 10) 0 NIO_DISK_VERSION) 1 slot) 2 lba) 6 count) 8 n
  = read_sectors_request_bytes slot lba count n.
Proof.
  unfold nio_disk_put_u32le, nio_disk_put_u16le, put_at. cbn -[Z.shiftr Z.land].
  by rewrite !land_255, !shiftr_8, shiftr_16, shiftr_24.
Qed.

(** One write exchange over the wire. *)
Lemma write_exchange_tx command prefix min_len len_off data bw (g : nio_state uart) :
  nio_ok slip_ops g -> is_u8 command -> bytes_ok prefix -> bytes_ok data ->
  Z.of_nat (length prefix + length data) < 65530 ->
  u_tx (n_world (snd (write_exchange slip_ops command prefix min_len len_off (Some data)
                        (Z.of_nat (length data)) bw g)))
  = u_tx (n_world g) ++
    slip_frame (header_bytes (frame_header NIO_DEVICEID_DISK command NIO_PROTO_FIELD_NONE
                                (prefix ++ data)) ++ prefix ++ data).
Proof.
  intros Hg Hc Hp Hd Hl. unfold write_exchange. cbv zeta. cbn [default].
  rewrite write_header_eq by done.
  set (hd := header_bytes (frame_header _ _ _ (prefix ++ data))).
  match goal with |- context [op_getbuf_slip_dual slip_ops ?a ?b ?c ?d ?e ?w] =>
    set (w1 := w); pose proof (getbuf_tx a b c d e w1) as Htx;
    change (op_getbuf_slip_dual slip_ops) with port_getbuf_slip_dual;
    destruct (port_getbuf_slip_dual a b c d e w1) as [[[rx_len hdr] resp] w2] end.
  destruct (nio_protocol_validate_response _ _ _ _ _ _) as [err parsed].
  match goal with |- u_tx (n_world (snd ?x)) = _ =>
    assert (n_world (snd x) = w2) as -> by (repeat case_test; reflexivity) end.
  simpl in Htx. rewrite Htx. subst w1.
  cbn [op_flush_rx op_putc op_putbuf_slip op_wait_tx_empty slip_ops port_putc snd
       set_n_tx_prefix tx_prefix n_world].
  assert (length (tx_prefix g) = 32%nat) as Htl by apply Hg.
  assert (forall u, snd (port_putbuf_slip (overwrite (tx_prefix g) 0 hd)
    NIO_FRAME_HEADER_SIZE u) = set_u_tx (u_tx u ++ slip_encode hd) u) as Hh.
  { intros u. unfold port_putbuf_slip. rewrite slip_put_loop_tx.
    - reflexivity.
    - rewrite length_overwrite; rewrite Htl; vm_compute; lia. }
  rewrite Hh, (putbuf_slip_tx prefix) by done.
  unfold port_wait_tx_empty, slip_frame. rewrite !slip_encode_app. clear Hh. clearbody hd.
  case_test.
  - destruct data; [|simpl in *; lia]. unfold send_byte, set_u_tx; simpl.
    destruct (u_peer _); simpl; rewrite ?app_nil_r, <- ?app_assoc; reflexivity.
  - rewrite putbuf_slip_tx by done. unfold send_byte, set_u_tx; simpl.
    destruct (u_peer _); simpl; rewrite <- ?app_assoc; reflexivity.
Qed.

(** A sector write puts exactly one frame on the wire, whatever the answer:
    END, the escaped encoder's header for WRITE_SECTORS over the ten-byte
    prefix and the sector data, the escaped prefix and data, END; so a write
    is never repeated by this layer, and the data goes out as the caller has
    it. *)
Theorem write_sectors_wire slot lba count data bw (g : nio_state uart) :
  nio_ok slip_ops g -> is_u8 slot -> bytes_ok data -> Z.of_nat (length data) < 65520 ->
  let prefix := read_sectors_request_bytes slot lba count (Z.of_nat (length data)) in
  u_tx (n_world (snd (nio_disk_write_sectors slip_ops slot lba count (Some data)
                        (Z.of_nat (length data)) bw g)))
  = u_tx (n_world g) ++
    slip_frame (header_bytes (frame_header NIO_DEVICEID_DISK NIO_DISK_CMD_WRITE_SECTORS
                                NIO_PROTO_FIELD_NONE (prefix ++ data)) ++ prefix ++ data).
Proof.
  intros Hg Hslot Hdata Hlen prefix. unfold nio_disk_write_sectors. cbv zeta.
  match goal with |- context [write_exchange _ _ ?p] =>
    replace p with prefix by (symmetry; apply write_prefix_eq) end.
  apply write_exchange_tx; try done; [|subst prefix; simpl; lia].
  subst prefix. unfold read_sectors_request_bytes.
  repeat constructor; try done; width_lia.
Qed.

Lemma write_sectors_wire_witness :
  let prefix := read_sectors_request_bytes 1 5 1 (Z.of_nat (length [192; 9])) in
  u_tx (n_world (snd (nio_disk_write_sectors slip_ops 1 5 1 (Some [192; 9])
    (Z.of_nat (length [192; 9])) (Some 0) (nio_initial (mkUart [] [] [] 0 0 0)))))
  = [] ++ slip_frame (header_bytes (frame_header NIO_DEVICEID_DISK NIO_DISK_CMD_WRITE_SECTORS
                                      NIO_PROTO_FIELD_NONE (prefix ++ [192; 9]))
                        ++ prefix ++ [192; 9]).
Proof.
  apply (write_sectors_wire 1 5 1 [192; 9] (Some 0) (nio_initial (mkUart [] [] [] 0 0 0))).
  - apply nio_initial_ok.
  - done.
  - repeat constructor; done.
  - simpl. lia.
Defined.
