(* ===== verification/DosCommands.v ===== *)
(** * The DOS request handlers (msdos/src/driver/commands.c, dispatch.c)

    The block-device handlers over the sector cache, as functions on the
    driver's statics and the request header.  The NIO client below them is the
    interface [NioClient]; [NioDriver] implements it.  Console output is not
    modelled. *)

From S2P Require Import Prelude NioProtocol NioDiskProtocol NioTransaction NioDriver.

Definition SECTOR_SIZE : Z := 512.
Definition CACHE_SECTORS : Z := 40.
Definition FN_MAX_DEV : Z := 8.

(** sys_hdr.h *)
Definition OP_COMPLETE : Z := 0.
Definition ERROR_BIT : Z := 32768.
Definition DONE_BIT : Z := 256.
Definition WRITE_PROTECT : Z := 0.
Definition UNKNOWN_UNIT : Z := 1.
Definition NOT_READY : Z := 2.
Definition UNKNOWN_CMD : Z := 3.
Definition BAD_REQ_LEN : Z := 5.
Definition NOT_FOUND : Z := 8.
Definition READ_FAULT : Z := 11.
Definition GENERAL_FAIL : Z := 12.
Definition MAXCOMMAND : Z := 24.
Definition dos_error (code : Z) : Z := Z.lor ERROR_BIT code.

(** ioctl.h: the commands, the limits, and the offsets and sizes of the packed
    control blocks. *)
Definition FUJI_IOCTL_VERSION : Z := 1.
Definition FUJI_IOCTL_MAX_DATA : Z := 512.
Definition FUJI_IOCTL_MAX_URI : Z := 255.
Definition FUJI_IOCTL_MAX_PATH : Z := 127.
Definition FUJI_IOCTL_QUERY_BASE_SIZE : Z := 6.
Definition FUJI_IOCTL_QUERY : Z := 0.
Definition FUJI_IOCTL_GET_STATE : Z := 1.
Definition FUJI_IOCTL_SET_STATE : Z := 2.
Definition FUJI_IOCTL_GET_UNIT_MAP : Z := 3.
Definition FUJI_IOCTL_SET_UNIT_MAP : Z := 4.
Definition FUJI_IOCTL_NIO_CALL : Z := 5.
Definition FUJI_IOCTL_SIGNATURE : list Z := [70; 85; 74; 73].

(** [fuji_ioctl_query]: command 0, signature 1, unit 5, version 6, max_units 7. *)
Definition sizeof_query : Z := 8.
(** [fuji_ioctl_state]: uri_len 8, path_len 10, uri 12, path 268. *)
Definition sizeof_state : Z := 396.
(** [fuji_ioctl_unit_map]: slot 8. *)
Definition sizeof_unit_map : Z := 9.
(** [fuji_ioctl_nio_call]: device 7, nio_command 8, nio_status 9, request_len
    10, response_len 12, data 14, diag_error 526, diag_status 527, diag_rx_len
    528, diag_expected_len 530, diag_lsr 532; with the compiler's alignment of
    two a byte of padding follows. *)
Definition sizeof_nio_call : Z := 534.

Definition NIO_STATUS_IO_ERROR : Z := 5.

Definition NIO_DISK_INFO_INSERTED : Z := 1.
Definition NIO_DISK_INFO_READONLY : Z := 2.
Definition NIO_DISK_INFO_CHANGED : Z := 8.

Record DOS_BPB := mkBpb {
  bps : Z;
  spau : Z;
  rs : Z;
  num_FATs : Z;
  root_entries : Z;
  num_sectors : Z;
  media_descriptor : Z;
  spfat : Z;
  spt : Z;
  heads : Z;
  hidden : Z;
  num_sectors_32 : Z
}.

(** The 25 packed bytes of a [DOS_BPB]. *)
Definition bpb_of_bytes (b : list Z) : DOS_BPB :=
  mkBpb (nio_disk_get_u16le b 0) b.[2] (nio_disk_get_u16le b 3) b.[5]
    (nio_disk_get_u16le b 6) (nio_disk_get_u16le b 8) b.[10]
    (nio_disk_get_u16le b 11) (nio_disk_get_u16le b 13) (nio_disk_get_u16le b 15)
    (nio_disk_get_u32le b 17) (nio_disk_get_u32le b 21).

(** The far pointers the handlers store into a request. *)
Inductive far_ptr :=
| FarNull
| FarOffset (off : Z)
| FarBpb (i : nat)
| FarBpbArray.

(** [SYSREQ]: the header and the members of the union each command uses;
    [q_buffer] is the memory [buffer_ptr] points to. *)
Record SYSREQ := mkReq {
  q_length : Z;
  q_unit : Z;
  q_command : Z;
  q_status : Z;
  q_buffer : list Z;
  q_count : Z;
  q_start_sector : Z;
  q_start_sector_32 : Z;
  q_return_info : Z;
  q_table : far_ptr;
  q_unit_code : Z;
  q_num_units : Z;
  q_end_ptr : far_ptr;
  q_config : list Z
}.
#[export] Instance eta_req : Eta SYSREQ :=
  fun q => mkReq (q_length q) (q_unit q) (q_command q) (q_status q) (q_buffer q) (q_count q)
    (q_start_sector q) (q_start_sector_32 q) (q_return_info q) (q_table q) (q_unit_code q)
    (q_num_units q) (q_end_ptr q) (q_config q).
Definition set_q_status : Z -> SYSREQ -> SYSREQ := ltac:(derive_setter q_status).
Definition set_q_buffer : list Z -> SYSREQ -> SYSREQ := ltac:(derive_setter q_buffer).
Definition set_q_count : Z -> SYSREQ -> SYSREQ := ltac:(derive_setter q_count).
Definition set_q_return_info : Z -> SYSREQ -> SYSREQ := ltac:(derive_setter q_return_info).
Definition set_q_table : far_ptr -> SYSREQ -> SYSREQ := ltac:(derive_setter q_table).
Definition set_q_unit_code : Z -> SYSREQ -> SYSREQ := ltac:(derive_setter q_unit_code).
Definition set_q_num_units : Z -> SYSREQ -> SYSREQ := ltac:(derive_setter q_num_units).
Definition set_q_end_ptr : far_ptr -> SYSREQ -> SYSREQ := ltac:(derive_setter q_end_ptr).

(** ** The client interface

    What commands.c uses of nio.c: the disk operations on slots, the raw call
    of the control channel and the [nio_last_*] globals.  A buffer argument is
    the memory at the caller's pointer and is returned as the operation left
    it; so is the out-parameter. *)
Class NioClient (C : Type) := {
  cl_disk_info : Z -> nio_disk_info_t -> C -> bool * nio_disk_info_t * C;
  cl_clear_changed : Z -> C -> bool * C;
  cl_read_sector : Z -> Z -> list Z -> Z -> Z -> C -> bool * list Z * Z * C;
  cl_read_sectors : Z -> Z -> Z -> list Z -> Z -> Z -> C -> bool * list Z * Z * C;
  cl_write_sectors : Z -> Z -> Z -> list Z -> Z -> Z -> C -> bool * Z * C;
  cl_call : Z -> Z -> list Z -> Z -> list Z -> Z -> C -> bool * list Z * nio_response_t * C;
  cl_begin_host_session : Z -> C -> bool * C;
  cl_set_config : Z -> Z -> C -> C;
  cl_last_error : C -> Z;
  cl_last_status : C -> Z;
  cl_last_rx_len : C -> Z;
  cl_last_expected_len : C -> Z;
  cl_last_lsr : C -> Z
}.

(** The statics of commands.c. *)
Record dos_state (C : Type) := mkDos {
  m_client : C;
  fn_bpb_table : list DOS_BPB;
  fn_bpb_pointers : list (option nat);
  nio_unit_slot : list Z;
  nio_current_uri : list Z;
  nio_display_path : list Z;
  nio_current_uri_len : Z;
  nio_display_path_len : Z;
  cache_valid : list Z;
  cache_unit : list Z;
  cache_lba : list Z;
  cache_data : list (list Z);
  cache_next : Z;
  info_cache_valid : list Z;
  info_cache : list nio_disk_info_t;
  media_changed : list Z;
  nio_batch_sectors : Z;
  nio_io_retries : Z;
  nio_debug_io : Z;
  nio_auto_downshift : Z
}.
Arguments mkDos {C}.
Arguments m_client {C}.
Arguments fn_bpb_table {C}.
Arguments fn_bpb_pointers {C}.
Arguments nio_unit_slot {C}.
Arguments nio_current_uri {C}.
Arguments nio_display_path {C}.
Arguments nio_current_uri_len {C}.
Arguments nio_display_path_len {C}.
Arguments cache_valid {C}.
Arguments cache_unit {C}.
Arguments cache_lba {C}.
Arguments cache_data {C}.
Arguments cache_next {C}.
Arguments info_cache_valid {C}.
Arguments info_cache {C}.
Arguments media_changed {C}.
Arguments nio_batch_sectors {C}.
Arguments nio_io_retries {C}.
Arguments nio_debug_io {C}.
Arguments nio_auto_downshift {C}.
#[export] Instance eta_dos C : Eta (dos_state C) :=
  fun m => mkDos (m_client m) (fn_bpb_table m) (fn_bpb_pointers m) (nio_unit_slot m)
    (nio_current_uri m) (nio_display_path m) (nio_current_uri_len m)
    (nio_display_path_len m) (cache_valid m) (cache_unit m) (cache_lba m) (cache_data m)
    (cache_next m) (info_cache_valid m) (info_cache m) (media_changed m)
    (nio_batch_sectors m) (nio_io_retries m) (nio_debug_io m) (nio_auto_downshift m).

Section DosSetters.
Context {C : Type}.
Definition set_client : C -> dos_state C -> dos_state C := ltac:(derive_setter (@m_client C)).
Definition set_bpb_table : list DOS_BPB -> dos_state C -> dos_state C :=
  ltac:(derive_setter (@fn_bpb_table C)).
Definition set_bpb_pointers : list (option nat) -> dos_state C -> dos_state C :=
  ltac:(derive_setter (@fn_bpb_pointers C)).
Definition set_unit_slot : list Z -> dos_state C -> dos_state C :=
  ltac:(derive_setter (@nio_unit_slot C)).
Definition set_current_uri : list Z -> dos_state C -> dos_state C :=
  ltac:(derive_setter (@nio_current_uri C)).
Definition set_display_path : list Z -> dos_state C -> dos_state C :=
  ltac:(derive_setter (@nio_display_path C)).
Definition set_current_uri_len : Z -> dos_state C -> dos_state C :=
  ltac:(derive_setter (@nio_current_uri_len C)).
Definition set_display_path_len : Z -> dos_state C -> dos_state C :=
  ltac:(derive_setter (@nio_display_path_len C)).
Definition set_cache_valid : list Z -> dos_state C -> dos_state C :=
  ltac:(derive_setter (@cache_valid C)).
Definition set_cache_unit : list Z -> dos_state C -> dos_state C :=
  ltac:(derive_setter (@cache_unit C)).
Definition set_cache_lba : list Z -> dos_state C -> dos_state C :=
  ltac:(derive_setter (@cache_lba C)).
Definition set_cache_data : list (list Z) -> dos_state C -> dos_state C :=
  ltac:(derive_setter (@cache_data C)).
Definition set_cache_next : Z -> dos_state C -> dos_state C :=
  ltac:(derive_setter (@cache_next C)).
Definition set_info_cache_valid : list Z -> dos_state C -> dos_state C :=
  ltac:(derive_setter (@info_cache_valid C)).
Definition set_info_cache : list nio_disk_info_t -> dos_state C -> dos_state C :=
  ltac:(derive_setter (@info_cache C)).
Definition set_media_changed : list Z -> dos_state C -> dos_state C :=
  ltac:(derive_setter (@media_changed C)).
Definition set_batch_sectors : Z -> dos_state C -> dos_state C :=
  ltac:(derive_setter (@nio_batch_sectors C)).
Definition set_io_retries : Z -> dos_state C -> dos_state C :=
  ltac:(derive_setter (@nio_io_retries C)).
Definition set_debug_io : Z -> dos_state C -> dos_state C :=
  ltac:(derive_setter (@nio_debug_io C)).
Definition set_auto_downshift : Z -> dos_state C -> dos_state C :=
  ltac:(derive_setter (@nio_auto_downshift C)).
End DosSetters.

Definition no_bpb : DOS_BPB := mkBpb 0 0 0 0 0 0 0 0 0 0 0 0.
Definition no_info : nio_disk_info_t := mkDiskInfo 0 0 0 0 0 0.

(** The statics at load time. *)
Definition dos_initial {C} (c : C) : dos_state C :=
  mkDos c (replicate 8 no_bpb) (replicate 9 None) [0; 1; 2; 3; 4; 5; 6; 7]
    (zeros 256) (zeros 128) 0 0 (zeros 40) (zeros 40) (zeros 40)
    (replicate 40 (zeros 512)) 0 (zeros 8) (replicate 8 no_info) (zeros 8) 16 2 0 1.

Section Commands.
Context {C : Type} `{!NioClient C}.
Implicit Types m : dos_state C.

Definition unit_to_slot m (unit : Z) : Z :=
  if unit >=? FN_MAX_DEV then 255 else (nio_unit_slot m).[Z.to_nat unit].

Definition unit_to_diskservice_slot m (unit : Z) : Z :=
  let slot := unit_to_slot m unit in
  if slot =? 255 then 255 else u8 (slot + 1).

(** ** The sector cache *)

(** The loop of [cache_find] from index [i] on, with [n] entries left. *)
Fixpoint cache_find_from m (unit lba : Z) (i n : nat) : Z :=
  match n with
  | O => -1
  | S n' =>
      if negb ((cache_valid m).[i] =? 0) && ((cache_unit m).[i] =? unit)
         && ((cache_lba m).[i] =? lba)
      then Z.of_nat i
      else cache_find_from m unit lba (S i) n'
  end.

Definition cache_find m (unit lba : Z) : Z :=
  cache_find_from m unit lba 0 (Z.to_nat CACHE_SECTORS).

Definition cache_sector m (idx : Z) : list Z := nth (Z.to_nat idx) (cache_data m) [].

(** [data] is the memory at the source pointer. *)
Definition cache_store (unit lba : Z) (data : list Z) m : dos_state C :=
  let idx := Z.to_nat (cache_next m) in
  m |> set_cache_valid (put_at (cache_valid m) idx 1)
    |> set_cache_unit (put_at (cache_unit m) idx unit)
    |> set_cache_lba (put_at (cache_lba m) idx lba)
    |> set_cache_data (<[idx := slice data 0 (Z.to_nat SECTOR_SIZE)]> (cache_data m))
    |> set_cache_next (u8 ((cache_next m + 1) mod CACHE_SECTORS)).

Definition cache_update_or_invalidate (unit lba : Z) (data : option (list Z)) m
    : dos_state C :=
  let idx := cache_find m unit lba in
  if idx >=? 0 then
    match data with
    | Some d => set_cache_data
        (<[Z.to_nat idx := slice d 0 (Z.to_nat SECTOR_SIZE)]> (cache_data m)) m
    | None => set_cache_valid (put_at (cache_valid m) (Z.to_nat idx) 0) m
    end
  else m.

(** The loop of [cache_invalidate_unit]. *)
Fixpoint invalidate_from (unit : Z) (i n : nat) m : dos_state C :=
  match n with
  | O => m
  | S n' =>
      let m := if negb ((cache_valid m).[i] =? 0) && ((cache_unit m).[i] =? unit)
               then set_cache_valid (put_at (cache_valid m) i 0) m else m in
      invalidate_from unit (S i) n' m
  end.

Definition cache_invalidate_unit (unit : Z) m : dos_state C :=
  let m := invalidate_from unit 0 (Z.to_nat CACHE_SECTORS) m in
  if unit <? FN_MAX_DEV
  then set_info_cache_valid (put_at (info_cache_valid m) (Z.to_nat unit) 0) m
  else m.

Definition disk_info_cached (unit : Z) (info : nio_disk_info_t) m
    : bool * nio_disk_info_t * dos_state C :=
  if unit >=? FN_MAX_DEV then (false, info, m) else
  let u := Z.to_nat unit in
  if negb ((info_cache_valid m).[u] =? 0)
  then (true, nth u (info_cache m) no_info, m)
  else
    match cl_disk_info (unit_to_diskservice_slot m unit) info (m_client m) with
    | (false, info, c) => (false, info, set_client c m)
    | (true, info, c) =>
        (true, info,
         m |> set_client c
           |> set_info_cache (<[u := info]> (info_cache m))
           |> set_info_cache_valid (put_at (info_cache_valid m) u 1))
    end.

(** ** The control channel *)

(** [fill_query]: the control block is the bytes [b]. *)
Definition fill_query (unit query_len : Z) (b : list Z) : list Z :=
  let b := overwrite b 1 FUJI_IOCTL_SIGNATURE in
  let b := put_at b 5 unit in
  if query_len >=? sizeof_query
  then put_at (put_at b 6 FUJI_IOCTL_VERSION) 7 FN_MAX_DEV
  else b.

(** The diagnostics written behind the data. *)
Definition put_diag (c : C) (b : list Z) : list Z :=
  let b := put_at b 526 (cl_last_error c) in
  let b := put_at b 527 (cl_last_status c) in
  let b := nio_disk_put_u16le b 528 (cl_last_rx_len c) in
  let b := nio_disk_put_u16le b 530 (cl_last_expected_len c) in
  put_at b 532 (cl_last_lsr c).

(** [_fmemset(dst, 0, size)] and [_fmemcpy(dst, src, len)]. *)
Definition set_text (size : nat) (src : list Z) (off len : Z) : list Z :=
  overwrite (zeros size) 0 (slice src (Z.to_nat off) (Z.to_nat len)).

Definition nio_handle_control_call (call : list Z) (unit : Z) m
    : Z * list Z * dos_state C :=
  let request_len := nio_disk_get_u16le call 10 in
  let response_len := nio_disk_get_u16le call 12 in
  if (request_len >? FUJI_IOCTL_MAX_DATA) || (response_len >? FUJI_IOCTL_MAX_DATA)
  then (dos_error BAD_REQ_LEN, call, m)
  else if (call.[7] =? 0) && (call.[8] =? FUJI_IOCTL_SET_STATE) then
    if request_len <? 4 then (dos_error BAD_REQ_LEN, call, m) else
    let uri_len := nio_disk_get_u16le call 14 in
    let path_len := nio_disk_get_u16le call 16 in
    let offset := 4 in
    if (uri_len >? FUJI_IOCTL_MAX_URI) || (path_len >? FUJI_IOCTL_MAX_PATH)
       || (request_len <? u16 (offset + uri_len + path_len))
    then (dos_error BAD_REQ_LEN, call, m)
    else
    let m := m |> set_current_uri_len uri_len
               |> set_display_path_len path_len
               |> set_current_uri (set_text 256 call (14 + offset) uri_len) in
    let offset := u16 (offset + uri_len) in
    let m := set_display_path (set_text 128 call (14 + offset) path_len) m in
    let call := put_at call 9 NIO_STATUS_OK in
    let call := nio_disk_put_u16le call 12 0 in
    (OP_COMPLETE, fill_query unit sizeof_nio_call call, m)
  else
    let data := drop 14 call in
    let '(ok, data, response, c) :=
      cl_call call.[7] call.[8] data request_len data response_len (m_client m) in
    let m := set_client c m in
    let call := take 14 call ++ data in
    if negb ok then
      let call := put_at call 9 NIO_STATUS_IO_ERROR in
      let call := nio_disk_put_u16le call 12 0 in
      (OP_COMPLETE, fill_query unit sizeof_nio_call (put_diag c call), m)
    else
      let call := put_at call 9 (r_status response) in
      let call := nio_disk_put_u16le call 12 (r_payload_length response) in
      (OP_COMPLETE, fill_query unit sizeof_nio_call (put_diag c call), m).

Definition handle_ioctl_buffer (req : SYSREQ) m : Z * SYSREQ * dos_state C :=
  let buffer := q_buffer req in
  let count := q_count req in
  let unit := q_unit req in
  let done status b m := (status, set_q_buffer b req, m) in
  if unit >=? FN_MAX_DEV then (dos_error UNKNOWN_UNIT, req, m) else
  if count <? FUJI_IOCTL_QUERY_BASE_SIZE then (dos_error UNKNOWN_CMD, req, m) else
  let command := buffer.[0] in
  if count <? 5 then (dos_error UNKNOWN_CMD, req, m) else
  if command =? FUJI_IOCTL_QUERY then done OP_COMPLETE (fill_query unit count buffer) m
  else if command =? FUJI_IOCTL_GET_STATE then
    if count <? sizeof_state then (dos_error UNKNOWN_CMD, req, m) else
    let b := fill_query unit sizeof_state buffer in
    let b := nio_disk_put_u16le b 8 (nio_current_uri_len m) in
    let b := nio_disk_put_u16le b 10 (nio_display_path_len m) in
    let b := overwrite b 12 (nio_current_uri m) in
    done OP_COMPLETE (overwrite b 268 (nio_display_path m)) m
  else if command =? FUJI_IOCTL_SET_STATE then
    if count <? sizeof_state then (dos_error UNKNOWN_CMD, req, m) else
    let uri_len := nio_disk_get_u16le buffer 8 in
    let path_len := nio_disk_get_u16le buffer 10 in
    if (uri_len >? FUJI_IOCTL_MAX_URI) || (path_len >? FUJI_IOCTL_MAX_PATH)
    then (dos_error BAD_REQ_LEN, req, m)
    else
    let m := m |> set_current_uri_len uri_len
               |> set_display_path_len path_len
               |> set_current_uri (set_text 256 buffer 12 uri_len)
               |> set_display_path (set_text 128 buffer 268 path_len) in
    done OP_COMPLETE (fill_query unit sizeof_state buffer) m
  else if command =? FUJI_IOCTL_GET_UNIT_MAP then
    if count <? sizeof_unit_map then (dos_error UNKNOWN_CMD, req, m) else
    if buffer.[5] >=? FN_MAX_DEV then (dos_error UNKNOWN_UNIT, req, m) else
    let requested_unit := buffer.[5] in
    let b := fill_query unit sizeof_unit_map buffer in
    let b := put_at b 5 requested_unit in
    done OP_COMPLETE (put_at b 8 (nio_unit_slot m).[Z.to_nat requested_unit]) m
  else if command =? FUJI_IOCTL_SET_UNIT_MAP then
    if count <? sizeof_unit_map then (dos_error UNKNOWN_CMD, req, m) else
    if buffer.[5] >=? FN_MAX_DEV then (dos_error UNKNOWN_UNIT, req, m) else
    if buffer.[8] >=? FN_MAX_DEV then (dos_error BAD_REQ_LEN, req, m) else
    let u := Z.to_nat buffer.[5] in
    let m := cache_invalidate_unit buffer.[5] m in
    let m := set_unit_slot (put_at (nio_unit_slot m) u buffer.[8]) m in
    let m := set_media_changed (put_at (media_changed m) u 1) m in
    done OP_COMPLETE (fill_query unit sizeof_unit_map buffer) m
  else if command =? FUJI_IOCTL_NIO_CALL then
    if count <? sizeof_nio_call then (dos_error UNKNOWN_CMD, req, m) else
    let '(status, b, m) := nio_handle_control_call buffer unit m in
    done status b m
  else (dos_error UNKNOWN_CMD, req, m).

Definition Ioctl_input_cmd (req : SYSREQ) m : Z * SYSREQ * dos_state C :=
  if q_unit req >=? FN_MAX_DEV then (dos_error UNKNOWN_UNIT, req, m)
  else handle_ioctl_buffer req m.

Definition Ioctl_output_cmd (req : SYSREQ) m : Z * SYSREQ * dos_state C :=
  handle_ioctl_buffer req m.

(** ** Media check and BPB *)

Definition Media_check_cmd (req : SYSREQ) m : Z * SYSREQ * dos_state C :=
  if q_unit req >=? FN_MAX_DEV then (dos_error UNKNOWN_UNIT, req, m) else
  let u := Z.to_nat (q_unit req) in
  if negb ((media_changed m).[u] =? 0) then
    let m := set_media_changed (put_at (media_changed m) u 0) m in
    let m := set_info_cache_valid (put_at (info_cache_valid m) u 0) m in
    (OP_COMPLETE, set_q_return_info (u8 (-1)) req, m)
  else
    match disk_info_cached (q_unit req) no_info m with
    | (false, _, m) => (dos_error NOT_READY, req, m)
    | (true, info, m) =>
        if negb (Z.land (i_flags info) NIO_DISK_INFO_CHANGED =? 0) then
          (OP_COMPLETE, set_q_return_info (u8 (-1)) req,
           set_info_cache_valid (put_at (info_cache_valid m) u 0) m)
        else if Z.land (i_flags info) NIO_DISK_INFO_INSERTED =? 0 then
          (OP_COMPLETE, set_q_return_info 0 req, m)
        else (OP_COMPLETE, set_q_return_info 1 req, m)
    end.

(** [MK_FP(getCS(), fn_bpb_pointers[unit])]. *)
Definition bpb_pointer m (u : nat) : far_ptr :=
  match nth u (fn_bpb_pointers m) None with
  | Some i => FarBpb i
  | None => FarNull
  end.

(** [_fmemcpy(fn_bpb_pointers[unit], src, sizeof(DOS_BPB))]; a NULL pointer,
    which Init_cmd leaves for no unit, is not followed. *)
Definition store_bpb (u : nat) (b : DOS_BPB) m : dos_state C :=
  match nth u (fn_bpb_pointers m) None with
  | Some i => set_bpb_table (<[i := b]> (fn_bpb_table m)) m
  | None => m
  end.

Definition Build_bpb_cmd (req : SYSREQ) m : Z * SYSREQ * dos_state C :=
  if q_unit req >=? FN_MAX_DEV then (dos_error UNKNOWN_UNIT, req, m) else
  let u := Z.to_nat (q_unit req) in
  let '(have_info, info, m) := disk_info_cached (q_unit req) no_info m in
  if have_info &&
     (Z.land (i_flags info) (Z.lor NIO_DISK_INFO_INSERTED NIO_DISK_INFO_CHANGED) =? 0)
  then (OP_COMPLETE, set_q_table (bpb_pointer m u) req, m)
  else
  let cached := cache_find m (q_unit req) 0 in
  let finish req m :=
    let m := store_bpb u (bpb_of_bytes (slice (q_buffer req) 11 25)) m in
    let '(cleared, c) := cl_clear_changed (unit_to_diskservice_slot m (q_unit req))
                           (m_client m) in
    let m := set_client c m in
    let m := if cleared
             then set_info_cache_valid (put_at (info_cache_valid m) u 0) m else m in
    (OP_COMPLETE, set_q_table (bpb_pointer m u) req, m) in
  if cached >=? 0 then
    finish (set_q_buffer (overwrite (q_buffer req) 0 (cache_sector m cached)) req) m
  else
    let '(ok, buf, bytes_read, c) :=
      cl_read_sector (unit_to_diskservice_slot m (q_unit req)) 0 (q_buffer req)
        SECTOR_SIZE 0 (m_client m) in
    let req := set_q_buffer buf req in
    let m := set_client c m in
    if negb ok || (bytes_read <? SECTOR_SIZE) then (dos_error READ_FAULT, req, m)
    else finish req (cache_store (q_unit req) 0 buf m).

(** ** Reading *)

(** [&buf[done * SECTOR_SIZE]]: the product is 16 bits wide. *)
Definition sector_offset (n : Z) : nat := Z.to_nat (u16 (n * SECTOR_SIZE)).

Definition request_sector (req : SYSREQ) : Z :=
  if q_length req >? 22 then q_start_sector_32 req else q_start_sector req.

Definition sector_limit m (u : nat) : Z :=
  let b := nth u (fn_bpb_table m) no_bpb in
  if negb (num_sectors b =? 0) then num_sectors b else num_sectors_32 b.

Definition downshift_error (e : Z) : bool :=
  (e =? NIO_ERR_SHORT_FRAME) || (e =? NIO_ERR_LENGTH_MISMATCH) || (e =? NIO_ERR_CHECKSUM).

Inductive read_outcome := ReadOk | ReadDownshift | ReadFailed.

(** The retry loop of [Input_cmd]: [n] attempts are left.  [buf] is the
    request's buffer; [off] the offset the sectors go to. *)
Fixpoint read_attempts (n : nat) (unit sector fetch : Z) (off : nat) (buf : list Z) m
    : read_outcome * list Z * dos_state C :=
  match n with
  | O => (ReadFailed, buf, m)
  | S n' =>
      let '(ok, part, bytes_read, c) :=
        cl_read_sectors (unit_to_diskservice_slot m unit) sector fetch (drop off buf)
          (u16 (fetch * SECTOR_SIZE)) 0 (m_client m) in
      let buf := take off buf ++ part in
      let m := set_client c m in
      if ok && (bytes_read >=? u16 (fetch * SECTOR_SIZE)) then (ReadOk, buf, m)
      else if negb (nio_auto_downshift m =? 0) && (fetch >? 1)
              && downshift_error (cl_last_error c) then
        let new_limit := u8 (Z.shiftr fetch 1) in
        let new_limit := if new_limit <? 1 then 1 else new_limit in
        let m := if nio_batch_sectors m >? new_limit
                 then set_batch_sectors new_limit m else m in
        (ReadDownshift, buf, m)
      else read_attempts n' unit sector fetch off buf m
  end.

(** [for (fill = 0; fill < fetch; fill++) cache_store(...)]. *)
Fixpoint store_sectors (n : nat) (fill unit sector done : Z) (buf : list Z) m
    : dos_state C :=
  match n with
  | O => m
  | S n' =>
      store_sectors n' (fill + 1) unit sector done buf
        (cache_store unit (u32 (sector + fill))
           (drop (sector_offset (done + fill)) buf) m)
  end.

Inductive io_exit := IoReturn (status : Z) | IoDone (done : Z).

(** The [while] loop of [Input_cmd]; [None] is fuel running out. *)
Fixpoint input_loop (fuel : nat) (unit count sector_max done sector : Z)
    (buf : list Z) m : option (io_exit * list Z * dos_state C) :=
  match fuel with
  | O => None
  | S fuel' =>
      if negb (done <? count) then Some (IoDone done, buf, m) else
      let remaining := u16 (count - done) in
      let batch := if remaining >? nio_batch_sectors m then nio_batch_sectors m
                   else remaining in
      if sector >=? sector_max then Some (IoReturn (dos_error NOT_FOUND), buf, m) else
      let cached := cache_find m unit sector in
      if cached >=? 0 then
        input_loop fuel' unit count sector_max (u16 (done + 1)) (u32 (sector + 1))
          (overwrite buf (sector_offset done) (cache_sector m cached)) m
      else
      let batch := if batch >? u32 (sector_max - sector) then u16 (sector_max - sector)
                   else batch in
      let fetch := batch in
      match read_attempts (S (Z.to_nat (nio_io_retries m))) unit sector fetch
              (sector_offset done) buf m with
      | (ReadDownshift, buf, m) =>
          input_loop fuel' unit count sector_max done sector buf m
      | (ReadFailed, buf, m) => Some (IoDone done, buf, m)
      | (ReadOk, buf, m) =>
          let m := store_sectors (Z.to_nat fetch) 0 unit sector done buf m in
          input_loop fuel' unit count sector_max (u16 (done + fetch))
            (u32 (sector + fetch)) buf m
      end
  end.

(** The end of both transfers, behind the loop. *)
Definition finish_io (req : SYSREQ) (r : io_exit * list Z * dos_state C)
    : Z * SYSREQ * dos_state C :=
  match r with
  | (IoReturn status, buf, m) => (status, set_q_buffer buf req, m)
  | (IoDone done, buf, m) =>
      let req := set_q_buffer buf req in
      if done =? 0 then (dos_error GENERAL_FAIL, req, m)
      else (OP_COMPLETE, set_q_count done req, m)
  end.

(** Each round of the loop delivers a sector or halves the batch. *)
Definition input_fuel (req : SYSREQ) m : nat :=
  S (Z.to_nat (q_count req) + Z.to_nat (nio_batch_sectors m)).

Definition Input_cmd (req : SYSREQ) m : option (Z * SYSREQ * dos_state C) :=
  if q_unit req >=? FN_MAX_DEV then Some (dos_error UNKNOWN_UNIT, req, m) else
  let u := Z.to_nat (q_unit req) in
  option_map (finish_io req)
    (input_loop (input_fuel req m) (q_unit req) (q_count req) (sector_limit m u) 0
       (request_sector req) (q_buffer req) m).

(** ** Writing *)

Fixpoint update_sectors (n : nat) (fill unit sector done : Z) (buf : list Z) m
    : dos_state C :=
  match n with
  | O => m
  | S n' =>
      update_sectors n' (fill + 1) unit sector done buf
        (cache_update_or_invalidate unit (u32 (sector + fill))
           (Some (drop (sector_offset (done + fill)) buf)) m)
  end.

Fixpoint output_loop (fuel : nat) (unit count sector_max done sector : Z)
    (buf : list Z) m : option (io_exit * list Z * dos_state C) :=
  match fuel with
  | O => None
  | S fuel' =>
      if negb (done <? count) then Some (IoDone done, buf, m) else
      let remaining := u16 (count - done) in
      let batch := if remaining >? nio_batch_sectors m then nio_batch_sectors m
                   else remaining in
      if sector >=? sector_max then Some (IoReturn (dos_error NOT_FOUND), buf, m) else
      let batch := if batch >? u32 (sector_max - sector) then u16 (sector_max - sector)
                   else batch in
      let '(ok, bytes_written, c) :=
        cl_write_sectors (unit_to_diskservice_slot m unit) sector batch
          (drop (sector_offset done) buf) (u16 (batch * SECTOR_SIZE)) 0 (m_client m) in
      let m := set_client c m in
      if negb ok || (bytes_written <? u16 (batch * SECTOR_SIZE))
      then Some (IoDone done, buf, m)
      else
        let m := update_sectors (Z.to_nat batch) 0 unit sector done buf m in
        output_loop fuel' unit count sector_max (u16 (done + batch))
          (u32 (sector + batch)) buf m
  end.

Definition output_fuel (req : SYSREQ) : nat := S (Z.to_nat (q_count req)).

Definition Output_cmd (req : SYSREQ) m : option (Z * SYSREQ * dos_state C) :=
  if q_unit req >=? FN_MAX_DEV then Some (dos_error UNKNOWN_UNIT, req, m) else
  match disk_info_cached (q_unit req) no_info m with
  | (false, _, m) => Some (dos_error NOT_READY, req, m)
  | (true, info, m) =>
      if negb (Z.land (i_flags info) NIO_DISK_INFO_READONLY =? 0)
      then Some (dos_error WRITE_PROTECT, req, m)
      else
      option_map (finish_io req)
        (output_loop (output_fuel req) (q_unit req) (q_count req)
           (sector_limit m (Z.to_nat (q_unit req))) 0 (request_sector req)
           (q_buffer req) m)
  end.

(** ** The remaining commands *)

Definition Input_flush_cmd (req : SYSREQ) m := (dos_error GENERAL_FAIL, req, m).
Definition Output_verify_cmd (req : SYSREQ) m :=
  (dos_error GENERAL_FAIL, set_q_count 0 req, m).
Definition Dev_open_cmd (req : SYSREQ) m := (dos_error GENERAL_FAIL, req, m).
Definition Ld_map_cmd (req : SYSREQ) m :=
  (dos_error GENERAL_FAIL, set_q_unit_code 0 req, m).
Definition Unknown_cmd (req : SYSREQ) m := (UNKNOWN_CMD, req, m).
End Commands.
