(* ===== verification/DosDisk.v ===== *)
(** * DOS reads and writes against an abstract disk

    The contract of the NIO client as seen from the DOS handlers
    ([DiskClient]: the disk behind a client state, which reads leave alone and
    report truly, and writes update), and what the handlers make of it:
    [Input_cmd] refines a direct read of the disk through the sector cache,
    [Output_cmd] a direct write, both return, and the cache stays coherent --
    up to the duplicate entries [Input_cmd] can create. *)

From S2P Require Import Prelude NioProtocol NioDiskProtocol NioTransaction NioDriver DosCommands.

(** [n] consecutive sectors of a disk. *)
Fixpoint sectors (d : Z -> Z -> list Z) (slot lba : Z) (n : nat) : list Z :=
  match n with
  | O => []
  | S n' => d slot lba ++ sectors d slot (lba + 1) n'
  end.

(** The contract of the client: [disk c] is the content of the disks in state
    [c], by slot and LBA. *)
Class DiskClient (C : Type) `{!NioClient C} (disk : C -> Z -> Z -> list Z) := {
  disk_length c slot lba : length (disk c slot lba) = 512%nat;
  disk_info_law slot info c r info' c' :
    cl_disk_info slot info c = (r, info', c') ->
    forall s l, disk c' s l = disk c s l;
  disk_clear_law slot c r c' :
    cl_clear_changed slot c = (r, c') -> forall s l, disk c' s l = disk c s l;
  disk_read_law slot lba count buf len br c ok buf' n c' :
    cl_read_sectors slot lba count buf len br c = (ok, buf', n, c') ->
    (forall s l, disk c' s l = disk c s l) /\ length buf' = length buf /\
    drop (Z.to_nat len) buf' = drop (Z.to_nat len) buf /\
    (ok = true -> len <= n -> len = count * 512 -> len <= Z.of_nat (length buf) ->
     buf' = overwrite buf 0 (sectors (disk c) slot lba (Z.to_nat count)));
  disk_write_law slot lba count buf len bw c ok n c' :
    cl_write_sectors slot lba count buf len bw c = (ok, n, c') ->
    (forall s l, s <> slot \/ l < lba \/ lba + count <= l -> disk c' s l = disk c s l) /\
    (ok = true -> len <= n -> len = count * 512 -> len <= Z.of_nat (length buf) ->
     forall k, (k < Z.to_nat count)%nat ->
       disk c' slot (lba + Z.of_nat k) = slice buf (k * 512) 512)
}.

Section Facts.
Context {C : Type} `{DC : DiskClient C disk}.
Implicit Types m : dos_state C.

Lemma length_sectors c slot lba n : length (sectors (disk c) slot lba n) = (n * 512)%nat.
Proof.
  revert lba. induction n as [|n IH]; intros lba; simpl; [done|].
  by rewrite length_app, disk_length, IH.
Qed.

Lemma sectors_app d slot lba a b :
  sectors d slot lba (a + b) = sectors d slot lba a ++ sectors d slot (lba + Z.of_nat a) b.
Proof.
  revert lba. induction a as [|a IH]; intros lba; simpl; [by rewrite Z.add_0_r|].
  rewrite IH, <- app_assoc. do 3 f_equal. lia.
Qed.

Lemma sectors_ext d d' slot lba n :
  (forall s l, d s l = d' s l) -> sectors d slot lba n = sectors d' slot lba n.
Proof. intros Hd. revert lba. induction n as [|n IH]; intros lba; simpl; [done|]. by rewrite Hd, IH. Qed.

(** The [k]-th sector of a run. *)
Lemma sectors_slice c slot lba n k :
  (k < n)%nat ->
  slice (sectors (disk c) slot lba n) (k * 512) 512 = disk c slot (lba + Z.of_nat k).
Proof.
  intros Hk. replace n with (k + S (n - k - 1))%nat by lia. rewrite sectors_app.
  unfold slice. rewrite drop_app_ge by (rewrite length_sectors; lia).
  rewrite length_sectors, Nat.sub_diag. simpl.
  rewrite drop_0, take_app_le by (rewrite disk_length; lia).
  apply take_ge. by rewrite disk_length.
Qed.

(** ** The cache *)

Record cache_shape m : Prop := {
  cs_valid : length (cache_valid m) = 40%nat;
  cs_unit : length (cache_unit m) = 40%nat;
  cs_lba : length (cache_lba m) = 40%nat;
  cs_data : length (cache_data m) = 40%nat;
  cs_next : 0 <= cache_next m < 40
}.

Definition cached m (i : nat) : Prop := (i < 40)%nat /\ (cache_valid m).[i] <> 0.

(** Every valid entry holds what the disk holds. *)
Definition coherent m : Prop :=
  forall i, cached m i ->
    nth i (cache_data m) [] =
    disk (m_client m) (unit_to_diskservice_slot m (cache_unit m).[i]) (cache_lba m).[i].

(** No two valid entries are for the same sector. *)
Definition unique m : Prop :=
  forall i j, cached m i -> cached m j ->
    (cache_unit m).[i] = (cache_unit m).[j] -> (cache_lba m).[i] = (cache_lba m).[j] ->
    i = j.

Lemma cache_find_from_spec m unit lba i n :
  let r := cache_find_from m unit lba i n in
  (r = -1 /\ forall k, (i <= k < i + n)%nat ->
     ~ ((cache_valid m).[k] <> 0 /\ (cache_unit m).[k] = unit /\ (cache_lba m).[k] = lba)) \/
  exists k, (i <= k < i + n)%nat /\ r = Z.of_nat k /\
    (cache_valid m).[k] <> 0 /\ (cache_unit m).[k] = unit /\ (cache_lba m).[k] = lba.
Proof.
  revert i. induction n as [|n IH]; intros i; simpl.
  { left. split; [done|]. intros. lia. }
  destruct (negb _ && _ && _) eqn:E.
  - right. exists i. rewrite !andb_true_iff, negb_true_iff, Z.eqb_neq, !Z.eqb_eq in E.
    split_and!; try done; lia.
  - destruct (IH (S i)) as [[-> Hno]|(k&Hk&->&Hm)].
    + left. split; [done|]. intros k Hk. destruct (decide (k = i)) as [->|]; [|apply Hno; lia].
      rewrite !andb_false_iff, negb_false_iff, Z.eqb_eq, !Z.eqb_neq in E. tauto.
    + right. exists k. split_and!; try done; try apply Hm; lia.
Qed.

Lemma cache_find_spec m unit lba :
  (cache_find m unit lba = -1 /\ forall k, cached m k ->
     ~ ((cache_unit m).[k] = unit /\ (cache_lba m).[k] = lba)) \/
  exists k, cached m k /\ cache_find m unit lba = Z.of_nat k /\
    (cache_unit m).[k] = unit /\ (cache_lba m).[k] = lba.
Proof.
  unfold cached. change 40%nat with (Z.to_nat CACHE_SECTORS). unfold cache_find.
  destruct (cache_find_from_spec m unit lba 0 (Z.to_nat CACHE_SECTORS))
    as [[-> H]|(k&Hk&->&Hv&Hu&Hl)].
  - left. split; [done|]. intros k [Hk Hv] [Hu Hl]. apply (H k); [lia|done].
  - right. exists k. split_and!; try done. lia.
Qed.

(** What is read through a hit. *)
Lemma cache_find_hit m unit lba :
  coherent m -> 0 <= cache_find m unit lba ->
  cache_sector m (cache_find m unit lba)
  = disk (m_client m) (unit_to_diskservice_slot m unit) lba.
Proof.
  intros Hc H. destruct (cache_find_spec m unit lba) as [[E _]|(k&Hk&->&<-&<-)]; [lia|].
  unfold cache_sector. rewrite Nat2Z.id. by apply Hc.
Qed.

Lemma nth_insert_eq (l : list (list Z)) i v : (i < length l)%nat -> nth i (<[i:=v]> l) [] = v.
Proof. intros. by rewrite nth_lookup, list_lookup_insert_eq. Qed.
Lemma nth_insert_ne (l : list (list Z)) i j v : i <> j -> nth j (<[i:=v]> l) [] = nth j l [].
Proof. intros. by rewrite !nth_lookup, list_lookup_insert_ne. Qed.

Lemma cache_store_shape unit lba data m :
  cache_shape m -> cache_shape (cache_store unit lba data m).
Proof.
  intros [? ? ? ? ?]. unfold cache_store, CACHE_SECTORS.
  split; simpl; rewrite ?length_put_at, ?length_insert; try done. width_lia.
Qed.

Lemma cache_store_coherent unit lba data m :
  cache_shape m -> coherent m ->
  slice data 0 512 = disk (m_client m) (unit_to_diskservice_slot m unit) lba ->
  coherent (cache_store unit lba data m).
Proof.
  intros Hs Hc Hd i [Hi Hv]. destruct Hs. simpl in *.
  destruct (decide (i = Z.to_nat (cache_next m))) as [->|Hne].
  - rewrite nth_insert_eq, !byte_at_put_eq by lia. exact Hd.
  - rewrite nth_insert_ne, !byte_at_put_ne by done.
    rewrite byte_at_put_ne in Hv by done. by apply Hc.
Qed.

(** A store for a sector that is not cached keeps the entries distinct. *)
Lemma cache_store_unique unit lba data m :
  cache_shape m -> unique m -> cache_find m unit lba = -1 ->
  unique (cache_store unit lba data m).
Proof.
  intros Hs Hu Hf i j [Hi Hvi] [Hj Hvj]. destruct Hs. simpl in *.
  destruct (cache_find_spec m unit lba) as [[_ Hno]|(k&_&E&_)]; [|lia].
  destruct (decide (i = Z.to_nat (cache_next m))) as [->|Hni];
    destruct (decide (j = Z.to_nat (cache_next m))) as [->|Hnj]; [done|..].
  - rewrite !byte_at_put_eq, !byte_at_put_ne by (lia || done).
    rewrite byte_at_put_ne in Hvj by done. intros ? ?. by destruct (Hno j).
  - rewrite !byte_at_put_eq, !byte_at_put_ne by (lia || done).
    rewrite byte_at_put_ne in Hvi by done. intros ? ?. by destruct (Hno i).
  - rewrite !byte_at_put_ne by done. rewrite byte_at_put_ne in Hvi, Hvj by done.
    by apply Hu.
Qed.

(** ** The read path *)

(** Two states that differ in nothing the cache invariants see. *)
Definition same_cache m m' : Prop :=
  cache_valid m' = cache_valid m /\ cache_unit m' = cache_unit m /\
  cache_lba m' = cache_lba m /\ cache_data m' = cache_data m /\
  cache_next m' = cache_next m /\ nio_unit_slot m' = nio_unit_slot m.

Definition same_disk m m' : Prop :=
  forall s l, disk (m_client m') s l = disk (m_client m) s l.

Lemma same_cache_shape m m' : same_cache m m' -> cache_shape m -> cache_shape m'.
Proof. intros (E1&E2&E3&E4&E5&_) []. split; congruence. Qed.

Lemma slot_same m m' unit :
  nio_unit_slot m' = nio_unit_slot m ->
  unit_to_diskservice_slot m' unit = unit_to_diskservice_slot m unit.
Proof. intros E. unfold unit_to_diskservice_slot, unit_to_slot. by rewrite E. Qed.

Lemma same_cache_coherent m m' :
  same_cache m m' -> same_disk m m' -> coherent m -> coherent m'.
Proof.
  intros (E1&E2&E3&E4&E5&E6) Hd Hc i. unfold cached. rewrite E1, E2, E3, E4.
  intros Hi. rewrite Hd, (slot_same m m') by done. by apply Hc.
Qed.

Lemma same_cache_unique m m' : same_cache m m' -> unique m -> unique m'.
Proof.
  intros (E1&E2&E3&_) Hu i j. unfold cached. rewrite E1, E2, E3. apply Hu.
Qed.

Lemma sector_offset_small n : 0 <= n < 128 -> sector_offset n = (Z.to_nat n * 512)%nat.
Proof.
  intros. unfold sector_offset, SECTOR_SIZE. rewrite u16_id by (unfold is_u16; lia). lia.
Qed.

Lemma slice_drop (b : list Z) off a n : slice (drop off b) a n = slice b (off + a) n.
Proof. unfold slice. by rewrite drop_drop. Qed.

Lemma slice_slice (b : list Z) off n a k :
  (a + k <= n)%nat -> slice (slice b off n) a k = slice b (off + a) k.
Proof.
  intros. unfold slice. rewrite skipn_firstn_comm, drop_drop, take_take. f_equal. lia.
Qed.

(** Storing the sectors a buffer holds behind [done]. *)
Lemma store_sectors_spec n fill unit sector done buf m :
  cache_shape m -> coherent m ->
  0 <= sector -> sector + fill + Z.of_nat n < 4294967296 ->
  0 <= fill -> 0 <= done -> done + fill + Z.of_nat n <= 128 ->
  (forall k, (k < n)%nat ->
     slice buf (Z.to_nat (done + fill) * 512 + k * 512) 512
     = disk (m_client m) (unit_to_diskservice_slot m unit) (sector + fill + Z.of_nat k)) ->
  let m' := store_sectors n fill unit sector done buf m in
  cache_shape m' /\ coherent m' /\ m_client m' = m_client m /\
  nio_unit_slot m' = nio_unit_slot m /\ nio_batch_sectors m' = nio_batch_sectors m /\
  nio_io_retries m' = nio_io_retries m /\ fn_bpb_table m' = fn_bpb_table m.
Proof.
  revert fill m. induction n as [|n IH]; intros fill m Hs Hc Hsec Hmax Hfill Hdone Hlen Hd;
    [done|]. cbn [store_sectors].
  rewrite u32_id by (unfold is_u32; lia). rewrite sector_offset_small by lia.
  set (m1 := cache_store unit (sector + fill) (drop _ buf) m).
  destruct (IH (fill + 1) m1) as (?&?&?&?&?&?&?); try lia.
  - by apply cache_store_shape.
  - apply cache_store_coherent; try done. rewrite slice_drop.
    specialize (Hd 0%nat ltac:(lia)). rewrite Z.add_0_r in Hd. exact Hd.
  - intros k Hk. specialize (Hd (S k) ltac:(lia)).
    unfold m1 at 1. simpl m_client. rewrite (slot_same m m1) by done.
    replace (sector + (fill + 1) + Z.of_nat k) with (sector + fill + Z.of_nat (S k)) by lia.
    rewrite <- Hd. f_equal. lia.
  - split_and!; done.
Qed.

(** What an attempt at reading leaves alone. *)
Definition read_frame m m' : Prop :=
  same_cache m m' /\ same_disk m m' /\ nio_io_retries m' = nio_io_retries m /\
  fn_bpb_table m' = fn_bpb_table m.

Lemma read_frame_trans m1 m2 m3 : read_frame m1 m2 -> read_frame m2 m3 -> read_frame m1 m3.
Proof.
  intros ((?&?&?&?&?&?)&D1&?&?) ((?&?&?&?&?&?)&D2&?&?). unfold read_frame, same_cache.
  split_and!; congruence.
Qed.

Lemma read_attempts_spec n unit sector fetch off buf m :
  1 <= fetch <= 127 -> (off + Z.to_nat fetch * 512 <= length buf)%nat ->
  1 <= nio_batch_sectors m <= 255 -> fetch <= nio_batch_sectors m ->
  let '(r, buf', m') := read_attempts n unit sector fetch off buf m in
  read_frame m m' /\ length buf' = length buf /\ take off buf' = take off buf /\
  match r with
  | ReadOk =>
      nio_batch_sectors m' = nio_batch_sectors m /\
      buf' = overwrite buf off
        (sectors (disk (m_client m)) (unit_to_diskservice_slot m unit) sector (Z.to_nat fetch))
  | ReadDownshift => 1 <= nio_batch_sectors m' < nio_batch_sectors m
  | ReadFailed => nio_batch_sectors m' = nio_batch_sectors m
  end.
Proof.
  intros Hf Hlen. revert buf m Hlen.
  induction n as [|n IH]; intros buf m Hlen Hb Hfb; simpl.
  { split_and!; try done. }
  destruct (cl_read_sectors _ _ _ _ _ _ _) as [[[ok part] nread] c] eqn:Er.
  apply disk_read_law in Er as (Hd&Hpl&Hdr&Hok).
  rewrite length_drop in Hpl.
  assert (length (take off buf ++ part) = length buf) as Hl'
    by (rewrite length_app, length_take; lia).
  assert (take off (take off buf ++ part) = take off buf) as Ht
    by (rewrite take_app_le, take_take, Nat.min_id by (rewrite length_take; lia); done).
  assert (read_frame m (set_client c m)) as Hfr by (unfold read_frame, same_cache; done).
  unfold SECTOR_SIZE in *. rewrite u16_id in * by (unfold is_u16; lia).
  destruct (ok && _) eqn:Eok.
  { apply andb_true_iff in Eok as [-> Hn]. apply Z.geb_le in Hn.
    split_and!; try done. rewrite Hok by (rewrite ?length_drop; done || lia).
    unfold overwrite. rewrite length_sectors. simpl. rewrite drop_drop. done. }
  destruct (negb _ && _ && _) eqn:Eds.
  { rewrite !andb_true_iff, Z.gtb_lt in Eds. destruct Eds as [[_ Hf1] _].
    rewrite Z.shiftr_div_pow2, (u8_id (fetch / 2 ^ 1)) by width_lia.
    change (2 ^ 1) with 2.
    destruct (Z.ltb_spec (fetch / 2) 1); [width_lia|].
    assert (1 <= fetch / 2 < fetch) as Hh by width_lia.
    change (nio_batch_sectors (set_client c m)) with (nio_batch_sectors m).
    destruct (Z.gtb_spec (nio_batch_sectors m) (fetch / 2)); [|lia].
    split_and!; try done; simpl; lia. }
  specialize (IH (take off buf ++ part) (set_client c m)). rewrite Hl' in IH.
  specialize (IH Hlen Hb Hfb).
  destruct (read_attempts _ _ _ _ _ _ _) as [[r buf'] m']. destruct IH as (Hfr'&Hl2&Ht2&Hr).
  split_and!; [by eapply read_frame_trans|congruence|congruence|].
  destruct r; try exact Hr. destruct Hr as [Hr1 ->]. split; [done|].
  unfold overwrite. rewrite !length_sectors in *.
  change (m_client (set_client c m)) with c.
  rewrite (sectors_ext (disk c) (disk (m_client m))) by done.
  rewrite (slot_same m (set_client c m)) by done. rewrite Ht. do 2 f_equal.
  rewrite drop_app_ge by (rewrite length_take; lia).
  rewrite length_take, Nat.min_l by lia.
  replace (off + Z.to_nat fetch * 512 - off)%nat with (Z.to_nat (fetch * 512)) by lia.
  rewrite Hdr, drop_drop. f_equal. lia.
Qed.

Definition io_frame m m' : Prop :=
  nio_unit_slot m' = nio_unit_slot m /\ fn_bpb_table m' = fn_bpb_table m /\
  1 <= nio_batch_sectors m' <= nio_batch_sectors m.

(** What a read delivered: the sectors from [sector] on, for the rounds from
    [done] to [d]. *)
Definition delivered_sectors m unit sector (done d : Z) (buf' : list Z) : Prop :=
  slice buf' (Z.to_nat done * 512) (Z.to_nat (d - done) * 512)
  = sectors (disk (m_client m)) (unit_to_diskservice_slot m unit) sector
      (Z.to_nat (d - done)).

(** One more run of sectors in front of what the rest of the loop delivers. *)
Lemma delivered_cons m unit sector done n d buf0 buf' :
  0 <= done -> 0 <= n -> done + n <= d ->
  take (Z.to_nat (done + n) * 512) buf' = take (Z.to_nat (done + n) * 512) buf0 ->
  slice buf0 (Z.to_nat done * 512) (Z.to_nat n * 512)
  = sectors (disk (m_client m)) (unit_to_diskservice_slot m unit) sector (Z.to_nat n) ->
  delivered_sectors m unit (sector + n) (done + n) d buf' ->
  delivered_sectors m unit sector done d buf'.
Proof.
  unfold delivered_sectors. intros Hd Hn Hle Ht Hs Hr.
  replace (Z.to_nat (d - done)) with (Z.to_nat n + Z.to_nat (d - (done + n)))%nat by lia.
  rewrite sectors_app, Z2Nat.id by lia. rewrite <- Hr, <- Hs.
  replace (slice buf0 (Z.to_nat done * 512) (Z.to_nat n * 512))
    with (slice buf' (Z.to_nat done * 512) (Z.to_nat n * 512)).
  2:{ unfold slice. rewrite !take_drop_commute.
      replace (Z.to_nat done * 512 + Z.to_nat n * 512)%nat
        with (Z.to_nat (done + n) * 512)%nat by lia. by rewrite Ht. }
  unfold slice.
  replace (drop (Z.to_nat (done + n) * 512) buf')
    with (drop (Z.to_nat n * 512) (drop (Z.to_nat done * 512) buf'))
    by (rewrite drop_drop; f_equal; lia).
  rewrite take_take_drop. f_equal. lia.
Qed.

Lemma delivered_ext m m' unit sector done d buf :
  same_disk m m' -> nio_unit_slot m' = nio_unit_slot m ->
  delivered_sectors m' unit sector done d buf -> delivered_sectors m unit sector done d buf.
Proof.
  intros Hd Hs. unfold delivered_sectors. rewrite (slot_same m m') by done.
  intros ->. by apply sectors_ext.
Qed.

(** The outcome of the reading loop from a state on. *)
Definition read_outcome_ok m unit count sector_max done sector (buf : list Z)
    (r : io_exit * list Z * dos_state C) : Prop :=
  let '(e, buf', m') := r in
  cache_shape m' /\ coherent m' /\ same_disk m m' /\ io_frame m m' /\
  length buf' = length buf /\
  take (Z.to_nat done * 512) buf' = take (Z.to_nat done * 512) buf /\
  match e with
  | IoDone d => done <= d <= count /\ delivered_sectors m unit sector done d buf'
  | IoReturn status => status = dos_error NOT_FOUND /\ sector_max < sector + (count - done)
  end.

(** The step from one round, which delivered [n] sectors, to the next. *)
Lemma read_outcome_step m m1 unit count smax done sector n buf buf1 r :
  0 <= done -> 0 <= n ->
  same_disk m m1 -> io_frame m m1 -> length buf1 = length buf ->
  take (Z.to_nat done * 512) buf1 = take (Z.to_nat done * 512) buf ->
  slice buf1 (Z.to_nat done * 512) (Z.to_nat n * 512)
  = sectors (disk (m_client m)) (unit_to_diskservice_slot m unit) sector (Z.to_nat n) ->
  read_outcome_ok m1 unit count smax (done + n) (sector + n) buf1 r ->
  read_outcome_ok m unit count smax done sector buf r.
Proof.
  intros H0 Hn Hd (Hf1&Hf2&Hf3) Hl Ht Hs. destruct r as [[e buf'] m'].
  intros (Hsh&Hco&Hd'&(Hg1&Hg2&Hg3)&Hl'&Ht'&He). unfold read_outcome_ok.
  split_and!; try done.
  - intros s l. by rewrite Hd', Hd.
  - unfold io_frame. split_and!; (congruence || lia).
  - congruence.
  - rewrite <- Ht. apply (f_equal (take (Z.to_nat done * 512))) in Ht'.
    rewrite !take_take in Ht'.
    by replace ((Z.to_nat done * 512) `min` (Z.to_nat (done + n) * 512))%nat
      with (Z.to_nat done * 512)%nat in Ht' by lia.
  - destruct e as [status|d]; [destruct He; split; [done|lia]|].
    destruct He as [? He]. split; [lia|].
    apply (delivered_cons m unit sector done n d buf1 buf'); try done; try lia.
    by eapply delivered_ext.
Qed.

Lemma input_loop_spec fuel unit count smax done sector buf m r :
  cache_shape m -> coherent m ->
  0 <= done <= count -> count <= 127 -> Z.of_nat (length buf) >= count * 512 ->
  0 <= sector -> is_u32 smax -> 1 <= nio_batch_sectors m <= 255 ->
  input_loop fuel unit count smax done sector buf m = Some r ->
  read_outcome_ok m unit count smax done sector buf r.
Proof.
  revert done sector buf m.
  induction fuel as [|fuel IH]; intros done sector buf m Hsh Hco Hdone Hcount Hbuf Hsec
    Hmax Hbatch H; [discriminate H|]. cbn [input_loop] in H.
  unfold is_u32 in Hmax.
  destruct (Z.ltb_spec done count) as [Hlt|Hge]; cbn [negb] in H.
  2:{ injection H as <-. unfold read_outcome_ok, io_frame, same_disk, delivered_sectors.
      replace (done - done) with 0 by lia. split_and!; try done; lia. }
  rewrite (u16_id (count - done)) in H by (unfold is_u16; lia).
  set (batch := if count - done >? nio_batch_sectors m then _ else _) in H.
  assert (1 <= batch <= count - done /\ batch <= nio_batch_sectors m) as Hba
    by (unfold batch; case_test; lia).
  clearbody batch.
  destruct (Z.geb_spec sector smax) as [Hge|Hlt'].
  { injection H as <-. unfold read_outcome_ok, io_frame, same_disk.
    split_and!; try done; lia. }
  destruct (Z.geb_spec (cache_find m unit sector) 0) as [Hhit|Hmiss].
  - rewrite (u16_id (done + 1)), (u32_id (sector + 1)) in H
      by (unfold is_u16, is_u32; lia).
    rewrite sector_offset_small in H by lia.
    pose proof (cache_find_hit m unit sector Hco ltac:(lia)) as Eh. rewrite Eh in H.
    set (sec := disk _ _ sector) in *.
    assert (length sec = 512%nat) as Hsl by apply disk_length.
    assert (length (overwrite buf (Z.to_nat done * 512) sec) = length buf) as Hol
      by (rewrite length_overwrite; lia).
    apply IH in H; try done; try lia.
    eapply (read_outcome_step m m unit count smax done sector 1); [..|exact H]; try done; try lia.
    + unfold io_frame. split_and!; done || lia.
    + apply take_overwrite; lia.
    + pose proof (slice_overwrite_same buf (Z.to_nat done * 512) sec ltac:(lia)) as Es.
      rewrite Hsl in Es. change (Z.to_nat 1 * 512)%nat with 512%nat. rewrite Es.
      simpl. by rewrite app_nil_r.
  - rewrite u32_id in H by (unfold is_u32; lia).
    set (fetch := if batch >? smax - sector then _ else _) in H.
    assert (1 <= fetch <= batch /\ sector + fetch <= smax) as Hfe
      by (unfold fetch; destruct (Z.gtb_spec batch (smax - sector));
          rewrite ?u16_id by (unfold is_u16; lia); lia).
    clearbody fetch.
    rewrite sector_offset_small in H by lia.
    pose proof (read_attempts_spec (S (Z.to_nat (nio_io_retries m))) unit sector fetch
      (Z.to_nat done * 512) buf m ltac:(lia) ltac:(lia) Hbatch ltac:(lia)) as Hr.
    destruct (read_attempts _ _ _ _ _ _ _) as [[out buf1] m1].
    destruct Hr as ((Hsc&Hsd&Hre&Hbpb)&Hl1&Ht1&Hout).
    pose proof (same_cache_shape _ _ Hsc Hsh) as Hsh1.
    pose proof (same_cache_coherent _ _ Hsc Hsd Hco) as Hco1.
    assert (nio_unit_slot m1 = nio_unit_slot m) as Hus by apply Hsc.
    destruct out.
    + destruct Hout as [Hbs ->].
      set (data := sectors _ _ _ _) in *.
      assert (length data = (Z.to_nat fetch * 512)%nat) as Hdl by apply length_sectors.
      destruct (store_sectors_spec (Z.to_nat fetch) 0 unit sector done
        (overwrite buf (Z.to_nat done * 512) data) m1) as (Hsh2&Hco2&Ec2&Eu2&Eb2&_&Et2);
        try done; try lia.
      { intros k Hk. rewrite !Z.add_0_r, Hsd, (slot_same m m1) by done.
        rewrite <- (sectors_slice _ _ _ (Z.to_nat fetch)) by done. fold data.
        rewrite <- (slice_overwrite_same buf (Z.to_nat done * 512) data) at 2 by lia.
        rewrite slice_slice by lia. done. }
      rewrite (u16_id (done + fetch)), (u32_id (sector + fetch)) in H
        by (unfold is_u16, is_u32; lia).
      apply IH in H; try done; try lia.
      eapply (read_outcome_step m _ unit count smax done sector fetch); [..|exact H];
        try done; try lia.
      * intros s l. rewrite Ec2. apply Hsd.
      * unfold io_frame. split_and!; (congruence || lia).
      * rewrite <- Hdl. apply (slice_overwrite_same buf (Z.to_nat done * 512) data). lia.
    + apply IH in H; try done; try lia.
      eapply (read_outcome_step m m1 unit count smax done sector 0);
        rewrite ?Z.add_0_r; [..|exact H]; try done; try lia.
      unfold io_frame. split_and!; (congruence || lia).
    + injection H as <-. unfold read_outcome_ok, io_frame, delivered_sectors.
      replace (done - done) with 0 by lia. split_and!; try done; (congruence || lia).
Qed.

End Facts.

(** ** Termination, with any client *)

Section Termination.
Context {C : Type} `{!NioClient C}.
Implicit Types m : dos_state C.

Lemma read_attempts_batch n unit sector fetch off buf m :
  1 <= fetch <= nio_batch_sectors m -> nio_batch_sectors m <= 255 ->
  let '(r, buf', m') := read_attempts n unit sector fetch off buf m in
  match r with
  | ReadDownshift => 1 <= nio_batch_sectors m' < nio_batch_sectors m
  | _ => nio_batch_sectors m' = nio_batch_sectors m
  end.
Proof.
  revert buf m. induction n as [|n IH]; intros buf m Hf Hb; simpl; [done|].
  destruct (cl_read_sectors _ _ _ _ _ _ _) as [[[ok part] nread] c].
  case_test; [done|]. destruct (negb _ && _ && _) eqn:Eds.
  - rewrite !andb_true_iff, Z.gtb_lt in Eds. destruct Eds as [[_ Hf1] _].
    rewrite Z.shiftr_div_pow2, (u8_id (fetch / 2 ^ 1)) by width_lia.
    change (2 ^ 1) with 2. assert (1 <= fetch / 2 < fetch) as Hh by width_lia.
    destruct (Z.ltb_spec (fetch / 2) 1); [lia|].
    change (nio_batch_sectors (set_client c m)) with (nio_batch_sectors m).
    destruct (Z.gtb_spec (nio_batch_sectors m) (fetch / 2)); simpl; lia.
  - apply (IH _ (set_client c m)); done.
Qed.

Lemma store_sectors_batch n fill unit sector done buf m :
  nio_batch_sectors (store_sectors n fill unit sector done buf m) = nio_batch_sectors m.
Proof. revert fill m. induction n as [|n IH]; intros; simpl; [done|]. by rewrite IH. Qed.

Lemma input_loop_total fuel unit count smax done sector buf m :
  0 <= done <= count -> count <= 65535 -> is_u32 smax -> 0 <= sector ->
  1 <= nio_batch_sectors m <= 255 ->
  (Z.to_nat (count - done) + Z.to_nat (nio_batch_sectors m) < fuel)%nat ->
  is_Some (input_loop fuel unit count smax done sector buf m).
Proof.
  revert done sector buf m. induction fuel as [|fuel IH];
    intros done sector buf m Hdone Hcount Hmax Hsec Hb Hf; [lia|].
  cbn [input_loop]. unfold is_u32 in Hmax.
  destruct (Z.ltb_spec done count); cbn [negb]; [|by eexists].
  rewrite (u16_id (count - done)) by (unfold is_u16; lia).
  set (batch := if count - done >? nio_batch_sectors m then _ else _).
  assert (1 <= batch <= count - done /\ batch <= nio_batch_sectors m) as Hba
    by (unfold batch; case_test; lia). clearbody batch.
  destruct (Z.geb_spec sector smax); [by eexists|].
  case_test.
  { rewrite (u16_id (done + 1)), (u32_id (sector + 1)) by (unfold is_u16, is_u32; lia).
    apply IH; try done; lia. }
  rewrite u32_id by (unfold is_u32; lia).
  set (fetch := if batch >? smax - sector then _ else _).
  assert (1 <= fetch <= batch) as Hfe
    by (unfold fetch; destruct (Z.gtb_spec batch (smax - sector));
        rewrite ?u16_id by (unfold is_u16; lia); lia).
  clearbody fetch.
  pose proof (read_attempts_batch (S (Z.to_nat (nio_io_retries m))) unit sector fetch
    (sector_offset done) buf m ltac:(lia) ltac:(lia)) as Hr.
  destruct (read_attempts _ _ _ _ _ _ _) as [[out buf1] m1]. destruct out.
  - rewrite (u16_id (done + fetch)) by (unfold is_u16; lia).
    apply IH; rewrite ?store_sectors_batch; try done; try lia.
    pose proof (u32_range (sector + fetch)). unfold is_u32 in *. lia.
  - apply IH; try done; lia.
  - by eexists.
Qed.

Lemma update_sectors_batch n fill unit sector done buf m :
  nio_batch_sectors (update_sectors n fill unit sector done buf m) = nio_batch_sectors m.
Proof.
  revert fill m. induction n as [|n IH]; intros; simpl; [done|]. rewrite IH.
  unfold cache_update_or_invalidate. by case_test.
Qed.

Lemma output_loop_total fuel unit count smax done sector buf m :
  0 <= done <= count -> count <= 65535 -> is_u32 smax -> 0 <= sector ->
  1 <= nio_batch_sectors m <= 255 -> (Z.to_nat (count - done) < fuel)%nat ->
  is_Some (output_loop fuel unit count smax done sector buf m).
Proof.
  revert done sector m. induction fuel as [|fuel IH];
    intros done sector m Hdone Hcount Hmax Hsec Hb Hf; [lia|].
  cbn [output_loop]. unfold is_u32 in Hmax.
  destruct (Z.ltb_spec done count); cbn [negb]; [|by eexists].
  rewrite (u16_id (count - done)) by (unfold is_u16; lia).
  set (batch := if count - done >? nio_batch_sectors m then _ else _).
  assert (1 <= batch <= count - done /\ batch <= nio_batch_sectors m) as Hba
    by (unfold batch; case_test; lia). clearbody batch.
  destruct (Z.geb_spec sector smax); [by eexists|].
  rewrite u32_id by (unfold is_u32; lia).
  set (fetch := if batch >? smax - sector then _ else _).
  assert (1 <= fetch <= batch) as Hfe
    by (unfold fetch; destruct (Z.gtb_spec batch (smax - sector));
        rewrite ?u16_id by (unfold is_u16; lia); lia).
  clearbody fetch.
  destruct (cl_write_sectors _ _ _ _ _ _ _) as [[ok bw] c].
  case_test; [by eexists|].
  rewrite (u16_id (done + fetch)) by (unfold is_u16; lia).
  apply IH; rewrite ?update_sectors_batch; try done; try lia.
  pose proof (u32_range (sector + fetch)). unfold is_u32 in *. lia.
Qed.

Lemma Input_total req m :
  is_u16 (q_count req) -> 0 <= request_sector req ->
  (forall u, is_u32 (sector_limit m u)) -> 1 <= nio_batch_sectors m <= 255 ->
  is_Some (Input_cmd req m).
Proof.
  intros Hc Hs Hm Hb. unfold is_u16 in Hc. unfold Input_cmd. case_test; [by eexists|].
  destruct (input_loop_total (input_fuel req m) (q_unit req) (q_count req)
    (sector_limit m (Z.to_nat (q_unit req))) 0 (request_sector req) (q_buffer req) m)
    as [r ->]; try done; try lia. unfold input_fuel; lia.
Qed.

Lemma Output_total req m :
  is_u16 (q_count req) -> 0 <= request_sector req ->
  (forall u, is_u32 (sector_limit m u)) -> 1 <= nio_batch_sectors m <= 255 ->
  is_Some (Output_cmd req m).
Proof.
  intros Hc Hs Hm Hb. unfold is_u16 in Hc. unfold Output_cmd. case_test; [by eexists|].
  assert (forall r i m1, disk_info_cached (q_unit req) no_info m = (r, i, m1) ->
    nio_batch_sectors m1 = nio_batch_sectors m /\ fn_bpb_table m1 = fn_bpb_table m) as Hi.
  { intros r i m1. unfold disk_info_cached. repeat case_test; try by intros [= <- <- <-].
    destruct (cl_disk_info _ _ _) as [[[] ?] ?]; by intros [= <- <- <-]. }
  destruct (disk_info_cached _ _ _) as [[[] info] m1] eqn:E; [|by eexists].
  destruct (Hi _ _ _ eq_refl) as [Eb Et]. case_test; [by eexists|].
  destruct (output_loop_total (output_fuel req) (q_unit req) (q_count req)
    (sector_limit m1 (Z.to_nat (q_unit req))) 0 (request_sector req) (q_buffer req) m1)
    as [r ->]; try done; try lia;
    first [by eexists | unfold sector_limit; rewrite Et; apply Hm | unfold output_fuel; lia].
Qed.
End Termination.
