(* ===== verification/DosWrite.v ===== *)
(** * DOS writes against an abstract disk

    The write path of commands.c: [Output_cmd] writes the caller's sectors to
    the disk and keeps the cache coherent, provided each sector is cached at
    most once and no other unit is mapped to the same slot. *)

From S2P Require Import Prelude NioProtocol NioDiskProtocol NioTransaction NioDriver DosCommands DosDisk.

Section WriteFacts.
Context {C : Type} `{DC : DiskClient C disk}.
Implicit Types m : dos_state C.

#[local] Abbreviation coherent := (DosDisk.coherent (disk := disk)).
#[local] Abbreviation slot_of := unit_to_diskservice_slot.

(** Coherence but for the sectors of [unit] from [lo] up to [hi]. *)
Definition coherent_except (unit lo hi : Z) m : Prop :=
  forall i, cached m i ->
    ~ ((cache_unit m).[i] = unit /\ lo <= (cache_lba m).[i] < hi) ->
    nth i (cache_data m) [] =
    disk (m_client m) (slot_of m (cache_unit m).[i]) (cache_lba m).[i].

(** No cached unit shares the slot of [unit] but [unit] itself. *)
Definition slots_apart (unit : Z) m : Prop :=
  forall i, cached m i -> slot_of m (cache_unit m).[i] = slot_of m unit ->
    (cache_unit m).[i] = unit.

Lemma coherent_except_empty unit lo m : coherent_except unit lo lo m <-> coherent m.
Proof.
  unfold coherent_except, coherent. split; intros H i Hi; [apply H; [done|lia]|auto].
Qed.

Lemma coherent_except_mono unit lo hi lo' hi' m :
  lo' <= lo -> hi <= hi' -> coherent_except unit lo hi m -> coherent_except unit lo' hi' m.
Proof. intros ? ? H i Hi Hn. apply H; [done|]. intros [? ?]. apply Hn. split; [done|lia]. Qed.

(** What the updates of the cache leave alone. *)
Definition same_keys m m' : Prop :=
  cache_valid m' = cache_valid m /\ cache_unit m' = cache_unit m /\
  cache_lba m' = cache_lba m /\ length (cache_data m') = length (cache_data m) /\
  cache_next m' = cache_next m /\ nio_unit_slot m' = nio_unit_slot m /\
  m_client m' = m_client m /\ nio_batch_sectors m' = nio_batch_sectors m.

Lemma same_keys_trans m1 m2 m3 : same_keys m1 m2 -> same_keys m2 m3 -> same_keys m1 m3.
Proof. unfold same_keys. intros. destruct_and!. split_and!; congruence. Qed.

Lemma update_keys unit lba data m :
  same_keys m (cache_update_or_invalidate unit lba (Some data) m).
Proof.
  unfold cache_update_or_invalidate. case_test; [|done].
  unfold same_keys. simpl. by rewrite length_insert.
Qed.

Lemma update_coherent unit lba hi data m :
  cache_shape m -> unique m -> coherent_except unit lba hi m ->
  slice data 0 512 = disk (m_client m) (slot_of m unit) lba ->
  coherent_except unit (lba + 1) hi (cache_update_or_invalidate unit lba (Some data) m).
Proof.
  intros Hsh Hu Hc Hd. unfold cache_update_or_invalidate.
  destruct (cache_find_spec m unit lba) as [[-> Hno]|(k&Hk&->&Hku&Hkl)].
  - simpl. intros i Hi Hn. apply Hc; [done|]. intros [Eu El].
    apply Hn. split; [done|]. destruct (decide ((cache_lba m).[i] = lba)); [|lia].
    exfalso. by apply (Hno i Hi).
  - destruct (Z.geb_spec (Z.of_nat k) 0); [|lia]. rewrite Nat2Z.id.
    intros i Hi Hn. simpl in *. change (slot_of (set_cache_data ?x m)) with (slot_of m).
    destruct Hsh. destruct (decide (i = k)) as [->|Hne].
    + rewrite nth_insert_eq by (destruct Hk; lia). rewrite Hku, Hkl. exact Hd.
    + rewrite nth_insert_ne by done. apply Hc; [exact Hi|]. intros [Eu El]. apply Hn.
      split; [done|]. destruct (decide ((cache_lba m).[i] = lba)) as [El'|]; [|lia].
      exfalso. apply Hne. apply Hu; try done; congruence.
Qed.

Lemma same_keys_shape m m' : same_keys m m' -> cache_shape m -> cache_shape m'.
Proof. intros Hk []. destruct Hk as (?&?&?&?&?&?&?&?). split; congruence. Qed.

Lemma same_keys_unique m m' : same_keys m m' -> unique m -> unique m'.
Proof. intros (E1&E2&E3&_) Hu i j. unfold cached. rewrite E1, E2, E3. apply Hu. Qed.

Lemma update_sectors_spec n fill unit sector done hi buf m :
  cache_shape m -> unique m -> coherent_except unit (sector + fill) hi m ->
  0 <= sector -> sector + fill + Z.of_nat n < 4294967296 ->
  0 <= fill -> 0 <= done -> done + fill + Z.of_nat n <= 128 ->
  (forall k, (k < n)%nat ->
     slice buf (Z.to_nat (done + fill) * 512 + k * 512) 512
     = disk (m_client m) (slot_of m unit) (sector + fill + Z.of_nat k)) ->
  let m' := update_sectors n fill unit sector done buf m in
  same_keys m m' /\ coherent_except unit (sector + fill + Z.of_nat n) hi m'.
Proof.
  revert fill m. induction n as [|n IH]; intros fill m Hs Hu Hc Hsec Hmax Hfill Hdone Hlen Hd.
  { cbn [update_sectors]. rewrite Z.add_0_r. done. }
  cbn [update_sectors].
  rewrite u32_id by (unfold is_u32; lia). rewrite sector_offset_small by lia.
  set (m1 := cache_update_or_invalidate unit (sector + fill) _ m).
  assert (same_keys m m1) as Hk by apply update_keys.
  destruct (IH (fill + 1) m1) as [Hk2 Hc2]; try lia.
  - by eapply same_keys_shape.
  - by eapply same_keys_unique.
  - rewrite Z.add_assoc. apply update_coherent; try done. rewrite slice_drop.
    specialize (Hd 0%nat ltac:(lia)). rewrite Z.add_0_r in Hd. exact Hd.
  - intros k Hk'. specialize (Hd (S k) ltac:(lia)).
    destruct Hk as (?&?&?&?&?&Es&Ec&?). rewrite Ec, (slot_same m m1) by done.
    replace (sector + (fill + 1) + Z.of_nat k) with (sector + fill + Z.of_nat (S k)) by lia.
    rewrite <- Hd. f_equal. lia.
  - split; [by eapply same_keys_trans|].
    by replace (sector + fill + Z.of_nat (S n)) with (sector + (fill + 1) + Z.of_nat n) by lia.
Qed.

(** The outcome of the writing loop from a state on. *)
Definition write_outcome_ok m unit count sector_max done sector (buf : list Z)
    (r : io_exit * list Z * dos_state C) : Prop :=
  let '(e, buf', m') := r in
  buf' = buf /\ cache_shape m' /\ unique m' /\ slots_apart unit m' /\
  nio_unit_slot m' = nio_unit_slot m /\
  exists d, done <= d <= count /\
    (forall k, (Z.of_nat k < d - done) ->
       disk (m_client m') (slot_of m unit) (sector + Z.of_nat k)
       = slice buf (Z.to_nat done * 512 + k * 512) 512) /\
    (forall s l, s <> slot_of m unit \/ l < sector \/ sector + (count - done) <= l ->
       disk (m_client m') s l = disk (m_client m) s l) /\
    coherent_except unit (sector + (d - done)) (sector + (count - done)) m' /\
    match e with
    | IoDone d' => d' = d
    | IoReturn status => status = dos_error NOT_FOUND /\ d < count /\ coherent m' /\
        sector + (d - done) >= sector_max
    end.

Lemma set_client_coherent unit lo hi c m :
  coherent m -> slots_apart unit m ->
  (forall s l, s <> slot_of m unit \/ l < lo \/ hi <= l ->
     disk c s l = disk (m_client m) s l) ->
  coherent_except unit lo hi (set_client c m).
Proof.
  intros Hc Ha Hd i Hi Hn. simpl in *. change (slot_of (set_client c m)) with (slot_of m).
  rewrite Hd; [by apply Hc|].
  destruct (decide (slot_of m (cache_unit m).[i] = slot_of m unit)) as [E|]; [|by left].
  right. apply Ha in E; [|done].
  destruct (decide ((cache_lba m).[i] < lo)); [by left|right].
  destruct (decide (hi <= (cache_lba m).[i])); [done|]. exfalso. apply Hn. split; [done|lia].
Qed.

Lemma output_loop_spec fuel unit count smax done sector buf m r :
  cache_shape m -> coherent m -> unique m -> slots_apart unit m ->
  0 <= done <= count -> count <= 127 -> Z.of_nat (length buf) >= count * 512 ->
  0 <= sector -> is_u32 smax -> 1 <= nio_batch_sectors m <= 255 ->
  output_loop fuel unit count smax done sector buf m = Some r ->
  write_outcome_ok m unit count smax done sector buf r.
Proof.
  revert done sector m.
  induction fuel as [|fuel IH]; intros done sector m Hsh Hco Hu Ha Hdone Hcount Hbuf Hsec
    Hmax Hbatch H; [discriminate H|]. cbn [output_loop] in H. unfold is_u32 in Hmax.
  destruct (Z.ltb_spec done count) as [Hlt|Hge]; cbn [negb] in H.
  2:{ injection H as <-. unfold write_outcome_ok. split_and!; try done. exists done.
      replace (sector + (done - done)) with sector by lia.
      replace (sector + (count - done)) with sector by lia.
      rewrite coherent_except_empty. split_and!; try done; lia. }
  rewrite (u16_id (count - done)) in H by (unfold is_u16; lia).
  set (batch0 := if count - done >? nio_batch_sectors m then _ else _) in H.
  assert (1 <= batch0 <= count - done /\ batch0 <= nio_batch_sectors m) as Hba
    by (unfold batch0; case_test; lia). clearbody batch0.
  destruct (Z.geb_spec sector smax) as [Hge|Hlt'].
  { injection H as <-. unfold write_outcome_ok. split_and!; try done. exists done.
    replace (sector + (done - done)) with sector by lia.
    split_and!; try done; try lia.
    apply (coherent_except_mono _ sector sector); try lia. by apply coherent_except_empty. }
  rewrite u32_id in H by (unfold is_u32; lia).
  set (batch := if batch0 >? smax - sector then _ else _) in H.
  assert (1 <= batch <= batch0 /\ sector + batch <= smax) as Hfe
    by (unfold batch; destruct (Z.gtb_spec batch0 (smax - sector));
        rewrite ?u16_id by (unfold is_u16; lia); lia). clearbody batch.
  rewrite sector_offset_small in H by lia. unfold SECTOR_SIZE in H.
  rewrite (u16_id (batch * 512)) in H by (unfold is_u16; lia).
  destruct (cl_write_sectors _ _ _ _ _ _ _) as [[ok bw] c] eqn:Ew.
  apply disk_write_law in Ew as [Hdo Hdw].
  pose proof (set_client_coherent unit sector (sector + batch) c m Hco Ha Hdo) as Hce.
  assert (cache_shape (set_client c m)) as Hsh1 by (destruct Hsh; by split).
  destruct (negb ok || _) eqn:Ef.
  { injection H as <-. unfold write_outcome_ok. split_and!; try done. exists done.
    split_and!; try done; try lia.
    - intros s l Hsl. apply Hdo. lia.
    - eapply coherent_except_mono, Hce; lia. }
  rewrite orb_false_iff, negb_false_iff, Z.ltb_ge in Ef. destruct Ef as [-> Hbw].
  specialize (Hdw eq_refl Hbw eq_refl). rewrite length_drop in Hdw.
  specialize (Hdw ltac:(lia)).
  set (m1 := set_client c m) in *.
  destruct (update_sectors_spec (Z.to_nat batch) 0 unit sector done (sector + batch) buf m1)
    as [Hk Hc2]; try done; try lia.
  { by rewrite Z.add_0_r. }
  { intros k Hk. rewrite !Z.add_0_r. simpl m_client.
    change (slot_of m1 unit) with (slot_of m unit). by rewrite Hdw, slice_drop by done. }
  set (m2 := update_sectors _ _ _ _ _ _ m1) in *.
  rewrite Z.add_0_r, Z2Nat.id, coherent_except_empty in Hc2 by lia.
  rewrite (u16_id (done + batch)), (u32_id (sector + batch)) in H
    by (unfold is_u16, is_u32; lia).
  pose proof (same_keys_shape m1 m2 Hk Hsh1) as Hsh2.
  pose proof (same_keys_unique m1 m2 Hk Hu) as Hu2.
  destruct Hk as (E1&E2&E3&E4&E5&E6&E7&E8).
  assert (slot_of m2 unit = slot_of m unit) as Es by (by apply slot_same).
  apply IH in H; try done; try lia.
  2:{ intros i. unfold cached. rewrite E1, E2, !(slot_same m m2) by done. apply Ha. }
  2:{ rewrite E8. exact Hbatch. }
  destruct r as [[e buf'] m']. unfold write_outcome_ok in *.
  destruct H as (->&Hs'&Hu'&Ha'&Hsl'&d&Hd&Hw&Ho&Hce'&He). rewrite Es in *.
  split_and!; try done; [by rewrite Hsl', E6|]. exists d. split_and!; try lia.
  - intros k Hk. destruct (decide (Z.of_nat k < batch)).
    + rewrite Ho, E7 by lia. simpl. by rewrite Hdw, slice_drop by lia.
    + specialize (Hw (k - Z.to_nat batch)%nat ltac:(lia)).
      replace (sector + batch + Z.of_nat (k - Z.to_nat batch)) with (sector + Z.of_nat k)
        in Hw by lia.
      rewrite Hw. f_equal. lia.
  - intros s l Hsl. rewrite Ho, E7 by lia. apply Hdo. lia.
  - replace (sector + (d - done)) with (sector + batch + (d - (done + batch))) by lia.
    by replace (sector + (count - done)) with (sector + batch + (count - (done + batch))) by lia.
  - destruct e; [|done]. destruct He as (?&?&?&?). split_and!; try done. lia.
Qed.
End WriteFacts.
