(* ===== verification/DosProps.v ===== *)
(** * The DOS handlers: theorems

    Reads and writes of DOS against the contract of the client, termination
    with any client, and the limits of the cache's coherence, with a client
    over an in-memory disk to exercise them. *)

From S2P Require Import Prelude NioProtocol NioDiskProtocol NioTransaction NioDriver DosCommands DosDisk DosWrite.

(** ** A client over an in-memory disk *)

Record mem_client := mkMem { mc_sectors : Z -> Z -> list Z }.

Definition pad_sector (b : list Z) : list Z := take 512 (b ++ zeros 512).
Definition mem_disk (c : mem_client) (slot lba : Z) : list Z := pad_sector (mc_sectors c slot lba).

Definition mem_read (slot lba count : Z) (buf : list Z) (len br : Z) (c : mem_client)
    : bool * list Z * Z * mem_client :=
  if (len =? count * 512) && (0 <=? count) && (len <=? Z.of_nat (length buf))
  then (true, overwrite buf 0 (sectors (mem_disk c) slot lba (Z.to_nat count)), len, c)
  else (false, buf, br, c).

Definition mem_write (slot lba count : Z) (buf : list Z) (len bw : Z) (c : mem_client)
    : bool * Z * mem_client :=
  (true, len,
   mkMem (fun s l => if (s =? slot) && (lba <=? l) && (l <? lba + count)
                     then slice buf (Z.to_nat (l - lba) * 512) 512
                     else mc_sectors c s l)).

#[export] Instance mem_nio_client : NioClient mem_client := {
  cl_disk_info slot info c := (true, mkDiskInfo 1 slot 0 512 720 0, c);
  cl_clear_changed slot c := (true, c);
  cl_read_sector slot lba buf len br c := mem_read slot lba 1 buf len br c;
  cl_read_sectors := mem_read;
  cl_write_sectors := mem_write;
  cl_call device command payload plen reply cap c := (true, reply, mkResponse 0 0, c);
  cl_begin_host_session slot c := (true, c);
  cl_set_config retries timeout c := c;
  cl_last_error c := 0;
  cl_last_status c := 0;
  cl_last_rx_len c := 0;
  cl_last_expected_len c := 0;
  cl_last_lsr c := 0
}.

Lemma length_pad b : length (pad_sector b) = 512%nat.
Proof. unfold pad_sector, zeros. rewrite length_take, length_app, length_replicate. lia. Qed.

Lemma pad_id b : length b = 512%nat -> pad_sector b = b.
Proof. intros H. unfold pad_sector. rewrite <- H at 1. apply take_app_length. Qed.

Lemma length_mem_sectors c slot lba n :
  length (sectors (mem_disk c) slot lba n) = (n * 512)%nat.
Proof.
  revert lba. induction n as [|n IH]; intros lba; simpl; [done|].
  rewrite length_app, IH. by unfold mem_disk; rewrite length_pad.
Qed.

#[export] Instance mem_disk_client : DiskClient mem_client mem_disk.
Proof.
  split.
  - intros. apply length_pad.
  - intros * [= <- <- <-]. done.
  - intros * [= <- <-]. done.
  - intros slot lba count buf len br c ok buf' n c' H. cbn in H. unfold mem_read in H.
    destruct (_ && _ && _) eqn:E; injection H as <- <- <- <-; [|done].
    rewrite !andb_true_iff, Z.eqb_eq, !Z.leb_le in E. destruct E as [[-> ?] ?].
    split_and!; try done.
    + rewrite length_overwrite; [done|]. rewrite length_mem_sectors. lia.
    + unfold overwrite. simpl. rewrite drop_app_ge; rewrite length_mem_sectors; [|lia].
      rewrite drop_drop. f_equal. lia.
  - intros slot lba count buf len bw c ok n c' H. cbn in H. injection H as <- <- <-. split.
    + intros s l Hsl. unfold mem_disk. simpl.
      destruct (_ && _ && _) eqn:E; [|done].
      rewrite !andb_true_iff, Z.eqb_eq, Z.leb_le, Z.ltb_lt in E. lia.
    + intros _ _ -> Hl k Hk. unfold mem_disk. simpl.
      rewrite Z.eqb_refl, (proj2 (Z.leb_le _ _)), (proj2 (Z.ltb_lt _ _)) by lia. simpl.
      replace (Z.to_nat (lba + Z.of_nat k - lba)) with k by lia.
      apply pad_id, length_slice. lia.
Qed.

(** A driver after Init_cmd, over a disk whose sectors hold [fill]. *)
Definition demo_bpb : DOS_BPB := mkBpb 512 2 1 2 112 720 253 2 9 2 0 0.
Definition demo_driver (fill : Z) : dos_state mem_client :=
  dos_initial (mkMem (fun _ _ => replicate 512 fill))
    |> set_bpb_table (replicate 8 demo_bpb)
    |> set_bpb_pointers (map Some (seq 0 8) ++ [None]).

Definition demo_request (command sector count : Z) (buf : list Z) : SYSREQ :=
  mkReq 22 0 command 0 buf count sector 0 0 FarNull 0 0 FarNull [].

Lemma demo_shape fill : cache_shape (demo_driver fill).
Proof. split; done. Qed.

Lemma demo_empty fill i : ~ cached (demo_driver fill) i.
Proof.
  intros [Hi Hv]. apply Hv. simpl. unfold byte_at. rewrite nth_lookup.
  change (cache_valid _) with (zeros 40). unfold zeros.
  by rewrite lookup_replicate_2 by done.
Qed.

(** ** Properties *)

(** C1: DOS reads refine the disk: with a coherent cache, [Input_cmd] on a
    known unit returns; when it reports success it delivered between one and
    the requested number of sectors, and exactly the sectors the disk of the
    unit's slot holds from the requested one on, whether from the cache or
    over the wire, in batches of any size and after any retries; it reports a
    sector out of range only when the request leaves the volume; and it leaves
    the disk unchanged and the cache coherent. *)
Theorem read_refines_disk {C} `{DC : DiskClient C disk} req (m : dos_state C) :
  cache_shape m -> coherent (disk := disk) m -> 0 <= q_unit req < FN_MAX_DEV ->
  0 <= q_count req <= 127 -> Z.of_nat (length (q_buffer req)) >= q_count req * 512 ->
  0 <= request_sector req -> is_u32 (sector_limit m (Z.to_nat (q_unit req))) ->
  1 <= nio_batch_sectors m <= 255 ->
  exists status req' m',
    Input_cmd req m = Some (status, req', m') /\
    cache_shape m' /\ coherent (disk := disk) m' /\
    (forall s l, disk (m_client m') s l = disk (m_client m) s l) /\
    ((status = OP_COMPLETE /\ 1 <= q_count req' <= q_count req /\
      take (Z.to_nat (q_count req') * 512) (q_buffer req')
      = sectors (disk (m_client m)) (unit_to_diskservice_slot m (q_unit req))
          (request_sector req) (Z.to_nat (q_count req'))) \/
     status = dos_error GENERAL_FAIL \/
     (status = dos_error NOT_FOUND /\
      sector_limit m (Z.to_nat (q_unit req)) < request_sector req + q_count req)).
Proof.
  intros Hsh Hco Hu Hc Hb Hs Hm Hba. unfold Input_cmd.
  destruct (Z.geb_spec (q_unit req) FN_MAX_DEV); [lia|]. cbv zeta.
  destruct (input_loop_total (input_fuel req m) (q_unit req) (q_count req)
    (sector_limit m (Z.to_nat (q_unit req))) 0 (request_sector req) (q_buffer req) m)
    as [r Hr]; try done; try lia; [unfold input_fuel; lia|].
  pose proof Hr as Hr'. apply (input_loop_spec (DC := DC)) in Hr; try done; try lia.
  rewrite Hr'. destruct r as [[e buf'] m']. destruct Hr as (Hsh'&Hco'&Hd&_&Hl&_&He).
  simpl. destruct e as [status|d].
  - destruct He as [-> He]. eexists _, _, _. split; [reflexivity|]. split_and!; try done.
    right. right. split; [done|lia].
  - destruct He as [Hdr He]. destruct (Z.eqb_spec d 0) as [->|Hd0].
    + eexists _, _, _. split; [reflexivity|]. split_and!; try done. by right; left.
    + eexists _, _, _. split; [reflexivity|]. split_and!; try done. left. simpl.
      split_and!; try done; try lia. unfold delivered_sectors, slice in He.
      by rewrite Z.sub_0_r in He.
Qed.

Lemma read_refines_disk_witness :
  let req := demo_request 4 7 2 (zeros 1024) in
  let m := demo_driver 3 in
  exists status req' m',
    Input_cmd req m = Some (status, req', m') /\
    cache_shape m' /\ coherent (disk := mem_disk) m' /\
    (forall s l, mem_disk (m_client m') s l = mem_disk (m_client m) s l) /\
    ((status = OP_COMPLETE /\ 1 <= q_count req' <= q_count req /\
      take (Z.to_nat (q_count req') * 512) (q_buffer req')
      = sectors (mem_disk (m_client m)) (unit_to_diskservice_slot m (q_unit req))
          (request_sector req) (Z.to_nat (q_count req'))) \/
     status = dos_error GENERAL_FAIL \/
     (status = dos_error NOT_FOUND /\
      sector_limit m (Z.to_nat (q_unit req)) < request_sector req + q_count req)).
Proof.
  cbv zeta. apply (read_refines_disk (DC := mem_disk_client)); 
    [apply demo_shape|intros i Hi; by apply demo_empty in Hi|done|simpl; lia|simpl; lia|
     done|done|done].
Defined.

(** The disk's information, cached or asked for, costs no sector. *)
Lemma disk_info_cached_frame {C} `{DC : DiskClient C disk} unit (m : dos_state C) r info m1 :
  disk_info_cached unit no_info m = (r, info, m1) ->
  same_cache m m1 /\ same_disk (disk := disk) m m1 /\
  sector_limit m1 = sector_limit m /\ nio_batch_sectors m1 = nio_batch_sectors m.
Proof.
  unfold disk_info_cached. repeat case_test; try by intros [= <- <- <-].
  destruct (cl_disk_info _ _ _) as [[[] i] c] eqn:E; intros [= <- <- <-];
    pose proof (disk_info_law _ _ _ _ _ _ E); done.
Qed.

(** C2: DOS writes reach the disk: with a coherent cache in which no sector
    is cached twice and no other cached unit shares the slot, [Output_cmd] on
    a known unit returns for a request of at most 127 sectors (64 KB less one
    sector), a batch size of 1 to 255 and a disk of 32-bit size, whether or
    not the disk's information is cached.
    Without that information it answers "not ready" and on a read-only disk
    "write protected", with the disk and the cache as they were.  On a
    writable disk it reports success with the number of sectors written, at
    least one, or a general failure with none written, or "not found" for a
    request that passes the end of the disk; the sectors it counts are on the
    disk as the caller gave them, no sector outside the request changed, and
    the cache is coherent except at most for the sectors of the request that
    were not confirmed. *)
Theorem write_refines_disk {C} `{DC : DiskClient C disk} req (m : dos_state C) :
  cache_shape m -> coherent (disk := disk) m -> unique m -> slots_apart (q_unit req) m ->
  0 <= q_unit req < FN_MAX_DEV -> 0 <= q_count req <= 127 ->
  Z.of_nat (length (q_buffer req)) >= q_count req * 512 ->
  0 <= request_sector req -> is_u32 (sector_limit m (Z.to_nat (q_unit req))) ->
  1 <= nio_batch_sectors m <= 255 ->
  exists status req' m' d,
    Output_cmd req m = Some (status, req', m') /\ cache_shape m' /\ unique m' /\
    0 <= d <= q_count req /\
    match disk_info_cached (q_unit req) no_info m with
    | (false, _, _) =>
        status = dos_error NOT_READY /\ req' = req /\ d = 0 /\
        coherent (disk := disk) m' /\ same_disk (disk := disk) m m'
    | (true, info, _) =>
        if Z.land (i_flags info) NIO_DISK_INFO_READONLY =? 0
        then (status = OP_COMPLETE /\ 1 <= d /\ q_count req' = d) \/
             (status = dos_error GENERAL_FAIL /\ d = 0) \/
             (status = dos_error NOT_FOUND /\
              sector_limit m (Z.to_nat (q_unit req)) < request_sector req + q_count req)
        else status = dos_error WRITE_PROTECT /\ req' = req /\ d = 0 /\
             coherent (disk := disk) m' /\ same_disk (disk := disk) m m'
    end /\
    (forall k, Z.of_nat k < d ->
       disk (m_client m') (unit_to_diskservice_slot m (q_unit req))
         (request_sector req + Z.of_nat k) = slice (q_buffer req) (k * 512) 512) /\
    (forall s l, s <> unit_to_diskservice_slot m (q_unit req) \/
        l < request_sector req \/ request_sector req + q_count req <= l ->
       disk (m_client m') s l = disk (m_client m) s l) /\
    coherent_except (disk := disk) (q_unit req) (request_sector req + d)
      (request_sector req + q_count req) m'.
Proof.
  intros Hsh Hco Hun Ha Hu Hc Hb Hs Hm Hba. unfold Output_cmd.
  destruct (Z.geb_spec (q_unit req) FN_MAX_DEV); [lia|].
  destruct (disk_info_cached _ _ _) as [[r info] m1] eqn:Ei.
  apply (disk_info_cached_frame (DC := DC)) in Ei as (Hsc&Hsd&Hlim&Hbs).
  pose proof (same_cache_shape _ _ Hsc Hsh) as Hsh1.
  pose proof (same_cache_coherent _ _ Hsc Hsd Hco) as Hco1.
  pose proof (same_cache_unique _ _ Hsc Hun) as Hun1.
  assert (unit_to_diskservice_slot m1 (q_unit req) = unit_to_diskservice_slot m (q_unit req))
    as Hsl by (apply slot_same, Hsc).
  assert (coherent_except (disk := disk) (q_unit req) (request_sector req + 0)
    (request_sector req + q_count req) m1) as Hce0
    by (apply coherent_except_mono with (request_sector req) (request_sector req);
        [lia..|by apply coherent_except_empty]).
  destruct r; [|by eexists _, _, _, 0; split_and!; try done; try lia; intros; apply Hsd].
  destruct (Z.eqb_spec (Z.land (i_flags info) NIO_DISK_INFO_READONLY) 0); cbn [negb];
    [|by eexists _, _, _, 0; split_and!; try done; try lia; intros; apply Hsd].
  assert (slots_apart (q_unit req) m1) as Ha1.
  { destruct Hsc as (E1&E2&E3&E4&E5&E6). intros i. unfold cached. rewrite E1, E2.
    rewrite !(slot_same _ _ _ E6). apply Ha. }
  rewrite Hlim. rewrite <- Hbs in Hba.
  destruct (output_loop_total (output_fuel req) (q_unit req) (q_count req)
    (sector_limit m (Z.to_nat (q_unit req))) 0 (request_sector req) (q_buffer req) m1)
    as [r Hr]; try done; try lia; [unfold output_fuel; lia|].
  pose proof Hr as Hr'. apply (output_loop_spec (DC := DC)) in Hr; try done; try lia.
  rewrite Hr'. destruct r as [[e' buf'] m'].
  destruct Hr as (->&Hsh'&Hun'&_&_&d&Hdr&Hw&Ho&Hce&He).
  rewrite !Hsl, !Z.sub_0_r in *.
  assert (forall s l, s <> unit_to_diskservice_slot m (q_unit req) \/
        l < request_sector req \/ request_sector req + q_count req <= l ->
       disk (m_client m') s l = disk (m_client m) s l) as Ho'
    by (intros s l Hsl'; rewrite Ho by done; apply Hsd).
  simpl. destruct e' as [status|d'].
  - destruct He as (->&?&_&He). eexists _, _, _, d. split; [reflexivity|].
    split_and!; try done; lia.
  - subst d'. destruct (Z.eqb_spec d 0) as [->|].
    + eexists _, _, _, 0. split; [reflexivity|]. split_and!; try done; lia.
    + eexists _, _, _, d. split; [reflexivity|].
      split_and!; try done; simpl; lia.
Qed.

Lemma write_refines_disk_witness :
  let req := demo_request 8 7 2 (replicate 1024 9) in
  let m := demo_driver 3 in
  exists status req' m' d,
    Output_cmd req m = Some (status, req', m') /\ cache_shape m' /\ unique m' /\
    0 <= d <= q_count req /\
    match disk_info_cached (q_unit req) no_info m with
    | (false, _, _) =>
        status = dos_error NOT_READY /\ req' = req /\ d = 0 /\
        coherent (disk := mem_disk) m' /\ same_disk (disk := mem_disk) m m'
    | (true, info, _) =>
        if Z.land (i_flags info) NIO_DISK_INFO_READONLY =? 0
        then (status = OP_COMPLETE /\ 1 <= d /\ q_count req' = d) \/
             (status = dos_error GENERAL_FAIL /\ d = 0) \/
             (status = dos_error NOT_FOUND /\
              sector_limit m (Z.to_nat (q_unit req)) < request_sector req + q_count req)
        else status = dos_error WRITE_PROTECT /\ req' = req /\ d = 0 /\
             coherent (disk := mem_disk) m' /\ same_disk (disk := mem_disk) m m'
    end /\
    (forall k, Z.of_nat k < d ->
       mem_disk (m_client m') (unit_to_diskservice_slot m (q_unit req))
         (request_sector req + Z.of_nat k) = slice (q_buffer req) (k * 512) 512) /\
    (forall s l, s <> unit_to_diskservice_slot m (q_unit req) \/
        l < request_sector req \/ request_sector req + q_count req <= l ->
       mem_disk (m_client m') s l = mem_disk (m_client m) s l) /\
    coherent_except (disk := mem_disk) (q_unit req) (request_sector req + d)
      (request_sector req + q_count req) m'.
Proof.
  cbv zeta. apply (write_refines_disk (DC := mem_disk_client));
    [apply demo_shape|intros i Hi; by apply demo_empty in Hi
    |intros i j Hi; by apply demo_empty in Hi|intros i Hi; by apply demo_empty in Hi
    |done|simpl; lia|simpl; lia|done|done|done].
Defined.

(** Termination: whatever the client does, [Input_cmd] and [Output_cmd]
    return for every request, as long as the configured batch is not 0 and
    sector numbers have their 32 bits. *)
Theorem transfers_terminate {C} `{!NioClient C} req (m : dos_state C) :
  is_u16 (q_count req) -> 0 <= request_sector req ->
  (forall u, is_u32 (sector_limit m u)) -> 1 <= nio_batch_sectors m <= 255 ->
  is_Some (Input_cmd req m) /\ is_Some (Output_cmd req m).
Proof. intros. split; [by apply Input_total|by apply Output_total]. Qed.

Lemma transfers_terminate_witness :
  is_Some (Input_cmd (demo_request 4 700 40 []) (demo_driver 1)) /\
  is_Some (Output_cmd (demo_request 4 700 40 []) (demo_driver 1)).
Proof.
  apply (transfers_terminate (demo_request 4 700 40 []) (demo_driver 1)); try done.
  intros u. unfold sector_limit. simpl.
  do 8 (destruct u as [|u]; [done|]). by destruct u.
Defined.

(** ** The limits of coherence *)

Definition run (f : SYSREQ -> dos_state mem_client
                    -> option (Z * SYSREQ * dos_state mem_client)) (req : SYSREQ)
    (m : dos_state mem_client) : Z * SYSREQ * dos_state mem_client :=
  default (-1, req, m) (f req m).

(** Read 5; read 4 and 5; write 5; read 100 to 136; read 200; read 5. *)
Definition stale_run : Z * SYSREQ * dos_state mem_client :=
  let '(_, _, m) := run Input_cmd (demo_request 4 5 1 (zeros 512)) (demo_driver 1) in
  let '(_, _, m) := run Input_cmd (demo_request 4 4 2 (zeros 1024)) m in
  let '(_, _, m) := run Output_cmd (demo_request 8 5 1 (replicate 512 2)) m in
  let '(_, _, m) := run Input_cmd (demo_request 4 100 37 (zeros (Z.to_nat 18944))) m in
  let '(_, _, m) := run Input_cmd (demo_request 4 200 1 (zeros 512)) m in
  run Input_cmd (demo_request 4 5 1 (zeros 512)) m.

(** The cache can return old data after a successful write.  A batched
    read stores every sector of the batch without looking for an existing
    entry, so a sector can be cached twice; a write then updates only the
    first entry, and once that entry has been recycled the second one answers
    with the content from before the write. *)
Theorem duplicate_entry_goes_stale :
  let '(status, req, m) := stale_run in
  status = OP_COMPLETE /\ q_buffer req = replicate 512 1 /\
  mem_disk (m_client m) 1 5 = replicate 512 2.
Proof. vm_compute. done. Qed.
