(* ===== verification/DosControl.v ===== *)
(** * The control channel of the DOS driver: theorems

    The IOCTL handlers of commands.c and the entry of intf5.c: remapping a
    unit drops what was cached for it and is reported to DOS exactly once, the
    state strings round-trip, and what a NIO call writes back. *)

From S2P Require Import Prelude NioProtocol NioDiskProtocol NioTransaction NioDriver DosCommands DosDisk DosWrite DosProps.

(** ** intf5.c *)

Definition FUJIF5_NIO_CALL_REQUEST : Z := 62722.

(** [intf5]: [ptr] is the control block, [None] a null pointer. *)
Definition intf5 {C} `{!NioClient C} (devcom : Z) (ptr : option (list Z)) (length : Z)
    (m : dos_state C) : Z * option (list Z) * dos_state C :=
  match ptr with
  | None => (69, None, m)
  | Some call =>
      if negb (devcom =? FUJIF5_NIO_CALL_REQUEST) || (length <? sizeof_nio_call)
      then (69, Some call, m)
      else
        let '(status, call, m) := nio_handle_control_call call 0 m in
        (if negb (Z.land status ERROR_BIT =? 0) then 69 else 67, Some call, m)
  end.

Section Control.
Context {C : Type} `{!NioClient C}.
Implicit Types m : dos_state C.

(** ** Invalidation *)

Lemma invalidate_from_spec unit i n m :
  let m' := invalidate_from unit i n m in
  length (cache_valid m') = length (cache_valid m) /\
  cache_unit m' = cache_unit m /\ cache_lba m' = cache_lba m /\
  cache_data m' = cache_data m /\ cache_next m' = cache_next m /\
  nio_unit_slot m' = nio_unit_slot m /\ m_client m' = m_client m /\
  media_changed m' = media_changed m /\
  (forall k, (k < length (cache_valid m))%nat -> (cache_valid m').[k] <> 0 ->
     (cache_valid m).[k] <> 0 /\ ((i <= k < i + n)%nat -> (cache_unit m).[k] <> unit)).
Proof.
  revert i m. induction n as [|n IH]; intros i m; cbn [invalidate_from]; cbv zeta.
  { split_and!; try done. intros k _ Hv. split; [done|lia]. }
  match goal with |- context [invalidate_from unit (S i) n ?x] => set (m1 := x) end.
  assert (length (cache_valid m1) = length (cache_valid m) /\
    cache_unit m1 = cache_unit m /\ cache_lba m1 = cache_lba m /\
    cache_data m1 = cache_data m /\ cache_next m1 = cache_next m /\
    nio_unit_slot m1 = nio_unit_slot m /\ m_client m1 = m_client m /\
    media_changed m1 = media_changed m) as (El&Eu&Ela&Ed&En&Es&Ec&Em)
    by (unfold m1; case_test; simpl; rewrite ?length_put_at; done).
  destruct (IH (S i) m1) as (?&?&?&?&?&?&?&?&Hv). split_and!; try congruence.
  intros k Hk Hvk. destruct (Hv k) as [Hv1 Hv2]; [congruence|done|].
  rewrite Eu in Hv2.
  assert ((cache_valid m).[k] <> 0) as Hvm.
  { unfold m1 in Hv1. case_test_in Hv1; [|done]. simpl in Hv1.
    destruct (decide (k = i)) as [->|]; [by rewrite byte_at_put_eq in Hv1 by lia|].
    by rewrite byte_at_put_ne in Hv1 by done. }
  split; [done|]. intros Hki. destruct (decide (k = i)) as [->|]; [|apply Hv2; lia].
  intros Hu. unfold m1 in Hv1.
  rewrite (proj2 (Z.eqb_neq _ _) Hvm), Hu, Z.eqb_refl in Hv1. simpl in Hv1.
  by rewrite byte_at_put_eq in Hv1 by lia.
Qed.

(** What [cache_invalidate_unit] leaves valid was valid and of another unit. *)
Lemma invalidate_unit_spec unit m :
  cache_shape m ->
  let m' := cache_invalidate_unit unit m in
  cache_shape m' /\ cache_unit m' = cache_unit m /\ cache_lba m' = cache_lba m /\
  cache_data m' = cache_data m /\ nio_unit_slot m' = nio_unit_slot m /\
  m_client m' = m_client m /\ media_changed m' = media_changed m /\
  (forall k, cached m' k -> cached m k /\ (cache_unit m).[k] <> unit).
Proof.
  intros Hs. unfold cache_invalidate_unit. cbv zeta.
  pose proof (invalidate_from_spec unit 0 (Z.to_nat CACHE_SECTORS) m) as Hinv.
  cbv zeta in Hinv. revert Hinv.
  generalize (invalidate_from unit 0 (Z.to_nat CACHE_SECTORS) m). intros m1.
  change (Z.to_nat CACHE_SECTORS) with 40%nat.
  intros (El&Eu&Ela&Ed&En&Es&Ec&Em&Hv). destruct Hs.
  assert (cache_shape m1) as [] by (split; congruence).
  assert (forall k, cached m1 k -> cached m k /\ (cache_unit m).[k] <> unit) as Hc.
  { intros k [Hk Hvk]. destruct (Hv k) as [Hv1 Hv2]; [lia|exact Hvk|].
    split; [exact (conj Hk Hv1)|]. apply Hv2. lia. }
  case_test; split_and!; try assumption; constructor; assumption.
Qed.

Lemma set_unit_map_inv req m :
  q_unit req < FN_MAX_DEV -> sizeof_unit_map <= q_count req ->
  (q_buffer req).[0] = FUJI_IOCTL_SET_UNIT_MAP ->
  (q_buffer req).[5] < FN_MAX_DEV -> (q_buffer req).[8] < FN_MAX_DEV ->
  handle_ioctl_buffer req m =
  (OP_COMPLETE, set_q_buffer (fill_query (q_unit req) sizeof_unit_map (q_buffer req)) req,
   let unit := (q_buffer req).[5] in
   let m1 := cache_invalidate_unit unit m in
   set_media_changed (put_at (media_changed m1) (Z.to_nat unit) 1)
     (set_unit_slot (put_at (nio_unit_slot m1) (Z.to_nat unit) (q_buffer req).[8]) m1)).
Proof.
  intros Hu Hc H0 H5 H8. unfold handle_ioctl_buffer.
  unfold sizeof_unit_map, FUJI_IOCTL_QUERY_BASE_SIZE in *.
  rewrite H0. cbn [Z.eqb FUJI_IOCTL_SET_UNIT_MAP FUJI_IOCTL_QUERY FUJI_IOCTL_GET_STATE
    FUJI_IOCTL_SET_STATE FUJI_IOCTL_GET_UNIT_MAP Pos.eqb].
  destruct (Z.geb_spec (q_unit req) FN_MAX_DEV); [lia|].
  destruct (Z.ltb_spec (q_count req) 6); [lia|].
  destruct (Z.ltb_spec (q_count req) 5); [lia|].
  destruct (Z.ltb_spec (q_count req) 9); [lia|].
  destruct (Z.geb_spec (q_buffer req).[5] FN_MAX_DEV); [lia|].
  destruct (Z.geb_spec (q_buffer req).[8] FN_MAX_DEV); [lia|]. done.
Qed.

(** ** The state strings *)

Lemma length_fill_query unit n b :
  (8 <= length b)%nat -> length (fill_query unit n b) = length b.
Proof.
  intros. unfold fill_query. case_test; rewrite !length_put_at, length_overwrite;
    simpl; try done; lia.
Qed.

(** The four fields written behind the query part. *)
Lemma state_block b a c uri path :
  length b = 396%nat -> length uri = 256%nat -> length path = 128%nat ->
  slice (overwrite (overwrite (nio_disk_put_u16le (nio_disk_put_u16le b 8 a) 10 c)
                      12 uri) 268 path) 8 388
  = [a mod 256; a / 256 mod 256; c mod 256; c / 256 mod 256] ++ uri ++ path.
Proof.
  intros Hb Hu Hp.
  rewrite put_u16le_as_overwrite by (rewrite length_put_u16le; lia).
  rewrite put_u16le_as_overwrite by lia.
  rewrite (overwrite_adjacent b 8 [_; _] [_; _]) by (simpl; lia).
  cbn [app]. rewrite (overwrite_adjacent b 8 [_; _; _; _] uri) by (simpl; lia).
  replace 268%nat with (8 + length (([a mod 256; a / 256 mod 256;
    c mod 256; c / 256 mod 256])%Z ++ uri))%nat by (rewrite !length_app; simpl; lia).
  rewrite overwrite_adjacent by (rewrite !length_app; simpl; lia).
  match goal with |- slice (overwrite _ _ ?s) _ ?n = _ =>
    replace n with (length s) by (rewrite !length_app; simpl; lia) end.
  rewrite slice_overwrite_same by (rewrite !length_app; simpl; lia).
  done.
Qed.

Lemma set_state_inv req m :
  q_unit req < FN_MAX_DEV -> q_count req = sizeof_state ->
  (q_buffer req).[0] = FUJI_IOCTL_SET_STATE ->
  nio_disk_get_u16le (q_buffer req) 8 <= FUJI_IOCTL_MAX_URI ->
  nio_disk_get_u16le (q_buffer req) 10 <= FUJI_IOCTL_MAX_PATH ->
  handle_ioctl_buffer req m =
  (OP_COMPLETE, set_q_buffer (fill_query (q_unit req) sizeof_state (q_buffer req)) req,
   let uri_len := nio_disk_get_u16le (q_buffer req) 8 in
   let path_len := nio_disk_get_u16le (q_buffer req) 10 in
   m |> set_current_uri_len uri_len
     |> set_display_path_len path_len
     |> set_current_uri (set_text 256 (q_buffer req) 12 uri_len)
     |> set_display_path (set_text 128 (q_buffer req) 268 path_len)).
Proof.
  intros Hu Hc H0 H8 H10. unfold handle_ioctl_buffer. rewrite Hc, H0.
  destruct (Z.geb_spec (q_unit req) FN_MAX_DEV); [lia|].
  cbn [Z.eqb Z.ltb Z.compare FUJI_IOCTL_SET_STATE FUJI_IOCTL_QUERY FUJI_IOCTL_GET_STATE
    sizeof_state FUJI_IOCTL_QUERY_BASE_SIZE Pos.eqb Pos.compare Pos.compare_cont].
  rewrite !Z.gtb_ltb, !(proj2 (Z.ltb_ge _ _)) by lia. done.
Qed.

Lemma get_state_inv req m :
  q_unit req < FN_MAX_DEV -> q_count req = sizeof_state ->
  (q_buffer req).[0] = FUJI_IOCTL_GET_STATE ->
  handle_ioctl_buffer req m =
  (OP_COMPLETE, set_q_buffer
     (overwrite (overwrite (nio_disk_put_u16le (nio_disk_put_u16le
        (fill_query (q_unit req) sizeof_state (q_buffer req)) 8 (nio_current_uri_len m))
        10 (nio_display_path_len m)) 12 (nio_current_uri m)) 268 (nio_display_path m)) req,
   m).
Proof.
  intros Hu Hc H0. unfold handle_ioctl_buffer. rewrite Hc, H0.
  destruct (Z.geb_spec (q_unit req) FN_MAX_DEV); [lia|]. done.
Qed.

(** ** NIO calls *)

Lemma fill_query_device unit b :
  (8 <= length b)%nat -> (fill_query unit sizeof_nio_call b).[7] = FN_MAX_DEV.
Proof.
  intros Hb. unfold fill_query. cbn [sizeof_nio_call sizeof_query Z.geb Z.compare
    Pos.compare Pos.compare_cont].
  rewrite byte_at_put_eq; [done|]. rewrite !length_put_at, length_overwrite; simpl; lia.
Qed.
End Control.

(** ** Properties *)

(** Remapping a unit: SET_UNIT_MAP for a known unit and slot stores the
    slot, leaves no cache entry of that unit valid, keeps the cache coherent
    with the new mapping, and the next media check of that unit, and no later
    one by itself, tells DOS that the media changed. *)
Theorem remap_unit {C} `{DC : DiskClient C disk} req mreq (m : dos_state C) :
  cache_shape m -> coherent (disk := disk) m -> bytes_ok (cache_unit m) ->
  length (nio_unit_slot m) = 8%nat -> length (media_changed m) = 8%nat ->
  0 <= q_unit req < FN_MAX_DEV -> sizeof_unit_map <= q_count req ->
  (q_buffer req).[0] = FUJI_IOCTL_SET_UNIT_MAP ->
  0 <= (q_buffer req).[5] < FN_MAX_DEV -> 0 <= (q_buffer req).[8] < FN_MAX_DEV ->
  q_unit mreq = (q_buffer req).[5] ->
  let '(status, _, m') := handle_ioctl_buffer req m in
  let '(mstatus, mreq', m'') := Media_check_cmd mreq m' in
  status = OP_COMPLETE /\ unit_to_slot m' (q_buffer req).[5] = (q_buffer req).[8] /\
  coherent (disk := disk) m' /\
  (forall k, cached m' k -> (cache_unit m').[k] <> (q_buffer req).[5]) /\
  mstatus = OP_COMPLETE /\ q_return_info mreq' = 255 /\
  (media_changed m'').[Z.to_nat (q_buffer req).[5]] = 0.
Proof.
  intros Hs Hc Hby Hl8 Hm8 Hu Hcnt H0 H5 H8 Hmu. rewrite set_unit_map_inv by (done || lia).
  cbv zeta. set (unit := (q_buffer req).[5]) in *. set (slot := (q_buffer req).[8]) in *.
  destruct (invalidate_unit_spec unit m Hs) as (Hs1&Eu&El&Ed&Es&Ec&Em&Hk).
  set (m1 := cache_invalidate_unit unit m) in *.
  set (m2 := set_media_changed _ _).
  assert (length (nio_unit_slot m1) = 8%nat) as Hl1 by congruence.
  assert (Z.to_nat unit < 8)%nat as Hun by (unfold FN_MAX_DEV in *; lia).
  unfold Media_check_cmd. rewrite Hmu.
  destruct (Z.geb_spec unit FN_MAX_DEV); [lia|].
  assert ((media_changed m2).[Z.to_nat unit] = 1) as Hch.
  { unfold m2. simpl. apply byte_at_put_eq. rewrite Em. lia. }
  cbv zeta. rewrite Hch. cbn [Z.eqb negb].
  assert (forall k, cached m2 k -> (cache_unit m2).[k] <> unit) as Hno.
  { intros k Hk2. unfold m2. simpl. rewrite Eu. by apply Hk. }
  assert (coherent (disk := disk) m2) as Hco.
  { intros k Hk2. pose proof (Hno k Hk2) as Hne. destruct (Hk k Hk2) as [Hck _].
    unfold m2 at 1. simpl. rewrite Ed. change (cache_unit m2) with (cache_unit m1).
    change (cache_lba m2) with (cache_lba m1). change (m_client m2) with (m_client m1).
    rewrite Eu, El, Ec. change (cache_unit m2) with (cache_unit m1) in Hne. rewrite Eu in Hne.
    rewrite (Hc k Hck). unfold unit_to_diskservice_slot, unit_to_slot.
    destruct (Z.geb_spec (cache_unit m).[k] FN_MAX_DEV) as [|Hlt]; [done|].
    unfold m2. simpl. rewrite Es.
    destruct (decide (Z.to_nat (cache_unit m).[k] = Z.to_nat unit)) as [E|E].
    - exfalso. apply Hne. pose proof (byte_at_u8 _ k Hby). unfold is_u8 in *. lia.
    - by rewrite byte_at_put_ne by done. }
  split_and!; try done.
  - unfold unit_to_slot. destruct (Z.geb_spec unit FN_MAX_DEV); [lia|].
    unfold m2. simpl. apply byte_at_put_eq. lia.
  - simpl. apply byte_at_put_eq. rewrite length_put_at, Em. lia.
Qed.

Definition demo_unit_map (unit slot : Z) : list Z := [4; 0; 0; 0; 0; unit; 0; 0; slot].

(** A driver that has cached sector 5 of unit 0. *)
Definition demo_cached : dos_state mem_client :=
  cache_store 0 5 (replicate 512 1) (demo_driver 1).

Lemma demo_cached_coherent : coherent (disk := mem_disk) demo_cached.
Proof.
  apply cache_store_coherent; [apply demo_shape| |reflexivity].
  intros i Hi. by apply demo_empty in Hi.
Qed.

Lemma remap_unit_witness :
  let req := demo_request 3 0 9 (demo_unit_map 0 2) in
  let '(status, _, m') := handle_ioctl_buffer req demo_cached in
  let '(mstatus, mreq', m'') := Media_check_cmd (demo_request 1 0 0 []) m' in
  status = OP_COMPLETE /\ unit_to_slot m' (q_buffer req).[5] = (q_buffer req).[8] /\
  coherent (disk := mem_disk) m' /\
  (forall k, cached m' k -> (cache_unit m').[k] <> (q_buffer req).[5]) /\
  mstatus = OP_COMPLETE /\ q_return_info mreq' = 255 /\
  (media_changed m'').[Z.to_nat (q_buffer req).[5]] = 0.
Proof.
  cbv zeta.
  apply (remap_unit (DC := mem_disk_client) (demo_request 3 0 9 (demo_unit_map 0 2))
    (demo_request 1 0 0 []) demo_cached);
    [apply cache_store_shape, demo_shape|apply demo_cached_coherent
    |repeat constructor; done|done..].
Defined.

(** The state strings round-trip: SET_STATE with any URI and path within
    the limits succeeds, and a GET_STATE afterwards returns exactly their
    lengths and bytes, padded with NULs to the size of the fields. *)
Theorem state_roundtrip {C} `{!NioClient C} req greq (m : dos_state C) uri path :
  q_unit req < FN_MAX_DEV -> q_count req = sizeof_state ->
  length (q_buffer req) = Z.to_nat sizeof_state -> bytes_ok (q_buffer req) ->
  (q_buffer req).[0] = FUJI_IOCTL_SET_STATE ->
  Z.of_nat (length uri) <= FUJI_IOCTL_MAX_URI ->
  Z.of_nat (length path) <= FUJI_IOCTL_MAX_PATH ->
  nio_disk_get_u16le (q_buffer req) 8 = Z.of_nat (length uri) ->
  nio_disk_get_u16le (q_buffer req) 10 = Z.of_nat (length path) ->
  slice (q_buffer req) 12 (length uri) = uri ->
  slice (q_buffer req) 268 (length path) = path ->
  q_unit greq < FN_MAX_DEV -> q_count greq = sizeof_state ->
  length (q_buffer greq) = Z.to_nat sizeof_state -> bytes_ok (q_buffer greq) ->
  (q_buffer greq).[0] = FUJI_IOCTL_GET_STATE ->
  let '(status, _, m') := handle_ioctl_buffer req m in
  let '(gstatus, greq', m'') := handle_ioctl_buffer greq m' in
  status = OP_COMPLETE /\ gstatus = OP_COMPLETE /\ m'' = m' /\
  slice (q_buffer greq') 8 388
  = [Z.of_nat (length uri) mod 256; Z.of_nat (length uri) / 256;
     Z.of_nat (length path) mod 256; Z.of_nat (length path) / 256]
    ++ (uri ++ zeros (256 - length uri)) ++ (path ++ zeros (128 - length path)).
Proof.
  intros Hu Hc Hl Hb H0 Hul Hpl Hue Hpe Hus Hps Hgu Hgc Hgl Hgb Hg0.
  rewrite set_state_inv by (done || lia). rewrite Hue, Hpe. cbv zeta.
  set (m1 := set_display_path _ _). rewrite get_state_inv by done.
  split_and!; try done. cbn [set_q_buffer q_buffer].
  unfold FUJI_IOCTL_MAX_URI, FUJI_IOCTL_MAX_PATH in *.
  change (nio_current_uri_len m1) with (Z.of_nat (length uri)).
  change (nio_display_path_len m1) with (Z.of_nat (length path)).
  replace (nio_current_uri m1) with (uri ++ zeros (256 - length uri)).
  2:{ unfold m1. simpl. unfold set_text. rewrite Nat2Z.id.
      change (Z.to_nat 12) with 12%nat. by rewrite Hus, overwrite_zeros by lia. }
  replace (nio_display_path m1) with (path ++ zeros (128 - length path)).
  2:{ unfold m1. simpl. unfold set_text. rewrite Nat2Z.id.
      change (Z.to_nat 268) with 268%nat. by rewrite Hps, overwrite_zeros by lia. }
  assert (length (fill_query (q_unit greq) sizeof_state (q_buffer greq)) = 396%nat) as Hfl
    by (rewrite length_fill_query by (rewrite Hgl; vm_compute; lia); done).
  rewrite <- (Z.mod_small (Z.of_nat (length uri) / 256) 256) by width_lia.
  rewrite <- (Z.mod_small (Z.of_nat (length path) / 256) 256) by width_lia.
  apply state_block; [exact Hfl|unfold zeros; rewrite length_app, length_replicate; lia..].
Qed.

Definition demo_state_block (command : Z) (uri path : list Z) : list Z :=
  [command; 0; 0; 0; 0; 0; 0; 0; Z.of_nat (length uri); 0; Z.of_nat (length path); 0]
  ++ (uri ++ zeros (256 - length uri)) ++ path ++ zeros (128 - length path).

Lemma state_roundtrip_witness :
  let '(status, _, m') := handle_ioctl_buffer
    (demo_request 3 0 396 (demo_state_block 2 [104; 105] [47])) (demo_driver 1) in
  let '(gstatus, greq', m'') := handle_ioctl_buffer (demo_request 3 0 396
    (demo_state_block 1 [] [])) m' in
  status = OP_COMPLETE /\ gstatus = OP_COMPLETE /\ m'' = m' /\
  slice (q_buffer greq') 8 388
  = [2 mod 256; 2 / 256; 1 mod 256; 1 / 256]
    ++ ([104; 105] ++ zeros 254) ++ ([47] ++ zeros 127).
Proof.
  apply (state_roundtrip (demo_request 3 0 396 (demo_state_block 2 [104; 105] [47]))
    (demo_request 3 0 396 (demo_state_block 1 [] [])) (demo_driver 1) [104; 105] [47]);
    try done; unfold demo_request, demo_state_block, bytes_ok; simpl;
    repeat constructor; done.
Defined.

(** A NIO call overwrites its own device number: whatever device an
    accepted control block addressed, after the call the byte of its [device]
    field holds the number of units, because the reply is stamped through the
    query layout, in which that byte is [max_units]. *)
Theorem nio_call_clobbers_device {C} `{!NioClient C} call unit (m : dos_state C) :
  (14 <= length call)%nat ->
  let '(status, call', _) := nio_handle_control_call call unit m in
  (status = OP_COMPLETE /\ call'.[7] = FN_MAX_DEV) \/
  (status = dos_error BAD_REQ_LEN /\ call' = call).
Proof.
  intros Hl. unfold nio_handle_control_call.
  case_test; [by right|]. case_test.
  { repeat (case_test; [by right|]). left. split; [done|]. apply fill_query_device.
    unfold nio_disk_put_u16le. rewrite !length_put_at. lia. }
  destruct (cl_call _ _ _ _ _ _ _) as [[[ok data] response] c].
  assert (forall a b, (8 <= length (put_diag c (nio_disk_put_u16le
    (put_at (take 14 call ++ data) 9 a) 12 b)))%nat) as Hd.
  { intros. unfold put_diag, nio_disk_put_u16le. rewrite !length_put_at, length_app, length_take. lia. }
  destruct (negb ok); left; (split; [done|]); apply fill_query_device; apply Hd.
Qed.

Lemma nio_call_clobbers_device_witness :
  let call := [5; 0; 0; 0; 0; 0; 0; 252; 5; 0; 2; 0; 16; 0] ++ zeros 520 in
  let '(status, call', _) := nio_handle_control_call call 0 (demo_driver 1) in
  (status = OP_COMPLETE /\ call'.[7] = FN_MAX_DEV) \/
  (status = dos_error BAD_REQ_LEN /\ call' = call).
Proof.
  cbv zeta.
  apply (nio_call_clobbers_device
    ([5; 0; 0; 0; 0; 0; 0; 252; 5; 0; 2; 0; 16; 0] ++ zeros 520) 0 (demo_driver 1)).
  rewrite length_app. simpl. lia.
Defined.
