(* ===== verification/DosConfig.v ===== *)
(** * Configuration and start-up helpers of the DOS driver

    The CONFIG.SYS line of init.c, the environment settings of commands.c and
    port_config.c, and the UART probe of id8250.c.  [getenv] is the C
    library's, given as a function from names to values; numbers are parsed as
    the library does, 16 bits wide for [int]. *)

From S2P Require Import Prelude CString.

#[local] Open Scope string_scope.
#[local] Open Scope list_scope.
#[local] Open Scope Z_scope.

(** ** The CONFIG.SYS line (init.c: parse_config) *)

Definition CR : Z := 13.
Definition LF : Z := 10.
Definition SPACE : Z := 32.
Definition EQUALS : Z := 61.

Definition IS_CONFIG_EOL (c : Z) : bool := (c =? CR) || (c =? LF).

(** Advance over a line; [None] when the memory given for it ends. *)
Fixpoint skip_while (p : Z -> bool) (l : list Z) : option (list Z) :=
  match l with
  | [] => None
  | c :: l' => if p c then skip_while p l' else Some l
  end.

Definition in_option (c : Z) : bool := negb (c =? SPACE) && negb (IS_CONFIG_EOL c).

(** The counting loop; each round consumes at least one byte or ends. *)
Fixpoint count_options (fuel : nat) (cfg : list Z) (count : nat) : option nat :=
  match fuel with
  | O => None
  | S fuel' =>
      match skip_while in_option cfg with
      | Some (c :: rest) =>
          if negb (c =? SPACE) then Some (S count) else
          match skip_while (Z.eqb SPACE) (c :: rest) with
          | Some cfg => count_options fuel' cfg (S count)
          | None => None
          end
      | _ => None
      end
  end.

(** The conversion buffer: [cv_out] is what was written from its start on, so
    [buf] is the start plus its length; [cv_ptrs] are [cfg_env[0..]]. *)
Record conversion := mkConv {
  cv_out : list Z;
  cv_ptrs : list Z
}.

(** One option up to a space, the end of the line or the end of the buffer. *)
Fixpoint copy_option (cfg : list Z) (buf buf_max : Z) (out : list Z) (eq_flag : bool)
    : option (list Z * Z * list Z * bool) :=
  match cfg with
  | [] => None
  | c :: cfg' =>
      if in_option c then
        let eq_flag := eq_flag || (c =? EQUALS) in
        if buf + 1 =? buf_max then Some (cfg, buf + 1, out ++ [c], eq_flag)
        else copy_option cfg' (buf + 1) buf_max (out ++ [c]) eq_flag
      else Some (cfg, buf, out, eq_flag)
  end.

(** The conversion loop with [n = count - idx] options left; the pointers of
    complete options are kept, as [cfg_env[idx] = 0] drops a partial one. *)
Fixpoint convert_options (n : nat) (cfg : list Z) (buf buf_max : Z) (s : conversion)
    : option (Z * conversion) :=
  match n with
  | O => Some (buf, s)
  | S n' =>
      if negb (buf <? buf_max) then Some (buf, s) else
      match copy_option cfg buf buf_max (cv_out s) false with
      | None => None
      | Some (cfg, buf1, out, eq_flag) =>
          if buf1 =? buf_max then Some (buf1, mkConv out (cv_ptrs s)) else
          let out2 := if eq_flag then out else out ++ [EQUALS] in
          let buf2 := if eq_flag then buf1 else buf1 + 1 in
          if buf2 =? buf_max then Some (buf2, mkConv out2 (cv_ptrs s)) else
          match skip_while (Z.eqb SPACE) cfg with
          | None => None
          | Some cfg =>
              convert_options n' cfg (buf2 + 1) buf_max
                (mkConv (out2 ++ [0]) (cv_ptrs s ++ [buf]))
          end
      end
  end.

(** Offsets are relative to [config_env]; [env_size] is [driver_end -
    config_env] and pointers have two bytes.  Returns what the function
    returns, the offset of the strings and the strings with their pointers. *)
Definition parse_config (env_size : Z) (config_sys : list Z)
    : option (Z * Z * conversion) :=
  let empty := mkConv [] [] in
  match skip_while (fun c => (SPACE <? c) && negb (IS_CONFIG_EOL c)) config_sys with
  | Some (c :: cfg) =>
      if negb (c =? 0) && negb (c =? SPACE) then Some (2, 2, empty) else
      match skip_while (Z.eqb SPACE) cfg with
      | Some (c :: rest) =>
          if IS_CONFIG_EOL c then Some (2, 2, empty) else
          let bcfg := c :: rest in
          match count_options (S (length bcfg)) bcfg 0 with
          | None => None
          | Some count =>
              let start := 2 * (Z.of_nat count + 1) in
              match convert_options count bcfg start env_size empty with
              | None => None
              | Some (buf, s) => Some (buf, start, s)
              end
          end
      | _ => None
      end
  | _ => None
  end.

Definition env_strings (start : Z) (s : conversion) : list (list Z) :=
  map (fun p => c_string (drop (Z.to_nat (p - start)) (cv_out s))) (cv_ptrs s).

(** ** Numbers (the C library's atoi and strtoul) *)

Definition is_space (c : Z) : bool := (c =? 32) || ((9 <=? c) && (c <=? 13)).
Definition is_digit (c : Z) : bool := (48 <=? c) && (c <=? 57).

(** The value of a digit in a base up to 16. *)
Definition digit_value (base c : Z) : option Z :=
  let v := if is_digit c then c - 48
           else if (97 <=? c) && (c <=? 102) then c - 87
           else if (65 <=? c) && (c <=? 70) then c - 55 else 99 in
  if v <? base then Some v else None.

Fixpoint parse_digits (base : Z) (s : list Z) (acc : Z) : Z :=
  match s with
  | [] => acc
  | c :: s' => match digit_value base c with
               | Some v => parse_digits base s' (acc * base + v)
               | None => acc
               end
  end.

Fixpoint skip_spaces (s : list Z) : list Z :=
  match s with
  | c :: s' => if is_space c then skip_spaces s' else s
  | [] => []
  end.

Definition parse_signed (base : Z) (s : list Z) : Z :=
  match skip_spaces s with
  | 45 :: s' => - parse_digits base s' 0
  | 43 :: s' => parse_digits base s' 0
  | s' => parse_digits base s' 0
  end.

(** [(unsigned) atoi(value)], 16 bits wide. *)
Definition atoi_unsigned (s : list Z) : Z := u16 (parse_signed 10 s).

(** [strtoul(value, NULL, base)]: a hexadecimal prefix is accepted in base 16
    and values out of range saturate. *)
Definition strtoul (s : list Z) (base : Z) : Z :=
  let s := skip_spaces s in
  let '(neg, s) := match s with
                   | 45 :: s' => (true, s')
                   | 43 :: s' => (false, s')
                   | _ => (false, s)
                   end in
  let s := match s with
           | 48 :: 120 :: s' | 48 :: 88 :: s' => if base =? 16 then s' else s
           | _ => s
           end in
  let v := parse_digits base s 0 in
  if v >? 4294967295 then 4294967295 else if neg then u32 (- v) else v.

(** ** Driver settings (commands.c) *)

Definition MAX_BATCH_SECTORS : Z := 16.
Definition DEFAULT_BATCH_SECTORS : Z := 16.
Definition DEFAULT_IO_RETRIES : Z := 2.
Definition DEFAULT_NIO_RETRIES : Z := 2.
Definition DEFAULT_NETWORK_TIMEOUT_MS : Z := 15000.

Section Settings.
Variable getenv : string -> option (list Z).

Definition parse_sector_count (name : string) (default_value : Z) : Z :=
  match getenv name with
  | None => default_value
  | Some value =>
      let count := atoi_unsigned value in
      let count := if count <? 1 then 1 else count in
      let count := if count >? MAX_BATCH_SECTORS then MAX_BATCH_SECTORS else count in
      u8 count
  end.

Definition parse_retry_count (name : string) (default_value : Z) : Z :=
  match getenv name with
  | None => default_value
  | Some value =>
      let count := atoi_unsigned value in
      let count := if count >? MAX_BATCH_SECTORS then MAX_BATCH_SECTORS else count in
      u8 count
  end.

Definition parse_flag (name : string) (default_value : Z) : Z :=
  match getenv name with
  | None => default_value
  | Some value =>
      if (value.[0] =? 48) || (value.[0] =? 110) || (value.[0] =? 78) then 0 else 1
  end.

Definition parse_timeout_ms (name : string) (default_value : Z) : Z :=
  match getenv name with
  | None => default_value
  | Some value =>
      let timeout := atoi_unsigned value in
      let timeout := if timeout <? 250 then 250 else timeout in
      let timeout := if timeout >? 60000 then 60000 else timeout in
      u16 timeout
  end.

(** What [nio_driver_config_init] assigns, in the order of its lines. *)
Record settings := mkSettings {
  st_batch_sectors : Z;
  st_io_retries : Z;
  st_transport_retries : Z;
  st_debug_io : Z;
  st_auto_downshift : Z;
  st_network_timeout_ms : Z
}.

Definition nio_driver_settings : settings :=
  mkSettings
    (parse_sector_count "FUJI_BATCH_SECTORS" DEFAULT_BATCH_SECTORS)
    (parse_retry_count "FUJI_IO_RETRIES" DEFAULT_IO_RETRIES)
    (parse_retry_count "FUJI_NIO_RETRIES" DEFAULT_NIO_RETRIES)
    (parse_flag "FUJI_DEBUG_IO" 0)
    (parse_flag "FUJI_AUTO_DOWNSHIFT" 1)
    (parse_timeout_ms "FUJI_NET_TIMEOUT_MS" DEFAULT_NETWORK_TIMEOUT_MS).

(** ** The serial port (port_config.c) *)

Definition SERIAL_BPS : Z := 115200.
Definition COM1_UART : Z := 1016.
Definition COM2_UART : Z := 760.
Definition COM3_UART : Z := 1000.
Definition COM4_UART : Z := 744.

Definition to_lower (c : Z) : Z := if (65 <=? c) && (c <=? 90) then c + 32 else c.

(** [strchr(s, ',')] as an index. *)
Fixpoint find_comma (s : list Z) (i : nat) : option nat :=
  match s with
  | [] => None
  | c :: s' => if c =? 44 then Some i else find_comma s' (S i)
  end.

(** The UART base; with an empty port name the code reads the byte in front
    of the value, which is the ['='] of its environment string. *)
Definition port_base (fuji_port : list Z) : Z :=
  let port_len := match find_comma fuji_port 0 with
                  | Some i => i
                  | None => length fuji_port
                  end in
  let last := match port_len with O => EQUALS | S i => fuji_port.[i] end in
  if (fuji_port.[0] =? 48) && (to_lower fuji_port.[1] =? 120)
  then u16 (strtoul (drop 2 fuji_port) 16)
  else if to_lower last =? 104 then u16 (strtoul fuji_port 16)
  else
    let comp := parse_signed 10 fuji_port in
    if comp =? 2 then COM2_UART else if comp =? 3 then COM3_UART
    else if comp =? 4 then COM4_UART else COM1_UART.

(** The arguments of [port_init(base, divisor)]; [None] is the division by
    zero of [115200UL / bps].  The interrupt number is computed and unused. *)
Definition port_config_init : option (Z * Z) :=
  let bps := match getenv "FUJI_BPS" with
             | Some v => strtoul v 10
             | None => SERIAL_BPS
             end in
  let base := match getenv "FUJI_PORT" with
              | Some p => port_base p
              | None => COM1_UART
              end in
  if bps =? 0 then None else Some (base, u16 (115200 / bps)).
End Settings.

(** ** The UART probe (id8250.c) *)

Definition UART_8250 : Z := 0.
Definition UART_16450 : Z := 1.
Definition UART_16550 : Z := 2.
Definition UART_16550A : Z := 3.

Section Probe.
Context {W : Type} (inportb : Z -> W -> Z * W) (outportb : Z -> Z -> W -> W).
Variable port_uart_base : Z.

Definition port_identify_uart (w : W) : Z * W :=
  let w := outportb (port_uart_base + 7) 85 w in
  let '(val, w) := inportb (port_uart_base + 7) w in
  if negb (val =? 85) then (UART_8250, w) else
  let w := outportb (port_uart_base + 7) 170 w in
  let '(val, w) := inportb (port_uart_base + 7) w in
  if negb (val =? 170) then (UART_8250, w) else
  let w := outportb (port_uart_base + 2) 1 w in
  let '(val, w) := inportb (port_uart_base + 2) w in
  let val := Z.shiftr val 6 in
  if val =? 0 then (UART_16450, w)
  else if negb (val =? 3) then
    let w := outportb (port_uart_base + 2) 0 w in (UART_16550, w)
  else (UART_16550A, w).
End Probe.

(** ** Lemmas on the CONFIG.SYS line *)

(** An option as an environment string: without ['='] one is appended. *)
Definition has_eq (o : list Z) : bool := existsb (fun c => c =? EQUALS) o.
Definition env_form (o : list Z) : list Z := if has_eq o then o else o ++ [EQUALS].

(** Options separated by single spaces. *)
Fixpoint join_options (opts : list (list Z)) : list Z :=
  match opts with
  | [] => []
  | [o] => o
  | o :: opts' => o ++ SPACE :: join_options opts'
  end.

Definition option_ok (o : list Z) : Prop :=
  o <> [] /\ Forall (fun c => in_option c = true /\ c <> 0) o.

Definition strings_size (opts : list (list Z)) : Z :=
  foldr (fun o n => Z.of_nat (length (env_form o)) + 1 + n) 0 opts.

Lemma strings_size_nonneg opts : 0 <= strings_size opts.
Proof. induction opts as [|o opts IH]; simpl; [done|]. unfold strings_size in *. simpl. lia. Qed.

Lemma skip_while_all p a c rest :
  Forall (fun x => p x = true) a -> p c = false ->
  skip_while p (a ++ c :: rest) = Some (c :: rest).
Proof. induction 1 as [|x a Hx _ IH]; intros Hc; simpl; [by rewrite Hc|by rewrite Hx, IH]. Qed.

Lemma option_ok_in o : option_ok o -> Forall (fun c => in_option c = true) o.
Proof. intros [_ H]. eapply Forall_impl; [exact H|]. by intros x []. Qed.

(** The text behind an option: a space and more options, or the line's end. *)
Lemma join_cons o opts :
  join_options (o :: opts)
  = match opts with [] => o | _ => o ++ SPACE :: join_options opts end.
Proof. by destruct opts. Qed.

Lemma join_head opts rest :
  opts <> [] -> Forall option_ok opts ->
  exists c l, join_options opts ++ rest = c :: l /\ in_option c = true.
Proof.
  destruct opts as [|o opts]; [done|]. intros _ [[Hne Ho] _]%Forall_cons.
  destruct o as [|c o]; [done|]. apply Forall_cons in Ho as [[Hc _] _].
  exists c. rewrite join_cons. destruct opts; simpl; by eexists.
Qed.

Lemma in_option_not_space c : in_option c = true -> (SPACE =? c) = false.
Proof.
  unfold in_option. rewrite andb_true_iff, !negb_true_iff. intros [H _]. by rewrite Z.eqb_sym.
Qed.

(** Behind a space the next option starts. *)
Lemma skip_to_option opts rest :
  opts <> [] -> Forall option_ok opts ->
  skip_while (Z.eqb SPACE) (SPACE :: join_options opts ++ rest)
  = Some (join_options opts ++ rest).
Proof.
  intros Hne Ho. destruct (join_head opts rest Hne Ho) as (c&l&->&Hc).
  cbn [skip_while]. rewrite Z.eqb_refl. by rewrite in_option_not_space.
Qed.

Lemma count_options_spec opts fuel count rest :
  opts <> [] -> Forall option_ok opts -> (length (join_options opts) < fuel)%nat ->
  count_options fuel (join_options opts ++ CR :: rest) count
  = Some (count + length opts)%nat.
Proof.
  revert fuel count. induction opts as [|o opts IH]; [done|].
  intros fuel count _ [Ho Hos]%Forall_cons Hf. destruct fuel as [|fuel]; [lia|].
  cbn [count_options]. rewrite join_cons in *.
  destruct opts as [|o' opts].
  - rewrite skip_while_all by (done || by apply option_ok_in). simpl.
    f_equal. lia.
  - rewrite <- app_assoc. cbn [app].
    rewrite skip_while_all by (done || by apply option_ok_in).
    change (negb (SPACE =? SPACE)) with false. cbv iota.
    rewrite skip_to_option by done.
    rewrite IH; [|done|done|].
    + f_equal. simpl. lia.
    + rewrite length_app in Hf. cbn [length] in Hf. lia.
Qed.

Lemma copy_option_spec o c rest buf buf_max out eq :
  Forall (fun x => in_option x = true) o -> in_option c = false ->
  buf + Z.of_nat (length o) < buf_max ->
  copy_option (o ++ c :: rest) buf buf_max out eq
  = Some (c :: rest, buf + Z.of_nat (length o), out ++ o, eq || has_eq o).
Proof.
  intros Ho Hc. revert buf out eq. induction Ho as [|x o Hx _ IH]; intros buf out eq Hb.
  - simpl. rewrite Hc, app_nil_r, orb_false_r. do 3 f_equal. f_equal. lia.
  - simpl in Hb. cbn [app copy_option]. rewrite Hx.
    destruct (Z.eqb_spec (buf + 1) buf_max); [lia|].
    rewrite IH by lia. simpl. rewrite <- app_assoc, orb_assoc. simpl.
    do 3 f_equal. f_equal. lia.
Qed.

(** The pointers and the text of converted options. *)
Fixpoint option_ptrs (buf : Z) (opts : list (list Z)) : list Z :=
  match opts with
  | [] => []
  | o :: opts' => buf :: option_ptrs (buf + Z.of_nat (length (env_form o)) + 1) opts'
  end.

Definition option_text (opts : list (list Z)) : list Z :=
  opts ≫= (fun o => env_form o ++ [0]).

Lemma convert_options_spec opts rest buf buf_max s :
  Forall option_ok opts -> buf + strings_size opts <= buf_max ->
  convert_options (length opts) (join_options opts ++ CR :: rest) buf buf_max s
  = Some (buf + strings_size opts,
          mkConv (cv_out s ++ option_text opts) (cv_ptrs s ++ option_ptrs buf opts)).
Proof.
  revert buf s. induction opts as [|o opts IH]; intros buf s Hos Hb.
  { destruct s as [out ptrs]. simpl. by rewrite !app_nil_r, Z.add_0_r. }
  apply Forall_cons in Hos as [Ho Hos]. pose proof (strings_size_nonneg opts) as Hnn.
  assert (strings_size (o :: opts)
          = Z.of_nat (length (env_form o)) + 1 + strings_size opts) as Es by done.
  rewrite Es in Hb. cbn [length convert_options].
  assert (Z.of_nat (length (env_form o))
          = Z.of_nat (length o) + (if has_eq o then 0 else 1)) as El.
  { unfold env_form. case_test; rewrite ?length_app; simpl; lia. }
  destruct (Z.ltb_spec buf buf_max); [|lia]. cbn [negb].
  assert (exists c tl, join_options (o :: opts) ++ CR :: rest = o ++ c :: tl /\
            in_option c = false /\
            skip_while (Z.eqb SPACE) (c :: tl) = Some (join_options opts ++ CR :: rest))
    as (c&tl&->&Hc&Hskip).
  { rewrite join_cons. destruct opts as [|o' opts].
    - exists CR, rest. done.
    - exists SPACE. eexists. rewrite <- app_assoc. split_and!; [done|done|].
      by apply skip_to_option. }
  rewrite copy_option_spec; [|by apply option_ok_in|done|destruct (has_eq o); lia].
  destruct (Z.eqb_spec (buf + Z.of_nat (length o)) buf_max); [destruct (has_eq o); lia|].
  cbn [orb].
  destruct (Z.eqb_spec (if has_eq o then buf + Z.of_nat (length o)
                        else buf + Z.of_nat (length o) + 1) buf_max);
    [destruct (has_eq o); lia|].
  rewrite Hskip.
  replace ((if has_eq o then buf + Z.of_nat (length o)
            else buf + Z.of_nat (length o) + 1) + 1)
    with (buf + Z.of_nat (length (env_form o)) + 1) by (destruct (has_eq o); lia).
  rewrite IH by (done || lia). f_equal. f_equal; [rewrite Es; lia|].
  cbn [cv_out cv_ptrs option_ptrs]. unfold option_text. rewrite bind_cons.
  rewrite <- !app_assoc. f_equal. unfold env_form.
  destruct (has_eq o); rewrite <- ?app_assoc; done.
Qed.

Lemma env_form_nonzero o : option_ok o -> Forall (fun c => c <> 0) (env_form o).
Proof.
  intros [_ Ho]. assert (Forall (fun c => c <> 0) o)
    by (eapply Forall_impl; [exact Ho|]; by intros x []).
  unfold env_form. case_test; [done|]. apply Forall_app_2; [done|]. by repeat constructor.
Qed.

Lemma option_strings pre start buf opts :
  Forall option_ok opts -> buf = start + Z.of_nat (length pre) ->
  map (fun p => c_string (drop (Z.to_nat (p - start)) (pre ++ option_text opts)))
    (option_ptrs buf opts) = map env_form opts.
Proof.
  revert pre buf. induction opts as [|o opts IH]; intros pre buf Hos Hb; [done|].
  apply Forall_cons in Hos as [Ho Hos]. cbn [option_ptrs map]. f_equal.
  - replace (Z.to_nat (buf - start)) with (length pre) by lia.
    rewrite drop_app_length. unfold option_text. rewrite bind_cons, <- app_assoc.
    by apply c_string_app, env_form_nonzero.
  - unfold option_text. rewrite bind_cons, app_assoc. fold (option_text opts).
    apply IH; [done|]. rewrite !length_app. simpl. lia.
Qed.

(** ** Properties *)

(** The CONFIG.SYS line: for a line that names the driver and then gives
    options separated by single spaces, and whose strings fit the buffer, the
    environment that [getenv] will see consists of exactly these options in
    order, each completed by an ['='] when it has none; and the value returned
    is the number of bytes of the buffer that are in use. *)
Theorem parse_config_options env_size name opts rest :
  Forall (fun c => 32 < c) name -> opts <> [] -> Forall option_ok opts ->
  2 * (Z.of_nat (length opts) + 1) + strings_size opts <= env_size ->
  exists start s,
    parse_config env_size (name ++ SPACE :: join_options opts ++ CR :: rest)
    = Some (2 * (Z.of_nat (length opts) + 1) + strings_size opts, start, s) /\
    env_strings start s = map env_form opts.
Proof.
  intros Hname Hne Hos Hfit. unfold parse_config.
  rewrite skip_while_all; [|eapply Forall_impl; [exact Hname|]; intros x Hx; simpl in Hx |- *|done].
  2:{ unfold IS_CONFIG_EOL, CR, LF, SPACE.
      destruct (Z.ltb_spec 32 x); [|lia]. destruct (Z.eqb_spec x 13), (Z.eqb_spec x 10); done || lia. }
  change (negb (SPACE =? 0) && negb (SPACE =? SPACE)) with false. cbv iota.
  destruct (join_head opts (CR :: rest) Hne Hos) as (c&l&Ej&Hc).
  rewrite Ej. cbn [skip_while]. rewrite in_option_not_space by done.
  assert (IS_CONFIG_EOL c = false) as ->
    by (unfold in_option in Hc; by apply andb_true_iff in Hc as [_ ?%negb_true_iff]).
  rewrite <- Ej. rewrite count_options_spec; [|done|done|rewrite length_app; simpl; lia].
  cbn [Nat.add]. rewrite convert_options_spec by (done || lia).
  eexists _, _. split; [reflexivity|].
  apply (option_strings [] _ _ opts Hos). simpl. lia.
Qed.

Lemma parse_config_options_witness :
  exists start s,
    parse_config 256 (bytes_of_string "FUJINET.SYS" ++ SPACE :: join_options
      [bytes_of_string "FUJI_PORT=2"; bytes_of_string "FUJI_DEBUG_IO"] ++ CR :: [10])
    = Some (2 * (2 + 1) + strings_size
        [bytes_of_string "FUJI_PORT=2"; bytes_of_string "FUJI_DEBUG_IO"], start, s) /\
    env_strings start s
    = map env_form [bytes_of_string "FUJI_PORT=2"; bytes_of_string "FUJI_DEBUG_IO"].
Proof.
  apply (parse_config_options 256 (bytes_of_string "FUJINET.SYS")
    [bytes_of_string "FUJI_PORT=2"; bytes_of_string "FUJI_DEBUG_IO"] [10]).
  - repeat constructor; done.
  - done.
  - repeat constructor; done.
  - vm_compute. done.
Defined.

Lemma settings_batch_range getenv :
  1 <= st_batch_sectors (nio_driver_settings getenv) <= 16.
Proof.
  cbn. unfold parse_sector_count, MAX_BATCH_SECTORS, DEFAULT_BATCH_SECTORS.
  destruct (getenv _) as [v|]; [|lia].
  assert (0 <= atoi_unsigned v < 65536) by apply u16_range.
  repeat case_test; rewrite ?u8_id by (unfold is_u8; lia); lia.
Qed.

(** The settings stay in range whatever the environment says: batches of
    1 to 16 sectors, at most 16 retries of either kind, flags 0 or 1, and a
    network timeout between 250 and 60000 ms. *)
Theorem settings_in_range getenv :
  let s := nio_driver_settings getenv in
  1 <= st_batch_sectors s <= 16 /\ 0 <= st_io_retries s <= 16 /\
  0 <= st_transport_retries s <= 16 /\
  (st_debug_io s = 0 \/ st_debug_io s = 1) /\
  (st_auto_downshift s = 0 \/ st_auto_downshift s = 1) /\
  250 <= st_network_timeout_ms s <= 60000.
Proof.
  assert (forall v, 0 <= atoi_unsigned v < 65536) as Ha by (intros; apply u16_range).
  unfold nio_driver_settings. cbn.
  unfold parse_sector_count, parse_retry_count, parse_flag, parse_timeout_ms,
    MAX_BATCH_SECTORS, DEFAULT_BATCH_SECTORS, DEFAULT_IO_RETRIES, DEFAULT_NIO_RETRIES,
    DEFAULT_NETWORK_TIMEOUT_MS.
  split_and!; (destruct (getenv _) as [v|]; [pose proof (Ha v)|]);
    repeat case_test; rewrite ?u8_id, ?u16_id by (unfold is_u8, is_u16; lia);
    (lia || by left || by right).
Qed.

(** The environment may reach behind the driver's resident end: Init_cmd
    takes the returned count for the number of unused bytes and reports
    [driver_end - count] as the end of the driver, so for a long line the
    strings that were converted lie behind that end; with the 256 bytes of
    header.asm an option of 130 characters does it. *)
Theorem config_strings_not_resident :
  exists name opts used start s,
    parse_config 256 (name ++ SPACE :: join_options opts ++ [CR]) = Some (used, start, s) /\
    env_strings start s = map env_form opts /\ used <= 256 /\ 256 - used < used - 1.
Proof.
  exists (bytes_of_string "FUJINET.SYS"), [replicate 130 65]. eexists _, _, _.
  split; [vm_compute; reflexivity|]. vm_compute. done.
Qed.

(** The serial divisor: for a rate of 2 to 115200 bits per second the
    divisor programmed is the largest whose rate is at least the one asked
    for, it fits the two latch registers, and it is not 0; a rate of 0, which
    is what a value that is not a number means, divides by zero. *)
Theorem serial_divisor getenv value :
  getenv "FUJI_BPS" = Some value ->
  let bps := strtoul value 10 in
  (bps = 0 -> port_config_init getenv = None) /\
  (2 <= bps <= 115200 ->
   exists base divisor,
     port_config_init getenv = Some (base, divisor) /\
     1 <= divisor < 65536 /\ divisor * bps <= 115200 < (divisor + 1) * bps).
Proof.
  intros Hv. unfold port_config_init. rewrite Hv. cbv zeta. split.
  - intros ->. done.
  - intros Hb. destruct (Z.eqb_spec (strtoul value 10) 0); [lia|].
    eexists _, _. split; [reflexivity|].
    set (bps := strtoul value 10) in *. clearbody bps.
    assert (1 <= 115200 / bps <= 57600) as Hd.
    { split; [apply Z.div_le_lower_bound; lia|].
      etransitivity; [apply (Z.div_le_compat_l 115200 2 bps); lia|done]. }
    rewrite u16_id by (unfold is_u16; lia). split; [lia|].
    pose proof (Z.mul_div_le 115200 bps ltac:(lia)).
    pose proof (Z.mul_succ_div_gt 115200 bps ltac:(lia)). nia.
Qed.

Lemma serial_divisor_witness :
  let getenv name := if String.eqb name "FUJI_BPS" then Some (bytes_of_string "9600") else None in
  (9600 = 0 -> port_config_init getenv = None) /\
  (2 <= 9600 <= 115200 ->
   exists base divisor,
     port_config_init getenv = Some (base, divisor) /\
     1 <= divisor < 65536 /\ divisor * 9600 <= 115200 < (divisor + 1) * 9600).
Proof.
  cbv zeta.
  apply (serial_divisor (fun name => if String.eqb name "FUJI_BPS"
    then Some (bytes_of_string "9600") else None) (bytes_of_string "9600")).
  reflexivity.
Defined.

(** ** Four UARTs

    What the data sheets say of the registers the probe uses: the 8250 has no
    scratch register, the 16450 has one and no FIFO, the 16550 reports its
    broken FIFO in one bit of IIR and the 16550A in two. *)
Inductive chip := Chip8250 | Chip16450 | Chip16550 | Chip16550A.

Record uart_regs := mkRegs { rg_scratch : Z; rg_fifo : bool }.

Definition chip_out (base : Z) (k : chip) (port v : Z) (r : uart_regs) : uart_regs :=
  if port =? base + 7 then mkRegs v (rg_fifo r)
  else if port =? base + 2 then mkRegs (rg_scratch r) (negb (Z.land v 1 =? 0))
  else r.

Definition chip_in (base : Z) (k : chip) (port : Z) (r : uart_regs) : Z * uart_regs :=
  (if port =? base + 7 then
     match k with Chip8250 => 255 | _ => rg_scratch r end
   else if port =? base + 2 then
     match k with
     | Chip16550 => if rg_fifo r then 129 else 1
     | Chip16550A => if rg_fifo r then 193 else 1
     | _ => 1
     end
   else 0, r).

(** The UART probe tells the four chips apart, and leaves the FIFO enabled
    exactly on the one whose FIFO works. *)
Theorem uart_identified base k r :
  let '(kind, r') := port_identify_uart (chip_in base k) (chip_out base k) base r in
  kind = match k with
         | Chip8250 => UART_8250 | Chip16450 => UART_16450
         | Chip16550 => UART_16550 | Chip16550A => UART_16550A
         end /\
  (k = Chip16550 -> rg_fifo r' = false) /\ (k = Chip16550A -> rg_fifo r' = true).
Proof.
  unfold port_identify_uart, chip_in, chip_out.
  assert ((base + 2 =? base + 7) = false) as E by lia.
  destruct k; rewrite !Z.eqb_refl; cbn -[Z.eqb Z.add]; try done;
    rewrite ?Z.eqb_refl, ?E; cbn -[Z.add]; rewrite ?Z.eqb_refl, ?E; done.
Qed.
