(* ===== verification/DosInit.v ===== *)
(** * The assembled DOS driver (msdos/src/driver/init.c, dispatch.c)

    nio.c as the client of commands.c, the initialisation of the driver and
    the dispatch of DOS requests.  [getenv] over an environment block is the C
    library's and a parameter, as is the address of [driver_end]; the UART's
    own registers are left to DosConfig. *)

From S2P Require Import Prelude CString NioProtocol NioDiskProtocol NioTransaction Slip NioDriver DosCommands DosDisk DosProps DosConfig.
#[local] Open Scope Z_scope.

(** ** nio.c below commands.c *)

#[export] Instance nio_client {W} (ops : port_ops W) : NioClient (nio_state W) := {
  cl_disk_info slot info g :=
    let '(r, i, g) := nio_disk_info ops slot (Some info) g in (r, default info i, g);
  cl_clear_changed := nio_disk_clear_changed ops;
  cl_read_sector slot lba buf len br g :=
    let '(r, b, n, g) := nio_disk_read_sector ops slot lba (Some buf) len (Some br) g in
    (r, default buf b, default br n, g);
  cl_read_sectors slot lba count buf len br g :=
    let '(r, b, n, g) :=
      nio_disk_read_sectors ops slot lba count (Some buf) len (Some br) g in
    (r, default buf b, default br n, g);
  cl_write_sectors slot lba count buf len bw g :=
    let '(r, n, g) :=
      nio_disk_write_sectors ops slot lba count (Some buf) len (Some bw) g in
    (r, default bw n, g);
  cl_call device command payload plen reply cap g :=
    let '(ok, reply, response, g) :=
      nio_call ops device command (Some payload) plen (ReplyBuffer reply) cap
        (Some (mkResponse 0 0)) g in
    (ok, reply_bytes reply, response_or_zero response, g);
  cl_begin_host_session := nio_disk_begin_host_session ops;
  cl_set_config retries timeout g :=
    set_network_timeout timeout (set_transport_retries retries g);
  cl_last_error := nio_last_error;
  cl_last_status := nio_last_status;
  cl_last_rx_len := nio_last_rx_len;
  cl_last_expected_len := nio_last_expected_len;
  cl_last_lsr := nio_last_lsr
}.

(** ** Initialisation *)

Section Init.
Context {C : Type} `{!NioClient C}.
Variable getenv_of : list (list Z) -> string -> option (list Z).
Variable driver_end : Z.
Implicit Types m : dos_state C.

Definition CONFIG_ENV_SIZE : Z := 256.

(** [nio_driver_config_init]: the settings into the statics and nio.c. *)
Definition nio_driver_config_init (getenv : string -> option (list Z)) m : dos_state C :=
  let s := nio_driver_settings getenv in
  m |> set_batch_sectors (st_batch_sectors s)
    |> set_io_retries (st_io_retries s)
    |> set_client (cl_set_config (st_transport_retries s) (st_network_timeout_ms s)
                     (m_client m))
    |> set_debug_io (st_debug_io s)
    |> set_auto_downshift (st_auto_downshift s).

(** 0 when the DiskService answers. *)
Definition probe_fujinet_nio m : Z * dos_state C :=
  let '(_, c) := cl_begin_host_session 1 (m_client m) in
  let '(ok, _, c) := cl_disk_info 1 no_info c in
  (if negb ok then 1 else 0, set_client c m).

Definition initial_bpb : DOS_BPB := mkBpb 512 2 1 2 112 720 253 2 9 2 0 0.

(** The loop over the units, from [idx] on. *)
Fixpoint init_bpb_loop (n idx : nat) m : dos_state C :=
  match n with
  | O => m
  | S n' =>
      let m := set_bpb_table (<[idx := initial_bpb]> (fn_bpb_table m)) m in
      let m := set_bpb_pointers (<[idx := Some idx]> (fn_bpb_pointers m)) m in
      init_bpb_loop n' (S idx) m
  end.

(** The result also gives the arguments of [port_init].  [None]: the line
    does not end, or the division by zero of [port_config_init]. *)
Definition Init_cmd (req : SYSREQ) m : option (Z * SYSREQ * dos_state C * (Z * Z)) :=
  match parse_config CONFIG_ENV_SIZE (q_config req) with
  | None => None
  | Some (unused, start, env) =>
      let getenv := getenv_of (env_strings start env) in
      let req := set_q_end_ptr (FarOffset (u16 (driver_end - unused))) req in
      match port_config_init getenv with
      | None => None
      | Some port =>
          let m := nio_driver_config_init getenv m in
          let '(err, m) := probe_fujinet_nio m in
          if negb (err =? 0) then
            let req := req |> set_q_num_units 0 |> set_q_end_ptr FarNull in
            Some (ERROR_BIT, req, m, port)
          else
            let req := set_q_num_units FN_MAX_DEV req in
            let m := init_bpb_loop (Z.to_nat FN_MAX_DEV) 0 m in
            let m := set_bpb_pointers
                       (<[Z.to_nat FN_MAX_DEV := None]> (fn_bpb_pointers m)) m in
            Some (OP_COMPLETE, set_q_table FarBpbArray req, m, port)
      end
  end.

(** ** Dispatch *)

(** The entries of [dispatchTable]. *)
Inductive driver_function :=
| FnInit | FnMediaCheck | FnBuildBpb | FnIoctlInput | FnInput | FnInputNoWait
| FnInputStatus | FnInputFlush | FnOutput | FnOutputVerify | FnOutputStatus
| FnOutputFlush | FnIoctlOutput | FnDevOpen | FnDevClose | FnRemoveMedia | FnUnknown
| FnIoctl | FnGetLDMap | FnSetLDMap.

Definition dispatchTable : list driver_function :=
  [FnInit; FnMediaCheck; FnBuildBpb; FnIoctlInput; FnInput;
   FnInputNoWait; FnInputStatus; FnInputFlush; FnOutput; FnOutputVerify;
   FnOutputStatus; FnOutputFlush; FnIoctlOutput; FnDevOpen; FnDevClose;
   FnRemoveMedia; FnUnknown; FnUnknown; FnUnknown; FnIoctl;
   FnUnknown; FnUnknown; FnUnknown; FnGetLDMap; FnSetLDMap].

Definition call_function (f : driver_function) (req : SYSREQ) m
    : option (Z * SYSREQ * dos_state C) :=
  match f with
  | FnInit => option_map (fun '(status, req, m, _) => (status, req, m)) (Init_cmd req m)
  | FnMediaCheck => Some (Media_check_cmd req m)
  | FnBuildBpb => Some (Build_bpb_cmd req m)
  | FnIoctlInput => Some (Ioctl_input_cmd req m)
  | FnInput => Input_cmd req m
  | FnInputFlush => Some (Input_flush_cmd req m)
  | FnOutput => Output_cmd req m
  | FnOutputVerify => Some (Output_verify_cmd req m)
  | FnIoctlOutput => Some (Ioctl_output_cmd req m)
  | FnDevOpen => Some (Dev_open_cmd req m)
  | FnGetLDMap | FnSetLDMap => Some (Ld_map_cmd req m)
  | FnInputNoWait | FnInputStatus | FnOutputStatus | FnOutputFlush | FnDevClose
  | FnRemoveMedia | FnUnknown | FnIoctl => Some (Unknown_cmd req m)
  end.

(** [Interrupt] on the request [Strategy] was given; the stack switch has no
    counterpart here. *)
Definition Interrupt (req : SYSREQ) m : option (SYSREQ * dos_state C) :=
  let finish status req m := Some (set_q_status (Z.lor status DONE_BIT) req, m) in
  if q_command req >? MAXCOMMAND then finish (dos_error UNKNOWN_CMD) req m else
  match nth_error dispatchTable (Z.to_nat (q_command req)) with
  | None => finish (dos_error UNKNOWN_CMD) req m
  | Some f =>
      match call_function f req m with
      | None => None
      | Some (status, req, m) => finish status req m
      end
  end.

(** ** Lemmas *)

Lemma init_bpb_loop_spec n idx m :
  length (fn_bpb_table m) = 8%nat -> length (fn_bpb_pointers m) = 9%nat ->
  (idx + n <= 8)%nat ->
  let m' := init_bpb_loop n idx m in
  length (fn_bpb_table m') = 8%nat /\ length (fn_bpb_pointers m') = 9%nat /\
  nio_batch_sectors m' = nio_batch_sectors m /\
  forall i, (idx <= i < idx + n)%nat ->
    fn_bpb_table m' !! i = Some initial_bpb /\ fn_bpb_pointers m' !! i = Some (Some i).
Proof.
  assert (forall n idx m i, (i < idx)%nat ->
    fn_bpb_table (init_bpb_loop n idx m) !! i = fn_bpb_table m !! i /\
    fn_bpb_pointers (init_bpb_loop n idx m) !! i = fn_bpb_pointers m !! i) as Hlow.
  { clear. intros n. induction n as [|n IH]; intros idx m i Hi; [done|]. simpl.
    destruct (IH (S idx) (set_bpb_pointers (<[idx:=Some idx]> (fn_bpb_pointers m))
      (set_bpb_table (<[idx:=initial_bpb]> (fn_bpb_table m)) m)) i ltac:(lia)) as [-> ->].
    simpl. rewrite !list_lookup_insert_ne by lia. done. }
  revert idx m. induction n as [|n IH]; intros idx m Ht Hp Hn.
  { split_and!; try done. intros; lia. }
  cbn [init_bpb_loop]. set (m1 := set_bpb_pointers _ _).
  destruct (IH (S idx) m1) as (?&?&?&Hi); 
    [unfold m1; simpl; rewrite length_insert; done..|lia|].
  split_and!; try done. intros i Hi'. destruct (decide (i = idx)) as [->|].
  - destruct (Hlow n (S idx) m1 idx ltac:(lia)) as [-> ->]. simpl.
    rewrite !list_lookup_insert_eq by lia. done.
  - apply Hi. lia.
Qed.
End Init.

Section InitFacts.
Context {C : Type} `{!NioClient C}.
Implicit Types m : dos_state C.

(** ** Termination of the dispatcher *)

Lemma interrupt_returns getenv_of driver_end req m :
  q_command req <> 0 -> 0 <= q_command req -> is_u16 (q_count req) ->
  0 <= request_sector req -> (forall u, is_u32 (sector_limit m u)) ->
  1 <= nio_batch_sectors m <= 255 ->
  exists req' m' status, Interrupt getenv_of driver_end req m = Some (req', m') /\
    q_status req' = Z.lor status DONE_BIT.
Proof.
  intros Hc0 Hc Hcnt Hs Hm Hb. unfold Interrupt.
  destruct (Z.gtb_spec (q_command req) MAXCOMMAND); [by eexists _, _, _|].
  destruct (nth_error dispatchTable (Z.to_nat (q_command req))) as [f|] eqn:Ef;
    [|by eexists _, _, _].
  assert (f <> FnInit) as Hf.
  { intros ->. unfold MAXCOMMAND in *.
    assert (Z.to_nat (q_command req) <> 0%nat) as Hz by lia.
    destruct (Z.to_nat (q_command req)) as [|k]; [done|]. simpl in Ef.
    do 24 (destruct k as [|k]; [discriminate Ef|]). by destruct k. }
  assert (is_Some (call_function getenv_of driver_end f req m)) as [[[st rq] m'] ->];
    [|by eexists _, _, _].
  destruct f; [by destruct Hf|..]; try by eexists.
  - by apply Input_total.
  - by apply Output_total.
Qed.
End InitFacts.

(** ** Properties *)

(** After a successful initialisation every unit has a BPB: when the
    DiskService answers, [Init_cmd] reports eight units and the array of BPB
    pointers, and every unit's pointer leads to the default 360 KB BPB, so
    that the handlers never follow a NULL pointer; when it does not, the
    driver reports no units and no resident part. *)
Theorem init_builds_bpbs {C} `{!NioClient C} getenv_of driver_end req (m : dos_state C)
    status req' m' port :
  length (fn_bpb_table m) = 8%nat -> length (fn_bpb_pointers m) = 9%nat ->
  Init_cmd getenv_of driver_end req m = Some (status, req', m', port) ->
  (status = OP_COMPLETE /\ q_num_units req' = FN_MAX_DEV /\ q_table req' = FarBpbArray /\
   nth 8 (fn_bpb_pointers m') (Some 0%nat) = None /\
   1 <= nio_batch_sectors m' <= 16 /\
   forall u, (u < 8)%nat ->
     bpb_pointer m' u = FarBpb u /\ sector_limit m' u = 720) \/
  (status = ERROR_BIT /\ q_num_units req' = 0 /\ q_end_ptr req' = FarNull).
Proof.
  intros Ht Hp. unfold Init_cmd.
  destruct (parse_config _ _) as [[[unused start] env]|]; [|done].
  destruct (port_config_init _) as [pc|]; [|done].
  set (m1 := nio_driver_config_init _ _).
  assert (length (fn_bpb_table m1) = 8%nat /\ length (fn_bpb_pointers m1) = 9%nat /\
    1 <= nio_batch_sectors m1 <= 16) as (Ht1&Hp1&Hb1).
  { split_and!; try done; apply (settings_batch_range (getenv_of (env_strings start env))). }
  unfold probe_fujinet_nio. destruct (cl_begin_host_session _ _) as [r0 c0].
  destruct (cl_disk_info _ _ _) as [[ok i0] c1].
  change (Z.to_nat FN_MAX_DEV) with 8%nat. clearbody m1.
  pose proof (init_bpb_loop_spec 8 0 (set_client c1 m1) Ht1 Hp1 (le_n 8)) as Hl.
  change (nio_batch_sectors (set_client c1 m1)) with (nio_batch_sectors m1) in Hl.
  cbv zeta in Hl. revert Hl. generalize (init_bpb_loop 8 0 (set_client c1 m1)).
  intros m2 (Htl&Hpl&Hb&Hi). destruct ok; cbn [negb Z.eqb].
  2:{ intros H. injection H as <- <- <- <-. by right. }
  intros H. injection H as <- <- <- <-. left.
  split_and!; try done.
  - cbn. by rewrite nth_lookup, list_lookup_insert_eq by lia.
  - cbn. rewrite Hb. apply Hb1.
  - cbn. rewrite Hb. apply Hb1.
  - intros u Hu. destruct (Hi u) as [H1 H2]; [lia|].
    unfold bpb_pointer, sector_limit. cbn.
    rewrite nth_lookup, list_lookup_insert_ne, H2 by lia. rewrite nth_lookup, H1. done.
Qed.

Definition demo_init_request : SYSREQ :=
  mkReq 22 0 0 0 [] 0 0 0 0 FarNull 0 0 FarNull
    (bytes_of_string "FUJINET.SYS FUJI_PORT=2" ++ [CR; LF]).

Lemma init_builds_bpbs_witness :
  exists status req' m' port,
    Init_cmd (fun _ _ => None) 20000 demo_init_request
      (dos_initial (mkMem (fun _ _ => []))) = Some (status, req', m', port) /\
    ((status = OP_COMPLETE /\ q_num_units req' = FN_MAX_DEV /\ q_table req' = FarBpbArray /\
      nth 8 (fn_bpb_pointers m') (Some 0%nat) = None /\
      1 <= nio_batch_sectors m' <= 16 /\
      forall u, (u < 8)%nat -> bpb_pointer m' u = FarBpb u /\ sector_limit m' u = 720) \/
     (status = ERROR_BIT /\ q_num_units req' = 0 /\ q_end_ptr req' = FarNull)).
Proof.
  destruct (Init_cmd (fun _ _ => None) 20000 demo_init_request
    (dos_initial (mkMem (fun _ _ => [])))) as [[[[status req'] m'] port]|] eqn:E.
  - exists status, req', m', port. split; [reflexivity|].
    apply (init_builds_bpbs (fun _ _ => None) 20000 demo_init_request
      (dos_initial (mkMem (fun _ _ => []))) status req' m' port); [done|done|exact E].
  - vm_compute in E. discriminate E.
Defined.

(** DOS always gets an answer: after initialisation [Interrupt] returns for
    every request but INIT -- known command or not, any unit, any count --
    with the done bit set in the status word, whatever the client does. *)
Theorem interrupt_completes {C} `{!NioClient C} getenv_of driver_end req (m : dos_state C) :
  1 <= q_command req -> is_u16 (q_count req) -> 0 <= request_sector req ->
  (forall u, is_u32 (sector_limit m u)) -> 1 <= nio_batch_sectors m <= 255 ->
  exists req' m', Interrupt getenv_of driver_end req m = Some (req', m') /\
    Z.testbit (q_status req') 8 = true.
Proof.
  intros Hc Hcnt Hs Hm Hb.
  destruct (interrupt_returns getenv_of driver_end req m) as (req'&m'&st&E&Hst);
    try done; try lia.
  exists req', m'. split; [done|]. rewrite Hst, Z.lor_spec. by apply orb_true_r.
Qed.

Lemma interrupt_completes_witness :
  exists req' m', Interrupt (fun _ _ => None) 20000 (demo_request 99 0 0 []) (demo_driver 1)
                  = Some (req', m') /\ Z.testbit (q_status req') 8 = true.
Proof.
  apply (interrupt_completes (fun _ _ => None) 20000 (demo_request 99 0 0 []) (demo_driver 1));
    try done.
  intros u. unfold sector_limit. simpl.
  do 8 (destruct u as [|u]; [done|]). by destruct u.
Defined.

(** Nio.c honours the buffer part of the client's contract: a multi-sector
    read, successful or not, leaves the caller's buffer with its length and
    unchanged behind the requested bytes, and reports no more bytes than were
    requested when it succeeds; with any port that respects its buffers. *)
Theorem driver_respects_buffer {W} `{!PortOk ops} slot lba count buf len br (g : nio_state W)
    ok buf' n g' :
  nio_ok ops g -> 0 <= len <= 65522 -> len <= Z.of_nat (length buf) ->
  cl_read_sectors (NioClient := nio_client ops) slot lba count buf len br g
    = (ok, buf', n, g') ->
  length buf' = length buf /\ drop (Z.to_nat len) buf' = drop (Z.to_nat len) buf /\
  (ok = true -> 0 <= n <= len).
Proof.
  intros Hg Hlen Hbl. cbn. unfold nio_disk_read_sectors.
  destruct (nio_call _ _ _ _ _ _ _ _ _) as [[[okc reply] response] g1] eqn:Ec.
  apply nio_call_spec in Ec as (Hg1&Hd&_); try done.
  destruct (finish_read _ _ _ _ _ _ _ _) as [[[r b] bn] g2] eqn:Ef.
  intros [= <- <- <- <-]. destruct r.
  - eapply (finish_read_ok ops NIO_DISK_CMD_READ_SECTORS _ 13 11 13) in Ef
      as (_&fields&payload&m&_&_&_&_&_&Hb1&Hb2&->&->); try done; try (simpl; lia).
    + simpl.
      assert (length (slice payload 13 (Z.to_nat m)) = Z.to_nat m) as Hsl
        by (apply length_slice; lia).
      split_and!; [rewrite length_overwrite; lia| |lia].
      unfold overwrite. rewrite Hsl. simpl. rewrite drop_app_ge by lia.
      rewrite drop_drop, Hsl. f_equal. lia.
    + intros Hok. destruct (Hd Hok) as (t&t'&st&da&Hdel&?&?&?&?&?&?).
      by exists t, t', st, da.
  - rewrite (finish_read_failed _ _ _ _ _ _ _ _ _ _ _ Ef). done.
Qed.

Lemma driver_respects_buffer_witness :
  exists ok buf' n g',
    cl_read_sectors (NioClient := nio_client playback_ops) 1 0 1 (zeros 4) 3 0
      (nio_initial (mkPlayback [demo_read_answer] 0)) = (ok, buf', n, g') /\
    length buf' = 4%nat /\ drop (Z.to_nat 3) buf' = drop (Z.to_nat 3) (zeros 4) /\
    (ok = true -> 0 <= n <= 3).
Proof.
  destruct (cl_read_sectors (NioClient := nio_client playback_ops) 1 0 1 (zeros 4) 3 0
    (nio_initial (mkPlayback [demo_read_answer] 0))) as [[[ok buf'] n] g'] eqn:E.
  exists ok, buf', n, g'. split; [reflexivity|].
  apply (driver_respects_buffer 1 0 1 (zeros 4) 3 0
    (nio_initial (mkPlayback [demo_read_answer] 0)) ok buf' n g');
    [apply nio_initial_ok|lia|simpl; lia|exact E].
Defined.
