(* ===== verification/DosConsole.v ===== *)
(** * Console output of the DOS driver (msdos/src/util/print.c)

    What the print functions send to the BIOS, character by character, in the
    build without DOS_SAFE.  Arguments of [consolef] are the 16-bit words on
    the stack; near and far texts are what memory holds from an address on.
    A format is the memory at the pointer, so that what lies behind its
    terminator can be seen too. *)

From S2P Require Import Prelude CString CLib.
#[local] Open Scope Z_scope.

(** ** Numbers *)

(** [for (tval = val, digits = 0; tval; tval = step(tval), digits++)]; eight
    turns are enough for 32 bits in base 16, ten in base 10. *)
Fixpoint count_digits (fuel : nat) (step : Z -> Z) (tval digits : Z) : Z :=
  match fuel with
  | O => digits
  | S fuel => if tval =? 0 then digits else count_digits fuel step (step tval) (u16 (digits + 1))
  end.

(** [for (; digits < width; width--) printChar(leading)]. *)
Fixpoint pad_loop (fuel : nat) (digits width leading : Z) : list Z :=
  match fuel with
  | O => []
  | S fuel => if digits <? width then leading :: pad_loop fuel digits (width - 1) leading else []
  end.
Definition padding (digits width leading : Z) : list Z := pad_loop (Z.to_nat width) digits width leading.

Definition hex_char (c : Z) : Z := u8 (48 + c + (if c >? 9 then 7 else 0)).

(** [while (digits)] of the hexadecimal printers. *)
Fixpoint hex_loop (digits : nat) (val : Z) : list Z :=
  match digits with
  | O => []
  | S digits => hex_char (Z.land (Z.shiftr val (4 * Z.of_nat digits)) 15) :: hex_loop digits val
  end.

Definition print_hex (val width leading : Z) : list Z :=
  let digits := count_digits 8 (fun tval => Z.shiftr tval 4) val 0 in
  let digits := if digits =? 0 then 1 else digits in
  padding digits width leading ++ hex_loop (Z.to_nat digits) val.
Definition printHex (val width leading : Z) : list Z := print_hex val width leading.
Definition printHex32 (val width leading : Z) : list Z := print_hex val width leading.

(** [for (tval = digits - 1, tens = 1; tval; tval--, tens *= 10)], with [tens]
    of the width [wrap] keeps. *)
Fixpoint tens_loop (wrap : Z -> Z) (tval : nat) (tens : Z) : Z :=
  match tval with
  | O => tens
  | S tval => tens_loop wrap tval (wrap (tens * 10))
  end.

(** [while (digits)] of the decimal printers. *)
Fixpoint dec_loop (digits : nat) (val tens : Z) : list Z :=
  match digits with
  | O => []
  | S digits => u8 (48 + val / tens mod 10) :: dec_loop digits val (tens / 10)
  end.

Definition print_dec (wrap : Z -> Z) (val width leading : Z) : list Z :=
  let digits := count_digits 10 (fun tval => tval / 10) val 0 in
  let digits := if digits =? 0 then 1 else digits in
  let tens := tens_loop wrap (Z.to_nat (digits - 1)) 1 in
  padding digits width leading ++ dec_loop (Z.to_nat digits) val tens.
Definition printDec (val width leading : Z) : list Z := print_dec u16 val width leading.
Definition printDec32 (val width leading : Z) : list Z := print_dec u32 val width leading.

(** ** Texts *)

(** [None] is a null pointer. *)
Definition printString (str : option (list Z)) : list Z :=
  match str with None => [] | Some text => c_string text end.
Definition printFarString (str : option (list Z)) : list Z := printString str.

Definition newline : list Z := [13; 10].

(** ** Hex dumps *)

(** One column of the bytes of a line; [inner + outer] is computed modulo
    2^16, as is the offset of a far pointer. *)
Fixpoint dump_bytes (n : nat) (inner outer count : Z) (buffer : list Z) : list Z :=
  match n with
  | O => []
  | S n =>
      (if u16 (inner + outer) <? count
       then printHex buffer.[Z.to_nat (u16 (inner + outer))] 2 48 ++ [32]
       else [32; 32; 32])
      ++ dump_bytes n (inner + 1) outer count buffer
  end.
Fixpoint dump_chars (n : nat) (inner outer count : Z) (buffer : list Z) : list Z :=
  match n with
  | O => []
  | S n =>
      if u16 (inner + outer) <? count then
        let c := buffer.[Z.to_nat (u16 (inner + outer))] in
        (if (c >=? 32) && (c <=? 127) then c else 46) :: dump_chars n (inner + 1) outer count buffer
      else []
  end.
Definition dump_line (outer count address : Z) (buffer : list Z) : list Z :=
  printHex (u16 (outer + address)) 4 48 ++ [32; 32]
  ++ dump_bytes 16 0 outer count buffer ++ [32; 124]
  ++ dump_chars 16 0 outer count buffer ++ [124] ++ newline.

(** [outer] is a signed 16-bit int that is compared as an unsigned one.
    [None] when the lines do not end within the fuel. *)
Fixpoint dump_loop (fuel : nat) (outer count address : Z) (buffer : list Z) : option (list Z) :=
  if outer <? count then
    match fuel with
    | O => None
    | S fuel =>
        rest ← dump_loop fuel (u16 (outer + 16)) count address buffer;
        Some (dump_line outer count address buffer ++ rest)
    end
  else Some [].
(** 4096 lines of 16 bytes are all that 16 bits of count ask for. *)
Definition dump_fuel : nat := 4096.
Definition dumpHex (buffer : list Z) (count address : Z) : option (list Z) :=
  dump_loop dump_fuel 0 count address buffer.

(** ** consolef *)

(** [va_arg] of two and four bytes, from the words on the stack. *)
Definition arg16 (args : list Z) : Z * list Z := (args.[0], drop 1 args).
Definition arg32 (args : list Z) : Z * list Z := (args.[0] + 65536 * args.[1], drop 2 args).

(** [for (width = 0; isdigit( *pf ); pf++)]: the width and [pf]. *)
Fixpoint width_loop (pf : list Z) (width : Z) : Z * list Z :=
  match pf with
  | c :: pf' => if is_digit c then width_loop pf' (u8 (u8 (width * 10) + (c - 48))) else (width, pf)
  | [] => (width, [])
  end.
(** The leader, the width and [pf] behind them. *)
Definition field (pf : list Z) : Z * Z * list Z :=
  if is_digit pf.[0] then
    let '(leader, pf) := if pf.[0] =? 48 then (48, drop 1 pf) else (32, pf) in
    let '(width, pf) := width_loop pf 0 in (leader, width, pf)
  else (32, 0, pf).

Section Console.
(** Memory from a near and from a far address on. *)
Variables near far : Z -> list Z.
Definition pointed (memory : Z -> list Z) (address : Z) : option (list Z) :=
  if address =? 0 then None else Some (memory address).

(** One conversion, at the character that names it: what it prints, and the
    arguments left. *)
Definition convert (is_long : bool) (c leader width : Z) (args : list Z) : list Z * list Z :=
  if is_long then
    let '(v, rest) := arg32 args in
    if c =? 120 then (printHex32 v width leader, rest)
    else if (c =? 105) || (c =? 100) then (printDec32 v width leader, rest)
    else if c =? 115 then (printFarString (pointed far v), rest)
    else ([], args)
  else
    let '(v, rest) := arg16 args in
    if c =? 120 then (printHex v width leader, rest)
    else if (c =? 105) || (c =? 100) then (printDec v width leader, rest)
    else if c =? 115 then (printString (pointed near v), rest)
    else ([], args).

(** The [case '%'], [pf] behind the per cent sign: what it prints, the
    arguments left, and [pf] at its last character. *)
Definition conversion_at (pf args : list Z) : list Z * list Z * list Z :=
  if pf.[0] =? 0 then ([], args, pf)
  else if pf.[0] =? 99 then let '(v, rest) := arg16 args in ([u8 v], rest, pf)
  else
    let '(leader, width, pf) := field pf in
    let '(is_long, pf) := if pf.[0] =? 108 then (true, drop 1 pf) else (false, pf) in
    let '(out, args) := convert is_long pf.[0] leader width args in
    (out, args, pf).

(** [for (pf = format; pf && *pf; pf++)]; every turn moves on. *)
Fixpoint console_loop (fuel : nat) (pf args : list Z) : list Z :=
  match fuel with
  | O => []
  | S fuel =>
      let c := pf.[0] in
      if c =? 0 then []
      else if c =? 10 then newline ++ console_loop fuel (drop 1 pf) args
      else if c =? 37 then
        let '(out, args, pf) := conversion_at (drop 1 pf) args in
        out ++ console_loop fuel (drop 1 pf) args
      else c :: console_loop fuel (drop 1 pf) args
  end.
Definition vconsolef (format args : list Z) : list Z := console_loop (S (length format)) format args.
Definition consolef (format args : list Z) : list Z := vconsolef format args.
End Console.
