(* ===== verification/DosConsoleProps.v ===== *)
(** * What the console shows

    A format is a list of [item]s; [shown] is what each is to look like, in
    terms of [decimal] and of the digits of a number in a base.  [consolef]
    shows exactly that, and reads past the format when it ends inside a
    conversion. *)

From S2P Require Import Prelude CString CLib DosConsole.
#[local] Open Scope Z_scope.

(** ** Digits, most significant first *)

(** The lowest [d] digits of [v]. *)
Fixpoint low_digits (base : Z) (d : nat) (v : Z) : list Z :=
  match d with
  | O => []
  | S d => hex_char (v / base ^ Z.of_nat d mod base) :: low_digits base d v
  end.
(** How many digits there are: one for 0. *)
Definition has_digits (base : Z) (d : nat) (v : Z) : Prop :=
  (1 <= d)%nat /\ 0 <= v < base ^ Z.of_nat d /\ ((2 <= d)%nat -> base ^ Z.of_nat (d - 1) <= v).
(** The digits of [v], the fuel being more than there are. *)
Fixpoint radix (base : Z) (fuel : nat) (v : Z) (tail : list Z) : list Z :=
  match fuel with
  | O => tail
  | S fuel =>
      let tail := hex_char (v mod base) :: tail in
      if v <? base then tail else radix base fuel (v / base) tail
  end.
Definition hexadecimal (v : Z) : list Z := radix 16 8 v [].

Lemma length_low_digits base d v : length (low_digits base d v) = d.
Proof. induction d; cbn; congruence. Qed.

Lemma low_digits_snoc base d v : 2 <= base ->
  low_digits base (S d) v = low_digits base d (v / base) ++ [hex_char (v mod base)].
Proof.
  intros Hb. induction d as [|d IH].
  { cbn. by rewrite Z.div_1_r. }
  change (low_digits base (S (S d)) v) with (hex_char (v / base ^ Z.of_nat (S d) mod base) :: low_digits base (S d) v).
  rewrite IH. cbn [low_digits app]. do 3 f_equal.
  rewrite Nat2Z.inj_succ, Z.pow_succ_r, Z.div_div by lia. done.
Qed.

Lemma radix_digits base d : 2 <= base -> forall fuel v tail, has_digits base d v -> (d <= fuel)%nat ->
  radix base fuel v tail = low_digits base d v ++ tail.
Proof.
  intros Hb. induction d as [|d IH]; intros fuel v tail (H1 & H2 & H3) Hf; [lia|].
  destruct fuel as [|fuel]; [lia|]. cbn [radix]. rewrite low_digits_snoc by done.
  destruct (Z.ltb_spec v base) as [Hv|Hv].
  - destruct d as [|d]; [done|]. exfalso. specialize (H3 ltac:(lia)).
    replace (S (S d) - 1)%nat with (S d) in H3 by lia. rewrite Nat2Z.inj_succ, Z.pow_succ_r in H3 by lia.
    pose proof (Z.pow_pos_nonneg base (Z.of_nat d)). nia.
  - destruct d as [|d]; [change (base ^ Z.of_nat 1) with (base * 1) in H2; lia|].
    rewrite IH; [by rewrite <- app_assoc| |lia].
    rewrite Nat2Z.inj_succ, Z.pow_succ_r in H2 by lia. split; [lia|]. split.
    + split; [apply Z.div_pos; lia|]. apply Z.div_lt_upper_bound; lia.
    + intros Hd. replace (S (S d) - 1)%nat with (S (S d - 1)) in H3 by lia.
      specialize (H3 ltac:(lia)). rewrite Nat2Z.inj_succ, Z.pow_succ_r in H3 by lia.
      apply Z.div_le_lower_bound; lia.
Qed.

Lemma hex_char_decimal v : 0 <= v < 10 -> hex_char v = 48 + v.
Proof. intros H. unfold hex_char. replace (v >? 9) with false by lia. rewrite u8_id; unfold is_u8; lia. Qed.

Lemma decimal_radix fuel v tail : 0 <= v -> decimal_digits fuel v tail = radix 10 fuel v tail.
Proof.
  revert v tail. induction fuel as [|fuel IH]; intros v tail Hv; [done|]. cbn [decimal_digits radix].
  rewrite hex_char_decimal by (apply Z.mod_pos_bound; lia). case_match; [done|]. apply IH. apply Z.div_pos; lia.
Qed.

(** ** The printers *)

Lemma count_digits_spec base step fuel v k :
  2 <= base -> (forall t, step t = t / base) -> 0 <= k -> k + Z.of_nat fuel < 65536 -> 0 <= v < base ^ Z.of_nat fuel ->
  exists d, count_digits fuel step v k = k + Z.of_nat d /\ (d <= fuel)%nat /\ v < base ^ Z.of_nat d /\
    ((1 <= d)%nat -> base ^ Z.of_nat (d - 1) <= v).
Proof.
  intros Hb Hs. revert v k. induction fuel as [|fuel IH]; intros v k Hk Hf Hv.
  { exists 0%nat. cbn in *. lia. }
  cbn [count_digits]. destruct (Z.eqb_spec v 0) as [->|Hn]; [exists 0%nat; cbn; lia|].
  rewrite Hs, u16_id by (unfold is_u16; lia). rewrite Nat2Z.inj_succ, Z.pow_succ_r in Hv by lia.
  destruct (IH (v / base) (k + 1)) as (d & -> & H1 & H2 & H3).
  - lia.
  - lia.
  - split; [apply Z.div_pos; lia|apply Z.div_lt_upper_bound; lia].
  - exists (S d). rewrite Nat2Z.inj_succ, Z.pow_succ_r by lia. split; [lia|]. split; [lia|]. split.
    + pose proof (Z.mod_pos_bound v base). pose proof (Z.div_mod v base). nia.
    + intros _. replace (S d - 1)%nat with d by lia. destruct d as [|d]; [cbn; lia|].
      specialize (H3 ltac:(lia)). replace (S d - 1)%nat with d in H3 by lia.
      rewrite Nat2Z.inj_succ, Z.pow_succ_r by lia. pose proof (Z.mul_div_le v base). nia.
Qed.

(** The count as the printers use it. *)
Lemma counted base step fuel v :
  2 <= base -> (forall t, step t = t / base) -> (1 <= fuel)%nat -> Z.of_nat fuel < 65536 -> 0 <= v < base ^ Z.of_nat fuel ->
  exists d, (let digits := count_digits fuel step v 0 in if digits =? 0 then 1 else digits) = Z.of_nat d /\
    has_digits base d v /\ (d <= fuel)%nat.
Proof.
  intros Hb Hs Hf1 Hf Hv. destruct (count_digits_spec base step fuel v 0) as (d & -> & H1 & H2 & H3); [done..|].
  cbn zeta. rewrite Z.add_0_l. destruct d as [|d].
  - exists 1%nat. split; [done|]. split; [|done]. cbn in H2. split; [done|]. split; [|lia].
    change (base ^ Z.of_nat 1) with (base * 1). lia.
  - exists (S d). destruct (Z.eqb_spec (Z.of_nat (S d)) 0); [lia|]. split; [done|]. split; [|done].
    split; [lia|]. split; [lia|]. intros _. apply H3. lia.
Qed.

Lemma pad_loop_replicate fuel digits width leading :
  width <= Z.of_nat fuel -> 0 <= digits ->
  pad_loop fuel digits width leading = replicate (Z.to_nat (width - digits)) leading.
Proof.
  revert width. induction fuel as [|fuel IH]; intros width Hf Hd; cbn [pad_loop].
  { by replace (Z.to_nat (width - digits)) with 0%nat by lia. }
  destruct (Z.ltb_spec digits width) as [H|H].
  - rewrite IH by lia. by replace (Z.to_nat (width - digits)) with (S (Z.to_nat (width - 1 - digits))) by lia.
  - by replace (Z.to_nat (width - digits)) with 0%nat by lia.
Qed.

(** A text in a field of [width]. *)
Definition padded (width leading : Z) (text : list Z) : list Z :=
  replicate (Z.to_nat width - length text) leading ++ text.

Lemma padding_padded d width leading base v : has_digits base d v ->
  padding (Z.of_nat d) width leading ++ low_digits base d v = padded width leading (low_digits base d v).
Proof.
  intros Hd. unfold padding, padded. rewrite pad_loop_replicate, length_low_digits by lia.
  do 2 f_equal. lia.
Qed.

Lemma hex_loop_low d v : hex_loop d v = low_digits 16 d v.
Proof.
  induction d as [|d IH]; [done|]. cbn [hex_loop low_digits]. rewrite IH. do 2 f_equal.
  rewrite Z.shiftr_div_pow2 by lia. rewrite Z.pow_mul_r by lia. change (2 ^ 4) with 16.
  change 15 with (Z.ones 4). by rewrite Z.land_ones by lia.
Qed.

Lemma dec_loop_low d v : dec_loop d v (10 ^ (Z.of_nat d - 1)) = low_digits 10 d v.
Proof.
  induction d as [|d IH]; [done|]. cbn [dec_loop low_digits].
  rewrite hex_char_decimal by (apply Z.mod_pos_bound; lia).
  replace (Z.of_nat (S d) - 1) with (Z.of_nat d) by lia. f_equal.
  - rewrite u8_id; [done|]. unfold is_u8. pose proof (Z.mod_pos_bound (v / 10 ^ Z.of_nat d) 10). lia.
  - rewrite <- IH. destruct d as [|d]; [done|]. do 2 f_equal.
    rewrite Nat2Z.inj_succ. replace (Z.succ (Z.of_nat d) - 1) with (Z.of_nat d) by lia.
    rewrite Z.pow_succ_r, Z.mul_comm, Z.div_mul by lia. done.
Qed.

Lemma tens_loop_pow wrap k :
  (forall j, (j <= k)%nat -> wrap (10 ^ Z.of_nat j) = 10 ^ Z.of_nat j) -> tens_loop wrap k 1 = 10 ^ Z.of_nat k.
Proof.
  intros Hw.
  assert (forall n i, (n + i <= k)%nat -> tens_loop wrap n (10 ^ Z.of_nat i) = 10 ^ Z.of_nat (n + i)) as H.
  { induction n as [|n IH]; intros i Hi; [done|]. cbn [tens_loop].
    replace (10 ^ Z.of_nat i * 10) with (10 ^ Z.of_nat (S i)) by (rewrite Nat2Z.inj_succ, Z.pow_succ_r by lia; lia).
    rewrite Hw by lia. rewrite IH by lia. do 2 f_equal. lia. }
  replace k with (k + 0)%nat at 2 by lia. rewrite <- (H k 0%nat) by lia. done.
Qed.

Lemma print_hex_padded v width leading : is_u32 v -> print_hex v width leading = padded width leading (hexadecimal v).
Proof.
  intros Hv. unfold print_hex.
  destruct (counted 16 (fun t => Z.shiftr t 4) 8 v) as (d & E & Hd & Hf); [lia| |lia|lia|exact Hv|].
  { intros t. by rewrite Z.shiftr_div_pow2 by lia. }
  cbn zeta in E. rewrite E, Nat2Z.id, hex_loop_low, (padding_padded d width leading 16 v Hd). f_equal.
  unfold hexadecimal. rewrite (radix_digits 16 d) by (done || lia). by rewrite app_nil_r.
Qed.

Lemma print_dec_padded wrap v width leading :
  is_u32 v -> (forall j, 10 ^ Z.of_nat j <= v -> wrap (10 ^ Z.of_nat j) = 10 ^ Z.of_nat j) -> wrap 1 = 1 ->
  print_dec wrap v width leading = padded width leading (decimal v).
Proof.
  intros Hv Hw H1. unfold print_dec.
  destruct (counted 10 (fun t => t / 10) 10 v) as (d & E & Hd & Hf); [lia|done|lia|lia|unfold is_u32 in Hv; lia|].
  cbn zeta in E. rewrite E, Nat2Z.id, tens_loop_pow.
  - replace (Z.of_nat (Z.to_nat (Z.of_nat d - 1))) with (Z.of_nat d - 1) by (destruct Hd; lia).
    rewrite dec_loop_low, (padding_padded d width leading 10 v Hd). f_equal.
    unfold decimal. rewrite decimal_radix by (unfold is_u32 in Hv; lia).
    rewrite (radix_digits 10 d) by (done || lia). by rewrite app_nil_r.
  - intros [|j] Hj; [done|]. apply Hw. destruct Hd as (_ & _ & Hd). specialize (Hd ltac:(lia)).
    transitivity (10 ^ Z.of_nat (d - 1)); [apply Z.pow_le_mono_r; lia|done].
Qed.

Lemma printDec_padded v width leading : is_u16 v -> printDec v width leading = padded width leading (decimal v).
Proof.
  intros Hv. unfold is_u16 in Hv. apply print_dec_padded; [unfold is_u32; lia| |done].
  intros j Hj. apply u16_id. unfold is_u16. pose proof (Z.pow_pos_nonneg 10 (Z.of_nat j)). lia.
Qed.
Lemma printDec32_padded v width leading : is_u32 v -> printDec32 v width leading = padded width leading (decimal v).
Proof.
  intros Hv. apply print_dec_padded; [done| |done]. intros j Hj. apply u32_id. unfold is_u32 in *.
  pose proof (Z.pow_pos_nonneg 10 (Z.of_nat j)). lia.
Qed.

(** What is printed is read back. *)
Lemma low_digits_value base d : 2 <= base <= 16 -> forall v rest acc, 0 <= v < base ^ Z.of_nat d ->
  (forall k, 0 <= k < base -> digit_value (hex_char k) = k) ->
  digits base (low_digits base d v ++ rest) acc = digits base rest (acc * base ^ Z.of_nat d + v).
Proof.
  intros Hb v rest acc Hv Hc. revert v rest acc Hv. induction d as [|d IH]; intros v rest acc Hv.
  { cbn in *. f_equal. lia. }
  rewrite low_digits_snoc, <- app_assoc by lia. rewrite Nat2Z.inj_succ, Z.pow_succ_r in * by lia.
  rewrite IH by (split; [apply Z.div_pos; lia|apply Z.div_lt_upper_bound; lia]). cbn [app].
  pose proof (Z.mod_pos_bound v base ltac:(lia)).
  rewrite digits_step by (rewrite Hc; lia). rewrite Hc by lia. f_equal.
  pose proof (Z.div_mod v base ltac:(lia)). nia.
Qed.

(** ** Dumps *)

Definition dump_lines (count : Z) : nat := Z.to_nat ((count + 15) / 16).

Lemma dump_loop_lines n fuel k count address buffer : (n <= fuel)%nat -> 0 <= k ->
  16 * (k + Z.of_nat n) < 65536 ->
  (n <> 0%nat -> 16 * (k + Z.of_nat n) - 16 < count) -> count <= 16 * (k + Z.of_nat n) ->
  dump_loop fuel (16 * k) count address buffer =
  Some (concat ((fun j => dump_line (16 * (k + Z.of_nat j)) count address buffer) <$> seq 0 n)).
Proof.
  revert fuel k. induction n as [|n IH]; intros fuel k Hf Hk H1 H2 H3.
  { destruct fuel; cbn [dump_loop]; by rewrite (proj2 (Z.ltb_ge _ _)) by lia. }
  destruct fuel as [|fuel]; [lia|]. cbn [dump_loop]. rewrite (proj2 (Z.ltb_lt _ _)) by lia.
  rewrite u16_id by (unfold is_u16; lia). replace (16 * k + 16) with (16 * (k + 1)) by lia.
  rewrite IH by lia. cbn [mbind option_bind seq fmap list_fmap concat]. f_equal. f_equal.
  { f_equal. lia. }
  f_equal. rewrite <- seq_shift, <- list_fmap_compose. apply list_fmap_ext. intros i j _. cbn. f_equal. lia.
Qed.

Lemma dump_loop_endless fuel outer count address buffer :
  65520 < count -> 0 <= outer < 65536 -> outer mod 16 = 0 -> dump_loop fuel outer count address buffer = None.
Proof.
  intros Hc. revert outer. induction fuel as [|fuel IH]; intros outer Ho Hm; cbn [dump_loop];
    rewrite (proj2 (Z.ltb_lt _ _)) by width_lia; [done|].
  rewrite IH; [done|apply u16_range|]. unfold u16. width_lia.
Qed.

(** A dump of at most 65520 bytes has a line for every 16 of them, in
    order. *)
Theorem dump_layout buffer count address : 0 <= count <= 65520 ->
  dumpHex buffer count address =
  Some (concat ((fun k => dump_line (16 * Z.of_nat k) count address buffer) <$> seq 0 (dump_lines count))).
Proof.
  intros Hc. unfold dumpHex, dump_lines, dump_fuel.
  pose proof (dump_loop_lines (dump_lines count) 4096 0 count address buffer) as H. unfold dump_lines in H.
  apply H; width_lia.
Qed.

(** ** Formats and what they show *)

Inductive item :=
  | Lit (c : Z)
  | Chr (c : Z)
  | Num (zero : bool) (width : Z) (is_long hex : bool) (v : Z)
  | Str (is_long : bool) (address : Z).

Definition is_text (c : Z) : Prop := c <> 0 /\ c <> 37.
Definition item_ok (i : item) : Prop :=
  match i with
  | Lit c => is_text c
  | Chr c => is_u8 c
  | Num _ width is_long _ v => is_u8 width /\ if is_long then is_u32 v else is_u16 v
  | Str is_long address => if is_long then is_u32 address else is_u16 address
  end.

(** Flag and width of a conversion. *)
Definition flags (zero : bool) (width : Z) : list Z :=
  (if zero then [48] else []) ++ (if width =? 0 then [] else decimal width).
Definition long_flag (is_long : bool) : list Z := if is_long then [108] else [].

Definition format_item (i : item) : list Z :=
  match i with
  | Lit c => [c]
  | Chr _ => [37; 99]
  | Num zero width is_long hex _ => 37 :: flags zero width ++ long_flag is_long ++ [if hex then 120 else 105]
  | Str is_long _ => 37 :: long_flag is_long ++ [115]
  end.

Definition words (is_long : bool) (v : Z) : list Z := if is_long then [v mod 65536; v / 65536] else [v].
Definition args_item (i : item) : list Z :=
  match i with
  | Lit _ => []
  | Chr c => [c]
  | Num _ _ is_long _ v => words is_long v
  | Str is_long address => words is_long address
  end.

Section Shown.
Variables near far : Z -> list Z.

Definition shown_item (i : item) : list Z :=
  match i with
  | Lit c => if c =? 10 then newline else [c]
  | Chr c => [c]
  | Num zero width _ hex v =>
      padded width (if zero then 48 else 32) (if hex then hexadecimal v else decimal v)
  | Str is_long address =>
      if address =? 0 then [] else c_string (if is_long then far address else near address)
  end.

Definition format_of (items : list item) : list Z := concat (format_item <$> items).
Definition args_of (items : list item) : list Z := concat (args_item <$> items).
Definition shown (items : list item) : list Z := concat (shown_item <$> items).

(** ** Fuel *)

Lemma length_width_loop pf width : (length (width_loop pf width).2 <= length pf)%nat.
Proof.
  revert width. induction pf as [|c pf IH]; intros width; cbn [width_loop]; [done|].
  case_match; [|done]. specialize (IH (u8 (u8 (width * 10) + (c - 48)))). cbn [length]. lia.
Qed.
Lemma length_field pf : (length (field pf).2 <= length pf)%nat.
Proof.
  assert (forall p, (length (width_loop p 0).2 <= length p)%nat) as Hl by (intros; apply length_width_loop).
  unfold field. destruct (is_digit _); [|done]. destruct (pf.[0] =? 48).
  - specialize (Hl (drop 1 pf)). rewrite length_drop in Hl. destruct (width_loop (drop 1 pf) 0). cbn [snd] in *. lia.
  - specialize (Hl pf). by destruct (width_loop pf 0).
Qed.
Lemma length_conversion pf args : (length (conversion_at near far pf args).2 <= length pf)%nat.
Proof.
  unfold conversion_at. case_match; [done|]. case_match; [done|].
  pose proof (length_field pf) as Hl. destruct (field pf) as [[leader width] pf1]. cbn [snd] in Hl.
  destruct (pf1.[0] =? 108); destruct (convert _ _ _ _ _ _ _); cbn [snd]; rewrite ?length_drop; lia.
Qed.

Lemma console_fuel fuel fuel' pf args : (length pf < fuel)%nat -> (length pf < fuel')%nat ->
  console_loop near far fuel pf args = console_loop near far fuel' pf args.
Proof.
  revert fuel' pf args. induction fuel as [|fuel IH]; intros [|fuel'] pf args H H'; [lia..|].
  cbn [console_loop]. destruct pf as [|c pf]; [done|]. change ((c :: pf).[0]) with c. change (drop 1 (c :: pf)) with pf. cbn [length] in *.
  case_match; [done|]. case_match; [f_equal; apply IH; lia|].
  case_match; [|f_equal; apply IH; lia].
  pose proof (length_conversion pf args) as Hl. destruct (conversion_at near far pf args) as [[out args'] pf'].
  cbn [snd] in Hl. f_equal. apply IH; rewrite length_drop; lia.
Qed.

(** ** The turns of the loop *)

Abbreviation print := (vconsolef near far).

Lemma print_end behind args : print (0 :: behind) args = [].
Proof. done. Qed.

Lemma console_turn fuel c pf args :
  console_loop near far (S fuel) (c :: pf) args =
  if c =? 0 then []
  else if c =? 10 then newline ++ console_loop near far fuel pf args
  else if c =? 37 then
    let '(out, args, pf) := conversion_at near far pf args in
    out ++ console_loop near far fuel (drop 1 pf) args
  else c :: console_loop near far fuel pf args.
Proof. done. Qed.

Lemma print_char c pf args : is_text c -> print (c :: pf) args = shown_item (Lit c) ++ print pf args.
Proof.
  intros [H0 H37]. unfold vconsolef. cbn [length]. rewrite console_turn. cbn [shown_item].
  destruct (Z.eqb_spec c 0); [done|]. destruct (Z.eqb_spec c 10); [done|]. by destruct (Z.eqb_spec c 37).
Qed.

Lemma print_conversion pf args :
  print (37 :: pf) args =
  let '(out, args, pf) := conversion_at near far pf args in out ++ print (drop 1 pf) args.
Proof.
  unfold vconsolef. cbn [length]. rewrite console_turn.
  change (37 =? 0) with false. change (37 =? 10) with false. change (37 =? 37) with true. cbn iota.
  pose proof (length_conversion pf args) as Hl. destruct (conversion_at near far pf args) as [[out args'] pf'].
  cbn [snd] in Hl. f_equal. apply console_fuel; rewrite ?length_drop; lia.
Qed.

(** Characters that end a number. *)
Lemma width_loop_stop pf width : is_digit pf.[0] = false -> width_loop pf width = (width, pf).
Proof. destruct pf as [|c pf]; [done|]. change ((c :: pf).[0]) with c. cbn [width_loop]. by intros ->. Qed.

Lemma width_loop_digit c pf width : 0 <= c < 10 -> is_u8 (width * 10) -> is_u8 (width * 10 + c) ->
  width_loop (48 + c :: pf) width = width_loop pf (width * 10 + c).
Proof.
  intros Hc H1 H2. cbn [width_loop]. replace (is_digit (48 + c)) with true by (unfold is_digit; lia).
  rewrite (u8_id (width * 10)) by done. replace (48 + c - 48) with c by lia. by rewrite u8_id.
Qed.

(** A width of 8 bits has three digits at most. *)
Lemma width_loop_decimal width pf : is_u8 width -> is_digit pf.[0] = false ->
  width_loop (decimal width ++ pf) 0 = (width, pf).
Proof.
  intros Hw Hp. unfold decimal, is_u8 in *. cbn [decimal_digits].
  destruct (Z.ltb_spec width 10); [|destruct (Z.ltb_spec (width / 10) 10); [|destruct (Z.ltb_spec (width / 10 / 10) 10); [|width_lia]]].
  all: cbn [app]; rewrite !width_loop_digit by (unfold is_u8; width_lia); rewrite width_loop_stop by done; f_equal; width_lia.
Qed.

Lemma field_flags zero width pf : is_u8 width -> is_digit pf.[0] = false ->
  field (flags zero width ++ pf) = (if zero then 48 else 32, width, pf).
Proof.
  intros Hw Hp. unfold flags. destruct zero, (Z.eqb_spec width 0) as [->|Hn]; cbn [app].
  - unfold field. change (is_digit ((48 :: pf).[0])) with true. change ((48 :: pf).[0] =? 48) with true.
    change (drop 1 (48 :: pf)) with pf. cbn iota. by rewrite width_loop_stop.
  - unfold field. change (is_digit ((48 :: decimal width ++ pf).[0])) with true.
    change ((48 :: decimal width ++ pf).[0] =? 48) with true.
    change (drop 1 (48 :: decimal width ++ pf)) with (decimal width ++ pf). cbn iota.
    by rewrite width_loop_decimal.
  - unfold field. by rewrite Hp.
  - unfold field. pose proof (width_loop_decimal width pf Hw Hp) as E.
    assert (exists c t, decimal width = c :: t /\ 48 < c <= 57) as (c & t & Ed & Hc).
    { unfold decimal, is_u8 in *. cbn [decimal_digits].
      destruct (Z.ltb_spec width 10); [|destruct (Z.ltb_spec (width / 10) 10); [|destruct (Z.ltb_spec (width / 10 / 10) 10); [|width_lia]]].
      all: do 2 eexists; split; [done|]; width_lia. }
    rewrite Ed in *. cbn [app] in *. change ((c :: t ++ pf).[0]) with c.
    replace (is_digit c) with true by (unfold is_digit; lia). replace (c =? 48) with false by lia. by rewrite E.
Qed.

(** One item, whatever follows. *)
Lemma words_arg (is_long : bool) v rest : (if is_long then is_u32 v else is_u16 v) ->
  (if is_long then arg32 (words is_long v ++ rest) else arg16 (words is_long v ++ rest)) = (v, rest).
Proof.
  intros Hv. destruct is_long; [|done]. unfold arg32, words. cbn [app].
  change (drop 2 (v mod 65536 :: v / 65536 :: rest)) with rest.
  f_equal.
  change (((v mod 65536) :: (v / 65536) :: rest).[1]) with (v / 65536).
  change (((v mod 65536) :: (v / 65536) :: rest).[0]) with (v mod 65536). width_lia.
Qed.

(** The per cent sign, flags, width and [l] of a conversion [c]. *)
Lemma conversion_flags zero width is_long c pf args :
  is_u8 width -> is_digit c = false -> c <> 99 -> c <> 108 ->
  conversion_at near far (flags zero width ++ long_flag is_long ++ c :: pf) args =
  let '(out, args) := convert near far is_long c (if zero then 48 else 32) width args in (out, args, c :: pf).
Proof.
  intros Hw Hd H99 H108. set (rest := long_flag is_long ++ c :: pf).
  assert (is_digit rest.[0] = false) as Hr by (unfold rest; destruct is_long; done).
  assert (rest.[0] = 108 /\ is_long = true \/ rest.[0] = c /\ is_long = false) as Hs
    by (unfold rest; destruct is_long; [by left|by right]).
  assert ((flags zero width ++ rest).[0] <> 99 /\ ((flags zero width ++ rest).[0] = 0 ->
    c = 0 /\ flags zero width ++ rest = c :: pf /\ is_long = false)) as [N99 N0].
  { unfold flags. destruct zero; [by split|]. destruct (Z.eqb_spec width 0) as [|Hn]; cbn [app].
    - destruct Hs as [[-> _]|[-> ->]]; [by split|]. by split.
    - destruct (decimal_cons width) as (d & t & -> & Hd'); [unfold is_u8 in Hw; lia|].
      change (((d :: t) ++ rest).[0]) with d. lia. }
  unfold conversion_at. destruct (Z.eqb_spec (flags zero width ++ rest).[0] 0) as [E|_].
  { destruct (N0 E) as (-> & -> & ->). unfold convert. by destruct (arg16 args). }
  rewrite (proj2 (Z.eqb_neq _ _) N99).
  rewrite field_flags by done. unfold rest. destruct is_long; cbn [long_flag app].
  - change ((108 :: c :: pf).[0] =? 108) with true. change (drop 1 (108 :: c :: pf)) with (c :: pf). by change ((c :: pf).[0]) with c.
  - change ((c :: pf).[0]) with c. by rewrite (proj2 (Z.eqb_neq _ _) H108).
Qed.

Lemma convert_number (is_long hex : bool) leader width v args : (if is_long then is_u32 v else is_u16 v) ->
  convert near far is_long (if hex then 120 else 105) leader width (words is_long v ++ args) =
  (padded width leader (if hex then hexadecimal v else decimal v), args).
Proof.
  intros Hv. pose proof (words_arg is_long v args Hv) as E. unfold convert.
  destruct is_long; rewrite E; clear E.
  - destruct hex; cbn; f_equal; [by apply print_hex_padded|by apply printDec32_padded].
  - destruct hex; cbn; f_equal; [apply print_hex_padded; unfold is_u16, is_u32 in *; lia|by apply printDec_padded].
Qed.

Lemma convert_string (is_long : bool) leader width a args : (if is_long then is_u32 a else is_u16 a) ->
  convert near far is_long 115 leader width (words is_long a ++ args) = (shown_item (Str is_long a), args).
Proof.
  intros Hv. pose proof (words_arg is_long a args Hv) as E. unfold convert.
  destruct is_long; rewrite E; cbn; unfold pointed, printFarString; by destruct (a =? 0).
Qed.

Lemma print_item i pf args : item_ok i ->
  print (format_item i ++ pf) (args_item i ++ args) = shown_item i ++ print pf args.
Proof.
  destruct i as [c|c|zero width is_long hex v|is_long a]; intros Hi; cbn [format_item args_item].
  - by apply print_char.
  - cbn [app]. rewrite print_conversion. cbn. by rewrite u8_id.
  - destruct Hi as [Hw Hv]. cbn [app]. rewrite <- !app_assoc, print_conversion. cbn [app].
    rewrite conversion_flags by (done || by destruct hex). by rewrite convert_number.
  - cbn [app]. rewrite <- app_assoc, print_conversion. cbn [app].
    rewrite (conversion_flags false 0 is_long 115 pf) by done. by rewrite convert_string.
Qed.

Lemma print_items items pf args : Forall item_ok items ->
  print (format_of items ++ pf) (args_of items ++ args) = shown items ++ print pf args.
Proof.
  unfold format_of, args_of, shown. induction 1 as [|i items Hi _ IH]; [done|]. cbn [fmap list_fmap concat].
  rewrite <- !app_assoc, print_item by done. by rewrite IH.
Qed.

(** [consolef] shows its arguments.  For a format of characters and of the
    conversions it knows, each with its flag and width, and the words of
    arguments that belong to them, it prints the characters, with a carriage
    return before each line feed, and each argument in decimal or hexadecimal
    digits or as text, padded to the width; it stops at the terminator and
    uses no further argument. *)
Theorem console_shows items behind args :
  Forall item_ok items ->
  consolef near far (format_of items ++ 0 :: behind) (args_of items ++ args) = shown items.
Proof. intros Hi. unfold consolef. rewrite print_items by done. by rewrite app_nil_r. Qed.

(** A format that ends within a conversion. *)
Lemma print_cut zero width is_long behind args : is_u8 width ->
  print (37 :: flags zero width ++ long_flag is_long ++ 0 :: behind) args = print behind args.
Proof.
  intros Hw. rewrite print_conversion, conversion_flags by done. unfold convert.
  by destruct is_long, (arg32 args), (arg16 args).
Qed.

(** The message of Output_cmd in commands.c for a sector past the end of the
    medium, and the words it passes: a 32-bit sector and the unit. *)
Definition invalid_write : list Z := bytes_of_string "FN Invalid sector write %i on %i:" ++ [10; 0].
Definition invalid_write_args (sector unit : Z) : list Z := words true sector ++ [unit].
Definition invalid_write_items (sector : Z) : list item :=
  (Lit <$> bytes_of_string "FN Invalid sector write ") ++ [Num false 0 false false (sector mod 65536)]
  ++ (Lit <$> bytes_of_string " on ") ++ [Num false 0 false false (sector / 65536); Lit 58; Lit 10].

Lemma literal_ok text : forallb (fun c => negb (c =? 0) && negb (c =? 37)) text = true -> Forall item_ok (Lit <$> text).
Proof.
  intros H. apply Forall_fmap, Forall_forall. intros c Hc.
  pose proof (proj1 (forallb_forall _ _) H c (proj1 (list_elem_of_In _ _) Hc)) as Hx. cbv beta in Hx. split; lia.
Qed.
Lemma invalid_write_ok sector : is_u32 sector -> Forall item_ok (invalid_write_items sector).
Proof.
  intros Hs. unfold is_u32 in Hs. unfold invalid_write_items. rewrite !Forall_app. split_and!.
  - by apply literal_ok.
  - repeat apply Forall_cons_2; [split; unfold is_u8, is_u16; width_lia|constructor].
  - by apply literal_ok.
  - repeat apply Forall_cons_2; [split; unfold is_u8, is_u16; width_lia|by split|by split|constructor].
Qed.

(** Where console output goes wrong.  A format that ends within a
    conversion is read past its terminator, and what lies behind it is printed
    as if it belonged to it.  The driver's message about a write past the end
    of the medium takes a 32-bit sector for two 16-bit numbers: it shows the
    low half of the sector, and its high half as the unit.  A dump of more
    than 65520 bytes never ends. *)
Theorem console_pitfalls :
  (forall items zero width is_long behind args, Forall item_ok items -> is_u8 width ->
     consolef near far (format_of items ++ 37 :: flags zero width ++ long_flag is_long ++ 0 :: behind)
       (args_of items ++ args) = shown items ++ consolef near far behind args) /\
  (forall sector unit, is_u32 sector ->
     consolef near far invalid_write (invalid_write_args sector unit) =
     bytes_of_string "FN Invalid sector write " ++ decimal (sector mod 65536)
     ++ bytes_of_string " on " ++ decimal (sector / 65536) ++ [58] ++ newline) /\
  (forall buffer count address, 65520 < count -> dumpHex buffer count address = None).
Proof.
  split; [|split].
  - intros. unfold consolef. rewrite print_items by done. by rewrite print_cut.
  - intros sector unit Hs. unfold consolef.
    change invalid_write with (format_of (invalid_write_items sector) ++ [0]).
    change (invalid_write_args sector unit) with (args_of (invalid_write_items sector) ++ [unit]).
    rewrite print_items by by apply invalid_write_ok. rewrite print_end, app_nil_r.
    done.
  - intros. by apply dump_loop_endless.
Qed.

End Shown.

(** ** Reading back what is printed *)

Definition digit_char (base c : Z) : Prop := (48 <= c <= 57 \/ 65 <= c <= 70) /\ digit_value c < base.

Lemma digit_value_hex k : 0 <= k < 16 -> digit_value (hex_char k) = k /\ digit_char 16 (hex_char k).
Proof.
  intros Hk. assert (Forall (fun k => digit_value (hex_char k) = k /\ digit_char 16 (hex_char k)) (seqZ 0 16)) as Hall
    by (cbn; repeat apply Forall_cons_2; try apply Forall_nil_2; unfold digit_char; vm_compute;
        (split; [done|]); (split; [|done]); ((left; split; discriminate) || (right; split; discriminate))).
  apply (proj1 (Forall_forall _ _) Hall). apply elem_of_seqZ. lia.
Qed.

Lemma strtoul_digits base n text v : base = 10 \/ base = 16 -> is_u32 v -> text <> [] -> Forall (digit_char base) text ->
  digits base text 0 = (v, []) -> strtoul (replicate n 32 ++ text) base = (v, [], false).
Proof.
  intros Hb Hv Hn Hc Hd. unfold strtoul.
  assert (skip_space (replicate n 32 ++ text) = text) as ->.
  { induction n as [|n IH]; [|exact IH]. cbn [replicate app]. destruct text as [|c text]; [done|].
    inversion_clear Hc as [|? ? [Hc' _] _]. cbn [skip_space]. replace (is_space c) with false; [done|unfold is_space; lia]. }
  destruct text as [|c text]; [done|]. inversion_clear Hc as [|? ? [Hc' Hcb] Hcs].
  change ((c :: text).[0]) with c. replace (c =? 45) with false by lia. replace (c =? 43) with false by lia.
  cbn [orb]. unfold resolve_base.
  assert (((c :: text).[1] =? 120) || ((c :: text).[1] =? 88) = false) as ->.
  { destruct text as [|c' text]; [done|]. inversion_clear Hcs as [|? ? [Hc2 _] _].
    change ((c :: c' :: text).[1]) with c'. lia. }
  rewrite andb_false_r. cbn [andb orb]. rewrite !andb_false_r. cbn [orb].
  replace (base =? 0) with false by lia. change ((c :: text).[0]) with c.
  rewrite (proj2 (Z.ltb_lt _ _) Hcb). cbn [negb]. rewrite Hd. unfold ULONG_MAX, is_u32 in *.
  by replace (v >? 4294967295) with false by lia.
Qed.

Lemma digits_zeros base n text : 2 <= base -> digits base (replicate n 48 ++ text) 0 = digits base text 0.
Proof. intros Hb. induction n as [|n IH]; [done|]. cbn [replicate app]. rewrite digits_step; [exact IH|cbn; lia]. Qed.

(** A padded number is read back, whether it is padded with spaces or with
    zeros. *)
Lemma read_padded base d v width (zero : bool) : base = 10 \/ base = 16 -> is_u32 v -> has_digits base d v ->
  strtoul (padded width (if zero then 48 else 32) (low_digits base d v)) base = (v, [], false).
Proof.
  intros Hb Hv (H1 & H2 & _).
  assert (forall k, 0 <= k < base -> digit_value (hex_char k) = k /\ digit_char base (hex_char k)) as Hch.
  { intros k Hk. destruct (digit_value_hex k) as [E [Hr Hd]]; [lia|]. split; [done|]. split; [done|]. lia. }
  assert (Forall (digit_char base) (low_digits base d v)) as Hall.
  { clear -Hch Hb. induction d; cbn; constructor; [|done]. apply Hch, Z.mod_pos_bound. lia. }
  assert (digits base (low_digits base d v) 0 = (v, [])) as Hd.
  { rewrite <- (app_nil_r (low_digits base d v)), low_digits_value; [done|lia|done|]. intros k Hk. by apply Hch. }
  assert (low_digits base d v <> []) as Hne by (destruct d; [lia|done]).
  unfold padded. destruct zero.
  - apply (strtoul_digits base 0); [done|done| | |by rewrite digits_zeros by lia].
    + intros E. apply app_eq_nil in E. tauto.
    + apply Forall_app. split; [|done]. apply Forall_replicate. split; [lia|]. cbn. lia.
  - by apply strtoul_digits.
Qed.

(** The numbers the console shows are read back by strtoul in their base,
    whatever the width and the padding. *)
Theorem numbers_read_back v width (zero : bool) : is_u32 v ->
  let leading := if zero then 48 else 32 in
  strtoul (printDec32 v width leading) 10 = (v, [], false) /\
  strtoul (printHex32 v width leading) 16 = (v, [], false) /\
  (is_u16 v -> strtoul (printDec v width leading) 10 = (v, [], false) /\
               strtoul (printHex v width leading) 16 = (v, [], false)).
Proof.
  intros Hv. cbv zeta. assert (forall base fuel, base = 10 \/ base = 16 -> (1 <= fuel)%nat -> Z.of_nat fuel < 65536 ->
    v < base ^ Z.of_nat fuel -> strtoul (padded width (if zero then 48 else 32) (radix base fuel v [])) base = (v, [], false)) as H.
  { intros base fuel Hb H1 H2 H3.
    destruct (counted base (fun t => t / base) fuel v) as (d & _ & Hd & Hf); [lia|done|done|done|unfold is_u32 in Hv; lia|].
    rewrite (radix_digits base d) by (done || lia). rewrite app_nil_r. by apply read_padded. }
  assert (decimal v = radix 10 10 v []) as Ed by (apply decimal_radix; unfold is_u32 in Hv; lia).
  unfold is_u32 in Hv. split_and!; [..|intros Hv16; split].
  - rewrite printDec32_padded, Ed by done. apply H; lia.
  - unfold printHex32. rewrite print_hex_padded by done. apply H; lia.
  - rewrite printDec_padded, Ed by done. apply H; lia.
  - unfold printHex. rewrite print_hex_padded by done. apply H; lia.
Qed.

(** ** On concrete texts *)

Definition demo_near (address : Z) : list Z := bytes_of_string "DISK" ++ [0; 88].
Definition demo_items : list item :=
  [Lit 97; Num true 8 true true 48879; Lit 10; Str false 4; Chr 45; Num false 6 false false 512].

Lemma console_shows_witness :
  Forall item_ok demo_items /\
  consolef demo_near demo_near (bytes_of_string "a%08lx" ++ [10] ++ bytes_of_string "%s%c%6i" ++ [0; 37; 115])
    [48879; 0; 4; 45; 512; 7] = bytes_of_string "a0000BEEF" ++ [13; 10] ++ bytes_of_string "DISK-   512".
Proof.
  assert (Forall item_ok demo_items) as Hi
    by (repeat apply Forall_cons_2; try apply Forall_nil_2; vm_compute; repeat split; discriminate).
  split; [exact Hi|]. exact (console_shows demo_near demo_near demo_items [37; 115] [7] Hi).
Defined.

Lemma console_pitfalls_witness :
  consolef demo_near demo_near (bytes_of_string "%5" ++ [0] ++ bytes_of_string "SECRET") [] = bytes_of_string "SECRET" /\
  consolef demo_near demo_near invalid_write (invalid_write_args 65539 2) =
    bytes_of_string "FN Invalid sector write 3 on 1:" ++ [13; 10] /\
  dumpHex [] 65521 0 = None.
Proof.
  destruct (console_pitfalls demo_near demo_near) as (H1 & H2 & H3). split; [|split].
  - apply (H1 [] false 5 false (bytes_of_string "SECRET") []); [constructor|vm_compute; split; [discriminate|done]].
  - apply (H2 65539 2). vm_compute. split; [discriminate|done].
  - by apply H3.
Defined.

Lemma dump_layout_witness : exists text, dumpHex (bytes_of_string "FujiNet NIO driver") 18 256 = Some text /\
  text = bytes_of_string "0100  46 75 6A 69 4E 65 74 20 4E 49 4F 20 64 72 69 76  |FujiNet NIO driv|" ++ newline
      ++ bytes_of_string "0110  65 72                                            |er|" ++ newline.
Proof.
  eexists. split; [apply (dump_layout (bytes_of_string "FujiNet NIO driver") 18 256); lia|]. vm_compute. reflexivity.
Defined.

Lemma numbers_read_back_witness : strtoul (printDec32 4294967295 12 32) 10 = (4294967295, [], false).
Proof. exact (proj1 (numbers_read_back 4294967295 12 false ltac:(unfold is_u32; lia))). Defined.
