(* ===== verification/FnLib.v ===== *)
(** * The external fujinet-nio-lib, and fujinet_nio_endian.h

    The Amiga half of the repository is written against the headers of
    fujinet-nio-lib, which are not part of it.  [FnLib] names what the code
    takes from them (constants and the packet checksum); [FnLibOk] the
    documented facts it relies on.  [fn_lib_nio] is one concrete library,
    used by the witnesses.  The little-endian accessors of
    amiga/include/fujinet_nio_endian.h follow: they are the ones of the
    MS-DOS driver's disk protocol, on a buffer and an offset. *)

From S2P Require Import Prelude.

Class FnLib := {
  FN_HEADER_SIZE : Z;
  FN_CHECKSUM_OFFSET : nat;
  FN_OK : Z;
  FN_ERR_INVALID : Z;
  FN_ERR_NOT_FOUND : Z;
  FN_ERR_NOT_READY : Z;
  FN_ERR_IO : Z;
  FN_ERR_TRANSPORT : Z;
  FN_ERR_TIMEOUT : Z;
  FN_ERR_BUSY : Z;
  FN_ERR_ABORTED : Z;
  FN_ERR_UNSUPPORTED : Z;
  FN_MAX_PACKET_SIZE : Z;
  FN_DEVICE_DISK : Z;
  FN_DEVICE_CLOCK : Z;
  FN_DEVICE_FILE : Z;
  FN_CMD_CLOCK_GET : Z;
  FN_CMD_CLOCK_GET_TZ : Z;
  FN_DISK_PROTOCOL_VERSION : Z;
  FN_DISK_FLAG_MOUNTED : Z;
  FN_DISK_FLAG_READONLY : Z;
  FN_DISK_TYPE_AUTO : Z;
  FN_DISK_TYPE_RAW : Z;
  fn_calc_packet_checksum : list Z -> Z -> Z
}.

(** The header is six bytes with the checksum in the fifth; the error codes
    are nonzero bytes, distinct where the code tells them apart; the packet
    checksum is a byte computed from the packet's bytes other than the
    checksum itself. *)
Class FnLibOk (L : FnLib) : Prop := {
  fn_header_size : FN_HEADER_SIZE = 6;
  fn_checksum_offset : FN_CHECKSUM_OFFSET = 4%nat;
  fn_ok_zero : FN_OK = 0;
  fn_errors_distinct :
    NoDup [FN_OK; FN_ERR_INVALID; FN_ERR_NOT_FOUND; FN_ERR_NOT_READY; FN_ERR_IO;
           FN_ERR_TRANSPORT; FN_ERR_TIMEOUT; FN_ERR_BUSY; FN_ERR_ABORTED; FN_ERR_UNSUPPORTED];
  fn_ids_u8 : is_u8 FN_DEVICE_DISK /\ is_u8 FN_DISK_PROTOCOL_VERSION;
  fn_flags : FN_DISK_FLAG_MOUNTED <> 0;
  fn_max_packet : 6 <= FN_MAX_PACKET_SIZE < 32000;
  fn_checksum_u8 p n : is_u8 (fn_calc_packet_checksum p n);
  fn_checksum_local p q n :
    (forall i : nat, (Z.of_nat i < n) -> i <> FN_CHECKSUM_OFFSET -> p.[i] = q.[i]) ->
    fn_calc_packet_checksum p n = fn_calc_packet_checksum q n
}.

(** ** A concrete library *)

(** The end-around-carry sum of the packet's bytes, the checksum's excepted. *)
Fixpoint lib_checksum (p : list Z) (i n : nat) (chk : Z) : Z :=
  match n with
  | O => chk
  | S n' =>
      let s := chk + u8 (if Nat.eqb i 4 then 0 else p.[i]) in
      lib_checksum p (S i) n' (u8 (s / 256 + s mod 256))
  end.

Definition fn_lib_nio : FnLib := {|
  FN_HEADER_SIZE := 6;
  FN_CHECKSUM_OFFSET := 4;
  FN_OK := 0;
  FN_ERR_INVALID := 1;
  FN_ERR_NOT_FOUND := 2;
  FN_ERR_NOT_READY := 3;
  FN_ERR_IO := 4;
  FN_ERR_TRANSPORT := 5;
  FN_ERR_TIMEOUT := 6;
  FN_ERR_BUSY := 7;
  FN_ERR_ABORTED := 8;
  FN_ERR_UNSUPPORTED := 9;
  FN_MAX_PACKET_SIZE := 1024;
  FN_DEVICE_DISK := 252;
  FN_DEVICE_CLOCK := 69;
  FN_DEVICE_FILE := 254;
  FN_CMD_CLOCK_GET := 1;
  FN_CMD_CLOCK_GET_TZ := 4;
  FN_DISK_PROTOCOL_VERSION := 1;
  FN_DISK_FLAG_MOUNTED := 1;
  FN_DISK_FLAG_READONLY := 2;
  FN_DISK_TYPE_AUTO := 0;
  FN_DISK_TYPE_RAW := 1;
  fn_calc_packet_checksum p n := lib_checksum p 0 (Z.to_nat n) 0
|}.

Lemma lib_checksum_u8 p i n chk : is_u8 chk -> is_u8 (lib_checksum p i n chk).
Proof. revert i chk. induction n as [|n IH]; intros i chk H; simpl; [done|]. apply IH, u8_range. Qed.

Lemma lib_checksum_local p q i n chk :
  (forall j, (i <= j < i + n)%nat -> j <> 4%nat -> p.[j] = q.[j]) ->
  lib_checksum p i n chk = lib_checksum q i n chk.
Proof.
  revert i chk. induction n as [|n IH]; intros i chk H; simpl; [done|].
  replace (if Nat.eqb i 4 then 0 else p.[i]) with (if Nat.eqb i 4 then 0 else q.[i]).
  - apply IH. intros j Hj. apply H. lia.
  - destruct (Nat.eqb_spec i 4); [done|]. symmetry. apply H; lia.
Qed.

#[export] Instance fn_lib_nio_ok : FnLibOk fn_lib_nio.
Proof.
  split; try done.
  - refine (bool_decide_unpack _ _). vm_compute. exact I.
  - intros p n. by apply lib_checksum_u8.
  - intros p q n H. apply lib_checksum_local. intros j Hj. apply H. lia.
Qed.

(** ** fujinet_nio_endian.h *)

Definition fujinet_nio_get_le16 (data : list Z) (off : nat) : Z :=
  Z.lor data.[off] (Z.shiftl data.[off + 1] 8).

Definition fujinet_nio_get_le32 (data : list Z) (off : nat) : Z :=
  Z.lor (Z.lor (Z.lor data.[off] (Z.shiftl data.[off + 1] 8))
               (Z.shiftl data.[off + 2] 16))
        (Z.shiftl data.[off + 3] 24).

Definition fujinet_nio_put_le16 (data : list Z) (off : nat) (value : Z) : list Z :=
  put_at (put_at data off (u8 value)) (off + 1) (u8 (Z.shiftr value 8)).

Definition fujinet_nio_put_le32 (data : list Z) (off : nat) (value : Z) : list Z :=
  put_at (put_at (put_at (put_at data off (u8 value))
    (off + 1) (u8 (Z.shiftr value 8))) (off + 2) (u8 (Z.shiftr value 16)))
    (off + 3) (u8 (Z.shiftr value 24)).

Lemma length_put_le16 data off v : length (fujinet_nio_put_le16 data off v) = length data.
Proof. unfold fujinet_nio_put_le16. by rewrite !length_put_at. Qed.
Lemma length_put_le32 data off v : length (fujinet_nio_put_le32 data off v) = length data.
Proof. unfold fujinet_nio_put_le32. by rewrite !length_put_at. Qed.

Lemma byte_at_put b i j v :
  (put_at b i v).[j] = if decide (i = j /\ (i < length b)%nat) then v else b.[j].
Proof.
  case_decide as H.
  - destruct H as [<- ?]. by apply byte_at_put_eq.
  - destruct (decide (i = j)) as [->|]; [|by apply byte_at_put_ne].
    unfold put_at. rewrite list_insert_ge; [done|]. lia.
Qed.

(** Evaluate reads of a buffer built by [put_at]. *)
Ltac read_puts :=
  rewrite ?byte_at_put, ?length_put_at, ?length_put_le16, ?length_put_le32;
  repeat (case_decide; try lia).

Lemma le16_put_get data off v :
  (off + 1 < length data)%nat -> is_u16 v ->
  fujinet_nio_get_le16 (fujinet_nio_put_le16 data off v) off = v.
Proof.
  intros. unfold fujinet_nio_get_le16, fujinet_nio_put_le16.
  rewrite byte_at_put_ne, byte_at_put_eq, byte_at_put_eq by (rewrite ?length_put_at; lia).
  rewrite lor_le16 by apply u8_range. rewrite shiftr_8. by apply le16_split.
Qed.

Lemma le32_put_get data off v :
  (off + 3 < length data)%nat -> is_u32 v ->
  fujinet_nio_get_le32 (fujinet_nio_put_le32 data off v) off = v.
Proof.
  intros. unfold fujinet_nio_get_le32, fujinet_nio_put_le32.
  repeat first [rewrite byte_at_put_eq by (rewrite ?length_put_at; lia)
               |rewrite byte_at_put_ne by lia].
  rewrite lor_le32 by apply u8_range. rewrite shiftr_8, shiftr_16, shiftr_24.
  by apply le32_split.
Qed.

Lemma put_le16_other data off v j :
  j <> off -> j <> (off + 1)%nat -> (fujinet_nio_put_le16 data off v).[j] = data.[j].
Proof. intros. unfold fujinet_nio_put_le16. by rewrite !byte_at_put_ne by lia. Qed.
Lemma put_le32_other data off v j :
  (j < off \/ off + 3 < j)%nat -> (fujinet_nio_put_le32 data off v).[j] = data.[j].
Proof. intros. unfold fujinet_nio_put_le32. by rewrite !byte_at_put_ne by lia. Qed.

(** ** The error codes are told apart *)

Definition fn_errors `{FnLib} : list Z :=
  [FN_OK; FN_ERR_INVALID; FN_ERR_NOT_FOUND; FN_ERR_NOT_READY; FN_ERR_IO;
   FN_ERR_TRANSPORT; FN_ERR_TIMEOUT; FN_ERR_BUSY; FN_ERR_ABORTED; FN_ERR_UNSUPPORTED].

Lemma fn_errors_apart `{L : FnLib, !FnLibOk L} (i j : nat) a b :
  i <> j -> fn_errors !! i = Some a -> fn_errors !! j = Some b -> a <> b.
Proof. intros Hij Ha Hb ->. apply Hij. eapply NoDup_lookup; [apply fn_errors_distinct|done..]. Qed.

Lemma fn_err_invalid_ok `{L : FnLib, !FnLibOk L} : FN_ERR_INVALID <> FN_OK.
Proof. by apply (fn_errors_apart 1 0). Qed.
Lemma fn_err_io_ok `{L : FnLib, !FnLibOk L} : FN_ERR_IO <> FN_OK.
Proof. by apply (fn_errors_apart 4 0). Qed.
Lemma fn_err_transport_ok `{L : FnLib, !FnLibOk L} : FN_ERR_TRANSPORT <> FN_OK.
Proof. by apply (fn_errors_apart 5 0). Qed.
Lemma fn_err_timeout_ok `{L : FnLib, !FnLibOk L} : FN_ERR_TIMEOUT <> FN_OK.
Proof. by apply (fn_errors_apart 6 0). Qed.
Lemma fn_err_busy_ok `{L : FnLib, !FnLibOk L} : FN_ERR_BUSY <> FN_OK.
Proof. by apply (fn_errors_apart 7 0). Qed.
Lemma fn_err_not_found_ok `{L : FnLib, !FnLibOk L} : FN_ERR_NOT_FOUND <> FN_OK.
Proof. by apply (fn_errors_apart 2 0). Qed.
Lemma fn_err_not_ready_ok `{L : FnLib, !FnLibOk L} : FN_ERR_NOT_READY <> FN_OK.
Proof. by apply (fn_errors_apart 3 0). Qed.
Lemma fn_err_aborted_ok `{L : FnLib, !FnLibOk L} : FN_ERR_ABORTED <> FN_OK.
Proof. by apply (fn_errors_apart 8 0). Qed.
Lemma fn_err_unsupported_ok `{L : FnLib, !FnLibOk L} : FN_ERR_UNSUPPORTED <> FN_OK.
Proof. by apply (fn_errors_apart 9 0). Qed.
#[export] Hint Resolve fn_err_invalid_ok fn_err_io_ok fn_err_transport_ok fn_err_timeout_ok
  fn_err_busy_ok fn_err_not_found_ok fn_err_not_ready_ok
  fn_err_aborted_ok fn_err_unsupported_ok : fuji.
