(* ===== verification/DiskRetry.v ===== *)
(** * Sector retry (common/fujinet_disk_retry.c) and the RS-232 client's
    exchange (amiga/channels/rs232/fujinet_nio_client.c)

    A disk exchange is repeated, at most three times, only when the request
    is a well-formed READ_SECTOR or WRITE_SECTOR packet and only after a
    transport error or a timeout.  The transport is a parameter: a function
    on its own state [W] that may write the response buffer. *)

From S2P Require Import Prelude FnLib.

Section Retry.
Context `{L : FnLib} {W M : Type}.

Definition FUJINET_DISK_RETRY_ATTEMPTS : nat := 3.
Definition NIO_DISK_READ_SECTOR : Z := 3.
Definition NIO_DISK_WRITE_SECTOR : Z := 4.
Definition NIO_DISK_READ_REQUEST_SIZE : Z := FN_HEADER_SIZE + 8.
Definition NIO_DISK_WRITE_REQUEST_SIZE : Z := FN_HEADER_SIZE + 8 + 512.

(** The transport's arguments: state, request, its length, the response
    buffer and its capacity.  The results: state, returned code, response
    buffer and [*response_length] (which the caller sets to 0 first). *)
Record transport_reply := mkReply {
  tr_world : W;
  tr_result : Z;
  tr_response : list Z;
  tr_length : Z
}.
Definition fujinet_disk_retry_transport_fn : Type :=
  W -> list Z -> Z -> list Z -> Z -> transport_reply.

Record fujinet_disk_retry_diagnostics_t := mkDiag {
  attempts : Z;
  results : list Z;
  response_lengths : list Z
}.

(** [request] is [None] for a null pointer. *)
Definition is_retryable_sector_request (request : option (list Z)) (request_length : Z) : bool :=
  match request with
  | None => false
  | Some request =>
      if request_length <? FN_HEADER_SIZE then false
      else
      let command := request.[1] in
      if ((command =? NIO_DISK_READ_SECTOR) && negb (request_length =? NIO_DISK_READ_REQUEST_SIZE))
         || ((command =? NIO_DISK_WRITE_SECTOR) && negb (request_length =? NIO_DISK_WRITE_REQUEST_SIZE))
         || (negb (command =? NIO_DISK_READ_SECTOR) && negb (command =? NIO_DISK_WRITE_SECTOR))
      then false
      else
      let encoded_length := Z.lor request.[2] (Z.shiftl request.[3] 8) in
      let sector_length := Z.lor request.[12] (Z.shiftl request.[13] 8) in
      let slot := request.[7] in
      (request.[0] =? FN_DEVICE_DISK) && (encoded_length =? request_length)
      && (request.[FN_CHECKSUM_OFFSET] =? fn_calc_packet_checksum request request_length)
      && (request.[5] =? 0) && (request.[6] =? FN_DISK_PROTOCOL_VERSION)
      && (1 <=? slot) && (slot <=? 8) && (sector_length =? 512)
  end.

(** The caller's memory [M] holds what [diagnostics] points to and the
    observer's context, which may be the same object: a diagnostics pointer
    is the function that updates its target in [M], the observer a function
    on [M] that also sees the transport's state. *)
Definition diagnostics_ptr : Type :=
  (fujinet_disk_retry_diagnostics_t -> fujinet_disk_retry_diagnostics_t) -> M -> M.
Definition fujinet_disk_retry_attempt_fn : Type := W -> Z -> Z -> Z -> M -> M.

Record retry_state := mkRetry {
  rs_world : W;
  rs_response : list Z;
  rs_response_length : Z;
  rs_memory : M
}.

Definition diag_begin (attempt : nat) (d : fujinet_disk_retry_diagnostics_t) :=
  mkDiag (u8 (Z.of_nat attempt + 1)) (put_at (results d) attempt FN_ERR_INVALID)
         (put_at (response_lengths d) attempt 0).
Definition diag_end (attempt : nat) (result len : Z) (d : fujinet_disk_retry_diagnostics_t) :=
  mkDiag (attempts d) (put_at (results d) attempt result)
         (put_at (response_lengths d) attempt len).

Definition write_diag (p : option diagnostics_ptr)
    (f : fujinet_disk_retry_diagnostics_t -> fujinet_disk_retry_diagnostics_t) (m : M) : M :=
  match p with Some upd => upd f m | None => m end.

(** One pass of the loop body up to its first [return]. *)
Definition one_attempt (transport : fujinet_disk_retry_transport_fn) (request : list Z)
    (request_length response_capacity : Z) (diagnostics : option diagnostics_ptr)
    (attempt_observer : option fujinet_disk_retry_attempt_fn) (attempt : nat) (s : retry_state)
    : Z * Z * retry_state :=
  let m := write_diag diagnostics (diag_begin attempt) (rs_memory s) in
  let r := transport (rs_world s) request request_length (rs_response s) response_capacity in
  let m := write_diag diagnostics (diag_end attempt (tr_result r) (tr_length r)) m in
  let m := match attempt_observer with
           | Some obs => obs (tr_world r) (u8 (Z.of_nat attempt + 1)) (tr_result r) (tr_length r) m
           | None => m
           end in
  (tr_result r, tr_length r, mkRetry (tr_world r) (tr_response r) 0 m).

(** [for (attempt = ...; attempt < attempts; ++attempt)]: [n] are left. *)
Fixpoint retry_loop (transport : fujinet_disk_retry_transport_fn) (request : list Z)
    (request_length response_capacity : Z) (diagnostics : option diagnostics_ptr)
    (attempt_observer : option fujinet_disk_retry_attempt_fn)
    (attempt n : nat) (result : Z) (s : retry_state) : Z * retry_state :=
  match n with
  | O => (result, s)
  | S n' =>
      let '(result, len, s) :=
        one_attempt transport request request_length response_capacity diagnostics
          attempt_observer attempt s in
      if result =? FN_OK
      then (FN_OK, mkRetry (rs_world s) (rs_response s) len (rs_memory s))
      else if negb (result =? FN_ERR_TRANSPORT) && negb (result =? FN_ERR_TIMEOUT)
      then (result, s)
      else retry_loop transport request request_length response_capacity diagnostics
             attempt_observer (S attempt) n' result s
  end.

(** [transport] is [None] for a null function, [response_length] [None] for
    a null pointer; a null request reaches the transport as an empty one. *)
Definition fujinet_disk_retry_exchange (transport : option fujinet_disk_retry_transport_fn)
    (w : W) (request : option (list Z)) (request_length : Z) (response : list Z)
    (response_capacity : Z) (response_length : option Z) (diagnostics : option diagnostics_ptr)
    (attempt_observer : option fujinet_disk_retry_attempt_fn) (m : M) : Z * retry_state :=
  match transport, response_length with
  | Some transport, Some len0 =>
      let n := if is_retryable_sector_request request request_length
               then FUJINET_DISK_RETRY_ATTEMPTS else 1%nat in
      let m := write_diag diagnostics
                 (fun d => mkDiag 0 (results d) (response_lengths d)) m in
      retry_loop transport (default [] request) request_length response_capacity diagnostics
        attempt_observer 0 n FN_ERR_INVALID (mkRetry w response len0 m)
  | _, _ => (FN_ERR_INVALID, mkRetry w response (default 0 response_length) m)
  end.

End Retry.
#[global] Arguments transport_reply : clear implicits.
#[global] Arguments fujinet_disk_retry_transport_fn : clear implicits.
#[global] Arguments diagnostics_ptr : clear implicits.
#[global] Arguments fujinet_disk_retry_attempt_fn : clear implicits.
#[global] Arguments retry_state : clear implicits.

(** ** fujinet_nio_client.c *)

Section Client.
Context `{L : FnLib} {W : Type}.

(** [fujinet_nio_disk_context_t], without the library's client context. *)
Record fujinet_nio_disk_context_t := mkContext {
  retry : fujinet_disk_retry_diagnostics_t;
  exchange_causes : list Z;
  exchange_native_errors : list Z;
  exchange_statuses : list Z
}.

(** What fn_amiga_transport_last_broker_cause and ..._serial_detail report
    of the transport's state: cause, native error and status. *)
Variable broker_detail : W -> Z * Z * Z.

Definition nio_record_attempt : fujinet_disk_retry_attempt_fn W fujinet_nio_disk_context_t :=
  fun w attempt result response_length c =>
  let index := u8 (attempt - 1) in
  if index >=? Z.of_nat FUJINET_DISK_RETRY_ATTEMPTS then c
  else
  let i := Z.to_nat index in
  let '(cause, native, status) := broker_detail w in
  mkContext
    (mkDiag (attempts (retry c)) (put_at (results (retry c)) i result)
            (put_at (response_lengths (retry c)) i response_length))
    (put_at (exchange_causes c) i cause) (put_at (exchange_native_errors c) i native)
    (put_at (exchange_statuses c) i status).

Definition context_retry : diagnostics_ptr fujinet_nio_disk_context_t :=
  fun f c => mkContext (f (retry c)) (exchange_causes c) (exchange_native_errors c)
               (exchange_statuses c).

Definition diag_zero : fujinet_disk_retry_diagnostics_t := mkDiag 0 (zeros 3) (zeros 3).

(** [nio_exchange] with a non-null context. *)
Definition nio_exchange (transport : fujinet_disk_retry_transport_fn W)
    (w : W) (c : fujinet_nio_disk_context_t) (request : list Z) (request_length : Z)
    (response : list Z) (response_capacity len0 : Z)
    : Z * retry_state W fujinet_nio_disk_context_t :=
  fujinet_disk_retry_exchange (Some transport) w (Some request) request_length response
    response_capacity (Some len0) (Some context_retry) (Some nio_record_attempt)
    (context_retry (fun _ => diag_zero) c).

End Client.

(** ** The outcome of an exchange *)

(** The replies of [transport] called over and over on what it left. *)
Fixpoint nth_reply {W} (transport : fujinet_disk_retry_transport_fn W) (request : list Z)
    (request_length cap : Z) (w : W) (resp : list Z) (k : nat) : transport_reply W :=
  let r := transport w request request_length resp cap in
  match k with
  | O => r
  | S k' => nth_reply transport request request_length cap (tr_world r) (tr_response r) k'
  end.

Definition retryable `{FnLib} (result : Z) : bool :=
  (result =? FN_ERR_TRANSPORT) || (result =? FN_ERR_TIMEOUT).

Definition budget `{FnLib} (request : list Z) (len : Z) : nat :=
  if is_retryable_sector_request (Some request) len then FUJINET_DISK_RETRY_ATTEMPTS else 1.

(** A memory that only lists what the observer is told. *)
Definition list_observer {W} : fujinet_disk_retry_attempt_fn W (list (Z * Z * Z)) :=
  fun _ attempt result len m => m ++ [(attempt, result, len)].

Definition observation {W} (r : nat -> transport_reply W) (j : nat) : Z * Z * Z :=
  (Z.of_nat j + 1, tr_result (r j), tr_length (r j)).

(** The memory after one attempt whose reply is [r]. *)
Definition attempt_memory `{FnLib} {W M} (d : option (diagnostics_ptr M))
    (o : option (fujinet_disk_retry_attempt_fn W M)) (attempt : nat) (r : transport_reply W)
    (m : M) : M :=
  let m := write_diag d (diag_begin attempt) m in
  let m := write_diag d (diag_end attempt (tr_result r) (tr_length r)) m in
  match o with
  | Some obs => obs (tr_world r) (u8 (Z.of_nat attempt + 1)) (tr_result r) (tr_length r) m
  | None => m
  end.

(** [k] attempts were made, with replies [r 0] to [r (k - 1)], of [n] allowed. *)
Definition stops_at `{FnLib} {W} (r : nat -> transport_reply W) (k n : nat) : Prop :=
  (1 <= k <= n)%nat /\
  (forall j, (S j < k)%nat -> retryable (tr_result (r j)) = true) /\
  ((k < n)%nat -> retryable (tr_result (r (k - 1)%nat)) = false).

Lemma ok_not_retryable `{L : FnLib, !FnLibOk L} : retryable FN_OK = false.
Proof.
  unfold retryable. pose proof fn_err_transport_ok. pose proof fn_err_timeout_ok.
  apply orb_false_intro; apply Z.eqb_neq; congruence.
Qed.

Lemma fold_seq_shift {A} (f : A -> nat -> A) k a :
  fold_left f (seq 1 k) a = fold_left (fun a j => f a (S j)) (seq 0 k) a.
Proof. rewrite <- seq_shift. generalize (seq 0 k). intros l. revert a. induction l; simpl; auto. Qed.

Lemma fold_left_ext {A B} (f g : A -> B -> A) l a :
  (forall a b, f a b = g a b) -> fold_left f l a = fold_left g l a.
Proof. intros H. revert a. induction l as [|x l IH]; intros a; simpl; [done|]. by rewrite H. Qed.

Lemma retry_loop_spec `{L : FnLib, !FnLibOk L} {W M} transport request len cap d o attempt n
    res0 (s : retry_state W M) :
  (0 < n)%nat ->
  let r := nth_reply transport request len cap (rs_world s) (rs_response s) in
  exists k, stops_at r k n /\
    retry_loop transport request len cap d o attempt n res0 s =
    (tr_result (r (k - 1)%nat),
     mkRetry (tr_world (r (k - 1)%nat)) (tr_response (r (k - 1)%nat))
       (if tr_result (r (k - 1)%nat) =? FN_OK then tr_length (r (k - 1)%nat) else 0)
       (fold_left (fun m j => attempt_memory d o (attempt + j) (r j) m) (seq 0 k) (rs_memory s))).
Proof.
  revert attempt res0 s. induction n as [|n IH]; intros attempt res0 s Hn r; [lia|].
  cbn [retry_loop]. unfold one_attempt. set (r0 := transport _ _ _ _ _).
  change (match o with Some obs => _ | None => _ end) with (attempt_memory d o attempt r0 (rs_memory s)).
  assert (Hr0 : r O = r0) by done.
  assert (HrS : forall j, r (S j) = nth_reply transport request len cap (tr_world r0) (tr_response r0) j)
    by done.
  clearbody r.
  assert (Hone : retryable (tr_result r0) = false \/ n = O -> stops_at r 1 (S n)).
  { intros [H| ->]; repeat split; intros; try lia. change (1 - 1)%nat with O. by rewrite Hr0. }
  destruct (Z.eqb_spec (tr_result r0) FN_OK) as [Eok|Eok].
  { exists 1%nat. rewrite Eok in Hone. split; [apply Hone; left; apply ok_not_retryable|].
    change (1 - 1)%nat with O. cbn [seq fold_left]. by rewrite !Hr0, Eok, Z.eqb_refl, Nat.add_0_r. }
  apply Z.eqb_neq in Eok.
  destruct (retryable (tr_result r0)) eqn:Er; unfold retryable in Er.
  - replace (negb (tr_result r0 =? FN_ERR_TRANSPORT) && negb (tr_result r0 =? FN_ERR_TIMEOUT))
      with false by (destruct (_ =? _), (_ =? _); done).
    destruct n as [|n'].
    { exists 1%nat. split; [by apply Hone; right|].
      change (1 - 1)%nat with O. cbn [seq fold_left retry_loop]. by rewrite !Hr0, Eok, Nat.add_0_r. }
    match goal with |- exists k, _ /\ retry_loop _ _ _ _ _ _ _ _ ?x ?s1 = _ =>
      destruct (IH (S attempt) x s1) as (k & (Hk & Hret & Hlast) & ->); [lia|] end.
    cbn [rs_world rs_response rs_memory] in *.
    exists (S k). replace (S k - 1)%nat with (S (k - 1)) by lia. split.
    + split; [lia|split].
      * intros [|j] Hj; [by rewrite Hr0|]. rewrite HrS. apply Hret. lia.
      * intros ?. replace (S k - 1)%nat with (S (k - 1)) by lia. rewrite HrS. apply Hlast. lia.
    + rewrite !HrS. do 2 f_equal. cbn [seq fold_left].
      rewrite fold_seq_shift, Nat.add_0_r, Hr0. apply fold_left_ext. intros m j.
      by rewrite HrS, Nat.add_succ_r.
  - replace (negb (tr_result r0 =? FN_ERR_TRANSPORT) && negb (tr_result r0 =? FN_ERR_TIMEOUT))
      with true by (destruct (_ =? _), (_ =? _); done).
    exists 1%nat. split; [by apply Hone; left|].
    change (1 - 1)%nat with O. cbn [seq fold_left]. by rewrite !Hr0, Eok, Nat.add_0_r.
Qed.

(** The slots of the context hold the results of the attempts made. *)
Definition recorded `{FnLib} {W} (broker_detail : W -> Z * Z * Z) (r : nat -> transport_reply W)
    (c : fujinet_nio_disk_context_t) (j : nat) : Prop :=
  let '(cause, native, status) := broker_detail (tr_world (r j)) in
  (results (retry c)).[j] = tr_result (r j) /\
  (response_lengths (retry c)).[j] = tr_length (r j) /\
  (exchange_causes c).[j] = cause /\ (exchange_native_errors c).[j] = native /\
  (exchange_statuses c).[j] = status.

Definition context_ok (c : fujinet_nio_disk_context_t) : Prop :=
  length (exchange_causes c) = 3%nat /\ length (exchange_native_errors c) = 3%nat /\
  length (exchange_statuses c) = 3%nat.

Lemma length_3 {A} (l : list A) : length l = 3%nat -> exists a b c, l = [a; b; c].
Proof. destruct l as [|a [|b [|c [|]]]]; try done. by exists a, b, c. Qed.

Lemma context_fold `{FnLib} {W} broker_detail (r : nat -> transport_reply W) c k :
  context_ok c -> (1 <= k <= 3)%nat ->
  let c' := fold_left (fun m j => attempt_memory (Some context_retry)
              (Some (nio_record_attempt broker_detail)) j (r j) m) (seq 0 k)
              (context_retry (fun _ => diag_zero) c) in
  context_ok c' /\ attempts (retry c') = Z.of_nat k /\
  (forall j, (j < k)%nat -> recorded broker_detail r c' j) /\
  (forall j, (k <= j)%nat -> (results (retry c')).[j] = 0).
Proof.
  destruct c as [d l1 l2 l3]. intros (H1 & H2 & H3) Hk. simpl in *.
  apply length_3 in H1 as (a1 & a2 & a3 & ->). apply length_3 in H2 as (b1 & b2 & b3 & ->).
  apply length_3 in H3 as (c1 & c2 & c3 & ->). unfold recorded.
  destruct (broker_detail (tr_world (r 0%nat))) as [[x0 y0] z0] eqn:E0.
  destruct (broker_detail (tr_world (r 1%nat))) as [[x1 y1] z1] eqn:E1.
  destruct (broker_detail (tr_world (r 2%nat))) as [[x2 y2] z2] eqn:E2.
  unfold attempt_memory, write_diag, nio_record_attempt.
  destruct k as [|[|[|[|k]]]]; try lia; cbn [seq fold_left]; rewrite ?E0, ?E1, ?E2;
    (split; [done|split; [done|split]]);
    intros [|[|[|j]]] Hj; try lia; rewrite ?E0, ?E1, ?E2; try done; by destruct j.
Qed.

(** A disk exchange of the client makes between one and three attempts,
    and exactly one unless the request is a well-formed sector request.  An
    attempt is repeated only after a transport error or a timeout; the last
    attempt's result is the result of the exchange, its length is stored only
    on success, and the context records every attempt's result, response
    length and broker detail. *)
Theorem nio_exchange_outcome `{L : FnLib, !FnLibOk L} {W} (broker_detail : W -> Z * Z * Z)
    transport w c request len resp cap len0 :
  context_ok c ->
  let r := nth_reply transport request len cap w resp in
  let '(result, s) := nio_exchange broker_detail transport w c request len resp cap len0 in
  exists k, stops_at r k (budget request len) /\
    result = tr_result (r (k - 1)%nat) /\
    rs_world s = tr_world (r (k - 1)%nat) /\
    rs_response s = tr_response (r (k - 1)%nat) /\
    rs_response_length s = (if result =? FN_OK then tr_length (r (k - 1)%nat) else 0) /\
    attempts (retry (rs_memory s)) = Z.of_nat k /\
    (forall j, (j < k)%nat -> recorded broker_detail r (rs_memory s) j) /\
    (forall j, (k <= j)%nat -> (results (retry (rs_memory s))).[j] = 0).
Proof.
  intros Hc r. unfold nio_exchange, fujinet_disk_retry_exchange. fold (budget request len).
  match goal with |- context [retry_loop _ _ _ _ ?d ?o _ _ ?x ?s] =>
    destruct (retry_loop_spec transport request len cap d o 0 (budget request len) x s)
      as (k & Hk & E) end.
  { unfold budget. case_test; unfold FUJINET_DISK_RETRY_ATTEMPTS; lia. }
  change (default [] (Some request)) with request. rewrite E. clear E. cbn [rs_world rs_response rs_memory rs_response_length] in *.
  exists k. split; [done|]. do 4 (split; [done|]).
  destruct (context_fold broker_detail r c k Hc) as (_ & Ha & Hj & H0).
  { destruct Hk as [Hk _]. unfold budget, FUJINET_DISK_RETRY_ATTEMPTS in Hk. case_test_in Hk; lia. }
  split_and!; [exact Ha|exact Hj|exact H0].
Qed.

(** A transport that answers from a script of results, with nothing read. *)
Definition scripted : fujinet_disk_retry_transport_fn (list Z) := fun w _ _ resp _ =>
  mkReply (tail w) (hd 0 w) resp (if hd 0 w =? 0 then 9 else 5).

Definition read_request : list Z := [252; 3; 14; 0; 25; 0; 1; 1; 7; 0; 0; 0; 0; 2].

Lemma nio_exchange_outcome_witness :
  let c := mkContext diag_zero (zeros 3) (zeros 3) (zeros 3) in
  context_ok c /\
  (exists k, @stops_at fn_lib_nio _ (nth_reply scripted read_request 14 64 [6; 0] []) k 3 /\
     2 = Z.of_nat k).
Proof.
  intros c. assert (Hc : context_ok c) by done. split; [exact Hc|].
  pose proof (nio_exchange_outcome (L := fn_lib_nio) (fun _ => (0, 0, 0)) scripted [6; 0] c
    read_request 14 [] 64 0 Hc) as H.
  cbv zeta in H.
  assert (E : exists s, nio_exchange (L := fn_lib_nio) (fun _ => (0, 0, 0)) scripted [6; 0] c
                read_request 14 [] 64 0 = (0, s) /\ attempts (retry (rs_memory s)) = 2).
  { eexists. split; vm_compute; reflexivity. }
  destruct E as (s & E & Ea). rewrite E in H. destruct H as (k & Hk & _ & _ & _ & _ & Hn & _).
  exists k. split; [exact Hk|]. rewrite <- Hn, Ea. reflexivity.
Defined.
