(* ===== verification/PacketBackend.v ===== *)
(** * The native packet backend (amiga/nio.device/fujinet_nio_packet_backend.c)

    A guard between the broker and a packet transport whose faults may leave
    the remote end in an unknown state.  The model keeps the guard's fields,
    the scratch buffer and the adapter's callbacks; the callbacks may call
    the guard again, which [active] refuses. *)

From S2P Require Import Prelude FnLib.

Inductive fn_packet_outcome_t := FN_PACKET_REJECTED | FN_PACKET_COMPLETE | FN_PACKET_UNKNOWN.

#[export] Instance outcome_eq_dec : EqDecision fn_packet_outcome_t.
Proof. solve_decision. Defined.

(** [fn_packet_backend_t]; the callbacks of [io] are kept apart, because
    they act on this record themselves.  [scratch] is the buffer's contents. *)
Record fn_packet_backend_t := mkBackend {
  scratch : list Z;
  capacity : Z;
  opened : bool;
  active : bool;
  quarantined : bool
}.

#[export] Instance eta_backend : Eta fn_packet_backend_t :=
  fun b => mkBackend (scratch b) (capacity b) (opened b) (active b) (quarantined b).

Definition set_scratch : list Z -> fn_packet_backend_t -> fn_packet_backend_t :=
  ltac:(derive_setter scratch).
Definition set_opened : bool -> fn_packet_backend_t -> fn_packet_backend_t :=
  ltac:(derive_setter opened).
Definition set_active : bool -> fn_packet_backend_t -> fn_packet_backend_t :=
  ltac:(derive_setter active).
Definition set_quarantined : bool -> fn_packet_backend_t -> fn_packet_backend_t :=
  ltac:(derive_setter quarantined).

(** [fn_packet_io_t]: a callback acts on its context [W] and may reach the
    guard; [transfer] gives the outcome and [*length], having written the
    scratch buffer in the guard it returns. *)
Record fn_packet_io_t (W : Type) := mkIo {
  io_open : option (fn_packet_backend_t -> W -> fn_packet_backend_t * W * Z);
  io_close : option (fn_packet_backend_t -> W -> fn_packet_backend_t * W);
  io_transfer : fn_packet_backend_t -> W -> list Z -> Z ->
    fn_packet_backend_t * W * fn_packet_outcome_t * Z;
  io_local_reset : option (fn_packet_backend_t -> W -> fn_packet_backend_t * W * Z);
  io_quiesce : option (fn_packet_backend_t -> W -> fn_packet_backend_t * W * Z)
}.
#[global] Arguments mkIo {W}.
#[global] Arguments io_open {W}.
#[global] Arguments io_close {W}.
#[global] Arguments io_transfer {W}.
#[global] Arguments io_local_reset {W}.
#[global] Arguments io_quiesce {W}.

Section Backend.
Context `{L : FnLib}.

(** ** valid_packet *)

Definition field_sizes : list Z := [0; 1; 2; 3; 4; 2; 4; 4].

(** [for (;;)]: the descriptor chain, from [offset] with [fields] bytes
    announced so far.  Every turn but the last reads a byte, so a packet's
    length is fuel enough. *)
Fixpoint descriptor_loop (fuel : nat) (packet : list Z) (length offset fields descriptor : Z)
    : option bool :=
  match fuel with
  | O => None
  | S fuel' =>
      let size := field_sizes.[Z.to_nat (Z.land descriptor 7)] in
      if (size >? length - offset) || (fields >? length - offset - size) then Some false
      else
      let fields := u16 (fields + size) in
      if Z.land descriptor 128 =? 0 then Some (fields <=? length - offset)
      else if offset =? length then Some false
      else descriptor_loop fuel' packet length (offset + 1) fields packet.[Z.to_nat offset]
  end.

Definition packet_fuel (length : Z) : nat := S (Z.to_nat length).

Definition valid_packet (packet : list Z) (length : Z) : bool :=
  if (length <? FN_HEADER_SIZE)
     || negb (Z.lor packet.[2] (Z.shiftl packet.[3] 8) =? length)
     || negb (fn_calc_packet_checksum packet length =? packet.[4])
  then false
  else default false
         (descriptor_loop (packet_fuel length) packet length FN_HEADER_SIZE 0 packet.[5]).

(** ** The operations, on a non-null guard *)

Context {W : Type}.
Implicit Types (io : fn_packet_io_t W) (b : fn_packet_backend_t) (w : W).

(** [io] and [io->transfer] are non-null; [scratch] is [None] for null. *)
Definition fn_packet_backend_init (scratch : option (list Z)) (capacity : Z)
    : option fn_packet_backend_t :=
  match scratch with
  | Some buf => if capacity <? FN_HEADER_SIZE then None
                else Some (mkBackend buf capacity false false true)
  | None => None
  end.

Definition fn_packet_backend_open io b w : Z * fn_packet_backend_t * W :=
  if active b then (FN_ERR_BUSY, b, w)
  else if opened b then (FN_OK, b, w)
  else
  let b := set_active true b in
  let '(b, w, result) :=
    match io_open io with Some f => f b w | None => (b, w, FN_OK) end in
  let b := set_active false b in
  (result, if result =? FN_OK then set_opened true b else b, w).

Definition fn_packet_backend_close io b w : fn_packet_backend_t * W :=
  if active b || negb (opened b) then (b, w)
  else
  let b := set_active true b in
  let '(b, w) := match io_close io with Some f => f b w | None => (b, w) end in
  (set_active false (set_opened false b), w).

Definition fn_packet_backend_reset io b w : Z * fn_packet_backend_t * W :=
  if active b then (FN_ERR_BUSY, b, w)
  else
  let b := set_quarantined true (set_active true b) in
  let '(b, w, result) :=
    match io_local_reset io with Some f => f b w | None => (b, w, FN_ERR_TRANSPORT) end in
  (result, set_active false b, w).

Definition fn_packet_backend_recover io b w : Z * fn_packet_backend_t * W :=
  if active b then (FN_ERR_BUSY, b, w)
  else
  let b := set_active true b in
  let '(b, w, result) :=
    match io_quiesce io with Some f => f b w | None => (b, w, FN_ERR_TRANSPORT) end in
  let b := set_active false b in
  (result, set_quarantined (negb (result =? FN_OK)) b, w).

Record exchange_result := mkExchange {
  x_result : Z;
  x_response : list Z;
  x_length : Z;
  x_backend : fn_packet_backend_t;
  x_world : W
}.

(** [request] is [None] for null; [response] is the buffer's contents and
    [response_length] is not null. *)
Definition fn_packet_backend_exchange io b w (request : option (list Z)) (request_length : Z)
    (response : list Z) (response_capacity : Z) : exchange_result :=
  if active b then mkExchange FN_ERR_BUSY response 0 b w
  else
  match request with
  | None => mkExchange FN_ERR_INVALID response 0 b w
  | Some request =>
      if (request_length >? capacity b) || negb (valid_packet request request_length)
      then mkExchange FN_ERR_INVALID response 0 b w
      else if negb (opened b) || quarantined b
      then mkExchange FN_ERR_TRANSPORT response 0 b w
      else
      let b := set_quarantined true (set_active true b) in
      let '(b, w, outcome, length) := io_transfer io b w request request_length in
      let b := set_active false b in
      if decide (outcome = FN_PACKET_REJECTED)
      then mkExchange FN_ERR_TRANSPORT response 0 (set_quarantined false b) w
      else if negb (bool_decide (outcome = FN_PACKET_COMPLETE)) || (length >? capacity b)
              || (length >? response_capacity) || negb (valid_packet (scratch b) length)
              || negb ((scratch b).[0] =? request.[0]) || negb ((scratch b).[1] =? request.[1])
      then mkExchange FN_ERR_TRANSPORT response 0 b w
      else mkExchange FN_OK (overwrite response 0 (slice (scratch b) 0 (Z.to_nat length))) length
             (set_quarantined false b) w
  end.

End Backend.
#[global] Arguments exchange_result : clear implicits.

(** ** Packets: the descriptor chain as a grammar *)

Section Packets.
Context `{L : FnLib, !FnLibOk L}.

(** [chain ds]: descriptors, each but the last with bit 7 set. *)
Fixpoint chain (ds : list Z) : bool :=
  match ds with
  | [] => false
  | [d] => Z.land d 128 =? 0
  | d :: ds' => negb (Z.land d 128 =? 0) && chain ds'
  end.

Definition fields_size (ds : list Z) : Z :=
  foldr Z.add 0 (map (fun d => field_sizes.[Z.to_nat (Z.land d 7)]) ds).

(** A well-formed packet: its length and checksum, a chain of descriptors
    that starts in the header and goes on in the payload, and room for the
    fields the chain announces after it. *)
Definition packet_ok (packet : list Z) (len : Z) : Prop :=
  FN_HEADER_SIZE <= len /\ le16 packet.[2] packet.[3] = len /\
  packet.[4] = fn_calc_packet_checksum packet len /\
  exists rest, chain (packet.[5] :: rest) = true /\
    rest `prefix_of` drop 6 packet /\
    6 + Z.of_nat (length rest) + fields_size (packet.[5] :: rest) <= len.

Lemma field_size_range d : 0 <= field_sizes.[Z.to_nat (Z.land d 7)] <= 4.
Proof.
  assert (0 <= Z.land d 7 < 8)
    by (change 7 with (Z.ones 3); rewrite Z.land_ones by done; by apply Z.mod_pos_bound).
  generalize (Z.to_nat (Z.land d 7)). intros n. unfold field_sizes.
  do 8 (destruct n; [cbv; split; intro; discriminate|]). destruct n; cbv; split; intro; discriminate.
Qed.

Lemma fields_size_cons d ds :
  fields_size (d :: ds) = field_sizes.[Z.to_nat (Z.land d 7)] + fields_size ds.
Proof. done. Qed.
Lemma fields_size_nil : fields_size [] = 0.
Proof. done. Qed.

Lemma fields_size_nonneg ds : 0 <= fields_size ds.
Proof.
  induction ds as [|d ds IH]; [done|]. rewrite fields_size_cons.
  pose proof (field_size_range d). lia.
Qed.

Lemma drop_byte_at (b : list Z) n : (n < length b)%nat -> drop n b = b.[n] :: drop (S n) b.
Proof.
  intros [x Hx]%lookup_lt_is_Some. rewrite (drop_S b x n Hx). by rewrite (byte_at_lookup _ _ _ Hx).
Qed.

Definition chain_fits (packet : list Z) (len offset fields d : Z) : Prop :=
  exists rest, chain (d :: rest) = true /\ rest `prefix_of` drop (Z.to_nat offset) packet /\ offset + Z.of_nat (length rest) + fields + fields_size (d :: rest) <= len.

(** The announced size of a chain that goes on. *)
Lemma chain_fits_last packet len offset fields d :
  Z.land d 128 = 0 ->
  chain_fits packet len offset fields d <->
  offset + fields + field_sizes.[Z.to_nat (Z.land d 7)] <= len.
Proof.
  intros Hd. unfold chain_fits. split.
  - intros ([|x rest] & Hc & _ & Hs).
    + rewrite fields_size_cons, fields_size_nil in Hs. cbn [length] in Hs. lia.
    + cbn [chain] in Hc. rewrite Hd in Hc. done.
  - intros Hs. exists []. cbn [chain]. rewrite Hd. split; [done|split; [by apply prefix_nil|]].
    rewrite fields_size_cons, fields_size_nil. cbn [length]. lia.
Qed.

Lemma chain_fits_more packet len offset fields d :
  Z.land d 128 <> 0 -> 0 <= offset < len -> len <= Z.of_nat (length packet) ->
  chain_fits packet len offset fields d <->
  chain_fits packet len (offset + 1) (fields + field_sizes.[Z.to_nat (Z.land d 7)])
    packet.[Z.to_nat offset].
Proof.
  intros Hd Ho Hl. apply Z.eqb_neq in Hd. unfold chain_fits.
  rewrite drop_byte_at, (Z2Nat.inj_add offset 1), Nat.add_1_r by lia. split.
  - intros ([|x rest] & Hc & Hp & Hs); cbn [chain] in Hc; rewrite Hd in Hc; [done|].
    apply prefix_cons_inv_1 in Hp as Hx. apply prefix_cons_inv_2 in Hp. subst x.
    exists rest. split; [done|split; [done|]]. rewrite !fields_size_cons in Hs. rewrite fields_size_cons. cbn [length] in Hs. lia.
  - intros (rest & Hc & Hp & Hs). exists (packet.[Z.to_nat offset] :: rest).
    cbn [chain] in *. rewrite Hd. split; [done|split; [by apply prefix_cons|]].
    rewrite !fields_size_cons in *. cbn [length]. lia.
Qed.

Lemma chain_fits_bound packet len offset fields d :
  chain_fits packet len offset fields d ->
  offset + fields + field_sizes.[Z.to_nat (Z.land d 7)] <= len.
Proof.
  intros (rest & _ & _ & H). rewrite fields_size_cons in H.
  pose proof (fields_size_nonneg rest). lia.
Qed.

Lemma descriptor_loop_spec fuel packet len offset fields d :
  is_u16 len -> len <= Z.of_nat (length packet) ->
  0 <= offset <= len -> 0 <= fields -> (Z.to_nat (len - offset) < fuel)%nat ->
  exists r, descriptor_loop fuel packet len offset fields d = Some r /\ (r = true <-> chain_fits packet len offset fields d).
Proof.
  revert offset fields d. induction fuel as [|fuel IH];
    intros offset fields d Hlen Hp Ho Hf Hfuel; [lia|].
  cbn [descriptor_loop]. pose proof (field_size_range d) as Hsz.
  pose proof (chain_fits_bound packet len offset fields d) as Hb.
  set (size := field_sizes.[_]) in *.
  destruct (_ || _) eqn:Etest.
  { exists false. split; [done|]. split; [done|]. intros Hc%Hb. lia. }
  assert (Hsum : u16 (fields + size) = fields + size) by (apply u16_id; unfold is_u16 in *; lia).
  rewrite Hsum. destruct (Z.eqb_spec (Z.land d 128) 0) as [Hd|Hd].
  { eexists. split; [done|]. rewrite chain_fits_last by done. fold size. lia. }
  destruct (Z.eqb_spec offset len) as [->|Hne].
  { exists false. split; [done|]. split; [done|].
    intros ([|x rest] & Hc & _ & Hs).
    - cbn [chain] in Hc. apply Z.eqb_neq in Hd. by rewrite Hd in Hc.
    - pose proof (fields_size_nonneg (d :: x :: rest)). cbn [length] in Hs. lia. }
  destruct (IH (offset + 1) (fields + size) packet.[Z.to_nat offset]) as (r & -> & Hr); try lia; [done|].
  exists r. split; [done|]. rewrite Hr. unfold size. symmetry. apply chain_fits_more; lia || done.
Qed.

(** [valid_packet] accepts exactly the well-formed packets: header,
    length, checksum, and a descriptor chain whose fields fit. *)
Theorem valid_packet_correct packet len :
  bytes_ok packet -> is_u16 len -> len <= Z.of_nat (length packet) ->
  valid_packet packet len = true <-> packet_ok packet len.
Proof.
  intros Hb Hlen Hp. unfold valid_packet, packet_ok.
  rewrite lor_le16 by by apply byte_at_u8. pose proof fn_header_size as H6.
  destruct (Z.ltb_spec len FN_HEADER_SIZE).
  { cbn [orb negb]. split; [done|]. intros (? & _). lia. }
  destruct (Z.eqb_spec (le16 packet.[2] packet.[3]) len); cbn [orb negb].
  2:{ split; [done|]. by intros (_ & ? & _). }
  destruct (Z.eqb_spec (fn_calc_packet_checksum packet len) packet.[4]); cbn [orb negb].
  2:{ split; [done|]. intros (_ & _ & ? & _). congruence. }
  destruct (descriptor_loop_spec (packet_fuel len) packet len FN_HEADER_SIZE 0 packet.[5])
    as (r & -> & Hiff); try lia; try done.
  { unfold packet_fuel. lia. }
  cbn [default from_option id]. rewrite Hiff. unfold chain_fits. rewrite H6. change (Z.to_nat 6) with 6%nat. split.
  - intros (rest & ? & ? & ?). do 3 (split; [lia|]). exists rest. do 2 (split; [done|]). lia.
  - intros (_ & _ & _ & rest & ? & ? & ?). exists rest. do 2 (split; [done|]). lia.
Qed.

End Packets.

(** ** Re-entry: callbacks that call the guard *)

Definition same_guard (b b' : fn_packet_backend_t) : Prop :=
  capacity b' = capacity b /\ opened b' = opened b /\ active b' = active b /\
  quarantined b' = quarantined b.

#[export] Instance same_guard_refl : Reflexive same_guard.
Proof. done. Qed.
#[export] Instance same_guard_trans : Transitive same_guard.
Proof. unfold same_guard. intros ? ? ? (?&?&?&?) (?&?&?&?). split_and!; congruence. Qed.

(** A call of the guard's interface, and its effect on guard and context. *)
Inductive guard_call :=
  | CallOpen | CallClose | CallReset | CallRecover
  | CallExchange (request : option (list Z)) (request_length : Z)
      (response : list Z) (response_capacity : Z).

Section Reentry.
Context `{L : FnLib} {W : Type}.
Implicit Types (io : fn_packet_io_t W) (s : fn_packet_backend_t * W).

Definition run_call io (c : guard_call) s : fn_packet_backend_t * W :=
  let '(b, w) := s in
  match c with
  | CallOpen => let '(_, b, w) := fn_packet_backend_open io b w in (b, w)
  | CallClose => fn_packet_backend_close io b w
  | CallReset => let '(_, b, w) := fn_packet_backend_reset io b w in (b, w)
  | CallRecover => let '(_, b, w) := fn_packet_backend_recover io b w in (b, w)
  | CallExchange req n resp cap =>
      let x := fn_packet_backend_exchange io b w req n resp cap in
      (x_backend x, x_world x)
  end.

Definition run_calls io (cs : list guard_call) s : fn_packet_backend_t * W :=
  fold_left (fun s c => run_call io c s) cs s.

(** One thing a running callback does: its own work, a write of the scratch
    buffer, or a call of the interface. *)
Inductive reentry_step io : relation (fn_packet_backend_t * W) :=
  | re_world b w w' : reentry_step io (b, w) (b, w')
  | re_scratch b w buf : reentry_step io (b, w) (set_scratch buf b, w)
  | re_call c s : reentry_step io s (run_call io c s).

(** The callbacks touch the guard in no other way. *)
Class IoOk io : Prop := {
  io_open_ok f b w : io_open io = Some f -> rtc (reentry_step io) (b, w) (f b w).1;
  io_close_ok f b w : io_close io = Some f -> rtc (reentry_step io) (b, w) (f b w);
  io_transfer_ok b w req n :
    rtc (reentry_step io) (b, w) (io_transfer io b w req n).1.1;
  io_local_reset_ok f b w : io_local_reset io = Some f -> rtc (reentry_step io) (b, w) (f b w).1;
  io_quiesce_ok f b w : io_quiesce io = Some f -> rtc (reentry_step io) (b, w) (f b w).1
}.

(** While a callback runs, the interface refuses every call. *)
Lemma active_refuses io c b w :
  active b = true -> run_call io c (b, w) = (b, w).
Proof.
  intros H. destruct c; simpl;
    unfold fn_packet_backend_open, fn_packet_backend_close, fn_packet_backend_reset,
      fn_packet_backend_recover, fn_packet_backend_exchange; by rewrite H.
Qed.

Lemma reentry_keeps_guard io s s' :
  rtc (reentry_step io) s s' -> active s.1 = true -> same_guard s.1 s'.1.
Proof.
  induction 1 as [s|s s1 s' H1 _ IH]; intros Ha; [done|].
  assert (H : same_guard s.1 s1.1).
  { destruct H1 as [| |c [b w]]; try done. by rewrite active_refuses. }
  etransitivity; [exact H|]. apply IH. destruct H as (_ & _ & -> & _). done.
Qed.

End Reentry.

(** ** What was sent, and when it was certain to be over *)

Inductive event :=
  | E_open | E_close | E_reset
  | E_transfer (outcome : fn_packet_outcome_t)
  | E_quiesce (result : Z).

Section Safety.
Context `{L : FnLib, !FnLibOk L} {W : Type}.

(** The adapter with a log of its callbacks, newest first. *)
Definition logged {A} (e : A -> event) (f : fn_packet_backend_t -> W -> fn_packet_backend_t * W * A)
    (b : fn_packet_backend_t) (lw : list event * W)
    : fn_packet_backend_t * (list event * W) * A :=
  let '(b', w', a) := f b lw.2 in (b', (e a :: lw.1, w'), a).

Definition logged_io (io : fn_packet_io_t W) : fn_packet_io_t (list event * W) := {|
  io_open := option_map (logged (fun _ => E_open)) (io_open io);
  io_close := option_map (fun f b lw =>
    let '(b', w') := f b lw.2 in (b', (E_close :: lw.1, w'))) (io_close io);
  io_transfer b lw req n :=
    let '(b', w', o, len) := io_transfer io b lw.2 req n in (b', (E_transfer o :: lw.1, w'), o, len);
  io_local_reset := option_map (logged (fun _ => E_reset)) (io_local_reset io);
  io_quiesce := option_map (logged E_quiesce) (io_quiesce io)
|}.

(** Nothing that was sent can still execute or answer: the latest event that
    bears on it is a proof.  A rejected transfer sent nothing; a complete one
    is finished; a reset and an unknown transfer prove nothing. *)
Fixpoint certain (log : list event) : bool :=
  match log with
  | [] => false
  | E_quiesce r :: _ => r =? FN_OK
  | E_transfer FN_PACKET_COMPLETE :: _ => true
  | E_transfer FN_PACKET_UNKNOWN :: _ | E_reset :: _ => false
  | E_transfer FN_PACKET_REJECTED :: l | E_open :: l | E_close :: l => certain l
  end.

(** Every transfer of the log started when that was so. *)
Fixpoint transfers_certain (log : list event) : bool :=
  match log with
  | [] => true
  | E_transfer _ :: l => certain l && transfers_certain l
  | _ :: l => transfers_certain l
  end.

Definition guard_inv (s : fn_packet_backend_t * (list event * W)) : Prop :=
  active s.1 = false /\ transfers_certain s.2.1 = true /\
  (quarantined s.1 = false -> certain s.2.1 = true).

(** What a logged callback does: it adds its event and keeps the guard. *)
Definition callback_result (P : event -> Prop) (b : fn_packet_backend_t)
    (lw : list event * W) (s : fn_packet_backend_t * (list event * W)) : Prop :=
  same_guard b s.1 /\ exists e, P e /\ s.2.1 = e :: lw.1.

Context (io : fn_packet_io_t W) `{!IoOk io}.

Lemma logged_open b lw g : active b = true -> io_open (logged_io io) = Some g ->
  callback_result (eq E_open) b lw (g b lw).1.
Proof.
  simpl. destruct (io_open io) as [f|] eqn:E; [|done]. intros Ha [= <-].
  pose proof (reentry_keeps_guard io _ _ (io_open_ok f b lw.2 E) Ha) as H.
  unfold logged. destruct (f b lw.2) as [[b' w'] a]. split; [done|]. by exists E_open.
Qed.

Lemma logged_reset b lw g : active b = true -> io_local_reset (logged_io io) = Some g ->
  callback_result (eq E_reset) b lw (g b lw).1.
Proof.
  simpl. destruct (io_local_reset io) as [f|] eqn:E; [|done]. intros Ha [= <-].
  pose proof (reentry_keeps_guard io _ _ (io_local_reset_ok f b lw.2 E) Ha) as H.
  unfold logged. destruct (f b lw.2) as [[b' w'] a]. split; [done|]. by exists E_reset.
Qed.

Lemma logged_quiesce b lw g : active b = true -> io_quiesce (logged_io io) = Some g ->
  callback_result (eq (E_quiesce (g b lw).2)) b lw (g b lw).1.
Proof.
  simpl. destruct (io_quiesce io) as [f|] eqn:E; [|done]. intros Ha [= <-].
  pose proof (reentry_keeps_guard io _ _ (io_quiesce_ok f b lw.2 E) Ha) as H.
  unfold logged. destruct (f b lw.2) as [[b' w'] a]. split; [done|]. by exists (E_quiesce a).
Qed.

Lemma logged_close b lw g : active b = true -> io_close (logged_io io) = Some g ->
  callback_result (eq E_close) b lw (g b lw).
Proof.
  simpl. destruct (io_close io) as [f|] eqn:E; [|done]. intros Ha [= <-].
  pose proof (reentry_keeps_guard io _ _ (io_close_ok f b lw.2 E) Ha) as H.
  destruct (f b lw.2) as [b' w']. split; [done|]. by exists E_close.
Qed.

Lemma logged_transfer b lw req n : active b = true ->
  callback_result (eq (E_transfer (io_transfer (logged_io io) b lw req n).1.2)) b lw
    (io_transfer (logged_io io) b lw req n).1.1.
Proof.
  simpl. intros Ha. pose proof (reentry_keeps_guard io _ _ (io_transfer_ok b lw.2 req n) Ha) as H.
  destruct (io_transfer io b lw.2 req n) as [[[b' w'] o] len]. split; [done|]. by exists (E_transfer o).
Qed.

(** Name what a callback returned, with its guarantee. *)
Ltac callback H :=
  match type of H with
  | callback_result _ _ _ ?r =>
      destruct r as [b' w']; destruct H as [(?&?&Hact&Hqua) (? & <- & Hlog)]; simpl in *
  end.

(** A step ends with a guard at rest and a log that extends the old one. *)
Ltac at_rest :=
  repeat case_test; split_and!; simpl;
  repeat match goal with
         | H : fst _ = _ :: _ |- _ => rewrite H; clear H
         | H : quarantined _ = _ |- _ => rewrite H; clear H
         end; simpl;
  first [done | by auto | congruence | (intros; congruence) | idtac].

Lemma open_inv b lw : guard_inv (b, lw) ->
  guard_inv (run_call (logged_io io) CallOpen (b, lw)).
Proof.
  destruct lw as [log w]. intros (Ha & Ht & Hq). cbn [run_call fst snd] in *.
  unfold fn_packet_backend_open. rewrite Ha. destruct (opened b); [done|].
  destruct (io_open (logged_io io)) as [g|] eqn:E; [|at_rest].
  pose proof (logged_open (set_active true b) (log, w) g eq_refl E) as H.
  destruct (g _ _) as [s' r]. simpl in H. callback H. at_rest.
Qed.

Lemma close_inv b lw : guard_inv (b, lw) ->
  guard_inv (run_call (logged_io io) CallClose (b, lw)).
Proof.
  destruct lw as [log w]. intros (Ha & Ht & Hq). cbn [run_call fst snd] in *.
  unfold fn_packet_backend_close. rewrite Ha. cbn [orb]. destruct (negb (opened b)); [done|].
  destruct (io_close (logged_io io)) as [g|] eqn:E; [|at_rest].
  pose proof (logged_close (set_active true b) (log, w) g eq_refl E) as H. callback H. at_rest.
Qed.

Lemma reset_inv b lw : guard_inv (b, lw) ->
  guard_inv (run_call (logged_io io) CallReset (b, lw)).
Proof.
  destruct lw as [log w]. intros (Ha & Ht & Hq). cbn [run_call fst snd] in *.
  unfold fn_packet_backend_reset. rewrite Ha.
  destruct (io_local_reset (logged_io io)) as [g|] eqn:E; [|at_rest].
  pose proof (logged_reset (set_quarantined true (set_active true b)) (log, w) g eq_refl E) as H.
  destruct (g _ _) as [s' r]. simpl in H. callback H. at_rest.
Qed.

Lemma recover_inv b lw : guard_inv (b, lw) ->
  guard_inv (run_call (logged_io io) CallRecover (b, lw)).
Proof.
  destruct lw as [log w]. intros (Ha & Ht & Hq). cbn [run_call fst snd] in *.
  unfold fn_packet_backend_recover. rewrite Ha.
  destruct (io_quiesce (logged_io io)) as [g|] eqn:E; [|].
  - pose proof (logged_quiesce (set_active true b) (log, w) g eq_refl E) as H.
    destruct (g _ _) as [s' r]. simpl in H. callback H. at_rest.
    by intros ?%negb_false_iff.
  - pose proof fn_err_transport_ok as ->%Z.eqb_neq. at_rest.
Qed.

Lemma exchange_inv req n resp cap b lw : guard_inv (b, lw) ->
  guard_inv (run_call (logged_io io) (CallExchange req n resp cap) (b, lw)).
Proof.
  destruct lw as [log w]. intros (Ha & Ht & Hq). cbn [run_call fst snd] in *.
  unfold fn_packet_backend_exchange. rewrite Ha. destruct req as [req|]; [|done].
  destruct (_ || _); [done|]. destruct (negb (opened b)); [done|]. simpl.
  destruct (quarantined b) eqn:Eq; [by split_and!; simpl; rewrite ?Eq|]. specialize (Hq eq_refl).
  pose proof (logged_transfer (set_quarantined true (set_active true b)) (log, w) req n eq_refl) as H.
  simpl in H. destruct (io_transfer io _ w req n) as [[[b2 w2] o] len].
  destruct H as [(_ & _ & _ & Hqua) _]. simpl in Hqua.
  destruct (decide (o = FN_PACKET_REJECTED)) as [->|Hr].
  { split_and!; simpl; [done|by rewrite Hq|done]. }
  case_test; (split_and!; simpl; [done|by rewrite Hq|]); [intros; congruence|].
  intros _. destruct o; done.
Qed.

(** C7: Whatever calls are made of an initialised guard, and however the
    adapter's callbacks re-enter it, no packet is handed to the transport
    unless it is certain that everything sent before can neither execute nor
    answer any more; and the guard leaves quarantine only when that is
    certain. *)
Theorem quarantine_safe buf cap b cs w :
  fn_packet_backend_init buf cap = Some b ->
  let s := run_calls (logged_io io) cs (b, ([], w)) in
  active s.1 = false /\ transfers_certain s.2.1 = true /\
  (quarantined s.1 = false -> certain s.2.1 = true).
Proof.
  intros Hinit. change (guard_inv (run_calls (logged_io io) cs (b, ([], w)))).
  assert (H : guard_inv (b, ([] : list event, w))).
  { unfold fn_packet_backend_init in Hinit. destruct buf; [|done].
    case_test_in Hinit; [done|]. by injection Hinit as <-. }
  revert H. generalize (b, ([] : list event, w)). unfold run_calls.
  induction cs as [|c cs IH]; intros s H; [done|]. apply IH. destruct s as [b1 lw1].
  destruct c; auto using open_inv, close_inv, reset_inv, recover_inv, exchange_inv.
Qed.

End Safety.

(** An exchange that succeeds hands over one well-formed packet that
    answers the request (same device, same command, no longer than the
    response buffer) and leaves the guard out of quarantine; any other
    exchange leaves the response untouched with length 0. *)
Theorem exchange_delivers `{L : FnLib, !FnLibOk L} {W} (io : fn_packet_io_t W) b w req n resp cap :
  is_u16 cap -> cap = Z.of_nat (length resp) ->
  (forall b w r n, let '(b', _, _, len) := io_transfer io b w r n in
     bytes_ok (scratch b') /\ 0 <= len /\ capacity b' <= Z.of_nat (length (scratch b'))) ->
  let x := fn_packet_backend_exchange io b w req n resp cap in
  if x_result x =? FN_OK
  then exists request, req = Some request /\ packet_ok (scratch (x_backend x)) (x_length x) /\
         0 <= x_length x <= cap /\ quarantined (x_backend x) = false /\
         take (Z.to_nat (x_length x)) (x_response x)
           = take (Z.to_nat (x_length x)) (scratch (x_backend x)) /\
         (scratch (x_backend x)).[0] = request.[0] /\ (scratch (x_backend x)).[1] = request.[1]
  else x_response x = resp /\ x_length x = 0.
Proof.
  intros Hcap Hresp Hio. unfold fn_packet_backend_exchange.
  pose proof fn_err_busy_ok as Hb%Z.eqb_neq. pose proof fn_err_invalid_ok as Hi%Z.eqb_neq.
  pose proof fn_err_transport_ok as Ht%Z.eqb_neq.
  destruct (active b); simpl; [by rewrite Hb|]. destruct req as [req|]; simpl; [|by rewrite Hi].
  destruct (_ || _); simpl; [by rewrite Hi|]. destruct (_ || _); simpl; [by rewrite Ht|].
  specialize (Hio (set_quarantined true (set_active true b)) w req n).
  destruct (io_transfer io _ w req n) as [[[b2 w2] o] len].
  case_decide; simpl; [by rewrite Ht|]. destruct (_ || _) eqn:E; simpl; [by rewrite Ht|].
  rewrite Z.eqb_refl. rewrite !orb_false_iff, !negb_false_iff in E.
  destruct E as (((((? & ?) & ?) & Hv) & ?) & ?). destruct Hio as (Hb2 & Hlen & Hcb). simpl in *.
  exists req. split; [done|]. assert (is_u16 len) by (unfold is_u16 in *; lia).
  split; [apply valid_packet_correct; done || lia|]. split; [lia|]. split; [done|].
  split; [|lia]. unfold overwrite, slice. rewrite drop_0, take_0. simpl.
  rewrite take_app_le by (rewrite length_take; lia). by rewrite take_take, Nat.min_id.
Qed.

(** ** A concrete adapter *)

Definition clock_request : list Z := [69; 1; 6; 0; 76; 0].

Lemma clock_request_bytes : bytes_ok clock_request.
Proof. unfold bytes_ok, clock_request, is_u8. repeat constructor; lia. Qed.

(** It answers every request with a complete clock packet, in a buffer as
    large as the guard's, and counts its openings. *)
Definition clock_io : fn_packet_io_t nat := {|
  io_open := Some (fun b w => (b, S w, 0));
  io_close := Some (fun b w => (b, w));
  io_transfer b w req n :=
    (set_scratch (clock_request ++ zeros (Z.to_nat (capacity b))) b, w, FN_PACKET_COMPLETE, 6);
  io_local_reset := Some (fun b w => (b, w, 0));
  io_quiesce := Some (fun b w => (b, w, 0))
|}.

#[export] Instance clock_io_ok : IoOk (L := fn_lib_nio) clock_io.
Proof.
  split; intros; simpl in *; simplify_eq; try done.
  - apply rtc_once, re_world.
  - apply rtc_once, re_scratch.
Qed.

Lemma valid_packet_correct_witness :
  bytes_ok clock_request /\ packet_ok (L := fn_lib_nio) clock_request 6.
Proof.
  split; [exact clock_request_bytes|].
  apply (valid_packet_correct (L := fn_lib_nio) clock_request 6 clock_request_bytes);
    [unfold is_u16; lia|simpl; lia|vm_compute; reflexivity].
Defined.

Definition clock_guard : fn_packet_backend_t := mkBackend (zeros 64) 64 false false true.

Definition clock_calls : list guard_call :=
  [CallExchange (Some clock_request) 6 (zeros 32) 32; CallOpen; CallRecover;
   CallExchange (Some clock_request) 6 (zeros 32) 32].

(** The first exchange is refused, the last one goes out. *)
Lemma quarantine_safe_witness :
  let s := run_calls (L := fn_lib_nio) (logged_io clock_io) clock_calls
             (clock_guard, ([], 0%nat)) in
  s.2.1 = [E_transfer FN_PACKET_COMPLETE; E_quiesce 0; E_open] /\
  transfers_certain (L := fn_lib_nio) s.2.1 = true.
Proof.
  intros s. split; [vm_compute; reflexivity|].
  assert (E : fn_packet_backend_init (L := fn_lib_nio) (Some (zeros 64)) 64 = Some clock_guard)
    by (vm_compute; reflexivity).
  exact (proj1 (proj2 (quarantine_safe (L := fn_lib_nio) clock_io (Some (zeros 64)) 64 clock_guard
    clock_calls 0%nat E))).
Defined.

Lemma exchange_delivers_witness :
  let b := mkBackend (zeros 64) 64 true false false in
  let x := fn_packet_backend_exchange (L := fn_lib_nio) clock_io b 0%nat (Some clock_request) 6
             (zeros 32) 32 in
  x_result x = 0 /\ packet_ok (L := fn_lib_nio) (scratch (x_backend x)) 6.
Proof.
  intros b x. split; [vm_compute; reflexivity|].
  assert (Hio : forall b (w : nat) r n, let '(b', _, _, len) := io_transfer clock_io b w r n in
    bytes_ok (scratch b') /\ 0 <= len /\ capacity b' <= Z.of_nat (length (scratch b'))).
  { intros b1 w r n. cbn [io_transfer clock_io scratch set_scratch capacity].
    split; [apply Forall_app_2; [exact clock_request_bytes|apply zeros_bytes_ok]|].
    rewrite length_app. unfold zeros. rewrite length_replicate. lia. }
  pose proof (exchange_delivers (L := fn_lib_nio) clock_io b 0%nat (Some clock_request) 6
    (zeros 32) 32 ltac:(unfold is_u16; lia) eq_refl Hio) as H.
  assert (E : x_result x =? 0 = true) by (vm_compute; reflexivity).
  assert (El : x_length x = 6) by (vm_compute; reflexivity).
  cbv zeta in H. fold x in H. change (@FN_OK fn_lib_nio) with 0 in H. rewrite E in H.
  destruct H as (r & _ & H & _). rewrite El in H. exact H.
Defined.
