(* ===== verification/PaulaUart.v ===== *)
(** * The Paula UART (amiga/serial.device/fujinet_paula_uart.c)

    Baud-rate divisor, SERDAT words, the parameters the device accepts, and
    the receive ring.  The ring is shown to implement a bounded FIFO of
    bytes: every sequence of interrupts, reads and clears gives the results
    of the queue.  Pointers are non-null unless an [option] says otherwise. *)

From S2P Require Import Prelude.

Definition FUJINET_PAULA_NTSC_CLOCK : Z := 3579545.
Definition FUJINET_PAULA_PAL_CLOCK : Z := 3546895.
Definition FUJINET_PAULA_SERPER_MAX : Z := 32767.
Definition FUJINET_PAULA_SERDAT_STOP : Z := 256.
Definition FUJINET_PAULA_SERDATR_OVRUN : Z := 32768.
Definition FUJINET_PAULA_SERDATR_RBF : Z := 16384.
Definition FUJINET_SERIAL_BAUD_MIN : Z := 300.
Definition FUJINET_SERIAL_BAUD_MAX : Z := 230400.

(** [pal] is a C truth value. *)
Definition fujinet_paula_serper (baud : Z) (pal : bool) : Z :=
  let baud := if baud <? 110 then 110 else baud in
  let clock := if pal then FUJINET_PAULA_PAL_CLOCK else FUJINET_PAULA_NTSC_CLOCK in
  let period := clock / baud in
  let period := if period =? 0 then 1 else period in
  let period := period - 1 in
  let period := if period >? FUJINET_PAULA_SERPER_MAX then FUJINET_PAULA_SERPER_MAX else period in
  u16 period.

Definition fujinet_paula_serdat_word (data : Z) : Z :=
  u16 (Z.lor FUJINET_PAULA_SERDAT_STOP data).

Definition fujinet_serial_params_valid (baud read_len write_len stop_bits : Z)
    (parity_on : bool) : bool :=
  if (baud <? FUJINET_SERIAL_BAUD_MIN) || (baud >? FUJINET_SERIAL_BAUD_MAX) then false
  else if negb (read_len =? 8) || negb (write_len =? 8) || negb (stop_bits =? 1) then false
  else negb parity_on.

(** ** The receive ring *)

Record fujinet_paula_rx_t := mkRx {
  buf : list Z;
  mask : Z;
  head : Z;
  tail : Z;
  hardware_overrun_latched : bool;
  software_ring_overflow_latched : bool
}.

#[export] Instance eta_rx : Eta fujinet_paula_rx_t :=
  fun r => mkRx (buf r) (mask r) (head r) (tail r) (hardware_overrun_latched r)
             (software_ring_overflow_latched r).

Definition set_buf : list Z -> fujinet_paula_rx_t -> fujinet_paula_rx_t := ltac:(derive_setter buf).
Definition set_head : Z -> fujinet_paula_rx_t -> fujinet_paula_rx_t := ltac:(derive_setter head).
Definition set_tail : Z -> fujinet_paula_rx_t -> fujinet_paula_rx_t := ltac:(derive_setter tail).
Definition set_hardware_overrun : bool -> fujinet_paula_rx_t -> fujinet_paula_rx_t :=
  ltac:(derive_setter hardware_overrun_latched).
Definition set_ring_overflow : bool -> fujinet_paula_rx_t -> fujinet_paula_rx_t :=
  ltac:(derive_setter software_ring_overflow_latched).

(** [None] is the error return -1. *)
Definition fujinet_paula_rx_init (buf : option (list Z)) (size : Z) : option fujinet_paula_rx_t :=
  match buf with
  | None => None
  | Some buf =>
      if size <? 2 then None
      else if negb (Z.land size (u16 (size - 1)) =? 0) then None
      else Some (mkRx buf (u16 (size - 1)) 0 0 false false)
  end.

Definition fujinet_paula_rx_clear (rx : fujinet_paula_rx_t) : fujinet_paula_rx_t :=
  rx |> set_head 0 |> set_tail 0 |> set_hardware_overrun false |> set_ring_overflow false.

Definition fujinet_paula_rx_count (rx : fujinet_paula_rx_t) : Z :=
  u16 (Z.land (head rx - tail rx) (mask rx)).

Definition fujinet_paula_rx_ingest (serdatr : Z) (rx : fujinet_paula_rx_t) : fujinet_paula_rx_t :=
  let rx := if negb (Z.land serdatr FUJINET_PAULA_SERDATR_OVRUN =? 0)
            then set_hardware_overrun true rx else rx in
  if Z.land serdatr FUJINET_PAULA_SERDATR_RBF =? 0 then rx
  else
  let next := u16 (Z.land (head rx + 1) (mask rx)) in
  if next =? tail rx then set_ring_overflow true rx
  else rx |> set_buf (put_at (buf rx) (Z.to_nat (head rx)) (u8 serdatr)) |> set_head next.

(** The results: bytes copied, the destination's contents, the ring. *)
Definition fujinet_paula_rx_read (rx : fujinet_paula_rx_t) (dst : option (list Z)) (n : Z)
    : Z * option (list Z) * fujinet_paula_rx_t :=
  if n =? 0 then (0, dst, rx)
  else
  match dst with
  | None => (0, dst, rx)
  | Some d =>
      let available := u16 (Z.land (head rx - tail rx) (mask rx)) in
      let n := if n >? available then available else n in
      if n =? 0 then (0, dst, rx)
      else
      let size := u16 (mask rx + 1) in
      let first := u16 (size - tail rx) in
      let first := if first >? n then n else first in
      let d := overwrite d 0 (slice (buf rx) (Z.to_nat (tail rx)) (Z.to_nat first)) in
      let d := if first <? n
               then overwrite d (Z.to_nat first) (slice (buf rx) 0 (Z.to_nat (n - first)))
               else d in
      (n, Some d, set_tail (u16 (Z.land (tail rx + n) (mask rx))) rx)
  end.

Definition fujinet_paula_rx_public_overrun (rx : fujinet_paula_rx_t) : Z :=
  u8 (Z.lor (c_bool (hardware_overrun_latched rx)) (c_bool (software_ring_overflow_latched rx))).

(** ** Well-formed rings and their contents *)

(** [2 ^ k] bytes, at most 32768 of them; both indices inside. *)
Definition ring_size (k : Z) : Z := 2 ^ k.

Record ring_ok (k : Z) (rx : fujinet_paula_rx_t) : Prop := {
  ring_k : 1 <= k <= 15;
  ring_mask : mask rx = 2 ^ k - 1;
  ring_length : Z.of_nat (length (buf rx)) = 2 ^ k;
  ring_head : 0 <= head rx < 2 ^ k;
  ring_tail : 0 <= tail rx < 2 ^ k
}.

Definition count (k : Z) (rx : fujinet_paula_rx_t) : nat :=
  Z.to_nat ((head rx - tail rx) mod 2 ^ k).
Definition cell (k : Z) (rx : fujinet_paula_rx_t) (i : nat) : Z :=
  (buf rx).[Z.to_nat ((tail rx + Z.of_nat i) mod 2 ^ k)].
Definition contents (k : Z) (rx : fujinet_paula_rx_t) : list Z :=
  map (cell k rx) (seq 0 (count k rx)).

Lemma pow_range k : 1 <= k <= 15 -> 2 <= 2 ^ k <= 32768.
Proof.
  intros. change 2 with (2 ^ 1) at 1. change 32768 with (2 ^ 15).
  split; apply Z.pow_le_mono_r; lia.
Qed.

Lemma land_mask x k : 0 <= k -> Z.land x (2 ^ k - 1) = x mod 2 ^ k.
Proof. intros. rewrite <- Z.land_ones by done. by rewrite Z.ones_equiv. Qed.

Lemma u16_land_mask x k : 1 <= k <= 15 -> u16 (Z.land x (2 ^ k - 1)) = x mod 2 ^ k.
Proof.
  intros Hk. rewrite land_mask by lia. pose proof (pow_range k Hk).
  apply u16_id. unfold is_u16. pose proof (Z.mod_pos_bound x (2 ^ k)). lia.
Qed.

Lemma count_lt k rx : ring_ok k rx -> Z.of_nat (count k rx) < 2 ^ k.
Proof.
  intros H. unfold count. pose proof (pow_range k (ring_k _ _ H)).
  pose proof (Z.mod_pos_bound (head rx - tail rx) (2 ^ k)). lia.
Qed.

Lemma length_contents k rx : length (contents k rx) = count k rx.
Proof. unfold contents. by rewrite length_map, length_seq. Qed.

Lemma rx_count_spec k rx :
  ring_ok k rx -> fujinet_paula_rx_count rx = Z.of_nat (length (contents k rx)).
Proof.
  intros H. unfold fujinet_paula_rx_count.
  rewrite (ring_mask k), u16_land_mask, length_contents by apply H. unfold count.
  pose proof (Z.mod_pos_bound (head rx - tail rx) (2 ^ k)). pose proof (pow_range k (ring_k _ _ H)). lia.
Qed.

Lemma add_mod_cancel a b m : 0 < m -> (a + (b - a) mod m) mod m = b mod m.
Proof. intros. rewrite Zplus_mod_idemp_r. f_equal. lia. Qed.

Lemma mod_injective t i j m :
  0 < m -> 0 <= i < m -> 0 <= j < m -> (t + i) mod m = (t + j) mod m -> i = j.
Proof.
  intros Hm Hi Hj E. apply (f_equal (fun x => (x - t) mod m)) in E.
  rewrite !Zminus_mod_idemp_l in E. replace (t + i - t) with i in E by lia.
  replace (t + j - t) with j in E by lia. by rewrite !Z.mod_small in E.
Qed.

(** ** The initial ring *)

Lemma power_of_two_test n :
  2 <= n -> Z.land n (n - 1) = 0 -> exists k, 1 <= k /\ n = 2 ^ k.
Proof.
  intros Hn Hl. exists (Z.log2 n). pose proof (Z.log2_spec n ltac:(lia)) as [Hlo Hhi].
  assert (H1 : 1 <= Z.log2 n) by (apply (Z.log2_le_pow2 n 1); lia). split; [done|].
  destruct (Z.eq_dec n (2 ^ Z.log2 n)) as [|Hne]; [done|]. exfalso.
  assert (E : Z.log2 (n - 1) = Z.log2 n) by (apply Z.log2_unique; lia).
  apply (f_equal (fun x => Z.testbit x (Z.log2 n))) in Hl.
  rewrite Z.land_spec, Z.bit_log2, Z.bits_0 in Hl by lia.
  rewrite <- E, Z.bit_log2 in Hl by lia. done.
Qed.

Lemma power_land k : 1 <= k -> Z.land (2 ^ k) (2 ^ k - 1) = 0.
Proof. intros. rewrite land_mask by lia. apply Z.mod_same. pose proof (Z.pow_pos_nonneg 2 k). lia. Qed.

(** The ring accepts exactly the sizes it is meant for, the powers of
    two from 2 to 32768, and starts empty and well-formed with no overrun. *)
Theorem rx_init_spec b size :
  is_u16 size -> size = Z.of_nat (length b) ->
  match fujinet_paula_rx_init (Some b) size with
  | Some rx => exists k, size = 2 ^ k /\ ring_ok k rx /\ contents k rx = [] /\
                 fujinet_paula_rx_public_overrun rx = 0
  | None => forall k, 1 <= k -> size <> 2 ^ k
  end.
Proof.
  intros Hs Hb. unfold fujinet_paula_rx_init. unfold is_u16 in Hs.
  destruct (Z.ltb_spec size 2).
  { intros k Hk ->. assert (2 ^ 1 <= 2 ^ k) by (apply Z.pow_le_mono_r; lia). lia. }
  rewrite u16_id by (unfold is_u16; lia).
  destruct (Z.eqb_spec (Z.land size (size - 1)) 0) as [E|E]; simpl.
  - apply power_of_two_test in E as (k & Hk & ->); [|done]. exists k.
    assert (k <= 15).
    { destruct (Z.le_gt_cases k 15); [done|]. exfalso.
      assert (2 ^ 16 <= 2 ^ k) by (apply Z.pow_le_mono_r; lia). lia. }
    split; [done|]. split; [by split; simpl; lia|]. done.
  - intros k Hk ->. by apply E, power_land.
Qed.

Lemma rx_init_spec_witness :
  is_u16 8 /\ exists k rx, fujinet_paula_rx_init (Some (zeros 8)) 8 = Some rx /\ ring_ok k rx.
Proof.
  assert (H : is_u16 8) by (unfold is_u16; lia). split; [exact H|].
  pose proof (rx_init_spec (zeros 8) 8 H eq_refl) as Hs.
  change (fujinet_paula_rx_init (Some (zeros 8)) 8)
    with (Some (mkRx (zeros 8) 7 0 0 false false)) in Hs |- *.
  destruct Hs as (k & _ & Hk & _). exists k. eexists. split; [reflexivity|exact Hk].
Defined.

(** ** The queue the ring implements *)

Record fifo := mkFifo {
  queue : list Z;
  q_hardware : bool;
  q_overflow : bool
}.

(** A received word with its status bits; a byte that finds [cap] bytes
    waiting is dropped and the overflow is remembered. *)
Definition fifo_ingest (cap : nat) (serdatr : Z) (q : fifo) : fifo :=
  let hw := Z.testbit serdatr 15 || q_hardware q in
  if negb (Z.testbit serdatr 14) then mkFifo (queue q) hw (q_overflow q)
  else if (length (queue q) <? cap)%nat
  then mkFifo (queue q ++ [u8 serdatr]) hw (q_overflow q)
  else mkFifo (queue q) hw true.

Definition fifo_read (n : nat) (q : fifo) : list Z * fifo :=
  (take n (queue q), mkFifo (drop n (queue q)) (q_hardware q) (q_overflow q)).

Inductive rx_op :=
  | Ingest (serdatr : Z)
  | Read (dst : list Z)
  | Clear
  | Count
  | Overrun.

(** What the caller sees of an operation. *)
Inductive rx_out :=
  | OutNone
  | OutRead (n : Z) (dst : list Z)
  | OutValue (n : Z).

Definition ring_step (o : rx_op) (rx : fujinet_paula_rx_t) : rx_out * fujinet_paula_rx_t :=
  match o with
  | Ingest w => (OutNone, fujinet_paula_rx_ingest w rx)
  | Read dst =>
      let '(n, d, rx) := fujinet_paula_rx_read rx (Some dst) (Z.of_nat (length dst)) in
      (OutRead n (default dst d), rx)
  | Clear => (OutNone, fujinet_paula_rx_clear rx)
  | Count => (OutValue (fujinet_paula_rx_count rx), rx)
  | Overrun => (OutValue (fujinet_paula_rx_public_overrun rx), rx)
  end.

Definition fifo_step (cap : nat) (o : rx_op) (q : fifo) : rx_out * fifo :=
  match o with
  | Ingest w => (OutNone, fifo_ingest cap w q)
  | Read dst =>
      let '(bytes, q) := fifo_read (length dst) q in
      (OutRead (Z.of_nat (length bytes)) (overwrite dst 0 bytes), q)
  | Clear => (OutNone, mkFifo [] false false)
  | Count => (OutValue (Z.of_nat (length (queue q))), q)
  | Overrun => (OutValue (c_bool (q_hardware q || q_overflow q)), q)
  end.

Fixpoint run {S} (step : rx_op -> S -> rx_out * S) (ops : list rx_op) (s : S) : list rx_out :=
  match ops with
  | [] => []
  | o :: ops => let '(out, s) := step o s in out :: run step ops s
  end.

(** ** The simulation *)

Definition ring_fifo (k : Z) (rx : fujinet_paula_rx_t) (q : fifo) : Prop :=
  ring_ok k rx /\ contents k rx = queue q /\
  hardware_overrun_latched rx = q_hardware q /\ software_ring_overflow_latched rx = q_overflow q.

Lemma testbit_land_test w n : 0 <= n -> negb (Z.land w (2 ^ n) =? 0) = Z.testbit w n.
Proof.
  intros Hn. destruct (Z.testbit w n) eqn:E.
  - apply negb_true_iff, Z.eqb_neq. intros H. apply (f_equal (fun x => Z.testbit x n)) in H.
    rewrite Z.land_spec, E, Z.pow2_bits_true, Z.bits_0 in H by done. done.
  - apply negb_false_iff, Z.eqb_eq. apply Z.bits_inj'. intros i Hi.
    rewrite Z.land_spec, Z.bits_0. destruct (Z.eq_dec i n) as [->|]; [by rewrite E|].
    rewrite Z.pow2_bits_false by lia. apply andb_false_r.
Qed.

(** The ring is full exactly when [head + 1] meets [tail]. *)
Lemma ring_full k rx :
  ring_ok k rx ->
  ((head rx + 1) mod 2 ^ k = tail rx <-> Z.of_nat (count k rx) = 2 ^ k - 1).
Proof.
  intros H. pose proof (pow_range k (ring_k _ _ H)) as Hp. pose proof (ring_head _ _ H).
  pose proof (ring_tail _ _ H). unfold count. rewrite Z2Nat.id by (apply Z.mod_pos_bound; lia).
  set (m := 2 ^ k) in *. split; intros E.
  - rewrite <- E. destruct (Z.eq_dec (head rx + 1) m) as [Em|].
    + rewrite Em, Z.mod_same by lia. rewrite Z.sub_0_r, Z.mod_small by lia. lia.
    + rewrite (Z.mod_small (head rx + 1)) by lia.
      replace (head rx - (head rx + 1)) with (m - 1 + -1 * m) by lia.
      rewrite Z.mod_add, Z.mod_small by lia. done.
  - replace (head rx + 1) with (tail rx + (head rx - tail rx + 1)) by lia.
    rewrite <- Zplus_mod_idemp_r, <- (Zplus_mod_idemp_l (head rx - tail rx)), E.
    replace (m - 1 + 1) with m by lia. rewrite Z.mod_same, Z.add_0_r, Z.mod_small by lia. done.
Qed.

Lemma ring_push k rx v :
  ring_ok k rx -> Z.of_nat (count k rx) < 2 ^ k - 1 ->
  let rx' := rx |> set_buf (put_at (buf rx) (Z.to_nat (head rx)) v)
                |> set_head ((head rx + 1) mod 2 ^ k) in
  ring_ok k rx' /\ contents k rx' = contents k rx ++ [v].
Proof.
  intros H Hc. pose proof (pow_range k (ring_k _ _ H)) as Hp.
  pose proof (ring_head _ _ H) as Hh. pose proof (ring_tail _ _ H) as Ht.
  pose proof (ring_length _ _ H) as Hl.
  destruct H as [Hk Hm _ _ _]. destruct rx as [b m h t hw sw].
  unfold set_head, set_buf. simpl in *.
  assert (Hcount : count k (mkRx (put_at b (Z.to_nat h) v) m ((h + 1) mod 2 ^ k) t hw sw)
                   = S (count k (mkRx b m h t hw sw))).
  { unfold count in *. simpl in *. rewrite Zminus_mod_idemp_l.
    replace (h + 1 - t) with (h - t + 1) by lia. rewrite <- Zplus_mod_idemp_l.
    pose proof (Z.mod_pos_bound (h - t) (2 ^ k)).
    rewrite (Z.mod_small (_ + 1)) by lia. lia. }
  split.
  { split; simpl; try done; [by rewrite length_put_at|apply Z.mod_pos_bound; lia]. }
  unfold contents. rewrite Hcount, seq_S, map_app. simpl. f_equal.
  - apply map_ext_in. intros i Hi%in_seq. unfold cell. simpl. apply byte_at_put_ne.
    intros E. apply Z2Nat.inj in E; [|lia|apply Z.mod_pos_bound; lia].
    rewrite <- (Z.mod_small h (2 ^ k)) in E by lia. rewrite <- (add_mod_cancel t h) in E by lia.
    pose proof (Z.mod_pos_bound (h - t) (2 ^ k)).
    apply mod_injective in E; unfold count in *; simpl in *; lia.
  - unfold cell, count. simpl. rewrite Z2Nat.id by (apply Z.mod_pos_bound; lia).
    rewrite add_mod_cancel, Z.mod_small by lia. rewrite byte_at_put_eq by lia. done.
Qed.

Lemma ingest_simulates k rx q w :
  ring_fifo k rx q ->
  ring_fifo k (fujinet_paula_rx_ingest w rx) (fifo_ingest (Z.to_nat (2 ^ k - 1)) w q).
Proof.
  intros (H & Hq & Hhw & Hsw). pose proof (pow_range k (ring_k _ _ H)) as Hp.
  unfold fujinet_paula_rx_ingest, fifo_ingest.
  change FUJINET_PAULA_SERDATR_OVRUN with (2 ^ 15).
  pose proof (testbit_land_test w 14 ltac:(lia)) as E14.
  change FUJINET_PAULA_SERDATR_RBF with (2 ^ 14). rewrite <- E14, negb_involutive.
  rewrite (testbit_land_test w 15) by lia.
  set (rx1 := if Z.testbit w 15 then _ else rx).
  assert (H1 : ring_ok k rx1 /\ contents k rx1 = queue q /\
    hardware_overrun_latched rx1 = Z.testbit w 15 || q_hardware q /\
    software_ring_overflow_latched rx1 = q_overflow q).
  { unfold rx1. destruct (Z.testbit w 15); [|done]. split; [|done]. destruct H. by split. }
  clearbody rx1. clear rx H Hq Hhw Hsw. destruct H1 as (H & Hq & Hhw & Hsw).
  destruct (_ =? 0); [done|].
  rewrite (ring_mask k), u16_land_mask by apply H. rewrite <- Hq, length_contents.
  pose proof (ring_full k rx1 H) as Hfull. pose proof (count_lt k rx1 H) as Hlt.
  destruct (Z.eqb_spec ((head rx1 + 1) mod 2 ^ k) (tail rx1)) as [E|E].
  - apply Hfull in E. destruct (Nat.ltb_spec (count k rx1) (Z.to_nat (2 ^ k - 1))); [lia|].
    repeat split; try done; apply H.
  - destruct (Nat.ltb_spec (count k rx1) (Z.to_nat (2 ^ k - 1))) as [Hc|Hc].
    2:{ exfalso. apply E, Hfull. lia. }
    destruct (ring_push k rx1 (u8 w) H ltac:(lia)) as [H' Hc']. split; [exact H'|].
    split; [exact Hc'|]. done.
Qed.

(** The bytes a read copies, as the one or two pieces of the buffer. *)
Lemma contents_take k rx n :
  ring_ok k rx -> (n <= count k rx)%nat ->
  let first := Nat.min n (Z.to_nat (2 ^ k - tail rx)) in
  take n (contents k rx) = slice (buf rx) (Z.to_nat (tail rx)) first ++ slice (buf rx) 0 (n - first).
Proof.
  intros H Hn first. pose proof (pow_range k (ring_k _ _ H)) as Hp. pose proof (ring_tail _ _ H) as Ht.
  pose proof (ring_length _ _ H) as Hl. pose proof (count_lt k rx H) as Hc.
  apply list_eq_same_length with n.
  { rewrite length_app, !length_slice by lia. lia. }
  { rewrite length_take, length_contents. lia. }
  intros i x y Hi Hx Hy.
  rewrite lookup_take_lt in Hx by done. unfold contents in Hx.
  rewrite list_lookup_fmap in Hx. rewrite lookup_seq_lt in Hx by lia. simpl in Hx.
  injection Hx as <-. unfold cell. simpl.
  destruct (Nat.lt_ge_cases i first) as [Hf|Hf].
  - rewrite lookup_app_l in Hy by (rewrite length_slice; lia). unfold slice in Hy.
    rewrite lookup_take_lt, lookup_drop in Hy by done. apply byte_at_lookup in Hy as <-.
    f_equal. rewrite Z.mod_small by lia. lia.
  - rewrite lookup_app_r in Hy by (rewrite length_slice; lia).
    rewrite length_slice in Hy by lia. unfold slice in Hy.
    rewrite lookup_take_lt, drop_0 in Hy by lia. apply byte_at_lookup in Hy as <-.
    f_equal. replace (tail rx + Z.of_nat i) with (tail rx + Z.of_nat i - 2 ^ k + 1 * 2 ^ k) by lia.
    rewrite Z.mod_add, Z.mod_small by lia. lia.
Qed.

Lemma ring_drop k rx n :
  ring_ok k rx -> (n <= count k rx)%nat ->
  let rx' := set_tail ((tail rx + Z.of_nat n) mod 2 ^ k) rx in
  ring_ok k rx' /\ contents k rx' = drop n (contents k rx).
Proof.
  intros H Hn. pose proof (pow_range k (ring_k _ _ H)) as Hp. pose proof (count_lt k rx H) as Hc.
  pose proof (ring_tail _ _ H) as Ht. destruct H as [Hk Hm Hl Hh _].
  destruct rx as [b m h t hw sw]. unfold set_tail. simpl in *.
  assert (Hcount : count k (mkRx b m h ((t + Z.of_nat n) mod 2 ^ k) hw sw)
                   = (count k (mkRx b m h t hw sw) - n)%nat).
  { unfold count in *. simpl in *. rewrite Zminus_mod_idemp_r.
    replace (h - (t + Z.of_nat n)) with (h - t - Z.of_nat n) by lia.
    pose proof (Z.mod_pos_bound (h - t) (2 ^ k)).
    rewrite <- Zminus_mod_idemp_l, (Z.mod_small (_ - _)) by lia. lia. }
  split; [split; simpl; try done; apply Z.mod_pos_bound; lia|].
  unfold contents. rewrite Hcount. apply list_eq. intros j.
  rewrite lookup_drop, !list_lookup_fmap.
  destruct (decide (j < count k (mkRx b m h t hw sw) - n)%nat).
  - rewrite !lookup_seq_lt by lia. unfold cell. simpl. do 3 f_equal.
    rewrite Zplus_mod_idemp_l. f_equal. lia.
  - by rewrite !lookup_seq_ge by lia.
Qed.

Lemma read_simulates k rx q dst m :
  ring_fifo k rx q -> is_u16 (Z.of_nat m) -> (m <= length dst)%nat ->
  let '(n, d, rx') := fujinet_paula_rx_read rx (Some dst) (Z.of_nat m) in
  let '(bytes, q') := fifo_read m q in
  n = Z.of_nat (length bytes) /\ d = Some (overwrite dst 0 bytes) /\ ring_fifo k rx' q'.
Proof.
  intros (H & Hq & Hhw & Hsw) Hm Hdst. pose proof (pow_range k (ring_k _ _ H)) as Hp.
  pose proof (ring_tail _ _ H) as Ht. pose proof (ring_length _ _ H) as Hl.
  pose proof (count_lt k rx H) as Hc.
  assert (Hav : u16 (Z.land (head rx - tail rx) (mask rx)) = Z.of_nat (count k rx)).
  { rewrite (ring_mask k), u16_land_mask by apply H. unfold count.
    rewrite Z2Nat.id; [done|]. apply Z.mod_pos_bound. lia. }
  unfold fujinet_paula_rx_read, fifo_read. rewrite Hav, <- Hq.
  assert (Hnone : (m = 0 \/ count k rx = 0)%nat ->
    0 = Z.of_nat (length (take m (contents k rx))) /\
    Some dst = Some (overwrite dst 0 (take m (contents k rx))) /\
    ring_fifo k rx (mkFifo (drop m (contents k rx)) (q_hardware q) (q_overflow q))).
  { intros Hz. assert (E : take m (contents k rx) = []).
    { apply nil_length_inv. rewrite length_take, length_contents. lia. }
    rewrite E. split; [done|split; [by unfold overwrite; rewrite drop_0|]].
    split; [done|split; [|done]]. rewrite <- (take_drop m (contents k rx)) at 1. by rewrite E. }
  destruct (Z.eqb_spec (Z.of_nat m) 0) as [|Hd0]; [apply Hnone; lia|].
  set (n := if _ >? _ then _ else _).
  assert (Hn : n = Z.of_nat (Nat.min m (count k rx))) by (unfold n; case_test; lia).
  rewrite Hn. clear n Hn. set (n := Nat.min m (count k rx)).
  destruct (Z.eqb_spec (Z.of_nat n) 0) as [|Hn0]; [apply Hnone; lia|]. clear Hnone.
  assert (Htk : take m (contents k rx) = take n (contents k rx)).
  { unfold n. rewrite <- length_contents. rewrite <- (take_ge (contents k rx) (length (contents k rx))) at 1 by lia.
    by rewrite take_take. }
  assert (Hdr : drop m (contents k rx) = drop n (contents k rx)).
  { destruct (Nat.le_gt_cases m (count k rx)); [f_equal; lia|].
    rewrite !drop_ge; rewrite ?length_contents; lia || done. }
  rewrite Htk, Hdr. clear Htk Hdr. pose proof (contents_take k rx n H ltac:(lia)) as Htake.
  pose proof (ring_drop k rx n H ltac:(lia)) as [Hrok Hrc]. cbv zeta in *.
  rewrite (ring_mask k), u16_land_mask by apply H.
  replace (2 ^ k - 1 + 1) with (2 ^ k) by lia. rewrite !(u16_id (2 ^ k)) by (unfold is_u16; lia).
  rewrite (u16_id (_ - _)) by (unfold is_u16; lia).
  set (first := Nat.min n (Z.to_nat (2 ^ k - tail rx))) in *.
  replace (if 2 ^ k - tail rx >? Z.of_nat n then Z.of_nat n else 2 ^ k - tail rx)
    with (Z.of_nat first) by (case_test; lia).
  split; [rewrite length_take, length_contents; lia|]. split; [|by repeat split; try apply Hrok].
  f_equal. rewrite Nat2Z.id, Htake. destruct (Z.ltb_spec (Z.of_nat first) (Z.of_nat n)) as [Hlt|Hge].
  - replace (Z.to_nat (Z.of_nat n - Z.of_nat first)) with (n - first)%nat by lia.
    assert (Hs1 : length (slice (buf rx) (Z.to_nat (tail rx)) first) = first) by (apply length_slice; lia).
    assert (Hs2 : length (slice (buf rx) 0 (n - first)) = (n - first)%nat) by (apply length_slice; lia).
    rewrite <- Hs1 at 2. apply (overwrite_adjacent dst 0). lia.
  - replace (n - first)%nat with 0%nat by lia. change (slice (buf rx) 0 0) with (@nil Z). by rewrite app_nil_r.
Qed.

Lemma clear_simulates k rx q :
  ring_fifo k rx q -> ring_fifo k (fujinet_paula_rx_clear rx) (mkFifo [] false false).
Proof.
  intros (H & _). pose proof (pow_range k (ring_k _ _ H)). destruct H.
  split; [by split; simpl; try done; lia|]. split; [|done].
  done.
Qed.

Lemma step_simulates k rx q o :
  ring_fifo k rx q -> (forall dst, o = Read dst -> is_u16 (Z.of_nat (length dst))) ->
  (ring_step o rx).1 = (fifo_step (Z.to_nat (2 ^ k - 1)) o q).1 /\
  ring_fifo k (ring_step o rx).2 (fifo_step (Z.to_nat (2 ^ k - 1)) o q).2.
Proof.
  intros H Hd. destruct o as [w|dst| | |]; simpl.
  - split; [done|by apply ingest_simulates].
  - pose proof (read_simulates k rx q dst (length dst) H (Hd dst eq_refl) ltac:(lia)) as Hr.
    destruct (fujinet_paula_rx_read _ _ _) as [[n d] rx']. simpl in Hr.
    destruct Hr as (-> & -> & Hr). done.
  - split; [done|by eapply clear_simulates].
  - split; [|done]. destruct H as (H & <- & _). by rewrite (rx_count_spec k).
  - split; [|done]. destruct H as (_ & _ & E1 & E2). unfold fujinet_paula_rx_public_overrun.
    rewrite E1, E2. by destruct (q_hardware q), (q_overflow q).
Qed.

(** C9: The receive ring of [2 ^ k] bytes is a bounded queue of [2 ^ k - 1]:
    from an empty ring, every sequence of interrupts, reads, clears and
    queries gives exactly the results the queue gives, so bytes come out in
    order, none is lost while there is room, and an overrun is reported
    exactly when the hardware flagged one or a byte found the queue full. *)
Theorem ring_refines_fifo k b ops :
  1 <= k <= 15 -> Z.of_nat (length b) = 2 ^ k ->
  Forall (fun o => forall dst, o = Read dst -> is_u16 (Z.of_nat (length dst))) ops ->
  exists rx, fujinet_paula_rx_init (Some b) (2 ^ k) = Some rx /\
    run ring_step ops rx = run (fifo_step (Z.to_nat (2 ^ k - 1))) ops (mkFifo [] false false).
Proof.
  intros Hk Hb Hops. pose proof (pow_range k Hk) as Hp.
  exists (mkRx b (2 ^ k - 1) 0 0 false false). split.
  { unfold fujinet_paula_rx_init. destruct (Z.ltb_spec (2 ^ k) 2); [lia|].
    rewrite u16_id by (unfold is_u16; lia). by rewrite power_land by lia. }
  assert (H : ring_fifo k (mkRx b (2 ^ k - 1) 0 0 false false) (mkFifo [] false false)).
  { split; [split; simpl; lia|]. split; [|done].
    done. }
  revert H. generalize (mkRx b (2 ^ k - 1) 0 0 false false) (mkFifo [] false false).
  induction Hops as [|o ops Ho _ IH]; intros rx q H; [done|]. simpl.
  destruct (step_simulates k rx q o H Ho) as [E1 H']. specialize (IH _ _ H').
  destruct (ring_step o rx), (fifo_step _ o q). simpl in *. by rewrite E1, IH.
Qed.

(** The divisor: for every rate and both clocks, SERPER is within its 15
    bits without ever being clamped, and for a rate the device accepts one
    bit lasts [SERPER + 1] colour clocks, the largest whole number that is
    no longer than the bit. *)
Theorem serper_divisor (baud : Z) (pal : bool) :
  let clock := if pal then FUJINET_PAULA_PAL_CLOCK else FUJINET_PAULA_NTSC_CLOCK in
  let period := fujinet_paula_serper baud pal + 1 in
  1 <= period <= FUJINET_PAULA_SERPER_MAX /\
  (110 <= baud <= clock -> period * baud <= clock < (period + 1) * baud).
Proof.
  intros clock period. subst period. unfold fujinet_paula_serper. fold clock.
  set (b := if baud <? 110 then 110 else baud).
  assert (Hb : 110 <= b) by (unfold b; case_test; lia).
  assert (Hc : 110 * 32200 <= clock < 110 * 32767)
    by (unfold clock, FUJINET_PAULA_PAL_CLOCK, FUJINET_PAULA_NTSC_CLOCK; destruct pal; lia).
  pose proof (Z.mul_div_le clock b ltac:(lia)). pose proof (Z.mul_succ_div_gt clock b ltac:(lia)).
  assert (Hd : 0 <= clock / b < 32767)
    by (split; [apply Z.div_pos; lia|apply Z.div_lt_upper_bound; nia]).
  set (d := clock / b) in *. unfold FUJINET_PAULA_SERPER_MAX.
  set (p := if d =? 0 then 1 else d).
  assert (Hp : 1 <= p <= 32767 /\ (d <> 0 -> p = d)) by (unfold p; case_test; lia).
  destruct (Z.gtb_spec (p - 1) 32767); [lia|]. rewrite u16_id by (unfold is_u16; lia).
  split; [lia|]. intros Hr. assert (Eb : b = baud) by (unfold b; case_test; lia).
  rewrite Eb in *. assert (d <> 0) by nia. destruct Hp as [_ Hp]. rewrite Hp by done. nia.
Qed.

Lemma serper_divisor_witness :
  110 <= 19200 <= FUJINET_PAULA_PAL_CLOCK /\
  (fujinet_paula_serper 19200 true + 1) * 19200 <= FUJINET_PAULA_PAL_CLOCK.
Proof.
  assert (H : 110 <= 19200 <= FUJINET_PAULA_PAL_CLOCK) by (unfold FUJINET_PAULA_PAL_CLOCK; lia).
  split; [exact H|]. exact (proj1 (proj2 (serper_divisor 19200 true) H)).
Defined.

(** Two bytes, a read of one that leaves the other, and a hardware overrun. *)
Definition ring_example : list rx_op :=
  [Ingest 16449; Ingest 16450; Read [0]; Ingest 49219; Count; Read [0; 0; 0]; Overrun].

Lemma ring_refines_fifo_witness :
  exists rx, fujinet_paula_rx_init (Some (zeros 4)) 4 = Some rx /\
    run ring_step ring_example rx =
      [OutNone; OutNone; OutRead 1 [65]; OutNone; OutValue 2; OutRead 2 [66; 67; 0]; OutValue 1].
Proof.
  assert (Hops : Forall (fun o => forall dst, o = Read dst -> is_u16 (Z.of_nat (length dst))) ring_example).
  { unfold ring_example. repeat (apply Forall_cons; split;
      [intros dst E; first [discriminate E | injection E as <-; unfold is_u16; simpl; lia]|]).
    constructor. }
  destruct (ring_refines_fifo 2 (zeros 4) ring_example ltac:(lia) eq_refl Hops) as (rx & Hi & Hr).
  exists rx. split; [exact Hi|]. rewrite Hr. vm_compute. reflexivity.
Defined.
