(* ===== verification/SerialLifecycle.v ===== *)
(** * The serial device's life cycle (amiga/serial.device/fujinet_serial_lifecycle.c)

    The portable state machine of fujinet-serial.device: claiming Paula,
    opening and closing, the receive and transmit interrupts, and the one
    read and one write request that may be pending.  Every function of the
    file is an operation on one record; the hardware's receive FIFO is part
    of it, as in the source.  The invariant covers every order in which
    requests, interrupts and soft interrupts can occur. *)

From S2P Require Import Prelude PaulaUart.

Definition FN_SERIAL_LC_MISC_PORT : Z := 0.
Definition FN_SERIAL_LC_MISC_BITS : Z := 1.
Definition FN_SERIAL_LC_OK : Z := 0.
Definition FN_SERIAL_LC_OPENFAIL : Z := 1.
Definition FN_SERIAL_LC_BUSY : Z := 2.
Definition FN_SERIAL_LC_ABORTED : Z := 3.
Definition FN_SERIAL_LC_NOCMD : Z := 4.
Definition FN_SERIAL_LC_DELEXP : Z := 1.
Definition FN_SERIAL_LC_RING_SIZE : Z := 8.
Definition FN_SERIAL_LC_PAULA_DEPTH : Z := 8.
Definition FN_SERIAL_LC_TRACE : Z := 8.

Inductive fn_serial_lc_read_state_t :=
  | READ_IDLE | READ_NEW | READ_PENDING | READ_COMPLETING | READ_ABORTING | READ_REPLIED.
Inductive fn_serial_lc_write_state_t :=
  | WRITE_IDLE | WRITE_PENDING | WRITE_COMPLETING | WRITE_ABORTING | WRITE_REPLIED.

#[export] Instance read_state_eq_dec : EqDecision fn_serial_lc_read_state_t.
Proof. solve_decision. Defined.
#[export] Instance write_state_eq_dec : EqDecision fn_serial_lc_write_state_t.
Proof. solve_decision. Defined.

Definition WRITE_OWNER_NONE : Z := 0.
Definition WRITE_OWNER_TBE : Z := 1.
Definition WRITE_OWNER_ABORT : Z := 2.
Definition WRITE_OWNER_FLUSH : Z := 3.
Definition WRITE_OWNER_CLOSE : Z := 4.

(** [fn_serial_lc_t].  A C flag is a [bool]; [ring_buf] is the buffer of
    [rx]; a vector is the address the source gives it. *)
Record fn_serial_lc := mkLc {
  port_busy_external : bool;
  bits_busy_external : bool;
  port_owned : bool;
  bits_owned : bool;
  inten_master : bool;
  rbf_intena : bool;
  rbf_intreq : bool;
  tbe_intena : bool;
  tbe_intreq : bool;
  last_serper : Z;
  serper_writes : Z;
  cia_b_writes : Z;
  paula_mutated : bool;
  paula_bytes : list Z;
  paula_len : Z;
  rbf_vector : Z;
  saved_vector : Z;
  fujinet_handler : Z;
  rbf_was_enabled : bool;
  vector_installed : bool;
  rx : fujinet_paula_rx_t;
  receive_armed : bool;
  closing : bool;
  open_cnt : Z;
  lib_flags : Z;
  expunged : bool;
  read_state : fn_serial_lc_read_state_t;
  read_need : Z;
  read_dst : list Z;
  read_actual : Z;
  read_error : Z;
  reply_count : Z;
  iorequest_mutated_by_rbf : bool;
  rbf_replied : bool;
  softint_pending : bool;
  cause_count : Z;
  sample_count : Z;
  ack_count : Z;
  last_op_was_sample : bool;
  ack_before_sample : bool;
  duplicate_ack : bool;
  tx_count : Z;
  tx_while_masked : bool;
  remdevice_called : bool;
  write_state : fn_serial_lc_write_state_t;
  pending_write : bool;
  write_buf : option (list Z);
  write_remaining : Z;
  write_committed : Z;
  write_length : Z;
  write_accepted : bool;
  write_softint_pending : bool;
  write_actual : Z;
  write_error : Z;
  last_write_owner : Z;
  last_write_length : Z;
  last_write_committed : Z;
  last_write_actual : Z;
  last_write_error : Z;
  tbe_fire : Z;
  last_tbe_fire : Z;
  write_resolved_before_vector : bool;
  write_pending_at_vector_restore : bool;
  claim_trace : list Z;
  claim_trace_n : Z;
  release_trace : list Z;
  release_trace_n : Z
}.

#[export] Instance eta_lc : Eta fn_serial_lc :=
  fun lc => mkLc (port_busy_external lc) (bits_busy_external lc) (port_owned lc) (bits_owned lc)
    (inten_master lc) (rbf_intena lc) (rbf_intreq lc) (tbe_intena lc) (tbe_intreq lc)
    (last_serper lc) (serper_writes lc) (cia_b_writes lc) (paula_mutated lc) (paula_bytes lc)
    (paula_len lc) (rbf_vector lc) (saved_vector lc) (fujinet_handler lc) (rbf_was_enabled lc)
    (vector_installed lc) (rx lc) (receive_armed lc) (closing lc) (open_cnt lc) (lib_flags lc)
    (expunged lc) (read_state lc) (read_need lc) (read_dst lc) (read_actual lc) (read_error lc)
    (reply_count lc) (iorequest_mutated_by_rbf lc) (rbf_replied lc) (softint_pending lc)
    (cause_count lc) (sample_count lc) (ack_count lc) (last_op_was_sample lc)
    (ack_before_sample lc) (duplicate_ack lc) (tx_count lc) (tx_while_masked lc)
    (remdevice_called lc) (write_state lc) (pending_write lc) (write_buf lc)
    (write_remaining lc) (write_committed lc) (write_length lc) (write_accepted lc)
    (write_softint_pending lc) (write_actual lc) (write_error lc) (last_write_owner lc)
    (last_write_length lc) (last_write_committed lc) (last_write_actual lc)
    (last_write_error lc) (tbe_fire lc) (last_tbe_fire lc) (write_resolved_before_vector lc)
    (write_pending_at_vector_restore lc) (claim_trace lc) (claim_trace_n lc) (release_trace lc)
    (release_trace_n lc).

Definition set_port_busy_external : bool -> fn_serial_lc -> fn_serial_lc :=
  ltac:(derive_setter port_busy_external).
Definition set_bits_busy_external : bool -> fn_serial_lc -> fn_serial_lc :=
  ltac:(derive_setter bits_busy_external).
Definition set_port_owned : bool -> fn_serial_lc -> fn_serial_lc := ltac:(derive_setter port_owned).
Definition set_bits_owned : bool -> fn_serial_lc -> fn_serial_lc := ltac:(derive_setter bits_owned).
Definition set_rbf_intena : bool -> fn_serial_lc -> fn_serial_lc := ltac:(derive_setter rbf_intena).
Definition set_rbf_intreq : bool -> fn_serial_lc -> fn_serial_lc := ltac:(derive_setter rbf_intreq).
Definition set_tbe_intena : bool -> fn_serial_lc -> fn_serial_lc := ltac:(derive_setter tbe_intena).
Definition set_tbe_intreq : bool -> fn_serial_lc -> fn_serial_lc := ltac:(derive_setter tbe_intreq).
Definition set_last_serper : Z -> fn_serial_lc -> fn_serial_lc := ltac:(derive_setter last_serper).
Definition set_serper_writes : Z -> fn_serial_lc -> fn_serial_lc :=
  ltac:(derive_setter serper_writes).
Definition set_paula_mutated : bool -> fn_serial_lc -> fn_serial_lc :=
  ltac:(derive_setter paula_mutated).
Definition set_paula_bytes : list Z -> fn_serial_lc -> fn_serial_lc :=
  ltac:(derive_setter paula_bytes).
Definition set_paula_len : Z -> fn_serial_lc -> fn_serial_lc := ltac:(derive_setter paula_len).
Definition set_rbf_vector : Z -> fn_serial_lc -> fn_serial_lc := ltac:(derive_setter rbf_vector).
Definition set_saved_vector : Z -> fn_serial_lc -> fn_serial_lc :=
  ltac:(derive_setter saved_vector).
Definition set_rbf_was_enabled : bool -> fn_serial_lc -> fn_serial_lc :=
  ltac:(derive_setter rbf_was_enabled).
Definition set_vector_installed : bool -> fn_serial_lc -> fn_serial_lc :=
  ltac:(derive_setter vector_installed).
Definition set_rx : fujinet_paula_rx_t -> fn_serial_lc -> fn_serial_lc := ltac:(derive_setter rx).
Definition set_receive_armed : bool -> fn_serial_lc -> fn_serial_lc :=
  ltac:(derive_setter receive_armed).
Definition set_closing : bool -> fn_serial_lc -> fn_serial_lc := ltac:(derive_setter closing).
Definition set_open_cnt : Z -> fn_serial_lc -> fn_serial_lc := ltac:(derive_setter open_cnt).
Definition set_lib_flags : Z -> fn_serial_lc -> fn_serial_lc := ltac:(derive_setter lib_flags).
Definition set_expunged : bool -> fn_serial_lc -> fn_serial_lc := ltac:(derive_setter expunged).
Definition set_read_state : fn_serial_lc_read_state_t -> fn_serial_lc -> fn_serial_lc :=
  ltac:(derive_setter read_state).
Definition set_read_need : Z -> fn_serial_lc -> fn_serial_lc := ltac:(derive_setter read_need).
Definition set_read_dst : list Z -> fn_serial_lc -> fn_serial_lc := ltac:(derive_setter read_dst).
Definition set_read_actual : Z -> fn_serial_lc -> fn_serial_lc := ltac:(derive_setter read_actual).
Definition set_read_error : Z -> fn_serial_lc -> fn_serial_lc := ltac:(derive_setter read_error).
Definition set_reply_count : Z -> fn_serial_lc -> fn_serial_lc := ltac:(derive_setter reply_count).
Definition set_softint_pending : bool -> fn_serial_lc -> fn_serial_lc :=
  ltac:(derive_setter softint_pending).
Definition set_cause_count : Z -> fn_serial_lc -> fn_serial_lc := ltac:(derive_setter cause_count).
Definition set_sample_count : Z -> fn_serial_lc -> fn_serial_lc :=
  ltac:(derive_setter sample_count).
Definition set_ack_count : Z -> fn_serial_lc -> fn_serial_lc := ltac:(derive_setter ack_count).
Definition set_last_op_was_sample : bool -> fn_serial_lc -> fn_serial_lc :=
  ltac:(derive_setter last_op_was_sample).
Definition set_ack_before_sample : bool -> fn_serial_lc -> fn_serial_lc :=
  ltac:(derive_setter ack_before_sample).
Definition set_tx_count : Z -> fn_serial_lc -> fn_serial_lc := ltac:(derive_setter tx_count).
Definition set_tx_while_masked : bool -> fn_serial_lc -> fn_serial_lc :=
  ltac:(derive_setter tx_while_masked).
Definition set_write_state : fn_serial_lc_write_state_t -> fn_serial_lc -> fn_serial_lc :=
  ltac:(derive_setter write_state).
Definition set_pending_write : bool -> fn_serial_lc -> fn_serial_lc :=
  ltac:(derive_setter pending_write).
Definition set_write_buf : option (list Z) -> fn_serial_lc -> fn_serial_lc :=
  ltac:(derive_setter write_buf).
Definition set_write_remaining : Z -> fn_serial_lc -> fn_serial_lc :=
  ltac:(derive_setter write_remaining).
Definition set_write_committed : Z -> fn_serial_lc -> fn_serial_lc :=
  ltac:(derive_setter write_committed).
Definition set_write_length : Z -> fn_serial_lc -> fn_serial_lc :=
  ltac:(derive_setter write_length).
Definition set_write_accepted : bool -> fn_serial_lc -> fn_serial_lc :=
  ltac:(derive_setter write_accepted).
Definition set_write_softint_pending : bool -> fn_serial_lc -> fn_serial_lc :=
  ltac:(derive_setter write_softint_pending).
Definition set_write_actual : Z -> fn_serial_lc -> fn_serial_lc :=
  ltac:(derive_setter write_actual).
Definition set_write_error : Z -> fn_serial_lc -> fn_serial_lc := ltac:(derive_setter write_error).
Definition set_last_write_owner : Z -> fn_serial_lc -> fn_serial_lc :=
  ltac:(derive_setter last_write_owner).
Definition set_last_write_length : Z -> fn_serial_lc -> fn_serial_lc :=
  ltac:(derive_setter last_write_length).
Definition set_last_write_committed : Z -> fn_serial_lc -> fn_serial_lc :=
  ltac:(derive_setter last_write_committed).
Definition set_last_write_actual : Z -> fn_serial_lc -> fn_serial_lc :=
  ltac:(derive_setter last_write_actual).
Definition set_last_write_error : Z -> fn_serial_lc -> fn_serial_lc :=
  ltac:(derive_setter last_write_error).
Definition set_tbe_fire : Z -> fn_serial_lc -> fn_serial_lc := ltac:(derive_setter tbe_fire).
Definition set_last_tbe_fire : Z -> fn_serial_lc -> fn_serial_lc :=
  ltac:(derive_setter last_tbe_fire).
Definition set_write_resolved_before_vector : bool -> fn_serial_lc -> fn_serial_lc :=
  ltac:(derive_setter write_resolved_before_vector).
Definition set_write_pending_at_vector_restore : bool -> fn_serial_lc -> fn_serial_lc :=
  ltac:(derive_setter write_pending_at_vector_restore).
Definition set_claim_trace : list Z -> fn_serial_lc -> fn_serial_lc :=
  ltac:(derive_setter claim_trace).
Definition set_claim_trace_n : Z -> fn_serial_lc -> fn_serial_lc :=
  ltac:(derive_setter claim_trace_n).
Definition set_release_trace : list Z -> fn_serial_lc -> fn_serial_lc :=
  ltac:(derive_setter release_trace).
Definition set_release_trace_n : Z -> fn_serial_lc -> fn_serial_lc :=
  ltac:(derive_setter release_trace_n).

(** [memset(lc, 0, sizeof( *lc))]. *)
Definition lc_zero : fn_serial_lc :=
  mkLc false false false false false false false false false 0 0 0 false (zeros 8) 0 0 0 0 false
    false (mkRx (zeros 8) 0 0 0 false false) false false 0 0 false READ_IDLE 0 (zeros 8) 0 0 0
    false false false 0 0 0 false false false 0 false false WRITE_IDLE false None 0 0 0 false
    false 0 0 0 0 0 0 0 0 0 false false (zeros 8) 0 (zeros 8) 0.


Definition k_fujinet_handler : Z := 241.
Definition k_kickstart_handler : Z := 92.

(** ** Helpers *)

Definition trace_add (trace : list Z) (n value : Z) : list Z * Z :=
  if n <? FN_SERIAL_LC_TRACE then (put_at trace (Z.to_nat n) value, n + 1) else (trace, n).

Definition add_claim (value : Z) (lc : fn_serial_lc) : fn_serial_lc :=
  let '(t, n) := trace_add (claim_trace lc) (claim_trace_n lc) value in
  lc |> set_claim_trace t |> set_claim_trace_n n.
Definition add_release (value : Z) (lc : fn_serial_lc) : fn_serial_lc :=
  let '(t, n) := trace_add (release_trace lc) (release_trace_n lc) value in
  lc |> set_release_trace t |> set_release_trace_n n.

(** [None] is the return 0. *)
Definition take_pending (next : fn_serial_lc_read_state_t) (lc : fn_serial_lc) : option fn_serial_lc :=
  if decide (read_state lc = READ_PENDING) then Some (set_read_state next lc) else None.

Definition take_pending_write (next : fn_serial_lc_write_state_t) (owner : Z) (lc : fn_serial_lc)
    : option fn_serial_lc :=
  if negb (bool_decide (write_state lc = WRITE_PENDING)) || negb (pending_write lc) then None
  else Some (lc |> set_write_state next |> set_pending_write false |> set_last_write_owner owner
             |> set_last_write_length (write_length lc)
             |> set_last_write_committed (write_committed lc)
             |> set_last_tbe_fire (tbe_fire lc)
             |> set_tbe_intena false |> set_tbe_intreq false |> set_write_remaining 0).

Definition reply_read (error actual : Z) (lc : fn_serial_lc) : fn_serial_lc :=
  lc |> set_read_error error |> set_read_actual actual |> set_read_need 0
     |> set_reply_count (reply_count lc + 1) |> set_read_state READ_REPLIED.

Definition reply_write (error actual : Z) (lc : fn_serial_lc) : fn_serial_lc :=
  lc |> set_write_error error |> set_write_actual actual |> set_last_write_actual actual
     |> set_last_write_error error |> set_reply_count (reply_count lc + 1)
     |> set_write_state WRITE_REPLIED.

(** [memmove] of the later entries; the last one stays where it was. *)
Definition shift_paula (lc : fn_serial_lc) : fn_serial_lc :=
  lc |> set_paula_bytes
          (overwrite (paula_bytes lc) 0 (slice (paula_bytes lc) 1 (Z.to_nat (paula_len lc - 1))))
     |> set_paula_len (paula_len lc - 1).

Definition ack_rbf_once (lc : fn_serial_lc) : fn_serial_lc :=
  let lc := if negb (last_op_was_sample lc) then set_ack_before_sample true lc else lc in
  let lc := lc |> set_ack_count (ack_count lc + 1) |> set_last_op_was_sample false in
  let lc := if paula_len lc >? 0 then shift_paula lc else lc in
  set_rbf_intreq (paula_len lc >? 0) lc.

Definition sample_retain_ack (lc : fn_serial_lc) : fn_serial_lc :=
  let serdatr := if paula_len lc >? 0 then (paula_bytes lc).[0] else 0 in
  let lc := lc |> set_sample_count (sample_count lc + 1) |> set_last_op_was_sample true in
  let lc := ack_rbf_once lc in
  set_rx (fujinet_paula_rx_ingest serdatr (rx lc)) lc.

(** [while (lc->rbf_intreq) sample_retain_ack(lc)]: every turn takes a word
    off the FIFO, and an empty FIFO clears the request. *)
Fixpoint sample_loop (fuel : nat) (lc : fn_serial_lc) : fn_serial_lc :=
  match fuel with
  | O => lc
  | S fuel' => if rbf_intreq lc then sample_loop fuel' (sample_retain_ack lc) else lc
  end.

Definition sample_fuel (lc : fn_serial_lc) : nat := S (Z.to_nat (paula_len lc)).

Definition drain_rbf (lc : fn_serial_lc) : fn_serial_lc :=
  if negb (inten_master lc) then lc else sample_loop (sample_fuel lc) lc.

Definition read_satisfied (lc : fn_serial_lc) : bool :=
  bool_decide (read_state lc = READ_PENDING) && (read_need lc >? 0)
  && (fujinet_paula_rx_count (rx lc) >=? read_need lc).

(** [softint_pending = 1; cause_count += 1] when a read can complete. *)
Definition cause_if_satisfied (lc : fn_serial_lc) : fn_serial_lc :=
  if read_satisfied lc
  then lc |> set_softint_pending true |> set_cause_count (cause_count lc + 1)
  else lc.

Definition rearm_receive (lc : fn_serial_lc) : fn_serial_lc :=
  if receive_armed lc then lc
  else drain_rbf lc |> set_rbf_intena true |> set_receive_armed true.

Definition quiesce_receive (lc : fn_serial_lc) : fn_serial_lc :=
  lc |> set_rbf_intena false |> set_receive_armed false.

Definition release_resources (lc : fn_serial_lc) : fn_serial_lc :=
  let lc := if bits_owned lc
            then add_release FN_SERIAL_LC_MISC_BITS (set_bits_owned false lc) else lc in
  if port_owned lc
  then add_release FN_SERIAL_LC_MISC_PORT (set_port_owned false lc) else lc.

Definition abort_pending_write (owner : Z) (lc : fn_serial_lc) : option fn_serial_lc :=
  match take_pending_write WRITE_ABORTING owner lc with
  | Some lc => Some (reply_write FN_SERIAL_LC_ABORTED (last_write_committed lc) lc)
  | None => None
  end.

Definition abort_pending_read (lc : fn_serial_lc) : option fn_serial_lc :=
  match take_pending READ_ABORTING lc with
  | Some lc => Some (reply_read FN_SERIAL_LC_ABORTED 0 lc)
  | None => None
  end.

(** [teardown_paula], in its three phases. *)
Definition abort_for_close (lc : fn_serial_lc) : fn_serial_lc :=
  let lc := lc |> set_closing true |> set_write_resolved_before_vector false
               |> set_write_pending_at_vector_restore false in
  let lc := match abort_pending_write WRITE_OWNER_CLOSE lc with
            | Some lc => set_write_resolved_before_vector true lc
            | None => lc
            end in
  default lc (abort_pending_read lc).

Definition mask_and_drain (lc : fn_serial_lc) : fn_serial_lc :=
  lc |> set_tbe_intena false |> set_tbe_intreq false |> quiesce_receive |> drain_rbf.

Definition restore_vector (lc : fn_serial_lc) : fn_serial_lc :=
  let lc := if decide (write_state lc = WRITE_PENDING)
            then set_write_pending_at_vector_restore true lc else lc in
  if (rbf_vector lc =? fujinet_handler lc) && vector_installed lc
  then lc |> set_rbf_vector (saved_vector lc) |> set_rbf_intena (rbf_was_enabled lc)
          |> set_vector_installed false
  else lc.

Definition teardown_paula (lc : fn_serial_lc) : fn_serial_lc :=
  lc |> abort_for_close |> mask_and_drain |> restore_vector |> release_resources
     |> set_paula_mutated false.

(** The ring's buffer is never null and its size is a constant, so the
    initialisation succeeds; the source drops its result. *)
Definition reset_ring (lc : fn_serial_lc) : fn_serial_lc :=
  match fujinet_paula_rx_init (Some (buf (rx lc))) FN_SERIAL_LC_RING_SIZE with
  | Some r => set_rx r lc
  | None => lc
  end.

(** ** The interface *)

Definition fn_serial_lc_init : fn_serial_lc :=
  reset_ring
    (mkLc false false false false true false false false false 0 0 0 false
       (zeros 8) 0 k_kickstart_handler k_kickstart_handler k_fujinet_handler false false
       (rx lc_zero) false false 0 0 false READ_IDLE 0 (zeros 8) 0 0 0 false false false 0 0 0
       false false false 0 false false WRITE_IDLE false None 0 0 0 false false 0 0 0 0 0 0 0 0 0
       false false (zeros 8) 0 (zeros 8) 0).

Definition fn_serial_lc_setparams (baud read_len write_len stop_bits : Z) (parity_on : bool)
    (lc : fn_serial_lc) : Z * fn_serial_lc :=
  if open_cnt lc =? 0 then (FN_SERIAL_LC_OPENFAIL, lc)
  else if decide (read_state lc = READ_PENDING) then (FN_SERIAL_LC_NOCMD, lc)
  else if decide (write_state lc = WRITE_PENDING) then (FN_SERIAL_LC_NOCMD, lc)
  else if (baud <? FUJINET_SERIAL_BAUD_MIN) || (baud >? FUJINET_SERIAL_BAUD_MAX)
  then (FN_SERIAL_LC_NOCMD, lc)
  else if negb (fujinet_serial_params_valid baud read_len write_len stop_bits parity_on)
  then (FN_SERIAL_LC_NOCMD, lc)
  else
  let lc := lc |> set_last_serper (fujinet_paula_serper baud true)
               |> set_serper_writes (serper_writes lc + 1) |> set_paula_mutated true in
  let lc := drain_rbf lc in
  let lc := set_rx (fujinet_paula_rx_clear (rx lc)) lc in
  let lc := if negb (receive_armed lc)
            then lc |> set_rbf_intena true |> set_receive_armed true else lc in
  (FN_SERIAL_LC_OK, lc).

Definition fn_serial_lc_open_at_baud (baud : Z) (lc : fn_serial_lc) : Z * fn_serial_lc :=
  if negb (open_cnt lc =? 0) then (FN_SERIAL_LC_BUSY, lc)
  else
  let lc := lc |> set_claim_trace_n 0 |> set_release_trace_n 0 |> set_paula_mutated false in
  if port_busy_external lc then (FN_SERIAL_LC_OPENFAIL, lc)
  else
  let lc := add_claim FN_SERIAL_LC_MISC_PORT (set_port_owned true lc) in
  if bits_busy_external lc
  then (FN_SERIAL_LC_OPENFAIL, add_release FN_SERIAL_LC_MISC_PORT (set_port_owned false lc))
  else
  let lc := add_claim FN_SERIAL_LC_MISC_BITS (set_bits_owned true lc) in
  let use := if (baud <? FUJINET_SERIAL_BAUD_MIN) || (baud >? FUJINET_SERIAL_BAUD_MAX)
             then 19200 else baud in
  let lc := lc |> set_saved_vector (rbf_vector lc) |> set_rbf_was_enabled (rbf_intena lc)
               |> set_last_serper (fujinet_paula_serper use true)
               |> set_serper_writes (serper_writes lc + 1) |> set_paula_mutated true
               |> set_rbf_vector (fujinet_handler lc) |> set_vector_installed true
               |> set_rbf_intena true |> set_receive_armed true
               |> set_tbe_intena false |> set_tbe_intreq false
               |> set_write_state WRITE_IDLE |> set_pending_write false
               |> set_closing false |> set_open_cnt 1
               |> set_lib_flags (Z.ldiff (lib_flags lc) FN_SERIAL_LC_DELEXP) in
  (FN_SERIAL_LC_OK, reset_ring lc).

Definition fn_serial_lc_open : fn_serial_lc -> Z * fn_serial_lc :=
  fn_serial_lc_open_at_baud 19200.

Definition fn_serial_lc_open_unit (unit : Z) (lc : fn_serial_lc) : Z * fn_serial_lc :=
  if negb (unit =? 0) then (FN_SERIAL_LC_OPENFAIL, lc) else fn_serial_lc_open lc.

Definition fn_serial_lc_expunge (lc : fn_serial_lc) : Z * fn_serial_lc :=
  if negb (open_cnt lc =? 0)
  then (FN_SERIAL_LC_OK, set_lib_flags (Z.lor (lib_flags lc) FN_SERIAL_LC_DELEXP) lc)
  else
  let lc := if port_owned lc || bits_owned lc then teardown_paula lc else lc in
  (FN_SERIAL_LC_OK, lc |> set_lib_flags (Z.ldiff (lib_flags lc) FN_SERIAL_LC_DELEXP)
                       |> set_expunged true).

Definition fn_serial_lc_close (lc : fn_serial_lc) : Z * fn_serial_lc :=
  let lc := if negb (open_cnt lc =? 0) then set_open_cnt (open_cnt lc - 1) lc else lc in
  let lc := if open_cnt lc =? 0 then teardown_paula lc else lc in
  if (open_cnt lc =? 0) && negb (Z.land (lib_flags lc) FN_SERIAL_LC_DELEXP =? 0)
  then fn_serial_lc_expunge lc
  else (FN_SERIAL_LC_OK, lc).

Definition fn_serial_lc_hw_rx (byte : Z) (hardware_overrun : bool) (lc : fn_serial_lc) : fn_serial_lc :=
  if paula_len lc >=? FN_SERIAL_LC_PAULA_DEPTH then lc
  else
  let serdatr := u16 (Z.lor FUJINET_PAULA_SERDATR_RBF byte) in
  let serdatr := if hardware_overrun then Z.lor serdatr FUJINET_PAULA_SERDATR_OVRUN else serdatr in
  lc |> set_paula_bytes (put_at (paula_bytes lc) (Z.to_nat (paula_len lc)) serdatr)
     |> set_paula_len (paula_len lc + 1) |> set_rbf_intreq true.

Definition fn_serial_lc_rbf_handler (lc : fn_serial_lc) : fn_serial_lc :=
  if negb (inten_master lc) then lc
  else cause_if_satisfied (sample_loop (sample_fuel lc) lc).

Definition fn_serial_lc_softint (lc : fn_serial_lc) : Z * fn_serial_lc :=
  let lc := set_softint_pending false lc in
  let need := read_need lc in
  match take_pending READ_COMPLETING lc with
  | None => (0, lc)
  | Some lc =>
      let '(copied, dst, r) := fujinet_paula_rx_read (rx lc) (Some (read_dst lc)) (u16 need) in
      let lc := lc |> set_rx r |> set_read_dst (default (read_dst lc) dst) in
      (1, reply_read FN_SERIAL_LC_OK copied lc)
  end.

Definition fn_serial_lc_read (need : Z) (lc : fn_serial_lc) : Z * fn_serial_lc :=
  if closing lc || (open_cnt lc =? 0) then (FN_SERIAL_LC_OPENFAIL, lc)
  else if need =? 0 then (FN_SERIAL_LC_OK, reply_read FN_SERIAL_LC_OK 0 lc)
  else if need >? mask (rx lc) then (FN_SERIAL_LC_NOCMD, lc)
  else if decide (read_state lc = READ_PENDING) then (FN_SERIAL_LC_BUSY, lc)
  else
  let lc := rearm_receive lc |> set_read_state READ_NEW |> set_read_need need
              |> set_read_actual 0 |> set_read_error FN_SERIAL_LC_OK
              |> set_read_dst (zeros 8) |> set_read_state READ_PENDING in
  (FN_SERIAL_LC_OK, cause_if_satisfied lc).

Definition fn_serial_lc_abort (lc : fn_serial_lc) : Z * fn_serial_lc :=
  match abort_pending_read lc with Some lc => (1, lc) | None => (0, lc) end.

(** [fn_serial_lc_clear] and [fn_serial_lc_flush] have the same body. *)
Definition fn_serial_lc_flush (lc : fn_serial_lc) : Z * fn_serial_lc :=
  let w := abort_pending_write WRITE_OWNER_FLUSH lc in
  let lc := default lc w in
  let r := abort_pending_read lc in
  let lc := default lc r in
  let lc := drain_rbf lc in
  let lc := set_rx (fujinet_paula_rx_clear (rx lc)) lc in
  (if bool_decide (is_Some w) || bool_decide (is_Some r)
   then FN_SERIAL_LC_ABORTED else FN_SERIAL_LC_OK, lc).

Definition fn_serial_lc_clear : fn_serial_lc -> Z * fn_serial_lc := fn_serial_lc_flush.

Definition fn_serial_lc_public_overrun (lc : fn_serial_lc) : bool :=
  negb (fujinet_paula_rx_public_overrun (rx lc) =? 0).

(** The count, the overrun and the state; neither pointer is null. *)
Definition fn_serial_lc_query (lc : fn_serial_lc) : Z * Z * bool * fn_serial_lc :=
  let lc := rearm_receive lc in
  (FN_SERIAL_LC_OK, fujinet_paula_rx_count (rx lc), fn_serial_lc_public_overrun lc, lc).

(** The end of [fn_serial_lc_write]: the request becomes the pending one. *)
Definition start_write (data : option (list Z)) (length : Z) (lc : fn_serial_lc) : fn_serial_lc :=
  lc |> set_write_buf data |> set_write_remaining length |> set_write_committed 0
     |> set_write_length length |> set_write_accepted false |> set_write_softint_pending false
     |> set_write_actual 0 |> set_write_error FN_SERIAL_LC_OK
     |> set_last_write_owner WRITE_OWNER_NONE |> set_last_write_length length
     |> set_last_write_committed 0 |> set_last_write_actual 0 |> set_last_write_error 0
     |> set_tbe_fire 0 |> set_pending_write true |> set_write_state WRITE_PENDING
     |> set_tbe_intena true |> set_tbe_intreq true.

Definition fn_serial_lc_write (data : option (list Z)) (length : Z) (lc : fn_serial_lc)
    : Z * fn_serial_lc :=
  if closing lc || (open_cnt lc =? 0) then (FN_SERIAL_LC_OPENFAIL, lc)
  else if negb (length =? 0) && bool_decide (data = None) then (FN_SERIAL_LC_NOCMD, lc)
  else if decide (write_state lc = WRITE_PENDING) then (FN_SERIAL_LC_BUSY, lc)
  else
  let armed_before := receive_armed lc in
  let lc := drain_rbf (rearm_receive lc) in
  let lc := set_rx (fujinet_paula_rx_clear (rx lc)) lc in
  let lc := if negb armed_before && negb (receive_armed lc) then set_tx_while_masked true lc else lc in
  let lc := if negb (receive_armed lc) then set_tx_while_masked true lc else lc in
  if length =? 0
  then (FN_SERIAL_LC_OK,
        reply_write FN_SERIAL_LC_OK 0 (lc |> set_write_length 0 |> set_write_committed 0))
  else
  (FN_SERIAL_LC_OK, start_write data length lc).

Definition fn_serial_lc_tbe_handler (lc : fn_serial_lc) : fn_serial_lc :=
  if negb (inten_master lc) || negb (tbe_intena lc) || negb (tbe_intreq lc) then lc
  else
  let lc := lc |> set_tbe_intreq false |> set_tbe_fire (u32 (tbe_fire lc + 1)) in
  if write_remaining lc =? 0
  then lc |> set_tbe_intena false |> set_write_accepted true |> set_write_softint_pending true
          |> set_cause_count (cause_count lc + 1)
  else lc |> set_write_remaining (u32 (write_remaining lc - 1))
          |> set_write_buf (option_map (drop 1) (write_buf lc))
          |> set_tx_count (tx_count lc + 1)
          |> set_write_committed (u32 (write_committed lc + 1)) |> set_tbe_intreq true.

Definition fn_serial_lc_write_softint (lc : fn_serial_lc) : Z * fn_serial_lc :=
  let lc := set_write_softint_pending false lc in
  match take_pending_write WRITE_COMPLETING WRITE_OWNER_TBE lc with
  | None => (0, lc)
  | Some lc => (1, reply_write FN_SERIAL_LC_OK (last_write_committed lc) lc)
  end.

Definition fn_serial_lc_abort_write (lc : fn_serial_lc) : Z * fn_serial_lc :=
  match abort_pending_write WRITE_OWNER_ABORT lc with Some lc => (1, lc) | None => (0, lc) end.

(** [while (... && guard < 8U)]: [n] turns are left. *)
Fixpoint write_byte_loop (n : nat) (lc : fn_serial_lc) : fn_serial_lc :=
  match n with
  | O => lc
  | S n' =>
      if decide (write_state lc = WRITE_PENDING)
      then
        let lc := fn_serial_lc_tbe_handler lc in
        let lc := if write_softint_pending lc then (fn_serial_lc_write_softint lc).2 else lc in
        write_byte_loop n' lc
      else lc
  end.

Definition fn_serial_lc_write_byte (byte : Z) (lc : fn_serial_lc) : Z * fn_serial_lc :=
  let '(rc, lc) := fn_serial_lc_write (Some [byte]) 1 lc in
  if negb (rc =? FN_SERIAL_LC_OK) then (rc, lc)
  else (FN_SERIAL_LC_OK, write_byte_loop 8 lc).

(** ** Draining Paula *)

(** [framed lc lc']: only the receive side of the hardware and the ring
    changed. *)
Definition framed (lc lc' : fn_serial_lc) : Prop :=
  lc' = (lc |> set_sample_count (sample_count lc') |> set_ack_count (ack_count lc')
            |> set_last_op_was_sample (last_op_was_sample lc')
            |> set_paula_bytes (paula_bytes lc') |> set_paula_len (paula_len lc')
            |> set_rbf_intreq (rbf_intreq lc') |> set_rx (rx lc')).

Lemma framed_refl lc : framed lc lc.
Proof. by destruct lc. Qed.

Lemma framed_trans a b c : framed a b -> framed b c -> framed a c.
Proof. unfold framed. intros -> ->. by destruct a. Qed.

Definition paula_ok (lc : fn_serial_lc) : Prop :=
  0 <= paula_len lc <= 8 /\ length (paula_bytes lc) = 8%nat.

Lemma ring_ok_ingest k w r : ring_ok k r -> ring_ok k (fujinet_paula_rx_ingest w r).
Proof.
  intros H. apply (ingest_simulates k r (mkFifo (contents k r) (hardware_overrun_latched r)
    (software_ring_overflow_latched r)) w). done.
Qed.

Lemma ring_ok_clear k r : ring_ok k r -> ring_ok k (fujinet_paula_rx_clear r).
Proof.
  intros H. by apply (clear_simulates k r (mkFifo (contents k r) (hardware_overrun_latched r)
    (software_ring_overflow_latched r))).
Qed.

Lemma sample_framed lc : framed lc (sample_retain_ack lc).
Proof.
  unfold framed, sample_retain_ack, ack_rbf_once, shift_paula. destruct lc. simpl.
  by destruct (_ >? 0).
Qed.

Lemma sample_paula lc :
  paula_ok lc -> paula_ok (sample_retain_ack lc) /\
  (rbf_intreq (sample_retain_ack lc) = true ->
   0 <= paula_len (sample_retain_ack lc) < paula_len lc).
Proof.
  unfold paula_ok, sample_retain_ack, ack_rbf_once, shift_paula. intros [H1 H2].
  simpl. destruct (Z.gtb_spec (paula_len lc) 0); simpl; [|split; [lia|intros; lia]].
  rewrite length_overwrite.
  - split; [lia|]. intros. lia.
  - rewrite length_slice; lia.
Qed.

Lemma sample_ring k lc : ring_ok k (rx lc) -> ring_ok k (rx (sample_retain_ack lc)).
Proof.
  unfold sample_retain_ack, ack_rbf_once, shift_paula. intros H. simpl.
  destruct (_ >? 0); simpl; by apply ring_ok_ingest.
Qed.

Lemma sample_loop_spec k fuel lc :
  ring_ok k (rx lc) -> paula_ok lc -> (Z.to_nat (paula_len lc) < fuel)%nat ->
  framed lc (sample_loop fuel lc) /\ ring_ok k (rx (sample_loop fuel lc)) /\
  paula_ok (sample_loop fuel lc) /\ rbf_intreq (sample_loop fuel lc) = false.
Proof.
  revert lc. induction fuel as [|fuel IH]; intros lc Hr Hp Hf; [lia|]. simpl.
  destruct (rbf_intreq lc) eqn:E; [|by split; [apply framed_refl|]].
  pose proof (sample_framed lc) as Hfr. pose proof (sample_ring k lc Hr) as Hr'.
  destruct (sample_paula lc Hp) as [Hp' Hlt].
  destruct (rbf_intreq (sample_retain_ack lc)) eqn:E'.
  - specialize (Hlt eq_refl). destruct (IH _ Hr' Hp' ltac:(lia)) as (H1 & H2 & H3 & H4).
    split; [by eapply framed_trans|done].
  - assert (Hx : sample_loop fuel (sample_retain_ack lc) = sample_retain_ack lc)
      by (destruct fuel; cbn [sample_loop]; by rewrite ?E').
    rewrite Hx. done.
Qed.

Lemma drain_spec k lc :
  inten_master lc = true -> ring_ok k (rx lc) -> paula_ok lc ->
  framed lc (drain_rbf lc) /\ ring_ok k (rx (drain_rbf lc)) /\ paula_ok (drain_rbf lc) /\
  rbf_intreq (drain_rbf lc) = false.
Proof.
  intros Hm Hr Hp. unfold drain_rbf. rewrite Hm. apply sample_loop_spec; [done..|].
  unfold sample_fuel. lia.
Qed.

(** ** The invariant *)

Definition read_pending (lc : fn_serial_lc) : bool := bool_decide (read_state lc = READ_PENDING).
Definition write_pending (lc : fn_serial_lc) : bool := bool_decide (write_state lc = WRITE_PENDING).

(** Paula is held by an open device, and only by one. *)
Definition held (lc : fn_serial_lc) : Prop :=
  port_owned lc = true /\ bits_owned lc = true /\ vector_installed lc = true /\
  rbf_vector lc = k_fujinet_handler /\ receive_armed lc = true /\ rbf_intena lc = true /\
  closing lc = false.
Definition released (lc : fn_serial_lc) : Prop :=
  port_owned lc = false /\ bits_owned lc = false /\ vector_installed lc = false /\
  rbf_vector lc = k_kickstart_handler /\ tbe_intena lc = false /\
  read_pending lc = false /\ write_pending lc = false.

Record lc_core (lc : fn_serial_lc) : Prop := {
  inv_master : inten_master lc = true;
  inv_handler : fujinet_handler lc = k_fujinet_handler;
  inv_saved : saved_vector lc = k_kickstart_handler;
  inv_ring : ring_ok 3 (rx lc);
  inv_paula : paula_ok lc;
  inv_dst : length (read_dst lc) = 8%nat;
  inv_pending : pending_write lc = write_pending lc;
  inv_write : write_pending lc = true ->
    0 <= write_committed lc /\ 0 <= write_remaining lc /\ is_u32 (write_length lc) /\
    write_committed lc + write_remaining lc = write_length lc;
  inv_read : read_pending lc = true -> 1 <= read_need lc <= 7;
  inv_tbe : tbe_intena lc = true -> write_pending lc = true;
  inv_protocol : ack_before_sample lc = false /\ tx_while_masked lc = false /\
    write_pending_at_vector_restore lc = false
}.

Definition open_ok (lc : fn_serial_lc) : Prop :=
  (open_cnt lc = 1 /\ held lc) \/ (open_cnt lc = 0 /\ released lc).

Definition lc_inv (lc : fn_serial_lc) : Prop := lc_core lc /\ open_ok lc.

Definition outstanding (lc : fn_serial_lc) : Z :=
  c_bool (read_pending lc) + c_bool (write_pending lc).

(** Replies sent and replies owed. *)
Definition balance (lc : fn_serial_lc) : Z := reply_count lc + outstanding lc.

(** [keeps lc n lc']: the invariant holds again, and [n] requests were
    accepted: replied to or left pending. *)
Definition keeps_core (lc : fn_serial_lc) (n : Z) (lc' : fn_serial_lc) : Prop :=
  lc_core lc' /\ balance lc' = balance lc + n.
Definition keeps (lc : fn_serial_lc) (n : Z) (lc' : fn_serial_lc) : Prop :=
  keeps_core lc n lc' /\ open_ok lc'.

Lemma keeps_0 a b c n : keeps a 0 b -> keeps b n c -> keeps a n c.
Proof. intros [[_ E1] _] [[H2 E2] H3]. split; [split; [done|lia]|done]. Qed.
Lemma keeps_core_0 a b c n : keeps_core a 0 b -> keeps_core b n c -> keeps_core a n c.
Proof. intros [_ E1] [H2 E2]. split; [done|lia]. Qed.
Lemma keeps_refl a : lc_inv a -> keeps a 0 a.
Proof. intros []. split; [split; [done|lia]|done]. Qed.
Lemma keeps_core_refl a : lc_core a -> keeps_core a 0 a.
Proof. split; [done|lia]. Qed.
Lemma keeps_inv a n b : keeps a n b -> lc_inv b.
Proof. intros [[? _] ?]. by split. Qed.

(** Evaluate the comparisons of two given states. *)
Ltac eval_states :=
  repeat match goal with
  | |- context [bool_decide (?a = ?b)] =>
      let v := eval vm_compute in (bool_decide (a = b)) in
      lazymatch v with true => idtac | false => idtac end;
      change (bool_decide (a = b)) with v
  end.

(** Spread the record out, so that fields reduce to variables, and compare
    what the invariant says before and after. *)
Ltac lc_fields :=
  unfold open_ok, held, released, paula_ok, read_pending, write_pending in *.
Ltac core_cases H :=
  destruct H as [Hmaster Hhandler Hsaved Hring Hpaula Hdst Hpend Hwrite Hread Htbe Hprot].
Ltac keep_flat H :=
  core_cases H; lc_fields; cbn in *;
  split; [split; lc_fields; cbn; eval_states; first [done | tauto | intuition congruence | idtac]
         |unfold balance, outstanding; lc_fields; cbn; eval_states;
          repeat match goal with H : bool_decide _ = _ |- _ => rewrite H end; cbn; first [lia | idtac]].
Ltac keep_core H lc := destruct lc; keep_flat H.
(** The same for what the invariant says of an open device. *)
Ltac keep_open lc :=
  lc_fields; destruct lc; cbn in *; eval_states; first [done | tauto | intuition congruence | idtac].

Lemma framed_keeps lc lc' :
  framed lc lc' -> lc_core lc -> ring_ok 3 (rx lc') -> paula_ok lc' ->
  keeps_core lc 0 lc' /\ (open_ok lc -> open_ok lc').
Proof.
  intros Hf H Hr Hp. revert Hr Hp. rewrite Hf. clear Hf. intros Hr Hp.
  split; [|by intros Ho; keep_open lc]. keep_core H lc.
Qed.

Lemma core_drain lc : lc_core lc ->
  keeps_core lc 0 (drain_rbf lc) /\ framed lc (drain_rbf lc) /\ rbf_intreq (drain_rbf lc) = false.
Proof.
  intros H. destruct (drain_spec 3 lc) as (Hf & Hr & Hp & Hi); try apply H.
  by destruct (framed_keeps lc (drain_rbf lc) Hf H Hr Hp).
Qed.

Lemma inv_drain lc : lc_inv lc -> keeps lc 0 (drain_rbf lc).
Proof.
  intros [H Ho]. destruct (drain_spec 3 lc) as (Hf & Hr & Hp & _); try apply H.
  destruct (framed_keeps lc (drain_rbf lc) Hf H Hr Hp). by split; auto.
Qed.

Lemma inv_set_ring lc r : lc_inv lc -> ring_ok 3 r -> keeps lc 0 (set_rx r lc).
Proof. intros [H Ho] Hr. split; [keep_core H lc|keep_open lc]. Qed.

Lemma inv_clear_ring lc : lc_inv lc -> keeps lc 0 (set_rx (fujinet_paula_rx_clear (rx lc)) lc).
Proof. intros H. apply inv_set_ring; [done|]. apply ring_ok_clear, H. Qed.

Lemma inv_cause lc : lc_inv lc -> keeps lc 0 (cause_if_satisfied lc).
Proof.
  intros [H Ho]. unfold cause_if_satisfied. destruct (read_satisfied lc); [|by apply keeps_refl].
  split; [keep_core H lc|keep_open lc].
Qed.

Lemma held_rearm lc : open_ok lc -> open_cnt lc = 1 -> rearm_receive lc = lc.
Proof.
  intros [[_ (_&_&_&_&Ha&_)]|[? _]] Ho; [|lia]. unfold rearm_receive. by rewrite Ha.
Qed.

Lemma inv_rearm lc : lc_inv lc -> keeps lc 0 (rearm_receive lc).
Proof.
  intros H. unfold rearm_receive. destruct (receive_armed lc) eqn:Ea; [by apply keeps_refl|].
  eapply keeps_0; [by apply inv_drain|].
  assert (Hu : receive_armed (drain_rbf lc) = false).
  { destruct (core_drain lc (proj1 H)) as (_ & Hf & _). rewrite Hf. by destruct lc. }
  destruct (keeps_inv _ _ _ (inv_drain lc H)) as [Hc Ho].
  generalize dependent (drain_rbf lc). intros lc1 Hu Hc Ho. split; [keep_core Hc lc1|keep_open lc1].
Qed.

Lemma read_pending_state lc : read_pending lc = true <-> read_state lc = READ_PENDING.
Proof. apply bool_decide_eq_true. Qed.

(** What an abort leaves: the request answered, everything else as it was. *)
Definition same_device (lc lc' : fn_serial_lc) : Prop :=
  open_cnt lc' = open_cnt lc /\ port_owned lc' = port_owned lc /\ bits_owned lc' = bits_owned lc /\
  vector_installed lc' = vector_installed lc /\ rbf_vector lc' = rbf_vector lc /\
  closing lc' = closing lc.

Lemma abort_read_spec lc : lc_core lc ->
  match abort_pending_read lc with
  | Some lc' => read_pending lc = true /\ keeps_core lc 0 lc' /\ (open_ok lc -> open_ok lc') /\
      read_pending lc' = false /\ read_error lc' = FN_SERIAL_LC_ABORTED /\ read_actual lc' = 0 /\
      write_pending lc' = write_pending lc /\ same_device lc lc' /\
      write_error lc' = write_error lc /\ write_actual lc' = write_actual lc
  | None => read_pending lc = false
  end.
Proof.
  intros H. unfold abort_pending_read, take_pending. unfold read_pending at 2.
  destruct (decide (read_state lc = READ_PENDING)) as [E|E].
  2:{ by apply bool_decide_eq_false. }
  assert (Hp : read_pending lc = true) by by apply read_pending_state.
  split; [done|]. split; [keep_core H lc|]. clear H E. split; [intros Ho; keep_open lc|].
  lc_fields. destruct lc. by cbn.
Qed.

Lemma abort_write_spec owner lc : lc_core lc ->
  match abort_pending_write owner lc with
  | Some lc' => write_pending lc = true /\ keeps_core lc 0 lc' /\ (open_ok lc -> open_ok lc') /\
      write_pending lc' = false /\
      write_error lc' = FN_SERIAL_LC_ABORTED /\ write_actual lc' = write_committed lc /\
      read_pending lc' = read_pending lc /\ same_device lc lc'
  | None => write_pending lc = false
  end.
Proof.
  intros H. unfold abort_pending_write, take_pending_write.
  rewrite (inv_pending _ H). change (bool_decide (write_state lc = WRITE_PENDING)) with (write_pending lc).
  destruct (write_pending lc) eqn:Hp; cbn [negb orb]; [|done].
  split; [done|]. split; [keep_core H lc|]. clear H. split; [intros Ho; keep_open lc|].
  lc_fields. destruct lc. by cbn.
Qed.

(** ** Closing *)

(** The requests answered by a close. *)
Definition close_replies (lc lc' : fn_serial_lc) : Prop :=
  (write_pending lc = true ->
   write_error lc' = FN_SERIAL_LC_ABORTED /\ write_actual lc' = write_committed lc) /\
  (read_pending lc = true -> read_error lc' = FN_SERIAL_LC_ABORTED /\ read_actual lc' = 0).

Definition vector_ok (lc : fn_serial_lc) : Prop :=
  if vector_installed lc then rbf_vector lc = k_fujinet_handler
  else rbf_vector lc = k_kickstart_handler.

Lemma abort_for_close_spec lc : lc_core lc ->
  let lc' := abort_for_close lc in
  keeps_core lc 0 lc' /\ read_pending lc' = false /\ write_pending lc' = false /\
  close_replies lc lc' /\ open_cnt lc' = open_cnt lc /\
  vector_installed lc' = vector_installed lc /\ rbf_vector lc' = rbf_vector lc.
Proof.
  intros H. unfold abort_for_close.
  set (l0 := set_write_pending_at_vector_restore _ _).
  assert (H0 : keeps_core lc 0 l0) by (unfold l0; clear l0; keep_core H lc).
  assert (E0 : write_pending l0 = write_pending lc /\ read_pending l0 = read_pending lc /\
    write_committed l0 = write_committed lc /\ open_cnt l0 = open_cnt lc /\
    vector_installed l0 = vector_installed lc /\ rbf_vector l0 = rbf_vector lc) by done.
  clearbody l0. destruct E0 as (Ew & Er & Ec & Eo & Ev & Eb).
  pose proof (abort_write_spec WRITE_OWNER_CLOSE l0 (proj1 H0)) as Haw.
  set (l1 := match abort_pending_write _ _ with Some _ => _ | None => _ end).
  assert (H1 : keeps_core lc 0 l1 /\ write_pending l1 = false /\ read_pending l1 = read_pending lc /\
    (write_pending lc = true ->
     write_error l1 = FN_SERIAL_LC_ABORTED /\ write_actual l1 = write_committed lc) /\
    open_cnt l1 = open_cnt lc /\ vector_installed l1 = vector_installed lc /\
    rbf_vector l1 = rbf_vector lc).
  { unfold l1. clear l1. destruct (abort_pending_write _ _) as [l|].
    - destruct Haw as (Hp & Hk & _ & Hw & He & Ha & Hr & Hd & _ & _ & Hv & Hrb & _).
      pose proof (keeps_core_0 _ _ _ _ H0 Hk) as [Hl Hbal].
      assert (Hl' : keeps_core l 0 (set_write_resolved_before_vector true l)) by keep_core Hl l.
      split; [eapply keeps_core_0; [by split|exact Hl']|]. clear Hl' Hl H0 H Hk.
      rewrite <- Ec, <- Ha. rewrite <- Er, <- Hr, <- Eo, <- Hd, <- Ev, <- Hv, <- Eb, <- Hrb.
      destruct l. lc_fields. cbn in *. by rewrite Hw, He.
    - split; [done|]. rewrite Haw in Ew. split; [done|]. split; [done|]. by rewrite <- Ew. }
  clearbody l1. clear H0 Haw Ew Er Ec Eo Ev Eb l0. destruct H1 as (H1 & Hw1 & Hr1 & Hwr & Ho1 & Hv1 & Hb1).
  pose proof (abort_read_spec l1 (proj1 H1)) as Har.
  destruct (abort_pending_read l1) as [l2|]; cbn [default from_option id].
  - destruct Har as (Hp & Hk & _ & Hr & He & Ha & Hw & (Hd1 & _ & _ & Hd2 & Hd3 & _) & Hwe & Hwa).
    split; [by eapply keeps_core_0|]. split; [done|]. split; [congruence|].
    split; [|by rewrite Hd1, Hd2, Hd3]. split; [|done]. rewrite Hwe, Hwa. done.
  - split; [done|]. split; [done|]. split; [done|]. split; [|done]. split; [done|].
    intros Hp. congruence.
Qed.

Lemma mask_and_drain_spec lc : lc_core lc -> write_pending lc = false ->
  let lc' := mask_and_drain lc in
  keeps_core lc 0 lc' /\ tbe_intena lc' = false /\ read_pending lc' = read_pending lc /\
  write_pending lc' = false /\ open_cnt lc' = open_cnt lc /\
  vector_installed lc' = vector_installed lc /\ rbf_vector lc' = rbf_vector lc /\
  write_error lc' = write_error lc /\ write_actual lc' = write_actual lc /\
  read_error lc' = read_error lc /\ read_actual lc' = read_actual lc.
Proof.
  intros H Hw. unfold mask_and_drain. set (l := quiesce_receive _).
  assert (Hl : keeps_core lc 0 l) by (unfold l, quiesce_receive; clear l; keep_core H lc).
  assert (E : tbe_intena l = false /\ read_pending l = read_pending lc /\
    write_pending l = write_pending lc /\ open_cnt l = open_cnt lc /\
    vector_installed l = vector_installed lc /\ rbf_vector l = rbf_vector lc /\
    write_error l = write_error lc /\ write_actual l = write_actual lc /\
    read_error l = read_error lc /\ read_actual l = read_actual lc) by done.
  clearbody l. destruct (core_drain l (proj1 Hl)) as (Hk & Hf & _).
  split; [by eapply keeps_core_0|]. rewrite Hw in E. rewrite Hf. clear Hk Hf Hl H Hw. destruct l. exact E.
Qed.

Lemma release_spec lc : lc_core lc ->
  let lc' := release_resources lc in
  keeps_core lc 0 lc' /\ port_owned lc' = false /\ bits_owned lc' = false /\
  read_pending lc' = read_pending lc /\ write_pending lc' = write_pending lc /\
  open_cnt lc' = open_cnt lc /\ tbe_intena lc' = tbe_intena lc /\
  vector_installed lc' = vector_installed lc /\ rbf_vector lc' = rbf_vector lc /\
  write_error lc' = write_error lc /\ write_actual lc' = write_actual lc /\
  read_error lc' = read_error lc /\ read_actual lc' = read_actual lc.
Proof.
  intros H. unfold release_resources, add_release, trace_add. destruct lc. cbn.
  destruct bits_owned0, port_owned0; cbn; repeat case_test; cbn;
    (split; [keep_flat H|done]).
Qed.

Lemma restore_spec lc : lc_core lc -> vector_ok lc -> write_pending lc = false ->
  let lc' := restore_vector lc in
  keeps_core lc 0 lc' /\ vector_installed lc' = false /\ rbf_vector lc' = k_kickstart_handler /\
  read_pending lc' = read_pending lc /\ write_pending lc' = write_pending lc /\
  open_cnt lc' = open_cnt lc /\ tbe_intena lc' = tbe_intena lc /\
  write_error lc' = write_error lc /\ write_actual lc' = write_actual lc /\
  read_error lc' = read_error lc /\ read_actual lc' = read_actual lc.
Proof.
  intros H Hv Hw. unfold restore_vector.
  destruct (decide (write_state lc = WRITE_PENDING)) as [E|E].
  { unfold write_pending in Hw. apply bool_decide_eq_false in Hw. done. }
  unfold vector_ok in Hv. rewrite (inv_handler _ H). pose proof (inv_saved _ H) as Hs.
  destruct (vector_installed lc) eqn:Ev.
  - rewrite Hv. cbn [andb Z.eqb Pos.eqb k_fujinet_handler].
    split; [keep_core H lc|clear H; lc_fields; destruct lc; done].
  - rewrite andb_false_r. split; [by apply keeps_core_refl|]. done.
Qed.

Lemma teardown_eq lc :
  teardown_paula lc =
  set_paula_mutated false (release_resources (restore_vector (mask_and_drain (abort_for_close lc)))).
Proof. reflexivity. Qed.

Lemma core_mutated b lc : lc_core lc -> keeps_core lc 0 (set_paula_mutated b lc).
Proof. intros H. keep_core H lc. Qed.

Lemma mutated_same b lc0 lc :
  released (set_paula_mutated b lc) = released lc /\
  open_cnt (set_paula_mutated b lc) = open_cnt lc /\
  close_replies lc0 (set_paula_mutated b lc) = close_replies lc0 lc.
Proof. by destruct lc. Qed.

Lemma teardown_spec lc : lc_core lc -> vector_ok lc ->
  let lc' := teardown_paula lc in
  keeps_core lc 0 lc' /\ released lc' /\ open_cnt lc' = open_cnt lc /\ close_replies lc lc'.
Proof.
  intros H Hv. cbv zeta. rewrite teardown_eq.
  destruct (abort_for_close_spec lc H) as (H1 & Hr1 & Hw1 & Hc1 & Ho1 & Hv1 & Hb1).
  set (l1 := abort_for_close lc) in *. clearbody l1.
  destruct (mask_and_drain_spec l1 (proj1 H1) Hw1)
    as (H2 & Ht2 & Hr2 & Hw2 & Ho2 & Hv2 & Hb2 & Ea2 & Eb2 & Ec2 & Ed2).
  set (l2 := mask_and_drain l1) in *. clearbody l2.
  destruct (restore_spec l2 (proj1 H2)) as (H3 & Hv3 & Hb3 & Hr3 & Hw3 & Ho3 & Ht3 & Ea3 & Eb3 & Ec3 & Ed3).
  { unfold vector_ok in *. by rewrite Hv2, Hv1, Hb2, Hb1. }
  { done. }
  set (l3 := restore_vector l2) in *. clearbody l3.
  destruct (release_spec l3 (proj1 H3))
    as (H4 & Hp4 & Hbi4 & Hr4 & Hw4 & Ho4 & Ht4 & Hv4 & Hb4 & Ea4 & Eb4 & Ec4 & Ed4).
  set (l4 := release_resources l3) in *. clearbody l4.
  pose proof (core_mutated false l4 (proj1 H4)) as H5.
  split; [exact (keeps_core_0 _ _ _ _ H1 (keeps_core_0 _ _ _ _ H2 (keeps_core_0 _ _ _ _ H3
    (keeps_core_0 _ _ _ _ H4 H5))))|].
  destruct (mutated_same false lc l4) as (-> & -> & ->).
  split; [|split; [congruence|]].
  - unfold released. split_and!; congruence.
  - destruct Hc1 as [Hcw Hcr]. split; intros Hp.
    + destruct (Hcw Hp). split; congruence.
    + destruct (Hcr Hp). split; congruence.
Qed.

(** Changing the open count leaves the rest of the invariant alone. *)
Lemma core_open_cnt n lc : lc_core lc -> keeps_core lc 0 (set_open_cnt n lc).
Proof. intros H. keep_core H lc. Qed.

Lemma open_vector lc : open_ok lc -> vector_ok lc.
Proof.
  unfold vector_ok. intros [[_ (_&_&->&->&_)]|[_ (_&_&->&->&_)]]; done.
Qed.

Lemma expunge_spec lc : lc_inv lc -> keeps lc 0 (fn_serial_lc_expunge lc).2.
Proof.
  intros [H Ho]. unfold fn_serial_lc_expunge.
  destruct Ho as [[E Hh]|[E Hr]]; rewrite E; cbn [negb Z.eqb].
  - assert (Ho : open_ok lc) by by left. split; [keep_core H lc|keep_open lc].
  - assert (Ho : open_ok lc) by by right. destruct Hr as (Hp & Hb & _). rewrite Hp, Hb. cbn [orb].
    split; [keep_core H lc|keep_open lc].
Qed.

Lemma close_eq lc : open_ok lc ->
  fn_serial_lc_close lc =
  let l := teardown_paula (set_open_cnt 0 lc) in
  if (open_cnt l =? 0) && negb (Z.land (lib_flags l) FN_SERIAL_LC_DELEXP =? 0)
  then fn_serial_lc_expunge l else (FN_SERIAL_LC_OK, l).
Proof.
  intros Ho. unfold fn_serial_lc_close.
  assert (E : (if negb (open_cnt lc =? 0) then set_open_cnt (open_cnt lc - 1) lc else lc)
              = set_open_cnt 0 lc).
  { destruct Ho as [[E _]|[E _]]; rewrite E; cbn [negb Z.eqb]; [done|]. destruct lc. cbn in *. by subst. }
  rewrite E. done.
Qed.

(** A second expunge of a closed device only sets its flags. *)
Lemma expunge_closed lc : released lc -> open_cnt lc = 0 ->
  fn_serial_lc_expunge lc =
  (FN_SERIAL_LC_OK, lc |> set_lib_flags (Z.ldiff (lib_flags lc) FN_SERIAL_LC_DELEXP)
                       |> set_expunged true).
Proof.
  intros (Hp & Hb & _) Ho. unfold fn_serial_lc_expunge. by rewrite Ho, Hp, Hb.
Qed.

Lemma replies_flags lc0 a b lc :
  close_replies lc0 (lc |> set_lib_flags a |> set_expunged b) = close_replies lc0 lc.
Proof. by destruct lc. Qed.
Lemma replies_open_cnt n lc0 lc :
  close_replies (set_open_cnt n lc0) lc = close_replies lc0 lc.
Proof. by destruct lc0. Qed.

Lemma close_spec lc : lc_inv lc ->
  let lc' := (fn_serial_lc_close lc).2 in
  keeps lc 0 lc' /\ open_cnt lc' = 0 /\ close_replies lc lc'.
Proof.
  intros [H Ho]. cbv zeta. rewrite close_eq by done. cbv zeta.
  pose proof (core_open_cnt 0 lc H) as H0.
  destruct (teardown_spec (set_open_cnt 0 lc) (proj1 H0) (open_vector lc Ho)) as (H1 & Hr & Ho1 & Hc).
  assert (Ho2 : open_cnt (set_open_cnt 0 lc) = 0) by (by destruct lc). rewrite Ho2 in Ho1. clear Ho2.
  rewrite replies_open_cnt in Hc. generalize dependent (teardown_paula (set_open_cnt 0 lc)).
  intros l H1 Hr Ho1 Hc. rewrite Ho1. cbn [Z.eqb andb].
  assert (Hk : keeps lc 0 l) by (split; [exact (keeps_core_0 _ _ _ _ H0 H1)|by right]).
  destruct (negb _); [|by split].
  pose proof (expunge_spec l (keeps_inv _ _ _ Hk)) as Hk'.
  split; [exact (keeps_0 _ _ _ _ Hk Hk')|]. rewrite (expunge_closed l Hr Ho1). cbn [snd].
  rewrite replies_flags. split; [|done]. destruct l. exact Ho1.
Qed.

(** ** The other operations *)

Lemma reset_ring_eq lc : reset_ring lc = set_rx (mkRx (buf (rx lc)) 7 0 0 false false) lc.
Proof. done. Qed.

Lemma ring_fresh r : ring_ok 3 r -> ring_ok 3 (mkRx (buf r) 7 0 0 false false).
Proof. intros H. destruct H. split; simpl; lia || done. Qed.

(** The traces are outside the invariant. *)
Lemma add_claim_shape v lc : exists t n, add_claim v lc = lc |> set_claim_trace t |> set_claim_trace_n n.
Proof. unfold add_claim. destruct (trace_add _ _ _) as [t n]. by exists t, n. Qed.
Lemma add_release_shape v lc :
  exists t n, add_release v lc = lc |> set_release_trace t |> set_release_trace_n n.
Proof. unfold add_release. destruct (trace_add _ _ _) as [t n]. by exists t, n. Qed.

Ltac trace_shapes :=
  repeat match goal with
  | |- context [add_claim ?v ?l] => destruct (add_claim_shape v l) as (? & ? & ->)
  | |- context [add_release ?v ?l] => destruct (add_release_shape v l) as (? & ? & ->)
  end.

Lemma open_spec baud lc : lc_inv lc -> keeps lc 0 (fn_serial_lc_open_at_baud baud lc).2.
Proof.
  intros [H Ho]. unfold fn_serial_lc_open_at_baud.
  destruct (Z.eqb_spec (open_cnt lc) 0) as [E|E]; cbn [negb]; [|by apply keeps_refl].
  destruct Ho as [[? _]|[_ Hr]]; [lia|]. pose proof (ring_fresh _ (inv_ring _ H)) as Hf.
  destruct Hr as (Hr1 & Hr2 & Hr3 & Hr4 & Hr5 & Hr6 & Hr7).
  pose proof (inv_handler _ H) as Hfu. destruct lc. cbn [port_busy_external set_paula_mutated set_release_trace_n set_claim_trace_n].
  destruct port_busy_external0; cbn [snd].
  { split; [keep_flat H|]. right. lc_fields. cbn in *. tauto. }
  trace_shapes. cbn. destruct bits_busy_external0; cbn; trace_shapes.
  { split; [keep_flat H|]. right. lc_fields. cbn in *. tauto. }
  rewrite reset_ring_eq. destruct (_ || _); cbn;
    (split; [|left; lc_fields; cbn in *; tauto]); keep_flat H.
Qed.

Lemma setparams_spec baud rl wl sb par lc : lc_inv lc ->
  keeps lc 0 (fn_serial_lc_setparams baud rl wl sb par lc).2.
Proof.
  intros H. unfold fn_serial_lc_setparams.
  destruct (Z.eqb_spec (open_cnt lc) 0) as [|Eo]; [by apply keeps_refl|].
  destruct (decide _); [by apply keeps_refl|]. destruct (decide _); [by apply keeps_refl|].
  destruct (_ || _); [by apply keeps_refl|]. destruct (negb _); [by apply keeps_refl|].
  cbn [snd]. set (l := set_paula_mutated true _).
  assert (Hl : keeps lc 0 l).
  { unfold l. clear l. destruct H as [H Ho]. split; [keep_core H lc|keep_open lc]. }
  assert (El : open_cnt l = open_cnt lc) by done. clearbody l.
  pose proof (inv_drain l (keeps_inv _ _ _ Hl)) as Hd.
  destruct (core_drain l) as (_ & Hf & _); [apply Hl|].
  assert (Ed : open_cnt (drain_rbf l) = open_cnt l) by (rewrite Hf; by destruct l).
  clear Hf. generalize dependent (drain_rbf l). intros l2 Hd Ed.
  pose proof (inv_clear_ring l2 (keeps_inv _ _ _ Hd)) as Hc.
  assert (Ec : open_cnt (set_rx (fujinet_paula_rx_clear (rx l2)) l2) = open_cnt l2) by by destruct l2.
  generalize dependent (set_rx (fujinet_paula_rx_clear (rx l2)) l2). intros l3 Hc Ec.
  assert (Ha : receive_armed l3 = true).
  { destruct (proj2 (keeps_inv _ _ _ Hc)) as [[_ (_&_&_&_&?&_)]|[? _]]; [done|congruence]. }
  rewrite Ha. cbn [negb]. exact (keeps_0 _ _ _ _ Hl (keeps_0 _ _ _ _ Hd Hc)).
Qed.

Lemma hw_rx_spec byte ovr lc : lc_inv lc -> keeps lc 0 (fn_serial_lc_hw_rx byte ovr lc).
Proof.
  intros [H Ho]. unfold fn_serial_lc_hw_rx, FN_SERIAL_LC_PAULA_DEPTH.
  destruct (Z.geb_spec (paula_len lc) 8); [by apply keeps_refl|].
  generalize (if ovr then Z.lor (u16 (Z.lor FUJINET_PAULA_SERDATR_RBF byte)) FUJINET_PAULA_SERDATR_OVRUN
              else u16 (Z.lor FUJINET_PAULA_SERDATR_RBF byte)). intros w.
  split; [|keep_open lc]. keep_core H lc. rewrite length_put_at. lia.
Qed.

Lemma rbf_handler_spec lc : lc_inv lc -> keeps lc 0 (fn_serial_lc_rbf_handler lc).
Proof.
  intros H. unfold fn_serial_lc_rbf_handler. rewrite (inv_master _ (proj1 H)). cbn [negb].
  pose proof (inv_drain lc H) as Hd. unfold drain_rbf in Hd. rewrite (inv_master _ (proj1 H)) in Hd.
  cbn [negb] in Hd. eapply keeps_0; [exact Hd|]. apply inv_cause, (keeps_inv _ _ _ Hd).
Qed.

Lemma abort_spec lc : lc_inv lc -> keeps lc 0 (fn_serial_lc_abort lc).2.
Proof.
  intros [H Ho]. pose proof (abort_read_spec lc H) as Ha. unfold fn_serial_lc_abort.
  destruct (abort_pending_read lc) as [l|]; [|by apply keeps_refl].
  destruct Ha as (_ & Hk & Hop & _). split; [exact Hk|auto].
Qed.

Lemma abort_write_keeps owner lc : lc_inv lc ->
  keeps lc 0 (default lc (abort_pending_write owner lc)).
Proof.
  intros [H Ho]. pose proof (abort_write_spec owner lc H) as Ha.
  destruct (abort_pending_write owner lc) as [l|]; [|by apply keeps_refl].
  destruct Ha as (_ & Hk & Hop & _). split; [exact Hk|cbn; auto].
Qed.

Lemma abort_read_keeps lc : lc_inv lc -> keeps lc 0 (default lc (abort_pending_read lc)).
Proof.
  intros H. pose proof (abort_spec lc H) as Ha. unfold fn_serial_lc_abort in Ha.
  by destruct (abort_pending_read lc).
Qed.

Lemma flush_spec lc : lc_inv lc -> keeps lc 0 (fn_serial_lc_flush lc).2.
Proof.
  intros H. unfold fn_serial_lc_flush. cbn [snd].
  pose proof (abort_write_keeps WRITE_OWNER_FLUSH lc H) as H1.
  generalize dependent (default lc (abort_pending_write WRITE_OWNER_FLUSH lc)). intros l1 H1.
  pose proof (abort_read_keeps l1 (keeps_inv _ _ _ H1)) as H2.
  generalize dependent (default l1 (abort_pending_read l1)). intros l2 H2.
  pose proof (inv_drain l2 (keeps_inv _ _ _ H2)) as H3. generalize dependent (drain_rbf l2). intros l3 H3.
  exact (keeps_0 _ _ _ _ H1 (keeps_0 _ _ _ _ H2 (keeps_0 _ _ _ _ H3
    (inv_clear_ring l3 (keeps_inv _ _ _ H3))))).
Qed.

Lemma abort_write_op_spec lc : lc_inv lc -> keeps lc 0 (fn_serial_lc_abort_write lc).2.
Proof.
  intros H. pose proof (abort_write_keeps WRITE_OWNER_ABORT lc H) as Ha.
  unfold fn_serial_lc_abort_write. by destruct (abort_pending_write WRITE_OWNER_ABORT lc).
Qed.

(** A successful read or write is one accepted request. *)
Definition accepted (rc : Z) : Z := c_bool (rc =? FN_SERIAL_LC_OK).

Lemma take_pending_eq next lc : read_pending lc = true ->
  take_pending next lc = Some (set_read_state next lc).
Proof. intros E%read_pending_state. unfold take_pending. by destruct (decide _). Qed.

Lemma softint_spec lc : lc_inv lc -> keeps lc 0 (fn_serial_lc_softint lc).2.
Proof.
  intros [H Ho]. unfold fn_serial_lc_softint, take_pending.
  assert (Hs : keeps_core lc 0 (set_softint_pending false lc) /\ open_ok (set_softint_pending false lc))
    by (split; [keep_core H lc|keep_open lc]).
  assert (Er : read_state (set_softint_pending false lc) = read_state lc) by by destruct lc.
  rewrite Er. destruct (decide (read_state lc = READ_PENDING)) as [E|E]; [|exact Hs]. clear Hs Er.
  apply read_pending_state in E. pose proof (inv_read _ H E) as Hn.
  set (l := set_read_state READ_COMPLETING _).
  assert (El : rx l = rx lc /\ read_dst l = read_dst lc) by by destruct lc.
  destruct El as [-> ->].
  pose proof (read_simulates 3 (rx lc) (mkFifo (contents 3 (rx lc)) (hardware_overrun_latched (rx lc))
    (software_ring_overflow_latched (rx lc))) (read_dst lc) (Z.to_nat (u16 (read_need lc)))) as Hr.
  rewrite (inv_dst _ H) in Hr. rewrite (u16_id (read_need lc)) in * by (unfold is_u16; lia).
  rewrite Z2Nat.id in Hr by lia.
  specialize (Hr (conj (inv_ring _ H) (conj eq_refl (conj eq_refl eq_refl)))
    ltac:(unfold is_u16; lia) ltac:(lia)).
  assert (Ec : read_need (set_softint_pending false lc) = read_need lc) by by destruct lc.
  rewrite Ec. rewrite (u16_id (read_need lc)) by (unfold is_u16; lia).
  destruct (fujinet_paula_rx_read _ _ _) as [[n d] r]. simpl in Hr.
  destruct Hr as (_ & -> & Hr). cbn [snd default from_option id].
  set (d := overwrite _ _ _).
  assert (Hd : length d = 8%nat).
  { unfold d. rewrite length_overwrite; [apply H|]. rewrite (inv_dst _ H), length_take. lia. }
  clearbody d. destruct Hr as (Hr & _). subst l. clear Ec.
  split; [keep_core H lc|clear H; keep_open lc].
Qed.

Lemma cause_rc (rc : Z) lc n : lc_inv lc -> keeps lc n lc -> keeps lc n (cause_if_satisfied lc).
Proof.
  intros H [[_ E] _]. destruct (inv_cause lc H) as [[H1 E1] H2]. split; [split; [done|lia]|done].
Qed.

Lemma read_spec need lc :
  lc_inv lc -> 0 <= need -> (need = 0 -> read_pending lc = false) ->
  keeps lc (accepted (fn_serial_lc_read need lc).1) (fn_serial_lc_read need lc).2.
Proof.
  intros [H Ho] Hn Hz. unfold fn_serial_lc_read.
  destruct (closing lc || _) eqn:Ec; [by apply keeps_refl|].
  destruct (Z.eqb_spec need 0) as [E|E].
  { specialize (Hz E). cbn [fst snd accepted c_bool Z.eqb FN_SERIAL_LC_OK]. clear E.
    split; [|keep_open lc]. keep_core H lc. }
  pose proof (ring_mask _ _ (inv_ring _ H)) as Hm. rewrite Hm. change (2 ^ 3 - 1) with 7.
  destruct (Z.gtb_spec need 7) as [|Hle]; [by apply keeps_refl|].
  destruct (decide (read_state lc = READ_PENDING)) as [|Hp]; [by apply keeps_refl|].
  assert (Ho1 : open_cnt lc = 1).
  { destruct Ho as [[? _]|[E0 _]]; [done|]. rewrite E0 in Ec. by rewrite orb_true_r in Ec. }
  rewrite held_rearm by done. cbn [fst snd accepted c_bool Z.eqb FN_SERIAL_LC_OK].
  assert (Hr : read_pending lc = false) by by apply bool_decide_eq_false.
  set (l := set_read_state READ_PENDING _).
  assert (Hl : keeps lc 1 l).
  { unfold l. clear l Hp Ec. split; [|keep_open lc]. keep_core H lc. intros _. lia. }
  clearbody l. destruct (inv_cause l (keeps_inv _ _ _ Hl)) as [[H1 E1] H2].
  destruct Hl as [[_ E2] _]. split; [split; [done|lia]|done].
Qed.

Lemma write_spec data len lc :
  lc_inv lc -> is_u32 len ->
  keeps lc (accepted (fn_serial_lc_write data len lc).1) (fn_serial_lc_write data len lc).2.
Proof.
  intros [H Ho] Hlen. unfold fn_serial_lc_write.
  destruct (closing lc || _) eqn:Ec; [by apply keeps_refl|].
  destruct (negb (len =? 0) && _); [by apply keeps_refl|].
  destruct (decide (write_state lc = WRITE_PENDING)) as [|Hp]; [by apply keeps_refl|].
  assert (Ho1 : open_cnt lc = 1).
  { destruct Ho as [[? _]|[E0 _]]; [done|]. rewrite E0 in Ec. by rewrite orb_true_r in Ec. }
  assert (Ha : receive_armed lc = true) by (destruct Ho as [[_ (_&_&_&_&?&_)]|[? _]]; [done|lia]).
  rewrite held_rearm by done.
  assert (Hw : write_pending lc = false) by by apply bool_decide_eq_false.
  pose proof (inv_drain lc (conj H Ho)) as Hd. destruct (core_drain lc H) as (_ & Hf & _).
  assert (E1 : receive_armed (drain_rbf lc) = true /\ write_pending (drain_rbf lc) = false /\
               open_cnt (drain_rbf lc) = 1).
  { rewrite Hf. clear Hf Hd H Ho Ec Hp. lc_fields. destruct lc. by cbn in *. }
  clear Hf. generalize dependent (drain_rbf lc). intros l1 Hd (Ea1 & Ew1 & Eo1).
  pose proof (inv_clear_ring l1 (keeps_inv _ _ _ Hd)) as Hc.
  assert (E2 : receive_armed (set_rx (fujinet_paula_rx_clear (rx l1)) l1) = true /\
               write_pending (set_rx (fujinet_paula_rx_clear (rx l1)) l1) = false /\
               open_cnt (set_rx (fujinet_paula_rx_clear (rx l1)) l1) = 1) by by destruct l1.
  generalize dependent (set_rx (fujinet_paula_rx_clear (rx l1)) l1). intros l2 Hc (Ea2 & Ew2 & Eo2).
  rewrite Ea2, Ha. cbn [negb andb]. rewrite ?Ea2. cbn [negb]. pose proof (keeps_0 _ _ _ _ Hd Hc) as [[Hk Eb] Hok].
  destruct (Z.eqb_spec len 0) as [E|E]; cbn [fst snd accepted c_bool Z.eqb FN_SERIAL_LC_OK].
  - set (l3 := reply_write _ _ _).
    assert (H3 : keeps l2 1 l3).
    { unfold l3, reply_write. clear - Hk Hok Ew2. split; [|keep_open l2]. keep_core Hk l2. }
    destruct H3 as [[H3 E3] O3]. split; [split; [done|lia]|done].
  - set (l3 := start_write _ _ _).
    assert (H3 : keeps l2 1 l3).
    { unfold l3, start_write. clear - Hk Hok Ew2 Hlen Eo2. split; [|keep_open l2].
      keep_core Hk l2. intros _. unfold is_u32 in *. lia. }
    destruct H3 as [[H3 E3] O3]. split; [split; [done|lia]|done].
Qed.

Lemma tbe_spec lc : lc_inv lc -> keeps lc 0 (fn_serial_lc_tbe_handler lc).
Proof.
  intros [H Ho]. unfold fn_serial_lc_tbe_handler.
  destruct (negb (inten_master lc)) eqn:E1; [by apply keeps_refl|].
  destruct (tbe_intena lc) eqn:E2; cbn [negb orb]; [|by apply keeps_refl].
  destruct (tbe_intreq lc) eqn:E3; cbn [negb]; [|by apply keeps_refl].
  pose proof (inv_write _ H (inv_tbe _ H E2)) as Hw. pose proof (inv_tbe _ H E2) as Hp.
  assert (Er : write_remaining (set_tbe_fire (u32 (tbe_fire lc + 1)) (set_tbe_intreq false lc))
               = write_remaining lc) by by destruct lc.
  rewrite Er. destruct (Z.eqb_spec (write_remaining lc) 0) as [E|E]; clear Er.
  - split; [keep_core H lc|clear H; keep_open lc].
  - assert (Ec : u32 (write_committed lc + 1) = write_committed lc + 1 /\
                 u32 (write_remaining lc - 1) = write_remaining lc - 1).
    { unfold is_u32 in Hw. split; apply u32_id; unfold is_u32; lia. }
    split; [|clear H Ec; keep_open lc]. destruct lc. cbn in Ec, Hw, Hp, E.
    cbn [write_committed write_remaining set_tbe_fire set_tbe_intreq]. 
    cbn. destruct Ec as [-> ->]. keep_flat H. intros _. unfold is_u32 in *. lia.
Qed.

Lemma write_softint_spec lc : lc_inv lc -> keeps lc 0 (fn_serial_lc_write_softint lc).2.
Proof.
  intros [H Ho]. unfold fn_serial_lc_write_softint, take_pending_write.
  set (l := set_write_softint_pending false lc).
  assert (Hl : keeps_core lc 0 l /\ open_ok l).
  { unfold l. clear l. split; [keep_core H lc|keep_open lc]. }
  clearbody l. destruct Hl as [Hl Hol]. pose proof (inv_pending _ (proj1 Hl)) as Hp.
  change (bool_decide (write_state l = WRITE_PENDING)) with (write_pending l). rewrite Hp.
  destruct (write_pending l) eqn:Ew; cbn [negb orb]; [|by split].
  eapply keeps_0; [by split|]. destruct Hl as [Hl _].
  split; [keep_core Hl l|clear Hl H Hp; keep_open l].
Qed.

Lemma write_byte_loop_spec n lc : lc_inv lc -> keeps lc 0 (write_byte_loop n lc).
Proof.
  revert lc. induction n as [|n IH]; intros lc H; cbn [write_byte_loop]; [by apply keeps_refl|].
  destruct (decide (write_state lc = WRITE_PENDING)); [|by apply keeps_refl].
  pose proof (tbe_spec lc H) as H1. generalize dependent (fn_serial_lc_tbe_handler lc).
  intros l1 H1. destruct (write_softint_pending l1).
  - pose proof (write_softint_spec l1 (keeps_inv _ _ _ H1)) as H2.
    exact (keeps_0 _ _ _ _ H1 (keeps_0 _ _ _ _ H2 (IH _ (keeps_inv _ _ _ H2)))).
  - exact (keeps_0 _ _ _ _ H1 (IH _ (keeps_inv _ _ _ H1))).
Qed.

Lemma write_byte_spec byte lc : lc_inv lc ->
  keeps lc (accepted (fn_serial_lc_write_byte byte lc).1) (fn_serial_lc_write_byte byte lc).2.
Proof.
  intros H. unfold fn_serial_lc_write_byte.
  pose proof (write_spec (Some [byte]) 1 lc H ltac:(unfold is_u32; lia)) as Hw.
  destruct (fn_serial_lc_write (Some [byte]) 1 lc) as [rc l]. cbn [fst snd] in Hw.
  destruct (Z.eqb_spec rc FN_SERIAL_LC_OK) as [->|]; cbn [negb fst snd]; [|done].
  pose proof (write_byte_loop_spec 8 l (keeps_inv _ _ _ Hw)) as [[H1 E1] H2].
  destruct Hw as [[_ E2] _]. split; [split; [done|lia]|done].
Qed.

(** ** Everything that can happen *)

Inductive lc_op :=
  | OpOpen (baud : Z)
  | OpOpenUnit (unit : Z)
  | OpSetparams (baud read_len write_len stop_bits : Z) (parity_on : bool)
  | OpClose
  | OpExpunge
  | OpHwRx (byte : Z) (hardware_overrun : bool)
  | OpRbf
  | OpSoftint
  | OpRead (need : Z)
  | OpAbort
  | OpClear
  | OpFlush
  | OpQuery
  | OpWrite (data : option (list Z)) (length : Z)
  | OpTbe
  | OpWriteSoftint
  | OpAbortWrite
  | OpWriteByte (byte : Z).

(** The number of requests an operation accepts, and the state it leaves. *)
Definition lc_step (o : lc_op) (lc : fn_serial_lc) : Z * fn_serial_lc :=
  let request '(rc, lc) := (accepted rc, lc) in
  match o with
  | OpOpen baud => (0, (fn_serial_lc_open_at_baud baud lc).2)
  | OpOpenUnit unit => (0, (fn_serial_lc_open_unit unit lc).2)
  | OpSetparams b r w s p => (0, (fn_serial_lc_setparams b r w s p lc).2)
  | OpClose => (0, (fn_serial_lc_close lc).2)
  | OpExpunge => (0, (fn_serial_lc_expunge lc).2)
  | OpHwRx byte ovr => (0, fn_serial_lc_hw_rx byte ovr lc)
  | OpRbf => (0, fn_serial_lc_rbf_handler lc)
  | OpSoftint => (0, (fn_serial_lc_softint lc).2)
  | OpRead need => request (fn_serial_lc_read need lc)
  | OpAbort => (0, (fn_serial_lc_abort lc).2)
  | OpClear => (0, (fn_serial_lc_clear lc).2)
  | OpFlush => (0, (fn_serial_lc_flush lc).2)
  | OpQuery => (0, (fn_serial_lc_query lc).2)
  | OpWrite data len => request (fn_serial_lc_write data len lc)
  | OpTbe => (0, fn_serial_lc_tbe_handler lc)
  | OpWriteSoftint => (0, (fn_serial_lc_write_softint lc).2)
  | OpAbortWrite => (0, (fn_serial_lc_abort_write lc).2)
  | OpWriteByte byte => request (fn_serial_lc_write_byte byte lc)
  end.

(** The arguments are of their C types, and no read of zero bytes is made
    while a read is pending (see [zero_read_drops_pending]). *)
Definition op_ok (o : lc_op) (lc : fn_serial_lc) : Prop :=
  match o with
  | OpRead need => 0 <= need /\ (need = 0 -> read_pending lc = false)
  | OpWrite _ len => is_u32 len
  | _ => True
  end.

(** [reach lc n]: a state in which [n] requests have been accepted so far.
    Another owner may hold or give up either resource at any time. *)
Inductive reach : fn_serial_lc -> Z -> Prop :=
  | reach_init : reach fn_serial_lc_init 0
  | reach_busy lc n port bits :
      reach lc n -> reach (lc |> set_port_busy_external port |> set_bits_busy_external bits) n
  | reach_step lc n o :
      reach lc n -> op_ok o lc -> reach (lc_step o lc).2 (n + (lc_step o lc).1).

Lemma step_keeps o lc : lc_inv lc -> op_ok o lc -> keeps lc (lc_step o lc).1 (lc_step o lc).2.
Proof.
  intros H Hok. destruct o; cbn [lc_step fst snd op_ok] in *.
  - by apply open_spec.
  - unfold fn_serial_lc_open_unit. destruct (negb _); [by apply keeps_refl|by apply open_spec].
  - by apply setparams_spec.
  - by apply close_spec.
  - by apply expunge_spec.
  - by apply hw_rx_spec.
  - by apply rbf_handler_spec.
  - by apply softint_spec.
  - pose proof (read_spec need lc H (proj1 Hok) (proj2 Hok)).
    by destruct (fn_serial_lc_read need lc).
  - by apply abort_spec.
  - by apply flush_spec.
  - by apply flush_spec.
  - by apply inv_rearm.
  - pose proof (write_spec data length lc H Hok). by destruct (fn_serial_lc_write data length lc).
  - by apply tbe_spec.
  - by apply write_softint_spec.
  - by apply abort_write_op_spec.
  - pose proof (write_byte_spec byte lc H). by destruct (fn_serial_lc_write_byte byte lc).
Qed.

Lemma init_inv : lc_inv fn_serial_lc_init.
Proof.
  split; [|right; by vm_compute].
  split; try done; try (by vm_compute); split; simpl; lia || done.
Qed.

Lemma busy_keeps port bits lc : lc_inv lc ->
  keeps lc 0 (lc |> set_port_busy_external port |> set_bits_busy_external bits).
Proof. intros [H Ho]. split; [keep_core H lc|keep_open lc]. Qed.

Lemma reach_inv lc n : reach lc n -> lc_inv lc /\ balance lc = n.
Proof.
  induction 1 as [|lc n port bits _ [IH E]|lc n o _ [IH E] Hok].
  - split; [apply init_inv|done].
  - pose proof (busy_keeps port bits lc IH) as Hk. split; [exact (keeps_inv _ _ _ Hk)|].
    destruct Hk as [[_ E'] _]. lia.
  - pose proof (step_keeps o lc IH Hok) as Hk. split; [exact (keeps_inv _ _ _ Hk)|].
    destruct Hk as [[_ E'] _]. lia.
Qed.

(** In every order of calls, interrupts and soft interrupts: an open
    device holds both resources, the receive vector and an armed receiver, a
    closed one holds nothing, has restored the old vector and has nothing
    pending; a pending write has committed and remaining bytes that add up
    to its length; transmit interrupts are enabled only for a pending write;
    nothing was acknowledged before it was sampled or sent with the receiver
    masked; and every accepted read or write has been replied to exactly
    once or is still pending. *)
Theorem lifecycle_invariant lc n :
  reach lc n -> lc_inv lc /\ reply_count lc + outstanding lc = n.
Proof. apply reach_inv. Qed.

(** A close, at any moment, leaves the device closed and Paula released,
    with every request ever accepted replied to: a write that was pending is
    answered as aborted with the bytes that were committed, a read as
    aborted with none. *)
Theorem close_answers_all lc n :
  reach lc n ->
  let lc' := (fn_serial_lc_close lc).2 in
  open_cnt lc' = 0 /\ released lc' /\ reply_count lc' = n /\ close_replies lc lc'.
Proof.
  intros H. destruct (reach_inv lc n H) as [Hinv Hn]. cbv zeta.
  destruct (close_spec lc Hinv) as ([[_ Hb] Hop] & Ho & Hc).
  generalize dependent ((fn_serial_lc_close lc).2). intros l Hb Hop Ho Hc.
  destruct Hop as [[? _]|[_ Hr]]; [lia|]. split; [done|]. split; [done|]. split; [|done].
  destruct Hr as (_ & _ & _ & _ & _ & Hrp & Hwp).
  unfold balance, outstanding in *. rewrite Hrp, Hwp in Hb. cbn in Hb. lia.
Qed.

(** ** Transmission *)

Definition sending (lc : fn_serial_lc) (committed remaining : Z) : Prop :=
  inten_master lc = true /\ tbe_intena lc = true /\ tbe_intreq lc = true /\
  write_state lc = WRITE_PENDING /\ pending_write lc = true /\
  write_committed lc = committed /\ write_remaining lc = remaining.

Lemma tbe_sends lc c r :
  sending lc c r -> 0 <= c -> 0 < r -> c + r < 4294967296 ->
  sending (fn_serial_lc_tbe_handler lc) (c + 1) (r - 1) /\
  tx_count (fn_serial_lc_tbe_handler lc) = tx_count lc + 1.
Proof.
  intros (E1 & E2 & E3 & E4 & E5 & E6 & E7) Hc Hr Hlt. unfold fn_serial_lc_tbe_handler.
  rewrite E1, E2, E3. cbn [negb orb]. destruct lc. cbn in *. subst.
  destruct (Z.eqb_spec r 0); [lia|]. cbn. split; [|done].
  unfold sending. cbn. rewrite !u32_id by (unfold is_u32; lia). done.
Qed.

Lemma tbe_run k lc c r :
  sending lc c r -> 0 <= c -> Z.of_nat k <= r -> c + r < 4294967296 ->
  sending (Nat.iter k fn_serial_lc_tbe_handler lc) (c + Z.of_nat k) (r - Z.of_nat k) /\
  tx_count (Nat.iter k fn_serial_lc_tbe_handler lc) = tx_count lc + Z.of_nat k.
Proof.
  intros H Hc Hk Hlt. induction k as [|k IH].
  - change (Nat.iter 0 fn_serial_lc_tbe_handler lc) with lc.
    replace (c + Z.of_nat 0) with c by lia. replace (r - Z.of_nat 0) with r by lia. split; [done|lia].
  - destruct IH as [IH IHt]; [lia|].
    change (Nat.iter (S k) fn_serial_lc_tbe_handler lc)
      with (fn_serial_lc_tbe_handler (Nat.iter k fn_serial_lc_tbe_handler lc)).
    destruct (tbe_sends _ _ _ IH) as [Hs Ht]; [lia..|].
    replace (c + Z.of_nat (S k)) with (c + Z.of_nat k + 1) by lia.
    replace (r - Z.of_nat (S k)) with (r - Z.of_nat k - 1) by lia. split; [done|lia].
Qed.

Lemma write_sends data len lc :
  (fn_serial_lc_write data len lc).1 = FN_SERIAL_LC_OK -> len <> 0 ->
  inten_master (fn_serial_lc_write data len lc).2 = true ->
  sending (fn_serial_lc_write data len lc).2 0 len.
Proof.
  unfold fn_serial_lc_write. destruct (_ || _); [done|]. destruct (_ && _); [done|].
  destruct (decide _); [done|]. intros _ Hz. destruct (Z.eqb_spec len 0); [done|]. cbn [snd].
  match goal with |- context [start_write data len ?l] => generalize l end.
  intros l Hm. destruct l. cbn in *. by subst.
Qed.

Lemma Nat_iter_S {A} n (f : A -> A) x : Nat.iter (S n) f x = f (Nat.iter n f x).
Proof. done. Qed.

Lemma tbe_last lc c :
  sending lc c 0 ->
  let l2 := fn_serial_lc_tbe_handler lc in
  let l3 := fn_serial_lc_write_softint l2 in
  tx_count l2 = tx_count lc /\ write_softint_pending l2 = true /\ tbe_intena l2 = false /\
  l3.1 = 1 /\ write_error l3.2 = FN_SERIAL_LC_OK /\ write_actual l3.2 = c /\
  write_state l3.2 = WRITE_REPLIED.
Proof.
  intros (E1 & E2 & E3 & E4 & E5 & E6 & E7). destruct lc. cbn in *. by subst.
Qed.

(** A write that was accepted completes: after one transmit interrupt
    per byte and one more, every byte has been handed to Paula, the soft
    interrupt is requested, and it answers the request with no error and the
    whole length. *)
Theorem write_completes lc n data len :
  reach lc n -> 0 < len < 4294967296 ->
  let '(rc, lc1) := fn_serial_lc_write (Some data) len lc in
  rc = FN_SERIAL_LC_OK ->
  let lc2 := Nat.iter (S (Z.to_nat len)) fn_serial_lc_tbe_handler lc1 in
  let '(replied, lc3) := fn_serial_lc_write_softint lc2 in
  tx_count lc2 = tx_count lc1 + len /\ write_softint_pending lc2 = true /\
  tbe_intena lc2 = false /\
  replied = 1 /\ write_error lc3 = FN_SERIAL_LC_OK /\ write_actual lc3 = len /\
  write_state lc3 = WRITE_REPLIED.
Proof.
  intros Hreach Hlen. destruct (reach_inv _ _ Hreach) as [Hinv _].
  pose proof (write_spec (Some data) len lc Hinv ltac:(unfold is_u32; lia)) as Hk.
  pose proof (write_sends (Some data) len lc) as Hs.
  destruct (fn_serial_lc_write (Some data) len lc) as [rc lc1]. intros ->.
  pose proof (keeps_inv _ _ _ Hk) as [H1 _]. clear Hk. cbn [fst snd] in *.
  specialize (Hs eq_refl ltac:(lia) (inv_master _ H1)).
  destruct (tbe_run (Z.to_nat len) lc1 0 len Hs) as [Hr Ht]; [lia..|].
  rewrite Z2Nat.id in Hr, Ht by lia. rewrite Z.sub_diag, Z.add_0_l in Hr.
  pose proof (tbe_last _ _ Hr) as Hl. rewrite <- Ht. cbv zeta in Hl |- *.
  rewrite (Nat_iter_S (Z.to_nat len) fn_serial_lc_tbe_handler lc1).
  destruct (fn_serial_lc_write_softint _) as [rep l3]. exact Hl.
Qed.

(** ** Reception *)

(** A read that is pending completes: once the receive interrupt has
    run, the hardware's FIFO is empty, and if the ring holds as many bytes
    as were asked for, the soft interrupt is requested and answers the read
    with no error and exactly the oldest bytes, in order. *)
Theorem read_completes lc n :
  reach lc n -> read_pending lc = true ->
  let lc1 := fn_serial_lc_rbf_handler lc in
  let need := Z.to_nat (read_need lc) in
  rbf_intreq lc1 = false /\
  ((need <= length (contents 3 (rx lc1)))%nat ->
   softint_pending lc1 = true /\
   let '(replied, lc2) := fn_serial_lc_softint lc1 in
   replied = 1 /\ read_error lc2 = FN_SERIAL_LC_OK /\ read_actual lc2 = read_need lc /\
   take need (read_dst lc2) = take need (contents 3 (rx lc1)) /\
   contents 3 (rx lc2) = drop need (contents 3 (rx lc1))).
Proof.
  intros Hreach Hp. destruct (reach_inv _ _ Hreach) as [Hinv _]. pose proof (proj1 Hinv) as H.
  unfold fn_serial_lc_rbf_handler. rewrite (inv_master _ H). cbn [negb].
  pose proof (inv_drain lc Hinv) as Hd. destruct (core_drain lc H) as (_ & Hf & Hi).
  unfold drain_rbf in *. rewrite (inv_master _ H) in *. cbn [negb] in *.
  assert (E : read_pending (sample_loop (sample_fuel lc) lc) = true /\
              read_need (sample_loop (sample_fuel lc) lc) = read_need lc).
  { rewrite Hf, <- Hp. by destruct lc. }
  clear Hf. generalize dependent (sample_loop (sample_fuel lc) lc). intros l Hd Hi [Ep En].
  pose proof (keeps_inv _ _ _ Hd) as [Hl Hlo]. pose proof (inv_read _ Hl Ep) as Hneed.
  rewrite En in Hneed. clear Hd. pose proof Ep as Es. apply read_pending_state in Es.
  assert (Ec : rbf_intreq (cause_if_satisfied l) = rbf_intreq l /\
               rx (cause_if_satisfied l) = rx l) by (unfold cause_if_satisfied; by destruct (read_satisfied l)).
  destruct Ec as [-> ->]. split; [done|]. intros Hle.
  assert (Hsat : read_satisfied l = true).
  { unfold read_satisfied. rewrite (rx_count_spec 3) by apply Hl. rewrite Es, En.
    rewrite bool_decide_true by done. cbn [andb].
    destruct (Z.gtb_spec (read_need lc) 0); [|lia].
    destruct (Z.geb_spec (Z.of_nat (length (contents 3 (rx l)))) (read_need lc)); [done|lia]. }
  unfold cause_if_satisfied. rewrite Hsat. split; [by destruct l|].
  unfold fn_serial_lc_softint. rewrite take_pending_eq by (destruct l; exact Ep).
  pose proof (read_simulates 3 (rx l) (mkFifo (contents 3 (rx l)) (hardware_overrun_latched (rx l))
    (software_ring_overflow_latched (rx l))) (read_dst l) (Z.to_nat (read_need lc))) as Hr.
  rewrite (inv_dst _ Hl), Z2Nat.id in Hr by lia.
  specialize (Hr (conj (inv_ring _ Hl) (conj eq_refl (conj eq_refl eq_refl)))
    ltac:(unfold is_u16; lia) ltac:(lia)).
  rewrite <- En in Hr |- *. pose proof (inv_dst _ Hl) as Hdst. clear - Hr Hle Hneed En Hdst.
  rewrite <- En in Hle, Hneed. clear En. destruct l. cbn in *. clear -Hr Hle Hneed Hdst.
  rewrite u16_id by (unfold is_u16; lia).
  destruct (fujinet_paula_rx_read _ _ _) as [[m d] r]. destruct Hr as (-> & -> & _ & Hc & _).
  cbn. cbn in Hc. rewrite Hc. split; [done|]. split; [done|].
  assert (Hlen : length (take (Z.to_nat read_need0) (contents 3 rx0)) = Z.to_nat read_need0)
    by (rewrite length_take; lia).
  split; [lia|]. split; [|done]. unfold overwrite. rewrite take_0. cbn [app].
  rewrite take_app_le by lia. rewrite take_ge by lia. done.
Qed.

(** A read of zero bytes is answered at once even when a read is
    pending, and the pending read is then forgotten: two requests were
    accepted, one was answered, and a close answers nothing more. *)
Theorem zero_read_drops_pending :
  let lc := (fn_serial_lc_open fn_serial_lc_init).2 in
  let '(rc1, lc) := fn_serial_lc_read 4 lc in
  let '(rc2, lc) := fn_serial_lc_read 0 lc in
  rc1 = FN_SERIAL_LC_OK /\ rc2 = FN_SERIAL_LC_OK /\ reply_count lc = 1 /\
  read_pending lc = false /\ reply_count (fn_serial_lc_close lc).2 = 1.
Proof. vm_compute. by repeat split. Qed.

(** ** Witnesses *)

Definition run_ops (ops : list lc_op) (lc : fn_serial_lc) : fn_serial_lc :=
  fold_left (fun lc o => (lc_step o lc).2) ops lc.

(** Open, receive two bytes, ask for three, write two bytes and send one. *)
Definition busy_line : list lc_op :=
  [OpOpen 19200; OpHwRx 65 false; OpHwRx 66 false; OpRbf; OpRead 3].

Lemma busy_line_reach : reach (run_ops busy_line fn_serial_lc_init) 1.
Proof.
  unfold run_ops, busy_line. cbn [fold_left].
  refine (reach_step _ 0 (OpRead 3) _ _); [|cbn [op_ok]; split; [lia|intros; lia]].
  refine (reach_step _ 0 OpRbf _ I). refine (reach_step _ 0 (OpHwRx 66 false) _ I).
  refine (reach_step _ 0 (OpHwRx 65 false) _ I). refine (reach_step _ 0 (OpOpen 19200) _ I).
  exact reach_init.
Qed.

Lemma lifecycle_invariant_witness :
  lc_inv (run_ops busy_line fn_serial_lc_init) /\
  read_pending (run_ops busy_line fn_serial_lc_init) = true.
Proof.
  split; [exact (proj1 (lifecycle_invariant _ 1 busy_line_reach))|vm_compute; reflexivity].
Defined.

Lemma close_answers_all_witness :
  reply_count (fn_serial_lc_close (run_ops busy_line fn_serial_lc_init)).2 = 1.
Proof. exact (proj1 (proj2 (proj2 (close_answers_all _ 1 busy_line_reach)))). Defined.

Lemma write_completes_witness :
  let lc1 := (fn_serial_lc_write (Some [7; 8]) 2 (run_ops busy_line fn_serial_lc_init)).2 in
  let lc2 := Nat.iter 3 fn_serial_lc_tbe_handler lc1 in
  write_softint_pending lc2 = true /\ write_actual (fn_serial_lc_write_softint lc2).2 = 2.
Proof.
  pose proof (write_completes _ 1 [7; 8] 2 busy_line_reach ltac:(lia)) as H.
  set (p := fn_serial_lc_write (Some [7; 8]) 2 (run_ops busy_line fn_serial_lc_init)) in *.
  assert (E : p = (0, p.2)) by (vm_compute; reflexivity). rewrite E in H. specialize (H eq_refl).
  change (S (Z.to_nat 2)) with 3%nat in H. cbv zeta in H |- *.
  destruct (fn_serial_lc_write_softint (Nat.iter 3 fn_serial_lc_tbe_handler p.2)) as [r l].
  split; apply H.
Defined.

Definition third_byte : fn_serial_lc :=
  (lc_step (OpHwRx 67 false) (run_ops busy_line fn_serial_lc_init)).2.

Lemma third_byte_reach : reach third_byte 1.
Proof.
  pose proof (reach_step _ 1 (OpHwRx 67 false) busy_line_reach I) as H. unfold third_byte.
  assert (E : forall lc, 1 + (lc_step (OpHwRx 67 false) lc).1 = 1) by done. by rewrite E in H.
Qed.

Lemma read_completes_witness :
  let lc := third_byte in
  let lc1 := fn_serial_lc_rbf_handler lc in
  softint_pending lc1 = true /\ contents 3 (rx lc1) = [65; 66; 67].
Proof.
  intros lc lc1. split; [|vm_compute; reflexivity].
  assert (Hp : read_pending lc = true) by (vm_compute; reflexivity).
  pose proof (read_completes lc 1 third_byte_reach Hp) as H. cbv zeta in H. destruct H as [_ H].
  assert (Hle : (Z.to_nat (read_need lc) <= length (contents 3 (rx (fn_serial_lc_rbf_handler lc))))%nat)
    by (vm_compute; lia).
  destruct (H Hle) as [Hs _]. exact Hs.
Defined.
