(* ===== verification/SerialConfig.v ===== *)
(** * Serial settings, channel results and session diagnostics

    The header-only helpers of amiga/include: fujinet_nio_serial_config.h (the
    SET_SERIAL and GET_SERIAL payload), fujinet_nio_serial_channel.h (how
    serial results become channel and session results, and when a drain is
    over) and fujinet_nio_session_diag.h (the diagnostics block).  The
    payload decoder is shown to be exactly the inverse of the encoder, and
    the diagnostics block to round-trip. *)

From S2P Require Import Prelude FnLib.
From stdpp Require Import strings.
#[local] Open Scope Z_scope.

(** ** fujinet_nio_serial_config.h *)

Definition FUJINET_NIO_SERIAL_NAME_MAX : Z := 30.
Definition FUJINET_NIO_SERIAL_PAYLOAD_MIN : Z := 4 + 1 + 1.
Definition FUJINET_NIO_SERIAL_PAYLOAD_MAX : Z := 4 + FUJINET_NIO_SERIAL_NAME_MAX + 1.

(** The characters the loop refuses. *)
Definition name_char_bad (c : Z) : bool :=
  (c <=? 32) || (c =? 58) || (c =? 47) || (c =? 92) || (c >=? 127).

(** The loop of [fujinet_nio_serial_name_ok] from index [i] on. *)
Fixpoint name_loop (name : list Z) (i : Z) : bool :=
  match name with
  | [] => true
  | c :: name' =>
      if c =? 0 then true
      else if i >=? FUJINET_NIO_SERIAL_NAME_MAX then false
      else if name_char_bad c then false
      else name_loop name' (i + 1)
  end.

(** [name] is the memory at the pointer, [None] for NULL. *)
Definition fujinet_nio_serial_name_ok (name : option (list Z)) : bool :=
  match name with
  | None => false
  | Some name => if name.[0] =? 0 then false else name_loop name 0
  end.

Definition strlen (s : list Z) : Z := Z.of_nat (length (c_string s)).

Section Payload.
Context `{FnLib}.

(** Result, [out] and [*len]; [len] is never NULL in the source. *)
Definition fujinet_nio_serial_encode (out : option (list Z)) (cap len unit : Z)
    (name : option (list Z)) : Z * option (list Z) * Z :=
  match out, name with
  | Some o, Some s =>
      if negb (fujinet_nio_serial_name_ok name) then (FN_ERR_INVALID, out, len)
      else
      let n := strlen s in
      if cap <? u16 (4 + n + 1) then (FN_ERR_IO, out, len)
      else
      let o := fujinet_nio_put_le32 o 0 unit in
      let o := overwrite o 4 (slice s 0 (Z.to_nat (n + 1))) in
      (FN_OK, Some o, u16 (4 + n + 1))
  | _, _ => (FN_ERR_INVALID, out, len)
  end.

(** Result, and [*unit] and [name] when they are written; neither is NULL in
    the source. *)
Definition fujinet_nio_serial_decode (inp : option (list Z)) (len : Z) (name : list Z)
    (name_cap : Z) : Z * option (Z * list Z) :=
  match inp with
  | None => (FN_ERR_INVALID, None)
  | Some i =>
      if (len <? FUJINET_NIO_SERIAL_PAYLOAD_MIN) || (len >? FUJINET_NIO_SERIAL_PAYLOAD_MAX)
      then (FN_ERR_INVALID, None)
      else if negb (i.[Z.to_nat (len - 1)] =? 0) then (FN_ERR_INVALID, None)
      else
      let src := drop 4 i in
      let n := strlen src in
      if (n =? 0) || negb (n =? len - 5) || (n >=? name_cap) then (FN_ERR_INVALID, None)
      else if negb (fujinet_nio_serial_name_ok (Some src)) then (FN_ERR_INVALID, None)
      else (FN_OK, Some (fujinet_nio_get_le32 i 0,
                         overwrite name 0 (slice src 0 (Z.to_nat (n + 1)))))
  end.
End Payload.

(** ** fujinet_nio_serial_channel.h *)

Definition FN_SERIAL_IO_STATF_OVERRUN : Z := 256.
Definition FN_SERIAL_DRAIN_SLICE_MS : Z := 10.
Definition FN_SERIAL_DRAIN_IDLE_MS : Z := 30.
Definition FN_SERIAL_DRAIN_CAP_MS : Z := 1000.
Definition FN_SERIAL_DRAIN_KEEP : Z := 0.
Definition FN_SERIAL_DRAIN_DONE : Z := 1.

Section Channel.
Context `{FnLib}.

(** Result and the channel error, which every caller passes. *)
Definition fn_serial_channel_got_byte (serial_rc channel_error : Z) : Z * Z :=
  if serial_rc =? FN_OK then (1, channel_error)
  else if (serial_rc =? FN_ERR_TIMEOUT) || (serial_rc =? FN_ERR_NOT_READY)
  then (0, channel_error)
  else (0, if channel_error =? 0 then serial_rc else channel_error).

Definition fn_serial_channel_map_session_result (session_rc channel_error : Z) : Z * Z :=
  if negb (channel_error =? 0) then (FN_ERR_TRANSPORT, 0)
  else if session_rc =? FN_ERR_IO then (FN_ERR_TRANSPORT, channel_error)
  else (session_rc, channel_error).
End Channel.

Definition fn_serial_note_hidden_overrun (io_error io_status : Z) (seen : bool) : bool * bool :=
  if negb (io_error =? 0) then (false, seen)
  else if Z.land io_status FN_SERIAL_IO_STATF_OVERRUN =? 0 then (false, seen)
  else (true, true).

(** Verdict, [*empty_ms] and [*waited_ms]. *)
Definition fn_serial_drain_after_fault_step (saw_rx : bool) (empty_ms waited_ms : Z)
    : Z * Z * Z :=
  if saw_rx then (FN_SERIAL_DRAIN_KEEP, 0, waited_ms)
  else if (empty_ms >=? FN_SERIAL_DRAIN_IDLE_MS) || (waited_ms >=? FN_SERIAL_DRAIN_CAP_MS)
  then (FN_SERIAL_DRAIN_DONE, empty_ms, waited_ms)
  else (FN_SERIAL_DRAIN_KEEP, u16 (empty_ms + FN_SERIAL_DRAIN_SLICE_MS),
        u16 (waited_ms + FN_SERIAL_DRAIN_SLICE_MS)).

(** ** fujinet_nio_session_diag.h *)

Definition FN_NIO_SESSION_DIAG_MAGIC : Z := 165.
Definition FN_NIO_SESSION_DIAG_VER : Z := 1.
Definition FN_NIO_SESSION_DIAG_HDR : Z := 16.

(** [raw] and [leftover] are pointers into the parsed buffer: offsets. *)
Record fn_nio_session_diag_t := mkSessionDiag {
  raw_len : Z;
  decoded_len : Z;
  pkt_len : Z;
  raw_copy_len : Z;
  c0_count : Z;
  last_byte : Z;
  first3 : list Z;
  leftover_len : Z;
  diag_raw : option nat;
  diag_leftover : option nat
}.

(** The counting loop: [n] bytes are left from index [i] on. *)
Fixpoint count_c0 (raw : list Z) (i n : nat) (c0 : Z) : Z :=
  match n with
  | O => c0
  | S n' => count_c0 raw (S i) n' (if (raw.[i] =? 192) && (c0 <? 255) then c0 + 1 else c0)
  end.

(** The sixteen header bytes. *)
Definition diag_header (raw : list Z) (raw_len decoded_len pkt_len c0 left_copy raw_copy : Z)
    : list Z :=
  [FN_NIO_SESSION_DIAG_MAGIC; FN_NIO_SESSION_DIAG_VER;
   u8 (Z.land raw_len 255); u8 (Z.land (Z.shiftr raw_len 8) 255);
   u8 (Z.land decoded_len 255); u8 (Z.land (Z.shiftr decoded_len 8) 255);
   u8 (Z.land pkt_len 255); u8 (Z.land (Z.shiftr pkt_len 8) 255);
   u8 c0; (if negb (raw_len =? 0) then raw.[Z.to_nat (raw_len - 1)] else 0);
   (if raw_len >=? 1 then raw.[0] else 0); (if raw_len >=? 2 then raw.[1] else 0);
   (if raw_len >=? 3 then raw.[2] else 0);
   u8 left_copy; u8 (Z.land raw_copy 255); u8 (Z.land (Z.shiftr raw_copy 8) 255)].

Definition clip (m x : Z) : Z := if x >? m then m else x.

Definition fn_nio_session_diag_fill (out : option (list Z)) (cap : Z)
    (raw : option (list Z)) (raw_len decoded_len pkt_len : Z)
    (leftover : option (list Z)) (leftover_len : Z) : Z * option (list Z) :=
  match out with
  | None => (0, out)
  | Some o =>
      if cap <? FN_NIO_SESSION_DIAG_HDR then (0, out)
      else
      let raw_len := match raw with None => 0 | Some _ => raw_len end in
      let leftover_len := match leftover with None => 0 | Some _ => leftover_len end in
      let decoded_len := clip 65535 decoded_len in
      let pkt_len := clip 65535 pkt_len in
      let raw_len := clip 65535 raw_len in
      let room := cap - FN_NIO_SESSION_DIAG_HDR in
      let raw_copy := clip room raw_len in
      let left_copy := clip (room - raw_copy) (clip 255 leftover_len) in
      let r := default [] raw in
      let c0 := count_c0 r 0 (Z.to_nat raw_len) 0 in
      let o := overwrite o 0 (diag_header r raw_len decoded_len pkt_len c0 left_copy raw_copy) in
      let o := if negb (raw_copy =? 0)
               then overwrite o 16 (slice r 0 (Z.to_nat raw_copy)) else o in
      let o := if negb (left_copy =? 0)
               then overwrite o (16 + Z.to_nat raw_copy)
                      (slice (default [] leftover) 0 (Z.to_nat left_copy)) else o in
      (FN_NIO_SESSION_DIAG_HDR + raw_copy + left_copy, Some o)
  end.

(** [None] is the result -1; [out] is not NULL in the source. *)
Definition fn_nio_session_diag_parse (buf : option (list Z)) (cap : Z)
    : option fn_nio_session_diag_t :=
  match buf with
  | None => None
  | Some b =>
      if cap <? FN_NIO_SESSION_DIAG_HDR then None
      else if negb (b.[0] =? FN_NIO_SESSION_DIAG_MAGIC)
              || negb (b.[1] =? FN_NIO_SESSION_DIAG_VER) then None
      else
      let left := b.[13] in
      let raw_copy := Z.lor b.[14] (Z.shiftl b.[15] 8) in
      let need := FN_NIO_SESSION_DIAG_HDR + raw_copy + left in
      if need >? cap then None
      else Some {|
        raw_len := u16 (Z.lor b.[2] (Z.shiftl b.[3] 8));
        decoded_len := u16 (Z.lor b.[4] (Z.shiftl b.[5] 8));
        pkt_len := u16 (Z.lor b.[6] (Z.shiftl b.[7] 8));
        raw_copy_len := u16 raw_copy;
        c0_count := b.[8];
        last_byte := b.[9];
        first3 := [b.[10]; b.[11]; b.[12]];
        leftover_len := u8 left;
        diag_raw := if negb (raw_copy =? 0) then Some 16%nat else None;
        diag_leftover := if negb (left =? 0) then Some (16 + Z.to_nat raw_copy)%nat else None
      |}
  end.

(** The comparing loop, with [n] bytes left from index [i] on. *)
Fixpoint mismatch_loop (got exp : list Z) (i n : nat) : Z :=
  match n with
  | O => -1
  | S n' => if negb (got.[i] =? exp.[i]) then Z.of_nat i else mismatch_loop got exp (S i) n'
  end.

Definition fn_nio_session_diag_first_mismatch (got : option (list Z)) (got_len : Z)
    (exp : option (list Z)) (exp_len : Z) : Z :=
  let got_len := match got with None => 0 | Some _ => got_len end in
  let exp_len := match exp with None => 0 | Some _ => exp_len end in
  let n := if got_len <? exp_len then got_len else exp_len in
  let r := mismatch_loop (default [] got) (default [] exp) 0 (Z.to_nat n) in
  if negb (r =? -1) then r
  else if negb (got_len =? exp_len) then n else -1.

(** [for (k = 0; k + leftover_len <= exp_len; ++k)]: [n] values of [k] are
    left. *)
Fixpoint align_loop (leftover exp : list Z) (m k n : nat) : Z :=
  match n with
  | O => -1
  | S n' => if decide (slice exp k m = slice leftover 0 m) then Z.of_nat k
            else align_loop leftover exp m (S k) n'
  end.

Definition fn_nio_session_diag_ring_align (leftover : option (list Z)) (leftover_len : Z)
    (exp : option (list Z)) (exp_len : Z) : Z :=
  match leftover, exp with
  | Some l, Some e =>
      if (leftover_len =? 0) || (leftover_len >? exp_len) then -1
      else align_loop l e (Z.to_nat leftover_len) 0 (Z.to_nat (exp_len - leftover_len + 1))
  | _, _ => -1
  end.

Definition fn_nio_session_diag_class (d : option fn_nio_session_diag_t) : string :=
  match d with
  | None => "none"
  | Some d =>
      if raw_len d =? 0 then "empty"
      else if negb ((first3 d).[0] =? 192) then "prefix"
      else if c0_count d >=? 3 then "extra-c0"
      else if negb (pkt_len d =? 0) && negb (decoded_len d =? pkt_len d) then "len-mismatch"
      else "other"
  end.

(** ** The payload: encoder and decoder *)

(** A device name the code accepts, without its NUL. *)
Definition serial_name (name : list Z) : Prop :=
  name <> [] /\ (length name <= 30)%nat /\
  Forall (fun c => 32 < c < 127 /\ c <> 58 /\ c <> 47 /\ c <> 92) name.

Lemma name_char_bad_spec c : name_char_bad c = false <-> 32 < c < 127 /\ c <> 58 /\ c <> 47 /\ c <> 92.
Proof. unfold name_char_bad. lia. Qed.

Lemma name_loop_spec buf i :
  0 <= i -> (length (c_string buf) < length buf)%nat ->
  (name_loop buf i = true <->
   i + strlen buf <= 30 /\
   Forall (fun c => 32 < c < 127 /\ c <> 58 /\ c <> 47 /\ c <> 92) (c_string buf) \/
   strlen buf = 0).
Proof.
  revert i. unfold strlen. induction buf as [|c buf IH]; intros i Hi Hl; simpl in *; [lia|].
  destruct (Z.eqb_spec c 0) as [->|Hc]; simpl in *; [split; [by right|done]|].
  unfold FUJINET_NIO_SERIAL_NAME_MAX. destruct (Z.geb_spec i 30).
  { split; [done|]. intros [[? _]|?]; lia. }
  destruct (name_char_bad c) eqn:E.
  { split; [done|]. intros [[_ Hf]|?]; [|lia]. apply Forall_cons in Hf as [Hf _].
    apply name_char_bad_spec in Hf. congruence. }
  apply name_char_bad_spec in E. rewrite IH by lia. split.
  - intros [[? ?]|H0].
    + left. split; [lia|]. by constructor.
    + left. split; [lia|]. constructor; [done|]. by destruct (c_string buf).
  - intros [[? Hf]|?]; [|lia]. left. apply Forall_cons in Hf as [_ Hf]. split; [lia|done].
Qed.

(** [fujinet_nio_serial_name_ok] on a terminated string. *)
Lemma name_ok_spec buf :
  (length (c_string buf) < length buf)%nat ->
  fujinet_nio_serial_name_ok (Some buf) = true <-> serial_name (c_string buf).
Proof.
  intros Hl. unfold fujinet_nio_serial_name_ok, serial_name. destruct buf as [|c buf]; [simpl in Hl; lia|].
  change ((c :: buf).[0]) with c. destruct (Z.eqb_spec c 0) as [->|Hc].
  { simpl. split; [done|]. by intros [? _]. }
  rewrite name_loop_spec by (simpl in *; lia). unfold strlen. simpl.
  destruct (Z.eqb_spec c 0) as [->|_]; [done|]. simpl. split.
  - intros [[? ?]|?]; [|lia]. split; [done|]. split; [lia|done].
  - intros (_ & ? & ?). left. split; [lia|done].
Qed.

Definition le32_bytes (v : Z) : list Z :=
  [u8 v; u8 (Z.shiftr v 8); u8 (Z.shiftr v 16); u8 (Z.shiftr v 24)].

Lemma put_le32_start out v :
  (4 <= length out)%nat -> fujinet_nio_put_le32 out 0 v = le32_bytes v ++ drop 4 out.
Proof. intros H. do 4 (destruct out as [|? out]; [simpl in H; lia|]). done. Qed.

Lemma get_le32_start v rest : is_u32 v -> fujinet_nio_get_le32 (le32_bytes v ++ rest) 0 = v.
Proof.
  intros Hv. change (le32_bytes v ++ rest) with (le32_bytes v ++ drop 4 ([0;0;0;0] ++ rest)).
  rewrite <- put_le32_start by (simpl; lia). apply le32_put_get; [simpl; lia|done].
Qed.

(** Four bytes are the encoding of the number they denote. *)
Lemma le32_bytes_get a b c d rest :
  is_u8 a -> is_u8 b -> is_u8 c -> is_u8 d ->
  le32_bytes (fujinet_nio_get_le32 (a :: b :: c :: d :: rest) 0) = [a; b; c; d] /\
  is_u32 (fujinet_nio_get_le32 (a :: b :: c :: d :: rest) 0).
Proof.
  intros. unfold fujinet_nio_get_le32. cbn [byte_at nth Nat.add]. rewrite lor_le32 by done.
  unfold le32_bytes, le32, is_u8, is_u32, u8 in *. rewrite shiftr_8, shiftr_16, shiftr_24.
  split; [|lia]. repeat f_equal; symmetry.
  - by apply Z.mod_unique with (q := b + 256 * c + 65536 * d); lia.
  - rewrite <- (Z.div_unique _ 256 (b + 256 * c + 65536 * d) a) by lia.
    by apply Z.mod_unique with (q := c + 256 * d); lia.
  - rewrite <- (Z.div_unique _ 65536 (c + 256 * d) (a + 256 * b)) by lia.
    by apply Z.mod_unique with (q := d); lia.
  - rewrite <- (Z.div_unique _ 16777216 d (a + 256 * b + 65536 * c)) by lia.
    by apply Z.mod_unique with (q := 0); lia.
Qed.

Lemma serial_name_string s rest : serial_name s -> c_string (s ++ 0 :: rest) = s.
Proof. intros (_ & _ & H). apply c_string_app. eapply Forall_impl; [exact H|]. simpl. lia. Qed.

Lemma name_ok_terminated s rest :
  fujinet_nio_serial_name_ok (Some (s ++ 0 :: rest)) = true <->
  serial_name (c_string (s ++ 0 :: rest)).
Proof.
  apply name_ok_spec. induction s as [|c s IH]; simpl; [lia|]. destruct (c =? 0); simpl; lia.
Qed.

Lemma take_payload unit s rest :
  take (Z.to_nat (5 + Z.of_nat (length s))) (le32_bytes unit ++ s ++ 0 :: rest) =
  le32_bytes unit ++ s ++ [0].
Proof.
  replace (le32_bytes unit ++ s ++ 0 :: rest) with ((le32_bytes unit ++ s ++ [0]) ++ rest)
    by (by rewrite <- !app_assoc).
  apply take_app_length'. rewrite !length_app. simpl. lia.
Qed.

Section PayloadFacts.
Context `{L : FnLib, !FnLibOk L}.

Lemma encode_spec out cap len unit s rest :
  serial_name s -> (35 <= length out)%nat -> 35 <= cap ->
  fujinet_nio_serial_encode (Some out) cap len unit (Some (s ++ 0 :: rest)) =
  (FN_OK, Some (le32_bytes unit ++ s ++ 0 :: drop (5 + length s) out), 5 + Z.of_nat (length s)).
Proof.
  intros Hs Ho Hc. pose proof Hs as (_ & Hl & _). unfold fujinet_nio_serial_encode.
  assert (Hok : fujinet_nio_serial_name_ok (Some (s ++ 0 :: rest)) = true)
    by (apply name_ok_terminated; by rewrite serial_name_string).
  rewrite Hok. cbn [negb]. unfold strlen. rewrite (serial_name_string s rest Hs).
  rewrite u16_id by (unfold is_u16; lia).
  destruct (Z.ltb_spec cap (4 + Z.of_nat (length s) + 1)); [lia|].
  rewrite put_le32_start by lia. unfold slice. rewrite drop_0.
  replace (s ++ 0 :: rest) with ((s ++ [0]) ++ rest) by (by rewrite <- app_assoc).
  rewrite take_app_length' by (rewrite length_app; simpl; lia).
  replace (4 + Z.of_nat (length s) + 1) with (5 + Z.of_nat (length s)) by lia.
  replace (overwrite (le32_bytes unit ++ drop 4 out) 4 (s ++ [0]))
    with (le32_bytes unit ++ s ++ 0 :: drop (5 + length s) out); [done|].
  unfold overwrite. rewrite take_app_length' by done. rewrite length_app. cbn [length].
  rewrite drop_app_ge by (simpl; lia). rewrite drop_drop, <- (app_assoc s [0]). cbn [app].
  do 4 f_equal. simpl length. lia.
Qed.

Lemma decode_encoded unit s rest name cap :
  serial_name s -> is_u32 unit -> Z.of_nat (length s) < cap ->
  fujinet_nio_serial_decode (Some (le32_bytes unit ++ s ++ 0 :: rest))
    (5 + Z.of_nat (length s)) name cap = (FN_OK, Some (unit, overwrite name 0 (s ++ [0]))).
Proof.
  intros Hs Hu Hc. pose proof Hs as (Hne & Hl & _). unfold fujinet_nio_serial_decode.
  unfold FUJINET_NIO_SERIAL_PAYLOAD_MIN, FUJINET_NIO_SERIAL_PAYLOAD_MAX, FUJINET_NIO_SERIAL_NAME_MAX.
  assert (0 < length s)%nat by (destruct s; [done|simpl; lia]).
  destruct (Z.ltb_spec (5 + Z.of_nat (length s)) (4 + 1 + 1)); [lia|].
  destruct (Z.gtb_spec (5 + Z.of_nat (length s)) (4 + 30 + 1)); [lia|]. cbn [orb].
  assert (Hz : (le32_bytes unit ++ s ++ 0 :: rest).[Z.to_nat (5 + Z.of_nat (length s) - 1)] = 0).
  { apply byte_at_lookup. rewrite lookup_app_r by (simpl; lia).
    rewrite lookup_app_r by (simpl length; lia).
    by replace (_ - _ - _)%nat with 0%nat by (simpl length; lia). }
  rewrite Hz. cbn [Z.eqb negb].
  rewrite get_le32_start by done.
  change (drop 4 (le32_bytes unit ++ s ++ 0 :: rest)) with (s ++ 0 :: rest).
  unfold strlen. rewrite (serial_name_string s rest Hs).
  destruct (Z.eqb_spec (Z.of_nat (length s)) 0); [lia|].
  destruct (Z.eqb_spec (Z.of_nat (length s)) (5 + Z.of_nat (length s) - 5)); [|lia].
  destruct (Z.geb_spec (Z.of_nat (length s)) cap); [lia|]. cbn [negb orb].
  assert (Hok : fujinet_nio_serial_name_ok (Some (s ++ 0 :: rest)) = true)
    by (apply name_ok_terminated; by rewrite serial_name_string).
  rewrite Hok. cbn [negb]. do 4 f_equal. unfold slice. rewrite drop_0.
  replace (s ++ 0 :: rest) with ((s ++ [0]) ++ rest) by (by rewrite <- app_assoc).
  by rewrite take_app_length' by (rewrite length_app; simpl; lia).
Qed.

(** What an accepted payload looks like. *)
Lemma decode_accepts inp len name cap r :
  bytes_ok inp -> len <= Z.of_nat (length inp) ->
  fujinet_nio_serial_decode (Some inp) len name cap = (FN_OK, r) ->
  exists unit s, serial_name s /\ is_u32 unit /\ len = 5 + Z.of_nat (length s) /\
    Z.of_nat (length s) < cap /\ exists rest, inp = le32_bytes unit ++ s ++ 0 :: rest.
Proof.
  intros Hb Hl Hd. pose proof fn_err_invalid_ok as Herr. unfold fujinet_nio_serial_decode in Hd.
  unfold FUJINET_NIO_SERIAL_PAYLOAD_MIN, FUJINET_NIO_SERIAL_PAYLOAD_MAX, FUJINET_NIO_SERIAL_NAME_MAX in Hd.
  destruct (Z.ltb_spec len (4 + 1 + 1)); [cbn in Hd; congruence|].
  destruct (Z.gtb_spec len (4 + 30 + 1)); [cbn in Hd; congruence|]. cbn [orb] in Hd.
  destruct (negb (inp.[Z.to_nat (len - 1)] =? 0)) eqn:Ez; [congruence|].
  do 4 (destruct inp as [|? inp]; [simpl in Hl; lia|]). simpl drop in Hd. rewrite drop_0 in Hd.
  unfold strlen in Hd.
  destruct (Z.eqb_spec (Z.of_nat (length (c_string inp))) 0); [cbn in Hd; congruence|].
  destruct (Z.eqb_spec (Z.of_nat (length (c_string inp))) (len - 5)); [|cbn in Hd; congruence].
  destruct (Z.geb_spec (Z.of_nat (length (c_string inp))) cap); [cbn in Hd; congruence|].
  cbn [negb orb] in Hd. assert (Hlen : (length (c_string inp) < length inp)%nat) by (simpl in Hl; lia).
  destruct (fujinet_nio_serial_name_ok (Some inp)) eqn:En; [|cbn in Hd; congruence].
  apply name_ok_spec in En; [|done].
  repeat (apply Forall_cons in Hb as [? Hb]).
  destruct (le32_bytes_get z z0 z1 z2 inp) as [Hle Hu]; try done.
  eexists _, (c_string inp). split; [exact En|]. split; [exact Hu|]. split; [lia|]. split; [lia|].
  exists (drop (S (length (c_string inp))) inp). rewrite Hle. cbn [app].
  by rewrite <- c_string_split by done.
Qed.

(** SET_SERIAL and GET_SERIAL payloads: the decoder accepts exactly what
    the encoder produces.  A payload within a buffer of bytes is accepted if
    and only if it is, byte for byte, the encoding of some unit and some name
    that the name test accepts and that fits the caller's buffer; and then
    exactly that unit and that terminated name come back. *)
Theorem serial_payload_exact inp len name cap
    (Hb : bytes_ok inp) (Hl : len <= Z.of_nat (length inp)) r :
  fujinet_nio_serial_decode (Some inp) len name cap = (FN_OK, r) <->
  exists unit s o,
    is_u32 unit /\ Z.of_nat (length s) < cap /\
    fujinet_nio_serial_encode (Some (zeros 35)) 35 0 unit (Some (s ++ [0])) = (FN_OK, Some o, len) /\
    fujinet_nio_serial_name_ok (Some (s ++ [0])) = true /\ c_string (s ++ [0]) = s /\
    take (Z.to_nat len) inp = take (Z.to_nat len) o /\
    r = Some (unit, overwrite name 0 (s ++ [0])).
Proof.
  split.
  - intros Hd. destruct (decode_accepts _ _ _ _ _ Hb Hl Hd) as (unit & s & Hs & Hu & -> & Hc & rest & ->).
    rewrite decode_encoded in Hd by done. injection Hd as <-.
    eexists unit, s, _. split; [done|]. split; [done|].
    split; [by apply encode_spec|]. rewrite name_ok_terminated, (serial_name_string s [] Hs).
    do 2 (split; [done|]). split; [|done].
    by rewrite !take_payload.
  - intros (unit & s & o & Hu & Hc & He & Hok & Hstr & Ht & ->).
    apply name_ok_terminated in Hok. rewrite Hstr in Hok.
    rewrite encode_spec in He by (done || (simpl; lia)).
    assert (o = le32_bytes unit ++ s ++ 0 :: drop (5 + length s) (zeros 35) /\
            len = 5 + Z.of_nat (length s)) as [-> ->] by (split; congruence).
    assert (Hi : exists rest, inp = le32_bytes unit ++ s ++ 0 :: rest).
    { exists (drop (Z.to_nat (5 + Z.of_nat (length s))) inp).
      rewrite <- (take_drop (Z.to_nat (5 + Z.of_nat (length s))) inp) at 1.
      by rewrite Ht, take_payload, <- !app_assoc. }
    destruct Hi as [rest ->]. by apply decode_encoded.
Qed.
End PayloadFacts.

(** ** The diagnostics block *)

Lemma clip_min m x : clip m x = Z.min m x.
Proof. unfold clip. destruct (Z.gtb_spec x m); lia. Qed.

Lemma count_c0_spec raw i n c0 :
  0 <= c0 <= 255 -> (i + n <= length raw)%nat ->
  count_c0 raw i n c0 =
  Z.min 255 (c0 + Z.of_nat (length (filter (fun c => c = 192) (slice raw i n)))).
Proof.
  revert i c0. induction n as [|n IH]; intros i c0 Hc Hn; simpl.
  - change (filter (fun c => c = 192) (slice raw i 0)) with (@nil Z). simpl. lia.
  - destruct (drop i raw) as [|b rest] eqn:E.
    { apply (f_equal length) in E. rewrite length_drop in E. simpl in E. lia. }
    assert (Hb : raw.[i] = b).
    { apply byte_at_lookup. rewrite <- (Nat.add_0_r i), <- lookup_drop, E. done. }
    assert (Hr : slice raw (S i) n = take n rest).
    { unfold slice. rewrite <- Nat.add_1_r, <- drop_drop, E. done. }
    unfold slice. rewrite E. cbn [take]. rewrite filter_cons, Hb.
    destruct (Z.eqb_spec b 192) as [->|Hne].
    + rewrite decide_True by done. simpl length. cbn [andb].
      destruct (Z.ltb_spec c0 255); rewrite IH, Hr by lia; lia.
    + rewrite decide_False by done. cbn [andb]. rewrite IH, Hr by lia. done.
Qed.

Lemma le16_bytes_get v : is_u16 v ->
  u16 (Z.lor (u8 (Z.land v 255)) (Z.shiftl (u8 (Z.land (Z.shiftr v 8) 255)) 8)) = v.
Proof.
  intros Hv. rewrite !land_255, shiftr_8. unfold u8. rewrite !Z.mod_mod by done.
  rewrite lor_le16 by (unfold is_u8; apply Z.mod_pos_bound; lia). unfold le16. width_lia.
Qed.

(** Two copies, one behind the other. *)
Lemma overwrite_prefix (o a b : list Z) :
  (length a + length b <= length o)%nat ->
  overwrite (overwrite o 0 a) (length a) b = a ++ b ++ drop (length a + length b) o.
Proof.
  intros H. pose proof (overwrite_adjacent o 0 a b) as Ha. simpl in Ha. rewrite Ha by lia.
  unfold overwrite. simpl. by rewrite <- app_assoc, length_app.
Qed.

Section Fill.
Context (out raw left : list Z) (cap rl dl pl ll : Z).
Let raw_copy := Z.min (cap - 16) (Z.min 65535 rl).
Let left_copy := Z.min (cap - 16 - raw_copy) (Z.min 255 ll).
Let c0 := Z.min 255 (Z.of_nat (length (filter (fun c => c = 192) (take (Z.to_nat (Z.min 65535 rl)) raw)))).
Let hdr := diag_header raw (Z.min 65535 rl) (Z.min 65535 dl) (Z.min 65535 pl) c0 left_copy raw_copy.
Context (Hcap : 16 <= cap <= Z.of_nat (length out)).
Context (Hrl : 0 <= rl <= Z.of_nat (length raw)) (Hll : 0 <= ll <= Z.of_nat (length left)).

(** What the block consists of. *)
Lemma fill_layout :
  fn_nio_session_diag_fill (Some out) cap (Some raw) rl dl pl (Some left) ll =
  (16 + raw_copy + left_copy,
   Some (hdr ++ take (Z.to_nat raw_copy) raw ++ take (Z.to_nat left_copy) left ++
         drop (16 + Z.to_nat raw_copy + Z.to_nat left_copy) out)).
Proof.
  unfold fn_nio_session_diag_fill, FN_NIO_SESSION_DIAG_HDR.
  destruct (Z.ltb_spec cap 16); [lia|]. cbn [from_option id]. rewrite !clip_min.
  rewrite count_c0_spec by lia. unfold slice. rewrite !drop_0, !Z.add_0_l.
  fold raw_copy. fold left_copy. fold c0. fold hdr. f_equal. f_equal.
  assert (Hh : length hdr = 16%nat) by done. clearbody hdr.
  assert (Hr : length (take (Z.to_nat raw_copy) raw) = Z.to_nat raw_copy)
    by (rewrite length_take; lia).
  assert (Hf : length (take (Z.to_nat left_copy) left) = Z.to_nat left_copy)
    by (rewrite length_take; lia).
  set (R := take (Z.to_nat raw_copy) raw) in *. set (F := take (Z.to_nat left_copy) left) in *.
  assert (H1 : (if negb (raw_copy =? 0) then overwrite (overwrite out 0 hdr) 16 R
                else overwrite out 0 hdr) = (hdr ++ R) ++ drop (16 + Z.to_nat raw_copy) out).
  { destruct (Z.eqb_spec raw_copy 0) as [E|E]; cbn [negb].
    - destruct R; [|simpl in Hr; lia]. unfold overwrite. simpl. rewrite Hh, app_nil_r, E. done.
    - rewrite <- Hh at 1. rewrite overwrite_prefix by lia. by rewrite Hh, Hr, app_assoc. }
  rewrite H1. destruct (Z.eqb_spec left_copy 0) as [E|E]; cbn [negb].
  - destruct F; [|simpl in Hf; lia]. rewrite E, <- app_assoc. simpl. by rewrite Nat.add_0_r.
  - unfold overwrite. rewrite take_app_length' by (rewrite length_app; lia).
    rewrite drop_app_ge by (rewrite length_app; lia). rewrite drop_drop, length_app, Hh, Hr, Hf.
    rewrite <- !app_assoc. do 4 f_equal. lia.
Qed.
End Fill.

(** The diagnostics block: filling any buffer of at least sixteen bytes
    stays within the capacity and leaves the rest of the buffer alone, and
    parsing it gives back the three lengths (saturated at 16 bits), the number
    of END bytes (saturated at 255), and as many of the raw bytes, then of the
    left-over ones, as there is room for, exactly as they were. *)
Theorem session_diag_roundtrip out raw left cap rl dl pl ll
    (Hcap : 16 <= cap <= Z.of_nat (length out))
    (Hrl : 0 <= rl <= Z.of_nat (length raw)) (Hll : 0 <= ll <= Z.of_nat (length left))
    (Hdl : 0 <= dl) (Hpl : 0 <= pl) :
  exists n o d,
    fn_nio_session_diag_fill (Some out) cap (Some raw) rl dl pl (Some left) ll = (n, Some o) /\
    16 <= n <= cap /\ length o = length out /\ drop (Z.to_nat n) o = drop (Z.to_nat n) out /\
    fn_nio_session_diag_parse (Some o) cap = Some d /\
    raw_len d = Z.min 65535 rl /\ decoded_len d = Z.min 65535 dl /\ pkt_len d = Z.min 65535 pl /\
    c0_count d =
      Z.min 255 (Z.of_nat (length (filter (fun c => c = 192) (take (Z.to_nat (Z.min 65535 rl)) raw)))) /\
    raw_copy_len d = Z.min (cap - 16) (Z.min 65535 rl) /\
    leftover_len d = Z.min (cap - 16 - raw_copy_len d) (Z.min 255 ll) /\
    n = 16 + raw_copy_len d + leftover_len d /\
    slice o 16 (Z.to_nat (raw_copy_len d)) = take (Z.to_nat (raw_copy_len d)) raw /\
    slice o (16 + Z.to_nat (raw_copy_len d)) (Z.to_nat (leftover_len d)) =
      take (Z.to_nat (leftover_len d)) left.
Proof.
  eexists _, _, _. split; [by apply fill_layout|].
  set (rc := Z.min (cap - 16) (Z.min 65535 rl)). set (lc := Z.min (cap - 16 - rc) (Z.min 255 ll)).
  assert (Hr : length (take (Z.to_nat rc) raw) = Z.to_nat rc) by (rewrite length_take; lia).
  assert (Hf : length (take (Z.to_nat lc) left) = Z.to_nat lc) by (rewrite length_take; lia).
  set (h := diag_header _ _ _ _ _ _ _). assert (Hh : length h = 16%nat) by done.
  split; [lia|]. split; [rewrite !length_app, length_drop; lia|].
  replace (16 + Z.to_nat rc + Z.to_nat lc)%nat with (Z.to_nat (16 + rc + lc)) by lia.
  split. { rewrite !app_assoc. apply drop_app_length'. rewrite !length_app. lia. }
  split.
  { unfold fn_nio_session_diag_parse, FN_NIO_SESSION_DIAG_HDR.
    destruct (Z.ltb_spec cap 16); [lia|]. cbn -[Z.lor Z.shiftl Z.land u8 Z.gtb u16].
    unfold FN_NIO_SESSION_DIAG_MAGIC, FN_NIO_SESSION_DIAG_VER. cbn [Z.eqb Pos.eqb negb orb].
    match goal with |- context [Z.lor (u8 (Z.land rc 255)) ?b] =>
      pose proof (le16_bytes_get rc) as H16;
      assert (Hrc : Z.lor (u8 (Z.land rc 255)) b = rc) end.
    { rewrite !land_255, shiftr_8. unfold u8. rewrite !Z.mod_mod by done.
      rewrite lor_le16 by (unfold is_u8; apply Z.mod_pos_bound; lia). unfold le16.
      assert (is_u16 rc) by (unfold is_u16; lia). clear -H0. width_lia. }
    rewrite Hrc, (u8_id lc) by (unfold is_u8; lia).
    destruct (Z.gtb_spec (16 + rc + lc) cap); [lia|]. reflexivity. }
  cbn [raw_len decoded_len pkt_len c0_count raw_copy_len leftover_len].
  rewrite !le16_bytes_get by (unfold is_u16; lia).
  fold rc. rewrite (u16_id rc) by (unfold is_u16; lia). fold lc.
  rewrite !u8_id by (unfold is_u8; lia).
  do 6 (split; [done|]). split; [done|]. split.
  - unfold slice. rewrite drop_app_length' by done. by rewrite take_app_length'.
  - unfold slice. rewrite app_assoc, drop_app_length' by (rewrite length_app; lia).
    by rewrite take_app_length'.
Qed.

Lemma serial_payload_exact_witness :
  let inp := [7; 0; 0; 0; 120; 46; 121; 0; 99] in
  @fujinet_nio_serial_decode fn_lib_nio (Some inp) 8 (zeros 31) 31 =
  (0, Some (7, [120; 46; 121; 0] ++ zeros 27)).
Proof.
  intros inp.
  refine (proj2 (@serial_payload_exact fn_lib_nio _ inp 8 (zeros 31) 31 _ _ _) _).
  - repeat constructor; unfold is_u8; lia.
  - simpl. lia.
  - eexists 7, [120; 46; 121], _. split; [unfold is_u32; lia|]. split; [simpl; lia|].
    split; [vm_compute; reflexivity|]. repeat split; vm_compute; reflexivity.
Defined.

Lemma session_diag_roundtrip_witness :
  exists n o d,
    fn_nio_session_diag_fill (Some (zeros 20)) 20 (Some [192; 1; 192]) 3 1 6 (Some [7; 8; 9]) 3 = (n, Some o) /\
    fn_nio_session_diag_parse (Some o) 20 = Some d /\
    raw_copy_len d = 3 /\ leftover_len d = 1.
Proof.
  destruct (session_diag_roundtrip (zeros 20) [192; 1; 192] [7; 8; 9] 20 3 1 6 3)
    as (n & o & d & H1 & _ & _ & _ & H2 & _ & _ & _ & _ & H3 & H4 & _);
    [simpl; lia|simpl; lia|simpl; lia|lia|lia|].
  exists n, o, d. split; [exact H1|]. split; [exact H2|]. rewrite H3 in H4.
  split; [exact H3|exact H4].
Defined.
