(* ===== verification/DiskMedia.v ===== *)
(** * Amiga disk media (fujinet_disk_filesystem.c, fujinet_disk_media_profile.c,
    fujinet_disk_dos_envec.c of amiga/common)

    Recognising the DosType of a boot block, the media profiles of the two
    ADF sizes, and the DosEnvec that describes a profile to AmigaDOS.  The
    envec is shown to describe exactly the sectors of the medium. *)

From S2P Require Import Prelude FnLib.

Definition FUJINET_AMIGA_BOOT_DOSTYPE_BYTES : Z := 4.
Definition FUJINET_AMIGA_DOS_OFS : Z := 1146049280.
Definition FUJINET_AMIGA_DOS_FFS : Z := 1146049281.
Definition FUJINET_DISK_BLOCK_SIZE : Z := 512.
Definition FUJINET_DD_ADF_BLOCK_COUNT : Z := 1760.
Definition FUJINET_HD_ADF_BLOCK_COUNT : Z := 3520.

(** The fields of the library's [fn_disk_info_t] that the code uses. *)
Record fn_disk_info_t := mkInfo {
  i_slot : Z;
  i_flags : Z;
  i_type : Z;
  i_sector_size : Z;
  i_sector_count : Z
}.

Definition info_zero : fn_disk_info_t := mkInfo 0 0 0 0 0.

Section Media.
Context `{L : FnLib}.

(** ** The boot block *)

Definition get_be32 (data : list Z) : Z :=
  Z.lor (Z.lor (Z.lor (Z.shiftl data.[0] 24) (Z.shiftl data.[1] 16)) (Z.shiftl data.[2] 8))
        data.[3].

(** The result and the value stored in [*dos_type], if any. *)
Definition fujinet_disk_classify_filesystem (boot_block : option (list Z)) (boot_block_length : Z)
    : Z * option Z :=
  match boot_block with
  | None => (FN_ERR_INVALID, None)
  | Some boot_block =>
      if boot_block_length <? FUJINET_AMIGA_BOOT_DOSTYPE_BYTES then (FN_ERR_INVALID, None)
      else
      let value := get_be32 boot_block in
      if negb (value =? FUJINET_AMIGA_DOS_OFS) && negb (value =? FUJINET_AMIGA_DOS_FFS)
      then (FN_ERR_INVALID, None)
      else (FN_OK, Some value)
  end.

(** ** Media profiles *)

Inductive media_profile_kind := MEDIA_PROFILE_DD_ADF | MEDIA_PROFILE_HD_ADF.

Record fujinet_disk_media_profile_t := mkProfile {
  kind : media_profile_kind;
  block_size : Z;
  surfaces : Z;
  blocks_per_track : Z;
  low_cylinder : Z;
  high_cylinder : Z;
  reserved_blocks : Z;
  interleave : Z
}.

Definition fill_profile (k : media_profile_kind) (bpt : Z) : fujinet_disk_media_profile_t :=
  mkProfile k FUJINET_DISK_BLOCK_SIZE 2 bpt 0 79 2 0.

Definition fujinet_disk_classify_media_profile (info : option fn_disk_info_t)
    : Z * option fujinet_disk_media_profile_t :=
  match info with
  | None => (FN_ERR_INVALID, None)
  | Some info =>
      if (Z.land (i_flags info) FN_DISK_FLAG_MOUNTED =? 0)
         || negb (i_type info =? FN_DISK_TYPE_RAW)
         || negb (i_sector_size info =? FUJINET_DISK_BLOCK_SIZE)
      then (FN_ERR_INVALID, None)
      else if i_sector_count info =? FUJINET_DD_ADF_BLOCK_COUNT
      then (FN_OK, Some (fill_profile MEDIA_PROFILE_DD_ADF 11))
      else if i_sector_count info =? FUJINET_HD_ADF_BLOCK_COUNT
      then (FN_OK, Some (fill_profile MEDIA_PROFILE_HD_ADF 22))
      else (FN_ERR_INVALID, None)
  end.

(** ** DosEnvec *)

Record fujinet_disk_dos_envec_t := mkEnvec {
  de_TableSize : Z;
  de_SizeBlock : Z;
  de_SecOrg : Z;
  de_Surfaces : Z;
  de_SectorPerBlock : Z;
  de_BlocksPerTrack : Z;
  de_Reserved : Z;
  de_PreAlloc : Z;
  de_Interleave : Z;
  de_LowCyl : Z;
  de_HighCyl : Z;
  de_NumBuffers : Z;
  de_BufMemType : Z;
  de_MaxTransfer : Z;
  de_Mask : Z;
  de_BootPri : Z;
  de_DosType : Z;
  de_Baud : Z;
  de_Control : Z;
  de_BootBlocks : Z;
  handler_stack_size : Z;
  handler_priority : Z;
  handler_glob_vec : Z
}.

(** [kind] is one of the two enumerators, so its test never refuses. *)
Definition fujinet_disk_build_dos_envec (profile : option fujinet_disk_media_profile_t)
    (dos_type : Z) : Z * option fujinet_disk_dos_envec_t :=
  match profile with
  | None => (FN_ERR_INVALID, None)
  | Some profile =>
      if negb (block_size profile =? 512)
         || (negb (dos_type =? FUJINET_AMIGA_DOS_OFS) && negb (dos_type =? FUJINET_AMIGA_DOS_FFS))
      then (FN_ERR_INVALID, None)
      else
      (FN_OK,
       Some {| de_TableSize := 19;
               de_SizeBlock := block_size profile / 4;
               de_SecOrg := 0;
               de_Surfaces := surfaces profile;
               de_SectorPerBlock := 1;
               de_BlocksPerTrack := blocks_per_track profile;
               de_Reserved := reserved_blocks profile;
               de_PreAlloc := 0;
               de_Interleave := interleave profile;
               de_LowCyl := low_cylinder profile;
               de_HighCyl := high_cylinder profile;
               de_NumBuffers := 5;
               de_BufMemType := 1;
               de_MaxTransfer := 2147483647;
               de_Mask := 4294967294;
               de_BootPri := 0;
               de_DosType := dos_type;
               de_Baud := 1200;
               de_Control := 0;
               de_BootBlocks := 0;
               handler_stack_size := 32768;
               handler_priority := 5;
               handler_glob_vec := -1 |})
  end.

Definition fujinet_disk_serialize_dos_envec (e : fujinet_disk_dos_envec_t) : list Z :=
  [de_TableSize e; de_SizeBlock e; de_SecOrg e; de_Surfaces e; de_SectorPerBlock e;
   de_BlocksPerTrack e; de_Reserved e; de_PreAlloc e; de_Interleave e; de_LowCyl e;
   de_HighCyl e; de_NumBuffers e; de_BufMemType e; de_MaxTransfer e; de_Mask e;
   u32 (de_BootPri e); de_DosType e; de_Baud e; de_Control e; de_BootBlocks e].

(** ** The whole path *)

(** From what the server says of a slot and its boot block to the envec. *)
Definition envec_of_disk (info : fn_disk_info_t) (boot_block : list Z)
    : option fujinet_disk_dos_envec_t :=
  match fujinet_disk_classify_filesystem (Some boot_block) (Z.of_nat (length boot_block)) with
  | (_, Some dos_type) =>
      (fujinet_disk_build_dos_envec (fujinet_disk_classify_media_profile (Some info)).2 dos_type).2
  | _ => None
  end.

(** The four bytes of "DOS" and the filesystem number. *)
Lemma get_be32_value data :
  bytes_ok data ->
  get_be32 data = le32 data.[3] data.[2] data.[1] data.[0].
Proof.
  intros H. unfold get_be32.
  assert (Hu : forall i, is_u8 data.[i]) by (intros i; by apply byte_at_u8).
  pose proof (Hu 0%nat). pose proof (Hu 1%nat). pose proof (Hu 2%nat). pose proof (Hu 3%nat).
  rewrite <- lor_le32 by done. apply Z.bits_inj'. intros n _. rewrite !Z.lor_spec.
  by repeat match goal with |- context [Z.testbit ?a n] => destruct (Z.testbit a n) end.
Qed.

(** A boot block that starts with "DOS" and a filesystem number 0 or 1. *)
Definition dos_boot_block (b : list Z) : Prop :=
  (4 <= length b)%nat /\ b.[0] = 68 /\ b.[1] = 79 /\ b.[2] = 83 /\ (b.[3] = 0 \/ b.[3] = 1).

(** A mounted raw image of one of the two ADF sizes. *)
Definition adf_info (info : fn_disk_info_t) : Prop :=
  Z.land (i_flags info) FN_DISK_FLAG_MOUNTED <> 0 /\ i_type info = FN_DISK_TYPE_RAW /\
  i_sector_size info = 512 /\ (i_sector_count info = 1760 \/ i_sector_count info = 3520).

Lemma classify_filesystem_spec b : bytes_ok b ->
  (fujinet_disk_classify_filesystem (Some b) (Z.of_nat (length b))).2
  = if decide (dos_boot_block b) then Some (FUJINET_AMIGA_DOS_OFS + b.[3]) else None.
Proof.
  intros Hb. assert (Hu : forall i, is_u8 b.[i]) by (intros i; by apply byte_at_u8).
  pose proof (Hu 0%nat) as H0. pose proof (Hu 1%nat) as H1. pose proof (Hu 2%nat) as H2.
  pose proof (Hu 3%nat) as H3. unfold is_u8 in *.
  unfold fujinet_disk_classify_filesystem. rewrite get_be32_value by done. unfold le32.
  unfold FUJINET_AMIGA_BOOT_DOSTYPE_BYTES, FUJINET_AMIGA_DOS_OFS, FUJINET_AMIGA_DOS_FFS.
  destruct (decide (dos_boot_block b)) as [(Hl & E0 & E1 & E2 & E3)|Hn].
  - destruct (Z.ltb_spec (Z.of_nat (length b)) 4); [lia|]. rewrite E0, E1, E2.
    by destruct E3 as [-> | ->].
  - unfold dos_boot_block in Hn. destruct (Z.ltb_spec (Z.of_nat (length b)) 4); [done|].
    destruct (_ && _) eqn:E; [done|]. exfalso. lia.
Qed.

Lemma classify_profile_spec info :
  (fujinet_disk_classify_media_profile (Some info)).2
  = if decide (adf_info info)
    then Some (if i_sector_count info =? 1760 then fill_profile MEDIA_PROFILE_DD_ADF 11
               else fill_profile MEDIA_PROFILE_HD_ADF 22)
    else None.
Proof.
  unfold fujinet_disk_classify_media_profile, FUJINET_DISK_BLOCK_SIZE,
    FUJINET_DD_ADF_BLOCK_COUNT, FUJINET_HD_ADF_BLOCK_COUNT, adf_info.
  case_decide as H.
  - destruct H as (Hm & -> & -> & Hc). rewrite !Z.eqb_refl. apply Z.eqb_neq in Hm as ->.
    cbn [negb orb]. by destruct Hc as [-> | ->].
  - destruct (_ || _) eqn:E; [done|]. rewrite !orb_false_iff, !negb_false_iff, Z.eqb_neq, !Z.eqb_eq in E.
    destruct (Z.eqb_spec (i_sector_count info) 1760); [exfalso; tauto|].
    destruct (Z.eqb_spec (i_sector_count info) 3520); [exfalso; tauto|done].
Qed.

(** C11: A disk gets a DosEnvec exactly when its slot holds a mounted raw
    image of one of the two ADF sizes and its boot block starts with a
    supported DosType; and then the envec describes the medium: tracks,
    surfaces and cylinders multiply to its sector count, the block size in
    longwords to its sector size, the DosType is the boot block's, and the
    twenty serialised longwords end at the index the first one announces. *)
Theorem envec_describes_medium info b :
  bytes_ok b ->
  match envec_of_disk info b with
  | Some e =>
      adf_info info /\ dos_boot_block b /\
      de_Surfaces e * de_BlocksPerTrack e * (de_HighCyl e - de_LowCyl e + 1) = i_sector_count info /\
      4 * de_SizeBlock e * de_SectorPerBlock e = i_sector_size info /\
      de_DosType e = le32 b.[3] b.[2] b.[1] b.[0] /\
      Z.of_nat (length (fujinet_disk_serialize_dos_envec e)) = de_TableSize e + 1 /\
      Forall is_u32 (fujinet_disk_serialize_dos_envec e)
  | None => ~ (adf_info info /\ dos_boot_block b)
  end.
Proof.
  intros Hb. unfold envec_of_disk. pose proof (classify_filesystem_spec b Hb) as Hf.
  destruct (fujinet_disk_classify_filesystem _ _) as [r o]. cbn [snd] in Hf. subst o.
  rewrite classify_profile_spec.
  case_decide as Hd; [|by intros [_ ?]]. case_decide as Ha; [|by intros [? _]].
  pose proof Hd as (_ & E0 & E1 & E2 & E3). pose proof Ha as (_ & _ & Es & Ec).
  assert (E : exists e, (fujinet_disk_build_dos_envec
      (Some (if i_sector_count info =? 1760 then fill_profile MEDIA_PROFILE_DD_ADF 11
             else fill_profile MEDIA_PROFILE_HD_ADF 22)) (FUJINET_AMIGA_DOS_OFS + b.[3])).2 = Some e /\
      de_Surfaces e * de_BlocksPerTrack e * (de_HighCyl e - de_LowCyl e + 1) = i_sector_count info /\
      4 * de_SizeBlock e * de_SectorPerBlock e = 512 /\
      de_DosType e = FUJINET_AMIGA_DOS_OFS + b.[3] /\
      Z.of_nat (length (fujinet_disk_serialize_dos_envec e)) = de_TableSize e + 1 /\
      Forall is_u32 (fujinet_disk_serialize_dos_envec e)).
  { destruct Ec as [-> | ->], E3 as [-> | ->]; (eexists; split; [reflexivity|]);
      (split; [done|split; [done|split; [done|split; [done|]]]]);
      repeat (apply Forall_cons; split; [by vm_compute|]); constructor. }
  destruct E as (e & -> & H1 & H2 & H3 & H4 & H5). rewrite Es. split_and!; try done.
  rewrite H3, E0, E1, E2. unfold le32, FUJINET_AMIGA_DOS_OFS. lia.
Qed.

End Media.

Lemma envec_describes_medium_witness :
  let info := mkInfo 1 1 1 512 1760 in
  let b := [68; 79; 83; 1; 0; 0] in
  bytes_ok b /\ adf_info (L := fn_lib_nio) info.
Proof.
  intros info b. assert (Hb : bytes_ok b) by (unfold bytes_ok, b, is_u8; repeat constructor; lia).
  split; [exact Hb|].
  pose proof (envec_describes_medium (L := fn_lib_nio) info b Hb) as H.
  assert (E : exists e, envec_of_disk (L := fn_lib_nio) info b = Some e)
    by (eexists; vm_compute; reflexivity).
  destruct E as [e E]. rewrite E in H. exact (proj1 H).
Defined.
