(* ===== verification/DiskDriver.v ===== *)
(** * The Amiga disk driver (amiga/common/fujinet_disk_driver.c)

    One unit of fujinet-disk.device: mounting and ejecting a disk of its
    slot, and reading and writing whole blocks of the mounted medium.  The
    client is a table of functions on a context [C], any of which may be
    missing; the driver is not a null pointer. *)

From S2P Require Import Prelude FnLib DiskMedia.

Definition FUJINET_DISK_UNIT_COUNT : Z := 8.
Definition FUJINET_DISK_FIRST_SLOT : Z := 1.

(** [fujinet_disk_client_t].  Each function gets the context and its
    arguments; one that fills [*info] gets the old contents and gives the
    new ones ([fn_disk_inspection_t], which the driver never looks into, is
    the list of its bytes).  [None] is a null pointer. *)
Record fujinet_disk_client_t (C : Type) := mkClient {
  cl_init : option (C -> C * Z);
  cl_mount : option (C -> Z -> list Z -> Z -> Z -> Z -> fn_disk_info_t -> C * Z * fn_disk_info_t);
  cl_restore_boot : option (C -> Z -> fn_disk_info_t -> C * Z * fn_disk_info_t);
  cl_info : option (C -> Z -> fn_disk_info_t -> C * Z * fn_disk_info_t);
  cl_read_sector : option (C -> Z -> Z -> Z -> C * Z * list Z * Z);
  cl_write_sector : option (C -> Z -> Z -> list Z -> C * Z);
  cl_flush : option (C -> Z -> C * Z);
  cl_unmount : option (C -> Z -> C * Z);
  cl_clear_changed : option (C -> Z -> C * Z);
  cl_inspect : option (C -> list Z -> list Z -> C * Z * list Z)
}.
#[global] Arguments mkClient {C}.
#[global] Arguments cl_init {C}.
#[global] Arguments cl_mount {C}.
#[global] Arguments cl_restore_boot {C}.
#[global] Arguments cl_info {C}.
#[global] Arguments cl_read_sector {C}.
#[global] Arguments cl_write_sector {C}.
#[global] Arguments cl_flush {C}.
#[global] Arguments cl_unmount {C}.
#[global] Arguments cl_clear_changed {C}.
#[global] Arguments cl_inspect {C}.

(** The table once [ensure_client] has seen that nothing is missing. *)
Record disk_client (C : Type) := mkDiskClient {
  dc_init : C -> C * Z;
  dc_mount : C -> Z -> list Z -> Z -> Z -> Z -> fn_disk_info_t -> C * Z * fn_disk_info_t;
  dc_restore_boot : C -> Z -> fn_disk_info_t -> C * Z * fn_disk_info_t;
  dc_info : C -> Z -> fn_disk_info_t -> C * Z * fn_disk_info_t;
  dc_read_sector : C -> Z -> Z -> Z -> C * Z * list Z * Z;
  dc_write_sector : C -> Z -> Z -> list Z -> C * Z;
  dc_flush : C -> Z -> C * Z;
  dc_unmount : C -> Z -> C * Z;
  dc_clear_changed : C -> Z -> C * Z
}.
#[global] Arguments mkDiskClient {C}.
#[global] Arguments dc_init {C}.
#[global] Arguments dc_mount {C}.
#[global] Arguments dc_restore_boot {C}.
#[global] Arguments dc_info {C}.
#[global] Arguments dc_read_sector {C}.
#[global] Arguments dc_write_sector {C}.
#[global] Arguments dc_flush {C}.
#[global] Arguments dc_unmount {C}.
#[global] Arguments dc_clear_changed {C}.

(** [fujinet_disk_driver_t]; [client_context] is the context itself. *)
Record fujinet_disk_driver_t (C : Type) := mkDriver {
  client : option (fujinet_disk_client_t C);
  client_context : C;
  media : fn_disk_info_t;
  client_initialized : bool;
  mounted : bool;
  writable : bool;
  change_ack_pending : bool;
  change_count : Z;
  unit_no : Z
}.
#[global] Arguments mkDriver {C}.
#[global] Arguments client {C}.
#[global] Arguments client_context {C}.
#[global] Arguments media {C}.
#[global] Arguments client_initialized {C}.
#[global] Arguments mounted {C}.
#[global] Arguments writable {C}.
#[global] Arguments change_ack_pending {C}.
#[global] Arguments change_count {C}.
#[global] Arguments unit_no {C}.

#[export] Instance eta_driver C : Eta (fujinet_disk_driver_t C) :=
  fun d => mkDriver (client d) (client_context d) (media d) (client_initialized d) (mounted d)
             (writable d) (change_ack_pending d) (change_count d) (unit_no d).

Definition set_context {C} : C -> fujinet_disk_driver_t C -> fujinet_disk_driver_t C :=
  ltac:(derive_setter (@client_context C)).
Definition set_media {C} : fn_disk_info_t -> fujinet_disk_driver_t C -> fujinet_disk_driver_t C :=
  ltac:(derive_setter (@media C)).
Definition set_initialized {C} : bool -> fujinet_disk_driver_t C -> fujinet_disk_driver_t C :=
  ltac:(derive_setter (@client_initialized C)).
Definition set_mounted {C} : bool -> fujinet_disk_driver_t C -> fujinet_disk_driver_t C :=
  ltac:(derive_setter (@mounted C)).
Definition set_writable {C} : bool -> fujinet_disk_driver_t C -> fujinet_disk_driver_t C :=
  ltac:(derive_setter (@writable C)).
Definition set_ack_pending {C} : bool -> fujinet_disk_driver_t C -> fujinet_disk_driver_t C :=
  ltac:(derive_setter (@change_ack_pending C)).
Definition set_change_count {C} : Z -> fujinet_disk_driver_t C -> fujinet_disk_driver_t C :=
  ltac:(derive_setter (@change_count C)).

Section Driver.
Context `{L : FnLib} {C : Type}.
Implicit Types (d : fujinet_disk_driver_t C).

Definition fujinet_disk_driver_init (cl : option (fujinet_disk_client_t C)) (context : C) (unit : Z)
    : fujinet_disk_driver_t C :=
  mkDriver cl context info_zero false false false false 0 unit.

(** The result and the slot. *)
Definition fujinet_disk_unit_to_slot (unit : Z) : Z * Z :=
  if unit >=? FUJINET_DISK_UNIT_COUNT then (FN_ERR_NOT_FOUND, 0)
  else (FN_OK, u8 (FUJINET_DISK_FIRST_SLOT + unit)).

Definition complete_client (cl : fujinet_disk_client_t C) : option (disk_client C) :=
  match cl_init cl, cl_mount cl, cl_restore_boot cl, cl_info cl, cl_read_sector cl,
        cl_write_sector cl, cl_flush cl, cl_unmount cl, cl_clear_changed cl with
  | Some i, Some m, Some rb, Some inf, Some rs, Some ws, Some fl, Some um, Some cc =>
      Some (mkDiskClient i m rb inf rs ws fl um cc)
  | _, _, _, _, _, _, _, _, _ => None
  end.

(** [ensure_client]: the result, the client that may be used when it is
    FN_OK, and the driver. *)
Definition ensure_client d : Z * option (disk_client C) * fujinet_disk_driver_t C :=
  match (cl ← client d; complete_client cl) with
  | None => (FN_ERR_INVALID, None, d)
  | Some cl =>
      if client_initialized d then (FN_OK, Some cl, d)
      else
      let '(c, result) := dc_init cl (client_context d) in
      let d := set_context c d in
      if result =? FN_OK then (result, Some cl, set_initialized true d) else (result, None, d)
  end.

Definition validate_adf_geometry (info : fn_disk_info_t) (writable : bool) (slot : Z) : Z :=
  if (Z.land (i_flags info) FN_DISK_FLAG_MOUNTED =? 0)
     || (writable && negb (Z.land (i_flags info) FN_DISK_FLAG_READONLY =? 0))
     || negb (i_slot info =? slot) || negb (i_type info =? FN_DISK_TYPE_RAW)
     || negb (i_sector_size info =? FUJINET_DISK_BLOCK_SIZE)
     || (negb (i_sector_count info =? FUJINET_DD_ADF_BLOCK_COUNT)
         && negb (i_sector_count info =? FUJINET_HD_ADF_BLOCK_COUNT))
  then FN_ERR_INVALID else FN_OK.

Definition clear_local_media d : fujinet_disk_driver_t C :=
  d |> set_mounted false |> set_writable false |> set_media info_zero.

(** [info] is the caller's structure, passed in and given back. *)
Definition fujinet_disk_info d (unit : Z) (info : fn_disk_info_t)
    : Z * fn_disk_info_t * fujinet_disk_driver_t C :=
  let '(result, slot) := fujinet_disk_unit_to_slot unit in
  if negb (result =? FN_OK) then (result, info, d)
  else
  match ensure_client d with
  | (_, Some cl, d) =>
      let '(c, result, info) := dc_info cl (client_context d) slot info in
      let d := set_context c d in
      if negb (result =? FN_OK) then (result, info, d)
      else (validate_adf_geometry info (writable d) slot, info, d)
  | (result, None, d) => (result, info, d)
  end.

(** The context, the resolver's context and the URI buffer are memory of the
    caller [S], which they may share: [context] is the access to the client's
    context in it, [uri] reads the buffer the resolver fills. *)
Definition fujinet_disk_inspect_catalog {S : Type} (cl : option (fujinet_disk_client_t C))
    (context : (S -> C) * (C -> S -> S)) (resolve : option (S -> Z -> Z -> S * Z))
    (catalog_slot : Z) (uri : option (S -> list Z)) (uri_capacity : Z)
    (inspection : option (list Z)) (s : S) : Z * option (list Z) * S :=
  match (cl ← cl; cl_inspect cl), resolve, uri, inspection with
  | Some inspect, Some resolve, Some uri, Some bytes =>
      if uri_capacity =? 0 then (FN_ERR_INVALID, inspection, s)
      else
      let '(s, result) := resolve s catalog_slot uri_capacity in
      if negb (result =? FN_OK) then (result, inspection, s)
      else
      let '(c, result, bytes) := inspect (context.1 s) (uri s) bytes in
      (result, Some bytes, context.2 c s)
  | _, _, _, _ => (FN_ERR_INVALID, inspection, s)
  end.

(** [(void)client->unmount(...)], then [clear_local_media]. *)
Definition discard_mount (cl : disk_client C) (slot : Z) d : fujinet_disk_driver_t C :=
  let '(c, _) := dc_unmount cl (client_context d) slot in
  clear_local_media (set_context c d).

(** [clear_changed], remembered when it fails. *)
Definition acknowledge (cl : disk_client C) (slot : Z) d : fujinet_disk_driver_t C :=
  let '(c, result) := dc_clear_changed cl (client_context d) slot in
  set_ack_pending (negb (result =? FN_OK)) (set_context c d).

(** The change of medium that became visible: [replacing] takes one out too. *)
Definition count_change (replacing : bool) d : fujinet_disk_driver_t C :=
  set_change_count (u32 (change_count d + if replacing then 2 else 1)) d.

Definition fujinet_disk_mount_mode d (unit : Z) (uri : option (list Z)) (wr : bool)
    : Z * fujinet_disk_driver_t C :=
  match uri with
  | None | Some [] => (FN_ERR_INVALID, d)
  | Some uri =>
      let replacing := mounted d in
      let '(result, slot) := fujinet_disk_unit_to_slot unit in
      if negb (result =? FN_OK) then (result, d)
      else
      match ensure_client d with
      | (result, None, d) => (result, d)
      | (_, Some cl, d) =>
          let '(c, result, info) :=
            dc_mount cl (client_context d) slot uri (c_bool (negb wr)) FN_DISK_TYPE_AUTO
              FUJINET_DISK_BLOCK_SIZE (media d) in
          let d := d |> set_context c |> set_media info in
          if negb (result =? FN_OK) then (result, d)
          else
          let result := validate_adf_geometry (media d) wr slot in
          if negb (result =? FN_OK) then (result, discard_mount cl slot d)
          else
          let '(c, result) := if wr then dc_flush cl (client_context d) slot
                              else (client_context d, FN_OK) in
          let d := set_context c d in
          if negb (result =? FN_OK) then (result, discard_mount cl slot d)
          else
          let d := set_writable wr d in
          let '(result, info, d) := fujinet_disk_info d unit (media d) in
          let d := set_media info d in
          if result =? FN_OK
          then (result, d |> set_mounted true |> count_change replacing |> acknowledge cl slot)
          else (result, discard_mount cl slot d)
      end
  end.

Definition fujinet_disk_mount d (unit : Z) (uri : option (list Z)) : Z * fujinet_disk_driver_t C :=
  fujinet_disk_mount_mode d unit uri false.

Definition fujinet_disk_restore_boot d (unit : Z) : Z * fujinet_disk_driver_t C :=
  let replacing := mounted d in
  let '(result, slot) := fujinet_disk_unit_to_slot unit in
  if negb (result =? FN_OK) then (result, d)
  else
  match ensure_client d with
  | (result, None, d) => (result, d)
  | (_, Some cl, d) =>
      let '(c, result, info) := dc_restore_boot cl (client_context d) slot (media d) in
      let d := d |> set_context c |> set_media info in
      if negb (result =? FN_OK) then (result, d)
      else
      let result := validate_adf_geometry (media d) false slot in
      if negb (result =? FN_OK) then (result, clear_local_media d)
      else
      (FN_OK, d |> set_mounted true
                |> set_writable (Z.land (i_flags (media d)) FN_DISK_FLAG_READONLY =? 0)
                |> count_change replacing |> acknowledge cl slot)
  end.

Definition fujinet_disk_flush d (unit : Z) : Z * fujinet_disk_driver_t C :=
  if negb (mounted d) then (FN_ERR_NOT_READY, d)
  else
  match ensure_client d with
  | (result, None, d) => (result, d)
  | (_, Some cl, d) =>
      let '(result, slot) := fujinet_disk_unit_to_slot unit in
      if negb (result =? FN_OK) then (result, d)
      else
      let '(c, result) := dc_flush cl (client_context d) slot in (result, set_context c d)
  end.

Definition fujinet_disk_acknowledge_change d (unit : Z) : Z * fujinet_disk_driver_t C :=
  if negb (change_ack_pending d) then (FN_OK, d)
  else
  match ensure_client d with
  | (result, None, d) => (result, d)
  | (_, Some cl, d) =>
      let '(result, slot) := fujinet_disk_unit_to_slot unit in
      if negb (result =? FN_OK) then (result, d)
      else
      let '(c, result) := dc_clear_changed cl (client_context d) slot in
      let d := set_context c d in
      (result, if result =? FN_OK then set_ack_pending false d else d)
  end.

Definition fujinet_disk_eject d (unit : Z) : Z * fujinet_disk_driver_t C :=
  if negb (mounted d) then (FN_ERR_NOT_READY, d)
  else
  match ensure_client d with
  | (result, None, d) => (result, d)
  | (_, Some cl, d) =>
      let '(result, slot) := fujinet_disk_unit_to_slot unit in
      if negb (result =? FN_OK) then (result, d)
      else
      let '(c, result) := dc_unmount cl (client_context d) slot in
      let d := set_context c d in
      (result, if result =? FN_OK
               then clear_local_media d |> count_change false |> acknowledge cl slot
               else d)
  end.

(** ** Transfers *)

Definition media_bytes d : Z := u32 (i_sector_count (media d) * i_sector_size (media d)).

(** [while (remaining != 0)]: [n] blocks are left, from [lba] and from the
    start of [data]; the result, [*actual] and the context. *)
Fixpoint write_loop (cl : disk_client C) (slot lba : Z) (data : list Z) (n : nat) (actual : Z) (c : C)
    : Z * Z * C :=
  match n with
  | O => (FN_OK, actual, c)
  | S n' =>
      let '(c, result) := dc_write_sector cl c slot lba (slice data 0 512) in
      if negb (result =? FN_OK) then (result, actual, c)
      else write_loop cl slot (u32 (lba + 1)) (drop 512 data) n'
             (u32 (actual + FUJINET_DISK_BLOCK_SIZE)) c
  end.

(** [data] is [None] for a null pointer; [actual] is not null.  The length
    is a multiple of the block size when the loop starts, so that the blocks
    left are the remaining bytes divided by 512. *)
Definition fujinet_disk_write d (unit byte_offset : Z) (data : option (list Z)) (byte_length : Z)
    : Z * Z * fujinet_disk_driver_t C :=
  match data with
  | None => (FN_ERR_INVALID, 0, d)
  | Some data =>
      if (byte_length =? 0) || negb (byte_offset mod FUJINET_DISK_BLOCK_SIZE =? 0)
         || negb (byte_length mod FUJINET_DISK_BLOCK_SIZE =? 0)
      then (FN_ERR_INVALID, 0, d)
      else if negb (mounted d) then (FN_ERR_NOT_READY, 0, d)
      else if negb (writable d) then (FN_ERR_INVALID, 0, d)
      else if (byte_offset >=? media_bytes d) || (byte_length >? media_bytes d - byte_offset)
      then (FN_ERR_INVALID, 0, d)
      else
      match ensure_client d with
      | (result, None, d) => (result, 0, d)
      | (_, Some cl, d) =>
          let '(result, slot) := fujinet_disk_unit_to_slot unit in
          if negb (result =? FN_OK) then (result, 0, d)
          else
          let '(result, actual, c) :=
            write_loop cl slot (byte_offset / FUJINET_DISK_BLOCK_SIZE) data
              (Z.to_nat (byte_length / FUJINET_DISK_BLOCK_SIZE)) 0 (client_context d) in
          (result, actual, set_context c d)
      end
  end.

(** [received] starts at 0 for every block; the client writes the block it
    read at the front of the part of [data] it is given. *)
Fixpoint read_loop (cl : disk_client C) (slot lba : Z) (data : list Z) (pos n : nat) (actual : Z) (c : C)
    : Z * Z * list Z * C :=
  match n with
  | O => (FN_OK, actual, data, c)
  | S n' =>
      let '(c, result, bytes, received) :=
        dc_read_sector cl c slot lba FUJINET_DISK_BLOCK_SIZE in
      let data := overwrite data pos bytes in
      if negb (result =? FN_OK) then (result, actual, data, c)
      else if negb (received =? FUJINET_DISK_BLOCK_SIZE) then (FN_ERR_IO, actual, data, c)
      else read_loop cl slot (u32 (lba + 1)) data (pos + 512) n'
             (u32 (actual + FUJINET_DISK_BLOCK_SIZE)) c
  end.

Definition fujinet_disk_read d (unit byte_offset : Z) (data : option (list Z)) (byte_length : Z)
    : Z * Z * option (list Z) * fujinet_disk_driver_t C :=
  let media_bytes := if mounted d then media_bytes d else 0 in
  match data with
  | None => (FN_ERR_INVALID, 0, data, d)
  | Some buf =>
      if (byte_length =? 0) || negb (byte_offset mod FUJINET_DISK_BLOCK_SIZE =? 0)
         || negb (byte_length mod FUJINET_DISK_BLOCK_SIZE =? 0) || (media_bytes =? 0)
         || (byte_offset >=? media_bytes) || (byte_length >? media_bytes - byte_offset)
      then (FN_ERR_INVALID, 0, data, d)
      else
      let '(result, slot) := fujinet_disk_unit_to_slot unit in
      if negb (result =? FN_OK) then (result, 0, data, d)
      else if negb (mounted d) then (FN_ERR_NOT_READY, 0, data, d)
      else
      match ensure_client d with
      | (result, None, d) => (result, 0, data, d)
      | (_, Some cl, d) =>
          let '(result, actual, buf, c) :=
            read_loop cl slot (byte_offset / FUJINET_DISK_BLOCK_SIZE) buf 0
              (Z.to_nat (byte_length / FUJINET_DISK_BLOCK_SIZE)) 0 (client_context d) in
          (result, actual, Some buf, set_context c d)
      end
  end.

End Driver.

(** ** What the operations leave alone *)

Section Frames.
Context `{L : FnLib} {C : Type}.
Implicit Types (d : fujinet_disk_driver_t C).

(** Everything but the context, the initialised flag and the pending
    acknowledgement. *)
Record same_drive d d' : Prop := {
  sd_client : client d' = client d;
  sd_media : media d' = media d;
  sd_mounted : mounted d' = mounted d;
  sd_writable : writable d' = writable d;
  sd_count : change_count d' = change_count d;
  sd_unit : unit_no d' = unit_no d
}.

Lemma same_drive_refl d : same_drive d d.
Proof. by split. Qed.
Lemma same_drive_trans d1 d2 d3 : same_drive d1 d2 -> same_drive d2 d3 -> same_drive d1 d3.
Proof. intros [] []. split; congruence. Qed.
Lemma same_drive_context d d' c : same_drive d d' -> same_drive d (set_context c d').
Proof. intros []. by split. Qed.
Lemma same_drive_ack d d' b : same_drive d d' -> same_drive d (set_ack_pending b d').
Proof. intros []. by split. Qed.

Lemma ensure_client_frame d : same_drive d (ensure_client d).2.
Proof.
  unfold ensure_client. destruct (cl ← client d; complete_client cl) as [cl|]; [|apply same_drive_refl].
  destruct (client_initialized d); [apply same_drive_refl|].
  destruct (dc_init cl (client_context d)) as [c r]. destruct (r =? FN_OK); [by split|by split].
Qed.

Lemma flush_frame d unit : same_drive d (fujinet_disk_flush d unit).2.
Proof.
  unfold fujinet_disk_flush. destruct (negb (mounted d)); [apply same_drive_refl|].
  pose proof (ensure_client_frame d) as H. destruct (ensure_client d) as [[r [cl|]] d0]; [|done].
  destruct (fujinet_disk_unit_to_slot unit) as [r1 slot]. destruct (negb (r1 =? FN_OK)); [done|].
  destruct (dc_flush cl (client_context d0) slot). by apply same_drive_context.
Qed.

Lemma acknowledge_change_frame d unit : same_drive d (fujinet_disk_acknowledge_change d unit).2.
Proof.
  unfold fujinet_disk_acknowledge_change. destruct (negb _); [apply same_drive_refl|].
  pose proof (ensure_client_frame d) as H. destruct (ensure_client d) as [[r [cl|]] d0]; [|done].
  destruct (fujinet_disk_unit_to_slot unit) as [r1 slot]. destruct (negb (r1 =? FN_OK)); [done|].
  destruct (dc_clear_changed cl (client_context d0) slot) as [c r2].
  destruct (r2 =? FN_OK); [apply same_drive_ack|]; by apply same_drive_context.
Qed.

Lemma read_frame d unit off data len : same_drive d (fujinet_disk_read d unit off data len).2.
Proof.
  unfold fujinet_disk_read. destruct data as [buf|]; [|apply same_drive_refl].
  destruct (_ || _); [apply same_drive_refl|].
  destruct (fujinet_disk_unit_to_slot unit) as [r1 slot]. destruct (negb (r1 =? FN_OK)); [apply same_drive_refl|].
  destruct (negb (mounted d)); [apply same_drive_refl|].
  pose proof (ensure_client_frame d) as H. destruct (ensure_client d) as [[r [cl|]] d0]; [|done].
  destruct (read_loop _ _ _ _ _ _ _ _) as [[[res actual] b] c]. by apply same_drive_context.
Qed.

Lemma write_frame d unit off data len : same_drive d (fujinet_disk_write d unit off data len).2.
Proof.
  unfold fujinet_disk_write. destruct data as [buf|]; [|apply same_drive_refl].
  destruct (_ || _); [apply same_drive_refl|]. destruct (negb (mounted d)); [apply same_drive_refl|].
  destruct (negb (writable d)); [apply same_drive_refl|]. destruct (_ || _); [apply same_drive_refl|].
  pose proof (ensure_client_frame d) as H. destruct (ensure_client d) as [[r [cl|]] d0]; [|done].
  destruct (fujinet_disk_unit_to_slot unit) as [r1 slot]. destruct (negb (r1 =? FN_OK)); [done|].
  destruct (write_loop _ _ _ _ _ _ _) as [[res actual] c]. by apply same_drive_context.
Qed.
End Frames.

(** ** Mounting *)

Section Mounting.
Context `{L : FnLib, !FnLibOk L} {C : Type}.
Implicit Types (d : fujinet_disk_driver_t C).

(** A medium the driver may use: an ADF in the unit's slot, not read-only
    when it is to be written. *)
Definition valid_media (info : fn_disk_info_t) (wr : bool) (slot : Z) : Prop :=
  adf_info info /\ i_slot info = slot /\
  (wr = true -> Z.land (i_flags info) FN_DISK_FLAG_READONLY = 0).

Lemma validate_spec info wr slot :
  validate_adf_geometry info wr slot = FN_OK <-> valid_media info wr slot.
Proof.
  unfold validate_adf_geometry, valid_media, adf_info, FUJINET_DISK_BLOCK_SIZE,
    FUJINET_DD_ADF_BLOCK_COUNT, FUJINET_HD_ADF_BLOCK_COUNT.
  pose proof fn_err_invalid_ok. destruct (_ || _) eqn:E.
  - split; [congruence|]. intros ((Hm & Ht & Hs & Hc) & Hsl & Hw). exfalso.
    rewrite Ht, Hs, Hsl, !Z.eqb_refl in E. apply Z.eqb_neq in Hm. rewrite Hm in E.
    cbn [negb orb] in E. destruct wr; [rewrite (Hw eq_refl) in E|]; destruct Hc as [Hc|Hc]; rewrite Hc in E; done.
  - split; [intros _|done].
    rewrite !orb_false_iff, !negb_false_iff, !Z.eqb_eq, Z.eqb_neq in E.
    destruct E as (((((Hm & Hw) & Hsl) & Ht) & Hs) & Hc). split; [|split; [done|]].
    + split; [done|]. split; [done|]. split; [done|]. lia.
    + intros ->. cbn in Hw. by rewrite negb_false_iff, Z.eqb_eq in Hw.
Qed.

(** What [ensure_client] leaves alone. *)
Lemma ensure_client_spec d :
  let '(result, cl, d') := ensure_client d in
  media d' = media d /\ mounted d' = mounted d /\ writable d' = writable d /\
  change_count d' = change_count d /\ change_ack_pending d' = change_ack_pending d /\
  (is_Some cl <-> result = FN_OK).
Proof.
  unfold ensure_client. pose proof fn_err_invalid_ok.
  assert (Hn : ~ is_Some (@None (disk_client C))) by (by intros [? ?]).
  destruct (cl ← client d; complete_client cl) as [cl|]; [|by split_and!].
  destruct (client_initialized d); [by split_and!|].
  destruct (dc_init cl (client_context d)) as [c r].
  destruct (Z.eqb_spec r FN_OK) as [->|Hr]; by split_and!.
Qed.

Lemma ensure_client_some d :
  match (ensure_client d).1.2 with
  | Some cl => (cl ← client d; complete_client cl) = Some cl
  | None => True
  end.
Proof.
  unfold ensure_client. destruct (cl ← client d; complete_client cl) as [cl|]; [|done].
  destruct (client_initialized d); [done|]. destruct (dc_init cl (client_context d)) as [c r].
  by destruct (r =? FN_OK).
Qed.

Definition same_medium d d' : Prop :=
  mounted d' = mounted d /\ writable d' = writable d.
Definition no_medium d : Prop :=
  mounted d = false /\ writable d = false /\ media d = info_zero.

Lemma discard_spec (cl : disk_client C) slot d :
  no_medium (discard_mount cl slot d) /\
  change_count (discard_mount cl slot d) = change_count d /\
  client (discard_mount cl slot d) = client d.
Proof. unfold discard_mount. by destruct (dc_unmount cl (client_context d) slot). Qed.

Lemma acknowledge_spec (cl : disk_client C) slot d :
  media (acknowledge cl slot d) = media d /\ mounted (acknowledge cl slot d) = mounted d /\
  writable (acknowledge cl slot d) = writable d /\
  change_count (acknowledge cl slot d) = change_count d /\
  client (acknowledge cl slot d) = client d.
Proof. unfold acknowledge. by destruct (dc_clear_changed cl (client_context d) slot). Qed.

Lemma unit_to_slot_spec unit :
  0 <= unit ->
  fujinet_disk_unit_to_slot unit = (FN_OK, unit + 1) /\ unit < 8 \/
  fujinet_disk_unit_to_slot unit = (FN_ERR_NOT_FOUND, 0) /\ 8 <= unit.
Proof.
  intros H. unfold fujinet_disk_unit_to_slot, FUJINET_DISK_UNIT_COUNT, FUJINET_DISK_FIRST_SLOT.
  destruct (Z.geb_spec unit 8); [by right|]. left. split; [|done].
  rewrite u8_id by (unfold is_u8; lia). f_equal. lia.
Qed.

(** A mount that the client refused, with what it left in [media]. *)
Definition refused (cl : disk_client C) d d' : Prop :=
  exists c slot uri ro c' r,
    dc_mount cl c slot uri ro FN_DISK_TYPE_AUTO FUJINET_DISK_BLOCK_SIZE (media d) = (c', r, media d') /\
    r <> FN_OK.

Lemma info_spec d unit wr :
  0 <= unit < 8 -> writable d = wr ->
  let '(result, info, d') := fujinet_disk_info d unit (media d) in
  writable d' = wr /\ change_count d' = change_count d /\ client d' = client d /\
  (result = FN_OK -> valid_media info wr (unit + 1)).
Proof.
  intros Hu Hw. unfold fujinet_disk_info. destruct (unit_to_slot_spec unit) as [[-> _]|[_ ?]]; [lia| |lia].
  rewrite Z.eqb_refl. cbn [negb]. pose proof (ensure_client_spec d) as He.
  pose proof (ensure_client_frame d) as Hf.
  destruct (ensure_client d) as [[r [cl|]] d1]; destruct He as (_ & _ & _ & _ & _ & Hr), Hf; cbn [snd] in *.
  - destruct (dc_info _ _ _ _) as [[c2 r2] info]. destruct (Z.eqb_spec r2 FN_OK) as [->|]; cbn [negb].
    + split; [cbn; congruence|]. split; [done|]. split; [done|]. cbn. rewrite sd_writable0, Hw. apply validate_spec.
    + split; [cbn; congruence|]. by split.
  - split; [congruence|]. split; [done|]. split; [done|]. intros E. apply Hr in E as [? ?]. done.
Qed.

Lemma mount_spec d unit uri wr :
  0 <= unit ->
  let '(result, d') := fujinet_disk_mount_mode d unit uri wr in
  client d' = client d /\
  if result =? FN_OK
  then valid_media (media d') wr (unit + 1) /\ unit < 8 /\
       mounted d' = true /\ writable d' = wr /\
       change_count d' = u32 (change_count d + if mounted d then 2 else 1)
  else change_count d' = change_count d /\
       (same_medium d d' /\ (media d' = media d \/
          exists cl, (cl ← client d; complete_client cl) = Some cl /\ refused cl d d')
        \/ no_medium d').
Proof.
  intros Hu. unfold fujinet_disk_mount_mode. pose proof fn_err_invalid_ok as Hi%Z.eqb_neq.
  pose proof fn_err_not_found_ok as Hnf%Z.eqb_neq.
  assert (Hsame : client d = client d /\ change_count d = change_count d /\
    (same_medium d d /\ (media d = media d \/
       exists cl, (cl ← client d; complete_client cl) = Some cl /\ refused cl d d) \/ no_medium d)).
  { split; [done|]. split; [done|]. left. split; [done|]. by left. }
  destruct uri as [[|x uri]|]; [by rewrite Hi| |by rewrite Hi].
  destruct (unit_to_slot_spec unit Hu) as [[-> Hlt]|[-> _]].
  2:{ rewrite Hnf. cbn [negb]. by rewrite Hnf. }
  rewrite Z.eqb_refl. cbn [negb].
  pose proof (ensure_client_spec d) as He. pose proof (ensure_client_frame d) as Hf.
  pose proof (ensure_client_some d) as Hcl.
  destruct (ensure_client d) as [[r [cl|]] d1]; cbn [snd] in Hf; destruct Hf as [Ecl Em Emo Ew Ec _].
  2:{ destruct He as (_ & _ & _ & _ & _ & Hr). destruct (Z.eqb_spec r FN_OK) as [E|_].
      - apply Hr in E as [? ?]. done.
      - split; [done|]. split; [done|]. left. split; [done|]. by left. }
  clear He. destruct (dc_mount _ _ _ _ _ _ _ _) as [[c1 r1] info1] eqn:Emount.
  set (d2 := set_media info1 _).
  assert (E2 : mounted d2 = mounted d /\ writable d2 = writable d /\ change_count d2 = change_count d /\
               client d2 = client d /\ media d2 = info1) by done.
  clearbody d2. destruct E2 as (Em2 & Ew2 & Ec2 & Ecl2 & Emed2).
  destruct (Z.eqb_spec r1 FN_OK) as [->|Hr1]; cbn [negb].
  2:{ apply Z.eqb_neq in Hr1 as Hr1'. rewrite Hr1'. split; [done|]. split; [done|]. left. split; [done|].
      right. exists cl. split; [done|]. red. rewrite Emed2. repeat eexists; [|exact Hr1]. rewrite <-Em. exact Emount. }
  destruct (Z.eqb_spec (validate_adf_geometry (media d2) wr (unit + 1)) FN_OK) as [Hv|Hv]; cbn [negb].
  2:{ apply Z.eqb_neq in Hv. rewrite Hv. destruct (discard_spec cl (unit + 1) d2) as (? & -> & ->). tauto. }
  destruct (if wr then _ else _) as [c3 r3]. destruct (Z.eqb_spec r3 FN_OK) as [->|Hr3]; cbn [negb].
  2:{ apply Z.eqb_neq in Hr3. rewrite Hr3.
      destruct (discard_spec cl (unit + 1) (set_context c3 d2)) as (? & -> & ->). tauto. }
  set (d4 := set_writable wr _).
  assert (E4 : writable d4 = wr /\ change_count d4 = change_count d /\ client d4 = client d) by done.
  clearbody d4. destruct E4 as (Ew4 & Ec4 & Ecl4).
  pose proof (info_spec d4 unit wr ltac:(lia) Ew4) as Hinfo.
  destruct (fujinet_disk_info d4 unit (media d4)) as [[r5 info5] d5].
  destruct Hinfo as (Ew5 & Ec5 & Ecl5 & Hvalid).
  destruct (Z.eqb_spec r5 FN_OK) as [->|Hr5].
  - rewrite Z.eqb_refl. unfold count_change.
    match goal with |- context [acknowledge cl ?s ?dd] =>
      destruct (acknowledge_spec cl s dd) as (-> & -> & -> & -> & ->) end.
    cbn. rewrite Ec5, Ec4. split; [congruence|]. split; [by apply Hvalid|]. done.
  - apply Z.eqb_neq in Hr5. rewrite Hr5.
    destruct (discard_spec cl (unit + 1) (set_media info5 d5)) as (? & -> & ->).
    split; [cbn; congruence|]. split; [cbn; congruence|]. by right.
Qed.

(** A mount either succeeds, and then the unit holds a valid ADF of its
    own slot, writable as asked, and the change count has advanced by one
    (two when a medium was replaced); or it fails, and then the change count
    is unchanged and the unit is either as it was or empty. *)
Theorem mount_outcome d unit uri wr :
  0 <= unit ->
  let '(result, d') := fujinet_disk_mount_mode d unit uri wr in
  if result =? FN_OK
  then valid_media (media d') wr (unit + 1) /\ unit < 8 /\
       mounted d' = true /\ writable d' = wr /\
       change_count d' = u32 (change_count d + if mounted d then 2 else 1)
  else change_count d' = change_count d /\ (same_medium d d' \/ no_medium d').
Proof.
  intros Hu. pose proof (mount_spec d unit uri wr Hu) as H.
  destruct (fujinet_disk_mount_mode d unit uri wr) as [result d']. destruct H as [_ H].
  destruct (result =? FN_OK); tauto.
Qed.

(** Restoring the boot disk: as a mount, read-only or not as the medium is. *)
Lemma restore_boot_spec d unit :
  0 <= unit ->
  let '(result, d') := fujinet_disk_restore_boot d unit in
  client d' = client d /\
  if result =? FN_OK
  then valid_media (media d') (writable d') (unit + 1) /\ mounted d' = true /\
       change_count d' = u32 (change_count d + if mounted d then 2 else 1)
  else change_count d' = change_count d /\
       (same_medium d d' /\ (media d' = media d \/
          exists cl, (cl ← client d; complete_client cl) = Some cl /\
            exists c slot c' r, dc_restore_boot cl c slot (media d) = (c', r, media d') /\ r <> FN_OK)
        \/ no_medium d').
Proof.
  intros Hu. unfold fujinet_disk_restore_boot. pose proof fn_err_not_found_ok as Hnf%Z.eqb_neq.
  destruct (unit_to_slot_spec unit Hu) as [[-> Hlt]|[-> _]].
  2:{ rewrite Hnf. cbn [negb]. rewrite Hnf. split; [done|]. split; [done|]. left. split; [done|]. by left. }
  rewrite Z.eqb_refl. cbn [negb].
  pose proof (ensure_client_spec d) as He. pose proof (ensure_client_frame d) as Hf.
  pose proof (ensure_client_some d) as Hcl.
  destruct (ensure_client d) as [[r [cl|]] d1]; cbn [snd] in Hf; destruct Hf as [Ecl Em Emo Ew Ec _].
  2:{ destruct He as (_ & _ & _ & _ & _ & Hr). destruct (Z.eqb_spec r FN_OK) as [E|_].
      - apply Hr in E as [? ?]. done.
      - split; [done|]. split; [done|]. left. split; [done|]. by left. }
  clear He. destruct (dc_restore_boot _ _ _ _) as [[c1 r1] info1] eqn:Erest.
  destruct (Z.eqb_spec r1 FN_OK) as [->|Hr1]; cbn [negb].
  2:{ apply Z.eqb_neq in Hr1 as Hr1'. rewrite Hr1'. split; [done|]. split; [done|]. left. split; [done|].
      right. exists cl. split; [done|]. exists (client_context d1), (unit + 1), c1, r1.
      rewrite <-Em. split; [exact Erest|done]. }
  set (d2 := set_media info1 _).
  assert (E2 : mounted d2 = mounted d /\ change_count d2 = change_count d /\ client d2 = client d) by done.
  clearbody d2. destruct E2 as (Em2 & Ec2 & Ecl2).
  destruct (Z.eqb_spec (validate_adf_geometry (media d2) false (unit + 1)) FN_OK) as [Hv|Hv]; cbn [negb].
  - rewrite Z.eqb_refl. unfold count_change.
    match goal with |- context [acknowledge cl ?s ?dd] =>
      destruct (acknowledge_spec cl s dd) as (-> & -> & -> & -> & ->) end.
    cbn. rewrite Ec2. apply validate_spec in Hv as (Ha & Hs & _).
    split; [done|]. split; [|done]. split; [done|]. split; [done|]. apply Z.eqb_eq.
  - apply Z.eqb_neq in Hv as Hv'. rewrite Hv'. split; [done|]. split; [done|]. by right.
Qed.

Lemma eject_spec d unit :
  let '(result, d') := fujinet_disk_eject d unit in
  client d' = client d /\
  if result =? FN_OK
  then no_medium d' /\ mounted d = true /\ change_count d' = u32 (change_count d + 1)
  else same_drive d d'.
Proof.
  unfold fujinet_disk_eject. pose proof fn_err_not_ready_ok as Hnr%Z.eqb_neq.
  destruct (mounted d) eqn:Emo; cbn [negb]; [|rewrite Hnr; split; [done|apply same_drive_refl]].
  pose proof (ensure_client_spec d) as He. pose proof (ensure_client_frame d) as Hf.
  destruct (ensure_client d) as [[r [cl|]] d1]; cbn [snd] in Hf.
  2:{ destruct He as (_ & _ & _ & _ & _ & Hr). destruct (Z.eqb_spec r FN_OK) as [E|_].
      - apply Hr in E as [? ?]. done.
      - split; [apply Hf|done]. }
  destruct (fujinet_disk_unit_to_slot unit) as [r1 slot]. destruct (Z.eqb_spec r1 FN_OK) as [->|Hr1]; cbn [negb].
  2:{ apply Z.eqb_neq in Hr1. rewrite Hr1. split; [apply Hf|done]. }
  destruct (dc_unmount cl (client_context d1) slot) as [c2 r2].
  destruct (Z.eqb_spec r2 FN_OK) as [->|Hr2].
  - unfold count_change.
    match goal with |- context [acknowledge cl ?s ?dd] =>
      pose proof (acknowledge_spec cl s dd) as (E1 & E2 & E3 & E4 & E5) end.
    unfold no_medium. rewrite E1, E2, E3, E4, E5. destruct Hf. cbn. by rewrite sd_count0.
  - pose proof (same_drive_context _ _ c2 Hf) as Hf2. split; [apply Hf2|done].
Qed.

(** ** The medium of a unit

    A client that refuses a mount leaves the caller's structure alone. *)
Class MediaClient (cl : disk_client C) : Prop := {
  mc_mount c slot uri ro ty hint info :
    let '(_, r, info') := dc_mount cl c slot uri ro ty hint info in r <> FN_OK -> info' = info;
  mc_restore c slot info :
    let '(_, r, info') := dc_restore_boot cl c slot info in r <> FN_OK -> info' = info
}.

Definition medium_ok (slot : Z) d : Prop := mounted d = true -> valid_media (media d) (writable d) slot.

Lemma medium_same slot d d' : same_drive d d' -> medium_ok slot d -> medium_ok slot d'.
Proof. intros [] H. unfold medium_ok. by rewrite sd_mounted0, sd_media0, sd_writable0. Qed.

Lemma medium_failed slot d d' :
  same_medium d d' /\ media d' = media d \/ no_medium d' -> medium_ok slot d -> medium_ok slot d'.
Proof. intros [[[E1 E2] E3]|(E & _)] H Hm; [|congruence]. rewrite E2, E3. apply H. congruence. Qed.

(** Mounting and restoring keep the medium a valid one of the unit's slot. *)
Lemma mount_medium cl d unit uri wr :
  (cl ← client d; complete_client cl) = Some cl -> MediaClient cl -> 0 <= unit ->
  medium_ok (unit + 1) d -> medium_ok (unit + 1) (fujinet_disk_mount_mode d unit uri wr).2.
Proof.
  intros Hc [Hmc _] Hu H. pose proof (mount_spec d unit uri wr Hu) as Hs.
  destruct (fujinet_disk_mount_mode d unit uri wr) as [result d']. destruct Hs as [_ Hs].
  destruct (result =? FN_OK).
  - intros _. cbn. destruct Hs as (Hv & _ & _ & -> & _). exact Hv.
  - destruct Hs as [_ [[Hsame Hm]|Hn]]; (eapply medium_failed; [|exact H]); [|by right].
    left. split; [done|]. destruct Hm as [|(cl' & Hc' & c & s & u & ro & c' & r & E & Hr)]; [done|].
    rewrite Hc in Hc'. injection Hc' as <-. pose proof (Hmc c s u ro FN_DISK_TYPE_AUTO FUJINET_DISK_BLOCK_SIZE (media d)) as Hx.
    rewrite E in Hx. by apply Hx.
Qed.

Lemma restore_boot_medium cl d unit :
  (cl ← client d; complete_client cl) = Some cl -> MediaClient cl -> 0 <= unit ->
  medium_ok (unit + 1) d -> medium_ok (unit + 1) (fujinet_disk_restore_boot d unit).2.
Proof.
  intros Hc [_ Hmc] Hu H. pose proof (restore_boot_spec d unit Hu) as Hs.
  destruct (fujinet_disk_restore_boot d unit) as [result d']. destruct Hs as [_ Hs].
  destruct (result =? FN_OK).
  - intros _. cbn. apply Hs.
  - destruct Hs as [_ [[Hsame Hm]|Hn]]; (eapply medium_failed; [|exact H]); [|by right].
    left. split; [done|]. destruct Hm as [|(cl' & Hc' & c & s & c' & r & E & Hr)]; [done|].
    rewrite Hc in Hc'. injection Hc' as <-. pose proof (Hmc c s (media d)) as Hx.
    rewrite E in Hx. by apply Hx.
Qed.

Lemma eject_medium d unit slot : medium_ok slot d -> medium_ok slot (fujinet_disk_eject d unit).2.
Proof.
  intros H. pose proof (eject_spec d unit) as Hs. destruct (fujinet_disk_eject d unit) as [result d'].
  destruct Hs as [_ Hs]. destruct (result =? FN_OK); [|by eapply medium_same].
  destruct Hs as [(E & _) _]. intros Hm. cbn in Hm. congruence.
Qed.

End Mounting.

(** ** What the control operations do to the client's context *)

Section Context_relation.
Context `{L : FnLib} {C : Type} (R : C -> C -> Prop) `{!PreOrder R}.

(** A relation that every call of the client but the transfers respects. *)
Class ClientRespects (cl : disk_client C) : Prop := {
  cr_init c : R c (dc_init cl c).1;
  cr_mount c slot uri ro ty hint info : R c (dc_mount cl c slot uri ro ty hint info).1.1;
  cr_info c slot info : R c (dc_info cl c slot info).1.1;
  cr_flush c slot : R c (dc_flush cl c slot).1;
  cr_unmount c slot : R c (dc_unmount cl c slot).1;
  cr_clear c slot : R c (dc_clear_changed cl c slot).1
}.

Context (table : fujinet_disk_client_t C) (cl : disk_client C) `{Hr : !ClientRespects cl}.
Hypothesis Htable : complete_client table = Some cl.
Implicit Types (d : fujinet_disk_driver_t C).

Definition context_moves d d' : Prop := client d' = client d /\ R (client_context d) (client_context d').

Lemma moves_refl d : context_moves d d.
Proof. by split. Qed.
Lemma moves_trans d1 d2 d3 : context_moves d1 d2 -> context_moves d2 d3 -> context_moves d1 d3.
Proof. intros [E1 H1] [E2 H2]. split; [congruence|by etransitivity]. Qed.
Lemma moves_context c d : R (client_context d) c -> context_moves d (set_context c d).
Proof. by split. Qed.

Lemma ensure_moves d :
  client d = Some table ->
  context_moves d (ensure_client d).2 /\
  ((ensure_client d).1.2 = Some cl \/ (ensure_client d).1.2 = None).
Proof.
  intros Hc. unfold ensure_client. rewrite Hc. cbn. rewrite Htable.
  destruct (client_initialized d); [by split; [apply moves_refl|left]|].
  pose proof (cr_init (client_context d)) as Hi. destruct (dc_init cl (client_context d)) as [c r].
  destruct (r =? FN_OK); (split; [by split|by auto]).
Qed.

Lemma discard_moves slot d : context_moves d (discard_mount cl slot d).
Proof.
  unfold discard_mount. pose proof (cr_unmount (client_context d) slot).
  by destruct (dc_unmount cl (client_context d) slot).
Qed.
Lemma acknowledge_moves slot d : context_moves d (acknowledge cl slot d).
Proof.
  unfold acknowledge. pose proof (cr_clear (client_context d) slot).
  by destruct (dc_clear_changed cl (client_context d) slot).
Qed.

Lemma info_moves d unit info : client d = Some table -> context_moves d (fujinet_disk_info d unit info).2.
Proof.
  intros Hc. unfold fujinet_disk_info. destruct (fujinet_disk_unit_to_slot unit) as [r slot].
  destruct (negb (r =? FN_OK)); [apply moves_refl|]. destruct (ensure_moves d Hc) as [Hm Hcl].
  destruct (ensure_client d) as [[r1 cl'] d1]. cbn [fst snd] in *. destruct Hcl as [-> | ->]; [|done].
  pose proof (cr_info (client_context d1) slot info) as Hi.
  destruct (dc_info cl (client_context d1) slot info) as [[c2 r2] info2].
  destruct (negb (r2 =? FN_OK)); (eapply moves_trans; [done|by apply moves_context]).
Qed.

Lemma mount_moves d unit uri wr :
  client d = Some table -> context_moves d (fujinet_disk_mount_mode d unit uri wr).2.
Proof.
  intros Hc. unfold fujinet_disk_mount_mode. destruct uri as [[|x uri]|]; [apply moves_refl| |apply moves_refl].
  destruct (fujinet_disk_unit_to_slot unit) as [r slot].
  destruct (negb (r =? FN_OK)); [apply moves_refl|]. destruct (ensure_moves d Hc) as [Hm Hcl].
  destruct (ensure_client d) as [[r1 cl'] d1]. cbn [fst snd] in *. destruct Hcl as [-> | ->]; [|done].
  match goal with |- context [dc_mount cl ?c ?s ?u ?ro ?t ?h ?i] => pose proof (cr_mount c s u ro t h i) as H1;
    destruct (dc_mount cl c s u ro t h i) as [[c1 r2] info1] end. cbn [fst] in H1.
  set (d2 := set_media info1 _). assert (M2 : context_moves d d2) by (eapply moves_trans; [exact Hm|by split]).
  clearbody d2. clear H1 Hm. destruct (negb (r2 =? FN_OK)); [done|].
  destruct (negb (validate_adf_geometry _ _ _ =? FN_OK)); [eapply moves_trans; [done|apply discard_moves]|].
  assert (Hfl : R (client_context d2) (if wr then dc_flush cl (client_context d2) slot else (client_context d2, FN_OK)).1).
  { destruct wr; [apply cr_flush|done]. }
  destruct (if wr then _ else _) as [c3 r3]. cbn [fst] in Hfl.
  assert (M3 : context_moves d (set_context c3 d2)) by (eapply moves_trans; [exact M2|by apply moves_context]).
  destruct (negb (r3 =? FN_OK)); [eapply moves_trans; [exact M3|apply discard_moves]|].
  set (d4 := set_writable wr _). assert (M4 : context_moves d d4) by (destruct M3; by split). clearbody d4.
  pose proof (info_moves d4 unit (media d4) ltac:(rewrite (proj1 M4); exact Hc)) as H5.
  destruct (fujinet_disk_info d4 unit (media d4)) as [[r5 info5] d5]. cbn [snd] in H5.
  assert (M5 : context_moves d d5) by by eapply moves_trans. clear H5.
  destruct (r5 =? FN_OK); cbn [snd].
  - eapply moves_trans; [|apply acknowledge_moves]. destruct M5. by split.
  - eapply moves_trans; [|apply discard_moves]. destruct M5. by split.
Qed.

Lemma eject_moves d unit : client d = Some table -> context_moves d (fujinet_disk_eject d unit).2.
Proof.
  intros Hc. unfold fujinet_disk_eject. destruct (negb (mounted d)); [apply moves_refl|].
  destruct (ensure_moves d Hc) as [Hm Hcl]. destruct (ensure_client d) as [[r1 cl'] d1].
  cbn [fst snd] in *. destruct Hcl as [-> | ->]; [|done].
  destruct (fujinet_disk_unit_to_slot unit) as [r slot]. destruct (negb (r =? FN_OK)); [done|].
  pose proof (cr_unmount (client_context d1) slot) as Hu.
  destruct (dc_unmount cl (client_context d1) slot) as [c2 r2]. cbn [fst snd] in *.
  destruct (r2 =? FN_OK).
  - eapply moves_trans; [|apply acknowledge_moves]. eapply moves_trans; [exact Hm|by split].
  - eapply moves_trans; [exact Hm|by apply moves_context].
Qed.

Lemma acknowledge_change_moves d unit :
  client d = Some table -> context_moves d (fujinet_disk_acknowledge_change d unit).2.
Proof.
  intros Hc. unfold fujinet_disk_acknowledge_change. destruct (negb _); [apply moves_refl|].
  destruct (ensure_moves d Hc) as [Hm Hcl]. destruct (ensure_client d) as [[r1 cl'] d1].
  cbn [fst snd] in *. destruct Hcl as [-> | ->]; [|done].
  destruct (fujinet_disk_unit_to_slot unit) as [r slot]. destruct (negb (r =? FN_OK)); [done|].
  pose proof (cr_clear (client_context d1) slot) as Hu.
  destruct (dc_clear_changed cl (client_context d1) slot) as [c2 r2]. cbn [fst snd] in *.
  destruct (r2 =? FN_OK); (eapply moves_trans; [exact Hm|by split]).
Qed.

Lemma flush_moves d unit : client d = Some table -> context_moves d (fujinet_disk_flush d unit).2.
Proof.
  intros Hc. unfold fujinet_disk_flush. destruct (negb (mounted d)); [apply moves_refl|].
  destruct (ensure_moves d Hc) as [Hm Hcl]. destruct (ensure_client d) as [[r1 cl'] d1].
  cbn [fst snd] in *. destruct Hcl as [-> | ->]; [|done].
  destruct (fujinet_disk_unit_to_slot unit) as [r slot]. destruct (negb (r =? FN_OK)); [done|].
  pose proof (cr_flush (client_context d1) slot) as Hf.
  destruct (dc_flush cl (client_context d1) slot) as [c2 r2]. eapply moves_trans; [exact Hm|by split].
Qed.
End Context_relation.

(** ** Transfers against a store of blocks *)

Section Transfers.
Context `{L : FnLib, !FnLibOk L} {C : Type}.

(** What the client promises: [blocks c slot lba] is the 512-byte block the
    server holds.  A successful read of 512 bytes returns it; reading,
    initialising and acknowledging a change leave the blocks alone; a
    successful write stores the block, a
    failed one can only have touched the block it was about. *)
Class BlockStore (cl : disk_client C) (blocks : C -> Z -> Z -> list Z) : Prop := {
  bs_length c slot lba : length (blocks c slot lba) = 512%nat;
  bs_init c s l : blocks (dc_init cl c).1 s l = blocks c s l;
  bs_clear c slot s l : blocks (dc_clear_changed cl c slot).1 s l = blocks c s l;
  bs_read c slot lba cap : 0 <= cap ->
    let '(c', result, bytes, n) := dc_read_sector cl c slot lba cap in
    (forall s l, blocks c' s l = blocks c s l) /\ Z.of_nat (length bytes) <= cap /\
    (result = FN_OK -> n = 512 -> bytes = blocks c slot lba);
  bs_write c slot lba bytes :
    let '(c', result) := dc_write_sector cl c slot lba bytes in
    (forall s l, (s, l) <> (slot, lba) -> blocks c' s l = blocks c s l) /\
    (result = FN_OK -> length bytes = 512%nat -> blocks c' slot lba = bytes)
}.

Context (cl : disk_client C) (blocks : C -> Z -> Z -> list Z) `{!BlockStore cl blocks}.

(** [n] blocks of a slot from [lba] on, one after the other. *)
Fixpoint blocks_at (c : C) (slot lba : Z) (n : nat) : list Z :=
  match n with
  | O => []
  | S n' => blocks c slot lba ++ blocks_at c slot (lba + 1) n'
  end.

Lemma length_blocks_at c slot lba n : length (blocks_at c slot lba n) = (512 * n)%nat.
Proof.
  revert lba. induction n as [|n IH]; intros lba; cbn [blocks_at]; [done|].
  rewrite length_app, IH, bs_length. lia.
Qed.

Lemma blocks_at_ext c c' slot lba n :
  (forall s l, blocks c' s l = blocks c s l) -> blocks_at c' slot lba n = blocks_at c slot lba n.
Proof. intros H. revert lba. induction n as [|n IH]; intros lba; cbn; [done|]. by rewrite H, IH. Qed.

Lemma drop_overwrite (b s : list Z) off n :
  (off + length s <= n)%nat -> (off + length s <= length b)%nat ->
  drop n (overwrite b off s) = drop n b.
Proof.
  intros Hn Hb. apply list_eq. intros i. rewrite !lookup_drop.
  apply overwrite_lookup_out; lia.
Qed.

Lemma take_after_overwrite (b s : list Z) off :
  (off + length s <= length b)%nat ->
  take (off + length s) (overwrite b off s) = take off b ++ s.
Proof.
  intros. unfold overwrite. rewrite app_assoc.
  rewrite take_app_le by (rewrite length_app, length_take; lia).
  apply take_ge. rewrite length_app, length_take. lia.
Qed.

Lemma read_loop_spec slot n : forall lba data pos actual c,
  0 <= lba -> lba + Z.of_nat n < 4294967296 ->
  0 <= actual -> actual + 512 * Z.of_nat n < 4294967296 ->
  (pos + 512 * n <= length data)%nat ->
  let '(result, actual', data', c') := read_loop cl slot lba data pos n actual c in
  exists k, (k <= n)%nat /\ actual' = actual + 512 * Z.of_nat k /\
    (result = FN_OK <-> k = n) /\ (forall s l, blocks c' s l = blocks c s l) /\
    take (pos + 512 * k) data' = take pos data ++ blocks_at c slot lba k /\
    drop (pos + 512 * n) data' = drop (pos + 512 * n) data /\ length data' = length data.
Proof.
  induction n as [|n IH]; intros lba data pos actual c Hlba Hl Ha Hal Hlen; cbn [read_loop].
  { exists O. rewrite Nat.mul_0_r, Nat.add_0_r, app_nil_r. split_and!; try done; lia. }
  pose proof (bs_read c slot lba FUJINET_DISK_BLOCK_SIZE ltac:(done)) as Hr.
  destruct (dc_read_sector cl c slot lba FUJINET_DISK_BLOCK_SIZE) as [[[c1 r] bytes] received].
  destruct Hr as (Hb & Hcap & Hok). unfold FUJINET_DISK_BLOCK_SIZE in *.
  assert (Hlen1 : length (overwrite data pos bytes) = length data) by (apply length_overwrite; lia).
  assert (Hstop : forall res, res <> FN_OK -> exists k, (k <= S n)%nat /\ actual = actual + 512 * Z.of_nat k /\
    (res = FN_OK <-> k = S n) /\ (forall s l, blocks c1 s l = blocks c s l) /\
    take (pos + 512 * k) (overwrite data pos bytes) = take pos data ++ blocks_at c slot lba k /\
    drop (pos + 512 * S n) (overwrite data pos bytes) = drop (pos + 512 * S n) data /\
    length (overwrite data pos bytes) = length data).
  { intros res Hres. exists O. rewrite Nat.mul_0_r, Nat.add_0_r, app_nil_r.
    split; [lia|]. split; [lia|]. split; [by split|]. split; [done|].
    split; [apply take_overwrite; lia|]. split; [apply drop_overwrite; lia|done]. }
  destruct (Z.eqb_spec r FN_OK) as [->|Hne]; cbn [negb]; [|by apply Hstop].
  destruct (Z.eqb_spec received 512) as [->|_]; cbn [negb]; [|apply Hstop, fn_err_io_ok].
  clear Hstop. specialize (Hok eq_refl eq_refl). subst bytes.
  pose proof (bs_length c slot lba) as Hbl.
  rewrite (u32_id (lba + 1)) by (unfold is_u32; lia). rewrite (u32_id (actual + 512)) by (unfold is_u32; lia).
  specialize (IH (lba + 1) (overwrite data pos (blocks c slot lba)) (pos + 512)%nat (actual + 512) c1).
  destruct (read_loop _ _ _ _ _ _ _ _) as [[[res actual'] data'] c'].
  destruct IH as (k & Hk & Eact & Hres & Hbl' & Htk & Hdr & Hlen'); [lia..|].
  exists (S k). split; [lia|]. split; [lia|]. split; [split; intros; [apply eq_S; tauto|apply Hres; lia]|].
  split; [intros; by rewrite Hbl'|]. split; [|split].
  - replace (pos + 512 * S k)%nat with (pos + 512 + 512 * k)%nat by lia. rewrite Htk. cbn [blocks_at].
    rewrite (blocks_at_ext c c1) by done. rewrite app_assoc. f_equal.
    rewrite <- Hbl at 1. apply take_after_overwrite. lia.
  - replace (pos + 512 * S n)%nat with (pos + 512 + 512 * n)%nat by lia. rewrite Hdr.
    apply drop_overwrite; lia.
  - by rewrite Hlen', Hlen1.
Qed.

(** The store holds [data], block by block, at [lba] and on. *)
Definition stored (c : C) (slot lba : Z) (data : list Z) (n : nat) : Prop :=
  forall i, (i < n)%nat -> blocks c slot (lba + Z.of_nat i) = slice data (512 * i) 512.

Lemma write_loop_spec slot n : forall lba data actual c,
  0 <= lba -> lba + Z.of_nat n < 4294967296 ->
  0 <= actual -> actual + 512 * Z.of_nat n < 4294967296 ->
  (512 * n <= length data)%nat ->
  let '(result, actual', c') := write_loop cl slot lba data n actual c in
  exists k, (k <= n)%nat /\ actual' = actual + 512 * Z.of_nat k /\
    (result = FN_OK <-> k = n) /\ stored c' slot lba data k /\
    (forall s l, s <> slot \/ l < lba \/ lba + Z.of_nat n <= l -> blocks c' s l = blocks c s l).
Proof.
  induction n as [|n IH]; intros lba data actual c Hlba Hl Ha Hal Hlen; cbn [write_loop].
  { exists O. split_and!; try done; [lia|]. intros i Hi. lia. }
  pose proof (bs_write c slot lba (slice data 0 512)) as Hw.
  destruct (dc_write_sector cl c slot lba (slice data 0 512)) as [c1 r]. destruct Hw as [Hoth Hok].
  assert (Hs : length (slice data 0 512) = 512%nat) by (apply length_slice; lia).
  destruct (Z.eqb_spec r FN_OK) as [->|Hne]; cbn [negb].
  2:{ exists O. split; [lia|]. split; [lia|]. split; [by split|]. split; [intros i Hi; lia|].
      intros s l H. apply Hoth. intros [= -> ->]. lia. }
  specialize (Hok eq_refl Hs). unfold FUJINET_DISK_BLOCK_SIZE.
  rewrite (u32_id (lba + 1)) by (unfold is_u32; lia). rewrite (u32_id (actual + 512)) by (unfold is_u32; lia).
  specialize (IH (lba + 1) (drop 512 data) (actual + 512) c1). rewrite length_drop in IH.
  destruct (write_loop _ _ _ _ _ _ _) as [[res actual'] c'].
  destruct IH as (k & Hk & Eact & Hres & Hst & Hun); [lia..|].
  exists (S k). split; [lia|]. split; [lia|].
  split; [split; intros; [apply eq_S; tauto|apply Hres; lia]|]. split.
  - intros [|i] Hi.
    + rewrite Z.add_0_r, Nat.mul_0_r, Hun by lia. exact Hok.
    + replace (lba + Z.of_nat (S i)) with (lba + 1 + Z.of_nat i) by lia. rewrite Hst by lia.
      unfold slice. rewrite drop_drop. do 2 f_equal. lia.
  - intros s l H. rewrite Hun by lia. apply Hoth. intros [= -> ->]. lia.
Qed.

(** ** The driver's reads and writes *)

Context (table : fujinet_disk_client_t C) (Htable : complete_client table = Some cl).
Implicit Types (d : fujinet_disk_driver_t C).

Lemma ensure_client_store d :
  client d = Some table ->
  let '(result, cl', d') := ensure_client d in
  (cl' = Some cl \/ cl' = None) /\
  (forall s l, blocks (client_context d') s l = blocks (client_context d) s l).
Proof.
  intros Hc. unfold ensure_client. rewrite Hc. cbn. rewrite Htable.
  destruct (client_initialized d); [by split; [left|]|].
  pose proof (bs_init (client_context d)) as Hi. destruct (dc_init cl (client_context d)) as [c r].
  destruct (r =? FN_OK); (split; [by auto|exact Hi]).
Qed.

Lemma media_bytes_adf d : adf_info (media d) ->
  media_bytes d = 512 * i_sector_count (media d) /\ 0 <= i_sector_count (media d) <= 3520.
Proof.
  intros (_ & _ & Es & Ec). unfold media_bytes. rewrite Es.
  rewrite u32_id by (unfold is_u32; lia). lia.
Qed.

(** The ranges a transfer may cover: whole blocks of the medium. *)
Lemma block_range off len count :
  0 <= off -> 0 <= len -> off mod 512 = 0 -> len mod 512 = 0 -> len <= 512 * count - off ->
  off / 512 + len / 512 <= count /\ 512 * (len / 512) = len /\ 0 <= off / 512.
Proof. intros. Z.to_euclidean_division_equations. lia. Qed.

(** A read of the driver delivers the blocks of the medium: what it
    reports as transferred is a whole number of blocks, all within the
    medium, and the buffer starts with exactly those blocks; all of them were
    transferred if it reports success; nothing beyond the requested length
    was written and nothing on the server changed. *)
Lemma drive_read_spec d unit off data len :
  client d = Some table -> (mounted d = true -> adf_info (media d)) ->
  0 <= unit -> is_u32 off -> is_u32 len -> len <= Z.of_nat (length data) ->
  let '(result, actual, data', d') := fujinet_disk_read d unit off (Some data) len in
  exists k buf, data' = Some buf /\ actual = 512 * Z.of_nat k /\ actual <= len /\
    (result = FN_OK -> actual = len /\ 0 < len) /\
    ((0 < k)%nat -> mounted d = true /\ off / 512 + Z.of_nat k <= i_sector_count (media d)) /\
    take (512 * k) buf = blocks_at (client_context d) (unit + 1) (off / 512) k /\
    drop (Z.to_nat len) buf = drop (Z.to_nat len) data /\
    (forall s l, blocks (client_context d') s l = blocks (client_context d) s l).
Proof.
  intros Hc Hmed Hu Hoff Hlen Hdata. unfold is_u32 in *.
  assert (Hnone : forall res c', res <> FN_OK ->
    (forall s l, blocks c' s l = blocks (client_context d) s l) ->
    exists k buf, Some data = Some buf /\ 0 = 512 * Z.of_nat k /\ 0 <= len /\
    (res = FN_OK -> 0 = len /\ 0 < len) /\
    ((0 < k)%nat -> mounted d = true /\ off / 512 + Z.of_nat k <= i_sector_count (media d)) /\
    take (512 * k) buf = blocks_at (client_context d) (unit + 1) (off / 512) k /\
    drop (Z.to_nat len) buf = drop (Z.to_nat len) data /\
    (forall s l, blocks c' s l = blocks (client_context d) s l)).
  { intros res c' Hne Hb. exists O, data. split_and!; try done; try lia. }
  unfold fujinet_disk_read, FUJINET_DISK_BLOCK_SIZE.
  pose proof fn_err_invalid_ok as Hi. pose proof fn_err_not_found_ok as Hnf.
  pose proof fn_err_not_ready_ok as Hnr.
  destruct (_ || _) eqn:Eg; [by apply Hnone|].
  rewrite !orb_false_iff, !negb_false_iff in Eg. destruct Eg as (((((E1 & E2) & E3) & E4) & E5) & E6).
  destruct (unit_to_slot_spec unit Hu) as [[-> Hlt]|[-> _]].
  2:{ apply Z.eqb_neq in Hnf as Hnf'. rewrite Hnf'. by apply Hnone. }
  rewrite Z.eqb_refl. cbn [negb]. destruct (mounted d) eqn:Em; cbn [negb]; [|by apply Hnone].
  destruct (media_bytes_adf d (Hmed eq_refl)) as [Hmb Hcnt].
  destruct (block_range off len (i_sector_count (media d))) as (Hr1 & Hr2 & Hr3); [lia..|].
  pose proof (ensure_client_store d Hc) as Hs. pose proof (ensure_client_spec d) as He.
  destruct (ensure_client d) as [[r cl'] d1]. destruct Hs as [[-> | ->] Hb].
  2:{ apply Hnone; [|done]. intros E. destruct He as (_ & _ & _ & _ & _ & Hx).
      apply Hx in E as [? ?]. done. }
  pose proof (read_loop_spec (unit + 1) (Z.to_nat (len / 512)) (off / 512) data 0 0 (client_context d1)) as H.
  destruct (read_loop _ _ _ _ _ _ _ _) as [[[res actual] buf] c'].
  destruct H as (k & Hk & Ha & Hres & Hbl & Htk & Hdr & _); [lia..|].
  exists k, buf. split; [done|]. split; [lia|]. split; [lia|].
  split; [intros E; apply Hres in E; lia|]. split; [intros _; split; [done|lia]|].
  split; [|split].
  - rewrite Nat.add_0_l in Htk. rewrite Htk, take_0. cbn [app]. by apply blocks_at_ext.
  - rewrite Nat.add_0_l in Hdr. by replace (Z.to_nat len) with (512 * Z.to_nat (len / 512))%nat by lia.
  - intros s l. cbn. by rewrite Hbl, Hb.
Qed.

(** A write of the driver stores the caller's bytes on the medium: what
    it reports as transferred is a whole number of blocks of a mounted,
    writable medium, each of which holds the caller's bytes; all of them if
    it reports success; no block outside the requested range has changed. *)
Lemma drive_write_spec d unit off data len :
  client d = Some table -> (mounted d = true -> adf_info (media d)) ->
  0 <= unit -> is_u32 off -> is_u32 len -> len <= Z.of_nat (length data) ->
  let '(result, actual, d') := fujinet_disk_write d unit off (Some data) len in
  exists k, actual = 512 * Z.of_nat k /\ actual <= len /\
    (result = FN_OK -> actual = len /\ 0 < len) /\
    ((0 < k)%nat -> mounted d = true /\ writable d = true /\
       off / 512 + Z.of_nat k <= i_sector_count (media d)) /\
    stored (client_context d') (unit + 1) (off / 512) data k /\
    (forall s l, s <> unit + 1 \/ l < off / 512 \/ (off + len) / 512 <= l ->
       blocks (client_context d') s l = blocks (client_context d) s l).
Proof.
  intros Hc Hmed Hu Hoff Hlen Hdata. unfold is_u32 in *.
  assert (Hnone : forall res c', res <> FN_OK ->
    (forall s l, blocks c' s l = blocks (client_context d) s l) ->
    exists k, 0 = 512 * Z.of_nat k /\ 0 <= len /\ (res = FN_OK -> 0 = len /\ 0 < len) /\
    ((0 < k)%nat -> mounted d = true /\ writable d = true /\
       off / 512 + Z.of_nat k <= i_sector_count (media d)) /\
    stored c' (unit + 1) (off / 512) data k /\
    (forall s l, s <> unit + 1 \/ l < off / 512 \/ (off + len) / 512 <= l ->
       blocks c' s l = blocks (client_context d) s l)).
  { intros res c' Hne Hb. exists O. split_and!; try done; try lia. intros i Hi2. lia. }
  unfold fujinet_disk_write, FUJINET_DISK_BLOCK_SIZE.
  pose proof fn_err_invalid_ok as Hi. pose proof fn_err_not_found_ok as Hnf.
  pose proof fn_err_not_ready_ok as Hnr.
  destruct (_ || _) eqn:Eg; [by apply Hnone|].
  rewrite !orb_false_iff, !negb_false_iff in Eg. destruct Eg as ((E1 & E2) & E3).
  destruct (mounted d) eqn:Em; cbn [negb]; [|by apply Hnone].
  destruct (writable d) eqn:Ew; cbn [negb]; [|by apply Hnone].
  destruct (_ || _) eqn:Eg; [by apply Hnone|].
  rewrite !orb_false_iff in Eg. destruct Eg as (E4 & E5).
  destruct (media_bytes_adf d (Hmed eq_refl)) as [Hmb Hcnt].
  destruct (block_range off len (i_sector_count (media d))) as (Hr1 & Hr2 & Hr3); [lia..|].
  pose proof (ensure_client_store d Hc) as Hs. pose proof (ensure_client_spec d) as He.
  destruct (ensure_client d) as [[r cl'] d1]. destruct Hs as [[-> | ->] Hb].
  2:{ apply Hnone; [|done]. intros E. destruct He as (_ & _ & _ & _ & _ & Hx).
      apply Hx in E as [? ?]. done. }
  destruct (unit_to_slot_spec unit Hu) as [[-> Hlt]|[-> _]].
  2:{ apply Z.eqb_neq in Hnf as Hnf'. rewrite Hnf'. by apply Hnone. }
  rewrite Z.eqb_refl. cbn [negb].
  pose proof (write_loop_spec (unit + 1) (Z.to_nat (len / 512)) (off / 512) data 0 (client_context d1)) as H.
  destruct (write_loop _ _ _ _ _ _ _) as [[res actual] c'].
  destruct H as (k & Hk & Ha & Hres & Hst & Hun); [lia..|].
  assert (Hsum : (off + len) / 512 = off / 512 + len / 512)
    by (clear - E2 E3; apply Z.eqb_eq in E2, E3; Z.to_euclidean_division_equations; lia).
  exists k. split; [lia|]. split; [lia|].
  split; [intros E; apply Hres in E; lia|]. split; [intros _; split_and!; [done|done|lia]|].
  split; [exact Hst|]. intros s l H. cbn. rewrite Hun by lia. apply Hb.
Qed.

(** Acknowledging a change touches no block. *)
Lemma acknowledge_store d unit :
  client d = Some table ->
  forall s l, blocks (client_context (fujinet_disk_acknowledge_change d unit).2) s l =
              blocks (client_context d) s l.
Proof.
  intros Hc s l. unfold fujinet_disk_acknowledge_change. destruct (negb _); [done|].
  pose proof (ensure_client_store d Hc) as Hs.
  destruct (ensure_client d) as [[r cl'] d1]. destruct Hs as [[-> | ->] Hb]; [|apply Hb].
  destruct (fujinet_disk_unit_to_slot unit) as [r1 slot]. destruct (negb (r1 =? FN_OK)); [apply Hb|].
  pose proof (bs_clear (client_context d1) slot s l) as Hcl.
  destruct (dc_clear_changed cl (client_context d1) slot) as [c r2]. cbn in Hcl.
  destruct (r2 =? FN_OK); cbn; by rewrite Hcl.
Qed.

End Transfers.

(** ** A server in memory *)

Definition mem : Type := Z -> Z -> list Z.
Definition mem_blocks (m : mem) (slot lba : Z) : list Z := take 512 (m slot lba ++ zeros 512).
Definition mem_store (m : mem) (slot lba : Z) (b : list Z) : mem :=
  fun s l => if (s =? slot) && (l =? lba) then b else m s l.

(** It mounts every image as a double-density ADF, except the one with the
    empty-looking name [0], which has a sector less. *)
Definition mem_client : disk_client mem := {|
  dc_init m := (m, 0);
  dc_mount m slot uri ro type hint info :=
    (m, 0, mkInfo slot (1 + 2 * ro) 1 512 (if decide (uri = [0]) then 1759 else 1760));
  dc_restore_boot m slot info := (m, 0, mkInfo slot 1 1 512 1760);
  dc_info m slot info := (m, 0, info);
  dc_read_sector m slot lba cap := (m, 0, take (Z.to_nat cap) (mem_blocks m slot lba), Z.min cap 512);
  dc_write_sector m slot lba b := (mem_store m slot lba b, 0);
  dc_flush m slot := (m, 0);
  dc_unmount m slot := (m, 0);
  dc_clear_changed m slot := (m, 0)
|}.

Definition mem_table : fujinet_disk_client_t mem := {|
  cl_init := Some (dc_init mem_client);
  cl_mount := Some (dc_mount mem_client);
  cl_restore_boot := Some (dc_restore_boot mem_client);
  cl_info := Some (dc_info mem_client);
  cl_read_sector := Some (dc_read_sector mem_client);
  cl_write_sector := Some (dc_write_sector mem_client);
  cl_flush := Some (dc_flush mem_client);
  cl_unmount := Some (dc_unmount mem_client);
  cl_clear_changed := Some (dc_clear_changed mem_client);
  cl_inspect := Some (fun m uri inspection => (m, 0, uri))
|}.

Lemma mem_table_complete : complete_client mem_table = Some mem_client.
Proof. reflexivity. Qed.

Lemma length_mem_blocks m s l : length (mem_blocks m s l) = 512%nat.
Proof. unfold mem_blocks, zeros. rewrite length_take, length_app, length_replicate. lia. Qed.

#[export] Instance mem_block_store : BlockStore (L := fn_lib_nio) mem_client mem_blocks.
Proof.
  split.
  - apply length_mem_blocks.
  - done.
  - done.
  - intros m slot lba cap Hcap. cbn [mem_client dc_read_sector]. split; [done|]. split.
    + rewrite length_take. lia.
    + intros _ E. apply take_ge. rewrite length_mem_blocks. lia.
  - intros m slot lba b. cbn. split.
    + intros s l Hne. unfold mem_blocks, mem_store. 
      destruct (Z.eqb_spec s slot) as [->|]; [|done]. destruct (Z.eqb_spec l lba) as [->|]; [|done]. done.
    + intros _ Hb. unfold mem_blocks, mem_store. rewrite !Z.eqb_refl. cbn [andb].
      rewrite take_app_le by lia. apply take_ge. lia.
Qed.

(** A mount that fails while another medium is in the unit can take
    that medium out without counting a change: the unit is empty, and the
    change count, which tells AmigaDOS that the disk went away, has not
    moved. *)
Theorem failed_replacement_is_silent :
  let d0 := fujinet_disk_driver_init (Some mem_table) (fun _ _ => []) 0 in
  let '(r1, d1) := fujinet_disk_mount (L := fn_lib_nio) d0 0 (Some [104]) in
  let '(r2, d2) := fujinet_disk_mount (L := fn_lib_nio) d1 0 (Some [0]) in
  r1 = 0 /\ mounted d1 = true /\ change_count d1 = 1 /\
  r2 <> 0 /\ mounted d2 = false /\ change_count d2 = 1.
Proof. vm_compute. repeat split; discriminate. Qed.

Definition mounted_drive : fujinet_disk_driver_t mem :=
  mkDriver (Some mem_table) (fun _ _ => [7]) (mkInfo 1 1 1 512 1760) true true true false 1 0.

Lemma mounted_drive_media : mounted mounted_drive = true -> adf_info (L := fn_lib_nio) (media mounted_drive).
Proof. intros _. split_and!; try done. by left. Qed.

Lemma mount_outcome_witness :
  0 <= 0 /\ change_count (fujinet_disk_mount_mode (L := fn_lib_nio) mounted_drive 0 (Some [104]) true).2 = 3.
Proof.
  split; [lia|].
  pose proof (mount_outcome (L := fn_lib_nio) mounted_drive 0 (Some [104]) true ltac:(lia)) as H.
  set (p := fujinet_disk_mount_mode (L := fn_lib_nio) mounted_drive 0 (Some [104]) true) in *.
  assert (E : p = (0, p.2)) by (vm_compute; reflexivity). rewrite E in H.
  change (0 =? @FN_OK fn_lib_nio) with true in H. cbn iota in H.
  destruct H as (_ & _ & _ & _ & H). rewrite H. reflexivity.
Defined.
