(* ===== verification/ExecIO.v ===== *)
(** * Exec's I/O constants

    What the devices use of the operating system's headers (exec/io.h,
    exec/errors.h, exec/libraries.h, exec/nodes.h, exec/memory.h,
    devices/trackdisk.h, devices/newstyle.h, devices/serial.h): commands, flags and error
    codes. *)

From S2P Require Import Prelude.

Definition CMD_RESET : Z := 1.
Definition CMD_READ : Z := 2.
Definition CMD_WRITE : Z := 3.
Definition CMD_UPDATE : Z := 4.
Definition CMD_CLEAR : Z := 5.
Definition CMD_STOP : Z := 6.
Definition CMD_START : Z := 7.
Definition CMD_FLUSH : Z := 8.
Definition CMD_NONSTD : Z := 9.

Definition IOF_QUICK : Z := 1.
Definition IOERR_OPENFAIL : Z := -1.
Definition IOERR_ABORTED : Z := -2.
Definition IOERR_NOCMD : Z := -3.
Definition IOERR_BADLENGTH : Z := -4.
Definition IOERR_BADADDRESS : Z := -5.
Definition IOERR_UNITBUSY : Z := -6.
Definition LIBF_DELEXP : Z := 8.
Definition NT_MESSAGE : Z := 5.
Definition NT_REPLYMSG : Z := 7.
Definition MEMF_PUBLIC : Z := 1.

Definition TDF_EXTCOM : Z := 32768.
Definition TD_MOTOR : Z := CMD_NONSTD + 0.
Definition TD_SEEK : Z := CMD_NONSTD + 1.
Definition TD_REMOVE : Z := CMD_NONSTD + 3.
Definition TD_CHANGENUM : Z := CMD_NONSTD + 4.
Definition TD_CHANGESTATE : Z := CMD_NONSTD + 5.
Definition TD_PROTSTATUS : Z := CMD_NONSTD + 6.
Definition TD_GETDRIVETYPE : Z := CMD_NONSTD + 9.
Definition TD_GETNUMTRACKS : Z := CMD_NONSTD + 10.
Definition TD_ADDCHANGEINT : Z := CMD_NONSTD + 11.
Definition TD_REMCHANGEINT : Z := CMD_NONSTD + 12.
Definition TD_GETGEOMETRY : Z := CMD_NONSTD + 13.
Definition TD_EJECT : Z := CMD_NONSTD + 14.
Definition ETD_READ : Z := CMD_READ + TDF_EXTCOM.
Definition ETD_WRITE : Z := CMD_WRITE + TDF_EXTCOM.
Definition ETD_UPDATE : Z := CMD_UPDATE + TDF_EXTCOM.
Definition ETD_CLEAR : Z := CMD_CLEAR + TDF_EXTCOM.
Definition NSCMD_DEVICEQUERY : Z := 16384.
Definition NSDEVTYPE_TRACKDISK : Z := 5.

Definition TDERR_NotSpecified : Z := 20.
Definition TDERR_WriteProt : Z := 28.
Definition TDERR_DiskChanged : Z := 29.
Definition DRIVE3_5 : Z := 1.
Definition DG_DIRECT_ACCESS : Z := 0.
Definition DGF_REMOVABLE : Z := 1.

(** devices/serial.h. *)
Definition SDCMD_QUERY : Z := CMD_NONSTD + 0.
Definition SDCMD_SETPARAMS : Z := CMD_NONSTD + 2.
Definition IO_STATF_OVERRUN : Z := 256.
Definition SERF_XDISABLED : Z := 128.
Definition SERF_RAD_BOOGIE : Z := 16.
Definition SERF_PARTY_ON : Z := 1.
Definition SER_DEFAULT_CTLCHAR : Z := 286457856.
Definition SerErr_BaudMismatch : Z := 2.
Definition SerErr_InvParam : Z := 5.
