(* ===== verification/Effects.v ===== *)
(** * Effectful code: a state monad with loops that may not end

    [M St A] is a computation on a state [St] that gives an [A], or [None]
    when a loop has used up its fuel.  [wp] is its weakest precondition; the
    proposition [hang] says what running out of fuel may count as: with
    [True] a triple is about computations that return, with [False] it also
    says that they do. *)

From S2P Require Import Prelude.

Definition M (St A : Type) : Type := St -> option (A * St).

#[export] Instance M_ret {St} : MRet (M St) := fun A a s => Some (a, s).
#[export] Instance M_bind {St} : MBind (M St) := fun A B f m s =>
  match m s with
  | Some (a, s') => f a s'
  | None => None
  end.

Definition gets {St A} (f : St -> A) : M St A := fun s => Some (f s, s).
Definition modify {St} (f : St -> St) : M St unit := fun s => Some (tt, f s).
Definition out_of_fuel {St A} : M St A := fun _ => None.
(** [if (b) m;] *)
Definition when {St} (b : bool) (m : M St unit) : M St unit := if b then m else mret tt.

Section Wp.
Context {St : Type} (hang : Prop).

Definition wp {A} (m : M St A) (Q : A -> St -> Prop) (s : St) : Prop :=
  match m s with
  | Some (a, s') => Q a s'
  | None => hang
  end.

Lemma wp_ret {A} (a : A) (Q : A -> St -> Prop) s : Q a s -> wp (mret a) Q s.
Proof. done. Qed.
Lemma wp_bind {A B} (m : M St A) (f : A -> M St B) Q s :
  wp m (fun a s' => wp (f a) Q s') s -> wp (m ≫= f) Q s.
Proof. unfold wp, mbind, M_bind. by destruct (m s) as [[a s']|]. Qed.
Lemma wp_gets {A} (f : St -> A) (Q : A -> St -> Prop) s : Q (f s) s -> wp (gets f) Q s.
Proof. done. Qed.
Lemma wp_modify f (Q : unit -> St -> Prop) s : Q tt (f s) -> wp (modify f) Q s.
Proof. done. Qed.
Lemma wp_fuel {A} (Q : A -> St -> Prop) s : hang -> wp out_of_fuel Q s.
Proof. done. Qed.
Lemma wp_when b m (Q : unit -> St -> Prop) s :
  (b = true -> wp m Q s) -> (b = false -> Q tt s) -> wp (when b m) Q s.
Proof. destruct b; cbn; auto. Qed.
Lemma wp_if {A} (b : bool) (m1 m2 : M St A) Q s :
  (b = true -> wp m1 Q s) -> (b = false -> wp m2 Q s) -> wp (if b then m1 else m2) Q s.
Proof. destruct b; auto. Qed.
Lemma wp_mono {A} (m : M St A) (Q Q' : A -> St -> Prop) s :
  (forall a s', Q a s' -> Q' a s') -> wp m Q s -> wp m Q' s.
Proof. unfold wp. destruct (m s) as [[a s']|]; auto. Qed.

Lemma wp_use {A B} (m : M St A) (P : A -> St -> Prop) (f : A -> M St B) Q s :
  wp m P s -> (forall a s', P a s' -> wp (f a) Q s') -> wp (m ≫= f) Q s.
Proof. intros Hm Hf. apply wp_bind. eapply wp_mono; [|exact Hm]. exact Hf. Qed.

(** What it returns is what it returns. *)
Lemma wp_self {A} (m : M St A) (Q : A -> St -> Prop) s :
  wp m Q s -> wp m (fun a s' => m s = Some (a, s') /\ Q a s') s.
Proof. unfold wp. by destruct (m s) as [[a s']|]. Qed.

Lemma wp_and {A} (m : M St A) (P Q : A -> St -> Prop) s :
  wp m P s -> wp m Q s -> wp m (fun a s' => P a s' /\ Q a s') s.
Proof. unfold wp. by destruct (m s) as [[a s']|]. Qed.

(** A computation that returns. *)
Lemma wp_run {A} (m : M St A) Q s a s' : wp m Q s -> m s = Some (a, s') -> Q a s'.
Proof. unfold wp. intros H E. by rewrite E in H. Qed.
End Wp.

Lemma wp_total {St A} (m : M St A) Q s : wp False m Q s -> exists a s', m s = Some (a, s') /\ Q a s'.
Proof. unfold wp. destruct (m s) as [[a s']|]; [by eauto|done]. Qed.

(** A fact about what is returned, if anything is. *)
Lemma wp_returns {St A} (m : M St A) (P Q : A -> St -> Prop) s :
  wp False m P s -> wp True m Q s -> wp False m (fun a s' => P a s' /\ Q a s') s.
Proof. unfold wp. by destruct (m s) as [[a s']|]. Qed.
Lemma wp_past {St A B} (m : M St A) (k : A -> M St B) Q s :
  (forall a s', wp True (k a) Q s') -> wp True (m ≫= k) Q s.
Proof. unfold wp, mbind, M_bind. destruct (m s) as [[a s']|]; [|done]. intros H. apply H. Qed.

(** One step of the weakest precondition, from the head of the program. *)
Ltac wp_step :=
  lazymatch goal with
  | |- wp _ (mbind _ _) _ _ => apply wp_bind
  | |- wp _ (mret _) _ _ => apply wp_ret
  | |- wp _ (gets _) _ _ => apply wp_gets
  | |- wp _ (modify _) _ _ => apply wp_modify
  | |- wp _ (when _ _) _ _ => apply wp_when; intros ?
  | |- wp _ (if _ then _ else _) _ _ => apply wp_if; intros ?
  end.
