(* ===== verification/IoQueue.v ===== *)
(** * The request queue (amiga/common/fujinet_io_queue.c)

    An intrusive doubly linked list of I/O requests.  Nodes live in a heap
    and are named by their addresses, so that linking and unlinking are the
    pointer updates of the source.  The queue is shown to implement the
    abstract one, a list of entries from which the first eligible one is
    taken. *)

From S2P Require Import Prelude.
From stdpp Require Import gmap.
#[local] Open Scope Z_scope.

(** An address; a pointer is [None] when null. *)
Abbreviation loc := positive (only parsing).

Record fujinet_io_queue_node_t := mkNode {
  next : option loc;
  previous : option loc;
  request : Z;
  command : Z;
  unit : Z
}.

#[export] Instance eta_node : Eta fujinet_io_queue_node_t :=
  fun n => mkNode (next n) (previous n) (request n) (command n) (unit n).
Definition set_next : option loc -> fujinet_io_queue_node_t -> fujinet_io_queue_node_t :=
  ltac:(derive_setter next).
Definition set_previous : option loc -> fujinet_io_queue_node_t -> fujinet_io_queue_node_t :=
  ltac:(derive_setter previous).

Abbreviation heap := (gmap positive fujinet_io_queue_node_t).

Record fujinet_io_queue_t := mkQueue {
  head : option loc;
  tail : option loc
}.

(** Queue and heap. *)
Definition state : Type := fujinet_io_queue_t * heap.

Definition null_node : fujinet_io_queue_node_t := mkNode None None 0 0 0.

(** [p->...]; the source dereferences only nodes that are in the heap. *)
Definition deref (h : heap) (p : loc) : fujinet_io_queue_node_t := default null_node (h !! p).

Definition detach (p : loc) (s : state) : state :=
  let '(q, h) := s in
  let node := deref h p in
  let '(q, h) := match previous node with
                 | Some b => (q, alter (set_next (next node)) b h)
                 | None => (mkQueue (next node) (tail q), h)
                 end in
  let '(q, h) := match next node with
                 | Some a => (q, alter (set_previous (previous node)) a h)
                 | None => (mkQueue (head q) (previous node), h)
                 end in
  (q, alter (fun n => set_previous None (set_next None n)) p h).

Definition fujinet_io_queue_init (h : heap) : state := (mkQueue None None, h).

Definition fujinet_io_queue_append (p : loc) (req unit command : Z) (s : state) : state :=
  let '(q, h) := s in
  let h := <[p := mkNode None (tail q) req command unit]> h in
  let '(q, h) := match tail q with
                 | Some t => (q, alter (set_next (Some p)) t h)
                 | None => (mkQueue (Some p) (tail q), h)
                 end in
  (mkQueue (head q) (Some p), h).

(** [for (node = queue->head; node != 0; node = node->next) if (...)]: the
    node the loop stops at.  A walk visits every node of the heap at most
    once, so the heap's size is fuel enough. *)
Fixpoint walk (fuel : nat) (wanted : fujinet_io_queue_node_t -> bool) (h : heap) (cur : option loc)
    : option loc :=
  match fuel, cur with
  | S fuel', Some p => if wanted (deref h p) then Some p else walk fuel' wanted h (next (deref h p))
  | _, _ => None
  end.

(** The body shared by the three removals: find, detach, return. *)
Definition take_first (wanted : fujinet_io_queue_node_t -> bool) (s : state) : option loc * state :=
  let '(q, h) := s in
  match walk (S (size h)) wanted h (head q) with
  | Some p => (Some p, detach p s)
  | None => (None, s)
  end.

(** The test of [fujinet_io_queue_next]; [stopped] is indexed by the unit. *)
Definition runnable (stopped : list bool) (unit_count start_command flush_command : Z)
    (node : fujinet_io_queue_node_t) : bool :=
  (unit node <? unit_count)
  && (negb (nth (Z.to_nat (unit node)) stopped false) || (command node =? start_command)
      || (command node =? flush_command)).

Definition fujinet_io_queue_next (stopped : list bool) (unit_count start_command flush_command : Z)
    (s : state) : option loc * state :=
  take_first (runnable stopped unit_count start_command flush_command) s.

Definition fujinet_io_queue_remove_request (req : Z) (s : state) : option loc * state :=
  take_first (fun node => request node =? req) s.

Definition fujinet_io_queue_take_unit (u : Z) (s : state) : option loc * state :=
  take_first (fun node => unit node =? u) s.

(** ** The abstract queue *)

Record entry := mkEntry {
  e_node : loc;
  e_request : Z;
  e_command : Z;
  e_unit : Z
}.

(** Remove the first entry that satisfies [f]. *)
Fixpoint take_entry (f : entry -> bool) (es : list entry) : option loc * list entry :=
  match es with
  | [] => (None, [])
  | e :: es => if f e then (Some (e_node e), es)
               else let '(r, es') := take_entry f es in (r, e :: es')
  end.

(** The node that represents an entry between two neighbours. *)
Definition node_of (nx pv : option loc) (e : entry) : fujinet_io_queue_node_t :=
  mkNode nx pv (e_request e) (e_command e) (e_unit e).

Definition first_loc (es : list entry) (after : option loc) : option loc :=
  match es with e :: _ => Some (e_node e) | [] => after end.
Definition last_loc (es : list entry) (before : option loc) : option loc :=
  match last es with Some e => Some (e_node e) | None => before end.

(** [dll h pv es nx]: the entries [es] are linked in the heap, the first one
    back to [pv] and the last one on to [nx]. *)
Fixpoint dll (h : heap) (pv : option loc) (es : list entry) (nx : option loc) : Prop :=
  match es with
  | [] => True
  | e :: es' =>
      h !! e_node e = Some (node_of (first_loc es' nx) pv e) /\ dll h (Some (e_node e)) es' nx
  end.

Definition queue_of (s : state) (es : list entry) : Prop :=
  NoDup (e_node <$> es) /\ dll s.2 None es None /\
  head s.1 = first_loc es None /\ tail s.1 = last_loc es None.

(** ** Linked segments *)

Lemma first_loc_app a b nx : first_loc (a ++ b) nx = first_loc a (first_loc b nx).
Proof. by destruct a. Qed.
Lemma last_loc_app a b pv : last_loc (a ++ b) pv = last_loc b (last_loc a pv).
Proof. unfold last_loc. rewrite last_app. by destruct (last b), (last a). Qed.
Lemma last_loc_cons e es pv : last_loc (e :: es) pv = last_loc es (Some (e_node e)).
Proof. change (e :: es) with ([e] ++ es). by rewrite last_loc_app. Qed.

Lemma dll_app h pv a b nx :
  dll h pv (a ++ b) nx <-> dll h pv a (first_loc b nx) /\ dll h (last_loc a pv) b nx.
Proof.
  revert pv. induction a as [|e a IH]; intros pv; simpl; [tauto|].
  rewrite IH, first_loc_app, last_loc_cons. tauto.
Qed.

Lemma dll_frame h h' pv es nx :
  (forall p, p ∈ (e_node <$> es) -> h' !! p = h !! p) -> dll h pv es nx -> dll h' pv es nx.
Proof.
  revert pv. induction es as [|e es IH]; intros pv Hh; simpl in *; [done|].
  intros [H1 H2]. split; [rewrite Hh by set_solver; done|]. apply IH; [set_solver|done].
Qed.

(** Relinking the two ends of a segment. *)
Lemma dll_set_next h pv es t nx nx' :
  NoDup (e_node <$> es) -> last_loc es None = Some t ->
  dll h pv es nx -> dll (alter (set_next nx') t h) pv es nx'.
Proof.
  intros Hnd Hl Hd. destruct (exists_last (l := es)) as (a & e & ->); [by intros ->|].
  rewrite last_loc_app in Hl. injection Hl as <-. rewrite fmap_app in Hnd.
  apply NoDup_app in Hnd as (_ & Hdis & _). apply dll_app in Hd as [H1 H2]. apply dll_app.
  simpl in *. split.
  - eapply dll_frame; [|exact H1]. intros p Hp. apply lookup_alter_ne.
    intros <-. apply (Hdis (e_node e) Hp). set_solver.
  - split; [|done]. destruct H2 as [H2 _]. by rewrite lookup_alter_eq, H2.
Qed.

Lemma dll_set_previous h pv pv' es f nx :
  NoDup (e_node <$> es) -> first_loc es None = Some f ->
  dll h pv es nx -> dll (alter (set_previous pv') f h) pv' es nx.
Proof.
  destruct es as [|e es]; [done|]. intros Hnd [= <-] [H1 H2]. simpl in Hnd.
  apply NoDup_cons in Hnd as [Hn _]. split.
  - by rewrite lookup_alter_eq, H1.
  - eapply dll_frame; [|exact H2]. intros p Hp. apply lookup_alter_ne. by intros <-.
Qed.

(** An update of [alter] elsewhere leaves a segment alone. *)
Lemma dll_alter h g p pv es nx :
  p ∉ (e_node <$> es) -> dll h pv es nx -> dll (alter g p h) pv es nx.
Proof. intros Hp. apply dll_frame. intros r Hr. apply lookup_alter_ne. by intros <-. Qed.

Lemma last_loc_in es p : last_loc es None = Some p -> p ∈ (e_node <$> es).
Proof.
  unfold last_loc. destruct (last es) as [e|] eqn:E; [|done]. intros [= <-].
  apply last_Some_elem_of in E. apply list_elem_of_fmap. by exists e.
Qed.
Lemma first_loc_in es p : first_loc es None = Some p -> p ∈ (e_node <$> es).
Proof. destruct es; [done|]. intros [= <-]. set_solver. Qed.

Lemma first_loc_some es nx p : first_loc es None = Some p -> first_loc es nx = Some p.
Proof. by destruct es. Qed.
Lemma last_loc_some es pv p : last_loc es None = Some p -> last_loc es pv = Some p.
Proof. unfold last_loc. by destruct (last es). Qed.
Lemma first_loc_none es : first_loc es None = None -> es = [].
Proof. by destruct es. Qed.
Lemma last_loc_none es : last_loc es None = None -> es = [].
Proof. unfold last_loc. destruct (last es) eqn:E; [done|]. intros _. by apply last_None. Qed.

(** ** Append and detach *)

Lemma append_links s es p req u c :
  queue_of s es -> p ∉ (e_node <$> es) ->
  queue_of (fujinet_io_queue_append p req u c s) (es ++ [mkEntry p req c u]).
Proof.
  destruct s as [[hd tl] h]. intros (Hnd & Hd & Hh & Ht) Hp. simpl in *. subst.
  assert (Hnd' : NoDup (e_node <$> es ++ [mkEntry p req c u])).
  { rewrite fmap_app. apply NoDup_app. split_and!; [done| |apply NoDup_singleton].
    intros x Hx Hx'. apply list_elem_of_singleton in Hx' as ->. done. }
  assert (Hd1 : dll (<[p := mkNode None (last_loc es None) req c u]> h) None es None).
  { eapply dll_frame; [|exact Hd]. intros r Hr. apply lookup_insert_ne. by intros ->. }
  unfold fujinet_io_queue_append, queue_of. simpl.
  destruct (last_loc es None) as [t|] eqn:Et; simpl.
  - rewrite first_loc_app, last_loc_app, dll_app. split_and!; try done.
    + by eapply dll_set_next.
    + rewrite Et. simpl. rewrite lookup_alter_ne, lookup_insert_eq; [done|].
      intros <-. by apply Hp, last_loc_in.
    + destruct (first_loc es None) eqn:E; [by erewrite first_loc_some|].
      by rewrite (first_loc_none _ E) in Et.
  - apply last_loc_none in Et as ->. split_and!; try done. simpl.
    by rewrite lookup_insert_eq.
Qed.

Lemma nodup_parts (a b : list entry) e :
  NoDup (e_node <$> (a ++ e :: b)) ->
  NoDup (e_node <$> a) /\ NoDup (e_node <$> b) /\ e_node e ∉ (e_node <$> a) /\
  e_node e ∉ (e_node <$> b) /\ (forall p, p ∈ (e_node <$> a) -> p ∉ (e_node <$> b)) /\
  NoDup (e_node <$> (a ++ b)).
Proof.
  rewrite !fmap_app, fmap_cons. intros H. apply NoDup_app in H as (Ha & Hd & Hb).
  apply NoDup_cons in Hb as [He Hb].
  assert (He' : e_node e ∉ (e_node <$> a)) by (intros Hin; apply (Hd _ Hin); left).
  assert (Hab : forall p, p ∈ (e_node <$> a) -> p ∉ (e_node <$> b))
    by (intros p Hp Hq; apply (Hd _ Hp); by right).
  split_and!; try done. by apply NoDup_app.
Qed.

(** What detaching does to the two neighbours. *)
Definition relink_next (pv nx : option loc) (h : heap) : heap :=
  match pv with Some t => alter (set_next nx) t h | None => h end.
Definition relink_previous (pv nx : option loc) (h : heap) : heap :=
  match nx with Some f => alter (set_previous pv) f h | None => h end.

Lemma detach_fields p q h :
  let node := deref h p in
  detach p (q, h) =
  (mkQueue (match previous node with Some _ => head q | None => next node end)
           (match next node with Some _ => tail q | None => previous node end),
   alter (fun n => set_previous None (set_next None n)) p
     (relink_previous (previous node) (next node) (relink_next (previous node) (next node) h))).
Proof.
  unfold detach, relink_previous, relink_next. destruct q, (deref h p) as [[nx|] [pv|] r c u]; done.
Qed.

Section Relink.
Context (h : heap) (a b : list entry) (p : loc).
Hypothesis Hna : NoDup (e_node <$> a).
Hypothesis Hnb : NoDup (e_node <$> b).
Hypothesis Hdis : forall x, x ∈ (e_node <$> a) -> x ∉ (e_node <$> b).
Let pv := last_loc a None.
Let nx := first_loc b None.

Lemma relink_next_links :
  dll h None a (Some p) -> dll h (Some p) b None ->
  dll (relink_next pv nx h) None a nx /\ dll (relink_next pv nx h) (Some p) b None.
Proof.
  intros Ha Hb. unfold relink_next, pv. destruct (last_loc a None) as [t|] eqn:E.
  - split; [by eapply dll_set_next|]. apply dll_alter; [|done]. by apply Hdis, last_loc_in.
  - by apply last_loc_none in E as ->.
Qed.

Lemma relink_previous_links :
  dll h None a nx -> dll h (Some p) b None ->
  dll (relink_previous pv nx h) None a nx /\ dll (relink_previous pv nx h) pv b None.
Proof.
  intros Ha Hb. unfold relink_previous, nx in *. destruct (first_loc b None) as [f|] eqn:E.
  - split; [|by eapply dll_set_previous]. apply dll_alter; [|done].
    intros Hf. apply (Hdis _ Hf). by apply first_loc_in.
  - by apply first_loc_none in E as ->.
Qed.

Lemma relink_next_other :
  p ∉ (e_node <$> a) -> relink_next pv nx h !! p = h !! p.
Proof.
  intros Hp. unfold relink_next, pv. destruct (last_loc a None) as [t|] eqn:E; [|done].
  apply lookup_alter_ne. intros ->. by apply Hp, last_loc_in.
Qed.

Lemma relink_previous_other :
  p ∉ (e_node <$> b) -> relink_previous pv nx h !! p = h !! p.
Proof.
  intros Hp. unfold relink_previous, nx. destruct (first_loc b None) as [f|] eqn:E; [|done].
  apply lookup_alter_ne. intros ->. by apply Hp, first_loc_in.
Qed.
End Relink.

(** Head and tail after the entry between [a] and [b] is gone. *)
Lemma head_after a b (e : entry) :
  match last_loc a None with
  | Some _ => first_loc (a ++ e :: b) None
  | None => first_loc b None
  end = first_loc (a ++ b) None.
Proof. destruct a as [|x a]; [done|]. destruct (last_loc (x :: a) None) eqn:E; [done|]. by apply last_loc_none in E. Qed.
Lemma tail_after a b (e : entry) :
  match first_loc b None with
  | Some _ => last_loc (a ++ e :: b) None
  | None => last_loc a None
  end = last_loc (a ++ b) None.
Proof.
  destruct b as [|x b]; simpl; [by rewrite app_nil_r|].
  rewrite !last_loc_app, last_loc_cons. by rewrite !(last_loc_cons x b).
Qed.

(** What the node left behind looks like. *)
Definition unlinked (e : entry) : fujinet_io_queue_node_t := node_of None None e.

Lemma detach_links q h a e b :
  queue_of (q, h) (a ++ e :: b) ->
  queue_of (detach (e_node e) (q, h)) (a ++ b) /\
  (detach (e_node e) (q, h)).2 !! e_node e = Some (unlinked e).
Proof.
  destruct q as [hd tl]. intros (Hnd & Hd & Hh & Ht). simpl in Hd, Hh, Ht. subst.
  destruct (nodup_parts _ _ _ Hnd) as (Na & Nb & Hea & Heb & Hab & Nab).
  apply dll_app in Hd as [Hda [He Hdb]]. simpl in Hda.
  rewrite detach_fields. unfold deref. rewrite He. simpl.
  destruct (relink_next_links h a b _ Na Hab Hda Hdb) as [H1a H1b].
  destruct (relink_previous_links _ a b _ Nb Hab H1a H1b) as [H2a H2b].
  split.
  - split_and!; simpl; [done| |apply head_after|apply tail_after].
    apply dll_app. by split; apply dll_alter.
  - rewrite lookup_alter_eq, relink_previous_other, relink_next_other, He; done.
Qed.

(** ** Searching *)

(** A test on nodes that looks only at the request, its command and unit. *)
Definition agrees (wanted : fujinet_io_queue_node_t -> bool) (f : entry -> bool) : Prop :=
  forall nx pv e, wanted (node_of nx pv e) = f e.

Fixpoint find_entry (f : entry -> bool) (es : list entry) : option (list entry * entry * list entry) :=
  match es with
  | [] => None
  | e :: es => if f e then Some ([], e, es)
               else match find_entry f es with
                    | Some (a, x, b) => Some (e :: a, x, b)
                    | None => None
                    end
  end.

Lemma find_entry_split f es :
  match find_entry f es with
  | Some (a, e, b) => es = a ++ e :: b /\ take_entry f es = (Some (e_node e), a ++ b)
  | None => take_entry f es = (None, es)
  end.
Proof.
  induction es as [|e es IH]; [done|]. simpl. destruct (f e); [done|].
  destruct (find_entry f es) as [[[a x] b]|].
  - destruct IH as [-> ->]. done.
  - by rewrite IH.
Qed.

Lemma find_entry_first f es a e b :
  find_entry f es = Some (a, e, b) ->
  es = a ++ e :: b /\ f e = true /\ Forall (fun x => f x = false) a.
Proof.
  revert a e b. induction es as [|x es IH]; intros a e b; simpl; [done|].
  destruct (f x) eqn:E.
  - intros [= <- <- <-]. done.
  - destruct (find_entry f es) as [[[a' e'] b']|]; [|done]. intros [= <- <- <-].
    destruct (IH _ _ _ eq_refl) as (-> & ? & ?). split; [done|]. split; [done|]. by constructor.
Qed.

Lemma find_entry_none f es : find_entry f es = None -> Forall (fun x => f x = false) es.
Proof.
  induction es as [|x es IH]; simpl; [done|]. destruct (f x) eqn:E; [done|].
  destruct (find_entry f es) as [[[]]|]; [done|]. intros _. constructor; [done|]. by apply IH.
Qed.

Lemma walk_finds wanted f h es pv fuel :
  agrees wanted f -> dll h pv es None -> (length es < fuel)%nat ->
  walk fuel wanted h (first_loc es None) =
  match find_entry f es with Some (_, e, _) => Some (e_node e) | None => None end.
Proof.
  intros Hf. revert pv fuel. induction es as [|e es IH]; intros pv fuel Hd Hlen.
  - by destruct fuel.
  - destruct fuel as [|fuel]; [simpl in Hlen; lia|]. destruct Hd as [He Hd]. simpl.
    unfold deref. rewrite He. simpl. rewrite Hf. destruct (f e); [done|].
    rewrite (IH _ fuel Hd) by (simpl in Hlen; lia). by destruct (find_entry f es) as [[[]]|].
Qed.

Lemma dll_dom h pv es nx p : dll h pv es nx -> p ∈ (e_node <$> es) -> p ∈ dom h.
Proof.
  revert pv. induction es as [|e es IH]; intros pv; simpl; [intros _ Hp; by apply elem_of_nil in Hp|].
  intros [He Hd] Hp. apply elem_of_cons in Hp as [->|Hp]; [|by eapply IH].
  apply elem_of_dom. by rewrite He.
Qed.

(** The heap's size bounds the walk. *)
Lemma queue_length s es : queue_of s es -> (length es <= size s.2)%nat.
Proof.
  intros (Hnd & Hd & _). rewrite <-size_dom, <-(length_fmap e_node es).
  rewrite <-(size_list_to_set (C := gset positive)) by done. apply subseteq_size.
  intros p Hp. apply elem_of_list_to_set in Hp. by eapply dll_dom.
Qed.

Lemma take_first_refines wanted f s es :
  agrees wanted f -> queue_of s es ->
  (take_first wanted s).1 = (take_entry f es).1 /\
  queue_of (take_first wanted s).2 (take_entry f es).2.
Proof.
  intros Hf Hq. destruct s as [q h]. pose proof (queue_length _ _ Hq) as Hlen.
  unfold take_first. pose proof Hq as (_ & Hd & Hh & _). cbn [fst snd] in *. rewrite Hh.
  rewrite (walk_finds wanted f h es None) by (done || lia).
  pose proof (find_entry_split f es) as Hs.
  destruct (find_entry f es) as [[[a e] b]|]; [|by rewrite Hs].
  destruct Hs as [-> ->]. split; [done|]. by apply detach_links.
Qed.

(** The node taken is the entry's, out of the remaining links, and keeps the
    request, so that its owner may free it. *)
Lemma take_first_node wanted f s es p s' :
  agrees wanted f -> queue_of s es -> take_first wanted s = (Some p, s') ->
  exists a e b, es = a ++ e :: b /\ f e = true /\ Forall (fun x => f x = false) a /\ p = e_node e /\
    s'.2 !! p = Some (unlinked e) /\ queue_of s' (a ++ b) /\ p ∉ (e_node <$> (a ++ b)).
Proof.
  intros Hf Hq Ht. destruct s as [q h]. pose proof (queue_length _ _ Hq) as Hlen.
  unfold take_first in Ht. pose proof Hq as (Hnd & Hd & Hh & _). cbn [fst snd] in *. rewrite Hh in Ht.
  rewrite (walk_finds wanted f h es None) in Ht by (done || lia).
  destruct (find_entry f es) as [[[a e] b]|] eqn:E; [|done]. injection Ht as <- <-.
  destruct (find_entry_first _ _ _ _ _ E) as (-> & He & Ha).
  exists a, e, b. destruct (detach_links _ _ _ _ _ Hq) as [H1 H2]. do 3 (split; [done|]).
  split; [done|]. split; [done|]. split; [done|].
  destruct (nodup_parts _ _ _ Hnd) as (_ & _ & Hea & Heb & _).
  rewrite fmap_app, elem_of_app. tauto.
Qed.

Lemma take_first_none wanted f s es s' :
  agrees wanted f -> queue_of s es -> take_first wanted s = (None, s') ->
  s' = s /\ Forall (fun x => f x = false) es.
Proof.
  intros Hf Hq Ht. destruct s as [q h]. pose proof (queue_length _ _ Hq) as Hlen.
  unfold take_first in Ht. pose proof Hq as (Hnd & Hd & Hh & _). cbn [fst snd] in *. rewrite Hh in Ht.
  rewrite (walk_finds wanted f h es None) in Ht by (done || lia).
  destruct (find_entry f es) as [[[a e] b]|] eqn:E; [done|]. injection Ht as <-.
  split; [done|]. by apply find_entry_none.
Qed.

(** Memory that is not a queued node is not the queue's. *)
Lemma queue_of_free q h es p : p ∉ (e_node <$> es) -> queue_of (q, h) es -> queue_of (q, delete p h) es.
Proof.
  intros Hp (Hnd & Hd & Hh & Ht). split_and!; try done. eapply dll_frame; [|exact Hd].
  intros r Hr. apply lookup_delete_ne. by intros ->.
Qed.

Lemma queue_of_fresh q h es p : queue_of (q, h) es -> h !! p = None -> p ∉ (e_node <$> es).
Proof. intros (_ & Hd & _) Hp Hin. eapply dll_dom, elem_of_dom in Hin as [? ?]; [|exact Hd]. simpl in *. congruence. Qed.

Lemma queue_head_nil s es : queue_of s es -> (head s.1 = None <-> es = []).
Proof. intros (_ & _ & Hh & _). rewrite Hh. split; [apply first_loc_none|by intros ->]. Qed.

(** What the owner of the queue does with a removal: the node that comes out
    is freed, and the other entries stay in order. *)
Lemma take_and_free wanted f s es :
  agrees wanted f -> queue_of s es ->
  match take_first wanted s with
  | (Some p, s') =>
      exists a e b, es = a ++ e :: b /\ f e = true /\ Forall (fun x => f x = false) a /\
        p = e_node e /\ deref s'.2 p = unlinked e /\ queue_of (s'.1, delete p s'.2) (a ++ b)
  | (None, s') => s' = s /\ Forall (fun x => f x = false) es
  end.
Proof.
  intros Hf Hq. destruct (take_first wanted s) as [[p|] s'] eqn:Et.
  - destruct (take_first_node _ _ _ _ _ _ Hf Hq Et) as (a & e & b & -> & He & Ha & -> & Hn & Hq' & Hp).
    exists a, e, b. do 4 (split; [done|]). split; [by unfold deref; rewrite Hn|].
    destruct s'. by apply queue_of_free.
  - by eapply take_first_none.
Qed.

(** ** The queue as a machine *)

Inductive op :=
  | Append (p : loc) (req u c : Z)
  | Next (stopped : list bool) (unit_count start_command flush_command : Z)
  | RemoveRequest (req : Z)
  | TakeUnit (u : Z).

Definition step (o : op) (s : state) : option loc * state :=
  match o with
  | Append p req u c => (None, fujinet_io_queue_append p req u c s)
  | Next st n sc fc => fujinet_io_queue_next st n sc fc s
  | RemoveRequest req => fujinet_io_queue_remove_request req s
  | TakeUnit u => fujinet_io_queue_take_unit u s
  end.

(** The same on lists of entries. *)
Definition entry_runnable (stopped : list bool) (unit_count start_command flush_command : Z)
    (e : entry) : bool :=
  (e_unit e <? unit_count)
  && (negb (nth (Z.to_nat (e_unit e)) stopped false) || (e_command e =? start_command)
      || (e_command e =? flush_command)).

Definition list_step (o : op) (es : list entry) : option loc * list entry :=
  match o with
  | Append p req u c => (None, es ++ [mkEntry p req c u])
  | Next st n sc fc => take_entry (entry_runnable st n sc fc) es
  | RemoveRequest req => take_entry (fun e => e_request e =? req) es
  | TakeUnit u => take_entry (fun e => e_unit e =? u) es
  end.

(** A node is appended only while it is not queued. *)
Definition allowed (o : op) (es : list entry) : Prop :=
  match o with Append p _ _ _ => p ∉ (e_node <$> es) | _ => True end.

Fixpoint run {S : Type} (f : op -> S -> option loc * S) (os : list op) (s : S) : list (option loc) * S :=
  match os with
  | [] => ([], s)
  | o :: os => let '(r, s) := f o s in let '(rs, s) := run f os s in (r :: rs, s)
  end.

Fixpoint all_allowed (os : list op) (es : list entry) : Prop :=
  match os with
  | [] => True
  | o :: os => allowed o es /\ all_allowed os (list_step o es).2
  end.

Lemma step_refines o s es :
  queue_of s es -> allowed o es ->
  (step o s).1 = (list_step o es).1 /\ queue_of (step o s).2 (list_step o es).2.
Proof.
  intros Hq Ho. destruct o; simpl in *.
  - split; [done|]. by apply append_links.
  - by apply take_first_refines.
  - by apply take_first_refines.
  - by apply take_first_refines.
Qed.

Lemma run_refines os : forall s es,
  queue_of s es -> all_allowed os es ->
  (run step os s).1 = (run list_step os es).1 /\ queue_of (run step os s).2 (run list_step os es).2.
Proof.
  induction os as [|o os IH]; intros s es Hq Ho; [done|]. destruct Ho as [H1 H2]. simpl.
  destruct (step_refines o s es Hq H1) as [Hr Hq'].
  destruct (step o s) as [r s'], (list_step o es) as [r' es']. simpl in *. subst r'.
  destruct (IH _ _ Hq' H2) as [Hrs Hq2].
  destruct (run step os s') as [rs s2], (run list_step os es') as [rs' es2]. simpl in *. by subst.
Qed.

(** C8: The queue is a list.  Run any operations from an empty queue, in any
    order, never appending a node that is still queued: every operation
    returns the node that the list machine returns (the first request that
    is runnable, that matches, or that belongs to the unit), and the links,
    the head and the tail describe the list machine's queue exactly. *)
Theorem io_queue_refines_list (h : heap) (os : list op) (Hos : all_allowed os []) :
  let c := run step os (fujinet_io_queue_init h) in
  let a := run list_step os [] in
  c.1 = a.1 /\ queue_of c.2 a.2.
Proof.
  apply run_refines; [|done]. split_and!; try done. apply NoDup_nil_2.
Qed.

Definition demo_ops : list op :=
  [Append 1%positive 100 0 5; Append 2%positive 101 1 5; Append 3%positive 102 0 9;
   Next [true; false] 2 9 8; RemoveRequest 102; TakeUnit 0; Append 3%positive 103 1 9;
   Next [true; true] 2 9 8].

Lemma io_queue_refines_list_witness :
  all_allowed demo_ops [] /\
  (run step demo_ops (fujinet_io_queue_init ∅)).1 =
  [None; None; None; Some 2%positive; Some 3%positive; Some 1%positive; None; Some 3%positive].
Proof.
  assert (H : all_allowed demo_ops []).
  { simpl. repeat split; apply (bool_decide_unpack _); vm_compute; exact I. }
  split; [exact H|].
  pose proof (io_queue_refines_list ∅ demo_ops H) as [Hr _]. rewrite Hr. vm_compute. reflexivity.
Defined.
