(* ===== verification/DiskDevice.v ===== *)
(** * fujinet-disk.device (amiga/disk.device/fujinet_disk_device.c)

    The trackdisk-compatible exec device over eight disk drivers: a request
    FIFO drained by one worker, per-unit stop and start, change notification,
    the slot catalogue and its stored mappings, and the command trace.  Every
    vector and every command is a function on the device base. *)

From S2P Require Import Prelude ExecIO FnLib DiskRetry DiskMedia DiskDriver IoQueue.
From stdpp Require Import gmap.
#[local] Open Scope Z_scope.

Definition MAPPINGS_SIZE : Z := 17.
Definition URI_CAPACITY : Z := 768.
Definition FUJINET_DISK_CMD_MOUNT : Z := CMD_NONSTD + 256.
Definition FUJINET_DISK_CMD_TRACE : Z := CMD_NONSTD + 257.
Definition FUJINET_DISK_CMD_MOUNT_WRITABLE : Z := CMD_NONSTD + 258.
Definition FUJINET_DISK_CMD_MOUNT_CATALOG : Z := CMD_NONSTD + 259.
Definition FUJINET_DISK_CMD_INSPECT_CATALOG : Z := CMD_NONSTD + 260.
Definition FUJINET_DISK_CMD_TRACE_CLEAR : Z := CMD_NONSTD + 261.
Definition FUJINET_DISK_CMD_RESTORE_BOOT : Z := CMD_NONSTD + 262.
Definition FUJINET_DISK_TRACE_CAPACITY : Z := 32.
Definition FUJINET_DISK_TRACE_ATTEMPTS : nat := FUJINET_DISK_RETRY_ATTEMPTS.

Definition supported_commands : list Z :=
  [CMD_RESET; CMD_READ; CMD_WRITE; CMD_UPDATE; CMD_CLEAR; CMD_START; CMD_STOP;
   CMD_FLUSH;
   ETD_READ; ETD_WRITE; ETD_UPDATE; ETD_CLEAR;
   TD_MOTOR; TD_SEEK; TD_CHANGENUM; TD_CHANGESTATE; TD_PROTSTATUS;
   TD_EJECT; TD_REMOVE; TD_ADDCHANGEINT; TD_REMCHANGEINT;
   TD_GETDRIVETYPE; TD_GETNUMTRACKS; TD_GETGEOMETRY;
   NSCMD_DEVICEQUERY; FUJINET_DISK_CMD_MOUNT;
   FUJINET_DISK_CMD_MOUNT_WRITABLE; FUJINET_DISK_CMD_MOUNT_CATALOG;
   FUJINET_DISK_CMD_INSPECT_CATALOG; FUJINET_DISK_CMD_RESTORE_BOOT; 0].

(** ** The trace, one record per entry of its arrays *)

Record trace_entry := mkTrace {
  t_command : Z;
  t_offset : Z;
  t_length : Z;
  t_actual : Z;
  t_error : Z;
  t_attempts : Z;
  t_results : list Z;
  t_causes : list Z;
  t_native_errors : list Z;
  t_statuses : list Z;
  t_response_lengths : list Z
}.

Definition trace_zero : trace_entry :=
  mkTrace 0 0 0 0 0 0 (zeros FUJINET_DISK_TRACE_ATTEMPTS) (zeros FUJINET_DISK_TRACE_ATTEMPTS)
    (zeros FUJINET_DISK_TRACE_ATTEMPTS) (zeros FUJINET_DISK_TRACE_ATTEMPTS)
    (zeros FUJINET_DISK_TRACE_ATTEMPTS).

Record fujinet_disk_trace := mkTraces {
  count : Z;
  entries : list trace_entry
}.

Definition no_trace : fujinet_disk_trace :=
  mkTraces 0 (replicate (Z.to_nat FUJINET_DISK_TRACE_CAPACITY) trace_zero).

(** ** Requests *)

(** [struct DriveGeometry], without its reserved word. *)
Record DriveGeometry := mkGeometry {
  dg_SectorSize : Z;
  dg_TotalSectors : Z;
  dg_Cylinders : Z;
  dg_CylSectors : Z;
  dg_Heads : Z;
  dg_TrackSectors : Z;
  dg_BufMemType : Z;
  dg_DeviceType : Z;
  dg_Flags : Z
}.

Record NSDeviceQueryResult := mkQuery {
  nsdqr_DevQueryFormat : Z;
  nsdqr_SizeAvailable : Z;
  nsdqr_DeviceType : Z;
  nsdqr_DeviceSubType : Z;
  nsdqr_SupportedCommands : list Z
}.

(** The memory [io_Data] points to, in the view each command has of it: as
    bytes, as [fujinet_disk_catalog_mount] or
    [fujinet_disk_catalog_inspection], as the trace, and so on.  A request
    carries one command, which uses one view. *)
Record client_memory := mkMemory {
  m_bytes : list Z;
  m_catalog_slot : Z;
  m_writable : Z;
  m_inspection : list Z;
  m_trace : fujinet_disk_trace;
  m_geometry : DriveGeometry;
  m_query : NSDeviceQueryResult
}.

#[export] Instance eta_memory : Eta client_memory := fun m =>
  mkMemory (m_bytes m) (m_catalog_slot m) (m_writable m) (m_inspection m) (m_trace m)
    (m_geometry m) (m_query m).
Definition set_m_bytes : list Z -> client_memory -> client_memory := ltac:(derive_setter m_bytes).
Definition set_m_inspection : list Z -> client_memory -> client_memory := ltac:(derive_setter m_inspection).
Definition set_m_trace : fujinet_disk_trace -> client_memory -> client_memory := ltac:(derive_setter m_trace).
Definition set_m_geometry : DriveGeometry -> client_memory -> client_memory := ltac:(derive_setter m_geometry).
Definition set_m_query : NSDeviceQueryResult -> client_memory -> client_memory := ltac:(derive_setter m_query).

(** [struct IOStdReq] and [struct IOExtTD].  [io_Unit] is [Some i] when it
    points to the device's unit [i]; [io_Data] is an address, 0 when null. *)
Record IOStdReq := mkIO {
  ln_Type : Z;
  io_Device : bool;
  io_Unit : option Z;
  io_Command : Z;
  io_Flags : Z;
  io_Error : Z;
  io_Actual : Z;
  io_Length : Z;
  io_Data : Z;
  io_Offset : Z;
  iotd_Count : Z;
  iotd_SecLabel : Z;
  memory : client_memory
}.

#[export] Instance eta_io : Eta IOStdReq := fun q =>
  mkIO (ln_Type q) (io_Device q) (io_Unit q) (io_Command q) (io_Flags q) (io_Error q) (io_Actual q)
    (io_Length q) (io_Data q) (io_Offset q) (iotd_Count q) (iotd_SecLabel q) (memory q).
Definition set_ln_Type : Z -> IOStdReq -> IOStdReq := ltac:(derive_setter ln_Type).
Definition set_io_Device : bool -> IOStdReq -> IOStdReq := ltac:(derive_setter io_Device).
Definition set_io_Unit : option Z -> IOStdReq -> IOStdReq := ltac:(derive_setter io_Unit).
Definition set_io_Command : Z -> IOStdReq -> IOStdReq := ltac:(derive_setter io_Command).
Definition set_io_Flags : Z -> IOStdReq -> IOStdReq := ltac:(derive_setter io_Flags).
Definition set_io_Error : Z -> IOStdReq -> IOStdReq := ltac:(derive_setter io_Error).
Definition set_io_Actual : Z -> IOStdReq -> IOStdReq := ltac:(derive_setter io_Actual).
Definition set_memory : client_memory -> IOStdReq -> IOStdReq := ltac:(derive_setter memory).

Definition quick (q : IOStdReq) : bool := negb (Z.land (io_Flags q) IOF_QUICK =? 0).
Definition clear_quick (q : IOStdReq) : IOStdReq :=
  set_io_Flags (Z.land (io_Flags q) (255 - IOF_QUICK)) q.

(** ** What the device calls *)

(** [fn_slot_catalog_entry_t]. *)
Record catalog_entry := mkEntryOf { ce_flags : Z; ce_uri_len : Z; ce_uri : list Z }.

(** The library's services on the world [W] behind it, which holds the memory
    exec allocates from.  The application store is the key "mappings" of
    "config-nio", from offset 0; reading it gets the caller's buffer and
    gives the result, the buffer, the flags and the bytes read.  The scratch
    buffer lent to the library is never read by the device. *)
Record services (W : Type) := mkServices {
  fn_init : W -> W * Z;
  fn_slot_catalog_get : W -> Z -> W * Z * catalog_entry;
  fn_appstore_read : W -> list Z -> W * Z * list Z * Z * Z;
  fn_appstore_write : W -> list Z -> W * Z * Z;
  fn_transport_close : W -> W;
  alloc_registration : W -> W * bool;
  FN_SLOT_CATALOG_ENTRY_VALID : Z;
  FN_APPSTORE_READ_EXISTS : Z
}.
#[global] Arguments mkServices {W}.
#[global] Arguments fn_init {W}.
#[global] Arguments fn_slot_catalog_get {W}.
#[global] Arguments fn_appstore_read {W}.
#[global] Arguments fn_appstore_write {W}.
#[global] Arguments fn_transport_close {W}.
#[global] Arguments alloc_registration {W}.
#[global] Arguments FN_SLOT_CATALOG_ENTRY_VALID {W}.
#[global] Arguments FN_APPSTORE_READ_EXISTS {W}.

(** Sizes the ABI decides. *)
Record abi := mkAbi {
  sizeof_catalog_mount : Z;
  sizeof_catalog_inspection : Z;
  sizeof_trace : Z;
  sizeof_geometry : Z;
  sizeof_query : Z
}.

(** ** The device *)

Record change_registration := mkRegistration { rg_request : Z; rg_interrupt : Z }.

(** The drivers' clients share the world, so a driver's context is the world
    and the unit's own [nio_context]; between calls the world is the base's.
    Addresses are 0 when null.  [change_requests] is exec's list, front
    first. *)
Record unit_state (W : Type) := mkUnit {
  driver : fujinet_disk_driver_t (W * fujinet_nio_disk_context_t);
  stopped : bool;
  change_requests : list change_registration;
  legacy_change_interrupt : Z
}.
#[global] Arguments mkUnit {W}.
#[global] Arguments driver {W}.
#[global] Arguments stopped {W}.
#[global] Arguments change_requests {W}.
#[global] Arguments legacy_change_interrupt {W}.

#[export] Instance eta_unit {W} : Eta (unit_state W) := fun u =>
  mkUnit (driver u) (stopped u) (change_requests u) (legacy_change_interrupt u).
Definition set_driver {W} : fujinet_disk_driver_t (W * fujinet_nio_disk_context_t) -> unit_state W -> unit_state W :=
  ltac:(derive_setter (@driver W)).
Definition set_stopped {W} : bool -> unit_state W -> unit_state W := ltac:(derive_setter (@stopped W)).
Definition set_change_requests {W} : list change_registration -> unit_state W -> unit_state W :=
  ltac:(derive_setter (@change_requests W)).
Definition set_legacy {W} : Z -> unit_state W -> unit_state W :=
  ltac:(derive_setter (@legacy_change_interrupt W)).

(** [fujinet_disk_device_base]; [units] is indexed by the unit number.
    [worker] tells that the worker task exists, [signalled] that its signal
    is pending.  [nodes] and [reqs] are the memory of queue nodes and
    requests; [replied] logs ReplyMsg, [caused] logs Cause. *)
Record device (W : Type) := mkDevice {
  lib_OpenCnt : Z;
  lib_Flags : Z;
  segment_list : Z;
  units : Z -> unit_state W;
  catalog_uri : list Z;
  request_uri : list Z;
  io_queue : fujinet_io_queue_t;
  io_processing : bool;
  transport_closed : bool;
  worker : bool;
  worker_signal : Z;
  signalled : bool;
  trace : fujinet_disk_trace;
  nodes : gmap positive fujinet_io_queue_node_t;
  reqs : Z -> IOStdReq;
  world : W;
  replied : list Z;
  caused : list Z;
  freed : bool
}.
#[global] Arguments mkDevice {W}.
#[global] Arguments lib_OpenCnt {W}.
#[global] Arguments lib_Flags {W}.
#[global] Arguments segment_list {W}.
#[global] Arguments units {W}.
#[global] Arguments catalog_uri {W}.
#[global] Arguments request_uri {W}.
#[global] Arguments io_queue {W}.
#[global] Arguments io_processing {W}.
#[global] Arguments transport_closed {W}.
#[global] Arguments worker {W}.
#[global] Arguments worker_signal {W}.
#[global] Arguments signalled {W}.
#[global] Arguments trace {W}.
#[global] Arguments nodes {W}.
#[global] Arguments reqs {W}.
#[global] Arguments world {W}.
#[global] Arguments replied {W}.
#[global] Arguments caused {W}.
#[global] Arguments freed {W}.

#[export] Instance eta_device {W} : Eta (device W) := fun d =>
  mkDevice (lib_OpenCnt d) (lib_Flags d) (segment_list d) (units d) (catalog_uri d) (request_uri d)
    (io_queue d) (io_processing d) (transport_closed d) (worker d) (worker_signal d) (signalled d)
    (trace d) (nodes d) (reqs d) (world d) (replied d) (caused d) (freed d).

Definition set_lib_OpenCnt {W} : Z -> device W -> device W := ltac:(derive_setter (@lib_OpenCnt W)).
Definition set_lib_Flags {W} : Z -> device W -> device W := ltac:(derive_setter (@lib_Flags W)).
Definition set_segment_list {W} : Z -> device W -> device W := ltac:(derive_setter (@segment_list W)).
Definition set_units {W} : (Z -> unit_state W) -> device W -> device W := ltac:(derive_setter (@units W)).
Definition set_catalog_uri {W} : list Z -> device W -> device W := ltac:(derive_setter (@catalog_uri W)).
Definition set_request_uri {W} : list Z -> device W -> device W := ltac:(derive_setter (@request_uri W)).
Definition set_io_queue {W} : fujinet_io_queue_t -> device W -> device W := ltac:(derive_setter (@io_queue W)).
Definition set_io_processing {W} : bool -> device W -> device W := ltac:(derive_setter (@io_processing W)).
Definition set_transport_closed {W} : bool -> device W -> device W := ltac:(derive_setter (@transport_closed W)).
Definition set_worker {W} : bool -> device W -> device W := ltac:(derive_setter (@worker W)).
Definition set_worker_signal {W} : Z -> device W -> device W := ltac:(derive_setter (@worker_signal W)).
Definition set_signalled {W} : bool -> device W -> device W := ltac:(derive_setter (@signalled W)).
Definition set_trace {W} : fujinet_disk_trace -> device W -> device W := ltac:(derive_setter (@trace W)).
Definition set_nodes {W} : gmap positive fujinet_io_queue_node_t -> device W -> device W := ltac:(derive_setter (@nodes W)).
Definition set_reqs {W} : (Z -> IOStdReq) -> device W -> device W := ltac:(derive_setter (@reqs W)).
Definition set_world {W} : W -> device W -> device W := ltac:(derive_setter (@world W)).
Definition set_replied {W} : list Z -> device W -> device W := ltac:(derive_setter (@replied W)).
Definition set_caused {W} : list Z -> device W -> device W := ltac:(derive_setter (@caused W)).
Definition set_freed {W} : bool -> device W -> device W := ltac:(derive_setter (@freed W)).

Section Device.
Context `{L : FnLib} {W : Type}.
Variable sv : services W.
Variable table : fujinet_disk_client_t (W * fujinet_nio_disk_context_t).
Variable sizes : abi.
Implicit Types (d : device W) (u : unit_state W) (q : IOStdReq).

Definition on_req (r : Z) (f : IOStdReq -> IOStdReq) d : device W :=
  set_reqs (fun x => if decide (x = r) then f (reqs d r) else reqs d x) d.
Definition on_unit (i : Z) (f : unit_state W -> unit_state W) d : device W :=
  set_units (fun x => if decide (x = i) then f (units d i) else units d x) d.

(** exec's ReplyMsg. *)
Definition ReplyMsg (r : Z) d : device W :=
  d |> on_req r (set_ln_Type NT_REPLYMSG) |> set_replied (replied d ++ [r]).
(** [if ((request->io_Flags & IOF_QUICK) == 0) ReplyMsg(...)]. *)
Definition reply_unless_quick (r : Z) d : device W :=
  if quick (reqs d r) then d else ReplyMsg r d.
Definition set_error (r error : Z) d : device W := on_req r (set_io_Error error) d.
Definition set_actual (r actual : Z) d : device W := on_req r (set_io_Actual actual) d.

Definition FreeMem (p : positive) d : device W := set_nodes (delete p (nodes d)) d.
Definition store_queue (s : IoQueue.state) d : device W := d |> set_io_queue s.1 |> set_nodes s.2.

(** A call of a driver function on a unit. *)
Definition with_driver {A : Type} (i : Z)
    (f : fujinet_disk_driver_t (W * fujinet_nio_disk_context_t) ->
         A * fujinet_disk_driver_t (W * fujinet_nio_disk_context_t)) d : A * device W :=
  let drv := driver (units d i) in
  let '(a, drv) := f (set_context (world d, (client_context drv).2) drv) in
  (a, d |> on_unit i (set_driver drv) |> set_world (client_context drv).1).

Definition result_to_io_error (result : Z) : Z :=
  if result =? FN_OK then 0
  else if result =? FN_ERR_INVALID then IOERR_BADLENGTH
  else if (result =? FN_ERR_NOT_FOUND) || (result =? FN_ERR_NOT_READY) then TDERR_DiskChanged
  else TDERR_NotSpecified.

(** The URI goes to [catalog_uri], where every caller has it. *)
Definition resolve_catalog_slot d (slot capacity : Z) : device W * Z :=
  let '(w, result) := fn_init sv (world d) in
  let '(w, result, entry) :=
    if result =? FN_OK then fn_slot_catalog_get sv w slot else (w, result, mkEntryOf 0 0 []) in
  let d := set_world w d in
  if negb (result =? FN_OK) || (Z.land (ce_flags entry) (FN_SLOT_CATALOG_ENTRY_VALID sv) =? 0)
     || (ce_uri_len entry =? 0) || (ce_uri_len entry >=? capacity)
  then (d, FN_ERR_NOT_FOUND)
  else
  (set_catalog_uri
     (overwrite (catalog_uri d) 0 (take (Z.to_nat (ce_uri_len entry)) (ce_uri entry) ++ [0])) d,
   FN_OK).

Definition fresh_mappings : list Z := put_at (zeros (Z.to_nat MAPPINGS_SIZE)) 0 1.

(** The result and the caller's array. *)
Definition load_mappings d : Z * list Z * device W :=
  let '(w, result) := fn_init sv (world d) in
  if negb (result =? FN_OK) then (result, fresh_mappings, set_world w d)
  else
  let '(w, result, mappings, flags, bytes_read) := fn_appstore_read sv w fresh_mappings in
  let d := set_world w d in
  if negb (result =? FN_OK) then (result, mappings, d)
  else if (Z.land flags (FN_APPSTORE_READ_EXISTS sv) =? 0) || negb (bytes_read =? MAPPINGS_SIZE)
          || negb (mappings.[0] =? 1)
  then (FN_OK, fresh_mappings, d)
  else (FN_OK, mappings, d).

Definition store_mappings (mappings : list Z) d : Z * device W :=
  let '(w, result) := fn_init sv (world d) in
  if negb (result =? FN_OK) then (result, set_world w d)
  else
  let '(w, result, bytes_written) := fn_appstore_write sv w mappings in
  (if negb (result =? FN_OK) || negb (bytes_written =? MAPPINGS_SIZE) then FN_ERR_IO else FN_OK,
   set_world w d).

Definition request_unit_index q : Z :=
  match io_Unit q with
  | Some i => if (0 <=? i) && (i <? FUJINET_DISK_UNIT_COUNT) then i else FUJINET_DISK_UNIT_COUNT
  | None => FUJINET_DISK_UNIT_COUNT
  end.

(** The interrupts it causes, in order. *)
Definition change_interrupts u : list Z :=
  filter (fun i => i <> 0) ((rg_interrupt <$> change_requests u) ++ [legacy_change_interrupt u]).
Definition signal_media_change (i : Z) d : device W :=
  set_caused (caused d ++ change_interrupts (units d i)) d.

(** ** Change registrations *)

(** [remove_change_request]: whether one was removed. *)
Fixpoint remove_registration (r : Z) (l : list change_registration) : bool * list change_registration :=
  match l with
  | [] => (false, [])
  | g :: l => if rg_request g =? r then (true, l)
              else let '(removed, l') := remove_registration r l in (removed, g :: l')
  end.
Definition remove_change_request (i r : Z) d : bool * device W :=
  let '(removed, l) := remove_registration r (change_requests (units d i)) in
  (removed, on_unit i (set_change_requests l) d).

(** Each turn that goes on removes a registration, so their number is fuel
    enough. *)
Fixpoint remove_all_loop (fuel : nat) (r : Z) (l : list change_registration)
    : bool * list change_registration :=
  match fuel with
  | O => (false, l)
  | S fuel =>
      match remove_registration r l with
      | (true, l) => (true, (remove_all_loop fuel r l).2)
      | (false, l) => (false, l)
      end
  end.
Definition remove_all_change_requests (i r : Z) d : bool * device W :=
  let l := change_requests (units d i) in
  let '(removed, l) := remove_all_loop (S (length l)) r l in
  (removed, on_unit i (set_change_requests l) d).

Definition find_change_request (r : Z) u : option change_registration :=
  find (fun g => rg_request g =? r) (change_requests u).

(** [registration->interrupt = ...] for the one [find_change_request] gives. *)
Fixpoint set_interrupt (r interrupt : Z) (l : list change_registration) : list change_registration :=
  match l with
  | [] => []
  | g :: l => if rg_request g =? r then mkRegistration r interrupt :: l
              else g :: set_interrupt r interrupt l
  end.

(** Loops over the units, [i] = 0..7. *)
Definition all_units : list Z := seqZ 0 FUJINET_DISK_UNIT_COUNT.
Definition for_units (f : Z -> device W -> device W) d : device W :=
  foldl (fun d i => f i d) d all_units.

Definition discard_change_requests d : device W :=
  for_units (fun i => on_unit i (set_change_requests [])) d.

(** ** Vectors that open, close and remove the device *)

(** [complete_pending_expunge] behind its gate. *)
Definition teardown d : device W :=
  let d := set_lib_Flags (Z.land (lib_Flags d) (255 - LIBF_DELEXP)) d in
  let d := set_worker false d in
  let d := set_worker_signal (-1) d in
  let d := discard_change_requests d in
  let d := if negb (transport_closed d)
           then d |> set_transport_closed true |> set_world (fn_transport_close sv (world d))
           else d in
  let d := for_units (fun i => on_unit i (fun u => set_driver (set_initialized false (driver u)) u)) d in
  set_freed true d.

Definition complete_pending_expunge d : Z * device W :=
  if (Z.land (lib_Flags d) LIBF_DELEXP =? 0) || negb (lib_OpenCnt d =? 0)
     || bool_decide (is_Some (IoQueue.head (io_queue d))) || io_processing d
  then (0, d)
  else (segment_list d, teardown d).

Definition device_expunge d : Z * device W :=
  complete_pending_expunge (set_lib_Flags (Z.lor (lib_Flags d) LIBF_DELEXP) d).

(** The device pointer, which is null when the open fails. *)
Definition device_open (r unit_number : Z) d : bool * device W :=
  if negb ((fujinet_disk_unit_to_slot unit_number).1 =? FN_OK)
  then (false, set_error r IOERR_OPENFAIL d)
  else
  (true,
   d |> on_req r (fun q => q |> set_io_Error 0 |> set_io_Device true |> set_io_Unit (Some unit_number))
     |> set_lib_OpenCnt (u16 (lib_OpenCnt d + 1))
     |> set_lib_Flags (Z.land (lib_Flags d) (255 - LIBF_DELEXP))).

(** Take a request off the queue, free its node and answer it with
    IOERR_ABORTED: whether it was there. *)
Definition abort_queued (r : Z) d : bool * device W :=
  let '(queued, s) := fujinet_io_queue_remove_request r (io_queue d, nodes d) in
  let d := store_queue s d in
  match queued with
  | Some p => (true, d |> FreeMem p |> set_error r IOERR_ABORTED |> ReplyMsg r)
  | None => (false, d)
  end.

(** [device_close] up to the test for a delayed expunge: taking the request
    back, and its end. *)
Definition take_back (r : Z) d : device W :=
  (abort_queued r (for_units (fun i d => (remove_all_change_requests i r d).2) d)).2.
Definition unbind (r : Z) d : device W :=
  let d := on_req r (fun q => q |> set_io_Device false |> set_io_Unit None) d in
  if negb (lib_OpenCnt d =? 0) then set_lib_OpenCnt (lib_OpenCnt d - 1) d else d.
Definition close_detach (r : Z) d : device W := unbind r (take_back r d).

Definition device_close (r : Z) d : Z * device W :=
  let d := close_detach r d in
  let delayed_expunge :=
    (lib_OpenCnt d =? 0) && negb (Z.land (lib_Flags d) LIBF_DELEXP =? 0) in
  if delayed_expunge then complete_pending_expunge d else (0, d).

(** [context i] is what [fujinet_nio_disk_context_init] makes of the unit's
    zeroed context, [sig] the signal or -1, [stack] and [added] whether the
    worker's stack could be had and its task added.  The base is zeroed by
    exec; [None] is a null pointer. *)
Definition device_init (segments : Z) (context : Z -> fujinet_nio_disk_context_t) (sig : Z)
    (stack added : bool) d : option (device W) :=
  let d := d |> set_segment_list segments |> set_worker_signal (-1) |> set_transport_closed false
             |> set_io_queue (mkQueue None None) in
  let d := for_units (fun i => on_unit i (fun u =>
             u |> set_change_requests []
               |> set_driver (fujinet_disk_driver_init (Some table) (world d, context i) i))) d in
  if sig =? -1 then None
  else if negb stack then None
  else if negb added then None
  else Some (d |> set_worker_signal sig |> set_worker true).

(** ** The queue *)

(** Each turn takes a node, so the nodes in memory are fuel enough. *)
Fixpoint abort_unit_loop (fuel : nat) (i : Z) d : device W :=
  match fuel with
  | O => d
  | S fuel =>
      let '(node, s) := fujinet_io_queue_take_unit i (io_queue d, nodes d) in
      let d := store_queue s d in
      match node with
      | None => d
      | Some p =>
          let queued := request (deref (nodes d) p) in
          abort_unit_loop fuel i (d |> FreeMem p |> set_error queued IOERR_ABORTED |> ReplyMsg queued)
      end
  end.
Definition abort_queued_unit (i : Z) d : device W := abort_unit_loop (S (size (nodes d))) i d.

Definition next_runnable_request d : option Z * device W :=
  let '(node, s) :=
    fujinet_io_queue_next (map (fun i => stopped (units d i)) all_units) FUJINET_DISK_UNIT_COUNT
      CMD_START CMD_FLUSH (io_queue d, nodes d) in
  let d := store_queue s d in
  match node with
  | None => (None, d)
  | Some p => let r := request (deref (nodes d) p) in (Some r, FreeMem p d)
  end.

(** ** Commands; [i] is the request's unit and [r] the request *)

(** What a command that may change the medium ends with. *)
Definition finish_change (i r result old_count : Z) d : device W :=
  let d := set_error r (result_to_io_error result) d in
  if negb (change_count (driver (units d i)) =? old_count) then signal_media_change i d else d.

Definition cmd_restore_boot (i r : Z) d : device W :=
  let old_count := change_count (driver (units d i)) in
  let '(result, d) := with_driver i (fun drv => fujinet_disk_restore_boot drv i) d in
  finish_change i r result old_count d.

Definition cmd_mount (i r : Z) d : device W :=
  let q := reqs d r in
  let old_count := change_count (driver (units d i)) in
  let data := m_bytes (memory q) in
  if (io_Data q =? 0) || (io_Length q =? 0) || (io_Length q >? URI_CAPACITY)
     || negb (data.[Z.to_nat (io_Length q - 1)] =? 0)
  then set_error r IOERR_BADLENGTH d
  else
  let d := set_request_uri (overwrite (request_uri d) 0 (take (Z.to_nat (io_Length q)) data)) d in
  let uri := c_string (request_uri d) in
  let '(result, d) :=
    with_driver i (fun drv =>
      if io_Command q =? FUJINET_DISK_CMD_MOUNT_WRITABLE
      then fujinet_disk_mount_mode drv i (Some uri) true
      else fujinet_disk_mount drv i (Some uri)) d in
  finish_change i r result old_count d.

(** Change the stored mapping of the unit to [flags] and [slot], do [action],
    and put the old mappings back when either fails. *)
Definition remap (i flags slot : Z) (action : device W -> Z * device W) d : Z * device W :=
  let '(result, old_mappings, d) := load_mappings d in
  if negb (result =? FN_OK) then (result, d)
  else
  let k := Z.to_nat (i * 2) in
  let new_mappings := put_at (put_at old_mappings (1 + k) flags) (2 + k) slot in
  let '(result, d) := store_mappings new_mappings d in
  let '(result, d) := if result =? FN_OK then action d else (result, d) in
  (result, if negb (result =? FN_OK) then (store_mappings old_mappings d).2 else d).

Definition cmd_mount_catalog (i r : Z) d : device W :=
  let q := reqs d r in
  let old_count := change_count (driver (units d i)) in
  if (io_Data q =? 0) || (io_Length q <? sizeof_catalog_mount sizes)
  then set_error r IOERR_BADLENGTH d
  else
  let wr := negb (m_writable (memory q) =? 0) in
  let slot := m_catalog_slot (memory q) in
  let '(d, result) := resolve_catalog_slot d slot URI_CAPACITY in
  let '(result, d) :=
    if result =? FN_OK then
      remap i (Z.lor 1 (if wr then 0 else 2)) slot
        (fun d => with_driver i (fun drv =>
           fujinet_disk_mount_mode drv i (Some (c_string (catalog_uri d))) wr) d) d
    else (result, d) in
  finish_change i r result old_count d.

Definition cmd_eject (i r : Z) d : device W :=
  let old_count := change_count (driver (units d i)) in
  let '(result, d) := remap i 0 0 (with_driver i (fun drv => fujinet_disk_eject drv i)) d in
  finish_change i r result old_count d.

(** The context of a unit's client, in the device. *)
Definition unit_context (i : Z) :
    (device W -> W * fujinet_nio_disk_context_t) *
    (W * fujinet_nio_disk_context_t -> device W -> device W) :=
  (fun d => (world d, (client_context (driver (units d i))).2),
   fun c d => d |> on_unit i (fun u => set_driver (set_context c (driver u)) u) |> set_world c.1).

Definition cmd_inspect_catalog (i r : Z) d : device W :=
  let q := reqs d r in
  let cl := client (driver (units d i)) in
  if (io_Data q =? 0) || (io_Length q <? sizeof_catalog_inspection sizes)
     || negb (bool_decide (is_Some (cl ← cl; cl_inspect cl)))
  then set_error r IOERR_BADLENGTH d
  else
  let '(result, inspection, d) :=
    fujinet_disk_inspect_catalog cl (unit_context i) (Some resolve_catalog_slot)
      (m_catalog_slot (memory q)) (Some (fun d => c_string (catalog_uri d))) URI_CAPACITY
      (Some (m_inspection (memory q))) d in
  let d := on_req r (fun q => set_memory (set_m_inspection (default [] inspection) (memory q)) q) d in
  let d := set_error r (result_to_io_error result) d in
  if result =? FN_OK then set_actual r (sizeof_catalog_inspection sizes) d else d.

Definition device_media_bytes u : Z := if mounted (driver u) then media_bytes (driver u) else 0.

(** The checks of CMD_READ, CMD_WRITE and their extended forms, in order;
    [ext] is the extended command. *)
Definition transfer_check (wr : bool) (ext : Z) u q : option Z :=
  let bytes := device_media_bytes u in
  if negb (mounted (driver u)) then Some TDERR_DiskChanged
  else if wr && negb (writable (driver u)) then Some TDERR_WriteProt
  else if (io_Data q =? 0) || (io_Offset q >=? bytes) || (io_Length q >? bytes - io_Offset q)
  then Some IOERR_BADADDRESS
  else if (io_Length q =? 0) || negb (io_Offset q mod FUJINET_DISK_BLOCK_SIZE =? 0)
          || negb (io_Length q mod FUJINET_DISK_BLOCK_SIZE =? 0)
  then Some IOERR_BADLENGTH
  else if (io_Command q =? ext) && (iotd_Count q <? change_count (driver u))
  then Some TDERR_DiskChanged
  else if (io_Command q =? ext) && negb (iotd_SecLabel q =? 0) then Some IOERR_NOCMD
  else None.

Definition cmd_read (i r : Z) d : device W :=
  let q := reqs d r in
  match transfer_check false ETD_READ (units d i) q with
  | Some error => set_error r error d
  | None =>
      let '(result, actual, data, d) :=
        with_driver i (fun drv =>
          fujinet_disk_read drv i (io_Offset q) (Some (m_bytes (memory q))) (io_Length q)) d in
      d |> on_req r (fun q => q |> set_io_Actual actual
                                |> set_memory (set_m_bytes (default [] data) (memory q)))
        |> set_error r (result_to_io_error result)
  end.

Definition cmd_write (i r : Z) d : device W :=
  let q := reqs d r in
  match transfer_check true ETD_WRITE (units d i) q with
  | Some error => set_error r error d
  | None =>
      let '(result, actual, d) :=
        with_driver i (fun drv =>
          fujinet_disk_write drv i (io_Offset q) (Some (m_bytes (memory q))) (io_Length q)) d in
      d |> set_actual r actual |> set_error r (result_to_io_error result)
  end.

(** [iotd_Count < change_count] of an extended command. *)
Definition stale (ext : Z) u q : bool :=
  (io_Command q =? ext) && (iotd_Count q <? change_count (driver u)).

Definition cmd_update (i r : Z) d : device W :=
  if stale ETD_UPDATE (units d i) (reqs d r) then set_error r TDERR_DiskChanged d
  else
  let '(result, d) := with_driver i (fun drv => fujinet_disk_flush drv i) d in
  set_error r (result_to_io_error result) d.

Definition cmd_clear (i r : Z) d : device W :=
  if stale ETD_CLEAR (units d i) (reqs d r) then set_error r TDERR_DiskChanged d else d.

Definition cmd_trace (r : Z) d : device W :=
  let q := reqs d r in
  if (io_Data q =? 0) || (io_Length q <? sizeof_trace sizes) then set_error r IOERR_BADLENGTH d
  else
  d |> on_req r (fun q => q |> set_memory (set_m_trace (trace d) (memory q))
                            |> set_io_Actual (sizeof_trace sizes)).

(** The answers of TD_CHANGENUM, TD_CHANGESTATE and TD_PROTSTATUS. *)
Definition status_actual (command : Z) u : option Z :=
  if command =? TD_CHANGENUM then Some (change_count (driver u))
  else if command =? TD_CHANGESTATE then Some (if mounted (driver u) then 0 else 1)
  else if command =? TD_PROTSTATUS
  then Some (if negb (mounted (driver u)) || negb (writable (driver u)) then 1 else 0)
  else None.

Definition drive_geometry (total : Z) : DriveGeometry :=
  let hd := total =? FUJINET_HD_ADF_BLOCK_COUNT in
  mkGeometry FUJINET_DISK_BLOCK_SIZE total 80 (if hd then 44 else 22) 2 (if hd then 22 else 11)
    MEMF_PUBLIC DG_DIRECT_ACCESS DGF_REMOVABLE.

Definition cmd_getgeometry (i r : Z) d : device W :=
  let q := reqs d r in
  if (io_Data q =? 0) || (io_Length q <? sizeof_geometry sizes) then set_error r IOERR_BADLENGTH d
  else if negb (mounted (driver (units d i))) then set_error r TDERR_DiskChanged d
  else
  d |> on_req r (fun q =>
         q |> set_memory (set_m_geometry (drive_geometry (i_sector_count (media (driver (units d i)))))
                            (memory q))
           |> set_io_Actual (sizeof_geometry sizes)).

Definition cmd_devicequery (r : Z) d : device W :=
  let q := reqs d r in
  if (io_Data q =? 0) || (io_Length q <? sizeof_query sizes) then set_error r IOERR_BADLENGTH d
  else
  d |> on_req r (fun q =>
         q |> set_memory (set_m_query
                (mkQuery 0 (sizeof_query sizes) NSDEVTYPE_TRACKDISK 0 supported_commands) (memory q))
           |> set_io_Actual (sizeof_query sizes)).

(** Whether the request was retained. *)
Definition cmd_addchangeint (i r : Z) d : bool * device W :=
  let interrupt := io_Data (reqs d r) in
  match find_change_request r (units d i) with
  | Some _ =>
      (true, on_unit i (fun u => set_change_requests (set_interrupt r interrupt (change_requests u)) u) d)
  | None =>
      let '(w, allocated) := alloc_registration sv (world d) in
      let d := set_world w d in
      if negb allocated then (false, set_error r TDERR_NotSpecified d)
      else
      (true, on_unit i (fun u =>
         set_change_requests (change_requests u ++ [mkRegistration r interrupt]) u) d)
  end.

(** The installation TD_REMOVE does, by the worker or in BeginIO: whether it
    was done. *)
Definition install_legacy (i r : Z) d : bool * device W :=
  let data := io_Data (reqs d r) in
  let old := legacy_change_interrupt (units d i) in
  if negb (data =? 0) && negb (old =? 0) && negb (old =? data)
  then (false, set_error r IOERR_UNITBUSY d)
  else (true, on_unit i (set_legacy data) d).

(** ** The trace *)

Definition put_entry (k : nat) (f : trace_entry -> trace_entry) d : device W :=
  set_trace (mkTraces (count (trace d)) (alter f k (entries (trace d)))) d.

(** [trace_index], [None] for FUJINET_DISK_TRACE_CAPACITY. *)
Definition trace_begin (r : Z) d : option nat * device W :=
  let q := reqs d r in
  if negb (io_Command q =? FUJINET_DISK_CMD_TRACE)
     && (count (trace d) <? FUJINET_DISK_TRACE_CAPACITY)
  then
    let k := Z.to_nat (count (trace d)) in
    (Some k,
     d |> set_trace (mkTraces (u16 (count (trace d) + 1)) (entries (trace d)))
       |> put_entry k (fun t =>
            mkTrace (io_Command q) (io_Offset q) (io_Length q) (t_actual t) (t_error t) (t_attempts t)
              (t_results t) (t_causes t) (t_native_errors t) (t_statuses t) (t_response_lengths t)))
  else (None, d).

Definition trace_outcome (k : option nat) (r : Z) d : device W :=
  match k with
  | None => d
  | Some k =>
      let q := reqs d r in
      put_entry k (fun t =>
        mkTrace (t_command t) (t_offset t) (t_length t) (io_Actual q) (io_Error q) (t_attempts t)
          (t_results t) (t_causes t) (t_native_errors t) (t_statuses t) (t_response_lengths t)) d
  end.

Definition is_transfer (command : Z) : bool :=
  (command =? CMD_READ) || (command =? ETD_READ) || (command =? CMD_WRITE) || (command =? ETD_WRITE).

Definition trace_exchange (k : option nat) (i r : Z) d : device W :=
  match k with
  | None => d
  | Some k =>
      if negb (is_transfer (io_Command (reqs d r))) then d
      else
      let diag := (client_context (driver (units d i))).2 in
      put_entry k (fun t =>
        mkTrace (t_command t) (t_offset t) (t_length t) (t_actual t) (t_error t)
          (attempts (retry diag)) (results (retry diag)) (exchange_causes diag)
          (exchange_native_errors diag) (exchange_statuses diag) (response_lengths (retry diag))) d
  end.

(** ** Processing a request *)

(** The switch: whether the request is to be answered. *)
Definition execute (i r : Z) d : bool * device W :=
  let c := io_Command (reqs d r) in
  if c =? FUJINET_DISK_CMD_RESTORE_BOOT then (true, cmd_restore_boot i r d)
  else if (c =? FUJINET_DISK_CMD_MOUNT) || (c =? FUJINET_DISK_CMD_MOUNT_WRITABLE)
  then (true, cmd_mount i r d)
  else if c =? FUJINET_DISK_CMD_MOUNT_CATALOG then (true, cmd_mount_catalog i r d)
  else if c =? FUJINET_DISK_CMD_INSPECT_CATALOG then (true, cmd_inspect_catalog i r d)
  else if c =? FUJINET_DISK_CMD_TRACE then (true, cmd_trace r d)
  else if c =? FUJINET_DISK_CMD_TRACE_CLEAR then (true, set_trace no_trace d)
  else if (c =? CMD_READ) || (c =? ETD_READ) then (true, cmd_read i r d)
  else if (c =? CMD_WRITE) || (c =? ETD_WRITE) then (true, cmd_write i r d)
  else if (c =? CMD_RESET) || (c =? CMD_UPDATE) || (c =? ETD_UPDATE) then (true, cmd_update i r d)
  else if (c =? CMD_CLEAR) || (c =? ETD_CLEAR) then (true, cmd_clear i r d)
  else if c =? CMD_START then (true, on_unit i (set_stopped false) d)
  else if c =? CMD_STOP then (true, on_unit i (set_stopped true) d)
  else if c =? CMD_FLUSH then (true, abort_queued_unit i d)
  else if (c =? TD_MOTOR) || (c =? TD_SEEK) then (true, d)
  else if (c =? TD_CHANGENUM) || (c =? TD_CHANGESTATE) || (c =? TD_PROTSTATUS)
  then (true, set_actual r (default 0 (status_actual c (units d i))) d)
  else if c =? TD_EJECT then (true, cmd_eject i r d)
  else if c =? TD_GETDRIVETYPE then (true, set_actual r DRIVE3_5 d)
  else if c =? TD_GETNUMTRACKS
  then (true, set_actual r (if mounted (driver (units d i)) then 160 else 0) d)
  else if c =? TD_GETGEOMETRY then (true, cmd_getgeometry i r d)
  else if c =? TD_ADDCHANGEINT then
    let '(retained, d) := cmd_addchangeint i r d in (negb retained, d)
  else if c =? TD_REMOVE then (true, on_req r clear_quick (install_legacy i r d).2)
  else if c =? TD_REMCHANGEINT then (true, (remove_all_change_requests i r d).2)
  else if c =? NSCMD_DEVICEQUERY then (true, cmd_devicequery r d)
  else (true, set_error r IOERR_NOCMD d).

(** [device_process_request] up to the switch: the trace index. *)
Definition prepare (i r : Z) d : option nat * device W :=
  let d := on_req r (fun q => q |> set_io_Error 0 |> set_io_Actual 0) d in
  let d := (with_driver i (fun drv => fujinet_disk_acknowledge_change drv i) d).2 in
  trace_begin r d.

(** From the end of the switch on. *)
Definition conclude (i r : Z) (trace_index : option nat) (answer : bool) d : device W :=
  let d := trace_outcome trace_index r d in
  if answer then reply_unless_quick r (trace_exchange trace_index i r d)
  else on_req r clear_quick d.

Definition device_process_request (r : Z) d : device W :=
  let i := request_unit_index (reqs d r) in
  if i >=? FUJINET_DISK_UNIT_COUNT then reply_unless_quick r (set_error r IOERR_ABORTED d)
  else
  let '(trace_index, d) := prepare i r d in
  let '(answer, d) := execute i r d in
  conclude i r trace_index answer d.

(** One turn of [worker_drain]: the request taken, or the end of the loop. *)
Definition drain_take d : option Z * device W :=
  match next_runnable_request d with
  | (Some r, d) => (Some r, d)
  | (None, d) => (None, set_io_processing false d)
  end.

(** [None] is fuel running out. *)
Fixpoint worker_drain (fuel : nat) d : option (device W) :=
  match fuel with
  | O => None
  | S fuel =>
      match drain_take d with
      | (None, d) => Some d
      | (Some r, d) => worker_drain fuel (device_process_request r d)
      end
  end.

(** ** BeginIO and AbortIO *)

(** [device_begin_io] with a node for the request. *)
Definition enqueue (i r : Z) (p : positive) d : device W :=
  let d := on_req r (set_ln_Type NT_MESSAGE) d in
  d |> store_queue (fujinet_io_queue_append p r i (io_Command (reqs d r)) (io_queue d, nodes d))
    |> set_io_processing true |> set_signalled true.

(** The end of a command that BeginIO carries out itself. *)
Definition done_at_once (r : Z) d : device W :=
  reply_unless_quick r (on_req r (fun q => q |> set_io_Error 0 |> set_io_Actual 0) d).

(** [device_begin_io] from its switch on; [alloc] is the node AllocMem gives. *)
Definition begin_rest (r : Z) (alloc : option positive) d : device W :=
  let i := request_unit_index (reqs d r) in
  let status := status_actual (io_Command (reqs d r)) (units d i) in
  let d := match status with Some actual => set_actual r actual d | None => d end in
  if bool_decide (is_Some status) && negb (io_processing d)
  then reply_unless_quick r (set_error r 0 d)
  else
  let d := on_req r clear_quick d in
  match alloc with
  | None => ReplyMsg r (set_error r TDERR_NotSpecified d)
  | Some p => enqueue i r p d
  end.

Definition device_begin_io (r : Z) (alloc : option positive) d : device W :=
  let i := request_unit_index (reqs d r) in
  let c := io_Command (reqs d r) in
  if i >=? FUJINET_DISK_UNIT_COUNT then reply_unless_quick r (set_error r IOERR_OPENFAIL d)
  else if c =? TD_REMCHANGEINT then done_at_once r (remove_change_request i r d).2
  else if c =? CMD_FLUSH then done_at_once r (abort_queued_unit i d)
  else if c =? TD_REMOVE then
    let '(installed, d) := install_legacy i r d in
    let d := if installed then set_error r 0 d else d in
    d |> set_actual r 0 |> on_req r clear_quick |> ReplyMsg r
  else begin_rest r alloc d.

(** The value AbortIO returns. *)
Definition device_abort_io (r : Z) d : Z * device W :=
  let i := request_unit_index (reqs d r) in
  if (i <? FUJINET_DISK_UNIT_COUNT)
     && bool_decide (is_Some (find_change_request r (units d i)))
  then (0, (remove_all_change_requests i r d).2 |> set_error r IOERR_ABORTED |> ReplyMsg r)
  else
  match abort_queued r d with
  | (true, d) => (0, d)
  | (false, d) => (IOERR_NOCMD, d)
  end.
End Device.

(** ** The system: clients and the worker, interleaved *)

(** Where the worker is: in Wait, at the top of [worker_drain], behind its
    Enable with a request, before the switch of [device_process_request] with
    the unit and the trace index, behind the switch, or removed. *)
Inductive worker_at :=
  | WWait | WTop | WRun (r : Z)
  | WReady (r i : Z) (trace_index : option nat)
  | WEnded (r i : Z) (trace_index : option nat) (answer : bool)
  | WGone.

(** Logs of the submissions: [begun] by BeginIO, [at_once] those that ended
    with IOF_QUICK still set, [returned] the retained requests the client got
    back without a reply (by TD_REMCHANGEINT, CloseDevice or an expunge). *)
Record system (W : Type) := mkSystem {
  dev : device W;
  at_ : worker_at;
  begun : list Z;
  at_once : list Z;
  returned : list Z
}.
#[global] Arguments mkSystem {W}.
#[global] Arguments dev {W}.
#[global] Arguments at_ {W}.
#[global] Arguments begun {W}.
#[global] Arguments at_once {W}.
#[global] Arguments returned {W}.

Section System.
Context `{L : FnLib} {W : Type}.
Variable sv : services W.
Variable table : fujinet_disk_client_t (W * fujinet_nio_disk_context_t).
Variable sizes : abi.
Implicit Types (d : device W) (s : system W).

(** The requests registered for change interrupts. *)
Definition registered (i : Z) d : list Z := rg_request <$> change_requests (units d i).
Definition retained d : list Z := flat_map (fun i => registered i d) all_units.

(** The client has every submission of [r] back. *)
Definition answered (r : Z) s : Prop :=
  occurrences r (begun s) =
  (occurrences r (replied (dev s)) + occurrences r (at_once s) + occurrences r (returned s))%nat.

Definition with_dev d s : system W := mkSystem d (at_ s) (begun s) (at_once s) (returned s).

Definition begin_step (r : Z) (alloc : option positive) s : system W :=
  let d := device_begin_io r alloc (dev s) in
  mkSystem d (at_ s) (begun s ++ [r]) (at_once s ++ (if quick (reqs d r) then [r] else []))
    (returned s ++ filter (fun x => x = r) (retained (dev s))).

(** A call that may remove the device, with what it gives back. *)
Definition removal_step (d : device W) (back : list Z) s : system W :=
  mkSystem d (if freed d then WGone else at_ s) (begun s) (at_once s) (returned s ++ back).

Definition close_step (r : Z) s : system W :=
  let d := (device_close sv r (dev s)).2 in
  removal_step d (if freed d then retained (dev s) else filter (fun x => x = r) (retained (dev s))) s.

Definition expunge_step s : system W :=
  let d := (device_expunge sv (dev s)).2 in
  removal_step d (if freed d then retained (dev s) else []) s.

(** The parts of [device_process_request] as steps of the worker; composed,
    they are it ([process_steps] in DiskDeviceSystem). *)
Definition run_step (r : Z) s : system W :=
  let i := request_unit_index (reqs (dev s) r) in
  if i >=? FUJINET_DISK_UNIT_COUNT then
    mkSystem (reply_unless_quick r (set_error r IOERR_ABORTED (dev s))) WTop
      (begun s) (at_once s) (returned s)
  else
    mkSystem (prepare i r (dev s)).2 (WReady r i (prepare i r (dev s)).1)
      (begun s) (at_once s) (returned s).

Definition execute_step (r i : Z) (trace_index : option nat) s : system W :=
  mkSystem (execute sv sizes i r (dev s)).2 (WEnded r i trace_index (execute sv sizes i r (dev s)).1)
    (begun s) (at_once s) (returned s).

Definition conclude_step (r i : Z) (trace_index : option nat) (answer : bool) s : system W :=
  mkSystem (conclude i r trace_index answer (dev s)) WTop (begun s) (at_once s) (returned s).

(** The worker is between the start and the switch of a TD_ADDCHANGEINT on
    [r]. *)
Definition registering (r : Z) s : Prop :=
  exists i k, at_ s = WReady r i k /\ io_Command (reqs (dev s) r) = TD_ADDCHANGEINT.

(** The steps are whole calls of the device's entry points and the parts of
    the worker's loop, in any order; AllocMem gives memory that is not in use.
    What the clients keep to:
    - a request is filled in and submitted by the client that has it back, or,
      for TD_REMCHANGEINT, when it is retained for a change interrupt; the
      device has no way to tell the client when that is, and a TD_REMCHANGEINT
      that overtakes its TD_ADDCHANGEINT is not a step (it is answered twice:
      [remove_races_registration] in DiskDeviceExample);
    - a request whose registration has begun is not closed before it has
      ended.
    CloseDevice, Expunge and the switch of [device_process_request] are single
    steps though the code runs them, or parts of them, without Disable. What
    the entry points share with the switch besides the request itself are the
    lists of change interrupts and, for CloseDevice, the queue: a walk of the
    worker or of CloseDevice over such a list that BeginIO changes meanwhile is
    not modelled. *)
Inductive sys_step : system W -> system W -> Prop :=
  | step_prepare s r q :
      answered r s -> sys_step s (with_dev (on_req r (fun _ => q) (dev s)) s)
  | step_prepare_remove s r flags :
      r ∈ retained (dev s) ->
      sys_step s (with_dev (on_req r (fun q => set_io_Command TD_REMCHANGEINT (set_io_Flags flags q))
                              (dev s)) s)
  | step_begin s r alloc :
      freed (dev s) = false ->
      answered r s \/ r ∈ retained (dev s) /\ io_Command (reqs (dev s) r) = TD_REMCHANGEINT ->
      (forall p, alloc = Some p -> nodes (dev s) !! p = None) ->
      sys_step s (begin_step r alloc s)
  | step_abort s r :
      freed (dev s) = false -> sys_step s (with_dev (device_abort_io r (dev s)).2 s)
  | step_open s r u :
      freed (dev s) = false -> answered r s -> sys_step s (with_dev (device_open r u (dev s)).2 s)
  | step_close s r :
      freed (dev s) = false -> ~ registering r s -> sys_step s (close_step r s)
  | step_expunge s :
      freed (dev s) = false -> sys_step s (expunge_step s)
  | step_wake s :
      at_ s = WWait -> signalled (dev s) = true ->
      sys_step s (mkSystem (set_signalled false (dev s)) WTop (begun s) (at_once s) (returned s))
  | step_take s :
      at_ s = WTop ->
      sys_step s (mkSystem (drain_take (dev s)).2
                    (match (drain_take (dev s)).1 with Some r => WRun r | None => WWait end)
                    (begun s) (at_once s) (returned s))
  | step_run s r :
      at_ s = WRun r -> sys_step s (run_step r s)
  | step_execute s r i k :
      at_ s = WReady r i k -> sys_step s (execute_step r i k s)
  | step_conclude s r i k answer :
      at_ s = WEnded r i k answer -> sys_step s (conclude_step r i k answer s).

(** A device as [device_init] leaves it, its worker waiting. *)
Definition initial s : Prop :=
  exists segments context sig memory requests w nio_context,
    device_init table segments context sig true true
      (mkDevice 0 0 0 (fun _ => mkUnit (fujinet_disk_driver_init None (w, nio_context) 0) false [] 0)
         (zeros (Z.to_nat URI_CAPACITY)) (zeros (Z.to_nat URI_CAPACITY)) (mkQueue None None) false false false 0 false no_trace
         memory requests w [] [] false) = Some (dev s) /\
    at_ s = WWait /\ begun s = [] /\ at_once s = [] /\ returned s = [].

Inductive reachable : system W -> Prop :=
  | reachable_init s : initial s -> reachable s
  | reachable_step s s' : reachable s -> sys_step s s' -> reachable s'.
End System.
