(* ===== verification/DiskDeviceProps.v ===== *)
(** * Properties of fujinet-disk.device

    What a processed request does to its unit, to the server and to the
    client, and the invariant of clients and worker interleaved: every
    submission is accounted for, and every mounted medium is valid. *)

From S2P Require Import Prelude ExecIO FnLib DiskRetry DiskMedia DiskDriver IoQueue DiskDevice.
From stdpp Require Import gmap.
#[local] Open Scope Z_scope.

Section Frames.
Context `{L : FnLib, !FnLibOk L} {W : Type}.
Variable sv : services W.
Variable table : fujinet_disk_client_t (W * fujinet_nio_disk_context_t).
Variable cl : disk_client (W * fujinet_nio_disk_context_t).
Variable sizes : abi.
Hypothesis Htable : complete_client table = Some cl.
Context `{!MediaClient cl}.
Implicit Types (d : device W) (u : unit_state W) (q : IOStdReq).
Abbreviation disk := (fujinet_disk_driver_t (W * fujinet_nio_disk_context_t)).

(** The queue and the worker's side of the device, and its library node. *)
Definition core d :=
  (io_queue d, nodes d, io_processing d, worker d, worker_signal d, signalled d, freed d).
Definition library d := (lib_OpenCnt d, lib_Flags d, segment_list d, transport_closed d).

(** The fields of a request that belong to its client. *)
Definition envelope q :=
  (ln_Type q, io_Device q, io_Unit q, io_Command q, io_Flags q, io_Length q, io_Data q, io_Offset q).

Definition notification u := (stopped u, change_requests u, legacy_change_interrupt u).

(** The unit's driver has the device's client and, when mounted, a valid
    medium of its slot. *)
Definition unit_ok (i : Z) u : Prop :=
  client (driver u) = Some table /\ medium_ok (i + 1) (driver u).

(** From [d] to [d'] only request [r], the driver of unit [i], the trace, the
    scratch buffers and the world may have changed. *)
Record frame (i r : Z) d d' : Prop := {
  fr_core : core d' = core d;
  fr_library : library d' = library d;
  fr_replied : replied d' = replied d;
  fr_caused : caused d' = caused d;
  fr_reqs : forall x, x <> r -> reqs d' x = reqs d x;
  fr_envelope : envelope (reqs d' r) = envelope (reqs d r);
  fr_units : forall x, x <> i -> units d' x = units d x;
  fr_notification : notification (units d' i) = notification (units d i);
  fr_unit_ok : unit_ok i (units d i) -> unit_ok i (units d' i)
}.

(** The unit's change count has not moved either. *)
Definition count_of (i : Z) d : Z := change_count (driver (units d i)).
Record calm (i r : Z) d d' : Prop := {
  cm_frame :> frame i r d d';
  cm_count : count_of i d' = count_of i d
}.

Lemma disk_frame_refl i r d : frame i r d d.
Proof. by split. Qed.
Lemma disk_frame_trans i r d1 d2 d3 : frame i r d1 d2 -> frame i r d2 d3 -> frame i r d1 d3.
Proof.
  intros [] []. split; try congruence.
  - intros x Hx. rewrite fr_reqs1, fr_reqs0; done.
  - intros x Hx. rewrite fr_units1, fr_units0; done.
  - auto.
Qed.
Lemma calm_refl i r d : calm i r d d.
Proof. split; [apply disk_frame_refl|done]. Qed.
Lemma calm_trans i r d1 d2 d3 : calm i r d1 d2 -> calm i r d2 d3 -> calm i r d1 d3.
Proof. intros [H1 E1] [H2 E2]. split; [by eapply disk_frame_trans|congruence]. Qed.

Lemma on_req_same r f d : reqs (on_req r f d) r = f (reqs d r).
Proof. cbn. by rewrite decide_True. Qed.
Lemma on_unit_same i f d : units (on_unit i f d) i = f (units d i).
Proof. cbn. by rewrite decide_True. Qed.

(** Updates of the request leave its envelope alone. *)
Lemma calm_req i r f d :
  (forall q, envelope (f q) = envelope q) -> calm i r d (on_req r f d).
Proof.
  intros Hf. split; [|by destruct d]. split; try (by destruct d).
  - intros x Hx. cbn. by rewrite decide_False.
  - by rewrite on_req_same.
Qed.
Lemma calm_error i r e d : calm i r d (set_error r e d).
Proof. by apply calm_req. Qed.
Lemma calm_actual i r a d : calm i r d (set_actual r a d).
Proof. by apply calm_req. Qed.
Lemma calm_world i r w d : calm i r d (set_world w d).
Proof. destruct d. by split. Qed.
Lemma calm_catalog_uri i r b d : calm i r d (set_catalog_uri b d).
Proof. destruct d. by split. Qed.
Lemma calm_request_uri i r b d : calm i r d (set_request_uri b d).
Proof. destruct d. by split. Qed.
Lemma calm_trace i r t d : calm i r d (set_trace t d).
Proof. destruct d. by split. Qed.

(** A call of the driver. *)
Lemma frame_driver {A : Type} i r (f : disk -> A * disk) d :
  (forall drv, client drv = Some table -> medium_ok (i + 1) drv ->
     client (f drv).2 = Some table /\ medium_ok (i + 1) (f drv).2) ->
  frame i r d (with_driver i f d).2.
Proof.
  intros Hf. unfold with_driver. destruct (f _) as [a drv] eqn:E.
  cbn [snd]. split; try (by destruct d).
  - intros x Hx. cbn. by rewrite decide_False.
  - cbn. by rewrite decide_True.
  - intros [Hc Hm]. cbn. rewrite decide_True by done.
    specialize (Hf (set_context (world d, (client_context (driver (units d i))).2) (driver (units d i)))).
    rewrite E in Hf. by apply Hf.
Qed.

Lemma calm_driver {A : Type} i r (f : disk -> A * disk) d :
  (forall drv, same_drive drv (f drv).2) -> calm i r d (with_driver i f d).2.
Proof.
  intros Hf. split.
  - apply frame_driver. intros drv Hc Hm. specialize (Hf drv). split.
    + by rewrite (sd_client _ _ Hf).
    + by eapply medium_same.
  - unfold count_of, with_driver.
    specialize (Hf (set_context (world d, (client_context (driver (units d i))).2) (driver (units d i)))).
    destruct (f _) as [a drv]. cbn. rewrite decide_True by done. apply (sd_count _ _ Hf).
Qed.

(** Apply the lemmas above from the outermost update inwards. *)
Ltac calm_update :=
  first [apply calm_error | apply calm_actual | apply calm_world | apply calm_catalog_uri
        |apply calm_request_uri | apply calm_trace | apply calm_req; intros; reflexivity].
Ltac calm_auto :=
  first [apply calm_refl | calm_update | eapply calm_trans; [|calm_update]; calm_auto].

(** ** The commands *)

Lemma resolve_calm i r d slot capacity : calm i r d (resolve_catalog_slot sv d slot capacity).1.
Proof.
  unfold resolve_catalog_slot. destruct (fn_init sv (world d)) as [w res].
  destruct (if res =? FN_OK then _ else _) as [[w2 res2] e]. destruct (_ || _); cbn [fst]; calm_auto.
Qed.

Lemma load_calm i r d : calm i r d (load_mappings sv d).2.
Proof.
  unfold load_mappings. destruct (fn_init sv (world d)) as [w res].
  destruct (negb (res =? FN_OK)); [cbn [snd]; calm_auto|].
  destruct (fn_appstore_read sv w fresh_mappings) as [[[[w2 res2] m] fl] n].
  destruct (negb (res2 =? FN_OK)); [cbn [snd]; calm_auto|]. destruct (_ || _); cbn [snd]; calm_auto.
Qed.

Lemma store_calm i r m d : calm i r d (store_mappings sv m d).2.
Proof.
  unfold store_mappings. destruct (fn_init sv (world d)) as [w res].
  destruct (negb (res =? FN_OK)); [cbn [snd]; calm_auto|].
  destruct (fn_appstore_write sv w m) as [[w2 res2] n]. cbn [snd]. calm_auto.
Qed.

Lemma remap_frame i r flags slot action d :
  (forall d0, frame i r d0 (action d0).2) -> frame i r d (remap sv i flags slot action d).2.
Proof.
  intros Ha. unfold remap. pose proof (load_calm i r d) as H1.
  destruct (load_mappings sv d) as [[res m] d1]. cbn [snd] in H1.
  destruct (negb (res =? FN_OK)); [apply H1|].
  match goal with |- context [store_mappings sv ?m' d1] => pose proof (store_calm i r m' d1) as H2;
    destruct (store_mappings sv m' d1) as [res2 d2] end.
  cbn [snd] in H2. assert (H12 : frame i r d d2) by (eapply disk_frame_trans; [apply H1|apply H2]).
  assert (H3 : frame i r d2 (if res2 =? FN_OK then action d2 else (res2, d2)).2)
    by (destruct (res2 =? FN_OK); [apply Ha|apply disk_frame_refl]).
  destruct (if res2 =? FN_OK then action d2 else (res2, d2)) as [res3 d3]. cbn [snd] in H3 |- *.
  assert (H13 : frame i r d d3) by by eapply disk_frame_trans.
  destruct (negb (res3 =? FN_OK)); [|done]. eapply disk_frame_trans; [done|apply store_calm].
Qed.

Lemma mount_driver_frame i r uri wr d :
  0 <= i -> frame i r d (with_driver i (fun drv => fujinet_disk_mount_mode drv i (Some uri) wr) d).2.
Proof.
  intros Hi. apply frame_driver. intros drv Hc Hm. split.
  - pose proof (mount_spec drv i (Some uri) wr Hi) as H.
    destruct (fujinet_disk_mount_mode drv i (Some uri) wr). cbn. rewrite <-Hc. apply H.
  - eapply mount_medium; [|done..]. by rewrite Hc.
Qed.

(** The interrupts a moved change count causes. *)
Definition notify (i old : Z) d : device W :=
  if negb (count_of i d =? old) then signal_media_change i d else d.

Lemma notify_calm i r d d' : calm i r d d' -> notify i (count_of i d) d' = d'.
Proof. intros H. unfold notify. by rewrite (cm_count _ _ _ _ H), Z.eqb_refl. Qed.

Lemma calm_outcome i r d d' :
  calm i r d d' -> exists d0, frame i r d d0 /\ (true, d') = (true, notify i (count_of i d) d0).
Proof. intros H. exists d'. split; [apply H|]. by erewrite notify_calm. Qed.

Lemma change_outcome i r result d d' :
  frame i r d d' ->
  exists d0, frame i r d d0 /\
    (true, finish_change i r result (count_of i d) d') = (true, notify i (count_of i d) d0).
Proof.
  intros H. exists (set_error r (result_to_io_error result) d'). split; [|done].
  eapply disk_frame_trans; [done|apply calm_error].
Qed.

Lemma mount_outcome_of i r d :
  0 <= i -> exists d0, frame i r d d0 /\ (true, cmd_mount i r d) = (true, notify i (count_of i d) d0).
Proof.
  intros Hi. unfold cmd_mount. destruct (_ || _); [apply calm_outcome; calm_auto|].
  set (d1 := set_request_uri _ d). assert (H1 : frame i r d d1) by apply calm_request_uri. clearbody d1.
  match goal with |- context [with_driver i ?f d1] =>
    assert (H2 : frame i r d1 (with_driver i f d1).2) end.
  { destruct (io_Command (reqs d r) =? FUJINET_DISK_CMD_MOUNT_WRITABLE); by apply mount_driver_frame. }
  destruct (with_driver i _ d1) as [res d2]. apply change_outcome. by eapply disk_frame_trans.
Qed.

Lemma mount_catalog_outcome i r d :
  0 <= i ->
  exists d0, frame i r d d0 /\ (true, cmd_mount_catalog sv sizes i r d) = (true, notify i (count_of i d) d0).
Proof.
  intros Hi. unfold cmd_mount_catalog. destruct (_ || _); [apply calm_outcome; calm_auto|].
  match goal with |- context [resolve_catalog_slot sv d ?s ?c] => pose proof (resolve_calm i r d s c) as H1;
    destruct (resolve_catalog_slot sv d s c) as [d1 res] end. cbn [fst] in H1.
  match goal with |- context [if res =? FN_OK then ?a else ?b] =>
    assert (H2 : frame i r d1 (if res =? FN_OK then a else b).2);
    [|destruct (if res =? FN_OK then a else b) as [res2 d2]] end.
  { destruct (res =? FN_OK); [|apply disk_frame_refl]. apply remap_frame. intros d0. by apply mount_driver_frame. }
  apply change_outcome. eapply disk_frame_trans; [apply H1|done].
Qed.

Lemma eject_outcome i r d :
  exists d0, frame i r d d0 /\ (true, cmd_eject sv i r d) = (true, notify i (count_of i d) d0).
Proof.
  unfold cmd_eject.
  match goal with |- context [remap sv i 0 0 ?a d] => assert (H : frame i r d (remap sv i 0 0 a d).2);
    [|destruct (remap sv i 0 0 a d) as [res d1]] end.
  { apply remap_frame. intros d0. apply frame_driver. intros drv Hc Hm. split; [|by apply eject_medium].
    pose proof (eject_spec drv i) as He. destruct (fujinet_disk_eject drv i). cbn. rewrite <-Hc. apply He. }
  by apply change_outcome.
Qed.

Lemma restore_boot_outcome i r d :
  0 <= i -> exists d0, frame i r d d0 /\ (true, cmd_restore_boot i r d) = (true, notify i (count_of i d) d0).
Proof.
  intros Hi. unfold cmd_restore_boot.
  match goal with |- context [with_driver i ?f d] => assert (H : frame i r d (with_driver i f d).2);
    [|destruct (with_driver i f d) as [res d1]] end.
  { apply frame_driver. intros drv Hc Hm. split.
    - pose proof (restore_boot_spec drv i Hi) as He. destruct (fujinet_disk_restore_boot drv i).
      cbn. rewrite <-Hc. apply He.
    - eapply restore_boot_medium; [|done..]. by rewrite Hc. }
  by apply change_outcome.
Qed.

Lemma calm_context i r c d : calm i r d ((unit_context i).2 c d).
Proof.
  split; [split|]; try (by destruct d).
  - intros x Hx. cbn. by rewrite decide_False.
  - cbn. by rewrite decide_True.
  - intros [Hc Hm]. cbn. by rewrite decide_True.
  - unfold count_of. cbn. by rewrite decide_True.
Qed.

Lemma inspect_calm i r d : calm i r d (cmd_inspect_catalog sv sizes i r d).
Proof.
  unfold cmd_inspect_catalog. destruct (_ || _); [calm_auto|].
  match goal with |- context [fujinet_disk_inspect_catalog ?c ?x ?f ?s ?u ?n ?p d] =>
    assert (H : calm i r d (fujinet_disk_inspect_catalog c x f s u n p d).2);
    [|destruct (fujinet_disk_inspect_catalog c x f s u n p d) as [[res insp] d1]] end.
  { unfold fujinet_disk_inspect_catalog. destruct (mbind _ _) as [inspect|]; [|apply calm_refl].
    destruct (_ =? 0); [apply calm_refl|].
    match goal with |- context [resolve_catalog_slot sv d ?s ?c] => pose proof (resolve_calm i r d s c) as H1;
      destruct (resolve_catalog_slot sv d s c) as [d1 res] end.
    destruct (negb (res =? FN_OK)); [done|]. destruct (inspect _ _ _) as [[c2 res2] b].
    eapply calm_trans; [done|apply calm_context]. }
  cbn [snd] in H. destruct (res =? FN_OK); (eapply calm_trans; [done|]); calm_auto.
Qed.

Lemma read_calm i r d : calm i r d (cmd_read i r d).
Proof.
  unfold cmd_read. destruct (transfer_check _ _ _ _); [calm_auto|].
  match goal with |- context [with_driver i ?f d] => assert (H : calm i r d (with_driver i f d).2);
    [apply calm_driver; intros; apply read_frame|destruct (with_driver i f d) as [[[res actual] data] d1]] end.
  cbn [snd] in H. eapply calm_trans; [done|]. calm_auto.
Qed.

Lemma write_calm i r d : calm i r d (cmd_write i r d).
Proof.
  unfold cmd_write. destruct (transfer_check _ _ _ _); [calm_auto|].
  match goal with |- context [with_driver i ?f d] => assert (H : calm i r d (with_driver i f d).2);
    [apply calm_driver; intros; apply write_frame|destruct (with_driver i f d) as [[res actual] d1]] end.
  cbn [snd] in H. eapply calm_trans; [done|]. calm_auto.
Qed.

Lemma update_calm i r d : calm i r d (cmd_update i r d).
Proof.
  unfold cmd_update. destruct (stale _ _ _); [calm_auto|].
  match goal with |- context [with_driver i ?f d] => assert (H : calm i r d (with_driver i f d).2);
    [apply calm_driver; intros; apply flush_frame|destruct (with_driver i f d) as [res d1]] end.
  cbn [snd] in H. eapply calm_trans; [done|]. calm_auto.
Qed.

Lemma clear_calm i r d : calm i r d (cmd_clear i r d).
Proof. unfold cmd_clear. destruct (stale _ _ _); calm_auto. Qed.
Lemma trace_calm i r d : calm i r d (cmd_trace sizes r d).
Proof. unfold cmd_trace. destruct (_ || _); calm_auto. Qed.
Lemma geometry_calm i r d : calm i r d (cmd_getgeometry sizes i r d).
Proof. unfold cmd_getgeometry. destruct (_ || _); [calm_auto|]. destruct (negb _); calm_auto. Qed.
Lemma devicequery_calm i r d : calm i r d (cmd_devicequery sizes r d).
Proof. unfold cmd_devicequery. destruct (_ || _); calm_auto. Qed.

(** The commands that change more of the device than a [frame]. *)
Definition structural : list Z := [CMD_START; CMD_STOP; CMD_FLUSH; TD_ADDCHANGEINT; TD_REMOVE; TD_REMCHANGEINT].

Lemma execute_outcome i r d :
  0 <= i -> io_Command (reqs d r) ∉ structural ->
  exists d0, frame i r d d0 /\ execute sv sizes i r d = (true, notify i (count_of i d) d0).
Proof.
  intros Hi. unfold execute. set (c := io_Command (reqs d r)). clearbody c. intros Hc.
  destruct (c =? FUJINET_DISK_CMD_RESTORE_BOOT); [by apply restore_boot_outcome|].
  destruct (_ || _); [by apply mount_outcome_of|].
  destruct (c =? FUJINET_DISK_CMD_MOUNT_CATALOG); [by apply mount_catalog_outcome|].
  destruct (c =? FUJINET_DISK_CMD_INSPECT_CATALOG); [apply calm_outcome, inspect_calm|].
  destruct (c =? FUJINET_DISK_CMD_TRACE); [apply calm_outcome, trace_calm|].
  destruct (c =? FUJINET_DISK_CMD_TRACE_CLEAR); [apply calm_outcome; calm_auto|].
  destruct (_ || _); [apply calm_outcome, read_calm|].
  destruct (_ || _); [apply calm_outcome, write_calm|].
  destruct (_ || _); [apply calm_outcome, update_calm|].
  destruct (_ || _); [apply calm_outcome, clear_calm|].
  destruct (Z.eqb_spec c CMD_START) as [->|_]; [set_solver|].
  destruct (Z.eqb_spec c CMD_STOP) as [->|_]; [set_solver|].
  destruct (Z.eqb_spec c CMD_FLUSH) as [->|_]; [set_solver|].
  destruct (_ || _); [apply calm_outcome; calm_auto|].
  destruct (_ || _); [apply calm_outcome; calm_auto|].
  destruct (c =? TD_EJECT); [apply eject_outcome|].
  destruct (c =? TD_GETDRIVETYPE); [apply calm_outcome; calm_auto|].
  destruct (c =? TD_GETNUMTRACKS); [apply calm_outcome; calm_auto|].
  destruct (c =? TD_GETGEOMETRY); [apply calm_outcome, geometry_calm|].
  destruct (Z.eqb_spec c TD_ADDCHANGEINT) as [->|_]; [set_solver|].
  destruct (Z.eqb_spec c TD_REMOVE) as [->|_]; [set_solver|].
  destruct (Z.eqb_spec c TD_REMCHANGEINT) as [->|_]; [set_solver|].
  destruct (c =? NSCMD_DEVICEQUERY); apply calm_outcome; [apply devicequery_calm|calm_auto].
Qed.

(** ** Around the switch *)

Lemma trace_begin_calm i r d : calm i r d (trace_begin r d).2.
Proof. unfold trace_begin. destruct (_ && _); cbn [snd]; unfold put_entry; calm_auto. Qed.
Lemma trace_outcome_calm i r k d : calm i r d (trace_outcome k r d).
Proof. destruct k; unfold trace_outcome, put_entry; calm_auto. Qed.
Lemma trace_exchange_calm i r k d : calm i r d (trace_exchange k i r d).
Proof. destruct k; unfold trace_exchange, put_entry; [destruct (negb _)|]; calm_auto. Qed.

Lemma acknowledged_calm i r d :
  calm i r d (with_driver i (fun drv => fujinet_disk_acknowledge_change drv i) d).2.
Proof. apply calm_driver. intros. apply acknowledge_change_frame. Qed.

Lemma prepare_calm i r d : calm i r d (prepare i r d).2.
Proof.
  unfold prepare. eapply calm_trans; [|apply trace_begin_calm].
  eapply calm_trans; [|apply acknowledged_calm]. calm_auto.
Qed.

(** The request as a command finds it. *)
Lemma prepare_request i r d :
  reqs (prepare i r d).2 r = (reqs d r |> set_io_Error 0 |> set_io_Actual 0).
Proof.
  unfold prepare.
  assert (E : forall d, reqs (trace_begin r d).2 = reqs d)
    by (intros d0; unfold trace_begin; by destruct (_ && _)).
  rewrite E. unfold with_driver. destruct (fujinet_disk_acknowledge_change _ _). cbn. by rewrite decide_True.
Qed.
End Frames.

(** ** Registrations *)

Lemma remove_registration_spec r l :
  match remove_registration r l with
  | (true, l') => exists a g b, l = a ++ g :: b /\ rg_request g = r /\ l' = a ++ b
  | (false, l') => l' = l /\ r ∉ (rg_request <$> l)
  end.
Proof.
  induction l as [|g l IH]; cbn [remove_registration]; [split; [done|apply not_elem_of_nil]|].
  destruct (Z.eqb_spec (rg_request g) r) as [E|E].
  - by exists [], g, l.
  - destruct (remove_registration r l) as [[|] l'].
    + destruct IH as (a & g' & b & -> & ? & ->). by exists (g :: a), g', b.
    + destruct IH as [-> Hr]. split; [done|]. rewrite fmap_cons. apply not_elem_of_cons. split; congruence.
Qed.

Lemma filter_not_in r (l : list change_registration) :
  r ∉ (rg_request <$> l) -> filter (fun g => rg_request g <> r) l = l.
Proof.
  intros H. induction l as [|g l IH]; [done|]. rewrite fmap_cons in H. apply not_elem_of_cons in H as [Hg H].
  rewrite filter_cons_True by congruence. by rewrite IH.
Qed.

Lemma remove_all_spec r l fuel :
  (length l < fuel)%nat -> (remove_all_loop fuel r l).2 = filter (fun g => rg_request g <> r) l.
Proof.
  revert l. induction fuel as [|fuel IH]; intros l Hl; [lia|]. cbn [remove_all_loop].
  pose proof (remove_registration_spec r l) as H. destruct (remove_registration r l) as [[|] l'].
  - destruct H as (a & g & b & -> & Hg & ->). cbn [snd]. rewrite length_app in Hl. cbn in Hl.
    rewrite IH by (rewrite length_app; lia). rewrite !filter_app. f_equal.
    rewrite filter_cons_False; [done|]. intros H. exact (H Hg).
  - destruct H as [-> H]. cbn [snd]. by rewrite filter_not_in.
Qed.

Lemma set_interrupt_requests r n l : rg_request <$> set_interrupt r n l = rg_request <$> l.
Proof.
  induction l as [|g l IH]; [done|]. cbn [set_interrupt]. destruct (Z.eqb_spec (rg_request g) r); [by cbn; subst|].
  by rewrite !fmap_cons, IH.
Qed.

Lemma find_registration_none r (l : list change_registration) :
  find (fun g => rg_request g =? r) l = None <-> r ∉ (rg_request <$> l).
Proof.
  induction l as [|g l IH]; cbn [find].
  - split; [intros _; apply not_elem_of_nil|done].
  - rewrite fmap_cons, not_elem_of_cons. destruct (Z.eqb_spec (rg_request g) r) as [E|E].
    + split; [done|]. intros [H _]. by destruct H.
    + rewrite IH. split; [|tauto]. intros H. split; [|done]. by intros ->.
Qed.

(** ** Loops over the units *)

Lemma fold_on_unit {W : Type} (f : Z -> unit_state W -> unit_state W) l (d : device W) :
  NoDup l ->
  exists us, foldl (fun d i => on_unit i (f i) d) d l = set_units us d /\
    forall j, us j = if decide (j ∈ l) then f j (units d j) else units d j.
Proof.
  revert d. induction l as [|i l IH]; intros d Hnd.
  - exists (units d). split; [by destruct d|]. intros j. rewrite decide_False; [done|apply not_elem_of_nil].
  - apply NoDup_cons in Hnd as [Hi Hnd]. destruct (IH (on_unit i (f i) d) Hnd) as (us & E & Hus).
    exists us. split; [cbn [foldl]; rewrite E; by destruct d|]. intros j. rewrite Hus. cbn [on_unit units set_units].
    destruct (decide (j = i)) as [->|Hj].
    + rewrite decide_False by done. rewrite decide_True by left. done.
    + destruct (decide (j ∈ l)) as [Hl|Hl].
      * rewrite decide_True by (by right). done.
      * rewrite decide_False; [done|]. rewrite not_elem_of_cons. done.
Qed.

(** A change of every unit, and the same change of every unit. *)
Lemma for_units_each {W : Type} (f : Z -> unit_state W -> unit_state W) (d : device W) :
  exists us, for_units (fun i => on_unit i (f i)) d = set_units us d /\
    forall j, 0 <= j < FUJINET_DISK_UNIT_COUNT -> us j = f j (units d j).
Proof.
  destruct (fold_on_unit f all_units d) as (us & E & Hus); [apply NoDup_seqZ|].
  exists us. split; [exact E|]. intros j Hj. rewrite Hus, decide_True; [done|]. apply elem_of_seqZ. lia.
Qed.
Lemma for_units_spec {W : Type} (f : unit_state W -> unit_state W) (d : device W) :
  exists us, for_units (fun i => on_unit i f) d = set_units us d /\
    forall j, 0 <= j < FUJINET_DISK_UNIT_COUNT -> us j = f (units d j).
Proof. exact (for_units_each (fun _ => f) d). Qed.

(** ** What is retained, seen from one unit *)

Section Retained.
Context {W : Type}.
Implicit Types (d : device W).

Definition retained_except (i : Z) d : list Z :=
  flat_map (fun j => registered j d) (filter (fun j => j <> i) all_units).

Lemma all_units_spec i : i ∈ all_units <-> 0 <= i < 8.
Proof. unfold all_units, FUJINET_DISK_UNIT_COUNT. rewrite elem_of_seqZ. lia. Qed.

Lemma all_units_split i : 0 <= i < 8 -> all_units ≡ₚ i :: filter (fun j => j <> i) all_units.
Proof.
  intros H%all_units_spec. apply NoDup_Permutation.
  - apply NoDup_seqZ.
  - apply NoDup_cons. split; [|apply NoDup_filter, NoDup_seqZ].
    by intros [? _]%list_elem_of_filter.
  - intros x. rewrite elem_of_cons, list_elem_of_filter. rewrite all_units_spec. apply all_units_spec in H.
    split; [intros Hx; destruct (decide (x = i)); tauto|intros [->|[_ Hx]]; done].
Qed.

Lemma retained_split i d : 0 <= i < 8 -> retained d ≡ₚ registered i d ++ retained_except i d.
Proof. intros H. unfold retained. by rewrite (all_units_split i H). Qed.

Lemma flat_map_eq (f g : Z -> list Z) l :
  (forall j, j ∈ l -> f j = g j) -> flat_map f l = flat_map g l.
Proof.
  induction l as [|j l IH]; intros H; [done|]. cbn. rewrite H by left. f_equal. apply IH. intros k Hk. apply H. by right.
Qed.

Lemma retained_except_eq i d d' :
  (forall j, j <> i -> registered j d' = registered j d) -> retained_except i d' = retained_except i d.
Proof. intros H. apply flat_map_eq. intros j [Hj _]%list_elem_of_filter. by apply H. Qed.

Lemma retained_eq d d' : (forall j, registered j d' = registered j d) -> retained d' = retained d.
Proof. intros H. apply flat_map_eq. intros j _. apply H. Qed.

Lemma elem_of_retained r d : r ∈ retained d <-> exists i, 0 <= i < 8 /\ r ∈ registered i d.
Proof.
  unfold retained. rewrite list_elem_of_In, in_flat_map. setoid_rewrite <-list_elem_of_In.
  setoid_rewrite all_units_spec. done.
Qed.
End Retained.

(** ** Transfers *)

Section Transfers.
Context `{L : FnLib, !FnLibOk L} {W : Type}.
Variable sv : services W.
Variable table : fujinet_disk_client_t (W * fujinet_nio_disk_context_t).
Variable cl : disk_client (W * fujinet_nio_disk_context_t).
Variable sizes : abi.
Hypothesis Htable : complete_client table = Some cl.
Variable blocks : W -> Z -> Z -> list Z.
Context `{Hstore : !BlockStore cl (fun c => blocks c.1)}.
Implicit Types (d : device W) (u : unit_state W) (q : IOStdReq).

Lemma blocks_at_world c slot lba n :
  blocks_at (fun c : W * fujinet_nio_disk_context_t => blocks c.1) c slot lba n = blocks_at blocks c.1 slot lba n.
Proof. revert lba. induction n as [|n IH]; intros lba; cbn; [done|]. by rewrite IH. Qed.

(** What a call of the driver does to the unit and the world. *)
Lemma with_driver_spec {A : Type} i
    (f : fujinet_disk_driver_t (W * fujinet_nio_disk_context_t) ->
         A * fujinet_disk_driver_t (W * fujinet_nio_disk_context_t)) d :
  let drv := set_context (world d, (client_context (driver (units d i))).2) (driver (units d i)) in
  (with_driver i f d).1 = (f drv).1 /\
  driver (units (with_driver i f d).2 i) = (f drv).2 /\
  world (with_driver i f d).2 = (client_context (f drv).2).1 /\
  reqs (with_driver i f d).2 = reqs d.
Proof.
  unfold with_driver. destruct (f _) as [a drv]. cbn. by rewrite decide_True.
Qed.

Lemma prepare_driver i r d :
  same_drive (driver (units d i)) (driver (units (prepare i r d).2 i)) /\
  (client (driver (units d i)) = Some table ->
   forall s l, blocks (world (prepare i r d).2) s l = blocks (world d) s l).
Proof.
  unfold prepare. set (d0 := on_req r _ d).
  assert (E0 : units d0 = units d /\ world d0 = world d) by done. clearbody d0. destruct E0 as [Eu Ew].
  destruct (with_driver_spec i (fun drv => fujinet_disk_acknowledge_change drv i) d0) as (_ & Hd & Hw & _).
  set (d1 := (with_driver i _ d0).2) in *. clearbody d1.
  assert (E : units (trace_begin r d1).2 = units d1 /\ world (trace_begin r d1).2 = world d1).
  { unfold trace_begin. by destruct (_ && _). }
  destruct E as [-> ->]. rewrite Hd, Hw, Eu, Ew. split.
  - eapply same_drive_trans; [|apply acknowledge_change_frame]. by split.
  - intros Hc s l.
    set (drv := set_context _ _). change (world d) with (client_context drv).1.
    exact (acknowledge_store cl (fun c => blocks c.1) table Htable drv i Hc s l).
Qed.

Lemma transfer_check_same wr ext u u' q q' :
  same_drive (driver u) (driver u') ->
  io_Data q' = io_Data q -> io_Offset q' = io_Offset q -> io_Length q' = io_Length q ->
  io_Command q' = io_Command q -> iotd_Count q' = iotd_Count q -> iotd_SecLabel q' = iotd_SecLabel q ->
  transfer_check wr ext u' q' = transfer_check wr ext u q.
Proof.
  intros [_ Hm Hmo Hw Hc _] E1 E2 E3 E4 E5 E6. unfold transfer_check, device_media_bytes, media_bytes.
  by rewrite Hmo, Hw, Hm, Hc, E1, E2, E3, E4, E5, E6.
Qed.

(** The end of the processing leaves the outcome alone. *)
Lemma conclude_outcome i r k d :
  let d' := conclude i r k true d in
  io_Error (reqs d' r) = io_Error (reqs d r) /\ io_Actual (reqs d' r) = io_Actual (reqs d r) /\
  memory (reqs d' r) = memory (reqs d r) /\ world d' = world d /\ units d' = units d.
Proof.
  unfold conclude. set (d1 := trace_exchange k i r (trace_outcome k r d)).
  assert (E : reqs d1 = reqs d /\ world d1 = world d /\ units d1 = units d).
  { unfold d1, trace_exchange, trace_outcome. destruct k; [|done]. by destruct (negb _). }
  clearbody d1. destruct E as (Er & Ew & Eu). unfold reply_unless_quick. destruct (quick (reqs d1 r)).
  - rewrite Er. by split_and!.
  - cbn. rewrite decide_True by done. rewrite Er. by split_and!.
Qed.

Lemma unit_index i q : io_Unit q = Some i -> 0 <= i < 8 -> request_unit_index q = i.
Proof.
  intros E Hi. unfold request_unit_index, FUJINET_DISK_UNIT_COUNT. rewrite E.
  destruct (Z.leb_spec 0 i), (Z.ltb_spec i 8); cbn; lia.
Qed.

(** A request of unit [i] is processed by preparing, executing and
    concluding. *)
Lemma process_unit i r d k d1 d2 :
  io_Unit (reqs d r) = Some i -> 0 <= i < 8 -> prepare i r d = (k, d1) ->
  execute sv sizes i r d1 = (true, d2) ->
  device_process_request sv sizes r d = conclude i r k true d2.
Proof.
  intros Hu Hi Ep Ee. unfold device_process_request. rewrite (unit_index i) by done.
  destruct (Z.geb_spec i FUJINET_DISK_UNIT_COUNT) as [Hx|_]; [change FUJINET_DISK_UNIT_COUNT with 8 in Hx; lia|].
  by rewrite Ep, Ee.
Qed.

Lemma result_zero result : result_to_io_error result = 0 <-> result = FN_OK.
Proof.
  unfold result_to_io_error. destruct (Z.eqb_spec result FN_OK); [done|].
  destruct (result =? FN_ERR_INVALID); [done|]. by destruct (_ || _).
Qed.

Section Request.
Variables (i r : Z) (d : device W).
Hypothesis Hunit : io_Unit (reqs d r) = Some i.
Hypothesis Hi : 0 <= i < 8.
Hypothesis Hok : unit_ok table i (units d i).
Hypothesis Hoff : is_u32 (io_Offset (reqs d r)).
Hypothesis Hlen : is_u32 (io_Length (reqs d r)).
Hypothesis Hmem : io_Length (reqs d r) <= Z.of_nat (length (m_bytes (memory (reqs d r)))).

(** The medium the driver works on, wherever the context comes from. *)
Lemma medium_adf drv : same_drive (driver (units d i)) drv -> mounted drv = true -> adf_info (media drv).
Proof. intros [_ E1 E2 _ _ _] Hm. rewrite E1. apply Hok. congruence. Qed.

Lemma read_request_outcome :
  io_Command (reqs d r) = CMD_READ \/ io_Command (reqs d r) = ETD_READ ->
  let q := reqs d r in
  let d' := device_process_request sv sizes r d in
  let q' := reqs d' r in
  (forall s l, blocks (world d') s l = blocks (world d) s l) /\
  match transfer_check false ETD_READ (units d i) q with
  | Some error => io_Error q' = error /\ io_Actual q' = 0 /\ memory q' = memory q
  | None => exists k, io_Actual q' = 512 * Z.of_nat k /\ io_Actual q' <= io_Length q /\
      (io_Error q' = 0 -> io_Actual q' = io_Length q /\ 0 < io_Length q) /\
      take (512 * k) (m_bytes (memory q')) = blocks_at blocks (world d) (i + 1) (io_Offset q / 512) k /\
      drop (Z.to_nat (io_Length q)) (m_bytes (memory q')) =
      drop (Z.to_nat (io_Length q)) (m_bytes (memory q))
  end.
Proof.
  intros Hcmd q d' q'. destruct (prepare_driver i r d) as [Hs1 Hb1]. specialize (Hb1 (proj1 Hok)).
  pose proof (prepare_request i r d) as Hq1. destruct (prepare i r d) as [k0 d1] eqn:Ep. cbn [snd] in *.
  assert (He : execute sv sizes i r d1 = (true, cmd_read i r d1)).
  { unfold execute. rewrite Hq1. change (io_Command _) with (io_Command (reqs d r)).
    by destruct Hcmd as [-> | ->]. }
  pose proof (process_unit i r d k0 d1 _ Hunit Hi Ep He) as Ed. fold d' in Ed.
  destruct (conclude_outcome i r k0 (cmd_read i r d1)) as (E1 & E2 & E3 & E4 & _). unfold q'.
  rewrite <-Ed in E1, E2, E3, E4. rewrite E1, E2, E3, E4. clear E1 E2 E3 E4 Ed He.
  assert (Hchk : transfer_check false ETD_READ (units d1 i) (reqs d1 r) =
                 transfer_check false ETD_READ (units d i) q) by (rewrite Hq1; by apply transfer_check_same).
  unfold cmd_read. rewrite Hchk. destruct (transfer_check false ETD_READ (units d i) q) as [e|].
  { split; [exact Hb1|]. unfold set_error. rewrite on_req_same, Hq1. done. }
  match goal with |- context [with_driver i ?f d1] => destruct (with_driver_spec i f d1) as (Ha & Hd2 & Hw & Hr2);
    destruct (with_driver i f d1) as [[[result actual] data] d2] end.
  cbn [fst snd] in *. set (drv := set_context _ _) in *.
  assert (Hs : same_drive (driver (units d i)) drv) by (eapply same_drive_trans; [exact Hs1|by split]).
  pose proof (drive_read_spec cl (fun c => blocks c.1) table Htable drv i (io_Offset q) (m_bytes (memory q)) (io_Length q)
    ltac:(rewrite (sd_client _ _ Hs); apply Hok) (medium_adf drv Hs) ltac:(lia) Hoff Hlen Hmem) as Hread.
  rewrite Hq1 in Ha, Hw. change (io_Offset _) with (io_Offset q) in Ha, Hw.
  change (io_Length _) with (io_Length q) in Ha, Hw. change (memory _) with (memory q) in Ha, Hw.
  destruct (fujinet_disk_read drv i _ _ _) as [[[res act] dat] drv']. cbn [fst snd] in Ha, Hw.
  injection Ha as -> -> ->. destruct Hread as (k & buf & -> & Eact & Hle & Hfull & _ & Htk & Hdr & Hbl).
  unfold set_error. split.
  - intros s l. cbn [on_req set_reqs world]. rewrite Hw, Hbl. apply Hb1.
  - exists k. rewrite !on_req_same. cbn [io_Actual io_Error memory m_bytes set_io_Error set_io_Actual set_memory
      set_m_bytes default].
    split; [done|]. split; [done|]. split; [by intros H%result_zero; apply Hfull|]. split; [|exact Hdr].
    change (id buf) with buf. rewrite Htk, blocks_at_world. cbn [client_context drv set_context fst].
    apply blocks_at_ext. exact Hb1.
Qed.

(** C14: A CMD_READ or ETD_READ request changes nothing on the server.  If a
    check fails (medium, address, length, change count, label, in the order
    of the source), the request ends with that error and nothing transferred.
    Otherwise it transfers a whole number of blocks, the client's buffer
    starts with exactly the blocks of the medium, and beyond the requested
    length it is as it was; and if the request reports no error, all of the
    requested length was transferred. *)
Theorem disk_read_request :
  io_Command (reqs d r) = CMD_READ \/ io_Command (reqs d r) = ETD_READ ->
  let q := reqs d r in
  let d' := device_process_request sv sizes r d in
  let q' := reqs d' r in
  (forall s l, blocks (world d') s l = blocks (world d) s l) /\
  match transfer_check false ETD_READ (units d i) q with
  | Some error => io_Error q' = error /\ io_Actual q' = 0 /\ memory q' = memory q
  | None => exists k, io_Actual q' = 512 * Z.of_nat k /\ io_Actual q' <= io_Length q /\
      (io_Error q' = 0 -> io_Actual q' = io_Length q /\ 0 < io_Length q) /\
      take (512 * k) (m_bytes (memory q')) = blocks_at blocks (world d) (i + 1) (io_Offset q / 512) k /\
      drop (Z.to_nat (io_Length q)) (m_bytes (memory q')) =
      drop (Z.to_nat (io_Length q)) (m_bytes (memory q))
  end.
Proof. exact read_request_outcome. Qed.

Lemma write_request_outcome :
  io_Command (reqs d r) = CMD_WRITE \/ io_Command (reqs d r) = ETD_WRITE ->
  let q := reqs d r in
  let d' := device_process_request sv sizes r d in
  let q' := reqs d' r in
  memory q' = memory q /\
  match transfer_check true ETD_WRITE (units d i) q with
  | Some error => io_Error q' = error /\ io_Actual q' = 0 /\
      forall s l, blocks (world d') s l = blocks (world d) s l
  | None => exists k, io_Actual q' = 512 * Z.of_nat k /\ io_Actual q' <= io_Length q /\
      (io_Error q' = 0 -> io_Actual q' = io_Length q /\ 0 < io_Length q) /\
      (forall j, (j < k)%nat ->
         blocks (world d') (i + 1) (io_Offset q / 512 + Z.of_nat j) =
         slice (m_bytes (memory q)) (512 * j) 512) /\
      (forall s l, s <> i + 1 \/ l < io_Offset q / 512 \/ (io_Offset q + io_Length q) / 512 <= l ->
         blocks (world d') s l = blocks (world d) s l)
  end.
Proof.
  intros Hcmd q d' q'. destruct (prepare_driver i r d) as [Hs1 Hb1]. specialize (Hb1 (proj1 Hok)).
  pose proof (prepare_request i r d) as Hq1. destruct (prepare i r d) as [k0 d1] eqn:Ep. cbn [snd] in *.
  assert (He : execute sv sizes i r d1 = (true, cmd_write i r d1)).
  { unfold execute. rewrite Hq1. change (io_Command _) with (io_Command (reqs d r)).
    by destruct Hcmd as [-> | ->]. }
  pose proof (process_unit i r d k0 d1 _ Hunit Hi Ep He) as Ed. fold d' in Ed.
  destruct (conclude_outcome i r k0 (cmd_write i r d1)) as (E1 & E2 & E3 & E4 & _). unfold q'.
  rewrite <-Ed in E1, E2, E3, E4. rewrite E1, E2, E3, E4. clear E1 E2 E3 E4 Ed He.
  assert (Hchk : transfer_check true ETD_WRITE (units d1 i) (reqs d1 r) =
                 transfer_check true ETD_WRITE (units d i) q) by (rewrite Hq1; by apply transfer_check_same).
  unfold cmd_write. rewrite Hchk. destruct (transfer_check true ETD_WRITE (units d i) q) as [e|].
  { unfold set_error. rewrite on_req_same, Hq1. done. }
  match goal with |- context [with_driver i ?f d1] => destruct (with_driver_spec i f d1) as (Ha & Hd2 & Hw & Hr2);
    destruct (with_driver i f d1) as [[result actual] d2] end.
  cbn [fst snd] in *. set (drv := set_context _ _) in *.
  assert (Hs : same_drive (driver (units d i)) drv) by (eapply same_drive_trans; [exact Hs1|by split]).
  pose proof (drive_write_spec cl (fun c => blocks c.1) table Htable drv i (io_Offset q) (m_bytes (memory q)) (io_Length q)
    ltac:(rewrite (sd_client _ _ Hs); apply Hok) (medium_adf drv Hs) ltac:(lia) Hoff Hlen Hmem) as Hwrite.
  rewrite Hq1 in Ha, Hw. change (io_Offset _) with (io_Offset q) in Ha, Hw.
  change (io_Length _) with (io_Length q) in Ha, Hw. change (memory _) with (memory q) in Ha, Hw.
  destruct (fujinet_disk_write drv i _ _ _) as [[res act] drv']. cbn [fst snd] in Ha, Hw.
  injection Ha as -> ->. destruct Hwrite as (k & Eact & Hle & Hfull & _ & Hst & Hbl).
  unfold set_error, set_actual. rewrite !on_req_same, Hr2, Hq1.
  cbn [io_Actual io_Error memory set_io_Error set_io_Actual on_req set_reqs world].
  split; [done|]. exists k. rewrite Hw.
  split; [done|]. split; [done|]. split; [by intros H%result_zero; apply Hfull|]. split.
  - intros j Hj. exact (Hst j Hj).
  - intros s l H. rewrite Hbl by done. apply Hb1.
Qed.

(** C15: A CMD_WRITE or ETD_WRITE request leaves the client's memory alone.
    If a check fails (medium, write protection, address, length, change
    count, label), the request ends with that error and the server is
    untouched.  Otherwise a whole number of blocks is stored on the medium,
    each holding the client's bytes; no block outside the requested range has
    changed; and if the request reports no error, all of it was stored. *)
Theorem disk_write_request :
  io_Command (reqs d r) = CMD_WRITE \/ io_Command (reqs d r) = ETD_WRITE ->
  let q := reqs d r in
  let d' := device_process_request sv sizes r d in
  let q' := reqs d' r in
  memory q' = memory q /\
  match transfer_check true ETD_WRITE (units d i) q with
  | Some error => io_Error q' = error /\ io_Actual q' = 0 /\
      forall s l, blocks (world d') s l = blocks (world d) s l
  | None => exists k, io_Actual q' = 512 * Z.of_nat k /\ io_Actual q' <= io_Length q /\
      (io_Error q' = 0 -> io_Actual q' = io_Length q /\ 0 < io_Length q) /\
      (forall j, (j < k)%nat ->
         blocks (world d') (i + 1) (io_Offset q / 512 + Z.of_nat j) =
         slice (m_bytes (memory q)) (512 * j) 512) /\
      (forall s l, s <> i + 1 \/ l < io_Offset q / 512 \/ (io_Offset q + io_Length q) / 512 <= l ->
         blocks (world d') s l = blocks (world d) s l)
  end.
Proof. exact write_request_outcome. Qed.
End Request.
End Transfers.

(** ** Change notification and status *)

Section Notification.
Context `{L : FnLib, !FnLibOk L} {W : Type}.
Variable sv : services W.
Variable table : fujinet_disk_client_t (W * fujinet_nio_disk_context_t).
Variable cl : disk_client (W * fujinet_nio_disk_context_t).
Variable sizes : abi.
Hypothesis Htable : complete_client table = Some cl.
Context `{!MediaClient cl}.
Implicit Types (d : device W) (u : unit_state W) (q : IOStdReq).

Lemma interrupts_same u u' : notification u' = notification u -> change_interrupts u' = change_interrupts u.
Proof. unfold notification, change_interrupts. by intros [= _ -> ->]. Qed.

Lemma notify_caused i c d :
  caused (notify i c d) = caused d ++ (if count_of i d =? c then [] else change_interrupts (units d i)) /\
  count_of i (notify i c d) = count_of i d.
Proof.
  unfold notify. destruct (count_of i d =? c); cbn [negb]; [by rewrite app_nil_r|]. done.
Qed.

(** The conclusion neither causes interrupts nor moves a count. *)
Lemma conclude_quiet i r k d :
  caused (conclude i r k true d) = caused d /\ count_of i (conclude i r k true d) = count_of i d /\
  (forall j, j <> i -> units (conclude i r k true d) j = units d j).
Proof.
  unfold conclude. set (d1 := trace_exchange k i r (trace_outcome k r d)).
  assert (H : calm table i r d d1) by (eapply calm_trans; [apply trace_outcome_calm|apply trace_exchange_calm]).
  clearbody d1. destruct H as [[] Hc].
  assert (E : caused (reply_unless_quick r d1) = caused d1 /\ units (reply_unless_quick r d1) = units d1)
    by (unfold reply_unless_quick; by destruct (quick (reqs d1 r)), d1).
  destruct E as [E1 E2]. unfold count_of in *. by rewrite E1, E2.
Qed.

(** Change notification.  Processing a request on unit [i] causes
    exactly the interrupts registered for the unit, its TD_ADDCHANGEINT ones
    in order and then its TD_REMOVE one, if the unit's change count moved, and
    none if it did not; and no other unit is touched. *)
Theorem media_change_notified i r d :
  io_Unit (reqs d r) = Some i -> 0 <= i < 8 -> io_Command (reqs d r) ∉ structural ->
  let d' := device_process_request sv sizes r d in
  caused d' = caused d ++ (if count_of i d' =? count_of i d then [] else change_interrupts (units d i)) /\
  (forall j, j <> i -> units d' j = units d j).
Proof.
  intros Hu Hi Hc. pose proof (prepare_calm table i r d) as [[] Hcnt].
  pose proof (prepare_request i r d) as Hq. destruct (prepare i r d) as [k d1] eqn:Ep. cbn [snd] in *.
  destruct (execute_outcome sv table cl sizes Htable i r d1 ltac:(lia)) as (d0 & Hf & He).
  { rewrite Hq. exact Hc. }
  cbv zeta. rewrite (process_unit sv sizes i r d k d1 _ Hu Hi Ep He).
  destruct (conclude_quiet i r k (notify i (count_of i d1) d0)) as (Hca & Hco & Hun).
  destruct (notify_caused i (count_of i d1) d0) as [E1 E2]. split.
  - rewrite Hca, Hco, E1, E2, (fr_caused _ _ _ _ _ Hf), fr_caused0, Hcnt. f_equal. destruct (count_of i d0 =? count_of i d); [done|]. apply interrupts_same.
    rewrite (fr_notification _ _ _ _ _ Hf). done.
  - intros j Hj. rewrite Hun by done. transitivity (units d0 j).
    + unfold notify. by destruct (negb _).
    + rewrite (fr_units _ _ _ _ _ Hf) by done. by apply fr_units0.
Qed.

(** BeginIO of an ordinary request. *)
Lemma begin_rest_eq r alloc d :
  request_unit_index (reqs d r) < 8 ->
  io_Command (reqs d r) ∉ [TD_REMCHANGEINT; CMD_FLUSH; TD_REMOVE] ->
  device_begin_io r alloc d = begin_rest r alloc d.
Proof.
  intros Hi Hc. rewrite !not_elem_of_cons in Hc. destruct Hc as (Hc1 & Hc2 & Hc3 & _).
  unfold device_begin_io. destruct (Z.geb_spec (request_unit_index (reqs d r)) FUJINET_DISK_UNIT_COUNT) as [Hx|_];
    [change FUJINET_DISK_UNIT_COUNT with 8 in Hx; lia|].
  apply Z.eqb_neq in Hc1, Hc2, Hc3. by rewrite Hc1, Hc2, Hc3.
Qed.

Lemma prepare_driver_same i r d :
  same_drive (driver (units d i)) (driver (units (prepare i r d).2 i)) /\
  replied (prepare i r d).2 = replied d.
Proof.
  split; [|apply (fr_replied table i r), (cm_frame table i r), prepare_calm].
  unfold prepare. set (d0 := on_req r _ d). assert (Eu : units d0 = units d) by done. clearbody d0.
  destruct (with_driver_spec i (fun drv => fujinet_disk_acknowledge_change drv i) d0) as (_ & Hd & _ & _).
  set (d1 := (with_driver i _ d0).2) in *. clearbody d1.
  assert (E : units (trace_begin r d1).2 = units d1) by (unfold trace_begin; by destruct (_ && _)).
  rewrite E, Hd, Eu. eapply same_drive_trans; [|apply acknowledge_change_frame]. by split.
Qed.

(** The fast path agrees with the worker.  With the worker idle, BeginIO
    answers TD_CHANGENUM, TD_CHANGESTATE and TD_PROTSTATUS itself; the answer
    and the error are those the worker would have given the same request. *)
Theorem status_fast_path i r alloc d :
  io_Unit (reqs d r) = Some i -> 0 <= i < 8 -> io_processing d = false ->
  io_Command (reqs d r) ∈ [TD_CHANGENUM; TD_CHANGESTATE; TD_PROTSTATUS] ->
  let d1 := device_begin_io r alloc d in
  let d2 := device_process_request sv sizes r d in
  io_Actual (reqs d1 r) = io_Actual (reqs d2 r) /\ io_Error (reqs d1 r) = 0 /\ io_Error (reqs d2 r) = 0 /\
  replied d1 = replied d2.
Proof.
  intros Hu Hi Hp Hc d1 d2.
  assert (Hst : exists a, status_actual (io_Command (reqs d r)) (units d i) = Some a /\
    d1 = reply_unless_quick r (set_error r 0 (set_actual r a d))).
  { unfold d1. rewrite begin_rest_eq; [|rewrite (unit_index i) by done; lia|].
    2:{ rewrite !elem_of_cons in Hc. rewrite !not_elem_of_cons.
        destruct Hc as [-> |[-> |[-> |Hc]]]; [| | |by apply elem_of_nil in Hc];
          (split; [done|]; split; [done|]; split; [done|]; apply not_elem_of_nil). }
    assert (Hs : is_Some (status_actual (io_Command (reqs d r)) (units d i))).
    { rewrite !elem_of_cons in Hc. destruct Hc as [-> |[-> |[-> |Hc]]]; [by eexists..|by apply elem_of_nil in Hc]. }
    unfold begin_rest. rewrite (unit_index i) by done. destruct Hs as [a Ha]. exists a. split; [done|].
    rewrite Ha. rewrite bool_decide_eq_true_2 by done.
    change (io_processing (set_actual r a d)) with (io_processing d). by rewrite Hp. }
  destruct Hst as (a & Ha & Ed1).
  pose proof (prepare_request i r d) as Hq. destruct (prepare_driver_same i r d) as [Hs Hr].
  destruct (prepare i r d) as [k d3] eqn:Ep. cbn [snd] in *.
  assert (He : execute sv sizes i r d3 = (true, set_actual r a d3)).
  { assert (Ea : status_actual (io_Command (reqs d3 r)) (units d3 i) = Some a).
    { rewrite <-Ha, Hq. destruct Hs as [_ _ Em Ew Ec _]. unfold status_actual.
      change (io_Command (reqs d r |> set_io_Error 0 |> set_io_Actual 0)) with (io_Command (reqs d r)).
      by rewrite Em, Ew, Ec. }
    assert (Hc3 : io_Command (reqs d3 r) = io_Command (reqs d r)) by (by rewrite Hq).
    unfold execute. rewrite Hc3 in *. rewrite !elem_of_cons in Hc.
    destruct Hc as [Hc|[Hc|[Hc|Hc]]]; [| | |by apply elem_of_nil in Hc]; rewrite Hc in *;
      injection Ea as <-; reflexivity. }
  pose proof (process_unit sv sizes i r d k d3 _ Hu Hi Ep He) as Ed2. fold d2 in Ed2.
  destruct (conclude_outcome i r k (set_actual r a d3)) as (E1 & E2 & _).
  rewrite <-Ed2 in E1, E2. unfold set_actual in E1, E2. rewrite on_req_same, Hq in E1, E2.
  assert (Hreply : forall d0, io_Actual (reqs (reply_unless_quick r d0) r) = io_Actual (reqs d0 r) /\
    io_Error (reqs (reply_unless_quick r d0) r) = io_Error (reqs d0 r)).
  { intros d0. unfold reply_unless_quick. destruct (quick (reqs d0 r)); [done|]. cbn. by rewrite decide_True. }
  destruct (Hreply (set_error r 0 (set_actual r a d))) as [R1 R2].
  rewrite <-Ed1 in R1, R2. unfold set_error, set_actual in R1, R2. rewrite !on_req_same in R1, R2.
  split; [by rewrite R1, E2|]. split; [by rewrite R2|]. split; [by rewrite E1|].
  assert (Hrp : replied d2 = replied d3 ++ (if quick (reqs d r) then [] else [r])).
  { rewrite Ed2. unfold conclude. set (d4 := trace_exchange k i r _).
    assert (E4 : calm table i r d3 d4).
    { eapply calm_trans; [apply calm_actual|]. eapply calm_trans; [apply trace_outcome_calm|apply trace_exchange_calm]. }
    clearbody d4. assert (Eq4 : quick (reqs d4 r) = quick (reqs d r)).
    { pose proof (fr_envelope _ _ _ _ _ E4) as He4. rewrite Hq in He4.
      apply (f_equal (fun x => x.1.1.1.2)) in He4. unfold quick.
      change (io_Flags (reqs d4 r)) with ((envelope (reqs d4 r)).1.1.1.2). by rewrite He4. }
    unfold reply_unless_quick. rewrite Eq4. destruct (quick (reqs d r)).
    - rewrite app_nil_r. apply (fr_replied _ _ _ _ _ E4).
    - cbn. by rewrite (fr_replied _ _ _ _ _ E4). }
  rewrite Hrp, Hr, Ed1. unfold reply_unless_quick.
  assert (Eq1 : quick (reqs (set_error r 0 (set_actual r a d)) r) = quick (reqs d r)).
  { unfold set_error, set_actual. by rewrite !on_req_same. }
  rewrite Eq1. destruct (quick (reqs d r)); [by rewrite app_nil_r|done].
Qed.
End Notification.
