(* ===== verification/DiskDeviceSystem.v ===== *)
(** * fujinet-disk.device: clients and worker interleaved

    The invariant of every reachable state: where each submission is, that
    the worker never sleeps on work it could do, and that every mounted
    medium is a valid one of its unit's slot. *)

From S2P Require Import Prelude ExecIO FnLib DiskRetry DiskMedia DiskDriver IoQueue DiskDevice DiskDeviceProps.
From stdpp Require Import gmap.
#[local] Open Scope Z_scope.

Section System.
Context `{L : FnLib, !FnLibOk L} {W : Type}.
Variable sv : services W.
Variable table : fujinet_disk_client_t (W * fujinet_nio_disk_context_t).
Variable cl : disk_client (W * fujinet_nio_disk_context_t).
Variable sizes : abi.
Hypothesis Htable : complete_client table = Some cl.
Context `{!MediaClient cl}.
Implicit Types (d : device W) (s : system W) (q : IOStdReq).

(** The stop flags as the queue sees them. *)
Lemma unit_stopped d j : 0 <= j < 8 ->
  nth (Z.to_nat j) (map (fun i => stopped (units d i)) all_units) false = stopped (units d j).
Proof.
  intros Hj. unfold all_units, FUJINET_DISK_UNIT_COUNT.
  assert (Hn : exists n, (n < 8)%nat /\ j = Z.of_nat n) by (exists (Z.to_nat j); lia).
  destruct Hn as (n & Hn & ->). rewrite Nat2Z.id. do 8 (destruct n as [|n]; [done|]). lia.
Qed.

(** ** The invariant *)

(** The request the worker has; not one it has just registered. *)
Definition running s : list Z :=
  match at_ s with WRun r | WReady r _ _ | WEnded r _ _ true => [r] | _ => [] end.

Definition busy s : bool :=
  match at_ s with WRun _ | WReady _ _ _ | WEnded _ _ _ _ => true | _ => false end.

(** The submissions the device holds, [es] being what is queued. *)
Definition held s (es : list entry) : list Z :=
  (e_request <$> es) ++ running s ++ retained (dev s).

(** What the FIFO asks of a request. *)
Definition queueable q : Prop :=
  quick q = false /\ io_Command q ∉ [TD_REMCHANGEINT; CMD_FLUSH; TD_REMOVE].

Definition entry_ok d (e : entry) : Prop :=
  let q := reqs d (e_request e) in
  0 <= e_unit e < 8 /\ request_unit_index q = e_unit e /\ io_Command q = e_command e /\ queueable q.

(** The worker would take it. *)
Definition can_run d (e : entry) : bool :=
  entry_runnable (map (fun i => stopped (units d i)) all_units) FUJINET_DISK_UNIT_COUNT CMD_START CMD_FLUSH e.

Record sys_ok s (es : list entry) : Prop := {
  ok_queue : queue_of (io_queue (dev s), nodes (dev s)) es;
  ok_entries : Forall (entry_ok (dev s)) es;
  ok_retained : forall i r, 0 <= i < 8 -> r ∈ registered i (dev s) ->
    request_unit_index (reqs (dev s) r) = i;
  ok_once : NoDup (held s es);
  ok_account : begun s ≡ₚ replied (dev s) ++ at_once s ++ returned s ++ held s es;
  ok_units : forall i, 0 <= i < 8 -> unit_ok table i (units (dev s) i);
  ok_running : forall r, r ∈ running s -> queueable (reqs (dev s) r);
  ok_busy : busy s = true -> io_processing (dev s) = true;
  ok_ready : forall r i k, at_ s = WReady r i k ->
    0 <= i < 8 /\ (io_Command (reqs (dev s) r) = TD_ADDCHANGEINT ->
                   request_unit_index (reqs (dev s) r) = i);
  ok_idle : io_processing (dev s) = false -> Forall (fun e => can_run (dev s) e = false) es;
  ok_awake : at_ s = WWait -> io_processing (dev s) = true -> signalled (dev s) = true;
  ok_gone : at_ s = WGone <-> freed (dev s) = true
}.

(** What the invariant reads of a held request. *)
Definition ticket q := (request_unit_index q, io_Command q, quick q).

Lemma ticket_queueable q q' : ticket q' = ticket q -> queueable q -> queueable q'.
Proof. unfold ticket, queueable. by intros [= _ -> ->]. Qed.

Lemma ticket_entry d d' e :
  ticket (reqs d' (e_request e)) = ticket (reqs d (e_request e)) -> entry_ok d e -> entry_ok d' e.
Proof.
  intros Ht (Hu & Hi & Hc & Hq). pose proof (ticket_queueable _ _ Ht Hq).
  unfold ticket in Ht. injection Ht as H1 H2 _. split; [done|]. split; [congruence|]. split; [congruence|done].
Qed.

Lemma entries_change d d' es :
  (forall e, e ∈ es -> ticket (reqs d' (e_request e)) = ticket (reqs d (e_request e))) ->
  Forall (entry_ok d) es -> Forall (entry_ok d') es.
Proof.
  intros Ht H. apply Forall_forall. intros e He. eapply ticket_entry; [by apply Ht|].
  by apply (proj1 (Forall_forall _ _) H).
Qed.

(** The part of [core] besides the queue. *)
Definition engine d := (io_processing d, worker d, worker_signal d, signalled d, freed d).

Lemma core_engine d d' : core d' = core d -> engine d' = engine d /\ io_queue d' = io_queue d /\ nodes d' = nodes d.
Proof. unfold core, engine. by intros [= -> -> -> -> -> -> ->]. Qed.

Lemma registered_held s es i r : 0 <= i < 8 -> r ∈ registered i (dev s) -> r ∈ held s es.
Proof.
  intros Hi Hr. unfold held. apply elem_of_app. right. apply elem_of_app. right.
  apply elem_of_retained. by exists i.
Qed.
Lemma queued_held s es e : e ∈ es -> e_request e ∈ held s es.
Proof. intros He. unfold held. apply elem_of_app. left. apply list_elem_of_fmap. by exists e. Qed.
Lemma running_held s es r : r ∈ running s -> r ∈ held s es.
Proof. intros Hr. unfold held. set_solver. Qed.
Lemma ready_running s r i k : at_ s = WReady r i k -> r ∈ running s.
Proof. intros E. unfold running. rewrite E. left. Qed.

(** The worker's request keeps what the invariant reads of it. *)
Lemma ready_change d' s :
  (forall x, x ∈ running s -> ticket (reqs d' x) = ticket (reqs (dev s) x)) ->
  (forall r i k, at_ s = WReady r i k -> 0 <= i < 8 /\
     (io_Command (reqs (dev s) r) = TD_ADDCHANGEINT -> request_unit_index (reqs (dev s) r) = i)) ->
  forall r i k, at_ s = WReady r i k -> 0 <= i < 8 /\
     (io_Command (reqs d' r) = TD_ADDCHANGEINT -> request_unit_index (reqs d' r) = i).
Proof.
  intros Ht H r i k E. specialize (Ht r (ready_running _ _ _ _ E)). unfold ticket in Ht.
  injection Ht as -> -> _. by apply (H r i k).
Qed.

(** A step of a client that adds nothing to the queue: the requests [out]
    leave the device, the submissions [bg] never enter it, and all of them
    are answered. *)
Lemma ok_shrink s es d' es' bg qk rt out rp :
  sys_ok s es ->
  let s' := mkSystem d' (at_ s) (begun s ++ bg) (at_once s ++ qk) (returned s ++ rt) in
  queue_of (io_queue d', nodes d') es' -> engine d' = engine (dev s) ->
  (forall e, e ∈ es' -> e ∈ es) ->
  (forall i, stopped (units d' i) = stopped (units (dev s) i)) ->
  (forall i r, 0 <= i < 8 -> r ∈ registered i d' -> r ∈ registered i (dev s)) ->
  (forall i, 0 <= i < 8 -> unit_ok table i (units d' i)) ->
  held s es ≡ₚ out ++ held s' es' ->
  (forall x, x ∈ (e_request <$> es') ++ retained d' -> ticket (reqs d' x) = ticket (reqs (dev s) x)) ->
  (forall x, x ∈ running s -> ticket (reqs d' x) = ticket (reqs (dev s) x)) ->
  replied d' = replied (dev s) ++ rp -> bg ++ out ≡ₚ rp ++ qk ++ rt ->
  sys_ok s' es'.
Proof.
  intros H s' Hq Heng Hes Hst Hreg Hu Hheld Ht Hrun Hrp Hbg. unfold engine in Heng.
  injection Heng as Ep Ew Es Esig Ef. destruct H. split; cbn [dev at_ begun at_once returned s'].
  - done.
  - eapply (entries_change (dev s)); [intros e He; apply Ht, elem_of_app; left; apply list_elem_of_fmap; by exists e|].
    apply Forall_forall. intros e He. by apply (proj1 (Forall_forall _ _) ok_entries0), Hes.
  - intros i r Hi Hr. rewrite <-(ok_retained0 i r Hi (Hreg _ _ Hi Hr)).
    assert (Hx : r ∈ (e_request <$> es') ++ retained d').
    { apply elem_of_app. right. apply elem_of_retained. by exists i. }
    specialize (Ht r Hx). unfold ticket in Ht. by injection Ht as -> _ _.
  - rewrite Hheld in ok_once0. by apply NoDup_app in ok_once0 as (_ & _ & ?).
  - rewrite ok_account0, Hheld, Hrp. transitivity (replied (dev s) ++ at_once s ++ returned s ++ (bg ++ out) ++ held s' es').
    + solve_Permutation.
    + rewrite Hbg. solve_Permutation.
  - done.
  - intros r Hr. eapply ticket_queueable; [by apply Hrun|]. by apply ok_running0.
  - by rewrite Ep.
  - by apply ready_change.
  - rewrite Ep. intros Hp. specialize (ok_idle0 Hp). apply Forall_forall. intros e He.
    pose proof (proj1 (Forall_forall _ _) ok_idle0 e (Hes e He)) as Hc.
    unfold can_run in *. by rewrite (map_ext _ _ Hst).
  - by rewrite Ep, Esig.
  - by rewrite Ef.
Qed.

(** The same when nothing leaves the device. *)
Lemma ok_same s es d' bg qk rt rp :
  sys_ok s es -> core d' = core (dev s) ->
  (forall i, stopped (units d' i) = stopped (units (dev s) i)) ->
  (forall i, registered i d' = registered i (dev s)) ->
  (forall i, 0 <= i < 8 -> unit_ok table i (units d' i)) ->
  (forall x, x ∈ held s es -> ticket (reqs d' x) = ticket (reqs (dev s) x)) ->
  replied d' = replied (dev s) ++ rp -> bg ≡ₚ rp ++ qk ++ rt ->
  sys_ok (mkSystem d' (at_ s) (begun s ++ bg) (at_once s ++ qk) (returned s ++ rt)) es.
Proof.
  intros H Hcore Hst Hreg Hu Ht Hrp Hbg. apply core_engine in Hcore as (Heng & Eq & En).
  assert (Hh : held (mkSystem d' (at_ s) (begun s ++ bg) (at_once s ++ qk) (returned s ++ rt)) es = held s es).
  { unfold held, running. cbn. by rewrite (retained_eq _ _ Hreg). }
  eapply (ok_shrink s es d' es bg qk rt [] rp); try done.
  - rewrite Eq, En. apply (ok_queue _ _ H).
  - intros i r _. by rewrite Hreg.
  - by rewrite Hh.
  - intros x Hx. apply Ht. rewrite <-Hh. unfold held. rewrite !elem_of_app in *. tauto.
  - intros x Hx. apply Ht. by apply running_held.
  - by rewrite app_nil_r.
Qed.

(** ** The queue operations of the device *)

Lemma abort_queued_spec r d es :
  queue_of (io_queue d, nodes d) es ->
  match abort_queued r d with
  | (true, d') => exists a e b qu h, es = a ++ e :: b /\ e_request e = r /\ queue_of (qu, h) (a ++ b) /\
      d' = (d |> set_io_queue qu |> set_nodes h |> set_error r IOERR_ABORTED |> ReplyMsg r)
  | (false, d') => d' = d /\ r ∉ (e_request <$> es)
  end.
Proof.
  intros Hq. unfold abort_queued, fujinet_io_queue_remove_request.
  pose proof (take_and_free (fun node => request node =? r) (fun e => e_request e =? r) _ es
                ltac:(by intros nx pv e) Hq) as H.
  destruct (take_first _ _) as [[p|] s].
  - destruct H as (a & e & b & -> & He & _ & -> & _ & Hq'). exists a, e, b, s.1, (delete (e_node e) s.2).
    split; [done|]. split; [by apply Z.eqb_eq|]. split; [done|]. done.
  - destruct H as [-> Hf]. split; [by destruct d|]. intros (e & -> & He)%list_elem_of_fmap.
    apply (proj1 (Forall_forall _ _) Hf) in He. by rewrite Z.eqb_refl in He.
Qed.

(** What flushing a unit leaves alone. *)
Definition flushed d d' : Prop :=
  engine d' = engine d /\ units d' = units d /\ (forall x, ticket (reqs d' x) = ticket (reqs d x)).

Lemma abort_one_flushed p r qu d :
  flushed d (d |> store_queue qu |> FreeMem p |> set_error r IOERR_ABORTED |> ReplyMsg r).
Proof. destruct d. split; [done|]. split; [done|]. intros x. cbn. by repeat case_decide; subst. Qed.

Lemma abort_unit_spec i fuel : forall d es,
  queue_of (io_queue d, nodes d) es -> (length es < fuel)%nat ->
  let d' := abort_unit_loop fuel i d in
  queue_of (io_queue d', nodes d') (filter (fun e => e_unit e <> i) es) /\
  replied d' = replied d ++ (e_request <$> filter (fun e => e_unit e = i) es) /\ flushed d d'.
Proof.
  induction fuel as [|fuel IH]; intros d es Hq Hf; [lia|].
  cbn [abort_unit_loop]. unfold fujinet_io_queue_take_unit.
  pose proof (take_and_free (fun node => unit node =? i) (fun e => e_unit e =? i) _ es
                ltac:(by intros nx pv e) Hq) as H.
  destruct (take_first _ _) as [[p|] s].
  - destruct H as (a & e & b & -> & He & Ha & -> & Hn & Hq').
    change (nodes (store_queue s d)) with s.2. rewrite Hn. cbn [request unlinked node_of].
    pose proof (abort_one_flushed (e_node e) (e_request e) s d) as H1. set (d1 := ReplyMsg _ _) in *.
    assert (Hr1 : replied d1 = replied d ++ [e_request e]) by done.
    specialize (IH d1 (a ++ b) Hq' ltac:(rewrite length_app in *; cbn in Hf; lia)).
    clearbody d1. destruct IH as (Hq1 & Hr & Hfl).
    apply Z.eqb_eq in He. assert (Hno : filter (fun e => e_unit e = i) a = []).
    { clear -Ha. induction Ha as [|x a Hx _ IH]; [done|]. apply Z.eqb_neq in Hx. by rewrite filter_cons_False. }
    rewrite !filter_app in *. rewrite filter_cons_False by (intros Hx; exact (Hx He)). split; [done|].
    rewrite filter_cons_True by done. rewrite Hno in *. split.
    + rewrite Hr, Hr1, <-app_assoc. done.
    + destruct H1 as (E1 & E2 & E3), Hfl as (F1 & F2 & F3). split; [congruence|]. split; [congruence|].
      intros x. by rewrite F3.
  - destruct H as [-> Hno]. replace (store_queue (io_queue d, nodes d) d) with d by (by destruct d).
    assert (E : filter (fun e => e_unit e = i) es = [] /\ filter (fun e => e_unit e <> i) es = es).
    { clear -Hno. induction Hno as [|x es Hx _ [IH1 IH2]]; [done|]. apply Z.eqb_neq in Hx.
      rewrite filter_cons_False, filter_cons_True by done. by rewrite IH1, IH2. }
    destruct E as [-> ->]. split; [done|]. split; [by rewrite app_nil_r|]. done.
Qed.

Lemma flush_unit_spec i d es :
  queue_of (io_queue d, nodes d) es ->
  let d' := abort_queued_unit i d in
  queue_of (io_queue d', nodes d') (filter (fun e => e_unit e <> i) es) /\
  replied d' = replied d ++ (e_request <$> filter (fun e => e_unit e = i) es) /\ flushed d d'.
Proof. intros Hq. apply abort_unit_spec; [done|]. pose proof (queue_length _ _ Hq) as H. cbn in H. lia. Qed.

(** ** Steps of the clients *)

(** Only request [r] and the logs change. *)
Record own (r : Z) d d' : Prop := {
  ow_core : core d' = core d;
  ow_units : units d' = units d;
  ow_reqs : forall x, x <> r -> reqs d' x = reqs d x
}.

Lemma own_refl r d : own r d d.
Proof. by split. Qed.
Lemma own_trans r d1 d2 d3 : own r d1 d2 -> own r d2 d3 -> own r d1 d3.
Proof. intros [] []. split; try congruence. intros x Hx. rewrite ow_reqs1, ow_reqs0; done. Qed.
Lemma own_req r f d : own r d (on_req r f d).
Proof. destruct d. split; [done..|]. intros x Hx. cbn. by rewrite decide_False. Qed.
Lemma own_reply r d : own r d (ReplyMsg r d).
Proof. destruct d. split; [done..|]. intros x Hx. cbn. by rewrite decide_False. Qed.
Lemma own_reply_unless r d : own r d (reply_unless_quick r d).
Proof. unfold reply_unless_quick. destruct (quick (reqs d r)); [apply own_refl|apply own_reply]. Qed.
Lemma own_count r n d : own r d (set_lib_OpenCnt n d).
Proof. by destruct d. Qed.
Lemma own_flags r n d : own r d (set_lib_Flags n d).
Proof. by destruct d. Qed.

Ltac own_update :=
  first [apply own_req | apply own_reply | apply own_reply_unless | apply own_count | apply own_flags].
Ltac own_auto := first [apply own_refl | own_update | eapply own_trans; [|own_update]; own_auto].

(** The submission ends in a reply, or at once. *)
Definition replies r d : list Z := if quick (reqs d r) then [] else [r].
Definition completes r d : list Z := if quick (reqs d r) then [r] else [].

Lemma reply_unless_spec r d :
  replied (reply_unless_quick r d) = replied d ++ replies r d /\
  quick (reqs (reply_unless_quick r d) r) = quick (reqs d r).
Proof.
  unfold reply_unless_quick, replies. destruct (quick (reqs d r)) eqn:E.
  - by rewrite app_nil_r.
  - split; [done|]. cbn. by rewrite decide_True.
Qed.

Lemma replies_completes r d : [r] ≡ₚ replies r d ++ completes r d.
Proof. unfold replies, completes. by destruct (quick (reqs d r)). Qed.

Lemma filter_absent (r : Z) l : r ∉ l -> filter (fun x => x = r) l = [].
Proof.
  intros H. induction l as [|x l IH]; [done|]. apply not_elem_of_cons in H as [Hx H].
  rewrite filter_cons_False by congruence. by apply IH.
Qed.

Lemma filter_present (r : Z) l : NoDup l -> r ∈ l -> filter (fun x => x = r) l = [r].
Proof.
  induction l as [|x l IH]; intros Hd Hr; [by apply elem_of_nil in Hr|]. apply NoDup_cons in Hd as [Hx Hd].
  destruct (decide (x = r)) as [->|Hne].
  - rewrite filter_cons_True by done. by rewrite filter_absent.
  - rewrite filter_cons_False by done. apply IH; [done|]. apply elem_of_cons in Hr as [|]; congruence.
Qed.

Lemma answered_not_held s es r : sys_ok s es -> answered r s -> r ∉ held s es.
Proof.
  intros H Ha. apply occurrences_zero. unfold answered in Ha.
  assert (E : occurrences r (begun s) =
    occurrences r (replied (dev s) ++ at_once s ++ returned s ++ held s es)).
  { unfold occurrences. by rewrite (ok_account _ _ H). }
  unfold occurrences in *. rewrite !filter_app, !length_app in E. lia.
Qed.

Lemma not_held_retained s es r : r ∉ held s es -> r ∉ retained (dev s).
Proof. unfold held. rewrite !not_elem_of_app. tauto. Qed.

Lemma own_same s es r d' bg qk rp :
  sys_ok s es -> r ∉ held s es -> own r (dev s) d' ->
  replied d' = replied (dev s) ++ rp -> bg ≡ₚ rp ++ qk ->
  sys_ok (mkSystem d' (at_ s) (begun s ++ bg) (at_once s ++ qk) (returned s)) es.
Proof.
  intros H Hr [Hc Hu Hreq] Hrp Hbg.
  pose proof (ok_same s es d' bg qk [] rp H Hc) as Hs. rewrite !app_nil_r in Hs. apply Hs; try done.
  - intros i. by rewrite Hu.
  - intros i. unfold registered. by rewrite Hu.
  - intros i Hi. rewrite Hu. by apply (ok_units _ _ H).
  - intros x Hx. rewrite Hreq; [done|]. by intros ->.
Qed.

Lemma disk_prepare_ok s es r q : sys_ok s es -> answered r s -> sys_ok (with_dev (on_req r (fun _ => q) (dev s)) s) es.
Proof.
  intros H Ha. pose proof (answered_not_held _ _ _ H Ha) as Hr.
  pose proof (own_same s es r (on_req r (fun _ => q) (dev s)) [] [] [] H Hr) as Hs.
  rewrite !app_nil_r in Hs. apply Hs; [own_auto|done|done].
Qed.

Lemma disk_open_ok s es r u : sys_ok s es -> answered r s -> sys_ok (with_dev (device_open r u (dev s)).2 s) es.
Proof.
  intros H Ha. pose proof (answered_not_held _ _ _ H Ha) as Hr.
  pose proof (own_same s es r (device_open r u (dev s)).2 [] [] [] H Hr) as Hs.
  rewrite !app_nil_r in Hs. unfold device_open, set_error in *.
  destruct (negb _); (apply Hs; [cbn [snd]; own_auto|done|done]).
Qed.

(** ** Taking registrations back *)

(** The registrations of [r] are gone, everything else is as it was. *)
Record dropped (r : Z) d d' : Prop := {
  dr_core : core d' = core d;
  dr_reqs : reqs d' = reqs d;
  dr_replied : replied d' = replied d;
  dr_stopped : forall j, stopped (units d' j) = stopped (units d j);
  dr_driver : forall j, driver (units d' j) = driver (units d j);
  dr_registered : forall j, 0 <= j < 8 -> registered j d' = filter (fun x => x <> r) (registered j d)
}.

Lemma filter_requests r (l : list change_registration) :
  rg_request <$> filter (fun g => rg_request g <> r) l = filter (fun x => x <> r) (rg_request <$> l).
Proof.
  induction l as [|g l IH]; [done|]. rewrite fmap_cons. destruct (decide (rg_request g = r)).
  - rewrite !filter_cons_False by tauto. done.
  - rewrite !filter_cons_True by done. by rewrite fmap_cons, IH.
Qed.

Lemma filter_others r (l : list Z) : r ∉ l -> filter (fun x => x <> r) l = l.
Proof.
  induction l as [|x l IH]; [done|]. intros [Hx H]%not_elem_of_cons.
  rewrite filter_cons_True by congruence. by rewrite IH.
Qed.

Lemma filter_split r (l : list Z) : l ≡ₚ filter (fun x => x = r) l ++ filter (fun x => x <> r) l.
Proof.
  induction l as [|x l IH]; [done|]. destruct (decide (x = r)).
  - rewrite filter_cons_True by done. rewrite filter_cons_False by tauto. simpl. by rewrite <-IH.
  - rewrite filter_cons_False by done. rewrite filter_cons_True by done.
    rewrite <-Permutation_middle. by rewrite <-IH.
Qed.

Lemma remove_one_requests r l :
  NoDup (rg_request <$> l) ->
  rg_request <$> (remove_registration r l).2 = filter (fun x => x <> r) (rg_request <$> l).
Proof.
  intros Hnd. pose proof (remove_registration_spec r l) as H. destruct (remove_registration r l) as [[|] l'].
  - destruct H as (a & g & b & -> & Hg & ->). cbn [snd]. rewrite !fmap_app, fmap_cons, Hg in *.
    apply NoDup_app in Hnd as (_ & Ha & Hb). apply NoDup_cons in Hb as [Hb _].
    rewrite filter_app, filter_cons_False by tauto.
    rewrite !filter_others; [done|done|]. intros Hr. apply (Ha r Hr). left.
  - destruct H as [-> H]. cbn [snd]. by rewrite filter_others.
Qed.

Lemma dropped_unit i r l d :
  0 <= i < 8 -> rg_request <$> l = filter (fun x => x <> r) (registered i d) ->
  (forall j, j <> i -> 0 <= j < 8 -> r ∉ registered j d) ->
  dropped r d (on_unit i (set_change_requests l) d).
Proof.
  intros Hi Hl Hj. split; try (by destruct d).
  - intros j. cbn. by case_decide; subst.
  - intros j. cbn. by case_decide; subst.
  - intros j Hj8. unfold registered in *. cbn. destruct (decide (j = i)) as [->|Hne]; [exact Hl|].
    by rewrite filter_others by (apply Hj; done).
Qed.

Lemma remove_one_dropped i r d :
  0 <= i < 8 -> NoDup (registered i d) -> (forall j, j <> i -> 0 <= j < 8 -> r ∉ registered j d) ->
  dropped r d (remove_change_request i r d).2.
Proof.
  intros Hi Hnd Hj. unfold remove_change_request.
  pose proof (remove_one_requests r (change_requests (units d i)) Hnd) as Hl.
  destruct (remove_registration _ _) as [b l]. by apply dropped_unit.
Qed.

Lemma remove_all_dropped i r d :
  0 <= i < 8 -> (forall j, j <> i -> 0 <= j < 8 -> r ∉ registered j d) ->
  dropped r d (remove_all_change_requests i r d).2.
Proof.
  intros Hi Hj. unfold remove_all_change_requests.
  pose proof (remove_all_spec r (change_requests (units d i)) _ (Nat.lt_succ_diag_r _)) as Hl.
  destruct (remove_all_loop _ _ _) as [b l]. cbn [snd] in Hl |- *. apply dropped_unit; [done| |done].
  rewrite Hl. apply filter_requests.
Qed.

Lemma dropped_retained r d d' :
  dropped r d d' -> retained d' = filter (fun x => x <> r) (retained d).
Proof.
  intros H. unfold retained. assert (Hall : forall j, j ∈ all_units -> 0 <= j < 8) by (intros j; apply all_units_spec).
  induction all_units as [|j l IH]; [done|]. cbn [flat_map]. rewrite filter_app.
  rewrite (dr_registered _ _ _ H) by (apply Hall; left). f_equal. apply IH. intros k Hk. apply Hall. by right.
Qed.

(** After [r]'s registrations are dropped. *)
Lemma drop_ok s es r d1 d' bg qk rt rp :
  sys_ok s es -> dropped r (dev s) d1 -> core d' = core d1 -> units d' = units d1 ->
  (forall x, x ∈ (e_request <$> es) ++ retained d' -> ticket (reqs d' x) = ticket (reqs (dev s) x)) ->
  (forall x, x ∈ running s -> ticket (reqs d' x) = ticket (reqs (dev s) x)) ->
  replied d' = replied (dev s) ++ rp -> bg ++ filter (fun x => x = r) (retained (dev s)) ≡ₚ rp ++ qk ++ rt ->
  sys_ok (mkSystem d' (at_ s) (begun s ++ bg) (at_once s ++ qk) (returned s ++ rt)) es.
Proof.
  intros H Hd Hc Hu Ht Hrun Hrp Hbg. rewrite (dr_core _ _ _ Hd) in Hc. apply core_engine in Hc as (Heng & Eq & En).
  assert (Hret : retained d' = filter (fun x => x <> r) (retained (dev s))).
  { rewrite <-(dropped_retained _ _ _ Hd). apply retained_eq. intros j. unfold registered. by rewrite Hu. }
  eapply (ok_shrink s es d' es bg qk rt _ rp); try done.
  - rewrite Eq, En. apply (ok_queue _ _ H).
  - intros i. rewrite Hu. apply (dr_stopped _ _ _ Hd).
  - intros i x Hi Hx. unfold registered in Hx. rewrite Hu in Hx. fold (registered i d1) in Hx.
    rewrite (dr_registered _ _ _ Hd) in Hx by done. by apply list_elem_of_filter in Hx as [_ ?].
  - intros i Hi. destruct (ok_units _ _ H i Hi) as [E1 E2]. unfold unit_ok. rewrite Hu, (dr_driver _ _ _ Hd). done.
  - unfold held, running. cbn [dev at_]. rewrite Hret. rewrite (filter_split r (retained (dev s))) at 1. solve_Permutation.
Qed.

Lemma unit_index_range q : 0 <= request_unit_index q <= 8.
Proof. unfold request_unit_index, FUJINET_DISK_UNIT_COUNT. destruct (io_Unit q) as [i|]; [|lia]. destruct (_ && _) eqn:E; lia. Qed.

Lemma registered_once s es i : sys_ok s es -> 0 <= i < 8 -> NoDup (registered i (dev s)).
Proof.
  intros H Hi. pose proof (ok_once _ _ H) as Hnd. unfold held in Hnd.
  apply NoDup_app in Hnd as (_ & _ & Hnd). apply NoDup_app in Hnd as (_ & _ & Hnd).
  rewrite (retained_split i) in Hnd by done. by apply NoDup_app in Hnd as (? & _ & _).
Qed.

Lemma registered_elsewhere s es r j :
  sys_ok s es -> j <> request_unit_index (reqs (dev s) r) -> 0 <= j < 8 -> r ∉ registered j (dev s).
Proof. intros H Hj Hj8 Hr. by rewrite (ok_retained _ _ H j r Hj8 Hr) in Hj. Qed.

(** A retained request is nowhere else. *)
Lemma retained_alone s es r :
  sys_ok s es -> r ∈ retained (dev s) -> r ∉ (e_request <$> es) ++ running s.
Proof.
  intros H Hr Hx. pose proof (ok_once _ _ H) as Hnd. unfold held in Hnd. rewrite app_assoc in Hnd.
  apply NoDup_app in Hnd as (_ & Hd & _). by apply (Hd r).
Qed.

Lemma running_not s r x : r ∉ running s -> x ∈ running s -> x <> r.
Proof. by intros Hr Hx ->. Qed.

Lemma begin_step_eq r alloc s d' qk :
  device_begin_io r alloc (dev s) = d' -> quick (reqs d' r) = qk ->
  begin_step r alloc s =
  mkSystem d' (at_ s) (begun s ++ [r]) (at_once s ++ (if qk then [r] else []))
    (returned s ++ filter (fun x => x = r) (retained (dev s))).
Proof. intros <- <-. done. Qed.

Lemma done_at_once_spec r d :
  own r d (done_at_once r d) /\ replied (done_at_once r d) = replied d ++ replies r d /\
  quick (reqs (done_at_once r d) r) = quick (reqs d r).
Proof.
  unfold done_at_once. set (d1 := on_req r _ d).
  assert (E : quick (reqs d1 r) = quick (reqs d r)) by (cbn; by rewrite decide_True).
  assert (H1 : own r d d1) by apply own_req. assert (E2 : replied d1 = replied d) by done. clearbody d1.
  destruct (reply_unless_spec r d1) as [H2 H3]. split; [|split].
  - eapply own_trans; [done|apply own_reply_unless].
  - rewrite H2, E2. unfold replies. by rewrite E.
  - congruence.
Qed.

Lemma begin_remove_ok s es r alloc :
  sys_ok s es -> r ∉ (e_request <$> es) ++ running s ->
  request_unit_index (reqs (dev s) r) < 8 -> io_Command (reqs (dev s) r) = TD_REMCHANGEINT ->
  sys_ok (begin_step r alloc s) es.
Proof.
  intros H Hr Hi Hc. rewrite not_elem_of_app in Hr. destruct Hr as [Hre Hrr].
  pose proof (unit_index_range (reqs (dev s) r)) as Hi0. set (i := request_unit_index _) in *.
  pose proof (remove_one_dropped i r (dev s) ltac:(lia) (registered_once _ _ i H ltac:(lia))
                (fun j Hj Hj8 => registered_elsewhere _ _ r j H Hj Hj8)) as Hd.
  destruct (remove_change_request i r (dev s)) as [b d1] eqn:Erem. cbn [snd] in Hd.
  destruct (done_at_once_spec r d1) as ([Hcore Hun Hreq] & Hrp & Hqk). rewrite (dr_reqs _ _ _ Hd) in Hqk.
  erewrite begin_step_eq; [|unfold device_begin_io|exact Hqk].
  2:{ fold i. destruct (Z.geb_spec i FUJINET_DISK_UNIT_COUNT) as [Hx|_]; [unfold FUJINET_DISK_UNIT_COUNT in Hx; lia|].
      rewrite Hc, Z.eqb_refl, Erem. reflexivity. }
  eapply (drop_ok s es r d1 (done_at_once r d1) [r] _ _ (replies r d1)); try done.
  - intros x Hx. rewrite Hreq, (dr_reqs _ _ _ Hd); [done|]. intros ->. apply elem_of_app in Hx as [|Hx]; [done|].
    assert (E : retained (done_at_once r d1) = retained d1)
      by (apply retained_eq; intros j; unfold registered; by rewrite Hun).
    rewrite E, (dropped_retained _ _ _ Hd) in Hx. by apply list_elem_of_filter in Hx as [? _].
  - intros x Hx. rewrite Hreq, (dr_reqs _ _ _ Hd); [done|]. by eapply running_not.
  - by rewrite Hrp, (dr_replied _ _ _ Hd).
  - unfold replies. rewrite (dr_reqs _ _ _ Hd). destruct (quick (reqs (dev s) r)); reflexivity.
Qed.

Lemma begin_flush_ok s es r alloc :
  sys_ok s es -> r ∉ held s es ->
  request_unit_index (reqs (dev s) r) < 8 -> io_Command (reqs (dev s) r) = CMD_FLUSH ->
  exists es', sys_ok (begin_step r alloc s) es'.
Proof.
  intros H Hr Hi Hc. set (i := request_unit_index (reqs (dev s) r)) in *.
  destruct (flush_unit_spec i (dev s) es (ok_queue _ _ H)) as (Hq & Hrp1 & He & Hu & Ht).
  set (d1 := abort_queued_unit i (dev s)) in *.
  destruct (done_at_once_spec r d1) as ([Hcore Hun Hreq] & Hrp & Hqk).
  assert (Eqk : quick (reqs d1 r) = quick (reqs (dev s) r)).
  { specialize (Ht r). unfold ticket in Ht. by injection Ht. }
  exists (filter (fun e => e_unit e <> i) es).
  erewrite begin_step_eq; [|unfold device_begin_io|exact Hqk].
  2:{ fold i. destruct (Z.geb_spec i FUJINET_DISK_UNIT_COUNT) as [Hx|_]; [unfold FUJINET_DISK_UNIT_COUNT in Hx; lia|].
      rewrite Hc. reflexivity. }
  fold d1. rewrite (filter_absent _ _ (not_held_retained _ _ _ Hr)).
  apply core_engine in Hcore as (He1 & Eq & En).
  assert (Eret : retained (done_at_once r d1) = retained (dev s)).
  { apply retained_eq. intros j. unfold registered. by rewrite Hun, Hu. }
  assert (Hheld : held s es ≡ₚ (e_request <$> filter (fun e => e_unit e = i) es) ++
    held (mkSystem (done_at_once r d1) (at_ s) (begun s ++ [r])
      (at_once s ++ (if quick (reqs d1 r) then [r] else [])) (returned s ++ []))
      (filter (fun e => e_unit e <> i) es)).
  { unfold held, running. cbn [dev at_]. rewrite Eret.
    assert (Ep : es ≡ₚ filter (fun e => e_unit e = i) es ++ filter (fun e => e_unit e <> i) es).
    { clear. induction es as [|e es IH]; [done|]. destruct (decide (e_unit e = i)).
      - rewrite filter_cons_True by done. rewrite filter_cons_False by tauto. simpl. by rewrite <-IH.
      - rewrite filter_cons_False by done. rewrite filter_cons_True by done.
        rewrite <-Permutation_middle. by rewrite <-IH. }
    rewrite Ep at 1. rewrite fmap_app. by rewrite <-!app_assoc. }
  eapply (ok_shrink s es _ _ [r] _ _ _ ((e_request <$> filter (fun e => e_unit e = i) es) ++ replies r d1));
    [done| | | | | | |exact Hheld| | | |].
  - by rewrite Eq, En.
  - by rewrite He1.
  - intros e. by intros [_ ?]%list_elem_of_filter.
  - intros j. by rewrite Hun, Hu.
  - intros j x _. unfold registered. by rewrite Hun, Hu.
  - intros j Hj. rewrite Hun, Hu. by apply (ok_units _ _ H).
  - intros x Hx. rewrite Hreq; [apply Ht|]. intros ->. apply Hr. rewrite Hheld. apply elem_of_app. right.
    unfold held. cbn [dev]. rewrite !elem_of_app in *. tauto.
  - intros x Hx. rewrite Hreq; [apply Ht|]. intros ->. by apply Hr, running_held.
  - by rewrite Hrp, Hrp1, <-app_assoc.
  - unfold replies. destruct (quick (reqs d1 r)); solve_Permutation.
Qed.

Lemma quick_clear q : quick (clear_quick q) = false.
Proof.
  unfold quick. change (io_Flags (clear_quick q)) with (Z.land (io_Flags q) 254).
  by rewrite <-Z.land_assoc, Z.land_0_r.
Qed.

(** Only the legacy interrupt of the units changes. *)
Record legacy_only (r : Z) d d' : Prop := {
  lg_core : core d' = core d;
  lg_replied : replied d' = replied d;
  lg_reqs : forall x, x <> r -> reqs d' x = reqs d x;
  lg_stopped : forall j, stopped (units d' j) = stopped (units d j);
  lg_registered : forall j, registered j d' = registered j d;
  lg_driver : forall j, driver (units d' j) = driver (units d j)
}.

Lemma install_legacy_spec i r d : legacy_only r d (install_legacy i r d).2.
Proof.
  unfold install_legacy. destruct (_ && _); cbn [snd].
  - destruct (own_req r (set_io_Error IOERR_UNITBUSY) d) as [Hc Hu Hr]. unfold set_error. by split.
  - split; try (by destruct d).
    + intros j. cbn. by case_decide; subst.
    + intros j. unfold registered. cbn. by case_decide; subst.
    + intros j. cbn. by case_decide; subst.
Qed.

Lemma begin_legacy_ok s es r alloc :
  sys_ok s es -> r ∉ held s es ->
  request_unit_index (reqs (dev s) r) < 8 -> io_Command (reqs (dev s) r) = TD_REMOVE ->
  sys_ok (begin_step r alloc s) es.
Proof.
  intros H Hr Hi Hc. set (i := request_unit_index (reqs (dev s) r)) in *.
  pose proof (install_legacy_spec i r (dev s)) as Hl. destruct (install_legacy i r (dev s)) as [b d1] eqn:El.
  cbn [snd] in Hl. set (d2 := if b then set_error r 0 d1 else d1).
  set (d' := (d2 |> set_actual r 0 |> on_req r clear_quick |> ReplyMsg r)).
  assert (Hown : own r d1 d') by (unfold d', d2, set_actual, set_error; destruct b; own_auto).
  assert (Hrp : replied d' = replied d1 ++ [r]) by (by destruct b).
  assert (Hqk : quick (reqs d' r) = false).
  { unfold d', ReplyMsg. cbn. rewrite !decide_True by done. apply quick_clear. }
  assert (E : device_begin_io r alloc (dev s) = d').
  { unfold device_begin_io. fold i.
    destruct (Z.geb_spec i FUJINET_DISK_UNIT_COUNT) as [Hx|_]; [unfold FUJINET_DISK_UNIT_COUNT in Hx; lia|].
    rewrite Hc. change (TD_REMOVE =? TD_REMCHANGEINT) with false. change (TD_REMOVE =? CMD_FLUSH) with false.
    change (TD_REMOVE =? TD_REMOVE) with true. cbn iota. rewrite El. reflexivity. }
  clearbody d'. clear d2. rewrite (begin_step_eq _ _ _ _ _ E Hqk).
  rewrite (filter_absent _ _ (not_held_retained _ _ _ Hr)). destruct Hown as [Hc1 Hu1 Hr1], Hl.
  eapply (ok_same s es d' [r] [] [] [r]); [done|congruence| | | | | |done].
  - intros j. by rewrite Hu1.
  - intros j. unfold registered. rewrite Hu1. apply lg_registered0.
  - intros j Hj. destruct (ok_units _ _ H j Hj) as [E1 E2]. unfold unit_ok. by rewrite Hu1, lg_driver0.
  - intros x Hx. assert (Hne : x <> r) by (by intros ->). by rewrite Hr1, lg_reqs0.
  - by rewrite Hrp, lg_replied0.
Qed.

(** The submissions that BeginIO refuses or answers from the unit's state. *)
Lemma begin_refused_ok s es r alloc d1 :
  sys_ok s es -> r ∉ held s es -> own r (dev s) d1 -> replied d1 = replied (dev s) ->
  device_begin_io r alloc (dev s) = reply_unless_quick r d1 ->
  sys_ok (begin_step r alloc s) es.
Proof.
  intros H Hr Hown Hrp E. destruct (reply_unless_spec r d1) as [H1 H2].
  rewrite (begin_step_eq _ _ _ _ _ E H2). rewrite (filter_absent _ _ (not_held_retained _ _ _ Hr)).
  rewrite app_nil_r. eapply (own_same s es r _ [r] _ (replies r d1)); [done..| | |].
  - eapply own_trans; [exact Hown|apply own_reply_unless].
  - by rewrite H1, Hrp.
  - apply replies_completes.
Qed.

Lemma begin_no_memory_ok s es r alloc d1 :
  sys_ok s es -> r ∉ held s es -> own r (dev s) d1 -> replied d1 = replied (dev s) ->
  quick (reqs d1 r) = false -> device_begin_io r alloc (dev s) = ReplyMsg r d1 ->
  sys_ok (begin_step r alloc s) es.
Proof.
  intros H Hr Hown Hrp Hqk E. eapply begin_refused_ok; try done. rewrite E.
  unfold reply_unless_quick. by rewrite Hqk.
Qed.

Lemma disk_enqueue_ok s es r p d1 alloc :
  sys_ok s es -> r ∉ held s es -> freed (dev s) = false -> nodes (dev s) !! p = None ->
  own r (dev s) d1 -> replied d1 = replied (dev s) -> queueable (reqs d1 r) ->
  request_unit_index (reqs d1 r) < 8 ->
  device_begin_io r alloc (dev s) = enqueue (request_unit_index (reqs d1 r)) r p d1 ->
  sys_ok (begin_step r alloc s) (es ++ [mkEntry p r (io_Command (reqs d1 r)) (request_unit_index (reqs d1 r))]).
Proof.
  intros H Hr Hf Hp [Hcore Hu Hreq] Hrp Hqable Hi E.
  pose proof (unit_index_range (reqs d1 r)) as Hi0. set (i := request_unit_index (reqs d1 r)) in *.
  apply core_engine in Hcore as (Heng & Eq & En).
  set (d2 := enqueue i r p d1) in *.
  assert (Hreqs : forall x, ticket (reqs d2 x) = ticket (reqs d1 x)) by (intros x; cbn; by case_decide; subst).
  assert (Hcmd : io_Command (reqs (on_req r (set_ln_Type NT_MESSAGE) d1) r) = io_Command (reqs d1 r))
    by (cbn; by rewrite decide_True).
  assert (Hqk : quick (reqs d2 r) = false).
  { change (snd (ticket (reqs d2 r)) = false). rewrite Hreqs. apply Hqable. }
  rewrite (begin_step_eq _ _ _ _ _ E Hqk). rewrite (filter_absent _ _ (not_held_retained _ _ _ Hr)).
  assert (Hret : retained d2 = retained (dev s)).
  { apply retained_eq. intros j. unfold registered. change (units d2) with (units d1). by rewrite Hu. }
  pose proof (queue_of_fresh _ _ _ p (ok_queue _ _ H) Hp) as Hfresh.
  pose proof (append_links _ _ p r i (io_Command (reqs d1 r)) (ok_queue _ _ H) Hfresh) as Hq.
  rewrite <-Eq, <-En, <-Hcmd in Hq.
  assert (Hq2 : queue_of (io_queue d2, nodes d2) (es ++ [mkEntry p r (io_Command (reqs d1 r)) i])).
  { rewrite <-Hcmd. clear -Hq. unfold d2, enqueue.
    cbn [set_signalled set_io_processing store_queue set_io_queue set_nodes io_queue nodes].
    change (io_queue (on_req r (set_ln_Type NT_MESSAGE) d1)) with (io_queue d1).
    change (nodes (on_req r (set_ln_Type NT_MESSAGE) d1)) with (nodes d1).
    destruct (fujinet_io_queue_append _ _ _ _ _). exact Hq. }
  clear Hq. assert (Hother : forall x, x ∈ held s es -> ticket (reqs d2 x) = ticket (reqs (dev s) x)).
  { intros x Hx. rewrite Hreqs, Hreq; [done|]. by intros ->. }
  split; cbn [dev at_ begun at_once returned].
  - exact Hq2.
  - apply Forall_app. split.
    + eapply entries_change; [|apply (ok_entries _ _ H)]. intros e He. by apply Hother, queued_held.
    + apply Forall_singleton. eapply (ticket_entry d1); [apply Hreqs|]. split; [cbn; lia|]. done.
  - intros j x Hj Hx. unfold registered in Hx. change (units d2) with (units d1) in Hx. rewrite Hu in Hx.
    fold (registered j (dev s)) in Hx. rewrite <-(ok_retained _ _ H j x Hj Hx).
    specialize (Hother x (registered_held s es j x Hj Hx)).
    change (fst (fst (ticket (reqs d2 x))) = fst (fst (ticket (reqs (dev s) x)))). by rewrite Hother.
  - assert (Hnd : NoDup (held s es ++ [r])).
    { apply NoDup_app. split; [apply (ok_once _ _ H)|]. split; [|apply NoDup_singleton].
      by intros x Hx ->%list_elem_of_singleton. }
    unfold held, running in *. cbn [dev at_]. rewrite Hret, fmap_app. cbn.
    eapply NoDup_Permutation_proper; [|exact Hnd]. solve_Permutation.
  - unfold held, running. cbn [dev at_]. rewrite (ok_account _ _ H). unfold held, running.
    rewrite Hret, fmap_app.
    change (replied d2) with (replied d1). rewrite Hrp. cbn. solve_Permutation.
  - intros j Hj. change (units d2) with (units d1). rewrite Hu. by apply (ok_units _ _ H).
  - intros x Hx. eapply ticket_queueable; [|by apply (ok_running _ _ H)].
    apply Hother. by apply running_held.
  - done.
  - apply ready_change; [|apply (ok_ready _ _ H)]. intros x Hx. apply Hother. by apply running_held.
  - done.
  - done.
  - change (freed d2) with (freed d1). unfold engine in Heng. injection Heng as _ _ _ _ ->. apply (ok_gone _ _ H).
Qed.

Lemma begin_rest_ok s es r alloc :
  sys_ok s es -> r ∉ held s es -> freed (dev s) = false ->
  (forall p, alloc = Some p -> nodes (dev s) !! p = None) ->
  request_unit_index (reqs (dev s) r) < 8 ->
  io_Command (reqs (dev s) r) ∉ [TD_REMCHANGEINT; CMD_FLUSH; TD_REMOVE] ->
  device_begin_io r alloc (dev s) = begin_rest r alloc (dev s) ->
  exists es', sys_ok (begin_step r alloc s) es'.
Proof.
  intros H Hr Hf Hal Hi Hc E. unfold begin_rest in E.
  set (i := request_unit_index (reqs (dev s) r)) in *.
  set (status := status_actual _ _) in E.
  set (d1 := match status with Some actual => set_actual r actual (dev s) | None => dev s end) in E.
  assert (H1 : own r (dev s) d1) by (unfold d1, set_actual; destruct status; own_auto).
  assert (R1 : replied d1 = replied (dev s)) by (unfold d1; by destruct status).
  assert (Q1 : ticket (reqs d1 r) = ticket (reqs (dev s) r)).
  { unfold d1. destruct status; [|done]. cbn. by rewrite decide_True. }
  clearbody d1. destruct (bool_decide (is_Some status) && negb (io_processing d1)).
  { exists es. eapply begin_refused_ok; [done..| | |exact E].
    - eapply own_trans; [exact H1|]. unfold set_error. own_auto.
    - exact R1. }
  set (d2 := on_req r clear_quick d1) in E.
  assert (H2 : own r (dev s) d2) by (eapply own_trans; [exact H1|apply own_req]).
  assert (R2 : replied d2 = replied (dev s)) by exact R1.
  assert (Q2 : reqs d2 r = clear_quick (reqs d1 r)) by (cbn; by rewrite decide_True).
  clearbody d2. unfold ticket in Q1. injection Q1 as Qi Qc _.
  assert (Hqr : queueable (reqs d2 r)).
  { rewrite Q2. split; [apply quick_clear|].
    change (io_Command (clear_quick (reqs d1 r))) with (io_Command (reqs d1 r)). by rewrite Qc. }
  destruct alloc as [p|].
  - eexists. apply (disk_enqueue_ok s es r p d2); [done..|by apply Hal|done|done|done| |].
    + rewrite Q2. change (request_unit_index (reqs d1 r) < 8). by rewrite Qi.
    + rewrite Q2. change (request_unit_index (clear_quick (reqs d1 r))) with (request_unit_index (reqs d1 r)).
      by rewrite Qi.
  - exists es. eapply begin_no_memory_ok; [done..| | | |exact E].
    + eapply own_trans; [exact H2|]. unfold set_error. own_auto.
    + exact R2.
    + cbn. rewrite decide_True by done. rewrite Q2. apply quick_clear.
Qed.

Lemma disk_begin_ok s es r alloc :
  sys_ok s es -> freed (dev s) = false ->
  answered r s \/ r ∈ retained (dev s) /\ io_Command (reqs (dev s) r) = TD_REMCHANGEINT ->
  (forall p, alloc = Some p -> nodes (dev s) !! p = None) ->
  exists es', sys_ok (begin_step r alloc s) es'.
Proof.
  intros H Hf Hg Hal. destruct Hg as [Ha|[Hret Hc]].
  2:{ exists es. apply begin_remove_ok; [done|by apply retained_alone| |done].
      apply elem_of_retained in Hret as (i & Hi & Hx). rewrite (ok_retained _ _ H i r Hi Hx). lia. }
  pose proof (answered_not_held _ _ _ H Ha) as Hr.
  destruct (Z.geb_spec (request_unit_index (reqs (dev s) r)) FUJINET_DISK_UNIT_COUNT) as [Hi|Hi].
  { exists es. eapply (begin_refused_ok s es r alloc (set_error r IOERR_OPENFAIL (dev s))); [done..| |done|].
    - unfold set_error. own_auto.
    - unfold device_begin_io. destruct (Z.geb_spec (request_unit_index (reqs (dev s) r)) FUJINET_DISK_UNIT_COUNT); [done|lia]. }
  change FUJINET_DISK_UNIT_COUNT with 8 in Hi.
  destruct (decide (io_Command (reqs (dev s) r) = TD_REMCHANGEINT)) as [Hc|Hc1].
  { exists es. apply begin_remove_ok; [done| |done..]. apply not_elem_of_app in Hr as [Hr1 [Hr2 _]%not_elem_of_app].
    by apply not_elem_of_app. }
  destruct (decide (io_Command (reqs (dev s) r) = CMD_FLUSH)) as [Hc|Hc2]; [by apply (begin_flush_ok s es)|].
  destruct (decide (io_Command (reqs (dev s) r) = TD_REMOVE)) as [Hc|Hc3].
  { exists es. by apply begin_legacy_ok. }
  eapply (begin_rest_ok s es); [done..| |].
  - rewrite !not_elem_of_cons. split_and!; try done. apply not_elem_of_nil.
  - apply begin_rest_eq; [done|]. rewrite !not_elem_of_cons. split_and!; try done. apply not_elem_of_nil.
Qed.

(** ** AbortIO *)

Lemma same_system s : mkSystem (dev s) (at_ s) (begun s ++ []) (at_once s ++ []) (returned s ++ []) = s.
Proof. rewrite !app_nil_r. by destruct s. Qed.

Lemma with_dev_eq d s : mkSystem d (at_ s) (begun s ++ []) (at_once s ++ []) (returned s ++ []) = with_dev d s.
Proof. by rewrite !app_nil_r. Qed.

Lemma dequeue_reply_ok s a e b qu h :
  sys_ok s (a ++ e :: b) -> queue_of (qu, h) (a ++ b) ->
  sys_ok (with_dev (dev s |> set_io_queue qu |> set_nodes h |> set_error (e_request e) IOERR_ABORTED
                          |> ReplyMsg (e_request e)) s) (a ++ b).
Proof.
  intros H Hq. rewrite <-with_dev_eq. set (d' := ReplyMsg _ _).
  assert (Ht : forall x, ticket (reqs d' x) = ticket (reqs (dev s) x)).
  { intros x. cbn. by repeat case_decide; subst. }
  eapply (ok_shrink s (a ++ e :: b) d' (a ++ b) [] [] [] [e_request e] [e_request e]); try done.
  - intros x Hx. apply elem_of_app in Hx as [|]; apply elem_of_app; [by left|by right; right].
  - apply (ok_units _ _ H).
  - unfold held, running. cbn [dev at_]. rewrite !fmap_app, fmap_cons. cbn. solve_Permutation.
Qed.

Lemma abort_queued_ok s es r :
  sys_ok s es -> exists es', sys_ok (with_dev (abort_queued r (dev s)).2 s) es' /\
    (forall x, x ∈ es' -> x ∈ es) /\ r ∉ (e_request <$> es').
Proof.
  intros H. pose proof (abort_queued_spec r (dev s) es (ok_queue _ _ H)) as Ha.
  destruct (abort_queued r (dev s)) as [[|] d'].
  - destruct Ha as (a & e & b & qu & h & -> & <- & Hq & ->). exists (a ++ b). split; [|split].
    + by apply dequeue_reply_ok.
    + intros x Hx. apply elem_of_app in Hx as [|]; apply elem_of_app; [by left|by right; right].
    + pose proof (ok_once _ _ H) as Hnd. unfold held in Hnd. apply NoDup_app in Hnd as (Hnd & _ & _).
      rewrite fmap_app, fmap_cons in *. rewrite <-Permutation_middle in Hnd.
      apply NoDup_cons in Hnd as [? _]. done.
  - destruct Ha as [-> Hr]. exists es. split; [|done]. by destruct s.
Qed.

Lemma disk_abort_ok s es r :
  sys_ok s es -> exists es', sys_ok (with_dev (device_abort_io r (dev s)).2 s) es'.
Proof.
  intros H. unfold device_abort_io. pose proof (unit_index_range (reqs (dev s) r)) as Hi0.
  set (i := request_unit_index (reqs (dev s) r)) in *.
  destruct (Z.ltb_spec i FUJINET_DISK_UNIT_COUNT) as [Hi|Hi]; cbn [andb].
  2:{ pose proof (abort_queued_ok s es r H) as (es' & H' & _). exists es'.
      destruct (abort_queued r (dev s)) as [[|] d']; done. }
  change FUJINET_DISK_UNIT_COUNT with 8 in Hi.
  destruct (find_change_request r (units (dev s) i)) as [g|] eqn:Ef.
  2:{ rewrite bool_decide_eq_false_2 by (by intros [? ?]).
      pose proof (abort_queued_ok s es r H) as (es' & H' & _). exists es'.
      destruct (abort_queued r (dev s)) as [[|] d']; done. }
  rewrite bool_decide_eq_true_2 by done. exists es. cbn [snd]. rewrite <-with_dev_eq.
  assert (Hreg : r ∈ registered i (dev s)).
  { destruct (decide (r ∈ registered i (dev s))) as [|Hn]; [done|]. apply find_registration_none in Hn.
    unfold find_change_request in Ef. congruence. }
  pose proof (remove_all_dropped i r (dev s) ltac:(lia)
                (fun j Hj Hj8 => registered_elsewhere _ _ r j H Hj Hj8)) as Hd.
  destruct (remove_all_change_requests i r (dev s)) as [b d1]. cbn [snd] in *.
  assert (Ht : forall x, ticket (reqs (d1 |> set_error r IOERR_ABORTED |> ReplyMsg r) x) = ticket (reqs (dev s) x)).
  { intros x. rewrite <-(dr_reqs _ _ _ Hd). cbn. by repeat case_decide; subst. }
  eapply (drop_ok s es r d1 _ [] [] [] [r]); [done|exact Hd|done|done| | | |].
  - intros x _. apply Ht.
  - done.
  - cbn. by rewrite (dr_replied _ _ _ Hd).
  - assert (Hret : r ∈ retained (dev s)) by (apply elem_of_retained; exists i; split; [lia|done]).
    rewrite filter_present; [done| |done]. pose proof (ok_once _ _ H) as Hnd. unfold held in Hnd.
    apply NoDup_app in Hnd as (_ & _ & Hnd). by apply NoDup_app in Hnd as (_ & _ & ?).
Qed.

(** ** A client prepares to take a registration back *)

Lemma prepare_remove_ok s es r flags :
  sys_ok s es -> r ∈ retained (dev s) ->
  sys_ok (with_dev (on_req r (fun q => set_io_Command TD_REMCHANGEINT (set_io_Flags flags q)) (dev s)) s) es.
Proof.
  intros H Hr. pose proof (retained_alone _ _ _ H Hr) as [Hre Hrr]%not_elem_of_app.
  set (d' := on_req r _ (dev s)).
  assert (Hother : forall x, x <> r -> reqs d' x = reqs (dev s) x) by (intros x Hx; cbn; by rewrite decide_False).
  assert (Hidx : forall x, request_unit_index (reqs d' x) = request_unit_index (reqs (dev s) x)).
  { intros x. cbn. by case_decide; subst. }
  destruct H. split; try done.
  - eapply entries_change; [|exact ok_entries0]. intros e He. cbn [dev with_dev]. rewrite Hother; [done|].
    intros <-. apply Hre, list_elem_of_fmap. by exists e.
  - intros i x Hi Hx. cbn [dev with_dev]. rewrite Hidx. by apply ok_retained0.
  - intros x Hx. cbn [dev with_dev at_] in *. rewrite Hother by (by eapply running_not). by apply ok_running0.
  - intros x i k E. cbn [dev with_dev at_] in *.
    rewrite Hother by (eapply running_not, ready_running; done). by apply (ok_ready0 x i k).
Qed.

(** ** CloseDevice and Expunge *)

(** The list of what was given back is an account, not a sequence. *)
Lemma returned_perm s es rt :
  sys_ok s es -> returned s ≡ₚ rt -> sys_ok (mkSystem (dev s) (at_ s) (begun s) (at_once s) rt) es.
Proof.
  intros H Hp. destruct H. split; try done. cbn [dev begun at_once returned].
  change (held (mkSystem (dev s) (at_ s) (begun s) (at_once s) rt) es) with (held s es).
  by rewrite ok_account0, Hp.
Qed.

Lemma library_ok s es d' :
  sys_ok s es -> core d' = core (dev s) -> units d' = units (dev s) -> reqs d' = reqs (dev s) ->
  replied d' = replied (dev s) -> sys_ok (with_dev d' s) es.
Proof.
  intros H Hc Hu Hr Hrp. rewrite <-with_dev_eq. apply (ok_same s es d' [] [] [] []); try done.
  - intros i. by rewrite Hu.
  - intros i. unfold registered. by rewrite Hu.
  - intros i Hi. rewrite Hu. by apply (ok_units _ _ H).
  - intros x _. by rewrite Hr.
  - by rewrite app_nil_r.
Qed.

(** The request forgets its device. *)
Lemma unbind_ok s es r :
  sys_ok s es -> r ∉ (e_request <$> es) -> r ∉ retained (dev s) -> ~ registering r s ->
  sys_ok (with_dev (unbind r (dev s)) s) es.
Proof.
  intros H Hre Hrr Hng. unfold unbind. set (d' := on_req r _ (dev s)).
  assert (H' : sys_ok (with_dev d' s) es).
  2:{ clearbody d'. destruct (negb (lib_OpenCnt d' =? 0)); [|done].
      exact (library_ok _ es (set_lib_OpenCnt (lib_OpenCnt d' - 1) d') H' eq_refl eq_refl eq_refl eq_refl). }
  assert (Hother : forall x, x <> r -> reqs d' x = reqs (dev s) x) by (intros x Hx; cbn; by rewrite decide_False).
  destruct H. split; try done.
  - eapply entries_change; [|exact ok_entries0]. intros e He. cbn [dev with_dev]. rewrite Hother; [done|].
    intros <-. apply Hre, list_elem_of_fmap. by exists e.
  - intros i x Hi Hx. cbn [dev with_dev]. rewrite Hother; [by apply ok_retained0|]. intros ->.
    apply Hrr, elem_of_retained. by exists i.
  - intros x Hx. cbn [dev with_dev at_] in *. specialize (ok_running0 x Hx). cbn. by case_decide; subst.
  - intros x i k E. cbn [dev with_dev at_] in *. destruct (ok_ready0 x i k E) as [Hi Hx]. split; [done|].
    cbn. case_decide as Hd; [|done]. subst x. intros Hc. destruct Hng. by exists i, k.
Qed.

Lemma drop_unit_eq i r d :
  (remove_all_change_requests i r d).2 =
  on_unit i (fun u => set_change_requests (filter (fun g => rg_request g <> r) (change_requests u)) u) d.
Proof.
  unfold remove_all_change_requests.
  pose proof (remove_all_spec r (change_requests (units d i)) _ (Nat.lt_succ_diag_r _)) as Hl.
  destruct (remove_all_loop _ _ _) as [b l]. cbn [snd] in *. by rewrite Hl.
Qed.

Lemma remove_everywhere_dropped r d :
  dropped r d (for_units (fun i d => (remove_all_change_requests i r d).2) d).
Proof.
  set (f := fun u : unit_state W => set_change_requests (filter (fun g => rg_request g <> r) (change_requests u)) u).
  assert (E : for_units (fun i d => (remove_all_change_requests i r d).2) d = for_units (fun i => on_unit i f) d).
  { unfold for_units. generalize d. induction all_units as [|i l IH]; intros d0; [done|].
    cbn [foldl]. by rewrite drop_unit_eq, IH. }
  rewrite E. destruct (fold_on_unit (fun _ => f) all_units d) as (us & Ef & Hus); [apply NoDup_seqZ|].
  unfold for_units. rewrite Ef. split; try (by destruct d).
  - intros j. cbn. rewrite Hus. by case_decide.
  - intros j. cbn. rewrite Hus. by case_decide.
  - intros j Hj. unfold registered. cbn. rewrite Hus, decide_True by (by apply all_units_spec). apply filter_requests.
Qed.

(** What the gate of an expunge lets through. *)
Definition idle_gate d : bool :=
  (Z.land (lib_Flags d) LIBF_DELEXP =? 0) || negb (lib_OpenCnt d =? 0)
  || bool_decide (is_Some (IoQueue.head (io_queue d))) || io_processing d.

Lemma gate_idle s es :
  sys_ok s es -> idle_gate (dev s) = false -> es = [] /\ running s = [].
Proof.
  intros H Hg. unfold idle_gate in Hg. rewrite !orb_false_iff in Hg. destruct Hg as [[_ Hh] Hp].
  apply bool_decide_eq_false in Hh. split.
  - apply (queue_head_nil _ _ (ok_queue _ _ H)). cbn [fst]. destruct (IoQueue.head (io_queue (dev s))); [|done].
    by destruct Hh.
  - pose proof (ok_busy _ _ H) as Hb. unfold busy in Hb. unfold running.
    destruct (at_ s); try done; by specialize (Hb eq_refl); congruence.
Qed.

(** What [teardown] leaves of the device. *)
Lemma teardown_units d :
  forall j, 0 <= j < 8 ->
  units (teardown sv d) j = (units d j |> set_change_requests [] |> (fun u => set_driver (set_initialized false (driver u)) u)).
Proof.
  intros j Hj. unfold teardown, discard_change_requests. set (d1 := set_worker_signal (-1) _).
  destruct (for_units_spec (set_change_requests (W := W) []) d1) as (us & -> & Hus).
  set (d2 := set_units us d1).
  assert (E3 : exists w b, (if negb (transport_closed d2)
    then d2 |> set_transport_closed true |> set_world (fn_transport_close sv (world d2)) else d2) =
    (d2 |> set_transport_closed b |> set_world w)).
  { destruct (transport_closed d2) eqn:E; cbn [negb]; [|by eexists _, _].
    exists (world d2), true. rewrite <-E. by destruct d2. }
  destruct E3 as (w & b & ->).
  destruct (for_units_spec (fun u => set_driver (set_initialized false (driver u)) u)
              (d2 |> set_transport_closed b |> set_world w)) as (us2 & -> & Hus2).
  cbn [units set_units set_freed]. rewrite Hus2 by done.
  change (units (d2 |> set_transport_closed b |> set_world w)) with us. by rewrite Hus.
Qed.

Lemma teardown_fields d :
  io_queue (teardown sv d) = io_queue d /\ nodes (teardown sv d) = nodes d /\
  reqs (teardown sv d) = reqs d /\ replied (teardown sv d) = replied d /\
  io_processing (teardown sv d) = io_processing d /\ freed (teardown sv d) = true /\
  transport_closed (teardown sv d) = true.
Proof.
  unfold teardown, discard_change_requests. set (d1 := set_worker_signal (-1) _).
  destruct (for_units_spec (set_change_requests (W := W) []) d1) as (us & -> & _).
  set (d2 := set_units us d1).
  assert (E3 : exists w, (if negb (transport_closed d2)
    then d2 |> set_transport_closed true |> set_world (fn_transport_close sv (world d2)) else d2) =
    (d2 |> set_transport_closed true |> set_world w)).
  { destruct (transport_closed d2) eqn:E; cbn [negb]; [|by eexists].
    exists (world d2). rewrite <-E at 1. by destruct d2. }
  destruct E3 as (w & ->).
  destruct (for_units_spec (fun u => set_driver (set_initialized false (driver u)) u)
              (d2 |> set_transport_closed true |> set_world w)) as (us2 & -> & _).
  by destruct d.
Qed.

Lemma teardown_ok s es :
  sys_ok s es -> idle_gate (dev s) = false ->
  sys_ok (mkSystem (teardown sv (dev s)) WGone (begun s) (at_once s) (returned s ++ retained (dev s))) [].
Proof.
  intros H Hg. destruct (gate_idle _ _ H Hg) as [-> Hrun].
  destruct (teardown_fields (dev s)) as (Eq & En & Er & Erp & Ep & Ef & _).
  assert (Hreg : forall j, 0 <= j < 8 -> registered j (teardown sv (dev s)) = []).
  { intros j Hj. unfold registered. by rewrite teardown_units. }
  assert (Hret : retained (teardown sv (dev s)) = []).
  { destruct (retained (teardown sv (dev s))) as [|x l] eqn:E; [done|].
    assert (Hx : x ∈ retained (teardown sv (dev s))) by (rewrite E; left).
    apply elem_of_retained in Hx as (j & Hj & Hx). rewrite Hreg in Hx by done. by apply elem_of_nil in Hx. }
  split; cbn [dev at_ begun at_once returned].
  - rewrite Eq, En. apply (ok_queue _ _ H).
  - done.
  - intros i r Hi Hr. rewrite Hreg in Hr by done. by apply elem_of_nil in Hr.
  - unfold held, running. cbn [dev at_]. rewrite Hret. apply NoDup_nil_2.
  - unfold held, running. cbn [dev at_]. rewrite (ok_account _ _ H). unfold held. rewrite Hrun, Hret, Erp. cbn.
    solve_Permutation.
  - intros j Hj. rewrite teardown_units by done. apply (ok_units _ _ H j Hj).
  - intros r Hr. by apply elem_of_nil in Hr.
  - done.
  - done.
  - done.
  - done.
  - by rewrite Ef.
Qed.

Lemma expunge_ok s es :
  sys_ok s es -> freed (dev s) = false -> exists es', sys_ok (expunge_step sv s) es'.
Proof.
  intros H Hf. unfold expunge_step, device_expunge.
  set (d0 := set_lib_Flags (Z.lor (lib_Flags (dev s)) LIBF_DELEXP) (dev s)).
  pose proof (library_ok s es d0 H eq_refl eq_refl eq_refl eq_refl) as H0.
  assert (Hret : retained d0 = retained (dev s)) by done. change (freed (dev s)) with (freed d0) in Hf.
  clearbody d0. unfold complete_pending_expunge. fold (idle_gate d0).
  destruct (idle_gate d0) eqn:Eg; cbn [snd].
  - exists es. unfold removal_step. rewrite Hf. rewrite app_nil_r. exact H0.
  - exists []. pose proof (teardown_ok _ _ H0 Eg) as Ht. unfold removal_step.
    destruct (teardown_fields d0) as (_ & _ & _ & _ & _ & -> & _). cbn [dev with_dev] in Ht. by rewrite <-Hret.
Qed.

Lemma abort_queued_keeps r d :
  units (abort_queued r d).2 = units d /\ freed (abort_queued r d).2 = freed d /\
  io_Command (reqs (abort_queued r d).2 r) = io_Command (reqs d r).
Proof.
  unfold abort_queued. destruct (fujinet_io_queue_remove_request _ _) as [[p|] qs];
    destruct d; split_and!; try done. cbn. by rewrite !decide_True.
Qed.

Lemma take_back_ok s es r :
  sys_ok s es -> freed (dev s) = false ->
  let d' := take_back r (dev s) in
  retained d' = filter (fun x => x <> r) (retained (dev s)) /\ freed d' = false /\
  io_Command (reqs d' r) = io_Command (reqs (dev s) r) /\
  exists es', sys_ok (mkSystem d' (at_ s) (begun s) (at_once s)
    (returned s ++ filter (fun x => x = r) (retained (dev s)))) es' /\ r ∉ (e_request <$> es').
Proof.
  intros H Hf. unfold take_back. pose proof (remove_everywhere_dropped r (dev s)) as Hd.
  revert Hd. generalize (for_units (fun i d => (remove_all_change_requests i r d).2) (dev s)). intros d1 Hd.
  assert (H1 : sys_ok (mkSystem d1 (at_ s) (begun s) (at_once s)
    (returned s ++ filter (fun x => x = r) (retained (dev s)))) es).
  { pose proof (drop_ok s es r d1 d1 [] [] (filter (fun x => x = r) (retained (dev s))) [] H Hd) as H1.
    rewrite !app_nil_r in H1. apply H1; try done.
    - intros x _. by rewrite (dr_reqs _ _ _ Hd).
    - intros x _. by rewrite (dr_reqs _ _ _ Hd).
    - apply (dr_replied _ _ _ Hd). }
  destruct (abort_queued_keeps r d1) as (Hu2 & Hf2 & Hc2). split; [|split; [|split]].
  - rewrite <-(dropped_retained _ _ _ Hd). apply retained_eq. intros j. unfold registered. by rewrite Hu2.
  - rewrite Hf2. pose proof (dr_core _ _ _ Hd) as Hc. unfold core in Hc. congruence.
  - by rewrite Hc2, (dr_reqs _ _ _ Hd).
  - destruct (abort_queued_ok _ es r H1) as (es' & H2 & _ & Hre). by exists es'.
Qed.

Lemma unbind_keeps r d : units (unbind r d) = units d /\ freed (unbind r d) = freed d.
Proof. unfold unbind. by destruct (negb _), d. Qed.

Lemma close_detach_ok s es r :
  sys_ok s es -> freed (dev s) = false -> ~ registering r s ->
  let d' := close_detach r (dev s) in
  exists es', sys_ok (mkSystem d' (at_ s) (begun s) (at_once s)
    (returned s ++ filter (fun x => x = r) (retained (dev s)))) es' /\
    retained d' = filter (fun x => x <> r) (retained (dev s)) /\ freed d' = false.
Proof.
  intros H Hf Hng. destruct (take_back_ok s es r H Hf) as (Hret & Hf' & Hc & es' & H' & Hr).
  unfold close_detach. revert Hret Hf' Hc H'. generalize (take_back r (dev s)). intros d1 Hret Hf' Hc H'.
  destruct (unbind_keeps r d1) as [Hu Hfr]. exists es'. split; [|split].
  - apply (unbind_ok _ es' r H' Hr); cbn [dev].
    + rewrite Hret. by intros [? _]%list_elem_of_filter.
    + intros (i & k & E & Ha). cbn [at_ dev] in *. apply Hng. exists i, k. by rewrite <-Hc.
  - rewrite <-Hret. apply retained_eq. intros j. unfold registered. by rewrite Hu.
  - congruence.
Qed.

(** An expunge, if one is pending, of the device [d'] that a close left. *)
Lemma close_finish s es r d' (pending : bool) :
  sys_ok (mkSystem d' (at_ s) (begun s) (at_once s)
    (returned s ++ filter (fun x => x = r) (retained (dev s)))) es ->
  retained d' = filter (fun x => x <> r) (retained (dev s)) -> freed d' = false ->
  let d := (if pending then complete_pending_expunge sv d' else (0, d')).2 in
  exists es', sys_ok (removal_step d (if freed d then retained (dev s)
                                      else filter (fun x => x = r) (retained (dev s))) s) es'.
Proof.
  intros H' Hret Hf'.
  assert (Hstay : exists es', sys_ok (removal_step d' (if freed d' then retained (dev s)
      else filter (fun x => x = r) (retained (dev s))) s) es').
  { exists es. unfold removal_step. by rewrite Hf'. }
  destruct pending; [|exact Hstay]. unfold complete_pending_expunge. fold (idle_gate d').
  destruct (idle_gate d') eqn:Eg; cbn [snd]; [exact Hstay|]. exists [].
  pose proof (teardown_ok _ _ H' Eg) as Ht. cbn [dev begun at_once returned] in Ht.
  unfold removal_step. destruct (teardown_fields d') as (_ & _ & _ & _ & _ & -> & _).
  eapply (returned_perm _ []) in Ht; [exact Ht|]. cbn [returned]. rewrite Hret, <-app_assoc.
  by rewrite <-filter_split.
Qed.

Lemma disk_close_ok s es r :
  sys_ok s es -> freed (dev s) = false -> ~ registering r s ->
  exists es', sys_ok (close_step sv r s) es'.
Proof.
  intros H Hf Hng. destruct (close_detach_ok s es r H Hf Hng) as (es' & H' & Hret & Hf').
  unfold close_step, device_close. revert H' Hret Hf'. generalize (close_detach r (dev s)).
  intros d' H' Hret Hf'. exact (close_finish s es' r d' _ H' Hret Hf').
Qed.

(** ** The worker *)

Lemma disk_wake_ok s es :
  sys_ok s es -> at_ s = WWait ->
  sys_ok (mkSystem (set_signalled false (dev s)) WTop (begun s) (at_once s) (returned s)) es.
Proof.
  intros H E. assert (Hh : held (mkSystem (set_signalled false (dev s)) WTop (begun s) (at_once s) (returned s)) es
                           = held s es) by (unfold held, running; by rewrite E).
  destruct H. split; rewrite ?Hh; try done; [by intros r ?%elem_of_nil|].
    cbn. rewrite <-ok_gone0, E. done.
Qed.

Lemma disk_runnable_agrees st : agrees (runnable st FUJINET_DISK_UNIT_COUNT CMD_START CMD_FLUSH)
  (entry_runnable st FUJINET_DISK_UNIT_COUNT CMD_START CMD_FLUSH).
Proof. by intros nx pv e. Qed.

(** The worker takes the first request that may run. *)
Lemma drain_take_spec d es :
  queue_of (io_queue d, nodes d) es ->
  match drain_take d with
  | (Some r, d') => exists a e b qu h, es = a ++ e :: b /\ e_request e = r /\ can_run d e = true /\
      Forall (fun e => can_run d e = false) a /\ queue_of (qu, h) (a ++ b) /\
      d' = (d |> set_io_queue qu |> set_nodes h)
  | (None, d') => Forall (fun e => can_run d e = false) es /\ d' = set_io_processing false d
  end.
Proof.
  intros Hq. unfold drain_take, next_runnable_request, fujinet_io_queue_next.
  pose proof (take_and_free _ _ _ es (disk_runnable_agrees (map (fun i => stopped (units d i)) all_units)) Hq) as H.
  destruct (take_first _ _) as [[p|] s].
  - destruct H as (a & e & b & -> & He & Ha & -> & Hn & Hq').
    exists a, e, b, s.1, (delete (e_node e) s.2).
    change (nodes (store_queue s d)) with s.2. rewrite Hn. done.
  - destruct H as [-> Hf]. split; [done|]. by destruct d.
Qed.

Lemma disk_take_ok s es :
  sys_ok s es -> at_ s = WTop ->
  exists es', sys_ok (mkSystem (drain_take (dev s)).2
    (match (drain_take (dev s)).1 with Some r => WRun r | None => WWait end)
    (begun s) (at_once s) (returned s)) es' /\
    match (drain_take (dev s)).1 with
    | Some _ => exists a e b, es = a ++ e :: b /\ es' = a ++ b
    | None => es' = es /\ Forall (fun e => can_run (drain_take (dev s)).2 e = false) es
    end.
Proof.
  intros H E. pose proof (drain_take_spec _ _ (ok_queue _ _ H)) as Ht.
  destruct (drain_take (dev s)) as [[r|] d']; cbn [fst snd].
  - destruct Ht as (a & e & b & qu & h & -> & Hr & Hrun & _ & Hq & ->). exists (a ++ b).
    split; [|by exists a, e, b]. set (s' := mkSystem _ _ _ _ _).
    assert (Hh : held s (a ++ e :: b) ≡ₚ held s' (a ++ b)).
    { unfold held, running. rewrite E. cbn [dev at_ s']. rewrite !fmap_app, fmap_cons, Hr. cbn.
      change (retained (dev s |> set_io_queue qu |> set_nodes h)) with (retained (dev s)). solve_Permutation. }
    pose proof (ok_entries _ _ H) as Hent. apply Forall_app in Hent as [Hea Heb].
    apply Forall_cons in Heb as [He Heb]. destruct H. split; try done.
    + apply Forall_app. by split.
    + by rewrite <-Hh.
    + rewrite <-Hh. exact ok_account0.
    + intros x ->%list_elem_of_singleton. rewrite <-Hr. apply He.
    + intros _. cbn.
      destruct (io_processing (dev s)) eqn:Ep; [done|]. specialize (ok_idle0 eq_refl).
      apply Forall_app in ok_idle0 as [_ Hi]. apply Forall_cons in Hi as [Hi _]. congruence.
    + intros Hp. specialize (ok_idle0 Hp). apply Forall_app in ok_idle0 as [Hi1 Hi2].
      apply Forall_cons in Hi2 as [_ Hi2]. by apply Forall_app.
    + cbn. rewrite <-ok_gone0, E. done.
  - destruct Ht as [Hf ->]. exists es. split; [|by split].
    assert (Hh : held (mkSystem (set_io_processing false (dev s)) WWait (begun s) (at_once s) (returned s)) es
                 = held s es) by (unfold held, running; by rewrite E).
    destruct H. split; rewrite ?Hh; try done; [by intros r ?%elem_of_nil|].
    cbn. rewrite <-ok_gone0, E. done.
Qed.

(** Processing touches only the request and drivers, at most the stop flags
    of the units. *)
Record kept (r : Z) d d' : Prop := {
  kp_core : core d' = core d;
  kp_replied : replied d' = replied d;
  kp_reqs : forall x, x <> r -> reqs d' x = reqs d x;
  kp_index : request_unit_index (reqs d' r) = request_unit_index (reqs d r);
  kp_command : io_Command (reqs d' r) = io_Command (reqs d r);
  kp_quick : quick (reqs d' r) = quick (reqs d r);
  kp_registered : forall j, registered j d' = registered j d;
  kp_units : forall j, 0 <= j < 8 -> unit_ok table j (units d j) -> unit_ok table j (units d' j)
}.

Lemma kept_refl r d : kept r d d.
Proof. by split. Qed.
Lemma kept_trans r d1 d2 d3 : kept r d1 d2 -> kept r d2 d3 -> kept r d1 d3.
Proof.
  intros [] []. split; try congruence.
  - intros x Hx. rewrite kp_reqs1, kp_reqs0; done.
  - auto.
Qed.

Lemma frame_kept i r d d' : frame table i r d d' -> kept r d d'.
Proof.
  intros [Hc _ Hrp _ Hr He Hu Hn Hok].
  assert (Hnot : forall j, notification (units d' j) = notification (units d j)).
  { intros j. destruct (decide (j = i)) as [->|Hj]; [done|]. by rewrite Hu. }
  unfold envelope in He. injection He as _ _ E3 E4 E5 _ _ _. split; try done.
  - unfold request_unit_index. by rewrite E3.
  - unfold quick. by rewrite E5.
  - intros j. specialize (Hnot j). unfold notification in Hnot. unfold registered. by injection Hnot as _ -> _.
  - intros j Hj Hok'. destruct (decide (j = i)) as [->|Hne]; [by apply Hok|]. by rewrite Hu.
Qed.

Lemma calm_kept i r d d' : calm table i r d d' -> kept r d d'.
Proof. intros H. by eapply frame_kept, H. Qed.

Lemma kept_notify i r c d : kept r d (notify i c d).
Proof. unfold notify. destruct (negb _); by destruct d. Qed.

Lemma kept_stopped i r b d : kept r d (on_unit i (set_stopped b) d).
Proof.
  destruct d. split; try done.
  - intros j. unfold registered. cbn. by case_decide; subst.
  - intros j Hj Hok. cbn. by case_decide; subst.
Qed.

(** A command that may be queued, other than TD_ADDCHANGEINT. *)
Lemma execute_kept i r d :
  0 <= i -> queueable (reqs d r) -> io_Command (reqs d r) <> TD_ADDCHANGEINT ->
  exists d', execute sv sizes i r d = (true, d') /\ kept r d d'.
Proof.
  intros Hi [_ Hq] Ha.
  destruct (decide (io_Command (reqs d r) = CMD_START)) as [E|Hs].
  { exists (on_unit i (set_stopped false) d). split; [|apply kept_stopped]. unfold execute. by rewrite E. }
  destruct (decide (io_Command (reqs d r) = CMD_STOP)) as [E|Ht].
  { exists (on_unit i (set_stopped true) d). split; [|apply kept_stopped]. unfold execute. by rewrite E. }
  destruct (execute_outcome sv table cl sizes Htable i r d Hi) as (d0 & Hf & E).
  { unfold structural. rewrite !not_elem_of_cons in Hq. rewrite !not_elem_of_cons. destruct Hq as (? & ? & ? & _).
    split_and!; try done. apply not_elem_of_nil. }
  rewrite E. eexists. split; [done|]. eapply kept_trans; [by eapply frame_kept|apply kept_notify].
Qed.

(** TD_ADDCHANGEINT, when there is no registration of the request yet. *)
Lemma addchangeint_spec i r d :
  0 <= i < 8 -> r ∉ registered i d ->
  let '(retained, d') := cmd_addchangeint sv i r d in
  if retained then
    kept r d (set_units (units d) d') /\ registered i d' = registered i d ++ [r] /\
    (forall j, j <> i -> registered j d' = registered j d) /\
    (forall j, unit_ok table j (units d j) -> unit_ok table j (units d' j))
  else kept r d d'.
Proof.
  intros Hi Hr. unfold cmd_addchangeint. apply find_registration_none in Hr.
  unfold find_change_request. rewrite Hr. destruct (alloc_registration sv (world d)) as [w [|]]; cbn [negb].
  - split; [by destruct d|]. split; [|split].
    + unfold registered. rewrite on_unit_same. cbn [change_requests set_change_requests]. by rewrite fmap_app.
    + intros j Hj. unfold registered. cbn. by rewrite decide_False.
    + intros j Hok. cbn. by case_decide; subst.
  - eapply (calm_kept i). eapply calm_trans; [apply calm_world|apply calm_error].
Qed.

Lemma execute_addchangeint i r d :
  io_Command (reqs d r) = TD_ADDCHANGEINT ->
  execute sv sizes i r d = (let '(retained, d) := cmd_addchangeint sv i r d in (negb retained, d)).
Proof. intros E. unfold execute. by rewrite E. Qed.

(** A step of the worker with the request [r] in its hands: it may answer
    [out], which is then no longer held. *)
Lemma worker_change s es r d' at' out :
  sys_ok s es -> r ∈ running s -> core d' = core (dev s) ->
  let s' := mkSystem d' at' (begun s) (at_once s) (returned s) in
  (forall x, x <> r -> reqs d' x = reqs (dev s) x) ->
  (forall j, 0 <= j < 8 -> unit_ok table j (units (dev s) j) -> unit_ok table j (units d' j)) ->
  (forall j x, 0 <= j < 8 -> x ∈ registered j d' ->
     x ∈ registered j (dev s) \/ x = r /\ request_unit_index (reqs d' r) = j) ->
  replied d' = replied (dev s) ++ out -> held s es ≡ₚ held s' es ++ out ->
  (forall x, x ∈ running s' -> x = r /\ queueable (reqs d' r)) ->
  (forall x i k, at' = WReady x i k -> 0 <= i < 8 /\ request_unit_index (reqs d' x) = i) ->
  at' <> WWait -> at' <> WGone -> sys_ok s' es.
Proof.
  intros H Hr Hc s' Hreqs Hu Hreg Hrp Hheld Hrun Hready Hw Hg.
  pose proof (ok_once _ _ H) as Hnd. unfold held in Hnd.
  assert (Hre : r ∉ (e_request <$> es)).
  { apply NoDup_app in Hnd as (_ & Hx & _). intros Hin. apply (Hx r Hin), elem_of_app. by left. }
  assert (Hrr : r ∉ retained (dev s)).
  { apply NoDup_app in Hnd as (_ & _ & Hnd). apply NoDup_app in Hnd as (_ & Hx & _). by apply Hx. }
  assert (Hp : io_processing (dev s) = true).
  { apply (ok_busy _ _ H). unfold busy. unfold running in Hr.
    destruct (at_ s); by try apply elem_of_nil in Hr. }
  apply core_engine in Hc as (Heng & Eq & En). unfold engine in Heng. injection Heng as Ep Ew Es Esig Ef.
  destruct H. split; cbn [dev at_ begun at_once returned s'].
  - by rewrite Eq, En.
  - eapply entries_change; [|exact ok_entries0]. intros e He. rewrite Hreqs; [done|].
    intros <-. apply Hre, list_elem_of_fmap. by exists e.
  - intros j x Hj Hx. destruct (Hreg j x Hj Hx) as [Hx'|[-> Hidx]]; [|done].
    rewrite Hreqs; [by apply ok_retained0|]. intros ->. apply Hrr, elem_of_retained. by exists j.
  - rewrite Hheld in ok_once0. by apply NoDup_app in ok_once0 as (? & _ & _).
  - rewrite ok_account0, Hrp, Hheld. solve_Permutation.
  - intros j Hj. apply Hu; [done|]. by apply ok_units0.
  - by intros x [-> Hq]%Hrun.
  - by rewrite Ep.
  - intros x i k E. destruct (Hready x i k E). done.
  - by rewrite Ep, Hp.
  - done.
  - rewrite Ef, <-ok_gone0. split; [done|]. intros E. unfold running in Hr. rewrite E in Hr.
    by apply elem_of_nil in Hr.
Qed.

(** The same with the request as it was but for its results. *)
Lemma worker_kept s es r d' at' :
  sys_ok s es -> running s = [r] -> kept r (dev s) d' ->
  running (mkSystem d' at' (begun s) (at_once s) (returned s)) = [r] ->
  (forall x i k, at' = WReady x i k -> x = r /\ 0 <= i < 8 /\ request_unit_index (reqs (dev s) r) = i) ->
  at' <> WWait -> at' <> WGone ->
  sys_ok (mkSystem d' at' (begun s) (at_once s) (returned s)) es.
Proof.
  intros H Hr K Hr' Hready Hw Hg. assert (r ∈ running s) as Hin by (rewrite Hr; left).
  destruct K. eapply (worker_change s es r d' at' []); try done.
  - intros j x Hj Hx. left. by rewrite <-kp_registered0.
  - by rewrite app_nil_r.
  - unfold held. cbn [dev]. rewrite Hr, Hr', (retained_eq _ _ kp_registered0). by rewrite app_nil_r.
  - intros x Hx. rewrite Hr' in Hx. apply list_elem_of_singleton in Hx as ->. split; [done|].
    unfold queueable. rewrite kp_quick0, kp_command0. by apply (ok_running _ _ H).
  - intros x i k E. destruct (Hready x i k E) as (-> & Hi & Hx). by rewrite kp_index0.
Qed.

(** The same with a reply. *)
Lemma worker_reply s es r d1 :
  sys_ok s es -> running s = [r] -> kept r (dev s) d1 ->
  sys_ok (mkSystem (reply_unless_quick r d1) WTop (begun s) (at_once s) (returned s)) es.
Proof.
  intros H Hr [] . assert (r ∈ running s) as Hin by (rewrite Hr; left).
  assert (Hq : quick (reqs (dev s) r) = false) by (by apply (ok_running _ _ H)).
  destruct (own_reply_unless r d1) as [Hc Hu Hq1].
  destruct (reply_unless_spec r d1) as [Hrp _]. unfold replies in Hrp. rewrite kp_quick0, Hq in Hrp.
  assert (Hreg : forall j, registered j (reply_unless_quick r d1) = registered j (dev s)).
  { intros j. unfold registered. rewrite Hu. apply kp_registered0. }
  eapply (worker_change s es r _ WTop [r]); try done.
  - congruence.
  - intros x Hx. rewrite Hq1, kp_reqs0; done.
  - intros j Hj Hok. rewrite Hu. auto.
  - intros j x Hj Hx. left. by rewrite <-Hreg.
  - congruence.
  - unfold held. cbn [dev]. rewrite Hr, (retained_eq _ _ Hreg). unfold running. cbn [at_]. solve_Permutation.
  - by intros x ?%elem_of_nil.
Qed.

(** Up to the switch. *)
Lemma run_ok s es r : sys_ok s es -> at_ s = WRun r -> sys_ok (run_step r s) es.
Proof.
  intros H E. unfold run_step. pose proof (unit_index_range (reqs (dev s) r)) as Hi0.
  set (i := request_unit_index (reqs (dev s) r)) in *.
  assert (Hr : running s = [r]) by (unfold running; by rewrite E).
  destruct (Z.geb_spec i FUJINET_DISK_UNIT_COUNT) as [Hi|Hi].
  - apply worker_reply; [done..|]. apply (calm_kept i), calm_error.
  - change FUJINET_DISK_UNIT_COUNT with 8 in Hi.
    apply (worker_kept s es r); try done; [apply (calm_kept i), prepare_calm|].
    intros x j k [= <- <- _]. split; [done|]. split; [lia|done].
Qed.

(** The switch. *)
Lemma execute_ok s es r i k : sys_ok s es -> at_ s = WReady r i k -> sys_ok (execute_step sv sizes r i k s) es.
Proof.
  intros H E. destruct (ok_ready _ _ H r i k E) as [Hi Hidx]. unfold execute_step.
  assert (Hr : running s = [r]) by (unfold running; by rewrite E).
  assert (Hin : r ∈ running s) by (rewrite Hr; left).
  pose proof (ok_running _ _ H r Hin) as Hq.
  destruct (decide (io_Command (reqs (dev s) r) = TD_ADDCHANGEINT)) as [Ha|Ha].
  2:{ destruct (execute_kept i r (dev s) ltac:(lia) Hq Ha) as (d2 & -> & K2). by apply (worker_kept s es r). }
  rewrite (execute_addchangeint i r (dev s) Ha). specialize (Hidx Ha).
  assert (Hr1 : r ∉ registered i (dev s)).
  { intros Hx. pose proof (ok_once _ _ H) as Hnd. unfold held in Hnd.
    apply NoDup_app in Hnd as (_ & _ & Hnd). apply NoDup_app in Hnd as (_ & Hd & _).
    apply (Hd r Hin), elem_of_retained. by exists i. }
  pose proof (addchangeint_spec i r (dev s) Hi Hr1) as Hs.
  destruct (cmd_addchangeint sv i r (dev s)) as [[|] d2]; cbn [negb fst snd]; [|by apply (worker_kept s es r)].
  destruct Hs as (K2 & Hreg & Hoth & Hok). destruct K2. cbn [units reqs replied set_units] in *.
  eapply (worker_change s es r d2 _ []); try done.
  - by intros j _ ?%Hok.
  - intros j x Hj Hx. destruct (decide (j = i)) as [->|Hne]; [|left; by rewrite <-Hoth].
    rewrite Hreg in Hx. apply elem_of_app in Hx as [|Hx]; [by left|]. apply list_elem_of_singleton in Hx as ->.
    right. split; [done|]. etransitivity; [exact kp_index0|done].
  - rewrite app_nil_r. exact kp_replied0.
  - unfold held. cbn [dev]. rewrite Hr. unfold running. cbn [at_].
    rewrite (retained_split i d2), (retained_split i (dev s)) by done.
    rewrite Hreg, (retained_except_eq i _ _ Hoth). solve_Permutation.
  - by intros x ?%elem_of_nil.
Qed.

(** Behind the switch, for a request that is answered ... *)
Lemma conclude_answer_ok s es r i k :
  sys_ok s es -> at_ s = WEnded r i k true -> sys_ok (conclude_step r i k true s) es.
Proof.
  intros H E. unfold conclude_step, conclude. apply worker_reply; [done|by unfold running; rewrite E|].
  eapply kept_trans; [apply (calm_kept i), trace_outcome_calm|apply (calm_kept i), trace_exchange_calm].
Qed.

(** ... and for one that is retained, and may be its client's again. *)
Lemma conclude_retained_ok s es r i k :
  sys_ok s es -> at_ s = WEnded r i k false -> sys_ok (conclude_step r i k false s) es.
Proof.
  intros H E. unfold conclude_step, conclude.
  pose proof (calm_kept i r _ _ (trace_outcome_calm table i r k (dev s))) as K.
  revert K. generalize (trace_outcome k r (dev s)). intros d1 [].
  set (d' := on_req r clear_quick d1).
  assert (Hx : forall x, request_unit_index (reqs d' x) = request_unit_index (reqs (dev s) x) /\
    io_Command (reqs d' x) = io_Command (reqs (dev s) x) /\
    (quick (reqs (dev s) x) = false -> quick (reqs d' x) = false)).
  { intros x. cbn. case_decide as Hd; [subst x|by rewrite kp_reqs0]. by rewrite quick_clear. }
  assert (Hp : io_processing (dev s) = true) by (apply (ok_busy _ _ H); unfold busy; by rewrite E).
  apply core_engine in kp_core0 as (Heng & Eq & En). unfold engine in Heng. injection Heng as Ep Ew Es Esig Ef.
  assert (Hret : retained d' = retained (dev s)) by (apply retained_eq; exact kp_registered0).
  assert (Hh : held (mkSystem d' WTop (begun s) (at_once s) (returned s)) es = held s es).
  { unfold held, running. cbn [dev at_]. by rewrite E, Hret. }
  destruct H. split; rewrite ?Hh; cbn [dev at_ begun at_once returned]; try done.
  - change (io_queue d') with (io_queue d1). change (nodes d') with (nodes d1). by rewrite Eq, En.
  - apply Forall_forall. intros e He. pose proof (proj1 (Forall_forall _ _) ok_entries0 e He) as (Hu & Hi & Hc & Hq & Hn).
    destruct (Hx (e_request e)) as (E1 & E2 & E3). unfold entry_ok, queueable. rewrite E1, E2.
    do 3 (split; [done|]). split; [by apply E3|done].
  - intros j x Hj Hin. destruct (Hx x) as (-> & _ & _). apply ok_retained0; [done|].
    by rewrite <-kp_registered0.
  - change (replied d') with (replied d1). by rewrite kp_replied0.
  - intros j Hj. by apply kp_units0, ok_units0.
  - by intros x ?%elem_of_nil.
  - change (io_processing d') with (io_processing d1). by rewrite Ep, Hp.
  - change (freed d') with (freed d1). rewrite Ef, <-ok_gone0, E. done.
Qed.

Lemma conclude_ok s es r i k answer :
  sys_ok s es -> at_ s = WEnded r i k answer -> sys_ok (conclude_step r i k answer s) es.
Proof. destruct answer; [apply conclude_answer_ok|apply conclude_retained_ok]. Qed.

(** The three steps are [device_process_request]. *)
Lemma process_steps s r : at_ s = WRun r ->
  rtc (sys_step sv sizes) s
    (mkSystem (device_process_request sv sizes r (dev s)) WTop (begun s) (at_once s) (returned s)).
Proof.
  intros E. eapply rtc_l; [by apply step_run|]. unfold run_step, device_process_request.
  destruct (_ >=? _); [apply rtc_refl|].
  destruct (prepare _ r (dev s)) as [k d1]. cbn [fst snd].
  eapply rtc_l; [by apply step_execute|]. unfold execute_step. cbn [dev begun at_once returned].
  destruct (execute _ _ _ r d1) as [a d2]. cbn [fst snd].
  eapply rtc_l; [by apply step_conclude|]. apply rtc_refl.
Qed.

Lemma steps_reachable s s' :
  rtc (sys_step sv sizes) s s' -> reachable sv table sizes s -> reachable sv table sizes s'.
Proof. induction 1; [done|]. intros Hr. by eauto using reachable_step. Qed.

(** ** Every reachable state *)

Lemma device_init_spec segments context sig (d d' : device W) :
  device_init table segments context sig true true d = Some d' ->
  (forall j, 0 <= j < 8 -> units d' j = (units d j |> set_change_requests []
     |> set_driver (fujinet_disk_driver_init (Some table) (world d, context j) j))) /\
  io_queue d' = mkQueue None None /\ nodes d' = nodes d /\ io_processing d' = io_processing d /\
  signalled d' = signalled d /\ replied d' = replied d /\ freed d' = freed d.
Proof.
  unfold device_init. set (d1 := set_io_queue _ _).
  destruct (for_units_each (fun i u => u |> set_change_requests []
     |> set_driver (fujinet_disk_driver_init (Some table) (world d1, context i) i)) d1) as (us & E & Hus).
  cbn beta in E. rewrite E. destruct (sig =? -1); [done|]. cbn [negb]. intros [= <-].
  split; [|done]. intros j Hj. cbn [units set_units set_worker set_worker_signal]. by rewrite Hus.
Qed.

Lemma disk_initial_ok s : initial table s -> exists es, sys_ok s es.
Proof.
  intros (segments & context & sig & mem & requests & w & k & Hinit & Hat & Hb & Ho & Hr).
  exists []. apply device_init_spec in Hinit as (Hu & Eq & En & Ep & Es & Erp & Ef).
  cbn [io_processing signalled replied freed nodes world units] in *.
  assert (Hreg : forall j, 0 <= j < 8 -> registered j (dev s) = []) by (intros j Hj; unfold registered; by rewrite Hu).
  assert (Hret : retained (dev s) = []).
  { destruct (retained (dev s)) as [|x l] eqn:E; [done|].
    assert (Hx : x ∈ retained (dev s)) by (rewrite E; left).
    apply elem_of_retained in Hx as (j & Hj & Hx). rewrite Hreg in Hx by done. by apply elem_of_nil in Hx. }
  split.
  - rewrite Eq, En. split; [apply NoDup_nil_2|]. done.
  - done.
  - intros j x Hj Hx. rewrite Hreg in Hx by done. by apply elem_of_nil in Hx.
  - unfold held, running. rewrite Hat, Hret. apply NoDup_nil_2.
  - unfold held, running. by rewrite Hat, Hret, Hb, Ho, Hr, Erp.
  - intros j Hj. unfold unit_ok. rewrite Hu by done. done.
  - intros x Hx. unfold running in Hx. rewrite Hat in Hx. by apply elem_of_nil in Hx.
  - unfold busy. by rewrite Hat.
  - rewrite Hat. done.
  - done.
  - by rewrite Ep.
  - rewrite Hat, Ef. done.
Qed.

Lemma step_ok s s' es : sys_ok s es -> sys_step sv sizes s s' -> exists es', sys_ok s' es'.
Proof.
  intros H. destruct 1.
  - exists es. by apply disk_prepare_ok.
  - exists es. by apply prepare_remove_ok.
  - by eapply disk_begin_ok.
  - by apply (disk_abort_ok s es).
  - exists es. by apply disk_open_ok.
  - by apply (disk_close_ok s es r).
  - by apply (expunge_ok s es).
  - exists es. by apply disk_wake_ok.
  - destruct (disk_take_ok s es) as (es' & H' & _); [done..|]. by exists es'.
  - exists es. by apply run_ok.
  - exists es. by apply execute_ok.
  - exists es. by apply conclude_ok.
Qed.

(** ... whole, from the worker's turn on. *)
Lemma process_ok s es r :
  sys_ok s es -> at_ s = WRun r ->
  sys_ok (mkSystem (device_process_request sv sizes r (dev s)) WTop (begun s) (at_once s) (returned s)) es.
Proof.
  intros H E. pose proof (run_ok s es r H E) as H1. unfold device_process_request. unfold run_step in H1.
  destruct (_ >=? _); [done|]. destruct (prepare _ r (dev s)) as [k d1]. cbn [fst snd] in H1.
  apply execute_ok with (r := r) (i := request_unit_index (reqs (dev s) r)) (k := k) in H1; [|done].
  unfold execute_step in H1. cbn [dev begun at_once returned] in H1.
  destruct (execute _ _ _ r d1) as [a d2]. cbn [fst snd] in H1.
  by apply conclude_ok with (r := r) (i := request_unit_index (reqs (dev s) r)) (k := k) (answer := a) in H1.
Qed.

Lemma disk_reachable_ok s : reachable sv table sizes s -> exists es, sys_ok s es.
Proof.
  induction 1 as [s Hi|s s' _ [es H] Hs]; [by apply disk_initial_ok|by eapply step_ok].
Qed.

(** C16: Every submission is somewhere, once.  The clients' calls (BeginIO,
    AbortIO, OpenDevice, CloseDevice, Expunge), each as a whole, and the
    worker's parts (taking a request, starting it, its switch, its end) come in
    any order, a client using TD_REMCHANGEINT only on a request that has been
    registered and not closing a request in the middle of its registration.
    In every state they lead to, the requests passed to BeginIO are, as a
    multiset, those replied to, those completed at once, those a client took
    back, and those the device holds; and the device holds no request twice:
    each is queued, in the worker's hands, or retained for change interrupts.
    So a request has come back to its client as often as it was submitted,
    once less exactly while it is held.  Not covered is what the code's missing
    Disable allows: the worker's switch or CloseDevice walking a list of change
    interrupts, or CloseDevice the queue, while another call changes it; nor a
    TD_REMCHANGEINT that overtakes its TD_ADDCHANGEINT, which is answered twice
    ([remove_races_registration] in DiskDeviceExample). *)
Theorem disk_device_accounts s :
  reachable sv table sizes s ->
  exists es, queue_of (io_queue (dev s), nodes (dev s)) es /\
    begun s ≡ₚ replied (dev s) ++ at_once s ++ returned s ++ held s es /\ NoDup (held s es) /\
    forall r, occurrences r (begun s) =
      (occurrences r (replied (dev s) ++ at_once s ++ returned s) +
       if decide (r ∈ held s es) then 1 else 0)%nat.
Proof.
  intros H. apply disk_reachable_ok in H as [es H]. exists es. destruct H. split_and!; try done.
  intros r. rewrite (occurrences_perm _ _ _ ok_account0), !app_assoc, occurrences_app. f_equal.
  by apply occurrences_nodup.
Qed.

(** In every reachable state a mounted unit holds a valid ADF of its own
    slot, not write-protected if the unit is writable, provided the client
    leaves the caller's structure alone when it refuses a mount. *)
Theorem mounted_media_valid s i :
  reachable sv table sizes s -> 0 <= i < 8 -> mounted (driver (units (dev s) i)) = true ->
  valid_media (media (driver (units (dev s) i))) (writable (driver (units (dev s) i))) (i + 1).
Proof. intros H Hi Hm. apply disk_reachable_ok in H as [es H]. by apply (ok_units _ _ H i Hi). Qed.

(** C17: The worker never sleeps on work: in every reachable state with a
    queued request that may run (its unit is not stopped, or it is CMD_START),
    a worker in Wait has its signal pending. *)
Theorem disk_worker_awake s :
  reachable sv table sizes s ->
  exists es, queue_of (io_queue (dev s), nodes (dev s)) es /\
    (at_ s = WWait -> Exists (fun e => can_run (dev s) e = true) es -> signalled (dev s) = true).
Proof.
  intros H. apply disk_reachable_ok in H as [es H]. exists es. split; [apply (ok_queue _ _ H)|].
  intros Hw He. apply (ok_awake _ _ H Hw). destruct (io_processing (dev s)) eqn:Ep; [done|].
  pose proof (ok_idle _ _ H Ep) as Hi. apply Exists_exists in He as (e & Hin & He).
  apply (proj1 (Forall_forall _ _) Hi) in Hin. congruence.
Qed.

Lemma drain_reaches fuel : forall s es,
  reachable sv table sizes s -> sys_ok s es -> at_ s = WTop -> (length es < fuel)%nat ->
  exists d' es', worker_drain sv sizes fuel (dev s) = Some d' /\
    reachable sv table sizes (mkSystem d' WWait (begun s) (at_once s) (returned s)) /\
    queue_of (io_queue d', nodes d') es' /\ Forall (fun e => can_run d' e = false) es' /\ sublist es' es.
Proof.
  induction fuel as [|fuel IH]; intros s es Hreach H E Hlen; [lia|]. cbn [worker_drain].
  pose proof (reachable_step sv table sizes _ _ Hreach (step_take sv sizes s E)) as Hnext.
  destruct (disk_take_ok s es H E) as (es1 & H1 & Hes).
  destruct (drain_take (dev s)) as [[r|] d1]; cbn [fst snd] in *.
  - destruct Hes as (a & e & b & -> & ->).
    set (s1 := mkSystem d1 (WRun r) (begun s) (at_once s) (returned s)) in *.
    pose proof (steps_reachable _ _ (process_steps s1 r eq_refl) Hnext) as Hnext2.
    pose proof (process_ok s1 _ r H1 eq_refl) as H2. cbn [dev begun at_once returned s1] in *.
    revert H2 Hnext2. generalize (device_process_request sv sizes r d1). intros d2 H2 Hnext2.
    destruct (IH _ _ Hnext2 H2 eq_refl) as (d' & es' & Hd & Hr & Hq & Hf & Hs).
    { rewrite length_app in *. cbn in Hlen. lia. }
    exists d', es'. split_and!; try done. etransitivity; [exact Hs|].
    apply sublist_app; [done|]. by apply sublist_cons.
  - destruct Hes as [-> Hf]. exists d1, es. split_and!; try done. apply (ok_queue _ _ H1).
Qed.

(** Draining.  A worker at the top of its loop, left to itself, comes to
    an end: with as many turns as there are queued requests, and one more,
    [worker_drain] returns; what it leaves in the queue is part of what was
    there, in the same order, and nothing of it may run: each is a request of
    a stopped unit, and not CMD_START. *)
Theorem disk_worker_drains s :
  reachable sv table sizes s -> at_ s = WTop ->
  exists es d' es', queue_of (io_queue (dev s), nodes (dev s)) es /\
    worker_drain sv sizes (S (length es)) (dev s) = Some d' /\
    queue_of (io_queue d', nodes d') es' /\ sublist es' es /\
    Forall (fun e => stopped (units d' (e_unit e)) = true /\ e_command e <> CMD_START) es'.
Proof.
  intros Hr E. destruct (disk_reachable_ok s Hr) as [es H].
  destruct (drain_reaches _ s es Hr H E (Nat.lt_succ_diag_r _)) as (d' & es' & Hd & Hr' & Hq & Hf & Hs).
  exists es, d', es'. split_and!; try done; [apply (ok_queue _ _ H)|].
  apply Forall_forall. intros e He. pose proof (proj1 (Forall_forall _ _) Hf e He) as Hc.
  assert (Hu : 0 <= e_unit e < 8).
  { assert (Hin : e ∈ es) by (by eapply elem_of_sublist).
    by apply (proj1 (Forall_forall _ _) (ok_entries _ _ H)) in Hin as [? _]. }
  unfold can_run, entry_runnable in Hc. change FUJINET_DISK_UNIT_COUNT with 8 in Hc.
  destruct (Z.ltb_spec (e_unit e) 8); [|lia]. cbn [andb] in Hc.
  rewrite !orb_false_iff in Hc. destruct Hc as [[Hst Hcs] _]. apply negb_false_iff in Hst. split.
  - by rewrite <-Hst, unit_stopped.
  - by apply Z.eqb_neq in Hcs.
Qed.

Lemma delexp_set f : Z.land (Z.lor f LIBF_DELEXP) LIBF_DELEXP =? 0 = false.
Proof.
  apply Z.eqb_neq. rewrite Z.land_lor_distr_l. intros H. by apply Z.lor_eq_0_iff in H as [_ ?].
Qed.

(** Expunge.  In every reachable state an expunge either removes the
    device or only marks it.  It removes it when, and only when, the device is
    closed, its queue is empty and no request is being processed; it then
    returns the segment list, the transport is closed, no registration is
    left and every unit's client is uninitialised. *)
Theorem disk_expunge_when_idle s :
  reachable sv table sizes s ->
  let '(segments, d') := device_expunge sv (dev s) in
  if (lib_OpenCnt (dev s) =? 0) && negb (bool_decide (is_Some (IoQueue.head (io_queue (dev s)))))
     && negb (io_processing (dev s))
  then segments = segment_list (dev s) /\ freed d' = true /\ transport_closed d' = true /\
    (exists es, queue_of (io_queue (dev s), nodes (dev s)) es /\ held s es = retained (dev s)) /\
    (forall i, 0 <= i < 8 -> registered i d' = [] /\ client_initialized (driver (units d' i)) = false)
  else segments = 0 /\ d' = set_lib_Flags (Z.lor (lib_Flags (dev s)) LIBF_DELEXP) (dev s).
Proof.
  intros Hr. destruct (disk_reachable_ok s Hr) as [es H]. unfold device_expunge, complete_pending_expunge.
  set (d0 := set_lib_Flags _ (dev s)).
  change (lib_Flags d0) with (Z.lor (lib_Flags (dev s)) LIBF_DELEXP). rewrite delexp_set. cbn [orb].
  change (lib_OpenCnt d0) with (lib_OpenCnt (dev s)). change (io_queue d0) with (io_queue (dev s)).
  change (io_processing d0) with (io_processing (dev s)).
  destruct (lib_OpenCnt (dev s) =? 0) eqn:Eo; cbn [negb orb andb]; [|done].
  destruct (bool_decide _) eqn:Eh; cbn [negb orb andb]; [done|].
  destruct (io_processing (dev s)) eqn:Ep; cbn [negb orb]; [done|].
  split; [done|]. destruct (teardown_fields d0) as (_ & _ & _ & _ & _ & -> & ->).
  split; [done|]. split; [done|]. split.
  - apply bool_decide_eq_false in Eh. exists es. split; [apply (ok_queue _ _ H)|].
    assert (Enil : es = []).
    { apply (queue_head_nil _ _ (ok_queue _ _ H)). cbn [fst]. destruct (IoQueue.head _); [by destruct Eh|done]. }
    rewrite Enil. unfold held. pose proof (ok_busy _ _ H) as Hb. unfold busy in Hb. unfold running.
    destruct (at_ s); try done; by specialize (Hb eq_refl); congruence.
  - intros i Hi. unfold registered. by rewrite teardown_units.
Qed.
End System.
