(* ===== verification/DiskCatalog.v ===== *)
(** * The mappings of fujinet-disk.device

    TD_EJECT and FUJINET_DISK_CMD_MOUNT_CATALOG change both a medium and the
    stored mapping of the unit, through an application store that is read
    and written back whole.  The two are shown to change together: a command
    that fails leaves the stored mappings as they were. *)

From S2P Require Import Prelude ExecIO FnLib DiskRetry DiskMedia DiskDriver IoQueue DiskDevice DiskDeviceProps.
From stdpp Require Import gmap.
#[local] Open Scope Z_scope.

Section Catalog.
Context `{L : FnLib, !FnLibOk L} {W : Type}.
Variable sv : services W.
Variable table : fujinet_disk_client_t (W * fujinet_nio_disk_context_t).
Variable cl : disk_client (W * fujinet_nio_disk_context_t).
Variable sizes : abi.
Hypothesis Htable : complete_client table = Some cl.
Variable mappings : W -> list Z.
Implicit Types (d : device W) (q : IOStdReq).

(** The application store as the device sees it: [mappings w] is what a
    successful read gives, the defaults when the stored bytes are missing or
    of another version.  A write replaces it, or fails and leaves either the
    old bytes or the new ones. *)
Class MappingStore : Prop := {
  ms_shape w : length (mappings w) = 17%nat /\ (mappings w).[0] = 1;
  ms_init w : mappings (fn_init sv w).1 = mappings w;
  ms_catalog w slot : mappings (fn_slot_catalog_get sv w slot).1.1 = mappings w;
  ms_read w :
    let '(w', result, buf, flags, n) := fn_appstore_read sv w fresh_mappings in
    mappings w' = mappings w /\
    (result = FN_OK ->
     mappings w = if (Z.land flags (FN_APPSTORE_READ_EXISTS sv) =? 0) || negb (n =? MAPPINGS_SIZE)
                     || negb (buf.[0] =? 1) then fresh_mappings else buf);
  ms_write w m :
    length m = 17%nat -> m.[0] = 1 ->
    let '(w', result, n) := fn_appstore_write sv w m in
    if (result =? FN_OK) && (n =? MAPPINGS_SIZE) then mappings w' = m
    else mappings w' = mappings w \/ mappings w' = m
}.

(** The store works: what a rollback relies on. *)
Definition reliable : Prop :=
  forall w, (fn_init sv w).2 = FN_OK /\
    forall m, let '(_, result, n) := fn_appstore_write sv w m in result = FN_OK /\ n = MAPPINGS_SIZE.

(** The disk client does not touch the store. *)
Definition same_mappings (c c' : W * fujinet_nio_disk_context_t) : Prop := mappings c'.1 = mappings c.1.
#[local] Instance same_mappings_preorder : PreOrder same_mappings.
Proof. split; [by intros ?|]. intros x y z H1 H2. unfold same_mappings in *. congruence. Qed.

Context {MS : MappingStore} {CR : ClientRespects same_mappings cl}.

Lemma load_spec d :
  let '(result, m, d') := load_mappings sv d in
  mappings (world d') = mappings (world d) /\ units d' = units d /\ reqs d' = reqs d /\
  (result = FN_OK -> m = mappings (world d)).
Proof.
  unfold load_mappings. pose proof (ms_init (world d)) as Hi. destruct (fn_init sv (world d)) as [w r].
  cbn [fst] in Hi. destruct (Z.eqb_spec r FN_OK) as [->|Hr]; cbn [negb]; [|done].
  pose proof (ms_read w) as Hrd. destruct (fn_appstore_read sv w fresh_mappings) as [[[[w' result] buf] flags] n].
  destruct Hrd as [H1 H2]. rewrite Hi in H1. destruct (Z.eqb_spec result FN_OK) as [->|Hr]; cbn [negb]; [|done].
  specialize (H2 eq_refl). destruct (_ || _); (split; [done|]; split; [done|]; split; [done|]; intros _; congruence).
Qed.

Lemma store_spec m d :
  length m = 17%nat -> m.[0] = 1 ->
  let '(result, d') := store_mappings sv m d in
  units d' = units d /\ reqs d' = reqs d /\
  (result = FN_OK -> mappings (world d') = m) /\
  (mappings (world d') = mappings (world d) \/ mappings (world d') = m) /\
  (reliable -> result = FN_OK).
Proof.
  intros Hl H0. unfold store_mappings. pose proof (ms_init (world d)) as Hi.
  assert (Hrel : reliable -> (fn_init sv (world d)).2 = FN_OK) by (intros Hr; apply Hr).
  destruct (fn_init sv (world d)) as [w r]. cbn [fst snd] in Hi, Hrel.
  destruct (Z.eqb_spec r FN_OK) as [->|Hr]; cbn [negb]; [|by split_and!; try done; left].
  pose proof (ms_write w m Hl H0) as Hw.
  assert (Hrel2 : reliable -> let '(_, result, n) := fn_appstore_write sv w m in result = FN_OK /\ n = MAPPINGS_SIZE)
    by (intros Hr; apply Hr).
  destruct (fn_appstore_write sv w m) as [[w' result] n]. pose proof fn_err_io_ok.
  destruct (Z.eqb_spec result FN_OK) as [Er|Hres]; [destruct (Z.eqb_spec n MAPPINGS_SIZE) as [En|Hn]|];
    cbn [negb orb andb] in *; split_and!; try done; cbn; try (rewrite <-Hi; tauto);
    try (intros Hr; by destruct (Hrel2 Hr)).
Qed.

(** What the mapping of unit [i] becomes. *)
Definition mapped (i flags slot : Z) (m : list Z) : list Z :=
  put_at (put_at m (1 + Z.to_nat (i * 2)) flags) (2 + Z.to_nat (i * 2)) slot.

Lemma mapped_shape i flags slot m :
  length m = 17%nat -> m.[0] = 1 -> length (mapped i flags slot m) = 17%nat /\ (mapped i flags slot m).[0] = 1.
Proof. intros Hl H0. unfold mapped. by rewrite !length_put_at, !byte_at_put_ne. Qed.

(** [remap] around an action that keeps the store. *)
Lemma remap_spec i flags slot action d :
  (forall d0, units d0 = units d -> reqs d0 = reqs d ->
     mappings (world (action d0).2) = mappings (world d0)) ->
  let '(result, d') := remap sv i flags slot action d in
  (result = FN_OK -> mappings (world d') = mapped i flags slot (mappings (world d)) /\
     exists d0, units d0 = units d /\ catalog_uri d0 = catalog_uri d /\ action d0 = (FN_OK, d')) /\
  (result <> FN_OK -> reliable -> mappings (world d') = mappings (world d)).
Proof.
  intros Ha. unfold remap. pose proof (load_spec d) as Hl.
  assert (Hcu : catalog_uri (load_mappings sv d).2 = catalog_uri d).
  { unfold load_mappings. destruct (fn_init _ _) as [w r]. destruct (negb _); [done|].
    destruct (fn_appstore_read _ _ _) as [[[[? ?] ?] ?] ?]. destruct (negb _); [done|]. by destruct (_ || _). }
  destruct (load_mappings sv d) as [[r1 m] d1]. cbn [snd] in Hcu. destruct Hl as (M1 & U1 & R1 & E1).
  destruct (Z.eqb_spec r1 FN_OK) as [->|Hr1]; cbn [negb]; [|by split]. specialize (E1 eq_refl). subst m.
  set (old := mappings (world d)) in *. destruct (ms_shape (world d)) as [Hlen Hz].
  destruct (mapped_shape i flags slot old Hlen Hz) as [Hlen' Hz']. unfold mapped in Hlen', Hz'.
  pose proof (store_spec _ d1 Hlen' Hz') as Hs.
  assert (Hcu2 : forall m d0, catalog_uri (store_mappings sv m d0).2 = catalog_uri d0).
  { intros m d0. unfold store_mappings. destruct (fn_init _ _) as [w r]. destruct (negb _); [done|].
    by destruct (fn_appstore_write _ _ _) as [[? ?] ?]. }
  pose proof (Hcu2 (put_at (put_at old (1 + Z.to_nat (i * 2)) flags) (2 + Z.to_nat (i * 2)) slot) d1) as Hcu3.
  destruct (store_mappings sv _ d1) as [r2 d2]. cbn [snd] in Hcu3. destruct Hs as (U2 & R2 & S2 & _ & _).
  assert (Hroll : forall d3, reliable -> mappings (world (store_mappings sv old d3).2) = old).
  { intros d3 Hrel. pose proof (store_spec old d3 Hlen Hz) as H3. destruct (store_mappings sv old d3) as [r3 d4].
    destruct H3 as (_ & _ & H3 & _ & H4). by apply H3, H4. }
  destruct (Z.eqb_spec r2 FN_OK) as [->|Hr2].
  - specialize (Ha d2 ltac:(congruence) ltac:(congruence)). specialize (S2 eq_refl).
    destruct (action d2) as [r3 d3] eqn:Eact. cbn [snd] in Ha.
    destruct (Z.eqb_spec r3 FN_OK) as [->|Hr3]; cbn [negb].
    + split; [|done]. intros _. split; [by rewrite Ha, S2|]. exists d2. split; [congruence|]. split; [congruence|done].
    + split; [done|]. intros _. apply Hroll.
  - cbn [negb]. apply Z.eqb_neq in Hr2 as Hr2'. rewrite Hr2'. cbn [negb]. split; [done|]. intros _. apply Hroll.
Qed.

Lemma driver_mappings {A : Type} i
    (f : fujinet_disk_driver_t (W * fujinet_nio_disk_context_t) ->
         A * fujinet_disk_driver_t (W * fujinet_nio_disk_context_t)) d :
  client (driver (units d i)) = Some table ->
  (forall drv, client drv = Some table -> context_moves same_mappings drv (f drv).2) ->
  mappings (world (with_driver i f d).2) = mappings (world d).
Proof.
  intros Hc Hf. destruct (with_driver_spec i f d) as (_ & _ & Hw & _). rewrite Hw.
  exact (proj2 (Hf (set_context _ _) Hc)).
Qed.

Lemma finish_change_spec i r result old d :
  let d' := finish_change i r result old d in
  world d' = world d /\ units d' = units d /\ io_Error (reqs d' r) = result_to_io_error result.
Proof.
  unfold finish_change. set (d1 := set_error r (result_to_io_error result) d).
  assert (E : world d1 = world d /\ units d1 = units d /\ io_Error (reqs d1 r) = result_to_io_error result).
  { split; [done|]. split; [done|]. unfold d1, set_error. by rewrite on_req_same. }
  clearbody d1. by destruct (negb _).
Qed.

(** Up to the switch the store and the unit's medium stay. *)
Lemma prepare_mappings i r d :
  client (driver (units d i)) = Some table ->
  mappings (world (prepare i r d).2) = mappings (world d).
Proof.
  intros Hc. unfold prepare. set (d0 := on_req r _ d).
  assert (E0 : units d0 = units d /\ world d0 = world d) by done. clearbody d0. destruct E0 as [Eu Ew].
  assert (Hm : mappings (world (with_driver i (fun drv => fujinet_disk_acknowledge_change drv i) d0).2) =
               mappings (world d0)).
  { apply driver_mappings; [by rewrite Eu|]. intros drv Hdrv. by apply (acknowledge_change_moves _ table cl). }
  set (d1 := (with_driver i _ d0).2) in *. clearbody d1.
  assert (E : world (trace_begin r d1).2 = world d1) by (unfold trace_begin; by destruct (_ && _)).
  by rewrite E, Hm, Ew.
Qed.

(** The two commands, on the prepared device. *)
Lemma eject_command i r d :
  client (driver (units d i)) = Some table ->
  let d' := cmd_eject sv i r d in
  (io_Error (reqs d' r) = 0 ->
     mappings (world d') = mapped i 0 0 (mappings (world d)) /\ mounted (driver (units d' i)) = false) /\
  (io_Error (reqs d' r) <> 0 -> reliable -> mappings (world d') = mappings (world d)).
Proof.
  intros Hc. unfold cmd_eject.
  pose proof (remap_spec i 0 0 (with_driver i (fun drv => fujinet_disk_eject drv i)) d) as H.
  lapply H; [clear H; intros H|clear H].
  2:{ intros d0 Eu _. apply driver_mappings; [by rewrite Eu|]. intros drv Hdrv. by apply (eject_moves _ table cl). }
  destruct (remap sv i 0 0 _ d) as [result d1].
  destruct (finish_change_spec i r result (change_count (driver (units d i))) d1) as (-> & -> & ->).
  rewrite result_zero. destruct H as [H1 H2].
  split; [|exact H2]. intros Hr. destruct (H1 Hr) as (Hm & d0 & _ & _ & Ha). split; [exact Hm|].
  destruct (with_driver_spec i (fun drv => fujinet_disk_eject drv i) d0) as (E1 & E2 & _ & _).
  rewrite Ha in E1, E2. cbn [fst snd] in E1, E2. rewrite E2.
  pose proof (eject_spec (set_context (world d0, (client_context (driver (units d0 i))).2) (driver (units d0 i))) i) as He.
  destruct (fujinet_disk_eject _ i) as [r2 drv2]. cbn [fst snd] in E1 |- *. subst r2. rewrite Z.eqb_refl in He. apply He.
Qed.

Lemma catalog_command i r d :
  0 <= i -> client (driver (units d i)) = Some table ->
  let q := reqs d r in let d' := cmd_mount_catalog sv sizes i r d in
  let wr := negb (m_writable (memory q) =? 0) in
  (io_Error (reqs d' r) = 0 ->
     mappings (world d') =
       mapped i (Z.lor 1 (if wr then 0 else 2)) (m_catalog_slot (memory q)) (mappings (world d)) /\
     mounted (driver (units d' i)) = true /\ writable (driver (units d' i)) = wr) /\
  (io_Error (reqs d' r) <> 0 -> reliable -> mappings (world d') = mappings (world d)).
Proof.
  intros Hi Hc q d' wr. unfold d', cmd_mount_catalog. fold q. destruct (_ || _) eqn:Eg.
  { unfold set_error. rewrite on_req_same. by split. }
  fold wr. pose proof (ms_catalog) as Hcat. clear d'.
  assert (Hres : mappings (world (resolve_catalog_slot sv d (m_catalog_slot (memory q)) URI_CAPACITY).1) =
                 mappings (world d) /\
                 units (resolve_catalog_slot sv d (m_catalog_slot (memory q)) URI_CAPACITY).1 = units d).
  { unfold resolve_catalog_slot. pose proof (ms_init (world d)) as Hin. destruct (fn_init sv (world d)) as [w r0].
    cbn [fst] in Hin. assert (Hw : mappings (if r0 =? FN_OK then fn_slot_catalog_get sv w (m_catalog_slot (memory q))
      else (w, r0, mkEntryOf 0 0 [])).1.1 = mappings w) by (destruct (r0 =? FN_OK); [apply Hcat|done]).
    destruct (if r0 =? FN_OK then _ else _) as [[w2 r2] e]. cbn [fst] in Hw.
    match goal with |- context [if ?b then _ else _] => destruct b end; cbn; (split; [congruence|done]). }
  destruct (resolve_catalog_slot sv d _ _) as [d1 r1]. cbn [fst] in Hres. destruct Hres as [Hm1 Hu1].
  assert (Hfail : forall res d2, res <> FN_OK -> mappings (world d2) = mappings (world d) ->
    let d3 := finish_change i r res (change_count (driver (units d i))) d2 in
    (io_Error (reqs d3 r) = 0 -> mappings (world d3) =
       mapped i (Z.lor 1 (if wr then 0 else 2)) (m_catalog_slot (memory q)) (mappings (world d)) /\
     mounted (driver (units d3 i)) = true /\ writable (driver (units d3 i)) = wr) /\
    (io_Error (reqs d3 r) <> 0 -> reliable -> mappings (world d3) = mappings (world d))).
  { intros res d2 Hr Hm d3. destruct (finish_change_spec i r res (change_count (driver (units d i))) d2) as (E1 & _ & E2).
    fold d3 in E1, E2. rewrite E1, E2.
    rewrite result_zero. by split. }
  destruct (Z.eqb_spec r1 FN_OK) as [->|Hr1]; [|by apply Hfail]. clear Hfail.
  match goal with |- context [remap sv i ?f ?s ?a d1] => pose proof (remap_spec i f s a d1) as H;
    lapply H; [clear H; intros H; destruct (remap sv i f s a d1) as [result d2]|clear H] end.
  2:{ intros d0 Eu _. apply driver_mappings; [by rewrite Eu, Hu1|]. intros drv Hdrv. by apply (mount_moves _ table cl). }
  destruct (finish_change_spec i r result (change_count (driver (units d i))) d2) as (-> & -> & ->).
  rewrite result_zero. destruct H as [H1 H2].
  rewrite Hm1 in H1, H2. split; [|exact H2]. intros Hr. destruct (H1 Hr) as (Hm & d0 & _ & _ & Ha).
  split; [exact Hm|]. clear H1 H2 Hm.
  match type of Ha with with_driver i ?f d0 = _ => destruct (with_driver_spec i f d0) as (E1 & E2 & _ & _) end.
  rewrite Ha in E1, E2. cbn [fst snd] in E1, E2. rewrite E2.
  match type of E1 with _ = (fujinet_disk_mount_mode ?drv i ?u wr).1 =>
    pose proof (mount_spec drv i u wr Hi) as He; destruct (fujinet_disk_mount_mode drv i u wr) as [r2 drv2] end.
  cbn [fst snd] in E1 |- *. subst r2. rewrite Z.eqb_refl in He. tauto.
Qed.

(** What the two commands ask the mapping of their unit to become. *)
Definition asked_flags q : Z :=
  if io_Command q =? TD_EJECT then 0 else Z.lor 1 (if m_writable (memory q) =? 0 then 2 else 0).
Definition asked_slot q : Z := if io_Command q =? TD_EJECT then 0 else m_catalog_slot (memory q).

Lemma process_catalog i r d :
  io_Unit (reqs d r) = Some i -> 0 <= i < 8 -> client (driver (units d i)) = Some table ->
  io_Command (reqs d r) = FUJINET_DISK_CMD_MOUNT_CATALOG \/ io_Command (reqs d r) = TD_EJECT ->
  exists d1 d2, reqs d1 r = (reqs d r |> set_io_Error 0 |> set_io_Actual 0) /\
    client (driver (units d1 i)) = Some table /\ mappings (world d1) = mappings (world d) /\
    d2 = (if io_Command (reqs d r) =? TD_EJECT then cmd_eject sv i r d1 else cmd_mount_catalog sv sizes i r d1) /\
    io_Error (reqs (device_process_request sv sizes r d) r) = io_Error (reqs d2 r) /\
    world (device_process_request sv sizes r d) = world d2 /\
    units (device_process_request sv sizes r d) = units d2.
Proof.
  intros Hu Hi Hc Hcmd. pose proof (prepare_mappings i r d Hc) as Hm.
  pose proof (prepare_request i r d) as Hq. destruct (prepare_driver_same table i r d) as [Hs _].
  destruct (prepare i r d) as [k d1] eqn:Ep. cbn [snd] in *.
  exists d1, (if io_Command (reqs d r) =? TD_EJECT then cmd_eject sv i r d1 else cmd_mount_catalog sv sizes i r d1).
  split; [exact Hq|]. split; [by rewrite (sd_client _ _ Hs)|]. split; [exact Hm|]. split; [reflexivity|].
  set (d2 := if io_Command (reqs d r) =? TD_EJECT then _ else _).
  assert (He : execute sv sizes i r d1 = (true, d2)).
  { unfold execute. rewrite Hq. change (io_Command _) with (io_Command (reqs d r)). unfold d2.
    by destruct Hcmd as [-> | ->]. }
  clearbody d2. pose proof (process_unit sv sizes i r d k d1 d2 Hu Hi Ep He) as Ed.
  destruct (conclude_outcome i r k d2) as (E1 & _ & _ & E4 & E5). rewrite <-Ed in E1, E4, E5. by split_and!.
Qed.

(** C18: Media and stored mappings change together.  A
    FUJINET_DISK_CMD_MOUNT_CATALOG or TD_EJECT request that reports no error
    has set the stored mapping of its unit, and no other, to what was asked
    (the slot and its mode, or nothing), and the unit is mounted, in that
    mode, or empty accordingly.  One that fails, for whatever reason, has left
    the stored mappings as they were, provided the store still takes writes. *)
Theorem catalog_mapping i r d :
  io_Unit (reqs d r) = Some i -> 0 <= i < 8 -> client (driver (units d i)) = Some table ->
  io_Command (reqs d r) = FUJINET_DISK_CMD_MOUNT_CATALOG \/ io_Command (reqs d r) = TD_EJECT ->
  let q := reqs d r in
  let d' := device_process_request sv sizes r d in
  (io_Error (reqs d' r) = 0 ->
     mappings (world d') = mapped i (asked_flags q) (asked_slot q) (mappings (world d)) /\
     mounted (driver (units d' i)) = negb (io_Command q =? TD_EJECT) /\
     (io_Command q <> TD_EJECT -> writable (driver (units d' i)) = negb (m_writable (memory q) =? 0))) /\
  (io_Error (reqs d' r) <> 0 -> reliable -> mappings (world d') = mappings (world d)).
Proof.
  intros Hu Hi Hc Hcmd q d'. destruct (process_catalog i r d Hu Hi Hc Hcmd) as (d1 & d2 & Hq & Hc1 & Hm & E2 & Ee & Ew & Eu).
  fold d' in Ee, Ew, Eu. rewrite Ee, Ew, Eu. clear Ee Ew Eu. clear d'.
  unfold asked_flags, asked_slot, q. destruct Hcmd as [Hcmd|Hcmd]; rewrite Hcmd in *.
  - change (FUJINET_DISK_CMD_MOUNT_CATALOG =? TD_EJECT) with false in *. cbv iota in *.
    pose proof (catalog_command i r d1 (proj1 Hi) Hc1) as H. cbv zeta in H. rewrite <-E2, Hq, Hm in H.
    change (memory (reqs d r |> set_io_Error 0 |> set_io_Actual 0)) with (memory (reqs d r)) in H.
    destruct H as [H1 H2]. split; [|exact H2]. intros He. destruct (H1 He) as (Ha & Hb & Hw).
    split; [|by split]. rewrite Ha. by destruct (m_writable (memory (reqs d r)) =? 0).
  - change (TD_EJECT =? TD_EJECT) with true in *. cbv iota in *.
    pose proof (eject_command i r d1 Hc1) as H. cbv zeta in H. rewrite <-E2, Hm in H.
    destruct H as [H1 H2]. split; [|exact H2]. intros He. destruct (H1 He) as (Ha & Hb).
    split; [exact Ha|]. split; [exact Hb|done].
Qed.
End Catalog.
