(* ===== verification/DiskDeviceExample.v ===== *)
(** * fujinet-disk.device over a server in memory

    A world of disk blocks, a slot catalogue and an application store that
    satisfies every interface the device's theorems assume, a run of the
    device on it, and the theorems at the states of this run. *)

From S2P Require Import Prelude ExecIO FnLib DiskRetry DiskMedia DiskDriver IoQueue DiskDevice DiskDeviceProps DiskDeviceSystem DiskCatalog.
From stdpp Require Import gmap.
#[local] Open Scope Z_scope.

#[local] Existing Instance fn_lib_nio.

(** The blocks and the stored bytes. *)
Definition server : Type := mem * list Z.
Definition seat : Type := server * fujinet_nio_disk_context_t.
Definition blank_context : fujinet_nio_disk_context_t := mkContext diag_zero (zeros 3) (zeros 3) (zeros 3).

(** [mem_client] in a larger world. *)
Definition on_mem (m : mem) (c : seat) : seat := ((m, c.1.2), c.2).
Definition lift_client (cl : disk_client mem) : disk_client seat := {|
  dc_init c := let '(m, r) := dc_init cl c.1.1 in (on_mem m c, r);
  dc_mount c slot uri ro type hint info :=
    let '(m, r, i) := dc_mount cl c.1.1 slot uri ro type hint info in (on_mem m c, r, i);
  dc_restore_boot c slot info :=
    let '(m, r, i) := dc_restore_boot cl c.1.1 slot info in (on_mem m c, r, i);
  dc_info c slot info := let '(m, r, i) := dc_info cl c.1.1 slot info in (on_mem m c, r, i);
  dc_read_sector c slot lba cap :=
    let '(m, r, b, n) := dc_read_sector cl c.1.1 slot lba cap in (on_mem m c, r, b, n);
  dc_write_sector c slot lba b := let '(m, r) := dc_write_sector cl c.1.1 slot lba b in (on_mem m c, r);
  dc_flush c slot := let '(m, r) := dc_flush cl c.1.1 slot in (on_mem m c, r);
  dc_unmount c slot := let '(m, r) := dc_unmount cl c.1.1 slot in (on_mem m c, r);
  dc_clear_changed c slot := let '(m, r) := dc_clear_changed cl c.1.1 slot in (on_mem m c, r)
|}.
Definition seat_client : disk_client seat := lift_client mem_client.

Definition seat_table : fujinet_disk_client_t seat := {|
  cl_init := Some (dc_init seat_client);
  cl_mount := Some (dc_mount seat_client);
  cl_restore_boot := Some (dc_restore_boot seat_client);
  cl_info := Some (dc_info seat_client);
  cl_read_sector := Some (dc_read_sector seat_client);
  cl_write_sector := Some (dc_write_sector seat_client);
  cl_flush := Some (dc_flush seat_client);
  cl_unmount := Some (dc_unmount seat_client);
  cl_clear_changed := Some (dc_clear_changed seat_client);
  cl_inspect := None
|}.
Lemma seat_table_complete : complete_client seat_table = Some seat_client.
Proof. reflexivity. Qed.

Definition server_blocks (w : server) : Z -> Z -> list Z := mem_blocks w.1.

#[export] Instance seat_block_store : BlockStore seat_client (fun c => server_blocks c.1).
Proof.
  pose proof mem_block_store as [Hl Hi Hc Hr Hw]. split.
  - intros c. apply Hl.
  - intros c. apply Hi.
  - intros c. apply Hc.
  - intros c slot lba cap Hcap. exact (Hr c.1.1 slot lba cap Hcap).
  - intros c slot lba b. exact (Hw c.1.1 slot lba b).
Qed.

#[export] Instance seat_media_client : MediaClient seat_client.
Proof. split; intros; cbn; intros H; by destruct H. Qed.

(** The catalogue has one image name at every slot; the store keeps 17
    bytes, those of a fresh store when it holds others. *)
Definition stored (w : server) : list Z :=
  if (length w.2 =? 17)%nat && (w.2.[0] =? 1) then w.2 else fresh_mappings.
Definition memory_services : services server := {|
  fn_init w := (w, 0);
  fn_slot_catalog_get w slot := (w, 0, mkEntryOf 1 1 [104]);
  fn_appstore_read w buf := (w, 0, stored w, 1, 17);
  fn_appstore_write w m := ((w.1, m), 0, 17);
  fn_transport_close w := w;
  alloc_registration w := (w, true);
  FN_SLOT_CATALOG_ENTRY_VALID := 1;
  FN_APPSTORE_READ_EXISTS := 1
|}.

#[export] Instance memory_store : MappingStore memory_services stored.
Proof.
  split; try done.
  - intros w. unfold stored. destruct (_ && _) eqn:E; [|done].
    apply andb_prop in E as [E1%Nat.eqb_eq E2%Z.eqb_eq]. done.
  - intros w. cbn. split; [done|]. intros _. unfold stored. destruct (_ && _) eqn:E; [|done].
    apply andb_prop in E as [_ E2]. by rewrite E2.
  - intros w m Hl H0. cbn [fn_appstore_write memory_services].
    assert (E : stored (w.1, m) = m) by (unfold stored; cbn [snd]; by rewrite Hl, H0). by rewrite E.
Qed.

#[export] Instance seat_keeps_mappings : ClientRespects (same_mappings stored) seat_client.
Proof. split; intros; reflexivity. Qed.

Lemma memory_reliable : reliable memory_services.
Proof. by intros w. Qed.

(** ** A run: a mount is submitted, the worker wakes, takes it and does it *)

Definition example_sizes : abi := mkAbi 6 514 2308 48 16.
Definition no_geometry : DriveGeometry := mkGeometry 0 0 0 0 0 0 0 0 0.
Definition memory_of (bytes : list Z) (wr : Z) : client_memory :=
  mkMemory bytes 3 wr [] no_trace no_geometry (mkQuery 0 0 0 0 []).
(** A request of unit 0 with a buffer of [bytes]. *)
Definition request_of (command flags length offset : Z) (bytes : list Z) : IOStdReq :=
  mkIO NT_MESSAGE true (Some 0) command flags 0 0 length 4096 offset 0 0 (memory_of bytes 1).

Definition blank_base : device server :=
  mkDevice 0 0 0
    (fun _ => mkUnit (fujinet_disk_driver_init None ((fun _ _ => [7], []), blank_context) 0) false [] 0)
    (zeros (Z.to_nat URI_CAPACITY)) (zeros (Z.to_nat URI_CAPACITY)) (mkQueue None None) false false false 0 false
    no_trace ∅ (fun _ => request_of 0 0 0 0 []) (fun _ _ => [7], []) [] [] false.
Definition device0 : device server :=
  default blank_base (device_init seat_table 1 (fun _ => blank_context) 5 true true blank_base).
Definition state0 : system server := mkSystem device0 WWait [] [] [].
Abbreviation example_reachable := (reachable memory_services seat_table example_sizes).
Abbreviation example_step := (sys_step memory_services example_sizes).

Definition mount_request : IOStdReq := request_of FUJINET_DISK_CMD_MOUNT_CATALOG 0 6 0 [].
Definition state1 : system server := with_dev (on_req 1 (fun _ => mount_request) (dev state0)) state0.
Definition state2 : system server := begin_step 1 (Some 1%positive) state1.
Definition state3 : system server := mkSystem (set_signalled false (dev state2)) WTop [1] [] [].
Definition state4 : system server :=
  mkSystem (drain_take (dev state3)).2
    (match (drain_take (dev state3)).1 with Some r => WRun r | None => WWait end)
    (begun state3) (at_once state3) (returned state3).
Definition state5 : system server :=
  mkSystem (device_process_request memory_services example_sizes 1 (dev state4)) WTop
    (begun state4) (at_once state4) (returned state4).

Lemma reach0 : example_reachable state0.
Proof.
  apply reachable_init. exists 1, (fun _ => blank_context), 5, ∅, (fun _ => request_of 0 0 0 0 []), (fun _ _ => [7], []), blank_context.
  split_and!; reflexivity.
Qed.
Lemma reach2 : example_reachable state2.
Proof.
  eapply reachable_step; [eapply reachable_step; [exact reach0|apply (step_prepare _ _ state0 1)]|apply step_begin].
  - reflexivity.
  - reflexivity.
  - left. reflexivity.
  - intros p _. reflexivity.
Qed.
Lemma reach3 : example_reachable state3.
Proof. eapply reachable_step; [exact reach2|]. by apply (step_wake _ _ state2). Qed.
Lemma reach5 : example_reachable state5.
Proof.
  eapply steps_reachable; [|eapply reachable_step; [exact reach3|by apply step_take]].
  apply (process_steps memory_services example_sizes state4). vm_compute. reflexivity.
Qed.

(** ** The theorems on the run *)

Lemma disk_device_accounts_witness :
  example_reachable state5 /\
  exists es, queue_of (io_queue (dev state5), nodes (dev state5)) es /\
    begun state5 ≡ₚ replied (dev state5) ++ at_once state5 ++ returned state5 ++ held state5 es /\
    NoDup (held state5 es) /\
    forall r, occurrences r (begun state5) =
      (occurrences r (replied (dev state5) ++ at_once state5 ++ returned state5) +
       if decide (r ∈ held state5 es) then 1 else 0)%nat.
Proof.
  split; [exact reach5|].
  exact (disk_device_accounts memory_services seat_table seat_client example_sizes seat_table_complete
    state5 reach5).
Defined.

Lemma mounted_media_valid_witness :
  mounted (driver (units (dev state5) 0)) = true /\
  valid_media (media (driver (units (dev state5) 0))) (writable (driver (units (dev state5) 0))) 1.
Proof.
  split; [vm_compute; reflexivity|].
  apply (mounted_media_valid memory_services seat_table seat_client example_sizes seat_table_complete
    state5 0 reach5); [lia|vm_compute; reflexivity].
Defined.

Lemma disk_worker_awake_witness :
  example_reachable state2 /\ is_Some (IoQueue.head (io_queue (dev state2))) /\
  exists es, queue_of (io_queue (dev state2), nodes (dev state2)) es /\
    (at_ state2 = WWait -> Exists (fun e => can_run (dev state2) e = true) es -> signalled (dev state2) = true).
Proof.
  split; [exact reach2|]. split; [by eexists|].
  exact (disk_worker_awake memory_services seat_table seat_client example_sizes seat_table_complete
    state2 reach2).
Defined.

Lemma disk_worker_drains_witness :
  example_reachable state3 /\ is_Some (IoQueue.head (io_queue (dev state3))) /\
  exists es d' es', queue_of (io_queue (dev state3), nodes (dev state3)) es /\
    worker_drain memory_services example_sizes (S (length es)) (dev state3) = Some d' /\
    queue_of (io_queue d', nodes d') es' /\ sublist es' es /\
    Forall (fun e => stopped (units d' (e_unit e)) = true /\ e_command e <> CMD_START) es'.
Proof.
  split; [exact reach3|]. split; [by eexists|].
  apply (disk_worker_drains memory_services seat_table seat_client example_sizes seat_table_complete
    state3 reach3). reflexivity.
Defined.

Lemma disk_expunge_when_idle_witness :
  example_reachable state0 /\ freed (device_expunge memory_services (dev state0)).2 = true.
Proof.
  split; [exact reach0|].
  pose proof (disk_expunge_when_idle memory_services seat_table seat_client example_sizes
    seat_table_complete state0 reach0) as H.
  destruct (device_expunge memory_services (dev state0)) as [segments d'].
  assert (E : (lib_OpenCnt (dev state0) =? 0) && negb (bool_decide (is_Some (IoQueue.head (io_queue (dev state0)))))
     && negb (io_processing (dev state0)) = true) by (vm_compute; reflexivity).
  rewrite E in H. apply H.
Defined.

(** Requests of unit 0 once its disk is in. *)
Definition asking (q : IOStdReq) : device server := on_req 2 (fun _ => q) (dev state5).
Lemma asking_unit q : io_Unit (reqs (asking q) 2) = io_Unit q.
Proof. reflexivity. Qed.
Lemma asking_request q : reqs (asking q) 2 = q.
Proof. unfold asking. generalize (dev state5). by intros []. Qed.
Lemma asking_units q : units (asking q) = units (dev state5).
Proof. unfold asking. generalize (dev state5). by intros []. Qed.
Lemma asking_ok q : unit_ok seat_table 0 (units (asking q) 0).
Proof.
  rewrite asking_units.
  destruct (disk_reachable_ok memory_services seat_table seat_client example_sizes seat_table_complete state5 reach5)
    as [es H].
  exact (ok_units _ _ _ H 0 ltac:(lia)).
Qed.

Abbreviation processed q := (device_process_request memory_services example_sizes 2 (asking q)).

Definition read_request : IOStdReq := request_of CMD_READ 0 1024 512 (zeros 1024).
Lemma disk_read_request_witness :
  transfer_check false ETD_READ (units (asking read_request) 0) (reqs (asking read_request) 2) = None /\
  exists k, io_Actual (reqs (processed read_request) 2) = 512 * Z.of_nat k /\
    take (512 * k) (m_bytes (memory (reqs (processed read_request) 2))) =
    blocks_at server_blocks (world (asking read_request)) 1 1 k.
Proof.
  assert (E : transfer_check false ETD_READ (units (asking read_request) 0) (reqs (asking read_request) 2) = None)
    by (vm_compute; reflexivity).
  split; [exact E|].
  pose proof (disk_read_request memory_services seat_table seat_client example_sizes seat_table_complete
    server_blocks 0 2 (asking read_request) eq_refl ltac:(lia) (asking_ok read_request)
    ltac:(split; vm_compute; [discriminate|reflexivity]) ltac:(split; vm_compute; [discriminate|reflexivity])
    ltac:(vm_compute; discriminate)
    (or_introl eq_refl)) as H.
  cbv zeta in H. rewrite E in H. destruct H as (_ & k & Ha & _ & _ & Ht & _). exists k. split; [exact Ha|exact Ht].
Defined.

Definition write_request : IOStdReq := request_of CMD_WRITE 0 512 1024 (replicate 512 9).
Lemma disk_write_request_witness :
  transfer_check true ETD_WRITE (units (asking write_request) 0) (reqs (asking write_request) 2) = None /\
  memory (reqs (processed write_request) 2) = memory write_request.
Proof.
  split; [vm_compute; reflexivity|].
  pose proof (disk_write_request memory_services seat_table seat_client example_sizes seat_table_complete
    server_blocks 0 2 (asking write_request) eq_refl ltac:(lia) (asking_ok write_request)
    ltac:(split; vm_compute; [discriminate|reflexivity]) ltac:(split; vm_compute; [discriminate|reflexivity])
    ltac:(vm_compute; discriminate)
    (or_introl eq_refl)) as H.
  cbv zeta in H. destruct H as [H _]. rewrite asking_request in H. exact H.
Defined.

Definition eject_request : IOStdReq := request_of TD_EJECT 0 0 0 [].
Lemma media_change_notified_witness :
  count_of 0 (processed eject_request) <> count_of 0 (asking eject_request) /\
  caused (processed eject_request) = caused (asking eject_request) ++ change_interrupts (units (asking eject_request) 0).
Proof.
  assert (E : (count_of 0 (processed eject_request) =? count_of 0 (asking eject_request)) = false)
    by (vm_compute; reflexivity).
  split; [by apply Z.eqb_neq|].
  pose proof (media_change_notified memory_services seat_table seat_client example_sizes seat_table_complete
    0 2 (asking eject_request) eq_refl ltac:(lia) ltac:(refine (bool_decide_unpack _ _); vm_compute; exact I)) as H.
  cbv zeta in H.  rewrite E in H. exact (proj1 H).
Defined.

Definition status_request : IOStdReq := request_of TD_CHANGENUM IOF_QUICK 0 0 [].
Definition idle_device : device server := set_io_processing false (asking status_request).
Lemma status_fast_path_witness :
  io_processing idle_device = false /\
  io_Actual (reqs (device_begin_io 2 None idle_device) 2) =
  io_Actual (reqs (device_process_request memory_services example_sizes 2 idle_device) 2).
Proof.
  split; [reflexivity|].
  pose proof (status_fast_path memory_services seat_table example_sizes 0 2 None idle_device
    eq_refl ltac:(lia) eq_refl ltac:(refine (bool_decide_unpack _ _); vm_compute; exact I)) as H.
  cbv zeta in H. exact (proj1 H).
Defined.

Lemma catalog_mapping_witness :
  io_Error (reqs (processed eject_request) 2) = 0 /\
  stored (world (processed eject_request)) = mapped 0 0 0 (stored (world (asking eject_request))).
Proof.
  assert (E : io_Error (reqs (processed eject_request) 2) = 0) by (vm_compute; reflexivity).
  split; [exact E|].
  pose proof (catalog_mapping memory_services seat_table seat_client example_sizes seat_table_complete
    stored 0 2 (asking eject_request) eq_refl ltac:(lia) (proj1 (asking_ok eject_request))
    (or_intror eq_refl)) as H.
  cbv zeta in H.  destruct H as [H _]. exact (proj1 (H E)).
Defined.

(** A client adds a change interrupt and takes it back with the same request,
    without waiting for the worker in between. *)
Definition add_request : IOStdReq := request_of TD_ADDCHANGEINT 0 22 0 [].
Definition adding : device server :=
  device_begin_io 1 (Some 1%positive) (on_req 1 (fun _ => add_request) device0).
Definition taken_back : device server :=
  device_begin_io 1 None (on_req 1 (set_io_Command TD_REMCHANGEINT) adding).
Definition processed_again : device server :=
  device_process_request memory_services example_sizes 1 (drain_take taken_back).2.

(** A removal races with its registration: TD_REMCHANGEINT is carried
    out by BeginIO while the TD_ADDCHANGEINT it is to undo still waits in the
    FIFO.  The client gets its request back, yet it stays queued; the worker
    takes it, processes it as what it says by then, and answers it a second
    time. *)
Theorem remove_races_registration :
  replied taken_back = [1] /\ (drain_take taken_back).1 = Some 1 /\ replied processed_again = [1; 1].
Proof. vm_compute. repeat split. Qed.
