(* ===== verification/NioBackend.v ===== *)
(** * The backend interface of nio.device (amiga/include/fujinet_nio_backend.h)

    The operations that nio.device calls on its backend and the details it
    reports. *)

From S2P Require Import Prelude.

Definition FUJINET_NIO_DETAIL_NONE : Z := 0.
Definition FUJINET_NIO_DETAIL_BACKEND_OPEN : Z := 1.
Definition FUJINET_NIO_DETAIL_SERIAL_IO : Z := 2.
Definition FUJINET_NIO_DETAIL_SESSION_IO : Z := 3.
Definition FUJINET_NIO_DETAIL_TIMEOUT : Z := 4.
Definition FUJINET_NIO_DETAIL_SERIAL_WRITE : Z := 5.
Definition FUJINET_NIO_DETAIL_SERIAL_QUERY : Z := 6.
Definition FUJINET_NIO_DETAIL_SERIAL_READ : Z := 7.
Definition FUJINET_NIO_DETAIL_TIMER_WAIT : Z := 8.

(** The backend's functions on its own state [B].  [exchange] gives the
    result, the response buffer and [*response_len]; [get_serial] the unit
    and the contents of [name]. *)
Record backend_ops (B : Type) := mkBackendOps {
  backend_open_fn : option (B -> B * Z);
  backend_close_fn : option (B -> B);
  backend_exchange_fn :
    option (B -> option (list Z) -> Z -> option (list Z) -> Z -> B * Z * option (list Z) * Z);
  backend_diagnostics : B -> Z * Z * Z;
  backend_set_baud_fn : option (B -> Z -> B * Z);
  backend_get_baud_fn : option (B -> Z);
  backend_set_serial_fn : option (B -> Z -> list Z -> B * Z);
  backend_get_serial_fn : option (B -> Z -> Z * list Z)
}.
#[global] Arguments mkBackendOps {B}.
#[global] Arguments backend_open_fn {B}.
#[global] Arguments backend_close_fn {B}.
#[global] Arguments backend_exchange_fn {B}.
#[global] Arguments backend_diagnostics {B}.
#[global] Arguments backend_set_baud_fn {B}.
#[global] Arguments backend_get_baud_fn {B}.
#[global] Arguments backend_set_serial_fn {B}.
#[global] Arguments backend_get_serial_fn {B}.
