(* ===== verification/SerialBackend.v ===== *)
(** * The serial backend (amiga/nio.device/fujinet_nio_serial_backend.c)

    Exchanges over a serial.device: two exec requests, serial and timer, of
    which each is this task's, with its device, or replied and not yet waited
    for.  The devices are a parameter; what exec forbids (to send a request
    that is not ours, to free one that is out, to wait for one that was never
    sent) sets [misuse].  The library's session is a program over the channel
    operations defined here. *)

From S2P Require Import Prelude Effects ExecIO FnLib SerialConfig NioBackend.

Definition TR_ADDREQUEST : Z := CMD_NONSTD.

Definition FN_SERIAL_BACKEND_BAUD : Z := 19200.
(** "serial.device" and "fujinet-serial.device". *)
Definition FN_SERIAL_BACKEND_DEVICE : list Z :=
  [115; 101; 114; 105; 97; 108; 46; 100; 101; 118; 105; 99; 101].
Definition FUJINET_SERIAL_DEVICE_NAME : list Z :=
  [102; 117; 106; 105; 110; 101; 116; 45] ++ FN_SERIAL_BACKEND_DEVICE.
Definition FN_SERIAL_BACKEND_UNIT : Z := 0.
Definition FN_SERIAL_BACKEND_POLL_MS : Z := 1.
Definition FN_SERIAL_BACKEND_TIMEOUT_MS : Z := 5000.
Definition FN_SERIAL_BACKEND_WIRE_BUF_SIZE `{FnLib} : Z := FN_MAX_PACKET_SIZE * 2 + 2.
Definition FN_SERIAL_BACKEND_RBUF_SIZE `{FnLib} : Z := (FN_SERIAL_BACKEND_WIRE_BUF_SIZE + 63) / 64 * 64.
Definition READ_BUF_SIZE : Z := 128.
Definition DEBUG_PEEK_MAX : Z := 32.
Definition DIAG_LEFTOVER_MAX : Z := 128.

(** ** Requests *)

(** [struct IOExtSer], without [io_Device], which [link] keeps; [io_Data] is
    the memory it points to. *)
Record IOExtSer := mkExtSer {
  io_Command : Z;
  io_Data : option (list Z);
  io_Length : Z;
  io_Actual : Z;
  io_Error : Z;
  io_Status : Z;
  io_Baud : Z;
  io_ReadLen : Z;
  io_WriteLen : Z;
  io_StopBits : Z;
  io_RBufLen : Z;
  io_SerFlags : Z;
  io_ExtFlags : Z;
  io_CtlChar : Z
}.

Record timerequest := mkTimer { tr_Command : Z; tv_secs : Z; tv_micro : Z; tr_Error : Z }.

(** The stores that prepare a command. *)
Definition ask (command : Z) (data : option (list Z)) (length : Z) (q : IOExtSer) : IOExtSer :=
  mkExtSer command data length (io_Actual q) (io_Error q) (io_Status q) (io_Baud q) (io_ReadLen q)
    (io_WriteLen q) (io_StopBits q) (io_RBufLen q) (io_SerFlags q) (io_ExtFlags q) (io_CtlChar q).
Definition set_io_Actual (actual : Z) (q : IOExtSer) : IOExtSer :=
  mkExtSer (io_Command q) (io_Data q) (io_Length q) actual (io_Error q) (io_Status q) (io_Baud q)
    (io_ReadLen q) (io_WriteLen q) (io_StopBits q) (io_RBufLen q) (io_SerFlags q) (io_ExtFlags q)
    (io_CtlChar q).
Definition set_io_Command (command : Z) (q : IOExtSer) : IOExtSer := ask command (io_Data q) (io_Length q) q.

Definition ext_ser_zero : IOExtSer := mkExtSer 0 None 0 0 0 0 0 0 0 0 0 0 0 0.
Definition timer_zero : timerequest := mkTimer 0 0 0 0.

(** ** The devices

    [do_] completes a request whose DoIO was just called; its last result
    tells whether the reply was there before exec looked for it, so that the
    signal of the port stays set.  An outstanding request completes, or not,
    whenever [serial_done] and [timer_done] are asked; [sleep] lets time pass
    until one of the two has completed; an aborted request completes. *)
Record exec_env (E : Type) := mkEnv {
  CreatePort : E -> E * bool;
  CreateExtIO : E -> E * bool;
  DeletePort : E -> E;
  DeleteExtIO : E -> E;
  OpenSerial : E -> list Z -> Z -> IOExtSer -> E * IOExtSer * Z;
  OpenTimer : E -> timerequest -> E * timerequest * Z;
  CloseSerial : E -> E;
  CloseTimer : E -> E;
  do_serial : E -> IOExtSer -> E * IOExtSer * bool;
  do_timer : E -> timerequest -> E * Z * bool;
  send_serial : E -> IOExtSer -> E;
  send_timer : E -> timerequest -> E;
  sleep : E -> IOExtSer -> E * option IOExtSer * bool;
  serial_done : E -> IOExtSer -> E * option IOExtSer;
  timer_done : E -> E * bool;
  serial_aborted : E -> IOExtSer -> E * IOExtSer * bool;
  timer_aborted : E -> E * bool;
  timer_expired : E -> E * bool
}.
#[global] Arguments mkEnv {E}.
#[global] Arguments CreatePort {E}.
#[global] Arguments CreateExtIO {E}.
#[global] Arguments DeletePort {E}.
#[global] Arguments DeleteExtIO {E}.
#[global] Arguments OpenSerial {E}.
#[global] Arguments OpenTimer {E}.
#[global] Arguments CloseSerial {E}.
#[global] Arguments CloseTimer {E}.
#[global] Arguments do_serial {E}.
#[global] Arguments do_timer {E}.
#[global] Arguments send_serial {E}.
#[global] Arguments send_timer {E}.
#[global] Arguments sleep {E}.
#[global] Arguments serial_done {E}.
#[global] Arguments timer_done {E}.
#[global] Arguments serial_aborted {E}.
#[global] Arguments timer_aborted {E}.
#[global] Arguments timer_expired {E}.

(** A request is ours, with its device, or replied and still on its port. *)
Inductive whereabouts := Ours | Out | Back.
#[export] Instance whereabouts_eq_dec : EqDecision whereabouts.
Proof. solve_decision. Defined.

(** The two requests and their ports as exec sees them. *)
Record exec_state (E : Type) := mkExec {
  outside : E;
  serial_at : whereabouts;
  timer_at : whereabouts;
  serial_signal : bool;
  timer_signal : bool;
  misuse : bool
}.
#[global] Arguments mkExec {E}.
#[global] Arguments outside {E}.
#[global] Arguments serial_at {E}.
#[global] Arguments timer_at {E}.
#[global] Arguments serial_signal {E}.
#[global] Arguments timer_signal {E}.
#[global] Arguments misuse {E}.

(** ** The statics, in groups *)

(** Ports and requests; a request is there unless its pointer is null, and
    [_device] is its [io_Device]. *)
Record link_t := mkLink {
  serial_port : bool;
  serial_req : option IOExtSer;
  serial_device : bool;
  serial_open : bool;
  timer_port : bool;
  timer_req : option timerequest;
  timer_device : bool;
  timer_open : bool
}.

#[export] Instance eta_link : Eta link_t := fun l =>
  mkLink (serial_port l) (serial_req l) (serial_device l) (serial_open l) (timer_port l) (timer_req l)
    (timer_device l) (timer_open l).
Definition set_serial_port : bool -> link_t -> link_t := ltac:(derive_setter serial_port).
Definition set_serial_req : option IOExtSer -> link_t -> link_t := ltac:(derive_setter serial_req).
Definition set_serial_device : bool -> link_t -> link_t := ltac:(derive_setter serial_device).
Definition set_serial_open : bool -> link_t -> link_t := ltac:(derive_setter serial_open).
Definition set_timer_port : bool -> link_t -> link_t := ltac:(derive_setter timer_port).
Definition set_timer_req : option timerequest -> link_t -> link_t := ltac:(derive_setter timer_req).
Definition set_timer_device : bool -> link_t -> link_t := ltac:(derive_setter timer_device).
Definition set_timer_open : bool -> link_t -> link_t := ltac:(derive_setter timer_open).

Record reader_t := mkReader {
  read_buf : list Z;
  read_pos : Z;
  read_len : Z;
  debug_bytes_got : Z;
  debug_peek : list Z;
  debug_peek_len : Z;
  diag_leftover : list Z
}.

#[export] Instance eta_reader : Eta reader_t := fun r =>
  mkReader (read_buf r) (read_pos r) (read_len r) (debug_bytes_got r) (debug_peek r) (debug_peek_len r)
    (diag_leftover r).
Definition set_read_buf : list Z -> reader_t -> reader_t := ltac:(derive_setter read_buf).
Definition set_read_pos : Z -> reader_t -> reader_t := ltac:(derive_setter read_pos).
Definition set_read_len : Z -> reader_t -> reader_t := ltac:(derive_setter read_len).
Definition set_debug_bytes_got : Z -> reader_t -> reader_t := ltac:(derive_setter debug_bytes_got).
Definition set_debug_peek : list Z -> reader_t -> reader_t := ltac:(derive_setter debug_peek).
Definition set_debug_peek_len : Z -> reader_t -> reader_t := ltac:(derive_setter debug_peek_len).
Definition set_diag_leftover : list Z -> reader_t -> reader_t := ltac:(derive_setter diag_leftover).

Record report_t := mkReport {
  channel_error : Z;
  serial_failure_detail : Z;
  serial_failure_io_error : Z;
  serial_failure_status : Z;
  serial_rx_diag_status : Z;
  serial_flush_drained_overrun : bool;
  serial_hidden_overrun : bool;
  backend_detail : Z;
  backend_native_io_error : Z;
  backend_native_status : Z
}.

#[export] Instance eta_report : Eta report_t := fun r =>
  mkReport (channel_error r) (serial_failure_detail r) (serial_failure_io_error r)
    (serial_failure_status r) (serial_rx_diag_status r) (serial_flush_drained_overrun r)
    (serial_hidden_overrun r) (backend_detail r) (backend_native_io_error r) (backend_native_status r).
Definition set_channel_error : Z -> report_t -> report_t := ltac:(derive_setter channel_error).
Definition set_failure_detail : Z -> report_t -> report_t := ltac:(derive_setter serial_failure_detail).
Definition set_failure_io_error : Z -> report_t -> report_t := ltac:(derive_setter serial_failure_io_error).
Definition set_failure_status : Z -> report_t -> report_t := ltac:(derive_setter serial_failure_status).
Definition set_rx_diag_status : Z -> report_t -> report_t := ltac:(derive_setter serial_rx_diag_status).
Definition set_flush_drained_overrun : bool -> report_t -> report_t :=
  ltac:(derive_setter serial_flush_drained_overrun).
Definition set_hidden_overrun : bool -> report_t -> report_t := ltac:(derive_setter serial_hidden_overrun).
Definition set_backend_detail : Z -> report_t -> report_t := ltac:(derive_setter backend_detail).
Definition set_backend_native_io_error : Z -> report_t -> report_t :=
  ltac:(derive_setter backend_native_io_error).
Definition set_backend_native_status : Z -> report_t -> report_t :=
  ltac:(derive_setter backend_native_status).

(** [serial_failure_detail], [_io_error] and [_status] at once. *)
Definition set_failure (detail io_error status : Z) (r : report_t) : report_t :=
  r |> set_failure_detail detail |> set_failure_io_error io_error |> set_failure_status status.

(** [serial_device_name] is the array. *)
Record settings_t := mkSettings {
  serial_device_name : list Z;
  serial_unit : Z;
  serial_baud : Z
}.

(** [session] is the library's, [None] when zeroed. *)
Record backend (E S : Type) := mkBackend {
  exec : exec_state E;
  link : link_t;
  reader : reader_t;
  report : report_t;
  settings : settings_t;
  session : option S;
  session_initialized : bool
}.
#[global] Arguments mkBackend {E S}.
#[global] Arguments exec {E S}.
#[global] Arguments link {E S}.
#[global] Arguments reader {E S}.
#[global] Arguments report {E S}.
#[global] Arguments settings {E S}.
#[global] Arguments session {E S}.
#[global] Arguments session_initialized {E S}.

(** ** The library's session

    A call of the library is a program over the channel operations
    [fn_stream_channel_ops_t]; a read gives the byte, or nothing. *)
Inductive prog (A : Type) :=
  | Done (a : A)
  | OpenChannel (k : Z -> prog A)
  | CloseChannel (k : prog A)
  | WriteByte (value : Z) (k : Z -> prog A)
  | WriteBytes (data : list Z) (k : Z -> prog A)
  | ReadByte (timeout_ms : Z) (k : option Z -> prog A)
  | Flush (k : prog A).
#[global] Arguments Done {A}.
#[global] Arguments OpenChannel {A}.
#[global] Arguments CloseChannel {A}.
#[global] Arguments WriteByte {A}.
#[global] Arguments WriteBytes {A}.
#[global] Arguments ReadByte {A}.
#[global] Arguments Flush {A}.

(** What a request gives: result, response buffer and [*response_len]. *)
Record session_lib (S : Type) := mkSession {
  fn_stream_session_init : prog (Z * S);
  fn_stream_session_open : S -> prog (Z * S);
  fn_stream_session_close : S -> prog S;
  fn_stream_session_request : S -> option (list Z) -> Z -> option (list Z) -> Z -> Z ->
    prog (Z * option (list Z) * Z * S)
}.
#[global] Arguments mkSession {S}.
#[global] Arguments fn_stream_session_init {S}.
#[global] Arguments fn_stream_session_open {S}.
#[global] Arguments fn_stream_session_close {S}.
#[global] Arguments fn_stream_session_request {S}.

Section Backend.
Context `{L : FnLib} {E S : Type}.
Variable env : exec_env E.
Variable lib : session_lib S.
Abbreviation st := (backend E S).
Abbreviation act A := (M (backend E S) A).
Implicit Types (s : st) (x : exec_state E).

Definition set_exec x s : st :=
  mkBackend x (link s) (reader s) (report s) (settings s) (session s) (session_initialized s).
Definition on_link (f : link_t -> link_t) s : st :=
  mkBackend (exec s) (f (link s)) (reader s) (report s) (settings s) (session s) (session_initialized s).
Definition on_reader (f : reader_t -> reader_t) s : st :=
  mkBackend (exec s) (link s) (f (reader s)) (report s) (settings s) (session s) (session_initialized s).
Definition on_report (f : report_t -> report_t) s : st :=
  mkBackend (exec s) (link s) (reader s) (f (report s)) (settings s) (session s) (session_initialized s).
Definition set_settings (c : settings_t) s : st :=
  mkBackend (exec s) (link s) (reader s) (report s) c (session s) (session_initialized s).
Definition set_session (v : option S) s : st :=
  mkBackend (exec s) (link s) (reader s) (report s) (settings s) v (session_initialized s).
Definition set_session_initialized (b : bool) s : st :=
  mkBackend (exec s) (link s) (reader s) (report s) (settings s) (session s) b.

(** ** exec *)

Definition with_outside (e : E) x : exec_state E :=
  mkExec e (serial_at x) (timer_at x) (serial_signal x) (timer_signal x) (misuse x).
Definition with_serial_at (w : whereabouts) (signal : bool) x : exec_state E :=
  mkExec (outside x) w (timer_at x) signal (timer_signal x) (misuse x).
Definition with_timer_at (w : whereabouts) (signal : bool) x : exec_state E :=
  mkExec (outside x) (serial_at x) w (serial_signal x) signal (misuse x).
Definition blame (b : bool) x : exec_state E :=
  mkExec (outside x) (serial_at x) (timer_at x) (serial_signal x) (timer_signal x) (misuse x || b).

(** The request may be sent: it exists, its device is open, it is ours. *)
Definition serial_sendable s : bool :=
  bool_decide (is_Some (serial_req (link s))) && serial_device (link s)
  && bool_decide (serial_at (exec s) = Ours).
Definition timer_sendable s : bool :=
  bool_decide (is_Some (timer_req (link s))) && timer_device (link s)
  && bool_decide (timer_at (exec s) = Ours).

Definition serial_of s : IOExtSer := default ext_ser_zero (serial_req (link s)).
Definition timer_of s : timerequest := default timer_zero (timer_req (link s)).

(** [serial_req->... = ...] *)
Definition on_serial (f : IOExtSer -> IOExtSer) : act unit := modify (fun s =>
  s |> set_exec (blame (negb (bool_decide (is_Some (serial_req (link s))))) (exec s))
    |> on_link (fun l => set_serial_req (f <$> serial_req l) l)).
Definition on_timer (f : timerequest -> timerequest) : act unit := modify (fun s =>
  s |> set_exec (blame (negb (bool_decide (is_Some (timer_req (link s))))) (exec s))
    |> on_link (fun l => set_timer_req (f <$> timer_req l) l)).

Definition DoIO_serial : act Z := fun s =>
  let '(e, q, early) := do_serial env (outside (exec s)) (serial_of s) in
  Some (io_Error q,
    s |> set_exec (exec s |> with_outside e
                          |> with_serial_at (serial_at (exec s)) (serial_signal (exec s) || early)
                          |> blame (negb (serial_sendable s)))
      |> on_link (set_serial_req (Some q))).
Definition DoIO_timer : act Z := fun s =>
  let '(e, error, early) := do_timer env (outside (exec s)) (timer_of s) in
  let q := timer_of s in
  Some (error,
    s |> set_exec (exec s |> with_outside e
                          |> with_timer_at (timer_at (exec s)) (timer_signal (exec s) || early)
                          |> blame (negb (timer_sendable s)))
      |> on_link (set_timer_req (Some (mkTimer (tr_Command q) (tv_secs q) (tv_micro q) error)))).

Definition SendIO_serial : act unit := modify (fun s =>
  set_exec (exec s |> with_outside (send_serial env (outside (exec s)) (serial_of s))
                   |> with_serial_at Out (serial_signal (exec s))
                   |> blame (negb (serial_sendable s))) s).
Definition SendIO_timer : act unit := modify (fun s =>
  set_exec (exec s |> with_outside (send_timer env (outside (exec s)) (timer_of s))
                   |> with_timer_at Out (timer_signal (exec s))
                   |> blame (negb (timer_sendable s))) s).

(** The serial request comes back, with [q] in it. *)
Definition serial_back (q : option IOExtSer) s : st :=
  match q with
  | Some q => s |> set_exec (with_serial_at Back true (exec s)) |> on_link (set_serial_req (Some q))
  | None => s
  end.
Definition timer_back (b : bool) s : st :=
  if b then set_exec (with_timer_at Back true (exec s)) s else s.
Definition clear_signals s : st :=
  set_exec (exec s |> with_serial_at (serial_at (exec s)) false |> with_timer_at (timer_at (exec s)) false) s.

(** Wait on both ports, with both requests out: at once if a signal is still
    set, otherwise until a request comes back. *)
Definition Wait_both : act unit := modify (fun s =>
  let s := set_exec (blame (negb (bool_decide (serial_at (exec s) = Out)
                                  && bool_decide (timer_at (exec s) = Out))) (exec s)) s in
  if serial_signal (exec s) || timer_signal (exec s) then clear_signals s
  else
  let '(e, q, expired) := sleep env (outside (exec s)) (serial_of s) in
  s |> set_exec (with_outside e (exec s)) |> serial_back q |> timer_back expired |> clear_signals).

(** CheckIO: not null.  A request that is not out counts as complete. *)
Definition CheckIO_serial : act bool := fun s =>
  match serial_at (exec s) with
  | Out =>
      let '(e, q) := serial_done env (outside (exec s)) (serial_of s) in
      Some (bool_decide (is_Some q), s |> set_exec (with_outside e (exec s)) |> serial_back q)
  | _ => Some (true, s)
  end.
Definition CheckIO_timer : act bool := fun s =>
  match timer_at (exec s) with
  | Out =>
      let '(e, expired) := timer_done env (outside (exec s)) in
      Some (expired, s |> set_exec (with_outside e (exec s)) |> timer_back expired)
  | _ => Some (true, s)
  end.

(** WaitIO.  The serial request is only waited for when it is back; the
    timer's comes back when its time is up. *)
Definition WaitIO_serial : act unit := modify (fun s =>
  set_exec (exec s |> with_serial_at Ours (serial_signal (exec s))
                   |> blame (negb (bool_decide (serial_at (exec s) = Back)))) s).
Definition WaitIO_timer : act unit := modify (fun s =>
  match timer_at (exec s) with
  | Out =>
      let '(e, early) := timer_expired env (outside (exec s)) in
      set_exec (exec s |> with_outside e |> with_timer_at Ours (timer_signal (exec s) || early)) s
  | _ =>
      set_exec (exec s |> with_timer_at Ours (timer_signal (exec s))
                       |> blame (negb (bool_decide (timer_at (exec s) = Back)))) s
  end).

(** AbortIO and WaitIO. *)
Definition abort_serial : act unit := modify (fun s =>
  match serial_at (exec s) with
  | Out =>
      let '(e, q, early) := serial_aborted env (outside (exec s)) (serial_of s) in
      s |> set_exec (exec s |> with_outside e |> with_serial_at Ours (serial_signal (exec s) || early))
        |> on_link (set_serial_req (Some q))
  | _ =>
      set_exec (exec s |> with_serial_at Ours (serial_signal (exec s))
                       |> blame (negb (bool_decide (serial_at (exec s) = Back)))) s
  end).
Definition abort_timer : act unit := modify (fun s =>
  match timer_at (exec s) with
  | Out =>
      let '(e, early) := timer_aborted env (outside (exec s)) in
      set_exec (exec s |> with_outside e |> with_timer_at Ours (timer_signal (exec s) || early)) s
  | _ =>
      set_exec (exec s |> with_timer_at Ours (timer_signal (exec s))
                       |> blame (negb (bool_decide (timer_at (exec s) = Back)))) s
  end).

(** Ports, requests and devices, each made when there is none and taken down
    inside out. *)
Definition CreatePort_serial : act bool := fun s =>
  let '(e, b) := CreatePort env (outside (exec s)) in
  Some (b, s |> set_exec (exec s |> with_outside e |> blame (serial_port (link s)))
             |> on_link (set_serial_port b)).
Definition CreatePort_timer : act bool := fun s =>
  let '(e, b) := CreatePort env (outside (exec s)) in
  Some (b, s |> set_exec (exec s |> with_outside e |> blame (timer_port (link s)))
             |> on_link (set_timer_port b)).
Definition CreateExtIO_serial : act bool := fun s =>
  let '(e, b) := CreateExtIO env (outside (exec s)) in
  Some (b, s |> set_exec (exec s |> with_outside e
                            |> blame (negb (serial_port (link s)) || bool_decide (is_Some (serial_req (link s)))))
             |> on_link (set_serial_req (if b then Some ext_ser_zero else None))).
Definition CreateExtIO_timer : act bool := fun s =>
  let '(e, b) := CreateExtIO env (outside (exec s)) in
  Some (b, s |> set_exec (exec s |> with_outside e
                            |> blame (negb (timer_port (link s)) || bool_decide (is_Some (timer_req (link s)))))
             |> on_link (set_timer_req (if b then Some timer_zero else None))).
Definition OpenDevice_serial : act Z := fun s =>
  let '(e, q, error) := OpenSerial env (outside (exec s)) (serial_device_name (settings s))
                          (serial_unit (settings s)) (serial_of s) in
  Some (error,
    s |> set_exec (exec s |> with_outside e
                          |> blame (negb (bool_decide (is_Some (serial_req (link s))))
                                    || serial_device (link s) || negb (bool_decide (serial_at (exec s) = Ours))))
      |> on_link (fun l => l |> set_serial_req (Some q) |> set_serial_device (error =? 0))).
Definition OpenDevice_timer : act Z := fun s =>
  let '(e, q, error) := OpenTimer env (outside (exec s)) (timer_of s) in
  Some (error,
    s |> set_exec (exec s |> with_outside e
                          |> blame (negb (bool_decide (is_Some (timer_req (link s))))
                                    || timer_device (link s) || negb (bool_decide (timer_at (exec s) = Ours))))
      |> on_link (fun l => l |> set_timer_req (Some q) |> set_timer_device (error =? 0))).
Definition CloseDevice_serial : act unit := modify (fun s =>
  s |> set_exec (exec s |> with_outside (CloseSerial env (outside (exec s))) |> blame (negb (serial_sendable s)))
    |> on_link (set_serial_device false)).
Definition CloseDevice_timer : act unit := modify (fun s =>
  s |> set_exec (exec s |> with_outside (CloseTimer env (outside (exec s))) |> blame (negb (timer_sendable s)))
    |> on_link (set_timer_device false)).
Definition DeleteExtIO_serial : act unit := modify (fun s =>
  s |> set_exec (exec s |> with_outside (DeleteExtIO env (outside (exec s)))
                        |> blame (serial_device (link s) || negb (bool_decide (serial_at (exec s) = Ours))))
    |> on_link (set_serial_req None)).
Definition DeleteExtIO_timer : act unit := modify (fun s =>
  s |> set_exec (exec s |> with_outside (DeleteExtIO env (outside (exec s)))
                        |> blame (timer_device (link s) || negb (bool_decide (timer_at (exec s) = Ours))))
    |> on_link (set_timer_req None)).
Definition DeletePort_serial : act unit := modify (fun s =>
  s |> set_exec (exec s |> with_outside (DeletePort env (outside (exec s)))
                        |> blame (bool_decide (is_Some (serial_req (link s)))))
    |> on_link (set_serial_port false)).
Definition DeletePort_timer : act unit := modify (fun s =>
  s |> set_exec (exec s |> with_outside (DeletePort env (outside (exec s)))
                        |> blame (bool_decide (is_Some (timer_req (link s)))))
    |> on_link (set_timer_port false)).

(** ** Requests of the serial device *)

Definition status (f : report_t -> report_t) : act unit := modify (on_report f).
Definition reading (f : reader_t -> reader_t) : act unit := modify (on_reader f).
Definition failed (detail io_error st : Z) : act unit := status (set_failure detail io_error st).

(** What a failed request of the serial device leaves in the statics. *)
Definition failed_serial (detail : Z) : act unit :=
  q ← gets serial_of; failed detail (u8 (io_Error q)) (io_Status q).

Definition note_rx_diag (v : Z) : act unit := status (set_rx_diag_status v).

(** [fn_serial_note_hidden_overrun(0, ..., &serial_hidden_overrun)]. *)
Definition note_hidden (io_status : Z) : act bool := fun s =>
  let '(seen, hidden) := fn_serial_note_hidden_overrun 0 io_status (serial_hidden_overrun (report s)) in
  Some (seen, on_report (set_hidden_overrun hidden) s).
Definition check_hidden : act unit :=
  q ← gets serial_of; seen ← note_hidden (io_Status q);
  when seen (failed FUJINET_NIO_DETAIL_SERIAL_READ 0 (io_Status q)).

Definition serial_write (buf : list Z) (len : Z) : act Z :=
  on_serial (ask CMD_WRITE (Some buf) len);;
  e ← DoIO_serial;
  if negb (e =? 0)
  then failed_serial FUJINET_NIO_DETAIL_SERIAL_WRITE;; mret FN_ERR_IO
  else mret FN_OK.

(** The result and the buffer. *)
Definition serial_cmd_read (buf : list Z) (length timeout_ms : Z) (record_hidden_overrun : bool)
    : act (Z * list Z) :=
  l ← gets link;
  if (length =? 0) || negb (bool_decide (is_Some (serial_req l))) || negb (serial_open l)
     || negb (bool_decide (is_Some (timer_req l))) || negb (timer_open l) || (timeout_ms =? 0)
  then mret (FN_ERR_IO, buf)
  else
  on_serial (fun q => q |> ask CMD_READ (Some buf) length |> set_io_Actual 0);;
  SendIO_serial;;
  on_timer (fun t => mkTimer TR_ADDREQUEST (timeout_ms / 1000) (timeout_ms mod 1000 * 1000) (tr_Error t));;
  SendIO_timer;;
  Wait_both;;
  done ← CheckIO_serial;
  if negb done then
    abort_serial;; WaitIO_timer;;
    failed FUJINET_NIO_DETAIL_SERIAL_READ 0 0;;
    q ← gets serial_of;
    mret (FN_ERR_TIMEOUT, default [] (io_Data q))
  else
  WaitIO_serial;;
  expired ← CheckIO_timer;
  (if negb expired then abort_timer else WaitIO_timer);;
  q ← gets serial_of;
  let buf := default [] (io_Data q) in
  if negb (io_Error q =? 0)
  then failed_serial FUJINET_NIO_DETAIL_SERIAL_READ;; mret (FN_ERR_IO, buf)
  else
  note_rx_diag (io_Status q);;
  when record_hidden_overrun check_hidden;;
  mret (FN_OK, buf).

Definition note_byte_got (value : Z) : act unit := reading (fun r =>
  let r := if negb (debug_bytes_got r =? 65535)
           then set_debug_bytes_got (debug_bytes_got r + 1) r else r in
  if debug_peek_len r <? DEBUG_PEEK_MAX
  then r |> set_debug_peek (put_at (debug_peek r) (Z.to_nat (debug_peek_len r)) value)
         |> set_debug_peek_len (debug_peek_len r + 1)
  else r).

(** SDCMD_QUERY: the stores and the DoIO. *)
Definition query : act Z :=
  on_serial (fun q => q |> ask SDCMD_QUERY None 0 |> set_io_Actual 0);; DoIO_serial.

Definition restore_failure (r0 : report_t) : act unit :=
  failed (serial_failure_detail r0) (serial_failure_io_error r0) (serial_failure_status r0).

(** [*got] and [dst], which is not null. *)
Definition capture_leftover (dst : list Z) (max : Z) : act (Z * list Z) :=
  l ← gets link; saved ← gets report;
  if (max =? 0) || negb (serial_open l) then mret (0, dst)
  else
  e ← query;
  if negb (e =? 0) then restore_failure saved;; mret (0, dst)
  else
  q ← gets serial_of;
  let available := io_Actual q in
  if available =? 0 then restore_failure saved;; mret (0, dst)
  else
  let available := if available >? max then max else available in
  '(rc, dst) ← serial_cmd_read dst available 50 false;
  q ← gets serial_of;
  let available := if io_Actual q >? max then max else io_Actual q in
  restore_failure saved;;
  mret (if rc =? FN_OK then u8 available else 0, dst).

(** A query of the reader: whether it failed. *)
Definition reader_query : act bool :=
  e ← query;
  if negb (e =? 0) then failed_serial FUJINET_NIO_DETAIL_SERIAL_QUERY;; mret true
  else
  q ← gets serial_of;
  note_rx_diag (io_Status q);; check_hidden;; mret false.

(** The poll: the bytes advertised, 0 when the time is up, or [inl] an error.
    Each turn takes a millisecond off [remaining]. *)
Fixpoint poll_loop (fuel : nat) (remaining : Z) : act (Z + Z) :=
  match fuel with
  | O => out_of_fuel
  | Datatypes.S fuel =>
      if remaining =? 0 then mret (inr 0)
      else
      let slice := if remaining >? FN_SERIAL_BACKEND_POLL_MS then FN_SERIAL_BACKEND_POLL_MS else remaining in
      on_timer (fun t => mkTimer TR_ADDREQUEST 0 (slice * 1000) (tr_Error t));;
      e ← DoIO_timer;
      if negb (e =? 0) then
        t ← gets timer_of;
        failed FUJINET_NIO_DETAIL_TIMER_WAIT (u8 (tr_Error t)) 0;; mret (inl FN_ERR_IO)
      else
      bad ← reader_query;
      if bad : bool then mret (inl FN_ERR_IO)
      else
      q ← gets serial_of;
      if negb (io_Actual q =? 0) then mret (inr (io_Actual q))
      else poll_loop fuel (u16 (remaining - slice))
  end.

(** Result and [*byte_out], which is stored with FN_OK only. *)
Definition serial_read_byte (timeout_ms : Z) : act (Z * Z) :=
  r ← gets reader;
  if read_pos r <? read_len r then
    let byte := (read_buf r).[Z.to_nat (read_pos r)] in
    reading (set_read_pos (read_pos r + 1));; note_byte_got byte;; mret (FN_OK, byte)
  else
  bad ← reader_query;
  if bad : bool then mret (FN_ERR_IO, 0)
  else
  q ← gets serial_of;
  polled ← (if io_Actual q =? 0 then poll_loop (Datatypes.S (Z.to_nat timeout_ms)) timeout_ms
            else mret (inr (io_Actual q)));
  match polled with
  | inl error => mret (error, 0)
  | inr available =>
      if available =? 0 then mret (FN_ERR_TIMEOUT, 0)
      else
      let available := if available >? READ_BUF_SIZE then READ_BUF_SIZE else available in
      '(rc, buf) ← serial_cmd_read (read_buf r) available timeout_ms true;
      reading (set_read_buf buf);;
      if negb (rc =? FN_OK) then mret (rc, 0)
      else
      q ← gets serial_of;
      reading (fun r => r |> set_read_pos 1 |> set_read_len (u16 (io_Actual q)));;
      if u16 (io_Actual q) =? 0 then mret (FN_ERR_NOT_READY, 0)
      else note_byte_got buf.[0];; mret (FN_OK, buf.[0])
  end.

(** ** The channel *)

(** [if (... && channel_error == 0) channel_error = error;] *)
Definition stick (error : Z) : act unit :=
  status (fun r => if channel_error r =? 0 then set_channel_error error r else r).

Definition session_write_bytes (data : list Z) (length : Z) : act Z :=
  result ← serial_write data length;
  when (negb (result =? FN_OK)) (stick result);;
  mret result.
Definition session_write_byte (value : Z) : act Z := session_write_bytes [value] 1.

Definition session_read_byte (timeout_ms : Z) : act (option Z) :=
  r ← gets report;
  if negb (channel_error r =? 0) then mret None
  else
  '(rc, byte) ← serial_read_byte timeout_ms;
  r ← gets report;
  let '(got, error) := fn_serial_channel_got_byte rc (channel_error r) in
  status (set_channel_error error);;
  mret (if got =? 1 then Some byte else None).

(** The result and [*saw_rx]. *)
Definition drain_query_and_read : act (Z * bool) :=
  l ← gets link;
  if negb (serial_open l) then mret (FN_OK, false)
  else
  e ← query;
  if negb (e =? 0) then
    stick FN_ERR_IO;; failed_serial FUJINET_NIO_DETAIL_SERIAL_QUERY;; mret (FN_ERR_IO, false)
  else
  q ← gets serial_of;
  let available := io_Actual q in
  if negb (Z.land (io_Status q) IO_STATF_OVERRUN =? 0) then
    '(rc, _) ← serial_cmd_read [0] 1 FN_SERIAL_BACKEND_TIMEOUT_MS false;
    if negb (rc =? FN_OK) then stick rc;; mret (rc, false)
    else status (set_flush_drained_overrun true);; mret (FN_OK, true)
  else if available =? 0 then mret (FN_OK, false)
  else
  let available := if available >? READ_BUF_SIZE then READ_BUF_SIZE else available in
  r ← gets reader;
  '(rc, buf) ← serial_cmd_read (read_buf r) available FN_SERIAL_BACKEND_TIMEOUT_MS false;
  reading (set_read_buf buf);;
  if negb (rc =? FN_OK) then stick rc;; mret (rc, false) else mret (FN_OK, true).

(** [for (;;)] of [session_flush]: it goes on as long as bytes come. *)
Fixpoint flush_loop (fuel : nat) : act unit :=
  match fuel with
  | O => out_of_fuel
  | Datatypes.S fuel =>
      '(rc, saw_rx) ← drain_query_and_read;
      if negb (rc =? FN_OK) || negb saw_rx then mret tt else flush_loop fuel
  end.
Definition forget_input : act unit := reading (fun r => r |> set_read_pos 0 |> set_read_len 0).
Definition session_flush (flush_fuel : nat) : act unit :=
  forget_input;;
  l ← gets link;
  when (serial_open l) (flush_loop flush_fuel).

Fixpoint drain_loop (fuel : nat) (empty_ms waited_ms steps : Z) : act unit :=
  match fuel with
  | O => out_of_fuel
  | Datatypes.S fuel =>
      '(rc, saw_rx) ← drain_query_and_read;
      if negb (rc =? FN_OK) then mret tt
      else
      let '(verdict, empty_ms, waited_ms) :=
        fn_serial_drain_after_fault_step saw_rx empty_ms waited_ms in
      if verdict =? FN_SERIAL_DRAIN_DONE then mret tt
      else if saw_rx : bool then
        if u16 (steps + 1) >=? 1024 then mret tt
        else drain_loop fuel empty_ms waited_ms (u16 (steps + 1))
      else
      on_timer (fun t => mkTimer TR_ADDREQUEST 0 (FN_SERIAL_DRAIN_SLICE_MS * 1000) (tr_Error t));;
      e ← DoIO_timer;
      if negb (e =? 0) then mret tt else drain_loop fuel empty_ms waited_ms steps
  end.
(** 1024 turns that read and 101 that wait. *)
Definition drain_fuel : nat := 1126.
Definition session_flush_until_idle (flush_fuel : nat) : act unit :=
  forget_input;;
  l ← gets link;
  if negb (serial_open l) || negb (timer_open l) then session_flush flush_fuel
  else drain_loop drain_fuel 0 0 0.

(** A program of the library, run on the channel; [session_open] and
    [session_close] do nothing. *)
Fixpoint run {A : Type} (flush_fuel : nat) (p : prog A) : act A :=
  match p with
  | Done a => mret a
  | OpenChannel k => run flush_fuel (k FN_OK)
  | CloseChannel k => run flush_fuel k
  | WriteByte value k => result ← session_write_byte value; run flush_fuel (k result)
  | WriteBytes data k => result ← session_write_bytes data (Z.of_nat (length data)); run flush_fuel (k result)
  | ReadByte timeout_ms k => got ← session_read_byte timeout_ms; run flush_fuel (k got)
  | Flush k => session_flush flush_fuel;; run flush_fuel k
  end.

(** ** Opening and closing *)

Variable flush_fuel : nat.

Definition reclaim_serial : act unit :=
  l ← gets link;
  when (serial_device l) (done ← CheckIO_serial; when (negb done) abort_serial).
Definition reclaim_timer : act unit :=
  l ← gets link;
  when (timer_device l) (done ← CheckIO_timer; when (negb done) abort_timer).

Definition release_timer : act unit :=
  l ← gets link;
  when (bool_decide (is_Some (timer_req l)) && timer_open l) reclaim_timer;;
  when (timer_open l) (CloseDevice_timer;; modify (on_link (set_timer_open false)));;
  when (bool_decide (is_Some (timer_req l))) DeleteExtIO_timer;;
  when (timer_port l) DeletePort_timer.

Definition release_serial : act unit :=
  l ← gets link;
  when (bool_decide (is_Some (serial_req l)) && serial_open l) reclaim_serial;;
  when (serial_open l) (CloseDevice_serial;; modify (on_link (set_serial_open false)));;
  when (bool_decide (is_Some (serial_req l))) DeleteExtIO_serial;;
  when (serial_port l) DeletePort_serial.

(** [fn_stream_session_close(&session)] when it is initialised. *)
Definition close_session : act unit :=
  initialized ← gets session_initialized;
  when initialized
    (v ← gets session;
     match v with
     | Some v => v ← run flush_fuel (fn_stream_session_close lib v); modify (set_session (Some v))
     | None => mret tt
     end;;
     modify (set_session_initialized false)).

Definition backend_close : act unit :=
  close_session;;
  modify (set_session None);;
  forget_input;;
  status (fun r => r |> set_channel_error 0 |> set_failure FUJINET_NIO_DETAIL_NONE 0 0
                     |> set_flush_drained_overrun false);;
  release_timer;; release_serial.

Definition backend_set_baud (baud : Z) : act Z :=
  if (baud <? 300) || (baud >? 230400) then mret FN_ERR_INVALID
  else modify (fun s => set_settings (mkSettings (serial_device_name (settings s))
                                        (serial_unit (settings s)) baud) s);; mret FN_OK.
Definition backend_get_baud : act Z := gets (fun s => serial_baud (settings s)).

(** strcpy of the name and its NUL. *)
Definition backend_set_serial (unit : Z) (name : option (list Z)) : act Z :=
  if negb (fujinet_nio_serial_name_ok name) then mret FN_ERR_INVALID
  else modify (fun s => set_settings
         (mkSettings (overwrite (serial_device_name (settings s)) 0 (c_string (default [] name) ++ [0]))
            unit (serial_baud (settings s))) s);; mret FN_OK.

(** The unit and, for a buffer of [name_cap] bytes, what strncpy and the
    last store leave in it. *)
Definition backend_get_serial (name_cap : Z) : act (Z * list Z) :=
  gets (fun s =>
    let name := c_string (serial_device_name (settings s)) in
    (serial_unit (settings s),
     if name_cap =? 0 then []
     else take (Z.to_nat (name_cap - 1)) (name ++ zeros (Z.to_nat name_cap)) ++ [0])).

Definition set_serial_parameters : act unit :=
  baud ← backend_get_baud;
  on_serial (fun q =>
    mkExtSer (io_Command q) (io_Data q) (io_Length q) (io_Actual q) (io_Error q) (io_Status q)
      baud 8 8 1 FN_SERIAL_BACKEND_RBUF_SIZE (Z.lor SERF_XDISABLED SERF_RAD_BOOGIE) (io_ExtFlags q)
      (io_CtlChar q)).

(** [backend_close(); return error;] *)
Definition abandon (error : Z) : act Z := backend_close;; mret error.

(** The end of [backend_open]: from the query on. *)
Definition start_session : act Z :=
  query;;
  q ← gets serial_of;
  rc ← (if negb (Z.land (io_Status q) IO_STATF_OVERRUN =? 0)
        then '(rc, _) ← serial_cmd_read [0] 1 FN_SERIAL_BACKEND_TIMEOUT_MS false; mret rc
        else mret FN_OK);
  if negb (rc =? FN_OK) then abandon FN_ERR_IO
  else
  '(rc, v) ← run flush_fuel (fn_stream_session_init lib);
  modify (set_session (Some v));;
  if negb (rc =? FN_OK) then abandon FN_ERR_IO
  else
  '(rc, v) ← run flush_fuel (fn_stream_session_open lib v);
  modify (set_session (Some v));;
  if negb (rc =? FN_OK) then abandon FN_ERR_IO
  else
  modify (set_session_initialized true);;
  forget_input;;
  status (fun r => r |> set_channel_error 0 |> set_failure_detail FUJINET_NIO_DETAIL_NONE);;
  mret FN_OK.

Definition open_timer : act Z :=
  port ← CreatePort_timer;
  if negb port then abandon FN_ERR_IO
  else
  req ← CreateExtIO_timer;
  if negb req then abandon FN_ERR_IO
  else
  e ← OpenDevice_timer;
  if negb (e =? 0) then abandon FN_ERR_NOT_FOUND
  else
  modify (on_link (set_timer_open true));; start_session.

Definition backend_open : act Z :=
  l ← gets link; initialized ← gets session_initialized;
  if serial_open l && timer_open l && initialized then mret FN_OK
  else
  backend_close;;
  port ← CreatePort_serial;
  if negb port then mret FN_ERR_IO
  else
  req ← CreateExtIO_serial;
  if negb req then abandon FN_ERR_IO
  else
  set_serial_parameters;;
  e ← OpenDevice_serial;
  if negb (e =? 0) then abandon FN_ERR_NOT_FOUND
  else
  modify (on_link (set_serial_open true));;
  set_serial_parameters;;
  on_serial (set_io_Command SDCMD_SETPARAMS);;
  e ← DoIO_serial;
  if negb (e =? 0) then abandon FN_ERR_IO else open_timer.

(** ** Exchanges *)

Definition our_device s : bool :=
  bool_decide (c_string (serial_device_name (settings s)) = FUJINET_SERIAL_DEVICE_NAME).

(** The peek of a timed-out exchange. *)
Definition peek_leftover : act unit :=
  r ← gets reader; q ← gets serial_of; saved ← gets report;
  when ((debug_peek_len r =? 0) && negb (io_Actual q =? 0))
    (let n := if io_Actual q >? DEBUG_PEEK_MAX then DEBUG_PEEK_MAX else io_Actual q in
     '(rc, buf) ← serial_cmd_read (debug_peek r) n 50 false;
     reading (set_debug_peek buf);;
     when (rc =? FN_OK)
       (q ← gets serial_of;
        reading (set_debug_peek_len
          (u8 (if io_Actual q >? DEBUG_PEEK_MAX then DEBUG_PEEK_MAX else io_Actual q))));;
     restore_failure saved).

(** The diagnosis of a timeout on our own device. *)
Definition diagnose_timeout : act unit :=
  e ← query;
  when (e =? 0)
    (check_hidden;;
     r ← gets report;
     when ((serial_failure_io_error r =? 0) && (serial_failure_status r =? 0))
       (q ← gets serial_of;
        let got := u16 (io_ExtFlags q) in
        let disc_w := u16 (Z.shiftr (io_CtlChar q) 16) in
        let shown := if negb (got =? 0) then got else disc_w in
        peek_leftover;;
        rd ← gets reader;
        status (fun r =>
          r |> set_failure_io_error
                 (if debug_bytes_got rd >? 255 then 255 else u8 (debug_bytes_got rd))
            |> set_failure_status (u16 (Z.shiftl (if shown >? 255 then 255 else u8 shown) 8))))).

(** The result and the diagnostics, from what the session gave. *)
Definition verdict (session_result : Z) (r : report_t) : Z * report_t :=
  let detail :=
    if negb (channel_error r =? 0)
    then (if negb (serial_failure_detail r =? FUJINET_NIO_DETAIL_NONE) then serial_failure_detail r
          else FUJINET_NIO_DETAIL_SERIAL_IO)
    else if session_result =? FN_ERR_IO then FUJINET_NIO_DETAIL_SESSION_IO
    else if session_result =? FN_ERR_TIMEOUT then FUJINET_NIO_DETAIL_TIMEOUT
    else FUJINET_NIO_DETAIL_NONE in
  let native_status :=
    if negb (serial_failure_status r =? 0) then serial_failure_status r
    else if negb (session_result =? FN_OK) then serial_rx_diag_status r else 0 in
  let '(result, error) := fn_serial_channel_map_session_result session_result (channel_error r) in
  (if serial_hidden_overrun r then FN_ERR_TRANSPORT else result,
   r |> set_backend_detail (if serial_hidden_overrun r then FUJINET_NIO_DETAIL_SERIAL_READ else detail)
     |> set_backend_native_io_error (serial_failure_io_error r)
     |> set_backend_native_status native_status |> set_channel_error error).

(** [backend_exchange] up to the verdict: the session's result, the response
    and its length. *)
Definition converse (v : S) (request : option (list Z)) (request_len : Z) (response : option (list Z))
    (response_capacity : Z) : act (Z * option (list Z) * Z) :=
  status (fun r => r |> set_channel_error 0 |> set_failure FUJINET_NIO_DETAIL_NONE 0 0
                     |> set_rx_diag_status 0 |> set_hidden_overrun false);;
  reading (fun r => r |> set_debug_bytes_got 0 |> set_debug_peek_len 0);;
  '(session_result, response, response_len, v) ←
    run flush_fuel (fn_stream_session_request lib v request request_len response response_capacity
                      FN_SERIAL_BACKEND_TIMEOUT_MS);
  modify (set_session (Some v));;
  l ← gets link; ours ← gets our_device;
  when ((session_result =? FN_ERR_TIMEOUT) && serial_open l && ours) diagnose_timeout;;
  mret (session_result, response, response_len).

(** From the verdict on. *)
Definition settle (result : Z) : act unit :=
  l ← gets link; ours ← gets our_device;
  when (negb (result =? FN_OK) && serial_open l && ours)
    (r ← gets reader;
     '(_, dst) ← capture_leftover (diag_leftover r) DIAG_LEFTOVER_MAX;
     reading (set_diag_leftover dst));;
  when (negb (result =? FN_OK)) (session_flush_until_idle flush_fuel);;
  l ← gets link;
  when (serial_open l) (on_serial (ask CMD_FLUSH None 0);; DoIO_serial;; mret tt).

(** [response_len] is never NULL in nio.device, so that FN_ERR_INVALID does
    not arise here.  The result, the response buffer, [*response_len], and [*detail],
    [*native_io_error] and [*native_status], which a caller may leave out. *)
Definition backend_exchange (request : option (list Z)) (request_len : Z) (response : option (list Z))
    (response_capacity : Z) : act (Z * option (list Z) * Z * (Z * Z * Z)) :=
  l ← gets link; initialized ← gets session_initialized; v ← gets session;
  match (if serial_open l && timer_open l && initialized then v else None) with
  | None => mret (FN_ERR_IO, response, 0, (FUJINET_NIO_DETAIL_BACKEND_OPEN, 0, 0))
  | Some v =>
      '(session_result, response, response_len) ← converse v request request_len response response_capacity;
      r ← gets report;
      let '(result, r) := verdict session_result r in
      status (fun _ => r);;
      settle result;;
      mret (result, response, response_len,
            (backend_detail r, backend_native_io_error r, backend_native_status r))
  end.

Definition backend_get_diagnostics s : Z * Z * Z :=
  let r := report s in (backend_detail r, backend_native_io_error r, backend_native_status r).
End Backend.
