(* ===== verification/SerialBackendProps.v ===== *)
(** * Properties of the serial backend

    Whatever the devices do, exec's rules are kept and nothing leaks; an
    exchange returns once the line is quiet; its result says what happened;
    the bytes the session reads are those the device delivered, in order. *)

From S2P Require Import Prelude Effects ExecIO FnLib SerialConfig NioBackend SerialBackend.

Section Discipline.
Context `{L : FnLib, !FnLibOk L} {E S : Type}.
Variable env : exec_env E.
Variable lib : session_lib S.
Variable flush_fuel : nat.
Abbreviation st := (backend E S).
Implicit Types (s : st) (x : exec_state E) (l : link_t).

(** How many more reads the line can satisfy; a read that succeeds uses one
    up and nothing adds to them. *)
Class Quiet (budget : E -> nat) : Prop := {
  q_port e : (budget (CreatePort env e).1 <= budget e)%nat;
  q_extio e : (budget (CreateExtIO env e).1 <= budget e)%nat;
  q_delete_port e : (budget (DeletePort env e) <= budget e)%nat;
  q_delete_extio e : (budget (DeleteExtIO env e) <= budget e)%nat;
  q_open_serial e name unit q : (budget (OpenSerial env e name unit q).1.1 <= budget e)%nat;
  q_open_timer e t : (budget (OpenTimer env e t).1.1 <= budget e)%nat;
  q_close_serial e : (budget (CloseSerial env e) <= budget e)%nat;
  q_close_timer e : (budget (CloseTimer env e) <= budget e)%nat;
  q_do_serial e q : (budget (do_serial env e q).1.1 <= budget e)%nat;
  q_do_timer e t : (budget (do_timer env e t).1.1 <= budget e)%nat;
  q_send_serial e q : (budget (send_serial env e q) <= budget e)%nat;
  q_send_timer e t : (budget (send_timer env e t) <= budget e)%nat;
  q_sleep e q :
    let '(e', back, _) := sleep env e q in
    (budget e' <= budget e)%nat /\ forall q', back = Some q' -> io_Error q' = 0 -> (budget e' < budget e)%nat;
  q_serial_done e q :
    let '(e', back) := serial_done env e q in
    (budget e' <= budget e)%nat /\ forall q', back = Some q' -> io_Error q' = 0 -> (budget e' < budget e)%nat;
  q_timer_done e : (budget (timer_done env e).1 <= budget e)%nat;
  q_serial_aborted e q : (budget (serial_aborted env e q).1.1 <= budget e)%nat;
  q_timer_aborted e : (budget (timer_aborted env e).1 <= budget e)%nat;
  q_timer_expired e : (budget (timer_expired env e).1 <= budget e)%nat
}.

Variable hang : Prop.
Variable budget : E -> nat.
Hypothesis Hquiet : hang \/ Quiet budget.

(** Nothing was done wrong, and the two requests are at [sw] and [tw]. *)
Definition own (sw tw : whereabouts) x : Prop := misuse x = false /\ serial_at x = sw /\ timer_at x = tw.

(** What exists and what is open. *)
Definition shape l : bool * bool * bool * bool * (bool * bool * bool * bool) :=
  (serial_port l, bool_decide (is_Some (serial_req l)), serial_device l, serial_open l,
   (timer_port l, bool_decide (is_Some (timer_req l)), timer_device l, timer_open l)).

Definition told (r : report_t) : Z * Z * Z :=
  (backend_detail r, backend_native_io_error r, backend_native_status r).

Definition spent s s' : Prop := hang \/ (budget (outside (exec s')) <= budget (outside (exec s)))%nat.
(** A read has succeeded. *)
Definition paid s s' : Prop := hang \/ (budget (outside (exec s')) < budget (outside (exec s)))%nat.

(** From [s0] on, requests have come and gone, and are now at [sw] and
    [tw]. *)
Record calm_at sw tw s0 s : Prop := {
  c_own : own sw tw (exec s);
  c_shape : shape (link s) = shape (link s0);
  c_settings : settings s = settings s0;
  c_session : session_initialized s = session_initialized s0;
  c_live : is_Some (session s0) -> is_Some (session s);
  c_told : told (report s) = told (report s0);
  c_spent : spent s0 s
}.
Abbreviation calm := (calm_at Ours Ours).

(** Both devices are open. *)
Definition connected s : Prop := exists sp tp, shape (link s) = (sp, true, true, true, (tp, true, true, true)).

Lemma spent_refl s : spent s s.
Proof. right. lia. Qed.
Lemma spent_trans s0 s1 s2 : spent s0 s1 -> spent s1 s2 -> spent s0 s2.
Proof. unfold spent. intros [H1|H1] [H2|H2]; solve [by left|right; lia]. Qed.
Lemma spent_to s0 s e :
  spent s0 s -> (Quiet budget -> (budget e <= budget (outside (exec s)))%nat) ->
  hang \/ (budget e <= budget (outside (exec s0)))%nat.
Proof. unfold spent. destruct Hquiet as [Hh|Hq]; [by left|]. intros [Hh|H] He; [by left|]. specialize (He Hq). right. lia. Qed.
Lemma paid_spent s s' : paid s s' -> spent s s'.
Proof. intros [H|H]; [by left|right; lia]. Qed.
Lemma paid_later s s1 s2 : paid s s1 -> spent s1 s2 -> paid s s2.
Proof. unfold paid, spent. intros [H1|H1] [H2|H2]; solve [by left|right; lia]. Qed.
Lemma paid_earlier s s1 s2 : spent s s1 -> paid s1 s2 -> paid s s2.
Proof. unfold paid, spent. intros [H1|H1] [H2|H2]; solve [by left|right; lia]. Qed.

Lemma line_refl s : own Ours Ours (exec s) -> calm s s.
Proof. intros H. split; try done. apply spent_refl. Qed.
Lemma line_trans sw tw s0 s1 s2 : calm s0 s1 -> calm_at sw tw s1 s2 -> calm_at sw tw s0 s2.
Proof. intros [] []. split; try congruence; [auto|]. by eapply spent_trans. Qed.

Lemma connected_same s s' : shape (link s') = shape (link s) -> connected s -> connected s'.
Proof. intros E0 (sp & tp & E1). exists sp, tp. congruence. Qed.

(** ** The statics that exec does not see *)

Lemma calm_report sw tw s0 s f :
  told (f (report s)) = told (report s) -> calm_at sw tw s0 s -> calm_at sw tw s0 (on_report f s).
Proof. intros Hf []. split; try done. cbn. congruence. Qed.
Lemma calm_reader sw tw s0 s f : calm_at sw tw s0 s -> calm_at sw tw s0 (on_reader f s).
Proof. by intros []. Qed.
Lemma calm_set_session sw tw s0 s v : calm_at sw tw s0 s -> calm_at sw tw s0 (set_session (Some v) s).
Proof. by intros []. Qed.

(** ** exec *)

Lemma calm_exec sw tw sw' tw' s0 s x f :
  calm_at sw tw s0 s -> own sw' tw' x ->
  (Quiet budget -> (budget (outside x) <= budget (outside (exec s)))%nat) ->
  shape (f (link s)) = shape (link s) ->
  calm_at sw' tw' s0 (on_link f (set_exec x s)).
Proof. intros [] Hx He Hf. split; try done; [cbn; congruence|]. by apply (spent_to s0 s). Qed.
Lemma calm_exec_only sw tw sw' tw' s0 s x :
  calm_at sw tw s0 s -> own sw' tw' x ->
  (Quiet budget -> (budget (outside x) <= budget (outside (exec s)))%nat) ->
  calm_at sw' tw' s0 (set_exec x s).
Proof. intros [] Hx He. split; try done. by apply (spent_to s0 s). Qed.

Lemma own_blame sw tw x b : own sw tw x -> b = false -> own sw tw (blame b x).
Proof. intros (Hm & Hs & Ht) ->. unfold own, blame. cbn. by rewrite Hm. Qed.
Lemma own_outside sw tw x e : own sw tw x -> own sw tw (with_outside e x).
Proof. done. Qed.
Lemma own_serial_at sw tw x sw' b : own sw tw x -> own sw' tw (with_serial_at sw' b x).
Proof. intros (Hm & Hs & Ht). done. Qed.
Lemma own_timer_at sw tw x tw' b : own sw tw x -> own sw tw' (with_timer_at tw' b x).
Proof. intros (Hm & Hs & Ht). done. Qed.

Lemma set_req_shape q l : is_Some (serial_req l) -> shape (set_serial_req (Some q) l) = shape l.
Proof. intros [q0 Hq]. unfold shape. cbn. by rewrite Hq. Qed.
Lemma set_timer_shape t l : is_Some (timer_req l) -> shape (set_timer_req (Some t) l) = shape l.
Proof. intros [t0 Ht]. unfold shape. cbn. by rewrite Ht. Qed.

(** The serial device is open; what follows needs only that. *)
Definition serial_up s : Prop :=
  is_Some (serial_req (link s)) /\ serial_device (link s) = true.
Definition timer_up s : Prop :=
  is_Some (timer_req (link s)) /\ timer_device (link s) = true.

Lemma connected_up s : connected s ->
  serial_up s /\ timer_up s /\ serial_open (link s) = true /\ timer_open (link s) = true.
Proof.
  intros (sp & tp & H). unfold shape in H. injection H as _ Hr Hd Ho _ Ht Htd Hto.
  apply bool_decide_eq_true in Hr, Ht. done.
Qed.
Lemma up_calm sw tw s0 s : calm_at sw tw s0 s ->
  (serial_up s0 -> serial_up s) /\ (timer_up s0 -> timer_up s).
Proof.
  intros []. unfold shape in c_shape0. injection c_shape0 as _ Hr Hd _ _ Ht Htd _.
  unfold serial_up, timer_up. rewrite <-(bool_decide_eq_true (is_Some (serial_req (link s)))), Hr, Hd.
  rewrite <-(bool_decide_eq_true (is_Some (timer_req (link s)))), Ht, Htd.
  by rewrite !bool_decide_eq_true.
Qed.

Lemma serial_sendable_up tw s0 s :
  calm_at Ours tw s0 s -> serial_up s -> serial_sendable s = true.
Proof.
  intros [(_ & Hs & _)] [Hr Hd]. unfold serial_sendable. rewrite Hd, Hs, bool_decide_eq_true_2 by done. done.
Qed.
Lemma timer_sendable_up sw s0 s :
  calm_at sw Ours s0 s -> timer_up s -> timer_sendable s = true.
Proof.
  intros [(_ & _ & Hs)] [Hr Hd]. unfold timer_sendable. rewrite Hd, Hs, bool_decide_eq_true_2 by done. done.
Qed.

(** A store through [serial_req] or [timer_req]. *)
Lemma on_serial_calm tw s0 s f :
  serial_up s0 -> calm_at Ours tw s0 s ->
  wp hang (on_serial f) (fun _ s' => calm_at Ours tw s0 s' /\ serial_of s' = f (serial_of s)) s.
Proof.
  intros Hup H. pose proof (proj1 (up_calm _ _ _ _ H) Hup) as [[q Hq] _]. apply wp_modify.
  unfold serial_of. rewrite Hq. split; [|cbn; by rewrite Hq].
  eapply calm_exec; [exact H| | |].
  - apply own_blame; [apply (c_own _ _ _ _ H)|]. try rewrite Hq. done.
  - done.
  - unfold shape. cbn. by rewrite Hq.
Qed.
Lemma on_timer_calm sw s0 s f :
  timer_up s0 -> calm_at sw Ours s0 s ->
  wp hang (on_timer f) (fun _ s' => calm_at sw Ours s0 s' /\ serial_of s' = serial_of s) s.
Proof.
  intros Hup H. pose proof (proj2 (up_calm _ _ _ _ H) Hup) as [[q Hq] _]. apply wp_modify.
  split; [|done]. eapply calm_exec; [exact H| | |].
  - apply own_blame; [apply (c_own _ _ _ _ H)|]. try rewrite Hq. done.
  - done.
  - unfold shape. cbn. by rewrite Hq.
Qed.

Lemma DoIO_serial_calm s0 s :
  serial_up s0 -> calm s0 s ->
  wp hang (DoIO_serial env) (fun r s' => calm s0 s' /\ r = io_Error (serial_of s') /\
    exists e early, do_serial env (outside (exec s)) (serial_of s) = (e, serial_of s', early) /\
      outside (exec s') = e /\ reader s' = reader s /\ report s' = report s) s.
Proof.
  intros Hup H. pose proof (proj1 (up_calm _ _ _ _ H) Hup) as Hs. unfold wp, DoIO_serial.
  destruct (do_serial env (outside (exec s)) (serial_of s)) as [[e q] early] eqn:Ed.
  split; [|split; [done|by exists e, early]].
  eapply calm_exec; [exact H| | |].
  - apply own_blame; [|by rewrite (serial_sendable_up _ _ _ H)].
    destruct (c_own _ _ _ _ H) as (Hm & Hsa & Hta). done.
  - intros Hq. pose proof (q_do_serial (outside (exec s)) (serial_of s)) as Hb. by rewrite Ed in Hb.
  - by apply set_req_shape, Hs.
Qed.

Lemma DoIO_timer_calm s0 s :
  timer_up s0 -> calm s0 s ->
  wp hang (DoIO_timer env) (fun _ s' => calm s0 s' /\ serial_of s' = serial_of s) s.
Proof.
  intros Hup H. pose proof (proj2 (up_calm _ _ _ _ H) Hup) as Hs. unfold wp, DoIO_timer.
  destruct (do_timer env (outside (exec s)) (timer_of s)) as [[e er] early] eqn:Ed.
  split; [|done]. eapply calm_exec; [exact H| | |].
  - apply own_blame; [|by rewrite (timer_sendable_up _ _ _ H)].
    destruct (c_own _ _ _ _ H) as (Hm & Hsa & Hta). done.
  - intros Hq. pose proof (q_do_timer (outside (exec s)) (timer_of s)) as Hb. by rewrite Ed in Hb.
  - by apply set_timer_shape, Hs.
Qed.

(** *** A read under a timer *)

(** The request is back, or was: if it came back without an error, a read
    has been paid for. *)
Definition settled (w : whereabouts) s0 s : Prop :=
  w <> Out -> io_Error (serial_of s) = 0 -> paid s0 s.

Lemma SendIO_serial_calm s0 s :
  serial_up s0 -> calm s0 s ->
  wp hang (SendIO_serial env) (fun _ s' => calm_at Out Ours s0 s') s.
Proof.
  intros Hup H. pose proof (proj1 (up_calm _ _ _ _ H) Hup) as Hs. apply wp_modify.
  eapply calm_exec_only; [exact H| |].
  - apply own_blame; [|by rewrite (serial_sendable_up _ _ _ H)].
    destruct (c_own _ _ _ _ H) as (Hm & Hsa & Hta). done.
  - intros Hq. apply q_send_serial.
Qed.
Lemma SendIO_timer_calm sw s0 s :
  timer_up s0 -> calm_at sw Ours s0 s ->
  wp hang (SendIO_timer env) (fun _ s' => calm_at sw Out s0 s') s.
Proof.
  intros Hup H. pose proof (proj2 (up_calm _ _ _ _ H) Hup) as Hs. apply wp_modify.
  eapply calm_exec_only; [exact H| |].
  - apply own_blame; [|by rewrite (timer_sendable_up _ _ _ H)].
    destruct (c_own _ _ _ _ H) as (Hm & Hsa & Hta). done.
  - intros Hq. apply q_send_timer.
Qed.

Lemma serial_back_calm tw s0 s q :
  serial_up s0 -> calm_at Out tw s0 s ->
  exists w, calm_at w tw s0 (serial_back q s) /\ w <> Ours /\ (w = Out <-> q = None) /\
    serial_of (serial_back q s) = default (serial_of s) q.
Proof.
  intros Hup H. pose proof (proj1 (up_calm _ _ _ _ H) Hup) as [Hr _].
  destruct q as [q|]; [exists Back|exists Out]; [|by split_and!].
  split_and!; try done. eapply calm_exec; [exact H| | |by apply set_req_shape]; [|done].
  destruct (c_own _ _ _ _ H) as (Hm & Hsa & Hta). done.
Qed.
Lemma timer_back_calm sw s0 s b :
  calm_at sw Out s0 s ->
  exists w, calm_at sw w s0 (timer_back b s) /\ w <> Ours /\ serial_of (timer_back b s) = serial_of s.
Proof.
  intros H. destruct b; [exists Back|exists Out]; [|done]. split_and!; try done.
  eapply calm_exec_only; [exact H| |done]. destruct (c_own _ _ _ _ H) as (Hm & Hsa & Hta). done.
Qed.
Lemma clear_signals_calm sw tw s0 s :
  calm_at sw tw s0 s -> calm_at sw tw s0 (clear_signals s).
Proof.
  intros H. eapply calm_exec_only; [exact H| |done]. destruct (c_own _ _ _ _ H) as (Hm & Hsa & Hta). done.
Qed.
Lemma outside_calm sw tw s0 s e :
  calm_at sw tw s0 s -> (Quiet budget -> (budget e <= budget (outside (exec s)))%nat) ->
  calm_at sw tw s0 (set_exec (with_outside e (exec s)) s).
Proof. intros H He. eapply calm_exec_only; [exact H| |exact He]. apply (c_own _ _ _ _ H). Qed.

Lemma paid_to s0 s e :
  spent s0 s -> hang \/ (budget e < budget (outside (exec s)))%nat ->
  hang \/ (budget e < budget (outside (exec s0)))%nat.
Proof. unfold spent. intros [H1|H1] [H2|H2]; solve [by left|right; lia]. Qed.

Lemma outside_back q s : outside (exec (serial_back q s)) = outside (exec s).
Proof. by destruct q. Qed.
Lemma outside_timer b s : outside (exec (timer_back b s)) = outside (exec s).
Proof. by destruct b. Qed.

Lemma Wait_both_calm s0 s :
  serial_up s0 -> calm_at Out Out s0 s ->
  wp hang (Wait_both env) (fun _ s' => exists sw tw, calm_at sw tw s0 s' /\ sw <> Ours /\ tw <> Ours /\
    settled sw s0 s') s.
Proof.
  intros Hup H. apply wp_modify. set (s1 := set_exec (blame _ _) s).
  assert (H1 : calm_at Out Out s0 s1).
  { eapply calm_exec_only; [exact H| |done]. destruct (c_own _ _ _ _ H) as (Hm & Hsa & Hta).
    apply own_blame; [done|]. by rewrite Hsa, Hta. }
  clearbody s1. clear H. cbv zeta. destruct (serial_signal (exec s1) || timer_signal (exec s1)).
  { exists Out, Out. split; [by apply clear_signals_calm|].
    split; [done|]. split; [done|]. intros Hw. by destruct Hw. }
  destruct (sleep env (outside (exec s1)) (serial_of s1)) as [[e q] b] eqn:Es.
  assert (Hb : hang \/ (budget e <= budget (outside (exec s1)))%nat /\
    (forall q', q = Some q' -> io_Error q' = 0 -> (budget e < budget (outside (exec s1)))%nat)).
  { destruct Hquiet as [|Hq]; [by left|right]. pose proof (q_sleep (outside (exec s1)) (serial_of s1)) as Hb.
    by rewrite Es in Hb. }
  assert (H2 : calm_at Out Out s0 (set_exec (with_outside e (exec s1)) s1)).
  { apply outside_calm; [done|]. intros Hq. pose proof (q_sleep (outside (exec s1)) (serial_of s1)) as Hx.
    rewrite Es in Hx. apply Hx. }
  destruct (serial_back_calm _ _ _ q Hup H2) as (sw & H3 & Hsw & Hnone & Hof).
  destruct (timer_back_calm _ _ _ b H3) as (tw & H4 & Htw & Hof2).
  exists sw, tw. split; [by apply clear_signals_calm|]. split; [done|]. split; [done|].
  intros Hw Herr. destruct q as [q|]; [|by destruct Hw; apply Hnone].
  unfold paid. change (exec (clear_signals ?a)) with (exec (clear_signals a)).
  change (outside (exec (clear_signals ?a))) with (outside (exec a)). rewrite outside_timer, outside_back.
  change (serial_of (clear_signals ?a)) with (serial_of a) in Herr. rewrite Hof2, Hof in Herr.
  apply (paid_to s0 s1); [apply (c_spent _ _ _ _ H1)|]. cbn. destruct Hb as [|[_ Hb]]; [by left|right].
  by apply (Hb q).
Qed.

Lemma CheckIO_serial_calm sw tw s0 s :
  serial_up s0 -> calm_at sw tw s0 s -> settled sw s0 s ->
  wp hang (CheckIO_serial env) (fun done s' => exists w, calm_at w tw s0 s' /\
    (if done then (sw = Ours /\ w = Ours \/ w = Back) /\ settled w s0 s' else w = Out)) s.
Proof.
  intros Hup H Hset. unfold wp, CheckIO_serial. destruct (c_own _ _ _ _ H) as (Hm & Hsa & Hta).
  rewrite Hsa. destruct sw; [exists Ours; split; [done|split; [by left|done]]| |
    exists Back; split; [done|split; [by right|done]]].
  destruct (serial_done env (outside (exec s)) (serial_of s)) as [e q] eqn:Es.
  assert (H2 : calm_at Out tw s0 (set_exec (with_outside e (exec s)) s)).
  { apply outside_calm; [done|]. intros Hq. pose proof (q_serial_done (outside (exec s)) (serial_of s)) as Hx.
    rewrite Es in Hx. apply Hx. }
  destruct (serial_back_calm _ _ _ q Hup H2) as (w & H3 & Hw & Hnone & Hof). exists w. split; [done|].
  destruct q as [q|]; cbn [bool_decide]; [|by apply Hnone].
  assert (Ew : w = Back) by (destruct w; [by destruct Hw|by pose proof (proj1 Hnone eq_refl)|done]).
  split; [by right|]. intros _ Herr. rewrite Hof in Herr.
  apply (paid_to s0 s); [apply (c_spent _ _ _ _ H)|]. cbn.
  destruct Hquiet as [|Hq]; [by left|right]. pose proof (q_serial_done (outside (exec s)) (serial_of s)) as Hx.
  rewrite Es in Hx. by apply (proj2 Hx q).
Qed.

Lemma CheckIO_timer_calm sw tw s0 s :
  calm_at sw tw s0 s ->
  wp hang (CheckIO_timer env) (fun done s' => exists w, calm_at sw w s0 s' /\ serial_of s' = serial_of s /\
    spent s s' /\ (if done : bool then tw = Ours /\ w = Ours \/ w = Back else w = Out)) s.
Proof.
  intros H. unfold wp, CheckIO_timer. destruct (c_own _ _ _ _ H) as (Hm & Hsa & Hta).
  rewrite Hta. destruct tw.
  - exists Ours. split_and!; try done; [apply spent_refl|by left].
  - destruct (timer_done env (outside (exec s))) as [e b] eqn:Es.
    assert (Hb : Quiet budget -> (budget e <= budget (outside (exec s)))%nat).
    { intros Hq. pose proof (q_timer_done (outside (exec s))) as Hx. by rewrite Es in Hx. }
    assert (Hsp : spent s (timer_back b (set_exec (with_outside e (exec s)) s))).
    { unfold spent. rewrite outside_timer. cbn. destruct Hquiet as [|Hq]; [by left|right; by apply Hb]. }
    pose proof (outside_calm _ _ _ _ e H Hb) as H2.
    destruct b; [exists Back|exists Out]; (split; [|by auto]); [|exact H2].
    eapply calm_exec_only; [exact H2| |done]. done.
  - exists Back. split_and!; try done; [apply spent_refl|by right].
Qed.

Lemma WaitIO_serial_calm tw s0 s :
  calm_at Back tw s0 s ->
  wp hang (WaitIO_serial) (fun _ s' => calm_at Ours tw s0 s' /\ serial_of s' = serial_of s /\
    outside (exec s') = outside (exec s)) s.
Proof.
  intros H. apply wp_modify. split; [|done]. eapply calm_exec_only; [exact H| |done].
  destruct (c_own _ _ _ _ H) as (Hm & Hsa & Hta). apply own_blame; [done|]. by rewrite Hsa.
Qed.

Lemma WaitIO_timer_calm sw tw s0 s :
  tw <> Ours -> calm_at sw tw s0 s ->
  wp hang (WaitIO_timer env) (fun _ s' => calm_at sw Ours s0 s' /\ serial_of s' = serial_of s /\ spent s s') s.
Proof.
  intros Hw H. apply wp_modify. destruct (c_own _ _ _ _ H) as (Hm & Hsa & Hta). rewrite Hta.
  destruct tw; [done| |].
  - destruct (timer_expired env (outside (exec s))) as [e b] eqn:Es.
    assert (Hb : Quiet budget -> (budget e <= budget (outside (exec s)))%nat).
    { intros Hq. pose proof (q_timer_expired (outside (exec s))) as Hx. by rewrite Es in Hx. }
    split; [|split; [done|]].
    + eapply calm_exec_only; [exact H|done|exact Hb].
    + unfold spent. cbn. destruct Hquiet as [|Hq]; [by left|right; by apply Hb].
  - split; [|split; [done|right; cbn; lia]]. eapply calm_exec_only; [exact H| |done].
    by apply own_blame.
Qed.

Lemma abort_serial_calm sw tw s0 s :
  serial_up s0 -> sw <> Ours -> calm_at sw tw s0 s ->
  wp hang (abort_serial env) (fun _ s' => calm_at Ours tw s0 s') s.
Proof.
  intros Hup Hw H. pose proof (proj1 (up_calm _ _ _ _ H) Hup) as [Hr _].
  apply wp_modify. destruct (c_own _ _ _ _ H) as (Hm & Hsa & Hta). rewrite Hsa. destruct sw; [done| |].
  - destruct (serial_aborted env (outside (exec s)) (serial_of s)) as [[e q] b] eqn:Es.
    eapply calm_exec; [exact H|done| |by apply set_req_shape].
    intros Hq. pose proof (q_serial_aborted (outside (exec s)) (serial_of s)) as Hx. by rewrite Es in Hx.
  - eapply calm_exec_only; [exact H| |done]. by apply own_blame.
Qed.

Lemma abort_timer_calm sw tw s0 s :
  tw <> Ours -> calm_at sw tw s0 s ->
  wp hang (abort_timer env) (fun _ s' => calm_at sw Ours s0 s' /\ serial_of s' = serial_of s /\ spent s s') s.
Proof.
  intros Hw H. apply wp_modify. destruct (c_own _ _ _ _ H) as (Hm & Hsa & Hta). rewrite Hta.
  destruct tw; [done| |].
  - destruct (timer_aborted env (outside (exec s))) as [e b] eqn:Es.
    assert (Hb : Quiet budget -> (budget e <= budget (outside (exec s)))%nat).
    { intros Hq. pose proof (q_timer_aborted (outside (exec s))) as Hx. by rewrite Es in Hx. }
    split; [|split; [done|]].
    + eapply calm_exec_only; [exact H|done|exact Hb].
    + unfold spent. cbn. destruct Hquiet as [|Hq]; [by left|right; by apply Hb].
  - split; [|split; [done|right; cbn; lia]]. eapply calm_exec_only; [exact H| |done].
    by apply own_blame.
Qed.

(** ** Computations that leave the requests ours *)

(** The fuel of a flush covers every read the line can still satisfy. *)
Definition enough s : Prop := hang \/ (budget (outside (exec s)) < flush_fuel)%nat.
Lemma enough_later s s' : spent s s' -> enough s -> enough s'.
Proof. unfold spent, enough. intros [H1|H1] [H2|H2]; solve [by left|right; lia]. Qed.

(** Both devices are open. *)
Definition up s : Prop := serial_up s /\ timer_up s /\ enough s.
Lemma up_later sw tw s0 s : calm_at sw tw s0 s -> up s0 -> up s.
Proof.
  intros H (H1 & H2 & H3). destruct (up_calm _ _ _ _ H).
  split_and!; [auto..|]. eapply enough_later; [apply (c_spent _ _ _ _ H)|done].
Qed.

Definition keeps {A} (m : M st A) : Prop :=
  forall s, up s -> own Ours Ours (exec s) -> wp hang m (fun _ s' => calm s s') s.

Lemma keeps_use {A B} (m : M st A) (f : A -> M st B) Q s0 s :
  keeps m -> up s0 -> calm s0 s ->
  (forall a s', calm s0 s' -> spent s s' -> wp hang (f a) Q s') -> wp hang (m ≫= f) Q s.
Proof.
  intros Hm Hup H Hf. eapply wp_use; [apply Hm; [by eapply up_later|apply (c_own _ _ _ _ H)]|].
  cbn. intros a s' H'. apply Hf; [by eapply line_trans|apply (c_spent _ _ _ _ H')].
Qed.

Lemma keeps_ret {A} (a : A) : keeps (mret a).
Proof. intros s _ H. by apply wp_ret, line_refl. Qed.
Lemma keeps_gets {A} (f : st -> A) : keeps (gets f).
Proof. intros s _ H. by apply wp_gets, line_refl. Qed.
Lemma keeps_bind {A B} (m : M st A) (f : A -> M st B) : keeps m -> (forall a, keeps (f a)) -> keeps (m ≫= f).
Proof.
  intros Hm Hf s Hup Ho. eapply wp_use; [by apply Hm|]. cbn. intros a s1 H1.
  eapply wp_mono; [|apply (Hf a s1); [by eapply up_later|apply (c_own _ _ _ _ H1)]].
  cbn. intros b s2 H2. by eapply line_trans.
Qed.
Lemma keeps_if {A} (b : bool) (m1 m2 : M st A) : keeps m1 -> keeps m2 -> keeps (if b then m1 else m2).
Proof. by destruct b. Qed.
Lemma keeps_when b (m : M st unit) : keeps m -> keeps (when b m).
Proof. destruct b; [done|]. intros _. apply keeps_ret. Qed.
Lemma keeps_status f : (forall r, told (f r) = told r) -> keeps (status f).
Proof. intros Hf s _ H. apply wp_modify, calm_report; [apply Hf|by apply line_refl]. Qed.
Lemma keeps_reading f : keeps (reading f).
Proof. intros s _ H. by apply wp_modify, calm_reader, line_refl. Qed.
Lemma keeps_session v : keeps (modify (set_session (Some v))).
Proof. intros s _ H. by apply wp_modify, calm_set_session, line_refl. Qed.
Lemma keeps_on_serial f : keeps (on_serial f).
Proof.
  intros s Hup H. eapply wp_mono; [|apply (on_serial_calm Ours s s); [apply Hup|by apply line_refl]]. by intros ? ? [? _].
Qed.
Lemma keeps_on_timer f : keeps (on_timer f).
Proof.
  intros s Hup H. eapply wp_mono; [|apply (on_timer_calm Ours s s); [apply Hup|by apply line_refl]]. by intros ? ? [? _].
Qed.
Lemma keeps_DoIO_serial : keeps (DoIO_serial env).
Proof.
  intros s Hup H. eapply wp_mono; [|apply (DoIO_serial_calm s s); [apply Hup|by apply line_refl]]. by intros ? ? [? _].
Qed.
Lemma keeps_DoIO_timer : keeps (DoIO_timer env).
Proof.
  intros s Hup H. eapply wp_mono; [|apply (DoIO_timer_calm s s); [apply Hup|by apply line_refl]]. by intros ? ? [? _].
Qed.

(** The reports that leave the verdict of the last exchange alone. *)
Lemma told_failure d e v r : told (set_failure d e v r) = told r.
Proof. done. Qed.
Lemma keeps_failed d e v : keeps (failed d e v).
Proof. by apply keeps_status. Qed.
Lemma keeps_note_rx_diag v : keeps (note_rx_diag v).
Proof. by apply keeps_status. Qed.
Lemma keeps_note_hidden v : keeps (note_hidden v).
Proof.
  intros s _ H. unfold wp, note_hidden. destruct (fn_serial_note_hidden_overrun _ _ _).
  by apply calm_report, line_refl.
Qed.
Lemma keeps_stick e : keeps (stick e).
Proof. apply keeps_status. intros r. by destruct (channel_error r =? 0). Qed.

Create HintDb keeps.
#[local] Hint Resolve keeps_ret keeps_gets keeps_bind keeps_if keeps_when keeps_reading keeps_session
  keeps_on_serial keeps_on_timer keeps_DoIO_serial keeps_DoIO_timer keeps_failed keeps_note_rx_diag
  keeps_note_hidden keeps_stick : keeps.
Ltac keeps_step :=
  lazymatch goal with
  | |- keeps (mbind _ _) => apply keeps_bind; [|intros ?]
  | |- keeps (if _ then _ else _) => apply keeps_if
  | |- keeps (when _ _) => apply keeps_when
  | |- keeps (match ?x with _ => _ end) => destruct x
  | |- keeps (status _) => apply keeps_status; done
  | _ => solve [auto with keeps]
  end.
Ltac keeps_all := repeat keeps_step.

Lemma keeps_failed_serial d : keeps (failed_serial d).
Proof. unfold failed_serial. keeps_all. Qed.
Lemma keeps_check_hidden : keeps check_hidden.
Proof. unfold check_hidden. keeps_all. Qed.
Lemma keeps_query : keeps (query env).
Proof. unfold query. keeps_all. Qed.
#[local] Hint Resolve keeps_failed_serial keeps_check_hidden keeps_query : keeps.
Lemma keeps_serial_write buf len : keeps (serial_write env buf len).
Proof. unfold serial_write. keeps_all. Qed.
Lemma keeps_restore r : keeps (restore_failure r).
Proof. apply keeps_failed. Qed.
#[local] Hint Resolve keeps_serial_write keeps_restore : keeps.

(** A read under a timer; a successful one is paid for. *)
Lemma serial_cmd_read_spec buf len ms rc s :
  up s -> own Ours Ours (exec s) ->
  wp hang (serial_cmd_read env buf len ms rc) (fun r s' => calm s s' /\ (r.1 = FN_OK -> paid s s')) s.
Proof.
  intros Hup Ho. unfold serial_cmd_read. wp_step. wp_step. wp_step.
  { apply wp_ret. split; [by apply line_refl|cbv beta]. intros Hx. by destruct (fn_err_io_ok Hx). }
  eapply wp_use; [apply (on_serial_calm Ours s s); [apply Hup|by apply line_refl]|cbv beta]. intros _ s1 [H1 _].
  eapply wp_use; [apply (SendIO_serial_calm s s1); [apply Hup|done]|cbv beta]. intros _ s2 H2.
  eapply wp_use; [apply (on_timer_calm Out s s2); [apply Hup|done]|cbv beta]. intros _ s3 [H3 _].
  eapply wp_use; [apply (SendIO_timer_calm Out s s3); [apply Hup|done]|cbv beta]. intros _ s4 H4.
  eapply wp_use; [apply (Wait_both_calm s s4); [apply Hup|done]|cbv beta]. intros _ s5 (sw & tw & H5 & Hsw & Htw & Hset).
  eapply wp_use; [apply (CheckIO_serial_calm sw tw s s5); [apply Hup|done|done]|].
  intros b s6 (w & H6 & Hw). wp_step.
  - destruct b; [done|]. subst w.
    eapply wp_use; [apply (abort_serial_calm Out tw s s6); [apply Hup|done|done]|cbv beta]. intros _ s7 H7.
    eapply wp_use; [apply (WaitIO_timer_calm Ours tw s s7); [done|done]|cbv beta]. intros _ s8 (H8 & _ & _).
    apply (keeps_use _ _ _ s s8); [auto with keeps|done|done|]. intros _ s9 G9 _.
    wp_step. wp_step. wp_step. split; [done|]. intros Hx. by destruct (fn_err_timeout_ok Hx).
  - destruct b; [|done]. destruct Hw as [[[? ?]| ->] Hpaid]; [done|].
    eapply wp_use; [apply (WaitIO_serial_calm tw s s6); done|cbv beta]. intros _ s7 (H7 & E7 & O7).
    eapply wp_use; [apply (CheckIO_timer_calm Ours tw s s7); done|cbv beta]. intros e s8 (tw' & H8 & E8 & P8 & Hw8).
    assert (Htw' : tw' <> Ours) by (destruct e; [destruct Hw8 as [[? ?]| ->]|subst tw']; done).
    eapply wp_use with (P := fun _ s' => calm s s' /\ serial_of s' = serial_of s8 /\ spent s8 s').
    { wp_step; [by apply (abort_timer_calm Ours tw' s s8)|by apply (WaitIO_timer_calm Ours tw' s s8)]. }
    cbv beta. intros _ s9 (H9 & E9 & P9). wp_step. wp_step. wp_step.
    + apply (keeps_use _ _ _ s s9); [auto with keeps|done|done|]. intros _ s10 G10 _.
      wp_step. split; [done|]. intros Hx. by destruct (fn_err_io_ok Hx).
    + assert (Herr : io_Error (serial_of s6) = 0) by (rewrite <-E7, <-E8, <-E9; lia).
      assert (Hp : paid s s9).
      { eapply paid_later; [by apply Hpaid|]. eapply spent_trans; [|exact P9].
        unfold spent in *. by rewrite <-O7. }
      apply (keeps_use _ _ _ s s9); [auto with keeps|done|done|]. intros _ s10 G10 P10.
      apply (keeps_use _ _ _ s s10); [auto with keeps|done|done|]. intros _ s11 G11 P11.
      wp_step. split; [done|]. intros _. eapply paid_later; [|exact P11]. by eapply paid_later.
Qed.

Lemma keeps_cmd_read buf len ms rc : keeps (serial_cmd_read env buf len ms rc).
Proof. intros s Hup H. eapply wp_mono; [|by apply serial_cmd_read_spec]. by intros ? ? [? _]. Qed.
#[local] Hint Resolve keeps_cmd_read : keeps.

Lemma keeps_note_byte_got v : keeps (note_byte_got v).
Proof. apply keeps_reading. Qed.
Lemma keeps_reader_query : keeps (reader_query env).
Proof. unfold reader_query. keeps_all. Qed.
Lemma keeps_capture_leftover dst max : keeps (capture_leftover env dst max).
Proof. unfold capture_leftover. keeps_all. Qed.
Lemma keeps_forget_input : keeps forget_input.
Proof. apply keeps_reading. Qed.
#[local] Hint Resolve keeps_note_byte_got keeps_reader_query keeps_capture_leftover keeps_forget_input : keeps.

(** The poll ends after as many turns as there are milliseconds. *)
Lemma keeps_poll_loop fuel : forall remaining,
  is_u16 remaining -> (Z.to_nat remaining < fuel)%nat -> keeps (poll_loop env fuel remaining).
Proof.
  induction fuel as [|fuel IH]; intros remaining Hr Hf; [lia|]. cbn [poll_loop].
  destruct (Z.eqb_spec remaining 0) as [|Hne]; [apply keeps_ret|].
  assert (E1 : (if remaining >? FN_SERIAL_BACKEND_POLL_MS then FN_SERIAL_BACKEND_POLL_MS else remaining) = 1).
  { unfold FN_SERIAL_BACKEND_POLL_MS, is_u16 in *. destruct (remaining >? 1) eqn:E1; lia. }
  rewrite E1. assert (E2 : u16 (remaining - 1) = remaining - 1) by (apply u16_id; unfold is_u16 in *; lia).
  rewrite E2. specialize (IH (remaining - 1)). keeps_all. apply IH; unfold is_u16 in *; lia.
Qed.

Lemma keeps_serial_read_byte ms : is_u16 ms -> keeps (serial_read_byte env ms).
Proof.
  intros Hms. pose proof (keeps_poll_loop (Datatypes.S (Z.to_nat ms)) ms Hms ltac:(lia)) as Hp.
  unfold serial_read_byte. keeps_all.
Qed.
Lemma keeps_write_bytes data len : keeps (session_write_bytes env data len).
Proof. unfold session_write_bytes. keeps_all. Qed.
Lemma keeps_read_byte ms : is_u16 ms -> keeps (session_read_byte env ms).
Proof.
  intros Hms. pose proof (keeps_serial_read_byte ms Hms). unfold session_read_byte. keeps_all.
Qed.

(** A drain that has seen something has read it. *)
Definition drained s (r : Z * bool) s' : Prop := calm s s' /\ (r.1 = FN_OK -> r.2 = true -> paid s s').

(** The read of a drain and what follows it. *)
Lemma drain_read_spec s s1 buf len (k : Z * list Z -> M st (Z * bool)) :
  up s -> calm s s1 ->
  (forall r, keeps (k r)) ->
  (forall r s2, r.1 <> FN_OK -> wp True (k r) (fun a _ => a.1 = FN_OK -> a.2 = false) s2) ->
  wp hang (serial_cmd_read env buf len FN_SERIAL_BACKEND_TIMEOUT_MS false ≫= k) (drained s) s1.
Proof.
  intros Hup G1 Hk Hbad.
  eapply wp_use; [apply serial_cmd_read_spec; [by eapply up_later|apply (c_own _ _ _ _ G1)]|cbv beta].
  intros r s2 [G2 Hp]. assert (G : calm s s2) by by eapply line_trans.
  pose proof (Hk r s2 (up_later _ _ _ _ G Hup) (c_own _ _ _ _ G)) as Hw. specialize (Hbad r s2).
  unfold wp in *. destruct (k r s2) as [[a s3]|]; [|done]. split; [by eapply line_trans|].
  intros Ha Hb. destruct (Z.eq_dec r.1 FN_OK) as [E0|E0]; [|by rewrite (Hbad E0 Ha) in Hb].
  eapply paid_later; [|apply (c_spent _ _ _ _ Hw)]. eapply paid_earlier; [apply (c_spent _ _ _ _ G1)|]. by apply Hp.
Qed.

Lemma drain_read_once_spec s :
  up s -> own Ours Ours (exec s) -> wp hang (drain_query_and_read env) (drained s) s.
Proof.
  intros Hup Ho. unfold drain_query_and_read. wp_step. wp_step. wp_step; [wp_step; split; [by apply line_refl|done]|].
  apply (keeps_use _ _ _ s s); [auto with keeps|done|by apply line_refl|]. intros e s1 G1 P1. wp_step.
  { apply (keeps_use _ _ _ s s1); [auto with keeps|done|done|]. intros _ s2 G2 P2.
    apply (keeps_use _ _ _ s s2); [auto with keeps|done|done|]. intros _ s3 G3 P3. wp_step. by split. }
  do 2 wp_step. wp_step; [|wp_step; [wp_step; by split|do 2 wp_step]];
    (apply drain_read_spec; [done|done|intros [rc b]; keeps_all|]); intros [rc b] s2 Hrc; cbn [fst] in Hrc;
    apply Z.eqb_neq in Hrc; rewrite Hrc; cbn; intros _; reflexivity.
Qed.

Lemma flush_loop_spec fuel : forall s,
  up s -> own Ours Ours (exec s) -> hang \/ (budget (outside (exec s)) < fuel)%nat ->
  wp hang (flush_loop env fuel) (fun _ s' => calm s s') s.
Proof.
  induction fuel as [|fuel IH]; intros s Hup Ho Hf; [destruct Hf as [|]; [done|lia]|]. cbn [flush_loop].
  eapply wp_use; [by apply drain_read_once_spec|]. intros [rc saw] s1 [G1 Hp]. cbn [fst snd] in Hp.
  wp_step; [by wp_step|]. apply orb_false_iff in H as [Hrc Hsaw].
  destruct saw; [|done]. apply negb_false_iff, Z.eqb_eq in Hrc. specialize (Hp Hrc eq_refl).
  eapply wp_mono; [|apply IH; [by eapply up_later|apply (c_own _ _ _ _ G1)|]].
  - cbn. intros _ s2 G2. by eapply line_trans.
  - unfold paid in Hp. destruct Hf as [|Hf]; [by left|]. destruct Hp as [|Hp]; [by left|right; lia].
Qed.

Lemma keeps_session_flush : keeps (session_flush env flush_fuel).
Proof.
  intros s Hup Ho. unfold session_flush.
  apply (keeps_use _ _ _ s s); [auto with keeps|done|by apply line_refl|]. intros _ s1 G1 P1. wp_step. wp_step.
  wp_step; [|done]. eapply wp_mono; [|apply flush_loop_spec; [by eapply up_later|apply (c_own _ _ _ _ G1)|]].
  - cbn. intros _ s2 G2. by eapply line_trans.
  - eapply enough_later; [exact P1|apply Hup].
Qed.

(** The drain after a fault ends: at most 1024 turns read and 101 wait. *)
Lemma keeps_drain_loop fuel : forall empty_ms waited_ms steps,
  is_u16 empty_ms -> 0 <= steps < 1024 -> 0 <= waited_ms <= 1000 -> (10 | waited_ms) ->
  1024 - steps + (1010 - waited_ms) / 10 <= Z.of_nat fuel ->
  keeps (drain_loop env fuel empty_ms waited_ms steps).
Proof.
  induction fuel as [|fuel IH]; intros empty_ms waited_ms steps He Hs Hw Hd Hf.
  { exfalso. assert (0 <= (1010 - waited_ms) / 10) by (apply Z.div_pos; lia). lia. }
  cbn [drain_loop]. apply keeps_bind.
  { intros s Hup Ho. eapply wp_mono; [|by apply drain_read_once_spec]. by intros ? ? [? _]. }
  intros [rc saw]. destruct (negb (rc =? FN_OK)); [apply keeps_ret|].
  unfold fn_serial_drain_after_fault_step. destruct saw.
  - change (FN_SERIAL_DRAIN_KEEP =? FN_SERIAL_DRAIN_DONE) with false. cbv iota.
    rewrite (u16_id (steps + 1)) by (unfold is_u16; lia).
    destruct (Z.geb_spec (steps + 1) 1024); [apply keeps_ret|]. apply IH; try done; lia.
  - destruct (_ || _) eqn:Eg; [apply keeps_ret|].
    change (FN_SERIAL_DRAIN_KEEP =? FN_SERIAL_DRAIN_DONE) with false. cbv iota.
    unfold FN_SERIAL_DRAIN_IDLE_MS, FN_SERIAL_DRAIN_CAP_MS in Eg.
    unfold FN_SERIAL_DRAIN_SLICE_MS. unfold is_u16 in He. destruct Hd as [k ->].
    rewrite (u16_id (k * 10 + 10)) by (unfold is_u16; lia). rewrite (u16_id (empty_ms + 10)) by (unfold is_u16; lia).
    assert (Hd2 : (1010 - (k * 10 + 10)) / 10 = (1010 - k * 10) / 10 - 1)
      by (replace (1010 - (k * 10 + 10)) with (1010 - k * 10 + (-1) * 10) by lia; rewrite Z.div_add by lia; lia).
    keeps_all. apply IH; [unfold is_u16; lia|lia|lia|exists (k + 1); lia|lia].
Qed.

Lemma keeps_until_idle : keeps (session_flush_until_idle env flush_fuel).
Proof.
  unfold session_flush_until_idle. apply keeps_bind; [auto with keeps|intros _]. apply keeps_bind; [auto with keeps|intros l].
  apply keeps_if; [apply keeps_session_flush|]. apply keeps_drain_loop; try done; [lia..|by exists 0].
Qed.

(** A program of the library whose reads have 16-bit timeouts. *)
Inductive prog_ok {A} : prog A -> Prop :=
  | ok_done a : prog_ok (Done a)
  | ok_open k : (forall r, prog_ok (k r)) -> prog_ok (OpenChannel k)
  | ok_close k : prog_ok k -> prog_ok (CloseChannel k)
  | ok_byte v k : (forall r, prog_ok (k r)) -> prog_ok (WriteByte v k)
  | ok_bytes v k : (forall r, prog_ok (k r)) -> prog_ok (WriteBytes v k)
  | ok_read ms k : is_u16 ms -> (forall r, prog_ok (k r)) -> prog_ok (ReadByte ms k)
  | ok_flush k : prog_ok k -> prog_ok (Flush k).

Lemma keeps_run {A} (p : prog A) : prog_ok p -> keeps (run env flush_fuel p).
Proof.
  induction 1; cbn [run]; [auto with keeps|done|done| | | |]; (apply keeps_bind; [|by intros ?]).
  - apply keeps_write_bytes.
  - apply keeps_write_bytes.
  - by apply keeps_read_byte.
  - apply keeps_session_flush.
Qed.

(** ** An exchange *)

Lemma keeps_peek : keeps (peek_leftover env).
Proof. unfold peek_leftover. keeps_all. Qed.
#[local] Hint Resolve keeps_peek : keeps.
Lemma keeps_diagnose : keeps (diagnose_timeout env).
Proof. unfold diagnose_timeout. keeps_all. Qed.
Lemma keeps_settle r : keeps (settle env flush_fuel r).
Proof. pose proof keeps_until_idle. unfold settle. keeps_all. Qed.

(** The library passes timeouts as 16-bit numbers. *)
Class LibraryOk : Prop := {
  lo_init : prog_ok (fn_stream_session_init lib);
  lo_open v : prog_ok (fn_stream_session_open lib v);
  lo_close v : prog_ok (fn_stream_session_close lib v);
  lo_request v q n r c ms : is_u16 ms -> prog_ok (fn_stream_session_request lib v q n r c ms)
}.
Context {Hlib : LibraryOk}.

Lemma keeps_converse v q n r c : keeps (converse env lib flush_fuel v q n r c).
Proof.
  pose proof keeps_diagnose. unfold converse. keeps_step; [keeps_step|]. keeps_step; [auto with keeps|].
  keeps_step; [apply keeps_run, lo_request; unfold is_u16, FN_SERIAL_BACKEND_TIMEOUT_MS; lia|].
  destruct a1 as [[[sr resp] len] v2]. keeps_all.
Qed.

(** ** Taking down *)

Lemma reclaim_serial_own s : own Ours Ours (exec s) -> reclaim_serial env s = Some (tt, s).
Proof.
  intros (Hm & Hs & Ht). unfold reclaim_serial, mbind, M_bind, gets, when, CheckIO_serial.
  destruct (serial_device (link s)); [|done]. by rewrite Hs.
Qed.
Lemma reclaim_timer_own s : own Ours Ours (exec s) -> reclaim_timer env s = Some (tt, s).
Proof.
  intros (Hm & Hs & Ht). unfold reclaim_timer, mbind, M_bind, gets, when, CheckIO_timer.
  destruct (timer_device (link s)); [|done]. by rewrite Ht.
Qed.

(** What the take-down of a device leaves alone. *)
Definition rest s := (reader s, report s, settings s, session s, session_initialized s).

(** A port, its request and its device: built in this order. *)
Definition built (port req device open : bool) : Prop :=
  open = device /\ (device = true -> req = true) /\ (req = true -> port = true).

Definition serial_side l := (serial_port l, bool_decide (is_Some (serial_req l)), serial_device l, serial_open l).
Definition timer_side l := (timer_port l, bool_decide (is_Some (timer_req l)), timer_device l, timer_open l).
Lemma shape_sides l : shape l = (serial_side l, timer_side l).
Proof. done. Qed.
Definition nothing : bool * bool * bool * bool := (false, false, false, false).
Definition side_ok (x : bool * bool * bool * bool) : Prop :=
  let '(p, r, d, o) := x in built p r d o.

(** From [s0] on, only exec's side has changed; now the devices are at [ss]
    and [ts]. *)
Record sides ss ts s0 s : Prop := {
  sd_own : own Ours Ours (exec s);
  sd_serial : serial_side (link s) = ss;
  sd_timer : timer_side (link s) = ts;
  sd_rest : rest s = rest s0;
  sd_spent : spent s0 s
}.

Lemma sides_exec ss ts ss' ts' s0 s x f :
  sides ss ts s0 s -> own Ours Ours x ->
  (Quiet budget -> (budget (outside x) <= budget (outside (exec s)))%nat) ->
  serial_side (f (link s)) = ss' -> timer_side (f (link s)) = ts' ->
  sides ss' ts' s0 (on_link f (set_exec x s)).
Proof. intros [] Hx He H1 H2. split; try done. by apply (spent_to s0 s). Qed.
Lemma sides_link ss ts ss' ts' s0 s f :
  sides ss ts s0 s -> serial_side (f (link s)) = ss' -> timer_side (f (link s)) = ts' ->
  sides ss' ts' s0 (on_link f s).
Proof. intros [] H1 H2. by split. Qed.

Lemma serial_side_eq s p r d o : serial_side (link s) = (p, r, d, o) ->
  serial_port (link s) = p /\ bool_decide (is_Some (serial_req (link s))) = r /\
  serial_device (link s) = d /\ serial_open (link s) = o.
Proof. unfold serial_side. by intros [= -> -> -> ->]. Qed.
Lemma timer_side_eq s p r d o : timer_side (link s) = (p, r, d, o) ->
  timer_port (link s) = p /\ bool_decide (is_Some (timer_req (link s))) = r /\
  timer_device (link s) = d /\ timer_open (link s) = o.
Proof. unfold timer_side. by intros [= -> -> -> ->]. Qed.

(** The blame of each step of the take-down is none. *)
Ltac sides_tac H :=
  apply wp_modify; eapply sides_exec;
  [exact H|apply own_blame; [exact (sd_own _ _ _ _ H)|]| | |].

Lemma CloseDevice_timer_sides ss p o s0 s :
  sides ss (p, true, true, o) s0 s ->
  wp hang (CloseDevice_timer env) (fun _ s' => sides ss (p, true, false, o) s0 s') s.
Proof.
  intros H. destruct (timer_side_eq _ _ _ _ _ (sd_timer _ _ _ _ H)) as (Hp & Hr & Hd & Ho).
  destruct (sd_own _ _ _ _ H) as (_ & _ & Hta). sides_tac H.
  - unfold timer_sendable. by rewrite Hr, Hd, Hta.
  - intros Hq. apply q_close_timer.
  - apply (sd_serial _ _ _ _ H).
  - unfold timer_side. cbn. by rewrite Hp, Hr, Ho.
Qed.
Lemma CloseDevice_serial_sides ts p o s0 s :
  sides (p, true, true, o) ts s0 s ->
  wp hang (CloseDevice_serial env) (fun _ s' => sides (p, true, false, o) ts s0 s') s.
Proof.
  intros H. destruct (serial_side_eq _ _ _ _ _ (sd_serial _ _ _ _ H)) as (Hp & Hr & Hd & Ho).
  destruct (sd_own _ _ _ _ H) as (_ & Hta & _). sides_tac H.
  - unfold serial_sendable. by rewrite Hr, Hd, Hta.
  - intros Hq. apply q_close_serial.
  - unfold serial_side. cbn. by rewrite Hp, Hr, Ho.
  - apply (sd_timer _ _ _ _ H).
Qed.
Lemma DeleteExtIO_timer_sides ss p r o s0 s :
  sides ss (p, r, false, o) s0 s ->
  wp hang (DeleteExtIO_timer env) (fun _ s' => sides ss (p, false, false, o) s0 s') s.
Proof.
  intros H. destruct (timer_side_eq _ _ _ _ _ (sd_timer _ _ _ _ H)) as (Hp & Hr & Hd & Ho).
  destruct (sd_own _ _ _ _ H) as (_ & _ & Hta). sides_tac H.
  - by rewrite Hd, Hta.
  - intros Hq. apply q_delete_extio.
  - apply (sd_serial _ _ _ _ H).
  - unfold timer_side. cbn. by rewrite Hp, Hd, Ho.
Qed.
Lemma DeleteExtIO_serial_sides ts p r o s0 s :
  sides (p, r, false, o) ts s0 s ->
  wp hang (DeleteExtIO_serial env) (fun _ s' => sides (p, false, false, o) ts s0 s') s.
Proof.
  intros H. destruct (serial_side_eq _ _ _ _ _ (sd_serial _ _ _ _ H)) as (Hp & Hr & Hd & Ho).
  destruct (sd_own _ _ _ _ H) as (_ & Hta & _). sides_tac H.
  - by rewrite Hd, Hta.
  - intros Hq. apply q_delete_extio.
  - unfold serial_side. cbn. by rewrite Hp, Hd, Ho.
  - apply (sd_timer _ _ _ _ H).
Qed.
Lemma DeletePort_timer_sides ss p d o s0 s :
  sides ss (p, false, d, o) s0 s ->
  wp hang (DeletePort_timer env) (fun _ s' => sides ss (false, false, d, o) s0 s') s.
Proof.
  intros H. destruct (timer_side_eq _ _ _ _ _ (sd_timer _ _ _ _ H)) as (Hp & Hr & Hd & Ho). sides_tac H.
  - done.
  - intros Hq. apply q_delete_port.
  - apply (sd_serial _ _ _ _ H).
  - unfold timer_side. cbn. by rewrite Hr, Hd, Ho.
Qed.
Lemma DeletePort_serial_sides ts p d o s0 s :
  sides (p, false, d, o) ts s0 s ->
  wp hang (DeletePort_serial env) (fun _ s' => sides (false, false, d, o) ts s0 s') s.
Proof.
  intros H. destruct (serial_side_eq _ _ _ _ _ (sd_serial _ _ _ _ H)) as (Hp & Hr & Hd & Ho). sides_tac H.
  - done.
  - intros Hq. apply q_delete_port.
  - unfold serial_side. cbn. by rewrite Hr, Hd, Ho.
  - apply (sd_timer _ _ _ _ H).
Qed.

Lemma release_timer_spec ss ts s0 s :
  sides ss ts s0 s -> side_ok ts -> wp hang (release_timer env) (fun _ s' => sides ss nothing s0 s') s.
Proof.
  intros H Hside. destruct ts as [[[p r] d] o]. destruct Hside as (-> & H1 & H2).
  destruct (timer_side_eq _ _ _ _ _ (sd_timer _ _ _ _ H)) as (Hp & Hr & Hd & Ho).
  unfold release_timer. wp_step. wp_step. rewrite Hr, Ho, Hp.
  eapply wp_use with (P := fun _ s' => s' = s).
  { wp_step; [|done]. unfold wp. by rewrite (reclaim_timer_own s (sd_own _ _ _ _ H)). }
  cbv beta. intros _ s1 ->.
  eapply wp_use with (P := fun _ s' => sides ss (p, r, false, false) s0 s').
  { destruct d; [|done]. rewrite H1 in * by done. cbn [when].
    eapply wp_use; [by apply CloseDevice_timer_sides|cbv beta]. intros _ s1 G1. wp_step.
    eapply sides_link; [exact G1|exact (sd_serial _ _ _ _ G1)|].
    destruct (timer_side_eq _ _ _ _ _ (sd_timer _ _ _ _ G1)) as (E1 & E2 & E3 & E4).
    unfold timer_side. cbn. by rewrite E1, E2, E3. }
  cbv beta. intros _ s1 G1.
  eapply wp_use with (P := fun _ s' => sides ss (p, false, false, false) s0 s').
  { destruct r; [|done]. cbn [when]. by eapply DeleteExtIO_timer_sides. }
  cbv beta. intros _ s2 G2. destruct p; [|done]. cbn [when]. by eapply DeletePort_timer_sides.
Qed.
Lemma release_serial_spec ss ts s0 s :
  sides ss ts s0 s -> side_ok ss -> wp hang (release_serial env) (fun _ s' => sides nothing ts s0 s') s.
Proof.
  intros H Hside. destruct ss as [[[p r] d] o]. destruct Hside as (-> & H1 & H2).
  destruct (serial_side_eq _ _ _ _ _ (sd_serial _ _ _ _ H)) as (Hp & Hr & Hd & Ho).
  unfold release_serial. wp_step. wp_step. rewrite Hr, Ho, Hp.
  eapply wp_use with (P := fun _ s' => s' = s).
  { wp_step; [|done]. unfold wp. by rewrite (reclaim_serial_own s (sd_own _ _ _ _ H)). }
  cbv beta. intros _ s1 ->.
  eapply wp_use with (P := fun _ s' => sides (p, r, false, false) ts s0 s').
  { destruct d; [|done]. rewrite H1 in * by done. cbn [when].
    eapply wp_use; [by apply CloseDevice_serial_sides|cbv beta]. intros _ s1 G1. wp_step.
    eapply sides_link; [exact G1| |exact (sd_timer _ _ _ _ G1)].
    destruct (serial_side_eq _ _ _ _ _ (sd_serial _ _ _ _ G1)) as (E1 & E2 & E3 & E4).
    unfold serial_side. cbn. by rewrite E1, E2, E3. }
  cbv beta. intros _ s1 G1.
  eapply wp_use with (P := fun _ s' => sides (p, false, false, false) ts s0 s').
  { destruct r; [|done]. cbn [when]. by eapply DeleteExtIO_serial_sides. }
  cbv beta. intros _ s2 G2. destruct p; [|done]. cbn [when]. by eapply DeletePort_serial_sides.
Qed.

(** ** Between calls *)

Definition session_ok s : Prop :=
  session_initialized s = true ->
  serial_open (link s) = true /\ timer_open (link s) = true /\ is_Some (session s).

(** The backend at rest: both requests ours, each side built in order, and a
    session only when both devices are open. *)
Record sound s : Prop := {
  so_own : own Ours Ours (exec s);
  so_serial : side_ok (serial_side (link s));
  so_timer : side_ok (timer_side (link s));
  so_session : session_ok s
}.

(** Nothing is left of it but the settings and the last diagnostics. *)
Record released s0 s : Prop := {
  re_own : own Ours Ours (exec s);
  re_serial : serial_side (link s) = nothing;
  re_timer : timer_side (link s) = nothing;
  re_session : session s = None;
  re_initialized : session_initialized s = false;
  re_reader : read_pos (reader s) = 0 /\ read_len (reader s) = 0;
  re_settings : settings s = settings s0;
  re_told : told (report s) = told (report s0);
  re_spent : spent s0 s
}.

Lemma side_open p r d o : side_ok (p, r, d, o) -> o = true -> (p, r, d, o) = (true, true, true, true).
Proof. intros (-> & H1 & H2) ->. by rewrite H2, H1 by auto. Qed.

Lemma sound_up s : sound s -> enough s ->
  serial_open (link s) = true -> timer_open (link s) = true -> up s.
Proof.
  intros [_ Hs Ht _] Hf H1 H2. unfold serial_side, timer_side in *.
  apply side_open in Hs, Ht; [|done..]. injection Hs as _ Hr Hd _. injection Ht as _ Htr Htd _.
  apply bool_decide_eq_true in Hr, Htr. done.
Qed.

Lemma sound_calm s s' : calm s s' -> sound s -> sound s'.
Proof.
  intros [] [_ H1 H2 H3]. rewrite !shape_sides in c_shape0. injection c_shape0 as E1 E2.
  assert (F1 : serial_side (link s') = serial_side (link s)) by (unfold serial_side; congruence).
  assert (F2 : timer_side (link s') = timer_side (link s)) by (unfold timer_side; congruence).
  split; [done|by rewrite F1|by rewrite F2|]. unfold session_ok in *. rewrite c_session0. intros Hi.
  destruct (H3 Hi) as (Ho & Hto & Hse). split; [|split; [|auto]]; unfold serial_side, timer_side in *; congruence.
Qed.

Lemma sound_released s0 s : released s0 s -> sound s.
Proof.
  intros []. split; [done| | |]; [by rewrite re_serial0|by rewrite re_timer0|].
  unfold session_ok. by rewrite re_initialized0.
Qed.

(** The session goes first, while its devices are open. *)
Lemma close_session_spec s :
  sound s -> enough s ->
  wp hang (close_session env lib flush_fuel)
    (fun _ s' => sides (serial_side (link s)) (timer_side (link s)) s' s' /\ spent s s' /\
       settings s' = settings s /\ told (report s') = told (report s) /\ session_initialized s' = false) s.
Proof.
  intros H Hf. unfold close_session. wp_step. wp_step. wp_step.
  2:{ split; [|split; [apply spent_refl|done]]. split; try done; [apply (so_own _ H)|apply spent_refl]. }
  destruct (so_session _ H H0) as (Ho & Hto & [v Hv]). wp_step. wp_step. rewrite Hv.
  pose proof (sound_up _ H Hf Ho Hto) as Hup.
  eapply wp_use with (P := fun _ s' => calm s s').
  { apply (keeps_use _ _ _ s s); [apply keeps_run, lo_close|done|apply line_refl, (so_own _ H)|].
    intros v2 s1 G1 _. wp_step. by apply calm_set_session. }
  cbv beta. intros _ s1 G1. wp_step. destruct G1. rewrite !shape_sides in c_shape0. injection c_shape0 as E1 E2.
  split; [|split_and!; done]. split; try done; [..|apply spent_refl];
    unfold serial_side, timer_side; cbn; congruence.
Qed.

Lemma backend_close_spec s :
  sound s -> enough s -> wp hang (backend_close env lib flush_fuel) (fun _ s' => released s s') s.
Proof.
  intros H Hf. unfold backend_close, forget_input, status, reading.
  eapply wp_use; [by apply close_session_spec|cbv beta]. intros _ s1 (G1 & P1 & E1 & T1 & I1).
  do 3 (wp_step; wp_step). set (s2 := on_report _ _).
  assert (G2 : sides (serial_side (link s)) (timer_side (link s)) s2 s2 /\ spent s s2 /\
    session s2 = None /\ session_initialized s2 = false /\ settings s2 = settings s /\
    told (report s2) = told (report s) /\ read_pos (reader s2) = 0 /\ read_len (reader s2) = 0).
  { destruct G1. split_and!; try done. }
  clearbody s2. destruct G2 as (G2 & P2 & Q1 & Q2 & Q3 & Q4 & Q5 & Q6).
  eapply wp_use; [eapply release_timer_spec; [exact G2|apply (so_timer _ H)]|cbv beta]. intros _ s3 G3.
  eapply wp_mono; [|eapply release_serial_spec; [exact G3|apply (so_serial _ H)]]. cbn. intros _ s4 [].
  unfold rest in sd_rest0. injection sd_rest0 as R1 R2 R3 R4 R5. split; try congruence.
  - by rewrite R1.
  - by eapply spent_trans.
Qed.

(** ** Building up *)

Lemma CreatePort_serial_sides ts p r d o s0 s :
  sides (p, r, d, o) ts s0 s -> p = false ->
  wp hang (CreatePort_serial env) (fun b s' => sides (b, r, d, o) ts s0 s') s.
Proof.
  intros H ->. destruct (serial_side_eq _ _ _ _ _ (sd_serial _ _ _ _ H)) as (Hp & Hr & Hd & Ho).
  unfold wp, CreatePort_serial. destruct (CreatePort env (outside (exec s))) as [e b] eqn:Ec.
  eapply sides_exec; [exact H|by apply own_blame; [exact (sd_own _ _ _ _ H)|]| | |apply (sd_timer _ _ _ _ H)].
  - intros Hq. pose proof (q_port (outside (exec s))) as Hx. by rewrite Ec in Hx.
  - unfold serial_side. cbn. by rewrite Hr, Hd, Ho.
Qed.
Lemma CreatePort_timer_sides ss p r d o s0 s :
  sides ss (p, r, d, o) s0 s -> p = false ->
  wp hang (CreatePort_timer env) (fun b s' => sides ss (b, r, d, o) s0 s') s.
Proof.
  intros H ->. destruct (timer_side_eq _ _ _ _ _ (sd_timer _ _ _ _ H)) as (Hp & Hr & Hd & Ho).
  unfold wp, CreatePort_timer. destruct (CreatePort env (outside (exec s))) as [e b] eqn:Ec.
  eapply sides_exec; [exact H|by apply own_blame; [exact (sd_own _ _ _ _ H)|]| |apply (sd_serial _ _ _ _ H)|].
  - intros Hq. pose proof (q_port (outside (exec s))) as Hx. by rewrite Ec in Hx.
  - unfold timer_side. cbn. by rewrite Hr, Hd, Ho.
Qed.
Lemma CreateExtIO_serial_sides ts d o s0 s :
  sides (true, false, d, o) ts s0 s ->
  wp hang (CreateExtIO_serial env) (fun b s' => sides (true, b, d, o) ts s0 s') s.
Proof.
  intros H. destruct (serial_side_eq _ _ _ _ _ (sd_serial _ _ _ _ H)) as (Hp & Hr & Hd & Ho).
  unfold wp, CreateExtIO_serial. destruct (CreateExtIO env (outside (exec s))) as [e b] eqn:Ec.
  eapply sides_exec; [exact H|apply own_blame; [exact (sd_own _ _ _ _ H)|by rewrite Hp, Hr]| | |apply (sd_timer _ _ _ _ H)].
  - intros Hq. pose proof (q_extio (outside (exec s))) as Hx. by rewrite Ec in Hx.
  - unfold serial_side. cbn. rewrite Hp, Hd, Ho. by destruct b.
Qed.
Lemma CreateExtIO_timer_sides ss d o s0 s :
  sides ss (true, false, d, o) s0 s ->
  wp hang (CreateExtIO_timer env) (fun b s' => sides ss (true, b, d, o) s0 s') s.
Proof.
  intros H. destruct (timer_side_eq _ _ _ _ _ (sd_timer _ _ _ _ H)) as (Hp & Hr & Hd & Ho).
  unfold wp, CreateExtIO_timer. destruct (CreateExtIO env (outside (exec s))) as [e b] eqn:Ec.
  eapply sides_exec; [exact H|apply own_blame; [exact (sd_own _ _ _ _ H)|by rewrite Hp, Hr]| |apply (sd_serial _ _ _ _ H)|].
  - intros Hq. pose proof (q_extio (outside (exec s))) as Hx. by rewrite Ec in Hx.
  - unfold timer_side. cbn. rewrite Hp, Hd, Ho. by destruct b.
Qed.
Lemma OpenDevice_serial_sides ts p o s0 s :
  sides (p, true, false, o) ts s0 s ->
  wp hang (OpenDevice_serial env) (fun e s' => sides (p, true, e =? 0, o) ts s0 s') s.
Proof.
  intros H. destruct (serial_side_eq _ _ _ _ _ (sd_serial _ _ _ _ H)) as (Hp & Hr & Hd & Ho).
  destruct (sd_own _ _ _ _ H) as (_ & Hsa & _). unfold wp, OpenDevice_serial.
  destruct (OpenSerial env _ _ _ _) as [[e q] er] eqn:Ec.
  eapply sides_exec; [exact H|apply own_blame; [exact (sd_own _ _ _ _ H)|by rewrite Hd, Hr, Hsa]| | |apply (sd_timer _ _ _ _ H)].
  - intros Hq. match type of Ec with OpenSerial _ ?a ?b ?c ?d = _ => pose proof (q_open_serial a b c d) as Hx end.
    by rewrite Ec in Hx.
  - unfold serial_side. cbn. by rewrite Hp, Ho.
Qed.
Lemma OpenDevice_timer_sides ss p o s0 s :
  sides ss (p, true, false, o) s0 s ->
  wp hang (OpenDevice_timer env) (fun e s' => sides ss (p, true, e =? 0, o) s0 s') s.
Proof.
  intros H. destruct (timer_side_eq _ _ _ _ _ (sd_timer _ _ _ _ H)) as (Hp & Hr & Hd & Ho).
  destruct (sd_own _ _ _ _ H) as (_ & _ & Hta). unfold wp, OpenDevice_timer.
  destruct (OpenTimer env _ _) as [[e q] er] eqn:Ec.
  eapply sides_exec; [exact H|apply own_blame; [exact (sd_own _ _ _ _ H)|by rewrite Hd, Hr, Hta]| |apply (sd_serial _ _ _ _ H)|].
  - intros Hq. match type of Ec with OpenTimer _ ?a ?b = _ => pose proof (q_open_timer a b) as Hx end.
    by rewrite Ec in Hx.
  - unfold timer_side. cbn. by rewrite Hp, Ho.
Qed.
Lemma on_serial_sides ts p d o s0 s f :
  sides (p, true, d, o) ts s0 s -> wp hang (on_serial f) (fun _ s' => sides (p, true, d, o) ts s0 s') s.
Proof.
  intros H. destruct (serial_side_eq _ _ _ _ _ (sd_serial _ _ _ _ H)) as (Hp & Hr & Hd & Ho).
  apply bool_decide_eq_true in Hr as Hq. destruct Hq as [q Hq]. sides_tac H.
  - by rewrite Hr.
  - done.
  - unfold serial_side. cbn. by rewrite Hp, Hq, Hd, Ho.
  - apply (sd_timer _ _ _ _ H).
Qed.
Lemma DoIO_serial_sides ts p o s0 s :
  sides (p, true, true, o) ts s0 s -> wp hang (DoIO_serial env) (fun _ s' => sides (p, true, true, o) ts s0 s') s.
Proof.
  intros H. destruct (serial_side_eq _ _ _ _ _ (sd_serial _ _ _ _ H)) as (Hp & Hr & Hd & Ho).
  destruct (sd_own _ _ _ _ H) as (Hm & Hsa & Hta). unfold wp, DoIO_serial.
  destruct (do_serial env _ _) as [[e q] early] eqn:Ec.
  eapply sides_exec; [exact H|apply own_blame; [done|]| | |apply (sd_timer _ _ _ _ H)].
  - unfold serial_sendable. by rewrite Hr, Hd, Hsa.
  - intros Hq. match type of Ec with do_serial _ ?a ?b = _ => pose proof (q_do_serial a b) as Hx end.
    by rewrite Ec in Hx.
  - unfold serial_side. cbn. by rewrite Hp, Hd, Ho.
Qed.
Lemma set_serial_parameters_sides ts p d o s0 s :
  sides (p, true, d, o) ts s0 s ->
  wp hang set_serial_parameters (fun _ s' => sides (p, true, d, o) ts s0 s') s.
Proof. intros H. unfold set_serial_parameters, backend_get_baud. do 2 wp_step. by apply on_serial_sides. Qed.

(** From a call's beginning [s0] to one of its states. *)
Record since s0 s : Prop := {
  si_settings : settings s = settings s0;
  si_told : told (report s) = told (report s0);
  si_spent : spent s0 s
}.
Lemma since_trans s0 s1 s2 : since s0 s1 -> since s1 s2 -> since s0 s2.
Proof. intros [] []. split; try congruence. by eapply spent_trans. Qed.
Lemma since_calm s s' : calm s s' -> since s s'.
Proof. by intros []. Qed.
Lemma since_sides ss ts s s' : sides ss ts s s' -> since s s'.
Proof. intros []. unfold rest in sd_rest0. injection sd_rest0 as _ R2 R3 _ _. split; [done|by rewrite R2|done]. Qed.
Lemma since_released s s' : released s s' -> since s s'.
Proof. by intros []. Qed.
Lemma since_refl s : since s s.
Proof. split; [done..|apply spent_refl]. Qed.

(** What [backend_open] gives: everything, or nothing. *)
Definition opened s0 (r : Z) s : Prop :=
  since s0 s /\ sound s /\
  if r =? FN_OK
  then serial_open (link s) = true /\ timer_open (link s) = true /\ session_initialized s = true
  else released s0 s.

Lemma abandon_spec error s0 s :
  sound s -> enough s -> since s0 s -> error <> FN_OK ->
  wp hang (abandon env lib flush_fuel error) (opened s0) s.
Proof.
  intros H Hf Hs He. unfold abandon. eapply wp_use; [by apply backend_close_spec|cbv beta].
  intros _ s1 G1. wp_step. apply Z.eqb_neq in He. unfold opened. rewrite He.
  pose proof (since_trans _ _ _ Hs (since_released _ _ G1)) as G. destruct G1.
  split; [done|]. split; [by eapply sound_released|]. destruct G. by split.
Qed.

Lemma sides_sound ss ts s0 s :
  sides ss ts s0 s -> side_ok ss -> side_ok ts -> session_initialized s0 = false -> sound s.
Proof.
  intros [] H1 H2 Hi. unfold rest in sd_rest0. injection sd_rest0 as _ _ _ _ Hr.
  split; [done|by rewrite sd_serial0|by rewrite sd_timer0|]. unfold session_ok. by rewrite Hr, Hi.
Qed.

Definition open_side : bool * bool * bool * bool := (true, true, true, true).

Lemma start_session_spec s0 s :
  sides open_side open_side s s -> enough s -> since s0 s -> session_initialized s = false ->
  wp hang (start_session env lib flush_fuel) (opened s0) s.
Proof.
  intros Hs Hf Hsi Hi. assert (Hso : sound s) by (by eapply sides_sound).
  destruct (serial_side_eq _ _ _ _ _ (sd_serial _ _ _ _ Hs)) as (Hp & Hr & Hd & Ho).
  destruct (timer_side_eq _ _ _ _ _ (sd_timer _ _ _ _ Hs)) as (Htp & Htr & Htd & Hto).
  pose proof (sound_up _ Hso Hf Ho Hto) as Hup. pose proof (sd_own _ _ _ _ Hs) as Hown. clear Hs.
  assert (Hfail : forall s1, calm s s1 -> wp hang (abandon env lib flush_fuel FN_ERR_IO) (opened s0) s1).
  { intros s1 G1. apply abandon_spec; [by eapply sound_calm|apply (up_later _ _ _ _ G1 Hup)| |apply fn_err_io_ok].
    eapply since_trans; [exact Hsi|by apply since_calm]. }
  unfold start_session. apply (keeps_use _ _ _ s s); [auto with keeps|done|by apply line_refl|]. intros _ s1 G1 _.
  do 2 wp_step. apply (keeps_use _ _ _ s s1); [|done|done|].
  { apply keeps_if; [|auto with keeps]. keeps_all. }
  intros rc s2 G2 _. wp_step; [by apply Hfail|].
  apply (keeps_use _ _ _ s s2); [apply keeps_run, lo_init|done|done|]. intros [rc1 v1] s3 G3 _.
  apply (keeps_use _ _ _ s s3); [auto with keeps|done|done|]. intros _ s4 G4 _. wp_step; [by apply Hfail|].
  apply (keeps_use _ _ _ s s4); [apply keeps_run, lo_open|done|done|]. intros [rc2 v2] s5 G5 _. do 2 wp_step.
  assert (G6 : calm s (set_session (Some v2) s5)) by by apply calm_set_session.
  wp_step; [by apply Hfail|]. clear G1 G2 G3 G4 G5.
  set (s6 := set_session (Some v2) s5) in *. assert (Hv : is_Some (session s6)) by done. clearbody s6.
  unfold forget_input, status, reading. do 3 (wp_step; wp_step). wp_step. pose proof (sound_calm _ _ G6 Hso) as Hso6.
  pose proof (since_trans _ _ _ Hsi (since_calm _ _ G6)) as Hsi6. destruct G6.
  rewrite !shape_sides in c_shape0. injection c_shape0 as E1 E2. unfold serial_side, timer_side in *.
  assert (serial_open (link s6) = true) by congruence. assert (timer_open (link s6) = true) by congruence.
  unfold opened. rewrite Z.eqb_refl. split; [by destruct Hsi6|]. split; [|done]. destruct Hso6. split; try done.
Qed.

Lemma open_timer_spec s0 s :
  sides open_side nothing s s -> enough s -> since s0 s -> session_initialized s = false ->
  wp hang (open_timer env lib flush_fuel) (opened s0) s.
Proof.
  intros Hs Hf Hsi Hi.
  assert (Hfail : forall ts e s1, e <> FN_OK -> sides open_side ts s s1 -> side_ok ts ->
    wp hang (abandon env lib flush_fuel e) (opened s0) s1).
  { intros ts e s1 He G1 Hts. apply abandon_spec; [by eapply sides_sound| | |done].
    - eapply enough_later; [apply (sd_spent _ _ _ _ G1)|done].
    - eapply since_trans; [exact Hsi|by eapply since_sides]. }
  unfold open_timer. eapply wp_use; [by eapply CreatePort_timer_sides|cbv beta]. intros p s1 G1.
  wp_step; [eapply Hfail; [apply fn_err_io_ok|exact G1|by destruct p]|]. destruct p; [|done].
  eapply wp_use; [by eapply CreateExtIO_timer_sides|cbv beta]. intros r s2 G2.
  wp_step; [eapply Hfail; [apply fn_err_io_ok|exact G2|by destruct r]|]. destruct r; [|done].
  eapply wp_use; [by eapply OpenDevice_timer_sides|cbv beta]. intros e s3 G3.
  wp_step; [eapply Hfail; [apply fn_err_not_found_ok|exact G3|by destruct (e =? 0)]|]. apply negb_false_iff in H1.
  rewrite H1 in G3. do 2 wp_step.
  assert (G4 : sides open_side open_side s (on_link (set_timer_open true) s3)).
  { eapply sides_link; [exact G3|apply (sd_serial _ _ _ _ G3)|].
    destruct (timer_side_eq _ _ _ _ _ (sd_timer _ _ _ _ G3)) as (E1 & E2 & E3 & E4).
    unfold timer_side, open_side. cbn. by rewrite E1, E2, E3. }
  clear G1 G2 G3. set (s4 := on_link _ s3) in *. clearbody s4.
  apply start_session_spec; [| |by eapply since_trans, since_sides|].
  - destruct G4. split; try done. apply spent_refl.
  - eapply enough_later; [apply (sd_spent _ _ _ _ G4)|done].
  - destruct G4. unfold rest in sd_rest0. by injection sd_rest0 as _ _ _ _ ->.
Qed.

Lemma backend_open_spec s :
  sound s -> enough s -> wp hang (backend_open env lib flush_fuel) (opened s) s.
Proof.
  intros H Hf. unfold backend_open. do 4 wp_step. wp_step.
  { wp_step. unfold opened. rewrite Z.eqb_refl. split; [apply since_refl|]. split; [done|].
    by apply andb_prop in H0 as [[? ?]%andb_prop ?]. }
  eapply wp_use; [by apply backend_close_spec|cbv beta]. intros _ s1 G1.
  pose proof (since_released _ _ G1) as Hsi. pose proof (re_initialized _ _ G1) as Hi.
  assert (Hf1 : enough s1) by (eapply enough_later; [apply (re_spent _ _ G1)|done]).
  assert (Hs1 : sides nothing nothing s1 s1) by (destruct G1; split; try done; apply spent_refl).
  assert (Hfail : forall ss e s2, e <> FN_OK -> sides ss nothing s1 s2 -> side_ok ss ->
    wp hang (abandon env lib flush_fuel e) (opened s) s2).
  { intros ss e s2 He G2 Hss. apply abandon_spec; [by eapply sides_sound| | |done].
    - eapply enough_later; [apply (sd_spent _ _ _ _ G2)|done].
    - eapply since_trans; [exact Hsi|by eapply since_sides]. }
  eapply wp_use; [by eapply CreatePort_serial_sides|cbv beta]. intros p s2 G2. wp_step.
  { destruct p; [done|]. wp_step. unfold opened. pose proof fn_err_io_ok as He. apply Z.eqb_neq in He. rewrite He.
    pose proof (since_trans _ _ _ Hsi (since_sides _ _ _ _ G2)) as Hsi2.
    assert (Hso : sound s2) by (by eapply sides_sound). split; [done|]. split; [done|].
    destruct G2, G1, Hsi2. unfold rest in sd_rest0. injection sd_rest0 as R1 R2 R3 R4 R5.
    split; try congruence; try done; by rewrite R1. }
  destruct p; [|done]. eapply wp_use; [by eapply CreateExtIO_serial_sides|cbv beta]. intros r s3 G3.
  wp_step; [eapply Hfail; [apply fn_err_io_ok|exact G3|by destruct r]|]. destruct r; [|done].
  eapply wp_use; [by eapply set_serial_parameters_sides|cbv beta]. intros _ s4 G4.
  eapply wp_use; [by eapply OpenDevice_serial_sides|cbv beta]. intros e s5 G5.
  wp_step; [eapply Hfail; [apply fn_err_not_found_ok|exact G5|by destruct (e =? 0)]|]. apply negb_false_iff in H3.
  rewrite H3 in G5. do 2 wp_step.
  assert (G6 : sides open_side nothing s1 (on_link (set_serial_open true) s5)).
  { eapply sides_link; [exact G5| |apply (sd_timer _ _ _ _ G5)].
    destruct (serial_side_eq _ _ _ _ _ (sd_serial _ _ _ _ G5)) as (E1 & E2 & E3 & E4).
    unfold serial_side, open_side. cbn. by rewrite E1, E2, E3. }
  clear G2 G3 G4 G5. set (s6 := on_link _ s5) in *. clearbody s6.
  eapply wp_use; [by eapply set_serial_parameters_sides|cbv beta]. intros _ s7 G7.
  eapply wp_use; [by eapply on_serial_sides|cbv beta]. intros _ s8 G8.
  eapply wp_use; [by eapply DoIO_serial_sides|cbv beta]. intros e2 s9 G9.
  wp_step; [by eapply Hfail; [apply fn_err_io_ok|exact G9|]|].
  apply open_timer_spec; [| |by eapply since_trans, since_sides|].
  - destruct G9. split; try done. apply spent_refl.
  - eapply enough_later; [apply (sd_spent _ _ _ _ G9)|done].
  - destruct G9. unfold rest in sd_rest0. by injection sd_rest0 as _ _ _ _ ->.
Qed.

(** ** An exchange, as a whole *)

(** Whether the backend takes an exchange. *)
Definition ready s : bool := serial_open (link s) && timer_open (link s) && session_initialized s.

Definition diagnostics_of (r : report_t) : Z * Z * Z := told r.

Lemma exchange_unready q n r c s :
  sound s -> ready s = false ->
  backend_exchange env lib flush_fuel q n r c s =
  Some ((FN_ERR_IO, r, 0, (FUJINET_NIO_DETAIL_BACKEND_OPEN, 0, 0)), s).
Proof. intros H Hr. unfold backend_exchange, mbind, M_bind, gets. unfold ready in Hr. by rewrite Hr. Qed.

Lemma exchange_spec q n r c s :
  sound s -> enough s -> ready s = true ->
  wp hang (backend_exchange env lib flush_fuel q n r c) (fun a s' =>
    sound s' /\ settings s' = settings s /\ spent s s' /\ ready s' = true /\
    exists v sr s1, session s = Some v /\
      converse env lib flush_fuel v q n r c s = Some ((sr, a.1.1.2, a.1.2), s1) /\
      a.1.1.1 = (verdict sr (report s1)).1 /\ a.2 = told (verdict sr (report s1)).2 /\
      a.2 = backend_get_diagnostics s') s.
Proof.
  intros H Hf Hr. pose proof Hr as Hr2. unfold ready in Hr2. apply andb_prop in Hr2 as [[Ho Hto]%andb_prop Hi].
  destruct (so_session _ H Hi) as (_ & _ & [v Hv]). pose proof (sound_up _ H Hf Ho Hto) as Hup.
  unfold backend_exchange. do 6 wp_step. rewrite Ho, Hto, Hi, Hv. cbn [andb].
  eapply wp_use; [apply wp_self, keeps_converse; [done|apply (so_own _ H)]|cbv beta].
  intros [[sr resp] len] s1 [Ec G1]. do 2 wp_step. destruct (verdict sr (report s1)) as [res rep] eqn:Ev.
  unfold status. do 2 wp_step. set (s2 := on_report _ s1).
  pose proof (up_later _ _ _ _ G1 Hup) as Hup1. pose proof (sound_calm _ _ G1 H) as Hso1.
  assert (G2 : own Ours Ours (exec s2) /\ up s2) by (split; [apply (c_own _ _ _ _ G1)|by destruct Hup1]).
  eapply wp_use; [apply (keeps_settle res s2); apply G2|cbv beta]. intros _ s3 G3. wp_step.
  assert (F1 : sound s2) by by destruct Hso1.
  assert (F2 : told (report s2) = told rep) by done. assert (F3 : settings s2 = settings s) by apply (c_settings _ _ _ _ G1).
  assert (F4 : spent s s2) by apply (c_spent _ _ _ _ G1).
  assert (F5 : shape (link s2) = shape (link s)) by apply (c_shape _ _ _ _ G1).
  assert (F6 : session_initialized s2 = session_initialized s) by apply (c_session _ _ _ _ G1).
  clearbody s2. split; [by eapply sound_calm|]. destruct G3. split; [congruence|].
  split; [by eapply spent_trans|]. split.
  - rewrite <-c_shape0 in F5. unfold shape in F5. injection F5 as _ _ _ E1 _ _ _ E2.
    unfold ready. rewrite E1, E2, c_session0, F6. exact Hr.
  - exists v, sr, s1. rewrite Ev. split; [done|]. split; [exact Ec|]. split; [done|]. split; [done|].
    change (backend_get_diagnostics s3) with (told (report s3)). by rewrite c_told0, F2.
Qed.
End Discipline.
