(* ===== verification/SerialBackendSystem.v ===== *)
(** * The serial backend from boot

    Calls of the backend, one after the other, from the statics as loaded:
    exec's rules are kept whatever the devices do, and every call returns
    once the line has had its say; a failed call leaves nothing behind; the
    result of an exchange and its diagnostics agree with each other. *)

From S2P Require Import Prelude Effects ExecIO FnLib SerialConfig NioBackend SerialBackend SerialBackendProps.

(** The statics as loaded, over devices in state [e]. *)
Definition boot {E S} (e : E) : backend E S :=
  mkBackend (mkExec e Ours Ours false false false)
    (mkLink false None false false false None false false)
    (mkReader (zeros 128) 0 0 0 (zeros (Z.to_nat DEBUG_PEEK_MAX)) 0 (zeros (Z.to_nat DIAG_LEFTOVER_MAX)))
    (mkReport 0 0 0 0 0 false false 0 0 0)
    (mkSettings (overwrite (zeros (Z.to_nat (FUJINET_NIO_SERIAL_NAME_MAX + 1))) 0 FN_SERIAL_BACKEND_DEVICE)
       FN_SERIAL_BACKEND_UNIT FN_SERIAL_BACKEND_BAUD)
    None false.

Inductive backend_call :=
  | CallOpen
  | CallClose
  | CallExchange (request : option (list Z)) (request_len : Z) (response : option (list Z)) (capacity : Z)
  | CallSetBaud (baud : Z)
  | CallSetSerial (unit : Z) (name : option (list Z)).

Section System.
Context `{L : FnLib, !FnLibOk L} {E S : Type}.
Variable env : exec_env E.
Variable lib : session_lib S.
Variable flush_fuel : nat.
Abbreviation st := (backend E S).
Implicit Types s : st.

Definition call (c : backend_call) : M st unit :=
  match c with
  | CallOpen => backend_open env lib flush_fuel;; mret tt
  | CallClose => backend_close env lib flush_fuel
  | CallExchange q n r c => backend_exchange env lib flush_fuel q n r c;; mret tt
  | CallSetBaud baud => backend_set_baud baud;; mret tt
  | CallSetSerial unit name => backend_set_serial unit name;; mret tt
  end.
Fixpoint calls (cs : list backend_call) : M st unit :=
  match cs with
  | [] => mret tt
  | c :: cs => call c;; calls cs
  end.

Section Calls.
Variable hang : Prop.
Variable budget : E -> nat.
Context (Hquiet : hang \/ Quiet env budget) {Hlib : LibraryOk lib}.
Abbreviation sound' := (@sound E S).
Abbreviation spent' := (spent hang budget).
Abbreviation enough' := (enough flush_fuel hang budget).

(** Between calls. *)
Definition at_rest s0 s : Prop := sound s /\ spent' s0 s.

Lemma set_baud_rest baud s : sound s -> wp hang (backend_set_baud baud) (fun _ s' => at_rest s s') s.
Proof.
  intros H. unfold backend_set_baud, at_rest. wp_step; repeat wp_step; (split; [|right; cbn; lia]); [done|].
  destruct H. by split.
Qed.
Lemma set_serial_rest unit name s :
  sound s -> wp hang (backend_set_serial unit name) (fun _ s' => at_rest s s') s.
Proof.
  intros H. unfold backend_set_serial, at_rest. wp_step; repeat wp_step; (split; [|right; cbn; lia]); [done|].
  destruct H. by split.
Qed.

Lemma call_rest c s : sound s -> enough' s -> wp hang (call c) (fun _ s' => at_rest s s') s.
Proof.
  intros H Hf. unfold call. destruct c.
  - eapply wp_use; [eapply backend_open_spec; done|cbv beta]. intros r s1 (G1 & G2 & _). wp_step.
    split; [done|apply G1].
  - eapply wp_mono; [|eapply backend_close_spec; done]. cbv beta. intros _ s1 G1.
    split; [by eapply sound_released|apply G1].
  - destruct (ready s) eqn:Er.
    + eapply wp_use; [eapply exchange_spec; done|cbv beta]. intros a s1 (G1 & _ & G2 & _). by wp_step.
    + unfold wp, mbind, M_bind. rewrite exchange_unready by done. split; [done|by apply spent_refl].
  - eapply wp_use; [by apply set_baud_rest|cbv beta]. intros r s1 G. by wp_step.
  - eapply wp_use; [by apply set_serial_rest|cbv beta]. intros r s1 G. by wp_step.
Qed.

Lemma calls_rest cs : forall s, sound s -> enough' s -> wp hang (calls cs) (fun _ s' => at_rest s s') s.
Proof.
  induction cs as [|c cs IH]; intros s H Hf; cbn [calls].
  - wp_step. split; [done|by apply spent_refl].
  - eapply wp_use; [by apply call_rest|cbv beta]. intros _ s1 [G1 G2].
    eapply wp_mono; [|apply IH; [done|by eapply enough_later]]. cbv beta. intros _ s2 [G3 G4].
    split; [done|by eapply spent_trans].
Qed.
End Calls.

Lemma sound_boot (e : E) : sound (boot (S := S) e).
Proof. split; try done; split; try done; split; intros; done. Qed.

(** The cases of the verdict. *)
Lemma verdict_cases sr rep :
  let result := (verdict sr rep).1 in
  let diag := told (verdict sr rep).2 in
  let hidden := serial_hidden_overrun rep in
  let detail := diag.1.1 in
  (hidden = true -> result = FN_ERR_TRANSPORT /\ detail = FUJINET_NIO_DETAIL_SERIAL_READ) /\
  (hidden = false -> channel_error rep <> 0 ->
     result = FN_ERR_TRANSPORT /\
     detail = (if serial_failure_detail rep =? FUJINET_NIO_DETAIL_NONE
               then FUJINET_NIO_DETAIL_SERIAL_IO else serial_failure_detail rep)) /\
  (hidden = false -> channel_error rep = 0 -> sr = FN_ERR_IO ->
     result = FN_ERR_TRANSPORT /\ detail = FUJINET_NIO_DETAIL_SESSION_IO) /\
  (hidden = false -> channel_error rep = 0 -> sr <> FN_ERR_IO ->
     result = sr /\
     detail = (if sr =? FN_ERR_TIMEOUT then FUJINET_NIO_DETAIL_TIMEOUT else FUJINET_NIO_DETAIL_NONE)) /\
  (result = FN_OK -> sr = FN_OK /\ channel_error rep = 0 /\ hidden = false /\
     detail = FUJINET_NIO_DETAIL_NONE /\ diag.2 = serial_failure_status rep) /\
  diag.1.2 = serial_failure_io_error rep.
Proof.
  cbv zeta. unfold verdict, fn_serial_channel_map_session_result.
  pose proof fn_err_transport_ok as Ht. pose proof fn_err_io_ok as Hi. pose proof fn_err_timeout_ok as Hto.
  destruct rep as [ce fd fi fs rx fdo hid bd bi bs]. cbn.
  destruct (Z.eqb_spec ce 0) as [->|Hce], (Z.eqb_spec sr FN_ERR_IO) as [->|Hsr], hid; cbn;
    repeat case_match; cbn; split_and!; intros; try done; try congruence; try (split_and!; congruence); try lia.
Qed.

(** C19: exec's rules, whatever the devices do: after any calls from boot,
    no request was sent while out or without its device, none was freed or
    its device closed while out, none was waited for without having been
    sent; both requests are back, each of the two devices is open with its
    port and request or the side is taken down in order, and a session is
    there only over two open devices. *)
Theorem backend_keeps_exec_rules (Hlib : LibraryOk lib) cs (e : E) (s : st) :
  calls cs (boot e) = Some (tt, s) -> sound s /\ misuse (exec s) = false.
Proof.
  intros H. pose proof (calls_rest True (fun _ => O) (or_introl I) cs (boot e) (sound_boot e) (or_introl I)) as Hw.
  destruct (wp_run _ _ _ _ _ _ Hw H) as [G _]. split; [done|apply G].
Qed.

(** C20: every call returns: over a line that satisfies only so many more
    reads, and with as much fuel for [session_flush], any sequence of calls
    from boot comes to its end, at rest. *)
Theorem backend_returns (Hlib : LibraryOk lib) budget (Hquiet : Quiet env budget) cs (e : E) :
  (budget e < flush_fuel)%nat -> exists s, calls cs (boot e) = Some (tt, s) /\ sound s.
Proof.
  intros H. pose proof (calls_rest False budget (or_intror Hquiet) cs (boot e) (sound_boot e) (or_intror H)) as Hw.
  apply wp_total in Hw as ([] & s & E0 & G & _). by exists s.
Qed.

(** [backend_open] is all or nothing: with FN_OK both devices are open
    and the session is initialised; with an error no port, request, device
    or session is left, and the read buffer is empty.  Either way the
    settings and the diagnostics of the last exchange stay. *)
Theorem open_all_or_nothing (Hlib : LibraryOk lib) s r s' :
  sound s -> backend_open env lib flush_fuel s = Some (r, s') ->
  settings s' = settings s /\ backend_get_diagnostics s' = backend_get_diagnostics s /\ sound s' /\
  if r =? FN_OK
  then serial_open (link s') = true /\ timer_open (link s') = true /\ session_initialized s' = true /\
       is_Some (session s')
  else serial_side (link s') = nothing /\ timer_side (link s') = nothing /\ session s' = None /\
       session_initialized s' = false /\ read_pos (reader s') = 0 /\ read_len (reader s') = 0.
Proof.
  intros H E0.
  pose proof (backend_open_spec env lib flush_fuel True (fun _ => O) (or_introl I) s H (or_introl I)) as Hw.
  destruct (wp_run _ _ _ _ _ _ Hw E0) as (G1 & G2 & G3). destruct G1. split; [done|]. split; [done|]. split; [done|].
  destruct (r =? FN_OK).
  - destruct G3 as (Ho & Hto & Hi). destruct (so_session _ G2 Hi) as (_ & _ & Hs). done.
  - destruct G3. destruct re_reader. done.
Qed.

End System.
