(* ===== verification/SerialBackendLine.v ===== *)
(** * The serial backend as a channel

    What the library's session sees is an ideal line: bytes come in the
    order in which they arrived, each once, and none is lost but by a read
    that fails or by a flush; what it writes goes out in order. *)

From S2P Require Import Prelude Effects ExecIO FnLib SerialConfig NioBackend SerialBackend SerialBackendProps.

(** ** The ideal line

    A program of the library run over the bytes [i] on their way in and the
    bytes [o] sent. *)
Section Channel.
Context `{L : FnLib}.

Inductive channel {A} : prog A -> list Z -> list Z -> A -> list Z -> list Z -> Prop :=
  | ch_done a i o : channel (Done a) i o a i o
  | ch_arrives p i o a i' o' more : channel p (i ++ more) o a i' o' -> channel p i o a i' o'
  | ch_open k i o a i' o' : channel (k FN_OK) i o a i' o' -> channel (OpenChannel k) i o a i' o'
  | ch_close k i o a i' o' : channel k i o a i' o' -> channel (CloseChannel k) i o a i' o'
  | ch_byte v k r sent i o a i' o' :
      (r = FN_OK -> sent = [v]) -> channel (k r) i (o ++ sent) a i' o' -> channel (WriteByte v k) i o a i' o'
  | ch_bytes data k r sent i o a i' o' :
      (r = FN_OK -> sent = data) -> channel (k r) i (o ++ sent) a i' o' -> channel (WriteBytes data k) i o a i' o'
  | ch_got ms k b i o a i' o' : channel (k (Some b)) i o a i' o' -> channel (ReadByte ms k) (b :: i) o a i' o'
  | ch_lost ms k lost i o a i' o' : channel (k None) i o a i' o' -> channel (ReadByte ms k) (lost ++ i) o a i' o'
  | ch_flush k lost i o a i' o' : channel k i o a i' o' -> channel (Flush k) (lost ++ i) o a i' o'.
End Channel.

(** ** The devices *)

Section Line.
Context `{L : FnLib, !FnLibOk L} {E S : Type}.
Variable env : exec_env E.
Variable flush_fuel : nat.
(** The bytes that have arrived and that no read has returned, and the bytes
    sent. *)
Variables rx tx : E -> list Z.
Abbreviation st := (backend E S).
Implicit Types (s : st) (e : E) (q : IOExtSer).

Definition arrives e e' : Prop := tx e' = tx e /\ exists more, rx e' = rx e ++ more.

(** The read [q] has come back as [q']: it took [n] bytes off the front, and
    unless it failed they are in its buffer and counted. *)
Definition took e q e' q' : Prop :=
  tx e' = tx e /\ exists more n,
    (n <= length (rx e ++ more))%nat /\ rx e' = drop n (rx e ++ more) /\
    forall d, io_Data q = Some d -> io_Length q <= Z.of_nat (length d) ->
      exists d', io_Data q' = Some d' /\ length d' = length d /\
        (io_Error q' = 0 -> io_Actual q' = Z.of_nat n /\ Z.of_nat n <= io_Length q /\
                            d' = overwrite d 0 (take n (rx e ++ more))).

(** What serial.device and timer.device do to a line; the only requests sent
    and not done are reads. *)
Class OnLine : Prop := {
  ol_query e q : io_Command q = SDCMD_QUERY -> arrives e (do_serial env e q).1.1;
  ol_write e q d :
    io_Command q = CMD_WRITE -> io_Data q = Some d -> io_Length q = Z.of_nat (length d) ->
    let '(e', q', _) := do_serial env e q in
    (exists more, rx e' = rx e ++ more) /\
    exists sent, tx e' = tx e ++ sent /\ (io_Error q' = 0 -> sent = d);
  ol_timer e t : arrives e (do_timer env e t).1.1;
  ol_send_serial e q : arrives e (send_serial env e q);
  ol_send_timer e t : arrives e (send_timer env e t);
  ol_sleep e q :
    let '(e', back, _) := sleep env e q in
    match back with Some q' => took e q e' q' | None => arrives e e' end;
  ol_serial_done e q :
    let '(e', back) := serial_done env e q in
    match back with Some q' => took e q e' q' | None => arrives e e' end;
  ol_serial_aborted e q : let '(e', q', _) := serial_aborted env e q in took e q e' q';
  ol_timer_done e : arrives e (timer_done env e).1;
  ol_timer_aborted e : arrives e (timer_aborted env e).1;
  ol_timer_expired e : arrives e (timer_expired env e).1
}.
Context (Hline : OnLine).

Lemma arrives_refl e : arrives e e.
Proof. split; [done|]. exists []. by rewrite app_nil_r. Qed.
Lemma arrives_trans e e1 e2 : arrives e e1 -> arrives e1 e2 -> arrives e e2.
Proof.
  intros [T1 [m1 R1]] [T2 [m2 R2]]. split; [congruence|]. exists (m1 ++ m2). by rewrite R2, R1, app_assoc.
Qed.
Lemma arrives_took e q e1 e2 q2 : arrives e e1 -> took e1 q e2 q2 -> took e q e2 q2.
Proof.
  intros [T1 [m1 R1]] [T2 (m2 & n & R2)]. split; [congruence|]. exists (m1 ++ m2), n. by rewrite app_assoc, <-R1.
Qed.
Lemma took_arrives e q e1 q1 e2 : took e q e1 q1 -> arrives e1 e2 -> took e q e2 q1.
Proof.
  intros [T1 (m1 & n & Hn & R1 & Hd)] [T2 [m2 R2]]. split; [congruence|]. exists (m1 ++ m2), n.
  rewrite app_assoc. split; [rewrite length_app; lia|]. split; [by rewrite R2, R1, (drop_app_le (rx e ++ m1))|].
  intros d Hd1 Hd2. destruct (Hd d Hd1 Hd2) as (d' & ? & ? & Hok). exists d'. split; [done|]. split; [done|].
  by rewrite (take_app_le (rx e ++ m1)).
Qed.

(** ** The backend over it *)

Definition has_req s : Prop := is_Some (serial_req (link s)).

(** Only bytes arrived. *)
Record waits s0 s : Prop := {
  w_req : has_req s;
  w_reader : reader s = reader s0;
  w_line : arrives (outside (exec s0)) (outside (exec s))
}.
Lemma waits_refl s : has_req s -> waits s s.
Proof. intros H. split; [done..|apply arrives_refl]. Qed.
Lemma waits_trans s0 s1 s2 : waits s0 s1 -> waits s1 s2 -> waits s0 s2.
Proof. intros [] []. split; [done|congruence|by eapply arrives_trans]. Qed.

(** A computation that leaves the input alone. *)
Definition idles {A} (m : M st A) : Prop := forall s, has_req s -> wp True m (fun _ s' => waits s s') s.
Lemma idles_use {A B} (m : M st A) (f : A -> M st B) Q s0 s :
  idles m -> waits s0 s -> (forall a s', waits s0 s' -> wp True (f a) Q s') -> wp True (m ≫= f) Q s.
Proof.
  intros Hm H Hf. eapply wp_use; [apply Hm, (w_req _ _ H)|cbv beta]. intros a s' H'.
  apply Hf. by eapply waits_trans.
Qed.
Lemma idles_ret {A} (a : A) : idles (mret a).
Proof. intros s H. by apply wp_ret, waits_refl. Qed.
Lemma idles_gets {A} (f : st -> A) : idles (gets f).
Proof. intros s H. by apply wp_gets, waits_refl. Qed.
Lemma idles_bind {A B} (m : M st A) (f : A -> M st B) : idles m -> (forall a, idles (f a)) -> idles (m ≫= f).
Proof.
  intros Hm Hf s H. eapply wp_use; [by apply Hm|cbv beta]. intros a s1 H1.
  eapply wp_mono; [|apply (Hf a s1), (w_req _ _ H1)]. cbv beta. intros b s2 H2. by eapply waits_trans.
Qed.
Lemma idles_if {A} (b : bool) (m1 m2 : M st A) : idles m1 -> idles m2 -> idles (if b then m1 else m2).
Proof. by destruct b. Qed.
Lemma idles_when b (m : M st unit) : idles m -> idles (when b m).
Proof. destruct b; [done|]. intros _. apply idles_ret. Qed.
Lemma idles_status f : idles (status f).
Proof. intros s H. apply wp_modify. split; [done..|apply arrives_refl]. Qed.
Lemma idles_note_hidden v : idles (note_hidden v).
Proof.
  intros s H. unfold wp, note_hidden. destruct (fn_serial_note_hidden_overrun _ _ _).
  split; [done..|apply arrives_refl].
Qed.
Lemma on_serial_waits f s :
  has_req s -> wp True (on_serial f) (fun _ s' => waits s s' /\ serial_of s' = f (serial_of s)) s.
Proof.
  intros [q Hq]. apply wp_modify. split.
  - split; [|done|apply arrives_refl]. unfold has_req. cbn. by rewrite Hq.
  - unfold serial_of. cbn. by rewrite Hq.
Qed.
Lemma on_timer_waits f s :
  has_req s -> wp True (on_timer f) (fun _ s' => waits s s' /\ serial_of s' = serial_of s) s.
Proof. intros H. apply wp_modify. split; [|done]. split; [done..|apply arrives_refl]. Qed.
Lemma idles_on_timer f : idles (on_timer f).
Proof. intros s H. eapply wp_mono; [|by apply on_timer_waits]. by intros ? ? [? _]. Qed.
Lemma idles_DoIO_timer : idles (DoIO_timer env).
Proof.
  intros s H. unfold wp, DoIO_timer. pose proof (ol_timer (outside (exec s)) (timer_of s)) as Ht.
  destruct (do_timer env _ _) as [[e er] early]. split; [done|done|exact Ht].
Qed.
Lemma idles_query : idles (query env).
Proof.
  intros s H. unfold query. eapply wp_use; [by apply on_serial_waits|cbv beta]. intros _ s1 [H1 E1].
  unfold wp, DoIO_serial.
  assert (Ht : arrives (outside (exec s1)) (do_serial env (outside (exec s1)) (serial_of s1)).1.1)
    by (apply ol_query; by rewrite E1).
  destruct (do_serial env _ _) as [[e q] early]. eapply waits_trans; [exact H1|].
  split; [by eexists|done|exact Ht].
Qed.

(** *** A read *)

(** The read [q] is out, or it is back. *)
Definition away q s0 s : Prop := waits s0 s /\ serial_of s = q.
Record back q s0 s : Prop := {
  b_req : has_req s;
  b_reader : reader s = reader s0;
  b_took : took (outside (exec s0)) q (outside (exec s)) (serial_of s)
}.
Lemma back_waits q s0 s s' : back q s0 s -> waits s s' -> serial_of s' = serial_of s -> back q s0 s'.
Proof. intros [] [] E0. split; [done|congruence|]. rewrite E0. by eapply took_arrives. Qed.
Definition there q s0 s : Prop :=
  serial_at (exec s) = Out /\ away q s0 s \/ serial_at (exec s) = Back /\ back q s0 s.

Lemma serial_back_there q s0 s e r :
  serial_at (exec s) = Out -> away q s0 s ->
  match r with Some q' => took (outside (exec s)) q e q' | None => arrives (outside (exec s)) e end ->
  there q s0 (serial_back r (set_exec (with_outside e (exec s)) s)).
Proof.
  intros Hat [[] Hq] He. destruct r as [q'|]; [right|left]; (split; [done|]).
  - split; [by eexists|done|]. by eapply arrives_took.
  - split; [|done]. split; [done|done|]. by eapply arrives_trans.
Qed.
Lemma there_waits q s0 s s' :
  there q s0 s -> waits s s' -> serial_of s' = serial_of s -> serial_at (exec s') = serial_at (exec s) ->
  there q s0 s'.
Proof.
  unfold there. intros [[Hat [Hw Hq]]|[Hat Hb]] H Hs E0; rewrite E0; [left|right]; (split; [done|]).
  - split; [by eapply waits_trans|congruence].
  - by eapply back_waits.
Qed.

Lemma SendIO_serial_away q s0 s :
  away q s0 s -> wp True (SendIO_serial env) (fun _ s' => serial_at (exec s') = Out /\ away q s0 s') s.
Proof.
  intros [H Hq]. apply wp_modify. split; [done|]. split; [|done]. eapply waits_trans; [exact H|].
  split; [apply (w_req _ _ H)|done|apply ol_send_serial].
Qed.
Lemma SendIO_timer_waits s :
  has_req s -> wp True (SendIO_timer env) (fun _ s' => waits s s' /\ serial_of s' = serial_of s /\
    serial_at (exec s') = serial_at (exec s)) s.
Proof. intros H. apply wp_modify. split; [|done]. split; [done|done|apply ol_send_timer]. Qed.
Lemma on_timer_at f s :
  has_req s -> wp True (on_timer f) (fun _ s' => waits s s' /\ serial_of s' = serial_of s /\
    serial_at (exec s') = serial_at (exec s)) s.
Proof. intros H. apply wp_modify. split; [|done]. split; [done..|apply arrives_refl]. Qed.

Lemma timer_back_same b s :
  has_req s -> waits s (timer_back b s) /\ serial_of (timer_back b s) = serial_of s /\
    serial_at (exec (timer_back b s)) = serial_at (exec s).
Proof. intros H. destruct b; (split; [|done]); (split; [done..|apply arrives_refl]). Qed.
Lemma clear_signals_same s :
  has_req s -> waits s (clear_signals s) /\ serial_of (clear_signals s) = serial_of s /\
    serial_at (exec (clear_signals s)) = serial_at (exec s).
Proof. intros H. split; [|done]. split; [done..|apply arrives_refl]. Qed.

Lemma there_req q s0 s : there q s0 s -> has_req s.
Proof. intros [[_ [H _]]|[_ H]]; apply H. Qed.

Lemma Wait_both_there q s0 s :
  serial_at (exec s) = Out -> away q s0 s -> wp True (Wait_both env) (fun _ s' => there q s0 s') s.
Proof.
  intros Hat Ha. apply wp_modify. set (s1 := set_exec (blame _ _) s).
  assert (H1 : serial_at (exec s1) = Out /\ away q s0 s1) by (destruct Ha as [[] ?]; split; [done|by split]).
  clearbody s1. clear s Hat Ha. destruct H1 as [Hat Ha]. cbv zeta.
  assert (Hclear : forall s, there q s0 s -> there q s0 (clear_signals s)).
  { intros s Hs. pose proof (there_req _ _ _ Hs) as Hr. destruct (clear_signals_same s Hr) as (W & E1 & E2).
    by eapply there_waits. }
  destruct (_ || _); [apply Hclear; by left|].
  pose proof (ol_sleep (outside (exec s1)) (serial_of s1)) as Hs. rewrite (proj2 Ha) in Hs |- *.
  destruct (sleep env _ _) as [[e r] b]. apply Hclear.
  pose proof (serial_back_there _ _ _ _ r Hat Ha Hs) as Hb.
  destruct (timer_back_same b _ (there_req _ _ _ Hb)) as (W & E1 & E2). by eapply there_waits.
Qed.
Lemma CheckIO_serial_there q s0 s :
  there q s0 s ->
  wp True (CheckIO_serial env) (fun b s' => if b then serial_at (exec s') = Back /\ back q s0 s'
                                            else serial_at (exec s') = Out /\ away q s0 s') s.
Proof.
  intros [[Hat Ha]|[Hat Hb]]; unfold wp, CheckIO_serial; rewrite Hat; [|done].
  pose proof (ol_serial_done (outside (exec s)) (serial_of s)) as Hs. rewrite (proj2 Ha) in Hs |- *.
  destruct (serial_done env _ _) as [e r]. pose proof (serial_back_there _ _ _ _ r Hat Ha Hs) as Hb.
  destruct r; destruct Hb as [[Hx Hb]|[Hx Hb]]; try done; cbn in Hx; by rewrite Hat in Hx.
Qed.
Lemma abort_serial_back q s0 s :
  serial_at (exec s) = Out -> away q s0 s -> wp True (abort_serial env) (fun _ s' => back q s0 s') s.
Proof.
  intros Hat [H Hq]. apply wp_modify. rewrite Hat.
  pose proof (ol_serial_aborted (outside (exec s)) (serial_of s)) as Hs. rewrite Hq in Hs |- *.
  destruct (serial_aborted env _ _) as [[e q'] early]. destruct H.
  split; [by eexists|done|]. by eapply arrives_took.
Qed.
Lemma WaitIO_serial_back q s0 s : back q s0 s -> wp True WaitIO_serial (fun _ s' => back q s0 s') s.
Proof. intros []. by apply wp_modify. Qed.

(** The timer's operations. *)
Lemma timer_ops q s0 s : back q s0 s ->
  wp True (WaitIO_timer env) (fun _ s' => back q s0 s') s /\
  wp True (abort_timer env) (fun _ s' => back q s0 s') s /\
  wp True (CheckIO_timer env) (fun _ s' => back q s0 s') s.
Proof.
  intros []. pose proof (ol_timer_expired (outside (exec s))) as H1.
  pose proof (ol_timer_aborted (outside (exec s))) as H2. pose proof (ol_timer_done (outside (exec s))) as H3.
  unfold wp, WaitIO_timer, abort_timer, CheckIO_timer, modify.
  destruct (timer_at (exec s)); [by split_and!| |by split_and!].
  destruct (timer_expired env _), (timer_aborted env _), (timer_done env _) as [e3 b3].
  split_and!; try destruct b3; (split; [done|done|by eapply took_arrives]).
Qed.

(** What a read of at most [len] bytes into [buf] did. *)
Record received (buf : list Z) (len : Z) (r : Z * list Z) s0 s : Prop := {
  rd_req : has_req s;
  rd_reader : reader s = reader s0;
  rd_tx : tx (outside (exec s)) = tx (outside (exec s0));
  rd_length : length r.2 = length buf;
  rd_rx : exists more n,
    let i := rx (outside (exec s0)) ++ more in
    (n <= length i)%nat /\ rx (outside (exec s)) = drop n i /\
    (r.1 = FN_OK -> io_Actual (serial_of s) = Z.of_nat n /\ Z.of_nat n <= len /\ r.2 = overwrite buf 0 (take n i))
}.

Lemma received_waits buf len r s0 s s' :
  received buf len r s0 s -> waits s s' -> serial_of s' = serial_of s -> received buf len r s0 s'.
Proof.
  intros [] [] E0. destruct w_line0 as [T2 [m2 R2]]. destruct rd_rx0 as (m1 & n & Hn & R1 & Hr).
  split; [done|congruence|congruence|done|]. exists (m1 ++ m2), n. cbv zeta in *. rewrite app_assoc.
  split; [rewrite length_app; lia|]. split; [by rewrite R2, R1, (drop_app_le (_ ++ m1))|].
  intros Hok. rewrite E0, (take_app_le (_ ++ m1)) by done. auto.
Qed.

Lemma received_back q buf len rc s0 s :
  back q s0 s -> io_Data q = Some buf -> io_Length q = len -> len <= Z.of_nat (length buf) ->
  (rc = FN_OK -> io_Error (serial_of s) = 0) ->
  received buf len (rc, default [] (io_Data (serial_of s))) s0 s.
Proof.
  intros [] Hd Hl Hlen Hrc. destruct b_took0 as [T (more & n & Hn & R & Hb)].
  destruct (Hb buf Hd ltac:(lia)) as (d' & Ed & Hlen' & Hok). rewrite Ed. split; [done..|].
  exists more, n. cbv zeta. split; [done|]. split; [done|]. cbn. rewrite <-Hl. auto.
Qed.

Lemma status_back q f s0 s :
  back q s0 s -> wp True (status f) (fun _ s' => back q s0 s' /\ serial_of s' = serial_of s) s.
Proof. intros []. by apply wp_modify. Qed.
Lemma note_hidden_back q v s0 s :
  back q s0 s -> wp True (note_hidden v) (fun _ s' => back q s0 s' /\ serial_of s' = serial_of s) s.
Proof. intros []. unfold wp, note_hidden. by destruct (fn_serial_note_hidden_overrun _ _ _). Qed.

Lemma serial_cmd_read_line buf len ms rec s :
  has_req s -> len <= Z.of_nat (length buf) ->
  wp True (serial_cmd_read env buf len ms rec) (fun r s' => received buf len r s s') s.
Proof.
  intros Hreq Hlen. unfold serial_cmd_read. do 2 wp_step. wp_step.
  { wp_step. split; [done..|]. exists [], O. cbv zeta. rewrite app_nil_r, drop_0. split; [lia|]. split; [done|].
    cbn. intros Hx. by destruct (fn_err_io_ok Hx). }
  eapply wp_use; [by apply on_serial_waits|cbv beta]. intros _ s1 [H1 E1].
  set (q := serial_of s1). assert (Hq : io_Data q = Some buf /\ io_Length q = len) by (unfold q; by rewrite E1).
  destruct Hq as [Hqd Hql].
  eapply wp_use; [apply (SendIO_serial_away q s); by split|cbv beta]. intros _ s2 [At2 H2].
  eapply wp_use; [apply on_timer_at, H2|cbv beta]. intros _ s3 (H3 & E3 & At3).
  eapply wp_use; [apply SendIO_timer_waits, H3|cbv beta]. intros _ s4 (H4 & E4 & At4).
  assert (G4 : serial_at (exec s4) = Out /\ away q s s4).
  { split; [congruence|]. split; [|rewrite E4, E3; apply H2]. eapply waits_trans; [|exact H4].
    eapply waits_trans; [apply H2|exact H3]. }
  eapply wp_use; [apply (Wait_both_there q s s4); apply G4|cbv beta]. intros _ s5 H5.
  eapply wp_use; [by apply (CheckIO_serial_there q s s5)|cbv beta]. intros b s6 H6.
  destruct b; destruct H6 as [At6 H6]; cbn [negb].
  - eapply wp_use; [by apply (WaitIO_serial_back q s s6)|cbv beta]. intros _ s7 H7.
    eapply wp_use; [by apply (timer_ops q s s7)|cbv beta]. intros e s8 H8.
    eapply wp_use with (P := fun _ s' => back q s s').
    { wp_step; by apply (timer_ops q s s8). }
    cbv beta. intros _ s9 H9. do 2 wp_step. wp_step.
    + unfold failed_serial. apply wp_bind. wp_step. wp_step.
      eapply wp_mono; [|by apply (status_back q _ s s9)]. cbv beta. intros _ s10 [H10 E10]. wp_step.
      rewrite <-E10. apply (received_back q); [done..|]. intros Hx. by destruct (fn_err_io_ok Hx).
    + eapply wp_use; [by apply (status_back q _ s s9)|cbv beta]. intros _ s10 [H10 E10].
      eapply wp_use with (P := fun _ s' => back q s s' /\ serial_of s' = serial_of s10).
      { wp_step; [|done]. unfold check_hidden. do 2 wp_step.
        eapply wp_use; [by apply (note_hidden_back q _ s s10)|cbv beta]. intros seen s11 [G11 F11].
        wp_step; [|done]. eapply wp_mono; [|by apply (status_back q _ s s11)]. cbv beta.
        intros _ s12 [G12 F12]. split; [done|congruence]. }
      cbv beta. intros _ s11 [G11 F11]. wp_step. rewrite <-E10, <-F11.
      apply (received_back q); [done..|]. intros _. rewrite F11, E10. lia.
  - eapply wp_use; [by apply (abort_serial_back q s s6)|cbv beta]. intros _ s7 H7.
    eapply wp_use; [by apply (timer_ops q s s7)|cbv beta]. intros _ s8 H8.
    eapply wp_use; [by apply (status_back q _ s s8)|cbv beta]. intros _ s9 [H9 E9]. do 2 wp_step. wp_step.
    apply (received_back q); [done..|]. intros Hx. by destruct (fn_err_timeout_ok Hx).
Qed.

(** ** What the session has before it *)

Definition buffered (r : reader_t) : list Z := drop (Z.to_nat (read_pos r)) (take (Z.to_nat (read_len r)) (read_buf r)).
Definition input s : list Z := buffered (reader s) ++ rx (outside (exec s)).
Definition output s : list Z := tx (outside (exec s)).
Definition reader_ok (r : reader_t) : Prop :=
  Z.of_nat (length (read_buf r)) = READ_BUF_SIZE /\ 0 <= read_pos r /\ 0 <= read_len r <= READ_BUF_SIZE.

(** From [s0] on, [lost] has gone from the input. *)
Record passes (lost : list Z) s0 s : Prop := {
  pa_req : has_req s;
  pa_reader : reader_ok (reader s);
  pa_output : output s = output s0;
  pa_input : exists more, input s0 ++ more = lost ++ input s
}.
Definition flows s0 s : Prop := exists lost, passes lost s0 s.

Lemma waits_passes s0 s : reader_ok (reader s0) -> waits s0 s -> passes [] s0 s.
Proof.
  intros Hok [Hr Hre [T [more R]]]. split; [done|by rewrite Hre|done|]. exists more. unfold input.
  by rewrite Hre, R, <-app_assoc.
Qed.
Lemma passes_refl s : has_req s -> reader_ok (reader s) -> passes [] s s.
Proof. intros. apply waits_passes; [done|by apply waits_refl]. Qed.
Lemma passes_trans l1 l2 s0 s1 s2 : passes l1 s0 s1 -> passes l2 s1 s2 -> passes (l1 ++ l2) s0 s2.
Proof.
  intros [_ _ O1 [m1 I1]] [R2 K2 O2 [m2 I2]]. split; [done|done|congruence|]. exists (m1 ++ m2).
  by rewrite app_assoc, I1, <-!app_assoc, I2.
Qed.
Lemma flows_trans s0 s1 s2 : flows s0 s1 -> flows s1 s2 -> flows s0 s2.
Proof. intros [l1 H1] [l2 H2]. exists (l1 ++ l2). by eapply passes_trans. Qed.

Lemma on_reader_passes f l s0 s :
  (forall r, reader_ok r -> reader_ok (f r) /\ buffered (f r) = buffered r) ->
  passes l s0 s -> passes l s0 (on_reader f s).
Proof.
  intros Hf [R K O [more I]]. destruct (Hf _ K) as [K' B]. split; [done|done|done|]. exists more.
  rewrite I. unfold input. cbn. by rewrite B.
Qed.
Lemma note_byte_got_passes v l s0 s :
  passes l s0 s -> wp True (note_byte_got v) (fun _ s' => passes l s0 s') s.
Proof.
  intros H. apply wp_modify. apply on_reader_passes; [|done]. intros r Hr.
  destruct (negb (debug_bytes_got r =? 65535)); cbv zeta; destruct (_ <? _); done.
Qed.

Lemma drop_S_lookup (l : list Z) n : (n < length l)%nat -> drop n l = l.[n] :: drop (Datatypes.S n) l.
Proof.
  intros H. unfold byte_at. destruct (l !! n) as [b|] eqn:E0; [|apply lookup_ge_None in E0; lia].
  rewrite (drop_S _ _ _ E0). by rewrite (nth_lookup_Some _ _ _ _ E0).
Qed.

Lemma taken_overwrite (dst src : list Z) : take (length src) (overwrite dst 0 src) = src.
Proof. exact (take_app_length src _). Qed.

(** A byte of the buffer. *)
Lemma buffered_next r :
  reader_ok r -> read_pos r < read_len r ->
  buffered r = (read_buf r).[Z.to_nat (read_pos r)] :: buffered (set_read_pos (read_pos r + 1) r).
Proof.
  intros (Hl & Hp & Hn) Hlt. unfold buffered. cbn. rewrite drop_S_lookup by (rewrite length_take; lia).
  rewrite byte_at_take by lia. f_equal. f_equal. lia.
Qed.

Lemma buffered_none r : reader_ok r -> read_len r <= read_pos r -> buffered r = [].
Proof. intros (Hl & Hp & Hn) H. apply drop_ge. rewrite length_take. lia. Qed.

(** A read into the empty buffer: it fails, or the buffer is filled. *)
Lemma received_fails len r s0 s :
  reader_ok (reader s0) -> read_len (reader s0) <= read_pos (reader s0) ->
  received (read_buf (reader s0)) len r s0 s -> flows s0 (on_reader (set_read_buf r.2) s).
Proof.
  intros Hok Hlt []. destruct rd_rx0 as (more & n & Hn & R & _). cbv zeta in *. exists (take n (rx (outside (exec s0)) ++ more)).
  assert (Hok2 : reader_ok (set_read_buf r.2 (reader s))).
  { rewrite rd_reader0. destruct Hok as (? & ? & ?). by split; [cbn; rewrite rd_length0|]. }
  split; [done|done|done|]. exists more. unfold input. cbn [reader on_reader exec].
  rewrite (buffered_none (reader s0)) by done. assert (Hno : buffered (set_read_buf r.2 (reader s)) = []) by (apply buffered_none; [done|cbn; by rewrite rd_reader0]).
  rewrite Hno. cbn. by rewrite R, take_drop.
Qed.
Lemma received_fills len r s0 s :
  reader_ok (reader s0) -> read_len (reader s0) <= read_pos (reader s0) -> len <= READ_BUF_SIZE ->
  received (read_buf (reader s0)) len r s0 s -> r.1 = FN_OK ->
  let s' := on_reader (fun rd => rd |> set_read_pos 1 |> set_read_len (u16 (io_Actual (serial_of s))))
              (on_reader (set_read_buf r.2) s) in
  flows s0 s' /\ (u16 (io_Actual (serial_of s)) <> 0 -> passes [r.2.[0]] s0 s').
Proof.
  intros Hok Hlt Hlen [] Hr. destruct rd_rx0 as (more & n & Hn & R & Hall). cbv zeta in *.
  destruct (Hall Hr) as (Ha & Hb & Hc). set (i := rx (outside (exec s0)) ++ more) in *.
  unfold READ_BUF_SIZE in *. rewrite Ha in *. rewrite u16_id by (unfold is_u16; lia). clear Hall.
  assert (Hi : forall k, take 1 (take n i) = k -> passes k s0
     (on_reader (fun rd => rd |> set_read_pos 1 |> set_read_len (Z.of_nat n)) (on_reader (set_read_buf r.2) s))).
  { intros k <-. destruct Hok as (Hl & Hp & Hl2). unfold READ_BUF_SIZE in *.
    split; [done| |done|].
    - split; [cbn; by rewrite rd_length0|]. cbn. unfold READ_BUF_SIZE. lia.
    - exists more. unfold input. rewrite (buffered_none (reader s0)) by done. fold i.
      unfold buffered. cbn. rewrite R, Hc, Nat2Z.id. change (Pos.to_nat 1) with 1%nat.
      assert (Ht : take n (overwrite (read_buf (reader s0)) 0 (take n i)) = take n i).
      { rewrite <-(taken_overwrite (read_buf (reader s0)) (take n i)) at 2. f_equal. rewrite length_take. lia. }
      rewrite Ht, app_assoc. by rewrite !take_drop. }
  split; [eexists; by apply Hi|]. intros Hne. apply Hi. rewrite Hc. unfold overwrite. cbn.
  destruct n as [|n]; [done|]. destruct i as [|b i]; [cbn in Hn; lia|done].
Qed.

Lemma idles_failed_serial d : idles (failed_serial d).
Proof. apply idles_bind; [apply idles_gets|]. intros q. apply idles_status. Qed.
Lemma idles_check_hidden : idles check_hidden.
Proof.
  apply idles_bind; [apply idles_gets|]. intros q. apply idles_bind; [apply idles_note_hidden|]. intros b.
  apply idles_when, idles_status.
Qed.
Lemma idles_reader_query : idles (reader_query env).
Proof.
  apply idles_bind; [apply idles_query|]. intros e. apply idles_if.
  - apply idles_bind; [apply idles_failed_serial|]. intros _. apply idles_ret.
  - apply idles_bind; [apply idles_gets|]. intros q. apply idles_bind; [apply idles_status|]. intros _.
    apply idles_bind; [apply idles_check_hidden|]. intros _. apply idles_ret.
Qed.
Lemma poll_loop_waits fuel : forall remaining s, has_req s ->
  wp True (poll_loop env fuel remaining) (fun r s' => waits s s' /\ r <> inl FN_OK) s.
Proof.
  induction fuel as [|fuel IH]; intros remaining s Hs; [done|]. cbn [poll_loop]. pose proof fn_err_io_ok as Hio.
  wp_step; [wp_step; split; [by apply waits_refl|done]|].
  apply (idles_use _ _ _ s s); [apply idles_on_timer|by apply waits_refl|]. intros _ s1 W1.
  apply (idles_use _ _ _ s s1); [apply idles_DoIO_timer|done|]. intros e s2 W2. wp_step.
  { do 2 wp_step. apply (idles_use _ _ _ s s2); [apply idles_status|done|]. intros _ s3 W3. wp_step. split; congruence. }
  apply (idles_use _ _ _ s s2); [apply idles_reader_query|done|]. intros [] s3 W3; [wp_step; split; congruence|].
  do 2 wp_step. wp_step; [by wp_step|]. eapply wp_mono; [|apply IH, (w_req _ _ W3)]. cbv beta.
  intros r s4 [W4 Hr]. split; [by eapply waits_trans|done].
Qed.

(** One byte, in order; or none, and some may be lost. *)
Lemma serial_read_byte_line ms s :
  has_req s -> reader_ok (reader s) ->
  wp True (serial_read_byte env ms) (fun r s' => exists lost, passes lost s s' /\ (r.1 = FN_OK -> lost = [r.2])) s.
Proof.
  intros Hreq Hok. assert (Hbad : forall (e v : Z) s', e <> FN_OK -> flows s s' ->
    exists lost, passes lost s s' /\ (e = FN_OK -> lost = [v])) by (intros e v s' He [l Hl]; by exists l).
  unfold serial_read_byte. do 2 wp_step. wp_step.
  { unfold reading. do 2 wp_step. set (b := _.[_]).
    eapply wp_use; [eapply note_byte_got_passes|cbv beta]; [|intros _ s1 H1; wp_step; by exists [b]].
    split; [done| |done|].
    - destruct Hok as (? & ? & ?). cbn. split; [done|]. cbn. lia.
    - exists []. unfold input. rewrite app_nil_r, (buffered_next (reader s)) by (done || lia). done. }
  apply (idles_use _ _ _ s s); [apply idles_reader_query|by apply waits_refl|]. intros bad s1 W1.
  wp_step; [wp_step; apply Hbad; [apply fn_err_io_ok|exists []; by apply waits_passes]|]. do 2 wp_step.
  eapply wp_use with (P := fun r s' => waits s s' /\ r <> inl FN_OK).
  { wp_step; [|by wp_step]. eapply wp_mono; [|apply poll_loop_waits, (w_req _ _ W1)]. cbv beta.
    intros r s2 [W2 Hr]. split; [by eapply waits_trans|done]. }
  cbv beta. intros [error|available] s2 [W2 Hr].
  { wp_step. apply Hbad; [cbn; intros ->; by apply Hr|exists []; by apply waits_passes]. }
  wp_step; [wp_step; apply Hbad; [apply fn_err_timeout_ok|exists []; by apply waits_passes]|].
  set (len := if available >? READ_BUF_SIZE then READ_BUF_SIZE else available).
  assert (Hlen : len <= READ_BUF_SIZE) by (unfold len; destruct (available >? READ_BUF_SIZE) eqn:E0; lia).
  clearbody len. assert (Hok2 : reader_ok (reader s2)) by by rewrite (w_reader _ _ W2).
  rewrite <-(w_reader _ _ W2). eapply wp_use; [apply serial_cmd_read_line; [apply (w_req _ _ W2)|]|cbv beta].
  { rewrite (proj1 Hok2). done. }
  intros [rc buf] s3 R3. unfold reading. do 2 wp_step.
  assert (W2f : flows s s2) by (exists []; by apply waits_passes).
  assert (Hlt : read_len (reader s2) <= read_pos (reader s2)) by (rewrite (w_reader _ _ W2); lia).
  wp_step. { wp_step. apply Hbad; [cbn; lia|]. eapply flows_trans; [done|]. by eapply received_fails in R3. }
  assert (Hrc : rc = FN_OK) by lia. pose proof (received_fills _ _ _ _ Hok2 Hlt Hlen R3 Hrc) as [F1 F2].
  cbn [snd] in F1, F2. do 4 wp_step. change (serial_of (on_reader _ s3)) with (serial_of s3).
  set (s4 := on_reader _ (on_reader _ s3)) in *. clearbody s4.
  wp_step; [wp_step; apply Hbad; [apply fn_err_not_ready_ok|by eapply flows_trans]|].
  eapply wp_use; [eapply note_byte_got_passes, F2; lia|cbv beta]. intros _ s5 P5. wp_step.
  exists [buf.[0]]. split; [|done]. apply (passes_trans [] _ s s2); [by apply waits_passes|done].
Qed.

Lemma session_read_byte_line ms s :
  has_req s -> reader_ok (reader s) ->
  wp True (session_read_byte env ms) (fun r s' =>
    match r with Some b => passes [b] s s' | None => flows s s' end) s.
Proof.
  intros Hreq Hok. unfold session_read_byte. do 2 wp_step.
  wp_step; [wp_step; exists []; by apply waits_passes, waits_refl|].
  eapply wp_use; [by apply serial_read_byte_line|cbv beta]. intros [rc b] s1 (lost & P1 & Hb). do 2 wp_step.
  destruct (fn_serial_channel_got_byte rc _) as [got error] eqn:Eg. unfold status. do 2 wp_step. wp_step.
  assert (P2 : passes lost s (on_report (set_channel_error error) s1)) by by destruct P1.
  destruct (Z.eqb_spec got 1) as [->|]; [|by exists lost]. unfold fn_serial_channel_got_byte in Eg.
  cbn in Hb. destruct (Z.eqb_spec rc FN_OK); [by rewrite <-Hb|]. by destruct (_ || _).
Qed.

(** What a write of [data] did. *)
Record writes (data : list Z) (r : Z) s0 s : Prop := {
  wr_req : has_req s;
  wr_reader : reader s = reader s0;
  wr_rx : exists more, rx (outside (exec s)) = rx (outside (exec s0)) ++ more;
  wr_tx : exists sent, tx (outside (exec s)) = tx (outside (exec s0)) ++ sent /\ (r = FN_OK -> sent = data)
}.
Lemma writes_status data r f s0 s :
  writes data r s0 s -> wp True (status f) (fun _ s' => writes data r s0 s') s.
Proof. by intros []. Qed.

Lemma session_write_bytes_line data s :
  has_req s -> wp True (session_write_bytes env data (Z.of_nat (length data))) (fun r s' => writes data r s s') s.
Proof.
  intros Hreq. pose proof fn_err_io_ok as Hio. unfold session_write_bytes, serial_write.
  apply wp_bind. eapply wp_use; [by apply on_serial_waits|cbv beta]. intros _ s1 [[] E1].
  apply wp_bind. unfold wp at 1, DoIO_serial.
  assert (Hw := ol_write (outside (exec s1)) (serial_of s1) data ltac:(by rewrite E1) ltac:(by rewrite E1) ltac:(by rewrite E1)).
  destruct (do_serial env _ _) as [[e q] early]. destruct Hw as [[more R] [sent [T Hs]]], w_line0 as [T1 [m1 R1]].
  set (s2 := on_link _ _). assert (H2 : writes data (if io_Error q =? 0 then FN_OK else FN_ERR_IO) s s2).
  { split; [by eexists|done|exists (m1 ++ more); cbn; by rewrite R, R1, app_assoc|].
    exists sent. cbn. split; [by rewrite T, T1|]. destruct (Z.eqb_spec (io_Error q) 0); [auto|done]. }
  clearbody s2. wp_step.
  - destruct (io_Error q =? 0); [done|]. unfold failed_serial. apply wp_bind. do 2 wp_step.
    eapply wp_mono; [|by apply writes_status]. cbv beta. intros _ s3 H3. wp_step. apply wp_bind.
    eapply wp_mono; [|apply wp_when; [intros _; by apply writes_status|intros _; exact H3]]. cbv beta.
    intros _ s4 H4. by wp_step.
  - destruct (io_Error q =? 0); [|done]. wp_step. apply wp_bind. wp_step; [|by wp_step].
    rewrite Z.eqb_refl in H0. done.
Qed.

(** *** Flushing *)

Definition emptied s : Prop := read_len (reader s) <= read_pos (reader s).

Lemma received_flows buf len r s0 s :
  reader_ok (reader s0) -> emptied s0 -> received buf len r s0 s -> flows s0 s.
Proof.
  intros Hok Hlt []. destruct rd_rx0 as (more & n & Hn & R & _). cbv zeta in *.
  exists (take n (rx (outside (exec s0)) ++ more)). split; [done|by rewrite rd_reader0|done|]. exists more. unfold input.
  rewrite rd_reader0, (buffered_none (reader s0)) by done. cbn. by rewrite R, take_drop.
Qed.

(** A computation that may lose input, and leaves the buffer empty. *)
Definition flushes {A} (m : M st A) : Prop := forall s, has_req s -> reader_ok (reader s) -> emptied s ->
  wp True m (fun _ s' => flows s s' /\ emptied s') s.
Lemma flushes_idles {A} (m : M st A) : idles m -> flushes m.
Proof.
  intros Hm s Hs Hok He. eapply wp_mono; [|by apply Hm]. cbv beta. intros a s1 W.
  split; [exists []; by apply waits_passes|]. unfold emptied. by rewrite (w_reader _ _ W).
Qed.
Lemma flushes_bind {A B} (m : M st A) (f : A -> M st B) : flushes m -> (forall a, flushes (f a)) -> flushes (m ≫= f).
Proof.
  intros Hm Hf s Hs Hok He. eapply wp_use; [by apply Hm|cbv beta]. intros a s1 [[l1 P1] E1].
  eapply wp_mono; [|apply (Hf a s1); [apply P1|apply P1|done]]. cbv beta. intros b s2 [F2 E2].
  split; [|done]. eapply flows_trans; [by exists l1|done].
Qed.
Lemma flushes_if {A} (b : bool) (m1 m2 : M st A) : flushes m1 -> flushes m2 -> flushes (if b then m1 else m2).
Proof. by destruct b. Qed.
Lemma flushes_ret {A} (a : A) : flushes (mret a).
Proof. apply flushes_idles, idles_ret. Qed.
Lemma flushes_gets {A} (f : st -> A) : flushes (gets f).
Proof. apply flushes_idles, idles_gets. Qed.
Lemma flushes_status f : flushes (status f).
Proof. apply flushes_idles, idles_status. Qed.
Lemma flushes_failed_serial d : flushes (failed_serial d).
Proof. apply flushes_idles, idles_failed_serial. Qed.
Lemma flushes_query : flushes (query env).
Proof. apply flushes_idles, idles_query. Qed.

(** The two reads of a drain. *)
Lemma flushes_drop ms : flushes (serial_cmd_read env [0] 1 ms false).
Proof.
  intros s Hs Hok He. eapply wp_mono; [|apply serial_cmd_read_line; [done|cbn; lia]]. cbv beta. intros r s1 R1.
  split; [by eapply received_flows|]. unfold emptied. by rewrite (rd_reader _ _ _ _ _ R1).
Qed.
Lemma flushes_read {A} len ms (k : Z -> M st A) :
  len <= READ_BUF_SIZE -> (forall rc, flushes (k rc)) ->
  flushes (r ← gets reader; '(rc, buf) ← serial_cmd_read env (read_buf r) len ms false;
           reading (set_read_buf buf);; k rc).
Proof.
  intros Hlen Hk s Hs Hok He. do 2 wp_step.
  eapply wp_use; [apply serial_cmd_read_line; [done|by rewrite (proj1 Hok)]|cbv beta]. intros [rc buf] s1 R1.
  unfold reading. do 2 wp_step. pose proof (received_fails _ _ _ _ Hok He R1) as [l P]. cbn [snd] in P.
  assert (E1 : emptied (on_reader (set_read_buf buf) s1)) by (unfold emptied; cbn; by rewrite (rd_reader _ _ _ _ _ R1)).
  eapply wp_mono; [|apply Hk; [apply P|apply P|done]]. cbv beta. intros a s2 [F2 E2].
  split; [|done]. eapply flows_trans; [by exists l|done].
Qed.

Ltac flushes_step :=
  lazymatch goal with
  | |- flushes (gets reader ≫= _) => apply flushes_read; [|intros ?]
  | |- flushes (mbind _ _) => apply flushes_bind; [|intros ?]
  | |- flushes (if _ then _ else _) => apply flushes_if
  | |- flushes (when _ _) => apply flushes_if; [|apply flushes_ret]
  | |- flushes (match ?x with _ => _ end) => destruct x
  | |- flushes (mret _) => apply flushes_ret
  | |- flushes (gets _) => apply flushes_gets
  | |- flushes (status _) => apply flushes_status
  | |- flushes (stick _) => apply flushes_status
  | |- flushes (failed_serial _) => apply flushes_failed_serial
  | |- flushes (query _) => apply flushes_query
  | |- flushes (serial_cmd_read _ [0] 1 _ false) => apply flushes_drop
  end.

Lemma flushes_drain : flushes (drain_query_and_read env).
Proof.
  unfold drain_query_and_read. repeat flushes_step. destruct (Z.gtb_spec (io_Actual a1) READ_BUF_SIZE); lia.
Qed.
Lemma flushes_flush_loop fuel : flushes (flush_loop env fuel).
Proof.
  induction fuel as [|fuel IH]; [done|]. cbn [flush_loop]. apply flushes_bind; [apply flushes_drain|].
  intros [rc saw]. apply flushes_if; [apply flushes_ret|apply IH].
Qed.
Lemma session_flush_line s :
  has_req s -> reader_ok (reader s) -> wp True (session_flush env flush_fuel) (fun _ s' => flows s s') s.
Proof.
  intros Hreq Hok. unfold session_flush, forget_input, reading. do 2 wp_step.
  set (s1 := on_reader _ s).
  assert (H1 : flows s s1 /\ emptied s1).
  { split; [|done]. exists (buffered (reader s)). split; [done| |done|].
    - destruct Hok. split; [done|]. cbn. unfold READ_BUF_SIZE. lia.
    - exists []. unfold input. by rewrite app_nil_r. }
  clearbody s1. destruct H1 as [[l P] E1]. do 2 wp_step. wp_step; [|by exists l].
  eapply wp_mono; [|apply flushes_flush_loop; [apply P|apply P|done]]. cbv beta. intros _ s2 [F2 _].
  eapply flows_trans; [by exists l|done].
Qed.

(** ** The session *)

Lemma channel_passes {A} (p : prog A) lost s0 s1 a i' o' (q : prog A) :
  (forall i o, channel q i o a i' o' -> channel p (lost ++ i) o a i' o') ->
  passes lost s0 s1 -> channel q (input s1) (output s1) a i' o' -> channel p (input s0) (output s0) a i' o'.
Proof. intros Hp [_ _ O [more I]] H. eapply ch_arrives. rewrite I, <-O. by apply Hp. Qed.

Lemma channel_writes {A} (p : prog A) data r s0 s1 a i' o' (q : prog A) :
  (forall sent i o, (r = FN_OK -> sent = data) -> channel q i (o ++ sent) a i' o' -> channel p i o a i' o') ->
  writes data r s0 s1 -> channel q (input s1) (output s1) a i' o' -> channel p (input s0) (output s0) a i' o'.
Proof.
  intros Hp [Hreq Hrd [more R] [sent [T Hs]]] H. apply (ch_arrives _ _ _ _ _ _ more). apply (Hp sent _ _ Hs).
  unfold input, output in *. by rewrite <-app_assoc, <-R, <-Hrd, <-T.
Qed.

Definition on_line s : Prop := has_req s /\ reader_ok (reader s).

Lemma run_channel {A} (p : prog A) : forall s a s',
  on_line s -> run env flush_fuel p s = Some (a, s') ->
  on_line s' /\ channel p (input s) (output s) a (input s') (output s').
Proof.
  induction p as [a|k IH|k IH|v k IH|data k IH|ms k IH|k IH]; intros s r s' Hs H; cbn [run] in H.
  - injection H as <- <-. split; [done|constructor].
  - destruct (IH _ _ _ _ Hs H). split; [done|by constructor].
  - destruct (IH _ _ _ Hs H). split; [done|by constructor].
  - unfold mbind, M_bind in H. destruct (session_write_byte env v s) as [[rc s1]|] eqn:E1; [|done].
    pose proof (wp_run _ _ _ _ _ _ (session_write_bytes_line [v] s (proj1 Hs)) E1) as W.
    destruct (IH _ _ _ _ ltac:(split; [apply W|rewrite (wr_reader _ _ _ _ W); apply Hs]) H) as [Hs' Hc]. split; [done|].
    eapply (channel_writes _ _ _ _ _ _ _ _ (k rc)); [intros sent i o; apply ch_byte|exact W|exact Hc].
  - unfold mbind, M_bind in H. destruct (session_write_bytes env data _ s) as [[rc s1]|] eqn:E1; [|done].
    pose proof (wp_run _ _ _ _ _ _ (session_write_bytes_line data s (proj1 Hs)) E1) as W.
    destruct (IH _ _ _ _ ltac:(split; [apply W|rewrite (wr_reader _ _ _ _ W); apply Hs]) H) as [Hs' Hc]. split; [done|].
    eapply (channel_writes _ _ _ _ _ _ _ _ (k rc)); [intros sent i o; apply ch_bytes|exact W|exact Hc].
  - unfold mbind, M_bind in H. destruct (session_read_byte env ms s) as [[b s1]|] eqn:E1; [|done].
    pose proof (wp_run _ _ _ _ _ _ (session_read_byte_line ms s (proj1 Hs) (proj2 Hs)) E1) as W. cbv beta in W.
    destruct b as [b|]; [|destruct W as [l W]];
      destruct (IH _ _ _ _ ltac:(split; apply W) H) as [Hs' Hc]; (split; [done|]).
    + eapply (channel_passes _ [b] _ _ _ _ _ (k (Some b))); [intros i o; apply ch_got|exact W|exact Hc].
    + eapply (channel_passes _ l _ _ _ _ _ (k None)); [intros i o; apply ch_lost|exact W|exact Hc].
  - unfold mbind, M_bind in H. destruct (session_flush env flush_fuel s) as [[[] s1]|] eqn:E1; [|done].
    destruct (wp_run _ _ _ _ _ _ (session_flush_line s (proj1 Hs) (proj2 Hs)) E1) as [l W].
    destruct (IH _ _ _ ltac:(split; apply W) H) as [Hs' Hc]. split; [done|].
    eapply (channel_passes _ l _ _ _ _ _ k); [intros i o; apply ch_flush|exact W|exact Hc].
Qed.
End Line.
