(* ===== verification/SerialBackendShape.v ===== *)
(** * The serial backend's arrays

    Whatever is called, the arrays keep their sizes, the counters stay within
    them, and the settings stay valid.  From there an exchange of a backend
    that was called any way since boot is a program over the ideal line. *)

From S2P Require Import Prelude Effects ExecIO FnLib SerialConfig NioBackend SerialBackend SerialBackendProps SerialBackendSystem SerialBackendLine.

Section Shape.
Context `{L : FnLib, !FnLibOk L} {E S : Type}.
Variable env : exec_env E.
Variable lib : session_lib S.
Variable flush_fuel : nat.
Variables rx tx : E -> list Z.
Context (Hline : OnLine env rx tx).
Abbreviation st := (backend E S).
Implicit Types s : st.

Record well_formed s : Prop := {
  wf_reader : reader_ok (reader s);
  wf_peek : Z.of_nat (length (debug_peek (reader s))) = DEBUG_PEEK_MAX;
  wf_peek_len : 0 <= debug_peek_len (reader s) <= DEBUG_PEEK_MAX;
  wf_bytes_got : is_u16 (debug_bytes_got (reader s));
  wf_leftover : Z.of_nat (length (diag_leftover (reader s))) = DIAG_LEFTOVER_MAX;
  wf_name : Z.of_nat (length (serial_device_name (settings s))) = FUJINET_NIO_SERIAL_NAME_MAX + 1;
  wf_string : serial_name (c_string (serial_device_name (settings s)));
  wf_baud : 300 <= serial_baud (settings s) <= 230400
}.
Definition tidy {A} (m : M st A) : Prop := forall s, well_formed s -> wp True m (fun _ s' => well_formed s') s.

Lemma tidy_ret {A} (a : A) : tidy (mret a).
Proof. by intros s H. Qed.
Lemma tidy_gets {A} (f : st -> A) : tidy (gets f).
Proof. by intros s H. Qed.
Lemma tidy_bind {A B} (m : M st A) (f : A -> M st B) : tidy m -> (forall a, tidy (f a)) -> tidy (m ≫= f).
Proof.
  intros Hm Hf s H. eapply wp_use; [by apply Hm|cbv beta]. intros a s1 H1. by apply Hf.
Qed.
Lemma tidy_if {A} (b : bool) (m1 m2 : M st A) : tidy m1 -> tidy m2 -> tidy (if b then m1 else m2).
Proof. by destruct b. Qed.
Lemma tidy_when b (m : M st unit) : tidy m -> tidy (when b m).
Proof. destruct b; [done|]. intros _. apply tidy_ret. Qed.

(** What changes neither the reader nor the settings. *)
Lemma tidy_same s s' : reader s' = reader s -> settings s' = settings s -> well_formed s -> well_formed s'.
Proof. intros E1 E2 []. split; rewrite ?E1, ?E2; done. Qed.
Definition apart {A} (m : M st A) : Prop :=
  forall s, wp True m (fun _ s' => reader s' = reader s /\ settings s' = settings s) s.
Lemma tidy_apart {A} (m : M st A) : apart m -> tidy m.
Proof.
  intros Hm s H. eapply wp_mono; [|apply Hm]. cbv beta. intros a s' [E1 E2]. by eapply tidy_same.
Qed.
Lemma apart_modify f :
  (forall s, reader (f s) = reader s) -> (forall s, settings (f s) = settings s) -> apart (modify f).
Proof. intros H1 H2 s. by apply wp_modify. Qed.
Ltac head_of t := lazymatch t with ?f _ => head_of f | _ => t end.
Ltac apart_op :=
  intros s;
  lazymatch goal with
  | |- wp _ ?m _ _ => let h := head_of m in try unfold h
  | |- _ => idtac
  end;
  unfold wp, modify, serial_back, timer_back; cbv zeta;
  repeat match goal with
  | |- context [match ?x with _ => _ end] =>
      lazymatch x with context [match _ with _ => _ end] => fail | _ => destruct x end
  end; done.

Lemma apart_on_serial f : apart (on_serial f). Proof. apart_op. Qed.
Lemma apart_on_timer f : apart (on_timer f). Proof. apart_op. Qed.
Lemma apart_DoIO_serial : apart (DoIO_serial env). Proof. apart_op. Qed.
Lemma apart_DoIO_timer : apart (DoIO_timer env). Proof. apart_op. Qed.
Lemma apart_CreatePort_serial : apart (CreatePort_serial env). Proof. apart_op. Qed.
Lemma apart_CreatePort_timer : apart (CreatePort_timer env). Proof. apart_op. Qed.
Lemma apart_CreateExtIO_serial : apart (CreateExtIO_serial env). Proof. apart_op. Qed.
Lemma apart_CreateExtIO_timer : apart (CreateExtIO_timer env). Proof. apart_op. Qed.
Lemma apart_OpenDevice_serial : apart (OpenDevice_serial env). Proof. apart_op. Qed.
Lemma apart_OpenDevice_timer : apart (OpenDevice_timer env). Proof. apart_op. Qed.
Lemma apart_CloseDevice_serial : apart (CloseDevice_serial env). Proof. apart_op. Qed.
Lemma apart_CloseDevice_timer : apart (CloseDevice_timer env). Proof. apart_op. Qed.
Lemma apart_DeleteExtIO_serial : apart (DeleteExtIO_serial env). Proof. apart_op. Qed.
Lemma apart_DeleteExtIO_timer : apart (DeleteExtIO_timer env). Proof. apart_op. Qed.
Lemma apart_DeletePort_serial : apart (DeletePort_serial env). Proof. apart_op. Qed.
Lemma apart_DeletePort_timer : apart (DeletePort_timer env). Proof. apart_op. Qed.
Lemma apart_CheckIO_serial : apart (CheckIO_serial env). Proof. apart_op. Qed.
Lemma apart_CheckIO_timer : apart (CheckIO_timer env). Proof. apart_op. Qed.
Lemma apart_abort_serial : apart (abort_serial env). Proof. apart_op. Qed.
Lemma apart_abort_timer : apart (abort_timer env). Proof. apart_op. Qed.
Lemma apart_status f : apart (status f). Proof. apart_op. Qed.
Lemma apart_note_hidden v : apart (note_hidden v). Proof. apart_op. Qed.
Lemma apart_link f : apart (modify (on_link f)). Proof. apart_op. Qed.
Lemma apart_session v : apart (modify (set_session v)). Proof. apart_op. Qed.
Lemma apart_initialized b : apart (modify (set_session_initialized b)). Proof. apart_op. Qed.

Lemma apart_SendIO_serial : apart (SendIO_serial env). Proof. apart_op. Qed.
Lemma apart_SendIO_timer : apart (SendIO_timer env). Proof. apart_op. Qed.
Lemma apart_Wait_both : apart (Wait_both env). Proof. apart_op. Qed.
Lemma apart_WaitIO_serial : apart WaitIO_serial. Proof. apart_op. Qed.
Lemma apart_WaitIO_timer : apart (WaitIO_timer env). Proof. apart_op. Qed.
Lemma apart_ret {A} (a : A) : apart (mret a). Proof. done. Qed.
Lemma apart_gets {A} (f : st -> A) : apart (gets f). Proof. done. Qed.
Lemma apart_bind {A B} (m : M st A) (f : A -> M st B) : apart m -> (forall a, apart (f a)) -> apart (m ≫= f).
Proof.
  intros Hm Hf s. eapply wp_use; [apply Hm|cbv beta]. intros a s1 [E1 E2].
  eapply wp_mono; [|apply Hf]. cbv beta. intros b s2 [E3 E4]. split; congruence.
Qed.
Lemma apart_if {A} (b : bool) (m1 m2 : M st A) : apart m1 -> apart m2 -> apart (if b then m1 else m2).
Proof. by destruct b. Qed.
Lemma apart_when b (m : M st unit) : apart m -> apart (when b m).
Proof. destruct b; [done|]. intros _. apply apart_ret. Qed.

#[local] Hint Resolve apart_on_serial apart_on_timer apart_DoIO_serial apart_DoIO_timer
  apart_CreatePort_serial apart_CreatePort_timer apart_CreateExtIO_serial apart_CreateExtIO_timer
  apart_OpenDevice_serial apart_OpenDevice_timer apart_CloseDevice_serial apart_CloseDevice_timer
  apart_DeleteExtIO_serial apart_DeleteExtIO_timer apart_DeletePort_serial apart_DeletePort_timer
  apart_CheckIO_serial apart_CheckIO_timer apart_abort_serial apart_abort_timer apart_status
  apart_note_hidden apart_link apart_session apart_initialized apart_ret apart_gets
  apart_SendIO_serial apart_SendIO_timer apart_Wait_both apart_WaitIO_serial apart_WaitIO_timer : core.
Ltac apart_step :=
  lazymatch goal with
  | |- apart (mbind _ _) => apply apart_bind; [|intros ?]
  | |- apart (if _ then _ else _) => apply apart_if
  | |- apart (when _ _) => apply apart_when
  | |- apart (match ?x with _ => _ end) => destruct x
  | _ => solve [auto]
  end.
Ltac apart_all := repeat apart_step.

Lemma apart_failed_serial d : apart (failed_serial d). Proof. unfold failed_serial. apart_all. Qed.
Lemma apart_check_hidden : apart check_hidden. Proof. unfold check_hidden. apart_all. Qed.
Lemma apart_query : apart (query env). Proof. unfold query. apart_all. Qed.
#[local] Hint Resolve apart_failed_serial apart_check_hidden apart_query : core.
Lemma apart_reader_query : apart (reader_query env). Proof. unfold reader_query. apart_all. Qed.
Lemma apart_serial_write buf len : apart (serial_write env buf len). Proof. unfold serial_write. apart_all. Qed.
Lemma apart_cmd_read buf len ms rec : apart (serial_cmd_read env buf len ms rec).
Proof. unfold serial_cmd_read. apart_all. Qed.
#[local] Hint Resolve apart_reader_query apart_serial_write apart_cmd_read : core.
Lemma apart_poll_loop fuel : forall remaining, apart (poll_loop env fuel remaining).
Proof. induction fuel as [|fuel IH]; intros remaining; [done|]. cbn [poll_loop]. apart_all. Qed.
#[local] Hint Resolve apart_poll_loop : core.

(** A read leaves the size of its buffer. *)
Lemma cmd_read_length buf len ms rec s :
  len <= Z.of_nat (length buf) ->
  wp True (serial_cmd_read env buf len ms rec) (fun r s' => length r.2 = length buf) s.
Proof.
  intros Hlen. destruct (serial_req (link s)) as [q0|] eqn:Eq.
  - eapply wp_mono; [|apply (serial_cmd_read_line env rx tx Hline); [by eexists|done]]. by intros r s' [].
  - unfold serial_cmd_read. do 2 wp_step. wp_step; [by wp_step|].
    exfalso. rewrite Eq, !orb_false_iff in H. by destruct H as (((((_ & ?) & _) & _) & _) & _).
Qed.
Ltac tidy_step :=
  lazymatch goal with
  | |- tidy (mbind _ _) => apply tidy_bind; [|intros ?]
  | |- tidy (if _ then _ else _) => apply tidy_if
  | |- tidy (when _ _) => apply tidy_when
  | |- tidy (match ?x with _ => _ end) => destruct x
  | _ => solve [auto | apply tidy_apart; auto]
  end.
Ltac tidy_all := repeat tidy_step.

Lemma wf_reading f s :
  well_formed s -> reader_ok (f (reader s)) ->
  Z.of_nat (length (debug_peek (f (reader s)))) = DEBUG_PEEK_MAX ->
  0 <= debug_peek_len (f (reader s)) <= DEBUG_PEEK_MAX -> is_u16 (debug_bytes_got (f (reader s))) ->
  Z.of_nat (length (diag_leftover (f (reader s)))) = DIAG_LEFTOVER_MAX ->
  wp True (reading f) (fun _ s' => well_formed s') s.
Proof. intros [] ? ? ? ? ?. by apply wp_modify. Qed.
Lemma tidy_note_byte_got v : tidy (note_byte_got v).
Proof.
  intros s H. destruct H. unfold note_byte_got. apply wf_reading; [done|..]; cbv zeta;
    destruct (Z.eqb_spec (debug_bytes_got (reader s)) 65535); cbn;
    destruct (Z.ltb_spec (debug_peek_len (reader s)) DEBUG_PEEK_MAX); cbn; rewrite ?length_put_at;
    unfold DEBUG_PEEK_MAX, is_u16 in *; try done; lia.
Qed.
Lemma tidy_forget_input : tidy forget_input.
Proof.
  intros s H. destruct H as [[? ?]]. by apply wf_reading.
Qed.
Lemma tidy_set_read_buf buf s :
  well_formed s -> length buf = length (read_buf (reader s)) ->
  wp True (reading (set_read_buf buf)) (fun _ s' => well_formed s') s.
Proof. intros [[Hl Hp]] E0. apply wf_reading; try done. split; [cbn; by rewrite E0|done]. Qed.

Lemma tidy_use {A B} (m : M st A) (f : A -> M st B) s :
  apart m -> well_formed s ->
  (forall a s', well_formed s' -> reader s' = reader s -> wp True (f a) (fun _ s' => well_formed s') s') ->
  wp True (m ≫= f) (fun _ s' => well_formed s') s.
Proof.
  intros Hm H Hf. eapply wp_use; [apply Hm|cbv beta]. intros a s1 [E1 E2]. apply Hf; [by eapply tidy_same|done].
Qed.

Lemma wp_any {A} (m : M st A) s : wp True m (fun _ _ => True) s.
Proof. unfold wp. by destruct (m s) as [[a s']|]. Qed.
(** Its query leaves a request; what it reads fits. *)
Lemma reader_query_req s : wp True (reader_query env) (fun bad s' => bad = false -> has_req s') s.
Proof.
  unfold reader_query, query. apply wp_bind. eapply wp_use; [apply wp_any|cbv beta]. intros _ s1 _.
  unfold wp at 1, DoIO_serial. destruct (do_serial env _ _) as [[e q] early]. set (s2 := on_link _ _).
  assert (H2 : has_req s2) by by eexists. clearbody s2. wp_step.
  - eapply wp_use; [apply wp_any|cbv beta]. intros _ s3 _. by wp_step.
  - do 2 wp_step. apply wp_bind, wp_modify. eapply wp_use; [by apply (idles_check_hidden rx tx)|cbv beta].
    intros _ s3 [H3 _ _]. by wp_step.
Qed.
Lemma serial_cmd_read_fits buf len ms rec s :
  len <= Z.of_nat (length buf) ->
  wp True (serial_cmd_read env buf len ms rec) (fun r s' =>
    r.1 = FN_OK -> 0 <= io_Actual (serial_of s') <= len) s.
Proof.
  intros Hlen. destruct (serial_req (link s)) as [q0|] eqn:Eq.
  - eapply wp_mono; [|apply (serial_cmd_read_line env rx tx Hline); [by eexists|done]]. cbv beta.
    intros r s' [] Hr. destruct rd_rx as (more & n & _ & _ & Hn). destruct (Hn Hr) as (-> & ? & _). lia.
  - unfold serial_cmd_read. do 2 wp_step. wp_step.
    + wp_step. cbn. intros Hx. by destruct (fn_err_io_ok Hx).
    + exfalso. rewrite Eq, !orb_false_iff in H. by destruct H as (((((_ & ?) & _) & _) & _) & _).
Qed.

(** All of it. *)
Lemma cmd_read_fits {A} buf len ms rec (k : Z * list Z -> M st A) s :
  well_formed s -> len <= Z.of_nat (length buf) ->
  (forall rc buf' s', well_formed s' -> reader s' = reader s -> length buf' = length buf ->
     (rc = FN_OK -> 0 <= io_Actual (serial_of s') <= len) -> wp True (k (rc, buf')) (fun _ s' => well_formed s') s') ->
  wp True (serial_cmd_read env buf len ms rec ≫= k) (fun _ s' => well_formed s') s.
Proof.
  intros H Hlen Hk. eapply wp_use; [apply wp_and; [apply wp_and|]|cbv beta];
    [apply (apart_cmd_read buf len ms rec s)|by apply cmd_read_length|by apply serial_cmd_read_fits|].
  intros [rc buf'] s1 [[[E1 E2] El] Ha]. apply Hk; [by eapply tidy_same|done|done|done].
Qed.

(** The turns that read into the buffer. *)
Lemma tidy_fill {A} len ms rec (k : Z -> M st A) s r :
  well_formed s -> r = reader s -> len <= READ_BUF_SIZE -> (forall rc, tidy (k rc)) ->
  wp True ('(rc, buf) ← serial_cmd_read env (read_buf r) len ms rec; reading (set_read_buf buf);; k rc)
    (fun _ s' => well_formed s') s.
Proof.
  intros H -> Hlen Hk. apply cmd_read_fits; [done|by rewrite (proj1 (wf_reader _ H))|].
  intros rc buf s1 H1 E1 Hl _. eapply wp_use; [apply tidy_set_read_buf; [done|by rewrite E1]|cbv beta].
  intros _ s2 H2. by apply Hk.
Qed.

Lemma tidy_serial_read_byte ms : tidy (serial_read_byte env ms).
Proof.
  intros s H. unfold serial_read_byte. do 2 wp_step. wp_step.
  { eapply wp_use; [apply wf_reading; try apply H|cbv beta].
    - destruct H as [(? & ? & ?)]. split; [done|]. cbn. lia.
    - intros _ s1 H1. eapply wp_use; [by apply tidy_note_byte_got|cbv beta]. intros _ s2 H2. by wp_step. }
  eapply wp_use; [apply wp_and; [apply (apart_reader_query s)|apply reader_query_req]|cbv beta].
  intros bad s1 [[E1 F1] R1]. pose proof (tidy_same _ _ E1 F1 H) as W1. wp_step; [by wp_step|]. do 2 wp_step.
  destruct bad; [done|]. specialize (R1 eq_refl). set (m := if _ =? 0 then _ else _).
  assert (Hm : apart m /\ wp True m (fun _ s' => has_req s') s1).
  { unfold m. split; [apart_all|]. wp_step; [|by wp_step]. eapply wp_mono; [|apply (poll_loop_waits env rx tx Hline), R1].
    cbv beta. by intros r s2 [[] _]. }
  clearbody m. destruct Hm as [Ha Hm]. eapply wp_use; [apply wp_and; [apply Ha|apply Hm]|cbv beta].
  intros [e|available] s2 [[E2 F2] R2]; [by wp_step; apply (tidy_same s1)|]. pose proof (tidy_same _ _ E2 F2 W1) as W2.
  wp_step; [by wp_step|]. set (len := if _ >? _ then _ else _).
  assert (Hlen : len <= READ_BUF_SIZE) by (unfold len; destruct (Z.gtb_spec available READ_BUF_SIZE); lia). clearbody len.
  assert (Hbuf : Z.of_nat (length (read_buf (reader s))) = READ_BUF_SIZE) by apply H.
  apply cmd_read_fits; [done|lia|]. intros rc buf s3 W3 E3 L3 A3.
  assert (W4 : well_formed (on_reader (set_read_buf buf) s3)) by (apply (tidy_set_read_buf buf s3); [done|congruence]).
  apply wp_bind, wp_modify. change (serial_of s3) with (serial_of (on_reader (set_read_buf buf) s3)) in A3.
  set (s4 := on_reader _ s3) in *. clearbody s4. wp_step; [by wp_step|]. do 2 wp_step.
  specialize (A3 ltac:(lia)). unfold READ_BUF_SIZE in *. rewrite u16_id by (unfold is_u16; lia).
  eapply wp_use; [apply wf_reading; try apply W4|cbv beta].
  { destruct W4 as [(? & ? & ?)]. split; [done|]. cbn. unfold READ_BUF_SIZE. lia. }
  intros _ s5 W5. wp_step; [by wp_step|]. eapply wp_use; [by apply tidy_note_byte_got|cbv beta]. intros _ s6 W6.
  by wp_step.
Qed.
Lemma tidy_write_bytes data len : tidy (session_write_bytes env data len).
Proof. unfold session_write_bytes, stick. tidy_all. Qed.
Lemma tidy_read_byte ms : tidy (session_read_byte env ms).
Proof. pose proof (tidy_serial_read_byte ms). unfold session_read_byte. tidy_all. Qed.

Lemma tidy_drain : tidy (drain_query_and_read env).
Proof.
  unfold drain_query_and_read, stick. tidy_step; [tidy_step|]. tidy_step; [tidy_step|].
  tidy_step; [tidy_step|]. tidy_step; [tidy_all|]. tidy_step; [tidy_step|]. tidy_step; [tidy_all|].
  tidy_step; [tidy_step|]. intros s H. do 2 wp_step. apply tidy_fill; [done|done| |].
  - destruct (Z.gtb_spec (io_Actual a1) READ_BUF_SIZE); lia.
  - intros rc. tidy_all.
Qed.
Lemma tidy_flush_loop fuel : tidy (flush_loop env fuel).
Proof.
  pose proof tidy_drain. induction fuel as [|fuel IH]; [done|]. cbn [flush_loop]. tidy_all.
Qed.
Lemma tidy_session_flush : tidy (session_flush env flush_fuel).
Proof. pose proof (tidy_flush_loop flush_fuel). pose proof tidy_forget_input. unfold session_flush. tidy_all. Qed.
Lemma tidy_drain_loop fuel : forall empty_ms waited_ms steps, tidy (drain_loop env fuel empty_ms waited_ms steps).
Proof.
  pose proof tidy_drain. induction fuel as [|fuel IH]; intros empty_ms waited_ms steps; [done|]. cbn [drain_loop].
  tidy_step; [tidy_step|]. destruct a as [rc saw]. tidy_step; [tidy_step|].
  destruct (fn_serial_drain_after_fault_step saw empty_ms waited_ms) as [[v e] w]. tidy_all.
Qed.
Lemma tidy_until_idle : tidy (session_flush_until_idle env flush_fuel).
Proof.
  pose proof tidy_session_flush. pose proof tidy_forget_input. pose proof (tidy_drain_loop drain_fuel 0 0 0).
  unfold session_flush_until_idle. tidy_all.
Qed.
Lemma tidy_run {A} (p : prog A) : tidy (run env flush_fuel p).
Proof.
  induction p; cbn [run]; [tidy_step|done|done|..]; (apply tidy_bind; [|done]).
  - apply tidy_write_bytes.
  - apply tidy_write_bytes.
  - apply tidy_read_byte.
  - apply tidy_session_flush.
Qed.

(** ** Calls *)

Lemma tidy_peek : tidy (peek_leftover env).
Proof.
  intros s H. unfold peek_leftover. do 6 wp_step. wp_step; [|done].
  apply cmd_read_fits; [done| |].
  { rewrite (wf_peek _ H). unfold DEBUG_PEEK_MAX. destruct (Z.gtb_spec (io_Actual (serial_of s)) 32); lia. }
  intros rc buf s1 H1 E1 L1 A1.
  assert (H2 : well_formed (on_reader (set_debug_peek buf) s1)).
  { destruct H1. split; try done. cbn. rewrite L1. apply (wf_peek _ H). }
  unfold reading. apply wp_bind, wp_modify. change (serial_of s1) with (serial_of (on_reader (set_debug_peek buf) s1)) in A1.
  set (s2 := on_reader _ s1) in *. clearbody s2.
  eapply wp_use with (P := fun _ s' => well_formed s').
  { wp_step; [|done]. do 2 wp_step. specialize (A1 ltac:(lia)).
    apply wf_reading; try apply H2. cbn. unfold DEBUG_PEEK_MAX in *.
    rewrite u8_id by (unfold is_u8; destruct (Z.gtb_spec (io_Actual (serial_of s2)) 32); lia).
    destruct (Z.gtb_spec (io_Actual (serial_of s2)) 32); lia. }
  cbv beta. intros _ s3 H3. by apply tidy_apart; [apply apart_status|].
Qed.
Lemma tidy_diagnose : tidy (diagnose_timeout env).
Proof. pose proof tidy_peek. unfold diagnose_timeout. tidy_all. Qed.
Lemma tidy_converse v q n r c : tidy (converse env lib flush_fuel v q n r c).
Proof.
  pose proof tidy_diagnose. unfold converse. tidy_step; [tidy_step|]. tidy_step.
  { intros s H0. apply wf_reading; try apply H0; unfold DEBUG_PEEK_MAX, is_u16; cbn; lia. }
  tidy_step; [apply tidy_run|]. destruct a1 as [[[sr resp] len] v2]. tidy_all.
Qed.

(** The capture of what is left, into [diag_leftover]. *)
Lemma tidy_capture {A} (k : Z * list Z -> M st A) s :
  well_formed s ->
  (forall n dst s', well_formed s' -> Z.of_nat (length dst) = DIAG_LEFTOVER_MAX ->
     wp True (k (n, dst)) (fun _ s' => well_formed s') s') ->
  wp True (capture_leftover env (diag_leftover (reader s)) DIAG_LEFTOVER_MAX ≫= k) (fun _ s' => well_formed s') s.
Proof.
  intros H Hk. pose proof (wf_leftover _ H) as Hl. set (dst := diag_leftover (reader s)) in *. clearbody dst.
  unfold capture_leftover. apply wp_bind. do 4 wp_step. wp_step; [wp_step; by apply Hk|].
  apply wp_bind. eapply wp_mono; [|apply (tidy_apart _ apart_query), H]. cbv beta. intros e s1 G1.
  wp_step.
  { apply wp_bind. eapply wp_mono; [|apply (tidy_apart _ (apart_status _)), G1]. cbv beta. intros _ s2 G2.
    wp_step. by apply Hk. }
  do 2 wp_step. wp_step.
  { apply wp_bind. eapply wp_mono; [|apply (tidy_apart _ (apart_status _)), G1]. cbv beta. intros _ s2 G2.
    wp_step. by apply Hk. }
  set (len := if _ >? _ then _ else _).
  assert (Hlen : len <= Z.of_nat (length dst)).
  { unfold len. rewrite Hl. destruct (Z.gtb_spec (io_Actual (serial_of s1)) DIAG_LEFTOVER_MAX); lia. }
  clearbody len. eapply wp_use; [apply wp_and; [apply (apart_cmd_read dst len 50 false s1)|by apply cmd_read_length]|cbv beta].
  intros [rc buf] s2 [[E2 F2] L2]. pose proof (tidy_same _ _ E2 F2 G1) as G2. do 2 wp_step. apply wp_bind.
  eapply wp_mono; [|apply (tidy_apart _ (apart_status _)), G2]. cbv beta. intros _ s3 G3. wp_step.
  apply Hk; [done|]. cbn in L2. by rewrite L2.
Qed.

Lemma tidy_settle result : tidy (settle env flush_fuel result).
Proof.
  pose proof tidy_until_idle. unfold settle. tidy_step; [tidy_step|]. tidy_step; [tidy_step|].
  tidy_step; [|tidy_all]. apply tidy_when. intros s Hs. do 2 wp_step. apply tidy_capture; [done|].
  intros n dst s1 H1 Hl. by apply wf_reading; try apply H1.
Qed.
Lemma tidy_exchange q n r c : tidy (backend_exchange env lib flush_fuel q n r c).
Proof.
  pose proof tidy_converse. pose proof tidy_settle. unfold backend_exchange. do 3 (tidy_step; [tidy_step|]).
  tidy_step; [|tidy_step]. tidy_step; [auto|]. destruct a2 as [[sr resp] len].
  tidy_step; [tidy_step|]. destruct (verdict sr a2) as [res rep]. tidy_all.
Qed.

Lemma tidy_close_session : tidy (close_session env lib flush_fuel).
Proof.
  pose proof (fun v => tidy_run (fn_stream_session_close lib v)). unfold close_session. tidy_all.
Qed.
Lemma apart_release_timer : apart (release_timer env).
Proof. unfold release_timer, reclaim_timer. apart_all. Qed.
Lemma apart_release_serial : apart (release_serial env).
Proof. unfold release_serial, reclaim_serial. apart_all. Qed.
#[local] Hint Resolve apart_release_timer apart_release_serial : core.
Lemma tidy_close : tidy (backend_close env lib flush_fuel).
Proof. pose proof tidy_close_session. pose proof tidy_forget_input. unfold backend_close. tidy_all. Qed.
Lemma tidy_abandon e : tidy (abandon env lib flush_fuel e).
Proof. pose proof tidy_close. unfold abandon. tidy_all. Qed.
Lemma tidy_start_session : tidy (start_session env lib flush_fuel).
Proof.
  pose proof tidy_abandon. pose proof tidy_forget_input. pose proof (tidy_run (fn_stream_session_init lib)).
  pose proof (fun v => tidy_run (fn_stream_session_open lib v)). unfold start_session.
  do 2 (tidy_step; [tidy_step|]). tidy_step; [apply tidy_apart; apart_all|]. tidy_all.
Qed.
Lemma tidy_open_timer : tidy (open_timer env lib flush_fuel).
Proof. pose proof tidy_abandon. pose proof tidy_start_session. unfold open_timer. tidy_all. Qed.
Lemma tidy_parameters : tidy set_serial_parameters.
Proof. unfold set_serial_parameters, backend_get_baud. tidy_all. Qed.
Lemma tidy_open : tidy (backend_open env lib flush_fuel).
Proof.
  pose proof tidy_abandon. pose proof tidy_open_timer. pose proof tidy_parameters. pose proof tidy_close.
  unfold backend_open. tidy_all.
Qed.

Lemma tidy_set_baud baud : tidy (backend_set_baud baud).
Proof.
  unfold backend_set_baud. destruct ((baud <? 300) || (baud >? 230400)) eqn:Eb; [tidy_step|].
  tidy_step; [|tidy_step]. intros s []. apply wp_modify. split; try done. cbn. lia.
Qed.

(** A name that was accepted fits, whether or not its memory ends in a NUL. *)
Lemma name_loop_fits buf i :
  0 <= i -> name_loop buf i = true ->
  (i + strlen buf <= 30 \/ strlen buf = 0) /\
  Forall (fun c => 32 < c < 127 /\ c <> 58 /\ c <> 47 /\ c <> 92) (c_string buf).
Proof.
  revert i. unfold strlen. induction buf as [|c buf IH]; intros i Hi H; simpl in *; [split; [by right|constructor]|].
  destruct (Z.eqb_spec c 0) as [->|Hc]; [split; [by right|constructor]|].
  unfold FUJINET_NIO_SERIAL_NAME_MAX in *. destruct (Z.geb_spec i 30); [done|].
  destruct (name_char_bad c) eqn:Ec; [done|]. apply name_char_bad_spec in Ec.
  destruct (IH (i + 1) ltac:(lia) H) as [H1 H2]. simpl. split; [left; lia|by constructor].
Qed.
Lemma name_ok_fits name :
  fujinet_nio_serial_name_ok (Some name) = true -> serial_name (c_string name).
Proof.
  unfold fujinet_nio_serial_name_ok, serial_name. destruct name as [|c name]; [done|].
  change ((c :: name).[0]) with c. destruct (Z.eqb_spec c 0) as [|Hc]; [done|]. intros H.
  destruct (name_loop_fits _ 0 ltac:(lia) H) as [H1 H2]. unfold strlen in H1. split; [|split; [lia|done]].
  cbn. by destruct (Z.eqb_spec c 0).
Qed.
Lemma tidy_set_serial unit name : tidy (backend_set_serial unit name).
Proof.
  unfold backend_set_serial. destruct (fujinet_nio_serial_name_ok name) eqn:En; cbn [negb]; [|tidy_step].
  destruct name as [name|]; [|done]. apply name_ok_fits in En as Hn. tidy_step; [|tidy_step].
  intros s []. apply wp_modify. unfold FUJINET_NIO_SERIAL_NAME_MAX in *. split; try done; cbn [default settings set_settings serial_device_name].
  - destruct Hn as (_ & Hl & _). rewrite length_overwrite; [done|]. rewrite length_app. cbn. lia.
  - unfold overwrite. rewrite take_0, app_nil_l, <-app_assoc. cbn [app]. by rewrite c_string_app by apply c_string_nonzero.
Qed.

Lemma tidy_call c : tidy (call env lib flush_fuel c).
Proof.
  pose proof tidy_open. pose proof tidy_close. pose proof tidy_exchange. pose proof tidy_set_baud.
  pose proof tidy_set_serial. unfold call. tidy_all.
Qed.
Lemma tidy_calls cs : tidy (calls env lib flush_fuel cs).
Proof. pose proof tidy_call. induction cs as [|c cs IH]; cbn [calls]; tidy_all. Qed.

Lemma well_formed_boot (e : E) : well_formed (boot (S := S) e).
Proof.
  split; try (vm_compute; done); try done.
  change (c_string _) with FN_SERIAL_BACKEND_DEVICE. split; [done|]. split; [cbn; lia|].
  repeat (constructor; [lia|]). constructor.
Qed.

(** C22: the arrays keep their sizes and the counters and positions stay
    within them: after any calls from boot, over devices that return a
    read's buffer at its length and count no more than was asked, the read
    buffer, the debug peek, the leftover capture and the device name have
    the sizes they were declared with, [read_len] and [debug_peek_len] are
    within theirs, the device name is an acceptable string within its array,
    and the baud rate is one that serial.device takes. *)
Theorem backend_well_formed cs (e : E) (s : st) :
  calls env lib flush_fuel cs (boot e) = Some (tt, s) -> well_formed s.
Proof. intros H. exact (wp_run _ _ _ _ _ _ (tidy_calls cs (boot e) (well_formed_boot e)) H). Qed.

(** ** An exchange over the line *)

Lemma converse_channel v q n r c s sr response len s1 :
  on_line s -> converse env lib flush_fuel v q n r c s = Some ((sr, response, len), s1) ->
  exists v' i o, channel (fn_stream_session_request lib v q n r c FN_SERIAL_BACKEND_TIMEOUT_MS)
                   (input rx s) (output tx s) (sr, response, len, v') i o.
Proof.
  intros Hs H. unfold converse, status, reading, mbind, M_bind, modify in H. cbv zeta in H.
  set (s0 := on_reader _ (on_report _ s)) in H.
  assert (H0 : on_line s0 /\ input rx s0 = input rx s /\ output tx s0 = output tx s) by by destruct Hs.
  clearbody s0. destruct H0 as (H0 & <- & <-).
  destruct (run env flush_fuel _ s0) as [[[[[sr' resp'] len'] v'] s2]|] eqn:Er; [|done].
  destruct (run_channel env flush_fuel rx tx Hline _ s0 _ s2 H0 Er) as [_ Hc]. exists v', (input rx s2), (output tx s2).
  unfold gets in H. cbv beta zeta iota in H. destruct (when _ _ _) as [[[] s3]|]; [|done]. injection H as <- <- <- _. exact Hc.
Qed.

(** C23: an exchange is the library's program over the ideal line: for a
    backend called in any way since boot, if an exchange is taken, the
    session's request ran over the bytes that had arrived and were not yet
    read, in their order, each once, losing some only at a read that failed
    or a flush; what it wrote went out in order; its response and length are
    the exchange's own, and FN_OK of the exchange is FN_OK of the session. *)
Theorem exchange_over_line (Hlib : LibraryOk lib) cs (e : E) (s : st) q n r c result response len diag s' :
  calls env lib flush_fuel cs (boot e) = Some (tt, s) -> ready s = true ->
  backend_exchange env lib flush_fuel q n r c s = Some ((result, response, len, diag), s') ->
  exists v v' sr i o, session s = Some v /\
    channel (fn_stream_session_request lib v q n r c FN_SERIAL_BACKEND_TIMEOUT_MS)
      (input rx s) (output tx s) (sr, response, len, v') i o /\
    (result = FN_OK -> sr = FN_OK).
Proof.
  intros Hcs Hr He.
  pose proof (calls_rest env lib flush_fuel True (fun _ => O) (or_introl I) cs (boot e) (sound_boot e) (or_introl I)) as Hw.
  destruct (wp_run _ _ _ _ _ _ Hw Hcs) as [Hsound _].
  pose proof (wp_run _ _ _ _ _ _ (tidy_calls cs (boot e) (well_formed_boot e)) Hcs) as Hwf. cbv beta in Hwf.
  pose proof (exchange_spec env lib flush_fuel True (fun _ => O) (or_introl I) q n r c s Hsound (or_introl I) Hr) as Hx.
  destruct (wp_run _ _ _ _ _ _ Hx He) as (_ & _ & _ & _ & v & sr & s1 & Hv & Hc & Hres & _). cbn [fst snd] in *.
  assert (Hs : on_line s).
  { split; [|apply Hwf]. unfold ready in Hr. apply andb_prop in Hr as [[Ho Hto]%andb_prop _].
    apply (sound_up flush_fuel True (fun _ => O) s Hsound (or_introl I) Ho Hto). }
  destruct (converse_channel _ _ _ _ _ _ _ _ _ _ Hs Hc) as (v' & i & o & Hch).
  exists v, v', sr, i, o. split; [done|]. split; [done|]. intros Hok.
  apply (verdict_cases sr (report s1)). by rewrite <-Hres.
Qed.
End Shape.
