(* ===== verification/SerialBackendExample.v ===== *)
(** * A line for the serial backend

    Devices over a list of bytes, which satisfy what the theorems ask of
    devices, with a peer that answers each write from a script; a small
    session that sends a request and reads a counted reply; the theorems at
    work on them, and what a signal left set does to a read. *)

From S2P Require Import Prelude Effects ExecIO FnLib SerialConfig NioBackend SerialBackend SerialBackendProps SerialBackendSystem SerialBackendLine SerialBackendShape.

(** ** The devices *)

Record wire := mkWire { w_rx : list Z; w_tx : list Z; w_script : list (list Z) }.

(** The request with its results. *)
Definition reply (data : option (list Z)) (actual error : Z) (q : IOExtSer) : IOExtSer :=
  mkExtSer (io_Command q) data (io_Length q) actual error 0 (io_Baud q) (io_ReadLen q) (io_WriteLen q)
    (io_StopBits q) (io_RBufLen q) (io_SerFlags q) (io_ExtFlags q) (io_CtlChar q).

Definition wire_do (w : wire) (q : IOExtSer) : wire * IOExtSer * bool :=
  if io_Command q =? CMD_WRITE then
    let d := default [] (io_Data q) in
    (mkWire (w_rx w ++ default [] (head (w_script w))) (w_tx w ++ d) (tail (w_script w)),
     reply (io_Data q) (Z.of_nat (length d)) 0 q, false)
  else if io_Command q =? SDCMD_QUERY then (w, reply (io_Data q) (Z.of_nat (length (w_rx w))) 0 q, false)
  else (w, reply (io_Data q) 0 0 q, false).

(** A read is satisfied by what is there. *)
Definition wire_read (w : wire) (q : IOExtSer) : wire * option IOExtSer :=
  if (0 <? io_Length q) && negb (bool_decide (w_rx w = [])) then
    let n := Nat.min (Z.to_nat (io_Length q)) (length (w_rx w)) in
    (mkWire (drop n (w_rx w)) (w_tx w) (w_script w),
     Some (reply ((fun d => overwrite d 0 (take n (w_rx w))) <$> io_Data q) (Z.of_nat n) 0 q))
  else (w, None).

(** The devices; with [prompt] a read that can be satisfied is done as soon
    as it is looked at, otherwise only once it is slept for.  An aborted
    request is replied at once, and its signal stays. *)
Definition wire_env (prompt : bool) : exec_env wire := mkEnv
  (fun w => (w, true)) (fun w => (w, true)) (fun w => w) (fun w => w)
  (fun w _ _ q => (w, q, 0)) (fun w t => (w, t, 0)) (fun w => w) (fun w => w)
  wire_do (fun w _ => (w, 0, false)) (fun w _ => w) (fun w _ => w)
  (fun w q => let '(w, r) := wire_read w q in (w, r, bool_decide (r = None)))
  (fun w q => if prompt then wire_read w q else (w, None))
  (fun w => (w, false))
  (fun w q => (w, reply (io_Data q) 0 254 q, true))
  (fun w => (w, true))
  (fun w => (w, false)).

Definition wire_budget (w : wire) : nat := length (w_rx w) + length (concat (w_script w)).

Lemma wire_read_budget w q :
  let '(w', r) := wire_read w q in
  (wire_budget w' <= wire_budget w)%nat /\ forall q', r = Some q' -> io_Error q' = 0 -> (wire_budget w' < wire_budget w)%nat.
Proof.
  unfold wire_read. destruct (_ && _) eqn:E0; [|done]. apply andb_prop in E0 as [E0 E1].
  apply negb_true_iff, bool_decide_eq_false in E1. unfold wire_budget. cbn. rewrite length_drop.
  assert (length (w_rx w) <> O) by (destruct (w_rx w); [done|cbn; lia]). split; [lia|]. intros _ _ _. lia.
Qed.
#[export] Instance wire_quiet prompt : Quiet (wire_env prompt) wire_budget.
Proof.
  split; try (intros; cbn; lia).
  - intros w q. cbn. unfold wire_do, wire_budget. destruct (_ =? _); [|by destruct (_ =? _)].
    destruct (w_script w) as [|a l]; cbn; rewrite ?length_app; cbn; rewrite ?length_app; lia.
  - intros w q. cbn. pose proof (wire_read_budget w q). by destruct (wire_read w q).
  - intros w q. cbn. pose proof (wire_read_budget w q). destruct prompt; [by destruct (wire_read w q)|done].
Qed.

Lemma wire_read_took w q :
  let '(w', r) := wire_read w q in
  match r with Some q' => took w_rx w_tx w q w' q' | None => arrives w_rx w_tx w w' end.
Proof.
  unfold wire_read. destruct (_ && _) eqn:E0; [|by apply arrives_refl]. apply andb_prop in E0 as [E0 E1].
  split; [done|]. exists [], (Nat.min (Z.to_nat (io_Length q)) (length (w_rx w))). rewrite app_nil_r.
  split; [lia|]. split; [done|]. intros d -> Hd. eexists. split; [done|]. split.
  - apply length_overwrite. rewrite length_take. lia.
  - intros _. cbn. split; [done|]. split; [lia|done].
Qed.
#[export] Instance wire_on_line prompt : OnLine (wire_env prompt) w_rx w_tx.
Proof.
  split; try (intros; cbn; by apply arrives_refl).
  - intros w q Hq. cbn. unfold wire_do. rewrite Hq. by apply arrives_refl.
  - intros w q d Hc Hd Hl. cbn. unfold wire_do. rewrite Hc, Hd. cbn. split; [by eexists|]. by exists d.
  - intros w q. cbn. pose proof (wire_read_took w q). by destruct (wire_read w q).
  - intros w q. cbn. pose proof (wire_read_took w q). destruct prompt; [done|by apply arrives_refl].
  - intros w q. cbn. split; [done|]. exists [], O. rewrite app_nil_r. split; [lia|]. split; [done|].
    intros d Hd _. by exists d.
Qed.

(** ** The session *)

Fixpoint read_bytes {A} (n : nat) (ms : Z) (got : list Z) (k : option (list Z) -> prog A) : prog A :=
  match n with
  | O => k (Some got)
  | S n => ReadByte ms (fun b =>
      match b with Some b => read_bytes n ms (got ++ [b]) k | None => k None end)
  end.
Lemma read_bytes_ok {A} n ms (k : option (list Z) -> prog A) :
  is_u16 ms -> (forall r, prog_ok (k r)) -> forall got, prog_ok (read_bytes n ms got k).
Proof.
  intros Hms Hk. induction n as [|n IH]; intros got; cbn [read_bytes]; [done|]. constructor; [done|].
  by intros [b|].
Qed.

#[local] Existing Instance fn_lib_nio.
Definition counted_session : session_lib Z := mkSession
  (Done (FN_OK, 0))
  (fun v => OpenChannel (fun r => Done (r, v)))
  (fun v => CloseChannel (Done v))
  (fun v q n r c ms =>
     WriteBytes (take (Z.to_nat n) (default [] q)) (fun rc =>
       if negb (rc =? FN_OK) then Done (rc, r, 0, v)
       else ReadByte ms (fun b =>
         match b with
         | None => Done (FN_ERR_TIMEOUT, r, 0, v)
         | Some len => read_bytes (Z.to_nat len) ms [] (fun got =>
             match got with
             | None => Done (FN_ERR_TIMEOUT, r, 0, v)
             | Some got => Done (FN_OK, (fun b => overwrite b 0 got) <$> r, len, v + 1)
             end)
         end))).
#[export] Instance counted_session_ok : LibraryOk counted_session.
Proof.
  split; cbn; intros; repeat (constructor; try done); intros rc. destruct (negb _); [constructor|].
  constructor; [done|]. intros [b|]; [|constructor]. apply read_bytes_ok; [done|]. intros [got|]; constructor.
Qed.

(** ** The theorems at work *)

(** It answers the first request with two bytes and the second with one. *)
Definition peer : wire := mkWire [] [] [[2; 65; 66]; [1; 67]].
Definition ask_twice : list backend_call :=
  [CallSetBaud 9600; CallOpen; CallExchange (Some [1; 2]) 2 (Some [0; 0; 0]) 3;
   CallExchange (Some [3]) 1 (Some [0; 0; 0]) 3; CallClose].
Definition run_state {A} (r : option (A * backend wire Z)) : backend wire Z :=
  match r with Some (_, s) => s | None => boot peer end.
Abbreviation asked := (run_state (calls (wire_env true) counted_session 16 ask_twice (boot peer))).
Abbreviation opened_peer := (run_state (calls (wire_env true) counted_session 16 [CallOpen] (boot peer))).

Lemma backend_keeps_exec_rules_witness :
  calls (wire_env true) counted_session 16 ask_twice (boot peer) = Some (tt, asked) /\
  misuse (exec asked) = false.
Proof.
  split; [vm_compute; reflexivity|].
  apply (backend_keeps_exec_rules (wire_env true) counted_session 16 counted_session_ok ask_twice peer asked).
  vm_compute. reflexivity.
Defined.

Lemma backend_returns_witness :
  exists s, calls (wire_env true) counted_session 16 ask_twice (boot peer) = Some (tt, s) /\ sound s.
Proof.
  apply (backend_returns (wire_env true) counted_session 16 counted_session_ok wire_budget (wire_quiet true)
           ask_twice peer).
  apply Nat.ltb_lt. reflexivity.
Defined.

Abbreviation open_result := (backend_open (wire_env true) counted_session 16 (boot peer)).
Lemma open_all_or_nothing_witness :
  serial_open (link (run_state open_result)) = true /\ timer_open (link (run_state open_result)) = true.
Proof.
  assert (H : open_result = Some (FN_OK, run_state open_result)) by (vm_compute; reflexivity).
  destruct (open_all_or_nothing (wire_env true) counted_session 16 counted_session_ok (boot peer) FN_OK
              (run_state open_result) (sound_boot peer) H) as (_ & _ & _ & H1 & H2 & _).
  split; [exact H1|exact H2].
Defined.

Abbreviation exchange_result :=
  (backend_exchange (wire_env true) counted_session 16 (Some [1; 2]) 2 (Some [0; 0; 0]) 3 opened_peer).
Lemma sound_opened_peer : sound opened_peer.
Proof.
  split.
  - vm_compute. repeat split.
  - vm_compute. repeat split.
  - vm_compute. repeat split.
  - intros _. vm_compute. repeat split. by eexists.
Qed.

Lemma backend_well_formed_witness : well_formed asked.
Proof.
  apply (backend_well_formed (wire_env true) counted_session 16 w_rx w_tx (wire_on_line true) ask_twice peer asked).
  vm_compute. reflexivity.
Defined.

Lemma exchange_over_line_witness :
  exists v v' sr i o, session opened_peer = Some v /\
    channel (fn_stream_session_request counted_session v (Some [1; 2]) 2 (Some [0; 0; 0]) 3
               FN_SERIAL_BACKEND_TIMEOUT_MS)
      (input w_rx opened_peer) (output w_tx opened_peer) (sr, Some [65; 66; 0], 2, v') i o /\
    (FN_OK = FN_OK -> sr = FN_OK).
Proof.
  apply (exchange_over_line (wire_env true) counted_session 16 w_rx w_tx (wire_on_line true) counted_session_ok
           [CallOpen] peer opened_peer (Some [1; 2]) 2 (Some [0; 0; 0]) 3 FN_OK (Some [65; 66; 0]) 2 (0, 0, 0)
           (run_state exchange_result));
    vm_compute; reflexivity.
Defined.

(** The results of the two exchanges. *)
Definition two_results (prompt : bool) : option (Z * bool * Z) :=
  fst <$> (backend_open (wire_env prompt) counted_session 16;;
           '(r1, _, _, _) ← backend_exchange (wire_env prompt) counted_session 16 (Some [1; 2]) 2 (Some [0; 0; 0]) 3;
           b ← gets (fun s => timer_signal (exec s));
           '(r2, _, _, _) ← backend_exchange (wire_env prompt) counted_session 16 (Some [3]) 1 (Some [0; 0; 0]) 3;
           mret (r1, b, r2)) (boot peer).

(** A signal left set aborts the next read.  A read that succeeds aborts
    the timer, and nothing clears the signal that the timer's reply leaves on
    its port; the Wait of the next read returns at once, and unless the read
    is done by then, it is aborted and reported as a timeout, with the bytes
    there.  Over a line whose reads are done only when waited for, the second
    exchange fails; over the same line with reads done at once it succeeds. *)
Theorem stale_signal_times_out :
  two_results false = Some (FN_OK, true, FN_ERR_TIMEOUT) /\ two_results true = Some (FN_OK, true, FN_OK).
Proof. split; vm_compute; reflexivity. Qed.
