(* ===== verification/SerialDevice.v ===== *)
(** * fujinet-serial.device (amiga/serial.device/fujinet_serial_device.c, fujinet_serial_rbf.S)

    An exec device over Paula's serial port, with its interrupt servers and
    soft interrupts.  The chip and exec are a parameter.  Wherever the code
    lets interrupts in, [hardware] runs the ones that the chip asks for, and
    where a task goes on, [preempt] also runs the soft interrupts they
    caused: exec does not go back to a task before. *)

From stdpp Require Import gmap.
From S2P Require Import Prelude Effects ExecIO PaulaUart.

#[local] Open Scope Z_scope.

Definition FUJINET_SERIAL_DEVICE_UNIT : Z := 0.
Definition FUJINET_PAULA_RX_DEFAULT_SIZE : Z := 2048.
Definition DEVICE_BAUD_DEFAULT : Z := 19200.
Definition TSRE_WAIT_SPINS : Z := 2000000.
Definition FUJINET_PAULA_SERDATR_TSRE : Z := 4096.

Inductive read_state_t := READ_IDLE | READ_PENDING | READ_COMPLETING | READ_ABORTING | READ_REPLIED.
Inductive write_state_t := WRITE_IDLE | WRITE_PENDING | WRITE_COMPLETING | WRITE_ABORTING | WRITE_REPLIED.
Inductive write_owner_t :=
  | WRITE_OWNER_NONE | WRITE_OWNER_TBE | WRITE_OWNER_ABORT | WRITE_OWNER_FLUSH | WRITE_OWNER_CLOSE.
#[export] Instance read_state_dec : EqDecision read_state_t.
Proof. solve_decision. Defined.
#[export] Instance write_state_dec : EqDecision write_state_t.
Proof. solve_decision. Defined.

(** ** Requests: struct IOExtSer *)

Record ioreq := mkReq {
  io_Command : Z;
  io_Flags : Z;
  io_Error : Z;
  io_Actual : Z;
  io_Length : Z;
  io_Data : option (list Z);
  io_Device : bool;
  io_CtlChar : Z;
  io_RBufLen : Z;
  io_ExtFlags : Z;
  io_Baud : Z;
  io_BrkTime : Z;
  io_TermArray : Z * Z;
  io_ReadLen : Z;
  io_WriteLen : Z;
  io_StopBits : Z;
  io_SerFlags : Z;
  io_Status : Z
}.
#[export] Instance eta_ioreq : Eta ioreq := fun q =>
  mkReq (io_Command q) (io_Flags q) (io_Error q) (io_Actual q) (io_Length q) (io_Data q) (io_Device q)
    (io_CtlChar q) (io_RBufLen q) (io_ExtFlags q) (io_Baud q) (io_BrkTime q) (io_TermArray q)
    (io_ReadLen q) (io_WriteLen q) (io_StopBits q) (io_SerFlags q) (io_Status q).
Definition set_io_Flags : Z -> ioreq -> ioreq := ltac:(derive_setter io_Flags).
Definition set_io_Error : Z -> ioreq -> ioreq := ltac:(derive_setter io_Error).
Definition set_io_Actual : Z -> ioreq -> ioreq := ltac:(derive_setter io_Actual).
Definition set_io_Data : option (list Z) -> ioreq -> ioreq := ltac:(derive_setter io_Data).
Definition set_io_Device : bool -> ioreq -> ioreq := ltac:(derive_setter io_Device).
Definition set_io_CtlChar : Z -> ioreq -> ioreq := ltac:(derive_setter io_CtlChar).
Definition set_io_RBufLen : Z -> ioreq -> ioreq := ltac:(derive_setter io_RBufLen).
Definition set_io_ExtFlags : Z -> ioreq -> ioreq := ltac:(derive_setter io_ExtFlags).
Definition set_io_SerFlags : Z -> ioreq -> ioreq := ltac:(derive_setter io_SerFlags).
Definition set_io_Status : Z -> ioreq -> ioreq := ltac:(derive_setter io_Status).
Definition ioreq_zero : ioreq := mkReq 0 0 0 0 0 None false 0 0 0 0 0 (0, 0) 0 0 0 0 0.
Definition quick (q : ioreq) : bool := negb (Z.land (io_Flags q) IOF_QUICK =? 0).

(** ** The device's memory *)

(** [struct fujinet_serial_rbf_data]; its soft interrupt never changes. *)
Record rbf_data_t := mkRbf {
  rx : fujinet_paula_rx_t;
  pending_need : Z;
  rbf_fire : Z;
  ingest : Z;
  capture_first : bool;
  first_byte : Z;
  first_serdatr : Z
}.
#[export] Instance eta_rbf : Eta rbf_data_t := fun r =>
  mkRbf (rx r) (pending_need r) (rbf_fire r) (ingest r) (capture_first r) (first_byte r) (first_serdatr r).
Definition set_rx : fujinet_paula_rx_t -> rbf_data_t -> rbf_data_t := ltac:(derive_setter rx).
Definition set_pending_need : Z -> rbf_data_t -> rbf_data_t := ltac:(derive_setter pending_need).
Definition set_rbf_fire : Z -> rbf_data_t -> rbf_data_t := ltac:(derive_setter rbf_fire).
Definition set_ingest : Z -> rbf_data_t -> rbf_data_t := ltac:(derive_setter ingest).
Definition set_capture_first : bool -> rbf_data_t -> rbf_data_t := ltac:(derive_setter capture_first).
Definition set_first_byte : Z -> rbf_data_t -> rbf_data_t := ltac:(derive_setter first_byte).
Definition set_first_serdatr : Z -> rbf_data_t -> rbf_data_t := ltac:(derive_setter first_serdatr).

(** [struct fujinet_serial_tbe_data]; [tx_buf] is what is left of the
    client's buffer at the pointer. *)
Record tbe_data_t := mkTbe {
  tx_buf : list Z;
  remaining : Z;
  committed : Z;
  tx_length : Z;
  tbe_fire : Z;
  accepted : bool
}.
#[export] Instance eta_tbe : Eta tbe_data_t := fun t =>
  mkTbe (tx_buf t) (remaining t) (committed t) (tx_length t) (tbe_fire t) (accepted t).
Definition set_remaining : Z -> tbe_data_t -> tbe_data_t := ltac:(derive_setter remaining).

(** The fields that only record what happened. *)
Record diag_t := mkDiag {
  last_write_owner : write_owner_t;
  last_write_error : Z;
  last_write_length : Z;
  last_write_committed : Z;
  last_write_actual : Z;
  last_tbe_fire : Z;
  write_discard : Z;
  setparams_discard : Z;
  fire_at_write_start : Z;
  fire_at_tx_queued : Z
}.
#[export] Instance eta_diag : Eta diag_t := fun g =>
  mkDiag (last_write_owner g) (last_write_error g) (last_write_length g) (last_write_committed g)
    (last_write_actual g) (last_tbe_fire g) (write_discard g) (setparams_discard g)
    (fire_at_write_start g) (fire_at_tx_queued g).
Definition set_last_write_error : Z -> diag_t -> diag_t := ltac:(derive_setter last_write_error).
Definition set_last_write_actual : Z -> diag_t -> diag_t := ltac:(derive_setter last_write_actual).
Definition set_write_discard : Z -> diag_t -> diag_t := ltac:(derive_setter write_discard).
Definition set_setparams_discard : Z -> diag_t -> diag_t := ltac:(derive_setter setparams_discard).
Definition set_fire_at_write_start : Z -> diag_t -> diag_t := ltac:(derive_setter fire_at_write_start).
Definition set_fire_at_tx_queued : Z -> diag_t -> diag_t := ltac:(derive_setter fire_at_tx_queued).
Definition diag_zero : diag_t := mkDiag WRITE_OWNER_NONE 0 0 0 0 0 0 0 0 0.

(** An interrupt vector: none, the device's server, or somebody's. *)
Inductive vector := NOBODY | OURS | OTHER (code : Z).
#[export] Instance vector_dec : EqDecision vector.
Proof. solve_decision. Defined.

(** What the device holds of Paula: the rest of [struct fujinet_serial_base],
    without the library header but for its open count and [LIBF_DELEXP]. *)
Record claim_t := mkClaim {
  baud : Z;
  old_rbf : vector;
  old_tbe : vector;
  rbf_installed : bool;
  rbf_was_enabled : bool;
  tbe_was_enabled : bool;
  port_claimed : bool;
  bits_claimed : bool;
  receive_armed : bool;
  closing : bool
}.
#[export] Instance eta_claim : Eta claim_t := fun c =>
  mkClaim (baud c) (old_rbf c) (old_tbe c) (rbf_installed c) (rbf_was_enabled c) (tbe_was_enabled c)
    (port_claimed c) (bits_claimed c) (receive_armed c) (closing c).
Definition set_baud : Z -> claim_t -> claim_t := ltac:(derive_setter baud).
Definition set_old_rbf : vector -> claim_t -> claim_t := ltac:(derive_setter old_rbf).
Definition set_old_tbe : vector -> claim_t -> claim_t := ltac:(derive_setter old_tbe).
Definition set_rbf_installed : bool -> claim_t -> claim_t := ltac:(derive_setter rbf_installed).
Definition set_rbf_was_enabled : bool -> claim_t -> claim_t := ltac:(derive_setter rbf_was_enabled).
Definition set_tbe_was_enabled : bool -> claim_t -> claim_t := ltac:(derive_setter tbe_was_enabled).
Definition set_port_claimed : bool -> claim_t -> claim_t := ltac:(derive_setter port_claimed).
Definition set_bits_claimed : bool -> claim_t -> claim_t := ltac:(derive_setter bits_claimed).
Definition set_receive_armed : bool -> claim_t -> claim_t := ltac:(derive_setter receive_armed).
Definition set_closing : bool -> claim_t -> claim_t := ltac:(derive_setter closing).

Record base_t := mkBase {
  rbf_data : rbf_data_t;
  tbe_data : tbe_data_t;
  claim : claim_t;
  pending_read : option Z;
  pending_write : option Z;
  read_state : read_state_t;
  write_state : write_state_t;
  diag : diag_t;
  lib_OpenCnt : Z;
  delexp : bool;
  misc_base : bool
}.
#[export] Instance eta_base : Eta base_t := fun b =>
  mkBase (rbf_data b) (tbe_data b) (claim b) (pending_read b) (pending_write b) (read_state b) (write_state b)
    (diag b) (lib_OpenCnt b) (delexp b) (misc_base b).
Definition set_rbf_data : rbf_data_t -> base_t -> base_t := ltac:(derive_setter rbf_data).
Definition set_tbe_data : tbe_data_t -> base_t -> base_t := ltac:(derive_setter tbe_data).
Definition set_claim : claim_t -> base_t -> base_t := ltac:(derive_setter claim).
Definition set_pending_read : option Z -> base_t -> base_t := ltac:(derive_setter pending_read).
Definition set_pending_write : option Z -> base_t -> base_t := ltac:(derive_setter pending_write).
Definition set_read_state : read_state_t -> base_t -> base_t := ltac:(derive_setter read_state).
Definition set_write_state : write_state_t -> base_t -> base_t := ltac:(derive_setter write_state).
Definition set_diag : diag_t -> base_t -> base_t := ltac:(derive_setter diag).
Definition set_lib_OpenCnt : Z -> base_t -> base_t := ltac:(derive_setter lib_OpenCnt).
Definition set_delexp : bool -> base_t -> base_t := ltac:(derive_setter delexp).
Definition set_misc_base : bool -> base_t -> base_t := ltac:(derive_setter misc_base).

Definition on_rbf (f : rbf_data_t -> rbf_data_t) (b : base_t) : base_t := set_rbf_data (f (rbf_data b)) b.
Definition on_rx (f : fujinet_paula_rx_t -> fujinet_paula_rx_t) : base_t -> base_t :=
  on_rbf (fun r => set_rx (f (rx r)) r).
Definition on_claim (f : claim_t -> claim_t) (b : base_t) : base_t := set_claim (f (claim b)) b.
Definition on_diag (f : diag_t -> diag_t) (b : base_t) : base_t := set_diag (f (diag b)) b.

(** The memory that [InitResident] clears, as [device_init] leaves it. *)
Definition device_init : base_t :=
  mkBase (mkRbf (mkRx (zeros 2048) 0 0 0 false false) 0 0 0 false 0 0) (mkTbe [] 0 0 0 0 false)
    (mkClaim DEVICE_BAUD_DEFAULT NOBODY NOBODY false false false false false false false)
    None None READ_IDLE WRITE_IDLE diag_zero 0 false false.

(** ** Paula and exec *)

Inductive irq := IRQ_RBF | IRQ_TBE.

(** Paula's serial port: the receive request and SERDATR, the transmit
    request, SERDAT and SERPER; [events] gives the interrupts that are taken
    at a place where they may be.  misc.resource: [true] is success. *)
Record chip (W : Type) := mkChip {
  rbf_requested : W -> bool;
  serdatr : W -> W * Z;
  ack_rbf : W -> W;
  tbe_requested : W -> bool;
  request_tbe : W -> W;
  ack_tbe : W -> W;
  put_serdat : W -> Z -> W;
  put_serper : W -> Z -> W;
  events : W -> W * list irq;
  VBlankFrequency : Z;
  OpenResource : W -> W * bool;
  AllocMiscResource : W -> Z -> W * bool;
  FreeMiscResource : W -> Z -> W
}.
#[global] Arguments mkChip {W}.
#[global] Arguments rbf_requested {W}.
#[global] Arguments serdatr {W}.
#[global] Arguments ack_rbf {W}.
#[global] Arguments tbe_requested {W}.
#[global] Arguments request_tbe {W}.
#[global] Arguments ack_tbe {W}.
#[global] Arguments put_serdat {W}.
#[global] Arguments put_serper {W}.
#[global] Arguments events {W}.
#[global] Arguments VBlankFrequency {W}.
#[global] Arguments OpenResource {W}.
#[global] Arguments AllocMiscResource {W}.
#[global] Arguments FreeMiscResource {W}.

Definition MR_SERIALPORT : Z := 0.
Definition MR_SERIALBITS : Z := 1.

(** What exec keeps: the vectors, INTENA's two bits, the soft interrupts
    caused and not yet run, the resources held by the device, its memory
    ([freed]), the requests, those it was given and has not answered
    ([outstanding]), the answers in their order, and the words written to
    SERDAT.  [misuse]: a request was answered that was not outstanding, or a
    resource was freed that was not held. *)
Inductive answer := Replied (r err : Z) | Returned (r err : Z).
Record exec_t := mkExec {
  int_rbf : vector;
  int_tbe : vector;
  intena_rbf : bool;
  intena_tbe : bool;
  soft_caused : bool;
  write_soft_caused : bool;
  port_held : bool;
  bits_held : bool;
  freed : bool;
  requests : gmap Z ioreq;
  outstanding : gset Z;
  answers : list answer;
  sent : list Z;
  misuse : bool
}.
#[export] Instance eta_exec : Eta exec_t := fun x =>
  mkExec (int_rbf x) (int_tbe x) (intena_rbf x) (intena_tbe x) (soft_caused x) (write_soft_caused x)
    (port_held x) (bits_held x) (freed x) (requests x) (outstanding x) (answers x) (sent x) (misuse x).
Definition set_int_rbf : vector -> exec_t -> exec_t := ltac:(derive_setter int_rbf).
Definition set_int_tbe : vector -> exec_t -> exec_t := ltac:(derive_setter int_tbe).
Definition set_intena_rbf : bool -> exec_t -> exec_t := ltac:(derive_setter intena_rbf).
Definition set_intena_tbe : bool -> exec_t -> exec_t := ltac:(derive_setter intena_tbe).
Definition set_soft_caused : bool -> exec_t -> exec_t := ltac:(derive_setter soft_caused).
Definition set_write_soft_caused : bool -> exec_t -> exec_t := ltac:(derive_setter write_soft_caused).
Definition set_port_held : bool -> exec_t -> exec_t := ltac:(derive_setter port_held).
Definition set_bits_held : bool -> exec_t -> exec_t := ltac:(derive_setter bits_held).
Definition set_freed : bool -> exec_t -> exec_t := ltac:(derive_setter freed).
Definition set_requests : gmap Z ioreq -> exec_t -> exec_t := ltac:(derive_setter requests).
Definition set_outstanding : gset Z -> exec_t -> exec_t := ltac:(derive_setter outstanding).
Definition set_answers : list answer -> exec_t -> exec_t := ltac:(derive_setter answers).
Definition set_sent : list Z -> exec_t -> exec_t := ltac:(derive_setter sent).
Definition set_misuse : bool -> exec_t -> exec_t := ltac:(derive_setter misuse).

Definition request_of (r : Z) (x : exec_t) : ioreq := default ioreq_zero (requests x !! r).
Definition on_request (r : Z) (f : ioreq -> ioreq) (x : exec_t) : exec_t :=
  set_requests (<[r := f (request_of r x)]> (requests x)) x.
(** A request goes back to its owner. *)
Definition give_back (r : Z) (a : answer) (x : exec_t) : exec_t :=
  if decide (r ∈ outstanding x)
  then x |> set_outstanding (outstanding x ∖ {[r]}) |> set_answers (answers x ++ [a])
  else set_misuse true x.

Record dev (W : Type) := mkDev { world : W; exec : exec_t; base : base_t }.
#[global] Arguments mkDev {W}.
#[global] Arguments world {W}.
#[global] Arguments exec {W}.
#[global] Arguments base {W}.

Section Device.
Context {W : Type}.
Variable c : chip W.
(** Turns of a drain loop at most: see [Steady]. *)
Variable rx_fuel : nat.
Abbreviation act A := (M (dev W) A).
Implicit Types s : dev W.

Definition set_world (w : W) s : dev W := mkDev w (exec s) (base s).
Definition on_exec (f : exec_t -> exec_t) s : dev W := mkDev (world s) (f (exec s)) (base s).
Definition on_base (f : base_t -> base_t) s : dev W := mkDev (world s) (exec s) (f (base s)).
Definition based (f : base_t -> base_t) : act unit := modify (on_base f).
Definition execed (f : exec_t -> exec_t) : act unit := modify (on_exec f).

(** ** The chip *)

(** [(paula.intreqr & INTF_RBF) != 0] *)
Definition requested : act bool := gets (fun s => rbf_requested c (world s)).
Definition read_serdatr : act Z := fun s => let '(w, v) := serdatr c (world s) in Some (v, set_world w s).
(** [paula.intreq = INTF_RBF] *)
Definition acknowledge_rbf : act unit := modify (fun s => set_world (ack_rbf c (world s)) s).
Definition acknowledge_tbe : act unit := modify (fun s => set_world (ack_tbe c (world s)) s).
Definition write_serdat (v : Z) : act unit := modify (fun s =>
  s |> set_world (put_serdat c (world s) v) |> on_exec (fun x => set_sent (sent x ++ [v]) x)).
(** [paula.intena]: without [INTF_SETCLR] the named bits are cleared. *)
Definition intena_clear (rbf tbe : bool) : act unit := execed (fun x =>
  let x := if rbf then set_intena_rbf false x else x in if tbe then set_intena_tbe false x else x).
Definition intena_set (rbf tbe : bool) : act unit := execed (fun x =>
  let x := if rbf then set_intena_rbf true x else x in if tbe then set_intena_tbe true x else x).

(** ** Words received *)

(** [if (x != 0xFFFFU) x += 1] in C; the server wraps around. *)
Definition saturate (x : Z) : Z := if negb (x =? 65535) then x + 1 else x.
Definition wrap (x : Z) : Z := u16 (x + 1).

(** The body of both drain loops, for a word read. *)
Definition receive_word (bump : Z -> Z) (w : Z) (r : rbf_data_t) : rbf_data_t :=
  let r := set_rbf_fire (bump (rbf_fire r)) r in
  let r := if capture_first r
           then r |> set_capture_first false |> set_first_byte (u8 w) |> set_first_serdatr w else r in
  let q := rx r in
  let q := if negb (Z.land w FUJINET_PAULA_SERDATR_OVRUN =? 0) then set_hardware_overrun true q else q in
  let next := u16 (Z.land (head q + 1) (mask q)) in
  if next =? tail q then set_rx (set_ring_overflow true q) r
  else r |> set_rx (q |> set_buf (put_at (buf q) (Z.to_nat (head q)) (u8 w)) |> set_head next)
         |> set_ingest (bump (ingest r)).

Fixpoint drain_loop (fuel : nat) : act unit :=
  match fuel with
  | O => out_of_fuel
  | S fuel =>
      more ← requested;
      if more : bool then
        w ← read_serdatr; acknowledge_rbf;;
        based (on_rbf (receive_word saturate w));;
        drain_loop fuel
      else mret tt
  end.
Definition drain_rbf_locked : act unit := drain_loop rx_fuel.

(** ** Interrupts *)

(** [.rbf_drain] *)
Fixpoint rbf_loop (fuel : nat) : act unit :=
  match fuel with
  | O => out_of_fuel
  | S fuel =>
      w ← read_serdatr; acknowledge_rbf;;
      based (on_rbf (receive_word wrap w));;
      more ← requested;
      if more : bool then rbf_loop fuel else mret tt
  end.
Definition fujinet_serial_rbf_server : act unit :=
  rbf_loop rx_fuel;;
  r ← gets (fun s => rbf_data (base s));
  when (negb (pending_need r =? 0) && (fujinet_paula_rx_count (rx r) >=? pending_need r))
    (execed (set_soft_caused true)).

Definition fujinet_serial_tbe_server : act unit :=
  acknowledge_tbe;;
  based (fun b => let t := tbe_data b in
    set_tbe_data (mkTbe (tx_buf t) (remaining t) (committed t) (tx_length t) (wrap (tbe_fire t)) (accepted t)) b);;
  t ← gets (fun s => tbe_data (base s));
  if remaining t =? 0 then
    intena_clear false true;;
    based (set_tbe_data (mkTbe (tx_buf t) (remaining t) (committed t) (tx_length t) (tbe_fire t) true));;
    execed (set_write_soft_caused true)
  else
    based (set_tbe_data (mkTbe (drop 1 (tx_buf t)) (u32 (remaining t - 1)) (committed t) (tx_length t)
                           (tbe_fire t) (accepted t)));;
    write_serdat (Z.lor (tx_buf t).[0] 256);;
    based (fun b => let t := tbe_data b in
      set_tbe_data (mkTbe (tx_buf t) (remaining t) (u32 (committed t + 1)) (tx_length t)
                      (tbe_fire t) (accepted t)) b).

(** An interrupt is taken if it is enabled and requested; the servers run
    while the vectors are the device's. *)
Definition deliver (i : irq) : act unit :=
  match i with
  | IRQ_RBF =>
      x ← gets exec; b ← requested;
      when (intena_rbf x && b && bool_decide (int_rbf x = OURS)) fujinet_serial_rbf_server
  | IRQ_TBE =>
      x ← gets exec; b ← gets (fun s => tbe_requested c (world s));
      when (intena_tbe x && b && bool_decide (int_tbe x = OURS)) fujinet_serial_tbe_server
  end.
Fixpoint deliver_all (irqs : list irq) : act unit :=
  match irqs with
  | [] => mret tt
  | i :: irqs => deliver i;; deliver_all irqs
  end.
Definition hardware : act unit :=
  irqs ← (fun s => let '(w, irqs) := events c (world s) in Some (irqs, set_world w s));
  deliver_all irqs.

(** ** Requests *)

Definition take_pending_write (next : write_state_t) (owner : write_owner_t) : act (option Z) :=
  b ← gets base;
  match pending_write b with
  | Some r =>
      if negb (bool_decide (write_state b = WRITE_PENDING)) then mret None
      else
      let t := tbe_data b in let g := diag b in
      based (fun b => b |> set_write_state next |> set_pending_write None
        |> set_diag (mkDiag owner (last_write_error g) (tx_length t) (committed t) (last_write_actual g)
             (tbe_fire t) (write_discard g) (setparams_discard g) (fire_at_write_start g) (fire_at_tx_queued g)));;
      intena_clear false true;;
      based (set_tbe_data (set_remaining 0 t));;
      mret (Some r)
  | None => mret None
  end.

Definition record_write_reply (actual err : Z) : act unit := based (fun b =>
  b |> on_diag (fun g => g |> set_last_write_actual actual |> set_last_write_error err)
    |> set_write_state WRITE_REPLIED).

Definition take_pending (next : read_state_t) : act (option Z) :=
  b ← gets base;
  match pending_read b with
  | Some r =>
      if negb (bool_decide (read_state b = READ_PENDING)) then mret None
      else
      based (fun b => b |> set_read_state next |> set_pending_read None |> on_rbf (set_pending_need 0));;
      mret (Some r)
  | None => mret None
  end.

Definition status_with_first (b : base_t) : Z :=
  let st := if negb (fujinet_paula_rx_public_overrun (rx (rbf_data b)) =? 0) then IO_STATF_OVERRUN else 0 in
  u16 (Z.lor st (first_byte (rbf_data b))).

Definition asked (r : Z) : act ioreq := gets (fun s => request_of r (exec s)).
Definition fill (r : Z) (f : ioreq -> ioreq) : act unit := execed (on_request r f).

Definition reply_request (r err : Z) : act unit :=
  fill r (set_io_Error err);; execed (give_back r (Replied r err)).
Definition finish (r err : Z) : act unit :=
  fill r (set_io_Error err);;
  q ← asked r;
  execed (give_back r (if quick q then Returned r err else Replied r err)).

(** [fujinet_paula_rx_read] with the receive interrupt live: the head is read
    once, the tail written last. *)
Definition rx_read_live (r : Z) (data : option (list Z)) (n : Z) : act Z :=
  q ← gets (fun s => rx (rbf_data (base s)));
  if (n =? 0) || negb (bool_decide (is_Some data)) then mret 0
  else
  let available := u16 (Z.land (head q - tail q) (mask q)) in
  let n := if n >? available then available else n in
  if n =? 0 then mret 0
  else
  let size := u16 (mask q + 1) in
  let first := u16 (size - tail q) in
  let first := if first >? n then n else first in
  hardware;;
  q1 ← gets (fun s => rx (rbf_data (base s)));
  fill r (fun p => set_io_Data (option_map (fun d =>
    overwrite d 0 (slice (buf q1) (Z.to_nat (tail q)) (Z.to_nat first))) (io_Data p)) p);;
  hardware;;
  q2 ← gets (fun s => rx (rbf_data (base s)));
  when (first <? n) (fill r (fun p => set_io_Data (option_map (fun d =>
    overwrite d (Z.to_nat first) (slice (buf q2) 0 (Z.to_nat (n - first)))) (io_Data p)) p));;
  hardware;;
  based (on_rx (set_tail (u16 (Z.land (tail q + n) (mask q)))));;
  mret n.

(** The soft interrupts; hardware interrupts come in, soft ones do not. *)
Definition fujinet_serial_complete_read : act unit :=
  req ← take_pending READ_COMPLETING;
  match req with
  | None => hardware
  | Some r =>
      q ← asked r;
      let length := if io_Length q >? 65535 then 65535 else io_Length q in
      hardware;;
      copied ← rx_read_live r (io_Data q) (u16 length);
      b ← gets base;
      fill r (fun q => q |> set_io_Actual copied |> set_io_Status (status_with_first b));;
      based (set_read_state READ_REPLIED);;
      hardware;;
      reply_request r 0
  end.

Definition fujinet_serial_complete_write : act unit :=
  req ← take_pending_write WRITE_COMPLETING WRITE_OWNER_TBE;
  match req with
  | None => hardware
  | Some r =>
      b ← gets base;
      let actual := last_write_committed (diag b) in
      fill r (set_io_Actual actual);;
      based (on_diag (set_fire_at_tx_queued (rbf_fire (rbf_data b))));;
      record_write_reply actual 0;;
      hardware;;
      reply_request r 0
  end.

(** Each runs when it was caused, until none is; a read cannot be caused
    again, nor a write, so that three turns are enough. *)
Fixpoint soft_loop (fuel : nat) : act unit :=
  match fuel with
  | O => out_of_fuel
  | S fuel =>
      x ← gets exec;
      if soft_caused x then
        execed (set_soft_caused false);; fujinet_serial_complete_read;; soft_loop fuel
      else if write_soft_caused x then
        execed (set_write_soft_caused false);; fujinet_serial_complete_write;; soft_loop fuel
      else mret tt
  end.
Definition soft_fuel : nat := 3.
(** A task with interrupts enabled. *)
Definition preempt : act unit := hardware;; soft_loop soft_fuel.

(** ** The task's side: [Enable()] is [preempt] *)

Definition pal_display : bool := VBlankFrequency c =? 50.
Definition apply_serper : act unit := modify (fun s =>
  set_world (put_serper c (world s) (fujinet_paula_serper (baud (claim (base s))) pal_display)) s).
Definition baud_from_open (q : ioreq) : Z :=
  if (io_Baud q <? FUJINET_SERIAL_BAUD_MIN) || (io_Baud q >? FUJINET_SERIAL_BAUD_MAX)
  then DEVICE_BAUD_DEFAULT else io_Baud q.

(** [TSRE_WAIT_SPINS] turns, whatever the chip does. *)
Fixpoint spin_loop (turns : nat) : act unit :=
  match turns with
  | O => mret tt
  | S turns =>
      w ← read_serdatr;
      if Z.land w FUJINET_PAULA_SERDATR_TSRE =? 0 then spin_loop turns else mret tt
  end.
Definition wait_tx_idle : act unit := fun s => spin_loop (Z.to_nat TSRE_WAIT_SPINS) s.

Definition settle_serper : act unit :=
  intena_clear true false;;
  based (on_claim (set_receive_armed false));;
  drain_rbf_locked;;
  preempt;;
  wait_tx_idle;;
  preempt;;
  apply_serper;;
  preempt;;
  drain_rbf_locked;;
  based (fun b =>
    let queued := fujinet_paula_rx_count (rx (rbf_data b)) in
    on_diag (fun g => set_setparams_discard
      (if setparams_discard g + queued >? 65535 then 65535 else setparams_discard g + queued) g) b);;
  based (on_rx fujinet_paula_rx_clear);;
  intena_set true false;;
  based (on_claim (set_receive_armed true));;
  preempt.

Definition rearm_receive : act unit :=
  b ← gets base;
  if receive_armed (claim b) then mret tt
  else
  drain_rbf_locked;;
  intena_set true false;;
  based (on_claim (set_receive_armed true));;
  preempt.

(** [SetIntVector]: the vector that was there. *)
Definition SetIntVector (i : irq) (v : vector) : act vector := fun s =>
  match i with
  | IRQ_RBF => Some (int_rbf (exec s), on_exec (set_int_rbf v) s)
  | IRQ_TBE => Some (int_tbe (exec s), on_exec (set_int_tbe v) s)
  end.

Definition misc_held (which : Z) (x : exec_t) : bool := if which =? MR_SERIALPORT then port_held x else bits_held x.
Definition set_misc_held (which : Z) (v : bool) : exec_t -> exec_t :=
  if which =? MR_SERIALPORT then set_port_held v else set_bits_held v.
(** [AllocMiscResource(..) == NULL] *)
Definition alloc_misc (which : Z) : act bool := fun s =>
  let '(w, ok) := AllocMiscResource c (world s) which in
  let s := set_world w s in
  Some (ok, if ok : bool then on_exec (set_misc_held which true) s else s).
Definition free_misc (which : Z) : act unit := modify (fun s =>
  s |> set_world (FreeMiscResource c (world s) which)
    |> on_exec (fun x => if misc_held which x then set_misc_held which false x else set_misuse true x)).

Definition claim_misc : act Z :=
  b ← gets base;
  have ← (if misc_base b then mret true
          else fun s => let '(w, ok) := OpenResource c (world s) in
                        Some (ok, on_base (set_misc_base ok) (set_world w s)));
  if negb have then mret IOERR_OPENFAIL
  else
  port ← alloc_misc MR_SERIALPORT;
  if negb port then mret IOERR_UNITBUSY
  else
  based (on_claim (set_port_claimed true));;
  bits ← alloc_misc MR_SERIALBITS;
  if negb bits then
    free_misc MR_SERIALPORT;;
    based (on_claim (set_port_claimed false));;
    mret IOERR_UNITBUSY
  else based (on_claim (set_bits_claimed true));; mret 0.

Definition release_misc : act unit :=
  b ← gets base;
  when (bits_claimed (claim b)) (free_misc MR_SERIALBITS;; based (on_claim (set_bits_claimed false)));;
  when (port_claimed (claim b)) (free_misc MR_SERIALPORT;; based (on_claim (set_port_claimed false))).

(** The pending requests are taken by [release_paula], [cmd_clear] and
    [cmd_flush] and answered once interrupts are enabled again. *)
Definition note_aborted_write (w : option Z) : act unit :=
  match w with
  | Some r =>
      b ← gets base;
      let actual := last_write_committed (diag b) in
      fill r (set_io_Actual actual);; record_write_reply actual IOERR_ABORTED
  | None => mret tt
  end.
Definition note_aborted_read (r : option Z) : act unit :=
  match r with
  | Some r => fill r (set_io_Actual 0);; based (set_read_state READ_REPLIED)
  | None => mret tt
  end.
Definition reply_aborted (r : option Z) : act unit :=
  match r with Some r => reply_request r IOERR_ABORTED | None => mret tt end.

Definition restore_vectors : act unit :=
  b ← gets base; x ← gets exec;
  let k := claim b in
  when (rbf_installed k)
    (when (bool_decide (int_rbf x = OURS)) (SetIntVector IRQ_RBF (old_rbf k);; mret tt);;
     when (bool_decide (int_tbe x = OURS)) (SetIntVector IRQ_TBE (old_tbe k);; mret tt);;
     when (rbf_was_enabled k) (intena_set true false);;
     when (tbe_was_enabled k) (intena_set false true)).

Definition release_paula : act unit :=
  b ← gets base;
  let k := claim b in
  if negb (port_claimed k) && negb (bits_claimed k) && negb (rbf_installed k) then mret tt
  else
  based (on_claim (set_closing true));;
  pending_write ← take_pending_write WRITE_ABORTING WRITE_OWNER_CLOSE;
  pending_read ← take_pending READ_ABORTING;
  intena_clear true true;;
  based (on_claim (set_receive_armed false));;
  drain_rbf_locked;;
  restore_vectors;;
  based (fun b => b |> on_claim (fun k => k |> set_rbf_installed false |> set_old_rbf NOBODY |> set_old_tbe NOBODY)
    |> set_pending_read None |> set_pending_write None |> on_rbf (set_pending_need 0));;
  note_aborted_write pending_write;;
  note_aborted_read pending_read;;
  preempt;;
  reply_aborted pending_write;;
  reply_aborted pending_read;;
  release_misc.

(** The statements before [claim_misc]. *)
Definition reset_base (q : fujinet_paula_rx_t) (rate : Z) (b : base_t) : base_t :=
  b |> set_rbf_data (mkRbf q 0 0 0 false 0 0)
    |> set_tbe_data (mkTbe [] 0 0 0 0 false)
    |> on_claim (fun k => k |> set_baud rate |> set_closing false)
    |> set_pending_read None |> set_pending_write None
    |> set_read_state READ_IDLE |> set_write_state WRITE_IDLE
    |> set_diag diag_zero.

Definition claim_paula (rate : Z) : act Z :=
  b ← gets base;
  match fujinet_paula_rx_init (Some (buf (rx (rbf_data b)))) FUJINET_PAULA_RX_DEFAULT_SIZE with
  | None => mret IOERR_OPENFAIL
  | Some q =>
      based (reset_base q rate);;
      err ← claim_misc;
      if negb (err =? 0) then mret err
      else
      x ← gets exec;
      based (on_claim (fun k => k |> set_rbf_was_enabled (intena_rbf x) |> set_tbe_was_enabled (intena_tbe x)));;
      intena_clear true true;;
      drain_rbf_locked;;
      based (on_rx fujinet_paula_rx_clear);;
      old_r ← SetIntVector IRQ_RBF OURS;
      old_t ← SetIntVector IRQ_TBE OURS;
      based (on_claim (fun k => k |> set_old_rbf old_r |> set_old_tbe old_t
                                  |> set_rbf_installed true |> set_receive_armed false));;
      preempt;;
      settle_serper;;
      mret 0
  end.

Definition fill_open_defaults (rate : Z) (q : ioreq) : ioreq :=
  mkReq (io_Command q) (io_Flags q) (io_Error q) (io_Actual q) (io_Length q) (io_Data q) (io_Device q)
    SER_DEFAULT_CTLCHAR FUJINET_PAULA_RX_DEFAULT_SIZE 0 rate 250000 (0, 0) 8 8 1 SERF_XDISABLED 0.

(** ** Commands *)

Definition cmd_query (r : Z) : act unit :=
  rearm_receive;;
  b ← gets base;
  let d := rbf_data b in let g := diag b in
  fill r (fun q => q |> set_io_Actual (fujinet_paula_rx_count (rx d))
    |> set_io_Status (status_with_first b)
    |> set_io_ExtFlags (Z.lor (Z.shiftl (rbf_fire d) 16) (ingest d))
    |> set_io_CtlChar (Z.lor (Z.shiftl (fire_at_write_start g) 16) (fire_at_tx_queued g)));;
  preempt;;
  finish r 0.

Definition cmd_read (r : Z) : act unit :=
  q ← asked r; b ← gets base;
  let length := io_Length q in
  if closing (claim b) then finish r IOERR_OPENFAIL
  else
  rearm_receive;;
  if negb (length =? 0) && bool_decide (io_Data q = None) then
    fill r (set_io_Actual 0);; finish r IOERR_BADADDRESS
  else if length =? 0 then fill r (set_io_Actual 0);; finish r 0
  else
  let length := if length >? 65535 then 65535 else length in
  b ← gets base;
  if length >? mask (rx (rbf_data b)) then fill r (set_io_Actual 0);; finish r SerErr_InvParam
  else
  fill r (fun q => set_io_Flags (Z.ldiff (io_Flags q) IOF_QUICK) q);;
  preempt;;
  b ← gets base;
  if bool_decide (read_state b = READ_PENDING) then preempt;; finish r IOERR_UNITBUSY
  else
  based (fun b => b |> set_pending_read (Some r) |> set_read_state READ_PENDING
    |> on_rbf (set_pending_need (u16 length)));;
  b ← gets base;
  when (fujinet_paula_rx_count (rx (rbf_data b)) >=? u16 length) (execed (set_soft_caused true));;
  preempt.

Definition start_write (r length : Z) (data : list Z) (b : base_t) : base_t :=
  let g := diag b in
  b |> set_pending_write (Some r) |> set_write_state WRITE_PENDING
    |> set_diag (mkDiag WRITE_OWNER_NONE 0 length 0 0 0 (write_discard g) (setparams_discard g)
         (fire_at_write_start g) (fire_at_tx_queued g))
    |> set_tbe_data (mkTbe data length 0 length 0 false).

Definition cmd_write (r : Z) : act unit :=
  q ← asked r; b ← gets base;
  let length := io_Length q in
  if closing (claim b) then finish r IOERR_OPENFAIL
  else if negb (length =? 0) && bool_decide (io_Data q = None) then
    fill r (set_io_Actual 0);; finish r IOERR_BADADDRESS
  else
  rearm_receive;;
  preempt;;
  b ← gets base;
  if bool_decide (write_state b = WRITE_PENDING) then preempt;; finish r IOERR_UNITBUSY
  else
  based (on_rbf (set_capture_first false));;
  drain_rbf_locked;;
  based (fun b =>
    let d := rbf_data b in
    b |> on_diag (fun g => g |> set_write_discard (fujinet_paula_rx_count (rx d))
                             |> set_fire_at_write_start (rbf_fire d) |> set_fire_at_tx_queued 0)
      |> set_rbf_data (mkRbf (fujinet_paula_rx_clear (rx d)) (pending_need d) 0 0 true 0 0));;
  if length =? 0 then preempt;; fill r (set_io_Actual 0);; finish r 0
  else
  fill r (fun q => set_io_Flags (Z.ldiff (io_Flags q) IOF_QUICK) q);;
  based (start_write r length (default [] (io_Data q)));;
  preempt;;
  intena_set false true;;
  preempt;;
  modify (fun s => set_world (request_tbe c (world s)) s);;
  preempt.

Definition cmd_setparams (r : Z) : act unit :=
  q ← asked r; b ← gets base;
  if bool_decide (read_state b = READ_PENDING) || bool_decide (write_state b = WRITE_PENDING)
  then finish r SerErr_InvParam
  else if (io_Baud q <? FUJINET_SERIAL_BAUD_MIN) || (io_Baud q >? FUJINET_SERIAL_BAUD_MAX)
  then finish r SerErr_BaudMismatch
  else if negb (fujinet_serial_params_valid (io_Baud q) (io_ReadLen q) (io_WriteLen q) (io_StopBits q)
                  (negb (Z.land (io_SerFlags q) SERF_PARTY_ON =? 0)))
  then finish r SerErr_InvParam
  else
  based (on_claim (set_baud (io_Baud q)));;
  settle_serper;;
  fill r (fun q => q |> set_io_RBufLen FUJINET_PAULA_RX_DEFAULT_SIZE
                     |> set_io_SerFlags (Z.lor (io_SerFlags q) SERF_XDISABLED));;
  finish r 0.

(** [cmd_clear] and [cmd_flush] have the same statements. *)
Definition cmd_flush (r : Z) : act unit :=
  pending_write ← take_pending_write WRITE_ABORTING WRITE_OWNER_FLUSH;
  pending_read ← take_pending READ_ABORTING;
  drain_rbf_locked;;
  based (on_rx fujinet_paula_rx_clear);;
  note_aborted_write pending_write;;
  note_aborted_read pending_read;;
  preempt;;
  reply_aborted pending_write;;
  reply_aborted pending_read;;
  fill r (fun q => q |> set_io_Actual 0 |> set_io_Status 0);;
  finish r 0.
Definition cmd_clear : Z -> act unit := cmd_flush.

(** ** The vectors *)

Definition device_begin_io (r : Z) : act unit :=
  q ← asked r; b ← gets base;
  let k := claim b in
  if negb (port_claimed k) || negb (bits_claimed k) || closing k then finish r IOERR_OPENFAIL
  else if io_Command q =? CMD_READ then cmd_read r
  else if io_Command q =? CMD_WRITE then cmd_write r
  else if io_Command q =? SDCMD_QUERY then cmd_query r
  else if io_Command q =? SDCMD_SETPARAMS then cmd_setparams r
  else if io_Command q =? CMD_CLEAR then cmd_clear r
  else if (io_Command q =? CMD_FLUSH) || (io_Command q =? CMD_RESET) then cmd_flush r
  else finish r IOERR_NOCMD.

Definition device_abort_io (r : Z) : act unit :=
  b ← gets base;
  if decide (pending_write b = Some r) then
    let actual := committed (tbe_data b) in
    taken ← take_pending_write WRITE_ABORTING WRITE_OWNER_ABORT;
    match taken with
    | Some t =>
        fill t (set_io_Actual actual);; record_write_reply actual IOERR_ABORTED;;
        preempt;; reply_request t IOERR_ABORTED
    | None => preempt
    end
  else if negb (bool_decide (pending_read b = Some r)) then preempt
  else
  taken ← take_pending READ_ABORTING;
  match taken with
  | Some t => fill t (set_io_Actual 0);; based (set_read_state READ_REPLIED);; preempt;; reply_request t IOERR_ABORTED
  | None => preempt
  end.

(** Whether it opened: [io_Error] tells why not. *)
Definition device_open (r unit_number : Z) : act bool :=
  b ← gets base;
  if negb (unit_number =? FUJINET_SERIAL_DEVICE_UNIT) then fill r (set_io_Error IOERR_OPENFAIL);; mret false
  else if negb (lib_OpenCnt b =? 0) then fill r (set_io_Error IOERR_UNITBUSY);; mret false
  else
  q ← asked r;
  err ← claim_paula (baud_from_open q);
  if negb (err =? 0) then fill r (set_io_Error err);; mret false
  else
  b ← gets base;
  fill r (fun q => fill_open_defaults (baud (claim b)) q |> set_io_Error 0 |> set_io_Device true);;
  based (fun b => b |> set_lib_OpenCnt (lib_OpenCnt b + 1) |> set_delexp false);;
  mret true.

(** [true] is a segment list. *)
Definition device_expunge : act bool :=
  b ← gets base;
  if negb (lib_OpenCnt b =? 0) then based (set_delexp true);; mret false
  else
  release_paula;;
  based (set_delexp false);;
  execed (set_freed true);;
  mret true.

Definition device_close (r : Z) : act bool :=
  fill r (set_io_Device false);;
  based (fun b => if negb (lib_OpenCnt b =? 0) then set_lib_OpenCnt (lib_OpenCnt b - 1) b else b);;
  b ← gets base;
  when (lib_OpenCnt b =? 0) release_paula;;
  b ← gets base;
  if (lib_OpenCnt b =? 0) && delexp b then device_expunge else mret false.
End Device.
