(* ===== verification/SerialDeviceProps.v ===== *)
(** * Properties of fujinet-serial.device: interrupts

    What the interrupts may do at any point, as a step relation, and the
    invariant that they keep while the device is open. *)

From stdpp Require Import gmap.
From S2P Require Import Prelude Effects ExecIO PaulaUart SerialDevice.

#[local] Open Scope Z_scope.

(** One step of a computation of the device. *)
Ltac dev_step :=
  lazymatch goal with
  | |- wp _ (based _) _ _ => apply wp_modify
  | |- wp _ (execed _) _ _ => apply wp_modify
  | |- wp _ (fill _ _) _ _ => apply wp_modify
  | |- wp _ (asked _) _ _ => apply wp_gets
  | |- wp _ (requested _) _ _ => apply wp_gets
  | |- wp _ (intena_set _ _) _ _ => apply wp_modify
  | |- wp _ (intena_clear _ _) _ _ => apply wp_modify
  | |- wp _ (acknowledge_rbf _) _ _ => apply wp_modify
  | |- wp _ (acknowledge_tbe _) _ _ => apply wp_modify
  | |- wp _ (write_serdat _ _) _ _ => apply wp_modify
  | _ => wp_step
  end.

(** ** Words received *)

Lemma u8_requested w : u8 (Z.lor w FUJINET_PAULA_SERDATR_RBF) = u8 w.
Proof.
  unfold u8. change 256 with (2 ^ 8). rewrite <- !Z.land_ones by lia. apply Z.bits_inj'. intros n Hn.
  rewrite !Z.land_spec, Z.lor_spec. destruct (decide (n < 8)) as [Hlt|].
  - change FUJINET_PAULA_SERDATR_RBF with (2 ^ 14). rewrite Z.pow2_bits_false by lia. by rewrite orb_false_r.
  - rewrite Z.ones_spec_high by lia. by rewrite !andb_false_r.
Qed.

(** A word counts as received whatever its RBF bit says: the request is what
    the loops look at. *)
Lemma receive_word_ingest bump w r :
  rx (receive_word bump w r) = fujinet_paula_rx_ingest (Z.lor w FUJINET_PAULA_SERDATR_RBF) (rx r).
Proof.
  unfold receive_word, fujinet_paula_rx_ingest. cbv zeta.
  replace (Z.land (Z.lor w FUJINET_PAULA_SERDATR_RBF) FUJINET_PAULA_SERDATR_OVRUN)
    with (Z.land w FUJINET_PAULA_SERDATR_OVRUN)
    by (rewrite Z.land_lor_distr_l; change (Z.land FUJINET_PAULA_SERDATR_RBF FUJINET_PAULA_SERDATR_OVRUN) with 0; by rewrite Z.lor_0_r).
  assert (Erbf : (Z.land (Z.lor w FUJINET_PAULA_SERDATR_RBF) FUJINET_PAULA_SERDATR_RBF =? 0) = false).
  { pose proof (testbit_land_test (Z.lor w FUJINET_PAULA_SERDATR_RBF) 14 ltac:(lia)) as E.
    change (2 ^ 14) with FUJINET_PAULA_SERDATR_RBF in E. rewrite Z.lor_spec in E.
    change (Z.testbit FUJINET_PAULA_SERDATR_RBF 14) with true in E. rewrite orb_true_r in E.
    by apply negb_true_iff in E. }
  rewrite Erbf. clear Erbf.
  rewrite u8_requested. destruct r as [q need fire ing cap fb fs]. cbn.
  destruct cap; cbn; destruct (negb _); cbn; destruct (_ =? _); done.
Qed.
Lemma receive_word_need bump w r : pending_need (receive_word bump w r) = pending_need r.
Proof. unfold receive_word. cbv zeta. destruct r as [q need fire ing cap fb fs]. cbn. destruct cap; cbn; destruct (_ =? _); done. Qed.

Definition receive_words (bump : Z -> Z) (ws : list Z) (r : rbf_data_t) : rbf_data_t :=
  fold_left (fun r w => receive_word bump w r) ws r.

(** The ring after some words: the bytes that found room. *)
Lemma receive_word_ring bump w r : ring_ok 11 (rx r) ->
  ring_ok 11 (rx (receive_word bump w r)) /\ tail (rx (receive_word bump w r)) = tail (rx r) /\
  exists new, contents 11 (rx (receive_word bump w r)) = contents 11 (rx r) ++ new.
Proof.
  intros H. rewrite receive_word_ingest. set (v := Z.lor _ _).
  destruct (ingest_simulates 11 (rx r) (mkFifo (contents 11 (rx r)) (hardware_overrun_latched (rx r))
    (software_ring_overflow_latched (rx r))) v) as (H1 & H2 & _); [by repeat split; try apply H|].
  split; [exact H1|]. split.
  - unfold fujinet_paula_rx_ingest. destruct (negb _); destruct (_ =? 0); cbn; try done; by destruct (_ =? _).
  - rewrite H2. unfold fifo_ingest. destruct (negb _); [exists []; cbn; by rewrite app_nil_r|].
    destruct (_ <? _)%nat; [by eexists|]. exists []. cbn. by rewrite app_nil_r.
Qed.
Lemma receive_words_ring bump ws : forall r, ring_ok 11 (rx r) ->
  let r' := receive_words bump ws r in
  ring_ok 11 (rx r') /\ tail (rx r') = tail (rx r) /\ pending_need r' = pending_need r /\
  exists new, contents 11 (rx r') = contents 11 (rx r) ++ new.
Proof.
  induction ws as [|w ws IH]; intros r H; cbv zeta.
  - change (receive_words bump [] r) with r. split_and!; try done. exists []. by rewrite app_nil_r.
  - change (receive_words bump (w :: ws) r) with (receive_words bump ws (receive_word bump w r)).
    destruct (receive_word_ring bump w r H) as (H1 & H2 & new1 & H3).
    destruct (IH _ H1) as (G1 & G2 & G3 & new2 & G4). split_and!; [done|congruence| |].
    + by rewrite G3, receive_word_need.
    + exists (new1 ++ new2). by rewrite G4, H3, app_assoc.
Qed.

(** The line as a queue: a word adds its byte, if there is room. *)
Definition hear (q : list Z) (w : Z) : list Z := if (length q <? 2047)%nat then q ++ [u8 w] else q.
Definition hear_all (ws : list Z) (q : list Z) : list Z := fold_left hear ws q.
Lemma hear_all_app ws1 ws2 q : hear_all (ws1 ++ ws2) q = hear_all ws2 (hear_all ws1 q).
Proof. apply fold_left_app. Qed.
Lemma hear_all_prefix ws : forall q, q `prefix_of` hear_all ws q.
Proof.
  induction ws as [|w ws IH]; intros q; [done|]. transitivity (hear q w); [|apply IH].
  unfold hear. destruct (_ <? _)%nat; [by apply prefix_app_r|done].
Qed.
Lemma take_hear_all n ws q : (n <= length q)%nat -> take n (hear_all ws q) = take n q.
Proof. intros Hn. destruct (hear_all_prefix ws q) as [new ->]. by rewrite take_app_le. Qed.
Lemma receive_word_hear bump w r : ring_ok 11 (rx r) ->
  contents 11 (rx (receive_word bump w r)) = hear (contents 11 (rx r)) w.
Proof.
  intros H. rewrite receive_word_ingest. set (v := Z.lor _ _).
  destruct (ingest_simulates 11 (rx r) (mkFifo (contents 11 (rx r)) (hardware_overrun_latched (rx r))
    (software_ring_overflow_latched (rx r))) v) as (_ & -> & _); [by repeat split; try apply H|].
  assert (Ev : Z.testbit v 14 = true).
  { unfold v. rewrite Z.lor_spec. change (Z.testbit FUJINET_PAULA_SERDATR_RBF 14) with true. by rewrite orb_true_r. }
  unfold fifo_ingest, hear. rewrite Ev. cbn [negb queue]. change (Z.to_nat (2 ^ 11 - 1)) with 2047%nat.
  destruct (_ <? _)%nat; [|done]. unfold v. by rewrite u8_requested.
Qed.
Lemma receive_words_hear bump ws : forall r, ring_ok 11 (rx r) ->
  contents 11 (rx (receive_words bump ws r)) = hear_all ws (contents 11 (rx r)).
Proof.
  induction ws as [|w ws IH]; intros r H; [done|].
  change (receive_words bump (w :: ws) r) with (receive_words bump ws (receive_word bump w r)).
  destruct (receive_word_ring bump w r H) as (H1 & _). rewrite IH by done. by rewrite receive_word_hear.
Qed.

Section Interrupts.
Context {W : Type}.
Variable c : chip W.
Variable rx_fuel : nat.
Implicit Types s : dev W.

(** The receiver's words come in bursts that end, [depth] bounds how many are
    left. *)
Class Steady (depth : W -> nat) : Prop := {
  st_depth w : (depth w < rx_fuel)%nat;
  st_ack w : rbf_requested c w = true -> (depth (ack_rbf c (serdatr c w).1) < depth w)%nat
}.

(** ** What the chip has been through *)

(** A receive loop: the words it read, each acknowledged. *)
Inductive drained : W -> list Z -> W -> Prop :=
  | drained_end w : drained w [] w
  | drained_word w ws w' :
      drained (ack_rbf c (serdatr c w).1) ws w' -> drained w ((serdatr c w).2 :: ws) w'.

(** Through the operations of the interrupts, with the words that were read
    from the receiver, in order. *)
Inductive quiet_operation (w : W) : W -> Prop :=
  | quiet_ack_rbf : quiet_operation w (ack_rbf c w)
  | quiet_ack_tbe : quiet_operation w (ack_tbe c w)
  | quiet_serdat v : quiet_operation w (put_serdat c w v)
  | quiet_events : quiet_operation w (events c w).1.
Inductive heard : W -> list Z -> W -> Prop :=
  | heard_none w : heard w [] w
  | heard_word w ws w' : heard (serdatr c w).1 ws w' -> heard w ((serdatr c w).2 :: ws) w'
  | heard_quiet w w1 ws w' : quiet_operation w w1 -> heard w1 ws w' -> heard w ws w'.
Lemma heard_app w1 ws1 w2 ws2 w3 : heard w1 ws1 w2 -> heard w2 ws2 w3 -> heard w1 (ws1 ++ ws2) w3.
Proof.
  induction 1 as [w|w ws w' _ IH|w w1' ws w' H _ IH]; intros H2; [done| |].
  - cbn. by apply heard_word, IH.
  - by eapply heard_quiet, IH.
Qed.
Lemma heard_operation w w' : quiet_operation w w' -> heard w [] w'.
Proof. intros H. by eapply heard_quiet, heard_none. Qed.
Lemma drained_heard w ws w' : drained w ws w' -> heard w ws w'.
Proof.
  induction 1 as [w|w ws w' _ IH]; [apply heard_none|]. apply heard_word. eapply heard_quiet; [apply quiet_ack_rbf|done].
Qed.
Definition goes_on (w w' : W) : Prop := exists ws, heard w ws w'.
#[export] Instance goes_on_preorder : PreOrder goes_on.
Proof.
  split; [intros w; exists []; apply heard_none|]. intros w1 w2 w3 [ws1 H1] [ws2 H2].
  exists (ws1 ++ ws2). by eapply heard_app.
Qed.

(** The transmit interrupt is on its way: since it was last acknowledged, it
    has been requested or a word has been given to the transmitter. *)
Inductive due : W -> Prop :=
  | due_request w : due (request_tbe c w)
  | due_serdat w v : due (put_serdat c w v)
  | due_serdatr w : due w -> due (serdatr c w).1
  | due_ack_rbf w : due w -> due (ack_rbf c w)
  | due_events w : due w -> due (events c w).1
  | due_serper w v : due w -> due (put_serper c w v).
Lemma drained_due w ws w' : drained w ws w' -> due w -> due w'.
Proof. induction 1 as [w|w ws w' _ IH]; [done|]. intros H. by apply IH, due_ack_rbf, due_serdatr. Qed.

(** A transmitter that is [shifting] a word requests the interrupt at its
    end, and a request stays until it is acknowledged. *)
Definition comes (shifting : W -> bool) (w : W) : Prop := tbe_requested c w = true \/ shifting w = true.
Class Transmitter (shifting : W -> bool) : Prop := {
  tr_request w : comes shifting (request_tbe c w);
  tr_serdat w v : comes shifting (put_serdat c w v);
  tr_serdatr w : comes shifting w -> comes shifting (serdatr c w).1;
  tr_ack_rbf w : comes shifting w -> comes shifting (ack_rbf c w);
  tr_events w : comes shifting w -> comes shifting (events c w).1;
  tr_serper w v : comes shifting w -> comes shifting (put_serper c w v)
}.
Lemma due_comes `{Transmitter shifting} w : due w -> comes shifting w.
Proof. induction 1; [apply tr_request|apply tr_serdat|by apply tr_serdatr|by apply tr_ack_rbf|by apply tr_events|by apply tr_serper]. Qed.

(** ** Steps of the interrupts *)

Inductive irq_step s : dev W -> Prop :=
  | step_world : irq_step s (set_world (events c (world s)).1 s)
  | step_rbf w ws : drained (world s) ws w ->
      intena_rbf (exec s) = true -> int_rbf (exec s) = OURS ->
      let r := receive_words wrap ws (rbf_data (base s)) in
      let cause := negb (pending_need r =? 0) && (fujinet_paula_rx_count (rx r) >=? pending_need r) in
      irq_step s (mkDev w (set_soft_caused (soft_caused (exec s) || cause) (exec s)) (set_rbf_data r (base s)))
  | step_tbe_byte w v : w = put_serdat c (ack_tbe c (world s)) v ->
      intena_tbe (exec s) = true -> int_tbe (exec s) = OURS -> remaining (tbe_data (base s)) <> 0 ->
      let t := tbe_data (base s) in
      irq_step s (mkDev w (set_sent (sent (exec s) ++ [Z.lor (tx_buf t).[0] 256]) (exec s))
        (set_tbe_data (mkTbe (drop 1 (tx_buf t)) (u32 (remaining t - 1)) (u32 (committed t + 1)) (tx_length t)
                         (wrap (tbe_fire t)) (accepted t)) (base s)))
  | step_tbe_done w : w = ack_tbe c (world s) ->
      intena_tbe (exec s) = true -> int_tbe (exec s) = OURS -> remaining (tbe_data (base s)) = 0 ->
      let t := tbe_data (base s) in
      irq_step s (mkDev w (exec s |> set_intena_tbe false |> set_write_soft_caused true)
        (set_tbe_data (mkTbe (tx_buf t) (remaining t) (committed t) (tx_length t) (wrap (tbe_fire t)) true) (base s))).

Section Run.
Variable hang : Prop.
Variable depth : W -> nat.
Context (Hsteady : hang \/ Steady depth).

Lemma read_serdatr_wp (Q : Z -> dev W -> Prop) s :
  Q (serdatr c (world s)).2 (set_world (serdatr c (world s)).1 s) -> wp hang (read_serdatr c) Q s.
Proof. unfold wp, read_serdatr. by destruct (serdatr c (world s)). Qed.

Lemma rbf_loop_spec fuel : forall s, hang \/ (depth (world s) < fuel)%nat -> hang \/ rbf_requested c (world s) = true ->
  wp hang (rbf_loop c fuel)
    (fun _ s' => exists w ws, drained (world s) ws w /\
       s' = mkDev w (exec s) (set_rbf_data (receive_words wrap ws (rbf_data (base s))) (base s))) s.
Proof.
  induction fuel as [|fuel IH]; intros s Hf Hr; cbn [rbf_loop].
  { destruct Hf as [|]; [done|lia]. }
  dev_step. apply read_serdatr_wp. do 6 dev_step.
  match goal with |- context [requested] => idtac | |- wp _ _ _ ?x => set (s1 := x) end.
  assert (Hstep : hang \/ (depth (world s1) < fuel)%nat).
  { destruct Hf as [|Hf]; [by left|]. destruct Hr as [|Hr]; [by left|]. destruct Hsteady as [|Hst]; [by left|].
    right. pose proof (st_ack _ Hr). cbn. lia. }
  assert (Hs1 : forall (w : W) ws, mkDev w (exec s1) (set_rbf_data (receive_words wrap ws (rbf_data (base s1))) (base s1))
    = mkDev w (exec s) (set_rbf_data (receive_words wrap ((serdatr c (world s)).2 :: ws) (rbf_data (base s))) (base s))).
  { intros w ws. by destruct s as [ws0 x b]. }
  dev_step.
  - eapply wp_mono; [|apply IH; [done|by right]]. cbv beta. intros _ s' (w & ws & Hd & ->). rewrite Hs1.
    eexists _, _. split; [|reflexivity]. by apply drained_word.
  - dev_step. exists (world s1), [(serdatr c (world s)).2]. rewrite <- (Hs1 (world s1) []).
    split; [apply drained_word, drained_end|]. by destruct s as [ws0 x b].
Qed.

Lemma rbf_server_step s :
  hang \/ rbf_requested c (world s) = true -> intena_rbf (exec s) = true -> int_rbf (exec s) = OURS ->
  wp hang (fujinet_serial_rbf_server c rx_fuel) (fun _ s' => irq_step s s') s.
Proof.
  intros Hr Hi Ho. unfold fujinet_serial_rbf_server.
  eapply wp_use; [apply rbf_loop_spec; [|done]|cbv beta].
  { destruct Hsteady as [|Hst]; [by left|]. right. apply st_depth. }
  intros _ s1 (w & ws & Hd & ->). do 2 dev_step. cbn [rbf_data base set_rbf_data].
  pose proof (step_rbf s w ws Hd Hi Ho) as Hstep. cbv zeta in Hstep.
  set (r := receive_words _ _ _) in *. dev_step; rewrite H in Hstep.
  - dev_step. rewrite orb_true_r in Hstep. by destruct s.
  - rewrite orb_false_r in Hstep. by destruct s as [? [] ?].
Qed.
Lemma tbe_server_step s :
  intena_tbe (exec s) = true -> int_tbe (exec s) = OURS ->
  wp hang (fujinet_serial_tbe_server c) (fun _ s' => irq_step s s') s.
Proof.
  intros Hi Ho. unfold fujinet_serial_tbe_server. do 6 dev_step. cbn [tbe_data base on_base set_tbe_data].
  dev_step.
  - do 5 dev_step. pose proof (step_tbe_done s _ eq_refl Hi Ho) as Hstep.
    cbn in H. apply Z.eqb_eq in H. specialize (Hstep H). by destruct s.
  - do 5 dev_step. cbn in H. apply Z.eqb_neq in H.
    pose proof (fun v => step_tbe_byte s _ v eq_refl Hi Ho H) as Hstep. destruct s as [w x b]. apply Hstep.
Qed.
Lemma deliver_steps i s : wp hang (deliver c rx_fuel i) (fun _ s' => rtc irq_step s s') s.
Proof.
  destruct i; cbn [deliver]; do 3 dev_step.
  - dev_step. dev_step; [|done]. apply andb_prop in H as [H Ho%bool_decide_eq_true]. apply andb_prop in H as [Hi Hr].
    eapply wp_mono; [|apply rbf_server_step; [by right|done|done]]. cbv beta. intros _ s'. apply rtc_once.
  - dev_step. dev_step; [|done]. apply andb_prop in H as [H Ho%bool_decide_eq_true]. apply andb_prop in H as [Hi Hr].
    eapply wp_mono; [|by apply tbe_server_step]. cbv beta. intros _ s'. apply rtc_once.
Qed.
Lemma hardware_steps s : wp hang (hardware c rx_fuel) (fun _ s' => rtc irq_step s s') s.
Proof.
  unfold hardware. dev_step. unfold wp. pose proof (step_world s) as Hw.
  destruct (events c (world s)) as [w irqs]. cbn [fst] in Hw.
  change (wp hang (deliver_all c rx_fuel irqs) (fun _ s' => rtc irq_step s s') (set_world w s)).
  assert (H : forall s1, rtc irq_step s s1 -> wp hang (deliver_all c rx_fuel irqs) (fun _ s' => rtc irq_step s s') s1).
  { induction irqs as [|i irqs IH]; intros s1 H1; cbn [deliver_all]; [by dev_step|].
    eapply wp_use; [apply deliver_steps|cbv beta]. intros _ s2 H2. apply IH. by transitivity s1. }
  by apply H, rtc_once.
Qed.
End Run.

(** ** The drain loop of the task's side *)

Section Drain.
Variable hang : Prop.
Variable depth : W -> nat.
Context (Hsteady : hang \/ Steady depth).

Lemma drain_loop_spec fuel : forall s, hang \/ (depth (world s) < fuel)%nat ->
  wp hang (drain_loop c fuel)
    (fun _ s' => exists w ws, s' = mkDev w (exec s) (set_rbf_data (receive_words saturate ws (rbf_data (base s))) (base s)) /\
       drained (world s) ws w) s.
Proof.
  induction fuel as [|fuel IH]; intros s Hf; cbn [drain_loop].
  { destruct Hf as [|]; [done|lia]. }
  do 3 dev_step.
  - dev_step. apply read_serdatr_wp. do 4 dev_step.
    match goal with |- wp _ _ _ ?x => set (s1 := x) end.
    assert (Hstep : hang \/ (depth (world s1) < fuel)%nat).
    { destruct Hf as [|Hf]; [by left|]. destruct Hsteady as [|Hst]; [by left|]. right. pose proof (st_ack _ H). cbn. lia. }
    eapply wp_mono; [|by apply IH]. cbv beta. intros _ s' (w & ws & -> & Hd).
    exists w, ((serdatr c (world s)).2 :: ws). split; [by destruct s as [ws0 x b]|by apply drained_word].
  - dev_step. exists (world s), []. split; [by destruct s as [ws0 x []]|apply drained_end].
Qed.
Lemma drain_words_spec s :
  wp hang (drain_rbf_locked c rx_fuel)
    (fun _ s' => exists w ws, s' = mkDev w (exec s) (set_rbf_data (receive_words saturate ws (rbf_data (base s))) (base s)) /\
       drained (world s) ws w) s.
Proof. apply drain_loop_spec. destruct Hsteady as [|Hst]; [by left|]. right. apply st_depth. Qed.
End Drain.

(** ** What interrupts leave alone *)

(** [stays] is also for soft interrupts. *)
Record stays s s' : Prop := {
  sy_claim : claim (base s') = claim (base s);
  sy_lib : (lib_OpenCnt (base s'), delexp (base s'), misc_base (base s')) =
           (lib_OpenCnt (base s), delexp (base s), misc_base (base s));
  sy_rbf : intena_rbf (exec s') = intena_rbf (exec s);
  sy_freed : freed (exec s') = freed (exec s);
  sy_sent : sent (exec s) `prefix_of` sent (exec s');
  sy_world : goes_on (world s) (world s')
}.
(** The bytes received so far stay where they are. *)
Definition grows (q q' : fujinet_paula_rx_t) : Prop :=
  ring_ok 11 q -> ring_ok 11 q' /\ tail q' = tail q /\ exists new, contents 11 q' = contents 11 q ++ new.
(** The ring holds what the line brought, as far as there was room. *)
Definition line (p p' : W * fujinet_paula_rx_t) : Prop :=
  ring_ok 11 p.2 -> ring_ok 11 p'.2 /\
  exists ws, heard p.1 ws p'.1 /\ contents 11 p'.2 = hear_all ws (contents 11 p.2).
Record same s s' : Prop := {
  sa_stays : stays s s';
  sa_pending : (pending_read (base s'), pending_write (base s'), read_state (base s'), write_state (base s')) =
               (pending_read (base s), pending_write (base s), read_state (base s), write_state (base s));
  sa_diag : diag (base s') = diag (base s);
  sa_requests : (requests (exec s'), outstanding (exec s'), answers (exec s')) =
                (requests (exec s), outstanding (exec s), answers (exec s));
  sa_ring : grows (rx (rbf_data (base s))) (rx (rbf_data (base s')));
  sa_sent : intena_tbe (exec s) = false -> intena_tbe (exec s') = false /\ sent (exec s') = sent (exec s);
  sa_line : line (world s, rx (rbf_data (base s))) (world s', rx (rbf_data (base s')))
}.
#[export] Instance stays_preorder : PreOrder stays.
Proof. split; [by intros s|]. intros a b d [] []. split; try congruence; by etransitivity. Qed.
#[export] Instance grows_preorder : PreOrder grows.
Proof.
  split; [intros q H; split_and!; try done; exists []; by rewrite app_nil_r|].
  intros a b d H1 H2 H. destruct (H1 H) as (G1 & G2 & n1 & G3), (H2 G1) as (L1 & L2 & n2 & L3).
  split_and!; [done|congruence|]. exists (n1 ++ n2). by rewrite L3, G3, app_assoc.
Qed.
#[export] Instance line_preorder : PreOrder line.
Proof.
  split; [intros p H; split; [done|]; exists []; by split; [apply heard_none|]|].
  intros a b d H1 H2 H. destruct (H1 H) as (G1 & ws1 & G2 & G3), (H2 G1) as (L1 & ws2 & L2 & L3).
  split; [done|]. exists (ws1 ++ ws2). split; [by eapply heard_app|]. by rewrite hear_all_app, L3, G3.
Qed.
#[export] Instance same_preorder : PreOrder same.
Proof.
  split; [intros s; by split|]. intros a b d [] []. split; try (by etransitivity); try congruence.
  intros H. destruct (sa_sent0 H) as [H1 H2]. destruct (sa_sent1 H1). split; congruence.
Qed.
Lemma receive_words_grow bump ws r : grows (rx r) (rx (receive_words bump ws r)).
Proof. intros H. by destruct (receive_words_ring bump ws r H) as (? & ? & ? & ?). Qed.
Lemma line_operation w w' q : quiet_operation w w' -> line (w, q) (w', q).
Proof. intros Hw H. split; [done|]. exists []. by split; [apply heard_operation|]. Qed.
Lemma operation_goes_on w w' : quiet_operation w w' -> goes_on w w'.
Proof. intros Hw. exists []. by apply heard_operation. Qed.
Lemma irq_goes_on s s' : irq_step s s' -> goes_on (world s) (world s').
Proof.
  intros [|w ws Hd _ _ r cause|w v -> _ _ _ t|w -> _ _ _ t]; cbn.
  - apply operation_goes_on, quiet_events.
  - exists ws. by apply drained_heard.
  - transitivity (ack_tbe c (world s)); [apply operation_goes_on, quiet_ack_tbe|apply operation_goes_on, quiet_serdat].
  - apply operation_goes_on, quiet_ack_tbe.
Qed.
Lemma irq_line s s' : irq_step s s' -> line (world s, rx (rbf_data (base s))) (world s', rx (rbf_data (base s'))).
Proof.
  intros [|w ws Hd _ _ r cause|w v -> _ _ _ t|w -> _ _ _ t]; cbn.
  - apply line_operation, quiet_events.
  - intros H. destruct (receive_words_ring wrap ws (rbf_data (base s)) H) as (H1 & _). split; [exact H1|].
    exists ws. split; [by apply drained_heard|]. by apply receive_words_hear.
  - transitivity (ack_tbe c (world s), rx (rbf_data (base s))); apply line_operation; constructor.
  - apply line_operation, quiet_ack_tbe.
Qed.
Lemma irq_same s s' : irq_step s s' -> same s s'.
Proof.
  intros Hs. pose proof (irq_line s s' Hs) as Hl. pose proof (irq_goes_on s s' Hs) as Hg. revert Hl Hg.
  destruct Hs; intros Hl Hg; split; try done; cbn; try congruence; [apply receive_words_grow|].
  split; try done. apply prefix_app_r, reflexivity.
Qed.
End Interrupts.

Arguments sy_claim {_ _} _ _ _.
Arguments sy_lib {_ _} _ _ _.
Arguments sy_rbf {_ _} _ _ _.
Arguments sy_freed {_ _} _ _ _.
Arguments sy_sent {_ _} _ _ _.
Arguments sy_world {_ _} _ _ _.
Arguments sa_stays {_ _} _ _ _.
Arguments sa_pending {_ _} _ _ _.
Arguments sa_diag {_ _} _ _ _.
Arguments sa_requests {_ _} _ _ _.
Arguments sa_ring {_ _} _ _ _.
Arguments sa_sent {_ _} _ _ _.
Arguments sa_line {_ _} _ _ _.
