(* ===== verification/SerialDeviceOpen.v ===== *)
(** * fujinet-serial.device while it is open

    The invariant that interrupts keep at any point and that every command
    keeps, with the requests that the code has in hand. *)

From stdpp Require Import gmap.
From S2P Require Import Prelude Effects ExecIO PaulaUart SerialDevice SerialDeviceProps.

#[local] Open Scope Z_scope.

(** What went before: the vectors and the enabled interrupts when the device
    was opened, and the requests that it was given. *)
Record past := mkPast {
  was_rbf : vector;
  was_tbe : vector;
  was_rbf_enabled : bool;
  was_tbe_enabled : bool;
  given : list Z
}.
Definition past_of (x : exec_t) (given : list Z) : past :=
  mkPast (int_rbf x) (int_tbe x) (intena_rbf x) (intena_tbe x) given.
Definition answered_request (a : answer) : Z := match a with Replied r _ | Returned r _ => r end.
(** Every request that was given is answered once, or still to be answered. *)
Definition accounted (given : list Z) (x : exec_t) : Prop :=
  given ≡ₚ map answered_request (answers x) ++ elements (outstanding x).

(** The claim is recorded as it is. *)
Record claimed (e : past) (x : exec_t) (k : claim_t) : Prop := {
  cl_port : port_held x = true /\ port_claimed k = true;
  cl_bits : bits_held x = true /\ bits_claimed k = true;
  cl_vectors : int_rbf x = OURS /\ int_tbe x = OURS;
  cl_installed : rbf_installed k = true;
  cl_old : old_rbf k = was_rbf e /\ old_tbe k = was_tbe e;
  cl_enabled : rbf_was_enabled k = was_rbf_enabled e /\ tbe_was_enabled k = was_tbe_enabled e
}.

Definition need_of (b : base_t) : Z := pending_need (rbf_data b).
Definition ring_of (b : base_t) : fujinet_paula_rx_t := rx (rbf_data b).
Definition waiting (b : base_t) : Z := fujinet_paula_rx_count (ring_of b).
(** The word that the server writes for a byte. *)
Definition serdat_word (v : Z) : Z := Z.lor v 256.

(** The pending read; its soft interrupt is caused once its bytes are there. *)
Record read_waits (cur : gset Z) (x : exec_t) (b : base_t) (r : Z) : Prop := {
  rw_state : read_state b = READ_PENDING;
  rw_need : 0 < need_of b < 2048;
  rw_cur : r ∉ cur;
  rw_caused : soft_caused x = bool_decide (need_of b <= waiting b);
  rw_asked : io_Length (request_of r x) = need_of b;
  rw_data : exists d, io_Data (request_of r x) = Some d /\ need_of b <= Z.of_nat (length d)
}.
(** How far [cmd_write] has got with a pending write: nothing but the claim, the
    transmit interrupt enabled, and its request made. *)
Inductive transmission := TX_LOADED | TX_ENABLED | TX_STARTED.
Definition tx_enabled (tx : transmission) : bool := match tx with TX_LOADED => false | _ => true end.

(** The pending write: [committed] of its bytes have been written to SERDAT,
    and nothing after them. *)
Record write_runs (cur : gset Z) (tx : transmission) (x : exec_t) (b : base_t) (r : Z) : Prop := {
  wr_state : write_state b = WRITE_PENDING;
  wr_cur : r ∉ cur;
  wr_other : pending_read b <> Some r;
  wr_total : 0 <= committed (tbe_data b) /\ 0 <= remaining (tbe_data b) /\
             committed (tbe_data b) + remaining (tbe_data b) = tx_length (tbe_data b) /\ tx_length (tbe_data b) < 4294967296;
  wr_caused : write_soft_caused x = true -> remaining (tbe_data b) = 0;
  wr_enabled : intena_tbe x = (tx_enabled tx && negb (write_soft_caused x));
  wr_started : tx = TX_LOADED -> write_soft_caused x = false;
  wr_asked : exists data pre, io_Data (request_of r x) = Some data /\ io_Length (request_of r x) = tx_length (tbe_data b) /\
             tx_length (tbe_data b) <= Z.of_nat (length data) /\ tx_buf (tbe_data b) = drop (Z.to_nat (committed (tbe_data b))) data /\
             sent x = pre ++ map serdat_word (take (Z.to_nat (committed (tbe_data b))) data)
}.
Definition read_slot (cur : gset Z) (x : exec_t) (b : base_t) : Prop :=
  match pending_read b with
  | Some r => read_waits cur x b r
  | None => read_state b <> READ_PENDING /\ need_of b = 0 /\ soft_caused x = false
  end.
Definition write_slot (cur : gset Z) (tx : transmission) (x : exec_t) (b : base_t) : Prop :=
  match pending_write b with
  | Some r => write_runs cur tx x b r
  | None => write_state b <> WRITE_PENDING /\ intena_tbe x = false /\ write_soft_caused x = false
  end.
Definition opt_set (o : option Z) : gset Z := match o with Some r => {[r]} | None => ∅ end.

Section Open.
Context {W : Type}.
Variable c : chip W.
Variable rx_fuel : nat.
Implicit Types s : dev W.

#[local] Abbreviation same := (same c).
#[local] Abbreviation stays := (stays c).
#[local] Abbreviation irq_step := (irq_step c).
#[local] Abbreviation due := (due c).

(** [cur]: the requests in the hands of the code.  Once a write is started its
    transmit interrupt is on its way until the soft interrupt is caused. *)
Record live (e : past) (cur : gset Z) (tx : transmission) s : Prop := {
  li_misuse : misuse (exec s) = false;
  li_ring : ring_ok 11 (ring_of (base s));
  li_claim : claimed e (exec s) (claim (base s));
  li_read : read_slot cur (exec s) (base s);
  li_write : write_slot cur tx (exec s) (base s);
  li_out : outstanding (exec s) = cur ∪ opt_set (pending_read (base s)) ∪ opt_set (pending_write (base s));
  li_account : accounted (given e) (exec s);
  li_due : tx = TX_STARTED -> is_Some (pending_write (base s)) -> write_soft_caused (exec s) = false -> due (world s)
}.

(** ** Interrupts *)

Lemma Z_le_bool_decide a b : bool_decide (a <= b) = (a <=? b).
Proof. destruct (Z.leb_spec a b); [by rewrite bool_decide_true|rewrite bool_decide_false; [done|lia]]. Qed.
Lemma rx_count_more q q' new : ring_ok 11 q -> ring_ok 11 q' -> contents 11 q' = contents 11 q ++ new ->
  fujinet_paula_rx_count q <= fujinet_paula_rx_count q'.
Proof. intros H H' E. rewrite (rx_count_spec 11 q), (rx_count_spec 11 q'), E, length_app by done. lia. Qed.

Lemma take_next (l : list Z) n : (n < length l)%nat -> take (S n) l = take n l ++ [(drop n l).[0]].
Proof.
  intros H. destruct (lookup_lt_is_Some_2 l n H) as [v Hv]. rewrite (take_S_r _ _ _ Hv). do 2 f_equal.
  symmetry. apply byte_at_lookup. by rewrite lookup_drop, Nat.add_0_r.
Qed.
Lemma tbe_byte_asked (data : list Z) (k len : Z) sent0 pre : 0 <= k -> k < len -> len <= Z.of_nat (length data) ->
  sent0 = pre ++ map serdat_word (take (Z.to_nat k) data) ->
  drop 1 (drop (Z.to_nat k) data) = drop (Z.to_nat (k + 1)) data /\
  sent0 ++ [Z.lor (drop (Z.to_nat k) data).[0] 256] = pre ++ map serdat_word (take (Z.to_nat (k + 1)) data).
Proof.
  intros Hk Hl Hd ->. replace (Z.to_nat (k + 1)) with (S (Z.to_nat k)) by lia.
  split; [rewrite drop_drop; f_equal; lia|]. rewrite take_next by lia. by rewrite map_app, app_assoc.
Qed.

Lemma irq_rbf_live e cur tx s w ws : live e cur tx s -> (due (world s) -> due w) ->
  let r := receive_words wrap ws (rbf_data (base s)) in
  let cause := negb (pending_need r =? 0) && (fujinet_paula_rx_count (rx r) >=? pending_need r) in
  live e cur tx (mkDev w (set_soft_caused (soft_caused (exec s) || cause) (exec s)) (set_rbf_data r (base s))).
Proof.
  intros [Hm Hr Hc Hrd Hw Ho Hg Hdue] Hd r cause.
  destruct (receive_words_ring wrap ws _ Hr) as (R1 & R2 & R3 & new & R4). fold r in R1, R2, R3, R4.
  assert (Hmore : waiting (base s) <= fujinet_paula_rx_count (rx r)) by by eapply rx_count_more.
  split; try done.
  - by destruct Hc.
  - unfold read_slot in *. cbn. destruct (pending_read (base s)) as [p|] eqn:Ep.
    + destruct Hrd as [H1 H2 H3 H4 H5 H6]. unfold need_of, waiting, ring_of in *.
      split; unfold need_of, waiting, ring_of; cbn; rewrite ?R3; try done. unfold cause. rewrite H4, R3.
      destruct (Z.eqb_spec (pending_need (rbf_data (base s))) 0); [lia|]. cbn.
      rewrite Z.geb_leb, <- Z_le_bool_decide. repeat case_bool_decide; try done. lia.
    + destruct Hrd as (H1 & H2 & H3). unfold need_of in *. cbn. split_and!; try done; [by rewrite R3|].
      unfold cause. by rewrite R3, H2, H3.
  - unfold write_slot in *. cbn. by destruct (pending_write (base s)); [destruct Hw; split|].
  - intros H1 H2 H3. by apply Hd, Hdue.
Qed.
Lemma irq_tbe_byte_live e cur tx s w : live e cur tx s -> due w ->
  intena_tbe (exec s) = true -> remaining (tbe_data (base s)) <> 0 ->
  let t := tbe_data (base s) in
  live e cur tx (mkDev w (set_sent (sent (exec s) ++ [Z.lor (tx_buf t).[0] 256]) (exec s))
    (set_tbe_data (mkTbe (drop 1 (tx_buf t)) (u32 (remaining t - 1)) (u32 (committed t + 1)) (tx_length t)
                     (wrap (tbe_fire t)) (accepted t)) (base s))).
Proof.
  intros [Hm Hr Hc Hrd Hw Ho Hg Hdue] Hd Hi Hrem t. split; try done.
  - by destruct Hc.
  - unfold read_slot in *. cbn. by destruct (pending_read (base s)); [destruct Hrd; split|].
  - unfold write_slot in *. cbn. destruct (pending_write (base s)) as [p|]; [|destruct Hw as (_ & Hw & _); congruence].
    destruct Hw as [H1 H2 H3 H4 H5 H6 H7 (data & pre & A1 & A2 & A3 & A4 & A5)]. fold t in H4, H5, A2, A3, A4, A5, Hrem.
    rewrite (u32_id (remaining t - 1)), (u32_id (committed t + 1)) by (unfold is_u32; lia).
    split; try done; cbn.
    + lia.
    + intros Hq. by apply H5 in Hq.
    + exists data, pre. fold t. destruct (tbe_byte_asked data (committed t) (tx_length t) (sent (exec s)) pre) as [B1 B2]; try lia; try done.
      rewrite A4, B1, B2. done.
Qed.
Lemma irq_keeps_live e cur tx s s' : live e cur tx s -> irq_step s s' -> live e cur tx s'.
Proof.
  intros Hl Hs. destruct Hs as [|w ws Hd Hi Hv r cause|w v -> Hi Hv Hrem t|w -> Hi Hv Hrem t].
  - destruct Hl as [Hm Hr Hc Hrd Hw Ho Hg Hdue]. split; try done. intros H1 H2 H3. by apply due_events, Hdue.
  - apply irq_rbf_live; [done|]. by eapply drained_due.
  - apply irq_tbe_byte_live; try done. apply due_serdat.
  - destruct Hl as [Hm Hr Hc Hrd Hw Ho Hg Hdue]. split; try done.
    + by destruct Hc.
    + unfold read_slot in *. cbn. by destruct (pending_read (base s)); [destruct Hrd; split|].
    + unfold write_slot in *. cbn. destruct (pending_write (base s)) as [p|]; [|destruct Hw as (_ & Hw & _); congruence].
      destruct Hw as [H1 H2 H3 H4 H5 H6 H7 H8]. rewrite Hi in H6. destruct tx; [done|by split..].
Qed.

(** ** Requests in hand *)

Lemma request_same r f x : request_of r (on_request r f x) = f (request_of r x).
Proof. unfold request_of, on_request. cbn. by rewrite lookup_insert_eq. Qed.
Lemma request_other r r' f x : r <> r' -> request_of r' (on_request r f x) = request_of r' x.
Proof. intros. unfold request_of, on_request. cbn. by rewrite lookup_insert_ne. Qed.

Lemma live_fill e cur tx r f s : live e cur tx s -> r ∈ cur -> live e cur tx (on_exec (on_request r f) s).
Proof.
  intros [Hm Hr Hc Hrd Hw Ho Hg Hdue] Hin. split; try done.
  - by destruct Hc.
  - unfold read_slot in *. cbn [base exec on_exec]. destruct (pending_read (base s)) as [p|]; [|done].
    destruct Hrd as [H1 H2 H3 H4 H5 H6]. assert (r <> p) by set_solver. split; rewrite ?request_other; done.
  - unfold write_slot in *. cbn [base exec on_exec]. destruct (pending_write (base s)) as [p|]; [|done].
    destruct Hw as [H1 H2 H3 H4 H5 H6 H7 H8]. assert (r <> p) by set_solver. split; rewrite ?request_other; done.
Qed.
(** Fields that matter to nobody. *)
Lemma live_base e cur tx f s : live e cur tx s ->
  (forall b, rbf_data (f b) = rbf_data b /\ tbe_data (f b) = tbe_data b /\ pending_read (f b) = pending_read b /\
             pending_write (f b) = pending_write b) ->
  (read_state (f (base s)) = READ_PENDING <-> read_state (base s) = READ_PENDING) ->
  (write_state (f (base s)) = WRITE_PENDING <-> write_state (base s) = WRITE_PENDING) ->
  claimed e (exec s) (claim (f (base s))) -> live e cur tx (on_base f s).
Proof.
  intros [Hm Hr Hc Hrd Hw Ho Hg Hdue] Hf Hrs Hws Hcl. destruct (Hf (base s)) as (E1 & E2 & E3 & E4).
  split; cbn [base exec on_base]; unfold read_slot, write_slot, need_of, waiting, ring_of in *; rewrite ?E1, ?E3, ?E4; try done.
  - destruct (pending_read (base s)) as [p|].
    + destruct Hrd. split; unfold need_of, waiting, ring_of in *; rewrite ?E1; try done. by apply Hrs.
    + by rewrite Hrs.
  - destruct (pending_write (base s)) as [p|].
    + destruct Hw. split; rewrite ?E2, ?E3; try done. by apply Hws.
    + by rewrite Hws.
Qed.
Lemma live_diag e cur tx f s : live e cur tx s -> live e cur tx (on_base (on_diag f) s).
Proof. intros H. apply live_base; try done. by destruct H. Qed.

Lemma live_write_recorded e cur tx f s : live e cur tx s -> pending_write (base s) = None ->
  live e cur tx (on_base (fun b => b |> on_diag f |> set_write_state WRITE_REPLIED) s).
Proof.
  intros H E. apply live_base; try done; [|by destruct H]. destruct H as [_ _ _ _ Hw _ _].
  unfold write_slot in Hw. rewrite E in Hw. by destruct Hw.
Qed.
Lemma live_read_recorded e cur tx s : live e cur tx s -> pending_read (base s) = None ->
  live e cur tx (on_base (set_read_state READ_REPLIED) s).
Proof.
  intros H E. apply live_base; try done; [|by destruct H]. destruct H as [_ _ _ Hr _ _ _].
  unfold read_slot in Hr. rewrite E in Hr. by destruct Hr.
Qed.
Lemma same_request r s s' : same s s' -> request_of r (exec s') = request_of r (exec s).
Proof. intros [_ _ _ E _ _]. unfold request_of. by injection E as -> _ _. Qed.

(** A request goes back. *)
Lemma give_back_live e cur tx r a s : answered_request a = r -> live e (cur ∪ {[r]}) tx s -> r ∉ cur ->
  live e cur tx (on_exec (give_back r a) s) /\
  exec (on_exec (give_back r a) s) = (exec s |> set_outstanding (outstanding (exec s) ∖ {[r]}) |> set_answers (answers (exec s) ++ [a])).
Proof.
  intros Ha [Hm Hr Hc Hrd Hw Ho Hg Hdue] Hn.
  assert (Hin : r ∈ outstanding (exec s)) by (rewrite Ho; set_solver).
  assert (Hpr : r ∉ opt_set (pending_read (base s))).
  { unfold read_slot in Hrd. destruct (pending_read (base s)); cbn; [|set_solver]. destruct Hrd. set_solver. }
  assert (Hpw : r ∉ opt_set (pending_write (base s))).
  { unfold write_slot in Hw. destruct (pending_write (base s)); cbn; [|set_solver]. destruct Hw. set_solver. }
  unfold give_back, on_exec. rewrite decide_True by done. split; [|done].
  split; try done.
  - by destruct Hc.
  - unfold read_slot in *. cbn. destruct (pending_read (base s)); [|done]. destruct Hrd. split; try done. set_solver.
  - unfold write_slot in *. cbn. destruct (pending_write (base s)); [|done]. destruct Hw. split; try done. set_solver.
  - cbn. rewrite Ho. set_solver.
  - unfold accounted in *. cbn. rewrite map_app, <- app_assoc. cbn [map app]. rewrite Ha, Hg. f_equiv.
    by rewrite (union_difference_singleton_L r (outstanding (exec s))), elements_union_singleton at 1 by set_solver.
Qed.

(** The other requests are as they were. *)
Definition others (r : Z) s s' : Prop := forall r', r' <> r -> request_of r' (exec s') = request_of r' (exec s).
#[local] Instance others_preorder r : PreOrder (others r).
Proof. split; [by intros s r' _|]. intros a b d H1 H2 r' H. by rewrite H2, H1. Qed.
Lemma same_others r s s' : same s s' -> others r s s'.
Proof. intros H r' _. by apply same_request. Qed.
Lemma fill_others r f s : others r s (on_exec (on_request r f) s).
Proof. intros r' H. by apply request_other. Qed.

(** What a request's answer leaves alone. *)
Record answered (r : Z) (a : answer) s s' : Prop := {
  an_base : base s' = base s;
  an_answers : answers (exec s') = answers (exec s) ++ [a];
  an_stays : stays s s';
  an_soft : (soft_caused (exec s'), write_soft_caused (exec s')) = (soft_caused (exec s), write_soft_caused (exec s));
  an_sent : sent (exec s') = sent (exec s);
  an_others : others r s s';
  an_line : line c (world s, ring_of (base s)) (world s', ring_of (base s'))
}.
Section Slots.
Variable hang : Prop.
Variable depth : W -> nat.
Context (Hsteady : hang \/ Steady c rx_fuel depth).
Variable e : past.

Lemma hardware_live cur tx s : live e cur tx s ->
  wp hang (hardware c rx_fuel) (fun _ s' => live e cur tx s' /\ same s s') s.
Proof.
  intros H. eapply wp_mono; [|by eapply hardware_steps]. cbv beta. intros _ s' Hs.
  revert H. induction Hs as [|s s1 s2 H1 _ IH]; intros H; [by split|].
  destruct (IH (irq_keeps_live _ _ _ _ _ H H1)) as [G1 G2]. split; [done|].
  transitivity s1; [by apply irq_same|done].
Qed.

Lemma answer_live cur tx r err a s : answered_request a = r -> live e (cur ∪ {[r]}) tx s -> r ∉ cur ->
  let s' := on_exec (give_back r a) (on_exec (on_request r (set_io_Error err)) s) in
  live e cur tx s' /\ answered r a s s' /\ request_of r (exec s') = set_io_Error err (request_of r (exec s)).
Proof.
  intros Ha H Hn s'.
  destruct (give_back_live e cur tx r a (on_exec (on_request r (set_io_Error err)) s)) as [G1 G2];
    [done|apply live_fill; [done|set_solver]|done|]. fold s' in G1, G2.
  split; [done|]. split; [|rewrite G2; apply request_same].
  split; rewrite ?G2; try done; [by split; rewrite ?G2|].
  intros r' Hr'. rewrite G2. by apply (fill_others r (set_io_Error err) s).
Qed.
Lemma reply_live cur tx r err s : live e (cur ∪ {[r]}) tx s -> r ∉ cur ->
  wp hang (reply_request r err)
    (fun _ s' => live e cur tx s' /\ answered r (Replied r err) s s' /\
       request_of r (exec s') = set_io_Error err (request_of r (exec s))) s.
Proof. intros H Hn. unfold reply_request. do 3 dev_step. by apply answer_live. Qed.
Lemma finish_live cur tx r err s : live e (cur ∪ {[r]}) tx s -> r ∉ cur ->
  wp hang (finish r err)
    (fun _ s' => live e cur tx s' /\
       answered r (if quick (request_of r (exec s)) then Returned r err else Replied r err) s s' /\
       request_of r (exec s') = set_io_Error err (request_of r (exec s))) s.
Proof.
  intros H Hn. unfold finish. do 5 dev_step.
  assert (E : request_of r (exec (on_exec (on_request r (set_io_Error err)) s)) = set_io_Error err (request_of r (exec s)))
    by apply request_same.
  rewrite E. apply answer_live; try done. by destruct (quick _).
Qed.

(** ** Pending requests are taken *)

Definition read_taken (next : read_state_t) (b : base_t) : base_t :=
  b |> set_read_state next |> set_pending_read None |> on_rbf (set_pending_need 0).
Definition write_taken (next : write_state_t) (owner : write_owner_t) (b : base_t) : base_t :=
  let t := tbe_data b in let g := diag b in
  b |> set_write_state next |> set_pending_write None
    |> set_diag (mkDiag owner (last_write_error g) (tx_length t) (committed t) (last_write_actual g)
         (tbe_fire t) (write_discard g) (setparams_discard g) (fire_at_write_start g) (fire_at_tx_queued g))
    |> set_tbe_data (set_remaining 0 t).

Lemma take_pending_live cur tx next s0 : next <> READ_PENDING -> live e cur tx s0 ->
  let s := on_exec (set_soft_caused false) s0 in
  wp hang (take_pending next) (fun o s' => o = pending_read (base s0) /\ live e (cur ∪ opt_set o) tx s' /\
    pending_read (base s') = None /\ s' = match o with Some _ => on_base (read_taken next) s | None => s end) s.
Proof.
  intros Hnext [Hm Hr Hc Hrd Hw Ho Hg Hdue] s. unfold take_pending. do 2 dev_step. unfold s at 2. cbn [base on_exec].
  unfold read_slot in Hrd. unfold s. destruct (pending_read (base s0)) as [r|] eqn:Er; cbn [base on_exec]; rewrite Er.
  - destruct Hrd as [R1 R2 R3 R4 R5 R6]. rewrite R1, bool_decide_true by done. cbn [negb].
    do 3 dev_step. split_and!; try done. split; try done.
    + by destruct Hc.
    + unfold write_slot in *. cbn. destruct (pending_write (base s0)) as [p|]; [|done].
      destruct Hw as [H1 H2 H3 H4 H5 H6 H7 H8]. split; cbn; try done. rewrite Er in H3. set_solver.
    + cbn. rewrite Ho. set_solver.
  - dev_step. cbn [opt_set]. rewrite union_empty_r_L. split_and!; try done. split; try done.
    + by destruct Hc.
    + unfold read_slot. cbn. rewrite Er. split_and!; try done; by apply Hrd.
    + unfold write_slot in *. cbn. by destruct (pending_write (base s0)) as [p|]; [destruct Hw; split|].
    + cbn. by rewrite Ho, Er.
Qed.
Lemma take_pending_write_live cur tx next owner s0 : next <> WRITE_PENDING -> live e cur tx s0 ->
  let s := on_exec (set_write_soft_caused false) s0 in
  wp hang (take_pending_write next owner) (fun o s' => o = pending_write (base s0) /\ live e (cur ∪ opt_set o) tx s' /\
    pending_write (base s') = None /\
    s' = match o with Some _ => on_exec (set_intena_tbe false) (on_base (write_taken next owner) s) | None => s end) s.
Proof.
  intros Hnext [Hm Hr Hc Hrd Hw Ho Hg Hdue] s. unfold take_pending_write. do 2 dev_step. unfold s at 2. cbn [base on_exec].
  unfold write_slot in Hw. unfold s. destruct (pending_write (base s0)) as [r|] eqn:Er; cbn [base on_exec]; rewrite Er.
  - destruct Hw as [H1 H2 H3 H4 H5 H6 H7 H8]. rewrite H1, bool_decide_true by done. cbn [negb].
    do 7 dev_step. split_and!; try done. split; try done.
    + by destruct Hc.
    + unfold read_slot in *. cbn. destruct (pending_read (base s0)) as [p|]; [|done].
      destruct Hrd. split; cbn; try done. set_solver.
    + cbn. rewrite Ho. set_solver.
    + by intros _ [? ?].
  - dev_step. cbn [opt_set]. rewrite union_empty_r_L. split_and!; try done. split; try done.
    + by destruct Hc.
    + unfold read_slot in *. cbn. by destruct (pending_read (base s0)) as [p|]; [destruct Hrd; split|].
    + unfold write_slot. cbn. rewrite Er. split_and!; try done; by apply Hw.
    + cbn. by rewrite Ho, Er.
    + cbn. rewrite Er. by intros _ [? ?].
Qed.
Lemma soft_cleared s : soft_caused (exec s) = false -> on_exec (set_soft_caused false) s = s.
Proof. destruct s as [w [] b]. cbn. by intros ->. Qed.
Lemma write_soft_cleared s : write_soft_caused (exec s) = false -> on_exec (set_write_soft_caused false) s = s.
Proof. destruct s as [w [] b]. cbn. by intros ->. Qed.

(** ** The soft interrupt of a write *)

Lemma write_finished cur tx s r : live e cur tx s -> pending_write (base s) = Some r -> write_soft_caused (exec s) = true ->
  tx_enabled tx = true /\ committed (tbe_data (base s)) = io_Length (request_of r (exec s)) /\ intena_tbe (exec s) = false /\
  exists data pre, io_Data (request_of r (exec s)) = Some data /\
    sent (exec s) = pre ++ map serdat_word (take (Z.to_nat (io_Length (request_of r (exec s)))) data).
Proof.
  intros [Hm Hr Hc Hrd Hw Ho Hg Hdue] Er Hs. unfold write_slot in Hw. rewrite Er in Hw.
  destruct Hw as [H1 H2 H3 H4 H5 H6 H7 (data & pre & A1 & A2 & A3 & A4 & A5)]. specialize (H5 Hs).
  assert (Ec : committed (tbe_data (base s)) = io_Length (request_of r (exec s))) by lia.
  split; [destruct tx; [by rewrite H7 in Hs|done..]|]. split; [done|]. split; [by rewrite H6, Hs, andb_false_r|].
  exists data, pre. by rewrite <- Ec.
Qed.
Lemma complete_write_spec cur tx s0 r : live e cur tx s0 -> r ∉ cur ->
  pending_write (base s0) = Some r -> write_soft_caused (exec s0) = true ->
  wp hang (fujinet_serial_complete_write c rx_fuel)
    (fun _ s' => live e cur tx s' /\ stays s0 s' /\ pending_write (base s') = None /\
       pending_read (base s') = pending_read (base s0) /\
       answers (exec s') = answers (exec s0) ++ [Replied r 0] /\ sent (exec s') = sent (exec s0) /\
       request_of r (exec s') = (request_of r (exec s0) |> set_io_Actual (io_Length (request_of r (exec s0))) |> set_io_Error 0) /\
       others r s0 s' /\ line c (world s0, ring_of (base s0)) (world s', ring_of (base s')))
    (on_exec (set_write_soft_caused false) s0).
Proof.
  intros Hl Hn Er Hs. destruct (write_finished _ _ _ _ Hl Er Hs) as (_ & Ec & Ei & _).
  unfold fujinet_serial_complete_write. eapply wp_use; [by apply take_pending_write_live|cbv beta].
  intros o s1 (-> & L1 & Pw & E1). rewrite Er in *. cbn [opt_set] in L1. do 7 dev_step. unfold record_write_reply. dev_step.
  match goal with |- wp _ _ _ ?x => set (s2 := x) end.
  assert (L2 : live e (cur ∪ {[r]}) tx s2).
  { apply live_write_recorded; [|done]. apply live_diag, live_fill; [done|set_solver]. }
  assert (B2 : stays s0 s2 /\ pending_write (base s2) = None /\ pending_read (base s2) = pending_read (base s0) /\
    intena_tbe (exec s2) = false /\ answers (exec s2) = answers (exec s0) /\ sent (exec s2) = sent (exec s0) /\
    (world s2, ring_of (base s2)) = (world s0, ring_of (base s0)))
    by (unfold s2; rewrite E1; by split_and!).
  assert (O2 : others r s0 s2).
  { etransitivity; [|apply (fill_others r (set_io_Actual (last_write_committed (diag (base s1)))))]. by rewrite E1. }
  assert (R2 : request_of r (exec s2) = set_io_Actual (io_Length (request_of r (exec s0))) (request_of r (exec s0))).
  { unfold s2. rewrite <- Ec. etransitivity; [apply request_same|]. by rewrite E1. }
  clearbody s2. destruct B2 as (B1 & B2 & B3 & B4 & B5 & B6 & B7).
  eapply wp_use; [by apply hardware_live|cbv beta]. intros _ s3 [L3 S3].
  eapply wp_mono; [|by apply reply_live]. cbv beta. intros _ s' (L & A & R).
  rewrite R, (same_request _ _ _ S3), R2. pose proof (same_others r _ _ S3) as O3. destruct S3 as [T1 T2 T3 T4 T5 T6 T8]. destruct (T6 B4) as [_ T7].
  injection T2 as P1 P2 _ _. injection T4 as Q1 Q2 Q3. destruct A as [A1 A2 A3 A4 A5 A6 A7].
  split; [done|]. split; [by do 2 (etransitivity; [done|])|]. rewrite A1, A2, A5, P1, P2, Q3, T7.
  split_and!; [done|done|by rewrite B5|by rewrite B6|done| |]; [by do 2 (etransitivity; [done|])|].
  rewrite <- A1, <- B7. etransitivity; [exact T8|exact A7].
Qed.

(** ** The soft interrupt of a read *)

(** The pieces of the ring's buffer that are copied are right although words
    come in between. *)
Lemma pieces_live q q1 q2 n : ring_ok 11 q -> grows q q1 -> grows q1 q2 -> (n <= count 11 q)%nat ->
  let first := Nat.min n (Z.to_nat (2 ^ 11 - tail q)) in
  slice (buf q1) (Z.to_nat (tail q)) first ++ slice (buf q2) 0 (n - first) = take n (contents 11 q) /\
  length (slice (buf q1) (Z.to_nat (tail q)) first) = first.
Proof.
  intros H G1 G2 Hn first. destruct (G1 H) as (H1 & T1 & new1 & C1). destruct (G2 H1) as (H2 & T2 & new2 & C2).
  rewrite <- length_contents in Hn.
  assert (N1 : (n <= count 11 q1)%nat) by (rewrite <- length_contents, C1, length_app; lia).
  assert (N2 : (n <= count 11 q2)%nat) by (rewrite <- length_contents, C2, C1, !length_app; lia).
  pose proof (contents_take 11 q1 n H1 N1) as K1. pose proof (contents_take 11 q2 n H2 N2) as K2. cbv zeta in K1, K2.
  rewrite T2, T1 in K2. rewrite T1 in K1. fold first in K1, K2.
  rewrite C1, take_app_le in K1 by done. rewrite C2, C1, !take_app_le in K2 by (rewrite ?length_app; lia).
  assert (L : forall b : list Z, Z.of_nat (length b) = 2 ^ 11 -> length (slice b (Z.to_nat (tail q)) first) = first).
  { intros b Hb. pose proof (ring_tail _ _ H). apply length_slice. lia. }
  pose proof (L _ (ring_length _ _ H1)) as L1. pose proof (L _ (ring_length _ _ H2)) as L2.
  split; [|done]. rewrite K1 in K2. apply app_inj_1 in K2 as [K2 K3]; [|congruence]. by rewrite <- K3.
Qed.
(** While a copy goes on. *)
Record copying (r : Z) s s' : Prop := {
  cg_stays : stays s s';
  cg_pending : (pending_read (base s'), pending_write (base s')) = (pending_read (base s), pending_write (base s));
  cg_answers : answers (exec s') = answers (exec s);
  cg_ring : grows (ring_of (base s)) (ring_of (base s'));
  cg_others : others r s s'
}.
#[local] Instance copying_preorder r : PreOrder (copying r).
Proof. split; [by intros s|]. intros a b d [] []. split; try (by etransitivity); congruence. Qed.
Lemma same_copying r s s' : same s s' -> copying r s s'.
Proof.
  intros Hs. pose proof (same_others r _ _ Hs). destruct Hs as [? H' ? H'' ? ?]. injection H' as P1 P2 _ _.
  injection H'' as _ _ P3. split; [done|congruence|done|done|done].
Qed.
Lemma fill_copying r f s : copying r s (on_exec (on_request r f) s).
Proof. split; try done. apply fill_others. Qed.
(** Copied: the ring's bytes are in the request and no longer in the ring. *)
Record copied_to (r : Z) (d : list Z) (k : nat) s s' : Prop := {
  ct_stays : stays s s';
  ct_pending : (pending_read (base s'), pending_write (base s')) = (pending_read (base s), pending_write (base s));
  ct_answers : answers (exec s') = answers (exec s);
  ct_data : request_of r (exec s') = set_io_Data (Some (overwrite d 0 (take k (contents 11 (ring_of (base s)))))) (request_of r (exec s));
  ct_ring : exists new, contents 11 (ring_of (base s')) = drop k (contents 11 (ring_of (base s))) ++ new;
  ct_others : others r s s'
}.
Lemma live_tail cur tx n s : live e cur tx s -> pending_read (base s) = None -> (n <= count 11 (ring_of (base s)))%nat ->
  let s' := on_base (on_rx (set_tail ((tail (ring_of (base s)) + Z.of_nat n) mod 2 ^ 11))) s in
  live e cur tx s' /\ contents 11 (ring_of (base s')) = drop n (contents 11 (ring_of (base s))).
Proof.
  intros [Hm Hr Hc Hrd Hw Ho Hg Hdue] E Hn s'. destruct (ring_drop 11 _ n Hr Hn) as [R1 R2]. split; [|exact R2].
  split; try done.
  - unfold read_slot in *. cbn. by rewrite E in *.
  - unfold write_slot in *. cbn. by destruct (pending_write (base s)); [destruct Hw; split|].
Qed.
Lemma copy_second cur tx r d p1 p2 q0 s : live e cur tx s -> r ∈ cur -> (length p1 + length p2 <= length d)%nat ->
  request_of r (exec s) = set_io_Data (Some (overwrite d 0 p1)) q0 ->
  wp hang (when (Z.of_nat (length p1) <? Z.of_nat (length p1) + Z.of_nat (length p2))
    (fill r (fun p => set_io_Data (option_map (fun d => overwrite d (length p1) p2) (io_Data p)) p)))
    (fun _ s' => live e cur tx s' /\ copying r s s' /\ request_of r (exec s') = set_io_Data (Some (overwrite d 0 (p1 ++ p2))) q0) s.
Proof.
  intros Hl Hin Hd Hq. dev_step.
  - dev_step. split; [by apply live_fill|]. split; [apply fill_copying|]. cbn [exec on_exec]. rewrite request_same, Hq. cbn [option_map io_Data set_io_Data].
    by rewrite <- (overwrite_adjacent d 0).
  - split; [done|]. split; [done|]. destruct p2; [by rewrite app_nil_r|].
    apply Z.ltb_ge in H. cbn [length] in H. lia.
Qed.
Lemma copy_end cur tx r d n s0 s : live e cur tx s -> copying r s0 s -> pending_read (base s0) = None -> ring_ok 11 (ring_of (base s0)) ->
  0 <= n <= waiting (base s0) ->
  request_of r (exec s) = set_io_Data (Some (overwrite d 0 (take (Z.to_nat n) (contents 11 (ring_of (base s0)))))) (request_of r (exec s0)) ->
  wp hang (hardware c rx_fuel;;
           based (on_rx (set_tail (u16 (Z.land (tail (ring_of (base s0)) + n) (2 ^ 11 - 1)))));; mret n)
    (fun k s' => k = n /\ live e cur tx s' /\ copied_to r d (Z.to_nat n) s0 s') s.
Proof.
  intros Hl Hcp Ep Hr Hn Hq. eapply wp_use; [by apply hardware_live|cbv beta]. intros _ s1 [L1 S1]. do 3 dev_step.
  split; [done|]. assert (C1 : copying r s0 s1) by by etransitivity; [done|apply same_copying].
  destruct C1 as [G1 G2 G3 G4 G5]. destruct (G4 Hr) as (R1 & R2 & new & R3). unfold waiting in Hn.
  rewrite (rx_count_spec 11 _ Hr), length_contents in Hn. rewrite <- length_contents in Hn.
  assert (E1 : pending_read (base s1) = None) by congruence.
  destruct (live_tail _ _ (Z.to_nat n) _ L1 E1) as [L2 C2]; [rewrite <- length_contents, R3, length_app; lia|].
  rewrite u16_land_mask by lia. rewrite R2, Z2Nat.id in L2, C2 by lia.
  split; [exact L2|]. split; try done.
  - etransitivity; [exact G1|done].
  - by rewrite <- (same_request r _ _ S1) in Hq.
  - exists new. etransitivity; [exact C2|]. rewrite R3, drop_app_le by lia. done.
Qed.
Lemma rx_read_live_spec cur tx r d n s : live e cur tx s -> r ∈ cur -> pending_read (base s) = None ->
  io_Data (request_of r (exec s)) = Some d -> 0 < n <= Z.of_nat (length d) -> n <= waiting (base s) ->
  wp hang (rx_read_live c rx_fuel r (Some d) n)
    (fun k s' => k = n /\ live e cur tx s' /\ copied_to r d (Z.to_nat n) s s') s.
Proof.
  intros Hl Hin Ep Ed Hn Hw. pose proof (li_ring _ _ _ _ Hl) as Hr. unfold waiting in Hw.
  set (q := ring_of (base s)) in *. pose proof (count_lt 11 q Hr) as Hc. pose proof (ring_tail _ _ Hr) as Ht.
  pose proof (rx_count_spec 11 q Hr) as Eq. rewrite length_contents in Eq.
  unfold rx_read_live. do 2 dev_step. fold (ring_of (base s)). fold q.
  replace (n =? 0) with false by lia. rewrite bool_decide_true by done. cbn [orb negb].
  change (u16 (Z.land (head q - tail q) (mask q))) with (fujinet_paula_rx_count q).
  replace (n >? fujinet_paula_rx_count q) with false by lia. replace (n =? 0) with false by lia.
  rewrite (ring_mask 11 q Hr). change (u16 (2 ^ 11 - 1 + 1)) with 2048. rewrite (u16_id (2048 - tail q)) by (unfold is_u16; lia).
  set (first := Nat.min (Z.to_nat n) (Z.to_nat (2 ^ 11 - tail q))).
  replace (if 2048 - tail q >? n then n else 2048 - tail q) with (Z.of_nat first) by (unfold first; case_test; lia).
  eapply wp_use; [by apply hardware_live|cbv beta]. intros _ s1 [L1 S1]. do 2 dev_step. fold (ring_of (base s1)).
  do 2 dev_step. rewrite Nat2Z.id. set (s2 := on_exec _ s1).
  assert (L2 : live e cur tx s2) by by apply live_fill.
  eapply wp_use; [by apply hardware_live|cbv beta]. intros _ s3 [L3 S3]. do 2 dev_step. fold (ring_of (base s3)).
  destruct (pieces_live q (ring_of (base s1)) (ring_of (base s3)) (Z.to_nat n) Hr (sa_ring _ _ S1) (sa_ring _ _ S3) ltac:(lia)) as [P1 P2].
  fold first in P1, P2.
  set (p1 := slice _ (Z.to_nat (tail q)) first) in *. set (p2 := slice _ 0 _) in *.
  assert (N2 : (length p1 + length p2 = Z.to_nat n)%nat).
  { rewrite <- length_app, P1, length_take, length_contents. lia. }
  replace (Z.of_nat first <? n) with (Z.of_nat (length p1) <? Z.of_nat (length p1) + Z.of_nat (length p2)) by (f_equal; lia).
  replace (Z.to_nat (n - Z.of_nat first)) with (Z.to_nat n - first)%nat by lia. fold p2. rewrite <- P2.
  eapply wp_use; [eapply (copy_second cur tx r d p1 p2 (request_of r (exec s))); try done; [lia|]|cbv beta].
  { rewrite (same_request _ _ _ S3). unfold s2. cbn [exec on_exec]. rewrite request_same. cbn.
    by rewrite (same_request _ _ _ S1), Ed. }
  intros _ s4 (L4 & C4 & R4).
  apply (copy_end cur tx r d n s s4); try done.
  - etransitivity; [by apply same_copying|]. etransitivity; [apply fill_copying|].
    etransitivity; [apply same_copying, S3|done].
  - unfold waiting. fold q. lia.
  - fold q. by rewrite <- P1.
Qed.

(** A read that was answered: the oldest bytes of the ring, as many as asked. *)
Record delivered (r : Z) s s' : Prop := {
  dl_data : exists d, io_Data (request_of r (exec s)) = Some d /\ io_Length (request_of r (exec s)) <= Z.of_nat (length d) /\
    io_Data (request_of r (exec s')) =
      Some (overwrite d 0 (take (Z.to_nat (io_Length (request_of r (exec s)))) (contents 11 (ring_of (base s)))));
  dl_ring : exists new, contents 11 (ring_of (base s')) =
    drop (Z.to_nat (io_Length (request_of r (exec s)))) (contents 11 (ring_of (base s))) ++ new;
  dl_enough : io_Length (request_of r (exec s)) <= waiting (base s);
  dl_actual : io_Actual (request_of r (exec s')) = io_Length (request_of r (exec s));
  dl_error : io_Error (request_of r (exec s')) = 0
}.
Lemma read_ready cur tx s r : live e cur tx s -> pending_read (base s) = Some r -> soft_caused (exec s) = true ->
  exists d, io_Data (request_of r (exec s)) = Some d /\ 0 < io_Length (request_of r (exec s)) <= Z.of_nat (length d) /\
    io_Length (request_of r (exec s)) < 2048 /\ io_Length (request_of r (exec s)) <= waiting (base s).
Proof.
  intros [Hm Hr Hc Hrd Hw Ho Hg Hdue] Er Hs. unfold read_slot in Hrd. rewrite Er in Hrd.
  destruct Hrd as [H1 H2 H3 H4 H5 (d & H6 & H7)]. rewrite Hs in H4. symmetry in H4. apply bool_decide_eq_true in H4.
  exists d. split; [done|]. lia.
Qed.
Lemma complete_read_spec cur tx s0 r : live e cur tx s0 -> r ∉ cur ->
  pending_read (base s0) = Some r -> soft_caused (exec s0) = true ->
  wp hang (fujinet_serial_complete_read c rx_fuel)
    (fun _ s' => live e cur tx s' /\ stays s0 s' /\ pending_read (base s') = None /\
       pending_write (base s') = pending_write (base s0) /\
       answers (exec s') = answers (exec s0) ++ [Replied r 0] /\ delivered r s0 s' /\ others r s0 s')
    (on_exec (set_soft_caused false) s0).
Proof.
  intros Hl Hn Er Hs. destruct (read_ready _ _ _ _ Hl Er Hs) as (d & Ed & Hlen & Hlen2 & Hwait).
  pose proof (li_ring _ _ _ _ Hl) as Hr. set (n := io_Length (request_of r (exec s0))) in *.
  unfold fujinet_serial_complete_read. eapply wp_use; [by apply take_pending_live|cbv beta].
  intros o s1 (-> & L1 & Pr & E1). rewrite Er in *. cbn [opt_set] in L1. do 2 dev_step.
  assert (Q1 : request_of r (exec s1) = request_of r (exec s0)) by by rewrite E1.
  assert (B1 : copying r s1 s1 /\ answers (exec s1) = answers (exec s0) /\ pending_write (base s1) = pending_write (base s0) /\
    ring_of (base s1) = ring_of (base s0) /\ stays s0 s1 /\ others r s0 s1) by by rewrite E1.
  destruct B1 as (_ & B1 & B2 & B3 & B4 & B4'). clear E1. rewrite Q1. fold n.
  replace (n >? 65535) with false by lia. rewrite (u16_id n) by (unfold is_u16; lia). rewrite Ed.
  eapply wp_use; [by apply hardware_live|cbv beta]. intros _ s2 [L2 S2].
  destruct (same_copying r _ _ S2) as [T1 T2 T3 T4 T5]. rewrite B3 in T4. destruct (T4 Hr) as (R1 & _ & new & R2).
  assert (W2 : n <= waiting (base s2)).
  { unfold waiting in *. pose proof (rx_count_more _ _ _ Hr R1 R2). lia. }
  assert (Q2 : request_of r (exec s2) = request_of r (exec s0)) by by rewrite (same_request _ _ _ S2).
  injection T2 as T2 T2'. rewrite Pr in T2.
  eapply wp_use; [apply (rx_read_live_spec (cur ∪ {[r]}) tx r d n); try done; [set_solver|by rewrite Q2]|cbv beta].
  intros k s3 (-> & L3 & C3). destruct C3 as [C1 C2 C3 C4 (new2 & C5) C6]. injection C2 as C2 C2'. do 6 dev_step.
  match goal with |- wp _ _ _ ?x => set (s4 := x) end.
  assert (L4 : live e (cur ∪ {[r]}) tx s4).
  { apply live_read_recorded; [apply live_fill; [done|set_solver]|]. cbn. congruence. }
  assert (Q4 : request_of r (exec s4) =
    (request_of r (exec s3) |> set_io_Actual n |> set_io_Status (status_with_first (base s3)))) by apply request_same.
  assert (B5 : copying r s3 s4) by (split; try done; apply fill_others). clearbody s4. rewrite C4, Q2 in Q4.
  eapply wp_use; [by apply hardware_live|cbv beta]. intros _ s5 [L5 S5].
  eapply wp_mono; [|by apply reply_live]. cbv beta. intros _ s' (L & A & Q').
  rewrite (same_request _ _ _ S5), Q4 in Q'. destruct B5 as [U1 U2 U3 U4 U5], (same_copying r _ _ S5) as [V1 V2 V3 V4 V5].
  destruct A as [A1 A2 A3 _ _ A6]. injection U2 as U2 U2'. injection V2 as V2 V2'.
  destruct (U4 (li_ring _ _ _ _ L3)) as (X1 & _ & new3 & X2). destruct (V4 X1) as (X3 & _ & new4 & X4).
  split_and!; [done| |congruence|congruence|congruence| |].
  { etransitivity; [exact B4|]. etransitivity; [exact T1|]. etransitivity; [exact C1|].
    etransitivity; [exact U1|]. etransitivity; [exact V1|exact A3]. }
  2:{ etransitivity; [exact B4'|]. etransitivity; [exact T5|]. etransitivity; [exact C6|].
    etransitivity; [exact U5|]. etransitivity; [exact V5|exact A6]. }
  assert (Hn' : (Z.to_nat n <= length (contents 11 (ring_of (base s0))))%nat).
  { unfold waiting in Hwait. rewrite (rx_count_spec 11 _ Hr) in Hwait. lia. }
  split; rewrite ?Q'; try done.
  - exists d. split_and!; [done|fold n; lia|]. cbn. fold n. by rewrite R2, take_app_le.
  - fold n. exists (new ++ new2 ++ new3 ++ new4).
    by rewrite A1, X4, X2, C5, R2, drop_app_le, <- !app_assoc.
Qed.

(** ** A task with interrupts enabled *)

Definition quiet s : Prop := soft_caused (exec s) = false /\ write_soft_caused (exec s) = false.
(** A write that was answered: all of its bytes are what was sent last. *)
Record written (r : Z) s s' : Prop := {
  wn_sent : exists data pre, io_Data (request_of r (exec s)) = Some data /\
    sent (exec s') = pre ++ map serdat_word (take (Z.to_nat (io_Length (request_of r (exec s)))) data);
  wn_actual : io_Actual (request_of r (exec s')) = io_Length (request_of r (exec s));
  wn_error : io_Error (request_of r (exec s')) = 0
}.
(** What happens meanwhile. *)
Inductive turn s s' : Prop :=
  | turn_hardware : same s s' -> turn s s'
  | turn_read r : pending_read (base s) = Some r -> pending_read (base s') = None ->
      pending_write (base s') = pending_write (base s) -> stays s s' -> others r s s' ->
      answers (exec s') = answers (exec s) ++ [Replied r 0] -> delivered r s s' -> turn s s'
  | turn_write r : pending_write (base s) = Some r -> pending_write (base s') = None ->
      pending_read (base s') = pending_read (base s) -> stays s s' -> others r s s' ->
      answers (exec s') = answers (exec s) ++ [Replied r 0] -> written r s s' ->
      line c (world s, ring_of (base s)) (world s', ring_of (base s')) -> turn s s'.
Definition slots (b : base_t) : nat :=
  (if pending_read b then 1 else 0) + (if pending_write b then 1 else 0).

Lemma read_caused cur tx s : live e cur tx s -> soft_caused (exec s) = true -> exists r, pending_read (base s) = Some r /\ r ∉ cur.
Proof.
  intros [_ _ _ H _ _ _] Hs. unfold read_slot in H. destruct (pending_read (base s)) as [r|]; [|destruct H as (_ & _ & H); congruence].
  exists r. split; [done|]. by destruct H.
Qed.
Lemma write_caused cur tx s : live e cur tx s -> write_soft_caused (exec s) = true ->
  exists r, pending_write (base s) = Some r /\ r ∉ cur /\ tx_enabled tx = true.
Proof.
  intros [_ _ _ _ H _ _] Hs. unfold write_slot in H. destruct (pending_write (base s)) as [r|]; [|destruct H as (_ & _ & H); congruence].
  exists r. destruct H. split_and!; try done. destruct tx; [|done..]. rewrite wr_started0 in Hs; done.
Qed.

Lemma soft_loop_spec cur tx fuel : forall s, live e cur tx s -> (slots (base s) < fuel)%nat ->
  wp hang (soft_loop c rx_fuel fuel) (fun _ s' => live e cur tx s' /\ quiet s' /\ rtc turn s s' /\
    (tx = TX_LOADED -> pending_write (base s') = pending_write (base s))) s.
Proof.
  induction fuel as [|fuel IH]; intros s Hl Hf; [lia|]. cbn [soft_loop]. do 2 dev_step.
  destruct (soft_caused (exec s)) eqn:Er; [|destruct (write_soft_caused (exec s)) eqn:Ew].
  - destruct (read_caused _ _ _ Hl Er) as (r & Hr & Hn). do 2 dev_step.
    eapply wp_use; [by apply (complete_read_spec cur tx s r)|cbv beta]. intros _ s1 (L1 & S1 & R1 & W1 & A1 & D1 & O1).
    eapply wp_mono; [|apply IH; [done|]]; cbv beta.
    + intros _ s' (L & Q & T & K). split_and!; [done..| |intros; by rewrite K]. eapply rtc_l; [by eapply turn_read|done].
    + unfold slots in *. rewrite R1, W1. rewrite Hr in Hf. lia.
  - destruct (write_caused _ _ _ Hl Ew) as (r & Hr & Hn & Htx). do 2 dev_step.
    destruct (write_finished _ _ _ _ Hl Hr Ew) as (_ & _ & _ & data & pre & F1 & F2).
    eapply wp_use; [by apply (complete_write_spec cur tx s r)|cbv beta]. intros _ s1 (L1 & S1 & W1 & R1 & A1 & T1 & Q1 & O1 & G1).
    eapply wp_mono; [|apply IH; [done|]]; cbv beta.
    + intros _ s' (L & Q & T & K). split_and!; [done..| |by intros ->]. eapply rtc_l; [eapply turn_write; try done|done].
      split; rewrite ?Q1; try done. exists data, pre. by rewrite T1.
    + unfold slots in *. rewrite R1, W1. rewrite Hr in Hf. lia.
  - by dev_step.
Qed.
Lemma preempt_turns cur tx s : live e cur tx s ->
  wp hang (preempt c rx_fuel) (fun _ s' => live e cur tx s' /\ quiet s' /\ rtc turn s s' /\
    (tx = TX_LOADED -> pending_write (base s') = pending_write (base s))) s.
Proof.
  intros Hl. unfold preempt. eapply wp_use; [by apply hardware_live|cbv beta]. intros _ s1 [L1 S1].
  eapply wp_mono; [|apply soft_loop_spec; [done|]]; cbv beta.
  - intros _ s' (L & Q & T & K). split_and!; [done..| |].
    + eapply rtc_l; [by apply turn_hardware|done].
    + intros H. rewrite K by done. destruct S1 as [_ E _ _ _ _]. by injection E.
  - unfold slots, soft_fuel. repeat case_match; lia.
Qed.

(** What they leave alone: the claim, the library, and the requests in hand. *)
Lemma turn_stays s s' : rtc turn s s' -> stays s s'.
Proof. induction 1 as [|a b d H _ IH]; [done|]. etransitivity; [|exact IH]. destruct H as [[]|r|r]; done. Qed.
Lemma turn_answers s s' : rtc turn s s' -> exists l, answers (exec s') = answers (exec s) ++ l.
Proof.
  induction 1 as [|a b d H _ (l & IH)]; [exists []; by rewrite app_nil_r|].
  assert (exists m, answers (exec b) = answers (exec a) ++ m) as (m & Hm).
  { destruct H as [[_ _ _ E _ _]|r|r]; [|by eexists..]. injection E as _ _ E. exists []. by rewrite E, app_nil_r. }
  exists (m ++ l). by rewrite IH, Hm, app_assoc.
Qed.
(** A request that is not pending stays as it is. *)
Lemma turn_request r s s' : rtc turn s s' -> pending_read (base s) <> Some r -> pending_write (base s) <> Some r ->
  request_of r (exec s') = request_of r (exec s).
Proof.
  induction 1 as [|a b d H _ IH]; [done|]. intros H1 H2.
  assert (request_of r (exec b) = request_of r (exec a) /\ pending_read (base b) <> Some r /\ pending_write (base b) <> Some r)
    as (E & N1 & N2).
  { destruct H as [S|p R1 R2 R3 _ O _ _|p R1 R2 R3 _ O _ _].
    - split; [by apply same_request|]. destruct S as [_ E _ _ _ _]. injection E as -> -> _ _. done.
    - split; [apply O; congruence|]. split; congruence.
    - split; [apply O; congruence|]. split; congruence. }
  by rewrite IH, E.
Qed.
(** Neither pending request appears. *)
Lemma turn_pending s s' : rtc turn s s' ->
  (pending_read (base s') = pending_read (base s) \/ pending_read (base s') = None) /\
  (pending_write (base s') = pending_write (base s) \/ pending_write (base s') = None).
Proof.
  induction 1 as [|a b d H _ [IH1 IH2]]; [by split; left|].
  assert ((pending_read (base b) = pending_read (base a) \/ pending_read (base b) = None) /\
          (pending_write (base b) = pending_write (base a) \/ pending_write (base b) = None)) as [B1 B2].
  { destruct H as [[_ E _ _ _ _]|r|r]; [injection E as E1 E2 _ _| |]; by split; first [by left|by right]. }
  split; [destruct IH1 as [->| ->]|destruct IH2 as [->| ->]]; first [done|by right].
Qed.
End Slots.
End Open.

Arguments li_misuse {_ _} _ _ _ _ _.
Arguments li_ring {_ _} _ _ _ _ _.
Arguments li_claim {_ _} _ _ _ _ _.
Arguments li_read {_ _} _ _ _ _ _.
Arguments li_write {_ _} _ _ _ _ _.
Arguments li_out {_ _} _ _ _ _ _.
Arguments li_account {_ _} _ _ _ _ _.
Arguments li_due {_ _} _ _ _ _ _.
