(* ===== verification/SerialDeviceCommands.v ===== *)
(** * The commands of fujinet-serial.device

    Every command, from an open device at rest with the request in hand, ends
    with the open device at rest. *)

From stdpp Require Import gmap.
From S2P Require Import Prelude Effects ExecIO PaulaUart SerialDevice SerialDeviceProps SerialDeviceOpen.

#[local] Open Scope Z_scope.

Section Commands.
Context {W : Type}.
Variable c : chip W.
Variable rx_fuel : nat.
Implicit Types s : dev W.

#[local] Abbreviation same := (same c).
#[local] Abbreviation stays := (stays c).
#[local] Abbreviation due := (due c).
#[local] Abbreviation live := (live c).
#[local] Abbreviation turn := (turn c).
#[local] Abbreviation answered := (answered c).

(** ** Changes by the task *)

Definition kept s s' : Prop :=
  (lib_OpenCnt (base s'), delexp (base s'), freed (exec s'), closing (claim (base s'))) =
  (lib_OpenCnt (base s), delexp (base s), freed (exec s), closing (claim (base s))).
#[local] Instance kept_preorder : PreOrder kept.
Proof. split; [done|]. unfold kept. intros a b d. congruence. Qed.
Lemma stays_kept s s' : stays s s' -> kept s s'.
Proof. intros [C E _ F]. unfold kept. injection E as -> -> _. by rewrite F, C. Qed.
Definition armed s : Prop :=
  receive_armed (claim (base s)) = true /\ intena_rbf (exec s) = true /\ closing (claim (base s)) = false.
Lemma stays_armed s s' : stays s s' -> armed s -> armed s'.
Proof. intros [E _ F _] (A & B & C). unfold armed. by rewrite E, F. Qed.

Lemma live_world e cur tx w s : (due (world s) -> due w) -> live e cur tx s -> live e cur tx (set_world w s).
Proof. intros Hw []. split; try done. intros H1 H2 H3. by apply Hw, li_due. Qed.
Lemma live_intena_rbf e cur tx v s : live e cur tx s -> live e cur tx (on_exec (set_intena_rbf v) s).
Proof.
  intros [Hm Hr Hc Hrd Hw Ho Hg Hdue]. split; try done.
  - by destruct Hc.
  - unfold read_slot in *. cbn. by destruct (pending_read (base s)); [destruct Hrd; split|].
  - unfold write_slot in *. cbn. by destruct (pending_write (base s)); [destruct Hw; split|].
Qed.
Lemma live_claim e cur tx f (s : dev W) : live e cur tx s -> (forall x, claimed e x (claim (base s)) -> claimed e x (f (claim (base s)))) ->
  live e cur tx (on_base (on_claim f) s).
Proof. intros H Hf. apply live_base; try done. cbn. apply Hf, H. Qed.
(** The receive data, while no read is pending. *)
Lemma live_rbf e cur tx (w : W) d s : (due (world s) -> due w) -> live e cur tx s -> pending_read (base s) = None -> ring_ok 11 (rx d) -> pending_need d = 0 ->
  live e cur tx (mkDev w (exec s) (set_rbf_data d (base s))).
Proof.
  intros Hdw [Hm Hr Hc Hrd Hw Ho Hg Hdue] E Hd Hn. split; try done.
  - unfold read_slot in *. cbn. rewrite E in *. by destruct Hrd as (? & ? & ?).
  - unfold write_slot in *. cbn. by destruct (pending_write (base s)); [destruct Hw; split|].
  - intros H1 H2 H3. by apply Hdw, Hdue.
Qed.
Lemma ring_cleared q : ring_ok 11 q -> ring_ok 11 (fujinet_paula_rx_clear q).
Proof. intros H. by destruct (clear_simulates 11 q (mkFifo (contents 11 q) (hardware_overrun_latched q) (software_ring_overflow_latched q))). Qed.

Section Run.
Variable hang : Prop.
Variable depth : W -> nat.
Context (Hsteady : hang \/ Steady c rx_fuel depth).
Variable e : past.

Definition ready cur s : Prop := live e cur TX_STARTED s /\ quiet s /\ armed s.
(** A request in hand is not pending. *)
Lemma in_hand cur tx r s : live e cur tx s -> r ∈ cur -> pending_read (base s) <> Some r /\ pending_write (base s) <> Some r.
Proof.
  intros [Hm Hr Hc Hrd Hw Ho Hg Hdue] Hin. unfold read_slot, write_slot in *. split; intros E; rewrite E in *.
  - by destruct Hrd.
  - by destruct Hw.
Qed.
(** On the way from one state to another: requests in hand stay as they are,
    and no other becomes pending. *)
Record moved (cur : gset Z) s s' : Prop := {
  mv_kept : kept s s';
  mv_requests : forall r, r ∈ cur -> request_of r (exec s') = request_of r (exec s);
  mv_read : pending_read (base s) = None -> pending_read (base s') = None;
  mv_write : pending_write (base s) = None -> pending_write (base s') = None
}.
#[local] Instance moved_preorder cur : PreOrder (moved cur).
Proof. split; [by split|]. intros a b d [] []. split; auto; [by etransitivity|]. intros r H. by rewrite mv_requests1, mv_requests0. Qed.
Lemma turns_move cur tx s s' : live e cur tx s -> rtc turn s s' -> moved cur s s'.
Proof.
  intros Hl Ht. destruct (turn_pending _ _ _ Ht) as [H1 H2].
  split; [by apply stays_kept, turn_stays| |by destruct H1 as [->| ->]|by destruct H2 as [->| ->]].
  intros r Hr. destruct (in_hand _ _ _ _ Hl Hr). by apply (turn_request c).
Qed.
Lemma preempt_live cur tx s : live e cur tx s ->
  wp hang (preempt c rx_fuel) (fun _ s' => live e cur tx s' /\ quiet s' /\ stays s s' /\ moved cur s s' /\
    (tx = TX_LOADED -> pending_write (base s') = pending_write (base s))) s.
Proof.
  intros Hl. eapply wp_mono; [|by eapply preempt_turns]. cbv beta. intros _ s' (L & Q & T & K). split_and!; try done.
  - by apply turn_stays.
  - by eapply turns_move.
Qed.
Lemma preempt_ready cur s : live e cur TX_STARTED s -> armed s ->
  wp hang (preempt c rx_fuel) (fun _ s' => ready cur s' /\ moved cur s s') s.
Proof.
  intros Hl Ha. eapply wp_mono; [|by apply preempt_live]. cbv beta. intros _ s' (L & Q & S & R & _).
  split; [|done]. split_and!; try done. by eapply stays_armed.
Qed.

Lemma drain_live cur tx s : live e cur tx s -> pending_read (base s) = None ->
  wp hang (drain_rbf_locked c rx_fuel) (fun _ s' => live e cur tx s' /\ moved cur s s' /\ exec s' = exec s /\
    exists d, base s' = set_rbf_data d (base s)) s.
Proof.
  intros Hl Ep. eapply wp_mono; [|by eapply drain_words_spec]. cbv beta. intros _ s' (w & ws & -> & Hd).
  destruct (receive_words_ring saturate ws (rbf_data (base s)) (li_ring _ _ _ _ Hl)) as (R1 & R2 & R3 & _).
  split_and!; [|done|done|by eexists]. apply live_rbf; try done; [by eapply drained_due|]. rewrite R3.
  destruct Hl as [_ _ _ Hrd _ _ _]. unfold read_slot in Hrd. rewrite Ep in Hrd. by destruct Hrd as (_ & ? & _).
Qed.
Lemma spin_spec n : forall s, wp hang (spin_loop c n) (fun _ s' => exists w, (due (world s) -> due w) /\ s' = set_world w s) s.
Proof.
  induction n as [|n IH]; intros s; cbn [spin_loop]; [by dev_step; exists (world s); destruct s|].
  dev_step. apply read_serdatr_wp. dev_step.
  - eapply wp_mono; [|apply IH]. cbv beta. intros _ s' (w & Hw & ->). exists w. split; [|done]. intros H1. by apply Hw, due_serdatr.
  - dev_step. eexists. split; [|done]. apply due_serdatr.
Qed.
Lemma wait_tx_idle_spec s : wp hang (wait_tx_idle c) (fun _ s' => exists w, (due (world s) -> due w) /\ s' = set_world w s) s.
Proof. apply spin_spec. Qed.

Lemma clear_live cur tx s : live e cur tx s -> pending_read (base s) = None ->
  live e cur tx (on_base (on_rx fujinet_paula_rx_clear) s).
Proof.
  intros Hl Ep. destruct s as [w x b]. apply (live_rbf e cur tx w (set_rx (fujinet_paula_rx_clear (rx (rbf_data b))) (rbf_data b)) (mkDev w x b)); try done.
  - apply ring_cleared, Hl.
  - destruct Hl as [_ _ _ Hrd _ _ _]. unfold read_slot in Hrd. rewrite Ep in Hrd. by destruct Hrd as (_ & ? & _).
Qed.
Lemma claim_live cur tx f s : live e cur tx s ->
  (forall x k, claimed e x k -> claimed e x (f k)) -> live e cur tx (on_base (on_claim f) s).
Proof. intros Hl Hf. apply live_claim; auto. Qed.
Lemma set_receive_armed_claimed v x k : claimed e x k -> claimed e x (set_receive_armed v k).
Proof. by intros []. Qed.
Lemma set_baud_claimed v x k : claimed e x k -> claimed e x (set_baud v k).
Proof. by intros []. Qed.

Lemma settle_spec cur s : live e cur TX_STARTED s -> pending_read (base s) = None -> closing (claim (base s)) = false ->
  wp hang (settle_serper c rx_fuel) (fun _ s' => ready cur s' /\ moved cur s s') s.
Proof.
  intros Hl Ep Hcl. unfold settle_serper. do 4 dev_step.
  match goal with |- wp _ _ _ ?x => set (s1 := x) end.
  assert (L1 : live e cur TX_STARTED s1).
  { apply claim_live; [by apply live_intena_rbf|]. intros. by apply set_receive_armed_claimed. }
  assert (M1 : moved cur s s1) by done. clearbody s1. pose proof (mv_read _ _ _ M1 Ep) as P1.
  eapply wp_use; [by apply drain_live|cbv beta]. intros _ s2 (L2 & M2 & _).
  eapply wp_use; [by apply preempt_live|cbv beta]. intros _ s3 (L3 & _ & _ & M3 & _).
  eapply wp_use; [apply wait_tx_idle_spec|cbv beta]. intros _ s4 (w & Hw & ->).
  eapply wp_use; [by apply preempt_live, live_world|cbv beta]. intros _ s5 (L5 & _ & _ & M5 & _).
  dev_step. unfold apply_serper. dev_step.
  eapply wp_use; [apply preempt_live, live_world; [by intros; apply due_serper|done]|cbv beta]. intros _ s6 (L6 & _ & _ & M6 & _).
  assert (M06 : moved cur s s6).
  { transitivity s1; [done|]. transitivity s2; [done|]. transitivity s3; [done|].
    transitivity s5; [by eapply (transitivity (y := set_world w s3))|]. etransitivity; [|exact M6]. done. }
  pose proof (mv_read _ _ _ M06 Ep) as P6.
  eapply wp_use; [by apply drain_live|cbv beta]. intros _ s7 (L7 & M7 & _). pose proof (mv_read _ _ _ M7 P6) as P7.
  do 8 dev_step.
  match goal with |- wp _ _ _ ?x => set (s8 := x) end.
  assert (L8 : live e cur TX_STARTED s8).
  { apply claim_live; [|intros; by apply set_receive_armed_claimed]. apply live_intena_rbf, clear_live; [|done].
    by apply live_diag. }
  assert (M07 : moved cur s s7) by by etransitivity.
  assert (A8 : armed s8 /\ moved cur s7 s8).
  { split; [|done]. split_and!; try done. pose proof (mv_kept _ _ _ M07) as K. injection K as _ _ _ K. cbn. by rewrite K. }
  clearbody s8.
  eapply wp_mono; [|apply preempt_ready; [done|apply A8]]. cbv beta. intros _ s' [R M]. split; [done|].
  etransitivity; [done|]. etransitivity; [apply A8|done].
Qed.
Lemma rearm_spec s (Q : unit -> dev W -> Prop) : armed s -> Q tt s -> wp hang (rearm_receive c rx_fuel) Q s.
Proof. intros [A _] H. unfold rearm_receive. do 2 dev_step. rewrite A. by dev_step. Qed.

(** ** Commands *)

Lemma ready_fill r f s : ready {[r]} s -> ready {[r]} (on_exec (on_request r f) s).
Proof. intros (L & Q & A). split; [apply live_fill; [done|set_solver]|done]. Qed.
Lemma finish_ready r err s : ready {[r]} s ->
  wp hang (finish r err) (fun _ s' => ready ∅ s' /\ kept s s' /\
    answered r (if quick (request_of r (exec s)) then Returned r err else Replied r err) s s' /\
    request_of r (exec s') = set_io_Error err (request_of r (exec s))) s.
Proof.
  intros (L & Q & A). eapply wp_mono; [|apply (finish_live c rx_fuel hang depth Hsteady e ∅); [by rewrite union_empty_l_L|set_solver]].
  cbv beta. intros _ s' (L' & An & R). destruct An as [A1 A2 A3 A4 A5 A6 A7]. split_and!; try done.
  - split_and!; [done| |by eapply stays_armed]. unfold quiet in *. injection A4 as -> ->. done.
  - by apply stays_kept.
Qed.
(** At rest again. *)
Definition back s s' : Prop := ready ∅ s' /\ kept s s'.
Lemma finish_back r err s0 s : ready {[r]} s -> kept s0 s -> wp hang (finish r err) (fun _ => back s0) s.
Proof.
  intros Hr Hk. eapply wp_mono; [|by apply finish_ready]. cbv beta. intros _ s' (R & K & _).
  split; [done|]. by etransitivity.
Qed.
Lemma fill_finish_back r f err s0 s : ready {[r]} s -> kept s0 s -> wp hang (fill r f;; finish r err) (fun _ => back s0) s.
Proof. intros Hr Hk. do 2 dev_step. apply finish_back; [by apply ready_fill|done]. Qed.
Lemma preempt_finish_back r err s0 s : ready {[r]} s -> kept s0 s ->
  wp hang (preempt c rx_fuel;; finish r err) (fun _ => back s0) s.
Proof.
  intros (L & Q & A) Hk. eapply wp_use; [by apply preempt_ready|cbv beta]. intros _ s1 [R1 M1].
  apply finish_back; [done|]. etransitivity; [done|apply M1].
Qed.

Lemma cmd_query_spec r s : ready {[r]} s -> wp hang (cmd_query c rx_fuel r) (fun _ => back s) s.
Proof.
  intros R. unfold cmd_query. dev_step. apply rearm_spec; [apply R|]. do 4 dev_step.
  apply preempt_finish_back; [by apply ready_fill|done].
Qed.

Lemma write_slot_none cur tx s : live e cur tx s -> write_state (base s) <> WRITE_PENDING -> pending_write (base s) = None.
Proof.
  intros [_ _ _ _ Hw _ _] H. unfold write_slot in Hw. destruct (pending_write (base s)); [|done]. by destruct Hw.
Qed.
Lemma read_slot_none cur tx s : live e cur tx s -> read_state (base s) <> READ_PENDING -> pending_read (base s) = None.
Proof.
  intros [_ _ _ Hr _ _ _] H. unfold read_slot in Hr. destruct (pending_read (base s)); [|done]. by destruct Hr.
Qed.

(** A read becomes pending. *)
Definition read_begun (r n : Z) (b : base_t) : base_t :=
  b |> set_pending_read (Some r) |> set_read_state READ_PENDING |> on_rbf (set_pending_need n).
Lemma read_begins r n d s : live e {[r]} TX_STARTED s -> quiet s -> pending_read (base s) = None -> 0 < n < 2048 ->
  io_Length (request_of r (exec s)) = n -> io_Data (request_of r (exec s)) = Some d -> n <= Z.of_nat (length d) ->
  let s' := on_base (read_begun r n) s in
  live e ∅ TX_STARTED (on_exec (set_soft_caused (waiting (base s) >=? n)) s').
Proof.
  intros Hl [Q1 Q2] Ep Hn En Ed Hd s'. destruct (in_hand {[r]} TX_STARTED r s Hl) as [_ Hpw]; [set_solver|].
  destruct Hl as [Hm Hr Hc Hrd Hw Ho Hg Hdue]. split; try done.
  - by destruct Hc.
  - unfold read_slot. cbn. split; try done; [|by exists d].
    cbn. rewrite Z.geb_leb. by rewrite Z_le_bool_decide.
  - unfold write_slot in *. cbn. destruct (pending_write (base s)); [|done]. destruct Hw. split; try done; cbn; congruence.
  - cbn. rewrite Ho, Ep. cbn. set_solver.
Qed.
Lemma cmd_read_spec r s : ready {[r]} s ->
  (forall d, io_Data (request_of r (exec s)) = Some d -> io_Length (request_of r (exec s)) <= Z.of_nat (length d)) ->
  0 <= io_Length (request_of r (exec s)) ->
  wp hang (cmd_read c rx_fuel r) (fun _ => back s) s.
Proof.
  intros R Hs Hp. unfold cmd_read. do 4 dev_step. rewrite (proj2 (proj2 (proj2 (proj2 R)))).
  dev_step. apply rearm_spec; [apply R|]. set (q := request_of r (exec s)) in *. dev_step; [by apply fill_finish_back|].
  dev_step; [by apply fill_finish_back|]. apply Z.eqb_neq in H0. replace (negb (io_Length q =? 0)) with true in H by lia.
  apply bool_decide_eq_false in H. destruct (io_Data q) as [d|] eqn:Ed; [|done]. specialize (Hs d eq_refl).
  do 2 dev_step. rewrite (ring_mask 11) by apply R. dev_step; [by apply fill_finish_back|].
  assert (Hle : io_Length q < 2048) by (revert H1; case_test; lia).
  replace (io_Length q >? 65535) with false in * by lia. do 2 dev_step.
  assert (R1 := ready_fill r (fun q => set_io_Flags (Z.ldiff (io_Flags q) IOF_QUICK) q) s R).
  eapply wp_use; [by apply preempt_ready; apply R1|cbv beta]. intros _ s2 [R2 M2]. do 2 dev_step.
  assert (K2 : kept s s2) by apply M2.
  dev_step; [by apply preempt_finish_back|]. apply bool_decide_eq_false in H2.
  pose proof (read_slot_none _ _ _ (proj1 R2) H2) as Ep. rewrite (u16_id (io_Length q)) by (unfold is_u16; lia).
  assert (Q2 : request_of r (exec s2) = set_io_Flags (Z.ldiff (io_Flags q) IOF_QUICK) q).
  { rewrite (mv_requests _ _ _ M2) by set_solver.
    exact (request_same r (fun p => set_io_Flags (Z.ldiff (io_Flags p) IOF_QUICK) p) (exec s)). }
  assert (L3 := read_begins r (io_Length q) d s2 (proj1 R2) (proj1 (proj2 R2)) Ep ltac:(lia)).
  rewrite Q2 in L3. specialize (L3 eq_refl Ed Hs). cbv zeta in L3.
  assert (A3 : armed (on_base (read_begun r (io_Length q)) s2)) by apply R2. do 6 dev_step.
  - dev_step. cbv beta. change (fujinet_paula_rx_count _) with (waiting (base s2)) in H3. rewrite H3 in L3.
    eapply wp_mono; [|apply (preempt_ready ∅); [exact L3|exact A3]]. cbv beta. intros _ s' [R' M']. split; [done|].
    etransitivity; [done|apply M'].
  - change (fujinet_paula_rx_count _) with (waiting (base s2)) in H3. rewrite H3, soft_cleared in L3 by apply R2.
    eapply wp_mono; [|apply (preempt_ready ∅); [exact L3|exact A3]]. cbv beta. intros _ s' [R' M']. split; [done|].
    etransitivity; [done|apply M'].
Qed.

(** The receive data of a write: the ring is emptied. *)
Lemma live_emptied cur tx (w : W) d s : (due (world s) -> due w) -> live e cur tx s -> soft_caused (exec s) = false -> ring_ok 11 (rx d) ->
  pending_need d = need_of (base s) ->
  live e cur tx (mkDev w (exec s) (set_rbf_data (set_rx (fujinet_paula_rx_clear (rx d)) d) (base s))).
Proof.
  intros Hdw [Hm Hr Hc Hrd Hw Ho Hg Hdue] Hs Hd Hn. unfold need_of in Hn. split; try done.
  - by apply ring_cleared.
  - unfold read_slot in *. cbn. destruct (pending_read (base s)).
    + destruct Hrd as [H1 H2 H3 H4 H5 H6]. unfold need_of, waiting, ring_of in *.
      split; unfold need_of, waiting, ring_of; cbn; rewrite ?Hn; try done. rewrite Hs. symmetry.
      apply bool_decide_eq_false. change (fujinet_paula_rx_count _) with 0. lia.
    + unfold need_of in *. cbn. by rewrite Hn.
  - unfold write_slot in *. cbn. by destruct (pending_write (base s)); [destruct Hw; split|].
  - intros H1 H2 H3. by apply Hdw, Hdue.
Qed.
(** A write becomes pending; transmission is not started. *)
Lemma write_begins r data s : live e {[r]} TX_STARTED s -> quiet s -> pending_write (base s) = None ->
  0 <= io_Length (request_of r (exec s)) < 4294967296 ->
  io_Data (request_of r (exec s)) = Some data -> io_Length (request_of r (exec s)) <= Z.of_nat (length data) ->
  live e ∅ TX_LOADED (on_base (start_write r (io_Length (request_of r (exec s))) data) s).
Proof.
  intros Hl [Q1 Q2] Ep Hn Ed Hd. destruct (in_hand {[r]} TX_STARTED r s Hl) as [Hpr _]; [set_solver|].
  destruct Hl as [Hm Hr Hc Hrd Hw Ho Hg Hdue]. unfold write_slot in Hw. rewrite Ep in Hw. destruct Hw as (W1 & W2 & W3).
  split; try done.
  - unfold read_slot in *. cbn. destruct (pending_read (base s)); [|done]. destruct Hrd. split; done.
  - unfold write_slot. cbn. split; try done; cbn.
    + lia.
    + by rewrite W3 in *.
    + exists data, (sent (exec s)). by rewrite app_nil_r.
  - cbn. rewrite Ho, Ep. cbn. set_solver.
Qed.
Lemma transmission_starts r s : live e ∅ TX_LOADED s -> pending_write (base s) = Some r ->
  live e ∅ TX_ENABLED (on_exec (set_intena_tbe true) s).
Proof.
  intros [Hm Hr Hc Hrd Hw Ho Hg Hdue] Ep. split; try done.
  - by destruct Hc.
  - unfold read_slot in *. cbn. by destruct (pending_read (base s)); [destruct Hrd; split|].
  - unfold write_slot in *. cbn [base on_exec] in *. rewrite Ep in *. destruct Hw. split; try done. by cbn; rewrite wr_started.
Qed.

(** With the interrupt requested. *)
Lemma transmission_due s : live e ∅ TX_ENABLED s -> live e ∅ TX_STARTED (set_world (request_tbe c (world s)) s).
Proof.
  intros [Hm Hr Hc Hrd Hw Ho Hg Hdue]. split; try done.
  - unfold write_slot in *. cbn [base exec set_world] in *. destruct (pending_write (base s)); [|done]. by destruct Hw; split.
  - intros _ _ _. apply due_request.
Qed.

(** The end of [cmd_write]. *)
Lemma cmd_write_rest r data s0 s : ready {[r]} s -> kept s0 s -> pending_write (base s) = None ->
  0 <= io_Length (request_of r (exec s)) < 4294967296 ->
  io_Data (request_of r (exec s)) = Some data -> io_Length (request_of r (exec s)) <= Z.of_nat (length data) ->
  wp hang (based (start_write r (io_Length (request_of r (exec s))) data);;
    preempt c rx_fuel;; intena_set false true;; preempt c rx_fuel;;
    modify (fun s => set_world (request_tbe c (world s)) s);; preempt c rx_fuel) (fun _ => back s0) s.
Proof.
  intros (L & Q & A) Hk Ep Hn Ed Hd. do 2 dev_step. cbv beta. pose proof (write_begins r data s L Q Ep Hn Ed Hd) as L1.
  set (s1 := on_base _ s) in *. assert (A1 : armed s1) by done. assert (K1 : kept s0 s1) by done.
  assert (P1 : pending_write (base s1) = Some r) by done. clearbody s1.
  eapply wp_use; [by apply preempt_live|cbv beta]. intros _ s2 (L2 & _ & S2 & M2 & P2). rewrite P1 in P2. do 2 dev_step. cbv beta.
  assert (A2 : armed s2) by by eapply stays_armed.
  eapply wp_use; [apply preempt_live; by eapply (transmission_starts r), P2|cbv beta]. intros _ s3 (L3 & _ & S3 & M3 & _). do 2 dev_step.
  eapply wp_mono; [|apply (preempt_ready ∅); [by apply transmission_due|exact (stays_armed _ _ S3 A2)]]. cbv beta. intros _ s' [R' M']. split; [done|].
  etransitivity; [exact K1|]. etransitivity; [apply M2|]. etransitivity; [apply M3|apply M'].
Qed.

Definition sound (q : ioreq) : Prop :=
  0 <= io_Length q < 4294967296 /\ forall d, io_Data q = Some d -> io_Length q <= Z.of_nat (length d).
Lemma cmd_write_spec r s : ready {[r]} s -> sound (request_of r (exec s)) ->
  wp hang (cmd_write c rx_fuel r) (fun _ => back s) s.
Proof.
  intros R [Hp Hs]. unfold cmd_write. do 4 dev_step. rewrite (proj2 (proj2 (proj2 (proj2 R)))).
  set (q := request_of r (exec s)) in *. dev_step; [by apply fill_finish_back|].
  dev_step. apply rearm_spec; [apply R|].
  eapply wp_use; [by apply preempt_ready; apply R|cbv beta]. intros _ s2 [R2 M2]. do 2 dev_step.
  assert (K2 : kept s s2) by apply M2. dev_step; [by apply preempt_finish_back|].
  apply bool_decide_eq_false in H0. pose proof (write_slot_none _ _ _ (proj1 R2) H0) as Ep.
  assert (Q2 : request_of r (exec s2) = q) by by rewrite (mv_requests _ _ _ M2) by set_solver.
  do 2 dev_step. cbv beta. set (s3 := on_base _ s2).
  eapply wp_use; [by apply (drain_words_spec c rx_fuel hang depth Hsteady s3)|cbv beta]. intros _ s4 (w & ws & -> & Hd). do 2 dev_step. cbv beta.
  match goal with |- wp _ _ _ ?x => set (s5 := x) end.
  set (d := receive_words saturate ws (rbf_data (base s3))) in *.
  destruct (receive_words_ring saturate ws (rbf_data (base s3)) (li_ring _ _ _ _ (proj1 R2))) as (G1 & _ & G3 & _). fold d in G1, G3.
  assert (L5 : live e {[r]} TX_STARTED s5).
  { pose proof (live_emptied {[r]} TX_STARTED w (mkRbf (rx d) (pending_need d) 0 0 true 0 0) s2 (drained_due c _ _ _ Hd) (proj1 R2) (proj1 (proj1 (proj2 R2))) G1 G3) as L.
    exact (live_diag _ _ _ _ (fun g => g |> set_write_discard (fujinet_paula_rx_count (rx d))
      |> set_fire_at_write_start (rbf_fire d) |> set_fire_at_tx_queued 0) _ L). }
  assert (R5 : ready {[r]} s5) by (split; [done|apply R2]). assert (K5 : kept s s5) by done.
  assert (Q5 : request_of r (exec s5) = q) by done. assert (P5 : pending_write (base s5) = None) by done.
  clearbody s5. dev_step.
  - eapply wp_use; [by apply preempt_ready; apply R5|cbv beta]. intros _ s6 [R6 M6].
    apply fill_finish_back; [done|]. etransitivity; [exact K5|apply M6].
  - apply Z.eqb_neq in H1. replace (negb (io_Length q =? 0)) with true in H by lia. apply bool_decide_eq_false in H.
    destruct (io_Data q) as [data|] eqn:Ed; [|done]. cbn [default].
    do 2 dev_step. set (s6 := on_exec _ s5).
    assert (Q6 : request_of r (exec s6) = set_io_Flags (Z.ldiff (io_Flags q) IOF_QUICK) q).
    { rewrite <- Q5. exact (request_same r (fun p => set_io_Flags (Z.ldiff (io_Flags p) IOF_QUICK) p) (exec s5)). }
    change (io_Length q) with (io_Length (set_io_Flags (Z.ldiff (io_Flags q) IOF_QUICK) q)). rewrite <- Q6.
    apply cmd_write_rest; rewrite ?Q6; try done; [|by apply Hs]. by apply ready_fill.
Qed.

Lemma cmd_setparams_spec r s : ready {[r]} s -> wp hang (cmd_setparams c rx_fuel r) (fun _ => back s) s.
Proof.
  intros R. unfold cmd_setparams. do 4 dev_step. dev_step; [by apply finish_back|].
  dev_step; [by apply finish_back|]. dev_step; [by apply finish_back|].
  apply orb_false_iff in H as [H _]. apply bool_decide_eq_false in H.
  pose proof (read_slot_none _ _ _ (proj1 R) H) as Ep. do 2 dev_step. cbv beta. set (s1 := on_base _ s).
  assert (L1 : live e {[r]} TX_STARTED s1).
  { apply claim_live; [apply R|]. intros. by apply set_baud_claimed. }
  eapply wp_use; [apply settle_spec; [done|done|apply R]|cbv beta]. intros _ s2 [R2 M2].
  apply fill_finish_back; [done|]. etransitivity; [|apply M2]. done.
Qed.

(** Both pending requests are taken. *)
Lemma note_write_live cur tx o s : live e (cur ∪ opt_set o) tx s -> pending_write (base s) = None ->
  wp hang (note_aborted_write o) (fun _ s' => live e (cur ∪ opt_set o) tx s' /\
    (kept s s' /\ quiet s = quiet s' /\ armed s = armed s') /\
    (pending_read (base s'), pending_write (base s')) = (pending_read (base s), pending_write (base s))) s.
Proof.
  intros Hl Ep. destruct o as [r|]; cbn [note_aborted_write]; [|by dev_step].
  do 4 dev_step. unfold record_write_reply. dev_step. split_and!; try done.
  apply live_write_recorded; [|done]. apply live_fill; [done|]. cbn. set_solver.
Qed.
Lemma note_read_live cur tx o s : live e (cur ∪ opt_set o) tx s -> pending_read (base s) = None ->
  wp hang (note_aborted_read o) (fun _ s' => live e (cur ∪ opt_set o) tx s' /\
    (kept s s' /\ quiet s = quiet s' /\ armed s = armed s') /\
    (pending_read (base s'), pending_write (base s')) = (pending_read (base s), pending_write (base s))) s.
Proof.
  intros Hl Ep. destruct o as [r|]; cbn [note_aborted_read]; [|by dev_step].
  do 3 dev_step. split_and!; try done.
  apply live_read_recorded; [|done]. apply live_fill; [done|]. cbn. set_solver.
Qed.
Lemma reply_aborted_ready cur o s : ready (cur ∪ opt_set o) s -> (forall r, o = Some r -> r ∉ cur) ->
  wp hang (reply_aborted o) (fun _ s' => ready cur s' /\ kept s s') s.
Proof.
  intros (L & Q & A) Hn. destruct o as [r|]; cbn [reply_aborted opt_set] in *.
  - eapply wp_mono; [|by eapply reply_live; auto]. cbv beta. intros _ s' (L' & An & _).
    destruct An as [A1 A2 A3 A4 A5 A6 A7]. split; [|by apply stays_kept].
    split_and!; [done| |by eapply stays_armed]. unfold quiet in *. injection A4 as -> ->. done.
  - dev_step. rewrite union_empty_r_L in L. done.
Qed.

Lemma take_both_live cur next1 owner next2 s : next1 <> WRITE_PENDING -> next2 <> READ_PENDING -> live e cur TX_STARTED s -> quiet s ->
  wp hang (w ← take_pending_write next1 owner; r ← take_pending next2; mret (w, r))
    (fun o s' => o = (pending_write (base s), pending_read (base s)) /\
       live e (cur ∪ opt_set o.1 ∪ opt_set o.2) TX_STARTED s' /\ quiet s' /\
       (pending_read (base s'), pending_write (base s')) = (None, None) /\
       kept s s' /\ armed s = armed s') s.
Proof.
  intros N1 N2 L [Q1 Q2]. dev_step.
  assert (T := take_pending_write_live c rx_fuel hang depth Hsteady e cur TX_STARTED next1 owner s N1 L). cbv zeta in T.
  rewrite (write_soft_cleared s Q2) in T.
  eapply wp_mono; [|exact T]. cbv beta. intros ow s1 (E1 & L1 & P1 & E2).
  assert (B1 : quiet s1 /\ pending_read (base s1) = pending_read (base s) /\ kept s s1 /\ armed s = armed s1)
    by (rewrite E2; by destruct ow).
  clear E2. destruct B1 as ([B1 B2] & B3 & B4 & B5). dev_step.
  assert (T2 := take_pending_live c rx_fuel hang depth Hsteady e (cur ∪ opt_set ow) TX_STARTED next2 s1 N2 L1). cbv zeta in T2.
  rewrite (soft_cleared s1 B1) in T2.
  eapply wp_mono; [|exact T2]. cbv beta. intros or s2 (E3 & L2 & P2 & E4).
  dev_step. cbn [fst snd]. split_and!; try done.
  - by rewrite E1, E3, B3.
  - rewrite E4. by destruct or.
  - f_equal; [done|]. rewrite E4. by destruct or.
  - etransitivity; [exact B4|]. rewrite E4. by destruct or.
  - rewrite B5, E4. by destruct or.
Qed.
Lemma wp_pair {A B D} (m1 : M (dev W) A) (m2 : M (dev W) B) (k : A -> B -> M (dev W) D) P Q s :
  wp hang (a ← m1; b ← m2; mret (a, b)) P s -> (forall o s', P o s' -> wp hang (k o.1 o.2) Q s') ->
  wp hang (a ← m1; b ← m2; k a b) Q s.
Proof using Type.
  unfold wp, mbind, M_bind, mret, M_ret. destruct (m1 s) as [[a s1]|]; [|done]. destruct (m2 s1) as [[b s2]|]; [|done].
  intros H Hk. by apply (Hk (a, b)).
Qed.
Lemma pending_apart cur tx s : live e cur tx s ->
  (forall p, pending_write (base s) = Some p -> p ∉ cur ∪ opt_set (pending_read (base s))) /\
  (forall p, pending_read (base s) = Some p -> p ∉ cur).
Proof.
  intros [_ _ _ Hr Hw _ _]. unfold read_slot, write_slot in *. split; intros p E; rewrite E in *; [|by destruct Hr].
  destruct Hw as [_ H1 H2 _ _ _ _ _]. destruct (pending_read (base s)) as [q|]; cbn; [|set_solver].
  assert (q <> p) by congruence. set_solver.
Qed.
(** Both are told, and answered where interrupts come in. *)
Lemma abort_both_live cur ow or s : ready (cur ∪ opt_set ow ∪ opt_set or) s ->
  (pending_read (base s), pending_write (base s)) = (None, None) ->
  (forall p, ow = Some p -> p ∉ cur ∪ opt_set or) -> (forall p, or = Some p -> p ∉ cur) ->
  wp hang (note_aborted_write ow;; note_aborted_read or;; preempt c rx_fuel;; reply_aborted ow;; reply_aborted or)
    (fun _ s' => ready cur s' /\ kept s s') s.
Proof.
  intros (L & Q & A) E N1 N2. injection E as E1 E2.
  assert (Ec : cur ∪ opt_set ow ∪ opt_set or = cur ∪ opt_set or ∪ opt_set ow) by set_solver. rewrite Ec in L.
  eapply wp_use; [by apply note_write_live|cbv beta]. intros _ s1 (L1 & (K1 & Q1 & A1) & P1). injection P1 as P1 P1'.
  rewrite <- Ec in L1. eapply wp_use; [apply note_read_live; [done|congruence]|cbv beta]. intros _ s2 (L2 & (K2 & Q2 & A2) & P2).
  rewrite Ec in L2. rewrite Q1, Q2 in Q. rewrite A1, A2 in A.
  eapply wp_use; [by apply preempt_ready|cbv beta]. intros _ s3 [R3 M3].
  eapply wp_use; [by apply reply_aborted_ready|cbv beta]. intros _ s4 [R4 K4].
  eapply wp_mono; [|by apply reply_aborted_ready]. cbv beta. intros _ s' [R5 K5]. split; [done|].
  etransitivity; [exact K1|]. etransitivity; [exact K2|]. etransitivity; [apply M3|]. by etransitivity.
Qed.
Lemma wp_reassoc5 {A} (m1 m2 m3 m4 m5 : M (dev W) unit) (k : M (dev W) A) (Q : A -> dev W -> Prop) s :
  wp hang ((m1;; m2;; m3;; m4;; m5);; k) Q s -> wp hang (m1;; m2;; m3;; m4;; m5;; k) Q s.
Proof using Type.
  unfold wp, mbind, M_bind. destruct (m1 s) as [[a s1]|]; [|done]. destruct (m2 s1) as [[b s2]|]; [|done].
  destruct (m3 s2) as [[d s3]|]; [|done]. by destruct (m4 s3) as [[f s4]|].
Qed.
Lemma cmd_flush_spec r s : ready {[r]} s -> wp hang (cmd_flush c rx_fuel r) (fun _ => back s) s.
Proof.
  intros (L & Q & A). destruct (pending_apart _ _ _ L) as [N1 N2]. unfold cmd_flush.
  eapply wp_pair; [by apply take_both_live|cbv beta]. intros [ow or] s1 (E & L1 & Q1 & P1 & K1 & A1). cbn [fst snd] in *.
  injection E as -> ->. assert (P1' := P1). injection P1' as P1a P1b.
  eapply wp_use; [by apply drain_live|cbv beta]. intros _ s2 (L2 & M2 & X2 & d & B2). do 2 dev_step. cbv beta.
  assert (P2 : (pending_read (base s2), pending_write (base s2)) = (None, None)) by by rewrite B2.
  assert (P2' := P2). injection P2' as P2a P2b. pose proof (clear_live _ _ _ L2 P2a) as L3. set (s3 := on_base _ s2) in *.
  assert (R3 : ready ({[r]} ∪ opt_set (pending_write (base s)) ∪ opt_set (pending_read (base s))) s3).
  { split; [done|]. unfold quiet, armed, s3. cbn [base exec on_base]. rewrite X2, B2. split; [exact Q1|]. by rewrite A1 in A. }
  assert (K3 : kept s s3) by (etransitivity; [exact K1|]; apply M2).
  apply wp_reassoc5. eapply wp_use; [by apply abort_both_live|cbv beta]. intros _ s4 [R4 K4].
  apply fill_finish_back; [done|]. by etransitivity.
Qed.

(** ** The vectors *)

Lemma begin_io_spec r s : ready {[r]} s -> sound (request_of r (exec s)) ->
  wp hang (device_begin_io c rx_fuel r) (fun _ => back s) s.
Proof.
  intros R Hs. unfold device_begin_io. do 4 dev_step. pose proof (li_claim _ _ _ _ (proj1 R)) as C.
  rewrite (proj2 (cl_port _ _ _ C)), (proj2 (cl_bits _ _ _ C)), (proj2 (proj2 (proj2 (proj2 R)))). cbn [negb orb].
  dev_step; [apply cmd_read_spec; try done; apply Hs|]. dev_step; [by apply cmd_write_spec|].
  dev_step; [by apply cmd_query_spec|]. dev_step; [by apply cmd_setparams_spec|]. dev_step; [by apply cmd_flush_spec|].
  dev_step; [by apply cmd_flush_spec|]. by apply finish_back.
Qed.

(** An aborted request: told how much was done, and answered. *)
Record aborted (r actual : Z) s s' : Prop := {
  ab_answers : exists l, answers (exec s') = answers (exec s) ++ l ++ [Replied r IOERR_ABORTED];
  ab_actual : io_Actual (request_of r (exec s')) = actual;
  ab_error : io_Error (request_of r (exec s')) = IOERR_ABORTED
}.
Lemma preempt_reply r err s0 s : live e {[r]} TX_STARTED s -> armed s -> kept s0 s ->
  wp hang (preempt c rx_fuel;; reply_request r err) (fun _ s' => back s0 s' /\
    (exists l, answers (exec s') = answers (exec s) ++ l ++ [Replied r err]) /\
    request_of r (exec s') = set_io_Error err (request_of r (exec s))) s.
Proof.
  intros L A K. eapply wp_use; [by eapply preempt_turns|cbv beta]. intros _ s1 (L1 & Q1 & T1 & _).
  destruct (turn_answers _ _ _ T1) as [l Hl]. assert (M1 := turns_move _ _ _ _ L T1). pose proof (turn_stays _ _ _ T1) as S1.
  eapply wp_mono; [|apply (reply_live c rx_fuel hang depth Hsteady e ∅); [by rewrite union_empty_l_L|set_solver]].
  cbv beta. intros _ s' (L' & An & Q'). destruct An as [A1 A2 A3 A4 A5 A6 A7]. split_and!.
  - split.
    + split_and!; [done| |by do 2 (eapply stays_armed; [done|])]. unfold quiet in *. injection A4 as -> ->. done.
    + etransitivity; [exact K|]. etransitivity; by apply stays_kept.
  - exists l. by rewrite A2, Hl, app_assoc.
  - by rewrite Q', (mv_requests _ _ _ M1) by set_solver.
Qed.
(** What is said about an aborted request: of a write, that so many bytes were sent. *)
Definition abort_count (b : base_t) (r : Z) : Z :=
  if decide (pending_write b = Some r) then committed (tbe_data b) else 0.
Lemma abort_io_spec r s : ready ∅ s ->
  wp hang (device_abort_io c rx_fuel r) (fun _ s' => back s s' /\
    (r ∈ outstanding (exec s) -> aborted r (abort_count (base s) r) s s')) s.
Proof.
  intros (L & Q & A). pose proof (li_out _ _ _ _ L) as Ho. unfold device_abort_io, abort_count. do 2 dev_step.
  destruct (decide (pending_write (base s) = Some r)) as [Ew|Ew].
  - dev_step. assert (T := take_pending_write_live c rx_fuel hang depth Hsteady e ∅ TX_STARTED WRITE_ABORTING WRITE_OWNER_ABORT s ltac:(done) L).
    cbv zeta in T. rewrite (write_soft_cleared s) in T by apply Q.
    eapply wp_mono; [|exact T]. cbv beta. intros o s1 (-> & L1 & P1 & E1). rewrite Ew in *. cbn [opt_set] in *.
    rewrite union_empty_l_L in L1. do 3 dev_step. unfold record_write_reply. dev_step. cbv beta.
    match goal with |- wp _ _ _ ?x => set (s2 := x) end.
    assert (L2 : live e {[r]} TX_STARTED s2) by (apply live_write_recorded; [apply live_fill; [done|set_solver]|done]).
    eapply wp_mono; [|apply (preempt_reply r IOERR_ABORTED s s2); [done|..]]; cbv beta.
    + intros _ s' (B & (l & Hl) & R). split; [done|]. intros _. split; rewrite ?R; try done.
      * exists l. rewrite Hl. unfold s2. by rewrite E1.
      * assert (E2 : request_of r (exec s2) = set_io_Actual (committed (tbe_data (base s))) (request_of r (exec s1)))
          by apply request_same. by rewrite E2.
    + unfold s2. by rewrite E1.
    + unfold s2. by rewrite E1.
  - dev_step.
    + eapply wp_mono; [|by apply preempt_ready]. cbv beta. intros _ s' [R M]. split; [by split; [|apply M]|].
      rewrite Ho. apply negb_true_iff, bool_decide_eq_false in H. intros Hr. exfalso.
      destruct (pending_read (base s)), (pending_write (base s)); cbn in Hr; set_solver.
    + apply negb_false_iff, bool_decide_eq_true in H. dev_step.
      assert (T := take_pending_live c rx_fuel hang depth Hsteady e ∅ TX_STARTED READ_ABORTING s ltac:(done) L).
      cbv zeta in T. rewrite (soft_cleared s) in T by apply Q.
      eapply wp_mono; [|exact T]. cbv beta. intros o s1 (-> & L1 & P1 & E1). rewrite H in *. cbn [opt_set] in *.
      rewrite union_empty_l_L in L1. do 4 dev_step. cbv beta.
      match goal with |- wp _ _ _ ?x => set (s2 := x) end.
      assert (L2 : live e {[r]} TX_STARTED s2) by (apply live_read_recorded; [apply live_fill; [done|set_solver]|done]).
      eapply wp_mono; [|apply (preempt_reply r IOERR_ABORTED s s2); [done|..]]; cbv beta.
      * intros _ s' (B & (l & Hl) & R). split; [done|]. intros _. split; rewrite ?R; try done.
        -- exists l. rewrite Hl. unfold s2. by rewrite E1.
        -- assert (E2 : request_of r (exec s2) = set_io_Actual 0 (request_of r (exec s1))) by apply request_same. by rewrite E2.
      * unfold s2. by rewrite E1.
      * unfold s2. by rewrite E1.
Qed.
End Run.
End Commands.
