(* ===== verification/SerialDeviceClose.v ===== *)
(** * Opening and closing fujinet-serial.device

    The device while it is closed, how it claims Paula and how it gives her
    back. *)

From stdpp Require Import gmap.
From S2P Require Import Prelude Effects ExecIO PaulaUart SerialDevice SerialDeviceProps SerialDeviceOpen SerialDeviceCommands.

#[local] Open Scope Z_scope.

Section Close.
Context {W : Type}.
Variable c : chip W.
Variable rx_fuel : nat.
Implicit Types s : dev W.

#[local] Abbreviation live := (live c).
#[local] Abbreviation ready := (ready c).

(** The vectors are not the device's; [held]: the resources still are. *)
Record off (held : bool) (given : list Z) (cur : gset Z) s : Prop := {
  of_misuse : misuse (exec s) = false;
  of_held : (port_held (exec s), bits_held (exec s), port_claimed (claim (base s)), bits_claimed (claim (base s))) =
            (held, held, held, held);
  of_vectors : int_rbf (exec s) <> OURS /\ int_tbe (exec s) <> OURS;
  of_installed : rbf_installed (claim (base s)) = false;
  of_pending : (pending_read (base s), pending_write (base s)) = (None, None);
  of_soft : quiet s;
  of_out : outstanding (exec s) = cur;
  of_account : accounted given (exec s);
  of_buf : length (buf (ring_of (base s))) = 2048%nat
}.
Lemma off_world held g cur w s : off held g cur s -> off held g cur (set_world w s).
Proof. by intros []. Qed.
Lemma off_fill held g cur r f s : off held g cur s -> off held g cur (on_exec (on_request r f) s).
Proof. by intros []. Qed.

Section Run.
Variable hang : Prop.
Variable depth : W -> nat.
Context (Hsteady : hang \/ Steady c rx_fuel depth).

(** Nothing of the device runs. *)
Lemma preempt_off held g cur s : off held g cur s ->
  wp hang (preempt c rx_fuel) (fun _ s' => exists w, s' = set_world w s) s.
Proof.
  intros Ho. unfold preempt. eapply wp_use; [by eapply hardware_steps|cbv beta]. intros _ s1 Hs.
  assert (exists w, s1 = set_world w s) as [w ->].
  { induction Hs as [s|a b d H _ IH]; [exists (world s); by destruct s|].
    destruct (of_vectors _ _ _ _ Ho) as [V1 V2].
    destruct H as [| | |]; [|done..]. destruct (IH (off_world _ _ _ (events c (world a)).1 _ Ho)) as [w' ->]. by exists w'. }
  destruct (of_soft _ _ _ _ Ho) as [Q1 Q2]. unfold soft_fuel. cbn [soft_loop]. do 2 dev_step. cbn [exec set_world]. rewrite Q1, Q2.
  dev_step. by exists w.
Qed.

(** ** Opening *)

(** What claiming the resources leaves alone. *)
Definition rest_of s :=
  (rbf_data (base s), tbe_data (base s), (read_state (base s), write_state (base s)), diag (base s),
   (lib_OpenCnt (base s), delexp (base s), freed (exec s)), closing (claim (base s)),
   past_of (exec s) []).
Lemma alloc_misc_wp which (Q : bool -> dev W -> Prop) s :
  (forall w, Q true (on_exec (set_misc_held which true) (set_world w s))) -> (forall w, Q false (set_world w s)) ->
  wp hang (alloc_misc c which) Q s.
Proof. intros H1 H2. unfold wp, alloc_misc. by destruct (AllocMiscResource c (world s) which) as [w []]. Qed.
Lemma claim_misc_spec g s : off false g ∅ s ->
  wp hang (claim_misc c) (fun err s' => (err = 0 /\ off true g ∅ s' \/ err <> 0 /\ off false g ∅ s') /\ rest_of s' = rest_of s) s.
Proof.
  intros Ho. unfold claim_misc. do 3 dev_step. set (have := if misc_base (base s) then _ else _).
  assert (Hhave : wp hang have (fun _ s' => off false g ∅ s' /\ rest_of s' = rest_of s) s).
  { unfold have. destruct (misc_base (base s)); [by dev_step|]. unfold wp. destruct (OpenResource c (world s)) as [w ok].
    split; [by destruct Ho|done]. }
  clearbody have. eapply wp_mono; [|exact Hhave]. cbv beta. intros [] s1 [O1 R1]; cbn [negb].
  2:{ dev_step. split; [right; done|done]. }
  rewrite <- R1. clear Ho Hhave have R1 s.
  destruct s1 as [w [vr vt ir it sc wc ph bh fr rq ou an se mi] [rd td [bd ov ow ri re te pc bc ra cl] pr pw rs ws dg lc de mb]].
  pose proof (of_held _ _ _ _ O1) as Hh. cbn in Hh. injection Hh as -> -> -> ->.
  dev_step. apply alloc_misc_wp; intros w1; cbn [negb].
  2:{ dev_step. split; [right; split; [done|]|done]. by destruct O1. }
  do 3 dev_step. apply alloc_misc_wp; intros w2; cbn [negb].
  - do 3 dev_step. split; [left; split; [done|]|done]. by destruct O1.
  - dev_step. unfold free_misc. do 4 dev_step. split; [right; split; [done|]|done]. by destruct O1.
Qed.

Lemma ring_reset_ok b : length b = 2048%nat -> ring_ok 11 (mkRx b 2047 0 0 false false).
Proof. intros H. split; cbn; try done; lia. Qed.
Lemma rx_init_fresh b : fujinet_paula_rx_init (Some b) FUJINET_PAULA_RX_DEFAULT_SIZE = Some (mkRx b 2047 0 0 false false).
Proof. done. Qed.
(** The library's fields. *)
Definition shelf s := (lib_OpenCnt (base s), delexp (base s), freed (exec s)).
Lemma kept_shelf s s' : kept s s' -> shelf s' = shelf s.
Proof. intros K. unfold kept in K. by injection K as E1 E2 E3 _; unfold shelf; rewrite E1, E2, E3. Qed.
(** Paula is claimed: what the code between [Disable] and [Enable] makes of
    the words that were waiting. *)
Lemma live_opened e (w : W) d s : off true (given e) ∅ s -> ring_ok 11 (rx d) -> pending_need d = 0 ->
  read_state (base s) <> READ_PENDING -> write_state (base s) <> WRITE_PENDING ->
  live e ∅ TX_STARTED (mkDev w
    (exec s |> set_intena_rbf false |> set_intena_tbe false |> set_int_rbf OURS |> set_int_tbe OURS)
    (base s |> on_claim (fun k => k |> set_rbf_was_enabled (was_rbf_enabled e) |> set_tbe_was_enabled (was_tbe_enabled e))
            |> set_rbf_data d
            |> on_claim (fun k => k |> set_old_rbf (was_rbf e) |> set_old_tbe (was_tbe e)
                                    |> set_rbf_installed true |> set_receive_armed false))).
Proof.
  intros [Hm Hh Hv Hi Hp [Q1 Q2] Ho Hg Hb] Hd Hn Hrs Hws. injection Hh as H1 H2 H3 H4. injection Hp as P1 P2. split; try done.
  - unfold read_slot. cbn. by rewrite P1.
  - unfold write_slot. cbn. by rewrite P2.
  - cbn. by rewrite Ho, P1, P2.
  - cbn. rewrite P2. by intros _ [? ?].
Qed.
Lemma claim_paula_spec rate g s : off false g ∅ s ->
  let e := past_of (exec s) g in
  wp hang (claim_paula c rx_fuel rate) (fun err s' => shelf s' = shelf s /\
    (err = 0 /\ ready e ∅ s' /\ (pending_read (base s'), pending_write (base s')) = (None, None) \/
     err <> 0 /\ off false g ∅ s' /\ past_of (exec s') [] = past_of (exec s) [])) s.
Proof.
  intros Ho e. unfold claim_paula. do 2 dev_step. rewrite rx_init_fresh. do 2 dev_step. cbv beta. set (s1 := on_base _ s).
  assert (O1 : off false g ∅ s1) by by destruct Ho. pose proof (ring_reset_ok _ (of_buf _ _ _ _ O1)) as F1.
  eapply wp_use; [by apply claim_misc_spec|cbv beta]. intros err s2 [[[-> O2]|[He O2]] R2].
  2:{ replace (err =? 0) with false by lia. cbn [negb]. dev_step.
      injection R2 as E1 E2 E3 E4 E5 E6 E7 E8 E9 E10 E11 E12 E13. unfold shelf. rewrite E6, E7, E8.
      split; [done|]. right. split_and!; [done..|]. unfold past_of. congruence. }
  cbn [Z.eqb negb]. do 6 dev_step. cbv beta. set (s3 := on_exec _ _).
  injection R2 as E1 E2 E3 E4 E5 E6 E7 E8 E9 E10 E11 E12 E13.
  eapply wp_use; [by apply (drain_words_spec c rx_fuel hang depth Hsteady s3)|cbv beta]. intros _ s4 (w & ws & -> & _).
  destruct (receive_words_ring saturate ws (rbf_data (base s3))) as (G1 & _ & G3 & _); [unfold s3; cbn; by rewrite E1|].
  set (d := receive_words saturate ws (rbf_data (base s3))) in *.
  do 2 dev_step. dev_step. unfold wp at 1. cbn [SetIntVector]. dev_step. unfold wp at 1. cbn [SetIntVector]. do 2 dev_step. cbv beta.
  match goal with |- wp _ _ _ ?x => set (s5 := x) end.
  assert (L5 : live e ∅ TX_STARTED s5).
  { assert (O2' : off true (given e) ∅ s2) by done.
    pose proof (live_opened e w (set_rx (fujinet_paula_rx_clear (rx d)) d) s2 O2' (ring_cleared _ G1)) as L.
    cbn [was_rbf_enabled was_tbe_enabled was_rbf was_tbe e past_of] in L. rewrite <- E10, <- E11, <- E12, <- E13 in L.
    apply L; [|by rewrite E3|by rewrite E4]. etransitivity; [exact G3|]. unfold s3. cbn. by rewrite E1. }
  assert (P5 : (pending_read (base s5), pending_write (base s5)) = (None, None)) by apply O2.
  assert (C5 : closing (claim (base s5)) = false) by (etransitivity; [exact E9|done]).
  assert (S5 : shelf s5 = shelf s) by (unfold shelf; cbn; by rewrite E6, E7, E8). clearbody s5.
  eapply wp_use; [by eapply preempt_live|cbv beta]. intros _ s6 (L6 & _ & S6 & M6 & _). injection P5 as P5 P5'.
  rewrite <- (sy_claim _ _ S6) in C5.
  eapply wp_use; [exact (settle_spec c rx_fuel hang depth Hsteady e ∅ s6 L6 (mv_read _ _ _ M6 P5) C5)|cbv beta].
  intros _ s7 [R7 M7]. dev_step. split.
  - by rewrite (kept_shelf _ _ (mv_kept _ _ _ M7)), (kept_shelf _ _ (mv_kept _ _ _ M6)).
  - left. split_and!; [done..|]. f_equal; [by apply M7, M6|by apply M7, M6].
Qed.

(** ** Closing *)

(** What is seen of it from outside. *)
Definition seen s := (shelf s, past_of (exec s) []).
Lemma answer_off held g cur r err a s : answered_request a = r -> off held g (cur ∪ {[r]}) s -> r ∉ cur ->
  let s' := on_exec (give_back r a) (on_exec (on_request r (set_io_Error err)) s) in
  off held g cur s' /\ seen s' = seen s /\ answers (exec s') = answers (exec s) ++ [a] /\ base s' = base s.
Proof.
  intros Ha [Hm Hh Hv Hi Hp Hq Ho Hg Hb] Hn. cbv zeta. unfold give_back.
  assert (Hin : r ∈ outstanding (exec s)) by (rewrite Ho; set_solver).
  unfold on_exec. cbn [exec]. rewrite decide_True by done. split; [|done]. split; try done.
  - cbn. rewrite Ho. set_solver.
  - unfold accounted in *. cbn. rewrite map_app, <- app_assoc, Hg. f_equiv. cbn [map app]. rewrite Ha.
    by rewrite (union_difference_singleton_L r (outstanding (exec s))), elements_union_singleton at 1 by set_solver.
Qed.
Lemma reply_off g cur r err s : off true g (cur ∪ {[r]}) s -> r ∉ cur ->
  wp hang (reply_request r err) (fun _ s' => off true g cur s' /\ seen s' = seen s) s.
Proof.
  intros Ho Hn. unfold reply_request. do 3 dev_step. by destruct (answer_off true g cur r err (Replied r err) s eq_refl Ho Hn) as (? & ? & _).
Qed.
Lemma reply_aborted_off g cur o s : off true g (cur ∪ opt_set o) s -> (forall r, o = Some r -> r ∉ cur) ->
  wp hang (reply_aborted o) (fun _ s' => off true g cur s' /\ seen s' = seen s) s.
Proof.
  intros Ho Hn. destruct o as [r|]; cbn [reply_aborted opt_set] in *; [apply reply_off; auto|].
  dev_step. by rewrite union_empty_r_L in Ho.
Qed.
Lemma notes_off g cur ow or s : off true g cur s ->
  wp hang (note_aborted_write ow;; note_aborted_read or) (fun _ s' => off true g cur s' /\ seen s' = seen s) s.
Proof.
  intros Ho. eapply wp_use with (P := fun _ s' => off true g cur s' /\ seen s' = seen s).
  - destruct ow as [r|]; cbn [note_aborted_write]; [|by dev_step].
    do 4 dev_step. unfold record_write_reply. dev_step. split; [by destruct Ho|done].
  - intros _ s1 [O1 E1]. rewrite <- E1. destruct or as [r|]; cbn [note_aborted_read]; [|by dev_step].
    do 3 dev_step. split; [by destruct O1|done].
Qed.
Lemma free_misc_wp which (Q : unit -> dev W -> Prop) s : misc_held which (exec s) = true ->
  (forall w, Q tt (on_exec (set_misc_held which false) (set_world w s))) -> wp hang (free_misc c which) Q s.
Proof.
  intros H HQ. unfold free_misc. dev_step. specialize (HQ (FreeMiscResource c (world s) which)). unfold on_exec in *.
  cbn [exec set_world] in *. by rewrite H.
Qed.
Lemma release_misc_off g s : off true g ∅ s -> wp hang (release_misc c) (fun _ s' => off false g ∅ s' /\ seen s' = seen s) s.
Proof.
  intros Ho. pose proof (of_held _ _ _ _ Ho) as Hh. injection Hh as H1 H2 H3 H4. unfold release_misc. do 2 dev_step.
  rewrite H4, H3. cbn [when]. dev_step. dev_step. apply free_misc_wp; [done|]. intros w1. do 2 dev_step.
  apply free_misc_wp; [done|]. intros w2. dev_step. split; [|done]. by destruct Ho.
Qed.

(** The vectors and INTENA as they were. *)
Lemma restore_vectors_spec e x b (w : W) : claimed e x (claim b) ->
  wp hang restore_vectors (fun _ s' => s' = mkDev w (x |> set_int_rbf (was_rbf e) |> set_int_tbe (was_tbe e)
    |> set_intena_rbf (was_rbf_enabled e || intena_rbf x) |> set_intena_tbe (was_tbe_enabled e || intena_tbe x)) b) (mkDev w x b).
Proof.
  intros [C1 C2 [C3 C4] C5 [C6 C7] [C8 C9]]. unfold restore_vectors. do 4 dev_step. cbn [base exec].
  rewrite C5, C3, C4, C6, C7, C8, C9, bool_decide_true by done. by destruct x, e as [? ? [] [] ?].
Qed.

(** The resources and the vectors are given back: what is left of
    [release_paula] once the pending requests are taken. *)
Lemma off_restored e cur tx (w : W) b s : live e cur tx s -> quiet s ->
  (pending_read (base s), pending_write (base s)) = (None, None) -> was_rbf e <> OURS -> was_tbe e <> OURS ->
  rbf_installed (claim b) = false -> (port_claimed (claim b), bits_claimed (claim b)) = (port_claimed (claim (base s)), bits_claimed (claim (base s))) ->
  (pending_read b, pending_write b) = (None, None) -> length (buf (ring_of b)) = 2048%nat ->
  off true (given e) cur (mkDev w (exec s |> set_int_rbf (was_rbf e) |> set_int_tbe (was_tbe e)
    |> set_intena_rbf (was_rbf_enabled e) |> set_intena_tbe (was_tbe_enabled e)) b).
Proof.
  intros [Hm Hr [[C1 C1'] [C2 C2'] _ _ _ _] Hrd Hw Ho Hg Hdue] Q E V1 V2 B1 B2 B3 B4. injection E as E1 E2. injection B2 as B2 B2'.
  split; try done; cbn; [congruence|]. rewrite Ho, E1, E2. cbn. by rewrite !union_empty_r_L.
Qed.
Definition yield_both (ow or : option Z) : M (dev W) unit :=
  note_aborted_write ow;; note_aborted_read or;; preempt c rx_fuel;; reply_aborted ow;; reply_aborted or;; release_misc c.
Lemma yield_both_spec g ow or s : off true g (opt_set ow ∪ opt_set or) s ->
  (forall p, ow = Some p -> p ∉ opt_set or) ->
  wp hang (yield_both ow or) (fun _ s' => off false g ∅ s' /\ seen s' = seen s) s.
Proof.
  intros Ho Hn. unfold yield_both.
  assert (N := notes_off g _ ow or s Ho). dev_step.
  eapply wp_mono with (Q := fun _ s1 => wp hang (note_aborted_read or) (fun _ s' => off true g (opt_set ow ∪ opt_set or) s' /\ seen s' = seen s) s1).
  2:{ unfold wp, mbind, M_bind in N |- *. by destruct (note_aborted_write ow s) as [[[] s1]|]. }
  cbv beta. intros _ s1 N1. eapply wp_use; [exact N1|cbv beta]. intros _ s2 [O2 E2].
  eapply wp_use; [by eapply preempt_off|cbv beta]. intros _ s3 [w ->].
  assert (O3 : off true g (opt_set or ∪ opt_set ow) (set_world w s2)) by (rewrite union_comm_L; by apply off_world).
  eapply wp_use; [by apply reply_aborted_off|cbv beta]. intros _ s4 [O4 E4]. rewrite <- (union_empty_l_L (opt_set or)) in O4.
  eapply wp_use; [apply reply_aborted_off; [done|set_solver]|cbv beta]. intros _ s5 [O5 E5].
  eapply wp_mono; [|by apply release_misc_off]. cbv beta. intros _ s' [O' E']. split; [done|].
  by rewrite E', E5, E4.
Qed.
Lemma release_paula_spec e s : live e ∅ TX_STARTED s -> quiet s -> was_rbf e <> OURS -> was_tbe e <> OURS ->
  wp hang (release_paula c rx_fuel)
    (fun _ s' => off false (given e) ∅ s' /\ shelf s' = shelf s /\ past_of (exec s') (given e) = e) s.
Proof.
  intros L Q V1 V2. unfold release_paula. do 2 dev_step.
  rewrite (proj2 (cl_port _ _ _ (li_claim _ _ _ _ L))). cbn [negb andb]. do 2 dev_step. cbv beta. set (s1 := on_base _ s).
  assert (L1 : live e ∅ TX_STARTED s1) by (apply claim_live; [done|]; by intros x k []).
  destruct (pending_apart c rx_fuel hang depth Hsteady e ∅ TX_STARTED s1 L1) as [N1 _].
  eapply wp_pair; [by eapply take_both_live|cbv beta]. intros [ow or] s2 (E & L2 & Q2 & P2 & K2 & _). cbn [fst snd] in *.
  do 4 dev_step. cbv beta. set (s3 := on_base _ _).
  assert (P2' := P2). injection P2' as P2a P2b.
  assert (L3 : live e (∅ ∪ opt_set ow ∪ opt_set or) TX_STARTED s3).
  { apply claim_live; [|by intros x k []]. destruct L2 as [M1 M2 M3 M4 M5 M6 M7 M8]. split; try done.
    - by destruct M3.
    - unfold read_slot in *. cbn. by rewrite P2a in *.
    - unfold write_slot in *. cbn. rewrite P2b in *. by destruct M5 as (? & ? & ?). }
  eapply wp_use; [by eapply drain_live|cbv beta]. intros _ s4 (L4 & M4 & X4 & d & B4).
  destruct s4 as [w4 x4 b4]. cbn [exec base] in X4, B4.
  eapply wp_use; [apply restore_vectors_spec, L4|cbv beta]. intros _ s5 ->. do 2 dev_step. cbv beta.
  assert (I4 : intena_rbf x4 = false /\ intena_tbe x4 = false) by by rewrite X4. destruct I4 as [-> ->]. rewrite !orb_false_r.
  match goal with |- wp _ _ _ ?x => set (s6 := x) end.
  assert (O6 : off true (given e) (opt_set ow ∪ opt_set or) s6).
  { rewrite <- (union_empty_l_L (opt_set ow)). apply (off_restored e _ TX_STARTED w4 _ _ L4); try done.
    - unfold quiet. cbn. rewrite X4. exact Q2.
    - cbn. rewrite B4. exact P2.
    - pose proof (ring_length _ _ (li_ring _ _ _ _ L4)) as Hl. cbn [base] in Hl. change (length (buf (ring_of b4)) = 2048%nat). lia. }
  injection E as -> ->.
  eapply wp_mono; [|apply (yield_both_spec _ _ _ _ O6); intros p Hp; specialize (N1 p Hp); set_solver].
  cbv beta. intros _ s' [O' E']. split; [done|]. unfold seen in E'. injection E' as E1 E2 E3 E4 E5 E6 E7.
  split; [|destruct e; unfold past_of; cbn in *; congruence].
  unfold shelf. rewrite E1, E2, E3. pose proof (kept_shelf _ _ K2) as K. unfold shelf in K. cbn. rewrite B4, X4. exact K.
Qed.

(** ** The vectors *)

Definition opened e s : Prop := ready e ∅ s /\ lib_OpenCnt (base s) = 1 /\ was_rbf e <> OURS /\ was_tbe e <> OURS.
Definition shut g s : Prop := off false g ∅ s /\ lib_OpenCnt (base s) = 0.

Lemma live_fill_fresh e tx r f s : live e ∅ tx s -> r ∉ outstanding (exec s) -> live e ∅ tx (on_exec (on_request r f) s).
Proof.
  intros Hl Hn. rewrite (li_out _ _ _ _ Hl) in Hn. destruct Hl as [Hm Hr Hc Hrd Hw Ho Hg Hdue]. split; try done.
  - by destruct Hc.
  - unfold read_slot in *. cbn [base exec on_exec]. destruct (pending_read (base s)) as [p|]; [|done].
    assert (r <> p) by (cbn in Hn; set_solver). destruct Hrd. split; rewrite ?request_other; done.
  - unfold write_slot in *. cbn [base exec on_exec]. destruct (pending_write (base s)) as [p|]; [|done].
    assert (r <> p) by (cbn in Hn; set_solver). destruct Hw. split; rewrite ?request_other; done.
Qed.
Lemma opened_fill e r f s : opened e s -> r ∉ outstanding (exec s) -> opened e (on_exec (on_request r f) s).
Proof. intros [(L & Q & A) H] Hn. split; [split; [by apply live_fill_fresh|done]|done]. Qed.

Lemma open_shut g r unit s : shut g s ->
  wp hang (device_open c rx_fuel r unit) (fun ok s' => freed (exec s') = freed (exec s) /\
    if ok : bool then opened (past_of (exec s) g) s' /\ delexp (base s') = false /\
                      (pending_read (base s'), pending_write (base s')) = (None, None)
    else shut g s' /\ past_of (exec s') [] = past_of (exec s) []) s.
Proof.
  intros [Ho Hc]. unfold device_open. do 3 dev_step; [by do 3 dev_step; split; [|split; [by split; [destruct Ho|]|]]|].
  rewrite Hc. cbn [Z.eqb negb]. do 2 dev_step.
  eapply wp_use; [by apply claim_paula_spec|cbv beta]. intros err s1 [Hs H1]. unfold shelf in Hs. injection Hs as E1 E2 E3.
  destruct H1 as [(-> & R1 & P1)|(He & O1 & P1)].
  - cbn [Z.eqb negb]. do 7 dev_step. split; [done|]. destruct R1 as (L1 & Q1 & A1).
    set (s2 := on_exec _ s1). assert (L2 : live (past_of (exec s) g) ∅ TX_STARTED s2).
    { apply live_fill_fresh; [done|]. rewrite (li_out _ _ _ _ L1). injection P1 as -> ->. set_solver. }
    assert (R2 : ready (past_of (exec s) g) ∅ s2) by done.
    assert (L3 : live (past_of (exec s) g) ∅ TX_STARTED (on_base (fun b => b |> set_lib_OpenCnt (lib_OpenCnt b + 1) |> set_delexp false) s2)).
    { apply live_base; try done. apply L2. }
    split_and!; try done. split; [done|]. split; [|apply (of_vectors _ _ _ _ Ho)].
    change (lib_OpenCnt (base s1) + 1 = 1); lia.
  - replace (err =? 0) with false by lia. cbn [negb]. do 3 dev_step. split; [done|]. split; [|done].
    split; [by apply off_fill|]. by rewrite <- Hc.
Qed.
Lemma open_opened e r unit s : opened e s -> r ∉ outstanding (exec s) ->
  wp hang (device_open c rx_fuel r unit) (fun ok s' => ok = false /\ opened e s' /\ kept s s') s.
Proof.
  intros Ho Hn. unfold device_open. do 3 dev_step.
  - do 3 dev_step. split_and!; [done|by apply opened_fill|done].
  - rewrite (proj1 (proj2 Ho)). cbn [Z.eqb negb]. do 3 dev_step. split_and!; [done|by apply opened_fill|done].
Qed.

Lemma release_shut g s (Q : unit -> dev W -> Prop) : off false g ∅ s -> Q tt s -> wp hang (release_paula c rx_fuel) Q s.
Proof.
  intros Ho H. unfold release_paula. do 2 dev_step. pose proof (of_held _ _ _ _ Ho) as Hh. injection Hh as _ _ -> ->.
  rewrite (of_installed _ _ _ _ Ho). exact H.
Qed.
Lemma expunge_shut g s : shut g s ->
  wp hang (device_expunge c rx_fuel) (fun ok s' => ok = true /\ shut g s' /\ freed (exec s') = true /\
    past_of (exec s') [] = past_of (exec s) []) s.
Proof.
  intros [Ho Hc]. unfold device_expunge. do 2 dev_step. rewrite Hc. cbn [Z.eqb negb]. dev_step.
  eapply release_shut; [done|]. do 5 dev_step. split_and!; try done. by destruct Ho.
Qed.
Lemma expunge_opened e s : opened e s ->
  wp hang (device_expunge c rx_fuel) (fun ok s' => ok = false /\ opened e s' /\ delexp (base s') = true /\
    freed (exec s') = freed (exec s)) s.
Proof.
  intros Ho. unfold device_expunge. do 2 dev_step. rewrite (proj1 (proj2 Ho)). cbn [Z.eqb negb]. do 3 dev_step.
  split_and!; try done. destruct Ho as [(L & Q & A) H]. split; [split; [|done]|done]. apply live_base; try done. apply L.
Qed.
Lemma close_opened e r s : opened e s -> r ∉ outstanding (exec s) -> freed (exec s) = false ->
  wp hang (device_close c rx_fuel r) (fun ok s' => shut (given e) s' /\ past_of (exec s') (given e) = e /\
    freed (exec s') = delexp (base s) /\ ok = delexp (base s)) s.
Proof.
  intros Ho Hn Hf. unfold device_close. do 4 dev_step. cbv beta. set (s1 := on_base _ _).
  pose proof (opened_fill e r (set_io_Device false) s Ho Hn) as O1. set (s0 := on_exec _ s) in *.
  assert (C1 : lib_OpenCnt (base s1) = 0).
  { unfold s1. cbn [base on_base]. rewrite (proj1 (proj2 O1)). done. }
  assert (L1 : live e ∅ TX_STARTED s1).
  { apply live_base; try apply O1; [intros b; by destruct (negb _)|..]; destruct (negb _); try done; apply O1. }
  assert (B1 : quiet s1 /\ freed (exec s1) = false /\ delexp (base s1) = delexp (base s)).
  { split_and!; [apply O1|done|]. unfold s1. cbn [base on_base]. by destruct (negb _). }
  destruct B1 as (Q1 & F1 & D1). clearbody s1. do 2 dev_step. rewrite C1. cbn [Z.eqb when]. dev_step.
  eapply wp_mono; [|by apply (release_paula_spec e); apply Ho || done]. cbv beta. intros _ s2 (O2 & S2 & P2).
  unfold shelf in S2. injection S2 as E1 E2 E3. do 2 dev_step. rewrite E1, C1, E2, D1. cbn [Z.eqb andb].
  assert (Sh : shut (given e) s2) by (split; [done|congruence]).
  dev_step.
  - eapply wp_mono; [|by apply expunge_shut]. cbv beta. intros ok s' (-> & Sh' & F' & P'). rewrite H.
    split_and!; try done. etransitivity; [|exact P2]. unfold past_of in *. by injection P' as -> -> -> ->.
  - dev_step. rewrite H. split_and!; try done. congruence.
Qed.
End Run.
End Close.
