(* ===== verification/SerialDeviceSystem.v ===== *)
(** * fujinet-serial.device: histories

    exec's calls of the device's vectors, in any order, with what the machine
    does to the vectors and INTENA while the device is closed.  What holds
    after any of them, and what a close leaves behind. *)

From stdpp Require Import gmap.
From S2P Require Import Prelude Effects ExecIO PaulaUart SerialDevice SerialDeviceProps SerialDeviceOpen.
From S2P Require Import SerialDeviceCommands SerialDeviceClose.

#[local] Open Scope Z_scope.

(** The calls.  [CBegin]: BeginIO of the request [r], filled as [q].
    [COther]: something else installs vectors and enables interrupts. *)
Inductive call :=
  | COpen (r unit_number : Z)
  | CClose (r : Z)
  | CBegin (r : Z) (q : ioreq)
  | CAbort (r : Z)
  | CExpunge
  | CWait
  | COther (rbf tbe : vector) (rbf_enabled tbe_enabled : bool).
Definition begun (k : call) : list Z := match k with CBegin r _ => [r] | _ => [] end.

Section System.
Context {W : Type}.
Variable c : chip W.
Variable rx_fuel : nat.
Implicit Types s : dev W.

#[local] Abbreviation live := (live c).
#[local] Abbreviation ready := (ready c).
#[local] Abbreviation opened := (opened c).
#[local] Abbreviation back := (back c).

Definition hand_over (r : Z) (q : ioreq) (x : exec_t) : exec_t :=
  x |> on_request r (fun _ => q) |> set_outstanding ({[r]} ∪ outstanding x).
Definition set_machine (rbf tbe : vector) (er et : bool) (x : exec_t) : exec_t :=
  x |> set_int_rbf rbf |> set_int_tbe tbe |> set_intena_rbf er |> set_intena_tbe et.
Definition perform (k : call) : M (dev W) unit :=
  match k with
  | COpen r unit_number => device_open c rx_fuel r unit_number;; mret tt
  | CClose r => device_close c rx_fuel r;; mret tt
  | CBegin r q => execed (hand_over r q);; device_begin_io c rx_fuel r
  | CAbort r => device_abort_io c rx_fuel r
  | CExpunge => device_expunge c rx_fuel;; mret tt
  | CWait => preempt c rx_fuel
  | COther rbf tbe er et => execed (set_machine rbf tbe er et)
  end.

(** What exec and the clients keep to: no request is given twice or used for
    a call while the device has it, only an open device is closed, others
    leave the vectors of an open device alone, and nobody calls it once its
    memory is gone. *)
Definition allowed (k : call) s : Prop :=
  freed (exec s) = false /\
  match k with
  | COpen r _ => r ∉ outstanding (exec s)
  | CClose r => r ∉ outstanding (exec s) /\ lib_OpenCnt (base s) <> 0
  | CBegin r q => r ∉ outstanding (exec s) /\ sound q
  | CAbort _ | CExpunge | CWait => True
  | COther rbf tbe _ _ => lib_OpenCnt (base s) = 0 /\ rbf <> OURS /\ tbe <> OURS
  end.

(** The machine when the device is added: nothing of it is installed. *)
Definition boot (w : W) (rbf tbe : vector) (er et : bool) : dev W :=
  mkDev w (mkExec rbf tbe er et false false false false false ∅ ∅ [] [] false) device_init.
Inductive history s0 : list call -> dev W -> Prop :=
  | history_start : history s0 [] s0
  | history_call ks s k s' : history s0 ks s -> allowed k s -> perform k s = Some (tt, s') -> history s0 (ks ++ [k]) s'.

(** ** What holds at rest *)

Definition resting (g : list Z) s : Prop :=
  shut g s \/ exists e, given e = g /\ opened e s.
Lemma boot_resting w rbf tbe er et : rbf <> OURS -> tbe <> OURS -> resting [] (boot w rbf tbe er et).
Proof.
  intros V1 V2. left. split; [|done]. split; try done.
  unfold accounted. cbn. by rewrite elements_empty.
Qed.

Definition with_given (g : list Z) (e : past) : past :=
  mkPast (was_rbf e) (was_tbe e) (was_rbf_enabled e) (was_tbe_enabled e) g.
Lemma accounted_more r q x : accounted (given q) x -> r ∉ outstanding x ->
  given q ++ [r] ≡ₚ map answered_request (answers x) ++ elements ({[r]} ∪ outstanding x).
Proof.
  unfold accounted. intros H Hn. rewrite elements_union_singleton by done. rewrite H.
  rewrite <- app_assoc. f_equiv. by rewrite Permutation_app_comm.
Qed.

Section Run.
Variable hang : Prop.
Variable depth : W -> nat.
Context (Hsteady : hang \/ Steady c rx_fuel depth).

Lemma hand_over_ready e r q s : ready e ∅ s -> r ∉ outstanding (exec s) ->
  ready (with_given (given e ++ [r]) e) {[r]} (on_exec (hand_over r q) s).
Proof.
  intros (L & Q & A) Hn. split; [|done]. assert (L' : live e ∅ TX_STARTED (on_exec (on_request r (fun _ => q)) s)) by (by eapply live_fill_fresh).
  pose proof Hn as Hn'. rewrite (li_out _ _ _ _ L) in Hn'.
  destruct L' as [Hm Hr Hc Hrd Hw Ho Hg Hdue]. split; try done.
  - by destruct Hc.
  - unfold read_slot in *. cbn [base exec on_exec] in *. destruct (pending_read (base s)) as [p|]; [|done].
    assert (r <> p) by (cbn in Hn'; set_solver). destruct Hrd. split; try done. set_solver.
  - unfold write_slot in *. cbn [base exec on_exec] in *. destruct (pending_write (base s)) as [p|]; [|done].
    assert (r <> p) by (cbn in Hn'; set_solver). destruct Hw. split; try done. set_solver.
  - cbn in *. rewrite Ho. set_solver.
  - exact (accounted_more r e (exec s) (li_account _ _ _ _ L) Hn).
Qed.
Lemma begin_shut g r q s : shut g s -> r ∉ outstanding (exec s) ->
  wp hang (device_begin_io c rx_fuel r) (fun _ s' => shut (g ++ [r]) s' /\ freed (exec s') = freed (exec s)) (on_exec (hand_over r q) s).
Proof.
  intros [Ho Hc] Hn. unfold device_begin_io. do 4 dev_step. cbn [base on_exec].
  pose proof (of_held _ _ _ _ Ho) as Hh. injection Hh as _ _ -> ->. cbn [negb orb].
  assert (O1 : off false (g ++ [r]) (∅ ∪ {[r]}) (on_exec (hand_over r q) s)).
  { destruct Ho as [Hm Hh Hv Hi Hp Hq Hou Hg Hb]. split; try done.
    - cbn. rewrite Hou. set_solver.
    - exact (accounted_more r (past_of (exec s) g) (exec s) Hg Hn). }
  unfold finish. do 5 dev_step. set (a := if quick _ then _ else _).
  destruct (answer_off c rx_fuel hang depth Hsteady false (g ++ [r]) ∅ r IOERR_OPENFAIL a _ ltac:(unfold a; by destruct (quick _)) O1 ltac:(set_solver)) as (O2 & S2 & _ & B2).
  split.
  - split; [done|]. by rewrite B2.
  - exact (f_equal (fun p => p.1.2) S2).
Qed.

Lemma back_opened e g s s0 s' : opened e s -> kept s s0 -> back (with_given g e) s0 s' ->
  opened (with_given g e) s' /\ freed (exec s') = freed (exec s).
Proof.
  intros (R & Hc & V) K0 [R' K]. injection K as K1 _ K2 _. injection K0 as K3 _ K4 _.
  split; [|congruence]. split; [done|]. split; [congruence|done].
Qed.
(** A call made while the device is open, but for the close. *)
Lemma opened_step e k s : opened e s -> allowed k s -> (forall r, k <> CClose r) ->
  wp hang (perform k) (fun _ s' => opened (with_given (given e ++ begun k) e) s' /\ freed (exec s') = freed (exec s)) s.
Proof.
  intros Ho [Hf Ha] Hk. assert (R := proj1 Ho).
  assert (E0 : with_given (given e ++ []) e = e) by (rewrite app_nil_r; by destruct e).
  destruct k as [r u|r|r q|r| | |rbf tbe er et]; cbn [perform begun]; rewrite ?E0.
  - eapply wp_use; [by eapply open_opened|cbv beta]. intros ok s1 (_ & O1 & K1). dev_step. split; [done|]. by injection K1.
  - by destruct (Hk r).
  - destruct Ha as [Hn Hs]. do 2 dev_step. cbv beta. assert (R1 := hand_over_ready e r q s R Hn).
    eapply wp_mono; [|eapply begin_io_spec; [done|exact R1|]].
    + cbv beta. intros _ s' B. by eapply (back_opened e _ s).
    + replace (request_of r _) with q; [done|]. symmetry. exact (request_same r (fun _ => q) (exec s)).
  - eapply wp_mono; [|by eapply abort_io_spec]. cbv beta. intros _ s' [B _]. rewrite <- E0. apply (back_opened e _ s s); [done|done|].
    by rewrite E0.
  - eapply wp_use; [by eapply expunge_opened|cbv beta]. intros ok s1 (_ & O1 & _ & F1). by dev_step.
  - eapply wp_mono; [|eapply preempt_ready; [done|apply R|apply R]]. cbv beta. intros _ s' [R' M']. rewrite <- E0.
    apply (back_opened e _ s s); [done|done|]. rewrite E0. split; [done|apply M'].
  - destruct Ha as [Ha _]. by rewrite (proj1 (proj2 Ho)) in Ha.
Qed.
Lemma shut_step g k s : shut g s -> allowed k s -> wp hang (perform k) (fun _ s' => resting (g ++ begun k) s') s.
Proof.
  intros Ho [Hf Ha]. assert (Hw : forall w, shut g (set_world w s)) by (intros w; by destruct Ho as [[] ?]).
  destruct k as [r u|r|r q|r| | |rbf tbe er et]; cbn [perform begun]; rewrite ?app_nil_r.
  - eapply wp_use; [by eapply open_shut|cbv beta]. intros [] s1 [_ H1]; dev_step; [right|left; apply H1].
    eexists. split; [|apply H1]. done.
  - destruct Ha as [_ Ha]. by destruct Ho.
  - destruct Ha as [Hn _]. do 2 dev_step. cbv beta. eapply wp_mono; [|by eapply begin_shut]. cbv beta. intros _ s' [H _]. by left.
  - unfold device_abort_io. do 2 dev_step. pose proof (of_pending _ _ _ _ (proj1 Ho)) as Hp. injection Hp as P1 P2.
    rewrite P1, P2. rewrite decide_False by done. rewrite bool_decide_false by done. cbn [negb].
    eapply wp_mono; [|eapply preempt_off; [done|apply Ho]]. cbv beta. intros _ s' [w ->]. by left.
  - eapply wp_use; [by eapply expunge_shut|cbv beta]. intros ok s1 (_ & H1 & _). dev_step. by left.
  - eapply wp_mono; [|eapply preempt_off; [done|apply Ho]]. cbv beta. intros _ s' [w ->]. by left.
  - destruct Ha as (_ & V1 & V2). dev_step. left. destruct Ho as [[] ?]. split; [|done]. by split.
Qed.
Lemma perform_resting g k s : resting g s -> allowed k s -> wp hang (perform k) (fun _ s' => resting (g ++ begun k) s') s.
Proof.
  intros [Hs|(e & <- & Ho)] Ha; [by apply shut_step|].
  destruct (match k with CClose r => Some r | _ => None end) as [r|] eqn:Ek.
  - destruct k; try done. injection Ek as ->. destruct Ha as [Hf [Hn _]]. cbn [perform begun]. rewrite app_nil_r.
    eapply wp_use; [by eapply close_opened|cbv beta]. intros ok s1 (H1 & _). dev_step. by left.
  - eapply wp_mono; [|apply opened_step; [done|done|intros r E; by rewrite E in Ek]]. cbv beta. intros _ s' [H1 _]. right. eexists. split; [|exact H1]. done.
Qed.
End Run.

Lemma history_resting s0 g ks s : history s0 ks s -> resting g s0 -> resting (g ++ flat_map begun ks) s.
Proof.
  intros H H0. induction H as [|ks s k s' Hh IH Ha Hp]; [by rewrite app_nil_r|].
  rewrite flat_map_app. cbn [flat_map]. rewrite app_nil_r, app_assoc.
  exact (wp_run True (perform k) _ s tt s' (perform_resting True (fun _ => 0%nat) (or_introl I) _ k s IH Ha) Hp).
Qed.
(** Calls made while the device is open. *)
Lemma history_opened e s0 ks s : history s0 ks s -> opened e s0 -> Forall (fun k => forall r, k <> CClose r) ks ->
  opened (with_given (given e ++ flat_map begun ks) e) s.
Proof.
  intros H H0. induction H as [|ks s k s' Hh IH Ha Hp]; intros Hk; [by rewrite app_nil_r; destruct e|].
  apply Forall_app in Hk as [Hk Hk1]. apply Forall_cons in Hk1 as [Hk1 _]. specialize (IH Hk).
  rewrite flat_map_app. cbn [flat_map]. rewrite app_nil_r, app_assoc.
  by destruct (wp_run True (perform k) _ s tt s' (opened_step True (fun _ => 0%nat) (or_introl I) _ k s IH Ha Hk1) Hp).
Qed.

Section Properties.
Variables (w : W) (rbf tbe : vector) (er et : bool).
Context (Hrbf : rbf <> OURS) (Htbe : tbe <> OURS).

(** C28: C<n>: After any calls, every request that the device was given is answered
    exactly once or is the one pending read or the one pending write; nothing
    was answered twice and no resource freed that was not held; and a closed
    device has answered everything and holds neither the resources nor the
    vectors. *)
Theorem serial_requests_accounted ks s : history (boot w rbf tbe er et) ks s ->
  misuse (exec s) = false /\
  flat_map begun ks ≡ₚ map answered_request (answers (exec s)) ++ elements (outstanding (exec s)) /\
  outstanding (exec s) = opt_set (pending_read (base s)) ∪ opt_set (pending_write (base s)) /\
  (lib_OpenCnt (base s) = 0 -> outstanding (exec s) = ∅ /\ port_held (exec s) = false /\ bits_held (exec s) = false /\
     int_rbf (exec s) <> OURS /\ int_tbe (exec s) <> OURS).
Proof.
  intros H. destruct (history_resting _ [] _ _ H (boot_resting w rbf tbe er et Hrbf Htbe)) as [[Ho Hc]|(e & He & (L & Q & A) & Hc & V)].
  - destruct Ho as [Hm Hh Hv Hi Hp Hq Hou Hg Hb]. injection Hh as -> -> _ _. injection Hp as -> ->.
    split_and!; try done; by rewrite Hou.
  - split_and!; [apply L| |by rewrite (li_out _ _ _ _ L), union_empty_l_L|intros E; by rewrite E in Hc].
    change (flat_map begun ks) with ([] ++ flat_map begun ks). rewrite <- He. apply L.
Qed.

(** C30: C<n>: While the device is at rest nothing waits for an interrupt that
    does not come.  Its receive interrupt is enabled and served, and a pending
    read has fewer bytes waiting than it asked for.  A pending write has the
    transmit interrupt enabled and served, and it is on its way: since it was
    last acknowledged, it has been requested or a word has been given to the
    transmitter, so that with any transmitter that requests the interrupt when
    it has shifted a word out, and keeps a request until it is acknowledged,
    the interrupt is requested now or a word is being shifted. *)
Theorem serial_no_lost_wakeup ks s : history (boot w rbf tbe er et) ks s -> lib_OpenCnt (base s) <> 0 ->
  (intena_rbf (exec s), int_rbf (exec s)) = (true, OURS) /\
  (forall r, pending_read (base s) = Some r ->
     waiting (base s) < io_Length (request_of r (exec s)) /\ pending_need (rbf_data (base s)) = io_Length (request_of r (exec s))) /\
  (forall r, pending_write (base s) = Some r ->
     (intena_tbe (exec s), int_tbe (exec s)) = (true, OURS) /\ due c (world s) /\
     forall shifting, Transmitter c shifting -> tbe_requested c (world s) = true \/ shifting (world s) = true).
Proof.
  intros H Hc. destruct (history_resting _ [] _ _ H (boot_resting w rbf tbe er et Hrbf Htbe)) as [[_ Ho]|(e & He & (L & [Q1 Q2] & A1 & A2 & A3) & _)]; [done|].
  destruct (cl_vectors _ _ _ (li_claim _ _ _ _ L)) as [-> ->]. rewrite A2. split; [done|].
  pose proof (li_read _ _ _ _ L) as Hr. pose proof (li_write _ _ _ _ L) as Hw. unfold read_slot, write_slot in *. split; intros r E.
  - rewrite E in *. destruct Hr as [H1 H2 H3 H4 H5 H6]. rewrite Q1 in H4. symmetry in H4. apply bool_decide_eq_false in H4. rewrite H5. split; [lia|done].
  - pose proof (li_due _ _ _ _ L eq_refl (ex_intro _ r E) Q2) as Hd. rewrite E in Hw. destruct Hw as [H1 H2 H3 H4 H5 H6 H7 H8].
    rewrite H6, Q2. split; [done|]. split; [done|]. intros shifting Ht. by apply due_comes.
Qed.

(** C31: C<n>: Whatever is done with the device between its open and its close,
    the close leaves the interrupt vectors and the two bits of INTENA as the
    open found them, has answered every request and freed both resources. *)
Theorem serial_close_restores ks s r u s1 ks' s2 r' s3 : history (boot w rbf tbe er et) ks s -> lib_OpenCnt (base s) = 0 ->
  allowed (COpen r u) s -> perform (COpen r u) s = Some (tt, s1) -> lib_OpenCnt (base s1) <> 0 ->
  history s1 ks' s2 -> Forall (fun k => forall r, k <> CClose r) ks' ->
  allowed (CClose r') s2 -> perform (CClose r') s2 = Some (tt, s3) ->
  past_of (exec s3) [] = past_of (exec s) [] /\ outstanding (exec s3) = ∅ /\
  port_held (exec s3) = false /\ bits_held (exec s3) = false /\ lib_OpenCnt (base s3) = 0.
Proof.
  intros H Hc Ha Hp Hc1 H1 Hk [Hf2 [Hn2 _]] Hp2.
  destruct (history_resting _ [] _ _ H (boot_resting w rbf tbe er et Hrbf Htbe)) as [Hs|(e & _ & _ & Ho & _)]; [|by rewrite Ho in Hc].
  set (g := [] ++ flat_map begun ks) in *.
  assert (O1 : opened (past_of (exec s) g) s1).
  { assert (T : wp True (perform (COpen r u)) (fun _ s' => lib_OpenCnt (base s') = 0 \/ opened (past_of (exec s) g) s') s).
    { cbn [perform]. eapply wp_use; [by eapply (open_shut c rx_fuel True (fun _ => 0%nat) (or_introl I))|cbv beta].
      intros [] s' [_ H']; dev_step; [by right; destruct H'|left; apply H']. }
    by destruct (wp_run True _ _ s tt s1 T Hp). }
  pose proof (history_opened _ _ _ _ H1 O1 Hk) as O2.
  assert (T : wp True (perform (CClose r')) (fun _ s' => shut (g ++ flat_map begun ks') s' /\ past_of (exec s') [] = past_of (exec s) []) s2).
  { cbn [perform]. eapply wp_use; [by eapply (close_opened c rx_fuel True (fun _ => 0%nat) (or_introl I))|cbv beta].
    intros ok s' (Sh & P & _). dev_step. split; [done|]. unfold past_of in *. cbn in P. by injection P as -> -> -> ->. }
  destruct (wp_run True _ _ s2 tt s3 T Hp2) as [[[Hm Hh Hv Hi Hpd Hq Hou Hg Hb] Hc3] P]. by injection Hh as -> -> _ _.
Qed.
End Properties.

(** C32: C<n>: If the receiver's words come in bursts that end, every call of the
    device returns, from any point of any history: no loop of the device and
    none of its interrupt servers runs on. *)
Theorem serial_calls_return depth w rbf tbe er et ks s k : Steady c rx_fuel depth -> rbf <> OURS -> tbe <> OURS ->
  history (boot w rbf tbe er et) ks s -> allowed k s -> exists s', perform k s = Some (tt, s').
Proof.
  intros Hst V1 V2 H Ha. pose proof (history_resting _ [] _ _ H (boot_resting w rbf tbe er et V1 V2)) as Hr.
  destruct (wp_total _ _ _ (perform_resting False depth (or_intror Hst) _ k s Hr Ha)) as ([] & s' & E & _). by exists s'.
Qed.
End System.
