(* ===== verification/SerialDeviceTransfers.v ===== *)
(** * fujinet-serial.device: what requests get

    The bytes that pending requests move while interrupts come in, the receive
    loops against the ring's own ingest, and the requests that are refused at
    once. *)

From stdpp Require Import gmap.
From S2P Require Import Prelude Effects ExecIO PaulaUart SerialDevice SerialDeviceProps SerialDeviceOpen.
From S2P Require Import SerialDeviceCommands SerialDeviceClose SerialDeviceSystem.

#[local] Open Scope Z_scope.

Section Transfers.
Context {W : Type}.
Variable c : chip W.
Variable rx_fuel : nat.
Implicit Types s : dev W.

#[local] Abbreviation live := (live c).
#[local] Abbreviation turn := (turn c).

(** ** Receive loops *)

(** The words that the chip gives, one by one, while it requests RBF. *)
Fixpoint burst (fuel : nat) (w : W) : option (W * list Z) :=
  match fuel with
  | O => None
  | S fuel =>
      if rbf_requested c w then
        let '(w, v) := serdatr c w in
        match burst fuel (ack_rbf c w) with
        | Some (w, vs) => Some (w, v :: vs)
        | None => None
        end
      else Some (w, [])
  end.
(** The ring's own ingest of the words, as words that were requested. *)
Definition ingest_all (vs : list Z) (q : fujinet_paula_rx_t) : fujinet_paula_rx_t :=
  fold_left (fun q v => fujinet_paula_rx_ingest (Z.lor v FUJINET_PAULA_SERDATR_RBF) q) vs q.
Lemma receive_words_ingest bump vs : forall r, rx (receive_words bump vs r) = ingest_all vs (rx r).
Proof.
  induction vs as [|v vs IH]; intros r; [done|]. change (receive_words bump (v :: vs) r) with (receive_words bump vs (receive_word bump v r)).
  rewrite IH, receive_word_ingest. done.
Qed.
Lemma receive_words_need bump vs : forall r, pending_need (receive_words bump vs r) = pending_need r.
Proof.
  induction vs as [|v vs IH]; intros r; [done|]. change (receive_words bump (v :: vs) r) with (receive_words bump vs (receive_word bump v r)).
  by rewrite IH, receive_word_need.
Qed.
Definition received (bump : Z -> Z) (o : option (W * list Z)) s : option (unit * dev W) :=
  match o with
  | Some (w, vs) => Some (tt, mkDev w (exec s) (set_rbf_data (receive_words bump vs (rbf_data (base s))) (base s)))
  | None => None
  end.
Lemma drain_loop_turn fuel s : drain_loop c (S fuel) s =
  if rbf_requested c (world s) then
    let '(w, v) := serdatr c (world s) in
    drain_loop c fuel (mkDev (ack_rbf c w) (exec s) (on_rbf (receive_word saturate v) (base s)))
  else Some (tt, s).
Proof.
  cbn [drain_loop]. unfold requested, gets, mbind, M_bind at 1. destruct (rbf_requested c (world s)); [|done].
  unfold mbind, M_bind, read_serdatr. by destruct (serdatr c (world s)) as [w v].
Qed.
Lemma rbf_loop_turn fuel s : rbf_loop c (S fuel) s =
  let '(w, v) := serdatr c (world s) in
  let s := mkDev (ack_rbf c w) (exec s) (on_rbf (receive_word wrap v) (base s)) in
  if rbf_requested c (world s) then rbf_loop c fuel s else Some (tt, s).
Proof.
  cbn [rbf_loop]. unfold mbind, M_bind, read_serdatr. destruct (serdatr c (world s)) as [w v]. cbn.
  by destruct (rbf_requested c (ack_rbf c w)).
Qed.
Lemma received_turn bump v o s w : received bump o (mkDev w (exec s) (on_rbf (receive_word bump v) (base s))) =
  received bump (match o with Some (w, vs) => Some (w, v :: vs) | None => None end) s.
Proof. destruct o as [[w' vs]|]; [|done]. cbn. by destruct s as [? ? []]. Qed.
Lemma drain_is_burst fuel : forall s, drain_loop c fuel s = received saturate (burst fuel (world s)) s.
Proof.
  induction fuel as [|fuel IH]; intros s; [done|]. rewrite drain_loop_turn. cbn [burst].
  destruct (rbf_requested c (world s)); [|by destruct s as [? ? []]].
  destruct (serdatr c (world s)) as [w v]. rewrite IH. cbn [world]. apply received_turn.
Qed.
(** The server's loop looks at the request after a word; it is entered with
    one. *)
Lemma rbf_loop_is_burst fuel : forall s w vs, rbf_requested c (world s) = true -> burst fuel (world s) = Some (w, vs) ->
  rbf_loop c fuel s = received wrap (Some (w, vs)) s.
Proof.
  induction fuel as [|fuel IH]; intros s w vs Er Eb; [done|]. rewrite rbf_loop_turn. cbn [burst] in Eb. rewrite Er in Eb.
  destruct (serdatr c (world s)) as [w1 v]. destruct (burst fuel (ack_rbf c w1)) as [[w2 vs2]|] eqn:Eb2; [|done].
  injection Eb as <- <-. cbv zeta. cbn [world]. rewrite <- (received_turn wrap v (Some (w2, vs2)) s (ack_rbf c w1)).
  destruct (rbf_requested c (ack_rbf c w1)) eqn:Er2; [by apply IH|].
  destruct fuel as [|fuel]; [done|]. cbn [burst] in Eb2. rewrite Er2 in Eb2. injection Eb2 as <- <-. by destruct s as [? ? []].
Qed.

(** C<n>: Both receive loops feed the ring exactly as the ring's own ingest
    does: the task's drain in C and the interrupt server in assembly read the
    same words from the chip and leave the same ring, whatever the words and
    however full the ring is; the server causes the soft interrupt if and only
    if a read is pending whose bytes are then there. *)
Theorem receive_loops_ingest s w vs : burst rx_fuel (world s) = Some (w, vs) -> rbf_requested c (world s) = true ->
  exists s1 s2, drain_rbf_locked c rx_fuel s = Some (tt, s1) /\ fujinet_serial_rbf_server c rx_fuel s = Some (tt, s2) /\
    ring_of (base s1) = ingest_all vs (ring_of (base s)) /\ ring_of (base s2) = ingest_all vs (ring_of (base s)) /\
    (world s1, world s2) = (w, w) /\ soft_caused (exec s1) = soft_caused (exec s) /\
    soft_caused (exec s2) = soft_caused (exec s) || (negb (need_of (base s) =? 0) && (waiting (base s2) >=? need_of (base s))).
Proof.
  intros Eb Er. unfold drain_rbf_locked. rewrite drain_is_burst, Eb. unfold fujinet_serial_rbf_server.
  unfold mbind at 1, M_bind at 1. rewrite (rbf_loop_is_burst rx_fuel s w vs Er Eb). cbn [received].
  set (d := receive_words wrap vs (rbf_data (base s))).
  assert (En : pending_need d = need_of (base s)) by apply receive_words_need.
  unfold mbind, M_bind, gets, when. cbn [rbf_data base set_rbf_data]. change (rbf_data (set_rbf_data d (base s))) with d. rewrite En.
  change (fujinet_paula_rx_count (rx d)) with (waiting (set_rbf_data d (base s))). set (b2 := set_rbf_data d (base s)).
  eexists (mkDev w (exec s) (set_rbf_data (receive_words saturate vs (rbf_data (base s))) (base s))),
    (mkDev w (if negb (need_of (base s) =? 0) && (waiting b2 >=? need_of (base s)) then set_soft_caused true (exec s) else exec s) b2).
  split_and!; try apply receive_words_ingest; try done.
  - by destruct (_ && _).
  - cbn [exec base]. by destruct (_ && _); [rewrite orb_true_r|rewrite orb_false_r].
Qed.

(** ** What pending requests get *)

(** A read that is no longer pending: the oldest bytes of what the ring held
    and of the words that were read from the receiver since, whose bytes
    [hear_all] appends one by one as long as the ring has room. *)
Record read_done (r : Z) s s' : Prop := {
  rd_answer : Replied r 0 ∈ answers (exec s');
  rd_data : exists d words, io_Data (request_of r (exec s)) = Some d /\
    heard c (world s) words (world s') /\
    io_Length (request_of r (exec s)) <= Z.of_nat (length (hear_all words (contents 11 (ring_of (base s))))) /\
    io_Data (request_of r (exec s')) =
      Some (overwrite d 0 (take (Z.to_nat (io_Length (request_of r (exec s)))) (hear_all words (contents 11 (ring_of (base s))))));
  rd_actual : io_Actual (request_of r (exec s')) = io_Length (request_of r (exec s));
  rd_error : io_Error (request_of r (exec s')) = 0
}.
(** A write that is no longer pending: its bytes are the last words sent. *)
Record write_done (r : Z) s s' : Prop := {
  wd_answer : Replied r 0 ∈ answers (exec s');
  wd_sent : exists data pre post, io_Data (request_of r (exec s)) = Some data /\
    sent (exec s') = pre ++ map serdat_word (take (Z.to_nat (io_Length (request_of r (exec s)))) data) ++ post;
  wd_actual : io_Actual (request_of r (exec s')) = io_Length (request_of r (exec s));
  wd_error : io_Error (request_of r (exec s')) = 0
}.

Lemma answered_since r s s' : rtc turn s s' -> Replied r 0 ∈ answers (exec s) -> Replied r 0 ∈ answers (exec s').
Proof. intros Ht Hin. destruct (turn_answers _ _ _ Ht) as [l ->]. apply elem_of_app. by left. Qed.
Lemma read_done_line r a b s' : line c (world a, ring_of (base a)) (world b, ring_of (base b)) ->
  ring_ok 11 (ring_of (base a)) -> request_of r (exec b) = request_of r (exec a) -> read_done r b s' -> read_done r a s'.
Proof.
  intros Hl Hr Eq [I1 (x & ws2 & I2 & I3 & I4 & I5) I6 I7]. destruct (Hl Hr) as (_ & ws & H1 & H2). cbn in H1, H2.
  rewrite Eq, ?H2, <- ?hear_all_app in *. split; try done. exists x, (ws ++ ws2). split_and!; try done. by eapply heard_app.
Qed.
Lemma read_completes_turns r s s' : rtc turn s s' -> ring_ok 11 (ring_of (base s)) ->
  pending_read (base s) = Some r -> pending_write (base s) <> Some r -> pending_read (base s') = None -> read_done r s s'.
Proof.
  intros Ht. induction Ht as [|a b d H Ht IH]; [congruence|]. intros Hr Hp Hn He.
  pose proof (turn_stays _ _ _ (rtc_l _ _ _ _ H Ht)) as St.
  destruct H as [S|p R1 R2 R3 _ O A D|p W1 W2 W3 _ O A _ G].
  - pose proof (sa_line _ _ S) as G. destruct S as [_ E _ E2 _ _]. injection E as E3 E4 _ _.
    apply (read_done_line r a b d G Hr); [unfold request_of; congruence|]. apply IH; [|congruence..|done]. by apply G.
  - assert (p = r) as -> by congruence. destruct D as [(x & D1 & D2 & D3) _ D4 D5 D6].
    assert (Eq : request_of r (exec d) = request_of r (exec b)) by (apply (turn_request c); congruence).
    assert (Hlen : io_Length (request_of r (exec a)) <= Z.of_nat (length (contents 11 (ring_of (base a))))).
    { unfold waiting in D4. by rewrite (rx_count_spec 11 _ Hr) in D4. }
    split; rewrite ?Eq; try done.
    + apply (answered_since _ _ _ Ht). rewrite A. apply elem_of_app. right. set_solver.
    + destruct (sy_world _ _ St) as [ws Hws]. exists x, ws. rewrite take_hear_all by lia. split_and!; try done.
      destruct (hear_all_prefix ws (contents 11 (ring_of (base a)))) as [new ->]. rewrite length_app. lia.
  - apply (read_done_line r a b d G Hr); [apply O; congruence|]. apply IH; [|congruence..|done]. by apply G.
Qed.
Lemma write_completes_turns e cur tx r s s' : live e cur tx s -> rtc turn s s' ->
  pending_write (base s) = Some r -> pending_read (base s) <> Some r -> pending_write (base s') = None -> write_done r s s'.
Proof.
  intros _ Ht. induction Ht as [|a b d H Ht IH]; [congruence|]. intros Hp Hn He.
  destruct H as [S|p R1 R2 R3 _ O A D|p W1 W2 W3 _ O A D G].
  - destruct S as [_ E _ E2 _ _]. injection E as E3 E4 _ _. injection E2 as Q _ _.
    assert (Eq : request_of r (exec b) = request_of r (exec a)) by (unfold request_of; by rewrite Q).
    destruct IH as [I1 I2 I3 I4]; [congruence|congruence|done|]. rewrite Eq in *. by split.
  - assert (r <> p) by congruence. destruct IH as [I1 I2 I3 I4]; [congruence|congruence|done|]. rewrite (O r) in * by done. by split.
  - assert (p = r) as -> by congruence. destruct D as [(x & pre & D1 & D2) D3 D4].
    assert (Eq : request_of r (exec d) = request_of r (exec b)) by (apply (turn_request c); congruence).
    split; rewrite ?Eq; try done.
    + apply (answered_since _ _ _ Ht). rewrite A. apply elem_of_app. right. set_solver.
    + destruct (sy_sent _ _ (turn_stays _ _ _ Ht)) as [post ->]. exists x, pre, post. split; [done|]. by rewrite D2, <- app_assoc.
Qed.

(** C29: C<n>: While a task lets interrupts in, a pending read either still lacks
    bytes or has been answered without error with as many bytes as it asked
    for, the oldest of those the ring held and those of the words read from the
    receiver since, in order, low byte by low byte, while the ring has room;
    and a pending write either still has its transmit interrupt or has been
    answered with its length after exactly its bytes went to the transmitter in
    order. *)
Theorem pending_requests_complete w rbf tbe er et ks s s' : rbf <> OURS -> tbe <> OURS ->
  history c rx_fuel (boot w rbf tbe er et) ks s -> freed (exec s) = false -> perform c rx_fuel CWait s = Some (tt, s') ->
  (forall r, pending_read (base s) = Some r ->
     pending_read (base s') = Some r /\ waiting (base s') < io_Length (request_of r (exec s')) \/
     pending_read (base s') = None /\ read_done r s s') /\
  (forall r, pending_write (base s) = Some r ->
     pending_write (base s') = Some r /\ (intena_tbe (exec s'), int_tbe (exec s')) = (true, OURS) \/
     pending_write (base s') = None /\ write_done r s s').
Proof.
  intros V1 V2 H Hf Hp.
  destruct (history_resting c rx_fuel _ [] _ _ H (boot_resting c w rbf tbe er et V1 V2)) as [[Ho _]|(e & _ & (L & Q & A) & _)].
  { pose proof (of_pending _ _ _ _ Ho) as E. injection E as -> ->. done. }
  destruct (wp_run True _ _ s tt s' (preempt_turns c rx_fuel True (fun _ => 0%nat) (or_introl I) e ∅ TX_STARTED s L) Hp) as (L' & [Q1 Q2] & T & _).
  destruct (turn_pending _ _ _ T) as [P1 P2]. pose proof (li_write _ _ _ _ L) as Hw. unfold write_slot in Hw. split; intros r E.
  - assert (pending_write (base s) <> Some r).
    { intros E2. rewrite E2 in Hw. by destruct Hw. }
    destruct (pending_read (base s')) as [r'|] eqn:E'; [left|right; split; [done|]; apply (read_completes_turns r s s' T); try done; apply L].
    destruct P1 as [P1|P1]; [|done]. rewrite E in P1. split; [done|]. injection P1 as ->.
    pose proof (li_read _ _ _ _ L') as Hr'. unfold read_slot in Hr'. rewrite E' in Hr'. destruct Hr' as [H1 H2 H3 H4 H5 H6].
    rewrite Q1 in H4. symmetry in H4. apply bool_decide_eq_false in H4. lia.
  - destruct (pending_write (base s')) as [r'|] eqn:E'; [left|right; split; [done|]].
    + destruct P2 as [P2|P2]; [|done]. rewrite E in P2. split; [done|].
      pose proof (li_write _ _ _ _ L') as Hw'. unfold write_slot in Hw'. rewrite E' in Hw'. destruct Hw' as [H1 H2 H3 H4 H5 H6 H7 H8].
      rewrite H6, Q2. by rewrite (proj2 (cl_vectors _ _ _ (li_claim _ _ _ _ L'))).
    + apply (write_completes_turns e ∅ TX_STARTED r s s' L T); try done. rewrite E in Hw. by destruct Hw.
Qed.

(** ** Requests that are refused at once *)

Definition refusal (b : base_t) (q : ioreq) : option Z :=
  if negb (port_claimed (claim b)) || negb (bits_claimed (claim b)) then Some IOERR_OPENFAIL
  else if io_Command q =? CMD_READ then
    if negb (io_Length q =? 0) && bool_decide (io_Data q = None) then Some IOERR_BADADDRESS
    else if io_Length q >? 2047 then Some SerErr_InvParam else None
  else if io_Command q =? CMD_WRITE then
    if negb (io_Length q =? 0) && bool_decide (io_Data q = None) then Some IOERR_BADADDRESS else None
  else if io_Command q =? SDCMD_SETPARAMS then
    if bool_decide (is_Some (pending_read b)) || bool_decide (is_Some (pending_write b)) then Some SerErr_InvParam
    else if negb (bool_decide (FUJINET_SERIAL_BAUD_MIN <= io_Baud q <= FUJINET_SERIAL_BAUD_MAX)) then Some SerErr_BaudMismatch
    else if negb (bool_decide (io_ReadLen q = 8 /\ io_WriteLen q = 8 /\ io_StopBits q = 1)) ||
            negb (Z.land (io_SerFlags q) SERF_PARTY_ON =? 0) then Some SerErr_InvParam else None
  else if (io_Command q =? SDCMD_QUERY) || (io_Command q =? CMD_CLEAR) || (io_Command q =? CMD_FLUSH) || (io_Command q =? CMD_RESET)
  then None else Some IOERR_NOCMD.

(** Answered with [err], and nothing else. *)
Definition refused (r : Z) (q : ioreq) (err : Z) s s' : Prop :=
  (world s', base s') = (world s, base s) /\
  answers (exec s') = answers (exec s) ++ [if quick q then Returned r err else Replied r err] /\
  io_Error (request_of r (exec s')) = err.
Lemma finish_refuses r q err s s1 : (world s1, base s1) = (world s, base s) -> answers (exec s1) = answers (exec s) ->
  quick (request_of r (exec s1)) = quick q -> r ∈ outstanding (exec s1) ->
  wp False (finish r err) (fun _ => refused r q err s) s1.
Proof.
  intros E1 E2 E3 Hin. unfold finish. do 5 dev_step.
  assert (Eq : request_of r (exec (on_exec (on_request r (set_io_Error err)) s1)) = set_io_Error err (request_of r (exec s1)))
    by apply request_same.
  rewrite Eq. change (quick (set_io_Error err (request_of r (exec s1)))) with (quick (request_of r (exec s1))). rewrite E3.
  destruct s1 as [w1 x1 b1]. cbn in *. injection E1 as -> ->. unfold refused, give_back, on_exec. cbn. rewrite decide_True by done.
  split; [done|]. split; [by cbn; rewrite E2|]. exact (f_equal io_Error Eq).
Qed.
Lemma fill_refuses r q err s s1 : (world s1, base s1) = (world s, base s) -> answers (exec s1) = answers (exec s) ->
  quick (request_of r (exec s1)) = quick q -> r ∈ outstanding (exec s1) ->
  wp False (fill r (set_io_Actual 0);; finish r err) (fun _ => refused r q err s) s1.
Proof.
  intros E1 E2 E3 Hin. do 2 dev_step. apply finish_refuses; try done.
  assert (Eq : request_of r (exec (on_exec (on_request r (set_io_Actual 0)) s1)) = set_io_Actual 0 (request_of r (exec s1)))
    by apply request_same. by rewrite Eq.
Qed.
(** Within [cmd_setparams]. *)
Lemma setparams_refuses r q err s s1 e : (world s1, base s1) = (world s, base s) -> answers (exec s1) = answers (exec s) ->
  request_of r (exec s1) = q -> r ∈ outstanding (exec s1) -> live e {[r]} TX_STARTED s1 -> io_Command q = SDCMD_SETPARAMS ->
  refusal (base s1) q = Some err -> wp False (cmd_setparams c rx_fuel r) (fun _ => refused r q err s) s1.
Proof.
  intros E1 E2 E3 Hin L Ec Hr. pose proof (li_claim _ _ _ _ L) as C. unfold refusal in Hr. rewrite Ec in Hr.
  rewrite (proj2 (cl_port _ _ _ C)), (proj2 (cl_bits _ _ _ C)) in Hr. cbn [negb orb Z.eqb] in Hr.
  unfold cmd_setparams. do 4 dev_step. rewrite E3.
  assert (Ep : bool_decide (is_Some (pending_read (base s1))) = bool_decide (read_state (base s1) = READ_PENDING)).
  { apply bool_decide_ext. pose proof (li_read _ _ _ _ L) as R. unfold read_slot in R. destruct (pending_read (base s1)).
    - destruct R. split; [done|by eexists].
    - destruct R as [R _]. split; [by intros [? ?]|done]. }
  assert (Ew : bool_decide (is_Some (pending_write (base s1))) = bool_decide (write_state (base s1) = WRITE_PENDING)).
  { apply bool_decide_ext. pose proof (li_write _ _ _ _ L) as R. unfold write_slot in R. destruct (pending_write (base s1)).
    - destruct R. split; [done|by eexists].
    - destruct R as [R _]. split; [by intros [? ?]|done]. }
  change (SDCMD_SETPARAMS =? CMD_READ) with false in Hr. change (SDCMD_SETPARAMS =? CMD_WRITE) with false in Hr.
  rewrite Ep, Ew in Hr. destruct (_ || _); [injection Hr as <-; by apply finish_refuses; rewrite ?E3|].
  replace ((io_Baud q <? FUJINET_SERIAL_BAUD_MIN) || (io_Baud q >? FUJINET_SERIAL_BAUD_MAX))
    with (negb (bool_decide (FUJINET_SERIAL_BAUD_MIN <= io_Baud q <= FUJINET_SERIAL_BAUD_MAX))).
  2:{ destruct (decide (FUJINET_SERIAL_BAUD_MIN <= io_Baud q <= FUJINET_SERIAL_BAUD_MAX)) as [Hd|Hd];
        [rewrite (bool_decide_true _ Hd)|rewrite (bool_decide_false _ Hd)]; cbn [negb]; lia. }
  destruct (negb (bool_decide _)) eqn:Eb; [injection Hr as <-; by apply finish_refuses; rewrite ?E3|].
  assert (Ev : fujinet_serial_params_valid (io_Baud q) (io_ReadLen q) (io_WriteLen q) (io_StopBits q)
      (negb (Z.land (io_SerFlags q) SERF_PARTY_ON =? 0)) = false).
  { unfold fujinet_serial_params_valid. destruct (_ || (io_Baud q >? _)); [done|].
    destruct (Z.land (io_SerFlags q) SERF_PARTY_ON =? 0); [|by case_test].
    change (negb true) with false in *. rewrite orb_false_r in Hr. destruct (bool_decide (_ /\ _)) eqn:Hv in Hr; [done|]. apply bool_decide_eq_false in Hv.
    replace (negb (io_ReadLen q =? 8) || negb (io_WriteLen q =? 8) || negb (io_StopBits q =? 1)) with true; [done|].
    symmetry. destruct (Z.eqb_spec (io_ReadLen q) 8), (Z.eqb_spec (io_WriteLen q) 8), (Z.eqb_spec (io_StopBits q) 1); try done. by destruct Hv. }
  rewrite Ev. cbn [negb]. destruct (_ || _) in Hr; [|done]. injection Hr as <-. by apply finish_refuses; rewrite ?E3.
Qed.

(** C<n>: A request that cannot be done is answered at once with its error
    and nothing else happens, in any history: on a closed device, a read or
    write without a buffer, a read longer than the ring, parameters while a
    request is pending, a baud rate outside the range, a format other than
    8N1, an unknown command. *)
Theorem requests_refused w rbf tbe er et ks s r q err : rbf <> OURS -> tbe <> OURS ->
  history c rx_fuel (boot w rbf tbe er et) ks s -> allowed (CBegin r q) s -> refusal (base s) q = Some err ->
  exists s', perform c rx_fuel (CBegin r q) s = Some (tt, s') /\ refused r q err s s'.
Proof.
  intros V1 V2 H Ha Hr. destruct Ha as [_ [Hn _]].
  set (s1 := on_exec (hand_over r q) s).
  assert (Q1 : request_of r (exec s1) = q) by exact (request_same r (fun _ => q) (exec s)).
  assert (Hin : r ∈ outstanding (exec s1)) by (apply elem_of_union_l, elem_of_singleton; done).
  assert (Hf : forall e, wp False (finish r e) (fun _ => refused r q e s) s1) by (intros e; apply finish_refuses; by rewrite ?Q1).
  assert (Hff : forall e, wp False (fill r (set_io_Actual 0);; finish r e) (fun _ => refused r q e s) s1)
    by (intros e; apply fill_refuses; by rewrite ?Q1).
  assert (T : wp False (device_begin_io c rx_fuel r) (fun _ => refused r q err s) s1).
  2:{ destruct (wp_total _ _ _ T) as ([] & s' & E & R). by exists s'. }
  unfold device_begin_io. do 4 dev_step. rewrite Q1. change (base s1) with (base s). unfold refusal in Hr.
  destruct (history_resting c rx_fuel _ [] _ _ H (boot_resting c w rbf tbe er et V1 V2)) as [[Ho _]|(e & _ & R & _)].
  { pose proof (of_held _ _ _ _ Ho) as E. injection E as _ _ E1 E2. rewrite E1, E2 in *. cbn [negb orb] in *. injection Hr as <-. apply Hf. }
  pose proof (hand_over_ready c rx_fuel True (fun _ => 0%nat) (or_introl I) e r q s R Hn) as R1. fold s1 in R1.
  assert (Hr0 := Hr). pose proof (li_claim _ _ _ _ (proj1 R)) as C.
  rewrite (proj2 (cl_port _ _ _ C)), (proj2 (cl_bits _ _ _ C)) in *. rewrite (proj2 (proj2 (proj2 (proj2 R)))). cbn [negb orb] in *.
  assert (Hcl : closing (claim (base s1)) = false) by apply R.
  destruct (io_Command q =? CMD_READ).
  { unfold cmd_read. do 4 dev_step. rewrite Hcl, Q1. dev_step. apply rearm_spec; [apply R1|].
    destruct (_ && _); [injection Hr as <-; apply Hff|]. destruct (Z.gtb_spec (io_Length q) 2047); [|done]. injection Hr as <-.
    replace (io_Length q =? 0) with false by lia. do 2 dev_step. rewrite (ring_mask 11) by apply R1.
    replace ((if io_Length q >? 65535 then 65535 else io_Length q) >? 2 ^ 11 - 1) with true by (case_test; lia). apply Hff. }
  destruct (io_Command q =? CMD_WRITE).
  { unfold cmd_write. do 4 dev_step. rewrite Hcl, Q1. destruct (_ && _); [|done]. injection Hr as <-. apply Hff. }
  destruct (Z.eqb_spec (io_Command q) SDCMD_QUERY) as [E|_]; [by rewrite E in Hr|].
  destruct (Z.eqb_spec (io_Command q) SDCMD_SETPARAMS) as [E|_].
  { apply (setparams_refuses r q err s s1 (with_given (given e ++ [r]) e)); try done; [apply R1|].
    unfold refusal. change (base s1) with (base s). by rewrite (proj2 (cl_port _ _ _ C)), (proj2 (cl_bits _ _ _ C)), E. }
  destruct (io_Command q =? CMD_CLEAR); [done|]. destruct (_ || _); [done|]. injection Hr as <-. apply Hf.
Qed.
End Transfers.
