(* ===== verification/SerialDeviceExample.v ===== *)
(** * fujinet-serial.device on a concrete chip

    A Paula whose words come in short bursts, runs computed on it, and the
    device's theorems at these runs. *)

From stdpp Require Import gmap.
From S2P Require Import Prelude Effects ExecIO PaulaUart SerialDevice SerialDeviceProps SerialDeviceOpen.
From S2P Require Import SerialDeviceCommands SerialDeviceClose SerialDeviceSystem SerialDeviceTransfers.

#[local] Open Scope Z_scope.

(** Words at the receiver, bursts to come, the transmit request. *)
Record paula := mkPaula { words : list Z; coming : list (list Z); tbe : bool; serper : Z }.
Definition word_limit : nat := 8.
Definition demo_chip : chip paula := mkChip
  (fun w => (0 <? length (words w))%nat && (length (words w) <=? word_limit)%nat)
  (fun w => (w, match words w with v :: _ => v | [] => 12288 end))
  (fun w => mkPaula (drop 1 (words w)) (coming w) (tbe w) (serper w))
  tbe
  (fun w => mkPaula (words w) (coming w) true (serper w))
  (fun w => mkPaula (words w) (coming w) false (serper w))
  (fun w _ => mkPaula (words w) (coming w) true (serper w))
  (fun w v => mkPaula (words w) (coming w) (tbe w) v)
  (fun w => match coming w with
            | b :: bs => (mkPaula (words w ++ b) bs (tbe w) (serper w), [IRQ_RBF; IRQ_TBE])
            | [] => (w, [])
            end)
  50
  (fun w => (w, true)) (fun w _ => (w, true)) (fun w _ => w).
Definition demo_fuel : nat := 9.
Definition demo_depth (w : paula) : nat := if (length (words w) <=? word_limit)%nat then length (words w) else 0%nat.
Lemma demo_steady : Steady demo_chip demo_fuel demo_depth.
Proof.
  unfold demo_depth, demo_fuel, word_limit. split; intros w.
  - destruct (Nat.leb_spec (length (words w)) 8); lia.
  - cbn. destruct (words w) as [|v vs]; [done|]. cbn. rewrite drop_0. intros H.
    destruct (Nat.leb_spec (length vs) 7); [|done]. destruct (Nat.leb_spec (length vs) 8); lia.
Qed.

(** The demo's transmitter takes a word at once. *)
Lemma demo_transmitter : Transmitter demo_chip (fun _ => false).
Proof. split; unfold comes; cbn; auto. intros w H. by destruct (coming w). Qed.

(** ** Runs *)

Definition soundb (q : ioreq) : bool :=
  bool_decide (0 <= io_Length q < 4294967296) &&
  match io_Data q with Some d => io_Length q <=? Z.of_nat (length d) | None => true end.
Definition allowedb {W} (k : call) (s : dev W) : bool :=
  negb (freed (exec s)) &&
  match k with
  | COpen r _ => bool_decide (r ∉ outstanding (exec s))
  | CClose r => bool_decide (r ∉ outstanding (exec s)) && negb (lib_OpenCnt (base s) =? 0)
  | CBegin r q => bool_decide (r ∉ outstanding (exec s)) && soundb q
  | CAbort _ | CExpunge | CWait => true
  | COther rbf tbe _ _ => (lib_OpenCnt (base s) =? 0) && negb (bool_decide (rbf = OURS)) && negb (bool_decide (tbe = OURS))
  end.
Lemma allowedb_ok {W} k (s : dev W) : allowedb k s = true -> allowed k s.
Proof.
  unfold allowedb, allowed. intros [Hf H]%andb_prop. apply negb_true_iff in Hf. split; [done|].
  destruct k as [r u|r|r q|r| | |rbf tbe er et]; try done.
  - by apply bool_decide_eq_true in H.
  - apply andb_prop in H as [H1%bool_decide_eq_true H2]. split; [done|]. lia.
  - apply andb_prop in H as [H1%bool_decide_eq_true H2]. split; [done|]. unfold soundb in H2.
    apply andb_prop in H2 as [H2%bool_decide_eq_true H3]. split; [done|]. intros d Ed. rewrite Ed in H3. lia.
  - apply andb_prop in H as [[H1 H2]%andb_prop H3]. apply negb_true_iff in H2, H3.
    apply bool_decide_eq_false in H2, H3. split; [lia|done].
Qed.
Fixpoint run_calls {W} (c : chip W) (fuel : nat) (ks : list call) (s : dev W) : option (dev W) :=
  match ks with
  | [] => Some s
  | k :: ks =>
      if allowedb k s then
        match perform c fuel k s with
        | Some (_, s') => run_calls c fuel ks s'
        | None => None
        end
      else None
  end.
Lemma history_app {W} (c : chip W) fuel s0 ks : forall s ks0 s', history c fuel s0 ks0 s -> run_calls c fuel ks s = Some s' ->
  history c fuel s0 (ks0 ++ ks) s'.
Proof.
  induction ks as [|k ks IH]; intros s ks0 s' H E; cbn [run_calls] in E.
  - injection E as ->. by rewrite app_nil_r.
  - destruct (allowedb k s) eqn:Ea; [|done]. destruct (perform c fuel k s) as [[[] s1]|] eqn:Ep; [|done].
    replace (ks0 ++ k :: ks) with ((ks0 ++ [k]) ++ ks) by by rewrite <- app_assoc.
    apply (IH s1); [|done]. eapply history_call; [done|by apply allowedb_ok|done].
Qed.
Lemma history_run {W} (c : chip W) fuel ks s s' : run_calls c fuel ks s = Some s' -> history c fuel s ks s'.
Proof. intros E. apply (history_app c fuel s ks s [] s'); [apply history_start|done]. Qed.

(** ** A session *)

Definition read_request (n : Z) : ioreq :=
  mkReq CMD_READ 0 0 0 n (Some (zeros 8)) true 0 0 0 0 0 (0, 0) 0 0 0 0 0.
Definition write_request (d : list Z) : ioreq :=
  mkReq CMD_WRITE 0 0 0 (Z.of_nat (length d)) (Some d) true 0 0 0 0 0 (0, 0) 0 0 0 0 0.
Definition quiet_events (n : nat) : list (list Z) := replicate n [].
Definition boot_demo (later : list (list Z)) : dev paula := boot (mkPaula [] later false 0) (OTHER 7) NOBODY true false.
Definition after (ks : list call) (s : dev paula) : dev paula := default s (run_calls demo_chip demo_fuel ks s).

(** Two bytes arrive when a write of three has just gone out. *)
Definition session : list call :=
  [COpen 1 0; CBegin 10 (read_request 2); CBegin 11 (write_request [104; 105; 33]); CWait; CWait].
Definition session_start : dev paula := boot_demo (quiet_events 13 ++ [[16449; 16450]] ++ quiet_events 12).
Definition session_state : dev paula := after session session_start.
Definition session_rested : dev paula := after [CWait] session_state.
Lemma demo_vectors : OTHER 7 <> OURS /\ NOBODY <> OURS.
Proof. done. Qed.
Lemma session_history : history demo_chip demo_fuel session_start session session_state.
Proof. apply history_run. vm_compute. reflexivity. Qed.
Example session_pending :
  (pending_read (base session_state), pending_write (base session_state)) = (Some 10, Some 11) /\
  (pending_read (base session_rested), pending_write (base session_rested)) = (None, None) /\
  sent (exec session_rested) = [360; 361; 289] /\ answers (exec session_rested) = [Replied 10 0; Replied 11 0] /\
  io_Data (request_of 10 (exec session_rested)) = Some (65 :: 66 :: zeros 6).
Proof. vm_compute. repeat split. Qed.

Lemma serial_requests_accounted_witness :
  misuse (exec session_state) = false /\ flat_map begun session ≡ₚ map answered_request (answers (exec session_state)) ++ elements (outstanding (exec session_state)).
Proof.
  assert (H := session_history).
  destruct (serial_requests_accounted demo_chip demo_fuel (world session_start) (OTHER 7) NOBODY true false
    (proj1 demo_vectors) (proj2 demo_vectors) session session_state H) as (H1 & H2 & _).
  split; [exact H1|exact H2].
Defined.
Lemma serial_no_lost_wakeup_witness :
  pending_read (base session_state) = Some 10 /\ waiting (base session_state) < io_Length (request_of 10 (exec session_state)) /\
  (intena_tbe (exec session_state), int_tbe (exec session_state)) = (true, OURS) /\
  due demo_chip (world session_state) /\ (tbe_requested demo_chip (world session_state) = true \/ false = true).
Proof.
  assert (E1 : pending_read (base session_state) = Some 10) by (vm_compute; reflexivity).
  assert (E2 : pending_write (base session_state) = Some 11) by (vm_compute; reflexivity).
  assert (Hc : lib_OpenCnt (base session_state) <> 0) by (vm_compute; discriminate).
  destruct (serial_no_lost_wakeup demo_chip demo_fuel (world session_start) (OTHER 7) NOBODY true false
    (proj1 demo_vectors) (proj2 demo_vectors) session session_state session_history Hc) as (_ & H1 & H2).
  split; [exact E1|]. split; [exact (proj1 (H1 10 E1))|destruct (H2 11 E2) as (H3 & H4 & H5)].
  split; [exact H3|]. split; [exact H4|exact (H5 (fun _ => false) demo_transmitter)].
Defined.
Lemma pending_requests_complete_witness :
  read_done demo_chip 10 session_state session_rested /\ write_done 11 session_state session_rested.
Proof.
  assert (E1 : pending_read (base session_state) = Some 10) by (vm_compute; reflexivity).
  assert (E2 : pending_write (base session_state) = Some 11) by (vm_compute; reflexivity).
  assert (E3 : pending_read (base session_rested) <> Some 10) by (vm_compute; discriminate).
  assert (E4 : pending_write (base session_rested) <> Some 11) by (vm_compute; discriminate).
  assert (Hf : freed (exec session_state) = false) by (vm_compute; reflexivity).
  assert (Hp : perform demo_chip demo_fuel CWait session_state = Some (tt, session_rested)) by (vm_compute; reflexivity).
  destruct (pending_requests_complete demo_chip demo_fuel (world session_start) (OTHER 7) NOBODY true false session session_state
    session_rested (proj1 demo_vectors) (proj2 demo_vectors) session_history Hf Hp) as (H1 & H2).
  split.
  - destruct (H1 10 E1) as [[H _]|[_ H]]; [contradiction|exact H].
  - destruct (H2 11 E2) as [[H _]|[_ H]]; [contradiction|exact H].
Defined.

(** The session ended by a close: both requests are answered as aborted. *)
Definition opened_state : dev paula := after [COpen 1 0] session_start.
Definition closed_state : dev paula := after [CClose 1] session_state.
Lemma serial_close_restores_witness :
  past_of (exec closed_state) [] = mkPast (OTHER 7) NOBODY true false [] /\
  answers (exec closed_state) = [Replied 11 IOERR_ABORTED; Replied 10 IOERR_ABORTED].
Proof.
  assert (Hp : perform demo_chip demo_fuel (COpen 1 0) session_start = Some (tt, opened_state)) by (vm_compute; reflexivity).
  assert (H1 : history demo_chip demo_fuel opened_state (drop 1 session) session_state).
  { apply history_run. vm_compute. reflexivity. }
  assert (Hp2 : perform demo_chip demo_fuel (CClose 1) session_state = Some (tt, closed_state)) by (vm_compute; reflexivity).
  assert (Ha : allowed (COpen 1 0) session_start) by (apply allowedb_ok; vm_compute; reflexivity).
  assert (Ha2 : allowed (CClose 1) session_state) by (apply allowedb_ok; vm_compute; reflexivity).
  assert (Hc : lib_OpenCnt (base opened_state) <> 0) by (vm_compute; discriminate).
  assert (Hk : Forall (fun k => forall r, k <> CClose r) (drop 1 session)) by (repeat constructor; intros r H; discriminate H).
  split; [|vm_compute; reflexivity].
  exact (proj1 (serial_close_restores demo_chip demo_fuel (world session_start) (OTHER 7) NOBODY true false
    (proj1 demo_vectors) (proj2 demo_vectors) [] session_start 1 0 opened_state (drop 1 session) session_state 1 closed_state
    (history_start _ _ _) eq_refl Ha Hp Hc H1 Hk Ha2 Hp2)).
Defined.
Lemma serial_calls_return_witness :
  exists s', perform demo_chip demo_fuel (CBegin 12 (read_request 5)) session_state = Some (tt, s').
Proof.
  apply (serial_calls_return demo_chip demo_fuel demo_depth (world session_start) (OTHER 7) NOBODY true false session session_state).
  - exact demo_steady.
  - exact (proj1 demo_vectors).
  - exact (proj2 demo_vectors).
  - exact session_history.
  - apply allowedb_ok. vm_compute. reflexivity.
Defined.
Lemma requests_refused_witness :
  exists s', perform demo_chip demo_fuel (CBegin 12 (read_request 4000 |> set_io_Data None)) session_state = Some (tt, s') /\
    refused 12 (read_request 4000 |> set_io_Data None) IOERR_BADADDRESS session_state s'.
Proof.
  apply (requests_refused demo_chip demo_fuel (world session_start) (OTHER 7) NOBODY true false session session_state).
  - exact (proj1 demo_vectors).
  - exact (proj2 demo_vectors).
  - exact session_history.
  - apply allowedb_ok. vm_compute. reflexivity.
  - vm_compute. reflexivity.
Defined.

(** Three words wait, the second with an overrun, while one is asked for. *)
Definition burst_state : dev paula :=
  on_base (on_rbf (set_pending_need 1)) (boot (mkPaula [16449; 49218; 16451] [] false 0) OURS OURS true false).
Lemma receive_loops_ingest_witness :
  exists s2, fujinet_serial_rbf_server demo_chip demo_fuel burst_state = Some (tt, s2) /\
    ring_of (base s2) = ingest_all [16449; 49218; 16451] (ring_of (base burst_state)).
Proof.
  assert (Eb : burst demo_chip demo_fuel (world burst_state) = Some (mkPaula [] [] false 0, [16449; 49218; 16451])) by (vm_compute; reflexivity).
  assert (Er : rbf_requested demo_chip (world burst_state) = true) by (vm_compute; reflexivity).
  destruct (receive_loops_ingest demo_chip demo_fuel burst_state _ _ Eb Er) as (s1 & s2 & _ & H2 & _ & H4 & _).
  exists s2. split; [exact H2|exact H4].
Defined.
