(* ===== verification/NioDevice.v ===== *)
(** * nio.device (amiga/nio.device/fujinet_nio_device.c, the serial build)

    The exec device that serialises broker requests.  Clients submit, abort
    and close from their own tasks; one worker process takes requests off the
    queue, runs the backend and replies.  Every stretch of code the source
    brackets with Disable and Enable is one function, the worker's loop is
    composed from them, and a step relation interleaves clients, the worker
    and expunges in any order. *)

From S2P Require Import Prelude ExecIO FnLib SerialConfig NioBackend IoQueue.
From stdpp Require Import gmap.
#[local] Open Scope Z_scope.

Definition FUJINET_NIO_DEVICE_UNIT : Z := 0.
Definition FUJINET_NIO_CMD_EXCHANGE : Z := CMD_NONSTD + 0.
Definition FUJINET_NIO_CMD_SET_BAUD : Z := CMD_NONSTD + 1.
Definition FUJINET_NIO_CMD_GET_BAUD : Z := CMD_NONSTD + 2.
Definition FUJINET_NIO_CMD_SET_SERIAL : Z := CMD_NONSTD + 3.
Definition FUJINET_NIO_CMD_GET_SERIAL : Z := CMD_NONSTD + 4.

(** [struct FujiNetNIORequest]; [io_bound] stands for [io_Device] and
    [io_Unit], which are set and cleared together. *)
Record FujiNetNIORequest := mkReq {
  ln_Type : Z;
  io_bound : bool;
  io_Command : Z;
  io_Flags : Z;
  io_Error : Z;
  fn_struct_size : Z;
  fn_flags : Z;
  fn_request_data : option (list Z);
  fn_request_length : Z;
  fn_response_data : option (list Z);
  fn_response_capacity : Z;
  fn_response_length : Z;
  fn_nio_error : Z;
  fn_pad : list Z
}.

#[export] Instance eta_req : Eta FujiNetNIORequest := fun r =>
  mkReq (ln_Type r) (io_bound r) (io_Command r) (io_Flags r) (io_Error r) (fn_struct_size r)
    (fn_flags r) (fn_request_data r) (fn_request_length r) (fn_response_data r)
    (fn_response_capacity r) (fn_response_length r) (fn_nio_error r) (fn_pad r).

Definition set_ln_Type : Z -> FujiNetNIORequest -> FujiNetNIORequest := ltac:(derive_setter ln_Type).
Definition set_io_bound : bool -> FujiNetNIORequest -> FujiNetNIORequest := ltac:(derive_setter io_bound).
Definition set_io_Flags : Z -> FujiNetNIORequest -> FujiNetNIORequest := ltac:(derive_setter io_Flags).
Definition set_io_Error : Z -> FujiNetNIORequest -> FujiNetNIORequest := ltac:(derive_setter io_Error).
Definition set_fn_flags : Z -> FujiNetNIORequest -> FujiNetNIORequest := ltac:(derive_setter fn_flags).
Definition set_fn_response_data : option (list Z) -> FujiNetNIORequest -> FujiNetNIORequest :=
  ltac:(derive_setter fn_response_data).
Definition set_fn_response_length : Z -> FujiNetNIORequest -> FujiNetNIORequest :=
  ltac:(derive_setter fn_response_length).
Definition set_fn_nio_error : Z -> FujiNetNIORequest -> FujiNetNIORequest :=
  ltac:(derive_setter fn_nio_error).
Definition set_fn_pad : list Z -> FujiNetNIORequest -> FujiNetNIORequest := ltac:(derive_setter fn_pad).

Inductive worker_state_t := NIO_WORKER_IDLE | NIO_WORKER_IN_PROGRESS | NIO_WORKER_COMPLETING.
#[export] Instance worker_state_eq_dec : EqDecision worker_state_t.
Proof. solve_decision. Defined.

(** [struct fujinet_nio_device_base], with the memory it works on: the queue
    nodes, the requests, the backend; [replied] logs ReplyMsg in order, and
    [signalled] is the worker's pending signal. *)
Record device (B : Type) := mkDevice {
  lib_OpenCnt : Z;
  lib_Flags : Z;
  segment_list : Z;
  io_queue : fujinet_io_queue_t;
  in_progress : option Z;
  worker_state : worker_state_t;
  in_progress_aborted : bool;
  backend_is_open : bool;
  io_processing : bool;
  worker_signal : Z;
  worker_process : bool;
  worker_stop : bool;
  signalled : bool;
  nodes : gmap positive fujinet_io_queue_node_t;
  reqs : Z -> FujiNetNIORequest;
  backend : B;
  replied : list Z;
  freed : bool
}.
#[global] Arguments mkDevice {B}.
#[global] Arguments lib_OpenCnt {B}.
#[global] Arguments lib_Flags {B}.
#[global] Arguments segment_list {B}.
#[global] Arguments io_queue {B}.
#[global] Arguments in_progress {B}.
#[global] Arguments worker_state {B}.
#[global] Arguments in_progress_aborted {B}.
#[global] Arguments backend_is_open {B}.
#[global] Arguments io_processing {B}.
#[global] Arguments worker_signal {B}.
#[global] Arguments worker_process {B}.
#[global] Arguments worker_stop {B}.
#[global] Arguments signalled {B}.
#[global] Arguments nodes {B}.
#[global] Arguments reqs {B}.
#[global] Arguments backend {B}.
#[global] Arguments replied {B}.
#[global] Arguments freed {B}.

#[export] Instance eta_device {B} : Eta (device B) := fun d =>
  mkDevice (lib_OpenCnt d) (lib_Flags d) (segment_list d) (io_queue d) (in_progress d)
    (worker_state d) (in_progress_aborted d) (backend_is_open d) (io_processing d) (worker_signal d)
    (worker_process d) (worker_stop d) (signalled d) (nodes d) (reqs d) (backend d) (replied d) (freed d).

Definition set_lib_OpenCnt {B} : Z -> device B -> device B := ltac:(derive_setter (@lib_OpenCnt B)).
Definition set_lib_Flags {B} : Z -> device B -> device B := ltac:(derive_setter (@lib_Flags B)).
Definition set_io_queue {B} : fujinet_io_queue_t -> device B -> device B := ltac:(derive_setter (@io_queue B)).
Definition set_in_progress {B} : option Z -> device B -> device B := ltac:(derive_setter (@in_progress B)).
Definition set_worker_state {B} : worker_state_t -> device B -> device B := ltac:(derive_setter (@worker_state B)).
Definition set_in_progress_aborted {B} : bool -> device B -> device B := ltac:(derive_setter (@in_progress_aborted B)).
Definition set_backend_is_open {B} : bool -> device B -> device B := ltac:(derive_setter (@backend_is_open B)).
Definition set_io_processing {B} : bool -> device B -> device B := ltac:(derive_setter (@io_processing B)).
Definition set_worker_signal {B} : Z -> device B -> device B := ltac:(derive_setter (@worker_signal B)).
Definition set_worker_process {B} : bool -> device B -> device B := ltac:(derive_setter (@worker_process B)).
Definition set_worker_stop {B} : bool -> device B -> device B := ltac:(derive_setter (@worker_stop B)).
Definition set_signalled {B} : bool -> device B -> device B := ltac:(derive_setter (@signalled B)).
Definition set_nodes {B} : gmap positive fujinet_io_queue_node_t -> device B -> device B := ltac:(derive_setter (@nodes B)).
Definition set_reqs {B} : (Z -> FujiNetNIORequest) -> device B -> device B := ltac:(derive_setter (@reqs B)).
Definition set_backend {B} : B -> device B -> device B := ltac:(derive_setter (@backend B)).
Definition set_replied {B} : list Z -> device B -> device B := ltac:(derive_setter (@replied B)).
Definition set_freed {B} : bool -> device B -> device B := ltac:(derive_setter (@freed B)).

Section Device.
Context `{L : FnLib} {B : Type}.
Variable ops : backend_ops B.
(** [sizeof(struct FujiNetNIORequest)], which the ABI decides. *)
Variable FUJINET_NIO_REQUEST_SIZE : Z.
Implicit Types d : device B.

(** [req->...] and stores through it. *)
Definition put_req (r : Z) (q : FujiNetNIORequest) d : device B :=
  set_reqs (fun x => if decide (x = r) then q else reqs d x) d.
Definition on_req (r : Z) (f : FujiNetNIORequest -> FujiNetNIORequest) d : device B :=
  put_req r (f (reqs d r)) d.

(** exec's ReplyMsg; every caller passes a request of the device. *)
Definition ReplyMsg (r : Z) d : device B :=
  d |> on_req r (set_ln_Type NT_REPLYMSG) |> set_replied (replied d ++ [r]).

Definition pad_nonzero (q : FujiNetNIORequest) : bool :=
  negb (Z.lor (Z.lor (fn_pad q).[0] (fn_pad q).[1]) (fn_pad q).[2] =? 0).

Definition apply_abort_completion (q : FujiNetNIORequest) : FujiNetNIORequest :=
  q |> set_io_Error IOERR_ABORTED |> set_fn_nio_error FN_ERR_ABORTED |> set_fn_response_length 0.

Definition clear_quick (q : FujiNetNIORequest) : FujiNetNIORequest :=
  set_io_Flags (Z.land (io_Flags q) (255 - IOF_QUICK)) q.

Definition reject_begin_io (r : Z) (io_error : Z) d : device B :=
  d |> on_req r (fun q => q |> clear_quick |> set_io_Error io_error
                            |> set_fn_nio_error FN_ERR_INVALID |> set_fn_response_length 0)
    |> ReplyMsg r.

Definition close_backend d : device B :=
  if negb (backend_is_open d) then d
  else
  let d := match backend_close_fn ops with
           | Some close => set_backend (close (backend d)) d
           | None => d
           end in
  set_backend_is_open false d.

Definition ensure_backend_open d : Z * device B :=
  if backend_is_open d then (FN_OK, d)
  else match backend_open_fn ops with
       | None => (FN_ERR_IO, d)
       | Some open =>
           let '(b, result) := open (backend d) in
           let d := set_backend b d in
           (result, if result =? FN_OK then set_backend_is_open true d else d)
       end.

(** FreeMem of a queue node. *)
Definition FreeMem (p : positive) d : device B := set_nodes (delete p (nodes d)) d.

Definition store_queue (s : IoQueue.state) d : device B :=
  d |> set_io_queue s.1 |> set_nodes s.2.

Definition dequeue_next d : option Z * device B :=
  let '(node, s) := fujinet_io_queue_next [false] 1 0 0 (io_queue d, nodes d) in
  let d := store_queue s d in
  match node with
  | None => (None, d)
  | Some p => let req := request (deref (nodes d) p) in (Some req, FreeMem p d)
  end.

(** The locals of [process_exchange] and [process_control] when the backend
    is done. *)
Record outcome := mkOutcome {
  o_error : Z;
  o_stage : Z;
  o_detail : Z;
  o_native_io_error : Z;
  o_native_status : Z;
  o_response_len : Z
}.

(** [process_exchange] up to its Disable. *)
Definition exchange_body (r : Z) d : outcome * device B :=
  let '(nio_error, d) := ensure_backend_open d in
  if nio_error =? FN_OK then
    match backend_exchange_fn ops with
    | None => (mkOutcome FN_ERR_IO 2 FUJINET_NIO_DETAIL_BACKEND_OPEN 0 0 0, d)
    | Some exchange =>
        let q := reqs d r in
        let '(b, nio_error, response, response_len) :=
          exchange (backend d) (fn_request_data q) (fn_request_length q)
                   (fn_response_data q) (fn_response_capacity q) in
        let d := d |> set_backend b |> on_req r (set_fn_response_data response) in
        let '(detail, native_io_error, native_status) := backend_diagnostics ops (backend d) in
        let d := if (nio_error =? FN_ERR_TRANSPORT) || (nio_error =? FN_ERR_TIMEOUT)
                 then close_backend d else d in
        (mkOutcome nio_error 2 detail native_io_error native_status response_len, d)
    end
  else (mkOutcome nio_error 1 FUJINET_NIO_DETAIL_BACKEND_OPEN 0 0 0, d).

(** The fields it stores from there on when the request was not aborted. *)
Definition exchange_reply (o : outcome) (q : FujiNetNIORequest) : FujiNetNIORequest :=
  let '(nio_error, response_len) :=
    if (o_error o =? FN_OK) && (o_response_len o >? fn_response_capacity q)
    then (FN_ERR_IO, 0) else (o_error o, o_response_len o) in
  let status_hi := Z.shiftl (Z.shiftr (o_native_status o) 8) 8 in
  q |> set_io_Error 0
    |> set_fn_nio_error nio_error
    |> set_fn_pad [o_stage o; nio_error; o_detail o]
    |> set_fn_flags
         (if nio_error =? FN_OK then u16 (Z.lor (o_native_io_error o) status_hi)
          else u16 (Z.lor (if negb (o_native_io_error o =? 0) then o_native_io_error o
                           else u8 (Z.land (o_native_status o) 255)) status_hi))
    |> set_fn_response_length (if nio_error =? FN_OK then response_len else 0).

(** From the Disable of [process_exchange] and [process_control] to the
    reply; [reply] is the part that differs. *)
Definition complete (r : Z) (reply : FujiNetNIORequest -> FujiNetNIORequest) d : device B :=
  let d := set_worker_state NIO_WORKER_COMPLETING d in
  let d := if in_progress_aborted d then on_req r apply_abort_completion d else on_req r reply d in
  d |> set_in_progress None |> set_in_progress_aborted false |> set_worker_state NIO_WORKER_IDLE
    |> ReplyMsg r.

Definition process_exchange (r : Z) d : device B :=
  let '(o, d) := exchange_body r d in complete r (exchange_reply o) d.

(** [process_control] up to its Disable. *)
Definition control_body (r : Z) d : outcome * device B :=
  let result e d := (mkOutcome e 0 0 0 0 0, d) in
  let command := io_Command (reqs d r) in
  if command =? FUJINET_NIO_CMD_SET_BAUD then
    let d := close_backend d in
    match backend_set_baud_fn ops with
    | None => result FN_ERR_UNSUPPORTED d
    | Some set_baud =>
        let baud := fujinet_nio_get_le32 (default [] (fn_request_data (reqs d r))) 0 in
        let '(b, e) := set_baud (backend d) baud in
        result e (set_backend b d)
    end
  else if command =? FUJINET_NIO_CMD_GET_BAUD then
    match backend_get_baud_fn ops with
    | None => result FN_ERR_UNSUPPORTED d
    | Some get_baud =>
        let baud := get_baud (backend d) in
        result FN_OK
          (on_req r (fun q =>
             q |> set_fn_response_data
                    (option_map (fun b => fujinet_nio_put_le32 b 0 baud) (fn_response_data q))
               |> set_fn_response_length 4) d)
    end
  else if command =? FUJINET_NIO_CMD_SET_SERIAL then
    let d := close_backend d in
    match backend_set_serial_fn ops with
    | None => result FN_ERR_UNSUPPORTED d
    | Some set_serial =>
        let q := reqs d r in
        match fujinet_nio_serial_decode (fn_request_data q) (fn_request_length q)
                (zeros 31) (FUJINET_NIO_SERIAL_NAME_MAX + 1) with
        | (e, Some (unit, name)) =>
            if negb (e =? FN_OK) then result FN_ERR_INVALID d
            else let '(b, e) := set_serial (backend d) unit name in result e (set_backend b d)
        | (_, None) => result FN_ERR_INVALID d
        end
    end
  else if command =? FUJINET_NIO_CMD_GET_SERIAL then
    match backend_get_serial_fn ops with
    | None => result FN_ERR_UNSUPPORTED d
    | Some get_serial =>
        let '(unit, name) := get_serial (backend d) (FUJINET_NIO_SERIAL_NAME_MAX + 1) in
        let q := reqs d r in
        let '(e, response, len) :=
          fujinet_nio_serial_encode (fn_response_data q) (fn_response_capacity q)
            (fn_response_length q) unit (Some name) in
        result e (on_req r (fun q => q |> set_fn_response_data response
                                       |> set_fn_response_length len) d)
    end
  else result FN_ERR_INVALID d.

Definition control_reply (o : outcome) (q : FujiNetNIORequest) : FujiNetNIORequest :=
  let q := q |> set_io_Error 0 |> set_fn_nio_error (o_error o) in
  if negb (o_error o =? FN_OK)
     || (negb (io_Command q =? FUJINET_NIO_CMD_GET_BAUD)
         && negb (io_Command q =? FUJINET_NIO_CMD_GET_SERIAL))
  then set_fn_response_length 0 q else q.

Definition process_control (r : Z) d : device B :=
  let '(o, d) := control_body r d in complete r (control_reply o) d.

(** One turn of [worker_pump] up to its Enable: the request taken, if any. *)
Definition pump_take d : option Z * device B :=
  match dequeue_next d with
  | (None, d) => (None, set_io_processing false d)
  | (Some r, d) =>
      (Some r, d |> set_in_progress (Some r) |> set_in_progress_aborted false
                 |> set_worker_state NIO_WORKER_IN_PROGRESS)
  end.

Definition is_exchange (r : Z) d : bool := io_Command (reqs d r) =? FUJINET_NIO_CMD_EXCHANGE.

(** The loop; [None] is fuel running out. *)
Fixpoint worker_pump (fuel : nat) d : option (device B) :=
  match fuel with
  | O => None
  | S fuel' =>
      match pump_take d with
      | (None, d) => Some d
      | (Some r, d) =>
          worker_pump fuel' (if is_exchange r d then process_exchange r d else process_control r d)
      end
  end.

Definition device_open (r unit_number : Z) d : bool * device B :=
  if negb (unit_number =? FUJINET_NIO_DEVICE_UNIT)
  then (false, on_req r (fun q => q |> set_io_Error IOERR_OPENFAIL
                                    |> set_fn_nio_error FN_ERR_NOT_FOUND) d)
  else (true,
        d |> on_req r (fun q => q |> set_io_Error 0 |> set_io_bound true)
          |> set_lib_OpenCnt (u16 (lib_OpenCnt d + 1))
          |> set_lib_Flags (Z.land (lib_Flags d) (255 - LIBF_DELEXP))).

(** The checks of [device_begin_io] in order: the error of the first that
    fails. *)
Definition begin_io_check (q : FujiNetNIORequest) : option Z :=
  let c := io_Command q in
  if negb (c =? FUJINET_NIO_CMD_EXCHANGE) && negb (c =? FUJINET_NIO_CMD_SET_BAUD)
     && negb (c =? FUJINET_NIO_CMD_GET_BAUD) && negb (c =? FUJINET_NIO_CMD_SET_SERIAL)
     && negb (c =? FUJINET_NIO_CMD_GET_SERIAL) then Some IOERR_NOCMD
  else if negb (fn_struct_size q =? FUJINET_NIO_REQUEST_SIZE) then Some IOERR_BADLENGTH
  else if negb (fn_flags q =? 0) || pad_nonzero q then Some IOERR_NOCMD
  else if negb (bool_decide (is_Some (fn_request_data q))) && negb (fn_request_length q =? 0)
  then Some IOERR_BADADDRESS
  else if negb (bool_decide (is_Some (fn_response_data q))) && negb (fn_response_capacity q =? 0)
  then Some IOERR_BADADDRESS
  else if c =? FUJINET_NIO_CMD_EXCHANGE then
    if (fn_request_length q >? FN_MAX_PACKET_SIZE) || (fn_response_capacity q >? FN_MAX_PACKET_SIZE)
    then Some IOERR_BADLENGTH else None
  else if c =? FUJINET_NIO_CMD_SET_BAUD then
    if negb (bool_decide (is_Some (fn_request_data q))) || negb (fn_request_length q =? 4)
       || negb (fn_response_capacity q =? 0)
    then Some IOERR_BADLENGTH else None
  else if c =? FUJINET_NIO_CMD_GET_BAUD then
    if negb (fn_request_length q =? 0) || negb (bool_decide (is_Some (fn_response_data q)))
       || (fn_response_capacity q <? 4)
    then Some IOERR_BADLENGTH else None
  else if c =? FUJINET_NIO_CMD_SET_SERIAL then
    if negb (bool_decide (is_Some (fn_request_data q)))
       || (fn_request_length q <? FUJINET_NIO_SERIAL_PAYLOAD_MIN)
       || (fn_request_length q >? FUJINET_NIO_SERIAL_PAYLOAD_MAX)
       || negb (fn_response_capacity q =? 0)
    then Some IOERR_BADLENGTH else None
  else
    if negb (fn_request_length q =? 0) || negb (bool_decide (is_Some (fn_response_data q)))
       || (fn_response_capacity q <? FUJINET_NIO_SERIAL_PAYLOAD_MAX)
    then Some IOERR_BADLENGTH else None.

(** [device_begin_io] with a node for an accepted request. *)
Definition enqueue (r : Z) (p : positive) d : device B :=
  let d := on_req r (set_ln_Type NT_MESSAGE) d in
  let d := store_queue (fujinet_io_queue_append p r FUJINET_NIO_DEVICE_UNIT
                          (io_Command (reqs d r)) (io_queue d, nodes d)) d in
  let d := set_io_processing true d in
  if worker_process d && (worker_signal d >=? 0) then set_signalled true d else d.

(** [alloc] is the result of AllocMem. *)
Definition device_begin_io (r : Z) (alloc : option positive) d : device B :=
  match begin_io_check (reqs d r) with
  | Some io_error => reject_begin_io r io_error d
  | None =>
      let d := on_req r clear_quick d in
      match alloc with
      | None =>
          d |> on_req r (fun q => q |> set_io_Error IOERR_OPENFAIL |> set_fn_nio_error FN_ERR_IO
                                    |> set_fn_response_length 0)
            |> ReplyMsg r
      | Some p => enqueue r p d
      end
  end.

Definition device_abort_io (r : Z) d : device B :=
  let '(queued, s) := fujinet_io_queue_remove_request r (io_queue d, nodes d) in
  let d := store_queue s d in
  match queued with
  | Some p => d |> FreeMem p |> on_req r apply_abort_completion |> ReplyMsg r
  | None =>
      if bool_decide (in_progress d = Some r)
         && bool_decide (worker_state d = NIO_WORKER_IN_PROGRESS)
      then set_in_progress_aborted true d else d
  end.

(** [device_expunge] until it has to wait for the worker, or to its end:
    whether the device may go. *)
Definition expunge_test d : bool * device B :=
  if negb (lib_OpenCnt d =? 0) || bool_decide (is_Some (IoQueue.head (io_queue d)))
     || bool_decide (is_Some (in_progress d))
  then (false, set_lib_Flags (Z.lor (lib_Flags d) LIBF_DELEXP) d)
  else (true, set_lib_Flags (Z.land (lib_Flags d) (255 - LIBF_DELEXP)) d).

(** [stop_serial_worker] up to its first Delay. *)
Definition stop_request d : device B :=
  if worker_process d then d |> set_worker_stop true |> set_signalled true else d.

(** The rest, once the worker is gone or the wait is over. *)
Definition expunge_finish d : Z * device B :=
  if worker_process d then (0, set_lib_Flags (Z.lor (lib_Flags d) LIBF_DELEXP) d)
  else (segment_list d, d |> close_backend |> set_freed true).

(** [waiting] is what the other tasks do while the wait's Delay lets them. *)
Definition device_expunge (waiting : device B -> device B) d : Z * device B :=
  match expunge_test d with
  | (false, d) => (0, d)
  | (true, d) => expunge_finish (if worker_process d then waiting (stop_request d) else d)
  end.

(** [device_close] up to its last line: whether the expunge was delayed. *)
Definition close_request (r : Z) d : bool * device B :=
  let '(queued, s) := fujinet_io_queue_remove_request r (io_queue d, nodes d) in
  let d := store_queue s d in
  let d := match queued with
           | Some p => d |> FreeMem p |> on_req r apply_abort_completion
           | None => d
           end in
  let d := on_req r (set_io_bound false) d in
  let d := if negb (lib_OpenCnt d =? 0) then set_lib_OpenCnt (lib_OpenCnt d - 1) d else d in
  let delayed_expunge :=
    (lib_OpenCnt d =? 0) && negb (Z.land (lib_Flags d) LIBF_DELEXP =? 0) in
  (delayed_expunge, match queued with Some _ => ReplyMsg r d | None => d end).

Definition device_close (waiting : device B -> device B) (r : Z) d : Z * device B :=
  let '(delayed_expunge, d) := close_request r d in
  if delayed_expunge then device_expunge waiting d else (0, d).

(** [device_worker_entry] behind Wait: whether it goes on to the pump. *)
Definition worker_wake d : bool * device B :=
  let d := set_signalled false d in
  if worker_stop d
  then (false, d |> set_worker_signal (-1) |> set_worker_process false)
  else (true, d).

(** [device_init]: [created] is whether the process was created and [sig] the
    signal it allocated in time, or -1; the base is zeroed by exec. *)
Definition device_init (segments : Z) (dos_open created : bool) (sig : Z) d : option (device B) :=
  let d := d |> set_io_queue (mkQueue None None) in
  let d := mkDevice (lib_OpenCnt d) 6 segments (io_queue d) (in_progress d) (worker_state d)
             (in_progress_aborted d) (backend_is_open d) (io_processing d) (worker_signal d)
             (worker_process d) (worker_stop d) (signalled d) (nodes d) (reqs d) (backend d)
             (replied d) (freed d) in
  if negb dos_open then None
  else
  let d := d |> set_worker_signal (-1) |> set_worker_stop false |> set_worker_process created in
  if negb created then None
  else if sig <? 0 then None
  else Some (set_worker_signal sig d).
End Device.

(** ** The system: clients, the worker and expunges, interleaved *)

(** Where the worker is: in Wait, at the top of the pump, behind the Enable
    of a turn with a request, behind the backend call, or gone. *)
Inductive worker_at := WWait | WTop | WRun (r : Z) | WDone (r : Z) (o : outcome) | WExit.

(** [begun] logs the calls of BeginIO; [expunging] holds while an expunge
    waits for the worker. *)
Record system (B : Type) := mkSystem {
  dev : device B;
  worker : worker_at;
  expunging : bool;
  begun : list Z
}.
#[global] Arguments mkSystem {B}.
#[global] Arguments dev {B}.
#[global] Arguments worker {B}.
#[global] Arguments expunging {B}.
#[global] Arguments begun {B}.

Section System.
Context `{L : FnLib} {B : Type}.
Variable ops : backend_ops B.
Variable size : Z.
Implicit Types (d : device B) (s : system B).

(** Every submission of [r] has been answered: the request is the client's. *)
Definition answered (r : Z) s : Prop :=
  occurrences r (begun s) = occurrences r (replied (dev s)).

Definition with_dev d s : system B := mkSystem d (worker s) (expunging s) (begun s).

(** An expunge up to its first wait. *)
Definition start_expunge s : system B :=
  match expunge_test (dev s) with
  | (false, d) => with_dev d s
  | (true, d) =>
      if worker_process d then mkSystem (stop_request d) (worker s) true (begun s)
      else with_dev (expunge_finish ops d).2 s
  end.

Definition close_step (r : Z) s : system B :=
  let '(delayed, d) := close_request r (dev s) in
  if delayed then start_expunge (with_dev d s) else with_dev d s.

(** A client submits a request that is its own, and fills it in before;
    AllocMem gives memory that is not in use.  While an expunge waits for the
    worker, everything else goes on, closes and refused expunges included; a
    second expunge that is not refused either is left out, since whichever of
    the two ends last works on a base that the other has freed. *)
Inductive sys_step : system B -> system B -> Prop :=
  | step_prepare s r q :
      answered r s ->
      sys_step s (with_dev (put_req r q (dev s)) s)
  | step_begin s r alloc :
      answered r s -> freed (dev s) = false ->
      (forall p, alloc = Some p -> nodes (dev s) !! p = None) ->
      sys_step s (mkSystem (device_begin_io size r alloc (dev s)) (worker s) (expunging s)
                    (begun s ++ [r]))
  | step_abort s r :
      freed (dev s) = false -> sys_step s (with_dev (device_abort_io r (dev s)) s)
  | step_open s r u :
      answered r s -> freed (dev s) = false ->
      sys_step s (with_dev (device_open r u (dev s)).2 s)
  | step_close s r :
      freed (dev s) = false ->
      expunging s = false \/ (close_request r (dev s)).1 = false \/
        (expunge_test (close_request r (dev s)).2).1 = false ->
      sys_step s (close_step r s)
  | step_expunge s :
      freed (dev s) = false -> expunging s = false \/ (expunge_test (dev s)).1 = false ->
      sys_step s (start_expunge s)
  | step_expunge_end s :
      expunging s = true ->
      sys_step s (mkSystem (expunge_finish ops (dev s)).2 (worker s) false (begun s))
  | step_wake s :
      worker s = WWait -> signalled (dev s) = true ->
      sys_step s (mkSystem (worker_wake (dev s)).2
                    (if (worker_wake (dev s)).1 then WTop else WExit) (expunging s) (begun s))
  | step_take s :
      worker s = WTop ->
      sys_step s (mkSystem (pump_take (dev s)).2
                    (match (pump_take (dev s)).1 with Some r => WRun r | None => WWait end)
                    (expunging s) (begun s))
  | step_body s r :
      worker s = WRun r ->
      let b := if is_exchange r (dev s) then exchange_body ops r (dev s)
               else control_body ops r (dev s) in
      sys_step s (mkSystem b.2 (WDone r b.1) (expunging s) (begun s))
  | step_done s r o :
      worker s = WDone r o ->
      sys_step s (mkSystem
        (complete r (if is_exchange r (dev s) then exchange_reply o else control_reply o) (dev s))
        WTop (expunging s) (begun s)).

(** A device as [device_init] leaves it, its worker waiting. *)
Definition initial s : Prop :=
  exists segments sig memory requests b,
    device_init segments true true sig
      (mkDevice 0 0 0 (mkQueue None None) None NIO_WORKER_IDLE false false false 0 false false false
         memory requests b [] false) = Some (dev s) /\
    worker s = WWait /\ expunging s = false /\ begun s = [].

Inductive reachable : system B -> Prop :=
  | reachable_init s : initial s -> reachable s
  | reachable_step s s' : reachable s -> sys_step s s' -> reachable s'.

(** ** The invariant *)

Definition pending_of d (es : list entry) : list Z :=
  (e_request <$> es) ++ match in_progress d with Some r => [r] | None => [] end.

(** [es] is what is queued. *)
Record device_ok s (es : list entry) : Prop := {
  ok_queue : queue_of (io_queue (dev s), nodes (dev s)) es;
  ok_units : Forall (fun e => e_unit e = 0) es;
  ok_once : NoDup (pending_of (dev s) es);
  ok_account : begun s ≡ₚ replied (dev s) ++ pending_of (dev s) es;
  ok_checked : Forall (fun e => begin_io_check size (reqs (dev s) (e_request e)) = None) es;
  ok_worker :
    match worker s with
    | WRun r => in_progress (dev s) = Some r /\ worker_state (dev s) = NIO_WORKER_IN_PROGRESS /\
                begin_io_check size (reqs (dev s) r) = None
    | WDone r _ => in_progress (dev s) = Some r /\ worker_state (dev s) = NIO_WORKER_IN_PROGRESS
    | _ => in_progress (dev s) = None /\ worker_state (dev s) = NIO_WORKER_IDLE /\
           in_progress_aborted (dev s) = false
    end;
  ok_process : worker_process (dev s) = true <-> worker s <> WExit;
  ok_signal : worker s <> WExit -> 0 <= worker_signal (dev s);
  ok_awake : worker s = WWait -> es <> [] -> signalled (dev s) = true;
  ok_freed : freed (dev s) = true -> worker s = WExit;
  ok_stop : worker s = WExit \/ expunging s = true -> worker_stop (dev s) = true
}.

(** ** Preservation *)

Lemma reqs_put r q d x : reqs (put_req r q d) x = if decide (x = r) then q else reqs d x.
Proof. done. Qed.

(** What [begin_io_check] looks at. *)
Definition same_check (q q' : FujiNetNIORequest) : Prop :=
  begin_io_check size q' = begin_io_check size q.

Lemma check_clear_quick q : same_check q (clear_quick q).
Proof. done. Qed.

(** Updates of a request that is not pending keep the rest checked. *)
Lemma checked_put r q d es :
  r ∉ (e_request <$> es) ->
  Forall (fun e => begin_io_check size (reqs d (e_request e)) = None) es ->
  Forall (fun e => begin_io_check size (reqs (put_req r q d) (e_request e)) = None) es.
Proof.
  intros Hr H. apply Forall_forall. intros e He. rewrite reqs_put.
  destruct (decide (e_request e = r)) as [<-|].
  - exfalso. apply Hr, list_elem_of_fmap. by exists e.
  - by apply (proj1 (Forall_forall _ _) H).
Qed.

(** The contract: an answered request is not pending. *)
Lemma answered_not_pending s es r :
  device_ok s es -> answered r s -> r ∉ pending_of (dev s) es.
Proof.
  intros H Ha. apply occurrences_zero. unfold answered in Ha.
  rewrite (occurrences_perm _ _ _ (ok_account _ _ H)), occurrences_app in Ha. lia.
Qed.

(** ** The queue operations of the device *)

Lemma request_agrees r : agrees (fun node => IoQueue.request node =? r) (fun e => e_request e =? r).
Proof. intros nx pv e. done. Qed.

Lemma runnable_agrees : agrees (runnable [false] 1 0 0) (entry_runnable [false] 1 0 0).
Proof. intros nx pv e. done. Qed.

(** Taking a request out by its address. *)
Lemma remove_request_spec r d es :
  queue_of (io_queue d, nodes d) es ->
  match fujinet_io_queue_remove_request r (io_queue d, nodes d) with
  | (Some p, s) => exists a e b, es = a ++ e :: b /\ e_request e = r /\
                     queue_of (s.1, delete p s.2) (a ++ b)
  | (None, s) => s = (io_queue d, nodes d) /\ r ∉ (e_request <$> es)
  end.
Proof.
  intros Hq. unfold fujinet_io_queue_remove_request.
  destruct (take_first _ _) as [[p|] s] eqn:Et.
  - destruct (take_first_node _ _ _ _ _ _ (request_agrees r) Hq Et)
      as (a & e & b & -> & He & _ & -> & _ & Hq' & Hp).
    exists a, e, b. split; [done|]. split; [by apply Z.eqb_eq|]. destruct s. by apply queue_of_free.
  - destruct (take_first_none _ _ _ _ _ (request_agrees r) Hq Et) as [-> Hf]. split; [done|].
    intros (e & -> & He)%list_elem_of_fmap. apply (proj1 (Forall_forall _ _) Hf) in He.
    by rewrite Z.eqb_refl in He.
Qed.

(** The worker takes the oldest request. *)
Lemma pump_take_spec d es :
  queue_of (io_queue d, nodes d) es -> Forall (fun e => e_unit e = 0) es ->
  match es with
  | [] => pump_take d = (None, set_io_processing false d)
  | e :: es' => exists q h, queue_of (q, h) es' /\
      pump_take d = (Some (e_request e),
        d |> set_io_queue q |> set_nodes h |> set_in_progress (Some (e_request e))
          |> set_in_progress_aborted false |> set_worker_state NIO_WORKER_IN_PROGRESS)
  end.
Proof.
  intros Hq Hu. unfold pump_take, dequeue_next, fujinet_io_queue_next.
  destruct (take_first _ _) as [[p|] s] eqn:Et.
  - destruct (take_first_node _ _ _ _ _ _ runnable_agrees Hq Et)
      as (a & e & b & -> & He & Ha & -> & Hn & Hq' & Hp).
    destruct a as [|x a].
    + exists s.1, (delete (e_node e) s.2). split.
      * destruct s. by apply queue_of_free.
      * unfold deref, store_queue, FreeMem. simpl. rewrite Hn. done.
    + apply Forall_cons in Ha as [Hx _]. apply Forall_cons in Hu as [Hu _].
      unfold entry_runnable in Hx. by rewrite Hu in Hx.
  - destruct (take_first_none _ _ _ _ _ runnable_agrees Hq Et) as [-> Hf].
    destruct es as [|e es].
    + unfold store_queue. by destruct d.
    + apply Forall_cons in Hf as [Hx _]. apply Forall_cons in Hu as [Hu _].
      unfold entry_runnable in Hx. by rewrite Hu in Hx.
Qed.

Lemma head_empty d es :
  queue_of (io_queue d, nodes d) es ->
  bool_decide (is_Some (IoQueue.head (io_queue d))) = negb (bool_decide (es = [])).
Proof.
  intros Hq. pose proof (queue_head_nil _ _ Hq) as Hn. simpl in Hn.
  destruct (IoQueue.head (io_queue d)) as [p|].
  - rewrite bool_decide_eq_true_2 by done. rewrite bool_decide_eq_false_2; [done|].
    intros He. by apply Hn in He.
  - rewrite bool_decide_eq_false_2 by (by intros [? ?]). by rewrite bool_decide_eq_true_2 by (by apply Hn).
Qed.

(** ** Steps of the clients *)

(** All but the open count, the flags, the log and the request [r]. *)
Record frame (r : Z) d d' : Prop := {
  fr_queue : io_queue d' = io_queue d;
  fr_nodes : nodes d' = nodes d;
  fr_progress : in_progress d' = in_progress d;
  fr_state : worker_state d' = worker_state d;
  fr_aborted : in_progress_aborted d' = in_progress_aborted d;
  fr_process : worker_process d' = worker_process d;
  fr_signal : worker_signal d' = worker_signal d;
  fr_stop : worker_stop d' = worker_stop d;
  fr_signalled : signalled d' = signalled d;
  fr_freed : freed d' = freed d;
  fr_reqs : forall x, x <> r -> reqs d' x = reqs d x
}.

Lemma checked_frame r d d' es :
  frame r d d' -> r ∉ (e_request <$> es) ->
  Forall (fun e => begin_io_check size (reqs d (e_request e)) = None) es ->
  Forall (fun e => begin_io_check size (reqs d' (e_request e)) = None) es.
Proof.
  intros Hf Hr H. apply Forall_forall. intros e He. rewrite (fr_reqs _ _ _ Hf).
  - by apply (proj1 (Forall_forall _ _) H).
  - intros <-. apply Hr, list_elem_of_fmap. by exists e.
Qed.

(** A step on a request that is not pending. *)
Lemma frame_ok s es r d' l :
  device_ok s es -> r ∉ pending_of (dev s) es -> frame r (dev s) d' ->
  replied d' = replied (dev s) ++ l ->
  device_ok (mkSystem d' (worker s) (expunging s) (begun s ++ l)) es.
Proof.
  intros H Hp Hf Hl. unfold pending_of in Hp. rewrite not_elem_of_app in Hp.
  destruct Hp as [Hp Hi]. pose proof (checked_frame _ _ _ _ Hf Hp (ok_checked _ _ H)) as Hc.
  destruct H, Hf, s as [d w x b]. simpl in *.
  split; simpl; unfold pending_of; rewrite ?Hl, ?fr_queue0, ?fr_nodes0, ?fr_progress0, ?fr_state0,
    ?fr_aborted0, ?fr_process0, ?fr_signal0, ?fr_stop0, ?fr_signalled0, ?fr_freed0; try done.
  - rewrite ok_account0. unfold pending_of. solve_Permutation.
  - destruct w; try done. destruct ok_worker0 as (E & ? & ?). split; [done|]. split; [done|].
    rewrite fr_reqs0; [done|]. rewrite E in Hi. intros ->. apply Hi. left.
Qed.

Lemma frame_put r q d : frame r d (put_req r q d).
Proof. destruct d. split; try done. intros y Hy. simpl. by rewrite decide_False. Qed.
Lemma frame_on_req r f d : frame r d (on_req r f d).
Proof. apply frame_put. Qed.
Lemma frame_count r n d : frame r d (set_lib_OpenCnt n d).
Proof. destruct d. by split. Qed.
Lemma frame_flags r n d : frame r d (set_lib_Flags n d).
Proof. destruct d. by split. Qed.
Lemma frame_reply r d : frame r d (ReplyMsg r d).
Proof. destruct d. split; try done. intros y Hy. simpl. by rewrite decide_False. Qed.
Lemma frame_refl r d : frame r d d.
Proof. by split. Qed.
Lemma frame_trans r d1 d2 d3 : frame r d1 d2 -> frame r d2 d3 -> frame r d1 d3.
Proof.
  intros [] []. split; try congruence. intros x Hx. rewrite fr_reqs1, fr_reqs0; done.
Qed.

(** Apply the lemmas above from the outermost update inwards. *)
Ltac frame_auto :=
  first [apply frame_refl | apply frame_put | apply frame_on_req | apply frame_count
        |apply frame_flags | apply frame_reply
        |eapply frame_trans;
         [|first [apply frame_put | apply frame_on_req | apply frame_count
                 |apply frame_flags | apply frame_reply]]; frame_auto].

Lemma replied_reply r d : replied (ReplyMsg r d) = replied d ++ [r].
Proof. by destruct d. Qed.
Lemma replied_on_req r f d : replied (on_req r f d) = replied d.
Proof. by destruct d. Qed.

Lemma prepare_ok s es r q :
  device_ok s es -> answered r s -> device_ok (with_dev (put_req r q (dev s)) s) es.
Proof.
  intros H Ha. pose proof (frame_ok s es r (put_req r q (dev s)) [] H) as Hf.
  rewrite !app_nil_r in Hf. apply Hf; [by apply answered_not_pending|frame_auto|done].
Qed.

Lemma open_ok s es r u :
  device_ok s es -> answered r s -> device_ok (with_dev (device_open r u (dev s)).2 s) es.
Proof.
  intros H Ha. pose proof (frame_ok s es r (device_open r u (dev s)).2 [] H) as Hf.
  rewrite !app_nil_r in Hf. unfold device_open in *.
  destruct (negb (u =? _)); (apply Hf; [by apply answered_not_pending|frame_auto|done]).
Qed.

Lemma signal_if (b : bool) d : (if b then set_signalled true d else d) = set_signalled (b || signalled d) d.
Proof. by destruct b, d. Qed.

Lemma enqueue_ok s es r p :
  device_ok s es -> r ∉ pending_of (dev s) es -> begin_io_check size (reqs (dev s) r) = None ->
  nodes (dev s) !! p = None ->
  device_ok (mkSystem (enqueue r p (on_req r clear_quick (dev s))) (worker s) (expunging s) (begun s ++ [r]))
    (es ++ [mkEntry p r (io_Command (reqs (dev s) r)) 0]).
Proof.
  intros H Hp Hc Hn. unfold pending_of in Hp. rewrite not_elem_of_app in Hp. destruct Hp as [Hp Hi].
  pose proof (append_links _ _ _ r FUJINET_NIO_DEVICE_UNIT (io_Command (reqs (dev s) r))
                (ok_queue _ _ H) (queue_of_fresh _ _ _ _ (ok_queue _ _ H) Hn)) as Hq.
  destruct H, s as [d w x b]. cbn [dev worker expunging begun] in *.
  assert (Hcmd : io_Command (reqs (on_req r (set_ln_Type NT_MESSAGE) (on_req r clear_quick d)) r) =
                 io_Command (reqs d r)).
  { unfold on_req. rewrite !reqs_put. by repeat case_decide. }
  unfold enqueue. rewrite Hcmd, signal_if.
  change (io_queue (on_req _ _ _)) with (io_queue d). change (nodes (on_req _ _ _)) with (nodes d).
  destruct (fujinet_io_queue_append _ _ _ _ _) as [q h]. cbn [snd fst store_queue] in *.
  assert (Hchk : Forall (fun e => begin_io_check size
      (reqs (on_req r (set_ln_Type NT_MESSAGE) (on_req r clear_quick d)) (e_request e)) = None)
      (es ++ [mkEntry p r (io_Command (reqs d r)) 0])).
  { apply Forall_app. split.
    - eapply (checked_frame r d); [frame_auto|done|done].
    - apply Forall_singleton. unfold on_req. rewrite !reqs_put. by repeat case_decide. }
  split; try done.
  - apply Forall_app. split; [done|]. by apply Forall_singleton.
  - assert (Hnd : NoDup (pending_of d es ++ [r])).
    { apply NoDup_app. split; [done|]. split; [|apply NoDup_singleton].
      intros y Hy ->%list_elem_of_singleton. unfold pending_of in Hy.
      apply elem_of_app in Hy as [|]; done. }
    unfold pending_of in *. simpl. rewrite fmap_app. simpl.
    eapply NoDup_Permutation_proper; [|exact Hnd]. solve_Permutation.
  - unfold pending_of in *. simpl. rewrite ok_account0, fmap_app. simpl. solve_Permutation.
  - destruct w; try done. destruct ok_worker0 as (E & ? & ?). rewrite E in Hi.
    assert (r0 <> r) by (intros ->; apply Hi; left). simpl. rewrite !decide_False by done. done.
  - simpl. intros Hw _. subst w. rewrite (proj2 ok_process0) by done.
    destruct (Z.geb_spec (worker_signal d) 0); [done|]. specialize (ok_signal0 ltac:(done)). lia.
Qed.

Lemma begin_ok s es r alloc :
  device_ok s es -> answered r s -> freed (dev s) = false ->
  (forall p, alloc = Some p -> nodes (dev s) !! p = None) ->
  exists es', device_ok (mkSystem (device_begin_io size r alloc (dev s)) (worker s) (expunging s)
                          (begun s ++ [r])) es'.
Proof.
  intros H Ha _ Hal. pose proof (answered_not_pending _ _ _ H Ha) as Hp.
  unfold device_begin_io. destruct (begin_io_check size (reqs (dev s) r)) as [e|] eqn:Ec.
  { exists es. unfold reject_begin_io. eapply frame_ok; [done..|frame_auto|].
    by rewrite replied_reply, replied_on_req. }
  destruct alloc as [p|].
  - eexists. exact (enqueue_ok s es r p H Hp Ec (Hal p eq_refl)).
  - exists es. eapply frame_ok; [done..|frame_auto|]. by rewrite replied_reply, !replied_on_req.
Qed.

(** A queued request is taken out and answered. *)
Lemma removed_ok s a e b q h d' :
  device_ok s (a ++ e :: b) -> queue_of (q, h) (a ++ b) ->
  frame (e_request e) (dev s |> set_io_queue q |> set_nodes h) d' ->
  replied d' = replied (dev s) ++ [e_request e] ->
  device_ok (mkSystem d' (worker s) (expunging s) (begun s)) (a ++ b).
Proof.
  intros H Hq Hf Hl.
  assert (Hr : (e_request e ∉ (e_request <$> (a ++ b))) /\ in_progress (dev s) <> Some (e_request e)).
  { pose proof (ok_once _ _ H) as Hn. unfold pending_of in Hn.
    rewrite fmap_app, fmap_cons in Hn. rewrite fmap_app.
    apply NoDup_app in Hn as (Hn & Hd & _). split.
    - apply NoDup_app in Hn as (_ & Hab & Hb). apply NoDup_cons in Hb as [Hb _].
      rewrite elem_of_app. intros [Hin|Hin]; [|done]. apply (Hab _ Hin). left.
    - intros E. rewrite E in Hd. apply (Hd (e_request e)); [|left].
      apply elem_of_app. right. left. }
  destruct Hr as [Hr Hi]. destruct H.
  apply Forall_app in ok_units0 as [Hu1 Hu2]. apply Forall_app in ok_checked0 as [Hc1 Hc2].
  apply Forall_cons in Hu2 as [_ Hu2]. apply Forall_cons in Hc2 as [_ Hc2].
  pose proof (checked_frame _ _ _ _ Hf Hr (Forall_app_2 _ _ _ Hc1 Hc2)) as Hc.
  destruct Hf, s as [d w x bg]. simpl in *.
  split; simpl; unfold pending_of in *; rewrite ?Hl, ?fr_queue0, ?fr_nodes0, ?fr_progress0, ?fr_state0,
    ?fr_aborted0, ?fr_process0, ?fr_signal0, ?fr_stop0, ?fr_signalled0, ?fr_freed0; try done.
  - by apply Forall_app.
  - rewrite fmap_app, fmap_cons in ok_once0. rewrite fmap_app.
    assert (Hn : NoDup (e_request e :: ((e_request <$> a) ++ (e_request <$> b)) ++
      match in_progress d with Some r => [r] | None => [] end)).
    { eapply NoDup_Permutation_proper; [|exact ok_once0]. solve_Permutation. }
    by apply NoDup_cons in Hn as [_ ?].
  - rewrite ok_account0, !fmap_app, fmap_cons. solve_Permutation.
  - destruct w; try done. destruct ok_worker0 as (E & ? & ?). split; [done|]. split; [done|].
    rewrite fr_reqs0; [done|]. intros ->. by apply Hi.
  - intros Hw He. apply ok_awake0; [done|]. by destruct a.
Qed.

Lemma store_queue_same d : store_queue (io_queue d, nodes d) d = d.
Proof. by destruct d. Qed.

Lemma abort_ok s es r :
  device_ok s es -> exists es', device_ok (with_dev (device_abort_io r (dev s)) s) es'.
Proof.
  intros H. pose proof (remove_request_spec r (dev s) es (ok_queue _ _ H)) as Hr.
  unfold device_abort_io. destruct (fujinet_io_queue_remove_request _ _) as [[p|] [q h]].
  - destruct Hr as (a & e & b & -> & <- & Hq). exists (a ++ b).
    eapply removed_ok; [exact H|exact Hq|..].
    + unfold store_queue, FreeMem. simpl. eapply frame_trans; [|apply frame_reply]. apply frame_on_req.
    + by rewrite replied_reply, replied_on_req.
  - destruct Hr as [[= -> ->] _]. rewrite store_queue_same. exists es.
    destruct (bool_decide_reflect (in_progress (dev s) = Some r)) as [Hi|]; [|by destruct s].
    destruct (bool_decide_reflect (worker_state (dev s) = NIO_WORKER_IN_PROGRESS)) as [Hw|];
      [|by destruct s].
    destruct H, s as [d w x b]. simpl in *. split; try done.
    destruct w; first [done | destruct ok_worker0; congruence].
Qed.

(** The flags and the open count are not looked at. *)
Lemma flags_ok s es n : device_ok s es -> device_ok (with_dev (set_lib_Flags n (dev s)) s) es.
Proof. intros []. destruct s as [d w x b]. simpl in *. by split. Qed.

Lemma counted_ok s es n d :
  device_ok (with_dev d s) es -> device_ok (with_dev (set_lib_OpenCnt n d) s) es.
Proof. intros []. destruct s as [d0 w x b]. simpl in *. by split. Qed.

(** Closing clears the request's device, even while it is in progress. *)
Lemma bound_ok s es r v :
  device_ok s es -> device_ok (with_dev (on_req r (set_io_bound v) (dev s)) s) es.
Proof.
  intros H.
  assert (Hc : forall x, begin_io_check size (reqs (on_req r (set_io_bound v) (dev s)) x) =
                         begin_io_check size (reqs (dev s) x)).
  { intros x. unfold on_req. rewrite reqs_put. by case_decide; subst. }
  destruct H, s as [d w x b]. simpl in *. split; try done.
  - eapply Forall_impl; [exact ok_checked0|]. intros e He. etransitivity; [apply Hc|exact He].
  - destruct w; try done. destruct ok_worker0 as (? & ? & Hk). do 2 (split; [done|]).
    etransitivity; [apply Hc|exact Hk].
Qed.

Lemma close_backend_spec d :
  let d' := close_backend ops d in
  (exists b, d' = d |> set_backend b |> set_backend_is_open false) /\ backend_is_open d' = false.
Proof.
  unfold close_backend. destruct (backend_is_open d) eqn:E; simpl.
  - destruct (backend_close_fn ops) as [c|]; (split; [|done]).
    + by exists (c (backend d)).
    + exists (backend d). by destruct d.
  - split; [|done]. exists (backend d). destruct d; simpl in *. by subst.
Qed.

(** An expunge that finds the worker gone frees the device. *)
Lemma finish_ok s es x :
  device_ok s es -> (x = true -> worker_stop (dev s) = true) ->
  device_ok (mkSystem (expunge_finish ops (dev s)).2 (worker s) x (begun s)) es.
Proof.
  intros H Hx. unfold expunge_finish. destruct (worker_process (dev s)) eqn:Ep; simpl.
  - destruct H, s as [d w y b]. simpl in *. split; try done. simpl. tauto.
  - destruct (close_backend_spec (dev s)) as [[b E] _]. rewrite E.
    assert (Hw : worker s = WExit).
    { pose proof (proj2 (ok_process _ _ H)) as Hp. rewrite Ep in Hp.
      destruct (worker s); try done; discriminate (Hp ltac:(discriminate)). }
    destruct H, s as [d w y bg]. simpl in *. subst w. split; try done; simpl. tauto.
Qed.

Lemma start_expunge_ok s es :
  device_ok s es -> device_ok (start_expunge s) es.
Proof.
  intros H. unfold start_expunge, expunge_test.
  destruct (negb _ || _ || _); [by apply flags_ok|].
  pose proof (flags_ok s es (Z.land (lib_Flags (dev s)) (255 - LIBF_DELEXP)) H) as H'.
  set (d := set_lib_Flags _ (dev s)) in *. destruct (worker_process d) eqn:Ep.
  - unfold stop_request. rewrite Ep. destruct H', s as [d1 w x b]. clearbody d. simpl in *. by split.
  - apply (finish_ok _ _ (expunging s)) in H'; [exact H'|].
    intros Hx. apply (ok_stop _ _ H'). by right.
Qed.

Lemma close_ok s es r :
  device_ok s es -> exists es', device_ok (close_step r s) es'.
Proof.
  intros H. unfold close_step.
  assert (Hc : exists es', device_ok (with_dev (close_request r (dev s)).2 s) es').
  { pose proof (remove_request_spec r (dev s) es (ok_queue _ _ H)) as Hr.
    unfold close_request. destruct (fujinet_io_queue_remove_request _ _) as [[p|] [q h]].
    - destruct Hr as (a & e & b & -> & <- & Hq). exists (a ++ b).
      eapply removed_ok; [exact H|exact Hq|..].
      + unfold store_queue, FreeMem. simpl. case_match; frame_auto.
      + cbn [snd]. rewrite replied_reply. case_match; done.
    - destruct Hr as [[= -> ->] _]. rewrite store_queue_same. exists es. cbn [snd].
      destruct (negb (lib_OpenCnt _ =? 0)); [apply counted_ok|]; by apply bound_ok. }
  destruct Hc as [es' Hc]. exists es'. destruct (close_request r (dev s)) as [[] d].
  - by apply start_expunge_ok.
  - done.
Qed.

(** ** Steps of the worker *)

Lemma frame_backend r b d : frame r d (set_backend b d).
Proof. destruct d. by split. Qed.
Lemma frame_open r b d : frame r d (set_backend_is_open b d).
Proof. destruct d. by split. Qed.
Lemma frame_close_backend r d : frame r d (close_backend ops d).
Proof.
  destruct (close_backend_spec d) as [[b E] _]. rewrite E.
  eapply frame_trans; [apply frame_backend|apply frame_open].
Qed.
Lemma frame_ensure_open r d : frame r d (ensure_backend_open ops d).2.
Proof.
  unfold ensure_backend_open. destruct (backend_is_open d); [apply frame_refl|].
  destruct (backend_open_fn ops) as [f|]; [|apply frame_refl].
  destruct (f (backend d)) as [b e]. cbn [snd].
  destruct (e =? FN_OK); [eapply frame_trans; [apply frame_backend|apply frame_open]|apply frame_backend].
Qed.

Lemma exchange_body_frame r d : frame r d (exchange_body ops r d).2.
Proof.
  unfold exchange_body. pose proof (frame_ensure_open r d) as H0.
  destruct (ensure_backend_open ops d) as [e d1]. cbn [snd] in H0.
  destruct (e =? FN_OK); [|exact H0]. destruct (backend_exchange_fn ops) as [f|]; [|exact H0].
  destruct (f _ _ _ _ _) as [[[b e'] rsp] n]. destruct (backend_diagnostics ops _) as [[x y] z].
  cbn [snd]. eapply frame_trans; [exact H0|].
  assert (H1 : frame r d1 (d1 |> set_backend b |> on_req r (set_fn_response_data rsp)))
    by (eapply frame_trans; [apply frame_backend|apply frame_on_req]).
  destruct (_ || _); [|exact H1]. eapply frame_trans; [exact H1|apply frame_close_backend].
Qed.

Lemma control_body_frame r d : frame r d (control_body ops r d).2.
Proof.
  unfold control_body. pose proof (frame_close_backend r d) as Hc.
  repeat case_match; cbn [snd]; try apply frame_refl; try exact Hc; try apply frame_on_req;
    eapply frame_trans; [exact Hc|apply frame_backend| exact Hc|apply frame_backend].
Qed.

Definition body_of (r : Z) d : outcome * device B :=
  if is_exchange r d then exchange_body ops r d else control_body ops r d.

Lemma body_frame r d : frame r d (body_of r d).2.
Proof. unfold body_of. destruct (is_exchange r d); [apply exchange_body_frame|apply control_body_frame]. Qed.

Lemma running s es :
  device_ok s es -> worker s <> WExit ->
  worker_process (dev s) = true /\ 0 <= worker_signal (dev s) /\ freed (dev s) = false.
Proof.
  intros [] Hw. split; [by apply ok_process0|]. split; [by apply ok_signal0|].
  destruct (freed (dev s)); [|done]. by specialize (ok_freed0 eq_refl).
Qed.

Lemma wake_ok s es :
  device_ok s es -> worker s = WWait ->
  device_ok (mkSystem (worker_wake (dev s)).2
               (if (worker_wake (dev s)).1 then WTop else WExit) (expunging s) (begun s)) es.
Proof.
  intros H Hw. destruct (running _ _ H ltac:(congruence)) as (Hp & Hs & Hf).
  destruct H, s as [d w x b]. simpl in *. subst w. unfold worker_wake. simpl.
  destruct (worker_stop d) eqn:Es; (split; try done); simpl; intuition congruence.
Qed.

Lemma take_ok s es :
  device_ok s es -> worker s = WTop ->
  device_ok (mkSystem (pump_take (dev s)).2
    (match (pump_take (dev s)).1 with Some r => WRun r | None => WWait end)
    (expunging s) (begun s)) (drop 1 es).
Proof.
  intros H Hw. destruct (running _ _ H ltac:(congruence)) as (Hp & Hs & Hf).
  pose proof (pump_take_spec (dev s) es (ok_queue _ _ H) (ok_units _ _ H)) as Ht.
  destruct es as [|e es].
  - rewrite Ht. destruct H, s as [d w x b]. simpl in *. subst w.
    split; try done; simpl; intuition congruence.
  - destruct Ht as (q & h & Hq & ->). change (drop 1 (e :: es)) with es. destruct H, s as [d w x b]. simpl in *. subst w.
    destruct ok_worker0 as (Hi & Hws & Ha).
    unfold pending_of in *. rewrite Hi in *. simpl in *. rewrite app_nil_r in *.
    apply Forall_cons in ok_units0 as [? ?]. apply Forall_cons in ok_checked0 as [? ?].
    split; try done; unfold pending_of; simpl; try (clear -Hp Hs Hf ok_stop0; intuition congruence).
    + eapply NoDup_Permutation_proper; [|exact ok_once0]. solve_Permutation.
    + rewrite ok_account0. solve_Permutation.
Qed.

Lemma close_backend_replied d : replied (close_backend ops d) = replied d.
Proof. by destruct (close_backend_spec d) as [[b ->] _]. Qed.
Lemma exchange_body_replied r d : replied (exchange_body ops r d).2 = replied d.
Proof.
  unfold exchange_body, ensure_backend_open.
  repeat case_match; simplify_eq/=; rewrite ?close_backend_replied; repeat case_match; done.
Qed.
Lemma control_body_replied r d : replied (control_body ops r d).2 = replied d.
Proof.
  unfold control_body. repeat case_match; simplify_eq/=; rewrite ?close_backend_replied; done.
Qed.
Lemma body_replied r d : replied (body_of r d).2 = replied d.
Proof. unfold body_of. destruct (is_exchange r d); [apply exchange_body_replied|apply control_body_replied]. Qed.

(** The request in progress is not queued. *)
Lemma progress_not_queued s es r :
  device_ok s es -> in_progress (dev s) = Some r -> r ∉ (e_request <$> es).
Proof.
  intros H Hi Hin. pose proof (ok_once _ _ H) as Hn. unfold pending_of in Hn. rewrite Hi in Hn.
  apply NoDup_app in Hn as (_ & Hn & _). apply (Hn r Hin). left.
Qed.

Lemma body_ok s es r :
  device_ok s es -> worker s = WRun r ->
  device_ok (mkSystem (body_of r (dev s)).2 (WDone r (body_of r (dev s)).1)
               (expunging s) (begun s)) es.
Proof.
  intros H Hw. destruct (running _ _ H ltac:(congruence)) as (Hp & Hs & Hf).
  assert (Hi : in_progress (dev s) = Some r) by (destruct H; rewrite Hw in *; tauto).
  pose proof (body_frame r (dev s)) as Hfr. pose proof (body_replied r (dev s)) as Hl.
  pose proof (checked_frame _ _ _ _ Hfr (progress_not_queued _ _ _ H Hi) (ok_checked _ _ H)) as Hc.
  destruct H, Hfr, s as [d w x b]. simpl in *. subst w.
  split; simpl; unfold pending_of; rewrite ?Hl, ?fr_queue0, ?fr_nodes0, ?fr_progress0, ?fr_state0,
    ?fr_process0, ?fr_signal0, ?fr_stop0, ?fr_freed0; try done; intuition congruence.
Qed.

Lemma complete_frame r f d :
  frame r (d |> set_in_progress None |> set_in_progress_aborted false |> set_worker_state NIO_WORKER_IDLE)
        (complete r f d) /\ replied (complete r f d) = replied d ++ [r].
Proof.
  unfold complete. destruct d as [? ? ? ? ? ? ab]. split; [|by destruct ab].
  split; try (by destruct ab). intros y Hy. destruct ab; simpl; by rewrite !decide_False.
Qed.

Lemma done_ok s es r o f :
  device_ok s es -> worker s = WDone r o ->
  device_ok (mkSystem (complete r f (dev s)) WTop (expunging s) (begun s)) es.
Proof.
  intros H Hw. destruct (running _ _ H ltac:(congruence)) as (Hp & Hs & Hf).
  assert (Hi : in_progress (dev s) = Some r) by (destruct H; rewrite Hw in *; tauto).
  destruct (complete_frame r f (dev s)) as [Hfr Hl].
  pose proof (checked_frame _ _ _ _ Hfr (progress_not_queued _ _ _ H Hi) (ok_checked _ _ H)) as Hc.
  destruct H, Hfr, s as [d w x b]. simpl in *. subst w.
  split; simpl; unfold pending_of in *; rewrite ?Hl, ?fr_queue0, ?fr_nodes0, ?fr_progress0, ?fr_state0,
    ?fr_aborted0, ?fr_process0, ?fr_signal0, ?fr_stop0, ?fr_freed0; try done;
    try (clear -Hp Hs Hf ok_stop0; intuition congruence).
  - rewrite Hi in ok_once0. apply NoDup_app in ok_once0 as (Hn & _ & _). by rewrite app_nil_r.
  - rewrite ok_account0, Hi. solve_Permutation.
Qed.

Lemma initial_ok s : initial s -> device_ok s [].
Proof.
  intros (segs & sig & mem & rq & b & Hd & Hw & Hx & Hb). unfold device_init in Hd. simpl in Hd.
  destruct (Z.ltb_spec sig 0); [done|]. destruct s as [d w x bg]. simpl in *. injection Hd as <-.
  subst. split; try done; simpl.
  - split_and!; try done. apply NoDup_nil_2.
  - apply NoDup_nil_2.
  - intros [?|?]; done.
Qed.

Lemma sys_step_ok s s' es :
  device_ok s es -> sys_step s s' -> exists es', device_ok s' es'.
Proof.
  intros H Hs. destruct Hs.
  - eexists. by apply prepare_ok.
  - by apply (begin_ok _ es).
  - by apply (abort_ok _ es).
  - eexists. by apply open_ok.
  - by apply (close_ok _ es).
  - eexists. by apply start_expunge_ok.
  - eexists. apply finish_ok; [done|done].
  - eexists. by apply wake_ok.
  - eexists. by apply take_ok.
  - eexists. by apply body_ok.
  - eexists. by eapply done_ok.
Qed.

Lemma reachable_ok s : reachable s -> exists es, device_ok s es.
Proof.
  induction 1 as [s Hi|s s' _ [es IH] Hs].
  - exists []. by apply initial_ok.
  - by apply (sys_step_ok s s' es).
Qed.

(** ** The worker left alone *)

Lemma process_step s es r :
  device_ok s es -> worker s = WRun r ->
  let d' := if is_exchange r (dev s) then process_exchange ops r (dev s)
            else process_control ops r (dev s) in
  device_ok (mkSystem d' WTop (expunging s) (begun s)) es /\ replied d' = replied (dev s) ++ [r].
Proof.
  intros H Hw. pose proof (body_ok s es r H Hw) as Hb. pose proof (body_replied r (dev s)) as Hl.
  unfold body_of in *. unfold process_exchange, process_control.
  destruct (is_exchange r (dev s)).
  - destruct (exchange_body ops r (dev s)) as [o d]. cbn [fst snd] in *.
    split; [exact (done_ok _ _ r o (exchange_reply o) Hb eq_refl)|].
    destruct (complete_frame r (exchange_reply o) d) as [_ ->]. by rewrite Hl.
  - destruct (control_body ops r (dev s)) as [o d]. cbn [fst snd] in *.
    split; [exact (done_ok _ _ r o (control_reply o) Hb eq_refl)|].
    destruct (complete_frame r (control_reply o) d) as [_ ->]. by rewrite Hl.
Qed.

Lemma pump_drains es : forall s fuel,
  device_ok s es -> worker s = WTop -> (length es < fuel)%nat ->
  exists d', worker_pump ops fuel (dev s) = Some d' /\
    device_ok (mkSystem d' WWait (expunging s) (begun s)) [] /\
    replied d' = replied (dev s) ++ (e_request <$> es).
Proof.
  induction es as [|e es IH]; intros s fuel H Hw Hf; (destruct fuel as [|fuel]; [simpl in Hf; lia|]);
    pose proof (pump_take_spec (dev s) _ (ok_queue _ _ H) (ok_units _ _ H)) as Ht;
    pose proof (take_ok s _ H Hw) as H'; cbn [worker_pump].
  - rewrite Ht in *. cbn [fst snd] in H'. exists (set_io_processing false (dev s)).
    split; [done|]. split; [exact H'|]. rewrite app_nil_r. by destruct (dev s).
  - destruct Ht as (q & h & _ & Ht). rewrite Ht in *. cbn [fst snd] in H'.
    change (drop 1 (e :: es)) with es in H'. set (d := set_worker_state _ _) in *.
    assert (Hl : replied d = replied (dev s)) by (subst d; by destruct (dev s)).
    destruct (process_step _ _ (e_request e) H' eq_refl) as [Hp Hr]. cbn [dev] in Hp, Hr.
    destruct (IH _ fuel Hp eq_refl ltac:(simpl in Hf; lia)) as (d' & Hd & Hok & Hrep).
    exists d'. split; [exact Hd|]. split; [exact Hok|].
    cbn [dev] in Hrep. rewrite Hrep, Hr, Hl, fmap_cons. by rewrite <- app_assoc.
Qed.
End System.

(** ** Properties *)

Section Properties.
Context `{L : FnLib} {B : Type} (ops : backend_ops B) (size : Z).

(** Left alone, the worker answers what is queued. *)
Lemma device_ok_drains (s : system B) es :
  device_ok size s es -> worker s = WTop \/ worker s = WWait /\ worker_stop (dev s) = false ->
  exists d',
    worker_pump ops (S (length es))
      (match worker s with WTop => dev s | _ => (worker_wake (dev s)).2 end) = Some d' /\
    replied d' = replied (dev s) ++ (e_request <$> es) /\
    begun s ≡ₚ replied d' /\ IoQueue.head (io_queue d') = None /\ in_progress d' = None.
Proof.
  intros Hok Hw.
  assert (Hd : exists d, (match worker s with WTop => dev s | _ => (worker_wake (dev s)).2 end) = d /\
    device_ok size (mkSystem d WTop (expunging s) (begun s)) es /\ replied d = replied (dev s)).
  { eexists. split; [reflexivity|]. destruct Hw as [Hw|[Hw Hs]].
    - rewrite Hw. split; [|done]. destruct s; simpl in *; by subst.
    - rewrite Hw. pose proof (wake_ok size s es Hok Hw) as Hk.
      unfold worker_wake in *. simpl in *. rewrite Hs in *. split; [exact Hk|]. by destruct (dev s). }
  destruct Hd as (d & Hd & Hdok & Hl).
  destruct (pump_drains ops size es _ (S (length es)) Hdok eq_refl ltac:(lia)) as (d' & Hp & Hok' & Hr).
  exists d'. rewrite Hd. split; [exact Hp|].
  cbn [dev] in Hr. rewrite Hl in Hr. split; [exact Hr|].
  pose proof (ok_account _ _ _ Hok') as Ha. pose proof (ok_worker _ _ _ Hok') as (Hi & _).
  cbn [dev begun] in *. unfold pending_of in Ha. rewrite Hi in Ha. simpl in Ha. rewrite app_nil_r in Ha.
  split; [exact Ha|]. split; [|exact Hi].
  by apply (queue_head_nil _ _ (ok_queue _ _ _ Hok')).
Qed.

(** Nothing submitted is forgotten while the worker lives: from every
    state in which it waits or is about to take a request, with a queue that
    is not empty, it is awake or awakened, and left alone it answers the
    queued requests in the order of their submission, after which the queue
    is empty and every submission has been answered; the number of queued
    requests plus one turns are enough. *)
Theorem nio_device_drains (s : system B) (H : reachable ops size s)
    (Hw : worker s = WTop \/ worker s = WWait /\ worker_stop (dev s) = false) :
  exists es d',
    device_ok size s es /\
    (worker s = WWait -> es <> [] -> signalled (dev s) = true) /\
    worker_pump ops (S (length es))
      (match worker s with WTop => dev s | _ => (worker_wake (dev s)).2 end) = Some d' /\
    replied d' = replied (dev s) ++ (e_request <$> es) /\
    begun s ≡ₚ replied d' /\ IoQueue.head (io_queue d') = None /\ in_progress d' = None.
Proof.
  destruct (reachable_ok ops size s H) as [es Hok].
  destruct (device_ok_drains s es Hok Hw) as (d' & Hd). exists es, d'.
  split; [done|]. split; [apply (ok_awake _ _ _ Hok)|done].
Qed.

(** Submissions by request: answered, or pending. *)
Lemma device_ok_occurrences (s : system B) es r :
  device_ok size s es ->
  occurrences r (begun s)
  = (occurrences r (replied (dev s)) +
     if decide (r ∈ pending_of (dev s) es) then 1 else 0)%nat.
Proof.
  intros H. rewrite (occurrences_perm _ _ _ (ok_account _ _ _ H)), occurrences_app. f_equal.
  apply occurrences_nodup, (ok_once _ _ _ H).
Qed.

(** C12: No submission is lost or answered twice.  In every order of
    submissions, aborts, opens, closes, expunges and worker steps there is a
    list of queued requests that the queue's links describe exactly, such
    that every request has been answered as often as it was submitted, once
    less while it is pending, which is queued or in the worker's hands, and
    then exactly once; everything queued has passed BeginIO's checks, the
    fields of the worker agree with where it is, and a waiting worker has its
    signal pending whenever something is queued.  It is not said that what is
    pending will be answered: a worker told to stop leaves the queue alone
    ([expunge_races_open]).  A worker that has not been told to stop, left
    alone, answers all of it: when it waits or looks for work, the pump empties
    the queue, and then every submission has been answered. *)
Theorem nio_device_invariant (s : system B) (H : reachable ops size s) :
  exists es, device_ok size s es /\
    (forall r, occurrences r (begun s)
       = (occurrences r (replied (dev s)) +
          if decide (r ∈ pending_of (dev s) es) then 1 else 0)%nat) /\
    (worker s = WTop \/ worker s = WWait /\ worker_stop (dev s) = false ->
     exists d', worker_pump ops (S (length es))
         (match worker s with WTop => dev s | _ => (worker_wake (dev s)).2 end) = Some d' /\
       forall r, occurrences r (begun s) = occurrences r (replied d')).
Proof.
  destruct (reachable_ok ops size s H) as [es Hok]. exists es. split; [done|]. split.
  - intros r. by apply device_ok_occurrences.
  - intros Hw. destruct (device_ok_drains s es Hok Hw) as (d' & Hp & _ & Hb & _).
    exists d'. split; [exact Hp|]. intros r. by apply occurrences_perm.
Qed.

(** What the backend part of an exchange leaves. *)
Lemma exchange_body_spec `{!FnLibOk L} r (d : device B) :
  (forall f b q n rsp c, backend_exchange_fn ops = Some f -> 0 <= (f b q n rsp c).2) ->
  let o := (exchange_body ops r d).1 in
  let d1 := (exchange_body ops r d).2 in
  0 <= o_response_len o /\
  (exists rsp, reqs d1 r = set_fn_response_data rsp (reqs d r)) /\
  (o_error o = FN_OK ->
   exists f b rsp,
     backend_exchange_fn ops = Some f /\ (ensure_backend_open ops d).1 = FN_OK /\
     f (backend (ensure_backend_open ops d).2) (fn_request_data (reqs d r))
       (fn_request_length (reqs d r)) (fn_response_data (reqs d r))
       (fn_response_capacity (reqs d r)) = (b, FN_OK, rsp, o_response_len o) /\
     reqs d1 r = set_fn_response_data rsp (reqs d r)) /\
  (o_error o = FN_ERR_TRANSPORT \/ o_error o = FN_ERR_TIMEOUT ->
   (ensure_backend_open ops d).1 = FN_OK -> backend_is_open d1 = false).
Proof.
  intros Hlen. unfold exchange_body.
  assert (Hr : reqs (ensure_backend_open ops d).2 = reqs d).
  { unfold ensure_backend_open. by repeat case_match; destruct d. }
  assert (Hsame : exists rsp, reqs d r = set_fn_response_data rsp (reqs d r))
    by (exists (fn_response_data (reqs d r)); by destruct (reqs d r)).
  destruct (ensure_backend_open ops d) as [e d1]. cbn [fst snd] in *.
  destruct (Z.eqb_spec e FN_OK) as [->|He].
  2:{ cbn. rewrite Hr. split_and!; try done. }
  destruct (backend_exchange_fn ops) as [f|] eqn:Ef.
  2:{ cbn. rewrite Hr. split_and!; [done|done|by intros ?%fn_err_io_ok|].
      intros [H|H] _; exfalso; revert H; [by apply (fn_errors_apart 4 5)|by apply (fn_errors_apart 4 6)]. }
  rewrite Hr. specialize (Hlen f (backend d1) (fn_request_data (reqs d r)) (fn_request_length (reqs d r))
    (fn_response_data (reqs d r)) (fn_response_capacity (reqs d r)) eq_refl).
  destruct (f _ _ _ _ _) as [[[b e'] rsp] n] eqn:Ex. destruct (backend_diagnostics ops _) as [[x y] z].
  cbn [fst snd o_error o_response_len] in *.
  set (d2 := on_req r (set_fn_response_data rsp) (set_backend b d1)).
  assert (H2 : reqs d2 r = set_fn_response_data rsp (reqs d r)).
  { subst d2. unfold on_req. rewrite reqs_put, decide_True by done. simpl. by rewrite Hr. }
  assert (H3 : reqs (close_backend ops d2) r = reqs d2 r)
    by (destruct (close_backend_spec ops d2) as [[b' ->] _]; by destruct d2).
  assert (H4 : reqs (if (e' =? FN_ERR_TRANSPORT) || (e' =? FN_ERR_TIMEOUT) then close_backend ops d2
                     else d2) r = set_fn_response_data rsp (reqs d r))
    by (destruct (_ || _); rewrite ?H3; exact H2).
  rewrite H4. split_and!; [done|by exists rsp|intros ->; by exists f, b, rsp|].
  intros He _. replace ((e' =? FN_ERR_TRANSPORT) || (e' =? FN_ERR_TIMEOUT)) with true.
  - apply close_backend_spec.
  - symmetry. apply orb_true_iff. rewrite !Z.eqb_eq. tauto.
Qed.

Lemma complete_fields r f (d : device B) :
  replied (complete r f d) = replied d ++ [r] /\ in_progress (complete r f d) = None /\
  in_progress_aborted (complete r f d) = false /\
  backend_is_open (complete r f d) = backend_is_open d /\
  reqs (complete r f d) r =
    set_ln_Type NT_REPLYMSG (if in_progress_aborted d then apply_abort_completion (reqs d r)
                             else f (reqs d r)).
Proof.
  unfold complete. destruct d as [? ? ? ? ? ? []]; simpl; by rewrite !decide_True by done.
Qed.

(** C13: What a completed exchange tells its caller.  The request is replied
    to once and is no longer in progress.  If it was aborted meanwhile, it
    says so with no data.  Otherwise the exec error is 0, the broker's error
    is repeated in the second pad byte, the length is within the capacity and
    0 on every error; success means that the backend was open or could be
    opened, that its exchange succeeded on exactly the caller's data, and the
    response is the one it left.  After a transport error or a timeout the
    backend is closed, so that the next exchange opens it afresh. *)
Theorem exchange_contract `{!FnLibOk L} (r : Z) (d : device B)
    (Hlen : forall f b q n rsp c, backend_exchange_fn ops = Some f -> 0 <= (f b q n rsp c).2)
    (Hcap : 0 <= fn_response_capacity (reqs d r)) :
  let d' := process_exchange ops r d in
  let q := reqs d' r in
  replied d' = replied d ++ [r] /\ in_progress d' = None /\ in_progress_aborted d' = false /\
  ln_Type q = NT_REPLYMSG /\
  (in_progress_aborted d = true ->
   io_Error q = IOERR_ABORTED /\ fn_nio_error q = FN_ERR_ABORTED /\ fn_response_length q = 0) /\
  (in_progress_aborted d = false ->
   io_Error q = 0 /\ (fn_pad q).[1] = fn_nio_error q /\
   0 <= fn_response_length q <= fn_response_capacity q /\
   (fn_nio_error q <> FN_OK -> fn_response_length q = 0) /\
   (fn_nio_error q = FN_OK ->
    exists f b rsp,
      backend_exchange_fn ops = Some f /\ (ensure_backend_open ops d).1 = FN_OK /\
      f (backend (ensure_backend_open ops d).2) (fn_request_data (reqs d r))
        (fn_request_length (reqs d r)) (fn_response_data (reqs d r))
        (fn_response_capacity (reqs d r)) = (b, FN_OK, rsp, fn_response_length q) /\
      fn_response_data q = rsp) /\
   (fn_nio_error q = FN_ERR_TRANSPORT \/ fn_nio_error q = FN_ERR_TIMEOUT ->
    (ensure_backend_open ops d).1 = FN_OK -> backend_is_open d' = false)).
Proof.
  destruct (exchange_body_spec r d Hlen) as (H0 & [rsp0 Hq0] & Hok & Hcl).
  pose proof (exchange_body_frame ops r d) as Hf.
  pose proof (exchange_body_replied ops r d) as Hl. unfold process_exchange.
  destruct (exchange_body ops r d) as [o d1]. cbn [fst snd] in *.
  destruct (complete_fields r (exchange_reply o) d1) as (C1 & C2 & C3 & C4 & C5).
  cbv zeta. rewrite C1, C2, C3, C4, C5, Hl, (fr_aborted _ _ _ Hf), Hq0.
  do 4 (split; [done|]). split; [by intros ->|]. intros ->. unfold exchange_reply.
  change (fn_response_capacity (set_fn_response_data rsp0 (reqs d r)))
    with (fn_response_capacity (reqs d r)).
  pose proof fn_err_io_ok as Hio.
  assert (Ht1 : FN_ERR_IO <> FN_ERR_TRANSPORT) by (by apply (fn_errors_apart 4 5)).
  assert (Ht2 : FN_ERR_IO <> FN_ERR_TIMEOUT) by (by apply (fn_errors_apart 4 6)).
  destruct (Z.eqb_spec (o_error o) FN_OK) as [E|E]; cbn [andb].
  - destruct (Z.gtb_spec (o_response_len o) (fn_response_capacity (reqs d r))); cbn.
    + destruct (Z.eqb_spec FN_ERR_IO FN_OK); [done|]. split_and!; try done. intros [?|?]; done.
    + rewrite E, Z.eqb_refl. split_and!; try done; [|intros [?|?]; apply Hcl; rewrite E; tauto].
      intros _. destruct (Hok E) as (f & b & rsp & F1 & F2 & F3 & F4). exists f, b, rsp.
      split_and!; try done. rewrite F4 in Hq0. by apply (f_equal fn_response_data) in Hq0.
  - cbn. rewrite (proj2 (Z.eqb_neq _ _) E). split_and!; try done.
Qed.

Lemma stopped_worker (d : device B) :
  worker_process d = true ->
  let d' := (worker_wake (stop_request d)).2 in
  worker_process d' = false /\ replied d' = replied d /\ segment_list d' = segment_list d.
Proof. intros Hd. unfold stop_request. rewrite Hd. by destruct d. Qed.

Lemma finish_gone (d : device B) :
  worker_process d = false ->
  let f := expunge_finish ops d in
  f.1 = segment_list d /\ freed f.2 = true /\ worker_process f.2 = false /\
  backend_is_open f.2 = false /\ replied f.2 = replied d.
Proof.
  intros Hd. unfold expunge_finish. rewrite Hd. cbn [fst snd].
  destruct (close_backend_spec ops d) as [[b ->] _]. by destruct d.
Qed.

(** An expunge that waits while only the worker runs is all or nothing:
    with no opener and nothing pending the segment list is returned, the
    worker is gone, the backend closed and every submission answered;
    otherwise nothing happens but that the expunge is remembered. *)
Theorem expunge_all_or_nothing (s : system B) (H : reachable ops size s)
    (Hw : worker s = WWait) (Hf : freed (dev s) = false) :
  let '(seg, d') := device_expunge ops (fun d => (worker_wake d).2) (dev s) in
  (lib_OpenCnt (dev s) = 0 /\ begun s ≡ₚ replied (dev s) /\
   seg = segment_list (dev s) /\ freed d' = true /\ worker_process d' = false /\
   backend_is_open d' = false /\ replied d' = replied (dev s) \/
   (lib_OpenCnt (dev s) <> 0 \/ ~ begun s ≡ₚ replied (dev s)) /\
   seg = 0 /\ d' = set_lib_Flags (Z.lor (lib_Flags (dev s)) LIBF_DELEXP) (dev s)).
Proof.
  destruct (reachable_ok ops size s H) as [es Hok].
  destruct (running size s es Hok ltac:(congruence)) as (Hp & _ & _).
  pose proof (ok_worker _ _ _ Hok) as Hi. rewrite Hw in Hi. destruct Hi as (Hi & _).
  pose proof (ok_account _ _ _ Hok) as Ha. unfold pending_of in Ha. rewrite Hi, app_nil_r in Ha.
  assert (He : begun s ≡ₚ replied (dev s) <-> es = []).
  { split; [|intros ->; by rewrite app_nil_r in Ha]. intros Hb. rewrite Hb in Ha.
    apply Permutation_length in Ha. rewrite length_app, length_fmap in Ha.
    destruct es; [done|simpl in Ha; lia]. }
  unfold device_expunge, expunge_test. rewrite (head_empty _ _ (ok_queue _ _ _ Hok)), Hi.
  rewrite (bool_decide_eq_false_2 (is_Some None)) by (by intros [? ?]). rewrite orb_false_r.
  destruct (Z.eqb_spec (lib_OpenCnt (dev s)) 0) as [Ho|Ho]; cbn [negb orb].
  2:{ right. split; [by left|done]. }
  case_bool_decide as Hes; cbn [negb].
  2:{ right. split; [right; by rewrite He|done]. }
  set (d := set_lib_Flags (Z.land (lib_Flags (dev s)) (255 - LIBF_DELEXP)) (dev s)).
  assert (Hd : worker_process d = true /\ replied d = replied (dev s) /\
               segment_list d = segment_list (dev s)) by (subst d; by destruct (dev s)).
  destruct Hd as (Hd & Hdr & Hds). clearbody d.
  destruct (stopped_worker d Hd) as (W1 & W2 & W3).
  destruct (finish_gone _ W1) as (H1 & H2 & H3 & H4 & H5). rewrite W2 in H5. rewrite W3 in H1.
  rewrite Hd. destruct (expunge_finish _ _) as [seg d']. left. cbn [fst snd] in *.
  split_and!; first [congruence | by apply He].
Qed.

(** AbortIO.  A queued request is answered at once as aborted with no
    data, and only it leaves the queue; the request in progress is marked, to
    be answered as aborted when the backend returns, and nothing else
    changes; any other request is left alone altogether. *)
Theorem abort_contract (s : system B) (r : Z) (H : reachable ops size s) :
  exists es,
    device_ok size s es /\
    let d' := device_abort_io r (dev s) in
    (r ∈ (e_request <$> es) ->
     exists a e b, es = a ++ e :: b /\ e_request e = r /\
       device_ok size (with_dev d' s) (a ++ b) /\ replied d' = replied (dev s) ++ [r] /\
       io_Error (reqs d' r) = IOERR_ABORTED /\ fn_nio_error (reqs d' r) = FN_ERR_ABORTED /\
       fn_response_length (reqs d' r) = 0) /\
    (in_progress (dev s) = Some r -> d' = set_in_progress_aborted true (dev s)) /\
    (r ∉ (e_request <$> es) -> in_progress (dev s) <> Some r -> d' = dev s).
Proof.
  destruct (reachable_ok ops size s H) as [es Hok]. exists es. split; [done|].
  pose proof (remove_request_spec r (dev s) es (ok_queue _ _ _ Hok)) as Hr.
  unfold device_abort_io. destruct (fujinet_io_queue_remove_request _ _) as [[p|] [q h]].
  - destruct Hr as (a & e & b & -> & <- & Hq).
    assert (Hin : e_request e ∈ (e_request <$> (a ++ e :: b)))
      by (apply list_elem_of_fmap; exists e; split; [done|]; apply elem_of_app; right; left).
    split_and!; [|intros Hi; by apply (progress_not_queued size s _ _ Hok) in Hi|done].
    intros _. exists a, e, b. split; [done|]. split; [done|]. split; [|split].
    + eapply removed_ok; [exact Hok|exact Hq|..].
      * unfold store_queue, FreeMem. simpl. eapply frame_trans; [|apply frame_reply]. apply frame_on_req.
      * by rewrite replied_reply, replied_on_req.
    + by rewrite replied_reply, replied_on_req.
    + cbn. rewrite !decide_True by done. done.
  - destruct Hr as [[= -> ->] Hn]. rewrite store_queue_same. split_and!; [done| |].
    + intros Hi. rewrite bool_decide_eq_true_2 by done.
      pose proof (ok_worker _ _ _ Hok) as Hw. rewrite bool_decide_eq_true_2; [done|].
      destruct (worker s); first [tauto | destruct Hw; congruence].
    + intros _ Hi. by rewrite bool_decide_eq_false_2.
Qed.
End Properties.

(** ** A concrete backend *)

(** Its state counts the exchanges; it echoes the request. *)
Definition echo_backend : backend_ops Z := {|
  backend_open_fn := Some (fun b => (b, 0));
  backend_close_fn := Some (fun b => b);
  backend_exchange_fn := Some (fun b q n rsp cap =>
    (b + 1, 0, option_map (fun o => overwrite o 0 (slice (default [] q) 0 (Z.to_nat (Z.min n cap)))) rsp,
     Z.max 0 (Z.min n cap)));
  backend_diagnostics := fun _ => (0, 0, 0);
  backend_set_baud_fn := Some (fun b _ => (b, 0));
  backend_get_baud_fn := Some (fun _ => 19200);
  backend_set_serial_fn := Some (fun b _ _ => (b, 0));
  backend_get_serial_fn := Some (fun _ _ => (0, [115; 0]))
|}.

Definition demo_request : FujiNetNIORequest :=
  mkReq 0 false FUJINET_NIO_CMD_EXCHANGE 1 0 54 0 (Some [1; 2; 3]) 3 (Some (zeros 8)) 8 0 0 [0; 0; 0].

Definition demo_base : device Z :=
  mkDevice 0 0 0 (mkQueue None None) None NIO_WORKER_IDLE false false false 0 false false false
    ∅ (fun _ => demo_request) 0 [] false.

#[local] Existing Instance fn_lib_nio.

Definition demo_init : system Z :=
  mkSystem (default demo_base (device_init 77 true true 20 demo_base)) WWait false [].

Lemma demo_init_reachable : reachable echo_backend 54 demo_init.
Proof. apply reachable_init. eexists 77, 20, ∅, _, 0. split; [reflexivity|]. done. Qed.

(** A submission of the request at [r], with a node at [p]. *)
Definition submit (r : Z) (p : positive) (s : system Z) : system Z :=
  mkSystem (device_begin_io 54 r (Some p) (dev s)) (worker s) (expunging s) (begun s ++ [r]).

Lemma submit_reachable s r p :
  reachable echo_backend 54 s -> answered r s -> freed (dev s) = false -> nodes (dev s) !! p = None ->
  reachable echo_backend 54 (submit r p s).
Proof.
  intros H Ha Hf Hn. eapply reachable_step; [exact H|]. apply step_begin; [done|done|].
  by intros ? [= <-].
Qed.

Definition demo_two : system Z := submit 2 2%positive (submit 1 1%positive demo_init).

Lemma demo_two_reachable : reachable echo_backend 54 demo_two.
Proof.
  apply submit_reachable; [apply submit_reachable; [apply demo_init_reachable|..]|..];
    vm_compute; reflexivity.
Qed.

(** An expunge starts; another task opens the device and submits a request;
    the worker wakes up to stop; the expunge ends. *)
Definition race_waiting : system Z := start_expunge echo_backend demo_init.
Definition race_opened : system Z := with_dev (device_open 1 0 (dev race_waiting)).2 race_waiting.
Definition race_submitted : system Z := submit 1 1%positive race_opened.
Definition race_stopped : system Z :=
  mkSystem (worker_wake (dev race_submitted)).2
    (if (worker_wake (dev race_submitted)).1 then WTop else WExit)
    (expunging race_submitted) (begun race_submitted).
Definition race_freed : system Z :=
  mkSystem (expunge_finish echo_backend (dev race_stopped)).2 (worker race_stopped) false
    (begun race_stopped).

Lemma race_freed_reachable : reachable echo_backend 54 race_freed.
Proof.
  eapply reachable_step; [|apply (step_expunge_end echo_backend 54 race_stopped); vm_compute; reflexivity].
  eapply reachable_step; [|apply (step_wake echo_backend 54 race_submitted); vm_compute; reflexivity].
  apply submit_reachable; [|vm_compute; reflexivity..].
  eapply reachable_step; [|apply (step_open echo_backend 54 race_waiting 1 0); vm_compute; reflexivity].
  eapply reachable_step; [apply demo_init_reachable|].
  by apply (step_expunge echo_backend 54 demo_init); [|left].
Qed.

(** While an expunge waits for the worker other tasks run, and the device
    can still be opened and used: the worker then stops without looking at
    the queue, and the expunge frees a device that is open and has a request
    that is never answered. *)
Theorem expunge_races_open :
  exists s : system Z,
    reachable echo_backend 54 s /\ freed (dev s) = true /\ lib_OpenCnt (dev s) = 1 /\
    begun s = [1] /\ replied (dev s) = [] /\ worker s = WExit /\
    begin_io_check 54 demo_request = None.
Proof.
  exists race_freed. split; [apply race_freed_reachable|]. split_and!; vm_compute; reflexivity.
Qed.

(** ** Witnesses *)

Lemma nio_device_invariant_witness :
  worker demo_two = WWait /\ worker_stop (dev demo_two) = false /\ begun demo_two = [1; 2] /\
  replied (dev demo_two) = [] /\
  exists es (d' : device Z), device_ok 54 demo_two es /\
    forall r, occurrences r (begun demo_two) = occurrences r (replied d').
Proof.
  split_and!; [reflexivity..|].
  destruct (nio_device_invariant echo_backend 54 demo_two demo_two_reachable)
    as (es & Hok & _ & Hd).
  destruct (Hd (or_intror (conj eq_refl eq_refl))) as (d' & _ & Hr). by exists es, d'.
Defined.

Lemma nio_device_drains_witness :
  exists es (d' : device Z), device_ok 54 demo_two es /\ replied d' = e_request <$> es /\ [1; 2] ≡ₚ replied d'.
Proof.
  destruct (nio_device_drains echo_backend 54 demo_two demo_two_reachable
    (or_intror (conj eq_refl eq_refl))) as (es & d' & H1 & _ & _ & H2 & H3 & _).
  exists es, d'. split; [exact H1|]. split; [exact H2|exact H3].
Defined.

Lemma exchange_contract_witness :
  let d' := process_exchange echo_backend 1 (dev demo_two) in
  replied d' = [1] /\ fn_response_length (reqs d' 1) = 3 /\
  (in_progress_aborted (dev demo_two) = false -> io_Error (reqs d' 1) = 0).
Proof.
  destruct (exchange_contract echo_backend 1 (dev demo_two)) as (H1 & _ & _ & _ & _ & H2).
  - intros f b q n rsp c [= <-]. cbn. lia.
  - vm_compute. discriminate.
  - split; [exact H1|]. split; [vm_compute; reflexivity|]. intros H. exact (proj1 (H2 H)).
Defined.

Lemma expunge_all_or_nothing_witness :
  let '(seg, d') := device_expunge echo_backend (fun d => (worker_wake d).2) (dev demo_two) in
  seg = 0 /\ freed d' = false.
Proof.
  pose proof (expunge_all_or_nothing echo_backend 54 demo_two demo_two_reachable eq_refl eq_refl) as H.
  destruct (device_expunge _ _ _) as [seg d'] eqn:E. vm_compute in E. injection E as <- <-.
  split; reflexivity.
Defined.

Lemma abort_contract_witness :
  exists es, device_ok 54 demo_two es /\
    (2 ∈ (e_request <$> es) -> fn_nio_error (reqs (device_abort_io 2 (dev demo_two)) 2) = 8).
Proof.
  destruct (abort_contract echo_backend 54 demo_two 2 demo_two_reachable) as (es & H1 & H2 & _).
  exists es. split; [exact H1|]. intros H. destruct (H2 H) as (a & e & b & _ & _ & _ & _ & _ & H3 & _).
  exact H3.
Defined.
