(* ===== verification/NioSerial.v ===== *)
(** * nio.device over the serial backend

    The serial backend as the operations nio.device calls, and what holds of
    the two together: the device's [backend_is_open] tells the truth about
    the backend's statics, so that nothing of the backend is left when the
    device is expunged. *)

From S2P Require Import Prelude Effects ExecIO FnLib SerialConfig IoQueue NioBackend SerialBackend SerialBackendProps SerialBackendSystem SerialBackendExample NioDevice.
#[local] Open Scope Z_scope.

Section NioSerial.
Context `{L : FnLib, !FnLibOk L} {E S : Type}.
Variable env : exec_env E.
Variable lib : session_lib S.
Variable flush_fuel : nat.
Variable size : Z.
Abbreviation st := (SerialBackend.backend E S).
Implicit Types b : st.

(** What a call returns; [fallback] stands for a call that does not, which
    over a quiet line is none. *)
Definition returned {A} (m : M st A) (fallback : A) (b : st) : A * st := default (fallback, b) (m b).

Definition serial_backend_ops : backend_ops st := mkBackendOps
  (Some (fun b => let '(r, b) := returned (SerialBackend.backend_open env lib flush_fuel) FN_ERR_IO b in (b, r)))
  (Some (fun b => (returned (SerialBackend.backend_close env lib flush_fuel) tt b).2))
  (Some (fun b q n r c =>
     let '(result, response, len, _, b) :=
       returned (SerialBackend.backend_exchange env lib flush_fuel q n r c) (FN_ERR_IO, r, 0, (0, 0, 0)) b in
     (b, result, response, len)))
  backend_get_diagnostics
  (Some (fun b baud => let '(r, b) := returned (SerialBackend.backend_set_baud baud) FN_ERR_INVALID b in (b, r)))
  (Some (fun b => (returned SerialBackend.backend_get_baud 0 b).1))
  (Some (fun b unit name =>
     let '(r, b) := returned (SerialBackend.backend_set_serial unit (Some name)) FN_ERR_INVALID b in (b, r)))
  (Some (fun b cap => (returned (SerialBackend.backend_get_serial cap) (0, []) b).1)).

Context (Hlib : LibraryOk lib).
Variable budget : E -> nat.
Context (Hquiet : Quiet env budget).

(** Nothing of the backend is there. *)
Definition dismantled (b : st) : Prop :=
  serial_side (link b) = nothing /\ timer_side (link b) = nothing /\ session b = None /\
  session_initialized b = false.

(** The device's flag and the backend's statics. *)
Record linked (open : bool) (b : st) : Prop := {
  ln_sound : sound b;
  ln_fuel : (budget (outside (exec b)) < flush_fuel)%nat;
  ln_open : if open then ready b = true else dismantled b
}.

Lemma linked_enough open b : linked open b -> enough flush_fuel False budget b.
Proof. intros []. by right. Qed.
Lemma linked_spent (open open' : bool) b b' :
  linked open b -> sound b' -> spent False budget b b' -> (if open' then ready b' = true else dismantled b') ->
  linked open' b'.
Proof. intros [] Hs [|Hb] Ho; [done|]. split; [done|lia|done]. Qed.

Lemma released_dismantled b b' : released False budget b b' -> dismantled b'.
Proof. by intros []. Qed.

Lemma returned_spec {A} (m : M st A) (Q : A -> st -> Prop) fallback b :
  wp False m Q b -> Q (returned m fallback b).1 (returned m fallback b).2.
Proof. unfold wp, returned. destruct (m b) as [[a b']|]; [done|done]. Qed.

Lemma close_linked open b :
  linked open b -> linked false (returned (SerialBackend.backend_close env lib flush_fuel) tt b).2.
Proof.
  intros H. pose proof (returned_spec _ _ tt b (backend_close_spec env lib flush_fuel False budget (or_intror Hquiet)
    b (ln_sound _ _ H) (linked_enough _ _ H))) as G. cbv beta in G.
  apply (linked_spent open _ b); [done|by eapply sound_released|apply G|by eapply released_dismantled].
Qed.
Lemma open_linked b :
  linked false b ->
  let '(r, b') := returned (SerialBackend.backend_open env lib flush_fuel) FN_ERR_IO b in
  linked (r =? FN_OK) b'.
Proof.
  intros H. pose proof (returned_spec _ _ FN_ERR_IO b (backend_open_spec env lib flush_fuel False budget (or_intror Hquiet)
    b (ln_sound _ _ H) (linked_enough _ _ H))) as G. destruct (returned _ _ b) as [r b']. cbn in G.
  destruct G as (G1 & G2 & G3). apply (linked_spent false _ b); [done|done|apply G1|].
  destruct (r =? FN_OK); [|by eapply released_dismantled]. destruct G3 as (Ho & Hto & Hi). unfold ready.
  by rewrite Ho, Hto, Hi.
Qed.
Lemma exchange_linked b q n r c fallback :
  linked true b -> linked true (returned (SerialBackend.backend_exchange env lib flush_fuel q n r c) fallback b).2.
Proof.
  intros H. pose proof (returned_spec _ _ fallback b (exchange_spec env lib flush_fuel False budget (or_intror Hquiet)
    q n r c b (ln_sound _ _ H) (linked_enough _ _ H) (ln_open _ _ H))) as G. cbv beta in G.
  destruct G as (G1 & _ & G2 & G3 & _). by apply (linked_spent true _ b).
Qed.
Lemma setting_linked open b b' : linked open b -> exec b' = exec b -> link b' = link b -> session b' = session b ->
  session_initialized b' = session_initialized b -> linked open b'.
Proof.
  intros [[] Hf Ho] E1 E2 E3 E4. split; [split| |].
  - by rewrite E1.
  - by rewrite E2.
  - by rewrite E2.
  - unfold session_ok in *. by rewrite E2, E3, E4.
  - by rewrite E1.
  - unfold ready, dismantled in *. destruct open; by rewrite E2, ?E3, E4.
Qed.

(** ** The device *)

Abbreviation ops := serial_backend_ops.
Abbreviation dev_t := (device st).
Definition dev_linked (d : dev_t) : Prop := linked (backend_is_open d) (NioDevice.backend d).

Lemma close_backend_linked (d : dev_t) : dev_linked d -> dev_linked (close_backend ops d) /\
  backend_is_open (close_backend ops d) = false.
Proof.
  unfold dev_linked, close_backend. intros H. destruct (backend_is_open d) eqn:Eo; cbn [negb].
  - split; [|done]. by eapply (close_linked true).
  - by rewrite Eo.
Qed.
Lemma ensure_open_linked (d : dev_t) :
  dev_linked d ->
  let '(r, d') := ensure_backend_open ops d in
  dev_linked d' /\ (r = FN_OK -> backend_is_open d' = true).
Proof.
  unfold dev_linked, ensure_backend_open. intros H. destruct (backend_is_open d) eqn:Eo; [by rewrite Eo|]. cbn -[backend_open].
  pose proof (open_linked _ H) as G. destruct (returned _ _ _) as [r b].
  destruct (Z.eqb_spec r FN_OK); cbn; [done|]. by rewrite Eo.
Qed.

(** Nothing but the backend's calls changes the two. *)
Definition same_backend (d d' : dev_t) : Prop :=
  NioDevice.backend d' = NioDevice.backend d /\ backend_is_open d' = backend_is_open d /\ freed d' = freed d.
(** The flag and the backend agree, and both are down once the device is
    gone. *)
Definition dev_coherent (d : dev_t) : Prop := dev_linked d /\ (freed d = true -> backend_is_open d = false).
Lemma same_coherent d d' : same_backend d d' -> dev_coherent d -> dev_coherent d'.
Proof. intros (E1 & E2 & E3). unfold dev_coherent, dev_linked. by rewrite E1, E2, E3. Qed.

Lemma same_begin r alloc d : same_backend d (device_begin_io size r alloc d).
Proof.
  unfold device_begin_io, enqueue. destruct (begin_io_check _ _); [done|]. destruct alloc; [|done].
  cbv zeta. by destruct (_ && _).
Qed.
Lemma same_abort r d : same_backend d (device_abort_io r d).
Proof.
  unfold device_abort_io. destruct (fujinet_io_queue_remove_request _ _) as [[p|] q]; [done|].
  by destruct (_ && _).
Qed.
Lemma same_open r u d : same_backend d (device_open r u d).2.
Proof. unfold device_open. by destruct (negb _). Qed.
Lemma same_close r d : same_backend d (close_request r d).2.
Proof.
  unfold close_request. destruct (fujinet_io_queue_remove_request _ _) as [[p|] q]; cbv zeta;
    by destruct (negb _).
Qed.
Lemma same_wake d : same_backend d (worker_wake d).2.
Proof. unfold worker_wake. cbv zeta. by destruct (worker_stop _). Qed.
Lemma same_take d : same_backend d (pump_take d).2.
Proof.
  unfold pump_take, dequeue_next. destruct (fujinet_io_queue_next _ _ _ _ _) as [[p|] q]; done.
Qed.
Lemma same_complete r f d : same_backend d (complete r f d).
Proof. unfold complete. cbv zeta. by destruct (in_progress_aborted _). Qed.
Lemma same_expunge_test d : same_backend d (expunge_test d).2.
Proof. unfold expunge_test. by destruct (_ || _). Qed.
Lemma same_stop d : same_backend d (stop_request d).
Proof. unfold stop_request. by destruct (worker_process d). Qed.

Lemma expunge_finish_coherent d : dev_coherent d -> dev_coherent (expunge_finish ops d).2.
Proof.
  intros [H Hf]. unfold expunge_finish. destruct (worker_process d); [done|]. cbn [snd].
  destruct (close_backend_linked _ H) as [Hc Ho]. split; [exact Hc|]. intros _. exact Ho.
Qed.
Lemma exchange_body_linked r d : dev_linked d -> dev_linked (exchange_body ops r d).2.
Proof.
  intros H. unfold exchange_body. pose proof (ensure_open_linked _ H) as G.
  destruct (ensure_backend_open ops d) as [e d1]. destruct G as [G Ho]. destruct (Z.eqb_spec e FN_OK) as [He|]; [|done].
  specialize (Ho He). cbn [backend_exchange_fn serial_backend_ops]. cbv zeta. unfold dev_linked in G. rewrite Ho in G.
  match goal with |- context [returned (SerialBackend.backend_exchange _ _ _ ?q ?n ?a ?c) ?f ?b] =>
    pose proof (exchange_linked b q n a c f G) as Gx end.
  destruct (returned _ _ _) as [[[[result response] len] diag] b]. cbn [snd] in Gx.
  set (d2 := on_req _ _ _). assert (G2 : dev_linked d2) by (unfold dev_linked; cbn; by rewrite Ho). clearbody d2.
  destruct (backend_diagnostics _ _) as [[de ne] ns]. destruct (_ || _); [|done]. by apply close_backend_linked.
Qed.

Lemma control_body_linked r d : dev_linked d -> dev_linked (control_body ops r d).2.
Proof.
  intros H. destruct (close_backend_linked _ H) as [Hc Ho]. unfold control_body.
  set (dc := close_backend ops d) in *. clearbody dc.
  assert (Hset : forall b, linked false b -> dev_linked (set_backend b dc))
    by (intros b Hb; unfold dev_linked; cbn; by rewrite Ho).
  unfold dev_linked in Hc. rewrite Ho in Hc.
  destruct (_ =? FUJINET_NIO_CMD_SET_BAUD).
  { cbn [backend_set_baud_fn serial_backend_ops]. unfold returned, SerialBackend.backend_set_baud. cbv zeta.
    destruct (_ || _); cbn; [by apply Hset|]. apply Hset. by eapply setting_linked. }
  destruct (_ =? FUJINET_NIO_CMD_GET_BAUD); [done|].
  destruct (_ =? FUJINET_NIO_CMD_SET_SERIAL).
  { cbn [backend_set_serial_fn serial_backend_ops]. cbv zeta.
    destruct (fujinet_nio_serial_decode _ _ _ _) as [e [[unit name]|]]; [|unfold dev_linked; cbn; by rewrite Ho].
    destruct (negb (e =? FN_OK)); [unfold dev_linked; cbn; by rewrite Ho|].
    unfold returned, SerialBackend.backend_set_serial. destruct (negb (fujinet_nio_serial_name_ok _)); cbn; [by apply Hset|].
    apply Hset. by eapply setting_linked. }
  destruct (_ =? FUJINET_NIO_CMD_GET_SERIAL); [|done].
  cbn [backend_get_serial_fn serial_backend_ops]. cbv zeta. destruct (returned _ _ _).1 as [unit name].
  by destruct (fujinet_nio_serial_encode _ _ _ _ _) as [[e response] len].
Qed.

(** ** The system *)

Lemma step_coherent s s' :
  reachable ops size s -> sys_step ops size s s' -> dev_coherent (dev s) -> dev_coherent (dev s').
Proof.
  intros Hreach.
  assert (Hexp : forall s, dev_coherent (dev s) -> dev_coherent (dev (start_expunge ops s))).
  { intros s0 H. unfold start_expunge. pose proof (same_expunge_test (dev s0)) as Ht.
    destruct (expunge_test (dev s0)) as [[] d]; cbn [snd] in Ht; pose proof (same_coherent _ _ Ht H) as Hd; [|done].
    destruct (worker_process d); [exact (same_coherent _ _ (same_stop d) Hd)|]. by apply expunge_finish_coherent. }
  intros Hstep. revert Hreach. destruct Hstep; intros Hreach G; cbn [dev with_dev].
  - exact G.
  - exact (same_coherent _ _ (same_begin _ _ _) G).
  - exact (same_coherent _ _ (same_abort _ _) G).
  - exact (same_coherent _ _ (same_open _ _ _) G).
  - unfold close_step. pose proof (same_close r (dev s)) as Hc. destruct (close_request r (dev s)) as [[] d];
      pose proof (same_coherent _ _ Hc G) as Hd; [by apply Hexp|done].
  - by apply Hexp.
  - by apply expunge_finish_coherent.
  - exact (same_coherent _ _ (same_wake _) G).
  - exact (same_coherent _ _ (same_take _) G).
  - destruct (reachable_ok ops size s Hreach) as [es Hok].
    destruct (running size s es Hok ltac:(congruence)) as (_ & _ & Hf).
    assert (Hb : freed b.2 = freed (dev s)).
    { unfold b. destruct (is_exchange _ _); [apply (fr_freed _ _ _ (exchange_body_frame ops r (dev s)))|].
      apply (fr_freed _ _ _ (control_body_frame ops r (dev s))). }
    split; [|rewrite Hb; congruence]. destruct G as [G _]. unfold b.
    destruct (is_exchange _ _); [by apply exchange_body_linked|by apply control_body_linked].
  - exact (same_coherent _ _ (same_complete _ _ _) G).
Qed.
Lemma steps_coherent s0 s :
  rtc (sys_step ops size) s0 s -> reachable ops size s0 -> dev_coherent (dev s0) -> dev_coherent (dev s).
Proof.
  induction 1 as [|s0 s1 s2 Hstep _ IH]; [done|]. intros Hr H. apply IH; [by eapply reachable_step|].
  by eapply step_coherent.
Qed.

Lemma boot_linked (e : E) : (budget e < flush_fuel)%nat -> linked false (boot e).
Proof. intros H. split; [apply sound_boot|done|done]. Qed.

Lemma initial_linked s e :
  initial s -> NioDevice.backend (dev s) = boot e -> (budget e < flush_fuel)%nat -> dev_linked (dev s).
Proof.
  intros (segments & sig & memory & requests & b & Hd & _) Hb Hf. unfold device_init in Hd. cbn in Hd.
  destruct (sig <? 0); [done|]. injection Hd as Hd. rewrite <-Hd in *. cbn in Hb. subst b. unfold dev_linked. cbn.
  by apply boot_linked.
Qed.

(** C24: nio.device over the serial backend, from boot, whatever its clients
    do: exec's rules are kept by the backend; it is ready for exchanges when
    and only when the device's [backend_is_open] says so, and otherwise it
    holds no port, no request, no device and no session; so it holds none
    when the device has been expunged. *)
Theorem device_backend_coherent s0 s e :
  (budget e < flush_fuel)%nat -> initial s0 -> NioDevice.backend (dev s0) = boot e ->
  rtc (sys_step ops size) s0 s ->
  sound (NioDevice.backend (dev s)) /\
  (if backend_is_open (dev s) then ready (NioDevice.backend (dev s)) = true
   else dismantled (NioDevice.backend (dev s))) /\
  (freed (dev s) = true -> dismantled (NioDevice.backend (dev s))).
Proof.
  intros Hf Hi Hb Hs. assert (H0 : dev_coherent (dev s0)).
  { split; [by eapply initial_linked|]. destruct Hi as (segments & sig & memory & requests & b & Hd & _).
    unfold device_init in Hd. cbn in Hd. destruct (sig <? 0); [done|]. injection Hd as Hd. by rewrite <-Hd. }
  destruct (steps_coherent _ _ Hs (reachable_init _ _ _ Hi) H0) as [[] Hg]. split; [done|]. split; [done|].
  intros Hfr. by rewrite (Hg Hfr) in ln_open0.
Qed.
End NioSerial.

(** ** A run

    A client's exchange over [peer], then an expunge: what the worker does
    until the device is freed. *)

#[local] Existing Instance fn_lib_nio.
Definition peer_ops : backend_ops (SerialBackend.backend wire Z) :=
  serial_backend_ops (wire_env true) counted_session 16.
Definition peer_request : FujiNetNIORequest :=
  mkReq 0 false FUJINET_NIO_CMD_EXCHANGE 1 0 54 0 (Some [1; 2]) 2 (Some (zeros 3)) 3 0 0 [0; 0; 0].
Definition peer_base : device (SerialBackend.backend wire Z) :=
  mkDevice 0 0 0 (mkQueue None None) None NIO_WORKER_IDLE false false false 0 false false false
    ∅ (fun _ => peer_request) (boot peer) [] false.
Definition peer_init : system (SerialBackend.backend wire Z) :=
  mkSystem (default peer_base (device_init 77 true true 20 peer_base)) WWait false [].
Abbreviation psys := (system (SerialBackend.backend wire Z)).

Definition sys_begin (s : psys) : psys :=
  mkSystem (device_begin_io 54 1 (Some 1%positive) (dev s)) (worker s) (expunging s) (begun s ++ [1]).
Definition sys_wake (s : psys) : psys :=
  mkSystem (worker_wake (dev s)).2 (if (worker_wake (dev s)).1 then WTop else WExit) (expunging s) (begun s).
Definition sys_take (s : psys) : psys :=
  mkSystem (pump_take (dev s)).2 (match (pump_take (dev s)).1 with Some r => WRun r | None => WWait end)
    (expunging s) (begun s).
Definition sys_body (s : psys) : psys :=
  let b := if is_exchange 1 (dev s) then exchange_body peer_ops 1 (dev s) else control_body peer_ops 1 (dev s) in
  mkSystem b.2 (WDone 1 b.1) (expunging s) (begun s).
Definition sys_done (s : psys) : psys :=
  match worker s with
  | WDone r o => mkSystem (complete r (if is_exchange r (dev s) then exchange_reply o else control_reply o) (dev s))
                   WTop (expunging s) (begun s)
  | _ => s
  end.
Definition peer_served : psys := sys_done (sys_body (sys_take (sys_wake (sys_begin peer_init)))).
Definition peer_stopping : psys := sys_wake (start_expunge peer_ops (sys_take peer_served)).
Definition peer_freed : psys :=
  mkSystem (expunge_finish peer_ops (dev peer_stopping)).2 (worker peer_stopping) false (begun peer_stopping).

Lemma peer_served_steps : rtc (sys_step peer_ops 54) peer_init peer_served.
Proof.
  eapply rtc_l; [apply (step_begin peer_ops 54 peer_init 1 (Some 1%positive)); try reflexivity; by intros ? [= <-]|].
  eapply rtc_l; [apply (step_wake peer_ops 54 (sys_begin peer_init)); vm_compute; reflexivity|].
  eapply rtc_l; [apply (step_take peer_ops 54 (sys_wake (sys_begin peer_init))); vm_compute; reflexivity|].
  eapply rtc_l; [apply (step_body peer_ops 54 (sys_take (sys_wake (sys_begin peer_init))) 1); vm_compute; reflexivity|].
  eapply rtc_l; [|apply rtc_refl].
  set (s := sys_body (sys_take (sys_wake (sys_begin peer_init)))). change peer_served with (sys_done s).
  assert (Hw : exists o, worker s = WDone 1 o) by by eexists. destruct Hw as [o Hw].
  unfold sys_done. rewrite Hw. by apply (step_done peer_ops 54 s 1 o).
Qed.
Lemma peer_freed_steps : rtc (sys_step peer_ops 54) peer_init peer_freed.
Proof.
  transitivity peer_served; [apply peer_served_steps|].
  eapply rtc_l; [apply (step_take peer_ops 54 peer_served); vm_compute; reflexivity|].
  eapply rtc_l; [apply (step_expunge peer_ops 54 (sys_take peer_served)); [vm_compute; reflexivity|left; vm_compute; reflexivity]|].
  eapply rtc_l; [apply (step_wake peer_ops 54 (start_expunge peer_ops (sys_take peer_served))); vm_compute; reflexivity|].
  eapply rtc_l; [|apply rtc_refl]. apply (step_expunge_end peer_ops 54 peer_stopping). vm_compute. reflexivity.
Qed.

Lemma device_backend_coherent_witness :
  fn_nio_error (reqs (dev peer_served) 1) = FN_OK /\ fn_response_data (reqs (dev peer_served) 1) = Some [65; 66; 0] /\
  backend_is_open (dev peer_served) = true /\ freed (dev peer_freed) = true /\
  dismantled (NioDevice.backend (dev peer_freed)).
Proof.
  split; [vm_compute; reflexivity|]. split; [vm_compute; reflexivity|]. split; [vm_compute; reflexivity|].
  assert (Hf : freed (dev peer_freed) = true) by (vm_compute; reflexivity). split; [exact Hf|].
  assert (Hb : (wire_budget peer < 16)%nat) by (apply Nat.ltb_lt; reflexivity).
  assert (Hi : initial peer_init) 
    by (exists 77, 20, ∅, (fun _ => peer_request), (boot peer); split_and!; reflexivity).
  assert (Hk : NioDevice.backend (dev peer_init) = boot peer) by reflexivity.
  assert (Hs : rtc (sys_step (serial_backend_ops (wire_env true) counted_session 16) 54) peer_init peer_freed)
    by exact peer_freed_steps.
  pose proof (device_backend_coherent (wire_env true) counted_session 16 54 counted_session_ok wire_budget
              (wire_quiet true) peer_init peer_freed peer Hb Hi Hk Hs) as G.
  destruct G as (_ & _ & G). exact (G Hf).
Defined.
