(* ===== verification/ExchangeOpts.v ===== *)
(** * The exchange tool's options and packets
    (amiga/tools/fujinet_nio_exchange_opts.c)

    The command line of fujinet-nio-exchange, the plan of a trial, the lines
    it logs and the FujiBus packets it sends.  [opts_valid] says which
    options make sense, in its three modes; the parser accepts exactly the
    command lines that ask for them. *)

From S2P Require Import PaulaUart Prelude CString CLib FnLib SerialConfig.
#[local] Open Scope Z_scope.

(** ** fujinet_nio_exchange_opts.h *)

Definition FN_NIO_EXCHANGE_TYPE_CLOCK : Z := 1.
Definition FN_NIO_EXCHANGE_TYPE_HOST_GET : Z := 2.
Definition FN_NIO_EXCHANGE_TYPE_FILE_LIST : Z := 3.
Definition FN_NIO_EXCHANGE_TYPE_DISK_READ : Z := 4.
Definition FN_NIO_EXCHANGE_TYPE_DISK_WRITE : Z := 5.
Definition FN_NIO_EXCHANGE_BACKEND_COLD : Z := 1.
Definition FN_NIO_EXCHANGE_BACKEND_WARM : Z := 2.
Definition FN_NIO_EXCHANGE_INSTALLED_SERIAL : Z := 0.
Definition FN_NIO_EXCHANGE_INSTALLED_NATIVE : Z := 1.
Definition FN_NIO_EXCHANGE_STEP_GET_BAUD : Z := 1.
Definition FN_NIO_EXCHANGE_STEP_SET_BAUD : Z := 2.
Definition FN_NIO_EXCHANGE_STEP_WARMUP : Z := 3.
Definition FN_NIO_EXCHANGE_STEP_MEASURE : Z := 4.
Definition FN_NIO_EXCHANGE_STEP_GET_SERIAL : Z := 5.
Definition FN_NIO_EXCHANGE_STEP_SET_SERIAL : Z := 6.

(** A string option is the memory at the pointer, [None] for NULL. *)
Record fn_nio_exchange_opts := mkOpts {
  o_type : Z;
  o_backend : Z;
  o_installed_backend : Z;
  o_has_slot : bool;
  o_has_lba : bool;
  o_baud : Z;
  o_has_size : bool;
  o_size : Z;
  o_uri : option (list Z);
  o_slot : Z;
  o_lba : Z;
  o_provocation : bool;
  o_fixture_uri : option (list Z);
  o_disposable_fixture : bool;
  o_write_intent : bool;
  o_trials : Z;
  o_serial_device : option (list Z);
  o_serial_unit : Z;
  o_has_serial_unit : bool;
  o_has_list_flags : bool;
  o_list_flags : Z
}.

#[export] Instance eta_opts : Eta fn_nio_exchange_opts := fun o =>
  mkOpts (o_type o) (o_backend o) (o_installed_backend o) (o_has_slot o) (o_has_lba o) (o_baud o)
    (o_has_size o) (o_size o) (o_uri o) (o_slot o) (o_lba o) (o_provocation o) (o_fixture_uri o)
    (o_disposable_fixture o) (o_write_intent o) (o_trials o) (o_serial_device o) (o_serial_unit o)
    (o_has_serial_unit o) (o_has_list_flags o) (o_list_flags o).
Definition set_type : Z -> fn_nio_exchange_opts -> fn_nio_exchange_opts := ltac:(derive_setter o_type).
Definition set_backend : Z -> fn_nio_exchange_opts -> fn_nio_exchange_opts := ltac:(derive_setter o_backend).
Definition set_installed : Z -> fn_nio_exchange_opts -> fn_nio_exchange_opts := ltac:(derive_setter o_installed_backend).
Definition set_has_slot : bool -> fn_nio_exchange_opts -> fn_nio_exchange_opts := ltac:(derive_setter o_has_slot).
Definition set_has_lba : bool -> fn_nio_exchange_opts -> fn_nio_exchange_opts := ltac:(derive_setter o_has_lba).
Definition set_baud : Z -> fn_nio_exchange_opts -> fn_nio_exchange_opts := ltac:(derive_setter o_baud).
Definition set_has_size : bool -> fn_nio_exchange_opts -> fn_nio_exchange_opts := ltac:(derive_setter o_has_size).
Definition set_size : Z -> fn_nio_exchange_opts -> fn_nio_exchange_opts := ltac:(derive_setter o_size).
Definition set_uri : option (list Z) -> fn_nio_exchange_opts -> fn_nio_exchange_opts := ltac:(derive_setter o_uri).
Definition set_slot : Z -> fn_nio_exchange_opts -> fn_nio_exchange_opts := ltac:(derive_setter o_slot).
Definition set_lba : Z -> fn_nio_exchange_opts -> fn_nio_exchange_opts := ltac:(derive_setter o_lba).
Definition set_provocation : bool -> fn_nio_exchange_opts -> fn_nio_exchange_opts := ltac:(derive_setter o_provocation).
Definition set_fixture_uri : option (list Z) -> fn_nio_exchange_opts -> fn_nio_exchange_opts := ltac:(derive_setter o_fixture_uri).
Definition set_disposable : bool -> fn_nio_exchange_opts -> fn_nio_exchange_opts := ltac:(derive_setter o_disposable_fixture).
Definition set_write_intent : bool -> fn_nio_exchange_opts -> fn_nio_exchange_opts := ltac:(derive_setter o_write_intent).
Definition set_trials : Z -> fn_nio_exchange_opts -> fn_nio_exchange_opts := ltac:(derive_setter o_trials).
Definition set_serial_device : option (list Z) -> fn_nio_exchange_opts -> fn_nio_exchange_opts := ltac:(derive_setter o_serial_device).
Definition set_serial_unit : Z -> fn_nio_exchange_opts -> fn_nio_exchange_opts := ltac:(derive_setter o_serial_unit).
Definition set_has_serial_unit : bool -> fn_nio_exchange_opts -> fn_nio_exchange_opts := ltac:(derive_setter o_has_serial_unit).
Definition set_has_list_flags : bool -> fn_nio_exchange_opts -> fn_nio_exchange_opts := ltac:(derive_setter o_has_list_flags).
Definition set_list_flags : Z -> fn_nio_exchange_opts -> fn_nio_exchange_opts := ltac:(derive_setter o_list_flags).

(** After [memset], with one trial. *)
Definition opts_zero : fn_nio_exchange_opts :=
  mkOpts 0 0 0 false false 0 false 0 None 0 0 false None false false 1 None 0 false false 0.

(** ** Parsing *)

(** [None] is the result -1; [errno] is ERANGE when the number is too big. *)
Definition parse_ulong (text : list Z) : option Z :=
  if text.[0] =? 0 then None
  else
  let t := skip_space text in
  if (t.[0] =? 45) || (t.[0] =? 0) then None
  else
  let '(out, rest, erange) := strtoul t 10 in
  if negb (rest.[0] =? 0) || erange then None else Some out.

Definition allowed_baud (baud : Z) : bool :=
  (baud >=? FUJINET_SERIAL_BAUD_MIN) && (baud <=? FUJINET_SERIAL_BAUD_MAX).

Definition allowed_size (size : Z) : bool :=
  (size =? 8) || (size =? 16) || (size =? 32) || (size =? 64)
  || (size =? 128) || (size =? 256) || (size =? 420) || (size =? 512).

Definition is_none {A} (x : option A) : bool := match x with None => true | Some _ => false end.
(** [p != NULL && p[0] != '\0']. *)
Definition text_given (x : option (list Z)) : bool :=
  match x with None => false | Some t => negb (t.[0] =? 0) end.

Definition disk_type (o : fn_nio_exchange_opts) : bool :=
  (o_type o =? FN_NIO_EXCHANGE_TYPE_DISK_READ) || (o_type o =? FN_NIO_EXCHANGE_TYPE_DISK_WRITE).

Definition ordinary_disk_ok (o : fn_nio_exchange_opts) : bool :=
  disk_type o
  && (o_backend o =? FN_NIO_EXCHANGE_BACKEND_WARM) && negb (o_provocation o)
  && text_given (o_fixture_uri o)
  && (strlen (default [] (o_fixture_uri o)) <? 512) && o_disposable_fixture o
  && (negb (o_type o =? FN_NIO_EXCHANGE_TYPE_DISK_WRITE) || o_write_intent o)
  && (negb (o_type o =? FN_NIO_EXCHANGE_TYPE_DISK_READ) || negb (o_write_intent o))
  && o_has_slot o && (o_slot o >=? 1) && (o_slot o <=? 8) && o_has_lba o
  && (o_lba o <=? 8388607) && (o_baud o =? 0) && is_none (o_serial_device o)
  && negb (o_has_serial_unit o) && (o_serial_unit o =? 0) && negb (o_has_size o) && (o_size o =? 0)
  && is_none (o_uri o) && negb (o_has_list_flags o) && (o_list_flags o =? 0)
  && (o_trials o >=? 1) && (o_trials o <=? 100000).

Definition native_opts_ok (o : fn_nio_exchange_opts) : bool :=
  if ordinary_disk_ok o then true
  else if negb (is_none (o_fixture_uri o)) || o_disposable_fixture o || o_write_intent o then false
  else if negb (o_backend o =? FN_NIO_EXCHANGE_BACKEND_WARM) || negb (o_baud o =? 0)
          || negb (is_none (o_serial_device o)) || o_has_serial_unit o || negb (o_serial_unit o =? 0)
          || o_provocation o || o_has_slot o || negb (o_slot o =? 0) || o_has_lba o || negb (o_lba o =? 0)
          || (o_trials o <? 1) || (o_trials o >? 100000) then false
  else if o_type o =? FN_NIO_EXCHANGE_TYPE_CLOCK then
    negb (o_has_size o) && (o_size o =? 0) && is_none (o_uri o)
    && negb (o_has_list_flags o) && (o_list_flags o =? 0)
  else if o_type o =? FN_NIO_EXCHANGE_TYPE_FILE_LIST then
    o_has_size o && allowed_size (o_size o) && text_given (o_uri o) && (o_list_flags o <=? 255)
    && (o_has_list_flags o || (o_list_flags o =? 0))
  else false.

(** What each option does with its value; [None] is the return of -1. *)
Definition opt_type (value : list Z) (o : fn_nio_exchange_opts) : option fn_nio_exchange_opts :=
  if str_is value "clock" then Some (set_type FN_NIO_EXCHANGE_TYPE_CLOCK o)
  else if str_is value "host-get" then Some (set_type FN_NIO_EXCHANGE_TYPE_HOST_GET o)
  else if str_is value "file-list" then Some (set_type FN_NIO_EXCHANGE_TYPE_FILE_LIST o)
  else if str_is value "disk-read" then Some (set_type FN_NIO_EXCHANGE_TYPE_DISK_READ o)
  else if str_is value "disk-write" then Some (set_type FN_NIO_EXCHANGE_TYPE_DISK_WRITE o)
  else None.

Definition opt_backend (value : list Z) (o : fn_nio_exchange_opts) : option fn_nio_exchange_opts :=
  if str_is value "cold" then Some (set_backend FN_NIO_EXCHANGE_BACKEND_COLD o)
  else if str_is value "warm" then Some (set_backend FN_NIO_EXCHANGE_BACKEND_WARM o)
  else None.

Definition opt_installed (value : list Z) (o : fn_nio_exchange_opts) : option fn_nio_exchange_opts :=
  if str_is value "serial" then Some (set_installed FN_NIO_EXCHANGE_INSTALLED_SERIAL o)
  else if str_is value "native" then Some (set_installed FN_NIO_EXCHANGE_INSTALLED_NATIVE o)
  else None.

(** An option whose value is a number that has to pass a test. *)
Definition opt_number (test : Z -> bool) (store : Z -> fn_nio_exchange_opts -> fn_nio_exchange_opts)
    (value : list Z) (o : fn_nio_exchange_opts) : option fn_nio_exchange_opts :=
  match parse_ulong value with
  | Some parsed => if test parsed then Some (store parsed o) else None
  | None => None
  end.

Definition opt_baud := opt_number allowed_baud set_baud.
Definition opt_size := opt_number allowed_size (fun v o => o |> set_has_size true |> set_size v).
Definition opt_slot := opt_number (fun v => (v >=? 1) && (v <=? 8))
  (fun v o => o |> set_has_slot true |> set_slot v).
Definition opt_lba := opt_number (fun v => v <=? 4294967295)
  (fun v o => o |> set_has_lba true |> set_lba v).
Definition opt_trials := opt_number (fun v => (v >=? 1) && (v <=? 100000)) set_trials.
Definition opt_serial_unit := opt_number (fun v => v <=? 255)
  (fun v o => o |> set_serial_unit v |> set_has_serial_unit true).
Definition opt_list_flags := opt_number (fun v => v <=? 255)
  (fun v o => o |> set_has_list_flags true |> set_list_flags v).

Definition opt_serial_device (value : list Z) (o : fn_nio_exchange_opts) : option fn_nio_exchange_opts :=
  if fujinet_nio_serial_name_ok (Some value) then Some (set_serial_device (Some value) o) else None.

(** An option either takes the next argument or stands alone. *)
Inductive handler :=
  | Valued (f : list Z -> fn_nio_exchange_opts -> option fn_nio_exchange_opts)
  | Alone (f : fn_nio_exchange_opts -> fn_nio_exchange_opts).

(** The chain of [strcmp]s. *)
Definition option_handler (arg : list Z) : option handler :=
  if str_is arg "--type" then Some (Valued opt_type)
  else if str_is arg "--backend" then Some (Valued opt_backend)
  else if str_is arg "--installed-backend" then Some (Valued opt_installed)
  else if str_is arg "--baud" then Some (Valued opt_baud)
  else if str_is arg "--size" then Some (Valued opt_size)
  else if str_is arg "--uri" then Some (Valued (fun v o => Some (set_uri (Some v) o)))
  else if str_is arg "--slot" then Some (Valued opt_slot)
  else if str_is arg "--lba" then Some (Valued opt_lba)
  else if str_is arg "--fixture-uri" then Some (Valued (fun v o => Some (set_fixture_uri (Some v) o)))
  else if str_is arg "--disposable-fixture" then Some (Alone (set_disposable true))
  else if str_is arg "--write-intent" then Some (Alone (set_write_intent true))
  else if str_is arg "--provocation" then Some (Alone (set_provocation true))
  else if str_is arg "--trials" then Some (Valued opt_trials)
  else if str_is arg "--serial-device" then Some (Valued opt_serial_device)
  else if str_is arg "--serial-unit" then Some (Valued opt_serial_unit)
  else if str_is arg "--list-flags" then Some (Valued opt_list_flags)
  else None.

(** The loop over [argv], with [take_arg]: the result and [*out]. *)
Fixpoint parse_loop (args : list (list Z)) (out : fn_nio_exchange_opts) : Z * fn_nio_exchange_opts :=
  match args with
  | [] => (0, out)
  | arg :: rest =>
      match option_handler arg with
      | Some (Valued f) =>
          match rest with
          | [] => (-1, out)
          | value :: rest =>
              match f value out with
              | Some out => parse_loop rest out
              | None => (-1, out)
              end
          end
      | Some (Alone f) => parse_loop rest (f out)
      | None => (-1, out)
      end
  end.

(** The checks across options. *)
Definition opts_check (o : fn_nio_exchange_opts) : Z :=
  let staged := negb (is_none (o_fixture_uri o)) || o_disposable_fixture o || o_write_intent o in
  if (o_type o =? 0) || (o_backend o =? 0) then -1
  else if (o_installed_backend o =? FN_NIO_EXCHANGE_INSTALLED_NATIVE) && negb (native_opts_ok o) then -1
  else if o_has_serial_unit o && is_none (o_serial_device o) then -1
  else
  let rest :=
    if staged then -1
    else if o_has_list_flags o && negb (o_type o =? FN_NIO_EXCHANGE_TYPE_FILE_LIST) then -1
    else if o_type o =? FN_NIO_EXCHANGE_TYPE_FILE_LIST then
      if negb (o_has_size o) || negb (text_given (o_uri o)) then -1 else 0
    else if o_has_size o || negb (is_none (o_uri o)) then -1
    else 0 in
  if disk_type o then
    if negb (o_provocation o) then (if ordinary_disk_ok o then 0 else -1)
    else if staged then -1
    else if negb (o_provocation o) || negb (o_backend o =? FN_NIO_EXCHANGE_BACKEND_COLD)
            || (o_baud o =? 0) || (o_slot o =? 0) then -1
    else if o_has_size o || negb (is_none (o_uri o)) then -1
    else rest
  else if o_provocation o || negb (o_slot o =? 0) || negb (o_lba o =? 0) then -1
  else rest.

(** [argv] and [out] are not NULL in the source; [argv] has the name of the
    program first. *)
Definition fn_nio_exchange_opts_parse (argv : list (list Z)) : Z * fn_nio_exchange_opts :=
  let '(rc, out) := parse_loop (drop 1 argv) opts_zero in
  if rc =? 0 then (opts_check out, out) else (rc, out).

(** ** The plan of a trial *)

(** [steps[count++] = step], guarded by [max_steps]; [None] is the return of
    -1. *)
Definition add_step (max_steps step : Z) (plan : option (Z * list Z)) : option (Z * list Z) :=
  match plan with
  | None => None
  | Some (count, steps) =>
      if count >=? max_steps then None
      else Some (count + 1, put_at steps (Z.to_nat count) step)
  end.

(** The step that comes before the serial ones. *)
Definition serial_step (opts : fn_nio_exchange_opts) (max_steps : Z) (plan : option (Z * list Z))
    : option (Z * list Z) :=
  if is_none (o_serial_device opts) then plan
  else if (o_backend opts =? FN_NIO_EXCHANGE_BACKEND_COLD) || disk_type opts
  then add_step max_steps FN_NIO_EXCHANGE_STEP_SET_SERIAL plan
  else if o_backend opts =? FN_NIO_EXCHANGE_BACKEND_WARM
  then add_step max_steps FN_NIO_EXCHANGE_STEP_GET_SERIAL plan
  else None.

(** Neither pointer is NULL in the source.  The result is -1 for [None], and
    the count otherwise. *)
Definition fn_nio_exchange_opts_plan (opts : fn_nio_exchange_opts) (steps : list Z) (max_steps : Z)
    : option (Z * list Z) :=
  let add := add_step max_steps in
  if max_steps <? 1 then None
  else if disk_type opts && negb (o_provocation opts) then
    if negb (ordinary_disk_ok opts)
       || (negb (o_installed_backend opts =? FN_NIO_EXCHANGE_INSTALLED_NATIVE)
           && negb (o_installed_backend opts =? FN_NIO_EXCHANGE_INSTALLED_SERIAL)) then None
    else Some (1, put_at steps 0 FN_NIO_EXCHANGE_STEP_MEASURE)
  else if o_installed_backend opts =? FN_NIO_EXCHANGE_INSTALLED_NATIVE then
    if negb (native_opts_ok opts) || (max_steps <? 2) then None
    else Some (2, put_at (put_at steps 0 FN_NIO_EXCHANGE_STEP_WARMUP) 1 FN_NIO_EXCHANGE_STEP_MEASURE)
  else if negb (o_installed_backend opts =? FN_NIO_EXCHANGE_INSTALLED_SERIAL) then None
  else
  let plan := serial_step opts max_steps (Some (0, steps)) in
  if disk_type opts then
    plan |> add FN_NIO_EXCHANGE_STEP_SET_BAUD |> add FN_NIO_EXCHANGE_STEP_MEASURE
  else if o_backend opts =? FN_NIO_EXCHANGE_BACKEND_COLD then
    plan |> add FN_NIO_EXCHANGE_STEP_SET_BAUD |> add FN_NIO_EXCHANGE_STEP_MEASURE
  else if o_backend opts =? FN_NIO_EXCHANGE_BACKEND_WARM then
    (if negb (o_baud opts =? 0) then add FN_NIO_EXCHANGE_STEP_GET_BAUD plan else plan)
    |> add FN_NIO_EXCHANGE_STEP_WARMUP |> add FN_NIO_EXCHANGE_STEP_MEASURE
  else None.


Definition fn_nio_exchange_warm_baud_ok (want got : Z) : bool := want =? got.

Definition fn_nio_exchange_step_failure_aborts (step : Z) : bool :=
  (step =? FN_NIO_EXCHANGE_STEP_GET_BAUD) || (step =? FN_NIO_EXCHANGE_STEP_SET_BAUD)
  || (step =? FN_NIO_EXCHANGE_STEP_GET_SERIAL) || (step =? FN_NIO_EXCHANGE_STEP_SET_SERIAL).

(** ** Log lines *)

(** Result and [buf], which may be NULL. *)
Definition fn_nio_exchange_format_elapsed (timer_ok : bool) (us : Z) (buf : option (list Z)) (cap : Z)
    : Z * option (list Z) :=
  match buf with
  | None => (-1, buf)
  | Some b =>
      if cap <? 2 then (-1, buf)
      else if negb timer_ok then (0, Some (put_at (put_at b 0 45) 1 0))
      else
      let '(n, b) := snprintf b cap (decimal us) in
      (if n >=? cap then -1 else 0, Some b)
  end.

Definition trial_text (req_len resp_len : Z) (elapsed : list Z) (result cause native status backend : Z)
    : list Z :=
  let lit := bytes_of_string in
  lit "req_len=" ++ decimal req_len ++ lit " resp_len=" ++ decimal resp_len
  ++ lit " elapsed_us=" ++ c_string elapsed ++ lit " ttfb_us=- result=" ++ decimal result
  ++ lit " cause=" ++ decimal cause ++ lit " native=" ++ decimal native
  ++ lit " status=" ++ decimal status ++ lit " backend="
  ++ lit (if backend =? FN_NIO_EXCHANGE_BACKEND_COLD then "cold" else "warm").

Definition fn_nio_exchange_format_trial_log (buf : option (list Z)) (cap req_len resp_len : Z)
    (elapsed : option (list Z)) (result cause native status backend : Z) : Z * option (list Z) :=
  match buf, elapsed with
  | Some b, Some e =>
      if cap <? 1 then (-1, buf)
      else
      let '(n, b) := snprintf b cap (trial_text req_len resp_len e result cause native status backend) in
      (if n >=? cap then -1 else 0, Some b)
  | _, _ => (-1, buf)
  end.

(** ** FujiBus packets *)

Definition FN_NIO_EXCH_FILE_CMD_LIST : Z := 2.
Definition FN_NIO_EXCH_HOST_DEVICE : Z := 240.
Definition FN_NIO_EXCH_HOST_GET_CURRENT : Z := 1.
Definition FN_NIO_EXCH_HOST_VERSION : Z := 1.
Definition FN_NIO_EXCH_DISK_READ : Z := 3.
Definition FN_NIO_EXCH_DISK_WRITE : Z := 4.
Definition FN_NIO_EXCH_DISK_REQUEST_SIZE : Z := 8.
Definition FN_NIO_EXCH_DISK_SECTOR_SIZE : Z := 512.

Section Packets.
Context `{L : FnLib}.

(** [buf[FN_CHECKSUM_OFFSET] = fn_calc_packet_checksum(buf, total)]. *)
Definition seal (buf : list Z) (total : Z) : list Z :=
  put_at buf FN_CHECKSUM_OFFSET (u8 (fn_calc_packet_checksum buf total)).

(** Each builder gives its result and the buffer, which the source never
    passes as NULL. *)
Definition build_clock_command (buf : list Z) (cap command : Z) : Z * list Z :=
  if cap <? FN_HEADER_SIZE then (-1, buf)
  else
  let b := put_at (put_at buf 0 (u8 FN_DEVICE_CLOCK)) 1 (u8 command) in
  let b := fujinet_nio_put_le16 b 2 (u16 FN_HEADER_SIZE) in
  let b := put_at b 5 0 in
  (FN_HEADER_SIZE, seal b FN_HEADER_SIZE).

Definition fn_nio_exchange_build_clock_get (buf : list Z) (cap : Z) : Z * list Z :=
  build_clock_command buf cap FN_CMD_CLOCK_GET.
Definition fn_nio_exchange_build_clock_get_tz (buf : list Z) (cap : Z) : Z * list Z :=
  build_clock_command buf cap FN_CMD_CLOCK_GET_TZ.

Definition fn_nio_exchange_build_host_get (buf : list Z) (cap : Z) : Z * list Z :=
  let total := u16 (FN_HEADER_SIZE + 1) in
  if cap <? total then (-1, buf)
  else
  let b := put_at (put_at buf 0 FN_NIO_EXCH_HOST_DEVICE) 1 FN_NIO_EXCH_HOST_GET_CURRENT in
  let b := fujinet_nio_put_le16 b 2 total in
  let b := put_at (put_at b 5 0) 6 FN_NIO_EXCH_HOST_VERSION in
  (total, seal b total).

(** [list_flags] is -1 when there are none. *)
Definition fn_nio_exchange_build_file_list (buf uri : list Z) (cap max_payload_bytes list_flags : Z)
    : Z * list Z :=
  let n := strlen uri in
  let uri_len := u16 n in
  let extra := if list_flags >=? 0 then 1 else 0 in
  let payload := u16 (1 + 2 + uri_len + 2 + 2 + extra) in
  let total := u16 (FN_HEADER_SIZE + payload) in
  if list_flags >? 255 then (-1, buf)
  else if n >? 65535 then (-1, buf)
  else if (total >? cap) || (FN_HEADER_SIZE + 1 + 2 + n + 2 + 2 + extra >? cap) then (-1, buf)
  else
  let b := put_at (put_at buf 0 (u8 FN_DEVICE_FILE)) 1 FN_NIO_EXCH_FILE_CMD_LIST in
  let b := fujinet_nio_put_le16 b 2 total in
  let b := put_at (put_at (put_at b 4 0) 5 0) 6 1 in
  let b := fujinet_nio_put_le16 b 7 uri_len in
  let b := overwrite b 9 (slice uri 0 (Z.to_nat uri_len)) in
  let offset := u16 (9 + uri_len) in
  let b := fujinet_nio_put_le16 b (Z.to_nat offset) 0 in
  let offset := u16 (offset + 2) in
  let b := fujinet_nio_put_le16 b (Z.to_nat offset) (u16 max_payload_bytes) in
  let offset := u16 (offset + 2) in
  let '(b, offset) := if list_flags >=? 0 then (put_at b (Z.to_nat offset) (u8 list_flags), u16 (offset + 1))
                      else (b, offset) in
  (offset, seal b offset).

(** -1 or 0; neither packet is NULL in the source. *)
Definition fn_nio_exchange_verify_fujibus (request : list Z) (req_len : Z) (response : list Z)
    (resp_len : Z) : Z :=
  if (req_len <? FN_HEADER_SIZE) || (resp_len <? FN_HEADER_SIZE) then -1
  else if negb (response.[0] =? request.[0]) || negb (response.[1] =? request.[1]) then -1
  else
  let pkt_len := fujinet_nio_get_le16 response 2 in
  if negb (pkt_len =? resp_len) then -1
  else if negb (fn_calc_packet_checksum response (u16 resp_len) =? response.[FN_CHECKSUM_OFFSET]) then -1
  else 0.

(** The pattern of a write, [n] bytes from index [i] on. *)
Fixpoint xor_pattern (i : Z) (n : nat) : list Z :=
  match n with
  | O => []
  | S n => u8 (Z.lxor i 90) :: xor_pattern (i + 1) n
  end.

Definition build_disk_sector (buf : list Z) (cap slot lba : Z) (write : bool) : Z * list Z :=
  let payload := u16 (FN_NIO_EXCH_DISK_REQUEST_SIZE + (if write then FN_NIO_EXCH_DISK_SECTOR_SIZE else 0)) in
  let total := u16 (FN_HEADER_SIZE + payload) in
  let header := Z.to_nat FN_HEADER_SIZE in
  if (cap <? total) || (slot <? 1) || (slot >? 8) then (-1, buf)
  else
  let b := overwrite buf 0 (zeros (Z.to_nat total)) in
  let b := put_at (put_at b 0 (u8 FN_DEVICE_DISK)) 1
             (if write then FN_NIO_EXCH_DISK_WRITE else FN_NIO_EXCH_DISK_READ) in
  let b := fujinet_nio_put_le16 b 2 total in
  let b := put_at (put_at b header (u8 FN_DISK_PROTOCOL_VERSION)) (header + 1) (u8 slot) in
  let b := fujinet_nio_put_le32 b (header + 2) lba in
  let b := fujinet_nio_put_le16 b (header + 6) FN_NIO_EXCH_DISK_SECTOR_SIZE in
  let b := if write then overwrite b (header + 8) (xor_pattern 0 512) else b in
  (total, seal b total).

Definition fn_nio_exchange_build_disk_read (buf : list Z) (cap slot lba : Z) : Z * list Z :=
  build_disk_sector buf cap slot lba false.
Definition fn_nio_exchange_build_disk_write (buf : list Z) (cap slot lba : Z) : Z * list Z :=
  build_disk_sector buf cap slot lba true.
End Packets.
