(* ===== verification/ExchangeOptsProps.v ===== *)
(** * The exchange tool parses what it should

    Which options make sense, and the command line that asks for them; the
    parser is the inverse of that rendering and accepts nothing else.  The
    plan of a trial, the packets the builders emit and the responses that
    are accepted. *)

From S2P Require Import PaulaUart Prelude CString CLib FnLib SerialConfig ExchangeOpts.
#[local] Open Scope Z_scope.

(** ** Options that make sense *)

(** A numeric option: in its range when given, 0 otherwise. *)
Definition ranged (given : bool) (v : Z) (P : Z -> Prop) : Prop := if given then P v else v = 0.

(** Each field by itself. *)
Record opts_fields (o : fn_nio_exchange_opts) : Prop := {
  of_type : 0 <= o_type o <= 5;
  of_backend : 0 <= o_backend o <= 2;
  of_installed : 0 <= o_installed_backend o <= 1;
  of_baud : o_baud o = 0 \/ 300 <= o_baud o <= 230400;
  of_size : ranged (o_has_size o) (o_size o) (fun v => v ∈ [8; 16; 32; 64; 128; 256; 420; 512]);
  of_slot : ranged (o_has_slot o) (o_slot o) (fun v => 1 <= v <= 8);
  of_lba : ranged (o_has_lba o) (o_lba o) is_u32;
  of_trials : 1 <= o_trials o <= 100000;
  of_serial : forall name, o_serial_device o = Some name -> fujinet_nio_serial_name_ok (Some name) = true;
  of_unit : ranged (o_has_serial_unit o) (o_serial_unit o) is_u8;
  of_flags : ranged (o_has_list_flags o) (o_list_flags o) is_u8
}.

Definition no_fixture (o : fn_nio_exchange_opts) : Prop :=
  o_fixture_uri o = None /\ o_disposable_fixture o = false /\ o_write_intent o = false.
Definition no_serial (o : fn_nio_exchange_opts) : Prop :=
  o_serial_device o = None /\ o_has_serial_unit o = false.
Definition no_listing (o : fn_nio_exchange_opts) : Prop :=
  o_has_size o = false /\ o_uri o = None /\ o_has_list_flags o = false.
Definition is_disk (o : fn_nio_exchange_opts) : Prop :=
  o_type o = FN_NIO_EXCHANGE_TYPE_DISK_READ \/ o_type o = FN_NIO_EXCHANGE_TYPE_DISK_WRITE.
Definition text_of (x : option (list Z)) : Prop := exists t, x = Some t /\ t.[0] <> 0.

(** Reads or writes of a block of a disposable fixture on either backend:
    writes say that they mean it. *)
Record ordinary_disk (o : fn_nio_exchange_opts) : Prop := {
  od_type : is_disk o;
  od_warm : o_backend o = FN_NIO_EXCHANGE_BACKEND_WARM;
  od_plain : o_provocation o = false;
  od_fixture : exists t, o_fixture_uri o = Some t /\ t.[0] <> 0 /\ strlen t < 512;
  od_disposable : o_disposable_fixture o = true;
  od_intent : o_write_intent o = bool_decide (o_type o = FN_NIO_EXCHANGE_TYPE_DISK_WRITE);
  od_slot : o_has_slot o = true;
  od_lba : o_has_lba o = true /\ o_lba o <= 8388607;
  od_baud : o_baud o = 0;
  od_serial : no_serial o;
  od_listing : no_listing o
}.

(** A cold disk transfer over the serial line that is meant to fail. *)
Record provocation (o : fn_nio_exchange_opts) : Prop := {
  pv_type : is_disk o;
  pv_installed : o_installed_backend o = FN_NIO_EXCHANGE_INSTALLED_SERIAL;
  pv_provoked : o_provocation o = true;
  pv_cold : o_backend o = FN_NIO_EXCHANGE_BACKEND_COLD;
  pv_baud : o_baud o <> 0;
  pv_slot : o_has_slot o = true;
  pv_unit : o_has_serial_unit o = true -> o_serial_device o <> None;
  pv_fixture : no_fixture o;
  pv_listing : no_listing o
}.

(** An exchange with a service other than the disk. *)
Record plain_exchange (o : fn_nio_exchange_opts) : Prop := {
  px_type : 1 <= o_type o <= 3;
  px_backend : o_backend o <> 0;
  px_plain : o_provocation o = false;
  px_slot : o_has_slot o = false;
  px_lba : o_lba o = 0;
  px_unit : o_has_serial_unit o = true -> o_serial_device o <> None;
  px_fixture : no_fixture o;
  px_listing : if decide (o_type o = FN_NIO_EXCHANGE_TYPE_FILE_LIST)
               then o_has_size o = true /\ text_of (o_uri o) else no_listing o;
  px_native : o_installed_backend o = FN_NIO_EXCHANGE_INSTALLED_NATIVE ->
    o_type o <> FN_NIO_EXCHANGE_TYPE_HOST_GET /\ o_backend o = FN_NIO_EXCHANGE_BACKEND_WARM /\
    o_baud o = 0 /\ no_serial o /\ o_has_lba o = false
}.

Definition opts_valid (o : fn_nio_exchange_opts) : Prop :=
  opts_fields o /\ (ordinary_disk o \/ provocation o \/ plain_exchange o).

(** ** The checks are these *)

Lemma is_none_true {A} (x : option A) : is_none x = true <-> x = None.
Proof. by destruct x. Qed.
Lemma text_given_true x : text_given x = true <-> text_of x.
Proof.
  unfold text_of, text_given. split.
  - destruct x as [t|]; [|done]. intros H. exists t. split; [done|lia].
  - intros (t & -> & H). lia.
Qed.
Lemma disk_type_true o : disk_type o = true <-> is_disk o.
Proof. unfold disk_type, is_disk. rewrite orb_true_iff, !Z.eqb_eq. done. Qed.

Lemma allowed_size_true v : allowed_size v = true <-> v ∈ [8; 16; 32; 64; 128; 256; 420; 512].
Proof.
  unfold allowed_size. rewrite !orb_true_iff, !Z.eqb_eq. set_solver.
Qed.

Lemma ranged_zero given v P : ranged given v P -> given = false -> v = 0.
Proof. by intros H ->. Qed.

Section Fields.
Variable o : fn_nio_exchange_opts.
Hypothesis Ho : opts_fields o.

Lemma ordinary_disk_ok_true : ordinary_disk_ok o = true <-> ordinary_disk o.
Proof.
  unfold ordinary_disk_ok. rewrite !andb_true_iff, !orb_true_iff, !negb_true_iff, !is_none_true,
    text_given_true, disk_type_true, !Z.eqb_eq, !Z.eqb_neq, !Z.geb_le, !Z.leb_le, Z.ltb_lt.
  split.
  - intros (((((((((((((((((((((((Ty & Wa) & Pr) & Fx) & Le) & Di) & Wi) & Ri) & Hs) & S1) & S8) & Hl) & L)
      & Ba) & Se) & Hu) & Un) & Hz) & Sz) & Ur) & Hf) & Fl) & T1) & T2).
    destruct Fx as (t & Ef & Ht). rewrite Ef in Le. cbn in Le.
    split; try done; [by eauto|].
    case_bool_decide as E; destruct Wi, Ri, Ty; congruence.
  - intros [Ty Wa Pr (t & Ef & Ht & Le) Di Wi Hs [Hl L] Ba [Se Hu] (Hz & Ur & Hf)].
    destruct Ho as [_ _ _ _ Fs Fsl _ Ft _ Fu Ff]. rewrite Hs in Fsl. rewrite Hz in Fs. rewrite Hu in Fu.
    rewrite Hf in Ff. cbn in Fs, Fsl, Fu, Ff.
    split_and!; try done; try lia; [by exists t|by rewrite Ef| |].
    + rewrite Wi. case_bool_decide; [by right|by left].
    + rewrite Wi. case_bool_decide as E; [left; rewrite E; done|by right].
Qed.

(** The native backend: an ordinary disk transfer, or a warm exchange without
    options of the serial line. *)
Lemma native_opts_ok_true :
  native_opts_ok o = true <->
  ordinary_disk o \/
  (no_fixture o /\ o_backend o = FN_NIO_EXCHANGE_BACKEND_WARM /\ o_baud o = 0 /\ no_serial o
   /\ o_provocation o = false /\ o_has_slot o = false /\ o_has_lba o = false
   /\ (o_type o = FN_NIO_EXCHANGE_TYPE_CLOCK /\ no_listing o
       \/ o_type o = FN_NIO_EXCHANGE_TYPE_FILE_LIST /\ o_has_size o = true /\ text_of (o_uri o))).
Proof.
  unfold native_opts_ok. rewrite <- ordinary_disk_ok_true.
  destruct (ordinary_disk_ok o); [tauto|]. unfold no_fixture, no_serial, no_listing.
  destruct Ho as [_ _ _ _ Fs Fsl Fl Ft _ Fu Ff]. unfold ranged in *.
  rewrite <- text_given_true, <- !is_none_true.
  destruct (is_none (o_fixture_uri o)); [|cbn; split; [done|naive_solver]].
  destruct (o_disposable_fixture o); [cbn; split; [done|naive_solver]|].
  destruct (o_write_intent o); [cbn; split; [done|naive_solver]|]. cbn [negb orb].
  destruct (Z.eqb_spec (o_backend o) FN_NIO_EXCHANGE_BACKEND_WARM); [|cbn; split; [done|naive_solver]].
  destruct (Z.eqb_spec (o_baud o) 0); [|cbn; split; [done|naive_solver]].
  destruct (is_none (o_serial_device o)); [|cbn; split; [done|naive_solver]].
  destruct (o_has_serial_unit o); [cbn; split; [done|naive_solver]|]. rewrite Fu.
  destruct (o_provocation o); [cbn; split; [done|naive_solver]|].
  destruct (o_has_slot o); [cbn; split; [done|naive_solver]|]. rewrite Fsl.
  destruct (o_has_lba o); [cbn; split; [done|naive_solver]|]. rewrite Fl. cbn [negb orb Z.eqb].
  replace (o_trials o <? 1) with false by lia. replace (o_trials o >? 100000) with false by lia. cbn [orb].
  destruct (Z.eqb_spec (o_type o) FN_NIO_EXCHANGE_TYPE_CLOCK) as [E|E];
    [|destruct (Z.eqb_spec (o_type o) FN_NIO_EXCHANGE_TYPE_FILE_LIST) as [E'|E']].
  - rewrite E. unfold FN_NIO_EXCHANGE_TYPE_CLOCK, FN_NIO_EXCHANGE_TYPE_FILE_LIST.
    rewrite !andb_true_iff, !negb_true_iff, !Z.eqb_eq.
    destruct (o_has_size o); [naive_solver|]. destruct (o_has_list_flags o); naive_solver.
  - rewrite E' in *. rewrite !andb_true_iff, allowed_size_true, Z.leb_le, orb_true_iff, Z.eqb_eq.
    destruct (o_has_size o); [|naive_solver].
    destruct (o_has_list_flags o); unfold_widths; naive_solver lia.
  - split; [done|naive_solver].
Qed.

(** Staging, and what a serial unit needs. *)
Lemma no_fixture_true :
  negb (is_none (o_fixture_uri o)) || o_disposable_fixture o || o_write_intent o = false <-> no_fixture o.
Proof.
  unfold no_fixture. rewrite !orb_false_iff, negb_false_iff, is_none_true. tauto.
Qed.
Lemma unit_named : o_has_serial_unit o && is_none (o_serial_device o) = false <->
  (o_has_serial_unit o = true -> o_serial_device o <> None).
Proof. rewrite <- is_none_true. destruct (o_has_serial_unit o), (is_none _); cbn; naive_solver. Qed.
Lemma given_slot : o_slot o = 0 <-> o_has_slot o = false.
Proof. destruct Ho. unfold ranged in *. destruct (o_has_slot o); split; done || lia. Qed.
Lemma disk_apart : is_disk o -> ~ 1 <= o_type o <= 3.
Proof. intros [->| ->] ?; unfold FN_NIO_EXCHANGE_TYPE_DISK_READ, FN_NIO_EXCHANGE_TYPE_DISK_WRITE in *; lia. Qed.

(** The listing options of a type that lists nothing, and of the one that
    does. *)
Definition listing_check : bool :=
  if o_has_list_flags o && negb (o_type o =? FN_NIO_EXCHANGE_TYPE_FILE_LIST) then false
  else if o_type o =? FN_NIO_EXCHANGE_TYPE_FILE_LIST then o_has_size o && text_given (o_uri o)
  else negb (o_has_size o) && is_none (o_uri o).

Lemma listing_check_true : listing_check = true <->
  if decide (o_type o = FN_NIO_EXCHANGE_TYPE_FILE_LIST)
  then o_has_size o = true /\ text_of (o_uri o) else no_listing o.
Proof.
  unfold listing_check, no_listing. destruct (decide _) as [->|E].
  - by rewrite Z.eqb_refl, andb_false_r, andb_true_iff, text_given_true.
  - rewrite (proj2 (Z.eqb_neq _ _) E), <- is_none_true.
    destruct (o_has_list_flags o), (o_has_size o), (is_none (o_uri o)); naive_solver.
Qed.

Lemma listing_rest :
  (if o_has_list_flags o && negb (o_type o =? FN_NIO_EXCHANGE_TYPE_FILE_LIST) then -1
   else if o_type o =? FN_NIO_EXCHANGE_TYPE_FILE_LIST then
     if negb (o_has_size o) || negb (text_given (o_uri o)) then -1 else 0
   else if o_has_size o || negb (is_none (o_uri o)) then -1
   else 0) = (if negb listing_check then -1 else 0).
Proof.
  unfold listing_check. by destruct (o_has_list_flags o), (Z.eqb _ _), (o_has_size o), (text_given (o_uri o)), (is_none (o_uri o)).
Qed.

Lemma fails (b : bool) x : (if b then -1 else x) = 0 <-> b = false /\ x = 0.
Proof. destruct b; naive_solver. Qed.
Lemma holds (b : bool) : (if b then 0 else -1) = 0 <-> b = true.
Proof. by destruct b. Qed.

(** The checks across options, rearranged. *)
Lemma opts_check_eq :
  opts_check o = 0 <->
  o_type o <> 0 /\ o_backend o <> 0 /\
  (o_installed_backend o = FN_NIO_EXCHANGE_INSTALLED_NATIVE -> native_opts_ok o = true) /\
  (o_has_serial_unit o = true -> o_serial_device o <> None) /\
  if disk_type o && negb (o_provocation o) then ordinary_disk_ok o = true
  else no_fixture o /\ listing_check = true /\
    if disk_type o
    then o_backend o = FN_NIO_EXCHANGE_BACKEND_COLD /\ o_baud o <> 0 /\ o_slot o <> 0
         /\ o_has_size o = false /\ o_uri o = None
    else o_provocation o = false /\ o_slot o = 0 /\ o_lba o = 0.
Proof.
  rewrite <- unit_named. unfold opts_check. rewrite listing_rest, !fails, !orb_false_iff, !Z.eqb_neq.
  assert ((o_installed_backend o =? FN_NIO_EXCHANGE_INSTALLED_NATIVE) && negb (native_opts_ok o) = false <->
    (o_installed_backend o = FN_NIO_EXCHANGE_INSTALLED_NATIVE -> native_opts_ok o = true)) as ->.
  { destruct (Z.eqb_spec (o_installed_backend o) FN_NIO_EXCHANGE_INSTALLED_NATIVE), (native_opts_ok o);
      cbn; naive_solver. }
  destruct (disk_type o), (o_provocation o); cbn [andb negb orb];
    rewrite <- ?no_fixture_true, ?fails, ?holds, ?orb_false_iff, ?negb_false_iff, ?Z.eqb_eq, ?Z.eqb_neq, ?is_none_true;
    intuition congruence.
Qed.

Lemma disk_listing : is_disk o -> listing_check = true <-> no_listing o.
Proof.
  intros Hd. rewrite listing_check_true. apply disk_apart in Hd.
  rewrite decide_False; [done|]. intros E. apply Hd. rewrite E. split; done.
Qed.

Lemma checked_valid : opts_check o = 0 -> ordinary_disk o \/ provocation o \/ plain_exchange o.
Proof.
  intros (Ht & Hb & Hn & Hu & Hr)%opts_check_eq. pose proof disk_type_true o as Dt.
  pose proof ordinary_disk_ok_true as Od. pose proof native_opts_ok_true as Na. pose proof given_slot as Gs.
  destruct (disk_type o) eqn:E; destruct (o_provocation o) eqn:Ep; cbn [andb negb] in Hr.
  - right; left. destruct Hr as (Nf & Li & Co & Ba & Sl & Sz & Ur). apply disk_listing in Li; [|by apply Dt].
    destruct (o_has_slot o) eqn:Es; [|naive_solver].
    split; try done; [by apply Dt|]. destruct Ho. unfold FN_NIO_EXCHANGE_INSTALLED_NATIVE in Hn.
    destruct (decide (o_installed_backend o = 1)) as [Ei|]; [|unfold FN_NIO_EXCHANGE_INSTALLED_SERIAL; lia].
    destruct (proj1 Na (Hn Ei)) as [[]|(_ & _ & _ & _ & ? & _)]; congruence.
  - left. by apply Od.
  - naive_solver.
  - right; right. destruct Hr as (Nf & Li & _ & Sl & Lb). apply listing_check_true in Li. apply Gs in Sl.
    assert (~ is_disk o) as Nd by naive_solver. unfold is_disk in Nd.
    unfold FN_NIO_EXCHANGE_TYPE_DISK_READ, FN_NIO_EXCHANGE_TYPE_DISK_WRITE in Nd.
    split; try done; [destruct Ho; lia|]. intros Ei.
    destruct (proj1 Na (Hn Ei)) as [[]|(_ & ? & ? & ? & _ & ? & ? & Ty)]; [congruence|].
    split_and!; try done. intros Eh. rewrite Eh in Ty. destruct Ty as [[? _]|[? _]]; done.
Qed.

Lemma valid_checked : ordinary_disk o \/ provocation o \/ plain_exchange o -> opts_check o = 0.
Proof.
  intros Hv. apply opts_check_eq. pose proof disk_type_true o as Dt. pose proof ordinary_disk_ok_true as Od.
  pose proof native_opts_ok_true as Na. pose proof given_slot as Gs.
  destruct Hv as [Hv|[Hv|Hv]]; pose proof Hv as Hw; destruct Hw.
  - assert (disk_type o = true) as Ed by (by apply Dt). rewrite Ed, od_plain0. cbn [andb negb].
    split_and!; [destruct od_type0 as [->| ->]; done|by rewrite od_warm0| | |by apply Od].
    + intros _. apply Na. by left.
    + destruct od_serial0 as [_ ->]. done.
  - assert (disk_type o = true) as Ed by (by apply Dt). rewrite Ed, pv_provoked0. cbn [andb negb].
    destruct pv_listing0 as (? & ? & ?).
    split_and!; try done; [destruct pv_type0 as [->| ->]; done|by rewrite pv_cold0|by rewrite pv_installed0|
      by apply disk_listing|]. intros Hs%Gs. congruence.
  - assert (disk_type o = false) as Ed.
    { destruct (disk_type o); [|done]. exfalso. apply disk_apart; [by apply Dt|done]. }
    rewrite Ed, px_plain0. cbn [andb]. destruct px_fixture0 as (? & ? & ?).
    split_and!; try done; [lia|..|by apply listing_check_true|by apply Gs].
    intros Hn. destruct (px_native0 Hn) as (? & ? & ? & ? & ?). apply Na. right. split_and!; try done.
    unfold FN_NIO_EXCHANGE_TYPE_HOST_GET, FN_NIO_EXCHANGE_TYPE_CLOCK in *.
    case_decide; [right; tauto|left]. unfold FN_NIO_EXCHANGE_TYPE_FILE_LIST in *. split; [lia|done].
Qed.
End Fields.

(** ** Whatever the parser stores makes sense *)

Lemma digit_value_nonneg c : 0 <= digit_value c.
Proof. unfold digit_value, is_digit. repeat case_match; lia. Qed.
Lemma digits_nonneg base text acc : 0 <= base -> 0 <= acc -> 0 <= (digits base text acc).1.
Proof.
  intros Hb. revert acc. induction text as [|c text IH]; intros acc Ha; cbn; [done|].
  pose proof (digit_value_nonneg c). case_match; [apply IH; nia|done].
Qed.

Lemma parse_ulong_range text v : parse_ulong text = Some v -> is_u32 v.
Proof.
  unfold parse_ulong, strtoul. case_match; [done|]. case_match; [done|].
  destruct (resolve_base 10 _) as [base t] eqn:Eb.
  assert (base = 10) as -> by (unfold resolve_base in Eb; cbn in Eb; congruence).
  destruct (negb _) eqn:Ed; [case (negb _ || false); [done|]; by intros [= <-]|]. destruct (digits 10 t 0) as [u rest] eqn:Ev.
  pose proof (digits_nonneg 10 t 0) as Hu. rewrite Ev in Hu. cbn in Hu.
  destruct (Z.gtb_spec u ULONG_MAX).
  - rewrite orb_true_r. done.
  - rewrite orb_false_r. case (negb (Z.eqb _ _)); [done|]. intros [= <-]. unfold ULONG_MAX, is_u32 in *.
    case (Z.eqb _ _); [apply u32_range|lia].
Qed.

Lemma opt_number_fields test store value o o' :
  (forall v, is_u32 v -> test v = true -> opts_fields o -> opts_fields (store v o)) ->
  opts_fields o -> opt_number test store value o = Some o' -> opts_fields o'.
Proof.
  unfold opt_number. intros Hs Ho. destruct (parse_ulong value) as [v|] eqn:E; [|done].
  destruct (test v) eqn:Et; [|done]. intros [= <-]. apply Hs; [by eapply parse_ulong_range|done|done].
Qed.

Lemma handler_fields arg h o : option_handler arg = Some h -> opts_fields o ->
  match h with
  | Valued f => forall value o', f value o = Some o' -> opts_fields o'
  | Alone f => opts_fields (f o)
  end.
Proof.
  unfold option_handler. intros Hh Ho. repeat case_match; simplify_eq; intros;
    unfold opt_baud, opt_size, opt_slot, opt_lba, opt_trials, opt_serial_unit, opt_list_flags in *;
    try (eapply opt_number_fields; [|done|done]; intros v Hv Ht [];
         unfold allowed_baud, FUJINET_SERIAL_BAUD_MIN, FUJINET_SERIAL_BAUD_MAX, is_u32 in *;
         split; cbn; try done; unfold is_u8; try lia; by apply allowed_size_true).
  - unfold opt_type in *. destruct Ho. repeat case_match; simplify_eq; split; cbn; try done.
  - unfold opt_backend in *. destruct Ho. repeat case_match; simplify_eq; split; cbn; try done.
  - unfold opt_installed in *. destruct Ho. repeat case_match; simplify_eq; split; cbn; try done.
  - simplify_eq. destruct Ho. split; done.
  - simplify_eq. destruct Ho. split; done.
  - destruct Ho. split; done.
  - destruct Ho. split; done.
  - destruct Ho. split; done.
  - unfold opt_serial_device in *. destruct Ho. case_match; simplify_eq. split; cbn; try done. naive_solver.
Qed.

Lemma parse_loop_fields args o : opts_fields o -> opts_fields (parse_loop args o).2.
Proof.
  intros Ho. remember (length args) as n eqn:En. revert args o Ho En.
  induction n as [n IH] using lt_wf_ind. intros [|arg rest] o Ho ->; [done|]. cbn.
  destruct (option_handler arg) as [[f|f]|] eqn:Eh; [| |done].
  - destruct rest as [|value rest]; [done|]. destruct (f value o) as [o'|] eqn:Ef; [|done].
    apply (IH (length rest)); [cbn; lia| |done]. by eapply (handler_fields _ _ _ Eh Ho).
  - apply (IH (length rest)); [cbn; lia| |done]. by apply (handler_fields _ _ _ Eh Ho).
Qed.

Lemma opts_zero_fields : opts_fields opts_zero.
Proof. split; cbn; try done; lia. Qed.

Lemma parse_loop_result args o : (parse_loop args o).1 = 0 \/ (parse_loop args o).1 = -1.
Proof.
  remember (length args) as n eqn:En. revert args o En.
  induction n as [n IH] using lt_wf_ind. intros [|arg rest] o ->; [by left|]. cbn.
  destruct (option_handler arg) as [[f|f]|]; [| |by right].
  - destruct rest as [|value rest]; [by right|]. destruct (f value o); [|by right].
    apply (IH (length rest)); [cbn; lia|done].
  - apply (IH (length rest)); [cbn; lia|done].
Qed.

Lemma parsed_valid argv o : fn_nio_exchange_opts_parse argv = (0, o) -> opts_valid o.
Proof.
  unfold fn_nio_exchange_opts_parse. pose proof (parse_loop_fields (drop 1 argv) _ opts_zero_fields) as Hf.
  destruct (parse_loop _ _) as [rc out]. cbn in Hf. destruct (Z.eqb_spec rc 0).
  - intros [= Hc <-]. split; [done|]. by apply checked_valid.
  - intros [= -> _]. done.
Qed.

(** ** The command line that asks for some options *)

Definition type_name (t : Z) : list Z :=
  bytes_of_string (if t =? FN_NIO_EXCHANGE_TYPE_CLOCK then "clock"
    else if t =? FN_NIO_EXCHANGE_TYPE_HOST_GET then "host-get"
    else if t =? FN_NIO_EXCHANGE_TYPE_FILE_LIST then "file-list"
    else if t =? FN_NIO_EXCHANGE_TYPE_DISK_READ then "disk-read" else "disk-write").
Definition backend_name (b : Z) : list Z :=
  bytes_of_string (if b =? FN_NIO_EXCHANGE_BACKEND_COLD then "cold" else "warm").
Definition installed_name (i : Z) : list Z :=
  bytes_of_string (if i =? FN_NIO_EXCHANGE_INSTALLED_SERIAL then "serial" else "native").

(** An option with its value, when it is given. *)
Definition given_arg (given : bool) (name : string) (value : list Z) : list (list Z) :=
  if given then [bytes_of_string name; value] else [].
Definition text_arg (name : string) (text : option (list Z)) : list (list Z) :=
  match text with Some t => [bytes_of_string name; t] | None => [] end.
Definition flag_arg (given : bool) (name : string) : list (list Z) :=
  if given then [bytes_of_string name] else [].

Definition render (o : fn_nio_exchange_opts) : list (list Z) :=
  given_arg true "--type" (type_name (o_type o))
  ++ given_arg true "--backend" (backend_name (o_backend o))
  ++ given_arg true "--installed-backend" (installed_name (o_installed_backend o))
  ++ given_arg (negb (o_baud o =? 0)) "--baud" (decimal (o_baud o))
  ++ given_arg (o_has_size o) "--size" (decimal (o_size o))
  ++ text_arg "--uri" (o_uri o)
  ++ given_arg (o_has_slot o) "--slot" (decimal (o_slot o))
  ++ given_arg (o_has_lba o) "--lba" (decimal (o_lba o))
  ++ text_arg "--fixture-uri" (o_fixture_uri o)
  ++ flag_arg (o_disposable_fixture o) "--disposable-fixture"
  ++ flag_arg (o_write_intent o) "--write-intent"
  ++ flag_arg (o_provocation o) "--provocation"
  ++ given_arg true "--trials" (decimal (o_trials o))
  ++ text_arg "--serial-device" (o_serial_device o)
  ++ given_arg (o_has_serial_unit o) "--serial-unit" (decimal (o_serial_unit o))
  ++ given_arg (o_has_list_flags o) "--list-flags" (decimal (o_list_flags o)).

Lemma parse_ulong_decimal v : is_u32 v -> parse_ulong (decimal v) = Some v.
Proof.
  intros Hv. pose proof (strtoul_decimal v Hv) as E.
  destruct (decimal_cons v) as (c & t & Ec & Hc); [unfold is_u32 in Hv; lia|]. unfold parse_ulong.
  assert (skip_space (decimal v) = decimal v) as Es.
  { rewrite Ec. cbn. by replace (is_space c) with false by (unfold is_space; lia). }
  rewrite Es, E, Ec. change ((c :: t).[0]) with c.
  replace (c =? 0) with false by lia. by replace (c =? 45) with false by lia.
Qed.

Lemma opt_number_decimal test store v o :
  is_u32 v -> test v = true -> opt_number test store (decimal v) o = Some (store v o).
Proof. intros Hv Ht. unfold opt_number. by rewrite parse_ulong_decimal, Ht. Qed.

(** One step of the loop over a rendered option, which leads to [o']. *)
Lemma loop_given given name f value rest o o' :
  option_handler (bytes_of_string name) = Some (Valued f) ->
  (given = true -> f value o = Some o') -> (given = false -> o' = o) ->
  parse_loop (given_arg given name value ++ rest) o = parse_loop rest o'.
Proof. intros Hh Ht Hf. destruct given; cbn; [by rewrite Hh, Ht|by rewrite Hf]. Qed.
Lemma loop_text name f text rest o o' :
  option_handler (bytes_of_string name) = Some (Valued f) ->
  (forall t, text = Some t -> f t o = Some o') -> (text = None -> o' = o) ->
  parse_loop (text_arg name text ++ rest) o = parse_loop rest o'.
Proof. intros Hh Ht Hf. destruct text as [t|]; cbn; [by rewrite Hh, (Ht t)|by rewrite Hf]. Qed.
Lemma loop_flag given name f rest o o' :
  option_handler (bytes_of_string name) = Some (Alone f) ->
  (given = true -> f o = o') -> (given = false -> o' = o) ->
  parse_loop (flag_arg given name ++ rest) o = parse_loop rest o'.
Proof. intros Hh Ht Hf. destruct given; cbn; [by rewrite Hh, Ht|by rewrite Hf]. Qed.

(** The next option of the command line takes the options to [o']. *)
Ltac parsed o' :=
  etransitivity;
  [ lazymatch goal with
    | |- parse_loop (given_arg _ _ _ ++ _) _ = _ => eapply (loop_given _ _ _ _ _ _ o')
    | |- parse_loop (text_arg _ _ ++ _) _ = _ => eapply (loop_text _ _ _ _ _ o')
    | |- parse_loop (flag_arg _ _ ++ _) _ = _ => eapply (loop_flag _ _ _ _ _ o')
    end; [reflexivity|intros|intros] |].
(** What a given number stores, and that one that is not given is 0. *)
Ltac number_stored :=
  unfold ranged, is_u8, is_u32, allowed_baud, FUJINET_SERIAL_BAUD_MIN, FUJINET_SERIAL_BAUD_MAX in *;
  subst; cbv beta iota in *; subst; first
    [ apply opt_number_decimal; [unfold is_u32; lia|unfold allowed_baud, FUJINET_SERIAL_BAUD_MIN, FUJINET_SERIAL_BAUD_MAX; lia]
    | reflexivity ].

Lemma parse_rendered o : opts_fields o -> o_type o <> 0 -> o_backend o <> 0 ->
  parse_loop (render o) opts_zero = (0, o).
Proof.
  intros [Ty Ba In Bd Sz Sl Lb Tr Se Un Fl] Nt Nb.
  destruct o as [ty ba inst hs hl bd hz sz ur sl lb pr fx di wi tr se un hu hf fl].
  cbn [o_type o_backend o_installed_backend o_baud o_has_size o_size o_has_slot o_slot o_has_lba o_lba o_trials
       o_serial_device o_has_serial_unit o_serial_unit o_has_list_flags o_list_flags] in *.
  unfold render. rewrite <- (app_nil_r (given_arg hf _ _)).
  cbn [o_type o_backend o_installed_backend o_baud o_has_size o_size o_has_slot o_slot o_has_lba o_lba o_trials
       o_serial_device o_has_serial_unit o_serial_unit o_has_list_flags o_list_flags o_uri o_fixture_uri
       o_disposable_fixture o_write_intent o_provocation].
  parsed (mkOpts ty 0 0 false false 0 false 0 None 0 0 false None false false 1 None 0 false false 0); [|done|].
  { assert (ty = 1 \/ ty = 2 \/ ty = 3 \/ ty = 4 \/ ty = 5) as Hc by lia. by destruct_or! Hc; subst. }
  parsed (mkOpts ty ba 0 false false 0 false 0 None 0 0 false None false false 1 None 0 false false 0); [|done|].
  { assert (ba = 1 \/ ba = 2) as Hc by lia. by destruct_or! Hc; subst. }
  parsed (mkOpts ty ba inst false false 0 false 0 None 0 0 false None false false 1 None 0 false false 0); [|done|].
  { assert (inst = 0 \/ inst = 1) as Hc by lia. by destruct_or! Hc; subst. }
  parsed (mkOpts ty ba inst false false bd false 0 None 0 0 false None false false 1 None 0 false false 0).
  { number_stored. } { by replace bd with 0 by lia. }
  parsed (mkOpts ty ba inst false false bd hz sz None 0 0 false None false false 1 None 0 false false 0).
  { subst. apply opt_number_decimal; [|by apply allowed_size_true]. cbn in Sz. unfold is_u32. set_solver by lia. }
  { number_stored. }
  parsed (mkOpts ty ba inst false false bd hz sz ur 0 0 false None false false 1 None 0 false false 0);
    [by subst|by subst|].
  parsed (mkOpts ty ba inst hs false bd hz sz ur sl 0 false None false false 1 None 0 false false 0);
    [number_stored..|].
  parsed (mkOpts ty ba inst hs hl bd hz sz ur sl lb false None false false 1 None 0 false false 0);
    [number_stored..|].
  parsed (mkOpts ty ba inst hs hl bd hz sz ur sl lb false fx false false 1 None 0 false false 0);
    [by subst|by subst|].
  parsed (mkOpts ty ba inst hs hl bd hz sz ur sl lb false fx di false 1 None 0 false false 0); [by subst|by subst|].
  parsed (mkOpts ty ba inst hs hl bd hz sz ur sl lb false fx di wi 1 None 0 false false 0); [by subst|by subst|].
  parsed (mkOpts ty ba inst hs hl bd hz sz ur sl lb pr fx di wi 1 None 0 false false 0); [by subst|by subst|].
  parsed (mkOpts ty ba inst hs hl bd hz sz ur sl lb pr fx di wi tr None 0 false false 0); [number_stored|done|].
  parsed (mkOpts ty ba inst hs hl bd hz sz ur sl lb pr fx di wi tr se 0 false false 0); [|by subst|].
  { subst. unfold opt_serial_device. by rewrite (Se t eq_refl). }
  parsed (mkOpts ty ba inst hs hl bd hz sz ur sl lb pr fx di wi tr se un hu false 0); [number_stored..|].
  parsed (mkOpts ty ba inst hs hl bd hz sz ur sl lb pr fx di wi tr se un hu hf fl); [number_stored..|done].
Qed.

(** ** Command lines *)

(** A number, as its argument spells it: white space, a plus sign or none, and
    decimal digits up to the end, of at most 32 bits. *)
Definition number_value (ds : list Z) : Z := fold_left (fun v c => v * 10 + (c - 48)) ds 0.
Definition number (text : list Z) (v : Z) : Prop :=
  exists space sign ds, c_string text = space ++ sign ++ ds /\
    Forall (fun c => 9 <= c <= 13 \/ c = 32) space /\ (sign = [] \/ sign = [43]) /\
    ds <> [] /\ Forall (fun c => 48 <= c <= 57) ds /\ number_value ds = v /\ v < 4294967296.
(** An argument that is a word of the syntax. *)
Definition word (arg : list Z) (w : string) : Prop := c_string arg = bytes_of_string w.

(** What the arguments of one option do to the options. *)
Inductive says : list (list Z) -> fn_nio_exchange_opts -> fn_nio_exchange_opts -> Prop :=
  | says_type w v name t o : word w "--type" -> word v name ->
      (name, t) ∈ [("clock", FN_NIO_EXCHANGE_TYPE_CLOCK); ("host-get", FN_NIO_EXCHANGE_TYPE_HOST_GET);
        ("file-list", FN_NIO_EXCHANGE_TYPE_FILE_LIST); ("disk-read", FN_NIO_EXCHANGE_TYPE_DISK_READ);
        ("disk-write", FN_NIO_EXCHANGE_TYPE_DISK_WRITE)] ->
      says [w; v] o (set_type t o)
  | says_backend w v name b o : word w "--backend" -> word v name ->
      (name, b) ∈ [("cold", FN_NIO_EXCHANGE_BACKEND_COLD); ("warm", FN_NIO_EXCHANGE_BACKEND_WARM)] ->
      says [w; v] o (set_backend b o)
  | says_installed w v name i o : word w "--installed-backend" -> word v name ->
      (name, i) ∈ [("serial", FN_NIO_EXCHANGE_INSTALLED_SERIAL); ("native", FN_NIO_EXCHANGE_INSTALLED_NATIVE)] ->
      says [w; v] o (set_installed i o)
  | says_baud w v n o : word w "--baud" -> number v n -> 300 <= n <= 230400 -> says [w; v] o (set_baud n o)
  | says_size w v n o : word w "--size" -> number v n -> n ∈ [8; 16; 32; 64; 128; 256; 420; 512] ->
      says [w; v] o (o |> set_has_size true |> set_size n)
  | says_uri w v o : word w "--uri" -> says [w; v] o (set_uri (Some v) o)
  | says_slot w v n o : word w "--slot" -> number v n -> 1 <= n <= 8 ->
      says [w; v] o (o |> set_has_slot true |> set_slot n)
  | says_lba w v n o : word w "--lba" -> number v n -> says [w; v] o (o |> set_has_lba true |> set_lba n)
  | says_fixture w v o : word w "--fixture-uri" -> says [w; v] o (set_fixture_uri (Some v) o)
  | says_disposable w o : word w "--disposable-fixture" -> says [w] o (set_disposable true o)
  | says_intent w o : word w "--write-intent" -> says [w] o (set_write_intent true o)
  | says_provocation w o : word w "--provocation" -> says [w] o (set_provocation true o)
  | says_trials w v n o : word w "--trials" -> number v n -> 1 <= n <= 100000 -> says [w; v] o (set_trials n o)
  | says_device w v o : word w "--serial-device" -> fujinet_nio_serial_name_ok (Some v) = true ->
      says [w; v] o (set_serial_device (Some v) o)
  | says_unit w v n o : word w "--serial-unit" -> number v n -> n <= 255 ->
      says [w; v] o (o |> set_serial_unit n |> set_has_serial_unit true)
  | says_flags w v n o : word w "--list-flags" -> number v n -> n <= 255 ->
      says [w; v] o (o |> set_has_list_flags true |> set_list_flags n).
(** A command line is options one after another; a later one overrides. *)
Inductive command_line : list (list Z) -> fn_nio_exchange_opts -> fn_nio_exchange_opts -> Prop :=
  | line_end o : command_line [] o o
  | line_option words rest o o' o'' : says words o o' -> command_line rest o' o'' -> command_line (words ++ rest) o o''.

(** *** Numbers *)

Lemma c_string_until a rest : Forall (fun c => c <> 0) a -> rest.[0] = 0 -> c_string (a ++ rest) = a.
Proof.
  intros Ha Hr. destruct rest as [|c rest].
  - rewrite app_nil_r. induction Ha as [|c a Hc _ IH]; cbn; [done|]. destruct (Z.eqb_spec c 0); [done|]. by rewrite IH.
  - change (c = 0) in Hr. subst c. by apply c_string_app.
Qed.
Lemma c_string_memory b : exists rest, b = c_string b ++ rest /\ rest.[0] = 0.
Proof.
  induction b as [|c b (rest & E & Hr)]; [by exists []|]. cbn. destruct (Z.eqb_spec c 0) as [->|]; [by exists (0 :: b)|].
  exists rest. cbn. by rewrite <- E.
Qed.
Lemma skip_space_split text : exists space, text = space ++ skip_space text /\
  Forall (fun c => 9 <= c <= 13 \/ c = 32) space.
Proof.
  induction text as [|c text (space & E & H)]; [by exists []|]. cbn. destruct (is_space c) eqn:Ec; [|by exists []].
  exists (c :: space). cbn. rewrite <- E. split; [done|]. constructor; [|done]. unfold is_space in Ec. lia.
Qed.
Lemma skip_space_app space rest : Forall (fun c => 9 <= c <= 13 \/ c = 32) space -> is_space rest.[0] = false ->
  skip_space (space ++ rest) = rest.
Proof.
  intros H Hr. induction H as [|c space Hc _ IH]; cbn.
  - destruct rest as [|c rest]; [done|]. cbn. by change ((c :: rest).[0]) with c in Hr; rewrite Hr.
  - replace (is_space c) with true by (unfold is_space; lia). done.
Qed.
Lemma skip_space_head text : is_space (skip_space text).[0] = false.
Proof. induction text as [|c text IH]; [done|]. cbn. destruct (is_space c) eqn:E; [done|exact E]. Qed.
Lemma skip_space_idem text : skip_space (skip_space text) = skip_space text.
Proof. exact (skip_space_app [] _ (Forall_nil_2 _) (skip_space_head text)). Qed.
Lemma digit_value_digit c : digit_value c < 10 <-> 48 <= c <= 57.
Proof. unfold digit_value, is_digit. repeat case_match; lia. Qed.
Lemma digits_split text : forall acc, exists ds rest, text = ds ++ rest /\ Forall (fun c => 48 <= c <= 57) ds /\
  digits 10 text acc = (fold_left (fun v c => v * 10 + (c - 48)) ds acc, rest).
Proof.
  induction text as [|c text IH]; intros acc; [by exists [], []|]. cbn. destruct (Z.ltb_spec (digit_value c) 10) as [H|H].
  - destruct (IH (acc * 10 + digit_value c)) as (ds & rest & -> & Hd & E). exists (c :: ds), rest. apply digit_value_digit in H.
    split; [done|]. split; [by constructor|]. rewrite E. cbn. unfold digit_value, is_digit.
    by replace ((48 <=? c) && (c <=? 57)) with true by lia.
  - by exists [], (c :: text).
Qed.
Lemma digits_all ds rest : Forall (fun c => 48 <= c <= 57) ds -> rest.[0] = 0 -> forall acc,
  digits 10 (ds ++ rest) acc = (fold_left (fun v c => v * 10 + (c - 48)) ds acc, rest).
Proof.
  intros H Hr. induction H as [|c ds Hc _ IH]; intros acc.
  - destruct rest as [|c rest]; [done|]. change (c = 0) in Hr. subst c. done.
  - cbn [app]. rewrite digits_step by by apply digit_value_digit. rewrite IH. cbn. unfold digit_value, is_digit.
    by replace ((48 <=? c) && (c <=? 57)) with true by lia.
Qed.

Lemma parse_ulong_number text v : parse_ulong text = Some v <-> number text v.
Proof.
  split.
  - unfold parse_ulong, strtoul. cbv zeta. destruct (Z.eqb_spec text.[0] 0); [done|].
    rewrite skip_space_idem. destruct (skip_space_split text) as (space & Et & Hs). set (t := skip_space text) in *.
    destruct ((t.[0] =? 45) || (t.[0] =? 0)) eqn:E1; [done|]. apply orb_false_iff in E1 as [-> E0]. cbn [orb].
    set (t1 := if t.[0] =? 43 then drop 1 t else t).
    assert (exists sign, t = sign ++ t1 /\ (sign = [] \/ sign = [43])) as (sign & Esign & Hsign).
    { unfold t1. destruct (Z.eqb_spec t.[0] 43) as [E43|]; [|exists []; by auto]. exists [43].
      destruct t as [|c t']; [done|]. change (c = 43) in E43. subst c. by auto. }
    clearbody t1. unfold resolve_base. change (10 =? 0) with false. change (10 =? 16) with false. cbn [andb orb].
    destruct (Z.ltb_spec (digit_value t1.[0]) 10) as [Hd|]; cbn [negb].
    2:{ by rewrite E0. }
    destruct (digits_split t1 0) as (ds & rest & Er & Hds & ->). unfold ULONG_MAX.
    destruct (Z.gtb_spec (fold_left (fun v c => v * 10 + (c - 48)) ds 0) 4294967295); [by rewrite orb_true_r|].
    rewrite orb_false_r. destruct (Z.eqb_spec rest.[0] 0) as [Hr|]; [|done]. intros [= <-].
    exists space, sign, ds. split_and!; try done.
    + rewrite Et, Esign, Er, !app_assoc. apply c_string_until; [|done]. rewrite !Forall_app. split_and!.
      * eapply Forall_impl; [exact Hs|]. cbn. lia.
      * destruct Hsign as [->| ->]; repeat constructor; done.
      * eapply Forall_impl; [exact Hds|]. cbn. lia.
    + intros ->. cbn in Er. subst t1. rewrite Hr in Hd. done.
    + unfold number_value. lia.
  - intros (space & sign & ds & E & Hs & Hsign & Hn & Hds & Hv & Hb). destruct (c_string_memory text) as (rest & Et & Hr).
    destruct ds as [|d ds]; [done|]. rewrite E in Et. rewrite <- !app_assoc in Et. pose proof (Forall_inv Hds) as Hd. cbv beta in Hd.
    assert (Hspace : skip_space text = sign ++ (d :: ds) ++ rest).
    { rewrite Et. apply skip_space_app; [done|]. unfold is_space. by destruct Hsign as [->| ->]; cbn; [lia|]. }
    unfold parse_ulong, strtoul. cbv zeta. rewrite skip_space_idem, Hspace. clear Hspace.
    assert (text.[0] <> 0) as Ht.
    { rewrite Et. destruct space as [|c space]; [destruct Hsign as [->| ->]; cbn; lia|]. apply Forall_inv in Hs. cbn. lia. }
    destruct (Z.eqb_spec text.[0] 0); [done|]. clear Ht.
    pose proof (digits_all (d :: ds) rest Hds Hr 0) as Hdig. fold (number_value (d :: ds)) in Hdig. rewrite Hv in Hdig.
    unfold resolve_base. change (10 =? 0) with false. change (10 =? 16) with false. cbn [andb orb].
    assert (Hgo : forall t, (if negb (digit_value ((d :: ds) ++ rest).[0] <? 10) then (0, t, false)
        else let '(v, rest) := digits 10 ((d :: ds) ++ rest) 0 in
             if v >? ULONG_MAX then (ULONG_MAX, rest, true) else (v, rest, false)) = (v, rest, false)).
    { intros t. change (((d :: ds) ++ rest).[0]) with d. apply digit_value_digit in Hd. replace (digit_value d <? 10) with true by lia. cbn [negb].
      rewrite Hdig. unfold ULONG_MAX. by replace (v >? 4294967295) with false by lia. }
    destruct Hsign as [->| ->].
    + cbn [app] in *. change ((d :: ds ++ rest).[0]) with d in *. replace (d =? 45) with false by lia. replace (d =? 0) with false by lia.
      replace (d =? 43) with false by lia. cbn [orb]. rewrite Hgo. by rewrite Hr.
    + cbn [app] in *. change ((43 :: d :: ds ++ rest).[0]) with 43. cbn [Z.eqb orb Pos.eqb]. rewrite skipn_cons, skipn_O, Hgo. by rewrite Hr.
Qed.
Lemma number_nonneg text v : number text v -> 0 <= v.
Proof. intros H%parse_ulong_number%parse_ulong_range. by destruct H. Qed.

(** *** Options *)

Lemma str_is_word arg w : str_is arg w = true <-> word arg w.
Proof. unfold str_is. by rewrite bool_decide_eq_true. Qed.
Lemma c_string_idem b : c_string (c_string b) = c_string b.
Proof. rewrite <- (app_nil_r (c_string b)) at 1. by apply c_string_until; [apply c_string_nonzero|]. Qed.
(** A word of the syntax has its handler, whatever follows it in memory. *)
Lemma handler_word arg w : word arg w -> option_handler arg = option_handler (bytes_of_string w).
Proof.
  intros E. assert (forall x, str_is arg x = str_is (bytes_of_string w) x) as H.
  { intros x. unfold str_is, word in *. by rewrite <- E, c_string_idem. }
  unfold option_handler. by rewrite !H.
Qed.
Lemma word_is arg w x : word arg w -> str_is arg x = bool_decide (bytes_of_string w = bytes_of_string x).
Proof. intros E. unfold str_is. by rewrite E. Qed.
Lemma opt_number_says test store v o o' :
  opt_number test store v o = Some o' <-> exists n, number v n /\ test n = true /\ o' = store n o.
Proof.
  unfold opt_number. split.
  - destruct (parse_ulong v) as [n|] eqn:E; [|done]. destruct (test n) eqn:Et; [|done]. intros [= <-].
    exists n. by rewrite <- parse_ulong_number.
  - intros (n & Hn%parse_ulong_number & Ht & ->). by rewrite Hn, Ht.
Qed.
Lemma handled_says arg h : option_handler arg = Some h ->
  match h with
  | Valued f => forall v o o', f v o = Some o' -> says [arg; v] o o'
  | Alone f => forall o, says [arg] o (f o)
  end.
Proof.
  unfold option_handler. intros Hh.
  repeat match type of Hh with (if str_is arg ?w then _ else _) = _ => destruct (str_is arg w) eqn:?Hw end;
    simplify_eq; try match goal with H : str_is arg _ = true |- _ => apply str_is_word in H end; intros v o o' E || intros o;
    try (apply opt_number_says in E as (n & Hn & Ht & ->)).
  - unfold opt_type in E. repeat case_match; simplify_eq; (eapply says_type; [done|by apply str_is_word|set_solver]).
  - unfold opt_backend in E. repeat case_match; simplify_eq; (eapply says_backend; [done|by apply str_is_word|set_solver]).
  - unfold opt_installed in E. repeat case_match; simplify_eq; (eapply says_installed; [done|by apply str_is_word|set_solver]).
  - apply says_baud; try done. unfold allowed_baud, FUJINET_SERIAL_BAUD_MIN, FUJINET_SERIAL_BAUD_MAX in Ht. lia.
  - apply says_size; try done. by apply allowed_size_true.
  - injection E as <-. by apply says_uri.
  - apply says_slot; try done. lia.
  - by apply says_lba.
  - injection E as <-. by apply says_fixture.
  - by apply says_disposable.
  - by apply says_intent.
  - by apply says_provocation.
  - apply says_trials; try done. lia.
  - unfold opt_serial_device in E. case_match; simplify_eq. by apply says_device.
  - apply says_unit; try done. lia.
  - apply says_flags; try done. lia.
Qed.
(** One option is what the loop does with its arguments. *)
Lemma says_loop words o o' rest : says words o o' -> parse_loop (words ++ rest) o = parse_loop rest o'.
Proof.
  assert (Hv : forall w v f x, word w x -> option_handler (bytes_of_string x) = Some (Valued f) -> f v o = Some o' ->
    parse_loop ([w; v] ++ rest) o = parse_loop rest o').
  { intros w v f x Hw Hx Hf. cbn. by rewrite (handler_word w x Hw), Hx, Hf. }
  assert (Ha : forall w f x, word w x -> option_handler (bytes_of_string x) = Some (Alone f) -> f o = o' ->
    parse_loop ([w] ++ rest) o = parse_loop rest o').
  { intros w f x Hw Hx Hf. cbn. by rewrite (handler_word w x Hw), Hx, Hf. }
  destruct 1 as [w v name t o Hw Hn Ht|w v name t o Hw Hn Ht|w v name t o Hw Hn Ht|w v n o Hw Hn Hr|w v n o Hw Hn Hr|w v o Hw|
    w v n o Hw Hn Hr|w v n o Hw Hn|w v o Hw|w o Hw|w o Hw|w o Hw|w v n o Hw Hn Hr|w v o Hw Hr|w v n o Hw Hn Hr|w v n o Hw Hn Hr];
    try (by eapply Ha); (eapply Hv; [exact Hw|reflexivity|]); try done;
    try (apply opt_number_says; exists n; split; [done|]; split; [|reflexivity];
         unfold allowed_baud, FUJINET_SERIAL_BAUD_MIN, FUJINET_SERIAL_BAUD_MAX; try lia).
  - unfold opt_type. rewrite !(word_is _ _ _ Hn). set_unfold in Ht. by destruct_or! Ht; simplify_eq.
  - unfold opt_backend. rewrite !(word_is _ _ _ Hn). set_unfold in Ht. by destruct_or! Ht; simplify_eq.
  - unfold opt_installed. rewrite !(word_is _ _ _ Hn). set_unfold in Ht. by destruct_or! Ht; simplify_eq.
  - by apply allowed_size_true.
  - apply parse_ulong_number, parse_ulong_range in Hn. unfold is_u32 in Hn. lia.
  - unfold opt_serial_device. by rewrite Hr.
Qed.
Lemma parse_loop_line args o o' : parse_loop args o = (0, o') <-> command_line args o o'.
Proof.
  split.
  - remember (length args) as n eqn:En. revert args o En. induction n as [n IH] using lt_wf_ind.
    intros [|arg rest] o ->; cbn; [intros [= <-]; by constructor|].
    destruct (option_handler arg) as [[f|f]|] eqn:Eh; [| |done]; pose proof (handled_says arg _ Eh) as Hs; cbn in Hs.
    + destruct rest as [|v rest]; [done|]. destruct (f v o) as [o1|] eqn:Ef; [|done]. intros H.
      apply (line_option [arg; v] rest o o1 o'); [by apply Hs|]. apply (IH (length rest)); [cbn; lia|done|exact H].
    + intros H. apply (line_option [arg] rest o (f o) o'); [apply Hs|]. apply (IH (length rest)); [cbn; lia|done|exact H].
  - induction 1 as [o|words rest o o1 o2 Hs _ IH]; [done|]. by rewrite (says_loop _ _ _ _ Hs).
Qed.

(** C36: the parser of the exchange tool accepts exactly the command lines that
    its options make: [command_line] spells every option with its arguments,
    numbers in decimal digits after optional white space and an optional plus
    sign, a later option overriding an earlier one, and [opts_valid] says
    which options make sense together.  It accepts a line, and gives these
    options back field by field, if and only if the line says options that are
    valid; every other line is refused with -1, an unknown word, a missing
    argument, a negative or too large number among them.  And all valid
    options have a line, [render]. *)
Theorem opts_parse_exact :
  (forall argv o, fn_nio_exchange_opts_parse argv = (0, o) <-> command_line (drop 1 argv) opts_zero o /\ opts_valid o) /\
  (forall argv, ~ (exists o, command_line (drop 1 argv) opts_zero o /\ opts_valid o) -> (fn_nio_exchange_opts_parse argv).1 = -1) /\
  (forall program o, opts_valid o -> fn_nio_exchange_opts_parse (program :: render o) = (0, o)).
Proof.
  assert (Hiff : forall argv o, fn_nio_exchange_opts_parse argv = (0, o) <-> command_line (drop 1 argv) opts_zero o /\ opts_valid o).
  { intros argv o. split.
    - intros H. split; [|by eapply parsed_valid]. apply parse_loop_line. revert H. unfold fn_nio_exchange_opts_parse.
      destruct (parse_loop _ _) as [rc out]. destruct (Z.eqb_spec rc 0) as [->|]; congruence.
    - intros [H%parse_loop_line [Hf Hv]]. unfold fn_nio_exchange_opts_parse. rewrite H. cbn [Z.eqb]. by rewrite valid_checked. }
  split; [exact Hiff|]. split.
  - intros argv Hn. destruct (fn_nio_exchange_opts_parse argv) as [rc o] eqn:E.
    assert (rc = 0 \/ rc = -1) as [->| ->]; [|by destruct Hn; exists o; apply Hiff|done].
    revert E. unfold fn_nio_exchange_opts_parse. pose proof (parse_loop_result (drop 1 argv) opts_zero) as Hr.
    destruct (parse_loop _ _) as [rc' out]. cbn in Hr. destruct (Z.eqb_spec rc' 0); intros [= <- <-]; [|lia].
    unfold opts_check. repeat case_match; auto.
  - intros program o [Hf Hv]. unfold fn_nio_exchange_opts_parse. assert (opts_check o = 0) as Hc by by apply valid_checked.
    apply opts_check_eq in Hc as (Nt & Nb & _). change (drop 1 (program :: render o)) with (render o).
    rewrite parse_rendered by done. cbn [Z.eqb]. by rewrite valid_checked.
Qed.

(** ** Plans *)

(** The steps of a trial. *)
Definition plan_of (o : fn_nio_exchange_opts) : list Z :=
  if disk_type o && negb (o_provocation o) then [FN_NIO_EXCHANGE_STEP_MEASURE]
  else if o_installed_backend o =? FN_NIO_EXCHANGE_INSTALLED_NATIVE
  then [FN_NIO_EXCHANGE_STEP_WARMUP; FN_NIO_EXCHANGE_STEP_MEASURE]
  else
  (if is_none (o_serial_device o) then []
   else [if o_backend o =? FN_NIO_EXCHANGE_BACKEND_COLD
         then FN_NIO_EXCHANGE_STEP_SET_SERIAL else FN_NIO_EXCHANGE_STEP_GET_SERIAL])
  ++ (if o_backend o =? FN_NIO_EXCHANGE_BACKEND_COLD then [FN_NIO_EXCHANGE_STEP_SET_BAUD]
      else (if o_baud o =? 0 then [] else [FN_NIO_EXCHANGE_STEP_GET_BAUD]) ++ [FN_NIO_EXCHANGE_STEP_WARMUP])
  ++ [FN_NIO_EXCHANGE_STEP_MEASURE].

(** The steps [p], if there is room for them. *)
Definition planned (max_steps : Z) (steps p : list Z) : option (Z * list Z) :=
  if Z.of_nat (length p) >? max_steps then None
  else Some (Z.of_nat (length p), overwrite steps 0 p).

Lemma add_step_planned max_steps step steps p :
  max_steps <= Z.of_nat (length steps) ->
  add_step max_steps step (planned max_steps steps p) = planned max_steps steps (p ++ [step]).
Proof.
  intros Hm. unfold add_step, planned. rewrite length_app. cbn [length].
  destruct (Z.gtb_spec (Z.of_nat (length p)) max_steps), (Z.gtb_spec (Z.of_nat (length p + 1)) max_steps);
    [done|lia|..]; destruct (Z.geb_spec (Z.of_nat (length p)) max_steps); [done|lia|lia|].
  rewrite Nat2Z.id, put_at_as_overwrite by (rewrite length_overwrite; cbn; lia).
  rewrite overwrite_adjacent by (cbn; lia). do 2 f_equal. lia.
Qed.

Lemma plan_start max_steps steps : 1 <= max_steps -> Some (0, steps) = planned max_steps steps [].
Proof. intros. unfold planned. cbn [length]. destruct (Z.gtb_spec (Z.of_nat 0) max_steps); [lia|done]. Qed.

Lemma planned_fits max_steps steps p : Z.of_nat (length p) <= max_steps ->
  planned max_steps steps p = Some (Z.of_nat (length p), overwrite steps 0 p).
Proof. intros. unfold planned. destruct (Z.gtb_spec (Z.of_nat (length p)) max_steps); [lia|done]. Qed.
Lemma planned_short max_steps steps p : max_steps < Z.of_nat (length p) -> planned max_steps steps p = None.
Proof. intros. unfold planned. destruct (Z.gtb_spec (Z.of_nat (length p)) max_steps); [done|lia]. Qed.

Lemma valid_disk o : opts_valid o -> disk_type o = true ->
  if o_provocation o then provocation o else ordinary_disk o.
Proof.
  intros [_ [Hv|[Hv|Hv]]] Hd; pose proof Hv as []; [by rewrite od_plain0|by rewrite pv_provoked0|].
  exfalso. apply disk_type_true in Hd. by apply (disk_apart o).
Qed.
Lemma valid_other o : opts_valid o -> disk_type o = false -> plain_exchange o.
Proof.
  intros [_ [Hv|[Hv|Hv]]] Hd; [..|done]; pose proof Hv as []; rewrite <- not_true_iff_false, disk_type_true in Hd; done.
Qed.
Lemma valid_native o : opts_valid o -> o_installed_backend o = FN_NIO_EXCHANGE_INSTALLED_NATIVE ->
  native_opts_ok o = true.
Proof. intros [Hf Hv] Hi. apply valid_checked, opts_check_eq in Hv as (_ & _ & Hn & _); [by apply Hn|done]. Qed.

Lemma plan_eq o steps max_steps : opts_valid o -> 1 <= max_steps <= Z.of_nat (length steps) ->
  fn_nio_exchange_opts_plan o steps max_steps = planned max_steps steps (plan_of o).
Proof.
  intros Hv Hm. unfold fn_nio_exchange_opts_plan, plan_of. replace (max_steps <? 1) with false by lia.
  pose proof (valid_disk o Hv) as Vd. pose proof (valid_other o Hv) as Vo. pose proof (valid_native o Hv) as Vn.
  destruct Hv as [Hf _]. pose proof (ordinary_disk_ok_true o Hf) as Od. destruct Hf as [_ Fb Fi _ _ _ _ _ _ _ _].
  destruct (disk_type o) eqn:Ed.
  { specialize (Vd eq_refl). destruct (o_provocation o); cbn [andb negb].
    - destruct Vd. unfold serial_step. rewrite Ed, pv_installed0, pv_cold0, orb_true_r.
      cbn [Z.eqb FN_NIO_EXCHANGE_INSTALLED_SERIAL FN_NIO_EXCHANGE_INSTALLED_NATIVE FN_NIO_EXCHANGE_BACKEND_COLD negb].
      rewrite (plan_start max_steps) by lia. destruct (is_none _); by rewrite !add_step_planned by lia.
    - rewrite (proj2 Od Vd). cbn [negb orb].
      replace (negb (o_installed_backend o =? _) && _) with false.
      + by rewrite put_at_as_overwrite, planned_fits by (cbn [length]; lia).
      + unfold FN_NIO_EXCHANGE_INSTALLED_NATIVE, FN_NIO_EXCHANGE_INSTALLED_SERIAL. lia. }
  cbn [andb]. specialize (Vo eq_refl). destruct Vo.
  destruct (Z.eqb_spec (o_installed_backend o) FN_NIO_EXCHANGE_INSTALLED_NATIVE) as [Ei|Ei].
  { rewrite (Vn Ei). cbn [negb orb].
    destruct (Z.ltb_spec max_steps 2); [by rewrite planned_short by (cbn [length]; lia)|].
    rewrite planned_fits by (cbn [length]; lia). rewrite !put_at_as_overwrite by (rewrite ?length_put_at; lia).
    by rewrite (overwrite_adjacent _ 0 [_] [_]) by (cbn; lia). }
  replace (o_installed_backend o =? FN_NIO_EXCHANGE_INSTALLED_SERIAL) with true
    by (unfold FN_NIO_EXCHANGE_INSTALLED_SERIAL, FN_NIO_EXCHANGE_INSTALLED_NATIVE in *; lia).
  cbn [negb]. rewrite (plan_start max_steps) by lia. unfold serial_step. rewrite Ed, orb_false_r.
  destruct (Z.eqb_spec (o_backend o) FN_NIO_EXCHANGE_BACKEND_COLD) as [Eb|Eb].
  - destruct (is_none _); by rewrite !add_step_planned by lia.
  - replace (o_backend o =? FN_NIO_EXCHANGE_BACKEND_WARM) with true
      by (unfold FN_NIO_EXCHANGE_BACKEND_COLD, FN_NIO_EXCHANGE_BACKEND_WARM in *; lia).
    destruct (is_none _), (o_baud o =? 0); cbn [negb]; by rewrite !add_step_planned by lia.
Qed.

Lemma plan_of_length o : (1 <= length (plan_of o) <= 4)%nat.
Proof. unfold plan_of. repeat case_match; cbn; lia. Qed.

(** For valid options the plan of a trial is the one of its mode, and it
    never writes beyond the caller's array: it is refused exactly when the
    array is too short for it.  It has one to four steps, the last of which
    is the measured exchange and the only one; every step before it prepares
    it, and a step whose failure ends the command always comes before a
    warm-up. *)
Theorem plan_fits o steps max_steps :
  opts_valid o -> 1 <= max_steps <= Z.of_nat (length steps) ->
  (fn_nio_exchange_opts_plan o steps max_steps =
     if Z.of_nat (length (plan_of o)) >? max_steps then None
     else Some (Z.of_nat (length (plan_of o)), overwrite steps 0 (plan_of o))) /\
  (length (plan_of o) <= 4)%nat /\
  exists setup, plan_of o = setup ++ [FN_NIO_EXCHANGE_STEP_MEASURE] /\
    exists settings warmups, setup = settings ++ warmups /\
      Forall (fun s => fn_nio_exchange_step_failure_aborts s = true) settings /\
      (warmups = [] \/ warmups = [FN_NIO_EXCHANGE_STEP_WARMUP]).
Proof.
  intros Hv Hm. split; [by apply plan_eq|]. split; [apply plan_of_length|]. unfold plan_of.
  case_match; [by exists []; split; [|exists [], []; split; [|split; [|left]]]|].
  case_match; [exists [FN_NIO_EXCHANGE_STEP_WARMUP]; split; [done|]; exists [], [FN_NIO_EXCHANGE_STEP_WARMUP]; auto|].
  rewrite app_assoc. eexists. split; [done|].
  destruct (o_backend o =? FN_NIO_EXCHANGE_BACKEND_COLD).
  - eexists _, []. rewrite app_nil_r. split; [done|]. split; [|by left]. destruct (is_none _); repeat constructor.
  - rewrite app_assoc. eexists _, _. split; [done|]. split; [|by right].
    destruct (is_none _), (o_baud o =? 0); repeat constructor.
Qed.

(** A write trial on a disposable fixture. *)
Definition demo_args : list (list Z) := bytes_of_string <$>
  ["fujinet-nio-exchange"; "--type"; "disk-write"; "--backend"; "warm"; "--slot"; "3"; "--lba"; "880";
   "--fixture-uri"; "host:/fixture.adf"; "--disposable-fixture"; "--write-intent"; "--trials"; "25"]%string.
Definition demo_opts : fn_nio_exchange_opts :=
  mkOpts 5 2 0 true true 0 false 0 None 3 880 false (Some (bytes_of_string "host:/fixture.adf")) true true 25
    None 0 false false 0.

(** A negative rate: what strtoul would have made 300. *)
Definition negative_args : list (list Z) := bytes_of_string <$>
  ["fujinet-nio-exchange"; "--type"; "clock"; "--backend"; "cold"; "--baud"; "-4294966996"]%string.

Lemma opts_parse_exact_witness :
  command_line (drop 1 demo_args) opts_zero demo_opts /\ opts_valid demo_opts /\
  fn_nio_exchange_opts_parse (bytes_of_string "fujinet-nio-exchange" :: render demo_opts) = (0, demo_opts) /\
  (fn_nio_exchange_opts_parse negative_args).1 = -1.
Proof.
  assert (fn_nio_exchange_opts_parse demo_args = (0, demo_opts)) as Hp by (vm_compute; reflexivity).
  assert (fn_nio_exchange_opts_parse negative_args <> (0, (fn_nio_exchange_opts_parse negative_args).2)) as Hq
    by (vm_compute; discriminate).
  destruct opts_parse_exact as (Hs & Hn & Hc). destruct (proj1 (Hs _ _) Hp) as [Hl Hv]. split_and!; [done|done|by apply Hc|].
  apply Hn. intros (o & [Hl' Hv']). apply Hq. pose proof (proj2 (Hs negative_args o) (conj Hl' Hv')) as E. by rewrite E at 1; rewrite E.
Defined.

Definition demo_warm : fn_nio_exchange_opts :=
  mkOpts 1 2 0 false false 19200 false 0 None 0 0 false None false false 10
    (Some (bytes_of_string "serial.device")) 0 false false 0.

Lemma demo_warm_valid : opts_valid demo_warm.
Proof.
  apply (parsed_valid (bytes_of_string "x" :: render demo_warm)). vm_compute. reflexivity.
Qed.

Lemma plan_fits_witness :
  fn_nio_exchange_opts_plan demo_warm (zeros 5) 5 = Some (4, [5; 1; 3; 4; 0]) /\
  fn_nio_exchange_opts_plan demo_warm (zeros 5) 3 = None.
Proof.
  destruct (plan_fits demo_warm (zeros 5) 5) as [H5 _]; [apply demo_warm_valid|vm_compute; done|].
  destruct (plan_fits demo_warm (zeros 5) 3) as [H3 _]; [apply demo_warm_valid|vm_compute; done|].
  split; [rewrite H5|rewrite H3]; vm_compute; reflexivity.
Defined.
