(* ===== verification/ExchangePackets.v ===== *)
(** * The packets of the exchange tool

    What each builder of fujinet_nio_exchange_opts.c leaves in the buffer, a
    sealed FujiBus packet or nothing, and which responses
    [fn_nio_exchange_verify_fujibus] accepts. *)

From S2P Require Import PaulaUart Prelude CString CLib FnLib SerialConfig ExchangeOpts.
#[local] Open Scope Z_scope.


Section Packets.
Context `{L : FnLib, !FnLibOk L}.

(** A FujiBus packet: device, command, length, checksum, descriptor, and
    what follows. *)
Definition packet (device command descriptor : Z) (payload : list Z) : list Z :=
  let total := 6 + Z.of_nat (length payload) in
  let raw := [device; command; u8 total; u8 (Z.shiftr total 8); 0; descriptor] ++ payload in
  put_at raw 4 (fn_calc_packet_checksum raw total).

(** What a builder does with a packet: nothing unless it fits. *)
Definition emit (buf : list Z) (cap : Z) (p : list Z) : Z * list Z :=
  if cap <? Z.of_nat (length p) then (-1, buf)
  else (Z.of_nat (length p), overwrite buf 0 p).

Definition file_list_payload (uri : list Z) (max_payload_bytes list_flags : Z) : list Z :=
  let n := strlen uri in
  [1; u8 n; u8 (Z.shiftr n 8)] ++ c_string uri
  ++ [0; 0; u8 (u16 max_payload_bytes); u8 (Z.shiftr (u16 max_payload_bytes) 8)]
  ++ (if list_flags >=? 0 then [list_flags] else []).
Definition disk_payload (slot lba : Z) (data : list Z) : list Z :=
  [u8 FN_DISK_PROTOCOL_VERSION; slot; u8 lba; u8 (Z.shiftr lba 8); u8 (Z.shiftr lba 16); u8 (Z.shiftr lba 24);
   u8 512; u8 (Z.shiftr 512 8)] ++ data.

Lemma length_packet d c e p : length (packet d c e p) = (6 + length p)%nat.
Proof. unfold packet. by rewrite length_put_at. Qed.

Lemma byte_at_app_l (a b : list Z) i : (i < length a)%nat -> (a ++ b).[i] = a.[i].
Proof. intros. unfold byte_at. by apply app_nth1. Qed.

(** Sealing a buffer that starts with all of the packet but its checksum. *)
Lemma seal_packet d c e x payload rest total :
  total = 6 + Z.of_nat (length payload) ->
  seal ([d; c; u8 total; u8 (Z.shiftr total 8); x; e] ++ payload ++ rest) total
  = packet d c e payload ++ rest.
Proof.
  intros ->. unfold seal, packet. rewrite fn_checksum_offset.
  set (total := 6 + Z.of_nat (length payload)). set (raw := [_; _; _; _; 0; _] ++ payload).
  rewrite (u8_id (fn_calc_packet_checksum _ _)) by apply fn_checksum_u8.
  rewrite (fn_checksum_local _ raw total); [done|]. intros i Hi Hn. rewrite fn_checksum_offset in Hn.
  rewrite app_assoc, byte_at_app_l by (rewrite length_app; cbn; lia).
  unfold raw. do 6 (destruct i as [|i]; [done|]). done.
Qed.

Lemma overwrite_head_app p rest q : length q = length p -> overwrite (p ++ rest) 0 q = q ++ rest.
Proof. intros E. unfold overwrite. cbn. by rewrite E, drop_app_length. Qed.

(** Two bytes of a length. *)
Lemma put_le16_head d c a b rest v :
  fujinet_nio_put_le16 (d :: c :: a :: b :: rest) 2 v = d :: c :: u8 v :: u8 (Z.shiftr v 8) :: rest.
Proof. done. Qed.

Tactic Notation "first_bytes" integer(n) hyp(buf) :=
  do n (destruct buf as [|? buf]; [cbn [length] in *; lia|]).

Lemma clock_emits buf cap command :
  cap <= Z.of_nat (length buf) ->
  build_clock_command buf cap command = emit buf cap (packet (u8 FN_DEVICE_CLOCK) (u8 command) 0 []).
Proof.
  intros Hc. unfold build_clock_command, emit. rewrite fn_header_size, length_packet. cbn [length].
  change (Z.of_nat (6 + 0)) with 6. destruct (Z.ltb_spec cap 6); [done|]. first_bytes 6 buf.
  f_equal. etransitivity; [apply (seal_packet _ _ _ _ [] buf); done|].
  symmetry. apply (overwrite_head_app [_; _; _; _; _; _] buf). by rewrite length_packet.
Qed.

Lemma host_emits buf cap :
  cap <= Z.of_nat (length buf) ->
  fn_nio_exchange_build_host_get buf cap =
  emit buf cap (packet FN_NIO_EXCH_HOST_DEVICE FN_NIO_EXCH_HOST_GET_CURRENT 0 [FN_NIO_EXCH_HOST_VERSION]).
Proof.
  intros Hc. unfold fn_nio_exchange_build_host_get, emit. rewrite fn_header_size, length_packet. cbn [length].
  change (u16 (6 + 1)) with 7. change (Z.of_nat (6 + 1)) with 7. destruct (Z.ltb_spec cap 7); [done|].
  first_bytes 7 buf. f_equal. etransitivity; [apply (seal_packet _ _ _ _ [_] buf); done|].
  symmetry. apply (overwrite_head_app [_; _; _; _; _; _; _] buf). by rewrite length_packet.
Qed.

Lemma disk_emits buf cap slot lba write :
  cap <= Z.of_nat (length buf) -> 1 <= slot <= 8 ->
  build_disk_sector buf cap slot lba write =
  emit buf cap (packet (u8 FN_DEVICE_DISK) (if write then FN_NIO_EXCH_DISK_WRITE else FN_NIO_EXCH_DISK_READ) 0
    (disk_payload slot lba (if write then xor_pattern 0 512 else []))).
Proof.
  intros Hc Hs. unfold build_disk_sector, emit. rewrite fn_header_size, length_packet.
  replace (slot <? 1) with false by lia. replace (slot >? 8) with false by lia. rewrite !orb_false_r.
  set (total := u16 (6 + _)).
  assert (total = Z.of_nat (6 + length (disk_payload slot lba (if write then xor_pattern 0 512 else [])))) as Et
    by by destruct write.
  rewrite <- Et. destruct (Z.ltb_spec cap total); [done|]. f_equal.
  rewrite <- (take_drop (Z.to_nat total) buf) at 1 2.
  assert (length (take (Z.to_nat total) buf) = Z.to_nat total) as El by (rewrite length_take; destruct write; lia).
  rewrite overwrite_head_app by (unfold zeros; by rewrite length_replicate).
  rewrite overwrite_head_app by (rewrite length_packet, El, Et; lia).
  set (rest := drop (Z.to_nat total) buf). rewrite <- (seal_packet _ _ _ 0 _ rest total) by (rewrite Et; lia).
  f_equal. unfold disk_payload. rewrite (u8_id slot) by (unfold is_u8; lia). destruct write; reflexivity.
Qed.
Lemma overwrite_start buf q : overwrite buf 0 q = q ++ drop (length q) buf.
Proof. done. Qed.
(** The next bytes of a buffer that starts with [q]. *)
Lemma next_bytes buf q off r : (length q + length r <= length buf)%nat -> off = length q ->
  overwrite (overwrite buf 0 q) off r = overwrite buf 0 (q ++ r).
Proof. intros Hl ->. apply (overwrite_adjacent buf 0); lia. Qed.

Lemma next_byte buf q off v : (length q + 1 <= length buf)%nat -> off = length q ->
  put_at (overwrite buf 0 q) off v = overwrite buf 0 (q ++ [v]).
Proof. intros Hl ->. rewrite put_at_as_overwrite by (rewrite length_overwrite; lia). by apply next_bytes. Qed.
Lemma next_le16 buf q off v : (length q + 2 <= length buf)%nat -> off = length q ->
  fujinet_nio_put_le16 (overwrite buf 0 q) off v = overwrite buf 0 (q ++ [u8 v; u8 (Z.shiftr v 8)]).
Proof.
  intros Hl ->. unfold fujinet_nio_put_le16. rewrite !next_byte by (rewrite ?length_app; cbn; lia).
  by rewrite <- app_assoc.
Qed.

Lemma seal_overwrite buf d c e payload q total :
  q = [d; c; u8 total; u8 (Z.shiftr total 8); 0; e] ++ payload -> total = 6 + Z.of_nat (length payload) ->
  seal (overwrite buf 0 q) total = overwrite buf 0 (packet d c e payload).
Proof.
  intros -> Et. rewrite !overwrite_start, <- app_assoc, (seal_packet _ _ _ _ _ _ _ Et). by rewrite length_packet.
Qed.

Lemma take_c_string b : take (length (c_string b)) b = c_string b.
Proof.
  induction b as [|c b IH]; cbn; [done|]. destruct (c =? 0); cbn; [done|]. by rewrite IH.
Qed.

Lemma file_list_emits buf uri cap max_payload_bytes list_flags :
  cap <= Z.of_nat (length buf) -> cap <= 65535 -> -1 <= list_flags <= 255 ->
  fn_nio_exchange_build_file_list buf uri cap max_payload_bytes list_flags =
  emit buf cap (packet (u8 FN_DEVICE_FILE) FN_NIO_EXCH_FILE_CMD_LIST 0
    (file_list_payload uri max_payload_bytes list_flags)).
Proof.
  intros Hc H16 Hf. unfold fn_nio_exchange_build_file_list, emit, strlen. rewrite fn_header_size, length_packet.
  set (n := length (c_string uri)). set (extra := if list_flags >=? 0 then 1 else 0).
  set (payload := file_list_payload uri max_payload_bytes list_flags).
  assert (Z.of_nat (length payload) = 7 + Z.of_nat n + extra) as El.
  { unfold payload, file_list_payload, extra. rewrite !length_app. fold n. case_match; cbn; lia. }
  assert (0 <= extra <= 1) as He by (unfold extra; case_match; lia).
  replace (list_flags >? 255) with false by lia.
  destruct (Z.ltb_spec cap (Z.of_nat (6 + length payload))) as [Hs|Hs].
  { destruct (Z.gtb_spec (Z.of_nat n) 65535); [done|].
    destruct (Z.gtb_spec (6 + 1 + 2 + Z.of_nat n + 2 + 2 + extra) cap); [by rewrite orb_true_r|lia]. }
  assert (u16 (Z.of_nat n) = Z.of_nat n) as -> by (apply u16_id; unfold is_u16; lia).
  assert (u16 (1 + 2 + Z.of_nat n + 2 + 2 + extra) = Z.of_nat (length payload)) as ->
    by (rewrite u16_id; unfold is_u16; lia).
  assert (u16 (6 + Z.of_nat (length payload)) = 6 + Z.of_nat (length payload)) as ->
    by (rewrite u16_id; unfold is_u16; lia).
  destruct (Z.gtb_spec (Z.of_nat n) 65535); [lia|].
  destruct (Z.gtb_spec (6 + Z.of_nat (length payload)) cap); [lia|].
  destruct (Z.gtb_spec (6 + 1 + 2 + Z.of_nat n + 2 + 2 + extra) cap); [lia|]. cbn [orb].
  assert (u16 (9 + Z.of_nat n) = Z.of_nat (9 + n)) as -> by (rewrite u16_id; unfold is_u16; lia).
  assert (u16 (Z.of_nat (9 + n) + 2) = Z.of_nat (11 + n)) as -> by (rewrite u16_id; unfold is_u16; lia).
  assert (u16 (Z.of_nat (11 + n) + 2) = Z.of_nat (13 + n)) as -> by (rewrite u16_id; unfold is_u16; lia).
  unfold slice. rewrite !Nat2Z.id, drop_0.
  replace (take n uri) with (c_string uri) by (symmetry; apply take_c_string).
  set (total := 6 + Z.of_nat (length payload)).
  set (head := [u8 FN_DEVICE_FILE; FN_NIO_EXCH_FILE_CMD_LIST; u8 total; u8 (Z.shiftr total 8); 0; 0]).
  set (sizes := [1; u8 (Z.of_nat n); u8 (Z.shiftr (Z.of_nat n) 8)]).
  set (tail := [0; 0; u8 (u16 max_payload_bytes); u8 (Z.shiftr (u16 max_payload_bytes) 8)]).
  assert (fujinet_nio_put_le16 (put_at (put_at (put_at (fujinet_nio_put_le16
    (put_at (put_at buf 0 (u8 FN_DEVICE_FILE)) 1 FN_NIO_EXCH_FILE_CMD_LIST) 2 total) 4 0) 5 0) 6 1) 7 (Z.of_nat n)
    = overwrite buf 0 (head ++ sizes)) as -> by (first_bytes 9 buf; reflexivity).
  assert (length (head ++ sizes) = 9%nat) as L1 by done.
  assert (length ((head ++ sizes) ++ c_string uri) = (9 + n)%nat) as L2 by (rewrite length_app, L1; done).
  assert (length (((head ++ sizes) ++ c_string uri) ++ [u8 0; u8 (Z.shiftr 0 8)]) = (11 + n)%nat) as L3
    by (rewrite length_app, L2; cbn; lia).
  rewrite next_bytes, next_le16, next_le16 by (rewrite ?L1, ?L2, ?L3; fold n; lia).
  unfold extra in *. destruct (Z.geb_spec list_flags 0) as [Hl|Hl].
  - rewrite next_byte by (rewrite !length_app, ?L1; fold n; cbn; lia).
    replace (u16 (Z.of_nat (13 + n) + 1)) with total by (rewrite u16_id; unfold is_u16; lia).
    f_equal; [lia|]. rewrite (u8_id list_flags) by (unfold is_u8; lia).
    apply (seal_overwrite _ _ _ _ payload); [|done]. unfold payload, file_list_payload.
    replace (list_flags >=? 0) with true by lia. by rewrite <- !app_assoc.
  - replace (Z.of_nat (13 + n)) with total by lia. f_equal; [lia|].
    apply (seal_overwrite _ _ _ _ payload); [|done]. unfold payload, file_list_payload.
    replace (list_flags >=? 0) with false by lia. by rewrite <- !app_assoc.
Qed.

(** The checksum of a buffer whose first bytes are a packet's. *)
Lemma packet_checksum_of d c x e payload rest total :
  total = 6 + Z.of_nat (length payload) ->
  fn_calc_packet_checksum ([d; c; u8 total; u8 (Z.shiftr total 8); x; e] ++ payload ++ rest) total
  = (packet d c e payload).[4].
Proof.
  intros Et. pose proof (seal_packet d c e x payload rest total Et) as E. unfold seal in E.
  rewrite fn_checksum_offset, (u8_id (fn_calc_packet_checksum _ _)) in E by apply fn_checksum_u8.
  apply (f_equal (fun b => b.[4])) in E. rewrite byte_at_put_eq in E by (cbn; lia).
  rewrite E. apply byte_at_app_l. rewrite length_packet. lia.
Qed.

Lemma packet_bytes d c e payload :
  packet d c e payload =
  let total := 6 + Z.of_nat (length payload) in
  [d; c; u8 total; u8 (Z.shiftr total 8); (packet d c e payload).[4]; e] ++ payload.
Proof. done. Qed.

Lemma verify_six request req_len d c lo hi chk e rest resp_len :
  6 <= req_len -> 6 <= resp_len < 65536 -> is_u8 lo ->
  let response := d :: c :: lo :: hi :: chk :: e :: rest in
  fn_nio_exchange_verify_fujibus request req_len response resp_len = 0 <->
  d = request.[0] /\ c = request.[1] /\ le16 lo hi = resp_len /\ fn_calc_packet_checksum response resp_len = chk.
Proof.
  intros Hr Hl Hlo response. unfold fn_nio_exchange_verify_fujibus. rewrite fn_header_size, fn_checksum_offset.
  replace (req_len <? 6) with false by lia. replace (resp_len <? 6) with false by lia. cbn [orb].
  rewrite u16_id by (unfold is_u16; lia).
  assert (fujinet_nio_get_le16 response 2 = le16 lo hi) as -> by (by apply lor_le16).
  change (response.[0]) with d. change (response.[1]) with c. change (response.[4]) with chk.
  destruct (Z.eqb_spec d request.[0]); [|naive_solver]. destruct (Z.eqb_spec c request.[1]); [|naive_solver].
  destruct (Z.eqb_spec (le16 lo hi) resp_len); [|naive_solver].
  destruct (Z.eqb_spec (fn_calc_packet_checksum response resp_len) chk); naive_solver.
Qed.

(** The response that is accepted is a packet of the request's device and
    command that fills the response exactly. *)
Lemma verify_exact request req_len response resp_len :
  6 <= req_len -> bytes_ok response -> 0 <= resp_len <= Z.of_nat (length response) -> resp_len < 65536 ->
  fn_nio_exchange_verify_fujibus request req_len response resp_len = 0 <->
  exists descriptor payload, resp_len = 6 + Z.of_nat (length payload) /\
    take (Z.to_nat resp_len) response = packet request.[0] request.[1] descriptor payload.
Proof.
  intros Hr Hb Hl H16. destruct (Z.ltb_spec resp_len 6) as [H6|H6].
  { split; [|intros (? & ? & ? & _); lia]. unfold fn_nio_exchange_verify_fujibus. rewrite fn_header_size.
    replace (resp_len <? 6) with true by lia. by rewrite orb_true_r. }
  first_bytes 6 response. assert (is_u8 z1 /\ is_u8 z2) as [B1 B2].
  { split; [apply (Forall_lookup_1 _ _ 2 _ Hb)|apply (Forall_lookup_1 _ _ 3 _ Hb)]; done. }
  rewrite verify_six by done. split.
  - intros (-> & -> & El & Ec). set (payload := take (Z.to_nat resp_len - 6) response).
    assert (resp_len = 6 + Z.of_nat (length payload)) as Ep.
    { unfold payload. rewrite length_take. cbn in Hl. lia. }
    assert (z1 = u8 resp_len) as -> by (unfold le16 in El; unfold is_u8, u8 in *; rewrite <- El; width_lia).
    assert (z2 = u8 (Z.shiftr resp_len 8)) as ->
      by (rewrite shiftr_8; unfold le16 in El; unfold is_u8, u8 in *; rewrite <- El; width_lia).
    exists z4, payload. split; [done|]. rewrite packet_bytes. cbv zeta. rewrite <- Ep.
    rewrite <- (packet_checksum_of _ _ z3 _ payload (drop (Z.to_nat resp_len - 6) response) resp_len Ep).
    unfold payload. rewrite take_drop. cbn [app]. rewrite Ec.
    replace (Z.to_nat resp_len) with (6 + (Z.to_nat resp_len - 6))%nat at 1 by lia. done.
  - intros (e & payload & Ep & Et). rewrite packet_bytes in Et. cbv zeta in Et. rewrite <- Ep in Et.
    set (rest := drop (Z.to_nat resp_len - 6) response).
    replace (Z.to_nat resp_len) with (6 + (Z.to_nat resp_len - 6))%nat in Et by lia. cbn [take Nat.add app] in Et.
    injection Et as -> -> -> -> E4 -> Er. assert (response = payload ++ rest) as E by (subst rest; by rewrite <- Er, take_drop).
    split_and!; try done; [rewrite shiftr_8; apply le16_split; unfold is_u16; lia|].
    rewrite E, E4. exact (packet_checksum_of _ _ _ _ payload rest resp_len Ep).
Qed.

(** C37: every builder of the exchange tool leaves in the buffer exactly one
    sealed FujiBus packet, with its length and checksum in place and nothing
    written behind it, or refuses and leaves the buffer alone because the
    packet does not fit; and the response check accepts exactly the packets
    of the request's device and command that fill the whole response. *)
Theorem packets_exact buf cap uri max_payload_bytes list_flags slot lba :
  cap <= Z.of_nat (length buf) -> cap <= 65535 -> -1 <= list_flags <= 255 -> 1 <= slot <= 8 ->
  (fn_nio_exchange_build_clock_get buf cap
     = emit buf cap (packet (u8 FN_DEVICE_CLOCK) (u8 FN_CMD_CLOCK_GET) 0 []) /\
   fn_nio_exchange_build_clock_get_tz buf cap
     = emit buf cap (packet (u8 FN_DEVICE_CLOCK) (u8 FN_CMD_CLOCK_GET_TZ) 0 []) /\
   fn_nio_exchange_build_host_get buf cap
     = emit buf cap (packet FN_NIO_EXCH_HOST_DEVICE FN_NIO_EXCH_HOST_GET_CURRENT 0 [FN_NIO_EXCH_HOST_VERSION]) /\
   fn_nio_exchange_build_file_list buf uri cap max_payload_bytes list_flags
     = emit buf cap (packet (u8 FN_DEVICE_FILE) FN_NIO_EXCH_FILE_CMD_LIST 0
         (file_list_payload uri max_payload_bytes list_flags)) /\
   fn_nio_exchange_build_disk_read buf cap slot lba
     = emit buf cap (packet (u8 FN_DEVICE_DISK) FN_NIO_EXCH_DISK_READ 0 (disk_payload slot lba [])) /\
   fn_nio_exchange_build_disk_write buf cap slot lba
     = emit buf cap (packet (u8 FN_DEVICE_DISK) FN_NIO_EXCH_DISK_WRITE 0
         (disk_payload slot lba (xor_pattern 0 512)))) /\
  forall request req_len response resp_len,
    6 <= req_len -> bytes_ok response -> 0 <= resp_len <= Z.of_nat (length response) -> resp_len < 65536 ->
    fn_nio_exchange_verify_fujibus request req_len response resp_len = 0 <->
    exists descriptor payload, resp_len = 6 + Z.of_nat (length payload) /\
      take (Z.to_nat resp_len) response = packet request.[0] request.[1] descriptor payload.
Proof.
  intros Hc H16 Hf Hs. split; [split_and!|].
  - by apply clock_emits.
  - by apply clock_emits.
  - by apply host_emits.
  - by apply file_list_emits.
  - by apply disk_emits.
  - by apply disk_emits.
  - intros. by apply verify_exact.
Qed.
End Packets.

(** A buffer of 64 bytes: the host request, and the answer to it. *)
Lemma packets_exact_witness :
  fn_nio_exchange_build_host_get (L := fn_lib_nio) (zeros 64) 64 = (7, [240; 1; 7; 0; 249; 0; 1] ++ zeros 57) /\
  fn_nio_exchange_verify_fujibus (L := fn_lib_nio) [240; 1; 7; 0; 249; 0; 1] 7 ([240; 1; 7; 0; 249; 0; 1] ++ zeros 3) 7 = 0.
Proof.
  destruct (packets_exact (L := fn_lib_nio) (zeros 64) 64 [104; 0] 256 (-1) 1 0) as [(_ & _ & Hh & _) Hv].
  1-4: vm_compute; done.
  split; [rewrite Hh; vm_compute; reflexivity|]. apply Hv; [lia| |vm_compute; done|lia|].
  - cbn. repeat (apply Forall_cons; split; [unfold is_u8; lia|]). by apply Forall_nil.
  - exists 0, [1]. split; vm_compute; reflexivity.
Defined.
