(* ===== verification/ExchangeDisk.v ===== *)
(** * The disk trials of the exchange tool
    (amiga/tools/fujinet_nio_exchange_disk.c)

    The decision sequence of an ordinary disk trial over an adapter that does
    one operation at a time.  The adapter is any function [io] on a world of
    its own; [logged] is the same adapter with a log of what it was asked and
    what came of it, in whose terms the sequence is specified. *)

From S2P Require Import PaulaUart Prelude CString CLib SerialConfig ExchangeOpts ExchangeOptsProps.
#[local] Open Scope Z_scope.

Inductive fn_exchange_disk_op :=
  | FN_EXDISK_LOCAL_STATE | FN_EXDISK_REMOTE_INFO | FN_EXDISK_MOUNT | FN_EXDISK_GEOMETRY
  | FN_EXDISK_CHANGE | FN_EXDISK_READ | FN_EXDISK_WRITE | FN_EXDISK_FLUSH.
#[export] Instance exdisk_op_eq_dec : EqDecision fn_exchange_disk_op.
Proof. solve_decision. Defined.

Record fn_exchange_disk_state := mkDiskState {
  ds_trial : Z;
  ds_mounted : bool;
  ds_sector_size : Z;
  ds_sectors : Z;
  ds_change : Z;
  ds_actual : Z
}.
#[export] Instance eta_disk_state : Eta fn_exchange_disk_state := fun s =>
  mkDiskState (ds_trial s) (ds_mounted s) (ds_sector_size s) (ds_sectors s) (ds_change s) (ds_actual s).
Definition set_ds_trial : Z -> fn_exchange_disk_state -> fn_exchange_disk_state := ltac:(derive_setter ds_trial).
Definition set_ds_mounted : bool -> fn_exchange_disk_state -> fn_exchange_disk_state := ltac:(derive_setter ds_mounted).
Definition set_ds_sector_size : Z -> fn_exchange_disk_state -> fn_exchange_disk_state := ltac:(derive_setter ds_sector_size).
Definition set_ds_sectors : Z -> fn_exchange_disk_state -> fn_exchange_disk_state := ltac:(derive_setter ds_sectors).
Definition set_ds_change : Z -> fn_exchange_disk_state -> fn_exchange_disk_state := ltac:(derive_setter ds_change).
Definition set_ds_actual : Z -> fn_exchange_disk_state -> fn_exchange_disk_state := ltac:(derive_setter ds_actual).
Definition disk_state_zero : fn_exchange_disk_state := mkDiskState 0 false 0 0 0 0.

Record fn_exchange_disk_result := mkDiskResult {
  mount_attempted : bool;
  fixture_mounted : bool;
  failure : option string;
  completed_trials : Z
}.
#[export] Instance eta_disk_result : Eta fn_exchange_disk_result := fun r =>
  mkDiskResult (mount_attempted r) (fixture_mounted r) (failure r) (completed_trials r).
Definition set_mount_attempted : bool -> fn_exchange_disk_result -> fn_exchange_disk_result := ltac:(derive_setter mount_attempted).
Definition set_fixture_mounted : bool -> fn_exchange_disk_result -> fn_exchange_disk_result := ltac:(derive_setter fixture_mounted).
Definition set_failure : option string -> fn_exchange_disk_result -> fn_exchange_disk_result := ltac:(derive_setter failure).
Definition set_completed : Z -> fn_exchange_disk_result -> fn_exchange_disk_result := ltac:(derive_setter completed_trials).

(** [fn_exchange_disk_io] on the world [W] behind its context: result,
    [*state] and the bytes of the buffer, which is NULL ([None]) for an
    operation without one. *)
Definition disk_io (W : Type) : Type :=
  W -> fn_exchange_disk_op -> fn_exchange_disk_state -> option (list Z) ->
  W * Z * fn_exchange_disk_state * list Z.

(** [n] bytes of the pattern from index [i] on. *)
Fixpoint pattern_loop (trial i : Z) (n : nat) : list Z :=
  match n with
  | O => []
  | S n => u8 (Z.lxor (Z.lxor i 90) (Z.shiftr trial (i mod 4 * 8))) :: pattern_loop trial (i + 1) n
  end.
Definition fn_exchange_disk_pattern (buffer : list Z) (trial : Z) : list Z :=
  overwrite buffer 0 (pattern_loop trial 0 512).

(** ** The run *)

(** Its variables, with the world. *)
Record run (W : Type) := mkRun {
  r_world : W;
  r_state : fn_exchange_disk_state;
  r_write : list Z;
  r_read : list Z;
  r_result : fn_exchange_disk_result
}.
#[global] Arguments mkRun {W}.
#[global] Arguments r_world {W}.
#[global] Arguments r_state {W}.
#[global] Arguments r_write {W}.
#[global] Arguments r_read {W}.
#[global] Arguments r_result {W}.
#[export] Instance eta_run {W} : Eta (run W) := fun r =>
  mkRun (r_world r) (r_state r) (r_write r) (r_read r) (r_result r).
Definition set_r_world {W} : W -> run W -> run W := ltac:(derive_setter (@r_world W)).
Definition set_r_state {W} : fn_exchange_disk_state -> run W -> run W := ltac:(derive_setter (@r_state W)).
Definition set_r_write {W} : list Z -> run W -> run W := ltac:(derive_setter (@r_write W)).
Definition set_r_read {W} : list Z -> run W -> run W := ltac:(derive_setter (@r_read W)).
Definition set_r_result {W} : fn_exchange_disk_result -> run W -> run W := ltac:(derive_setter (@r_result W)).

(** A stretch of the run: whether it goes on, [false] for a return of -1. *)
Definition stretch (W : Type) : Type := run W -> bool * run W.
Definition andthen {W} (m k : stretch W) : stretch W := fun r =>
  let '(ok, r) := m r in if ok then k r else (false, r).
Declare Scope stretch_scope.
Notation "m >> k" := (andthen m k) (at level 62, right associativity) : stretch_scope.
#[local] Open Scope stretch_scope.

Section Run.
Context {W : Type}.
Variable opts : fn_nio_exchange_opts.
Variable io : disk_io W.

Definition on_result (f : fn_exchange_disk_result -> fn_exchange_disk_result) : stretch W := fun r =>
  (true, set_r_result (f (r_result r)) r).
Definition on_state (f : fn_exchange_disk_state -> fn_exchange_disk_state) : stretch W := fun r =>
  (true, set_r_state (f (r_state r)) r).

(** The buffer an operation gets: [write_buffer], [read_buffer] or none. *)
Definition buffer_of (code : fn_exchange_disk_op) (r : run W) : option (list Z) :=
  match code with
  | FN_EXDISK_WRITE => Some (r_write r)
  | FN_EXDISK_READ => Some (r_read r)
  | _ => None
  end.

(** [OP(code, text, buffer)]. *)
Definition OP (code : fn_exchange_disk_op) (text : string) : stretch W := fun r =>
  let r := set_r_result (set_failure (Some text) (r_result r)) r in
  let buffer := buffer_of code r in
  let '(w, rc, state, bytes) := io (r_world r) code (r_state r) buffer in
  let r := r |> set_r_world w |> set_r_state state in
  let r := match code with
           | FN_EXDISK_WRITE => set_r_write bytes r
           | FN_EXDISK_READ => set_r_read bytes r
           | _ => r
           end in
  (rc =? 0, r).

(** [result->failure = text; if (test) return -1;]. *)
Definition refuse (text : string) (test : run W -> bool) : stretch W := fun r =>
  let r := set_r_result (set_failure (Some text) (r_result r)) r in
  (negb (test r), r).

Definition writing : bool := o_type opts =? FN_NIO_EXCHANGE_TYPE_DISK_WRITE.

(** The body of the loop at trial [trial], zero based. *)
Definition trial_body (trial : Z) : stretch W :=
  on_state (set_ds_trial (trial + 1)) >>
  (if writing then
     (fun r => (true, set_r_write (fn_exchange_disk_pattern (r_write r) trial) r)) >>
     OP FN_EXDISK_WRITE "write" >>
     refuse "short-write" (fun r => negb (ds_actual (r_state r) =? 512)) >>
     OP FN_EXDISK_FLUSH "flush"
   else fun r => (true, r)) >>
  OP FN_EXDISK_READ "read" >>
  refuse "short-read" (fun r => negb (ds_actual (r_state r) =? 512)) >>
  refuse "read-back-mismatch"
    (fun r => writing && negb (bool_decide (slice (r_write r) 0 512 = slice (r_read r) 0 512))) >>
  on_result (fun x => set_completed (completed_trials x + 1) x).

(** [for (trial = ...; trial < opts->trials; ++trial)], [n] trials left. *)
Fixpoint trial_loop (n : nat) (trial : Z) : stretch W :=
  match n with
  | O => fun r => (true, r)
  | S n => trial_body trial >> trial_loop n (trial + 1)
  end.

Definition setup : stretch W :=
  OP FN_EXDISK_LOCAL_STATE "local-state" >>
  refuse "local-slot-occupied" (fun r => ds_mounted (r_state r)) >>
  OP FN_EXDISK_REMOTE_INFO "remote-info" >>
  refuse "remote-slot-occupied" (fun r => ds_mounted (r_state r)) >>
  on_result (set_mount_attempted true) >>
  OP FN_EXDISK_MOUNT "mount" >>
  on_result (set_fixture_mounted true) >>
  OP FN_EXDISK_GEOMETRY "geometry" >>
  refuse "geometry-bounds" (fun r => negb (ds_sector_size (r_state r) =? 512) || (o_lba opts >=? ds_sectors (r_state r))) >>
  OP FN_EXDISK_CHANGE "change-count".

Definition authorized : bool :=
  negb (o_provocation opts)
  && match fn_nio_exchange_opts_plan opts (zeros 2) 2 with Some (1, _) => true | _ => false end
  && disk_type opts.

(** The result is 0 when the run goes through. *)
Definition fn_exchange_disk_run (w : W) (write_buffer read_buffer : list Z) : Z * run W :=
  let r := mkRun w disk_state_zero write_buffer read_buffer (mkDiskResult false false None 0) in
  let '(ok, r) :=
    (refuse "authorization" (fun _ => negb authorized) >>
     setup >>
     trial_loop (Z.to_nat (o_trials opts)) 0 >>
     on_result (set_failure None)) r in
  (if ok then 0 else -1, r).
End Run.

(** ** The log *)

(** What the adapter was asked, what it was given, its result and the state
    and buffer it left. *)
Record entry := mkLog {
  e_op : fn_exchange_disk_op;
  e_before : fn_exchange_disk_state;
  e_given : option (list Z);
  e_rc : Z;
  e_after : fn_exchange_disk_state;
  e_left : list Z
}.

Definition logged {W} (io : disk_io W) : disk_io (W * list entry) := fun wl op state buffer =>
  let '(w, rc, state', buffer') := io wl.1 op state buffer in
  (w, wl.2 ++ [mkLog op state buffer rc state' buffer'], rc, state', buffer').
