(* ===== verification/ExchangeDiskProps.v ===== *)
(** * The exchange tool's disk trials, specified

    In terms of the log: which operations a run asks for, in which order, and
    what it reports.  Nothing is mounted over a mounted disk, nothing is
    written that is not the pattern of its trial, and a run that passes has
    read back all it wrote. *)

From S2P Require Import PaulaUart Prelude CString CLib SerialConfig ExchangeOpts ExchangeOptsProps ExchangeDisk.
#[local] Open Scope Z_scope.
#[local] Open Scope stretch_scope.

(** The operations of a whole run. *)
Definition setup_ops : list fn_exchange_disk_op :=
  [FN_EXDISK_LOCAL_STATE; FN_EXDISK_REMOTE_INFO; FN_EXDISK_MOUNT; FN_EXDISK_GEOMETRY; FN_EXDISK_CHANGE].
Definition trial_ops (opts : fn_nio_exchange_opts) : list fn_exchange_disk_op :=
  if writing opts then [FN_EXDISK_WRITE; FN_EXDISK_FLUSH; FN_EXDISK_READ] else [FN_EXDISK_READ].
Fixpoint trials_ops (opts : fn_nio_exchange_opts) (n : nat) : list fn_exchange_disk_op :=
  match n with
  | O => []
  | S n => trial_ops opts ++ trials_ops opts n
  end.
Definition schedule (opts : fn_nio_exchange_opts) : list fn_exchange_disk_op :=
  setup_ops ++ trials_ops opts (Z.to_nat (o_trials opts)).

(** What has to come of an operation for the run to go on. *)
Definition clean (opts : fn_nio_exchange_opts) (e : entry) : Prop :=
  e_rc e = 0 /\
  match e_op e with
  | FN_EXDISK_LOCAL_STATE | FN_EXDISK_REMOTE_INFO => ds_mounted (e_after e) = false
  | FN_EXDISK_GEOMETRY => ds_sector_size (e_after e) = 512 /\ o_lba opts < ds_sectors (e_after e)
  | FN_EXDISK_READ | FN_EXDISK_WRITE => ds_actual (e_after e) = 512
  | _ => True
  end.

(** A write hands over the pattern of its trial. *)
Definition wrote (e : entry) : Prop :=
  e_op e = FN_EXDISK_WRITE ->
  exists b, e_given e = Some b /\ take 512 b = pattern_loop (ds_trial (e_before e) - 1) 0 512.

(** What a read after a write and its flush has to bring back. *)
Definition read_back (es : list entry) : Prop :=
  forall i ew er, es !! i = Some ew -> es !! (i + 2)%nat = Some er ->
    e_op ew = FN_EXDISK_WRITE -> e_op er = FN_EXDISK_READ -> take 512 (e_left ew) = take 512 (e_left er).

(** The result says what happened to the fixture, and counts trials that were
    gone through to the end. *)
Definition truthful (opts : fn_nio_exchange_opts) (x : fn_exchange_disk_result) (es : list entry) : Prop :=
  (mount_attempted x = true <-> exists e, e ∈ es /\ e_op e = FN_EXDISK_MOUNT) /\
  (fixture_mounted x = true <-> exists e, e ∈ es /\ e_op e = FN_EXDISK_MOUNT /\ e_rc e = 0) /\
  exists k : nat, completed_trials x = Z.of_nat k /\
    (k = 0%nat \/ (setup_ops ++ trials_ops opts k) `prefix_of` (e_op <$> es)).

Lemma trials_ops_snoc opts k : trials_ops opts (S k) = trials_ops opts k ++ trial_ops opts.
Proof.
  induction k as [|k IH]; [by cbn; rewrite app_nil_r|].
  change (trials_ops opts (S (S k))) with (trial_ops opts ++ trials_ops opts (S k)).
  by rewrite IH at 1; rewrite app_assoc.
Qed.

Lemma length_pattern_loop trial i n : length (pattern_loop trial i n) = n.
Proof. revert i. induction n as [|n IH]; intros i; cbn; [done|]. by rewrite IH. Qed.
Lemma take_pattern b trial : take 512 (fn_exchange_disk_pattern b trial) = pattern_loop trial 0 512.
Proof.
  unfold fn_exchange_disk_pattern, overwrite. rewrite take_0, app_nil_l, take_app_le, take_ge; [done|..];
    rewrite length_pattern_loop; lia.
Qed.

Section Protocol.
Context {W : Type}.
Variable opts : fn_nio_exchange_opts.
Variable io : disk_io W.
Implicit Types (r : run (W * list entry)) (es : list entry).

Definition log_of r : list entry := (r_world r).2.

(** Where a run that returns -1 leaves things. *)
Definition stopped r : Prop :=
  (e_op <$> log_of r) `prefix_of` schedule opts /\
  (exists done last, log_of r = done ++ last /\ (length last <= 1)%nat /\ Forall (clean opts) done) /\
  Forall wrote (log_of r) /\ truthful opts (r_result r) (log_of r) /\ exists t, failure (r_result r) = Some t.

(** A stretch goes on to [Q] or stops the run. *)
Definition post (m : stretch (W * list entry)) r (Q : run (W * list entry) -> Prop) : Prop :=
  let '(ok, r') := m r in if ok then Q r' else stopped r'.

Lemma post_seq m k r Q : post m r (fun r1 => post k r1 Q) -> post (m >> k) r Q.
Proof. unfold post, andthen. by destruct (m r) as [[] r1]. Qed.
Lemma post_mono m r (Q Q' : run (W * list entry) -> Prop) :
  (forall r', Q r' -> Q' r') -> post m r Q -> post m r Q'.
Proof. unfold post. destruct (m r) as [[] r1]; auto. Qed.
Lemma post_use m k r P Q : post m r P -> (forall r1, P r1 -> post k r1 Q) -> post (m >> k) r Q.
Proof. intros Hm Hk. apply post_seq. by eapply post_mono. Qed.

(** Between operations: the log is [es], and [pending] is left to do. *)
Record at_point es (pending : list fn_exchange_disk_op) r : Prop := {
  ap_log : log_of r = es;
  ap_ops : (e_op <$> es) ++ pending = schedule opts;
  ap_clean : Forall (clean opts) es;
  ap_wrote : Forall wrote es;
  ap_truth : truthful opts (r_result r) es
}.

(** After operation [e], before its outcome is looked at. *)
Record halfway es (e : entry) (pending : list fn_exchange_disk_op) r : Prop := {
  hw_log : log_of r = es ++ [e];
  hw_ops : (e_op <$> es) ++ e_op e :: pending = schedule opts;
  hw_clean : Forall (clean opts) es;
  hw_rc : e_rc e = 0;
  hw_wrote : Forall wrote (es ++ [e]);
  hw_truth : truthful opts (r_result r) (es ++ [e]);
  hw_after : e_after e = r_state r
}.

Definition buffers (e : entry) r r' : Prop :=
  r_write r' = match e_op e with FN_EXDISK_WRITE => e_left e | _ => r_write r end /\
  r_read r' = match e_op e with FN_EXDISK_READ => e_left e | _ => r_read r end.

Lemma truthful_more x es e : e_op e <> FN_EXDISK_MOUNT -> truthful opts x es -> truthful opts x (es ++ [e]).
Proof.
  intros He (T1 & T2 & k & Ek & T3). unfold truthful. setoid_rewrite elem_of_app.
  setoid_rewrite list_elem_of_singleton. rewrite T1, T2.
  split; [split; naive_solver|]. split; [split; naive_solver|]. exists k. split; [done|].
  destruct T3 as [T3|T3]; [by left|right]. rewrite fmap_app. by apply prefix_app_r.
Qed.

Lemma truthful_failure x es t : truthful opts x es -> truthful opts (set_failure t x) es.
Proof. done. Qed.

(** What an operation may be given. *)
Definition may_ask (code : fn_exchange_disk_op) r : Prop :=
  code = FN_EXDISK_WRITE -> take 512 (r_write r) = pattern_loop (ds_trial (r_state r) - 1) 0 512.

(** The entry an operation leaves. *)
Lemma OP_logged code text r :
  exists e r', OP (logged io) code text r = (e_rc e =? 0, r') /\ e_op e = code /\ log_of r' = log_of r ++ [e] /\
    e_after e = r_state r' /\ e_before e = r_state r /\ e_given e = buffer_of code r /\ buffers e r r' /\
    r_result r' = set_failure (Some text) (r_result r).
Proof.
  unfold OP, logged. set (b := buffer_of code _).
  cbn [r_world r_state r_write r_read set_r_result]. destruct (io (r_world r).1 code (r_state r) b) as [[[w rc] st] bytes] eqn:E.
  exists (mkLog code (r_state r) b rc st bytes). eexists. split; [reflexivity|]. split; [done|].
  unfold buffers. cbn [e_op e_left]. destruct code; done.
Qed.

Lemma wrote_asked code r e : may_ask code r -> e_op e = code -> e_before e = r_state r ->
  e_given e = buffer_of code r -> wrote e.
Proof.
  intros Hm Eo Eb Eg Ew. rewrite Eo in Ew. rewrite Ew in *. exists (r_write r). rewrite Eb. split; [done|by apply Hm].
Qed.

Lemma prefix_of_schedule es e pending :
  (e_op <$> es) ++ e_op e :: pending = schedule opts -> (e_op <$> es ++ [e]) `prefix_of` schedule opts.
Proof. intros <-. exists pending. by rewrite fmap_app, <- app_assoc. Qed.

Lemma OP_post es code pending text r :
  at_point es (code :: pending) r -> code <> FN_EXDISK_MOUNT -> may_ask code r ->
  post (OP (logged io) code text) r (fun r' => exists e, e_op e = code /\ halfway es e pending r' /\ buffers e r r' /\
    r_result r' = set_failure (Some text) (r_result r)).
Proof.
  intros [El Eo Ec Ew Et] Hn Hm. unfold post.
  destruct (OP_logged code text r) as (e & r' & -> & Ecode & E1 & E2 & E3 & E4 & E5 & E6).
  rewrite El in E1. rewrite <- Ecode in Eo, Hn.
  assert (Forall wrote (es ++ [e])) as Hw by (rewrite Forall_app, Forall_singleton; split; [done|by eapply wrote_asked]).
  assert (truthful opts (r_result r') (es ++ [e])) as Ht by (rewrite E6; by apply truthful_failure, truthful_more).
  destruct (Z.eqb_spec (e_rc e) 0) as [Hr|Hr].
  - exists e. split; [done|]. split; [by split|]. by split.
  - unfold stopped. rewrite E1. split; [by eapply prefix_of_schedule|]. split; [by exists es, [e]|].
    split; [done|]. split; [done|]. rewrite E6. by exists text.
Qed.

Lemma halfway_clean es e pending r : halfway es e pending r -> clean opts e -> at_point (es ++ [e]) pending r.
Proof.
  intros [] He. split; try done; [by rewrite fmap_app, <- app_assoc|].
  by rewrite Forall_app, Forall_singleton.
Qed.

Lemma refuse_post es e pending text test r :
  halfway es e pending r -> (test r = false -> clean opts e) ->
  (forall x, test (set_r_result x r) = test r) ->
  post (refuse text test) r (fun r' => test r = false /\ at_point (es ++ [e]) pending r' /\
    r' = set_r_result (set_failure (Some text) (r_result r)) r).
Proof.
  intros H Hc Hx. unfold post, refuse. rewrite Hx. destruct (test r) eqn:Et; cbn [negb].
  - destruct H. unfold stopped. change (log_of (set_r_result _ r)) with (log_of r). rewrite hw_log0.
    split; [by eapply prefix_of_schedule|]. split; [by exists es, [e]|]. split; [done|]. split; [done|]. by exists text.
  - split; [done|]. split; [|done]. apply halfway_clean in H; [|by apply Hc]. destruct H. by split.
Qed.

(** An operation whose outcome is tested at once. *)
Lemma checked es code pending text refusal test k r Q :
  at_point es (code :: pending) r -> code <> FN_EXDISK_MOUNT -> may_ask code r ->
  (forall x r', test (set_r_result x r') = test r') ->
  (forall e r', e_op e = code -> e_rc e = 0 -> e_after e = r_state r' -> test r' = false -> clean opts e) ->
  (forall e r', e_op e = code -> at_point (es ++ [e]) pending r' -> buffers e r r' ->
     completed_trials (r_result r') = completed_trials (r_result r) -> post (k) r' Q) ->
  post (OP (logged io) code text >> refuse refusal test >> k) r Q.
Proof.
  intros Hp Hn Hm Hx Hc Hk. eapply post_use; [by apply OP_post|]. cbv beta.
  intros r1 (e & Ecode & Hh & Hb & Hr). eapply post_use.
  { eapply refuse_post; [exact Hh| |by intros]. destruct Hh. by apply Hc. }
  cbv beta. intros r2 (_ & Ha & ->). apply (Hk e); [done..|]. cbn. by rewrite Hr.
Qed.

(** One whose outcome is not. *)
Lemma unchecked es code pending text k r Q :
  at_point es (code :: pending) r -> code <> FN_EXDISK_MOUNT -> may_ask code r ->
  (forall e, e_op e = code -> e_rc e = 0 -> clean opts e) ->
  (forall e r', e_op e = code -> at_point (es ++ [e]) pending r' -> buffers e r r' ->
     completed_trials (r_result r') = completed_trials (r_result r) -> post (k) r' Q) ->
  post (OP (logged io) code text >> k) r Q.
Proof.
  intros Hp Hn Hm Hc Hk. eapply post_use; [by apply OP_post|]. cbv beta.
  intros r1 (e & Ecode & Hh & Hb & Hr). apply (Hk e); [done| |done|by rewrite Hr].
  apply halfway_clean; [done|]. destruct Hh. by apply Hc.
Qed.

(** The mount, between the two marks in the result. *)
Lemma mounting es pending text k r Q :
  at_point es (FN_EXDISK_MOUNT :: pending) r -> FN_EXDISK_MOUNT ∉ e_op <$> es ->
  completed_trials (r_result r) = 0 ->
  (forall e r', e_op e = FN_EXDISK_MOUNT -> at_point (es ++ [e]) pending r' -> buffers e r r' ->
     completed_trials (r_result r') = 0 -> post (k) r' Q) ->
  post (on_result (set_mount_attempted true) >> OP (logged io) FN_EXDISK_MOUNT text >>
        on_result (set_fixture_mounted true) >> k) r Q.
Proof.
  intros [El Eo Ec Ew Et] Hn H0 Hk. apply post_seq. unfold post at 1, on_result at 1. set (r0 := set_r_result _ r).
  apply post_seq. unfold post at 1.
  destruct (OP_logged FN_EXDISK_MOUNT text r0) as (e & r1 & -> & Ecode & E1 & E2 & E3 & E4 & E5 & E6).
  change (log_of r0) with (log_of r) in E1. rewrite El in E1. rewrite <- Ecode in Eo.
  assert (Forall wrote (es ++ [e])) as Hw.
  { rewrite Forall_app, Forall_singleton. split; [done|]. intros Hx. congruence. }
  assert (~ exists e, e ∈ es /\ e_op e = FN_EXDISK_MOUNT) as Hno.
  { intros (e' & Hi & He'). apply Hn. rewrite <- He'. by apply list_elem_of_fmap_2. }
  destruct Et as (T1 & T2 & _). assert (fixture_mounted (r_result r) <> true) as Hf.
  { intros Hf. apply T2 in Hf as (e' & ? & ? & _). apply Hno. by exists e'. }
  destruct (Z.eqb_spec (e_rc e) 0) as [Hr|Hr].
  - apply post_seq. unfold post at 1, on_result. apply (Hk e); [done| |done|by cbn; rewrite E6].
    split; [done|by rewrite fmap_app, <- app_assoc| |done|].
    + rewrite Forall_app, Forall_singleton. split; [done|]. split; [done|]. by rewrite Ecode.
    + split; [|split]; cbn.
      * rewrite E6. cbn. split; [|done]. intros _. exists e. split; [set_solver|done].
      * split; [|done]. intros _. exists e. split; [set_solver|done].
      * rewrite E6. exists 0%nat. split; [done|by left].
  - unfold stopped. rewrite E1. split; [by eapply prefix_of_schedule|]. split; [by exists es, [e]|].
    split; [done|]. split; [|rewrite E6; by exists text]. rewrite E6. split; [|split]; cbn.
    + split; [|done]. intros _. exists e. split; [set_solver|done].
    + split; [done|]. intros (e' & [Hi| ->%list_elem_of_singleton]%elem_of_app & He' & Hz); [|done].
      exfalso. apply Hno. by exists e'.
    + exists 0%nat. split; [done|by left].
Qed.

Lemma setup_post r pending :
  at_point [] (setup_ops ++ pending) r -> completed_trials (r_result r) = 0 ->
  post (setup opts (logged io)) r (fun r' => exists es,
    at_point es pending r' /\ e_op <$> es = setup_ops /\ completed_trials (r_result r') = 0).
Proof.
  intros Hp H0. unfold setup.
  eapply checked; [exact Hp|done|done|done|intros e r' Ec Er Ea Ht; split; [done|by rewrite Ec, Ea]|].
  intros e1 r1 C1 P1 _ K1. eapply checked; [exact P1|done|done|done|intros e r' Ec Er Ea Ht; split; [done|by rewrite Ec, Ea]|].
  intros e2 r2 C2 P2 _ K2. eapply mounting; [exact P2| |congruence|].
  { cbn. rewrite C1, C2. set_solver. }
  intros e3 r3 C3 P3 _ K3. eapply checked; [exact P3|done|done|done| |].
  { intros e r' Ec Er Ea Ht. split; [done|]. rewrite Ec, Ea. lia. }
  intros e4 r4 C4 P4 _ K4. eapply post_mono; [|by apply OP_post; [exact P4|..]].
  cbv beta. intros r5 (e5 & C5 & H5 & _ & K5). exists (([[e1; e2]] ≫= id) ++ [e3; e4; e5]).
  split; [|split; [cbn; by rewrite C1, C2, C3, C4, C5|rewrite K5; cbn; congruence]].
  apply (halfway_clean [e1; e2; e3; e4] e5) in H5; [done|]. destruct H5. split; [done|]. by rewrite C5.
Qed.

(** Between trials: [k] are done. *)
Record between (k : nat) (pending : list fn_exchange_disk_op) es r : Prop := {
  bt_point : at_point es pending r;
  bt_ops : e_op <$> es = setup_ops ++ trials_ops opts k;
  bt_count : completed_trials (r_result r) = Z.of_nat k;
  bt_back : writing opts = true -> read_back es
}.

(** Three more entries of a trial whose read brought back what was written. *)
Lemma read_back_more es ew ef er :
  read_back es -> e_op ef <> FN_EXDISK_READ -> e_op ef <> FN_EXDISK_WRITE ->
  e_op ew <> FN_EXDISK_READ ->
  take 512 (e_left ew) = take 512 (e_left er) -> read_back (((es ++ [ew]) ++ [ef]) ++ [er]).
Proof.
  intros Hb F1 F2 F3 He i ew' er' Hi Hj Ow Or. rewrite <- !app_assoc in Hi, Hj. cbn [app] in Hi, Hj.
  destruct (decide (i + 2 < length es)%nat) as [Hl|Hl].
  { rewrite lookup_app_l in Hi, Hj by lia. by apply (Hb i). }
  rewrite (lookup_app_r es) in Hj by lia. destruct (decide (i < length es)%nat).
  { destruct (i + 2 - length es)%nat as [|[|?]] eqn:E; [..|lia]; cbn in Hj; simplify_eq; done. }
  rewrite lookup_app_r in Hi by lia. destruct (i - length es)%nat as [|[|[|?]]] eqn:E; cbn in Hi; simplify_eq; try done.
  - replace (i + 2 - length es)%nat with 2%nat in Hj by lia. cbn in Hj. by simplify_eq.
  - replace (i + 2 - length es)%nat with 4%nat in Hj by lia. done.
Qed.

Lemma trial_finished k pending es r :
  at_point es pending r -> e_op <$> es = setup_ops ++ trials_ops opts (S k) ->
  completed_trials (r_result r) = Z.of_nat k -> (writing opts = true -> read_back es) ->
  post (on_result (fun x => set_completed (completed_trials x + 1) x)) r (between (S k) pending es).
Proof.
  intros [El Eo Ec Ew (T1 & T2 & T3)] Ho Hk Hb. unfold post, on_result. split; [|done|cbn; lia|done].
  split; try done. split; [done|]. split; [done|]. exists (S k). split; [cbn; lia|right]. by rewrite Ho.
Qed.

(** After the read: the comparison and the count. *)
Lemma trial_end k pending es r :
  at_point es pending r -> e_op <$> es = setup_ops ++ trials_ops opts (S k) ->
  completed_trials (r_result r) = Z.of_nat k ->
  (writing opts = true -> take 512 (r_write r) = take 512 (r_read r) -> read_back es) ->
  post (refuse "read-back-mismatch"
          (fun r => writing opts && negb (bool_decide (slice (r_write r) 0 512 = slice (r_read r) 0 512))) >>
        on_result (fun x => set_completed (completed_trials x + 1) x)) r
    (fun r' => exists es', between (S k) pending es' r').
Proof.
  intros Hp Ho Hk Hb. apply post_seq. unfold post at 1, refuse.
  change (writing opts && _) with (writing opts && negb (bool_decide (take 512 (r_write r) = take 512 (r_read r)))).
  set (r1 := set_r_result _ r). assert (at_point es pending r1) as H1 by by destruct Hp.
  destruct (writing opts && _) eqn:Et; cbn [negb].
  - destruct H1 as [El Eo Ec Ew Et1]. unfold stopped. rewrite El. split; [exists pending; done|].
    split; [exists es, []; rewrite app_nil_r; split; [done|]; split; [cbn; lia|done]|].
    split; [done|]. split; [done|]. by eexists.
  - eapply post_mono; [|apply (trial_finished k pending es); try done]; [by intros; eexists|].
    intros Hw. apply Hb; [done|]. rewrite Hw in Et. cbn in Et. apply negb_false_iff in Et. by case_bool_decide.
Qed.

Lemma trial_ops_writing : writing opts = true ->
  trial_ops opts = [FN_EXDISK_WRITE; FN_EXDISK_FLUSH; FN_EXDISK_READ].
Proof. unfold trial_ops. by intros ->. Qed.
Lemma trial_ops_reading : writing opts = false -> trial_ops opts = [FN_EXDISK_READ].
Proof. unfold trial_ops. by intros ->. Qed.

Lemma trial_post k pending es r :
  between k (trial_ops opts ++ pending) es r ->
  post (trial_body opts (logged io) (Z.of_nat k)) r (fun r' => exists es', between (S k) pending es' r').
Proof.
  intros [Hp Ho Hc Hb]. unfold trial_body. apply post_seq. unfold post at 1, on_state.
  set (r0 := set_r_state _ r). assert (ds_trial (r_state r0) = Z.of_nat k + 1) as Et by done.
  assert (at_point es (trial_ops opts ++ pending) r0) as H0 by by destruct Hp.
  assert (completed_trials (r_result r0) = Z.of_nat k) as C0 by done. clearbody r0. clear Hp Hc r.
  apply post_seq. destruct (writing opts) eqn:Ew.
  - rewrite (trial_ops_writing Ew) in H0.
    change (at_point es (FN_EXDISK_WRITE :: FN_EXDISK_FLUSH :: FN_EXDISK_READ :: pending) r0) in H0. apply post_seq. unfold post at 1.
    set (r1 := set_r_write _ r0). eapply checked; [by destruct H0; split|done| |done| |].
    { intros _. change (r_write r1) with (fn_exchange_disk_pattern (r_write r0) (Z.of_nat k)).
      rewrite take_pattern. f_equal. change (r_state r1) with (r_state r0). lia. }
    { intros e r' Ec Er Ea Ht. split; [done|]. rewrite Ec, Ea. lia. }
    intros ew r2 C2 P2 [B2 _] K2. eapply post_mono; [|by apply OP_post; [exact P2|..]]. cbv beta.
    intros r3 (ef & C3 & H3 & [B3 _] & K3). apply halfway_clean in H3; [|destruct H3; split; [done|by rewrite C3]].
    eapply checked; [exact H3|done|done|done| |].
    { intros e r' Ec Er Ea Ht. split; [done|]. rewrite Ec, Ea. lia. }
    intros er r4 C4 P4 [B4 B4'] K4. pose proof (trial_end k pending (((es ++ [ew]) ++ [ef]) ++ [er]) r4) as Te.
    rewrite Ew in Te. apply Te; [done|..]; clear Te.
    + rewrite trials_ops_snoc, (trial_ops_writing Ew), !fmap_app, Ho. cbn. rewrite C2, C3, C4. by rewrite <- !app_assoc.
    + rewrite K4, K3. cbn. rewrite K2. exact C0.
    + intros _ Hm. apply read_back_more; [by apply Hb|by rewrite C3|by rewrite C3|by rewrite C2|].
      rewrite C2 in B2. rewrite C3 in B3. rewrite C4 in B4, B4'. by rewrite <- B2, <- B3, <- B4, <- B4'.
  - rewrite (trial_ops_reading Ew) in H0. change (at_point es (FN_EXDISK_READ :: pending) r0) in H0. unfold post at 1. eapply checked; [exact H0|done|done|done| |].
    { intros e r' Ec Er Ea Ht. split; [done|]. rewrite Ec, Ea. lia. }
    intros er r4 C4 P4 _ K4. pose proof (trial_end k pending (es ++ [er]) r4) as Te.
    rewrite Ew in Te. apply Te; [done|..]; clear Te; [..|done].
    + rewrite trials_ops_snoc, (trial_ops_reading Ew), !fmap_app, Ho. cbn [fmap list_fmap]. by rewrite C4, <- app_assoc.
    + by rewrite K4.
Qed.

Lemma loop_post n k r es :
  between k (trials_ops opts n) es r ->
  post (trial_loop opts (logged io) n (Z.of_nat k)) r (fun r' => exists es', between (k + n) [] es' r').
Proof.
  revert k r es. induction n as [|n IH]; intros k r es Hb.
  { unfold post. cbn. rewrite Nat.add_0_r. by exists es. }
  cbn [trial_loop]. eapply post_use; [by apply (trial_post k (trials_ops opts n) es)|]. cbv beta.
  intros r1 (es1 & H1). replace (Z.of_nat k + 1) with (Z.of_nat (S k)) by lia.
  replace (k + S n)%nat with (S k + n)%nat by lia. by apply (IH (S k) r1 es1).
Qed.
End Protocol.

Section Whole.
Context {W : Type}.
Variable opts : fn_nio_exchange_opts.
Variable io : disk_io W.

(** A run asks for nothing unless the options are those of an ordinary disk
    trial. *)
Lemma authorized_ordinary : authorized opts = true -> ordinary_disk_ok opts = true.
Proof.
  unfold authorized. rewrite !andb_true_iff, negb_true_iff. intros [[Hp Hpl] Hd].
  unfold fn_nio_exchange_opts_plan in Hpl. rewrite Hd, Hp in Hpl. cbn [andb negb] in Hpl.
  change (2 <? 1) with false in Hpl. cbv iota in Hpl. by destruct (ordinary_disk_ok opts).
Qed.

(** C35: An ordinary disk trial of the exchange tool, over any adapter.  It
    does its operations in the order of the schedule and stops at the first
    that fails or whose outcome is not what it has to be; so nothing is
    mounted unless both the local drive and the remote slot were found empty,
    nothing is transferred before the geometry was seen to hold the block,
    and every block written is the pattern of its trial.  What it reports is
    true: whether a mount was tried, whether it succeeded, how many trials
    were gone through.  It passes only when the whole schedule went
    through, and then all trials count and every read brought back what had
    been written; otherwise it names the failure.  Without the options of an
    ordinary disk trial it does nothing at all. *)
Theorem disk_run_protocol w write_buffer read_buffer :
  let '(rc, r) := fn_exchange_disk_run opts (logged io) (w, []) write_buffer read_buffer in
  let es := log_of r in
  (e_op <$> es) `prefix_of` schedule opts /\
  (exists done last, es = done ++ last /\ (length last <= 1)%nat /\ Forall (clean opts) done) /\
  Forall wrote es /\ truthful opts (r_result r) es /\
  (es <> [] -> ordinary_disk_ok opts = true) /\
  (rc = 0 /\ e_op <$> es = schedule opts /\ Forall (clean opts) es /\ failure (r_result r) = None /\
     completed_trials (r_result r) = o_trials opts /\ (writing opts = true -> read_back es) \/
   rc = -1 /\ exists t, failure (r_result r) = Some t).
Proof.
  unfold fn_exchange_disk_run. set (r0 := mkRun _ _ _ _ _). unfold andthen at 1, refuse at 1.
  set (r1 := set_r_result _ r0). rewrite negb_involutive. destruct (authorized opts) eqn:Ea.
  2:{ cbn. split; [apply prefix_nil|]. split; [exists [], []; split_and!; [done|cbn; lia|done]|]. split; [done|].
      split; [|split; [done|right; split; [done|by eexists]]].
      split; [|split]; cbn; [split; [done|set_solver]..|]. exists 0%nat. split; [done|by left]. }
  assert (post opts (setup opts (logged io) >> trial_loop opts (logged io) (Z.to_nat (o_trials opts)) 0) r1
    (fun r => exists es, between opts (Z.to_nat (o_trials opts)) [] es r)) as Hp.
  { eapply post_use; [apply (setup_post opts io r1 (trials_ops opts (Z.to_nat (o_trials opts))))|].
    - split; try done. split; [|split]; cbn; [split; [done|set_solver]..|]. exists 0%nat. split; [done|by left].
    - done.
    - cbv beta. intros r2 (es & Hat & Ho & Hc). apply (loop_post opts io _ 0 r2 es).
      split; [done|by rewrite Ho, app_nil_r|done|]. intros _ i ew er Hi Hj Ow _.
      apply (f_equal (lookup i)) in Ho. rewrite list_lookup_fmap, Hi in Ho. cbn in Ho. rewrite Ow in Ho.
      by do 5 (destruct i as [|i]; [done|]). }
  unfold post in Hp. unfold andthen in *. pose proof (authorized_ordinary Ea) as Hord.
  destruct (setup opts (logged io) r1) as [[] r2].
  2:{ destruct Hp as (? & ? & ? & ? & ?). split_and!; try done. by right. }
  destruct (trial_loop _ _ _ _ r2) as [[] r3].
  2:{ destruct Hp as (? & ? & ? & ? & ?). split_and!; try done. by right. }
  destruct Hp as (es & [Hat Ho Hc Hb]). destruct Hat as [El Eo Ec Ew Et]. unfold on_result.
  change (log_of (set_r_result _ r3)) with (log_of r3). rewrite El. rewrite app_nil_r in Eo.
  split; [rewrite Eo; done|]. split; [exists es, []; rewrite app_nil_r; split_and!; [done|cbn; lia|done]|].
  split; [done|]. split; [done|]. split; [done|]. left. split_and!; try done. cbn. rewrite Hc.
  unfold ordinary_disk_ok in Hord. lia.
Qed.
End Whole.

(** ** Stretches that go through, and what the world keeps *)

Section Through.
Context {W : Type}.
Variable opts : fn_nio_exchange_opts.
Variable io : disk_io W.

Lemma seq_through (m k : stretch W) r r' :
  (m >> k) r = (true, r') -> exists r1, m r = (true, r1) /\ k r1 = (true, r').
Proof. unfold andthen. destruct (m r) as [[] r1]; [by eauto|done]. Qed.

Lemma OP_through code text r r' : OP io code text r = (true, r') ->
  exists w rc state bytes, io (r_world r) code (r_state r) (buffer_of code r) = (w, rc, state, bytes) /\
    rc = 0 /\ r_world r' = w /\ r_state r' = state /\
    r_write r' = match code with FN_EXDISK_WRITE => bytes | _ => r_write r end /\
    r_read r' = match code with FN_EXDISK_READ => bytes | _ => r_read r end.
Proof.
  unfold OP. change (buffer_of code (set_r_result _ r)) with (buffer_of code r).
  change (r_world (set_r_result _ r)) with (r_world r). change (r_state (set_r_result _ r)) with (r_state r).
  destruct (io (r_world r) code (r_state r) (buffer_of code r)) as [[[w rc] state] bytes].
  intros [= Hr%Z.eqb_eq <-]. exists w, rc, state, bytes. by destruct code.
Qed.

Lemma refuse_through text test r r' : refuse (W := W) text test r = (true, r') ->
  test r' = test (set_r_result (set_failure (Some text) (r_result r)) r) /\ test r' = false /\
  r_world r' = r_world r /\ r_state r' = r_state r /\ r_write r' = r_write r /\ r_read r' = r_read r.
Proof. unfold refuse. intros [= Hn <-]. split_and!; try done. by apply negb_true_iff. Qed.

(** An invariant [P] of a run that goes on, and what it says wherever the run
    ends. *)
Variables P Q : run W -> Prop.
Hypothesis HPQ : forall r, P r -> Q r.
Hypothesis Hresult : forall x r, P r -> P (set_r_result x r).
Hypothesis Htrial : forall n r, P r -> P (set_r_state (set_ds_trial n (r_state r)) r).
Hypothesis Hpattern : forall n r, P r -> P (set_r_write (fn_exchange_disk_pattern (r_write r) n) r).

Definition steady (m : stretch W) : Prop := forall r, P r -> Q (m r).2 /\ ((m r).1 = true -> P (m r).2).
Hypothesis Hop : forall code text, code <> FN_EXDISK_WRITE \/ writing opts = true -> steady (OP io code text).

Lemma seq_steady m k : steady m -> steady k -> steady (m >> k).
Proof.
  intros Hm Hk r Hr. unfold andthen. destruct (Hm r Hr) as [H1 H2]. destruct (m r) as [[] r1]; [by apply Hk, H2|done].
Qed.
Lemma pure_steady (f : run W -> run W) : (forall r, P r -> P (f r)) -> steady (fun r => (true, f r)).
Proof. intros Hf r Hr. split; [by apply HPQ, Hf|by intros _; apply Hf]. Qed.
Lemma refuse_steady text test : steady (refuse text test).
Proof. intros r Hr. unfold refuse. cbn. split; [by apply HPQ, Hresult|intros _; by apply Hresult]. Qed.
Lemma on_result_steady f : steady (on_result f).
Proof. apply pure_steady. intros r Hr. by apply Hresult. Qed.

Lemma trial_steady trial : steady (trial_body opts io trial).
Proof.
  pose proof Hop as Hasked. unfold trial_body. apply seq_steady; [apply pure_steady; intros r Hr; by apply Htrial|].
  apply seq_steady.
  - destruct (writing opts); [|by apply pure_steady].
    apply seq_steady; [apply pure_steady; intros r Hr; by apply Hpattern|].
    apply seq_steady; [apply Hasked; by right|]. apply seq_steady; [apply refuse_steady|]. apply Hasked. by left.
  - apply seq_steady; [apply Hasked; by left|]. apply seq_steady; [apply refuse_steady|].
    apply seq_steady; [apply refuse_steady|apply on_result_steady].
Qed.
Lemma loop_steady n trial : steady (trial_loop opts io n trial).
Proof.
  revert trial. induction n as [|n IH]; intros trial; [by apply pure_steady|].
  cbn [trial_loop]. apply seq_steady; [apply trial_steady|apply IH].
Qed.
Lemma setup_steady : steady (setup opts io).
Proof.
  unfold setup. repeat first [apply seq_steady|apply refuse_steady|apply on_result_steady|apply Hop; by left].
Qed.
End Through.
