(* ===== verification/ExchangeAdapter.v ===== *)
(** * The exchange tool's disk adapter
    (amiga/tools/fujinet_nio_exchange_disk_adapter.c)

    What the trials of ExchangeDisk ask for, as requests to
    fujinet-disk.device and fujinet-nio.device.  The devices are parameters,
    [DoIO] on a request with all that it points to, and so is the library's
    disk codec, which exchanges packets through the adapter; console output
    is left out. *)

From S2P Require Import PaulaUart Prelude ExecIO FnLib SerialConfig NioBackend IoQueue NioDevice.
From S2P Require Import DiskMedia DiskDriver DiskDevice ExchangeOpts ExchangeOptsProps ExchangeDisk ExchangeDiskProps.
#[local] Open Scope Z_scope.

(** ** What the tool works on *)

(** The devices behind [DoIO], with the world they live in.  A request is
    given and taken back whole; its [io_Error] is [DoIO]'s result. *)
Record exec_devices (W : Type) := mkDevices {
  DoIO_disk : IOStdReq -> W -> W * IOStdReq;
  DoIO_nio : FujiNetNIORequest -> W -> W * FujiNetNIORequest
}.
#[global] Arguments mkDevices {W}.
#[global] Arguments DoIO_disk {W}.
#[global] Arguments DoIO_nio {W}.

(** [ordinary_disk_context]; the buffers are the run's own, the codec's are
    part of the world. *)
Record ordinary_disk_context (W : Type) := mkOrdinary {
  oc_world : W;
  oc_nio_bound : bool;
  oc_nio : FujiNetNIORequest;
  oc_disk : IOStdReq;
  oc_trace : fujinet_disk_trace
}.
#[global] Arguments mkOrdinary {W}.
#[global] Arguments oc_world {W}.
#[global] Arguments oc_nio_bound {W}.
#[global] Arguments oc_nio {W}.
#[global] Arguments oc_disk {W}.
#[global] Arguments oc_trace {W}.
#[export] Instance eta_ordinary {W} : Eta (ordinary_disk_context W) := fun c =>
  mkOrdinary (oc_world c) (oc_nio_bound c) (oc_nio c) (oc_disk c) (oc_trace c).
Definition set_oc_world {W} : W -> ordinary_disk_context W -> ordinary_disk_context W :=
  ltac:(derive_setter (@oc_world W)).
Definition set_oc_nio {W} : FujiNetNIORequest -> ordinary_disk_context W -> ordinary_disk_context W :=
  ltac:(derive_setter (@oc_nio W)).
Definition set_oc_disk {W} : IOStdReq -> ordinary_disk_context W -> ordinary_disk_context W :=
  ltac:(derive_setter (@oc_disk W)).
Definition set_oc_trace {W} : fujinet_disk_trace -> ordinary_disk_context W -> ordinary_disk_context W :=
  ltac:(derive_setter (@oc_trace W)).

Definition set_disk_Command : Z -> IOStdReq -> IOStdReq := ltac:(derive_setter DiskDevice.io_Command).
Definition set_disk_Length : Z -> IOStdReq -> IOStdReq := ltac:(derive_setter DiskDevice.io_Length).
Definition set_disk_Data : Z -> IOStdReq -> IOStdReq := ltac:(derive_setter DiskDevice.io_Data).
Definition set_disk_Offset : Z -> IOStdReq -> IOStdReq := ltac:(derive_setter DiskDevice.io_Offset).
Definition set_iotd_Count : Z -> IOStdReq -> IOStdReq := ltac:(derive_setter iotd_Count).
Definition set_iotd_SecLabel : Z -> IOStdReq -> IOStdReq := ltac:(derive_setter iotd_SecLabel).

Definition geometry_zero : DriveGeometry := mkGeometry 0 0 0 0 0 0 0 0 0.

Section Adapter.
Context `{L : FnLib} {W : Type}.
Variable devices : exec_devices W.
Variable sizes : abi.
Variable FUJINET_NIO_REQUEST_SIZE : Z.
(** The WB1.3 build leaves the trace alone. *)
Variable FUJINET_WB13 : bool.
(** Where the tool's objects are: none is at 0. *)
Variables uri_address buffer_address geometry_address trace_address : Z.
Variable opts : fn_nio_exchange_opts.
Abbreviation context := (ordinary_disk_context W).
Implicit Types c : context.

(** [fn_disk_info_context] of the library on [&c->codec], which exchanges
    through the callback it was given: the result and [*info]. *)
Variable fn_disk_info_context :
  (context -> list Z -> Z -> list Z -> Z -> context * Z * list Z * Z) ->
  context -> Z -> fn_disk_info_t -> context * Z * fn_disk_info_t.

(** The result, [*response] and [*response_length]. *)
Definition fn_exchange_disk_adapter_exchange c (request : list Z) (length : Z) (response : list Z)
    (capacity : Z) : context * Z * list Z * Z :=
  let nio := NioDevice.mkReq NT_MESSAGE (oc_nio_bound c) FUJINET_NIO_CMD_EXCHANGE 0 0
               FUJINET_NIO_REQUEST_SIZE 0 (Some request) length (Some response) capacity 0 0 [0; 0; 0] in
  let '(w, nio) := DoIO_nio devices nio (oc_world c) in
  let c := c |> set_oc_world w |> set_oc_nio nio in
  (c, if negb (NioDevice.io_Error nio =? 0) then FN_ERR_IO else fn_nio_error nio,
   default response (fn_response_data nio), fn_response_length nio).

(** [DoIO] on [c->disk]. *)
Definition disk_doio c : context :=
  let '(w, q) := DoIO_disk devices (oc_disk c) (oc_world c) in
  c |> set_oc_world w |> set_oc_disk q.
Definition on_disk (f : IOStdReq -> IOStdReq) c : context := set_oc_disk (f (oc_disk c)) c.

(** [FUJINET_DISK_CMD_TRACE_CLEAR]. *)
Definition clear_trace c : context :=
  disk_doio (on_disk (fun q => q |> set_disk_Command FUJINET_DISK_CMD_TRACE_CLEAR
                                 |> set_disk_Data 0 |> set_disk_Length 0) c).

(** [FUJINET_DISK_CMD_TRACE] into [c->trace]. *)
Definition query_trace c : context :=
  let c := on_disk (fun q => q |> set_disk_Command FUJINET_DISK_CMD_TRACE |> set_disk_Data trace_address
                               |> set_disk_Length (sizeof_trace sizes)
                               |> set_memory (set_m_trace no_trace (memory q))) (set_oc_trace no_trace c) in
  let c := disk_doio c in
  set_oc_trace (m_trace (memory (oc_disk c))) c.

(** The command of an operation, with what [io_Data] points to. *)
Definition op_command (op : fn_exchange_disk_op) (buffer : list Z)
    : option (Z * Z * Z * (client_memory -> client_memory)) :=
  let same := fun m : client_memory => m in
  match op with
  | FN_EXDISK_LOCAL_STATE => Some (TD_CHANGESTATE, 0, 0, same)
  | FN_EXDISK_MOUNT =>
      let uri := default [] (o_fixture_uri opts) in
      Some (if o_type opts =? FN_NIO_EXCHANGE_TYPE_DISK_WRITE
            then FUJINET_DISK_CMD_MOUNT_WRITABLE else FUJINET_DISK_CMD_MOUNT,
            uri_address, u32 (strlen uri + 1), set_m_bytes uri)
  | FN_EXDISK_GEOMETRY =>
      Some (TD_GETGEOMETRY, geometry_address, sizeof_geometry sizes, set_m_geometry geometry_zero)
  | FN_EXDISK_CHANGE => Some (TD_CHANGENUM, 0, 0, same)
  | FN_EXDISK_READ => Some (ETD_READ, buffer_address, 512, set_m_bytes buffer)
  | FN_EXDISK_WRITE => Some (ETD_WRITE, buffer_address, 512, set_m_bytes buffer)
  | FN_EXDISK_FLUSH => Some (CMD_UPDATE, 0, 0, same)
  | FN_EXDISK_REMOTE_INFO => None
  end.

(** The request of a command at the block of the options. *)
Definition fill_command (command data length : Z) (view : client_memory -> client_memory) (change : Z)
    (q : IOStdReq) : IOStdReq :=
  q |> set_disk_Command command |> set_disk_Data data |> set_disk_Length length
    |> set_disk_Offset (u32 (o_lba opts * 512))
    |> set_iotd_Count change |> set_iotd_SecLabel 0 |> set_memory (view (memory q)).

Definition is_transfer_op (op : fn_exchange_disk_op) : bool :=
  match op with FN_EXDISK_READ | FN_EXDISK_WRITE => true | _ => false end.

(** The result, and what [*state] becomes. *)
Definition outcome (op : fn_exchange_disk_op) (actual : Z) (geometry : DriveGeometry)
    (state : fn_exchange_disk_state) : Z * fn_exchange_disk_state :=
  let state := set_ds_actual actual state in
  match op with
  | FN_EXDISK_LOCAL_STATE => (0, set_ds_mounted (actual =? 0) state)
  | FN_EXDISK_CHANGE => (0, set_ds_change actual state)
  | FN_EXDISK_GEOMETRY =>
      if negb (actual =? sizeof_geometry sizes) then (-1, state)
      else (0, state |> set_ds_sector_size (dg_SectorSize geometry)
                     |> set_ds_sectors (dg_TotalSectors geometry))
  | _ => (0, state)
  end.

Definition fn_exchange_disk_adapter_io : disk_io context := fun c op state buffer =>
  let bytes := default [] buffer in
  match op_command op bytes with
  | None =>
      let '(c, result, info) :=
        fn_disk_info_context fn_exchange_disk_adapter_exchange c (u8 (o_slot opts)) info_zero in
      if negb (result =? FN_OK) || negb (i_slot info =? o_slot opts) then (c, -1, state, bytes)
      else (c, 0, set_ds_mounted (negb (Z.land (i_flags info) FN_DISK_FLAG_MOUNTED =? 0)) state, bytes)
  | Some (command, data, length, view) =>
      let c := clear_trace c in
      if negb (DiskDevice.io_Error (oc_disk c) =? 0) then (c, -1, state, bytes)
      else
      let c := disk_doio (on_disk (fill_command command data length view (ds_change state)) c) in
      let error := DiskDevice.io_Error (oc_disk c) in
      let actual := DiskDevice.io_Actual (oc_disk c) in
      let geometry := m_geometry (memory (oc_disk c)) in
      let bytes := if is_transfer_op op then m_bytes (memory (oc_disk c)) else bytes in
      let c := if is_transfer_op op && negb FUJINET_WB13 then query_trace c else c in
      if is_transfer_op op && negb FUJINET_WB13 && negb (DiskDevice.io_Error (oc_disk c) =? 0)
      then (c, -1, state, bytes)
      else if negb (error =? 0) then (c, -1, state, bytes)
      else
      let '(rc, state) := outcome op actual geometry state in
      (c, rc, state, bytes)
  end.
End Adapter.
