(* ===== verification/ExchangeAdapterProps.v ===== *)
(** * What disk trials do to the disk

    Over devices that transfer blocks as [TrackDisk] says, an ordinary trial
    changes no block but its own, and one that passes leaves there, or has
    read from there, what it should. *)

From S2P Require Import PaulaUart Prelude ExecIO CString FnLib SerialConfig NioBackend IoQueue NioDevice.
From S2P Require Import DiskMedia DiskDriver DiskDevice ExchangeOpts ExchangeOptsProps ExchangeDisk ExchangeDiskProps.
From S2P Require Import ExchangeAdapter.
#[local] Open Scope Z_scope.
#[local] Open Scope stretch_scope.

(** The commands the tool uses that change no block. *)
Definition quiet_commands : list Z :=
  [FUJINET_DISK_CMD_TRACE_CLEAR; FUJINET_DISK_CMD_TRACE; TD_CHANGESTATE; FUJINET_DISK_CMD_MOUNT;
   FUJINET_DISK_CMD_MOUNT_WRITABLE; TD_GETGEOMETRY; TD_CHANGENUM; ETD_READ; CMD_UPDATE].
(** A request of the tool: transfers are of one block, in a buffer that holds
    it. *)
Definition tool_request (q : IOStdReq) : Prop :=
  (DiskDevice.io_Command q = ETD_WRITE \/ DiskDevice.io_Command q ∈ quiet_commands) /\
  (DiskDevice.io_Command q = ETD_WRITE \/ DiskDevice.io_Command q = ETD_READ ->
   DiskDevice.io_Length q = 512 /\ (512 <= length (m_bytes (memory q)))%nat /\
   exists l, 0 <= l <= 8388607 /\ DiskDevice.io_Offset q = l * 512).

(** What the tool needs of the devices, at one unit, once they are [ready]
    for its requests.  [image w l] is block [l] of the medium.  Only a write
    changes it, and only the block it is at; a transfer that reports success
    and 512 bytes did transfer them; and a write leaves the client's memory
    as it is, and a read that succeeds fills it. *)
Class TrackDisk {W : Type} (devices : exec_devices W) (unit : Z) (ready : W -> Prop)
    (image : W -> Z -> list Z) := {
  td_block w l : length (image w l) = 512%nat;
  td_ready q w : ready w -> DiskDevice.io_Unit q = Some unit -> tool_request q ->
    ready (DoIO_disk devices q w).1 /\ DiskDevice.io_Unit (DoIO_disk devices q w).2 = Some unit;
  td_nio q w : ready w -> ready (DoIO_nio devices q w).1 /\
    forall l, image (DoIO_nio devices q w).1 l = image w l;
  td_quiet q w l : ready w -> DiskDevice.io_Unit q = Some unit -> tool_request q ->
    DiskDevice.io_Command q <> ETD_WRITE -> image (DoIO_disk devices q w).1 l = image w l;
  td_write q w l : ready w -> DiskDevice.io_Unit q = Some unit -> tool_request q ->
    DiskDevice.io_Command q = ETD_WRITE -> DiskDevice.io_Offset q <> l * 512 ->
    image (DoIO_disk devices q w).1 l = image w l;
  td_memory q w : ready w -> DiskDevice.io_Unit q = Some unit -> tool_request q ->
    DiskDevice.io_Command q = ETD_WRITE ->
    m_bytes (memory (DoIO_disk devices q w).2) = m_bytes (memory q);
  td_length q w : ready w -> DiskDevice.io_Unit q = Some unit -> tool_request q ->
    DiskDevice.io_Command q = ETD_READ -> DiskDevice.io_Error (DoIO_disk devices q w).2 = 0 ->
    (512 <= length (m_bytes (memory (DoIO_disk devices q w).2)))%nat;
  td_written q w l : ready w -> DiskDevice.io_Unit q = Some unit -> tool_request q ->
    DiskDevice.io_Command q = ETD_WRITE -> DiskDevice.io_Offset q = l * 512 ->
    DiskDevice.io_Error (DoIO_disk devices q w).2 = 0 -> DiskDevice.io_Actual (DoIO_disk devices q w).2 = 512 ->
    image (DoIO_disk devices q w).1 l = take 512 (m_bytes (memory q));
  td_read q w l : ready w -> DiskDevice.io_Unit q = Some unit -> tool_request q ->
    DiskDevice.io_Command q = ETD_READ -> DiskDevice.io_Offset q = l * 512 ->
    DiskDevice.io_Error (DoIO_disk devices q w).2 = 0 -> DiskDevice.io_Actual (DoIO_disk devices q w).2 = 512 ->
    take 512 (m_bytes (memory (DoIO_disk devices q w).2)) = image w l
}.

Section Image.
Context `{L : FnLib} {W : Type} (devices : exec_devices W) (unit : Z) (ready : W -> Prop) (image : W -> Z -> list Z)
  `{!TrackDisk devices unit ready image}.
Variable sizes : abi.
Variables (request_size : Z) (wb13 : bool) (uri_address buffer_address geometry_address trace_address : Z).
Variable opts : fn_nio_exchange_opts.
Variable codec : (ordinary_disk_context W -> list Z -> Z -> list Z -> Z -> ordinary_disk_context W * Z * list Z * Z) ->
  ordinary_disk_context W -> Z -> fn_disk_info_t -> ordinary_disk_context W * Z * fn_disk_info_t.

Abbreviation context := (ordinary_disk_context W).
Abbreviation adapter := (fn_exchange_disk_adapter_io devices sizes request_size wb13 uri_address buffer_address
  geometry_address trace_address opts codec).
Abbreviation exchange := (fn_exchange_disk_adapter_exchange devices request_size).
Implicit Types c : context.

(** The library's codec works through the callback it is given: what that
    keeps, the codec keeps. *)
Hypothesis Hcodec : forall (K : context -> Prop) slot info c,
  (forall c request n response cap, K c -> K (exchange c request n response cap).1.1.1) ->
  K c -> K (codec exchange c slot info).1.1.
Hypothesis Hlba : 0 <= o_lba opts <= 8388607.

(** The context is fit for requests, and its image is [im]. *)
Definition fit (im : Z -> list Z) c : Prop :=
  ready (oc_world c) /\ DiskDevice.io_Unit (oc_disk c) = Some unit /\ forall l, image (oc_world c) l = im l.

Lemma exchange_fit im c request n response cap : fit im c -> fit im (exchange c request n response cap).1.1.1.
Proof.
  intros (Hr & Hu & Hi). unfold fn_exchange_disk_adapter_exchange.
  match goal with |- context [DoIO_nio devices ?q ?w] => destruct (td_nio q w Hr) as [H1 H2];
    destruct (DoIO_nio devices q w) as [w' nio] end.
  split; [done|]. split; [done|]. intros l. cbn. by rewrite H2.
Qed.

Lemma doio_fit im c : fit im c -> tool_request (oc_disk c) ->
  DiskDevice.io_Command (oc_disk c) <> ETD_WRITE -> fit im (disk_doio devices c).
Proof.
  intros (Hr & Hu & Hi) Ht Hc. unfold disk_doio. destruct (td_ready _ _ Hr Hu Ht) as [H1 H2].
  pose proof (fun l => td_quiet _ _ l Hr Hu Ht Hc) as H3.
  destruct (DoIO_disk devices (oc_disk c) (oc_world c)) as [w q]. cbn [fst snd] in *.
  split; [done|]. split; [done|]. intros l. cbn. by rewrite H3.
Qed.

Lemma quiet_request q : DiskDevice.io_Command q ∈ quiet_commands -> DiskDevice.io_Command q <> ETD_READ ->
  tool_request q.
Proof.
  intros Hq Hn. split; [by right|]. intros [E|E]; [|done]. exfalso. rewrite E in Hq. revert Hq.
  by apply (bool_decide_unpack (ETD_WRITE ∉ quiet_commands)).
Qed.

Lemma clear_fit im c : fit im c -> fit im (clear_trace devices c).
Proof.
  intros Hf. apply doio_fit; [exact Hf| |done].
  apply quiet_request; [by apply (bool_decide_unpack (FUJINET_DISK_CMD_TRACE_CLEAR ∈ quiet_commands))|done].
Qed.
Lemma query_fit im c : fit im c -> fit im (query_trace devices sizes trace_address c).
Proof.
  intros Hf. unfold query_trace. set (c1 := on_disk _ _).
  assert (fit im (disk_doio devices c1)) as H; [|exact H]. apply doio_fit; [exact Hf| |done].
  apply quiet_request; [by apply (bool_decide_unpack (FUJINET_DISK_CMD_TRACE ∈ quiet_commands))|done].
Qed.

Lemma offset_lba : u32 (o_lba opts * 512) = o_lba opts * 512.
Proof. apply u32_id. unfold is_u32. lia. Qed.

(** The request of an operation is one of the tool's. *)
Lemma op_request op bytes command data len view change q :
  (is_transfer_op op = true -> (512 <= length bytes)%nat) ->
  op_command sizes uri_address buffer_address geometry_address opts op bytes = Some (command, data, len, view) ->
  tool_request (fill_command opts command data len view change q) /\
  (op <> FN_EXDISK_WRITE -> command <> ETD_WRITE).
Proof.
  intros Hb Ho. destruct (is_transfer_op op) eqn:Et.
  - assert (len = 512 /\ view = set_m_bytes bytes /\
      ((op = FN_EXDISK_READ /\ command = ETD_READ) \/ (op = FN_EXDISK_WRITE /\ command = ETD_WRITE))) as (-> & -> & Hc).
    { destruct op; try done; cbn in Ho; injection Ho as <- <- <- <-; auto. }
    split; [|destruct Hc as [[-> ->]|[-> ->]]; done]. split.
    + destruct Hc as [[_ ->]|[_ ->]]; [right|by left].
      by apply (bool_decide_unpack (ETD_READ ∈ quiet_commands)).
    + intros _. split; [done|]. split; [by apply Hb|]. exists (o_lba opts). split; [done|apply offset_lba].
  - assert (command ∈ quiet_commands /\ command <> ETD_READ) as [Hq Hn].
    { destruct op; try done; cbn in Ho; try (injection Ho as <- _ _ _; split; [|done];
        apply (bool_decide_unpack (_ ∈ quiet_commands)); vm_compute; exact I).
      destruct (o_type opts =? FN_NIO_EXCHANGE_TYPE_DISK_WRITE); injection Ho as <- _ _ _; (split; [|done];
        apply (bool_decide_unpack (_ ∈ quiet_commands)); vm_compute; exact I). }
    split; [by apply quiet_request|]. intros _ ->. revert Hq. by apply (bool_decide_unpack (ETD_WRITE ∉ quiet_commands)).
Qed.

(** What an operation does to the context, and to the buffer of a transfer. *)
Lemma adapter_step im c op state buffer :
  fit im c -> (is_transfer_op op = true -> (512 <= length (default [] buffer))%nat) ->
  let '(c', rc, state', bytes) := adapter c op state buffer in
  exists im', fit im' c' /\ (forall l, l <> o_lba opts \/ op <> FN_EXDISK_WRITE -> im' l = im l) /\
    (op <> FN_EXDISK_READ -> bytes = default [] buffer) /\
    (is_transfer_op op = true -> rc = 0 -> (512 <= length bytes)%nat) /\
    (rc = 0 -> ds_actual state' = 512 ->
       (op = FN_EXDISK_WRITE -> im' (o_lba opts) = take 512 (default [] buffer)) /\
       (op = FN_EXDISK_READ -> take 512 bytes = im (o_lba opts))).
Proof.
  intros Hf Hb. unfold fn_exchange_disk_adapter_io. set (b := default [] buffer) in *.
  destruct (op_command sizes uri_address buffer_address geometry_address opts op b) as [[[[command data] len] view]|] eqn:Eo.
  2:{ assert (op = FN_EXDISK_REMOTE_INFO) as -> by (destruct op; done).
      pose proof (Hcodec (fit im) (u8 (o_slot opts)) info_zero c
        (fun c request n response cap => exchange_fit im c request n response cap) Hf) as H.
      destruct (codec exchange c (u8 (o_slot opts)) info_zero) as [[c' result] info].
      destruct (_ || _); exists im; split_and!; done. }
  pose proof (clear_fit im c Hf) as H1. set (c1 := clear_trace devices c) in *.
  destruct (negb (DiskDevice.io_Error (oc_disk c1) =? 0)); [exists im; split_and!; done|].
  destruct (op_request op b command data len view (ds_change state) (oc_disk c1) Hb Eo) as [Ht Hc].
  set (c2 := on_disk _ c1). change (fill_command _ _ _ _ _ _ _) with (oc_disk c2) in Ht.
  assert (DiskDevice.io_Command (oc_disk c2) = command) as Ec by done.
  assert (is_transfer_op op = true -> DiskDevice.io_Offset (oc_disk c2) = o_lba opts * 512) as Ho
    by (intros _; apply offset_lba).
  assert (is_transfer_op op = true -> m_bytes (memory (oc_disk c2)) = b) as Em.
  { intros E. destruct op; try done; cbn in Eo; by injection Eo as <- <- <- <-. }
  assert ((op = FN_EXDISK_WRITE -> command = ETD_WRITE) /\ (op = FN_EXDISK_READ -> command = ETD_READ)) as [Cw Cr].
  { split; intros ->; cbn in Eo; by injection Eo as <- <- <- <-. }
  assert (fit im c2) as Hf2 by exact H1. clearbody c2. clear H1 c1. destruct Hf2 as (Hr & Hu & Hi).
  destruct (td_ready _ _ Hr Hu Ht) as [Hr3 Hu3].
  assert (exists im', fit im' (disk_doio devices c2) /\
    (forall l, l <> o_lba opts \/ op <> FN_EXDISK_WRITE -> im' l = im l) /\
    (is_transfer_op op = true -> op <> FN_EXDISK_READ -> m_bytes (memory (oc_disk (disk_doio devices c2))) = b) /\
    (is_transfer_op op = true -> DiskDevice.io_Error (oc_disk (disk_doio devices c2)) = 0 ->
     (512 <= length (m_bytes (memory (oc_disk (disk_doio devices c2)))))%nat) /\
    (DiskDevice.io_Error (oc_disk (disk_doio devices c2)) = 0 ->
     DiskDevice.io_Actual (oc_disk (disk_doio devices c2)) = 512 ->
       (op = FN_EXDISK_WRITE -> im' (o_lba opts) = take 512 b) /\
       (op = FN_EXDISK_READ -> take 512 (m_bytes (memory (oc_disk (disk_doio devices c2)))) = im (o_lba opts)))) as H3.
  { unfold disk_doio. pose proof (fun l => td_quiet _ _ l Hr Hu Ht) as Q1.
    pose proof (fun l => td_write _ _ l Hr Hu Ht) as Q2. pose proof (td_memory _ _ Hr Hu Ht) as Q3.
    pose proof (td_length _ _ Hr Hu Ht) as Q4. pose proof (fun l => td_written _ _ l Hr Hu Ht) as Q5.
    pose proof (fun l => td_read _ _ l Hr Hu Ht) as Q6. rewrite Ec in *.
    destruct (DoIO_disk devices (oc_disk c2) (oc_world c2)) as [w q]. cbn [fst snd] in *.
    change (oc_disk (set_oc_disk q _)) with q. exists (image w). split; [done|].
    destruct (decide (op = FN_EXDISK_WRITE)) as [->|Hw].
    - specialize (Cw eq_refl). specialize (Em eq_refl). specialize (Ho eq_refl). rewrite Em in *. split_and!.
      + intros l [Hl|]; [|done]. rewrite <- Hi. apply Q2; [done|]. rewrite Ho. lia.
      + intros _ _. by apply Q3.
      + intros _ _. rewrite Q3 by done. by apply Hb.
      + intros He Ha. split; [|done]. intros _. by apply Q5.
    - split; [intros l _; rewrite <- Hi; apply Q1, Hc, Hw|].
      destruct (decide (op = FN_EXDISK_READ)) as [->|Hn]; [|by destruct op].
      split; [done|]. split; [intros _; by apply Q4, Cr|]. intros He Ha. split; [done|]. intros _.
      rewrite <- Hi. apply Q6; [by apply Cr|by apply Ho|done|done]. }
  destruct H3 as (im' & Hf' & Hframe & Hsame & Hlen & Hdone). set (c3 := disk_doio devices c2) in *.
  set (c4 := if is_transfer_op op && negb wb13 then _ else c3).
  assert (fit im' c4) as H4 by (unfold c4; destruct (_ && negb wb13); [by apply query_fit|done]).
  set (bytes := if is_transfer_op op then m_bytes (memory (oc_disk c3)) else b).
  assert ((op <> FN_EXDISK_READ -> bytes = b) /\ (is_transfer_op op = true ->
    DiskDevice.io_Error (oc_disk c3) = 0 -> (512 <= length bytes)%nat)) as [B1 B2].
  { unfold bytes. destruct (is_transfer_op op); [by auto|done]. }
  destruct (_ && negb (DiskDevice.io_Error (oc_disk c4) =? 0)); [exists im'; by split_and!|].
  destruct (Z.eqb_spec (DiskDevice.io_Error (oc_disk c3)) 0) as [He|]; cbn [negb]; [|exists im'; by split_and!].
  destruct (outcome sizes op (DiskDevice.io_Actual (oc_disk c3)) _ state) as [rc state'] eqn:Eout.
  exists im'. split; [done|]. split; [done|]. split; [done|]. split; [by intros Et _; apply B2|]. intros -> Ha.
  assert (is_transfer_op op = true -> DiskDevice.io_Actual (oc_disk c3) = 512) as Hact.
  { intros Et. by destruct op; try done; cbn in Eout; injection Eout as <-. }
  split; intros ->; destruct (Hdone He (Hact eq_refl)) as [D1 D2]; [by apply D1|by apply D2].
Qed.

(** ** A run *)

(** The image where the run stands, and its block. *)
Definition image_of (r : run context) : Z -> list Z := image (oc_world (r_world r)).
Definition in_place (r : run context) : list Z := image_of r (o_lba opts).

Variable im0 : Z -> list Z.

(** Nothing but the block of the options is different from [im0], and that
    only if the run is to write. *)
Definition untouched (r : run context) : Prop :=
  forall l, l <> o_lba opts \/ writing opts = false -> image_of r l = im0 l.
Record sound (r : run context) : Prop := {
  sd_fit : fit (image_of r) (r_world r);
  sd_untouched : untouched r;
  sd_write : (512 <= length (r_write r))%nat;
  sd_read : (512 <= length (r_read r))%nat
}.

Lemma op_step code text r :
  code <> FN_EXDISK_WRITE \/ writing opts = true -> sound r ->
  let '(ok, r') := OP adapter code text r in
  untouched r' /\ (ok = true -> sound r' /\
    (code <> FN_EXDISK_WRITE -> in_place r' = in_place r) /\
    (ds_actual (r_state r') = 512 ->
       (code = FN_EXDISK_WRITE -> in_place r' = take 512 (r_write r)) /\
       (code = FN_EXDISK_READ -> take 512 (r_read r') = in_place r))).
Proof.
  intros Hc [Hf Hu Hw Hr]. pose proof (adapter_step _ _ code (r_state r) (buffer_of code r) Hf) as Hs.
  assert (is_transfer_op code = true -> (512 <= length (default [] (buffer_of code r)))%nat) as Hb by by destruct code.
  specialize (Hs Hb). unfold OP. change (buffer_of code (set_r_result _ r)) with (buffer_of code r).
  change (r_world (set_r_result _ r)) with (r_world r). change (r_state (set_r_result _ r)) with (r_state r).
  destruct (adapter (r_world r) code (r_state r) (buffer_of code r)) as [[[c' rc] state'] bytes].
  destruct Hs as (im' & (F1 & F2 & F3) & Hframe & Hsame & Hlen & Hdone).
  set (r' := match code with FN_EXDISK_READ => _ | FN_EXDISK_WRITE => _ | _ => _ end).
  assert (r_world r' = c' /\ r_state r' = state' /\
    r_write r' = match code with FN_EXDISK_WRITE => bytes | _ => r_write r end /\
    r_read r' = match code with FN_EXDISK_READ => bytes | _ => r_read r end) as (E1 & E2 & E3 & E4)
    by (unfold r'; by destruct code).
  clearbody r'. assert (forall l, image_of r' l = im' l) as Ei by (intros l; unfold image_of; by rewrite E1).
  assert (untouched r') as Hu'.
  { intros l Hl. rewrite Ei, Hframe; [by apply Hu|]. destruct Hl as [Hl|Hl]; [by left|].
    destruct Hc as [Hc|Hc]; [by right|congruence]. }
  split; [done|]. intros ->%Z.eqb_eq. split.
  - split; [|done|rewrite E3; destruct code; auto|rewrite E4; destruct code; auto].
    rewrite E1. split; [done|]. split; [done|]. intros l. unfold image_of. by rewrite E1.
  - split; [intros Hn; unfold in_place; rewrite Ei; by apply Hframe; right|]. rewrite E2. intros Ha.
    destruct (Hdone eq_refl Ha) as [D1 D2]. split; intros ->.
    + unfold in_place. rewrite Ei. by apply D1.
    + rewrite E4. by apply D2.
Qed.

Lemma op_steady code text : code <> FN_EXDISK_WRITE \/ writing opts = true ->
  steady sound untouched (OP adapter code text).
Proof.
  intros Hc r Hr. pose proof (op_step code text r Hc Hr) as H. destruct (OP adapter code text r) as [ok r'].
  destruct H as [H1 H2]. split; [done|]. intros Hok. by apply H2.
Qed.

Lemma sound_result x r : sound r -> sound (set_r_result x r).
Proof. by intros []. Qed.
Lemma sound_trial n r : sound r -> sound (set_r_state (set_ds_trial n (r_state r)) r).
Proof. by intros []. Qed.
Lemma sound_pattern n r : sound r -> sound (set_r_write (fn_exchange_disk_pattern (r_write r) n) r).
Proof.
  intros [Hf Hu Hw Hr]. split; try done. cbn [r_write set_r_write]. unfold fn_exchange_disk_pattern, overwrite.
  rewrite take_0, app_nil_l, length_app, length_pattern_loop. lia.
Qed.

(** A trial that goes through leaves the block as it wrote it, and has read
    it. *)
Lemma trial_in_place trial r r' :
  sound r -> trial_body opts adapter trial r = (true, r') ->
  sound r' /\ take 512 (r_read r') = in_place r' /\
  (writing opts = true -> in_place r' = pattern_loop trial 0 512).
Proof.
  intros Hs. unfold trial_body.
  intros (r1 & [= <-] & (r2 & E2 & (r3 & E3 & (r4 & E4 & (r5 & E5 & [= <-])%seq_through)%seq_through)%seq_through)%seq_through)%seq_through.
  apply (sound_trial (trial + 1)) in Hs. set (r1 := set_r_state _ r) in *.
  assert (sound r2 /\ (writing opts = true -> in_place r2 = pattern_loop trial 0 512)) as [Hs2 Hp2].
  { destruct (writing opts) eqn:Ew; [|by injection E2 as <-].
    apply seq_through in E2 as (s1 & [= <-] & (s2 & F2 & (s3 & F3 & F4)%seq_through)%seq_through).
    apply (sound_pattern trial) in Hs. set (s1 := set_r_write _ r1) in *.
    pose proof (op_step FN_EXDISK_WRITE "write"%string s1 (or_intror Ew) Hs) as H. rewrite F2 in H.
    destruct H as (_ & (H2 & _ & Hd)); [done|].
    apply refuse_through in F3 as (_ & T3 & W3 & S3 & B3 & R3). apply negb_false_iff, Z.eqb_eq in T3. rewrite S3 in T3.
    destruct (Hd T3) as [Hd1 _]. specialize (Hd1 eq_refl). change (r_write s1) with (fn_exchange_disk_pattern (r_write r1) trial) in Hd1.
    rewrite take_pattern in Hd1.
    assert (sound s3) as Hs3.
    { destruct H2 as [G1 G2 G3 G4]. unfold untouched, image_of in *. split; unfold untouched, image_of;
        rewrite ?W3, ?B3, ?R3; done. }
    assert (FN_EXDISK_FLUSH <> FN_EXDISK_WRITE \/ writing opts = true) as Hfl by by left.
    pose proof (op_step FN_EXDISK_FLUSH "flush"%string s3 Hfl Hs3) as H. rewrite F4 in H. destruct H as (_ & (H4 & Hk & _)); [done|].
    split; [done|]. intros _. rewrite Hk by done. unfold in_place, image_of in *. by rewrite W3. }
  assert (FN_EXDISK_READ <> FN_EXDISK_WRITE \/ writing opts = true) as Hre by by left.
  pose proof (op_step FN_EXDISK_READ "read"%string r2 Hre Hs2) as H. rewrite E3 in H. destruct H as (_ & (H3 & Hk & Hd)); [done|].
  apply refuse_through in E4 as (_ & T4 & W4 & S4 & B4 & R4). apply negb_false_iff, Z.eqb_eq in T4. rewrite S4 in T4.
  destruct (Hd T4) as [_ Hd2]. specialize (Hd2 eq_refl).
  apply refuse_through in E5 as (_ & _ & W5 & _ & B5 & R5).
  assert (in_place (set_r_result (set_completed (completed_trials (r_result r5) + 1) (r_result r5)) r5) = in_place r2) as Ei.
  { unfold in_place, image_of in *. cbn. rewrite W5, W4. by apply Hk. }
  rewrite Ei. split; [|split; [cbn; by rewrite R5, R4|done]].
  apply sound_result. destruct H3 as [G1 G2 G3 G4].
  split; unfold untouched, image_of in *; rewrite ?W5, ?W4, ?B5, ?B4, ?R5, ?R4; done.
Qed.

Lemma loop_in_place n trial r r' :
  sound r -> trial_loop opts adapter (S n) trial r = (true, r') ->
  take 512 (r_read r') = in_place r' /\
  (writing opts = true -> in_place r' = pattern_loop (trial + Z.of_nat n) 0 512).
Proof.
  revert trial r. induction n as [|n IH]; intros trial r Hs (r1 & E1 & E2)%seq_through.
  - injection E2 as <-. apply trial_in_place in E1 as (_ & E1); [|done]. by rewrite Z.add_0_r.
  - apply trial_in_place in E1 as (Hs1 & _); [|done]. apply IH in E2; [|done].
    by replace (trial + Z.of_nat (S n)) with (trial + 1 + Z.of_nat n) by lia.
Qed.
End Image.

Section Disk.
Context `{L : FnLib} {W : Type} (devices : exec_devices W) (unit : Z) (ready : W -> Prop) (image : W -> Z -> list Z)
  `{!TrackDisk devices unit ready image}.
Variable sizes : abi.
Variables (request_size : Z) (wb13 : bool) (uri_address buffer_address geometry_address trace_address : Z).
Variable opts : fn_nio_exchange_opts.
Variable codec : (ordinary_disk_context W -> list Z -> Z -> list Z -> Z -> ordinary_disk_context W * Z * list Z * Z) ->
  ordinary_disk_context W -> Z -> fn_disk_info_t -> ordinary_disk_context W * Z * fn_disk_info_t.
Abbreviation adapter := (fn_exchange_disk_adapter_io devices sizes request_size wb13 uri_address buffer_address
  geometry_address trace_address opts codec).

(** Whatever fails in between, a trial changes no block but the one it was
    given, and none at all when it only reads; and when it passes, the block
    holds the pattern of the last trial if it was to write, and the read
    buffer holds the block. *)
Lemma trial_on_track_disk c write_buffer read_buffer :
  (forall (K : ordinary_disk_context W -> Prop) slot info c,
     (forall c request n response cap, K c ->
        K (fn_exchange_disk_adapter_exchange devices request_size c request n response cap).1.1.1) ->
     K c -> K (codec (fn_exchange_disk_adapter_exchange devices request_size) c slot info).1.1) ->
  0 <= o_lba opts <= 8388607 ->
  ready (oc_world c) -> DiskDevice.io_Unit (oc_disk c) = Some unit ->
  (512 <= length write_buffer)%nat -> (512 <= length read_buffer)%nat ->
  let '(rc, r) := fn_exchange_disk_run opts adapter c write_buffer read_buffer in
  let before := image (oc_world c) in
  let after := image (oc_world (r_world r)) in
  (forall l, l <> o_lba opts \/ writing opts = false -> after l = before l) /\
  (rc = 0 ->
     take 512 (r_read r) = after (o_lba opts) /\
     (writing opts = true -> after (o_lba opts) = pattern_loop (o_trials opts - 1) 0 512)).
Proof.
  intros Hcodec Hlba Hr Hu Hw Hrd. set (im0 := image (oc_world c)).
  set (is_sound := sound unit ready image opts im0). set (same := untouched image opts im0).
  assert (forall code text, code <> FN_EXDISK_WRITE \/ writing opts = true -> steady is_sound same (OP adapter code text))
    as Hop by (intros; by apply op_steady).
  assert (HPQ : forall r, is_sound r -> same r) by by intros r [].
  assert (Hres : forall x r, is_sound r -> is_sound (set_r_result x r)) by by intros x r [].
  assert (Htr : forall n r, is_sound r -> is_sound (set_r_state (set_ds_trial n (r_state r)) r)) by by intros n r [].
  assert (Hpat : forall n r, is_sound r -> is_sound (set_r_write (fn_exchange_disk_pattern (r_write r) n) r))
    by (intros n r; by apply sound_pattern).
  pose proof (setup_steady opts adapter is_sound same HPQ Hres Hop) as Hsetup.
  pose proof (fun n t => loop_steady opts adapter is_sound same HPQ Hres Htr Hpat Hop n t) as Hloop.
  unfold fn_exchange_disk_run. set (r0 := mkRun c _ _ _ _).
  assert (is_sound r0) as H0 by (split; [by split|by intros l Hl|done|done]).
  assert (steady is_sound same (refuse "authorization" (fun _ => negb (authorized opts)) >> setup opts adapter >>
    trial_loop opts adapter (Z.to_nat (o_trials opts)) 0 >> on_result (set_failure None))) as Hall.
  { apply seq_steady; [by apply refuse_steady|]. apply seq_steady; [exact Hsetup|].
    apply seq_steady; [apply Hloop|by apply on_result_steady]. }
  pose proof (Hall r0 H0) as [Hsame _].
  destruct (andthen _ _ r0) as [ok r'] eqn:E. split; [exact Hsame|]. destruct ok; [|done]. intros _.
  apply seq_through in E as (r1 & [= Ha <-] & (r2 & E2 & (r3 & E3 & [= <-])%seq_through)%seq_through).
  apply (Hres (set_failure (Some "authorization"%string) (r_result r0))) in H0.
  match type of E2 with setup _ _ ?r = _ => pose proof (Hsetup r H0) as [_ H2] end. rewrite E2 in H2. specialize (H2 eq_refl).
  rewrite negb_involutive in Ha. apply authorized_ordinary in Ha.
  assert (1 <= o_trials opts) as Ht by (unfold ordinary_disk_ok in Ha; lia).
  destruct (Z.to_nat (o_trials opts)) as [|n] eqn:En; [lia|].
  apply (loop_in_place devices unit ready image sizes request_size wb13 uri_address buffer_address geometry_address
    trace_address opts codec Hcodec Hlba im0) in E3; [|done].
  by replace (o_trials opts - 1) with (0 + Z.of_nat n) by lia.
Qed.
End Disk.
