(* ===== verification/ExchangeSystem.v ===== *)
(** * The exchange tool on fujinet-disk.device

    The device of DiskDevice, its worker included, as the devices ExchangeAdapter
    works on: [DoIO] is a submission and the turns of the worker that it
    waits for, all of them steps of the device's system.  Over a server with
    a medium of its own at every slot this is a [TrackDisk], so what ExchangeAdapterProps
    says of a disk trial holds of the tool and the device together. *)

From stdpp Require Import gmap.
From S2P Require Import PaulaUart Prelude ExecIO CString FnLib SerialConfig NioBackend IoQueue NioDevice.
From S2P Require Import ExchangeOpts ExchangeOptsProps ExchangeDisk ExchangeDiskProps ExchangeAdapter ExchangeAdapterProps.
From S2P Require Import DiskRetry DiskMedia DiskDriver DiskDevice DiskDeviceProps DiskDeviceSystem DiskCatalog.
#[local] Open Scope Z_scope.

Section System.
Context `{L : FnLib, !FnLibOk L} {W : Type}.
Variable sv : services W.
Variable table : fujinet_disk_client_t (W * fujinet_nio_disk_context_t).
Variable cl : disk_client (W * fujinet_nio_disk_context_t).
Variable sizes : abi.
Hypothesis Htable : complete_client table = Some cl.
Context `{!MediaClient cl}.
Implicit Types (s : system W) (d : device W) (q : IOStdReq).
Abbreviation reachable := (reachable sv table sizes).

(** ** DoIO *)

(** A turn of the worker, a request being processed in one go; none when it waits for its signal or is gone. *)
Definition worker_step s : system W :=
  match at_ s with
  | WWait => if signalled (dev s)
             then mkSystem (set_signalled false (dev s)) WTop (begun s) (at_once s) (returned s) else s
  | WTop => mkSystem (drain_take (dev s)).2
              (match (drain_take (dev s)).1 with Some r => WRun r | None => WWait end)
              (begun s) (at_once s) (returned s)
  | WRun r => mkSystem (device_process_request sv sizes r (dev s)) WTop (begun s) (at_once s) (returned s)
  | WReady r i k => execute_step sv sizes r i k s
  | WEnded r i k answer => conclude_step r i k answer s
  | WGone => s
  end.

(** The tool's request is [r]; [alloc] is AllocMem, for a node. *)
Variable r : Z.
Variable alloc : system W -> option positive.
Definition submit q s : system W :=
  let s := with_dev (on_req r (fun _ => set_io_Flags IOF_QUICK q) (dev s)) s in
  begin_step r (alloc s) s.
(** Waking, taking the request, processing it and finding the queue empty:
    the worker of an idle device is done in four steps. *)
Definition DoIO q s : system W * IOStdReq :=
  let s := Nat.iter 4 worker_step (submit q s) in
  (s, reqs (dev s) r).

Lemma worker_step_reachable s : reachable s -> reachable (worker_step s).
Proof.
  intros Hs. unfold worker_step. destruct (at_ s) as [| |x|x i k|x i k a|] eqn:E; [| | | | |done].
  - destruct (signalled (dev s)) eqn:Eg; [|done]. eapply reachable_step; [exact Hs|by apply step_wake].
  - eapply reachable_step; [exact Hs|by apply step_take].
  - eapply steps_reachable; [by apply process_steps|exact Hs].
  - eapply reachable_step; [exact Hs|by apply step_execute].
  - eapply reachable_step; [exact Hs|by apply step_conclude].
Qed.
Lemma iter_reachable n s : reachable s -> reachable (Nat.iter n worker_step s).
Proof. intros Hs. induction n; [done|]. cbn. by apply worker_step_reachable. Qed.

(** ** One request on an idle device *)

Hypothesis Halloc : forall s p, alloc s = Some p -> nodes (dev s) !! p = None.
Variable i : Z.
Hypothesis Hi : 0 <= i < 8.

(** The worker waits with nothing to do, and no unit retains the tool's
    request; unit [i] is not stopped. *)
Record idle s : Prop := {
  id_reachable : reachable s;
  id_waits : at_ s = WWait;
  id_empty : IoQueue.head (io_queue (dev s)) = None;
  id_done : io_processing (dev s) = false;
  id_unsignalled : signalled (dev s) = false;
  id_there : freed (dev s) = false;
  id_mine : r ∉ retained (dev s);
  id_started : stopped (units (dev s) i) = false
}.

Lemma idle_ok s : idle s -> sys_ok table s [] /\ answered r s.
Proof.
  intros []. apply disk_reachable_ok with (cl := cl) in id_reachable0 as [es H]; [|done..].
  pose proof (queue_head_nil _ _ (ok_queue _ _ _ H)) as [Hnil _]. rewrite (Hnil id_empty0) in H. clear Hnil es.
  split; [done|]. unfold answered, occurrences. rewrite (ok_account _ _ _ H). unfold held, running.
  rewrite id_waits0. cbn [fmap list_fmap app]. rewrite !filter_app, !length_app.
  rewrite (filter_absent r (retained (dev s))) by done. cbn. lia.
Qed.

(** What processing leaves as it was. *)
Lemma process_frame d : io_Unit (reqs d r) = Some i -> io_Command (reqs d r) ∉ structural ->
  let d' := device_process_request sv sizes r d in
  core d' = core d /\ (forall j, notification (units d' j) = notification (units d j)) /\
  io_Unit (reqs d' r) = Some i.
Proof.
  intros Hu Hc. pose proof (prepare_calm table i r d) as [[P1 _ _ _ _ P2 P3 P4 _] _].
  pose proof (prepare_request i r d) as Pq. destruct (prepare i r d) as [k d1] eqn:Ep. cbn [snd] in *.
  destruct (execute_outcome sv table cl sizes Htable i r d1) as (d2 & [F1 _ _ _ _ F2 F3 F4 _] & E); [lia|by rewrite Pq|].
  rewrite (process_unit sv sizes i r d k d1 _ Hu Hi Ep E). cbv zeta. unfold conclude.
  set (d3 := notify i (count_of i d1) d2) in *.
  assert (core d3 = core d2 /\ units d3 = units d2 /\ reqs d3 = reqs d2) as (N1 & N2 & N3)
    by (unfold d3, notify; by destruct (negb _)).
  clearbody d3. set (d4 := trace_exchange k i r _).
  assert (calm table i r d3 d4) as [[T1 _ _ _ _ T2 T3 T4 _] _]
    by (eapply calm_trans; [apply trace_outcome_calm|apply trace_exchange_calm]).
  clearbody d4.
  assert (core d4 = core d /\ (forall j, notification (units d4 j) = notification (units d j)) /\
    io_Unit (reqs d4 r) = Some i) as (H1 & H2 & H3).
  { split; [congruence|]. split.
    - intros j. destruct (decide (j = i)) as [->|Hj]; [congruence|].
      rewrite T3, N2, F3, P3 by done. done.
    - change (io_Unit (reqs d4 r)) with ((envelope (reqs d4 r)).1.1.1.1.1.2).
      rewrite T2, N3, F2, P2. exact Hu. }
  unfold reply_unless_quick. destruct (quick _); [done|]. split; [done|]. split; [done|].
  cbn. by rewrite decide_True.
Qed.

Lemma iter_waiting n s : at_ s = WWait -> signalled (dev s) = false -> Nat.iter n worker_step s = s.
Proof. intros E1 E2. induction n as [|n IH]; [done|]. rewrite Nat.iter_succ, IH. unfold worker_step. by rewrite E1, E2. Qed.

(** The request as BeginIO gets it, and as the worker does. *)
Definition given q : IOStdReq := set_io_Flags IOF_QUICK q.
Definition queued q : IOStdReq := set_ln_Type NT_MESSAGE (clear_quick (given q)).
Definition status_commands : list Z := [TD_CHANGENUM; TD_CHANGESTATE; TD_PROTSTATUS].

(** How BeginIO left the device: with the request answered or queued. *)
Definition at_once_in q d d' : Prop :=
  core d' = core d /\ units d' = units d /\ world d' = world d /\
  io_Unit (reqs d' r) = io_Unit q /\ memory (reqs d' r) = memory q /\
  (io_Error (reqs d' r) = 0 -> io_Command q ∈ status_commands).

Lemma begin_idle q s p :
  io_Unit q = Some i -> io_Command q ∉ structural -> io_processing (dev s) = false ->
  let d0 := on_req r (fun _ => given q) (dev s) in
  let d' := device_begin_io r p d0 in
  at_once_in q (dev s) d' \/
  exists n, p = Some n /\ d' = enqueue i r n (on_req r clear_quick d0) /\ io_Command q ∉ status_commands.
Proof.
  intros Hu Hc Hp d0 d'. assert (reqs d0 r = given q) as Er by apply on_req_same.
  assert (request_unit_index (reqs d0 r) = i) as Ei by (rewrite Er; by apply unit_index).
  assert (d' = begin_rest r p d0) as Ed.
  { apply begin_rest_eq; [rewrite Ei; lia|]. rewrite Er. change (io_Command (given q)) with (io_Command q).
    revert Hc. unfold structural. rewrite !not_elem_of_cons. tauto. }
  assert (Hst : forall a, status_actual (io_Command q) (units d0 i) = Some a -> io_Command q ∈ status_commands).
  { intros a. unfold status_actual, status_commands.
    destruct (Z.eqb_spec (io_Command q) TD_CHANGENUM) as [->|_]; [set_solver|].
    destruct (Z.eqb_spec (io_Command q) TD_CHANGESTATE) as [->|_]; [set_solver|].
    destruct (Z.eqb_spec (io_Command q) TD_PROTSTATUS) as [->|_]; [set_solver|done]. }
  assert (Hno : status_actual (io_Command q) (units d0 i) = None -> io_Command q ∉ status_commands).
  { unfold status_actual, status_commands. rewrite !not_elem_of_cons.
    destruct (Z.eqb_spec (io_Command q) TD_CHANGENUM); [done|].
    destruct (Z.eqb_spec (io_Command q) TD_CHANGESTATE); [done|].
    destruct (Z.eqb_spec (io_Command q) TD_PROTSTATUS); [done|]. intros _. split_and!; try done. apply not_elem_of_nil. }
  unfold begin_rest in Ed. rewrite Ei, Er in Ed. change (io_Command (given q)) with (io_Command q) in Ed.
  destruct (status_actual (io_Command q) (units d0 i)) as [a|] eqn:Es.
  - left. rewrite bool_decide_eq_true_2 in Ed by done.
    change (io_processing (set_actual r a d0)) with (io_processing (dev s)) in Ed. rewrite Hp in Ed. cbn [negb andb] in Ed.
    set (d1 := set_error r 0 (set_actual r a d0)) in *.
    assert (reqs d1 r = set_io_Error 0 (set_io_Actual a (given q))) as E1.
    { unfold d1, set_error, set_actual. by rewrite !on_req_same, Er. }
    unfold reply_unless_quick in Ed. rewrite E1 in Ed. change (quick _) with true in Ed. unfold at_once_in. rewrite Ed, E1.
    split_and!; try done. intros _. by apply (Hst a).
  - cbn [bool_decide] in Ed. rewrite bool_decide_eq_false_2 in Ed by (by intros [? ?]). cbn [andb] in Ed.
    destruct p as [n|].
    + right. exists n. split; [done|]. split; [exact Ed|by apply Hno].
    + left. rewrite Ed. unfold at_once_in. cbn. rewrite !decide_True by done. done.
Qed.

Definition by_worker q d d' : Prop :=
  exists d1, units d1 = units d /\ world d1 = world d /\ reqs d1 r = queued q /\
    let d2 := device_process_request sv sizes r d1 in world d' = world d2 /\ reqs d' r = reqs d2 r.

Lemma submitted_reachable q s : idle s -> reachable (submit q s).
Proof.
  intros Hid. destruct (idle_ok s Hid) as [_ Ha]. destruct Hid. unfold submit.
  eapply reachable_step; [eapply reachable_step; [exact id_reachable0|by apply (step_prepare _ _ s r (given q))]|].
  apply step_begin; [done|by left|apply Halloc].
Qed.

(** A device left as [idle] says, when its requests, its queue and its
    registrations are. *)
Lemma idle_again s s' : idle s -> reachable s' -> at_ s' = WWait ->
  IoQueue.head (io_queue (dev s')) = None -> io_processing (dev s') = false -> signalled (dev s') = false ->
  freed (dev s') = false -> (forall j, notification (units (dev s') j) = notification (units (dev s) j)) -> idle s'.
Proof.
  intros [] Hr Hw He Hp Hs Hf Hn. split; try done.
  - rewrite (retained_eq (dev s)); [done|]. intros j. specialize (Hn j). unfold registered.
    by injection Hn as _ -> _.
  - specialize (Hn i). injection Hn as -> _ _. done.
Qed.

(** The device with one request, and the worker's first two steps on it. *)
Definition waiting n q s (bg qk rt : list Z) : system W :=
  mkSystem (enqueue i r n (on_req r clear_quick (on_req r (fun _ => given q) (dev s)))) WWait bg qk rt.

Lemma enqueue_fields n q d :
  let d' := enqueue i r n (on_req r clear_quick (on_req r (fun _ => given q) d)) in
  (io_queue d', nodes d') = fujinet_io_queue_append n r i (io_Command q) (io_queue d, nodes d) /\
  units d' = units d /\ world d' = world d /\ freed d' = freed d /\ signalled d' = true /\ reqs d' r = queued q.
Proof.
  unfold enqueue. set (d1 := on_req r (set_ln_Type NT_MESSAGE) _).
  assert (reqs d1 r = queued q) as Er by (unfold d1; by rewrite !on_req_same).
  assert ((io_queue d1, nodes d1) = (io_queue d, nodes d)) as Eq by done.
  assert (units d1 = units d /\ world d1 = world d /\ freed d1 = freed d) as (E1 & E2 & E3) by done.
  clearbody d1. rewrite Er, Eq. change (io_Command (queued q)) with (io_Command q).
  destruct (fujinet_io_queue_append n r i (io_Command q) (io_queue d, nodes d)) as [qu h].
  cbn. rewrite E1, E2, E3, Er. done.
Qed.

Lemma worker_takes s n q bg qk rt : idle s -> nodes (dev s) !! n = None ->
  exists d2, worker_step (worker_step (waiting n q s bg qk rt)) = mkSystem d2 (WRun r) bg qk rt /\
    queue_of (io_queue d2, nodes d2) [] /\ units d2 = units (dev s) /\ world d2 = world (dev s) /\
    reqs d2 r = queued q /\ signalled d2 = false /\ freed d2 = false.
Proof.
  intros Hid Hn. pose proof (proj1 (idle_ok s Hid)) as Hok. unfold waiting.
  destruct (enqueue_fields n q (dev s)) as (Eq & Eu & Ew & Ef & Es & Er).
  set (d1 := enqueue _ _ _ _) in *. clearbody d1. set (e := mkEntry n r (io_Command q) i).
  assert (Hq : queue_of (io_queue d1, nodes d1) [e]).
  { rewrite Eq. apply (append_links _ [] n r i (io_Command q) (ok_queue _ _ _ Hok)).
    exact (queue_of_fresh _ _ _ n (ok_queue _ _ _ Hok) Hn). }
  assert (Hrun : can_run (set_signalled false d1) e = true).
  { unfold can_run, entry_runnable. cbn [e_unit e]. rewrite unit_stopped by done.
    change (units (set_signalled false d1)) with (units d1). rewrite Eu, (id_started _ Hid).
    change FUJINET_DISK_UNIT_COUNT with 8. destruct (Z.ltb_spec i 8); [done|lia]. }
  pose proof (drain_take_spec (set_signalled false d1) [e] Hq) as Ht.
  unfold worker_step at 2. cbn [at_ dev begun at_once returned]. rewrite Es.
  unfold worker_step. cbn [at_ dev begun at_once returned].
  destruct (drain_take (set_signalled false d1)) as [[x|] d2]; cbn [fst snd].
  - destruct Ht as (a & e' & b & qu & h & Eab & <- & _ & _ & Hq' & ->).
    destruct a as [|? [|]]; [|done..]. injection Eab as <- <-. eexists. split; [done|].
    cbn. rewrite Eu, Ew, Er, Ef, (id_there _ Hid). by split_and!.
  - destruct Ht as [Ht _]. by destruct (eq_true_false_abs _ Hrun (proj1 (Forall_singleton _ _) Ht)).
Qed.

(** The worker's four steps. *)
Lemma worker_turn s n q bg qk rt : idle s -> nodes (dev s) !! n = None ->
  io_Unit q = Some i -> io_Command q ∉ structural ->
  let s' := Nat.iter 4 worker_step (waiting n q s bg qk rt) in
  reachable s' -> idle s' /\ io_Unit (reqs (dev s') r) = Some i /\ by_worker q (dev s) (dev s').
Proof.
  intros Hid Hn Hu Hc. cbv zeta. set (s1 := waiting n q s bg qk rt).
  pose proof (worker_takes s n q bg qk rt Hid Hn) as H2. fold s1 in H2. clearbody s1.
  destruct H2 as (d2 & E2 & Hh & Eu & Ew & Er & Hs2 & Hf2).
  assert (io_Unit (reqs d2 r) = Some i /\ io_Command (reqs d2 r) ∉ structural) as [U2 C2] by by rewrite Er.
  destruct (process_frame d2 U2 C2) as (K1 & K2 & K3). set (d3 := device_process_request sv sizes r d2) in *.
  apply core_engine in K1 as (Keng & Kq & Kn). unfold engine in Keng. injection Keng as _ _ _ Ks Kf.
  assert (E3 : worker_step (worker_step (worker_step s1)) = mkSystem d3 WTop bg qk rt)
    by (rewrite E2; done).
  assert (Hq3 : queue_of (io_queue d3, nodes d3) []) by by rewrite Kq, Kn.
  pose proof (drain_take_spec d3 [] Hq3) as Ht.
  destruct (drain_take d3) as [[x|] d4] eqn:E4; [destruct Ht as ([] & ? & ? & ? & ? & ? & _); done|].
  destruct Ht as [_ ->].
  assert (Efin : Nat.iter 4 worker_step s1 =
    mkSystem (set_io_processing false d3) WWait bg qk rt).
  { rewrite !Nat.iter_succ. cbn [Nat.iter nat_rect]. rewrite E3. unfold worker_step. cbn [at_ dev begun at_once returned]. by rewrite E4. }
  rewrite Efin. intros Hre. split; [|split; [done|by exists d2]].
  apply (idle_again s); try done; cbn; [apply Hq3|by rewrite Ks|by rewrite Kf|].
  intros j. by rewrite K2, Eu.
Qed.

(** A request of the tool, submitted to an idle device: it is idle again, and
    the request was answered at once or by the worker. *)
Lemma DoIO_spec q s : idle s -> io_Unit q = Some i -> io_Command q ∉ structural ->
  let '(s', q') := DoIO q s in
  idle s' /\ io_Unit q' = Some i /\ q' = reqs (dev s') r /\
  (at_once_in q (dev s) (dev s') \/ by_worker q (dev s) (dev s') /\ io_Command q ∉ status_commands).
Proof.
  intros Hid Hu Hc. unfold DoIO. pose proof (iter_reachable 4 _ (submitted_reachable q s Hid)) as Hre.
  pose proof (fun n => Halloc (with_dev (on_req r (fun _ => given q) (dev s)) s) n) as Hal.
  unfold submit in *. change (set_io_Flags IOF_QUICK q) with (given q) in *.
  set (p := alloc _) in *. clearbody p. pose proof (begin_idle q s p Hu Hc (id_done _ Hid)) as Hb. cbv zeta in Hb.
  assert (forall d', device_begin_io r p (on_req r (fun _ => given q) (dev s)) = d' ->
    begin_step r p (with_dev (on_req r (fun _ => given q) (dev s)) s) =
    mkSystem d' WWait (begun s ++ [r]) (at_once s ++ (if quick (reqs d' r) then [r] else []))
      (returned s ++ filter (fun x => x = r) (retained (dev s)))) as Hstep.
  { intros d' <-. unfold begin_step. cbn [with_dev dev at_ begun at_once returned].
    by rewrite (id_waits _ Hid). }
  destruct Hb as [Ho|(n & Ep & Ed & Hns)].
  - rewrite (Hstep _ eq_refl) in *. pose proof Ho as (Hcore & Eu & Ew & EU & Em & He).
    set (d' := device_begin_io r p _) in *. clearbody d'. clear Hstep.
    apply core_engine in Hcore as (Heng & Eq & _). unfold engine in Heng. injection Heng as E1 _ _ E4 E5.
    rewrite iter_waiting in * by (try done; cbn; rewrite E4; apply (id_unsignalled _ Hid)).
    split; [|split; [cbn; by rewrite EU|split; [done|by left]]].
    apply (idle_again s); try done; cbn; rewrite ?E1, ?E4, ?E5, ?Eq, ?Eu; try done; apply Hid.
  - rewrite (Hstep _ Ed) in *. subst p. clear Hstep Ed.
    destruct (worker_turn s n q _ _ _ Hid (Hal n eq_refl) Hu Hc Hre) as (H1 & H2 & H3).
    split; [exact H1|]. split; [exact H2|]. split; [done|]. by right.
Qed.

(** ** Blocks *)

Variable blocks : W -> Z -> Z -> list Z.
Context `{!BlockStore cl (fun c => blocks c.1)}.
(** A mount, a flush and the like change no block of any slot. *)
Definition same_blocks (c c' : W * fujinet_nio_disk_context_t) : Prop :=
  forall m l, blocks c'.1 m l = blocks c.1 m l.
#[local] Instance same_blocks_preorder : PreOrder same_blocks.
Proof. split; [by intros c m l|]. intros a b c H1 H2 m l. by rewrite H2, H1. Qed.
Context `{!ClientRespects same_blocks cl}.

Lemma driver_blocks {A : Type} j
    (f : fujinet_disk_driver_t (W * fujinet_nio_disk_context_t) ->
         A * fujinet_disk_driver_t (W * fujinet_nio_disk_context_t)) d :
  client (driver (units d j)) = Some table ->
  (forall drv, client drv = Some table -> context_moves same_blocks drv (f drv).2) ->
  forall m l, blocks (world (with_driver j f d).2) m l = blocks (world d) m l.
Proof.
  intros Hc Hf m l. destruct (with_driver_spec j f d) as (_ & _ & Hw & _). rewrite Hw.
  exact (proj2 (Hf (set_context _ _) Hc) m l).
Qed.

(** What the request of a tool gives the transfer theorems. *)
Lemma tool_transfer q : tool_request q -> io_Command q = ETD_WRITE \/ io_Command q = ETD_READ ->
  is_u32 (io_Offset (queued q)) /\ is_u32 (io_Length (queued q)) /\
  io_Length (queued q) <= Z.of_nat (length (m_bytes (memory (queued q)))).
Proof.
  intros [_ Ht] Hc. destruct (Ht Hc) as (El & Hm & l & Hl & Eo).
  change (io_Offset (queued q)) with (io_Offset q). change (io_Length (queued q)) with (io_Length q).
  change (memory (queued q)) with (memory q). rewrite El, Eo. unfold is_u32. lia.
Qed.

(** The commands that change no block and transfer none, done by the worker. *)
Definition calm_commands : list Z :=
  [FUJINET_DISK_CMD_TRACE_CLEAR; FUJINET_DISK_CMD_TRACE; FUJINET_DISK_CMD_MOUNT;
   FUJINET_DISK_CMD_MOUNT_WRITABLE; TD_GETGEOMETRY; CMD_UPDATE].
Lemma execute_quiet d : client (driver (units d i)) = Some table ->
  io_Command (reqs d r) ∈ calm_commands ->
  forall m l, blocks (world (execute sv sizes i r d).2) m l = blocks (world d) m l.
Proof.
  intros Hc Hin m l.
  assert (Hmount : blocks (world (cmd_mount i r d)) m l = blocks (world d) m l).
  { unfold cmd_mount. destruct (_ || _); [done|]. set (d1 := set_request_uri _ d).
    assert (client (driver (units d1 i)) = Some table /\ world d1 = world d) as [Hc1 Hw1] by done. clearbody d1.
    match goal with |- context [with_driver i ?f d1] => pose proof (driver_blocks i f d1 Hc1) as Hd end.
    specialize (Hd ltac:(intros drv Hdrv; destruct (_ =? _); by apply (mount_moves same_blocks table cl))).
    destruct (with_driver i _ d1) as [result d2]. destruct (finish_change_spec i r result (change_count (driver (units d i))) d2) as [-> _].
    cbn [snd] in Hd. by rewrite Hd, Hw1. }
  assert (Hupdate : blocks (world (cmd_update i r d)) m l = blocks (world d) m l).
  { unfold cmd_update. destruct (stale _ _ _); [done|].
    pose proof (driver_blocks i (fun drv => fujinet_disk_flush drv i) d Hc) as Hd.
    specialize (Hd ltac:(intros drv Hdrv; by apply (flush_moves same_blocks table cl))).
    destruct (with_driver i _ d) as [result d2]. by apply Hd. }
  assert (Htrace : world (cmd_trace sizes r d) = world d) by (unfold cmd_trace; by destruct (_ || _)).
  assert (Hgeometry : world (cmd_getgeometry sizes i r d) = world d)
    by (unfold cmd_getgeometry; destruct (_ || _); [done|]; by destruct (negb _)).
  unfold execute. set (c := io_Command (reqs d r)) in *. clearbody c.
  set (dm := cmd_mount i r d) in *. set (du := cmd_update i r d) in *. set (dt := cmd_trace sizes r d) in *.
  set (dg := cmd_getgeometry sizes i r d) in *. clearbody dm du dt dg.
  unfold calm_commands in Hin. rewrite !elem_of_cons in Hin. destruct Hin as [->|[->|[->|[->|[->|[->|Hin]]]]]];
    [reflexivity|by transitivity (blocks (world dt) m l); [|rewrite Htrace]|exact Hmount|exact Hmount
    |by transitivity (blocks (world dg) m l); [|rewrite Hgeometry]|exact Hupdate|by apply elem_of_nil in Hin].
Qed.

Lemma process_quiet q d : reqs d r = queued q -> io_Unit q = Some i -> unit_ok table i (units d i) ->
  tool_request q -> io_Command q <> ETD_WRITE -> io_Command q ∉ status_commands ->
  forall m l, blocks (world (device_process_request sv sizes r d)) m l = blocks (world d) m l.
Proof.
  intros Er Hu Hok Ht Hw Hns m l.
  assert (io_Unit (reqs d r) = Some i) as HU by by rewrite Er.
  assert (io_Command (reqs d r) = io_Command q) as HC by by rewrite Er.
  destruct (decide (io_Command q = ETD_READ)) as [Hrd|Hrd].
  { destruct (tool_transfer q Ht (or_intror Hrd)) as (H1 & H2 & H3). rewrite <- Er in H1, H2, H3.
    apply (read_request_outcome sv table cl sizes Htable blocks i r d HU Hi Hok H1 H2 H3). right. by rewrite HC. }
  assert (io_Command q ∈ calm_commands) as Hin.
  { destruct Ht as [[?|Hq] _]; [done|]. unfold status_commands, quiet_commands, calm_commands in *. set_solver. }
  assert (io_Command q ∉ structural) as Hst.
  { assert (Forall (fun x => x ∉ structural) calm_commands) as Hall
      by (apply (bool_decide_unpack _); vm_compute; exact I).
    by apply (proj1 (Forall_forall _ _) Hall). }
  destruct (prepare_driver table cl Htable blocks i r d) as [_ Hb]. specialize (Hb (proj1 Hok) m l).
  pose proof (prepare_calm table i r d) as [Hf _]. pose proof (fr_unit_ok _ _ _ _ _ Hf Hok) as [Hc1 _].
  pose proof (prepare_request i r d) as Hq. destruct (prepare i r d) as [k d1] eqn:Ep. cbn [snd] in *.
  assert (io_Command (reqs d1 r) = io_Command q) as HC1 by by rewrite Hq.
  destruct (execute_outcome sv table cl sizes Htable i r d1) as (d2 & _ & E); [lia|by rewrite HC1|].
  pose proof (execute_quiet d1 Hc1 ltac:(by rewrite HC1) m l) as He. rewrite E in He. cbn [snd] in He.
  rewrite (process_unit sv sizes i r d k d1 _ HU Hi Ep E).
  destruct (conclude_outcome i r k (notify i (count_of i d1) d2)) as (_ & _ & _ & -> & _). by rewrite He.
Qed.

(** ** The device as a TrackDisk *)

Definition image s (l : Z) : list Z := blocks (world (dev s)) (i + 1) l.
Lemma length_image s l : length (image s l) = 512%nat.
Proof. exact (bs_length (world (dev s), (client_context (driver (units (dev s) i))).2) (i + 1) l). Qed.

(** nio.device is a parameter: what is sent through it leaves disk.device and
    the blocks of the unit alone. *)
Variable nio : FujiNetNIORequest -> system W -> system W * FujiNetNIORequest.
Hypothesis Hnio : forall n s, idle s -> idle (nio n s).1 /\ forall l, image (nio n s).1 l = image s l.
Definition devices : exec_devices (system W) := mkDevices DoIO nio.

Lemma tool_commands q : tool_request q -> io_Command q ∉ structural.
Proof.
  assert (Forall (fun x => x ∉ structural) (ETD_WRITE :: quiet_commands)) as Hall
    by (apply (bool_decide_unpack _); vm_compute; exact I).
  intros [Hq _]. apply (proj1 (Forall_forall _ _) Hall). apply elem_of_cons. exact Hq.
Qed.

(** What became of a transfer: a command the worker did not get fails, and
    what it got was processed with the unit and the world as they were. *)
Lemma transfer_served q s : idle s -> io_Unit q = Some i -> tool_request q ->
  io_Command q = ETD_WRITE \/ io_Command q = ETD_READ ->
  let '(s', q') := DoIO q s in
  (world (dev s') = world (dev s) /\ memory q' = memory q /\ io_Error q' <> 0) \/
  exists d1, let d2 := device_process_request sv sizes r d1 in
    world d1 = world (dev s) /\ unit_ok table i (units d1 i) /\ reqs d1 r = queued q /\
    world (dev s') = world d2 /\ q' = reqs d2 r.
Proof.
  intros Hid Hu Ht Hc. pose proof (DoIO_spec q s Hid Hu (tool_commands q Ht)) as H.
  destruct (DoIO q s) as [s' q']. destruct H as (_ & _ & -> & [Ho|[(d1 & E1 & E2 & E3 & E4 & E5) Hns]]).
  - left. destruct Ho as (_ & _ & Ew & _ & Em & He). split; [done|]. split; [done|]. intros H0%He.
    revert H0. destruct Hc as [-> | ->]; by apply (bool_decide_unpack (_ ∉ status_commands)).
  - right. exists d1. split; [done|]. split; [|done].
    rewrite E1. by apply (ok_units _ _ _ (proj1 (idle_ok s Hid)) i Hi).
Qed.

(** A read of block [l] that succeeds. *)
Lemma read_served q s l : idle s -> io_Unit q = Some i -> tool_request q ->
  io_Command q = ETD_READ -> io_Offset q = l * 512 -> io_Error (DoIO q s).2 = 0 ->
  take 512 (m_bytes (memory (DoIO q s).2)) = image s l.
Proof.
  intros Hid Hu Ht Hc Ho. pose proof (transfer_served q s Hid Hu Ht (or_intror Hc)) as H.
  destruct (DoIO q s) as [s' q']. cbn [fst snd]. destruct H as [(_ & _ & He)|(d1 & Ew & Hok & Er & _ & ->)]; [done|].
  destruct (tool_transfer q Ht (or_intror Hc)) as (H1 & H2 & H3). rewrite <- Er in H1, H2, H3.
  assert (io_Unit (reqs d1 r) = Some i) as HU by by rewrite Er.
  pose proof (read_request_outcome sv table cl sizes Htable blocks i r d1 HU Hi Hok H1 H2 H3
    ltac:(right; by rewrite Er)) as [_ Hd].
  rewrite Er in Hd. destruct (transfer_check _ _ _ _) as [e|] eqn:Echk.
  - destruct Hd as (-> & _). intros ->. exfalso. revert Echk. unfold transfer_check.
    repeat match goal with |- context [if ?b then _ else _] => destruct b; [discriminate|] end. discriminate.
  - destruct Hd as (k & Ea & _ & Hfull & Htk & _). intros He. destruct (Hfull He) as [Hl _].
    change (io_Length (queued q)) with (io_Length q) in Hl. rewrite (proj1 (proj2 Ht (or_intror Hc))) in Hl.
    assert (k = 1%nat) as -> by lia. revert Htk. change (512 * 1)%nat with 512%nat. intros ->.
    change (io_Offset (queued q)) with (io_Offset q). rewrite Ho, Z.div_mul by lia. cbn [blocks_at].
    rewrite app_nil_r. unfold image. by rewrite Ew.
Qed.

(** A write at block [l]. *)
Lemma write_served q s l : idle s -> io_Unit q = Some i -> tool_request q ->
  io_Command q = ETD_WRITE -> io_Offset q = l * 512 ->
  memory (DoIO q s).2 = memory q /\ (forall l', l' <> l -> image (DoIO q s).1 l' = image s l') /\
  (io_Error (DoIO q s).2 = 0 -> image (DoIO q s).1 l = take 512 (m_bytes (memory q))).
Proof.
  intros Hid Hu Ht Hc Ho. pose proof (transfer_served q s Hid Hu Ht (or_introl Hc)) as H.
  destruct (DoIO q s) as [s' q']. cbn [fst snd].
  destruct H as [(Ew & Em & He)|(d1 & Ew & Hok & Er & Ew' & ->)]; [unfold image; by rewrite Ew|].
  destruct (tool_transfer q Ht (or_introl Hc)) as (H1 & H2 & H3). rewrite <- Er in H1, H2, H3.
  assert (io_Unit (reqs d1 r) = Some i) as HU by by rewrite Er.
  pose proof (write_request_outcome sv table cl sizes Htable blocks i r d1 HU Hi Hok H1 H2 H3
    ltac:(right; by rewrite Er)) as [Hmem Hd].
  rewrite Er in Hmem, Hd. unfold image. rewrite Ew', <- Ew. split; [exact Hmem|].
  pose proof (proj1 (proj2 Ht (or_introl Hc))) as Elen.
  destruct (transfer_check _ _ _ _) as [e|] eqn:Echk.
  - destruct Hd as (-> & _ & Hb). split; [by intros l' _|]. intros ->. exfalso. revert Echk. unfold transfer_check.
    repeat match goal with |- context [if ?b then _ else _] => destruct b; [discriminate|] end. discriminate.
  - destruct Hd as (k & Ea & _ & Hfull & Hst & Hfr).
    change (io_Length (queued q)) with (io_Length q) in *. change (io_Offset (queued q)) with (io_Offset q) in *.
    rewrite Elen, Ho in *. rewrite Z.div_mul in * by lia.
    replace (l * 512 + 512) with ((l + 1) * 512) in Hfr by lia. rewrite Z.div_mul in Hfr by lia. split.
    + intros l' Hl'. apply Hfr. lia.
    + intros He. destruct (Hfull He) as [Hl _]. assert (k = 1%nat) as -> by lia.
      specialize (Hst 0%nat ltac:(lia)). rewrite Z.add_0_r in Hst. rewrite Hst. unfold slice. by rewrite drop_0.
Qed.

#[global] Instance disk_device_track_disk : TrackDisk devices i idle image.
Proof.
  split; cbn [devices DoIO_disk DoIO_nio].
  - exact length_image.
  - intros q s Hid Hu Ht. pose proof (DoIO_spec q s Hid Hu (tool_commands q Ht)) as H.
    destruct (DoIO q s) as [s' q']. by destruct H as (H1 & H2 & _).
  - exact Hnio.
  - intros q s l Hid Hu Ht Hw. pose proof (DoIO_spec q s Hid Hu (tool_commands q Ht)) as H.
    destruct (DoIO q s) as [s' q']. destruct H as (_ & _ & _ & [Ho|[(d1 & E1 & E2 & E3 & E4 & _) Hns]]); unfold image; cbn [fst].
    + destruct Ho as (_ & _ & -> & _). done.
    + rewrite E4, <- E2. apply (process_quiet q); try done. rewrite E1.
      by apply (ok_units _ _ _ (proj1 (idle_ok s Hid)) i Hi).
  - intros q s l Hid Hu Ht Hc Hl. destruct (proj2 Ht (or_introl Hc)) as (_ & _ & l0 & _ & Ho).
    apply (write_served q s l0); try done. intros ->. done.
  - intros q s Hid Hu Ht Hc. destruct (proj2 Ht (or_introl Hc)) as (_ & _ & l0 & _ & Ho).
    by rewrite (proj1 (write_served q s l0 Hid Hu Ht Hc Ho)).
  - intros q s Hid Hu Ht Hc He. destruct (proj2 Ht (or_intror Hc)) as (_ & _ & l0 & _ & Ho).
    pose proof (f_equal length (read_served q s l0 Hid Hu Ht Hc Ho He)) as H.
    rewrite length_image, length_take in H. lia.
  - intros q s l Hid Hu Ht Hc Ho He _. by apply write_served.
  - intros q s l Hid Hu Ht Hc Ho He _. by apply read_served.
Qed.

(** ** A trial on the device *)

Variables (request_size : Z) (wb13 : bool) (uri_address buffer_address geometry_address trace_address : Z).
Variable opts : fn_nio_exchange_opts.
Variable codec : (ordinary_disk_context (system W) -> list Z -> Z -> list Z -> Z ->
    ordinary_disk_context (system W) * Z * list Z * Z) ->
  ordinary_disk_context (system W) -> Z -> fn_disk_info_t -> ordinary_disk_context (system W) * Z * fn_disk_info_t.
Abbreviation adapter := (fn_exchange_disk_adapter_io devices sizes request_size wb13 uri_address buffer_address
  geometry_address trace_address opts codec).
Abbreviation exchange := (fn_exchange_disk_adapter_exchange devices request_size).

(** C33: The exchange tool and fujinet-disk.device together.  Started on an
    idle device, over a server that keeps a medium at every slot, an ordinary
    disk trial changes no block of the tool's unit but the one it was given,
    and none at all when it only reads, whatever fails in between: AllocMem,
    the mount, the transport, the checks of the device.  When it passes, that
    block is on the server with the pattern of the last trial if the tool was
    to write, and in any case is what the tool's read buffer holds. *)
Theorem ordinary_trial_on_disk c write_buffer read_buffer :
  (forall (K : ordinary_disk_context (system W) -> Prop) slot info c,
     (forall c request n response cap, K c -> K (exchange c request n response cap).1.1.1) ->
     K c -> K (codec exchange c slot info).1.1) ->
  0 <= o_lba opts <= 8388607 ->
  idle (oc_world c) -> io_Unit (oc_disk c) = Some i ->
  (512 <= length write_buffer)%nat -> (512 <= length read_buffer)%nat ->
  let '(rc, run) := fn_exchange_disk_run opts adapter c write_buffer read_buffer in
  let before := image (oc_world c) in
  let after := image (oc_world (r_world run)) in
  (forall l, l <> o_lba opts \/ writing opts = false -> after l = before l) /\
  (rc = 0 ->
     take 512 (r_read run) = after (o_lba opts) /\
     (writing opts = true -> after (o_lba opts) = pattern_loop (o_trials opts - 1) 0 512)).
Proof. intros. by eapply (trial_on_track_disk devices i idle image). Qed.
End System.
