(* ===== verification/ExchangeExample.v ===== *)
(** * The exchange tool at work

    A disk-write trial of the exchange tool on fujinet-disk.device, over the
    server in memory of DiskDeviceExample: 25 trials on block 880 of the
    medium at slot 3, and what the theorem about trials says of it. *)

From stdpp Require Import gmap.
From S2P Require Import PaulaUart Prelude ExecIO CString FnLib SerialConfig NioBackend IoQueue NioDevice.
From S2P Require Import ExchangeOpts ExchangeOptsProps ExchangeDisk ExchangeDiskProps ExchangeAdapter ExchangeAdapterProps.
From S2P Require Import DiskRetry DiskMedia DiskDriver DiskDevice DiskDeviceProps DiskDeviceSystem DiskDeviceExample ExchangeSystem.
#[local] Open Scope Z_scope.

#[local] Existing Instance fn_lib_nio.

(** AllocMem, in one place; the tool's request; nio.device, which answers
    with the packet it was sent; the library's codec, for which every slot is
    empty. *)
Definition one_node (s : system server) : option positive :=
  match nodes (dev s) !! 1%positive with None => Some 1%positive | Some _ => None end.
Definition echo (n : FujiNetNIORequest) (s : system server) : system server * FujiNetNIORequest := (s, n).
Definition empty_slots
    (exchange : ordinary_disk_context (system server) -> list Z -> Z -> list Z -> Z ->
      ordinary_disk_context (system server) * Z * list Z * Z)
    (c : ordinary_disk_context (system server)) (slot : Z) (info : fn_disk_info_t)
    : ordinary_disk_context (system server) * Z * fn_disk_info_t :=
  let '(c, result, _, _) := exchange c [slot] 1 (zeros 64) 64 in
  (c, result, mkInfo slot (i_flags info) (i_type info) (i_sector_size info) (i_sector_count info)).

Definition tool_start : ordinary_disk_context (system server) :=
  mkOrdinary state0 false (NioDevice.mkReq 0 false 0 0 0 0 0 None 0 None 0 0 0 [])
    (mkIO NT_MESSAGE true (Some 2) 0 0 0 0 0 0 0 0 0 (memory_of [] 0)) no_trace.
Abbreviation tool_devices := (devices memory_services example_sizes 1 one_node echo).
Abbreviation tool_adapter :=
  (fn_exchange_disk_adapter_io tool_devices example_sizes 64 false 4096 8192 12288 16384 demo_opts empty_slots).
Abbreviation trial := (fn_exchange_disk_run demo_opts tool_adapter tool_start (zeros 512) (zeros 512)).


Lemma one_node_free s p : one_node s = Some p -> nodes (dev s) !! p = None.
Proof. unfold one_node. destruct (nodes (dev s) !! 1%positive) eqn:E; [done|]. by intros [= <-]. Qed.

(** A mount changes no block of this server. *)
#[export] Instance seat_keeps_blocks : ClientRespects (same_blocks server_blocks) seat_client.
Proof. by split. Qed.

Lemma tool_idle : idle memory_services seat_table example_sizes 1 2 state0.
Proof.
  split; [exact reach0|..]; try (vm_compute; reflexivity). vm_compute. intros H. by apply elem_of_nil in H.
Qed.

Lemma ordinary_trial_on_disk_witness :
  trial.1 = 0 /\ completed_trials (r_result trial.2) = 25 /\
  server_blocks (world (dev (oc_world (r_world trial.2)))) 3 880 = pattern_loop 24 0 512 /\
  take 512 (r_read trial.2) = pattern_loop 24 0 512.
Proof.
  assert (trial.1 = 0 /\ completed_trials (r_result trial.2) = 25) as Hran by (vm_compute; done).
  pose proof (ordinary_trial_on_disk memory_services seat_table seat_client example_sizes seat_table_complete
    1 one_node one_node_free 2 (conj (Zle_bool_imp_le 0 2 eq_refl) (eq_refl (Z.compare 2 8))) server_blocks echo
    (fun n s H => conj H (fun l => eq_refl)) 64 false 4096 8192 12288 16384 demo_opts empty_slots tool_start
    (zeros 512) (zeros 512)) as H.
  specialize (H ltac:(intros K slot info c Hk Hc; unfold empty_slots;
    pose proof (Hk c [slot] 1 (zeros 64) 64 Hc) as H1;
    destruct (fn_exchange_disk_adapter_exchange tool_devices 64 c [slot] 1 (zeros 64) 64) as [[[c' ?] ?] ?]; exact H1)).
  specialize (H (conj (Zle_bool_imp_le 0 880 eq_refl) (Zle_bool_imp_le 880 8388607 eq_refl)) tool_idle eq_refl
    (le_n 512) (le_n 512)).
  destruct (fn_exchange_disk_run _ _ _ _ _) as [rc run]. destruct Hran as [Hrc Hn]. cbn [fst snd] in *.
  destruct H as [_ H]. destruct (H Hrc) as [H1 H2]. specialize (H2 eq_refl).
  split; [exact Hrc|]. split; [exact Hn|]. split; [exact H2|]. rewrite H1. exact H2.
Defined.
