(* ===== verification/ExchangeMatrix.v ===== *)
(** * The trials of the exchange tool
    (amiga/tools/fujinet-nio-exchange.c, from [fill_exchange] to [run_matrix])

    The packet types: per trial, the steps of the plan, each a request to
    fujinet-nio.device, the last one measured.  The device is a parameter,
    [DoIO] on a request with all that it points to, and so are timer.device
    and what uninitialised locals hold.  Of the console output the trial's
    log line is kept. *)

From S2P Require Import PaulaUart Prelude ExecIO CString CLib FnLib SerialConfig NioDevice ExchangeOpts.
#[local] Open Scope Z_scope.

Definition MATRIX_PACKET_CAP : Z := 1024.
Definition RETURN_OK : Z := 0.
Definition RETURN_FAIL : Z := 20.

(** The 32-bit [long]. *)
Definition s32 (x : Z) : Z := if u32 x >=? 2147483648 then u32 x - 4294967296 else u32 x.

(** [matrix_request], [matrix_response], [list_golden], its length,
    [baud_bytes] and [req], with the world and the lines logged. *)
Record matrix (W : Type) := mkMatrix {
  x_world : W;
  x_req : FujiNetNIORequest;
  x_baud : list Z;
  x_request : list Z;
  x_response : list Z;
  x_golden : list Z;
  x_golden_len : Z;
  x_lines : list (list Z)
}.
#[global] Arguments mkMatrix {W}.
#[global] Arguments x_world {W}.
#[global] Arguments x_req {W}.
#[global] Arguments x_baud {W}.
#[global] Arguments x_request {W}.
#[global] Arguments x_response {W}.
#[global] Arguments x_golden {W}.
#[global] Arguments x_golden_len {W}.
#[global] Arguments x_lines {W}.
#[export] Instance eta_matrix {W} : Eta (matrix W) := fun s =>
  mkMatrix (x_world s) (x_req s) (x_baud s) (x_request s) (x_response s) (x_golden s) (x_golden_len s) (x_lines s).
Definition set_x_world {W} : W -> matrix W -> matrix W := ltac:(derive_setter (@x_world W)).
Definition set_x_req {W} : FujiNetNIORequest -> matrix W -> matrix W := ltac:(derive_setter (@x_req W)).
Definition set_x_baud {W} : list Z -> matrix W -> matrix W := ltac:(derive_setter (@x_baud W)).
Definition set_x_request {W} : list Z -> matrix W -> matrix W := ltac:(derive_setter (@x_request W)).
Definition set_x_response {W} : list Z -> matrix W -> matrix W := ltac:(derive_setter (@x_response W)).
Definition set_x_golden {W} : list Z -> matrix W -> matrix W := ltac:(derive_setter (@x_golden W)).
Definition set_x_golden_len {W} : Z -> matrix W -> matrix W := ltac:(derive_setter (@x_golden_len W)).
Definition set_x_lines {W} : list (list Z) -> matrix W -> matrix W := ltac:(derive_setter (@x_lines W)).

Section Matrix.
Context `{L : FnLib} {W : Type}.
Variable DoIO : FujiNetNIORequest -> W -> W * FujiNetNIORequest.
(** TR_GETSYSTIME, [None] when it fails, and whether the timer was opened. *)
Variable timer : W -> W * option (Z * Z).
Variable elapsed_ready : bool.
Variable FUJINET_NIO_REQUEST_SIZE : Z.
(** What [elapsed], [line], [payload], [got_name] and [clock_req] hold before
    they are written. *)
Variables elapsed_stack line_stack payload_stack name_stack clock_stack : list Z.
Variable opts : fn_nio_exchange_opts.
Implicit Types (s : matrix W) (r : FujiNetNIORequest).

(** ** Requests *)

(** [fill_exchange], of a request that keeps its device and unit ([bound]);
    [response] is cleared, so what is passed is the cleared buffer. *)
Definition fill_exchange (bound : bool) (request : list Z) (request_len : Z) (response : list Z)
    (response_cap : Z) : FujiNetNIORequest :=
  mkReq NT_MESSAGE bound FUJINET_NIO_CMD_EXCHANGE 0 0 FUJINET_NIO_REQUEST_SIZE 0 (Some request) request_len
    (Some (overwrite response 0 (zeros (Z.to_nat response_cap)))) response_cap 0 0 [0; 0; 0].
(** [fill_control]; the request is bound by [attach_open]. *)
Definition fill_control (command : Z) (request : option (list Z)) (request_len : Z)
    (response : option (list Z)) (response_cap : Z) : FujiNetNIORequest :=
  mkReq NT_MESSAGE false command 0 0 FUJINET_NIO_REQUEST_SIZE 0 request request_len response response_cap
    0 0 [0; 0; 0].
Definition attach_open : FujiNetNIORequest -> FujiNetNIORequest := set_io_bound true.

Definition do_io r s : matrix W :=
  let '(w, r) := DoIO r (x_world s) in s |> set_x_world w |> set_x_req r.
Definition do_control (command : Z) (request : option (list Z)) (request_len : Z)
    (response : option (list Z)) (response_cap : Z) s : matrix W :=
  do_io (attach_open (fill_control command request request_len response response_cap)) s.
(** [do_control(...) != 0 || req->fn_nio_error != 0]. *)
Definition refused s : bool := negb (io_Error (x_req s) =? 0) || negb (fn_nio_error (x_req s) =? 0).

Definition clock_cmd_response_ok r (response : list Z) (cmd : Z) : bool :=
  (io_Error r =? 0) && (fn_nio_error r =? FN_OK) && (fn_response_length r >=? FN_HEADER_SIZE)
  && (response.[0] =? FN_DEVICE_CLOCK) && (response.[1] =? cmd).
Definition clock_response_ok r (response : list Z) : bool := clock_cmd_response_ok r response FN_CMD_CLOCK_GET.

(** ** The settings; each gives whether it went through *)

(** GET_BAUD into [baud_bytes]. *)
Definition get_baud s : bool * matrix W :=
  let s := do_control FUJINET_NIO_CMD_GET_BAUD None 0 (Some (x_baud s)) 4 s in
  let s := set_x_baud (default (x_baud s) (fn_response_data (x_req s))) s in
  (negb (refused s || negb (fn_response_length (x_req s) =? 4)), s).

Definition run_set_baud (baud : Z) s : bool * matrix W :=
  let '(ok, s) := if baud =? 0 then get_baud s else (true, s) in
  if negb ok then (false, s)
  else
  let set_baud := if baud =? 0 then fujinet_nio_get_le32 (x_baud s) 0 else baud in
  let s := set_x_baud (fujinet_nio_put_le32 (x_baud s) 0 set_baud) s in
  let s := do_control FUJINET_NIO_CMD_SET_BAUD (Some (x_baud s)) 4 None 0 s in
  (negb (refused s), s).

Definition run_get_baud_match (want : Z) s : bool * matrix W :=
  let '(ok, s) := get_baud s in
  (ok && fn_nio_exchange_warm_baud_ok want (fujinet_nio_get_le32 (x_baud s) 0), s).

Definition run_set_serial (name : option (list Z)) (unit : Z) s : bool * matrix W :=
  let '(result, payload, payload_len) :=
    fujinet_nio_serial_encode (Some payload_stack) FUJINET_NIO_SERIAL_PAYLOAD_MAX 0 (u32 unit) name in
  if negb (result =? FN_OK) then (false, s)
  else
  let s := do_control FUJINET_NIO_CMD_SET_SERIAL payload payload_len None 0 s in
  (negb (refused s), s).

Definition run_get_serial_match (want_name : list Z) (want_unit : Z) s : bool * matrix W :=
  let s := do_control FUJINET_NIO_CMD_GET_SERIAL None 0 (Some payload_stack) FUJINET_NIO_SERIAL_PAYLOAD_MAX s in
  if refused s then (false, s)
  else
  match fujinet_nio_serial_decode (fn_response_data (x_req s)) (fn_response_length (x_req s)) name_stack
          (FUJINET_NIO_SERIAL_NAME_MAX + 1) with
  | (_, Some (got_unit, got_name)) => ((got_unit =? u32 want_unit) && str_eq got_name want_name, s)
  | (_, None) => (false, s)
  end.

(** ** Exchanges *)

(** [DoIO] on a filled request, the response in [matrix_response]. *)
Definition exchange (request : list Z) (request_len : Z) s : matrix W :=
  let s := do_io (attach_open (fill_exchange true request request_len (x_response s) MATRIX_PACKET_CAP)) s in
  set_x_response (default [] (fn_response_data (x_req s))) s.

Definition run_warmup (clock_req : list Z) (clock_len : Z) s : bool * matrix W :=
  let s := exchange clock_req (u16 clock_len) s in
  (clock_response_ok (x_req s) (x_response s), s).

Definition snapshot_time s : option (Z * Z) * matrix W :=
  if elapsed_ready then let '(w, tv) := timer (x_world s) in (tv, set_x_world w s) else (None, s).

(** The microseconds between two times, [None] when the clock went back. *)
Definition elapsed_us (start stop : Z * Z) : option Z :=
  let sec := s32 (s32 stop.1 - s32 start.1) in
  let micro := s32 (s32 stop.2 - s32 start.2) in
  let '(sec, micro) := if micro <? 0 then (s32 (sec - 1), s32 (micro + 1000000)) else (sec, micro) in
  if sec <? 0 then None
  else Some (if sec >? 4294 then 4294967295 else u32 (u32 (u32 sec * 1000000) + u32 micro)).

(** The text of [elapsed_buf]. *)
Definition format_measured (times : option ((Z * Z) * (Z * Z))) : list Z :=
  let unknown b := default b (fn_nio_exchange_format_elapsed false 0 (Some b) 32).2 in
  match times with
  | None => unknown elapsed_stack
  | Some (start, stop) =>
      match elapsed_us start stop with
      | None => unknown elapsed_stack
      | Some us =>
          let '(rc, b) := fn_nio_exchange_format_elapsed true us (Some elapsed_stack) 32 in
          if negb (rc =? 0) then unknown (default elapsed_stack b) else default elapsed_stack b
      end
  end.

(** [elapsed_buf] and the state after the request. *)
Definition do_measured_exchange (request : list Z) (request_len : Z) s : list Z * matrix W :=
  let '(start, s) := snapshot_time s in
  let s := exchange request request_len s in
  match start with
  | None => (format_measured None, s)
  | Some start =>
      let '(stop, s) := snapshot_time s in
      (format_measured (stop ← stop; Some (start, stop)), s)
  end.

Definition print_trial_log (elapsed : list Z) s : matrix W :=
  let r := x_req s in
  match fn_nio_exchange_format_trial_log (Some line_stack) 192 (fn_request_length r) (fn_response_length r)
          (Some elapsed) (fn_pad r).[1] (fn_pad r).[2] (Z.land (fn_flags r) 255) (Z.shiftr (fn_flags r) 8)
          (o_backend opts) with
  | (rc, Some line) => if rc =? 0 then set_x_lines (x_lines s ++ [c_string line]) s else s
  | (_, None) => s
  end.

Definition measure (request_len : Z) s : bool * matrix W :=
  let '(elapsed, s) := do_measured_exchange (x_request s) (u16 request_len) s in
  let s := print_trial_log elapsed s in
  let r := x_req s in
  if negb (io_Error r =? 0) || negb (fn_nio_error r =? FN_OK) then (false, s)
  else if negb (fn_nio_exchange_verify_fujibus (x_request s) request_len (x_response s) (fn_response_length r) =? 0)
  then (false, s)
  else if (o_type opts =? FN_NIO_EXCHANGE_TYPE_FILE_LIST) && (fn_response_length r >? 0)
          && (fn_response_length r <=? MATRIX_PACKET_CAP)
  then (true, s |> set_x_golden (overwrite (x_golden s) 0 (take (Z.to_nat (fn_response_length r)) (x_response s)))
                |> set_x_golden_len (fn_response_length r))
  else (true, s).

(** ** The trials *)

Section Trials.
Variable clock_req : list Z.
Variables clock_len request_len : Z.

(** One step of a trial: whether it went through. *)
Definition run_step (step : Z) s : bool * matrix W :=
  if step =? FN_NIO_EXCHANGE_STEP_SET_SERIAL
  then run_set_serial (o_serial_device opts) (o_serial_unit opts) s
  else if step =? FN_NIO_EXCHANGE_STEP_GET_SERIAL
  then run_get_serial_match (default [] (o_serial_device opts)) (o_serial_unit opts) s
  else if step =? FN_NIO_EXCHANGE_STEP_SET_BAUD then run_set_baud (o_baud opts) s
  else if step =? FN_NIO_EXCHANGE_STEP_GET_BAUD then run_get_baud_match (o_baud opts) s
  else if step =? FN_NIO_EXCHANGE_STEP_WARMUP then run_warmup clock_req clock_len s
  else if step =? FN_NIO_EXCHANGE_STEP_MEASURE then measure request_len s
  else (false, s).

(** The loop over the steps: the status so far, [abort_trials] and the state. *)
Fixpoint steps_loop (steps : list Z) (status : Z) s : Z * bool * matrix W :=
  match steps with
  | [] => (status, false, s)
  | step :: steps =>
      let '(ok, s) := run_step step s in
      if ok then steps_loop steps status s
      else if fn_nio_exchange_step_failure_aborts step then (RETURN_FAIL, true, s)
      else if step =? FN_NIO_EXCHANGE_STEP_WARMUP then (RETURN_FAIL, false, s)
      else steps_loop steps RETURN_FAIL s
  end.

(** The trials, [n] of them left. *)
Fixpoint trials_loop (n : nat) (steps : list Z) (status : Z) s : Z * matrix W :=
  match n with
  | O => (status, s)
  | S n =>
      let '(status, abort_trials, s) := steps_loop steps status s in
      if abort_trials then (status, s) else trials_loop n steps status s
  end.
End Trials.

(** [matrix_request] by the type of the trial: the builder's result. *)
Definition build_request s : Z * list Z :=
  if o_type opts =? FN_NIO_EXCHANGE_TYPE_CLOCK then fn_nio_exchange_build_clock_get (x_request s) MATRIX_PACKET_CAP
  else if o_type opts =? FN_NIO_EXCHANGE_TYPE_HOST_GET
  then fn_nio_exchange_build_host_get (x_request s) MATRIX_PACKET_CAP
  else fn_nio_exchange_build_file_list (x_request s) (default [] (o_uri opts)) MATRIX_PACKET_CAP (o_size opts)
         (if o_has_list_flags opts then o_list_flags opts else -1).

(** OpenDevice on fujinet-nio.device: whether it opened. *)
Variable OpenDevice : W -> W * bool.
Definition req_zero : FujiNetNIORequest := mkReq 0 false 0 0 0 0 0 None 0 None 0 0 0 [0; 0; 0].

(** [run_matrix] with its options parsed, for the types that are not disk
    trials. *)
Definition run_matrix s : Z * matrix W :=
  let s := set_x_golden_len 0 s in
  match fn_nio_exchange_opts_plan opts (zeros 5) 5 with
  | None => (RETURN_FAIL, s)
  | Some (nsteps, steps) =>
      let '(clock_len, clock_req) := fn_nio_exchange_build_clock_get clock_stack FN_HEADER_SIZE in
      if clock_len <? 0 then (RETURN_FAIL, s)
      else
      let '(request_len, request) := build_request s in
      let s := set_x_request request s in
      if request_len <? 0 then (RETURN_FAIL, s)
      else
      let '(w, opened) := OpenDevice (x_world s) in
      let s := set_x_world w s in
      if negb opened then (RETURN_FAIL, s)
      else
      trials_loop clock_req clock_len request_len (Z.to_nat (o_trials opts)) (take (Z.to_nat nsteps) steps)
        RETURN_OK (set_x_req req_zero s)
  end.
End Matrix.
