(* ===== verification/ExchangeMatrixProps.v ===== *)
(** * What the exchange tool's trials send

    [logged] keeps what DoIO was given and what it gave back.  [schedule] is
    the requests of a trial by its options, with every byte that they carry;
    the trials follow it, and pass exactly when every request was accepted and
    every answer confirms what its step is for.  [measured] is the time a
    trial's line shows. *)

From S2P Require Import PaulaUart Prelude ExecIO CString CLib FnLib SerialConfig NioDevice ExchangeOpts ExchangeOptsProps.
From S2P Require Import ExchangePackets ExchangeMatrix.
#[local] Open Scope Z_scope.

(** A request and its answer. *)
Definition traffic : Type := FujiNetNIORequest * FujiNetNIORequest.

Definition logged {W} (DoIO : FujiNetNIORequest -> W -> W * FujiNetNIORequest)
    : FujiNetNIORequest -> W * list traffic -> W * list traffic * FujiNetNIORequest := fun r wl =>
  let '(w, a) := DoIO r wl.1 in ((w, wl.2 ++ [(r, a)]), a).
Definition beside {W A} (f : W -> W * A) : W * list traffic -> W * list traffic * A := fun wl =>
  let '(w, a) := f wl.1 in ((w, wl.2), a).

(** The bytes of a request, with its command, and those of its answer. *)
Definition carried (e : traffic) : list Z :=
  take (Z.to_nat (fn_request_length e.1)) (default [] (fn_request_data e.1)).
Definition asked (e : traffic) : Z * list Z := (io_Command e.1, carried e).
Definition response (e : traffic) : list Z := default [] (fn_response_data e.2).

Definition accepted (e : traffic) : Prop := io_Error e.2 = 0 /\ fn_nio_error e.2 = 0.
Definition control (e : traffic) : Prop := io_Command e.1 <> FUJINET_NIO_CMD_EXCHANGE.

(** ** The schedule *)

Section Schedule.
Context `{L : FnLib}.
Variable o : fn_nio_exchange_opts.

(** The packets of the warm-up and of the trials. *)
Definition clock_packet : list Z := packet (u8 FN_DEVICE_CLOCK) (u8 FN_CMD_CLOCK_GET) 0 [].
Definition trial_packet : list Z :=
  if o_type o =? FN_NIO_EXCHANGE_TYPE_CLOCK then clock_packet
  else if o_type o =? FN_NIO_EXCHANGE_TYPE_HOST_GET
  then packet FN_NIO_EXCH_HOST_DEVICE FN_NIO_EXCH_HOST_GET_CURRENT 0 [FN_NIO_EXCH_HOST_VERSION]
  else packet (u8 FN_DEVICE_FILE) FN_NIO_EXCH_FILE_CMD_LIST 0
         (file_list_payload (default [] (o_uri o)) (o_size o) (if o_has_list_flags o then o_list_flags o else -1)).
(** The serial device and its unit, as SET_SERIAL takes them. *)
Definition serial_payload : list Z :=
  le32_bytes (u32 (o_serial_unit o)) ++ c_string (default [] (o_serial_device o)) ++ [0].
(** The rate in an answer to GET_BAUD. *)
Definition answered_rate (e : option traffic) : Z :=
  match e with Some e => fujinet_nio_get_le32 (response e) 0 | None => 0 end.

(** What a step asks, each request from the one before it: without a rate of
    its own, SET_BAUD sets the one that it has just been told. *)
Definition step_requests (step : Z) : list (option traffic -> Z * list Z) :=
  if step =? FN_NIO_EXCHANGE_STEP_SET_SERIAL then [fun _ => (FUJINET_NIO_CMD_SET_SERIAL, serial_payload)]
  else if step =? FN_NIO_EXCHANGE_STEP_GET_SERIAL then [fun _ => (FUJINET_NIO_CMD_GET_SERIAL, [])]
  else if step =? FN_NIO_EXCHANGE_STEP_SET_BAUD then
    if o_baud o =? 0
    then [fun _ => (FUJINET_NIO_CMD_GET_BAUD, []);
          fun told => (FUJINET_NIO_CMD_SET_BAUD, le32_bytes (answered_rate told))]
    else [fun _ => (FUJINET_NIO_CMD_SET_BAUD, le32_bytes (o_baud o))]
  else if step =? FN_NIO_EXCHANGE_STEP_GET_BAUD then [fun _ => (FUJINET_NIO_CMD_GET_BAUD, [])]
  else if step =? FN_NIO_EXCHANGE_STEP_WARMUP then [fun _ => (FUJINET_NIO_CMD_EXCHANGE, clock_packet)]
  else if step =? FN_NIO_EXCHANGE_STEP_MEASURE then [fun _ => (FUJINET_NIO_CMD_EXCHANGE, trial_packet)]
  else [].
Definition schedule : list (option traffic -> Z * list Z) := flat_map step_requests (plan_of o).

(** Requests that are a beginning of a schedule, after [before]. *)
Fixpoint follows (before : option traffic) (fs : list (option traffic -> Z * list Z)) (es : list traffic) {struct es} : Prop :=
  match es, fs with
  | [], _ => True
  | e :: es, f :: fs => asked e = f before /\ follows (Some e) fs es
  | _ :: _, [] => False
  end.

(** The measured answer belongs to its request. *)
Definition answers (e : traffic) : Prop :=
  fn_nio_exchange_verify_fujibus (default [] (fn_request_data e.1)) (fn_request_length e.1)
    (response e) (fn_response_length e.2) = 0.
(** What the answer to a request of a step has to say. *)
Variable name_stack : list Z.
Definition confirms (step : Z) (e : traffic) : Prop :=
  if step =? FN_NIO_EXCHANGE_STEP_GET_SERIAL then
    exists name,
      (fujinet_nio_serial_decode (fn_response_data e.2) (fn_response_length e.2) name_stack
         (FUJINET_NIO_SERIAL_NAME_MAX + 1)).2 = Some (u32 (o_serial_unit o), name) /\
      c_string name = c_string (default [] (o_serial_device o))
  else if step =? FN_NIO_EXCHANGE_STEP_SET_BAUD then
    io_Command e.1 = FUJINET_NIO_CMD_GET_BAUD -> fn_response_length e.2 = 4
  else if step =? FN_NIO_EXCHANGE_STEP_GET_BAUD then
    fn_response_length e.2 = 4 /\ fujinet_nio_get_le32 (response e) 0 = o_baud o
  else if step =? FN_NIO_EXCHANGE_STEP_WARMUP then
    6 <= fn_response_length e.2 /\ (response e).[0] = FN_DEVICE_CLOCK /\ (response e).[1] = FN_CMD_CLOCK_GET
  else if step =? FN_NIO_EXCHANGE_STEP_MEASURE then answers e
  else True.
(** A step that went through, and a trial. *)
Definition step_passed (step : Z) (es : list traffic) : Prop :=
  length es = length (step_requests step) /\ Forall (fun e => accepted e /\ confirms step e) es.
Fixpoint passed (steps : list Z) (es : list traffic) : Prop :=
  match steps with
  | [] => es = []
  | step :: steps =>
      let n := length (step_requests step) in
      step_passed step (take n es) /\ passed steps (drop n es)
  end.
Definition trial_passed : list traffic -> Prop := passed (plan_of o).

Lemma follows_length before fs es : follows before fs es -> (length es <= length fs)%nat.
Proof.
  revert before fs. induction es as [|e es IH]; intros before [|f fs]; cbn; try done || lia.
  intros [_ H%IH]. lia.
Qed.
Lemma follows_more before fs fs' es : follows before fs es -> follows before (fs ++ fs') es.
Proof.
  revert before fs. induction es as [|e es IH]; intros before [|f fs]; cbn; try done. intros [? ?]. by split; [|apply IH].
Qed.
Lemma follows_app before fs fs' es es' : follows before fs es -> length es = length fs ->
  (forall p, follows p fs' es') -> follows before (fs ++ fs') (es ++ es').
Proof.
  revert before fs. induction es as [|e es IH]; intros before [|f fs]; cbn; try done. intros [? ?] [=] ?. by split; [|apply IH].
Qed.
(** No request of a schedule without it. *)
Lemma follows_without before fs es (cs : list Z) : follows before fs es -> Forall (fun f => forall p, (f p).1 ∉ cs) fs ->
  Forall (fun e => io_Command e.1 ∉ cs) es.
Proof.
  revert before fs. induction es as [|e es IH]; intros before [|f fs]; cbn; try done.
  intros [E H] [Hf Hfs]%Forall_cons. apply Forall_cons. split; [|by eapply IH].
  specialize (Hf before). rewrite <- E in Hf. exact Hf.
Qed.
Lemma passed_cons step steps es es' : (length es <= length (step_requests step))%nat ->
  length es = length (step_requests step) \/ es' = [] ->
  passed (step :: steps) (es ++ es') <-> step_passed step es /\ passed steps es'.
Proof.
  intros Hl Hc. cbn [passed]. destruct Hc as [E| ->].
  - by rewrite take_app_length', drop_app_length'.
  - rewrite app_nil_r, take_ge, drop_ge by done. done.
Qed.
End Schedule.

Section Trials.
Context `{L : FnLib, !FnLibOk L} {W : Type}.
Variable DoIO : FujiNetNIORequest -> W -> W * FujiNetNIORequest.
Variable timer : W -> W * option (Z * Z).
Variable ready : bool.
Variable size : Z.
Variables elapsed_stack line_stack payload_stack name_stack : list Z.
Variable opts : fn_nio_exchange_opts.
Abbreviation state := (matrix (W * list traffic)).
Implicit Types (s : state) (es : list traffic).

(** A request comes back with the buffer that it was given; the name is a
    string that ends and that the parser accepts; [payload] is an array of
    [FUJINET_NIO_SERIAL_PAYLOAD_MAX] bytes. *)
Hypothesis Hbuffer : forall r w, length <$> fn_response_data (DoIO r w).2 = length <$> fn_response_data r.
Hypothesis Hname : forall name, o_serial_device opts = Some name ->
  fujinet_nio_serial_name_ok (Some name) = true /\ (length (c_string name) < length name)%nat.
Hypothesis Hpayload : length payload_stack = 35%nat.

Variable clock_req : list Z.
Variables clock_len request_len : Z.
Hypothesis Hclock : u16 clock_len = clock_len /\ take (Z.to_nat clock_len) clock_req = clock_packet.
Hypothesis Hlen : u16 request_len = request_len.
Abbreviation run_step := (run_step (logged DoIO) (beside timer) ready size elapsed_stack line_stack payload_stack
  name_stack opts clock_req clock_len request_len).
Abbreviation steps_loop := (steps_loop (logged DoIO) (beside timer) ready size elapsed_stack line_stack payload_stack
  name_stack opts clock_req clock_len request_len).

(** [baud_bytes] is an array of four bytes, and [matrix_request] holds the
    packet of the trials. *)
Definition prepared s : Prop :=
  length (x_baud s) = 4%nat /\ take (Z.to_nat request_len) (x_request s) = trial_packet opts.
(** From [s] to [s'] the requests [es] were made. *)
Record made s s' es : Prop := {
  md_log : (x_world s').2 = (x_world s).2 ++ es;
  md_prepared : prepared s -> prepared s'
}.
Lemma made_none s s' : (x_world s').2 = (x_world s).2 -> (prepared s -> prepared s') -> made s s' [].
Proof. by split; [rewrite app_nil_r|]. Qed.
Lemma made_trans s1 s2 s3 es es' : made s1 s2 es -> made s2 s3 es' -> made s1 s3 (es ++ es').
Proof. intros [H1 H2] [H3 H4]. split; [by rewrite H3, H1, app_assoc|auto]. Qed.
Lemma made_unique s s' es es' : made s s' es -> made s s' es' -> es = es'.
Proof. intros [H1 _] [H2 _]. rewrite H1 in H2. by apply app_inv_head in H2. Qed.

Lemma do_io_made r s : let s' := do_io (logged DoIO) r s in
  made s s' [(r, x_req s')] /\ x_baud s' = x_baud s /\
  length <$> fn_response_data (x_req s') = length <$> fn_response_data r.
Proof.
  unfold do_io, logged. pose proof (Hbuffer r (x_world s).1) as Hb. destruct (DoIO r (x_world s).1) as [w a].
  by split_and!; [split|..].
Qed.
Lemma snapshot_same s : let s' := (snapshot_time (beside timer) ready s).2 in
  made s s' [] /\ x_req s' = x_req s /\ x_response s' = x_response s /\ x_request s' = x_request s.
Proof.
  unfold snapshot_time, beside. destruct ready; [|split; [by apply made_none|done]].
  destruct (timer (x_world s).1) as [w tv]. split; [by apply made_none|done].
Qed.
Lemma exchange_made request len s : let s' := exchange (logged DoIO) size request len s in
  exists e, made s s' [e] /\ io_Command e.1 = FUJINET_NIO_CMD_EXCHANGE /\ e.2 = x_req s' /\
    fn_request_data e.1 = Some request /\ fn_request_length e.1 = len /\
    x_response s' = response e /\ x_request s' = x_request s.
Proof.
  cbv zeta. unfold exchange. set (r := attach_open _). destruct (do_io_made r s) as [[H1 H2] _].
  exists (r, x_req (do_io (logged DoIO) r s)). split_and!; try done. unfold do_io, logged. by destruct (DoIO r _).
Qed.

(** ** One step *)

Definition sends (step : Z) (ok : bool) s s' : Prop :=
  exists es, made s s' es /\ (forall before, follows before (step_requests opts step) es) /\
    (if fn_nio_exchange_step_failure_aborts step then Forall control es
     else length es = length (step_requests opts step)) /\
    (ok = true <-> step_passed opts name_stack step es).

Lemma not_refused_accepted s r : refused s = false <-> accepted (r, x_req s).
Proof. unfold refused, accepted. cbn. lia. Qed.
(** One request that is all that the step makes. *)
Lemma one_request step ok s s' e c body : made s s' [e] ->
  step_requests opts step = [fun _ => (c, body)] -> asked e = (c, body) ->
  (fn_nio_exchange_step_failure_aborts step = true -> c <> FUJINET_NIO_CMD_EXCHANGE) ->
  (ok = true <-> accepted e /\ confirms opts name_stack step e) -> sends step ok s s'.
Proof.
  intros Hm Hs Ha Hc Hok. exists [e]. unfold step_passed. rewrite Hs. split; [done|].
  split; [done|]. split.
  - destruct (fn_nio_exchange_step_failure_aborts step); [|done]. apply Forall_singleton.
    unfold control. injection Ha as -> _. by apply Hc.
  - rewrite Forall_singleton. by rewrite Hok; split; [|intros [_ ?]].
Qed.

Lemma control_made command request len resp cap s :
  let s' := do_control (logged DoIO) size command request len resp cap s in
  exists e, made s s' [e] /\ e.2 = x_req s' /\
    asked e = (command, take (Z.to_nat len) (default [] request)) /\
    x_baud s' = x_baud s /\ length <$> fn_response_data e.2 = length <$> resp /\
    (refused s' = false <-> accepted e).
Proof.
  cbv zeta. unfold do_control. set (r := attach_open _). destruct (do_io_made r s) as (H1 & H2 & H3).
  eexists. split_and!; [exact H1|done|done|done|exact H3|apply not_refused_accepted].
Qed.

(** GET_BAUD leaves the answer in [baud_bytes]. *)
Lemma get_baud_made s : let '(ok, s') := get_baud (logged DoIO) size s in
  exists e, made s s' [e] /\ asked e = (FUJINET_NIO_CMD_GET_BAUD, []) /\ x_baud s' = response e /\
    (ok = true <-> accepted e /\ fn_response_length e.2 = 4).
Proof.
  unfold get_baud. destruct (control_made FUJINET_NIO_CMD_GET_BAUD None 0 (Some (x_baud s)) 4 s)
    as (e & [M1 M2] & E2 & Ha & Hb & Hl & Hr). set (s1 := do_control _ _ _ _ _ _ _ _) in *.
  set (s2 := set_x_baud _ s1). change (refused s2) with (refused s1). change (x_req s2) with (x_req s1).
  rewrite <- E2 in *. assert (Er : x_baud s2 = response e).
  { unfold s2, response. cbn. rewrite <- E2. destruct (fn_response_data e.2); done. }
  exists e. split_and!; try done.
  - split; [done|]. intros [P1 P2]%M2. split; [|done]. rewrite Er. unfold response.
    destruct (fn_response_data e.2) as [d|]; [|done]. cbn. injection Hl as ->. rewrite <- Hb. exact P1.
  - rewrite negb_true_iff, orb_false_iff, negb_false_iff, Z.eqb_eq. by rewrite Hr.
Qed.
Lemma set_baud_made v s : length (x_baud s) = 4%nat ->
  let s1 := set_x_baud (fujinet_nio_put_le32 (x_baud s) 0 v) s in
  let s' := do_control (logged DoIO) size FUJINET_NIO_CMD_SET_BAUD (Some (x_baud s1)) 4 None 0 s1 in
  exists e, made s s' [e] /\ asked e = (FUJINET_NIO_CMD_SET_BAUD, le32_bytes v) /\
    (negb (refused s') = true <-> accepted e).
Proof.
  intros Hl s1. destruct (control_made FUJINET_NIO_CMD_SET_BAUD (Some (x_baud s1)) 4 None 0 s1)
    as (e & [M1 M2] & E2 & Ha & Hb & _ & Hr). exists e.
  assert (Eb : x_baud s1 = le32_bytes v).
  { change (x_baud s1) with (fujinet_nio_put_le32 (x_baud s) 0 v). rewrite put_le32_start by lia. by rewrite drop_ge, app_nil_r by lia. }
  split_and!; [split; [exact M1|]|by rewrite Ha, Eb|by rewrite negb_true_iff].
  intros [_ P2]. apply M2. split; [by rewrite Eb|exact P2].
Qed.
Lemma set_baud_sends s : prepared s ->
  let '(ok, s') := run_set_baud (logged DoIO) size (o_baud opts) s in sends FN_NIO_EXCHANGE_STEP_SET_BAUD ok s s'.
Proof.
  intros Hs. pose proof (proj1 Hs) as Hl. unfold run_set_baud.
  assert (step_requests opts FN_NIO_EXCHANGE_STEP_SET_BAUD =
    if o_baud opts =? 0 then [fun _ => (FUJINET_NIO_CMD_GET_BAUD, []);
      fun told => (FUJINET_NIO_CMD_SET_BAUD, le32_bytes (answered_rate told))]
    else [fun _ => (FUJINET_NIO_CMD_SET_BAUD, le32_bytes (o_baud opts))]) as Es by done.
  destruct (o_baud opts =? 0).
  2:{ destruct (set_baud_made (o_baud opts) s Hl) as (e & M & Ha & Hr). cbn [negb].
      eapply one_request; [exact M|exact Es|exact Ha|done|].
      rewrite Hr. split; [|by intros []]. intros ?. split; [done|]. injection Ha as Hc _. intros Hx. by rewrite Hx in Hc. }
  pose proof (get_baud_made s) as Hg. destruct (get_baud _ _ s) as [ok s1]. destruct Hg as (e1 & M1 & Ha1 & Eb1 & Hok1).
  assert (Hc1 : control e1) by (unfold control; by injection Ha1 as ->).
  unfold sends, step_passed. rewrite Es. destruct ok; cbn [negb].
  - destruct (md_prepared _ _ _ M1 Hs) as [Hl1 _].
    destruct (set_baud_made (fujinet_nio_get_le32 (x_baud s1) 0) s1 Hl1) as (e2 & M2 & Ha2 & Hok2).
    exists [e1; e2]. split; [exact (made_trans _ _ _ [e1] [e2] M1 M2)|].
    split; [intros before; cbn; rewrite <- Eb1; by split_and!|].
    split; [repeat (apply Forall_cons; split; [|]); try done; unfold control; by injection Ha2 as ->|].
    rewrite Hok2. destruct (proj1 Hok1 eq_refl) as [A1 L1]. rewrite !Forall_cons. unfold confirms. cbn. split; [|tauto].
    intros A2. split_and!; try done. injection Ha2 as ->. intros Hx. discriminate Hx.
  - exists [e1]. split; [done|]. split; [done|]. split; [by apply Forall_singleton|]. split; [done|]. by intros [].
Qed.
Lemma get_baud_sends s : let '(ok, s') := run_get_baud_match (logged DoIO) size (o_baud opts) s in
  sends FN_NIO_EXCHANGE_STEP_GET_BAUD ok s s'.
Proof.
  unfold run_get_baud_match. pose proof (get_baud_made s) as H. destruct (get_baud _ _ s) as [ok s1].
  destruct H as (e & M & Ha & Eb & Hok). eapply one_request; [exact M|done|exact Ha|done|].
  rewrite andb_true_iff, Hok, Eb. unfold fn_nio_exchange_warm_baud_ok. rewrite Z.eqb_eq.
  unfold confirms. cbn. split; [intros [[]]|intros [? []]]; by split_and!.
Qed.
Lemma set_serial_sends s :
  let '(ok, s') := run_set_serial (logged DoIO) size payload_stack (o_serial_device opts) (o_serial_unit opts) s in
  sends FN_NIO_EXCHANGE_STEP_SET_SERIAL ok s s'.
Proof.
  unfold run_set_serial. destruct (o_serial_device opts) as [name|] eqn:En.
  2:{ cbn. destruct (Z.eqb_spec FN_ERR_INVALID FN_OK) as [E|_]; [by destruct (fn_err_invalid_ok E)|]. cbn [negb].
      exists []. split; [by apply made_none|]. split; [done|]. split; [by apply Forall_nil|]. split; [done|].
      intros [H _]. discriminate H. }
  destruct (Hname name eq_refl) as [Hok Ht]. apply name_ok_spec in Hok; [|done].
  rewrite (c_string_split name Ht). set (str := c_string name) in *. rewrite encode_spec by (try done; unfold FUJINET_NIO_SERIAL_PAYLOAD_MAX, FUJINET_NIO_SERIAL_NAME_MAX; lia).
  rewrite Z.eqb_refl. cbn [negb].
  match goal with |- context [do_control _ _ ?c ?r ?l ?p ?n s] => destruct (control_made c r l p n s) as (e & M & E2 & Ha & _ & _ & Hr) end.
  eapply one_request; [exact M|done| |done|].
  - rewrite Ha. f_equal. unfold serial_payload. rewrite En. cbn [default]. apply take_payload.
  - rewrite negb_true_iff, Hr. unfold confirms. cbn. tauto.
Qed.
Lemma get_serial_sends s :
  let '(ok, s') := run_get_serial_match (logged DoIO) size payload_stack name_stack (default [] (o_serial_device opts))
                     (o_serial_unit opts) s in
  sends FN_NIO_EXCHANGE_STEP_GET_SERIAL ok s s'.
Proof.
  unfold run_get_serial_match.
  destruct (control_made FUJINET_NIO_CMD_GET_SERIAL None 0 (Some payload_stack) FUJINET_NIO_SERIAL_PAYLOAD_MAX s)
    as (e & M & E2 & Ha & _ & _ & Hr). set (s1 := do_control _ _ _ _ _ _ _ _) in *. rewrite <- E2.
  assert (H : forall ok, (ok = true <-> accepted e /\ confirms opts name_stack FN_NIO_EXCHANGE_STEP_GET_SERIAL e) ->
    sends FN_NIO_EXCHANGE_STEP_GET_SERIAL ok s s1) by (intros; by eapply one_request).
  unfold confirms in H. cbn in H. destruct (refused s1) eqn:Ef.
  { apply H. split; [done|]. intros [Hx%Hr _]. done. }
  pose proof (proj1 Hr eq_refl) as A.
  destruct (fujinet_nio_serial_decode _ _ _ _) as [rc [[unit name]|]] eqn:Ed; apply H; cbn.
  - rewrite andb_true_iff, Z.eqb_eq. unfold str_eq. rewrite bool_decide_eq_true. split.
    + intros [-> Hn]. split; [done|]. by exists name.
    + by intros [_ (n & [= -> ->] & Hn)].
  - split; [done|]. by intros [_ (n & [=] & _)].
Qed.

Lemma warmup_sends s : let '(ok, s') := run_warmup (logged DoIO) size clock_req clock_len s in
  sends FN_NIO_EXCHANGE_STEP_WARMUP ok s s'.
Proof.
  unfold run_warmup. destruct (exchange_made clock_req (u16 clock_len) s) as (e & Hm & Hc & E2 & Hd & Hl & Hr & _).
  destruct Hclock as [H16 Ht]. eapply one_request; [exact Hm|done| |done|].
  - unfold asked, carried. rewrite Hc, Hd, Hl, H16. f_equal. exact Ht.
  - unfold clock_response_ok, clock_cmd_response_ok, accepted, confirms. rewrite <- E2, Hr. cbn.
    rewrite fn_ok_zero, fn_header_size, !andb_true_iff, !Z.eqb_eq, Z.geb_le. tauto.
Qed.

Lemma print_same s elapsed : let s' := print_trial_log line_stack opts elapsed s in
  made s s' [] /\ x_req s' = x_req s /\ x_response s' = x_response s /\ x_request s' = x_request s.
Proof.
  unfold print_trial_log. destruct (fn_nio_exchange_format_trial_log _ _ _ _ _ _ _ _ _ _) as [rc [line|]];
    [destruct (rc =? 0)|]; (split; [by apply made_none|done]).
Qed.
Lemma measured_made request len s :
  let s' := (do_measured_exchange (logged DoIO) (beside timer) ready size elapsed_stack request len s).2 in
  exists e, made s s' [e] /\ io_Command e.1 = FUJINET_NIO_CMD_EXCHANGE /\ e.2 = x_req s' /\
    fn_request_data e.1 = Some request /\ fn_request_length e.1 = len /\
    x_response s' = response e /\ x_request s' = x_request s.
Proof.
  cbv zeta. unfold do_measured_exchange. pose proof (snapshot_same s) as (M1 & _ & _ & R1).
  destruct (snapshot_time _ _ s) as [start s1]. cbn [snd] in M1, R1.
  destruct (exchange_made request len s1) as (e & M2 & Hc & E2 & Hd & Hl & Hr & R2). exists e.
  set (s2 := exchange _ _ _ _ _) in *. pose proof (made_trans _ _ _ _ _ M1 M2) as M12. cbn [app] in M12. rewrite R1 in R2.
  destruct start as [start|]; [|done]. pose proof (snapshot_same s2) as (M3 & S1 & S2 & S3).
  destruct (snapshot_time _ _ s2) as [stop s3]. cbn [snd] in *. rewrite S1, S2, S3.
  split; [exact (made_trans _ _ _ _ _ M12 M3)|done].
Qed.
Lemma measure_sends s : prepared s ->
  let '(ok, s') := measure (logged DoIO) (beside timer) ready size elapsed_stack line_stack opts request_len s in
  sends FN_NIO_EXCHANGE_STEP_MEASURE ok s s'.
Proof.
  intros [_ Hp]. unfold measure. destruct (measured_made (x_request s) (u16 request_len) s) as (e & M1 & Hc & E2 & Hd & Hl & Hr & Hq).
  destruct (do_measured_exchange _ _ _ _ _ _ _ s) as [elapsed s1]. cbn [snd] in *.
  destruct (print_same s1 elapsed) as (M2 & P1 & P2 & P3).
  set (s2 := print_trial_log _ _ _ s1) in *. pose proof (made_trans _ _ _ _ _ M1 M2) as M. cbn [app] in M.
  rewrite <- P1 in E2. rewrite <- P2 in Hr. rewrite <- P3 in Hq. clearbody s2. clear M1 M2 P1 P2 P3 s1.
  assert (Hall : forall ok s', made s s' [e] -> (ok = true <-> accepted e /\ answers e) ->
    sends FN_NIO_EXCHANGE_STEP_MEASURE ok s s').
  { intros ok s' Hm Hok. eapply one_request; [exact Hm|done| |done|exact Hok].
    unfold asked, carried. rewrite Hc, Hd, Hl, Hlen. f_equal. exact Hp. }
  unfold accepted, answers in Hall. rewrite Hd, Hl, Hlen, E2, <- Hr, <- Hq in Hall. cbn [default] in Hall.
  rewrite fn_ok_zero.
  destruct (negb (io_Error (x_req s2) =? 0) || negb (fn_nio_error (x_req s2) =? 0)) eqn:Ee.
  { apply Hall; [done|]. split; [done|]. intros [[H1 H2] _]. rewrite H1, H2 in Ee. done. }
  destruct (Z.eqb_spec (fn_nio_exchange_verify_fujibus (x_request s2) request_len (x_response s2) (fn_response_length (x_req s2))) 0) as [Ev|Ev]; cbn [negb].
  2:{ apply Hall; [done|]. split; [done|]. by intros [_ ?]. }
  apply orb_false_iff in Ee as [He1 He2]. apply negb_false_iff, Z.eqb_eq in He1, He2.
  destruct (_ && _ && _); (apply Hall; [|done]); [by destruct M|done].
Qed.

Definition known (step : Z) : Prop := step ∈ [FN_NIO_EXCHANGE_STEP_SET_SERIAL; FN_NIO_EXCHANGE_STEP_GET_SERIAL;
  FN_NIO_EXCHANGE_STEP_SET_BAUD; FN_NIO_EXCHANGE_STEP_GET_BAUD; FN_NIO_EXCHANGE_STEP_WARMUP; FN_NIO_EXCHANGE_STEP_MEASURE].
Lemma step_sends step s : known step -> prepared s -> let '(ok, s') := run_step step s in sends step ok s s'.
Proof.
  intros Hk Hs. unfold known in Hk. repeat (apply elem_of_cons in Hk as [->|Hk]); [..|by apply elem_of_nil in Hk].
  - apply set_serial_sends.
  - apply get_serial_sends.
  - by apply set_baud_sends.
  - apply get_baud_sends.
  - apply warmup_sends.
  - by apply measure_sends.
Qed.

(** ** The steps of a trial *)

Definition aborts_trials (step : Z) : Prop := fn_nio_exchange_step_failure_aborts step = true.

Lemma steps_loop_spec steps : Forall known steps -> forall status s, prepared s ->
  let '(status', abort, s') := steps_loop steps status s in
  exists es, made s s' es /\ (forall before, follows before (flat_map (step_requests opts) steps) es) /\
    (status' = RETURN_FAIL /\ ~ passed opts name_stack steps es \/
     status' = status /\ abort = false /\ passed opts name_stack steps es).
Proof.
  induction 1 as [|step steps Hk Hks IH]; intros status s Hp.
  { exists []. split; [by apply made_none|]. split; [done|]. by right. }
  cbn [ExchangeMatrix.steps_loop flat_map]. pose proof (step_sends step s Hk Hp) as Hs.
  destruct (run_step step s) as [ok s1]. destruct Hs as (es1 & M1 & F1 & A1 & G1).
  pose proof (follows_length _ _ _ (F1 None)) as L1.
  assert (Hstop : ok = false -> exists es, made s s1 es /\
    (forall before, follows before (step_requests opts step ++ flat_map (step_requests opts) steps) es) /\
    ~ passed opts name_stack (step :: steps) es).
  { intros Hok. exists es1. split; [done|]. split; [intros; by apply follows_more|].
    rewrite <- (app_nil_r es1), passed_cons by auto. intros [H _]. apply G1 in H. congruence. }
  assert (Hgo : forall st, length es1 = length (step_requests opts step) ->
    let '(status', abort, s') := steps_loop steps st s1 in
    exists es, made s s' es /\
      (forall before, follows before (step_requests opts step ++ flat_map (step_requests opts) steps) es) /\
      (status' = RETURN_FAIL /\ ~ passed opts name_stack (step :: steps) es \/
       status' = st /\ abort = false /\ (ok = true <-> passed opts name_stack (step :: steps) es))).
  { intros st E. specialize (IH st s1 (md_prepared _ _ _ M1 Hp)). destruct (steps_loop steps st s1) as [[st' ab] s2].
    destruct IH as (es2 & M2 & F2 & R2). exists (es1 ++ es2). split; [by eapply made_trans|].
    split; [intros; by apply follows_app|]. rewrite passed_cons by auto.
    destruct R2 as [[-> N]|(-> & -> & P)]; [left; tauto|right]. rewrite G1. tauto. }
  destruct ok.
  - destruct (proj1 G1 eq_refl) as [E _]. specialize (Hgo status E). destruct (steps_loop steps status s1) as [[st' ab] s2].
    destruct Hgo as (es & M & F & [R|(-> & -> & R)]); exists es; [by auto|]. split; [done|]. split; [done|]. right. tauto.
  - destruct (fn_nio_exchange_step_failure_aborts step); [destruct Hstop as (es & ? & ? & ?); [done|]; exists es; by auto|].
    destruct (step =? FN_NIO_EXCHANGE_STEP_WARMUP); [destruct Hstop as (es & ? & ? & ?); [done|]; exists es; by auto|].
    specialize (Hgo RETURN_FAIL A1). destruct (steps_loop steps RETURN_FAIL s1) as [[st' ab] s2].
    destruct Hgo as (es & M & F & [R|(-> & -> & R)]); exists es; [by auto|]. split; [done|]. split; [done|].
    left. split; [done|]. rewrite <- R. done.
Qed.

(** A trial that aborts the run was still at its settings. *)
Lemma settled steps status s : Forall (fun x => ~ aborts_trials x) steps -> (steps_loop steps status s).1.2 = false.
Proof.
  intros Hs. revert status s. induction Hs as [|step steps Ha Hs IH]; intros status s; [done|].
  cbn [ExchangeMatrix.steps_loop]. destruct (run_step step s) as [[] s1]; [apply IH|].
  unfold aborts_trials in Ha. destruct (fn_nio_exchange_step_failure_aborts step); [done|].
  destruct (step =? FN_NIO_EXCHANGE_STEP_WARMUP); [done|apply IH].
Qed.
Lemma abort_in_settings a b status s : Forall known a ->
  Forall aborts_trials a -> Forall (fun x => ~ aborts_trials x) b -> prepared s ->
  let '(_, abort, s') := steps_loop (a ++ b) status s in
  abort = true -> exists es, made s s' es /\ Forall control es.
Proof.
  intros Hk Ha Hb. revert status s. induction Ha as [|step a Hx Ha IH]; intros status s Hp.
  { pose proof (settled b status s Hb) as H. cbn [app]. destruct (steps_loop b status s) as [[st ab] s']. cbn in H. by subst. }
  apply Forall_cons in Hk as [Hk1 Hk]. specialize (IH Hk).
  cbn [app ExchangeMatrix.steps_loop]. pose proof (step_sends step s Hk1 Hp) as Hs. destruct (run_step step s) as [ok s1].
  destruct Hs as (es1 & M1 & _ & A1 & _). unfold aborts_trials in Hx. rewrite Hx in A1 |- *.
  destruct ok; [|by exists es1]. specialize (IH status s1 (md_prepared _ _ _ M1 Hp)).
  destruct (steps_loop (a ++ b) status s1) as [[st ab] s2].
  intros (es2 & M2 & A2)%IH. exists (es1 ++ es2). split; [by eapply made_trans|by apply Forall_app].
Qed.

(** ** The trials of a run *)

Abbreviation trials_loop := (trials_loop (logged DoIO) (beside timer) ready size elapsed_stack line_stack payload_stack
  name_stack opts clock_req clock_len request_len).

Lemma trials_loop_spec n a b : Forall known (a ++ b) ->
  Forall aborts_trials a -> Forall (fun x => ~ aborts_trials x) b -> forall status s, prepared s ->
  let '(status', s') := trials_loop n (a ++ b) status s in
  exists trials, made s s' (concat trials) /\ (length trials <= n)%nat /\
    Forall (follows None (flat_map (step_requests opts) (a ++ b))) trials /\
    ((length trials < n)%nat -> exists es, last trials = Some es /\ Forall control es) /\
    (status' = RETURN_FAIL /\ ~ (length trials = n /\ Forall (passed opts name_stack (a ++ b)) trials) \/
     status' = status /\ length trials = n /\ Forall (passed opts name_stack (a ++ b)) trials).
Proof.
  intros Hk Ha Hb. pose proof (proj1 (proj1 (Forall_app _ _ _) Hk)) as Hka.
  induction n as [|n IH]; intros status s Hp.
  { exists []. split; [by apply made_none|]. split_and!; try done; [cbn; lia|by right]. }
  cbn [ExchangeMatrix.trials_loop]. pose proof (steps_loop_spec (a ++ b) Hk status s Hp) as Hs.
  pose proof (abort_in_settings a b status s Hka Ha Hb Hp) as Hab.
  destruct (steps_loop (a ++ b) status s) as [[st ab] s1]. destruct Hs as (es & M & F & R). destruct ab.
  - exists [es]. cbn [concat]. rewrite app_nil_r. split; [done|]. split; [cbn; lia|].
    split; [by apply Forall_singleton|]. split.
    + intros _. exists es. split; [done|]. destruct (Hab eq_refl) as (es' & M' & A'). by rewrite (made_unique _ _ _ _ M M').
    + left. rewrite Forall_singleton. destruct R as [[-> N]|(_ & ? & _)]; [tauto|done].
  - specialize (IH st s1 (md_prepared _ _ _ M Hp)). destruct (trials_loop n (a ++ b) st s1) as [st' s2].
    destruct IH as (trials & M2 & L2 & F2 & A2 & R2). exists (es :: trials). cbn [concat].
    split; [by eapply made_trans|]. split; [cbn; lia|]. split; [by apply Forall_cons|]. split.
    + cbn [length]. intros Hl. destruct A2 as (es' & He & ?); [lia|]. exists es'. split; [|done].
      destruct trials; [done|exact He].
    + rewrite Forall_cons. cbn [length]. destruct R2 as [[-> N]|(-> & E & P)].
      * left. split; [done|]. intros ([= E] & _ & P). by apply N.
      * destruct R as [[-> N]|(-> & _ & P1)]; [left; tauto|right]. by rewrite E.
Qed.
End Trials.

(** ** A run of the tool *)

Section Run.
Context `{L : FnLib, !FnLibOk L} {W : Type}.
Variable DoIO : FujiNetNIORequest -> W -> W * FujiNetNIORequest.
Variable timer : W -> W * option (Z * Z).
Variable OpenDevice : W -> W * bool.
Variable ready : bool.
Variable size : Z.
Variables elapsed_stack line_stack payload_stack name_stack clock_stack : list Z.
Variable opts : fn_nio_exchange_opts.
Hypothesis Hopts : opts_valid opts.
Hypothesis Htype : disk_type opts = false.
Hypothesis Hstack : length clock_stack = 6%nat /\ length payload_stack = 35%nat.
Hypothesis Hbuffer : forall r w, length <$> fn_response_data (DoIO r w).2 = length <$> fn_response_data r.
Hypothesis Hends : forall name, o_serial_device opts = Some name -> (length (c_string name) < length name)%nat.

Lemma plan_settled : exists a b, plan_of opts = a ++ b /\ Forall aborts_trials a /\
  Forall (fun x => ~ aborts_trials x) b /\ Forall known (a ++ b).
Proof.
  unfold plan_of. rewrite Htype. cbn [andb].
  assert (forall x, x = FN_NIO_EXCHANGE_STEP_WARMUP \/ x = FN_NIO_EXCHANGE_STEP_MEASURE -> ~ aborts_trials x) as Hn
    by (by intros ? [->| ->]).
  assert (forall xs, bool_decide (Forall known xs) = true -> Forall known xs) as Hk by (by intros xs ?%bool_decide_eq_true).
  destruct (o_installed_backend opts =? _);
    [by exists [], [FN_NIO_EXCHANGE_STEP_WARMUP; FN_NIO_EXCHANGE_STEP_MEASURE]; split_and!; [done|done|repeat constructor; auto|apply Hk]|].
  set (a := if is_none (o_serial_device opts) then _ else _).
  assert (Forall aborts_trials a /\ Forall known a) as [Ha Hka]
    by (unfold a; destruct (is_none _); [done|]; destruct (_ =? _); split; (by apply Forall_singleton) || by apply Hk).
  clearbody a. destruct (o_backend opts =? FN_NIO_EXCHANGE_BACKEND_COLD).
  - exists (a ++ [FN_NIO_EXCHANGE_STEP_SET_BAUD]), [FN_NIO_EXCHANGE_STEP_MEASURE].
    rewrite <- app_assoc. split; [done|]. split; [apply Forall_app; split; [done|by apply Forall_singleton]|].
    split; [apply Forall_singleton, Hn; by right|]. apply Forall_app. by split; [|apply Hk].
  - exists (a ++ (if o_baud opts =? 0 then [] else [FN_NIO_EXCHANGE_STEP_GET_BAUD])),
      [FN_NIO_EXCHANGE_STEP_WARMUP; FN_NIO_EXCHANGE_STEP_MEASURE].
    rewrite <- !app_assoc. split; [done|].
    split; [apply Forall_app; split; [done|]; destruct (_ =? 0); [done|by apply Forall_singleton]|].
    split; [repeat constructor; apply Hn; auto|]. apply Forall_app. split; [done|]. destruct (_ =? 0); by apply Hk.
Qed.

Lemma emit_carried buf cap p len b : cap <= Z.of_nat (length buf) -> emit buf cap p = (len, b) -> 0 <= len ->
  len = Z.of_nat (length p) /\ len <= cap /\ take (Z.to_nat len) b = p.
Proof.
  intros Hc. unfold emit. destruct (Z.ltb_spec cap (Z.of_nat (length p))); intros [= <- <-]; [lia|]. intros _.
  split; [done|]. split; [done|]. rewrite Nat2Z.id. unfold overwrite. rewrite take_0, app_nil_l, take_app_le by lia.
  by apply take_ge.
Qed.

Lemma build_request_emits (s : matrix (W * list traffic)) :
  length (x_request s) = 1024%nat -> build_request opts s = emit (x_request s) MATRIX_PACKET_CAP (trial_packet opts).
Proof.
  intros Hl. unfold build_request, trial_packet, clock_packet.
  assert (MATRIX_PACKET_CAP <= Z.of_nat (length (x_request s))) as Hc by by rewrite Hl.
  destruct (o_type opts =? FN_NIO_EXCHANGE_TYPE_CLOCK); [by apply clock_emits|].
  destruct (o_type opts =? FN_NIO_EXCHANGE_TYPE_HOST_GET); [by apply host_emits|].
  apply file_list_emits; [done|done|]. destruct Hopts as [[] _]. destruct (o_has_list_flags opts); [|lia].
  unfold ranged, is_u8 in *. lia.
Qed.

(** The settings that only a cold run changes. *)
Definition changes : list Z := [FUJINET_NIO_CMD_SET_BAUD; FUJINET_NIO_CMD_SET_SERIAL].
Lemma warm_schedule : o_backend opts <> FN_NIO_EXCHANGE_BACKEND_COLD ->
  Forall (fun f => forall e, (f e).1 ∉ changes) (schedule opts).
Proof.
  intros Hb%Z.eqb_neq. unfold schedule, plan_of. rewrite Htype, Hb. cbn [andb].
  destruct (o_installed_backend opts =? _), (is_none (o_serial_device opts)), (o_baud opts =? 0);
    cbn; repeat (apply Forall_cons; split; [intros _; apply (bool_decide_unpack _); exact I|]); apply Forall_nil_2.
Qed.

(** What a run that sent [log] reports: the trials it is made of. *)
Definition run_reports (status : Z) (log : list traffic) : Prop :=
  exists trials, log = concat trials /\ Z.of_nat (length trials) <= o_trials opts /\
    Forall (follows None (schedule opts)) trials /\
    (o_backend opts <> FN_NIO_EXCHANGE_BACKEND_COLD -> Forall (fun e => io_Command e.1 ∉ changes) log) /\
    (Z.of_nat (length trials) < o_trials opts ->
       trials = [] \/ exists es, last trials = Some es /\ Forall control es) /\
    (status = RETURN_OK \/ status = RETURN_FAIL) /\
    (status = RETURN_OK <->
       Z.of_nat (length trials) = o_trials opts /\ Forall (trial_passed opts name_stack) trials).

Lemma nothing_reported : run_reports RETURN_FAIL [].
Proof.
  exists []. destruct Hopts as [[] _]. split_and!; try done; [cbn; lia|by left|by right|]. split; [done|].
  cbn. intros [? _]. lia.
Qed.

Lemma trials_report clock_req clock_len request_len (s : matrix (W * list traffic)) :
  0 <= clock_len <= 65535 -> take (Z.to_nat clock_len) clock_req = clock_packet ->
  0 <= request_len <= 65535 -> prepared opts request_len s -> (x_world s).2 = [] ->
  let '(status, s') := trials_loop (logged DoIO) (beside timer) ready size elapsed_stack line_stack payload_stack
    name_stack opts clock_req clock_len request_len (Z.to_nat (o_trials opts)) (plan_of opts) RETURN_OK s in
  run_reports status (x_world s').2.
Proof.
  intros Hcl Hct Hrl Hp Hlog. destruct plan_settled as (a & b & Eab & Ha & Hb & Hk). pose proof (proj1 Hopts) as [].
  assert (u16 clock_len = clock_len /\ u16 request_len = request_len) as [C16 H16] by (split; apply u16_id; unfold is_u16; lia).
  assert (forall name, o_serial_device opts = Some name ->
    fujinet_nio_serial_name_ok (Some name) = true /\ (length (c_string name) < length name)%nat) as Hname by auto.
  pose proof (trials_loop_spec DoIO timer ready size elapsed_stack line_stack payload_stack name_stack opts Hbuffer Hname
    (proj2 Hstack) clock_req clock_len request_len (conj C16 Hct) H16 (Z.to_nat (o_trials opts)) a b Hk Ha Hb RETURN_OK s Hp) as H.
  rewrite <- Eab in H. destruct (trials_loop _ _ _ _ _ _ _ _ _ _ _ _ _ _ _ _) as [status s'].
  destruct H as (trials & [M _] & L1 & F & A & R). rewrite Hlog in M. cbn [app] in M. exists trials.
  split; [done|]. split; [lia|]. split; [exact F|]. split; [|split; [|split]].
  - intros W1%warm_schedule. rewrite M. apply Forall_concat. eapply Forall_impl; [exact F|].
    intros es Hes. by eapply follows_without.
  - intros Hlt. right. apply A. lia.
  - destruct R as [[-> _]|(-> & _)]; auto.
  - destruct R as [[-> N]|(-> & En & P)]; (split; [|done || intros [E P]]); [done| |].
    + exfalso. apply N. split; [lia|done].
    + intros _. split; [lia|done].
Qed.

(** C34: What the trials of fujinet-nio-exchange send, for the packet types that
    are not disk trials.  A run makes at most as many trials as it was asked
    for.  In each, the requests are the schedule of the options or its
    beginning, byte for byte: SET_SERIAL carries the unit and the name of the
    serial device, SET_BAUD the rate of the options or else the rate that
    GET_BAUD has just told, the warm-up the clock packet and the measured
    exchange the packet of the trial's type; a warm run never sets the rate or
    the device.  Only a failure in the settings, before anything was
    exchanged, ends the run early.  The run reports success if and only if
    every trial was made, all of its requests were accepted, what GET_BAUD and
    GET_SERIAL told is what the options say, the warm-up was answered by the
    clock and the answer to every measured exchange belongs to its request. *)
Theorem matrix_trials (s : matrix (W * list traffic)) :
  length (x_request s) = 1024%nat -> length (x_baud s) = 4%nat -> (x_world s).2 = [] ->
  let '(status, s') := run_matrix (logged DoIO) (beside timer) ready size elapsed_stack line_stack payload_stack
                         name_stack clock_stack opts (beside OpenDevice) s in
  run_reports status (x_world s').2.
Proof.
  intros Hreq Hbaud Hlog. unfold run_matrix. set (s0 := set_x_golden_len 0 s). destruct Hstack as [Hclock _].
  assert (Hfail : forall s' : matrix (W * list traffic), (x_world s').2 = [] -> run_reports RETURN_FAIL (x_world s').2)
    by (intros s' ->; apply nothing_reported).
  rewrite plan_eq by (try done; cbn; lia). pose proof (plan_of_length opts) as Hpl. rewrite planned_fits by lia.
  set (clock := fn_nio_exchange_build_clock_get _ _).
  assert (clock = emit clock_stack 6 clock_packet) as Eclk.
  { unfold clock. rewrite fn_header_size. apply clock_emits. by rewrite Hclock. }
  destruct clock as [clock_len clock_req]. symmetry in Eclk.
  destruct (Z.ltb_spec clock_len 0) as [|Hclk]; [by apply Hfail|].
  apply emit_carried in Eclk as (Kl & Kc & Kt); [|by rewrite Hclock|done].
  destruct (build_request opts s0) as [request_len request] eqn:Eb. rewrite build_request_emits in Eb by done.
  destruct (Z.ltb_spec request_len 0) as [|Hrq]; [by apply Hfail|].
  apply emit_carried in Eb as (Rl & Rc & Rt); [|change (x_request s0) with (x_request s); by rewrite Hreq|done]. unfold MATRIX_PACKET_CAP in Rc.
  unfold beside at 1. destruct (OpenDevice _) as [w opened].
  destruct opened; cbn [negb]; [|by apply Hfail].
  rewrite Nat2Z.id. rewrite overwrite_start, take_app_le, take_ge by lia.
  apply trials_report; done || lia.
Qed.
End Run.

(** ** The time of a trial *)

Lemma s32_id x : -2147483648 <= x < 2147483648 -> s32 x = x.
Proof.
  intros H. unfold s32. destruct (Z.geb_spec (u32 x) 2147483648); unfold u32 in *.
  - destruct (Z.leb_spec 0 x); [rewrite Z.mod_small in * by lia; lia|].
    replace (x mod 4294967296) with (x + 4294967296) in * by (apply (Z.mod_unique x 4294967296 (-1)); lia). lia.
  - destruct (Z.leb_spec 0 x); [by rewrite Z.mod_small by lia|].
    replace (x mod 4294967296) with (x + 4294967296) in * by (apply (Z.mod_unique x 4294967296 (-1)); lia). lia.
Qed.

(** The microseconds between two times of day. *)
Definition between (start stop : Z * Z) : Z := (stop.1 - start.1) * 1000000 + (stop.2 - start.2).
Definition time_of_day (t : Z * Z) : Prop := 0 <= t.1 < 2147483648 /\ 0 <= t.2 < 1000000.

Lemma elapsed_us_between start stop : time_of_day start -> time_of_day stop ->
  elapsed_us start stop =
  if between start stop <? 0 then None
  else Some (if between start stop >=? 4295000000 then 4294967295 else u32 (between start stop)).
Proof.
  destruct start as [s1 m1], stop as [s2 m2]. intros [H1 H2] [H3 H4]. unfold elapsed_us, between. cbn [fst snd] in *.
  rewrite !(s32_id s1), !(s32_id s2), !(s32_id m1), !(s32_id m2), (s32_id (s2 - s1)), (s32_id (m2 - m1)) by lia.
  assert (Hpair : exists sec micro, (if m2 - m1 <? 0 then (s32 (s2 - s1 - 1), s32 (m2 - m1 + 1000000)) else (s2 - s1, m2 - m1))
    = (sec, micro) /\ 0 <= micro < 1000000 /\ (s2 - s1) * 1000000 + (m2 - m1) = sec * 1000000 + micro).
  { destruct (Z.ltb_spec (m2 - m1) 0); [rewrite !s32_id by lia|]; do 2 eexists; (split; [reflexivity|lia]). }
  destruct Hpair as (sec & micro & -> & Hm & ->).
  destruct (Z.ltb_spec sec 0), (Z.ltb_spec (sec * 1000000 + micro) 0); try lia; [done|]. f_equal.
  destruct (Z.gtb_spec sec 4294), (Z.geb_spec (sec * 1000000 + micro) 4295000000); try lia.
  unfold u32. rewrite Z.mul_mod_idemp_l, Z.add_mod_idemp_l, Z.add_mod_idemp_r by done. done.
Qed.

(** The text of a trial's line, from the times before and after. *)
Definition shown (elapsed_stack : list Z) (times : option ((Z * Z) * (Z * Z))) : list Z :=
  c_string (format_measured elapsed_stack times).

Lemma shown_number b us : is_u32 us -> (32 <= length b)%nat ->
  exists b', fn_nio_exchange_format_elapsed true us (Some b) 32 = (0, Some b') /\ c_string b' = decimal us.
Proof.
  intros Hu Hl. unfold fn_nio_exchange_format_elapsed. change (32 <? 2) with false. cbn [negb].
  unfold snprintf. change (32 =? 0) with false. pose proof (length_decimal us) as Hd.
  destruct (Z.geb_spec (Z.of_nat (length (decimal us))) 32); [lia|]. eexists. split; [done|].
  rewrite overwrite_start, take_ge by lia. rewrite <- app_assoc. apply c_string_app.
  eapply Forall_impl; [apply decimal_digits_all; unfold is_u32 in Hu; lia|]. cbn. lia.
Qed.

(** C38: The time a trial's line shows.  With both times of day read, the line
    shows the microseconds between them; a dash when the clock went back, and
    the largest number of 32 bits from 4295 seconds on.  Between 4294.967296
    and 4295 seconds the number has wrapped around and shows at most 33
    milliseconds: the test that is to prevent this is on whole seconds. *)
Theorem measured_time elapsed_stack start stop :
  (32 <= length elapsed_stack)%nat -> time_of_day start -> time_of_day stop ->
  let us := between start stop in
  let text := shown elapsed_stack (Some (start, stop)) in
  (us < 0 -> text = [45]) /\
  (0 <= us < 4294967296 -> text = decimal us) /\
  (4294967296 <= us < 4295000000 -> text = decimal (us - 4294967296)) /\
  (4295000000 <= us -> text = decimal 4294967295).
Proof.
  intros Hl H1 H2. cbv zeta. unfold shown, format_measured. rewrite (elapsed_us_between start stop H1 H2).
  set (us := between start stop). destruct (Z.ltb_spec us 0).
  { split; [|lia]. intros _. destruct elapsed_stack as [|? [|? b]]; [cbn in Hl; lia..|done]. }
  set (v := if us >=? 4295000000 then 4294967295 else u32 us).
  assert (is_u32 v) as Hv by (unfold v; destruct (us >=? _); [unfold is_u32; lia|apply u32_range]).
  destruct (shown_number elapsed_stack v Hv Hl) as (b & -> & Eb). change (negb (0 =? 0)) with false. cbn [default].
  change (id b) with b. rewrite Eb. unfold v. split; [lia|].
  destruct (Z.geb_spec us 4295000000); (split; [intros; try lia|split; [intros; try lia|intros; try lia]]).
  - done.
  - by rewrite u32_id by (unfold is_u32; lia).
  - f_equal. unfold u32. symmetry. apply (Z.mod_unique us 4294967296 1); lia.
Qed.

Lemma measured_time_witness :
  shown (zeros 32) (Some ((100, 999999), (102, 1))) = decimal 1000002 /\
  shown (zeros 32) (Some ((0, 0), (4294, 967300))) = decimal 4.
Proof.
  pose proof (fun start stop => measured_time (zeros 32) start stop (le_n 32)) as H. unfold time_of_day in H. split.
  - apply (H (100, 999999) (102, 1)); vm_compute; repeat split; discriminate.
  - apply (H (0, 0) (4294, 967300)); vm_compute; repeat split; discriminate.
Defined.

(** ** A run *)

(** A warm serial backend at 19200 baud on serial.device, whose peer sends
    every packet back. *)
Definition loopback (r : FujiNetNIORequest) (n : Z) : Z * FujiNetNIORequest :=
  let reply bytes := (n + 1, r |> set_fn_response_data (option_map (fun b => overwrite b 0 (take (length b) bytes)) (fn_response_data r))
                               |> set_fn_response_length (Z.of_nat (length bytes))) in
  if io_Command r =? FUJINET_NIO_CMD_GET_BAUD then reply [0; 75; 0; 0]
  else if io_Command r =? FUJINET_NIO_CMD_GET_SERIAL then reply ([0; 0; 0; 0] ++ bytes_of_string "serial.device" ++ [0])
  else if io_Command r =? FUJINET_NIO_CMD_EXCHANGE
  then reply (take (Z.to_nat (fn_request_length r)) (default [] (fn_request_data r)))
  else (n, set_io_Error 1 r).
Definition ticking (n : Z) : Z * option (Z * Z) := (n, Some (n, 5)).
Definition matrix_start : matrix (Z * list traffic) :=
  mkMatrix (0, []) req_zero (zeros 4) (zeros 1024) (zeros 1024) (zeros 1024) 0 [].
Lemma loopback_buffer r n : length <$> fn_response_data (loopback r n).2 = length <$> fn_response_data r.
Proof.
  assert (forall bytes, length <$> option_map (fun b => overwrite b 0 (take (length b) bytes)) (fn_response_data r) =
    length <$> fn_response_data r) as H.
  { intros bytes. destruct (fn_response_data r) as [b|]; [|done]. cbn. f_equal. apply length_overwrite.
    rewrite length_take. lia. }
  unfold loopback. repeat case_match; done || apply H.
Qed.
(** A warm run over the serial line, with its strings as they are in memory. *)
Definition demo_line : fn_nio_exchange_opts := set_serial_device (Some (bytes_of_string "serial.device" ++ [0])) demo_warm.
Lemma demo_line_valid : opts_valid demo_line.
Proof. apply (parsed_valid (bytes_of_string "x" :: render demo_line)). vm_compute. reflexivity. Qed.
Abbreviation demo_run := (run_matrix (L := fn_lib_nio) (logged loopback) (beside ticking) true 64 (zeros 32) (zeros 192)
  (zeros 35) (zeros 31) (zeros 6) demo_line (beside (fun n => (n, true))) matrix_start).

Lemma matrix_trials_witness :
  demo_run.1 = RETURN_OK /\ length (x_world demo_run.2).2 = 40%nat /\
  run_reports (L := fn_lib_nio) (zeros 31) demo_line demo_run.1 (x_world demo_run.2).2.
Proof.
  assert (demo_run.1 = RETURN_OK /\ length (x_world demo_run.2).2 = 40%nat) as [H1 H2] by (vm_compute; done).
  split; [exact H1|]. split; [exact H2|]. clear H1 H2.
  pose proof (matrix_trials (L := fn_lib_nio) loopback ticking (fun n => (n, true)) true 64 (zeros 32) (zeros 192)
    (zeros 35) (zeros 31) (zeros 6) demo_line demo_line_valid eq_refl (conj eq_refl eq_refl) loopback_buffer
    (fun name E => ltac:(injection E as <-; vm_compute; lia)) matrix_start eq_refl eq_refl eq_refl) as H.
  destruct (run_matrix _ _ _ _ _ _ _ _ _ _ _ _) as [status s']. exact H.
Defined.
