(* ===== verification/Mount.v ===== *)
(** * fujinet-mount (amiga/tools/fujinet-mount.c)

    The command line of the mount tool and the requests it makes of
    fujinet-disk.device, which is a parameter.  It is the build for
    Workbench 1.3, which refuses [--boundary]; the other build runs a self
    test of the device there.  The port and the request can always be created.  [None] is a call of [strlen] on NULL.  Console
    output is left out. *)

From S2P Require Import PaulaUart Prelude ExecIO CString CLib FnLib SerialConfig DiskMedia DiskDriver DiskDevice.
From S2P Require Import ExchangeAdapter.
#[local] Open Scope Z_scope.

Definition MAX_DRIVES : Z := 8.

(** [argv[k]]: the memory there, and whether it is a given text. *)
Definition arg (argv : list (list Z)) (k : nat) : list Z := nth k argv [].

Definition parse_drive (text : list Z) : option Z :=
  let '(value, stop, _) := strtoul text 0 in
  if (text.[0] =? 0) || negb (stop.[0] =? 0) || (value >=? MAX_DRIVES) then None else Some value.

(** What RW and RO ask for. *)
Definition parse_access (text : list Z) : option bool :=
  if str_is text "RW" || str_is text "rw" then Some true
  else if str_is text "RO" || str_is text "ro" then Some false
  else None.

(** The variables of [main] that the command line sets. *)
Record mount_args := mkArgs {
  requested_writable : bool;
  catalog_mount : bool;
  geometry_only : bool;
  update : bool;
  status : bool;
  catalog_slot : Z;
  drive : Z;
  mount_uri : option (list Z)
}.
Definition no_args : mount_args := mkArgs false false false false false 0 0 None.
Definition on_drive (d : Z) (a : mount_args) : mount_args :=
  mkArgs (requested_writable a) (catalog_mount a) (geometry_only a) (update a) (status a) (catalog_slot a) d (mount_uri a).

(** The command line; [None] is the return of 10. *)
Definition parse_args (argv : list (list Z)) : option mount_args :=
  let argc := Z.of_nat (length argv) in
  let first := arg argv 1 in
  let named := str_is first in
  let access k := if argc =? k + 1 then parse_access (arg argv (Z.to_nat k)) else Some false in
  let optional_drive := if argc =? 3 then parse_drive (arg argv 2) else Some 0 in
  if (argc <? 2) || (argc >? 5) || (first.[0] =? 0) then None
  else if (first.[0] >=? 48) && (first.[0] <=? 57) && ((argc =? 3) || (argc =? 4)) then
    let '(slot, stop, _) := strtoul first 0 in
    if negb (stop.[0] =? 0) || (slot >? 255) then None
    else
    d ← parse_drive (arg argv 2);
    wr ← access 3;
    Some (mkArgs wr true false false false slot d None)
  else if named "--uri"%string && ((argc =? 4) || (argc =? 5)) then
    d ← parse_drive (arg argv 2);
    wr ← access 4;
    Some (mkArgs wr false false false false 0 d (Some (arg argv 3)))
  else if named "--writable"%string && (argc =? 3)
  then Some (mkArgs true false false false false 0 0 (Some (arg argv 2)))
  else if negb (first.[0] =? 45) && (argc =? 2)
  then Some (mkArgs false false false false false 0 0 (Some first))
  else if named "--eject"%string && ((argc =? 2) || (argc =? 3))
  then d ← optional_drive; Some (on_drive d no_args)
  else if named "--update"%string && (argc =? 3)
  then d ← parse_drive (arg argv 2); Some (mkArgs false false false true false 0 d None)
  else if named "--status"%string && (argc =? 3)
  then d ← parse_drive (arg argv 2); Some (mkArgs false false false false true 0 d None)
  else if named "--geometry"%string && (argc =? 3)
  then d ← parse_drive (arg argv 2); Some (mkArgs false false true false false 0 d None)
  else if (named "--boundary"%string || named "--malformed"%string) && ((argc =? 2) || (argc =? 3))
  then d ← optional_drive; Some (on_drive d no_args)
  else Some no_args.

Section Main.
Context {W : Type}.
Variable sizes : abi.
(** OpenDevice on a unit, and DoIO. *)
Variable OpenDevice : Z -> W -> W * bool.
Variable DoIO : IOStdReq -> W -> W * IOStdReq.
(** Where the tool's objects are, none at 0; the request CreateExtIO made;
    and whether the file [--read] is to write to can be opened. *)
Variables trace_address uri_address data_address geometry_address catalog_address : Z.
Variable fresh_request : IOStdReq.
Variable fopen : list Z -> bool.

Definition exit_code (result : Z) : Z := if result =? 0 then 0 else 20.

Definition asking (command data length : Z) (view : client_memory -> client_memory) (q : IOStdReq) : IOStdReq :=
  q |> set_disk_Command command |> set_disk_Data data |> set_disk_Length length |> set_memory (view (memory q)).
(** [ln_Type], [io_Flags], [io_Error] and [io_Actual] before a request. *)
Definition renewed (q : IOStdReq) : IOStdReq :=
  q |> DiskDevice.set_ln_Type NT_MESSAGE |> DiskDevice.set_io_Flags 0 |> DiskDevice.set_io_Error 0
    |> DiskDevice.set_io_Actual 0.

Definition do_trace (clear : bool) (q : IOStdReq) (w : W) : W * Z :=
  let q := if clear then asking FUJINET_DISK_CMD_TRACE_CLEAR 0 0 id q
           else asking FUJINET_DISK_CMD_TRACE trace_address (sizeof_trace sizes) (set_m_trace no_trace) q in
  let '(w, q) := DoIO q w in (w, exit_code (DiskDevice.io_Error q)).

Definition malformed_uri : list Z := bytes_of_string "host:/standard.adf" ++ [0].
Definition do_malformed (q : IOStdReq) (w : W) : W * Z :=
  let q := asking FUJINET_DISK_CMD_MOUNT uri_address 18 (set_m_bytes malformed_uri) (renewed q) in
  let '(w, q) := DoIO q w in (w, if DiskDevice.io_Error q =? IOERR_BADLENGTH then 0 else 20).

(** [file] is [argv[3]] when there is one. *)
Definition do_read (lba : list Z) (file : option (list Z)) (q : IOStdReq) (w : W) : W * Z :=
  let q := asking CMD_READ data_address 512 (set_m_bytes (zeros 512)) q in
  let q := set_disk_Offset (u32 ((strtoul lba 0).1.1 * 512)) q in
  match file with
  | Some name =>
      if fopen name then let '(w, q) := DoIO q w in (w, exit_code (DiskDevice.io_Error q)) else (w, exit_code 1)
  | None => let '(w, q) := DoIO q w in (w, exit_code (DiskDevice.io_Error q))
  end.

Definition do_status (q : IOStdReq) (w : W) : W * Z :=
  let ask command '(w, q, result) :=
    let q := set_disk_Command command (renewed q) in
    if result =? 0 then let '(w, q) := DoIO q w in (w, q, DiskDevice.io_Error q) else (w, q, result) in
  let '(w, _, result) := (w, q, 0) |> ask TD_CHANGENUM |> ask TD_CHANGESTATE |> ask TD_PROTSTATUS in
  (w, exit_code result).

Definition get_geometry (q : IOStdReq) : IOStdReq :=
  asking TD_GETGEOMETRY geometry_address (sizeof_geometry sizes) (set_m_geometry geometry_zero) q.
Definition do_geometry (q : IOStdReq) (w : W) : W * Z :=
  let '(w, q) := DoIO (get_geometry (renewed q)) w in (w, exit_code (DiskDevice.io_Error q)).

(** The request of the other commands. *)
Definition change_request (a : mount_args) (eject : bool) (q : IOStdReq) : option IOStdReq :=
  if update a then Some (asking CMD_UPDATE 0 0 id q)
  else if eject then Some (asking TD_EJECT 0 0 id q)
  else if catalog_mount a then
    Some (asking FUJINET_DISK_CMD_MOUNT_CATALOG catalog_address (sizeof_catalog_mount sizes)
            (fun m => mkMemory (m_bytes m) (u8 (catalog_slot a)) (if requested_writable a then 1 else 0) (m_inspection m)
                        (m_trace m) (m_geometry m) (m_query m)) q)
  else
  uri ← mount_uri a;
  Some (asking (if requested_writable a then FUJINET_DISK_CMD_MOUNT_WRITABLE else FUJINET_DISK_CMD_MOUNT)
          uri_address (u32 (strlen uri + 1)) (set_m_bytes uri) q).

(** DoIO, and the geometry of what is then in the drive. *)
Definition do_change (q : IOStdReq) (w : W) : W * Z :=
  let '(w, q) := DoIO q w in
  if (DiskDevice.io_Error q =? 0) && negb (DiskDevice.io_Command q =? TD_EJECT)
  then let '(w, q) := DoIO (get_geometry q) w in (w, exit_code (DiskDevice.io_Error q))
  else (w, exit_code (DiskDevice.io_Error q)).

Definition main (argv : list (list Z)) (w : W) : option (W * Z) :=
  let argc := Z.of_nat (length argv) in
  let named := str_is (arg argv 1) in
  match parse_args argv with
  | None => Some (w, 10)
  | Some a =>
      let '(w, opened) := OpenDevice (drive a) w in
      if negb opened then Some (w, 20)
      else
      let q := DiskDevice.set_io_Unit (Some (drive a)) fresh_request in
      if named "--trace"%string || named "--trace-clear"%string then Some (do_trace (named "--trace-clear"%string) q w)
      else if named "--boundary"%string then Some (w, 10)
      else if named "--malformed"%string then Some (do_malformed q w)
      else if named "--read"%string && ((argc =? 3) || (argc =? 4))
      then Some (do_read (arg argv 2) (if argc =? 4 then Some (arg argv 3) else None) q w)
      else if status a then Some (do_status q w)
      else if geometry_only a then Some (do_geometry q w)
      else
      q ← change_request a (named "--eject"%string) q;
      Some (do_change q w)
  end.
End Main.
