(* ===== verification/MountProps.v ===== *)
(** * What fujinet-mount asks for

    [mount_command] are the forms of the usage text, [render_mount] their
    command lines.  Each makes the requests it stands for, and the tool
    succeeds exactly when they all do.  [missed] are the command lines that
    the usage text does not give and that the tool does not refuse. *)

From S2P Require Import PaulaUart Prelude ExecIO CString CLib FnLib SerialConfig DiskMedia DiskDriver DiskDevice.
From S2P Require Import ExchangeAdapter Mount.
#[local] Open Scope Z_scope.

Inductive mount_command :=
  | Catalog (slot drive : Z) (access : option bool)
  | Image (drive : Z) (uri : list Z) (access : option bool)
  | Plain (uri : list Z)
  | Writable (uri : list Z)
  | Eject (drive : option Z)
  | Update (drive : Z)
  | Status (drive : Z)
  | Geometry (drive : Z)
  | Trace (clear : bool)
  | Read (lba : Z) (result : option (list Z))
  | Boundary (drive : option Z)
  | Malformed (drive : option Z).

Definition is_drive (d : Z) : Prop := 0 <= d < 8.
Definition some_drive (d : option Z) : Prop := match d with Some d => is_drive d | None => True end.
Definition valid_command (c : mount_command) : Prop :=
  match c with
  | Catalog slot d _ => is_u8 slot /\ is_drive d
  | Image d _ _ | Update d | Status d | Geometry d => is_drive d
  | Plain uri => uri.[0] <> 0 /\ uri.[0] <> 45
  | Writable _ | Trace _ => True
  | Read lba _ => is_u32 lba
  | Eject d | Boundary d | Malformed d => some_drive d
  end.

Definition word (s : string) : list Z := bytes_of_string s.
Definition access_word (access : option bool) : list (list Z) :=
  match access with None => [] | Some true => [word "RW"] | Some false => [word "RO"] end.
Definition drive_word (d : option Z) : list (list Z) := match d with None => [] | Some d => [decimal d] end.
Definition render_mount (c : mount_command) : list (list Z) :=
  match c with
  | Catalog slot d access => decimal slot :: decimal d :: access_word access
  | Image d uri access => word "--uri" :: decimal d :: uri :: access_word access
  | Plain uri => [uri]
  | Writable uri => [word "--writable"; uri]
  | Eject d => word "--eject" :: drive_word d
  | Update d => [word "--update"; decimal d]
  | Status d => [word "--status"; decimal d]
  | Geometry d => [word "--geometry"; decimal d]
  | Trace clear => [word (if clear then "--trace-clear" else "--trace")]
  | Read lba result => word "--read" :: decimal lba :: match result with Some file => [file] | None => [] end
  | Boundary d => word "--boundary" :: drive_word d
  | Malformed d => word "--malformed" :: drive_word d
  end.

(** The unit and the commands. *)
Definition unit_of (c : mount_command) : Z :=
  match c with
  | Catalog _ d _ | Image d _ _ | Update d | Status d | Geometry d => d
  | Plain _ | Writable _ | Trace _ | Read _ _ => 0
  | Eject d | Boundary d | Malformed d => default 0 d
  end.
Definition mount_requests (c : mount_command) : list Z :=
  match c with
  | Catalog _ _ _ => [FUJINET_DISK_CMD_MOUNT_CATALOG; TD_GETGEOMETRY]
  | Image _ _ access =>
      [if default false access then FUJINET_DISK_CMD_MOUNT_WRITABLE else FUJINET_DISK_CMD_MOUNT; TD_GETGEOMETRY]
  | Plain _ => [FUJINET_DISK_CMD_MOUNT; TD_GETGEOMETRY]
  | Writable _ => [FUJINET_DISK_CMD_MOUNT_WRITABLE; TD_GETGEOMETRY]
  | Eject _ => [TD_EJECT]
  | Update _ => [CMD_UPDATE; TD_GETGEOMETRY]
  | Status _ => [TD_CHANGENUM; TD_CHANGESTATE; TD_PROTSTATUS]
  | Geometry _ => [TD_GETGEOMETRY]
  | Trace clear => [if clear then FUJINET_DISK_CMD_TRACE_CLEAR else FUJINET_DISK_CMD_TRACE]
  | Read _ _ => [CMD_READ]
  | Boundary _ => []
  | Malformed _ => [FUJINET_DISK_CMD_MOUNT]
  end.

(** What the first request carries, beside its command. *)
Definition carries (c : mount_command) (q : IOStdReq) : Prop :=
  DiskDevice.io_Unit q = Some (unit_of c) /\
  match c with
  | Catalog slot _ access =>
      m_catalog_slot (memory q) = slot /\ m_writable (memory q) = (if default false access then 1 else 0)
  | Image _ uri _ | Plain uri | Writable uri =>
      m_bytes (memory q) = uri /\ DiskDevice.io_Length q = u32 (strlen uri + 1)
  | Read lba _ => DiskDevice.io_Length q = 512 /\ DiskDevice.io_Offset q = u32 (lba * 512)
  | Malformed _ => m_bytes (memory q) = malformed_uri /\ DiskDevice.io_Length q = strlen malformed_uri
  | _ => True
  end.

(** ** The command line is read back *)

Definition args_of (c : mount_command) : mount_args :=
  match c with
  | Catalog slot d access => mkArgs (default false access) true false false false slot d None
  | Image d uri access => mkArgs (default false access) false false false false 0 d (Some uri)
  | Plain uri => mkArgs false false false false false 0 0 (Some uri)
  | Writable uri => mkArgs true false false false false 0 0 (Some uri)
  | Eject d | Boundary d | Malformed d => on_drive (default 0 d) no_args
  | Update d => mkArgs false false false true false 0 d None
  | Status d => mkArgs false false false false true 0 d None
  | Geometry d => mkArgs false false true false false 0 d None
  | Trace _ | Read _ _ => no_args
  end.

(** Base 0 reads a decimal number up to 255 as one. *)
Lemma strtoul_byte v : is_u8 v -> strtoul (decimal v) 0 = (v, [], false).
Proof.
  intros Hv. assert (Forall (fun v => strtoul (decimal v) 0 = (v, [], false)) (seqZ 0 256)) as H
    by (apply (bool_decide_unpack _); vm_compute; exact I).
  apply (proj1 (Forall_forall _ _) H). apply elem_of_seqZ. unfold is_u8 in Hv. lia.
Qed.
(** So does it any decimal number: only 0 begins with a 0. *)
Lemma decimal_leads fuel v tail : 0 < v < 10 ^ Z.of_nat fuel ->
  exists c t, decimal_digits fuel v tail = c :: t /\ 49 <= c <= 57.
Proof.
  revert v tail. induction fuel as [|fuel IH]; intros v tail Hv; [cbn in Hv; lia|]. cbn [decimal_digits].
  rewrite Nat2Z.inj_succ, Z.pow_succ_r in Hv by lia. destruct (Z.ltb_spec v 10) as [H|H].
  - exists (48 + v mod 10), tail. split; [done|]. rewrite Z.mod_small by lia. lia.
  - apply IH. split; [apply Z.div_str_pos; lia|apply Z.div_lt_upper_bound; lia].
Qed.
Lemma strtoul_decimal_any v : is_u32 v -> strtoul (decimal v) 0 = (v, [], false).
Proof.
  intros Hv. destruct (decide (v = 0)) as [->|N]; [done|].
  destruct (decimal_leads 10 v []) as (c & t & Ec & Hc); [unfold is_u32 in Hv; split; [lia|]; change (10 ^ Z.of_nat 10) with 10000000000; lia|].
  change (decimal_digits 10 v []) with (decimal v) in Ec. pose proof (strtoul_decimal v Hv) as E. rewrite Ec in *.
  rewrite <- E. unfold strtoul, resolve_base. cbn [skip_space].
  replace (is_space c) with false by (unfold is_space; lia). change ((c :: t).[0]) with c.
  replace (c =? 45) with false by lia. replace (c =? 43) with false by lia. cbn [orb]. change ((c :: t).[0]) with c.
  by replace (c =? 48) with false by lia.
Qed.
Lemma decimal_first v : is_u8 v -> 48 <= (decimal v).[0] <= 57.
Proof. intros Hv. destruct (decimal_cons v) as (c & t & -> & Hc); [unfold is_u8 in Hv; lia|done]. Qed.
Lemma parse_drive_decimal d : is_drive d -> parse_drive (decimal d) = Some d.
Proof.
  intros Hd. unfold is_drive in Hd. assert (is_u8 d) as Hu by (unfold is_u8; lia).
  unfold parse_drive. rewrite strtoul_byte by done. pose proof (decimal_first d Hu).
  unfold MAX_DRIVES. replace ((decimal d).[0] =? 0) with false by lia. by replace (d >=? 8) with false by lia.
Qed.

Lemma parse_rendered_mount name c : valid_command c -> parse_args (name :: render_mount c) = Some (args_of c).
Proof.
  intros Hv. destruct c as [slot d access|d uri access|uri|uri|d|d|d|d|clear|lba file|d|d]; cbn [valid_command] in Hv.
  - destruct Hv as [Hs Hd]. pose proof (decimal_first slot Hs) as Hf. cbn [render_mount].
    unfold parse_args, arg. cbn [nth].
    replace ((decimal slot).[0] =? 0) with false by lia. rewrite strtoul_byte, parse_drive_decimal by done.
    replace ((decimal slot).[0] >=? 48) with true by lia. replace ((decimal slot).[0] <=? 57) with true by lia.
    replace (slot >? 255) with false by (unfold is_u8 in Hs; lia). by destruct access as [[]|].
  - unfold parse_args, arg. cbn [render_mount nth]. rewrite (parse_drive_decimal d Hv). by destruct access as [[]|].
  - destruct Hv as [H0 Hm]. unfold parse_args, arg. cbn [render_mount nth].
    change (Z.of_nat (length [name; uri])) with 2. apply Z.eqb_neq in H0, Hm. rewrite H0, Hm.
    change ((2 =? 3) || (2 =? 4)) with false. change ((2 =? 4) || (2 =? 5)) with false.
    by rewrite !andb_false_r.
  - done.
  - destruct d as [d|]; [|done]. unfold parse_args, arg. cbn [render_mount drive_word nth]. by rewrite (parse_drive_decimal d Hv).
  - unfold parse_args, arg. cbn [render_mount nth]. by rewrite (parse_drive_decimal d Hv).
  - unfold parse_args, arg. cbn [render_mount nth]. by rewrite (parse_drive_decimal d Hv).
  - unfold parse_args, arg. cbn [render_mount nth]. by rewrite (parse_drive_decimal d Hv).
  - by destruct clear.
  - by destruct file.
  - destruct d as [d|]; [|done]. unfold parse_args, arg. cbn [render_mount drive_word nth]. by rewrite (parse_drive_decimal d Hv).
  - destruct d as [d|]; [|done]. unfold parse_args, arg. cbn [render_mount drive_word nth]. by rewrite (parse_drive_decimal d Hv).
Qed.

Lemma not_option text s : text.[0] <> 45 -> (bytes_of_string s).[0] = 45 -> str_is text s = false.
Proof.
  intros Ht Hs. apply bool_decide_eq_false_2. intros E. rewrite <- E in Hs. destruct text as [|x t]; [done|].
  cbn in Hs, Ht. destruct (x =? 0); done.
Qed.

(** ** Command lines that are not refused *)

(** The options, with the lengths of the command lines that the tool knows
    what to do with, the program's name included. *)
Definition known_options : list (string * list Z) :=
  [("--uri", [4; 5]); ("--writable", [3]); ("--eject", [2; 3; 4; 5]); ("--update", [3]); ("--status", [3]);
   ("--geometry", [3]); ("--trace", [2; 3; 4; 5]); ("--trace-clear", [2; 3; 4; 5]); ("--boundary", [2; 3; 4; 5]);
   ("--malformed", [2; 3; 4; 5]); ("--read", [3; 4])]%string.
Definition fits (first : list Z) (argc : Z) : bool :=
  existsb (fun '(w, ns) => str_is first w && existsb (Z.eqb argc) ns) known_options.
(** An option that the tool does not know, or not with so many words; or words
    without an option that are neither a URI nor a slot and a drive. *)
Definition missed (argv : list (list Z)) : bool :=
  let argc := Z.of_nat (length argv) in
  let first := arg argv 1 in
  (2 <=? argc) && (argc <=? 5) && negb (first.[0] =? 0)
  && (if first.[0] =? 45 then negb (fits first argc)
      else negb (argc =? 2) && negb ((48 <=? first.[0]) && (first.[0] <=? 57) && (argc <=? 4))).

(** A run that reaches [strlen] without a URI. *)
Definition without_uri (argv : list (list Z)) (a : mount_args) : bool :=
  let argc := Z.of_nat (length argv) in
  let named := str_is (arg argv 1) in
  negb (named "--trace"%string || named "--trace-clear"%string) && negb (named "--boundary"%string)
  && negb (named "--malformed"%string) && negb (named "--read"%string && ((argc =? 3) || (argc =? 4)))
  && negb (status a) && negb (geometry_only a) && negb (update a) && negb (named "--eject"%string)
  && negb (catalog_mount a) && match mount_uri a with None => true | Some _ => false end.
Lemma first_known first : first.[0] = 45 ->
  (exists x, x ∈ (fst <$> known_options) /\ c_string first = bytes_of_string x) \/
  (forall x, x ∈ (fst <$> known_options) -> str_is first x = false).
Proof.
  intros _. destruct (decide (Exists (fun x => c_string first = bytes_of_string x) (fst <$> known_options))) as [H|H].
  - left. by apply Exists_exists in H.
  - right. intros x Hx. apply bool_decide_eq_false. intros E. apply H, Exists_exists. by exists x.
Qed.
Lemma str_is_as first x y : c_string first = bytes_of_string x -> str_is first y = bool_decide (bytes_of_string x = bytes_of_string y).
Proof. intros E. unfold str_is. by rewrite E. Qed.

Ltac decide_words :=
  repeat match goal with
  | |- context [bool_decide (bytes_of_string ?x = bytes_of_string ?y)] =>
      let b := eval vm_compute in (bool_decide (bytes_of_string x = bytes_of_string y)) in
      change (bool_decide (bytes_of_string x = bytes_of_string y)) with b
  end.
(** What the parser makes of a line: nothing is without its URI but what is
    missed. *)
Definition missed_args (argv : list (list Z)) : Prop :=
  match parse_args argv with
  | Some a => without_uri argv a = missed argv /\ (missed argv = true -> drive a = 0)
  | None => missed argv = false
  end.
Lemma long_missed name first rest : (4 <= length rest)%nat -> missed_args (name :: first :: rest).
Proof.
  intros Hl. unfold missed_args, missed, parse_args. cbv zeta.
  assert (5 < Z.of_nat (length (name :: first :: rest))) as Ha by (cbn [length]; lia).
  replace (Z.of_nat (length (name :: first :: rest)) >? 5) with true by lia. rewrite orb_true_r. cbn [orb].
  replace (Z.of_nat (length (name :: first :: rest)) <=? 5) with false by lia. by rewrite andb_false_r.
Qed.
Ltac evaluate_line :=
  repeat match goal with
  | |- context [Z.of_nat (length ?l)] =>
      let n := eval vm_compute in (Z.of_nat (length l)) in change (Z.of_nat (length l)) with n
  end;
  cbn [Z.eqb Z.ltb Z.leb Z.gtb Z.geb Z.compare Pos.compare Pos.compare_cont Pos.eqb Pos.add Pos.succ andb orb negb Z.add existsb].
Ltac known_words :=
  repeat match goal with
  | |- context [parse_drive ?t] => destruct (parse_drive t); cbn
  | |- context [parse_access ?t] => destruct (parse_access t); cbn
  end.
Lemma known_missed name first rest x : first.[0] = 45 -> c_string first = bytes_of_string x ->
  x ∈ (fst <$> known_options) -> missed_args (name :: first :: rest).
Proof.
  intros H0 E Hx. destruct (decide (4 <= length rest)%nat) as [Hl|Hl]; [by apply long_missed|].
  unfold missed_args, missed, fits, known_options, without_uri, parse_args. cbv zeta.
  change (arg (name :: first :: rest) 1) with first. rewrite H0. cbn [existsb]. rewrite !(str_is_as first x _ E).
  cbn [known_options fmap list_fmap fst] in Hx.
  destruct rest as [|r1 [|r2 [|r3 [|r4 rest]]]]; [..|cbn in Hl; lia]; clear Hl; evaluate_line;
    repeat (apply elem_of_cons in Hx as [->|Hx]); try (by apply elem_of_nil in Hx); decide_words; evaluate_line;
    cbn [arg nth]; known_words; done.
Qed.
Lemma unknown_missed name first rest : first.[0] = 45 -> (forall x, x ∈ (fst <$> known_options) -> str_is first x = false) ->
  missed_args (name :: first :: rest).
Proof.
  intros H0 Hx. destruct (decide (4 <= length rest)%nat) as [Hl|Hl]; [by apply long_missed|].
  unfold missed_args, missed, fits, known_options, without_uri, parse_args. cbv zeta.
  change (arg (name :: first :: rest) 1) with first. rewrite H0. cbn [existsb].
  rewrite !Hx by (apply (bool_decide_unpack _); vm_compute; exact I).
  destruct rest as [|r1 [|r2 [|r3 [|r4 rest]]]]; [..|cbn in Hl; lia]; clear Hl; evaluate_line; done.
Qed.
Lemma words_missed name first rest : first.[0] <> 45 -> missed_args (name :: first :: rest).
Proof.
  intros H0. destruct (decide (4 <= length rest)%nat) as [Hl|Hl]; [by apply long_missed|].
  unfold missed_args, missed, without_uri, parse_args. cbv zeta.
  change (arg (name :: first :: rest) 1) with first. rewrite !not_option by done.
  replace (first.[0] =? 45) with false by lia.
  destruct (Z.eqb_spec first.[0] 0) as [Ez|Ez]; [by rewrite !orb_true_r, !andb_false_r|].
  destruct ((48 <=? first.[0]) && (first.[0] <=? 57)) eqn:Ed.
  - replace ((first.[0] >=? 48) && (first.[0] <=? 57)) with true by lia.
    destruct rest as [|r1 [|r2 [|r3 [|r4 rest]]]]; [..|cbn in Hl; lia]; clear Hl; evaluate_line; cbn [arg nth]; try done;
      destruct (strtoul first 0) as [[slot stop] e]; destruct (_ || _); try done; known_words; done.
  - replace ((first.[0] >=? 48) && (first.[0] <=? 57)) with false by lia.
    destruct rest as [|r1 [|r2 [|r3 [|r4 rest]]]]; [..|cbn in Hl; lia]; clear Hl; evaluate_line; done.
Qed.
Lemma parse_missed name first rest : missed_args (name :: first :: rest).
Proof.
  destruct (decide (first.[0] = 45)) as [H0|H0]; [|by apply words_missed].
  destruct (first_known first H0) as [(x & Hx & E)|H]; [by eapply known_missed|by apply unknown_missed].
Qed.

(** ** The requests *)

Section Requests.
Context {W : Type}.
Variable sizes : abi.
Variable OpenDevice : Z -> W -> W * bool.
Variable DoIO : IOStdReq -> W -> W * IOStdReq.
Variables trace_address uri_address data_address geometry_address catalog_address : Z.
Variable fresh_request : IOStdReq.
Variable fopen : list Z -> bool.

(** DoIO with a log of the requests and their answers. *)
Definition noted (q : IOStdReq) (wl : W * list (IOStdReq * IOStdReq)) : W * list (IOStdReq * IOStdReq) * IOStdReq :=
  let '(w, a) := DoIO q wl.1 in ((w, wl.2 ++ [(q, a)]), a).
Definition opened (d : Z) (wl : W * list (IOStdReq * IOStdReq)) : W * list (IOStdReq * IOStdReq) * bool :=
  let '(w, ok) := OpenDevice d wl.1 in ((w, wl.2), ok).
Definition asked_for (es : list (IOStdReq * IOStdReq)) : list Z := (fun e => DiskDevice.io_Command e.1) <$> es.
Definition granted (e : IOStdReq * IOStdReq) : Prop := DiskDevice.io_Error e.2 = 0.

Abbreviation tool := (main sizes opened noted trace_address uri_address data_address geometry_address catalog_address
  fresh_request fopen).

(** A device leaves the command of a request as it is. *)
Hypothesis Hcommand : forall q w, DiskDevice.io_Command (DoIO q w).2 = DiskDevice.io_Command q.

(** One request, and what is made of its answer. *)
Lemma noted_one q w : exists a w', noted q (w, []) = ((w', [(q, a)]), a) /\ DiskDevice.io_Command a = DiskDevice.io_Command q.
Proof.
  unfold noted. cbn [fst snd app]. pose proof (Hcommand q w) as H. destruct (DoIO q w) as [w' a]. by exists a, w'.
Qed.
Lemma noted_next q w es : exists a w', noted q (w, es) = ((w', es ++ [(q, a)]), a) /\
  DiskDevice.io_Command a = DiskDevice.io_Command q.
Proof.
  unfold noted. cbn [fst snd]. pose proof (Hcommand q w) as H. destruct (DoIO q w) as [w' a]. by exists a, w'.
Qed.

(** The requests [cs] were made, as far as they succeeded, [q] first. *)
Definition did (cs : list Z) (q : IOStdReq) (es : list (IOStdReq * IOStdReq)) (code : Z) : Prop :=
  asked_for es `prefix_of` cs /\ (exists a, head es = Some (q, a)) /\ (code = 0 \/ code = 20) /\
  (code = 0 <-> asked_for es = cs /\ Forall granted es).

Lemma did_one q a : did [DiskDevice.io_Command q] q [(q, a)] (exit_code (DiskDevice.io_Error a)).
Proof.
  split; [done|]. split; [by exists a|]. unfold exit_code.
  destruct (Z.eqb_spec (DiskDevice.io_Error a) 0) as [E|E]; (split; [by auto|]).
  - split; [|done]. intros _. split; [done|by apply Forall_singleton].
  - split; [done|]. intros [_ Hg]. by apply Forall_cons in Hg as [? _].
Qed.
Lemma did_stopped cs q a : DiskDevice.io_Error a <> 0 -> did (DiskDevice.io_Command q :: cs) q [(q, a)] 20.
Proof.
  intros E. split; [by exists cs|]. split; [by exists a|]. split; [by right|]. split; [done|].
  intros [_ Hg]. by apply Forall_cons in Hg as [? _].
Qed.
Lemma did_more q a q2 cs es code : DiskDevice.io_Error a = 0 -> did cs q2 es code ->
  did (DiskDevice.io_Command q :: cs) q ((q, a) :: es) code.
Proof.
  intros E (H1 & _ & H3 & H4). split; [by apply prefix_cons|]. split; [by exists a|]. split; [done|].
  rewrite H4. unfold asked_for. rewrite fmap_cons, Forall_cons. split; [intros [-> ?]; by split|].
  intros [[= ?] [_ ?]]. done.
Qed.

Abbreviation geometry := (get_geometry sizes geometry_address).

Lemma change_did q w : exists es code w', do_change sizes noted geometry_address q (w, []) = ((w', es), code) /\
  did (if DiskDevice.io_Command q =? TD_EJECT then [TD_EJECT] else [DiskDevice.io_Command q; TD_GETGEOMETRY]) q es code.
Proof.
  unfold do_change. destruct (noted_one q w) as (a & w1 & -> & Ec). rewrite Ec.
  destruct (Z.eqb_spec (DiskDevice.io_Command q) TD_EJECT) as [Ej|Ej]; cbn [negb]; rewrite ?andb_false_r, ?andb_true_r.
  { do 3 eexists. split; [done|]. rewrite <- Ej. apply did_one. }
  destruct (Z.eqb_spec (DiskDevice.io_Error a) 0) as [E|E].
  - destruct (noted_next (geometry a) w1 [(q, a)]) as (a2 & w2 & -> & _). do 3 eexists. split; [done|].
    apply (did_more q a (geometry a)); [done|]. apply (did_one (geometry a)).
  - do 3 eexists. split; [done|]. unfold exit_code. destruct (Z.eqb_spec (DiskDevice.io_Error a) 0); [done|].
    by apply did_stopped.
Qed.

Lemma status_did q w : exists es code w', do_status noted q (w, []) = ((w', es), code) /\
  did [TD_CHANGENUM; TD_CHANGESTATE; TD_PROTSTATUS] (set_disk_Command TD_CHANGENUM (renewed q)) es code.
Proof.
  unfold do_status. cbn [Z.eqb]. set (q1 := set_disk_Command TD_CHANGENUM (renewed q)).
  destruct (noted_one q1 w) as (a1 & w1 & -> & _).
  destruct (Z.eqb_spec (DiskDevice.io_Error a1) 0) as [E1|E1].
  2:{ destruct (Z.eqb_spec (DiskDevice.io_Error a1) 0); [done|]. do 3 eexists. split; [done|].
      unfold exit_code. destruct (Z.eqb_spec (DiskDevice.io_Error a1) 0); [done|]. by apply (did_stopped _ q1). }
  set (q2 := set_disk_Command TD_CHANGESTATE (renewed a1)).
  destruct (noted_next q2 w1 [(q1, a1)]) as (a2 & w2 & -> & _). cbn [app].
  destruct (Z.eqb_spec (DiskDevice.io_Error a2) 0) as [E2|E2].
  2:{ do 3 eexists. split; [done|]. apply (did_more q1 a1 q2); [done|].
      unfold exit_code. destruct (Z.eqb_spec (DiskDevice.io_Error a2) 0); [done|]. by apply (did_stopped _ q2). }
  set (q3 := set_disk_Command TD_PROTSTATUS (renewed a2)).
  destruct (noted_next q3 w2 [(q1, a1); (q2, a2)]) as (a3 & w3 & -> & _). cbn [app]. do 3 eexists. split; [done|].
  apply (did_more q1 a1 q2); [done|]. apply (did_more q2 a2 q3); [done|]. apply (did_one q3).
Qed.

Lemma single_did q w : exists a w', noted q (w, []) = ((w', [(q, a)]), a) /\
  did [DiskDevice.io_Command q] q [(q, a)] (exit_code (DiskDevice.io_Error a)).
Proof. destruct (noted_one q w) as (a & w1 & -> & _). exists a, w1. split; [done|apply did_one]. Qed.

(** What is to be shown of a form, from what was done. *)
Definition form_done (c : mount_command) (es : list (IOStdReq * IOStdReq)) (code : Z) : Prop :=
  asked_for es `prefix_of` mount_requests c /\ (exists e, head es = Some e /\ carries c e.1) /\
  (code = 0 \/ code = 20) /\
  match c with
  | Malformed _ => code = 0 <-> exists e, es = [e] /\ DiskDevice.io_Error e.2 = IOERR_BADLENGTH
  | _ => code = 0 <-> asked_for es = mount_requests c /\ Forall granted es
  end.
Lemma did_form c q es code : match c with Malformed _ => False | _ => True end ->
  did (mount_requests c) q es code -> carries c q -> form_done c es code.
Proof.
  intros Hc (H1 & (a & H2) & H3 & H4) Hq. split; [done|]. split; [by exists (q, a)|]. split; [done|]. by destruct c.
Qed.

(** A change done with request [q]. *)
Lemma change_form c q w : match c with Malformed _ => False | _ => True end ->
  mount_requests c = (if DiskDevice.io_Command q =? TD_EJECT then [TD_EJECT] else [DiskDevice.io_Command q; TD_GETGEOMETRY]) ->
  carries c q ->
  exists es code w', Some (do_change sizes noted geometry_address q (w, [])) = Some ((w', es), code) /\ form_done c es code.
Proof.
  intros Hc Hr Hq. destruct (change_did q w) as (es & code & w' & -> & Hd). exists es, code, w'. split; [done|].
  apply (did_form c q); [done| |done]. by rewrite Hr.
Qed.
Lemma single_form c q w : match c with Malformed _ => False | _ => True end ->
  mount_requests c = [DiskDevice.io_Command q] -> carries c q ->
  exists es code w', Some (let '(wl, a) := noted q (w, []) in (wl, exit_code (DiskDevice.io_Error a)))
    = Some ((w', es), code) /\ form_done c es code.
Proof.
  intros Hc Hr Hq. destruct (single_did q w) as (a & w' & -> & Hd). do 3 eexists. split; [done|].
  apply (did_form c q); [done| |done]. by rewrite Hr.
Qed.

(** What the tool refuses by itself once the unit is open: the self test, which
    this build does not have, and a result that cannot be written. *)
Definition refusal (c : mount_command) : option Z :=
  match c with
  | Boundary _ => Some 10
  | Read _ (Some file) => if fopen file then None else Some 20
  | _ => None
  end.

(** C39: What the forms of the usage text ask for, in the build for Workbench
    1.3.  The tool opens the unit of the drive they name; if that fails it
    sends nothing and returns 20.  [--boundary] is then refused with 10, and
    [--read] with a result file that cannot be opened with 20, and nothing is
    sent.  For every other form the tool makes the requests of the form, in
    order, the first with what the form gives, a read of a block at 512 times
    its number modulo 2^32; an error ends them.  It returns 0 exactly when all
    were made and none failed, for the malformed mount exactly when it was
    refused for its length. *)
Theorem mount_forms name c w :
  valid_command c ->
  let '(w1, ok) := OpenDevice (unit_of c) w in
  exists es code w', tool (name :: render_mount c) (w, []) = Some ((w', es), code) /\
    if ok then
      match refusal c with
      | Some result => es = [] /\ code = result /\ w' = w1
      | None => form_done c es code
      end
    else es = [] /\ code = 20 /\ w' = w1.
Proof.
  intros Hv. unfold main. rewrite parse_rendered_mount by done. unfold opened. cbn [fst snd].
  assert (drive (args_of c) = unit_of c) as -> by (destruct c; done).
  destruct (OpenDevice (unit_of c) w) as [w1 ok]. destruct ok; cbn [negb]; [|by exists [], 20, w1].
  set (q := DiskDevice.set_io_Unit _ _). destruct c as [slot d access|d uri access|uri|uri|d|d|d|d|clear|lba file|d|d].
  - destruct Hv as [Hs Hd]. pose proof (decimal_first slot Hs). unfold arg. cbn [render_mount nth].
    rewrite !not_option by (done || lia). cbn. apply change_form; [done|done|].
    split; [done|]. split; [by apply u8_id|done].
  - apply change_form; [done|by destruct access as [[]|]|by split].
  - destruct Hv as [_ Hm]. unfold arg. cbn [render_mount nth]. rewrite !not_option by done.
    apply change_form; [done|done|by split].
  - apply change_form; [done|done|by split].
  - destruct d as [d|]; apply change_form; done.
  - apply change_form; done.
  - destruct (status_did q w1) as (es & code & w' & E & Hd). exists es, code, w'. split; [by rewrite <- E|].
    by apply (did_form (Status d) (set_disk_Command TD_CHANGENUM (renewed q))).
  - apply (single_form (Geometry d)); done.
  - destruct clear; apply single_form; done.
  - set (q' := set_disk_Offset (u32 (lba * 512)) (asking CMD_READ data_address 512 (set_m_bytes (zeros 512)) q)).
    assert (E : forall k, Some (do_read noted data_address fopen (decimal lba) file q (w1, [])) = k -> k =
      if default true (option_map fopen file) then Some (let '(wl, a) := noted q' (w1, []) in (wl, exit_code (DiskDevice.io_Error a)))
      else Some ((w1, []), 20)).
    { intros k <-. unfold do_read. rewrite strtoul_decimal_any by done. cbn [fst snd]. fold q'.
      destruct file as [f|]; cbn [default option_map]; [destruct (fopen f)|]; by destruct (noted q' (w1, [])). }
    destruct file as [f|]; cbn [default option_map] in E; [destruct (fopen f) eqn:Ef|]; cbn [refusal]; rewrite ?Ef.
    + destruct (single_form (Read lba (Some f)) q' w1) as (es & code & w' & E' & Hd); [done..|]. exists es, code, w'. split; [|done].
      rewrite <- E'. by apply E.
    + exists [], 20, w1. split; [by apply E|done].
    + destruct (single_form (Read lba None) q' w1) as (es & code & w' & E' & Hd); [done..|]. exists es, code, w'. split; [|done].
      rewrite <- E'. by apply E.
  - exists [], 10, w1. split; [|done]. by destruct d.
  - set (q' := asking FUJINET_DISK_CMD_MOUNT uri_address 18 (set_m_bytes malformed_uri) (renewed q)).
    destruct (noted_one q' w1) as (a & w' & E & _).
    exists [(q', a)], (if DiskDevice.io_Error a =? IOERR_BADLENGTH then 0 else 20), w'. split.
    { transitivity (Some (do_malformed noted uri_address q (w1, []))); [by destruct d|].
      unfold do_malformed. fold q'. by rewrite E. }
    split; [done|]. split; [by exists (q', a)|]. destruct (Z.eqb_spec (DiskDevice.io_Error a) IOERR_BADLENGTH) as [Ea|Ea].
    + split; [by left|]. split; [|done]. intros _. by exists (q', a).
    + split; [by right|]. split; [done|]. by intros (e & [= <-] & ?).
Qed.

(** What becomes of a line whose words were taken. *)
Lemma tool_line argv a w : parse_args argv = Some a ->
  let '(w1, ok) := OpenDevice (drive a) w in
  if without_uri argv a then tool argv (w, []) = (if ok then None else Some ((w1, []), 20))
  else tool argv (w, []) <> None.
Proof.
  intros Ea. unfold main, without_uri. rewrite Ea. unfold opened. cbn [fst snd].
  destruct (OpenDevice (drive a) w) as [w1 ok]. destruct ok; cbn [negb]; [|by case_match].
  destruct (str_is (arg argv 1) "--trace" || str_is (arg argv 1) "--trace-clear"); [done|].
  destruct (str_is (arg argv 1) "--boundary"); [done|]. destruct (str_is (arg argv 1) "--malformed"); [done|].
  destruct (str_is (arg argv 1) "--read" && _); [done|]. destruct (status a); [done|]. destruct (geometry_only a); [done|].
  unfold change_request. destruct (update a); [done|]. destruct (str_is (arg argv 1) "--eject"); [done|].
  destruct (catalog_mount a); [done|]. by destruct (mount_uri a).
Qed.

(** C40: Command lines the usage text does not give.  For an option that the
    tool does not know, for one that it knows but not with so many words
    ([--uri], [--writable], [--update], [--status], [--geometry] and [--read]
    without their arguments or with too many), and for words without an option
    that are neither a URI nor a slot and a drive, the tool opens drive 0 and,
    if it can, calls [strlen] on a null pointer; for no other command line
    does it.  [--eject] with one or two words too many ejects drive 0, whatever
    drive it names. *)
Theorem mount_lines_missed argv w :
  (if missed argv
   then tool argv (w, []) = (let '(w1, ok) := OpenDevice 0 w in if ok then None else Some ((w1, []), 20))
   else tool argv (w, []) <> None) /\
  (c_string (arg argv 1) = word "--eject" -> 4 <= Z.of_nat (length argv) <= 5 -> (OpenDevice 0 w).2 = true ->
   exists q a w', tool argv (w, []) = Some ((w', [(q, a)]), exit_code (DiskDevice.io_Error a)) /\
     DiskDevice.io_Unit q = Some 0 /\ DiskDevice.io_Command q = TD_EJECT).
Proof.
  split.
  - assert (Hm : missed_args argv) by (destruct argv as [|name [|first rest]]; [done..|apply parse_missed]).
    unfold missed_args in Hm. destruct (parse_args argv) as [a|] eqn:Ea.
    + pose proof (tool_line argv a w Ea) as Ht. destruct Hm as [Hm Hd]. rewrite Hm in Ht.
      destruct (missed argv); [|by destruct (OpenDevice (drive a) w)]. rewrite Hd in Ht by done. by destruct (OpenDevice 0 w).
    + rewrite Hm. unfold main. by rewrite Ea.
  - intros Ej Hlen Ho. destruct (OpenDevice 0 w) as [w1 ok] eqn:E. cbn in Ho. subst ok.
    set (q := asking TD_EJECT 0 0 id (DiskDevice.set_io_Unit (Some 0) fresh_request)).
    destruct (noted_one q w1) as (a & w' & En & Ec). exists q, a, w'. split; [|by split].
    transitivity (Some (do_change sizes noted geometry_address q (w1, []))).
    + assert (Ea : parse_args argv = Some no_args).
      { assert (H0 : (arg argv 1).[0] = 45) by (destruct (arg argv 1) as [|x t]; [done|]; cbn in Ej; by destruct (x =? 0); simplify_eq).
        unfold parse_args. cbv zeta. rewrite H0, !(str_is_as _ _ _ Ej). decide_words.
        assert (Z.of_nat (length argv) = 4 \/ Z.of_nat (length argv) = 5) as [->| ->] by lia; done. }
      unfold main. rewrite Ea. unfold opened. cbn [fst snd]. change (drive no_args) with 0. rewrite E.
      rewrite !(str_is_as _ _ _ Ej). decide_words. cbn [orb andb negb]. done.
    + unfold do_change. rewrite En, Ec. change (DiskDevice.io_Command q =? TD_EJECT) with true. by rewrite andb_false_r.
Qed.
End Requests.

(** ** Two command lines *)

Definition demo_io : IOStdReq :=
  mkIO 0 true None 0 0 0 0 0 0 0 0 0 (mkMemory [] 0 0 [] no_trace geometry_zero (mkQuery 0 0 0 0 [])).
Definition demo_sizes : abi := mkAbi 6 514 2308 48 16.
(** A device that does everything. *)
Definition obliging (q : IOStdReq) (n : Z) : Z * IOStdReq := (n + 1, q).
Abbreviation demo_tool := (main demo_sizes (opened (fun _ n => (n, true))) (noted obliging) 1 2 3 4 5 demo_io (fun _ => true)).
Definition demo_form : mount_command := Image 3 (word "host:/a.adf" ++ [0]) (Some true).

Lemma mount_forms_witness :
  valid_command demo_form /\
  exists es code w', demo_tool (word "fujinet-mount" :: render_mount demo_form) (0, []) = Some ((w', es), code) /\
    form_done demo_form es code.
Proof.
  assert (valid_command demo_form) as Hv by (cbn; unfold is_drive; lia). split; [exact Hv|].
  exact (mount_forms demo_sizes (fun _ n => (n, true)) obliging 1 2 3 4 5 demo_io (fun _ => true) (fun q w => eq_refl)
    (word "fujinet-mount") demo_form 0 Hv).
Defined.

Lemma mount_lines_missed_witness :
  demo_tool [word "fujinet-mount"; word "--help"; word "me"] (0, []) = None /\
  exists q a w', demo_tool [word "fujinet-mount"; word "--eject"; word "3"; word "now"] (0, []) =
    Some ((w', [(q, a)]), exit_code (DiskDevice.io_Error a)) /\
    DiskDevice.io_Unit q = Some 0 /\ DiskDevice.io_Command q = TD_EJECT.
Proof.
  pose proof (fun argv => mount_lines_missed demo_sizes (fun _ n => (n, true)) obliging 1 2 3 4 5 demo_io (fun _ => true)
    (fun q w => eq_refl) argv 0) as H. split.
  - exact (proj1 (H [word "fujinet-mount"; word "--help"; word "me"])).
  - apply (proj2 (H [word "fujinet-mount"; word "--eject"; word "3"; word "now"])); [reflexivity|vm_compute; split; discriminate|reflexivity].
Defined.
