(* ===== verification/DirectoryBackend.v ===== *)
(** * The directory backend (amiga/nio.device/fujinet_nio_directory_backend.c)

    Packets as files of a directory that a peer shares, behind the guard of
    PacketBackend.  The Amiga side is modelled; dos.library is a parameter.
    What is out of sight of the code is kept along: the locks, blocks and
    file handles held, uses of a library that is not open, and a log of the
    directory's changes in their order. *)

From S2P Require Import Prelude CString Effects FnLib NioBackend PacketBackend.

#[local] Open Scope string_scope.
#[local] Open Scope list_scope.
#[local] Open Scope Z_scope.

Definition FN_DIRECTORY_PACKET_CAPACITY : Z := 65535.
Definition FN_DIRECTORY_TO_HOST_NAME : list Z := bytes_of_string "to-host.pkt".
Definition FN_DIRECTORY_TO_GUEST_NAME : list Z := bytes_of_string "to-guest.pkt".
Definition FN_DIRECTORY_IDENTITY_NAME : list Z := bytes_of_string "IDENTITY".
Definition FN_DIRECTORY_IDENTITY_BODY : list Z := bytes_of_string "native-test" ++ [10].
Definition FN_DIRECTORY_DEFAULT_VOLUME : list Z := bytes_of_string "NATIVE:".
Definition AMBIGUOUS : list Z := bytes_of_string "AMBIGUOUS".
Definition RECOVER : list Z := bytes_of_string "RECOVER".
Definition CHALLENGE : list Z := bytes_of_string "CHALLENGE".
Definition ACK : list Z := bytes_of_string "ACK".
Definition BARRIER : list Z := bytes_of_string "BARRIER.".
Definition DOT_TMP : list Z := bytes_of_string ".tmp".
Definition DOT_READY : list Z := bytes_of_string ".ready".
Definition FN_NATIVE_TEST_DIR : list Z := bytes_of_string "FN_NATIVE_TEST_DIR".

Definition FUJINET_NIO_DIRECTORY_TRANSFER_TIMEOUT_MS : Z := 5000.
Definition FN_DIR_PATH_MAX : Z := 320.
Definition FN_DIR_DIR_MAX : Z := 256.
Definition FN_DIR_SLEEP_MS : Z := 20.

Inductive dir_status :=
  | FN_DIR_OK | FN_DIR_NODATA | FN_DIR_EMPTY | FN_DIR_OVERSIZED | FN_DIR_BACKPRESSURE
  | FN_DIR_UNAVAILABLE | FN_DIR_FAILED | FN_DIR_TRUNCATED.
#[export] Instance dir_status_eq_dec : EqDecision dir_status.
Proof. solve_decision. Defined.

(** dos/dos.h. *)
Definition ERROR_OBJECT_NOT_FOUND : Z := 205.
Definition MODE_OLDFILE : Z := 1005.
Definition MODE_NEWFILE : Z := 1006.

(** ** dos.library

    [OpenLibrary] gives the version.  At any time at most one lock and one
    file are in use, so they have no names; [Examine] gives the entry type
    and the size. *)
Record dos (W : Type) := mkDos {
  OpenLibrary : W -> W * option Z;
  CloseLibrary : W -> W;
  GetVar : W -> list Z -> Z -> W * Z * list Z;
  Lock : W -> list Z -> W * bool;
  UnLock : W -> W;
  IoErr : W -> Z;
  AllocMem : W -> W * bool;
  FreeMem : W -> W;
  Examine : W -> list Z -> W * option (Z * Z);
  Open : W -> list Z -> Z -> W * bool;
  Read : W -> Z -> W * Z * list Z;
  Write : W -> list Z -> W * Z;
  Flush : W -> W * bool;
  Close : W -> W * bool;
  DeleteFile : W -> list Z -> W * bool;
  Rename : W -> list Z -> list Z -> W * bool;
  Delay : W -> Z -> W
}.
#[global] Arguments mkDos {W}.
#[global] Arguments OpenLibrary {W}.
#[global] Arguments CloseLibrary {W}.
#[global] Arguments GetVar {W}.
#[global] Arguments Lock {W}.
#[global] Arguments UnLock {W}.
#[global] Arguments IoErr {W}.
#[global] Arguments AllocMem {W}.
#[global] Arguments FreeMem {W}.
#[global] Arguments Examine {W}.
#[global] Arguments Open {W}.
#[global] Arguments Read {W}.
#[global] Arguments Write {W}.
#[global] Arguments Flush {W}.
#[global] Arguments Close {W}.
#[global] Arguments DeleteFile {W}.
#[global] Arguments Rename {W}.
#[global] Arguments Delay {W}.

(** What happened to the directory, to time, and ([Settled]) that no request
    sent so far can still execute or answer: an exchange was completed, or
    the peer has proved it. *)
Inductive event :=
  | Created (path : list Z)
  | Deleted (path : list Z)
  | Renamed (from to : list Z)
  | Slept
  | Settled.

(** What is held of the system. *)
Record held_t := mkHeld { locks : Z; fibs : Z; files : Z; misuse : bool }.
Definition held_none : held_t := mkHeld 0 0 0 false.

(** The statics but for the guard; strings without their NUL. *)
Record dir (W : Type) := mkDir {
  world : W;
  held : held_t;
  log : list event;
  DOSBase : option Z;
  directory : list Z;
  session_challenge : list Z;
  session_ready : bool
}.
#[global] Arguments mkDir {W}.
#[global] Arguments world {W}.
#[global] Arguments held {W}.
#[global] Arguments log {W}.
#[global] Arguments DOSBase {W}.
#[global] Arguments directory {W}.
#[global] Arguments session_challenge {W}.
#[global] Arguments session_ready {W}.

(** [out] of [join_path]; [None] is -1. *)
Definition join_path (out_cap : Z) (dir name : list Z) : option (list Z) :=
  let dir_len := Z.of_nat (length dir) in
  let name_len := Z.of_nat (length name) in
  if (out_cap =? 0) || (dir_len =? 0) then None
  else
  let last := dir.[Z.to_nat (dir_len - 1)] in
  let add_slash := negb (last =? 58) && negb (last =? 47) in
  let need := dir_len + (if add_slash then 1 else 0) + name_len + 1 in
  if need >? out_cap then None
  else Some (dir ++ (if add_slash then [47] else []) ++ name).

Section Directory.
Context `{L : FnLib} {W : Type}.
Variable d : dos W.
Abbreviation act A := (M (dir W) A).
Implicit Types s : dir W.

Definition set_world (w : W) s : dir W :=
  mkDir w (held s) (log s) (DOSBase s) (directory s) (session_challenge s) (session_ready s).
Definition set_held (h : held_t) s : dir W :=
  mkDir (world s) h (log s) (DOSBase s) (directory s) (session_challenge s) (session_ready s).
Definition note (e : event) s : dir W :=
  mkDir (world s) (held s) (log s ++ [e]) (DOSBase s) (directory s) (session_challenge s) (session_ready s).
Definition set_DOSBase (b : option Z) s : dir W :=
  mkDir (world s) (held s) (log s) b (directory s) (session_challenge s) (session_ready s).
Definition set_directory (v : list Z) s : dir W :=
  mkDir (world s) (held s) (log s) (DOSBase s) v (session_challenge s) (session_ready s).
Definition set_session (v : list Z) (ready : bool) s : dir W :=
  mkDir (world s) (held s) (log s) (DOSBase s) (directory s) v ready.

(** ** dos.library at work: a call needs the library. *)

Definition blame (b : bool) s : dir W :=
  set_held (mkHeld (locks (held s)) (fibs (held s)) (files (held s)) (misuse (held s) || b)) s.
Definition hold (l f h : Z) s : dir W :=
  let x := held s in
  let ok := (0 <=? locks x + l) && (0 <=? fibs x + f) && (0 <=? files x + h) in
  set_held (mkHeld (locks x + l) (fibs x + f) (files x + h) (misuse x || negb ok)) s.
Definition no_dos s : bool := negb (bool_decide (is_Some (DOSBase s))).

Definition dos_Lock (path : list Z) : act bool := fun s =>
  let '(w, b) := Lock d (world s) path in
  Some (b, s |> set_world w |> blame (no_dos s) |> hold (c_bool b) 0 0).
Definition dos_UnLock : act unit := modify (fun s =>
  s |> set_world (UnLock d (world s)) |> blame (no_dos s) |> hold (-1) 0 0).
Definition dos_IoErr : act Z := fun s => Some (IoErr d (world s), blame (no_dos s) s).
Definition exec_AllocMem : act bool := fun s =>
  let '(w, b) := AllocMem d (world s) in Some (b, s |> set_world w |> hold 0 (c_bool b) 0).
Definition exec_FreeMem : act unit := modify (fun s =>
  s |> set_world (FreeMem d (world s)) |> hold 0 (-1) 0).
Definition dos_Examine (path : list Z) : act (option (Z * Z)) := fun s =>
  let '(w, r) := Examine d (world s) path in
  Some (r, s |> set_world w |> blame (no_dos s || negb (0 <? locks (held s)) || negb (0 <? fibs (held s)))).
Definition dos_Open (path : list Z) (mode : Z) : act bool := fun s =>
  let '(w, b) := Open d (world s) path mode in
  let s := s |> set_world w |> blame (no_dos s) |> hold 0 0 (c_bool b) in
  Some (b, if b && (mode =? MODE_NEWFILE) then note (Created path) s else s).
Definition dos_Read (len : Z) : act (Z * list Z) := fun s =>
  let '(w, n, bytes) := Read d (world s) len in
  Some ((n, bytes), s |> set_world w |> blame (no_dos s || negb (0 <? files (held s)))).
Definition dos_Write (bytes : list Z) : act Z := fun s =>
  let '(w, n) := Write d (world s) bytes in
  Some (n, s |> set_world w |> blame (no_dos s || negb (0 <? files (held s)))).
Definition dos_Flush : act bool := fun s =>
  let '(w, b) := Flush d (world s) in
  Some (b, s |> set_world w |> blame (no_dos s || negb (0 <? files (held s)))).
Definition dos_Close : act bool := fun s =>
  let '(w, b) := Close d (world s) in
  Some (b, s |> set_world w |> blame (no_dos s) |> hold 0 0 (-1)).
Definition dos_DeleteFile (path : list Z) : act bool := fun s =>
  let '(w, b) := DeleteFile d (world s) path in
  let s := s |> set_world w |> blame (no_dos s) in
  Some (b, if b then note (Deleted path) s else s).
Definition dos_Rename (from to : list Z) : act bool := fun s =>
  let '(w, b) := Rename d (world s) from to in
  let s := s |> set_world w |> blame (no_dos s) in
  Some (b, if b then note (Renamed from to) s else s).
Definition dos_Delay (ticks : Z) : act unit := modify (fun s =>
  s |> set_world (Delay d (world s) ticks) |> blame (no_dos s) |> note Slept).
(** [DOSBase->dl_lib.lib_Version] *)
Definition lib_Version : act Z := fun s => Some (default 0 (DOSBase s), blame (no_dos s) s).

(** ** Files *)

Definition ensure_dos : act Z := fun s =>
  if negb (no_dos s) then Some (FN_OK, s)
  else
  let '(w, version) := OpenLibrary d (world s) in
  Some (if bool_decide (is_Some version) then FN_OK else FN_ERR_TRANSPORT,
        s |> set_world w |> set_DOSBase version).

(** [if (DOSBase != NULL) Delay(1);] *)
Definition sleep_poll : act unit := fun s => if no_dos s then Some (tt, s) else dos_Delay 1 s.

(** The result and [out], which was zeroed. *)
Definition get_env_dir (cap : Z) : act (Z * list Z) :=
  rc ← ensure_dos;
  if negb (rc =? FN_OK) then mret (-1, [])
  else
  version ← lib_Version;
  if version <? 36 then mret (-1, [])
  else fun s => let '(w, n, bytes) := GetVar d (world s) FN_NATIVE_TEST_DIR cap in Some ((n, bytes), set_world w s).

(** A lock on an object, its block, what it says, and both given back. *)
Definition examine_object (path : list Z) : act (option (Z * Z)) :=
  fib ← exec_AllocMem;
  r ← (if fib : bool then dos_Examine path else mret None);
  when fib exec_FreeMem;;
  dos_UnLock;;
  mret r.

Definition directory_usable (path : list Z) : act bool :=
  if bool_decide (path = []) then mret false
  else
  rc ← ensure_dos;
  if negb (rc =? FN_OK) then mret false
  else
  lock ← dos_Lock path;
  if negb lock then mret false
  else
  r ← examine_object path;
  mret (match r with Some (entry_type, _) => entry_type >? 0 | None => false end).

Definition file_exists (path : list Z) : act bool :=
  rc ← ensure_dos;
  if negb (rc =? FN_OK) then mret false
  else
  lock ← dos_Lock path;
  if negb lock then err ← dos_IoErr; mret (negb (err =? ERROR_OBJECT_NOT_FOUND))
  else dos_UnLock;; mret true.

Definition file_remove (path : list Z) : act Z :=
  rc ← ensure_dos;
  if negb (rc =? FN_OK) then mret (-1)
  else
  deleted ← dos_DeleteFile path;
  if deleted : bool then mret 0
  else err ← dos_IoErr; mret (if err =? ERROR_OBJECT_NOT_FOUND then 0 else -1).

(** The result and [*size]. *)
Definition file_size_of (path : list Z) : act (Z * Z) :=
  rc ← ensure_dos;
  if negb (rc =? FN_OK) then mret (-1, 0)
  else
  lock ← dos_Lock path;
  if negb lock then err ← dos_IoErr; mret (if err =? ERROR_OBJECT_NOT_FOUND then 1 else -1, 0)
  else
  r ← examine_object path;
  mret (match r with
        | Some (entry_type, size) => if entry_type <? 0 then (0, u32 size) else (-1, 0)
        | None => (-1, 0)
        end).

(** The loops, with [got] and [put] so far; every turn moves on by a byte at
    least, so that the size is fuel enough.  The buffer comes along. *)
Fixpoint read_loop (fuel : nat) (buffer : list Z) (got size : Z) : act (Z * list Z) :=
  match fuel with
  | O => out_of_fuel
  | S fuel =>
      if got <? size then
        '(n, bytes) ← dos_Read (size - got);
        if n <=? 0 then dos_Close;; mret (-1, buffer)
        else read_loop fuel (overwrite buffer (Z.to_nat got) bytes) (u32 (got + n)) size
      else dos_Close;; mret (0, buffer)
  end.
Definition file_read_all (path : list Z) (buffer : list Z) (size : Z) : act (Z * list Z) :=
  rc ← ensure_dos;
  if negb (rc =? FN_OK) then mret (-1, buffer)
  else
  fh ← dos_Open path MODE_OLDFILE;
  if negb fh then mret (-1, buffer) else read_loop (S (Z.to_nat size)) buffer 0 size.

Fixpoint write_loop (fuel : nat) (tmp packet : list Z) (put size : Z) : act Z :=
  match fuel with
  | O => out_of_fuel
  | S fuel =>
      if put <? size then
        n ← dos_Write (slice packet (Z.to_nat put) (Z.to_nat (size - put)));
        if n <=? 0 then dos_Close;; file_remove tmp;; mret (-1)
        else write_loop fuel tmp packet (u32 (put + n)) size
      else mret 0
  end.
Definition file_write_tmp (tmp packet : list Z) (size : Z) : act Z :=
  rc ← ensure_dos;
  if negb (rc =? FN_OK) then mret (-1)
  else
  file_remove tmp;;
  fh ← dos_Open tmp MODE_NEWFILE;
  if negb fh then mret (-1)
  else
  rc ← write_loop (S (Z.to_nat size)) tmp packet 0 size;
  if negb (rc =? 0) then mret (-1)
  else
  version ← lib_Version;
  flushed ← (if version >=? 36 then dos_Flush else mret true);
  if negb flushed then dos_Close;; mret (-1)
  else if version <? 36 then dos_Close;; mret 0
  else
  closed ← dos_Close;
  mret (if closed : bool then 0 else -1).

Definition file_rename (tmp dest : list Z) : act Z :=
  rc ← ensure_dos;
  if negb (rc =? FN_OK) then mret (-1)
  else
  renamed ← dos_Rename tmp dest; mret (if renamed : bool then 0 else -1).

(** ** The directory and its records *)

(** The result and [out], unchanged with -1. *)
Definition resolve_directory (cap : Z) : act (option (list Z)) :=
  '(n, bytes) ← get_env_dir (FN_DIR_DIR_MAX - 1);
  if (n >? 0) && (n <? FN_DIR_DIR_MAX) then
    let env := c_string (put_at (overwrite (zeros (Z.to_nat FN_DIR_DIR_MAX)) 0 bytes) (Z.to_nat n) 0) in
    mret (if Z.of_nat (length env) >=? cap then None else Some env)
  else
  mret (if Z.of_nat (length FN_DIRECTORY_DEFAULT_VOLUME) >=? cap then None
        else Some FN_DIRECTORY_DEFAULT_VOLUME).

Definition refresh_directory : act Z :=
  r ← resolve_directory FN_DIR_DIR_MAX;
  match r with
  | None => mret (-1)
  | Some v => modify (set_directory v);; usable ← directory_usable v; mret (if usable : bool then 0 else -1)
  end.

(** [join_path(path, sizeof(path), directory, name)] *)
Definition path_of (name : list Z) : act (option (list Z)) :=
  gets (fun s => join_path FN_DIR_PATH_MAX (directory s) name).

Definition identity_is_native_test : act bool :=
  path ← path_of FN_DIRECTORY_IDENTITY_NAME;
  match path with
  | None => mret false
  | Some path =>
      '(rc, size) ← file_size_of path;
      if negb (rc =? 0) then mret false
      else if negb (size =? Z.of_nat (length FN_DIRECTORY_IDENTITY_BODY)) then mret false
      else
      '(rc, body) ← file_read_all path (zeros 16) size;
      if negb (rc =? 0) then mret false
      else mret (bool_decide (take (Z.to_nat size) body = FN_DIRECTORY_IDENTITY_BODY))
  end.

Definition discard_named (name : list Z) : act Z :=
  path ← path_of name;
  match path with
  | None => mret (-1)
  | Some path =>
      if Z.of_nat (length path) + 4 >=? FN_DIR_PATH_MAX then mret (-1)
      else if Z.of_nat (length path) + 6 >=? FN_DIR_PATH_MAX then mret (-1)
      else
      r1 ← file_remove path;
      r2 ← file_remove (path ++ DOT_TMP);
      r3 ← file_remove (path ++ DOT_READY);
      mret (if negb (r1 =? 0) || negb (r2 =? 0) || negb (r3 =? 0) then -1 else 0)
  end.

Definition discard_records : act Z :=
  v ← gets directory;
  usable ← directory_usable v;
  if negb usable then mret (-1)
  else
  r1 ← discard_named FN_DIRECTORY_TO_HOST_NAME;
  r2 ← discard_named FN_DIRECTORY_TO_GUEST_NAME;
  mret (if negb (r1 =? 0) || negb (r2 =? 0) then -1 else 0).

(** A lock that must not be had. *)
Definition lock_absent (path : list Z) : act bool :=
  lock ← dos_Lock path;
  if lock : bool then dos_UnLock;; mret false
  else err ← dos_IoErr; mret (err =? ERROR_OBJECT_NOT_FOUND).
Definition named_absent (name : list Z) : act bool :=
  path ← path_of name;
  match path with
  | None => mret false
  | Some path =>
      if Z.of_nat (length path) + 4 >=? FN_DIR_PATH_MAX then mret false
      else
      absent ← lock_absent path;
      if negb absent then mret false else lock_absent (path ++ DOT_TMP)
  end.

Definition fujinet_nio_directory_records_absent : act bool :=
  rc ← refresh_directory;
  if negb (rc =? 0) then mret false
  else
  absent ← named_absent FN_DIRECTORY_TO_HOST_NAME;
  if negb absent then mret false else named_absent FN_DIRECTORY_TO_GUEST_NAME.

Definition fujinet_nio_directory_client_reset : act dir_status :=
  rc ← refresh_directory;
  if negb (rc =? 0) then mret FN_DIR_UNAVAILABLE
  else
  rc ← discard_records;
  mret (if negb (rc =? 0) then FN_DIR_FAILED else FN_DIR_OK).

(** [directory_usable(directory) ? FN_DIR_FAILED : FN_DIR_UNAVAILABLE] *)
Definition failed_or_unavailable : act dir_status :=
  v ← gets directory; usable ← directory_usable v;
  mret (if usable : bool then FN_DIR_FAILED else FN_DIR_UNAVAILABLE).

(** V34: the packet under its temporary name, then a marker. *)
Definition publish_v34 (dest packet : list Z) (size : Z) : act dir_status :=
  if Z.of_nat (length dest) + 4 >=? FN_DIR_PATH_MAX then mret FN_DIR_UNAVAILABLE
  else
  rc ← file_write_tmp (dest ++ DOT_TMP) packet size;
  if negb (rc =? 0) then failed_or_unavailable
  else if Z.of_nat (length dest) + 6 >=? FN_DIR_PATH_MAX
  then file_remove (dest ++ DOT_TMP);; mret FN_DIR_UNAVAILABLE
  else
  rc ← file_write_tmp (dest ++ DOT_READY) [49] 1;
  if negb (rc =? 0) then discard_named FN_DIRECTORY_TO_HOST_NAME;; failed_or_unavailable
  else mret FN_DIR_OK.

(** V36 and later: a rename. *)
Definition publish_v36 (dest packet : list Z) (size : Z) : act dir_status :=
  if Z.of_nat (length dest) + 4 >=? FN_DIR_PATH_MAX then mret FN_DIR_UNAVAILABLE
  else
  let tmp := dest ++ DOT_TMP in
  rc ← file_write_tmp tmp packet size;
  if negb (rc =? 0) then failed_or_unavailable
  else
  there ← file_exists dest;
  if there : bool then file_remove tmp;; mret FN_DIR_BACKPRESSURE
  else
  rc ← file_rename tmp dest;
  if negb (rc =? 0) then
    file_remove tmp;;
    there ← file_exists dest;
    if there : bool then mret FN_DIR_BACKPRESSURE else failed_or_unavailable
  else mret FN_DIR_OK.

Definition fujinet_nio_directory_client_send (packet : option (list Z)) (size : Z) : act dir_status :=
  rc ← refresh_directory;
  if negb (rc =? 0) then mret FN_DIR_UNAVAILABLE
  else if size =? 0 then mret FN_DIR_EMPTY
  else
  match packet with
  | None => mret FN_DIR_OVERSIZED
  | Some packet =>
      if size >? FN_DIRECTORY_PACKET_CAPACITY then mret FN_DIR_OVERSIZED
      else
      dest ← path_of FN_DIRECTORY_TO_HOST_NAME;
      match dest with
      | None => mret FN_DIR_UNAVAILABLE
      | Some dest =>
          there ← file_exists dest;
          if there : bool then mret FN_DIR_BACKPRESSURE
          else
          version ← lib_Version;
          if version <? 36 then publish_v34 dest packet size else publish_v36 dest packet size
      end
  end.

(** The status, the buffer and [*length]. *)
Definition fujinet_nio_directory_client_receive (buffer : list Z) (capacity : Z)
    : act (dir_status * list Z * Z) :=
  rc ← refresh_directory;
  if negb (rc =? 0) then mret (FN_DIR_UNAVAILABLE, buffer, 0)
  else
  path ← path_of FN_DIRECTORY_TO_GUEST_NAME;
  match path with
  | None => mret (FN_DIR_UNAVAILABLE, buffer, 0)
  | Some path =>
      '(rc, size) ← file_size_of path;
      if rc =? 1 then mret (FN_DIR_NODATA, buffer, 0)
      else if negb (rc =? 0) then mret (FN_DIR_UNAVAILABLE, buffer, 0)
      else if size =? 0 then file_remove path;; mret (FN_DIR_EMPTY, buffer, 0)
      else if (size >? FN_DIRECTORY_PACKET_CAPACITY) || (size >? capacity)
      then file_remove path;; mret (FN_DIR_OVERSIZED, buffer, 0)
      else
      '(rc, buffer) ← file_read_all path buffer size;
      if negb (rc =? 0) then file_remove path;; mret (FN_DIR_TRUNCATED, buffer, 0)
      else
      rc ← file_remove path;
      if negb (rc =? 0) then mret (FN_DIR_UNAVAILABLE, buffer, 0)
      else mret (FN_DIR_OK, buffer, u16 size)
  end.

(** ** The sideband *)

Definition hex_digit (c : Z) : bool := ((c >=? 48) && (c <=? 57)) || ((c >=? 97) && (c <=? 102)).

(** [token] with 0. *)
Definition control_read (name : list Z) : act (option (list Z)) :=
  path ← path_of name;
  match path with
  | None => mret None
  | Some path =>
      '(rc, size) ← file_size_of path;
      if negb (rc =? 0) || negb (size =? 33) then mret None
      else
      '(rc, token) ← file_read_all path (zeros 33) size;
      if negb (rc =? 0) || negb (token.[32] =? 10) then mret None
      else mret (if forallb hex_digit (take 32 token) then Some token else None)
  end.

Definition control_write (name token : list Z) : act Z :=
  path ← path_of name;
  match path with
  | None => mret (-1)
  | Some path =>
      if Z.of_nat (length path) + 4 >=? FN_DIR_PATH_MAX then mret (-1)
      else
      version ← lib_Version;
      if version <? 36 then file_write_tmp path token 33
      else
      let tmp := path ++ DOT_TMP in
      rc ← file_write_tmp tmp token 33;
      if negb (rc =? 0) then mret (-1)
      else
      rc ← file_remove path;
      if negb (rc =? 0) then mret (-1)
      else
      rc ← file_rename tmp path;
      mret (if negb (rc =? 0) then -1 else 0)
  end.

(** The end of a proof of quiescence. *)
Definition accept_challenge (challenge : list Z) : act Z :=
  modify (note Settled);;
  rc ← discard_named AMBIGUOUS;
  if negb (rc =? 0) then mret FN_ERR_TRANSPORT
  else modify (set_session challenge true);; mret FN_OK.

(** The poll for the peer's proof: an acknowledgement of our barrier and a
    new challenge.  [fuel] turns of [FN_DIR_SLEEP_MS]. *)
Fixpoint quiesce_loop (fuel : nat) (token : list Z) (elapsed : Z) : act Z :=
  match fuel with
  | O => out_of_fuel
  | S fuel =>
      if negb (elapsed <=? FUJINET_NIO_DIRECTORY_TRANSFER_TIMEOUT_MS) then mret FN_ERR_TRANSPORT
      else
      let again := sleep_poll;; quiesce_loop fuel token (elapsed + FN_DIR_SLEEP_MS) in
      ack ← control_read ACK;
      if negb (bool_decide (ack = Some token)) then again
      else
      next ← control_read CHALLENGE;
      match next with
      | None => again
      | Some next => if bool_decide (next = token) then again else accept_challenge next
      end
  end.
Definition poll_fuel : nat := 252.

(** Consent to recover from an earlier failure, used up. *)
Definition consent (token : list Z) : act bool :=
  absent ← named_absent AMBIGUOUS;
  if absent : bool then mret true
  else
  ack ← control_read RECOVER;
  if negb (bool_decide (ack = Some token)) then mret false
  else
  rc ← discard_named RECOVER;
  mret (rc =? 0).

Definition directory_quiesce : act Z :=
  modify (fun s => set_session (session_challenge s) false s);;
  rc ← refresh_directory;
  if negb (rc =? 0) then mret FN_ERR_TRANSPORT
  else
  token ← control_read CHALLENGE;
  match token with
  | None => mret FN_ERR_TRANSPORT
  | Some token =>
      allowed ← consent token;
      if negb allowed then mret FN_ERR_TRANSPORT
      else
      rc ← discard_named ACK;
      if negb (rc =? 0) then mret FN_ERR_TRANSPORT
      else
      rc ← control_write (BARRIER ++ take 32 token) token;
      if negb (rc =? 0) then mret FN_ERR_TRANSPORT
      else
      version ← lib_Version;
      if version <? 36 then dos_Delay 10;; accept_challenge token
      else quiesce_loop poll_fuel token 0
  end.

(** ** Transfers *)

(** The poll for the reply: outcome, buffer and [*length]. *)
Fixpoint transfer_loop (fuel : nat) (response : list Z) (capacity elapsed : Z)
    : act (fn_packet_outcome_t * list Z * Z) :=
  match fuel with
  | O => out_of_fuel
  | S fuel =>
      let give_in response := discard_named FN_DIRECTORY_TO_HOST_NAME;; mret (FN_PACKET_UNKNOWN, response, 0) in
      if negb (elapsed <=? FUJINET_NIO_DIRECTORY_TRANSFER_TIMEOUT_MS) then give_in response
      else
      '(rec, response, got) ← fujinet_nio_directory_client_receive response capacity;
      if decide (rec = FN_DIR_OK) then mret (FN_PACKET_COMPLETE, response, got)
      else if negb (bool_decide (rec = FN_DIR_NODATA)) then give_in response
      else if elapsed =? FUJINET_NIO_DIRECTORY_TRANSFER_TIMEOUT_MS then give_in response
      else sleep_poll;; transfer_loop fuel response capacity (elapsed + FN_DIR_SLEEP_MS)
  end.

(** What must hold before a request may be seen: a session, no marker, the
    challenge of the session, no stale consent; then the marker is set. *)
Definition mark_ambiguous : act bool :=
  ready ← gets session_ready;
  absent ← (if ready : bool then named_absent AMBIGUOUS else mret false);
  if negb absent then mret false
  else
  version ← lib_Version;
  current ← (if version >=? 36 then control_read CHALLENGE else mret None);
  challenge ← gets session_challenge;
  if (version >=? 36) && negb (bool_decide (current = Some challenge)) then mret false
  else
  rc ← discard_named RECOVER;
  if negb (rc =? 0) then mret false
  else
  rc ← control_write AMBIGUOUS challenge;
  mret (rc =? 0).

Definition directory_transfer (request : list Z) (request_length : Z) (response : list Z) (capacity : Z)
    : act (fn_packet_outcome_t * list Z * Z) :=
  marked ← mark_ambiguous;
  if negb marked then mret (FN_PACKET_UNKNOWN, response, 0)
  else
  sent ← fujinet_nio_directory_client_send (Some request) request_length;
  if negb (bool_decide (sent = FN_DIR_OK)) then
    rc ← discard_named AMBIGUOUS;
    mret (if negb (rc =? 0) then FN_PACKET_UNKNOWN else FN_PACKET_REJECTED, response, 0)
  else transfer_loop poll_fuel response capacity 0.

Definition directory_open : act Z :=
  rc ← refresh_directory;
  if negb (rc =? 0) then mret FN_ERR_TRANSPORT
  else
  native ← identity_is_native_test;
  mret (if negb native then FN_ERR_INVALID else FN_OK).
Definition directory_close : act unit :=
  rc ← refresh_directory;
  when (rc =? 0) (discard_records;; mret tt).
Definition directory_local_reset : act Z :=
  status ← fujinet_nio_directory_client_reset;
  mret (if decide (status = FN_DIR_OK) then FN_OK
        else if decide (status = FN_DIR_UNAVAILABLE) then FN_ERR_TRANSPORT else FN_ERR_IO).

(** ** The guard's callbacks *)

(** Every one of these computations returns, which is a theorem; [fallback]
    is for none. *)
Definition did {A} (m : act A) (fallback : A) s : A * dir W := default (fallback, s) (m s).

Definition fujinet_nio_directory_io : fn_packet_io_t (dir W) := mkIo
  (Some (fun b s => let '(r, s) := did directory_open FN_ERR_IO s in (b, s, r)))
  (Some (fun b s => (b, (did directory_close tt s).2)))
  (fun b s request n =>
     let '(outcome, response, len, s) :=
       did (directory_transfer request n (scratch b) (capacity b)) (FN_PACKET_UNKNOWN, scratch b, 0) s in
     (set_scratch response b, s, outcome, len))
  (Some (fun b s => let '(r, s) := did directory_local_reset FN_ERR_IO s in (b, s, r)))
  (Some (fun b s => let '(r, s) := did directory_quiesce FN_ERR_IO s in (b, s, r))).

(** ** The backend *)

Record state := mkState {
  guard : fn_packet_backend_t;
  guard_inited : bool;
  completed : list Z;
  dirs : dir W
}.
Definition set_dirs (s : dir W) (b : state) : state := mkState (guard b) (guard_inited b) (completed b) s.
Abbreviation io := fujinet_nio_directory_io.

Definition backend_open (b : state) : Z * state :=
  let '(rc, s) := did refresh_directory (-1) (dirs b) in
  let b := set_dirs s b in
  if negb (rc =? 0) then (FN_ERR_TRANSPORT, b)
  else
  let '(native, s) := did identity_is_native_test false (dirs b) in
  let b := set_dirs s b in
  if negb native then (FN_ERR_INVALID, b)
  else
  let '(result, b) :=
    if guard_inited b then (FN_OK, b)
    else match fn_packet_backend_init (Some (scratch (guard b))) FN_DIRECTORY_PACKET_CAPACITY with
         | Some g => (FN_OK, mkState g true (completed b) (dirs b))
         | None => (FN_ERR_INVALID, b)
         end in
  if negb (result =? FN_OK) then (result, b)
  else
  let '(result, g, s) := fn_packet_backend_open io (guard b) (dirs b) in
  let b := mkState g (guard_inited b) (completed b) s in
  if negb (result =? FN_OK) then (result, b)
  else
  let '(result, g, s) := fn_packet_backend_recover io (guard b) (dirs b) in
  let b := mkState g (guard_inited b) (completed b) s in
  if negb (result =? FN_OK) then
    let '(g, s) := fn_packet_backend_close io (guard b) (dirs b) in
    (result, mkState g (guard_inited b) (completed b) s)
  else (FN_OK, b).

Definition backend_close (b : state) : state :=
  let '(g, s) := fn_packet_backend_close io (guard b) (dirs b) in
  let '(rc, s) := did refresh_directory (-1) s in
  let s := if rc =? 0 then (did discard_records (-1) s).2 else s in
  let s := if no_dos s then s else s |> set_world (CloseLibrary d (world s)) |> set_DOSBase None in
  mkState g (guard_inited b) (completed b) s.

(** The result, the response and [*response_len], which is not NULL. *)
Definition backend_exchange (request : option (list Z)) (request_len : Z) (response : option (list Z))
    (response_capacity : Z) (b : state) : Z * option (list Z) * Z * state :=
  match response with
  | None => (FN_ERR_INVALID, None, 0, b)
  | Some response =>
      let x := fn_packet_backend_exchange io (guard b) (dirs b) request request_len (completed b)
                 response_capacity in
      let b := mkState (x_backend x) (guard_inited b) (x_response x) (x_world x) in
      if x_result x =? FN_OK then
        let s := note Settled (dirs b) in
        let '(rc, s) := did (discard_named AMBIGUOUS) (-1) s in
        let b := if negb (rc =? 0)
                 then mkState (set_quarantined true (guard b)) (guard_inited b) (completed b)
                        (set_session (session_challenge s) false s)
                 else set_dirs s b in
        (FN_OK, Some (overwrite response 0 (slice (completed b) 0 (Z.to_nat (x_length x)))), x_length x, b)
      else (x_result x, Some response, x_length x, b)
  end.

Definition backend_get_diagnostics (b : state) : Z * Z * Z := (FUJINET_NIO_DETAIL_NONE, 0, 0).
Definition backend_set_baud (baud : Z) (b : state) : Z * state := (FN_ERR_UNSUPPORTED, b).
Definition backend_get_baud (b : state) : Z := 0.
Definition backend_set_serial (unit : Z) (name : list Z) (b : state) : Z * state := (FN_ERR_UNSUPPORTED, b).
(** The unit, and what it leaves in [name]. *)
Definition backend_get_serial (name : list Z) (b : state) : Z * list Z :=
  (0, if negb (bool_decide (name = [])) then put_at name 0 0 else name).
End Directory.
