(* ===== verification/DirectoryProps.v ===== *)
(** * Properties of the directory backend

    What every function leaves as it was: nothing held of the system, the
    library used only while it is open, the records that stand for an
    uncertain exchange.  Every function returns. *)

From S2P Require Import Prelude CString Effects FnLib NioBackend PacketBackend DirectoryBackend.

#[local] Open Scope string_scope.
#[local] Open Scope list_scope.
#[local] Open Scope Z_scope.

Create HintDb gentle discriminated.

(** ** Paths *)

Definition slash_of (dir : list Z) : list Z :=
  let last := dir.[Nat.pred (length dir)] in
  if negb (last =? 58) && negb (last =? 47) then [47] else [].
Definition full (dir name : list Z) : list Z := dir ++ slash_of dir ++ name.

Lemma join_path_full cap dir name p :
  join_path cap dir name = Some p -> p = full dir name /\ dir <> [] /\ Z.of_nat (length p) + 1 <= cap.
Proof.
  unfold join_path, full, slash_of. destruct (_ || _) eqn:E0; [done|]. apply orb_false_iff in E0 as [_ E0].
  replace (Z.to_nat (Z.of_nat (length dir) - 1)) with (Nat.pred (length dir)) by lia. cbv zeta.
  set (slash := _ && _). destruct (_ >? cap) eqn:Ec; [done|]. intros [= <-].
  split; [done|]. split; [by intros ->|]. rewrite !length_app. destruct slash; cbn; lia.
Qed.
Lemma full_inj dir a b : full dir a = full dir b -> a = b.
Proof. unfold full. by intros H%app_inv_head%app_inv_head. Qed.
Lemma full_app dir a b : full dir a ++ b = full dir (a ++ b).
Proof. unfold full. by rewrite !app_assoc. Qed.

Lemma tmp_differs name c : last c <> Some 112 -> name ++ DOT_TMP <> c.
Proof. intros Hc <-. apply Hc. by rewrite last_app. Qed.
Lemma ready_differs name c : last c <> Some 121 -> name ++ DOT_READY <> c.
Proof. intros Hc <-. apply Hc. by rewrite last_app. Qed.

(** ** The trail of an uncertain exchange

    [marker]: the AMBIGUOUS record is there; [pending]: a request was
    published that may still execute or answer; [safe]: none was published
    without the marker, and the marker was not taken away meanwhile. *)
Record trail := mkTrail { marker : bool; pending : bool; safe : bool }.
Definition trail_start : trail := mkTrail false false true.

Section Trail.
Variable D : list Z.
Definition is_path (name path : list Z) : bool := bool_decide (path = full D name).
Definition publish (t : trail) : trail := mkTrail (marker t) true (safe t && marker t).
Definition unmark (t : trail) : trail := mkTrail false (pending t) (safe t && negb (pending t)).
Definition mark (t : trail) : trail := mkTrail true (pending t) (safe t).

(** A record is published by the rename of the packet, or, under V34, by the
    creation of its marker. *)
Definition trail_step (t : trail) (e : event) : trail :=
  match e with
  | Created p =>
      if is_path AMBIGUOUS p then mark t
      else if is_path (FN_DIRECTORY_TO_HOST_NAME ++ DOT_READY) p then publish t else t
  | Deleted p => if is_path AMBIGUOUS p then unmark t else t
  | Renamed from to =>
      let t := if is_path AMBIGUOUS from then unmark t else t in
      if is_path AMBIGUOUS to then mark t
      else if is_path FN_DIRECTORY_TO_HOST_NAME to then publish t else t
  | Slept => t
  | Settled => mkTrail (marker t) false (safe t)
  end.
Definition trail_of (l : list event) : trail := fold_left trail_step l trail_start.

Lemma trail_snoc l e : trail_of (l ++ [e]) = trail_step (trail_of l) e.
Proof. unfold trail_of. by rewrite fold_left_app. Qed.

Lemma safe_step t e : safe (trail_step t e) = true -> safe t = true.
Proof.
  destruct t as [m p s], e; cbn; repeat (destruct (is_path _ _); cbn); try done;
    intros H; by repeat (apply andb_prop in H as [H _]).
Qed.
Lemma marked_step t e :
  (pending t = true -> marker t = true) -> safe (trail_step t e) = true ->
  pending (trail_step t e) = true -> marker (trail_step t e) = true.
Proof.
  destruct t as [[] [] []], e; cbn; repeat (destruct (is_path _ _); cbn); intros; try done; auto.
Qed.

(** While the trail is safe, whatever is pending is marked, at any time
    before, too. *)
Lemma safe_marked l :
  safe (trail_of l) = true ->
  forall l', l' `prefix_of` l -> safe (trail_of l') = true /\ (pending (trail_of l') = true -> marker (trail_of l') = true).
Proof.
  induction l as [|e l IH] using rev_ind; intros Hs l' Hl.
  - apply prefix_nil_inv in Hl as ->. split; [done|]. done.
  - rewrite trail_snoc in Hs. pose proof (safe_step _ _ Hs) as Hs0.
    destruct Hl as [k Hk]. destruct k as [|x k _] using rev_ind.
    + rewrite app_nil_r in Hk. subst l'. rewrite trail_snoc. split; [done|]. apply marked_step; [|done].
      by apply (IH Hs0 l).
    + rewrite app_assoc in Hk. apply app_inj_tail in Hk as [Hk _]. apply (IH Hs0). by exists k.
Qed.
End Trail.

(** ** dos.library *)

Section Calm.
Context `{L : FnLib, !FnLibOk L} {W : Type}.
Variable d : dos W.
Variables (lib : option Z) (env_n : Z) (env : list Z).
Implicit Types s : dir W.

(** One library or none, a variable that stays as it is, and transfers that
    are no longer than asked. *)
Definition version : Z := default 0 lib.
Class SteadyDos : Prop := {
  sd_version w : (OpenLibrary d w).2 = lib;
  sd_var w name cap : (GetVar d w name cap).1.2 = env_n /\ (GetVar d w name cap).2 = env;
  sd_read w len : 0 <= len -> (Read d w len).1.2 <= len;
  sd_write w bytes : (Write d w bytes).2 <= Z.of_nat (length bytes)
}.
Context (Hdos : SteadyDos).

(** The directory that every call resolves to. *)
Definition resolved : option (list Z) :=
  let '(n, bytes) := if version <? 36 then (-1, []) else (env_n, env) in
  if (n >? 0) && (n <? FN_DIR_DIR_MAX) then
    let env := c_string (put_at (overwrite (zeros (Z.to_nat FN_DIR_DIR_MAX)) 0 bytes) (Z.to_nat n) 0) in
    if Z.of_nat (length env) >=? FN_DIR_DIR_MAX then None else Some env
  else
  if Z.of_nat (length FN_DIRECTORY_DEFAULT_VOLUME) >=? FN_DIR_DIR_MAX then None
  else Some FN_DIRECTORY_DEFAULT_VOLUME.
Definition home_dir : list Z := default [] resolved.

Record home s : Prop := {
  ho_version : forall v, DOSBase s = Some v -> lib = Some v;
  ho_directory : directory s = [] \/ resolved = Some (directory s)
}.

(** How the trail may change: [R]. *)
Variable R : trail -> trail -> Prop.
Context {HR : PreOrder R}.
Definition has_lib s : Prop := is_Some (DOSBase s).
Definition naps s : nat := length (List.filter (fun e => match e with Slept => true | _ => false end) (log s)).
Definition trail_at s : trail := trail_of home_dir (log s).

(** From [s0] to [s], with [x] held. *)
Record calm_at (x : held_t) s0 s : Prop := {
  ca_held : held s = x;
  ca_lib : has_lib s0 -> has_lib s;
  ca_home : home s;
  ca_session : (session_challenge s, session_ready s) = (session_challenge s0, session_ready s0);
  ca_trail : 36 <= version -> R (trail_at s0) (trail_at s);
  ca_naps : naps s = naps s0
}.
Definition one_lock : held_t := mkHeld 1 0 0 false.
Definition lock_and_fib : held_t := mkHeld 1 1 0 false.
Definition one_file : held_t := mkHeld 0 0 1 false.

Lemma calm_at_refl s : held s = held_none -> home s -> calm_at held_none s s.
Proof. intros. by split. Qed.
Lemma calm_at_trans x y s0 s1 s2 : calm_at y s0 s1 -> calm_at x s1 s2 -> calm_at x s0 s2.
Proof. intros [] []. split; try done; try congruence; [auto|]. intros Hv. etransitivity; auto. Qed.
Lemma no_dos_lib s : has_lib s -> no_dos s = false.
Proof. intros [v Hv]. unfold no_dos. by rewrite Hv. Qed.

(** A change of the world and of what is held. *)
Definition rest s := (log s, DOSBase s, directory s, session_challenge s, session_ready s).
Lemma calm_same x y s0 s s' : calm_at x s0 s -> rest s' = rest s -> held s' = y -> calm_at y s0 s'.
Proof.
  intros [] Hr Hy. unfold rest in Hr. injection Hr as E1 E2 E3 E4 E5. destruct ca_home0.
  split; unfold has_lib, trail_at, naps in *; rewrite ?E1, ?E2, ?E4, ?E5; try done.
  split; by rewrite ?E2, ?E3.
Qed.
Lemma lib_same s s' : rest s' = rest s -> has_lib s -> has_lib s'.
Proof. intros Hr. unfold rest in Hr. injection Hr as _ E _ _ _. unfold has_lib. by rewrite E. Qed.
Lemma calm_note x s0 s e : calm_at x s0 s -> (36 <= version -> forall t, R t (trail_step home_dir t e)) -> e <> Slept ->
  calm_at x s0 (note e s).
Proof.
  intros [] He Hn. split; try done.
  - by destruct ca_home0.
  - intros Hv. unfold trail_at in *. change (log (note e s)) with (log s ++ [e]).
    rewrite trail_snoc. etransitivity; [by apply ca_trail0|by apply He].
  - unfold naps in *. change (log (note e s)) with (log s ++ [e]). rewrite List.filter_app, length_app. destruct e; cbn; try lia; done.
Qed.

(** Calm, with the library open. *)
Definition lib_calm x s0 s : Prop := calm_at x s0 s /\ has_lib s.
Lemma lib_calm_same x y s0 s s' : lib_calm x s0 s -> rest s' = rest s -> held s' = y -> lib_calm y s0 s'.
Proof. intros [H1 H2] Hr Hy. split; [by eapply calm_same|by eapply lib_same]. Qed.
Lemma lib_calm_note x s0 s e : lib_calm x s0 s -> (36 <= version -> forall t, R t (trail_step home_dir t e)) -> e <> Slept ->
  lib_calm x s0 (note e s).
Proof. intros [H1 H2] He Hn. split; [by apply calm_note|done]. Qed.

Ltac prim H :=
  let Hh := fresh in let Hn := fresh in
  pose proof (ca_held _ _ _ (proj1 H)) as Hh; pose proof (no_dos_lib _ (proj2 H)) as Hn;
  unfold wp, modify;
  repeat match goal with |- context [let '(_, _) := ?f in _] => destruct f end;
  first [eapply lib_calm_same; [exact H|done|] | idtac];
  cbn; rewrite Hh, ?Hn; try reflexivity.

Lemma Lock_calm path s0 s : lib_calm held_none s0 s ->
  wp False (dos_Lock d path) (fun b s' => lib_calm (if b then one_lock else held_none) s0 s') s.
Proof.
  intros H. unfold wp, dos_Lock. destruct (Lock d (world s) path) as [w b].
  pose proof (ca_held _ _ _ (proj1 H)) as Hh. pose proof (no_dos_lib _ (proj2 H)) as Hn.
  eapply lib_calm_same; [exact H|done|]. cbn. rewrite Hh, Hn. by destruct b.
Qed.
Lemma UnLock_calm s0 s : lib_calm one_lock s0 s ->
  wp False (dos_UnLock d) (fun _ s' => lib_calm held_none s0 s') s.
Proof. intros H. unfold dos_UnLock. by prim H. Qed.
Lemma IoErr_calm x s0 s : misuse x = false -> lib_calm x s0 s -> wp False (dos_IoErr d) (fun _ s' => lib_calm x s0 s') s.
Proof. intros Hx H. unfold dos_IoErr. prim H. by destruct x as [? ? ? []]. Qed.
Lemma AllocMem_calm s0 s : lib_calm one_lock s0 s ->
  wp False (exec_AllocMem d) (fun b s' => lib_calm (if b then lock_and_fib else one_lock) s0 s') s.
Proof.
  intros H. unfold wp, exec_AllocMem. destruct (AllocMem d (world s)) as [w b].
  pose proof (ca_held _ _ _ (proj1 H)) as Hh.
  eapply lib_calm_same; [exact H|done|]. cbn. rewrite Hh. by destruct b.
Qed.
Lemma FreeMem_calm s0 s : lib_calm lock_and_fib s0 s ->
  wp False (exec_FreeMem d) (fun _ s' => lib_calm one_lock s0 s') s.
Proof. intros H. unfold exec_FreeMem. by prim H. Qed.
Lemma Examine_calm path s0 s : lib_calm lock_and_fib s0 s ->
  wp False (dos_Examine d path) (fun _ s' => lib_calm lock_and_fib s0 s') s.
Proof. intros H. unfold dos_Examine. by prim H. Qed.
Lemma Open_old_calm path s0 s : lib_calm held_none s0 s ->
  wp False (dos_Open d path MODE_OLDFILE) (fun b s' => lib_calm (if b then one_file else held_none) s0 s') s.
Proof.
  intros H. unfold wp, dos_Open. destruct (Open d (world s) path _) as [w b].
  pose proof (ca_held _ _ _ (proj1 H)) as Hh. pose proof (no_dos_lib _ (proj2 H)) as Hn.
  rewrite andb_false_r. eapply lib_calm_same; [exact H|done|]. cbn. rewrite Hh, Hn. by destruct b.
Qed.
Lemma Read_calm len s0 s : 0 <= len -> lib_calm one_file s0 s ->
  wp False (dos_Read d len) (fun r s' => lib_calm one_file s0 s' /\ r.1 <= len) s.
Proof.
  intros Hlen H. unfold wp, dos_Read. pose proof (sd_read (world s) len Hlen) as Hle.
  destruct (Read d (world s) len) as [[w n] bytes]. split; [|exact Hle].
  pose proof (ca_held _ _ _ (proj1 H)) as Hh. pose proof (no_dos_lib _ (proj2 H)) as Hn.
  eapply lib_calm_same; [exact H|done|]. cbn. by rewrite Hh, Hn.
Qed.
Lemma Write_calm bytes s0 s : lib_calm one_file s0 s ->
  wp False (dos_Write d bytes) (fun n s' => lib_calm one_file s0 s' /\ n <= Z.of_nat (length bytes)) s.
Proof.
  intros H. unfold wp, dos_Write. pose proof (sd_write (world s) bytes) as Hle.
  destruct (Write d (world s) bytes) as [w n]. split; [|exact Hle].
  pose proof (ca_held _ _ _ (proj1 H)) as Hh. pose proof (no_dos_lib _ (proj2 H)) as Hn.
  eapply lib_calm_same; [exact H|done|]. cbn. by rewrite Hh, Hn.
Qed.
Lemma Flush_calm s0 s : lib_calm one_file s0 s -> wp False (dos_Flush d) (fun _ s' => lib_calm one_file s0 s') s.
Proof. intros H. unfold dos_Flush. by prim H. Qed.
Lemma Close_calm s0 s : lib_calm one_file s0 s -> wp False (dos_Close d) (fun _ s' => lib_calm held_none s0 s') s.
Proof. intros H. unfold dos_Close. by prim H. Qed.
Lemma version_calm x s0 s : misuse x = false -> lib_calm x s0 s ->
  wp False lib_Version (fun v s' => lib_calm x s0 s' /\ v = version) s.
Proof.
  intros Hx H. unfold wp, lib_Version. destruct (proj2 H) as [v Hv].
  split; [|unfold version; by rewrite Hv, (ho_version _ (ca_home _ _ _ (proj1 H)) _ Hv)].
  pose proof (ca_held _ _ _ (proj1 H)) as Hh. eapply lib_calm_same; [exact H|done|]. cbn.
  rewrite Hh, (no_dos_lib _ (proj2 H)). by destruct x as [? ? ? []].
Qed.
Lemma ensure_calm s0 s : calm_at held_none s0 s ->
  wp False (ensure_dos d)
    (fun r s' => calm_at held_none s0 s' /\ if r =? FN_OK then has_lib s' else lib = None) s.
Proof.
  intros H. unfold wp, ensure_dos. destruct (no_dos s) eqn:En; cbn [negb].
  2:{ split; [done|]. rewrite Z.eqb_refl. unfold no_dos in En. by apply negb_false_iff, bool_decide_eq_true in En. }
  pose proof (sd_version (world s)) as Hl. destruct (OpenLibrary d (world s)) as [w v]. cbn in Hl. subst v.
  assert (Hno : DOSBase s = None).
  { unfold no_dos in En. apply negb_true_iff, bool_decide_eq_false in En. destruct (DOSBase s); [|done].
    by destruct En. }
  split.
  - destruct H. destruct ca_home0. split; try done.
    intros Hl. destruct (ca_lib0 Hl). congruence.
  - destruct lib as [v|]; cbn; [rewrite Z.eqb_refl; by eexists|].
    pose proof fn_err_transport_ok as Hx%Z.eqb_neq. by rewrite Hx.
Qed.

(** ** Gentle computations

    [gentle b m]: from a calm state, with the library open if [b], [m] returns
    in a calm state. *)
Definition calm_lib (b : bool) s0 s : Prop := calm_at held_none s0 s /\ (b = true -> has_lib s).
Definition gentle {A} (b : bool) (m : M (dir W) A) : Prop :=
  forall s0 s, calm_lib b s0 s -> wp False m (fun _ s' => calm_lib b s0 s') s.

Lemma calm_lib_true s0 s : calm_lib true s0 s <-> lib_calm held_none s0 s.
Proof. unfold calm_lib, lib_calm. split; intros [? ?]; auto. Qed.
Lemma gentle_spec {A} (m : M (dir W) A) :
  (forall s0 s, lib_calm held_none s0 s -> wp False m (fun _ s' => lib_calm held_none s0 s') s) -> gentle true m.
Proof.
  intros H s0 s Hc. apply calm_lib_true in Hc. eapply wp_mono; [|by apply H]. cbv beta. intros _ s' H'.
  by apply calm_lib_true.
Qed.
Lemma gentle_weaken {A} b (m : M (dir W) A) : gentle false m -> gentle b m.
Proof.
  intros Hm s0 s [H1 H2].
  assert (G1 : calm_lib false s0 s) by by split.
  assert (G2 : calm_lib false s s).
  { split; [|done]. apply calm_at_refl; [apply (ca_held _ _ _ H1)|apply (ca_home _ _ _ H1)]. }
  eapply wp_mono; [|apply wp_and; [apply Hm, G1|apply Hm, G2]].
  cbv beta. intros _ s' [[G3 _] [G4 _]]. split; [done|]. intros Hb. by apply (ca_lib _ _ _ G4), H2.
Qed.
Lemma gentle_ret {A} b (a : A) : gentle b (mret a).
Proof. by intros s0 s H. Qed.
Lemma gentle_bind {A B} b (m : M (dir W) A) (k : A -> M (dir W) B) :
  gentle b m -> (forall a, gentle b (k a)) -> gentle b (m ≫= k).
Proof. intros Hm Hk s0 s H. eapply wp_use; [by apply Hm|cbv beta]. intros a s' H'. by apply Hk. Qed.
Lemma gentle_if {A} b (c : bool) (m1 m2 : M (dir W) A) :
  (c = true -> gentle b m1) -> (c = false -> gentle b m2) -> gentle b (if c then m1 else m2).
Proof. destruct c; auto. Qed.
Lemma gentle_when b (c : bool) (m : M (dir W) unit) : gentle b m -> gentle b (when c m).
Proof. intros. destruct c; [done|apply gentle_ret]. Qed.
Lemma gentle_gets {A} b (f : dir W -> A) : gentle b (gets f).
Proof. by intros s0 s H. Qed.
Lemma gentle_version {A} (k : Z -> M (dir W) A) : gentle true (k version) -> gentle true (lib_Version ≫= k).
Proof.
  intros Hk s0 s H. apply calm_lib_true in H. eapply wp_use; [by apply (version_calm held_none)|cbv beta].
  intros v s' [H' ->]. apply calm_lib_true in H'. by apply Hk.
Qed.
Lemma gentle_ensure {A} b (X Y : M (dir W) A) :
  gentle false X -> gentle true Y -> gentle b (rc ← ensure_dos d; if negb (rc =? FN_OK) then X else Y).
Proof.
  intros HX HY. apply gentle_weaken. intros s0 s [H _]. eapply wp_use; [by apply ensure_calm|cbv beta].
  intros r s1 [H1 H2]. destruct (Z.eqb_spec r FN_OK) as [->|]; cbn [negb].
  - eapply wp_mono; [|apply HY; by split]. cbv beta. intros _ s' [? ?]. by split.
  - by apply HX.
Qed.
(** A path is in the home directory. *)
Lemma gentle_path {A} b name (k : option (list Z) -> M (dir W) A) :
  gentle b (k None) -> gentle b (k (Some (full home_dir name))) -> gentle b (path_of name ≫= k).
Proof.
  intros Hn Hs s0 s H. unfold path_of. do 2 wp_step.
  destruct (join_path _ _ _) as [p|] eqn:Ej; [|by apply Hn].
  apply join_path_full in Ej as (-> & Hne & _). destruct (ho_directory _ (ca_home _ _ _ (proj1 H))) as [|Hr]; [done|].
  replace (directory s) with home_dir by (unfold home_dir; by rewrite Hr). by apply Hs.
Qed.

(** From [x] held, all is given back. *)
Definition settles {A} (x : held_t) (m : M (dir W) A) : Prop :=
  forall s0 s, lib_calm x s0 s -> wp False m (fun _ s' => lib_calm held_none s0 s') s.
Lemma gentle_settles {A} (m : M (dir W) A) : gentle true m <-> settles held_none m.
Proof.
  split; intros H.
  - intros s0 s Hc. apply calm_lib_true in Hc. eapply wp_mono; [|by apply H]. cbv beta. intros _ s' H'.
    by apply calm_lib_true.
  - by apply gentle_spec.
Qed.
Lemma settles_bind {A B} x (m : M (dir W) A) (k : A -> M (dir W) B) :
  settles x m -> (forall a, gentle true (k a)) -> settles x (m ≫= k).
Proof.
  intros Hm Hk s0 s H. eapply wp_use; [by apply Hm|cbv beta]. intros a s1 H1.
  by apply (proj1 (gentle_settles _) (Hk a)).
Qed.
Lemma gentle_lock {A} path (k : bool -> M (dir W) A) :
  gentle true (k false) -> settles one_lock (k true) -> gentle true (dos_Lock d path ≫= k).
Proof.
  intros Hf Ht. apply gentle_settles. intros s0 s H.
  eapply wp_use; [by apply Lock_calm|cbv beta]. intros [] s1 H1; [by apply Ht|by apply gentle_settles].
Qed.
Lemma gentle_open_old {A} path (k : bool -> M (dir W) A) :
  gentle true (k false) -> settles one_file (k true) -> gentle true (dos_Open d path MODE_OLDFILE ≫= k).
Proof.
  intros Hf Ht. apply gentle_settles. intros s0 s H.
  eapply wp_use; [by apply Open_old_calm|cbv beta]. intros [] s1 H1; [by apply Ht|by apply gentle_settles].
Qed.
Lemma settles_UnLock : settles one_lock (dos_UnLock d).
Proof. intros s0 s H. by apply UnLock_calm. Qed.
Lemma settles_Close : settles one_file (dos_Close d).
Proof. intros s0 s H. by apply Close_calm. Qed.
Lemma gentle_IoErr : gentle true (dos_IoErr d).
Proof. apply gentle_settles. intros s0 s H. by apply IoErr_calm. Qed.

Ltac gentle_step :=
  lazymatch goal with
  | |- gentle _ (mret _) => apply gentle_ret
  | |- gentle _ (gets _) => apply gentle_gets
  | |- gentle _ (path_of _ ≫= _) => apply gentle_path
  | |- gentle true (dos_Lock _ _ ≫= _) => apply gentle_lock
  | |- gentle true (dos_Open _ _ MODE_OLDFILE ≫= _) => apply gentle_open_old
  | |- gentle true (lib_Version ≫= _) => apply gentle_version
  | |- gentle _ (ensure_dos _ ≫= _) => apply gentle_ensure
  | |- gentle _ (when _ _) => apply gentle_when
  | |- gentle _ (_ ≫= _) => apply gentle_bind; [|intros]
  | |- gentle _ (if ?c then _ else _) => destruct c eqn:?
  | |- gentle _ (match ?x with _ => _ end) => destruct x
  | |- settles _ (dos_UnLock _) => apply settles_UnLock
  | |- settles _ (dos_Close _) => apply settles_Close
  | |- settles _ (_ ≫= _) => apply settles_bind; [|intros]
  | |- gentle true (dos_IoErr _) => apply gentle_IoErr
  end.
Ltac gentle_go := repeat (cbn [negb]; first [gentle_step | solve [auto using gentle_weaken with gentle]]).

Lemma examine_settles path : settles one_lock (examine_object d path).
Proof.
  intros s0 s H. unfold examine_object. eapply wp_use; [by apply AllocMem_calm|cbv beta]. intros [] s1 H1.
  - eapply wp_use; [by apply Examine_calm|cbv beta]. intros r s2 H2.
    wp_step. wp_step; [|done]. eapply wp_mono; [|by apply FreeMem_calm]. cbv beta. intros _ s3 H3.
    eapply wp_use; [by apply UnLock_calm|cbv beta]. intros _ s4 H4. by wp_step.
  - do 4 wp_step; [done|]. eapply wp_use; [by apply UnLock_calm|cbv beta]. intros _ s4 H4. by wp_step.
Qed.
#[local] Hint Resolve examine_settles : gentle.

Lemma directory_usable_gentle b path : gentle b (directory_usable d path).
Proof. unfold directory_usable. gentle_go. Qed.
Lemma file_exists_gentle b path : gentle b (file_exists d path).
Proof. unfold file_exists. gentle_go. Qed.
Lemma file_size_gentle b path : gentle b (file_size_of d path).
Proof. unfold file_size_of. gentle_go. Qed.

Lemma read_loop_settles fuel : forall buffer got size,
  0 <= got -> (Z.to_nat (size - got) < fuel)%nat -> size < 4294967296 ->
  settles one_file (read_loop d fuel buffer got size).
Proof.
  induction fuel as [|fuel IH]; intros buffer got size Hg Hf Hs s0 s H; cbn [read_loop]; [lia|].
  destruct (Z.ltb_spec got size) as [Hlt|Hge].
  - eapply wp_use; [apply Read_calm; [lia|done]|cbv beta]. intros [n bytes] s1 [H1 Hn]. cbn in Hn.
    destruct (Z.leb_spec n 0) as [Hz|Hp].
    + eapply wp_use; [by apply Close_calm|cbv beta]. intros _ s2 H2. by wp_step.
    + apply IH; [apply u32_range| |done|done]. rewrite u32_id by (unfold is_u32; lia). lia.
  - eapply wp_use; [by apply Close_calm|cbv beta]. intros _ s2 H2. by wp_step.
Qed.
Lemma file_read_gentle b path buffer size :
  is_u32 size -> gentle b (file_read_all d path buffer size).
Proof. intros Hs. unfold file_read_all. gentle_go. apply read_loop_settles; unfold is_u32 in Hs; lia. Qed.
Lemma gentle_size {A} b path (k : Z * Z -> M (dir W) A) :
  (forall rc size, is_u32 size -> gentle b (k (rc, size))) -> gentle b (file_size_of d path ≫= k).
Proof.
  intros Hk s0 s H.
  eapply wp_use; [eapply wp_returns; [by apply file_size_gentle|]|cbv beta].
  - instantiate (1 := fun r _ => is_u32 r.2). unfold file_size_of.
    apply wp_past. intros rc s1. wp_step; [by wp_step|]. apply wp_past. intros lock s2.
  wp_step; apply wp_past; intros r s3; wp_step; [done|].
    destruct r as [[? size]|]; [|done]. destruct (_ <? 0); [apply u32_range|done].
  - intros [rc size] s1 [H1 Hs]. by apply Hk.
Qed.

(** ** Paths that may be used *)

Definition may_delete (path : list Z) : Prop := 36 <= version -> forall t, R t (trail_step home_dir t (Deleted path)).
Definition may_create (path : list Z) : Prop := 36 <= version -> forall t, R t (trail_step home_dir t (Created path)).
Definition may_rename (from to : list Z) : Prop :=
  36 <= version -> forall t, R t (trail_step home_dir t (Renamed from to)).

Lemma is_path_other name path : path <> full home_dir name -> is_path home_dir name path = false.
Proof. intros. unfold is_path. by rewrite bool_decide_false. Qed.
Lemma is_path_name name name' : is_path home_dir name (full home_dir name') = bool_decide (name' = name).
Proof. unfold is_path. apply bool_decide_ext. split; [apply full_inj|by intros ->]. Qed.

Lemma DeleteFile_gentle path : may_delete path -> gentle true (dos_DeleteFile d path).
Proof.
  intros Hp. apply gentle_settles. intros s0 s H. unfold wp, dos_DeleteFile.
  destruct (DeleteFile d (world s) path) as [w b].
  pose proof (ca_held _ _ _ (proj1 H)) as Hh. pose proof (no_dos_lib _ (proj2 H)) as Hn.
  assert (H' : lib_calm held_none s0 (s |> set_world w |> blame (no_dos s))).
  { eapply lib_calm_same; [exact H|done|]. cbn. by rewrite Hh, Hn. }
  destruct b; [|done]. by apply lib_calm_note.
Qed.
Lemma Rename_gentle from to : may_rename from to -> gentle true (dos_Rename d from to).
Proof.
  intros Hp. apply gentle_settles. intros s0 s H. unfold wp, dos_Rename.
  destruct (Rename d (world s) from to) as [w b].
  pose proof (ca_held _ _ _ (proj1 H)) as Hh. pose proof (no_dos_lib _ (proj2 H)) as Hn.
  assert (H' : lib_calm held_none s0 (s |> set_world w |> blame (no_dos s))).
  { eapply lib_calm_same; [exact H|done|]. cbn. by rewrite Hh, Hn. }
  destruct b; [|done]. by apply lib_calm_note.
Qed.
Lemma gentle_open_new {A} path (k : bool -> M (dir W) A) :
  may_create path ->
  gentle true (k false) -> settles one_file (k true) -> gentle true (dos_Open d path MODE_NEWFILE ≫= k).
Proof.
  intros Hp Hf Ht. apply gentle_settles. intros s0 s H. unfold wp, mbind, M_bind, dos_Open.
  destruct (Open d (world s) path MODE_NEWFILE) as [w b].
  pose proof (ca_held _ _ _ (proj1 H)) as Hh. pose proof (no_dos_lib _ (proj2 H)) as Hn.
  destruct b; cbn [andb].
  - apply Ht, lib_calm_note; [|done|done]. eapply lib_calm_same; [exact H|done|]. cbn. by rewrite Hh, Hn.
  - apply (proj1 (gentle_settles _) Hf). eapply lib_calm_same; [exact H|done|]. cbn. by rewrite Hh, Hn.
Qed.

Lemma file_remove_gentle b path : may_delete path -> gentle b (file_remove d path).
Proof. intros. unfold file_remove. gentle_go. by apply DeleteFile_gentle. Qed.
Lemma file_rename_gentle b from to : may_rename from to -> gentle b (file_rename d from to).
Proof. intros. unfold file_rename. gentle_go. by apply Rename_gentle. Qed.

Lemma write_loop_settles fuel : forall tmp packet put size,
  may_delete tmp -> 0 <= put -> (Z.to_nat (size - put) < fuel)%nat -> size < 4294967296 ->
  forall s0 s, lib_calm one_file s0 s ->
  wp False (write_loop d fuel tmp packet put size)
    (fun r s' => lib_calm (if r =? 0 then one_file else held_none) s0 s') s.
Proof.
  induction fuel as [|fuel IH]; intros tmp packet put size Ht Hg Hf Hs s0 s H; cbn [write_loop]; [lia|].
  destruct (Z.ltb_spec put size) as [Hlt|Hge]; [|by wp_step].
  eapply wp_use; [by apply Write_calm|cbv beta]. intros n s1 [H1 Hn].
  unfold slice in Hn. rewrite length_take in Hn.
  destruct (Z.leb_spec n 0) as [Hz|Hp].
  - eapply wp_use; [by apply Close_calm|cbv beta]. intros _ s2 H2.
    eapply wp_use; [by apply (proj1 (gentle_settles _) (file_remove_gentle true tmp Ht))|cbv beta].
    intros _ s3 H3. by wp_step.
  - assert (is_u32 (put + n)) by (unfold is_u32; lia).
    rewrite u32_id by done. apply IH; try done; unfold is_u32 in *; lia.
Qed.
Lemma file_write_gentle b tmp packet size :
  may_delete tmp -> may_create tmp -> is_u32 size -> gentle b (file_write_tmp d tmp packet size).
Proof.
  intros Hd Hc Hs. unfold file_write_tmp. apply gentle_ensure; [apply gentle_ret|].
  apply gentle_bind; [by apply file_remove_gentle|]. intros _.
  apply gentle_open_new; [done|apply gentle_ret|]. cbn [negb]. intros s0 s H.
  eapply wp_use; [apply write_loop_settles; [done|done|unfold is_u32 in Hs; lia|unfold is_u32 in Hs; lia|done]|cbv beta].
  intros r s1 H1. destruct (r =? 0) eqn:Er; cbn [negb]; [|by wp_step].
  eapply wp_use; [by apply (version_calm one_file)|cbv beta]. intros v s2 [H2 ->].
  eapply wp_use; [instantiate (1 := fun _ s' => lib_calm one_file s0 s')|cbv beta].
  { wp_step; [by apply Flush_calm|by wp_step]. }
  intros flushed s3 G3. wp_step.
  { eapply wp_use; [by apply Close_calm|cbv beta]. intros _ s4 G4. by wp_step. }
  wp_step; (eapply wp_use; [by apply Close_calm|cbv beta]; intros closed s4 G4; by wp_step).
Qed.

(** ** The directory and its records *)

Definition env_result : Z * list Z := if version <? 36 then (-1, []) else (env_n, env).
Lemma get_env_same s0 s : calm_at held_none s0 s ->
  wp False (get_env_dir d (FN_DIR_DIR_MAX - 1)) (fun r s' => calm_at held_none s0 s' /\ r = env_result) s.
Proof.
  intros H. unfold get_env_dir, env_result. eapply wp_use; [by apply ensure_calm|cbv beta]. intros r s1 [H1 Hl].
  destruct (Z.eqb_spec r FN_OK) as [->|Hne]; cbn [negb].
  2:{ wp_step. split; [done|]. unfold version. by rewrite Hl. }
  eapply wp_use; [by apply (version_calm held_none)|cbv beta]. intros v s2 [[H2 _] ->].
  destruct (version <? 36); [by wp_step|]. unfold wp.
  destruct (sd_var (world s2) FN_NATIVE_TEST_DIR (FN_DIR_DIR_MAX - 1)) as [En Eb].
  destruct (GetVar d (world s2) FN_NATIVE_TEST_DIR _) as [[w n] bytes]. cbn in En, Eb. subst n bytes.
  split; [|done]. eapply calm_same; [exact H2|done|]. apply (ca_held _ _ _ H2).
Qed.
(** What it resolves to is always the same. *)
Lemma resolve_same s0 s : calm_at held_none s0 s ->
  wp False (resolve_directory d FN_DIR_DIR_MAX) (fun r s' => calm_at held_none s0 s' /\ r = resolved) s.
Proof.
  intros H. unfold resolve_directory. eapply wp_use; [by apply get_env_same|cbv beta].
  intros r s1 [H1 ->]. unfold resolved, env_result. destruct (if version <? 36 then _ else _) as [n bytes].
  destruct (_ && _); by wp_step.
Qed.

Lemma directory_usable_lib path s0 s : calm_at held_none s0 s ->
  wp False (directory_usable d path) (fun r s' => calm_at held_none s0 s' /\ (r = true -> has_lib s')) s.
Proof.
  intros H. unfold directory_usable. wp_step; [by wp_step|].
  eapply wp_use; [by apply ensure_calm|cbv beta]. intros r s1 [H1 H2].
  destruct (r =? FN_OK); cbn [negb]; [|by wp_step].
  eapply wp_mono; [|apply (proj1 (gentle_settles _)); [|split; [exact H1|exact H2]]].
  - cbv beta. intros b s2 [H3 H4]. by split.
  - gentle_go.
Qed.
Lemma refresh_calm s0 s : calm_at held_none s0 s ->
  wp False (refresh_directory d)
    (fun r s' => calm_at held_none s0 s' /\ (r = 0 -> has_lib s')) s.
Proof.
  intros H. unfold refresh_directory.
  eapply wp_use; [by apply resolve_same|cbv beta]. intros r s1 [H1 ->].
  destruct resolved as [v|] eqn:Er; [|by wp_step].
  do 2 wp_step. set (s2 := set_directory v s1).
  assert (H2 : calm_at held_none s0 s2).
  { subst s2. destruct H1. destruct ca_home0. split; try done. split; [done|]. cbn. by right. }
  eapply wp_use; [by apply (directory_usable_lib _ s2 s2), calm_at_refl; apply H2|cbv beta].
  intros usable s3 [H3 Hl]. 
  wp_step. split; [by eapply calm_at_trans|]. destruct usable; [|done]. intros _. by apply Hl.
Qed.
Lemma gentle_refresh {A} b (X Y : M (dir W) A) :
  gentle false X -> gentle true Y -> gentle b (rc ← refresh_directory d; if negb (rc =? 0) then X else Y).
Proof.
  intros HX HY. apply gentle_weaken. intros s0 s [H _]. eapply wp_use; [by apply refresh_calm|cbv beta].
  intros r s1 [H1 H2]. destruct (Z.eqb_spec r 0) as [->|]; cbn [negb].
  - eapply wp_mono; [|apply HY; split; [done|intros _; by apply H2]]. cbv beta. intros _ s' [? ?]. by split.
  - by apply HX.
Qed.

(** Names that say nothing of an uncertain exchange. *)
Definition silent (name : list Z) : Prop :=
  name <> AMBIGUOUS /\ name <> FN_DIRECTORY_TO_HOST_NAME /\ name <> FN_DIRECTORY_TO_HOST_NAME ++ DOT_READY.
#[local] Instance silent_dec name : Decision (silent name).
Proof. unfold silent. apply _. Defined.
Lemma silent_tmp name : silent (name ++ DOT_TMP).
Proof. split_and!; by apply tmp_differs. Qed.
Lemma silent_created name : silent name -> may_create (full home_dir name).
Proof. intros (? & ? & ?) _ t. cbn. by rewrite !is_path_name, !bool_decide_false. Qed.
Lemma silent_renamed name : silent name -> may_rename (full home_dir name ++ DOT_TMP) (full home_dir name).
Proof.
  intros (? & ? & ?) _ t. rewrite full_app. destruct (silent_tmp name) as (? & _).
  cbn. by rewrite !is_path_name, !bool_decide_false.
Qed.
Lemma may_create_tmp name : may_create (full home_dir name ++ DOT_TMP).
Proof. rewrite full_app. apply silent_created, silent_tmp. Qed.
Lemma may_delete_name name : name <> AMBIGUOUS -> may_delete (full home_dir name).
Proof. intros Hn _ t. cbn. by rewrite is_path_name, bool_decide_false. Qed.
Lemma may_delete_tmp name : may_delete (full home_dir name ++ DOT_TMP).
Proof. rewrite full_app. apply may_delete_name. by apply tmp_differs. Qed.
Lemma may_delete_ready name : may_delete (full home_dir name ++ DOT_READY).
Proof. rewrite full_app. apply may_delete_name. by apply ready_differs. Qed.
Hint Resolve may_delete_tmp may_delete_ready may_create_tmp : gentle.

Ltac dir_step :=
  lazymatch goal with
  | |- gentle _ (refresh_directory _ ≫= _) => apply gentle_refresh
  | |- gentle _ (file_size_of _ _ ≫= _) => apply gentle_size; intros
  | |- gentle _ (file_exists _ _) => apply file_exists_gentle
  | |- gentle _ (directory_usable _ _) => apply directory_usable_gentle
  | |- gentle _ (file_read_all _ _ _ _) => apply file_read_gentle
  | |- gentle _ (file_remove _ _) => apply file_remove_gentle
  | |- may_delete (full _ _) => by apply may_delete_name
  | |- gentle _ (file_write_tmp _ _ _ _) => apply file_write_gentle; [| |by unfold is_u32]
  end.
Ltac dir_go := repeat (cbn [negb]; first [dir_step | gentle_step | solve [auto with gentle]]).

Lemma identity_gentle b : gentle b (identity_is_native_test d).
Proof. unfold identity_is_native_test. dir_go. Qed.
Lemma discard_gentle b name : may_delete (full home_dir name) -> gentle b (discard_named d name).
Proof. intros. unfold discard_named. dir_go. Qed.
Lemma discard_records_gentle b : gentle b (discard_records d).
Proof. unfold discard_records. dir_go; by apply discard_gentle, may_delete_name. Qed.
Lemma lock_absent_gentle path : gentle true (lock_absent d path).
Proof. unfold lock_absent. dir_go. Qed.
Lemma named_absent_gentle name : gentle true (named_absent d name).
Proof. unfold named_absent. dir_go; apply lock_absent_gentle. Qed.
Lemma records_absent_gentle b : gentle b (fujinet_nio_directory_records_absent d).
Proof. unfold fujinet_nio_directory_records_absent. dir_go; apply named_absent_gentle. Qed.
Lemma client_reset_gentle b : gentle b (fujinet_nio_directory_client_reset d).
Proof. unfold fujinet_nio_directory_client_reset. dir_go. apply discard_records_gentle. Qed.
Lemma failed_gentle b : gentle b (failed_or_unavailable d).
Proof. unfold failed_or_unavailable. dir_go. Qed.
Lemma client_receive_gentle b buffer capacity : gentle b (fujinet_nio_directory_client_receive d buffer capacity).
Proof. unfold fujinet_nio_directory_client_receive. dir_go. Qed.
Lemma control_read_gentle b name : gentle b (control_read d name).
Proof. unfold control_read. dir_go. Qed.
Lemma consent_gentle token : gentle true (consent d token).
Proof.
  unfold consent. dir_go; [apply named_absent_gentle|apply control_read_gentle|by apply discard_gentle, may_delete_name].
Qed.
Lemma control_write_gentle name token : silent name -> gentle true (control_write d name token).
Proof.
  intros Hn. unfold control_write. dir_go;
    try first [by apply may_delete_name, Hn|by apply silent_created].
  apply file_rename_gentle. by apply silent_renamed.
Qed.
End Calm.
