(* ===== verification/DirectoryTrail.v ===== *)
(** * The directory backend and the trail it leaves

    What every call leaves behind: nothing held, the library used only while
    it is open, and, from V36 on, no request that may still execute without
    the AMBIGUOUS record, across calls, failures and restarts. *)

From S2P Require Import Prelude CString Effects FnLib NioBackend PacketBackend DirectoryBackend DirectoryProps.

#[local] Open Scope string_scope.
#[local] Open Scope list_scope.
#[local] Open Scope Z_scope.

(** Nothing can still execute; the request may, but the marker is there. *)
Definition intact (t : trail) : Prop := safe t = true.
Definition clear (t : trail) : Prop := pending t = false /\ safe t = true.
Definition announced (t : trail) : Prop := clear t /\ marker t = true.

(** The two ways in which a computation may move the trail. *)
Definition stays_clear (t1 t2 : trail) : Prop := clear t1 -> clear t2.
#[export] Instance stays_clear_preorder : PreOrder stays_clear.
Proof. split; [by intros t ?|]. intros t1 t2 t3 H1 H2 H. by apply H2, H1. Qed.

Section System.
Context `{L : FnLib, !FnLibOk L} {W : Type}.
Variable d : dos W.
Variables (lib : option Z) (env_n : Z) (env : list Z).
Context (Hdos : SteadyDos d lib env_n env).
Implicit Types s : dir W.
Abbreviation v36 := (36 <= version lib).
Abbreviation home' := (home lib env_n env).
Abbreviation home_d := (home_dir lib env_n env).
Abbreviation trail' := (trail_at lib env_n env).
Abbreviation calm_by R := (calm_at lib env_n env R held_none).
Abbreviation gentle_by R := (gentle lib env_n env R).

(** At rest after at most [n] sleeps, with a trail in [P]. *)
Record rests (n : nat) (P : trail -> Prop) s0 s : Prop := {
  re_held : held s = held_none;
  re_lib : has_lib s0 -> has_lib s;
  re_home : home' s;
  re_trail : v36 -> P (trail' s);
  re_naps : (naps s <= naps s0 + n)%nat
}.

Lemma rests_refl P s : held s = held_none -> home' s -> (v36 -> P (trail' s)) -> rests 0 P s s.
Proof. intros. split; try done. lia. Qed.
Lemma rests_trans n m P Q s0 s1 s2 : rests n P s0 s1 -> rests m Q s1 s2 -> rests (n + m) Q s0 s2.
Proof. intros [] []. split; try done; [auto|lia]. Qed.
Lemma rests_more n m (P Q : trail -> Prop) s0 s :
  rests n P s0 s -> (n <= m)%nat -> (forall t, P t -> Q t) -> rests m Q s0 s.
Proof. intros [] Hn HPQ. split; try done; [auto|lia]. Qed.
Lemma rests_calm R n (P Q : trail -> Prop) s0 s1 s2 :
  rests n P s0 s1 -> calm_by R s1 s2 -> (forall t1 t2, R t1 t2 -> P t1 -> Q t2) -> rests n Q s0 s2.
Proof.
  intros [] [] H. split; try done; [auto| |lia]. intros Hv. eapply H; [by apply ca_trail|by apply re_trail0].
Qed.

Lemma gentle_rests R `{!PreOrder R} {A} (m : M (dir W) A) b n (P Q : trail -> Prop) s0 s :
  gentle_by R b m -> rests n P s0 s -> (b = true -> has_lib s) -> (forall t1 t2, R t1 t2 -> P t1 -> Q t2) ->
  wp False m (fun _ s' => rests n Q s0 s' /\ (has_lib s -> has_lib s')) s.
Proof.
  intros Hm H Hl HPQ.
  assert (Hc : calm_lib lib env_n env R b s s).
  { split; [|done]. apply calm_at_refl; [done|apply H|apply H]. }
  eapply wp_mono; [|by apply Hm]. cbv beta. intros _ s' [H1 _]. split; [by eapply rests_calm|apply H1].
Qed.
(** The trail as it is. *)
Lemma still_rests {A} (m : M (dir W) A) b n P s0 s :
  gentle_by eq b m -> rests n P s0 s -> (b = true -> has_lib s) ->
  wp False m (fun _ s' => rests n P s0 s' /\ (has_lib s -> has_lib s')) s.
Proof. intros Hm H Hl. eapply (gentle_rests eq); [done|done|done|]. by intros t1 t2 ->. Qed.
Lemma clear_rests {A} (m : M (dir W) A) b n s0 s :
  gentle_by stays_clear b m -> rests n clear s0 s -> (b = true -> has_lib s) ->
  wp False m (fun _ s' => rests n clear s0 s' /\ (has_lib s -> has_lib s')) s.
Proof. intros Hm H Hl. eapply (gentle_rests stays_clear); [done|done|done|]. intros t1 t2. auto. Qed.
Lemma version_rests n P s0 s : rests n P s0 s -> has_lib s ->
  wp False lib_Version (fun v s' => rests n P s0 s' /\ has_lib s' /\ v = version lib) s.
Proof.
  intros H Hl. eapply wp_mono; [|apply (version_calm lib env_n env eq held_none s s); [done|]].
  - cbv beta. intros v s' [[H1 H2] ->]. split; [|done]. eapply rests_calm; [done|done|]. by intros t1 t2 ->.
  - split; [|done]. apply calm_at_refl; [apply _|apply H|apply H].
Qed.

Lemma rests_old n (P Q : trail -> Prop) s0 s : version lib < 36 -> rests n P s0 s -> rests n Q s0 s.
Proof. intros Hv []. split; try done. lia. Qed.

(** [path_of] in the home directory. *)
Lemma path_rests {A} name n P (k : option (list Z) -> M (dir W) A) Q s0 s :
  rests n P s0 s -> wp False (k None) Q s -> wp False (k (Some (full home_d name))) Q s ->
  wp False (path_of name ≫= k) Q s.
Proof.
  intros [] Hn Hs. unfold path_of. do 2 wp_step. destruct (join_path _ _ _) as [p|] eqn:Ej; [|done].
  apply join_path_full in Ej as (-> & Hne & _). destruct (ho_directory _ _ _ _ re_home0) as [|Hr]; [done|].
  replace (directory s) with home_d by (unfold home_dir; by rewrite Hr). done.
Qed.

(** ** The marker *)

Lemma clear_deletes name : may_delete lib env_n env stays_clear (full home_d name).
Proof.
  intros _ t [Hp Hs]. destruct t as [m p sf]. cbn in *. subst p sf. destruct (is_path _ _ _); done.
Qed.
Lemma discard_marker_rests n s0 s : rests n clear s0 s ->
  wp False (discard_named d AMBIGUOUS) (fun _ s' => rests n clear s0 s' /\ (has_lib s -> has_lib s')) s.
Proof. intros H. eapply (clear_rests _ false); [|done|done]. apply discard_gentle; [done|apply _|apply clear_deletes]. Qed.

Lemma naps_note e s : naps (note e s) = match e with Slept => S (naps s) | _ => naps s end.
Proof. unfold naps. change (log (note e s)) with (log s ++ [e]). rewrite List.filter_app, length_app. destruct e; cbn; lia. Qed.

(** A rename that succeeds. *)
Lemma file_rename_rests n (P : trail -> Prop) from to s0 s :
  rests n P s0 s -> has_lib s ->
  wp False (file_rename d from to)
    (fun r s' => has_lib s' /\ rests n (if r =? 0 then fun t => exists t0, P t0 /\ t = trail_step home_d t0 (Renamed from to) else P) s0 s') s.
Proof.
  intros H Hl. unfold file_rename.
  eapply wp_use; [apply (ensure_calm d lib env_n env Hdos eq s s), calm_at_refl; [apply _|apply H|apply H]|cbv beta].
  intros r s1 [H1 H2].
  destruct (Z.eqb_spec r FN_OK) as [->|Hne]; cbn [negb].
  2:{ wp_step. split; [by apply H1|]. cbn. eapply rests_calm; [done|done|]. by intros t1 t2 ->. }
  assert (G1 : rests n P s0 s1) by (eapply rests_calm; [done|done|]; by intros t1 t2 ->).
  unfold wp, dos_Rename, mbind, M_bind. destruct (Rename d (world s1) from to) as [w b].
  pose proof (no_dos_lib _ H2) as Hn. destruct G1 as [G1 G2 G3 G4 G5]. destruct G3.
  assert (Hh : held (s1 |> set_world w |> blame (no_dos s1)) = held_none) by (cbn; by rewrite G1, Hn).
  destruct b; (split; [done|]); (split; [done|done|by split| |]).
  - intros Hv. exists (trail' s1). split; [by apply G4|]. apply trail_snoc.
  - change (naps (note (Renamed from to) s1) <= naps s0 + n)%nat. by rewrite naps_note.
  - done.
  - done.
Qed.

Lemma trail_renamed t a b :
  trail_step home_d t (Renamed (full home_d a) (full home_d b)) =
  let t := if bool_decide (a = AMBIGUOUS) then unmark t else t in
  if bool_decide (b = AMBIGUOUS) then mark t
  else if bool_decide (b = FN_DIRECTORY_TO_HOST_NAME) then publish t else t.
Proof. unfold trail_step. by rewrite !is_path_name. Qed.

Lemma control_write_marker_rests n token s0 s : rests n clear s0 s -> has_lib s ->
  wp False (control_write d AMBIGUOUS token)
    (fun r s' => has_lib s' /\ rests n (if r =? 0 then announced else clear) s0 s') s.
Proof.
  intros H Hl. unfold control_write.
  eapply path_rests; [done|by wp_step|]. wp_step; [by wp_step|].
  eapply wp_use; [by apply version_rests|cbv beta]. intros v s1 (G1 & L1 & ->).
  wp_step.
  { eapply wp_mono; [|eapply (clear_rests _ true); [|done|done]].
    - cbv beta. intros r s2 [G2 L2]. split; [by apply L2|]. by apply (rests_old _ clear); [lia|].
    - apply file_write_gentle; [done|apply _|apply clear_deletes|intros ?; lia|by unfold is_u32]. }
  set (tmp := full _ _ ++ _).
  eapply wp_use; [eapply (clear_rests _ true); [|done|done]|cbv beta].
  { apply file_write_gentle; [done|apply _|apply may_delete_tmp, _|apply may_create_tmp, _|by unfold is_u32]. }
  intros r s2 [G2 L2]. wp_step; [wp_step; split; [by apply L2|done]|].
  eapply wp_use; [eapply (clear_rests _ true); [eapply file_remove_gentle; [done|apply _|apply clear_deletes]|done|]|cbv beta].
  { intros _. by apply L2, L1. }
  intros r' s3 [G3 L3]. wp_step; [wp_step; split; [by apply L3, L2|done]|].
  eapply wp_use; [by apply file_rename_rests, L3, L2|cbv beta]. intros r'' s4 [L4 G4].
  wp_step. split; [done|]. destruct (r'' =? 0); cbn; [|done].
  eapply rests_more; [done|lia|]. intros t (t0 & [Hp Hsf] & ->). subst tmp. rewrite full_app.
  rewrite trail_renamed, (bool_decide_true (AMBIGUOUS = AMBIGUOUS)) by done.
  rewrite (bool_decide_false (AMBIGUOUS ++ DOT_TMP = AMBIGUOUS)) by by apply tmp_differs. by split.
Qed.

Lemma discard_rests n P name s0 s : name <> AMBIGUOUS -> rests n P s0 s ->
  wp False (discard_named d name) (fun _ s' => rests n P s0 s' /\ (has_lib s -> has_lib s')) s.
Proof.
  intros Hn H. eapply (still_rests _ false); [|done|done].
  apply discard_gentle; [done|apply _|]. by apply may_delete_name; [apply _|].
Qed.

(** ** A transfer *)

Lemma mark_ambiguous_rests n s0 s : rests n clear s0 s -> has_lib s ->
  wp False (mark_ambiguous d)
    (fun b s' => has_lib s' /\ rests n (if b then announced else clear) s0 s') s.
Proof.
  intros H Hl. unfold mark_ambiguous. do 2 wp_step.
  eapply wp_use; [instantiate (1 := fun _ s' => has_lib s' /\ rests n clear s0 s')|cbv beta].
  { wp_step; [|by wp_step]. eapply wp_mono; [|eapply (still_rests _ true); [|done|done]].
    - cbv beta. intros b s1 [G1 L1]. split; [by apply L1|done].
    - by apply named_absent_gentle. }
  intros absent s1 [L1 G1]. wp_step; [by wp_step|].
  eapply wp_use; [by apply version_rests|cbv beta]. intros v s2 (G2 & L2 & ->).
  eapply wp_use; [instantiate (1 := fun _ s' => has_lib s' /\ rests n clear s0 s')|cbv beta].
  { wp_step; [|by wp_step]. eapply wp_mono; [|eapply (still_rests _ true); [|done|done]].
    - cbv beta. intros b s3 [G3 L3]. split; [by apply L3|done].
    - apply control_read_gentle; apply _. }
  intros current s3 [L3 G3]. do 2 wp_step. wp_step; [by wp_step|].
  eapply wp_use; [by apply discard_rests|cbv beta]. intros r s4 [G4 L4]. wp_step; [wp_step; split; [by apply L4|done]|].
  eapply wp_use; [by apply control_write_marker_rests, L4|cbv beta]. intros r' s5 [L5 G5].
  by wp_step.
Qed.

(** A request is published at the last step, or not at all. *)
Definition sent_trail (status : dir_status) : trail -> Prop :=
  if bool_decide (status = FN_DIR_OK) then fun t => marker t = true /\ safe t = true else clear.

Lemma not_sent_rests n status s0 s : status <> FN_DIR_OK -> rests n announced s0 s -> rests n (sent_trail status) s0 s.
Proof.
  intros Hs H. unfold sent_trail. rewrite bool_decide_false by done. eapply rests_more; [done|done|]. by intros t [? _].
Qed.
Lemma failed_status s : wp True (failed_or_unavailable d) (fun r _ => r <> FN_DIR_OK) s.
Proof. unfold failed_or_unavailable. wp_step. wp_step. apply wp_past. intros [] s'; by wp_step. Qed.
Lemma failed_rests n s0 s : rests n announced s0 s ->
  wp False (failed_or_unavailable d) (fun r s' => rests n (sent_trail r) s0 s') s.
Proof.
  intros H. eapply wp_mono; [|apply wp_returns; [|apply failed_status]].
  2:{ eapply (still_rests _ false); [|done|done]. apply failed_gentle; apply _. }
  cbv beta. intros r s' [[H1 _] H2]. by apply not_sent_rests.
Qed.

Lemma exists_rests n P path s0 s : rests n P s0 s ->
  wp False (file_exists d path) (fun _ s' => rests n P s0 s' /\ (has_lib s -> has_lib s')) s.
Proof. intros H. eapply (still_rests _ false); [|done|done]. apply file_exists_gentle; apply _. Qed.
Lemma remove_tmp_rests n P name s0 s : rests n P s0 s ->
  wp False (file_remove d (full home_d name ++ DOT_TMP)) (fun _ s' => rests n P s0 s' /\ (has_lib s -> has_lib s')) s.
Proof.
  intros H. eapply (still_rests _ false); [|done|done].
  apply file_remove_gentle; [apply _|apply _|]. apply may_delete_tmp; apply _.
Qed.
Lemma write_tmp_rests n P name packet size s0 s : is_u32 size -> rests n P s0 s ->
  wp False (file_write_tmp d (full home_d name ++ DOT_TMP) packet size)
    (fun _ s' => rests n P s0 s' /\ (has_lib s -> has_lib s')) s.
Proof.
  intros Hs H. eapply (still_rests _ false); [|done|done].
  apply file_write_gentle; [apply _|apply _| | |done]; [apply may_delete_tmp|apply may_create_tmp]; apply _.
Qed.

Lemma publish_v36_rests n packet size s0 s :
  is_u32 size -> rests n announced s0 s -> has_lib s ->
  wp False (publish_v36 d (full home_d FN_DIRECTORY_TO_HOST_NAME) packet size)
    (fun r s' => rests n (sent_trail r) s0 s') s.
Proof.
  intros Hs H Hl. unfold publish_v36. wp_step; [wp_step; by apply not_sent_rests|]. cbv zeta.
  eapply wp_use; [by apply write_tmp_rests|cbv beta]. intros r s1 [G1 L1].
  wp_step; [by apply failed_rests|].
  eapply wp_use; [by apply exists_rests|cbv beta]. intros there s2 [G2 L2].
  wp_step.
  { eapply wp_use; [by apply remove_tmp_rests|cbv beta]. intros _ s3 [G3 _]. wp_step. by apply not_sent_rests. }
  eapply wp_use; [by apply file_rename_rests, L2, L1|cbv beta]. intros r' s3 [L3 G3].
  destruct (r' =? 0) eqn:Er; cbn [negb].
  { wp_step. unfold sent_trail. rewrite bool_decide_true by done. eapply rests_more; [done|done|].
    intros t (t0 & [[Hp Hsf] Hm] & ->). rewrite full_app, trail_renamed.
    rewrite (bool_decide_false (_ ++ _ = _)) by by apply tmp_differs.
    rewrite (bool_decide_false (_ = AMBIGUOUS)), (bool_decide_true (_ = _)) by done. cbn. by rewrite Hm, Hsf. }
  eapply wp_use; [by apply remove_tmp_rests|cbv beta]. intros _ s4 [G4 _].
  eapply wp_use; [by apply exists_rests|cbv beta]. intros there' s5 [G5 _].
  wp_step; [wp_step; by apply not_sent_rests|by apply failed_rests].
Qed.

Lemma publish_v34_gentle packet size :
  version lib < 36 -> is_u32 size ->
  gentle_by eq true (publish_v34 d (full home_d FN_DIRECTORY_TO_HOST_NAME) packet size).
Proof.
  intros Hv Hs. unfold publish_v34.
  assert (Hf : gentle_by eq true (failed_or_unavailable d)) by (apply failed_gentle; apply _).
  assert (Hc : forall p, may_create lib env_n env eq p) by (intros p Hp; lia).
  assert (Hd : forall p, may_delete lib env_n env eq p) by (intros p Hp; lia).
  repeat first [exact Hf | apply gentle_if; intros | apply gentle_ret
    | apply gentle_bind; [first [apply file_write_gentle; [apply _|apply _|done|done|by unfold is_u32 in *]
                                | apply file_remove_gentle; [apply _|apply _|done]
                                | apply discard_gentle; [apply _|apply _|done]]|intros]].
Qed.

Lemma client_send_rests n packet size s0 s :
  0 <= size -> rests n announced s0 s ->
  wp False (fujinet_nio_directory_client_send d (Some packet) size)
    (fun r s' => rests n (sent_trail r) s0 s') s.
Proof.
  intros Hs H. unfold fujinet_nio_directory_client_send.
  eapply wp_use; [apply (refresh_calm d lib env_n env Hdos eq s s), calm_at_refl; [apply _|apply H|apply H]|cbv beta].
  intros r s1 [H1 H2]. assert (G1 : rests n announced s0 s1).
  { eapply rests_calm; [done|done|]. by intros t1 t2 ->. }
  destruct (Z.eqb_spec r 0) as [->|]; cbn [negb]; [|wp_step; by apply not_sent_rests].
  wp_step; [wp_step; by apply not_sent_rests|]. destruct (Z.gtb_spec size FN_DIRECTORY_PACKET_CAPACITY) as [|Hle].
  { wp_step. by apply not_sent_rests. }
  assert (is_u32 size) by (unfold is_u32, FN_DIRECTORY_PACKET_CAPACITY in *; lia).
  eapply path_rests; [done|wp_step; by apply not_sent_rests|].
  eapply wp_use; [by apply exists_rests|cbv beta]. intros there s2 [G2 L2].
  wp_step; [wp_step; by apply not_sent_rests|].
  eapply wp_use; [apply version_rests; [done|by apply L2, H2]|cbv beta]. intros v s3 (G3 & L3 & ->).
  wp_step; [|by apply publish_v36_rests].
  eapply wp_mono; [|eapply (still_rests _ true); [apply publish_v34_gentle; [lia|done]|done|done]].
  cbv beta. intros r s4 [G4 _]. eapply rests_old; [lia|done].
Qed.

(** The library stays open. *)
Lemma wp_lib {A} (m : M (dir W) A) n P Q s0 s :
  (forall s0, rests n P s0 s -> wp False m (fun a s' => rests n (Q a) s0 s') s) -> rests n P s0 s ->
  wp False m (fun a s' => rests n (Q a) s0 s' /\ (has_lib s -> has_lib s')) s.
Proof.
  intros Hm H. eapply wp_mono; [|apply wp_and; [apply (Hm s0 H)|apply (Hm s)]].
  - cbv beta. intros a s' [G1 G2]. split; [done|apply G2].
  - destruct H. split; try done. lia.
Qed.

(** ** Waiting *)

Lemma note_rests n P Q e s0 s : rests n P s0 s -> (forall t, P t -> Q (trail_step home_d t e)) ->
  rests (match e with Slept => S n | _ => n end) Q s0 (note e s).
Proof.
  intros [H1 H2 H3 H4 H5] HQ. destruct H3. split; [done|done|by split| |].
  - intros Hv. change (trail' (note e s)) with (trail_of home_d (log s ++ [e])). rewrite trail_snoc. by apply HQ, H4.
  - rewrite naps_note. destruct e; lia.
Qed.
Lemma Delay_rests n P ticks s0 s : rests n P s0 s -> has_lib s ->
  wp False (dos_Delay d ticks) (fun _ s' => rests (S n) P s0 s' /\ has_lib s') s.
Proof.
  intros H Hl. unfold dos_Delay. wp_step. split; [|done].
  apply (note_rests n P P Slept); [|done]. destruct H as [H1 H2 [H3 H3'] H4 H5].
  split; [|done|by split|done|done]. cbn. by rewrite H1, no_dos_lib.
Qed.
Lemma sleep_rests n P s0 s : rests n P s0 s ->
  wp False (sleep_poll d) (fun _ s' => rests (S n) P s0 s' /\ (has_lib s -> has_lib s')) s.
Proof.
  intros H. unfold sleep_poll. unfold wp at 1. destruct (no_dos s) eqn:En.
  - split; [|done]. eapply rests_more; [done|lia|done].
  - assert (Hl : has_lib s) by (unfold no_dos in En; by apply negb_false_iff, bool_decide_eq_true in En).
    pose proof (Delay_rests n P 1 s0 s H Hl) as Hd. unfold wp in Hd.
    destruct (dos_Delay d 1 s) as [[[] s']|]; [|done]. by destruct Hd.
Qed.

Lemma transfer_loop_rests k : forall fuel n P response capacity elapsed s0 s,
  elapsed = 5000 - 20 * Z.of_nat k -> (k < fuel)%nat -> rests n P s0 s ->
  wp False (transfer_loop d fuel response capacity elapsed)
    (fun r s' => rests (n + k) P s0 s' /\ r.1.1 <> FN_PACKET_REJECTED) s.
Proof.
  induction k as [|k IH]; intros [|fuel] n P response capacity elapsed s0 s He Hk H; try lia.
  all: assert (Hgive : forall m resp s', rests n P s0 s' -> (n <= m)%nat ->
    wp False (discard_named d FN_DIRECTORY_TO_HOST_NAME;; mret (FN_PACKET_UNKNOWN, resp, 0))
      (fun (r : fn_packet_outcome_t * list Z * Z) s'' => rests m P s0 s'' /\ r.1.1 <> FN_PACKET_REJECTED) s').
  1,3: intros m resp s' H' Hm; eapply wp_use; [by apply discard_rests|cbv beta]; intros _ s1 [G1 _]; wp_step;
    split; [by eapply rests_more|done].
  all: cbn [transfer_loop]; unfold FUJINET_NIO_DIRECTORY_TRANSFER_TIMEOUT_MS, FN_DIR_SLEEP_MS.
  all: destruct (Z.leb_spec elapsed 5000); [cbn [negb]|lia].
  all: eapply wp_use; [eapply (still_rests _ false); [apply client_receive_gentle; apply _|done|done]|cbv beta].
  all: intros [[rec resp] got] s1 [G1 _]; case_decide; [wp_step; split; [eapply rests_more; [done|lia|done]|done]|].
  all: wp_step; [apply Hgive; [done|lia]|].
  - rewrite (proj2 (Z.eqb_eq _ _)) by lia. apply Hgive; [done|lia].
  - rewrite (proj2 (Z.eqb_neq _ _)) by lia. eapply wp_use; [by apply sleep_rests|cbv beta].
    intros _ s2 [G2 _]. replace (n + S k)%nat with (S n + k)%nat by lia. apply IH; [lia|lia|done].
Qed.

(** What a transfer may have left: a request is pending with its marker. *)
Definition transferred (outcome : fn_packet_outcome_t) : trail -> Prop :=
  if bool_decide (outcome = FN_PACKET_REJECTED) then clear else intact.
Lemma directory_transfer_rests request n response capacity s0 s :
  0 <= n -> rests 0 clear s0 s -> has_lib s ->
  wp False (directory_transfer d request n response capacity)
    (fun r s' => rests 250 (transferred r.1.1) s0 s') s.
Proof.
  intros Hn H Hl. unfold directory_transfer.
  eapply wp_use; [by apply mark_ambiguous_rests|cbv beta]. intros marked s1 [L1 G1].
  destruct marked; cbn [negb].
  2:{ wp_step. eapply rests_more; [done|lia|]. by intros t [_ ?]. }
  eapply wp_use; [by apply client_send_rests|cbv beta]. intros sent s2 G2. unfold sent_trail in G2.
  destruct (bool_decide (sent = FN_DIR_OK)) eqn:Es; cbn [negb].
  - assert (G3 : rests 0 intact s0 s2) by (eapply rests_more; [done|lia|by intros t [_ ?]]).
    eapply wp_mono; [|apply (transfer_loop_rests 250); [done|unfold poll_fuel; lia|done]].
    cbv beta. intros r s3 [G4 Hr]. unfold transferred. by rewrite bool_decide_false.
  - eapply wp_use; [by apply discard_marker_rests|cbv beta]. intros r s3 [G3 _].
    wp_step. eapply rests_more; [done|lia|]. intros t Ht. unfold transferred. cbn.
    destruct (negb (r =? 0)); [by apply Ht|done].
Qed.

(** ** Proof of quiescence *)

Definition proved (result : Z) : trail -> Prop := if result =? FN_OK then clear else intact.
Lemma clear_proved result t : clear t -> proved result t.
Proof. unfold proved. destruct (_ =? _); [done|]. by intros [_ ?]. Qed.
Lemma not_proved result n s0 s : result <> FN_OK -> rests n intact s0 s -> rests n (proved result) s0 s.
Proof. intros Hr%Z.eqb_neq H. unfold proved. by rewrite Hr. Qed.

Lemma session_rests n P v ready s0 s : rests n P s0 s -> rests n P s0 (set_session v ready s).
Proof. intros [H1 H2 [H3 H3'] H4 H5]. by split. Qed.

Lemma accept_rests n challenge s0 s : rests n intact s0 s ->
  wp False (accept_challenge d challenge)
    (fun r s' => rests n (proved r) s0 s') s.
Proof.
  intros H. unfold accept_challenge. do 2 wp_step.
  eapply wp_use; [apply (discard_marker_rests n s0)|cbv beta].
  { apply (note_rests n intact clear Settled); [done|]. intros t Ht. by split. }
  intros r s1 [G1 _]. wp_step; [wp_step|do 3 wp_step; apply session_rests];
    (eapply rests_more; [done|lia|apply clear_proved]).
Qed.

Lemma control_read_rests n P name s0 s : rests n P s0 s ->
  wp False (control_read d name) (fun _ s' => rests n P s0 s' /\ (has_lib s -> has_lib s')) s.
Proof. intros H. eapply (still_rests _ false); [|done|done]. apply control_read_gentle; apply _. Qed.

Lemma quiesce_loop_rests k : forall fuel n token elapsed s0 s,
  elapsed = 5020 - 20 * Z.of_nat k -> (k < fuel)%nat -> rests n intact s0 s ->
  wp False (quiesce_loop d fuel token elapsed) (fun r s' => rests (n + k) (proved r) s0 s') s.
Proof.
  pose proof fn_err_transport_ok as Ht.
  induction k as [|k IH]; intros [|fuel] n token elapsed s0 s He Hk H; try lia; cbn [quiesce_loop];
    unfold FUJINET_NIO_DIRECTORY_TRANSFER_TIMEOUT_MS, FN_DIR_SLEEP_MS.
  { destruct (Z.leb_spec elapsed 5000); [lia|]. cbn [negb]. wp_step. rewrite Nat.add_0_r. by apply not_proved. }
  destruct (Z.leb_spec elapsed 5000) as [_|]; [cbn [negb]|lia].
  assert (Hagain : forall s', rests n intact s0 s' ->
    wp False (sleep_poll d;; quiesce_loop d fuel token (elapsed + 20)) (fun r s' => rests (n + S k) (proved r) s0 s') s').
  { intros s' H'. eapply wp_use; [by apply sleep_rests|cbv beta]. intros _ s2 [G2 _].
    replace (n + S k)%nat with (S n + k)%nat by lia. apply IH; [lia|lia|done]. }
  eapply wp_use; [by apply control_read_rests|cbv beta]. intros ack s1 [G1 _].
  wp_step; [by apply Hagain|].
  eapply wp_use; [by apply control_read_rests|cbv beta]. intros [next|] s2 [G2 _]; [|by apply Hagain].
  wp_step; [by apply Hagain|]. eapply wp_mono; [|by apply accept_rests]. cbv beta. intros r s3 G3.
  eapply rests_more; [done|lia|done].
Qed.

Lemma barrier_silent token : silent (BARRIER ++ token).
Proof. split_and!; done. Qed.

Lemma directory_quiesce_rests s0 s : rests 0 intact s0 s ->
  wp False (directory_quiesce d) (fun r s' => rests 251 (proved r) s0 s') s.
Proof.
  intros H. pose proof fn_err_transport_ok as Ht. unfold directory_quiesce. do 2 wp_step.
  apply (session_rests _ _ (session_challenge s) false) in H.
  set (s1 := set_session _ _ s) in *.
  assert (Hno : forall s', rests 0 intact s0 s' -> wp False (mret FN_ERR_TRANSPORT) (fun r s' => rests 251 (proved r) s0 s') s').
  { intros s' H'. wp_step. apply not_proved; [done|]. eapply rests_more; [done|lia|done]. }
  eapply wp_use; [apply (refresh_calm d lib env_n env Hdos eq s1 s1), calm_at_refl; [apply _|apply H|apply H]|cbv beta].
  intros r s2 [H2 L2]. assert (G2 : rests 0 intact s0 s2).
  { eapply rests_calm; [done|done|]. by intros t1 t2 ->. }
  destruct (Z.eqb_spec r 0) as [->|]; cbn [negb]; [|by apply Hno].
  eapply wp_use; [by apply control_read_rests|cbv beta]. intros [token|] s3 [G3 L3]; [|by apply Hno].
  assert (L3' : has_lib s3) by by apply L3, L2.
  eapply wp_use; [eapply (still_rests _ true); [apply consent_gentle; apply _|done|done]|cbv beta].
  intros allowed s4 [G4 L4]. wp_step; [by apply Hno|].
  eapply wp_use; [by apply discard_rests|cbv beta]. intros r5 s5 [G5 L5]. wp_step; [by apply Hno|].
  eapply wp_use; [eapply (still_rests _ true); [|done|by intros; apply L5, L4]|cbv beta].
  { apply control_write_gentle; [apply _|apply _|apply barrier_silent]. }
  intros r6 s6 [G6 L6]. wp_step; [by apply Hno|].
  eapply wp_use; [apply version_rests; [done|by apply L6, L5, L4]|cbv beta]. intros v s7 (G7 & L7 & ->).
  wp_step.
  - eapply wp_use; [by apply Delay_rests|cbv beta]. intros _ s8 [G8 _].
    eapply wp_mono; [|by apply accept_rests]. cbv beta. intros r8 s9 G9. eapply rests_more; [done|lia|done].
  - apply (quiesce_loop_rests 251 poll_fuel 0); [done|unfold poll_fuel; lia|done].
Qed.
End System.
