(* ===== verification/DirectorySystem.v ===== *)
(** * The directory backend from boot

    Calls of the backend, one after the other and across restarts: every call
    returns within its waits, holds nothing and uses dos.library only while
    it is open; the guard's quarantine and the AMBIGUOUS record tell the
    truth about what may still execute. *)

From S2P Require Import Prelude CString Effects FnLib NioBackend PacketBackend DirectoryBackend DirectoryProps DirectoryTrail.

#[local] Open Scope list_scope.
#[local] Open Scope Z_scope.

(** The statics as loaded, with what happened to the directory before. *)
Definition dir_boot {W} (w : W) (events : list event) : dir W := mkDir w held_none events None [] (zeros 33) false.
Definition state_boot {W} (w : W) (events : list event) : @state W :=
  mkState (mkBackend (zeros (Z.to_nat FN_DIRECTORY_PACKET_CAPACITY)) 0 false false false) false
    (zeros (Z.to_nat FN_DIRECTORY_PACKET_CAPACITY)) (dir_boot w events).

Inductive directory_call :=
  | CallOpen
  | CallClose
  | CallExchange (request : option (list Z)) (request_len : Z) (response : option (list Z)) (capacity : Z)
  | CallSetBaud (baud : Z)
  | CallSetSerial (unit : Z) (name : list Z).

Section System.
Context `{L : FnLib, !FnLibOk L} {W : Type}.
Variable d : dos W.
Implicit Types (s : dir W) (b : @state W) (g : fn_packet_backend_t).

Definition call (c : directory_call) b : @state W :=
  match c with
  | CallOpen => (backend_open d b).2
  | CallClose => backend_close d b
  | CallExchange q n r c => (backend_exchange d q n r c b).2
  | CallSetBaud baud => (backend_set_baud baud b).2
  | CallSetSerial unit name => (backend_set_serial unit name b).2
  end.
Definition call_ok (c : directory_call) : Prop :=
  match c with CallExchange _ n _ _ => 0 <= n | _ => True end.
Definition calls (cs : list directory_call) b : @state W := fold_left (fun b c => call c b) cs b.

Variables (lib : option Z) (env_n : Z) (env : list Z).
Context (Hdos : SteadyDos d lib env_n env).
Abbreviation v36 := (36 <= version lib).
Abbreviation home_d := (home_dir lib env_n env).
Abbreviation trail' := (trail_at lib env_n env).
Abbreviation rests' := (rests lib env_n env).

(** ** The guard over the directory *)

(** Out of quarantine, nothing is pending. *)
Definition certain g (t : trail) : Prop := intact t /\ (quarantined g = false -> pending t = false).
Record guarded (n : nat) s0 g s : Prop := {
  gu_rests : rests' n (certain g) s0 s;
  gu_active : active g = false;
  gu_lib : opened g = true -> has_lib s
}.

Lemma did_spec {A} (m : M (dir W) A) fallback Q s :
  wp False m Q s -> Q (did m fallback s).1 (did m fallback s).2.
Proof. intros H. apply wp_total in H as (a & s' & E & H). unfold did. by rewrite E. Qed.
Lemma rests_rebase n P s0 s : rests' n P s0 s -> rests' 0 P s s.
Proof. intros []. apply rests_refl; done. Qed.

(** A computation that leaves the trail as it is. *)
Lemma did_still {A} (m : M (dir W) A) fallback n P s0 s :
  gentle lib env_n env eq false m -> rests' n P s0 s ->
  rests' n P s0 (did m fallback s).2 /\ (has_lib s -> has_lib (did m fallback s).2).
Proof.
  intros Hm H. apply (did_spec m fallback (fun _ s' => rests' n P s0 s' /\ (has_lib s -> has_lib s'))).
  by apply (still_rests _ _ _ _ false).
Qed.
Lemma refresh_still fallback n P s0 s : rests' n P s0 s ->
  rests' n P s0 (did (refresh_directory d) fallback s).2 /\
  (has_lib s -> has_lib (did (refresh_directory d) fallback s).2) /\
  ((did (refresh_directory d) fallback s).1 = 0 -> has_lib (did (refresh_directory d) fallback s).2).
Proof.
  intros H.
  apply (did_spec (refresh_directory d) fallback
    (fun r s' => rests' n P s0 s' /\ (has_lib s -> has_lib s') /\ (r = 0 -> has_lib s'))).
  eapply wp_mono; [|apply (refresh_calm d lib env_n env Hdos eq s s), calm_at_refl; [apply _|apply H|apply H]].
  cbv beta. intros r s1 [H1 H2]. split; [|split; [apply H1|done]].
  eapply rests_calm; [done|done|]. by intros t1 t2 ->.
Qed.

(** ** The callbacks *)

Lemma directory_open_still n P s0 s : rests' n P s0 s ->
  wp False (directory_open d) (fun r s' => rests' n P s0 s' /\ (r = FN_OK -> has_lib s')) s.
Proof.
  intros H. unfold directory_open.
  eapply wp_use; [apply (refresh_calm d lib env_n env Hdos eq s s), calm_at_refl; [apply _|apply H|apply H]|cbv beta].
  intros r s1 [H1 H2]. assert (G1 : rests' n P s0 s1).
  { eapply rests_calm; [done|done|]. by intros t1 t2 ->. }
  destruct (Z.eqb_spec r 0) as [->|]; cbn [negb].
  2:{ wp_step. split; [done|]. intros E. by apply fn_err_transport_ok in E. }
  eapply wp_use; [eapply (still_rests _ _ _ _ false); [apply identity_gentle; apply _|done|done]|cbv beta].
  intros native s2 [G2 L2]. wp_step. split; [done|]. intros _. by apply L2, H2.
Qed.
Lemma directory_close_still n P s0 s : rests' n P s0 s ->
  wp False (directory_close d) (fun _ s' => rests' n P s0 s' /\ (has_lib s -> has_lib s')) s.
Proof.
  intros H. unfold directory_close.
  eapply wp_use; [apply (refresh_calm d lib env_n env Hdos eq s s), calm_at_refl; [apply _|apply H|apply H]|cbv beta].
  intros r s1 [H1 H2]. assert (G1 : rests' n P s0 s1).
  { eapply rests_calm; [done|done|]. by intros t1 t2 ->. }
  wp_step; [|split; [done|apply H1]].
  eapply wp_use; [eapply (still_rests _ _ _ _ false); [apply discard_records_gentle; apply _|done|done]|cbv beta].
  intros _ s2 [G2 L2]. wp_step. split; [done|]. intros Hl. by apply L2, H1.
Qed.

(** ** The guard's operations *)

Abbreviation io := (fujinet_nio_directory_io d).

Lemma guard_open_guarded n s0 g s : guarded n s0 g s ->
  let '(r, g', s') := fn_packet_backend_open io g s in
  guarded n s0 g' s' /\ (r = FN_OK -> opened g' = true).
Proof.
  intros [H Ha Hl]. unfold fn_packet_backend_open. rewrite Ha.
  destruct (opened g) eqn:Eo; [split; [split; auto|done]|]. cbn [io_open fujinet_nio_directory_io].
  pose proof (did_spec (directory_open d) FN_ERR_IO _ s (directory_open_still n (certain g) s0 s H)) as Hd.
  destruct (did (directory_open d) FN_ERR_IO s) as [r s1]. destruct Hd as [Hd1 Hd2]. cbn in Hd1, Hd2.
  destruct (Z.eqb_spec r FN_OK) as [->|]; (split; [split|]); try done; cbn; intros; auto; congruence.
Qed.

Lemma guard_recover_guarded n s0 g s : guarded n s0 g s ->
  let '(r, g', s') := fn_packet_backend_recover io g s in
  guarded (n + 251) s0 g' s' /\ opened g' = opened g.
Proof.
  intros [H Ha Hl]. unfold fn_packet_backend_recover. rewrite Ha. cbn [io_quiesce fujinet_nio_directory_io].
  assert (H0 : rests' 0 intact s s).
  { eapply rests_rebase, rests_more; [exact H|reflexivity|]. by intros t [? _]. }
  pose proof (did_spec (directory_quiesce d) FN_ERR_IO _ s (directory_quiesce_rests d lib env_n env Hdos s s H0)) as Hd.
  destruct (did (directory_quiesce d) FN_ERR_IO s) as [r s1]. cbn in Hd. unfold proved in Hd.
  split; [|done]. split; cbn; [|done|intros Ho; apply Hd; auto].
  eapply rests_more; [by eapply rests_trans|lia|]. cbn beta.
  destruct (r =? FN_OK); intros t Ht; unfold certain; cbn; [|done]. destruct Ht. by split.
Qed.
Lemma guard_close_guarded n s0 g s : guarded n s0 g s ->
  let '(g', s') := fn_packet_backend_close io g s in
  guarded n s0 g' s' /\ opened g' = false.
Proof.
  intros [H Ha Hl]. unfold fn_packet_backend_close. rewrite Ha. cbn [orb].
  destruct (opened g) eqn:Eo; cbn [negb]; [|split; [split; auto; congruence|done]]. cbn [io_close fujinet_nio_directory_io].
  pose proof (did_spec (directory_close d) tt _ s (directory_close_still n (certain g) s0 s H)) as Hd.
  destruct (did (directory_close d) tt s) as [r s1]. destruct Hd as [Hd1 Hd2]. cbn in Hd1, Hd2. cbn.
  split; [|done]. by split.
Qed.

(** An exchange of a guard that is open or in its initial quarantine. *)
Lemma guard_exchange_guarded g s request n response capacity :
  guarded 0 s g s -> 0 <= n ->
  let x := fn_packet_backend_exchange io g s request n response capacity in
  active (x_backend x) = false /\ opened (x_backend x) = opened g /\ (opened g = true -> has_lib (x_world x)) /\
  if x_result x =? FN_OK then rests' 250 clear s (note Settled (x_world x))
  else rests' 250 (certain (x_backend x)) s (x_world x).
Proof.
  intros [H Ha Hl] Hn x. subst x. unfold fn_packet_backend_exchange. rewrite Ha.
  pose proof fn_err_invalid_ok as Hi%Z.eqb_neq. pose proof fn_err_transport_ok as Ht%Z.eqb_neq.
  assert (Hsame : rests' 250 (certain g) s s) by (eapply rests_more; [done|lia|done]).
  destruct request as [request|]; [|cbn; by rewrite Hi].
  destruct (_ || _); [cbn; by rewrite Hi|].
  destruct (negb (opened g) || quarantined g) eqn:Eo; [cbn; by rewrite Ht|].
  apply orb_false_iff in Eo as [Eo%negb_false_iff Eq]. cbn [io_transfer fujinet_nio_directory_io].
  set (m := directory_transfer d request n _ _).
  assert (H0 : rests' 0 clear s s).
  { eapply rests_more; [exact H|reflexivity|]. intros t [? Hp]. split; auto. }
  pose proof (did_spec m (FN_PACKET_UNKNOWN, scratch (set_quarantined true (set_active true g)), 0) _ s
    (directory_transfer_rests d lib env_n env Hdos _ _ _ _ s s Hn H0 (Hl Eo))) as Hd.
  destruct (did m _ s) as [[[outcome resp] len] s1]. cbn in Hd. unfold transferred in Hd. cbn zeta iota.
  assert (Hlib : has_lib s1) by by apply Hd, Hl.
  destruct (decide (outcome = FN_PACKET_REJECTED)) as [Hr|Hr].
  { subst outcome. cbn in Hd |- *. rewrite Ht. split_and!; try done.
    eapply rests_more; [done|lia|]. intros t [Hp Hs]. by split. }
  rewrite bool_decide_false in Hd by done.
  destruct (_ || _); cbn; [rewrite Ht|rewrite Z.eqb_refl]; split_and!; try done.
  - eapply rests_more; [done|lia|]. intros t Hs. by split.
  - apply (note_rests lib env_n env 250 intact clear Settled); [done|]. intros t Hs. by split.
Qed.

(** ** Calls *)

(** Between calls. *)
Record sound b : Prop := {
  so_held : held (dirs b) = held_none;
  so_home : home lib env_n env (dirs b);
  so_active : active (guard b) = false;
  so_lib : opened (guard b) = true -> has_lib (dirs b);
  so_inited : guard_inited b = false -> opened (guard b) = false;
  so_intact : v36 -> intact (trail' (dirs b));
  so_certain : v36 -> guard_inited b = true -> certain (guard b) (trail' (dirs b))
}.

Lemma sound_guarded b : sound b -> guard_inited b = true -> guarded 0 (dirs b) (guard b) (dirs b).
Proof. intros [] Hi. split; [|done|done]. apply rests_refl; auto. Qed.
Lemma guarded_sound n s0 b : guarded n s0 (guard b) (dirs b) -> guard_inited b = true -> sound b.
Proof.
  intros [[] Ha Hl] Hi. split; try done.
  - rewrite Hi. done.
  - intros Hv. by destruct (re_trail Hv).
  - auto.
Qed.

(** The trail of a state, and a move that keeps it. *)
Definition kept b (t : trail) : Prop := intact t /\ (guard_inited b = true -> certain (guard b) t).
Lemma sound_kept b : sound b -> rests' 0 (kept b) (dirs b) (dirs b).
Proof. intros []. apply rests_refl; [done|done|]. intros Hv. split; auto. Qed.
Lemma sound_moved n b s : sound b -> rests' n (kept b) (dirs b) s -> sound (set_dirs s b).
Proof.
  intros [] []. split; try done; cbn; auto.
  - intros Hv. by destruct (re_trail Hv).
  - intros Hv. by destruct (re_trail Hv).
Qed.

Definition within n b b' : Prop := sound b' /\ (naps (dirs b') <= naps (dirs b) + n)%nat.
Lemma moved_within n m b s : sound b -> rests' n (kept b) (dirs b) s -> (n <= m)%nat -> within m b (set_dirs s b).
Proof. intros Hb Hs Hn. split; [by eapply sound_moved|]. destruct Hs. cbn. lia. Qed.
Lemma guarded_within n b b' :
  guarded n (dirs b) (guard b') (dirs b') -> guard_inited b' = true -> within n b b'.
Proof. intros H Hi. split; [by eapply guarded_sound|]. apply H. Qed.

(** The guard when it may be opened: as it was, or new. *)
Lemma guard_ready_guarded b s : sound b -> rests' 0 (kept b) (dirs b) s ->
  let '(r, b') :=
    if guard_inited b then (FN_OK, set_dirs s b)
    else match fn_packet_backend_init (Some (scratch (guard b))) FN_DIRECTORY_PACKET_CAPACITY with
         | Some g => (FN_OK, mkState g true (completed b) s)
         | None => (FN_ERR_INVALID, set_dirs s b)
         end in
  (r = FN_OK -> guard_inited b' = true /\ guarded 0 (dirs b) (guard b') (dirs b')) /\
  (r <> FN_OK -> within 251 b b').
Proof.
  intros Hb Hs. destruct (guard_inited b) eqn:Ei.
  - split; [|done]. intros _. split; [done|]. destruct Hb, Hs. split; [|done|auto]. split; try done.
    intros Hv. by apply (re_trail Hv).
  - unfold fn_packet_backend_init. destruct (_ <? _).
    + split; [intros E; by apply fn_err_invalid_ok in E|]. intros _. eapply moved_within; [done|done|lia].
    + split; [|done]. intros _. split; [done|]. split; [|done|done]. destruct Hs. split; try done.
      intros Hv. split; [by destruct (re_trail Hv)|done].
Qed.

Lemma backend_open_within b : sound b -> within 251 b (backend_open d b).2.
Proof.
  intros Hb. unfold backend_open.
  pose proof (refresh_still (-1) _ _ _ _ (sound_kept b Hb)) as (G1 & _).
  destruct (did (refresh_directory d) (-1) (dirs b)) as [rc s1]. cbn [fst snd] in G1.
  destruct (rc =? 0); cbn [negb]; [|eapply moved_within; [done|done|lia]].
  cbn [dirs set_dirs].
  assert (Hi : gentle lib env_n env eq false (identity_is_native_test d)) by (apply identity_gentle; apply _).
  pose proof (did_still _ false _ _ _ s1 Hi G1) as [G2 _].
  destruct (did (identity_is_native_test d) false s1) as [native s2]. cbn [fst snd] in G2.
  change (set_dirs s2 (set_dirs s1 b)) with (set_dirs s2 b).
  destruct native; cbn [negb]; [|eapply (moved_within 0); [done|done|lia]].
  pose proof (guard_ready_guarded b s2 Hb G2) as Hr. 
  cbn [guard_inited set_dirs guard completed dirs].
  destruct (if guard_inited b then _ else _) as [result b1]. destruct Hr as [Hok Hbad].
  destruct (Z.eqb_spec result FN_OK) as [->|Hne]; cbn [negb]; [|by apply Hbad].
  destruct (Hok eq_refl) as [Hi1 Hg1]. pose proof (guard_open_guarded _ _ _ _ Hg1) as Ho.
  destruct (fn_packet_backend_open io (guard b1) (dirs b1)) as [[r2 g2] s3]. destruct Ho as [Hg2 _].
  destruct (r2 =? FN_OK); cbn [negb].
  2:{ apply guarded_within; [|done]. destruct Hg2. split; [eapply rests_more; [done|lia|done]|done|done]. }
  cbn [guard dirs]. pose proof (guard_recover_guarded _ _ _ _ Hg2) as Hrec.
  destruct (fn_packet_backend_recover io g2 s3) as [[r3 g3] s4]. destruct Hrec as [Hg3 _].
  destruct (r3 =? FN_OK); cbn [negb]; [by apply guarded_within|].
  cbn [guard dirs]. pose proof (guard_close_guarded _ _ _ _ Hg3) as Hc.
  destruct (fn_packet_backend_close io g3 s4) as [g4 s5]. destruct Hc as [Hg4 _]. by apply guarded_within.
Qed.

(** The guard of a state that is not initialised is closed. *)
Lemma backend_close_within b : sound b -> within 0 b (backend_close d b).
Proof.
  intros Hb. unfold backend_close.
  assert (Hc : let '(g, s) := fn_packet_backend_close io (guard b) (dirs b) in
    rests' 0 (fun t => intact t /\ (guard_inited b = true -> certain g t)) (dirs b) s /\ active g = false /\ opened g = false).
  { destruct (guard_inited b) eqn:Ei.
    - pose proof (guard_close_guarded _ _ _ _ (sound_guarded b Hb Ei)) as H.
      destruct (fn_packet_backend_close io (guard b) (dirs b)) as [g s]. destruct H as [[H1 H2 H3] H4].
      split; [|done]. eapply rests_more; [done|lia|]. intros t Ht. split; [apply Ht|done].
    - unfold fn_packet_backend_close. rewrite (so_active _ Hb), (so_inited _ Hb Ei). cbn.
      split; [|by rewrite (so_active _ Hb), (so_inited _ Hb Ei)].
      eapply rests_more; [by apply sound_kept|lia|]. intros t [Ht _]. by split. }
  destruct (fn_packet_backend_close io (guard b) (dirs b)) as [g s]. destruct Hc as (H & Ha & Ho).
  pose proof (refresh_still (-1) _ _ _ _ H) as (G1 & _).
  destruct (did (refresh_directory d) (-1) s) as [rc s1]. cbn [fst snd] in G1.
  assert (G2 : rests' 0 (fun t => intact t /\ (guard_inited b = true -> certain g t)) (dirs b)
    (if rc =? 0 then (did (discard_records d) (-1) s1).2 else s1)).
  { destruct (rc =? 0); [|done]. apply did_still; [|done]. apply discard_records_gentle; apply _. }
  destruct G2 as [H1 H2 [H3 H3'] H4 H5]. set (s2 := if rc =? 0 then _ else _) in *.
  assert (Hs : forall s', held s' = held s2 -> log s' = log s2 -> directory s' = directory s2 ->
    (DOSBase s' = DOSBase s2 \/ DOSBase s' = None) -> within 0 b (mkState g (guard_inited b) (completed b) s')).
  { intros s' E1 E2 E3 E4. split.
    - split; cbn; unfold trail_at; rewrite ?E1, ?E2; try done.
      + split; rewrite ?E3; [|done]. destruct E4 as [->| ->]; [done|]. by intros v.
      + by rewrite Ho.
      + intros Hv. by destruct (H4 Hv).
      + intros Hv. by destruct (H4 Hv).
    - cbn. unfold naps in *. rewrite E2. lia. }
  apply Hs; destruct (no_dos s2); cbn; auto.
Qed.

(** A guard that was never initialised refuses. *)
Lemma closed_exchange g s request n response capacity :
  active g = false -> opened g = false ->
  let x := fn_packet_backend_exchange io g s request n response capacity in
  x_backend x = g /\ x_world x = s /\ (x_result x =? FN_OK) = false.
Proof.
  intros Ha Ho x. subst x. unfold fn_packet_backend_exchange. rewrite Ha.
  pose proof fn_err_invalid_ok as Hi%Z.eqb_neq. pose proof fn_err_transport_ok as Ht%Z.eqb_neq.
  destruct request as [request|]; [|done]. destruct (_ || _); [done|]. by rewrite Ho.
Qed.

Lemma backend_exchange_within b request n response capacity :
  sound b -> 0 <= n -> within 250 b (backend_exchange d request n response capacity b).2.
Proof.
  intros Hb Hn. unfold backend_exchange.
  destruct response as [response|].
  2:{ split; [done|]. cbn. lia. }
  destruct (guard_inited b) eqn:Ei.
  2:{ pose proof (closed_exchange (guard b) (dirs b) request n (completed b) capacity (so_active _ Hb) (so_inited _ Hb Ei)) as Hx.
      destruct (fn_packet_backend_exchange _ _ _ _ _ _ _) as [r resp len g s]. cbn in Hx. destruct Hx as (-> & -> & Hr).
      cbn. rewrite Hr. split; [|cbn; lia]. destruct Hb. split; cbn; auto; intros; congruence. }
  pose proof (guard_exchange_guarded (guard b) (dirs b) request n (completed b) capacity (sound_guarded b Hb Ei) Hn) as Hx.
  destruct (fn_packet_backend_exchange _ _ _ _ _ _ _) as [r resp len g s]. cbn in Hx.
  destruct Hx as (Ha & Ho & Hl & Hx). cbn [x_result x_backend x_world x_response x_length].
  destruct (r =? FN_OK).
  2:{ apply guarded_within; [|done]. split; [done|done|cbn; by rewrite Ho]. }
  cbn [dirs]. set (s1 := note Settled s) in *.
  pose proof (did_spec (discard_named d AMBIGUOUS) (-1) _ s1 (discard_marker_rests d lib env_n env Hdos _ _ _ Hx)) as Hd.
  destruct (did (discard_named d AMBIGUOUS) (-1) s1) as [rc s2]. destruct Hd as [Hd1 Hd2]. cbn in Hd1, Hd2.
  destruct (rc =? 0); cbn [negb]; (apply guarded_within; [|done]); (split; [|done|]);
    cbn; rewrite ?Ho; try (intros; by apply Hd2, Hl).
  - eapply rests_more; [done|lia|]. intros t [Hp Hs]. by split.
  - apply session_rests. eapply rests_more; [done|lia|]. intros t [Hp Hs]. by split.
Qed.

Lemma call_within c b : sound b -> call_ok c -> within 251 b (call c b).
Proof.
  intros Hb Hc. assert (Hmore : forall m b', within m b b' -> (m <= 251)%nat -> within 251 b b').
  { intros m b' [H1 H2] Hm. split; [done|lia]. }
  destruct c; cbn [call].
  - by apply backend_open_within.
  - eapply Hmore; [by apply backend_close_within|lia].
  - eapply Hmore; [by apply backend_exchange_within|lia].
  - split; [done|cbn; lia].
  - split; [done|cbn; lia].
Qed.
Lemma calls_sound cs : forall b, sound b -> Forall call_ok cs -> sound (calls cs b).
Proof.
  induction cs as [|c cs IH]; intros b Hb Hcs; [done|]. inversion_clear Hcs. cbn.
  apply IH; [|done]. by apply call_within.
Qed.
Lemma boot_sound w events : (v36 -> intact (trail_of home_d events)) -> sound (state_boot w events).
Proof. intros H. split; try done. split; [done|by left]. Qed.

(** ** The record of an uncertain exchange *)

(** Histories of a directory: a process starts on an earlier one, makes
    calls, and is cut off at any moment. *)
Inductive history : list event -> Prop :=
  | history_none : history []
  | history_cut w earlier cs cut :
      history earlier -> Forall call_ok cs ->
      cut `prefix_of` log (dirs (calls cs (state_boot w earlier))) -> history cut.

Lemma history_intact l : v36 -> history l ->
  intact (trail_of home_d l) /\ (pending (trail_of home_d l) = true -> marker (trail_of home_d l) = true).
Proof.
  intros Hv. induction 1 as [|w earlier cs cut _ [IH _] Hcs Hcut]; [done|].
  assert (Hs : sound (calls cs (state_boot w earlier))) by (apply calls_sound; [by apply boot_sound|done]).
  apply (safe_marked home_d (log (dirs (calls cs (state_boot w earlier))))); [|done]. by apply (so_intact _ Hs).
Qed.

(** C25: from V36 on, whenever the machine stops, at whatever point of
    whatever calls and after any earlier crashes: if a request may still
    execute or answer, the AMBIGUOUS record is in the directory. *)
Theorem uncertainty_is_marked l : v36 -> history l ->
  pending (trail_of home_d l) = true -> marker (trail_of home_d l) = true.
Proof. intros Hv Hl. by apply history_intact. Qed.

(** C26: From dos.library V36 on, the guard out of quarantine is the truth:
    over a dos.library whose version and directory stay the same
    ([SteadyDos]), after any calls from boot, on a directory with any history
    of earlier runs and crashes, no request that was sent can still execute,
    unless the guard is in quarantine or was not initialised.  The hypothesis
    [v36] is needed: under V34 the creation of the marker file publishes the
    request, and when writing its byte fails the transfer counts as rejected,
    so a guard out of quarantine may have a request outstanding
    ([v34_rejects_published] in DirectoryBackendExample). *)
Theorem quarantine_is_truthful w earlier cs :
  v36 -> history earlier -> Forall call_ok cs ->
  let b := calls cs (state_boot w earlier) in
  guard_inited b = true -> quarantined (guard b) = false -> pending (trail_of home_d (log (dirs b))) = false.
Proof.
  intros Hv He Hcs b. assert (Hs : sound b) by (apply calls_sound; [apply boot_sound; intros; by apply history_intact|done]).
  intros Hi. by apply (so_certain _ Hs).
Qed.

(** C27: whatever dos.library does, after any calls no lock, block or file
    handle is held and the library was never used closed; and one more call
    waits for 251 polls at most. *)
Theorem directory_calls_tidy w cs c :
  Forall call_ok cs -> call_ok c ->
  let b := calls cs (state_boot w []) in
  held (dirs b) = held_none /\ (naps (dirs (call c b)) <= naps (dirs b) + 251)%nat.
Proof.
  intros Hcs Hc b. assert (Hs : sound b) by (apply calls_sound; [by apply boot_sound|done]).
  split; [by apply Hs|by apply call_within].
Qed.

Definition returns {A} (m : M (dir W) A) s : Prop := is_Some (m s).
Lemma wp_returning {A} (m : M (dir W) A) Q s : wp False m Q s -> returns m s.
Proof. intros H. apply wp_total in H as (a & s' & E & _). by eexists. Qed.

(** After any calls, every callback of the guard returns: no loop runs
    out of its bound. *)
Theorem directory_callbacks_return w cs :
  Forall call_ok cs ->
  let b := calls cs (state_boot w []) in
  let s := dirs b in
  returns (directory_open d) s /\ returns (directory_close d) s /\ returns (directory_local_reset d) s /\
  returns (directory_quiesce d) s /\
  (opened (guard b) = true -> quarantined (guard b) = false ->
   forall request n response capacity, 0 <= n -> returns (directory_transfer d request n response capacity) s).
Proof.
  intros Hcs b s. assert (Hs : sound b) by (apply calls_sound; [by apply boot_sound|done]).
  assert (Hi : rests' 0 intact s s) by (apply rests_refl; apply Hs).
  split_and!; try by eapply wp_returning, directory_open_still.
  - by eapply wp_returning, directory_close_still.
  - eapply wp_returning. unfold directory_local_reset.
    eapply wp_use; [eapply (still_rests _ _ _ _ false); [apply client_reset_gentle; apply _|done|done]|].
    instantiate (1 := fun _ _ => True). intros; by wp_step.
  - by eapply wp_returning, directory_quiesce_rests.
  - intros Ho Hq request n response capacity Hn.
    eapply wp_returning, directory_transfer_rests; [done|done| |by apply Hs].
    apply rests_refl; [apply Hs|apply Hs|]. intros Hv.
    assert (Hg : guard_inited b = true).
    { destruct (guard_inited b) eqn:E; [done|]. apply (so_inited _ Hs) in E. congruence. }
    destruct (so_certain _ Hs Hv Hg). split; auto.
Qed.
End System.
