(* ===== verification/DirectoryBackendExample.v ===== *)
(** * A directory and its peer

    A volume as a list of files, with a peer that answers the barrier and
    echoes packets whenever the guest sleeps. *)

From S2P Require Import Prelude CString Effects FnLib NioBackend PacketBackend DirectoryBackend DirectoryProps DirectorySystem.

#[local] Open Scope string_scope.
#[local] Open Scope list_scope.
#[local] Open Scope Z_scope.

(** ** The volume *)

Record volume := mkVolume {
  v_files : list (list Z * list Z);
  v_path : list Z;
  v_pos : nat;
  v_err : Z
}.

Fixpoint lookup_file (path : list Z) (files : list (list Z * list Z)) : option (list Z) :=
  match files with
  | [] => None
  | (p, body) :: files => if bool_decide (p = path) then Some body else lookup_file path files
  end.
Definition remove_file (path : list Z) (files : list (list Z * list Z)) : list (list Z * list Z) :=
  filter (fun f => f.1 <> path) files.
Definition store_file (path body : list Z) (files : list (list Z * list Z)) : list (list Z * list Z) :=
  (path, body) :: remove_file path files.

Definition NATIVE (name : list Z) : list Z := FN_DIRECTORY_DEFAULT_VOLUME ++ name.
Definition token_of (c : Z) : list Z := replicate 32 c ++ [10].

(** The peer proves that it is idle when it sees a barrier, and echoes a
    packet. *)
Definition peer_turn (files : list (list Z * list Z)) : list (list Z * list Z) :=
  let files :=
    match list_find (fun f => take 15 f.1 = NATIVE BARRIER) files with
    | Some (_, (path, token)) =>
        files |> remove_file path |> store_file (NATIVE ACK) token |> store_file (NATIVE CHALLENGE) (token_of 98)
    | None => files
    end in
  match lookup_file (NATIVE FN_DIRECTORY_TO_HOST_NAME) files with
  | Some packet =>
      files |> remove_file (NATIVE FN_DIRECTORY_TO_HOST_NAME)
            |> store_file (NATIVE FN_DIRECTORY_TO_GUEST_NAME) packet
  | None => files
  end.

Definition with_files (files : list (list Z * list Z)) (v : volume) : volume :=
  mkVolume files (v_path v) (v_pos v) (v_err v).

(** [turn] is what the peer does meanwhile; a write to [bad] fails. *)
Definition volume_dos (version : Z) (turn : list (list Z * list Z) -> list (list Z * list Z)) (bad : list Z)
    : dos volume := mkDos
  (fun v => (v, Some version))
  (fun v => v)
  (fun v _ _ => (v, 0, []))
  (fun v path =>
     let there := bool_decide (path = FN_DIRECTORY_DEFAULT_VOLUME) || bool_decide (is_Some (lookup_file path (v_files v))) in
     (mkVolume (v_files v) path O (if there then 0 else ERROR_OBJECT_NOT_FOUND), there))
  (fun v => v)
  v_err
  (fun v => (v, true))
  (fun v => v)
  (fun v path =>
     (v, match lookup_file path (v_files v) with
         | Some body => Some (-3, Z.of_nat (length body))
         | None => if bool_decide (path = FN_DIRECTORY_DEFAULT_VOLUME) then Some (2, 0) else None
         end))
  (fun v path mode =>
     if mode =? MODE_NEWFILE then (mkVolume (store_file path [] (v_files v)) path O 0, true)
     else (mkVolume (v_files v) path O 0, bool_decide (is_Some (lookup_file path (v_files v)))))
  (fun v len =>
     let bytes := slice (default [] (lookup_file (v_path v) (v_files v))) (v_pos v) (Z.to_nat len) in
     (mkVolume (v_files v) (v_path v) (v_pos v + length bytes) 0, Z.of_nat (length bytes), bytes))
  (fun v bytes =>
     let body := default [] (lookup_file (v_path v) (v_files v)) in
     if bool_decide (v_path v = bad) then (v, 0)
     else (mkVolume (store_file (v_path v) (body ++ bytes) (v_files v)) (v_path v) (v_pos v) 0, Z.of_nat (length bytes)))
  (fun v => (v, true))
  (fun v => (v, true))
  (fun v path =>
     match lookup_file path (v_files v) with
     | Some _ => (mkVolume (remove_file path (v_files v)) (v_path v) (v_pos v) 0, true)
     | None => (mkVolume (v_files v) (v_path v) (v_pos v) ERROR_OBJECT_NOT_FOUND, false)
     end)
  (fun v from to =>
     match lookup_file from (v_files v), lookup_file to (v_files v) with
     | Some body, None => (with_files (store_file to body (remove_file from (v_files v))) v, true)
     | _, _ => (v, false)
     end)
  (fun v _ => with_files (turn (v_files v)) v).

Definition shared : volume := mkVolume
  [(NATIVE FN_DIRECTORY_IDENTITY_NAME, FN_DIRECTORY_IDENTITY_BODY); (NATIVE CHALLENGE, token_of 97)] [] O 0.


(** A peer that takes packets and answers nothing, and no peer at all. *)
Definition lossy_turn (files : list (list Z * list Z)) : list (list Z * list Z) :=
  peer_turn files |> remove_file (NATIVE FN_DIRECTORY_TO_GUEST_NAME).
Definition no_turn (files : list (list Z * list Z)) : list (list Z * list Z) := files.

#[local] Existing Instance fn_lib_nio.

#[export] Instance volume_steady version turn bad : SteadyDos (volume_dos version turn bad) (Some version) 0 [].
Proof.
  split; try done.
  - intros w len Hlen. cbn. unfold slice. rewrite length_take. lia.
  - intros w bytes. cbn. destruct (bool_decide _); cbn; lia.
Qed.

(** ** Sessions *)

Definition session : list directory_call :=
  [CallOpen; CallExchange (Some clock_request) 6 (Some (zeros 32)) 32].
Lemma session_ok : Forall call_ok session.
Proof. unfold session. repeat constructor. cbn. lia. Qed.
Definition calm_dos : dos volume := volume_dos 36 peer_turn [].
Definition lossy_dos : dos volume := volume_dos 36 lossy_turn [].

(** The reply is lost, and the machine stops after the wait. *)
Lemma uncertainty_is_marked_witness :
  let l := log (dirs (calls lossy_dos session (state_boot shared []))) in
  length l = 258%nat /\ marker (trail_of (home_dir (Some 36) 0 []) l) = true.
Proof.
  intros l. split; [vm_compute; reflexivity|].
  assert (Hl : history lossy_dos l).
  { apply (history_cut lossy_dos shared [] session l (history_none _) session_ok). reflexivity. }
  apply (uncertainty_is_marked lossy_dos (Some 36) 0 [] _ l); [vm_compute; discriminate|exact Hl|vm_compute; reflexivity].
Defined.

Lemma quarantine_is_truthful_witness :
  let b := calls calm_dos session (state_boot shared []) in
  opened (guard b) = true /\ pending (trail_of (home_dir (Some 36) 0 []) (log (dirs b))) = false.
Proof.
  intros b. split; [vm_compute; reflexivity|].
  apply (quarantine_is_truthful calm_dos (Some 36) 0 [] _ shared [] session);
    [vm_compute; discriminate|apply history_none|exact session_ok|vm_compute; reflexivity|vm_compute; reflexivity].
Defined.

Lemma directory_calls_tidy_witness :
  let b := calls lossy_dos session (state_boot shared []) in
  naps (dirs b) = 251%nat /\ (naps (dirs (call lossy_dos CallOpen b)) <= naps (dirs b) + 251)%nat.
Proof.
  intros b. split; [vm_compute; reflexivity|].
  exact (proj2 (directory_calls_tidy lossy_dos (Some 36) 0 [] _ shared session CallOpen session_ok I)).
Defined.

Lemma directory_callbacks_return_witness :
  let b := calls calm_dos session (state_boot shared []) in
  returns (directory_quiesce calm_dos) (dirs b) /\
  returns (directory_transfer calm_dos clock_request 6 (zeros 32) 32) (dirs b).
Proof.
  intros b. pose proof (directory_callbacks_return calm_dos (Some 36) 0 [] _ shared session session_ok) as H.
  cbv zeta in H. destruct H as (_ & _ & _ & Hq & Ht). split; [exact Hq|].
  apply Ht; [vm_compute; reflexivity|vm_compute; reflexivity|discriminate].
Defined.

(** ** V34 *)

(** Under V34 no peer is asked: with nobody there the backend opens, and
    is out of quarantine, on a challenge nobody answered. *)
Theorem v34_opens_without_proof :
  let '(result, b) := backend_open (volume_dos 34 no_turn []) (state_boot shared []) in
  result = FN_OK /\ quarantined (guard b) = false /\ session_ready (dirs b) = true /\
  forall v, v_files (world (dirs b)) = v -> lookup_file (NATIVE ACK) v = None.
Proof. vm_compute. split_and!; try reflexivity. by intros v <-. Qed.

(** Under V34 a request that was published may count as rejected: when
    the byte of its marker cannot be written, the peer may already have taken
    it, yet the AMBIGUOUS record is gone and the guard is not in quarantine. *)
Theorem v34_rejects_published :
  let full_disk := volume_dos 34 no_turn (NATIVE (FN_DIRECTORY_TO_HOST_NAME ++ DOT_READY)) in
  let b := calls full_disk session (state_boot shared []) in
  let t := trail_of (home_dir (Some 34) 0 []) (log (dirs b)) in
  In (Created (NATIVE (FN_DIRECTORY_TO_HOST_NAME ++ DOT_READY))) (log (dirs b)) /\
  pending t = true /\ marker t = false /\ opened (guard b) = true /\ quarantined (guard b) = false.
Proof. vm_compute. tauto. Qed.
